(* ===== verification/_CoqProject ===== *)
-Q . S2P
Prelude.v
EtssUtils.v
FlashFsDefs.v
Mblock.v
Dblock.v
FlashFs.v
NorDevice.v
MblockSpec.v
FsReads.v
FsTables.v
FsUpdate.v
FsDisk.v
FsStage.v
FsCommit.v
FsRead.v
FsStaged.v
FsDelete.v
FsWrite.v
FsOps.v
FsRefine.v
FsExample.v
FsTheorems.v
FsDetails.v
SpiNor.v
SecureFlash.v
SecureFlashSpec.v
SecureFlashFs.v
SecureClients.v
SecureDevice.v
SecureTheorems.v
PsaApi.v
PsaSample.v
EtssService.v
EtssReqMngr.v
EtssApi.v
EtssSpec.v
EtssClients.v
EtssRefine.v
EtssReqSpec.v
EtssDelivery.v
EtssExample.v
EtssEndToEnd.v
EtssTheorems.v
MeasuredBoot.v
MeasuredBootReq.v
MeasuredBootSpec.v
MeasuredBootSafe.v
MeasuredBootRefine.v
MeasuredBootStart.v
MeasuredBootExample.v
MeasuredBootTheorems.v
DelegatedAttest.v
DelegatedAttestSpec.v
DelegatedAttestExample.v
DelegatedAttestReplies.v
DelegatedAttestTheorems.v
Interrupts.v
SysTimer.v
I2sDriver.v
I2cSbcon.v
I2cSpec.v
AudioCodec.v
CodecSpec.v
VadService.v
VadSpec.v
VadFifo.v
VadTheorems.v
VadApp.v
VadAppTheorems.v
Smsc9220.v
EthInterface.v
SmscSpec.v
EthTheorems.v
Clcd.v
ClcdSpec.v
ClcdTheorems.v
DmaTasks.v
DmaSpec.v
DmaTheorems.v
UartEcho.v
