(* ===== verification/Prelude.v ===== *)
(** * Verification of the TF-M extra partitions

    The development models the secure partitions of this repository, in C
    under src/partitions, and proves what they do.

    ** The program and how its parts interact

    - The external trusted secure storage (ETSS) partition keeps files for its
      clients on a secure flash.  A client calls the library in
      interface/src; the PSA firmware framework delivers the call to
      etss_req_mngr.c, which unpacks it and calls the service in
      external_trusted_secure_storage.c; the service picks the file system of
      the client and works on it through a transfer buffer.  The file system
      (secureflash_fs/) keeps metadata in two blocks used in turn, so that
      every change takes effect with one header write.  It reaches the device
      through five operations, bound in etss_secureflash.c to the secure
      flash layer secureflash.c, which checks the access rights of the client,
      opens a session with the device and transfers in units of the device;
      below it spi_nor.c sends the commands of the flash.
    - The measured boot partition keeps 32 slots with hash chains of
      measurements, filled by the boot loaders through a shared area and by
      clients through two requests.
    - The delegated attestation partition reads those slots as a client, has
      them encoded as boot state, derives a key from it and has platform
      tokens made for a hash of the public part of the key.
    - The voice activity partition records sound after a voice is detected,
      in the interrupt handler of the audio interface, which shares its
      variables and the device with the requests of the main loop.  It has
      drivers of its own for the audio interface, for the I2C bus of the
      codec, which sleeps between the edges it drives, and for the timer.
    - The example of that partition (examples/vad_an552/ns_side) runs a TCP/IP
      stack on the non-secure side, over a driver for an Ethernet controller
      and the interface between the two: a task that takes the frames from the
      controller when its interrupt has notified it, and the output of frames.
      Its main task has the partition listen for a minute at a time, asks it
      for the frequency of each recording, and publishes that over a
      connection to an MQTT broker that it opens for each message.
      The corstone310 example has a library for a colour display, over a driver
      and the same delays, and two tasks: one draws columns into a picture by
      requests to the DMA controller and asks for the display after each, the
      other one sends the picture by a chain of DMA commands, and they wait for
      each other through a queue and notifications of FreeRTOS.  Its triggering
      example has serial lines pace the transfers of a DMA channel.

    ** How it is modelled

    A C function is a computation of the monad [ST S] of this file: a function
    from the state to an outcome, [Ok] with the value of the out-parameters
    when the status is success and [Err] with the status otherwise, and a
    state, which an error keeps.  The state is the record of the static
    variables of the part and what it calls.  Machine integers are integers
    in [Z] with the wrap-around written out ([w8], [w32], [add32], ...), arrays
    are lists of bytes, and an access outside an array is the outcome
    [UNDEFINED].  All definitions are executable.  Hoare-style rules ([wp]) and
    relations that computations keep ([keeps], with a hint database) carry the
    proofs.  Code that can be interrupted is a tree of such steps ([prog] of
    Interrupts.v): [exec] runs the handler any number of times before each of
    them, and [wpi] is the logic for it.  What is not under src/ is a class: the five flash operations
    ([FlashOps], laws [FlashLaws]), the SPI controller and the JEDEC security
    HAL ([SpiOps], [JedecOps]), the firmware framework ([PsaOps], [PsaLaws],
    [PsaCalls], [Delivery]), the crypto service ([HashOps], [CryptoOps]), the boot data
    ([BootData]), initial attestation and QCBOR, the registers of the on-chip
    devices ([SystimerOps], [I2sOps], [SbconRegs], laws [SystimerLaws],
    [FifoLaws], [LineLaws], [BusLaws]), the Ethernet controller ([EthOps],
    [EthLaws]), the operating system and the stack above it ([NetOps],
    [NetLaws]), the display ([ClcdOps], [ClcdLaws]), the DMA controller, its
    library and FreeRTOS ([DmaOps], [DmaLibrary], [RtosOps], laws [DmaLaws]),
    the channel with serial lines ([EchoOps], [EchoLaws]), the MQTT, socket and
    OTA libraries and the start of the application ([MqttOps], [TaskOps],
    [StartOps], laws [AppLaws], [StartLaws]), voice detection and DSP.  Every class has an executable instance on which the theorems are
    instantiated.  Tasks are trees of steps too, and [turn] of DmaTasks.v lets
    either of two tasks make its next step.

    ** Files

    Prelude.v: integers, statuses, the monad, [wp], [keeps], byte ranges.

    The file system (etss_partition/secureflash_fs, etss_utils.c):
    EtssUtils.v (etss_utils.c, .h), FlashFsDefs.v (the data of the headers,
    encodings, the flash classes), Mblock.v (etss_flash_fs_mblock.c), Dblock.v
    (etss_flash_fs_dblock.c), FlashFs.v (etss_flash_fs.c) are the model, one
    definition per function.  NorDevice.v is a flash in memory that meets
    [FlashLaws].  MblockSpec.v, FsReads.v, FsTables.v, FsUpdate.v describe
    metadata and its updates; FsDisk.v says what files a device holds;
    FsStage.v, FsCommit.v, FsRead.v, FsStaged.v, FsDelete.v, FsWrite.v follow
    the operations; FsOps.v specifies each by the files before and after;
    FsRefine.v is the automaton over finite maps of files and the runs of
    requests, failures and restarts.  FsExample.v and FsTheorems.v state the
    properties, FsDetails.v those of single functions and some defects.

    The secure flash (etss_partition/secureflash, external_secure_flash):
    SpiNor.v (spi_nor.c), SecureFlash.v (secureflash.c, etss_secureflash.c) are
    the model; SecureFlashSpec.v the access rights and transfers,
    SecureFlashFs.v shows that the port meets [FlashLaws] for a client whose
    keys open its area, SecureClients.v what the file
    system cannot touch, so that a client's requests stay in the zones it may
    write; SecureDevice.v is a device; SecureTheorems.v the
    properties.

    The ETSS service: PsaApi.v (the framework), PsaSample.v (one that runs),
    EtssService.v (external_trusted_secure_storage.c), EtssReqMngr.v
    (etss_req_mngr.c) are the model; EtssSpec.v specifies a request on the
    files of its client, EtssClients.v composes the file systems of all
    clients on one device, EtssRefine.v the automaton of files per client,
    EtssReqSpec.v the messages; EtssTheorems.v.  EtssApi.v is
    the client library (etss_secure_api.c); EtssDelivery.v says what the
    framework does with its calls ([Delivery]), EtssExample.v has such a
    framework; EtssEndToEnd.v composes library, framework, request manager,
    service, file system and secure flash.

    Measured boot: MeasuredBoot.v (measured_boot.c, measured_boot_utils.c),
    MeasuredBootReq.v (measured_boot_req_mngr.c, the collection of the
    shared area, and the client library measured_boot_api.c) are the model;
    MeasuredBootSpec.v has an equation per operation, MeasuredBootSafe.v what
    holds for every message, MeasuredBootRefine.v the automaton of slots,
    MeasuredBootStart.v the start-up; MeasuredBootExample.v,
    MeasuredBootTheorems.v.

    Delegated attestation: DelegatedAttest.v (delegated_attest.c,
    delegated_attest_req_mngr.c, the client library);
    DelegatedAttestSpec.v the boot state against a reference definition;
    DelegatedAttestReplies.v what is relied on of the services below
    ([DaServices]) and how requests are answered;
    DelegatedAttestExample.v, DelegatedAttestTheorems.v.

    The voice activity partition (vad_an552_sp): Interrupts.v (code between
    interrupts), SysTimer.v (systimer_armv8-m_timeout.c), I2sDriver.v
    (audio_i2s_mps3_drv.c), I2cSbcon.v (i2c_sbcon_drv.c), AudioCodec.v
    (audio_codec_mps3.c), VadService.v (vad_an552_sp_main.c,
    vad_an552_ipc_api.c) are the model; I2cSpec.v is an observer of the two
    lines and what it sees of each transfer, CodecSpec.v shows that the timer
    keeps the contract of the I2C driver and follows the codec's
    initialisation, VadSpec.v has the automaton of the partition and the
    requests under interrupts, VadFifo.v what the handler records;
    VadTheorems.v.

    The application of its example (examples/vad_an552/ns_side): VadApp.v
    (main_ns.c, publish_aws.c, ota_provision.c) is the model; VadAppTheorems.v
    has the laws of what it calls ([AppLaws], with the answers that
    [VadTheorems.vad_refines] shows for the partition), the calls of a
    publication and of the listening task, the start, and the properties.

    The Ethernet driver (examples/vad_an552/ns_side): Smsc9220.v
    (smsc9220_eth_drv.c), EthInterface.v (NetworkInterface.c) are the model;
    SmscSpec.v reads frames back from what is written to the FIFOs and says
    what is taken from them, and follows the receiving task;
    EthTheorems.v.

    The colour display (examples/corstone310_fvp_dma/dma350_ns/clcd_lib):
    Clcd.v (clcd_mps3_drv.c, clcd_mps3_lib.c) is the model; ClcdSpec.v is the
    display's controller, which turns commands and data into registers and
    pixels, and what each operation sends to it; ClcdTheorems.v.

    The DMA controller (examples/corstone310_fvp_dma): DmaTasks.v
    (clcd_dma_wrapper.c, clcd_task.c, draw_task.c,
    dma350_lib_unprivileged.c) is the model of the two tasks; DmaSpec.v has
    the registers of a channel, what chains of commands move and what the
    waiting task sends; DmaTheorems.v the protocol of the tasks and its
    properties.  UartEcho.v is the triggering example (main_ns.c), with what
    its channel does and the property.

    ** What the theorems show

    - Refinement: the file system refines an automaton over finite maps of
      files through every run with refusals, device failures and restarts
      ([FsTheorems.file_system_refines]).  Two kinds of updates are left out,
      with which the code corrupts a file: one between a refused replacement
      and the next mount, and the removal or replacement of a file with room
      for no byte ([FsDetails.refused_write_loses_file],
      [FsDetails.delete_zero_size_corrupts]).  The service refines an
      automaton with a map per client, for requests of any length, to the end
      of the run or the first request of these two kinds; a client with a
      refused replacement keeps its look-ups, and the others are not concerned
      ([EtssTheorems.service_refines]).  Measured boot refines an automaton of
      slots, whatever the hash service answers; every client may read every
      slot, as in the code and unlike its header
      ([MeasuredBootTheorems.measured_boot_refines]).  The voice activity
      partition refines under all interrupts an automaton of phases, with the
      answers of the code ([VadTheorems.vad_refines]; where the header of its
      interface differs, [query_of_stopped] and [query_of_listening]).
    - End to end: what a client stores through its library it gets back, and
      other clients keep their files ([EtssEndToEnd.stored_file_returned]).
    - Crash safety: a write or deletion that fails anywhere leaves, after the
      next mount, all old or all new files.
    - Functional behaviour, round trips and errors of the requests on every
      branch; the start-up of service and partitions.
    - Isolation: requests change only zones for which a row of the key table
      carries the client's own identifier, other clients' files stay,
      measurement slots do not affect each other, locked slots stay, and
      write-once files stay as far as [service_refines] follows a run.
    - Attestation: no token without a key, and only for a hash of the public
      part of the key held then; keys are derived from the boot state alone,
      and what the boot state lists.
    - Termination and liveness: loops end, messages are answered once (a token
      request when its hash fits the array, [hash_fits]; a longer one overruns
      it, [long_hash_overflows]); under
      every schedule the two tasks of the corstone310 example end, and each
      picture shown is whole ([DmaTheorems.tasks_show_columns]); publishing
      ends whatever the network does, with everything closed
      ([VadAppTheorems.publish_protocol]).
    - Composition: the messages of the application give the frequencies of the
      recordings of the partition ([VadAppTheorems.voices_reported]).
    - Equivalence: the DMA commands leave the display as its library does
      ([DmaTheorems.dma_display_equivalent]), the loop over the measurement
      slots finds what a reference definition lists
      ([DelegatedAttestTheorems.boot_state_lists_visible]).
    - Drivers: bytes sent over the I2C lines are received, the initialisation
      writes its registers, the handler takes the words of the audio interface
      while more arrive, how long the delays are, and frames go through the Ethernet controller as they
      are ([EthTheorems.frame_transmitted], [EthTheorems.frames_received]); an
      image is shown where it belongs ([ClcdTheorems.image_shown]); characters
      come back reversed in tens ([UartEcho.echo_reversed]).

    ** Loops, fuel and bounds

    Counted loops are [for_loop] and [for_acc] with the number of rounds the
    C loop has.  The other loops carry fuel, and run out of it as [UNDEFINED]:
    the copy loop of a block (fuel the size, [block_to_block_move_correct]),
    the transfers of the secure flash (fuel the size), the buffers of a request
    of the service (fuel its length), random numbers ([random_number_repeats]:
    fuel the size is enough unless the unwritten size is zero or exceeds the
    buffer; with zero no fuel is), the shared area (fuel its length,
    [collection_terminates]).  Loops that wait for a device have their
    rounds in [VadFuel] and run out as [HANG]: [polls], enough when above the
    ticks of the delays ([VadTheorems.wait_us_delay], [codec_init_writes]), and
    [drain], the words that the handler reads at most ([flih_records]: it takes
    all that arrive when they are fewer, and hangs otherwise).  The
    polling loops of the Ethernet driver have limits of their own.  In the
    tasks of DmaTasks.v the rounds of the loops over columns are fuel (five are
    enough), the queue loop has [rounds], and the wait for the end of a
    transfer at most [irqs] interrupts, enough when above the bytes of the
    picture.  In VadApp.v six attempts to connect are enough, and for the
    listening loop a round for each cycle of a minute ([enough]).  Sizes are
    below 2^32 as size_t is on the target; where a theorem needs a smaller
    bound it says so.  The main loops of the partitions, which do not end, are rounds and runs of rounds.
    Structure layouts are those of the Arm ABI.

    ** Not modelled

    Log output and the internals of what is not under src/ (the DMA driver and
    the checker behind the supervisor call of its library, FreeRTOS, its
    TCP/IP and MQTT libraries, the vendor code of the secure flash); main_ns.c
    of the corstone310 example, which creates its tasks; the build of the VAD
    example without a network; the SPI platform template, which is a skeleton
    for integrators; the partition that tests the DMA library, and the test
    suites.  etss_ipc_api.c is etss_secure_api.c without one function, and not
    modelled twice; nor is the second copy of the DMA library.  Of the ETSS
    build only the default configuration is modelled (client isolation and the
    flash layout tool on, provisioning developer mode off).  QCBOR's use of its
    buffer before it has finished is left out.  An interrupt handler runs to
    its end; the thread's steps are the accesses to registers and shared
    variables, a task's steps are its calls. *)
From Stdlib Require Import ZArith Lia.
From stdpp Require Import base list numbers options.

#[global] Open Scope Z_scope.

(** ** Machine integers

    A w-bit unsigned C integer is a [Z]; every operation that can leave the
    range is followed by the reduction the C standard prescribes. *)

Definition w8 (x : Z) : Z := x mod 256.
Definition w16 (x : Z) : Z := x mod 65536.
Definition w32 (x : Z) : Z := x mod 4294967296.

Definition add32 (x y : Z) : Z := w32 (x + y).
Definition sub32 (x y : Z) : Z := w32 (x - y).
Definition mul32 (x y : Z) : Z := w32 (x * y).

Definition is_u8 (x : Z) : Prop := 0 <= x < 256.
Definition is_u16 (x : Z) : Prop := 0 <= x < 65536.
Definition is_u32 (x : Z) : Prop := 0 <= x < 4294967296.

Lemma w8_small x : 0 <= x < 256 -> w8 x = x.
Proof. apply Z.mod_small. Qed.
Lemma w16_small x : 0 <= x < 65536 -> w16 x = x.
Proof. apply Z.mod_small. Qed.
Lemma w32_small x : 0 <= x < 4294967296 -> w32 x = x.
Proof. apply Z.mod_small. Qed.
Lemma add32_small x y : 0 <= x + y < 4294967296 -> add32 x y = x + y.
Proof. apply Z.mod_small. Qed.
Lemma sub32_small x y : 0 <= x - y < 4294967296 -> sub32 x y = x - y.
Proof. apply Z.mod_small. Qed.
Lemma mul32_small x y : 0 <= x * y < 4294967296 -> mul32 x y = x * y.
Proof. apply Z.mod_small. Qed.

Lemma w8_range x : is_u8 (w8 x).
Proof. apply Z.mod_pos_bound. lia. Qed.
Lemma w32_range x : is_u32 (w32 x).
Proof. apply Z.mod_pos_bound. lia. Qed.

(** ** Status codes (psa/error.h) *)

Definition PSA_SUCCESS : Z := 0.
Definition PSA_ERROR_PROGRAMMER_ERROR : Z := -129.
Definition PSA_ERROR_GENERIC_ERROR : Z := -132.
Definition PSA_ERROR_NOT_PERMITTED : Z := -133.
Definition PSA_ERROR_NOT_SUPPORTED : Z := -134.
Definition PSA_ERROR_INVALID_ARGUMENT : Z := -135.
Definition PSA_ERROR_INVALID_HANDLE : Z := -136.
Definition PSA_ERROR_BAD_STATE : Z := -137.
Definition PSA_ERROR_BUFFER_TOO_SMALL : Z := -138.
Definition PSA_ERROR_DOES_NOT_EXIST : Z := -140.
Definition PSA_ERROR_INSUFFICIENT_STORAGE : Z := -142.
Definition PSA_ERROR_STORAGE_FAILURE : Z := -146.
Definition PSA_ERROR_DATA_CORRUPT : Z := -152.

(** No C status: what C leaves undefined, such as an access outside an array. *)
Definition UNDEFINED : Z := 4294967296.

(** ** The error-state monad

    A C function that returns a status and works on shared state is a
    computation [ST S A]: it returns [Ok a] when the status is PSA_SUCCESS
    and the out-parameters are set, and [Err e] for any other status.  The
    state survives an error, as the memory and the flash do in C. *)

Inductive outcome (A : Type) : Type :=
| Ok (a : A)
| Err (e : Z).
Arguments Ok {A} a.
Arguments Err {A} e.

Definition ST (S A : Type) : Type := S -> outcome A * S.

#[export] Instance ST_ret {S} : MRet (ST S) := fun A a s => (Ok a, s).
#[export] Instance ST_bind {S} : MBind (ST S) := fun A B k m s =>
  match m s with
  | (Ok a, s') => k a s'
  | (Err e, s') => (Err e, s')
  end.

Section Combinators.
Context {S : Type}.

(** [return e;] *)
Definition raise {A} (e : Z) : ST S A := fun s => (Err e, s).

(** [if (status != PSA_SUCCESS) return status;] *)
Definition check (status : Z) : ST S unit :=
  if status =? PSA_SUCCESS then mret tt else raise status.

(** [if (m != PSA_SUCCESS) return e;] *)
Definition or_return {A} (m : ST S A) (e : Z) : ST S A := fun s =>
  match m s with
  | (Ok a, s') => (Ok a, s')
  | (Err _, s') => (Err e, s')
  end.

(** [err = m;], the status kept as a value *)
Definition attempt {A} (m : ST S A) : ST S (outcome A) := fun s =>
  let '(r, s') := m s in (Ok r, s').

Definition get : ST S S := fun s => (Ok s, s).
Definition gets {A} (f : S -> A) : ST S A := fun s => (Ok (f s), s).
Definition modify (f : S -> S) : ST S unit := fun s => (Ok tt, f s).

(** A call of code outside the program, which returns a value. *)
Definition on_call {A} (f : S -> A * S) : ST S A := fun s => let '(a, s') := f s in (Ok a, s').
End Combinators.

(** [memcpy(&dst[off], src, n)] on arrays; the new contents of [dst]. *)
Definition memcpy {S} (dst : list Z) (off : Z) (src : list Z) (n : Z) : ST S (list Z) :=
  if (0 <=? off) && (0 <=? n) && (off + n <=? Z.of_nat (length dst)) && (n <=? Z.of_nat (length src))
  then mret (take (Z.to_nat off) dst ++ take (Z.to_nat n) src ++ drop (Z.to_nat (off + n)) dst)
  else raise UNDEFINED.

(** A loop body goes on with new loop variables or leaves the loop. *)
Inductive step (A R : Type) : Type :=
| Next (a : A)
| Done (r : R).
Arguments Next {A R} a.
Arguments Done {A R} r.

(** [for (i = i0; i < i0 + n; i++) body], with loop variables of type [A];
    [Done] is a [return] or [break] inside the body. *)
Fixpoint for_loop {S A R} (n : nat) (i : Z) (acc : A)
    (body : Z -> A -> ST S (step A R)) : ST S (step A R) :=
  match n with
  | O => mret (Next acc)
  | Datatypes.S n =>
      r ← body i acc;
      match r with
      | Next acc' => for_loop n (i + 1) acc' body
      | Done x => mret (Done x)
      end
  end.

(** The same without early exit. *)
Fixpoint for_acc {S A} (n : nat) (i : Z) (acc : A) (body : Z -> A -> ST S A) : ST S A :=
  match n with
  | O => mret acc
  | Datatypes.S n => acc' ← body i acc; for_acc n (i + 1) acc' body
  end.

(** The rest of a command whose first part has run. *)
Lemma bind_ok {S A B} (m : ST S A) (k : A -> ST S B) (s : S) a (s' : S) :
  m s = (Ok a, s') -> (m ≫= k) s = k a s'.
Proof. unfold mbind, ST_bind. by intros ->. Qed.

Lemma bind_err {S A B} (m : ST S A) (k : A -> ST S B) (s : S) e (s' : S) :
  m s = (Err e, s') -> (m ≫= k) s = (Err e, s').
Proof. unfold mbind, ST_bind. by intros ->. Qed.

(** The C status of an outcome. *)
Definition status_of {A} (r : outcome A) : Z :=
  match r with Ok _ => PSA_SUCCESS | Err e => e end.

(** ** Weakest preconditions

    [wp m s Q]: running [m] from [s] ends in an outcome and a state that
    satisfy [Q].  All computations are total, so this is total correctness. *)

Definition wp {S A} (m : ST S A) (s : S) (Q : outcome A -> S -> Prop) : Prop :=
  Q (m s).1 (m s).2.

Section Wp.
Context {S : Type}.
Implicit Types s : S.

Lemma wp_ret {A} (a : A) s (Q : outcome A -> S -> Prop) :
  Q (Ok a) s -> wp (mret a) s Q.
Proof. done. Qed.

Lemma wp_raise {A} e s (Q : outcome A -> S -> Prop) :
  Q (Err e) s -> wp (raise e) s Q.
Proof. done. Qed.

Lemma wp_mono {A} (m : ST S A) s (P Q : outcome A -> S -> Prop) :
  wp m s P -> (forall r s', P r s' -> Q r s') -> wp m s Q.
Proof. unfold wp. auto. Qed.

Lemma wp_any {A} (m : ST S A) s (Q : outcome A -> S -> Prop) : (forall r s', Q r s') -> wp m s Q.
Proof. intros H. apply H. Qed.

Lemma wp_bind {A B} (m : ST S A) (k : A -> ST S B) s Q :
  wp m s (fun r s' => match r with Ok a => wp (k a) s' Q | Err e => Q (Err e) s' end) ->
  wp (m ≫= k) s Q.
Proof. unfold wp, mbind, ST_bind. by destruct (m s) as [[a|e] s']. Qed.

Lemma wp_bind_assoc {A B C} (m : ST S A) (k : A -> ST S B) (k' : B -> ST S C) s Q :
  wp ((m ≫= k) ≫= k') s Q -> wp (m ≫= fun a => k a ≫= k') s Q.
Proof. unfold wp, mbind, ST_bind. by destruct (m s) as [[a|e] s']. Qed.

(** The usual step: a specification [P] of the first command, then the rest. *)
Lemma wp_seq {A B} (m : ST S A) (k : A -> ST S B) s (P : outcome A -> S -> Prop) Q :
  wp m s P ->
  (forall e s', P (Err e) s' -> Q (Err e) s') ->
  (forall a s', P (Ok a) s' -> wp (k a) s' Q) ->
  wp (m ≫= k) s Q.
Proof.
  intros Hm He Hk. apply wp_bind. eapply wp_mono; [exact Hm|].
  intros [a|e] s'; auto.
Qed.

Lemma wp_or_return {A} (m : ST S A) e s Q :
  wp m s (fun r s' => match r with Ok a => Q (Ok a) s' | Err _ => Q (Err e) s' end) ->
  wp (or_return m e) s Q.
Proof. unfold wp, or_return. by destruct (m s) as [[a|e'] s']. Qed.

Lemma wp_attempt {A} (m : ST S A) s (Q : outcome (outcome A) -> S -> Prop) :
  wp m s (fun r s' => Q (Ok r) s') -> wp (attempt m) s Q.
Proof. unfold wp, attempt. by destruct (m s). Qed.

Lemma wp_check st s (Q : outcome unit -> S -> Prop) :
  (st = PSA_SUCCESS -> Q (Ok tt) s) -> (st <> PSA_SUCCESS -> Q (Err st) s) ->
  wp (check st) s Q.
Proof. intros H1 H2. unfold check. destruct (Z.eqb_spec st PSA_SUCCESS); [by apply H1|by apply H2]. Qed.

Lemma wp_gets {A} (f : S -> A) s Q : Q (Ok (f s)) s -> wp (gets f) s Q.
Proof. done. Qed.

Lemma wp_modify (f : S -> S) s Q : Q (Ok tt) (f s) -> wp (modify f) s Q.
Proof. done. Qed.

Lemma wp_if {A} (b : bool) (m1 m2 : ST S A) s Q :
  (b = true -> wp m1 s Q) -> (b = false -> wp m2 s Q) -> wp (if b then m1 else m2) s Q.
Proof. destruct b; auto. Qed.

(** Loop rule: [I i acc s] holds on entry of iteration [i]. *)
Lemma wp_for_loop {A R} (I : Z -> A -> S -> Prop) (n : nat) i acc
    (body : Z -> A -> ST S (step A R)) s (Q : outcome (step A R) -> S -> Prop) :
  I i acc s ->
  (forall j a s1, i <= j < i + Z.of_nat n -> I j a s1 ->
    wp (body j a) s1 (fun r s2 =>
      match r with
      | Ok (Next a') => I (j + 1) a' s2
      | Ok (Done x) => Q (Ok (Done x)) s2
      | Err e => Q (Err e) s2
      end)) ->
  (forall a s1, I (i + Z.of_nat n) a s1 -> Q (Ok (Next a)) s1) ->
  wp (for_loop n i acc body) s Q.
Proof.
  revert i acc s. induction n as [|n IH]; intros i acc s HI Hb HQ; cbn [for_loop].
  - apply wp_ret, HQ. by rewrite Z.add_0_r.
  - apply wp_bind. eapply wp_mono; [apply Hb; [lia|exact HI]|].
    intros [[a'|x]|e] s2; [|auto..]. intros HI'.
    apply IH; [exact HI'| |].
    + intros j a s1 Hj. apply Hb. lia.
    + intros a s1 HI1. apply HQ. by replace (i + Z.of_nat (Datatypes.S n)) with (i + 1 + Z.of_nat n) by lia.
Qed.

Lemma wp_for_acc {A} (I : Z -> A -> S -> Prop) (n : nat) i acc
    (body : Z -> A -> ST S A) s (Q : outcome A -> S -> Prop) :
  I i acc s ->
  (forall j a s1, i <= j < i + Z.of_nat n -> I j a s1 ->
    wp (body j a) s1 (fun r s2 =>
      match r with Ok a' => I (j + 1) a' s2 | Err e => Q (Err e) s2 end)) ->
  (forall a s1, I (i + Z.of_nat n) a s1 -> Q (Ok a) s1) ->
  wp (for_acc n i acc body) s Q.
Proof.
  revert i acc s. induction n as [|n IH]; intros i acc s HI Hb HQ; cbn [for_acc].
  - apply wp_ret, HQ. by rewrite Z.add_0_r.
  - apply wp_bind. eapply wp_mono; [apply Hb; [lia|exact HI]|].
    intros [a'|e] s2; [|done]. intros HI'.
    apply IH; [exact HI'| |].
    + intros j a s1 Hj. apply Hb. lia.
    + intros a s1 HI1. apply HQ. by replace (i + Z.of_nat (Datatypes.S n)) with (i + 1 + Z.of_nat n) by lia.
Qed.
End Wp.

Lemma wp_elim {S A} (m : ST S A) s Q r s' : m s = (r, s') -> wp m s Q -> Q r s'.
Proof. unfold wp. by intros ->. Qed.

(** ** Computations that keep a relation between the states

    [keeps R m]: whatever the outcome, [m] takes every state to one related by
    [R].  Used for frame and isolation properties; the hint database [keeps]
    walks through the structure of a computation. *)

Definition keeps {S A} (R : relation S) (m : ST S A) : Prop := forall s, R s (m s).2.

Section Keeps.
#[local] Set Default Proof Using "Type*".
Context {S : Type} (R : relation S) `{!PreOrder R}.

Lemma keeps_ret {A} (a : A) : keeps R (mret a).
Proof. intros s. reflexivity. Qed.
Lemma keeps_raise {A} e : keeps R (raise (A := A) e).
Proof. intros s. reflexivity. Qed.
Lemma keeps_check st : keeps R (check (S := S) st).
Proof. intros s. unfold check. by destruct (_ =? _). Qed.
Lemma keeps_gets {A} (f : S -> A) : keeps R (gets f).
Proof. intros s. reflexivity. Qed.
Lemma keeps_get : keeps R get.
Proof. intros s. reflexivity. Qed.
Lemma keeps_modify f : (forall s, R s (f s)) -> keeps R (modify f).
Proof. intros H s. apply H. Qed.

Lemma keeps_bind {A B} (m : ST S A) (k : A -> ST S B) :
  keeps R m -> (forall a, keeps R (k a)) -> keeps R (m ≫= k).
Proof.
  intros Hm Hk s. unfold mbind, ST_bind. specialize (Hm s).
  destruct (m s) as [[a|e] s']; [|exact Hm]. etrans; [exact Hm|apply Hk].
Qed.

Lemma keeps_or_return {A} (m : ST S A) e : keeps R m -> keeps R (or_return m e).
Proof. intros Hm s. unfold or_return. specialize (Hm s). by destruct (m s) as [[a|x] s']. Qed.

Lemma keeps_attempt {A} (m : ST S A) : keeps R m -> keeps R (attempt m).
Proof. intros Hm s. unfold attempt. specialize (Hm s). by destruct (m s). Qed.

Lemma keeps_for_loop {A B} n i (acc : A) (body : Z -> A -> ST S (step A B)) :
  (forall j a, keeps R (body j a)) -> keeps R (for_loop n i acc body).
Proof.
  intros Hb. revert i acc. induction n as [|n IH]; intros i acc; cbn [for_loop].
  - apply keeps_ret.
  - apply keeps_bind; [apply Hb|]. intros [a|x]; [apply IH|apply keeps_ret].
Qed.

Lemma keeps_for_acc {A} n i (acc : A) (body : Z -> A -> ST S A) :
  (forall j a, keeps R (body j a)) -> keeps R (for_acc n i acc body).
Proof.
  intros Hb. revert i acc. induction n as [|n IH]; intros i acc; cbn [for_acc].
  - apply keeps_ret.
  - apply keeps_bind; [apply Hb|]. intros a. apply IH.
Qed.
End Keeps.

Create HintDb keeps.
#[export] Hint Resolve keeps_ret keeps_raise keeps_check keeps_gets keeps_get keeps_or_return
  keeps_attempt keeps_for_loop keeps_for_acc : keeps.

(** One step through a computation: the combinators, then case analysis. *)
Ltac keeps_step :=
  match goal with
  | |- PreOrder _ => apply _
  | |- keeps _ (mbind _ _) => apply keeps_bind
  | |- keeps _ (let '(_, _) := ?x in _) => destruct x
  | |- keeps _ (if ?b then _ else _) => destruct b
  | |- keeps _ (match ?x with _ => _ end) => destruct x
  | |- forall _, _ => intro
  | |- keeps _ _ => solve [eauto 3 with keeps typeclass_instances]
  | |- keeps _ (for_loop _ _ _ _) => apply keeps_for_loop
  | |- keeps _ (for_acc _ _ _ _) => apply keeps_for_acc
  | |- keeps _ (or_return _ _) => apply keeps_or_return
  | |- keeps _ (attempt _) => apply keeps_attempt
  end.
Ltac keeps_walk := repeat keeps_step.

(** ** Flash contents as functions

    [f b o] is the byte at offset [o] of block [b]. *)

Definition image : Type := Z -> Z -> Z.

(** The [n] bytes from offset [off]. *)
Definition rd (f : Z -> Z) (off n : Z) : list Z := f <$> seqZ off n.

Lemma rd_length f off n : length (rd f off n) = Z.to_nat n.
Proof. unfold rd. by rewrite length_fmap, length_seqZ. Qed.

Lemma rd_lookup f off n i :
  0 <= i < n -> rd f off n !! Z.to_nat i = Some (f (off + i)).
Proof.
  intros Hi. unfold rd. rewrite list_lookup_fmap, lookup_seqZ_lt by lia.
  simpl. by rewrite Z2Nat.id by lia.
Qed.

Lemma rd_ext f g off n :
  (forall o, off <= o < off + n -> f o = g o) -> rd f off n = rd g off n.
Proof.
  intros H. unfold rd. apply list_fmap_ext. intros i x Hx.
  apply lookup_seqZ in Hx. apply H. lia.
Qed.

Lemma rd_ext_shift f g off1 off2 n :
  (forall i, 0 <= i < n -> f (off1 + i) = g (off2 + i)) -> rd f off1 n = rd g off2 n.
Proof.
  intros H. apply list_eq. intros i.
  destruct (decide (i < Z.to_nat n)%nat) as [Hi|Hi].
  - rewrite <- (Nat2Z.id i). rewrite !rd_lookup by lia. by rewrite H by lia.
  - rewrite !lookup_ge_None_2; [done|rewrite rd_length; lia..].
Qed.

Lemma rd_inj f g off1 off2 n i :
  rd f off1 n = rd g off2 n -> 0 <= i < n -> f (off1 + i) = g (off2 + i).
Proof.
  intros H Hi. assert (Some (f (off1 + i)) = Some (g (off2 + i))) as [=]; [|done].
  rewrite <- (rd_lookup f off1 n), <- (rd_lookup g off2 n) by done. by rewrite H.
Qed.

Lemma rd_app f off n m : 0 <= n -> 0 <= m ->
  rd f off (n + m) = rd f off n ++ rd f (off + n) m.
Proof. intros. unfold rd. by rewrite seqZ_app, fmap_app by lia. Qed.

Lemma rd_nil f off : rd f off 0 = [].
Proof. done. Qed.

Lemma rd_Forall f off n (P : Z -> Prop) : (forall o, P (f o)) -> Forall P (rd f off n).
Proof. intros H. unfold rd. apply Forall_fmap, Forall_true. intros. apply H. Qed.

(** [nth_byte bs i]: the byte [bs[i]] *)
Definition nth_byte (bs : list Z) (i : Z) : Z := nth (Z.to_nat i) bs 0.

Lemma nth_byte_rd f off n i : 0 <= i < n -> nth_byte (rd f off n) i = f (off + i).
Proof.
  intros Hi. unfold nth_byte. apply nth_lookup_Some. by apply rd_lookup.
Qed.

Lemma nth_byte_take bs k i : 0 <= i < k -> nth_byte (take (Z.to_nat k) bs) i = nth_byte bs i.
Proof.
  intros Hi. unfold nth_byte. rewrite <- !nth_default_eq. unfold nth_default.
  rewrite nth_error_firstn. replace (_ <? _)%nat with true; [done|].
  symmetry. apply Nat.ltb_lt. lia.
Qed.

Lemma nth_byte_drop bs k i : 0 <= k -> 0 <= i -> nth_byte (drop (Z.to_nat k) bs) i = nth_byte bs (k + i).
Proof.
  intros Hk Hi. unfold nth_byte. rewrite <- !nth_default_eq. unfold nth_default.
  by rewrite nth_error_skipn, <- Z2Nat.inj_add by lia.
Qed.

Lemma rd_of_bytes (g : Z -> Z) off bs :
  (forall i, 0 <= i < Z.of_nat (length bs) -> g (off + i) = nth_byte bs i) ->
  rd g off (Z.of_nat (length bs)) = bs.
Proof.
  intros H. apply list_eq. intros i.
  destruct (decide (i < length bs)%nat) as [Hi|Hi].
  - destruct (lookup_lt_is_Some_2 bs i Hi) as [x Hx].
    rewrite <- (Nat2Z.id i), rd_lookup, H by lia.
    unfold nth_byte. rewrite Nat2Z.id, Hx. f_equal. by apply nth_lookup_Some.
  - rewrite !lookup_ge_None_2; [done|lia|rewrite rd_length; lia].
Qed.

Lemma seqZ_nonpos m n : n <= 0 -> seqZ m n = [].
Proof. intros. apply seqZ_nil. lia. Qed.

Lemma rd_nonpos f off n : n <= 0 -> rd f off n = [].
Proof. intros. unfold rd. by rewrite seqZ_nonpos. Qed.
