(* ===== verification/EtssUtils.v ===== *)
(** * ETSS utilities (etss_utils.c, etss_utils.h)

    The range check, the file-identifier check and the alignment macros used
    by the file system, with their arithmetic meaning. *)
From Stdlib Require Import ZArith Lia.
From stdpp Require Import base list numbers options.
From S2P Require Import Prelude.

Definition ETSS_FILE_ID_SIZE : Z := 12.
Definition ETSS_DEFAULT_EMPTY_BUFF_VAL : Z := 0.

Definition ETSS_UTILS_MIN (x y : Z) : Z := if x <? y then x else y.
Definition ETSS_UTILS_MAX (x y : Z) : Z := if x >? y then x else y.

(** [(x + (a - 1)) & ~(a - 1)] on 32-bit operands *)
Definition ETSS_UTILS_ALIGN (x a : Z) : Z :=
  Z.land (add32 x (a - 1)) (w32 (Z.lnot (a - 1))).

(** [(x & (a - 1)) == 0] *)
Definition ETSS_UTILS_IS_ALIGNED (x a : Z) : bool := Z.land x (a - 1) =? 0.

Definition etss_utils_check_contained_in
    (superset_size subset_offset subset_size : Z) : Z :=
  if subset_offset >? superset_size then PSA_ERROR_INVALID_ARGUMENT
  else if subset_size >? sub32 superset_size subset_offset
  then PSA_ERROR_INVALID_ARGUMENT
  else PSA_SUCCESS.

(** [while (fid_size--) if ( *fid++ ) return PSA_SUCCESS;] *)
Fixpoint validate_fid_from (fid_size : nat) (fid : list Z) : Z :=
  match fid_size with
  | O => PSA_ERROR_DOES_NOT_EXIST
  | S k =>
      match fid with
      | c :: fid' => if c =? 0 then validate_fid_from k fid' else PSA_SUCCESS
      | [] => PSA_ERROR_DOES_NOT_EXIST
      end
  end.

Definition etss_utils_validate_fid (fid : list Z) : Z :=
  validate_fid_from (Z.to_nat ETSS_FILE_ID_SIZE) fid.

(** ** Facts *)

Lemma etss_min_spec x y : ETSS_UTILS_MIN x y = Z.min x y.
Proof. unfold ETSS_UTILS_MIN. destruct (Z.ltb_spec x y); lia. Qed.
Lemma etss_max_spec x y : ETSS_UTILS_MAX x y = Z.max x y.
Proof. unfold ETSS_UTILS_MAX. destruct (Z.gtb_spec x y); lia. Qed.

Lemma contained_in_iff sup off sz :
  is_u32 sup -> is_u32 off -> is_u32 sz ->
  etss_utils_check_contained_in sup off sz = PSA_SUCCESS <-> off + sz <= sup.
Proof.
  unfold is_u32. intros Hs Ho Hz. unfold etss_utils_check_contained_in.
  destruct (Z.gtb_spec off sup); [split; [done|lia]|].
  rewrite sub32_small by lia.
  destruct (Z.gtb_spec sz (sup - off)); (split; [try done; lia|try done; lia]).
Qed.

Lemma validate_fid_from_success n fid :
  length fid = n ->
  validate_fid_from n fid = PSA_SUCCESS <-> Exists (fun c => c <> 0) fid.
Proof.
  revert fid. induction n as [|n IH]; intros [|c fid] Hl; try done; simpl in *.
  - split; [done|]. by intros ?%Exists_nil.
  - destruct (Z.eqb_spec c 0) as [->|Hc].
    + rewrite IH, Exists_cons by lia. tauto.
    + split; [|done]. intros _. by constructor.
Qed.

(** A file identifier is valid iff one of its twelve bytes is not zero. *)
Lemma validate_fid_success fid :
  length fid = Z.to_nat ETSS_FILE_ID_SIZE ->
  etss_utils_validate_fid fid = PSA_SUCCESS <-> fid <> replicate 12 0.
Proof.
  intros Hl. unfold etss_utils_validate_fid. rewrite validate_fid_from_success by done.
  split.
  - intros He ->. apply Exists_exists in He as (c & Hc%list_elem_of_In & Hn).
    apply elem_of_replicate_inv in Hc. done.
  - intros Hne. destruct (decide (Forall (fun c => c = 0) fid)) as [Hf|Hf].
    + exfalso. apply Hne. change 12%nat with (Z.to_nat ETSS_FILE_ID_SIZE). rewrite <- Hl.
      clear Hne Hl. induction Hf as [|c l -> _ IH]; [done|]. simpl. by f_equal.
    + apply not_Forall_Exists in Hf; [|solve_decision]. done.
Qed.

(** For a power of two [a], the macro rounds up to the next multiple. *)
Lemma align_pow2 x k :
  0 <= k < 32 -> 0 <= x -> x + (2 ^ k - 1) < 4294967296 ->
  ETSS_UTILS_ALIGN x (2 ^ k) = ((x + (2 ^ k - 1)) / 2 ^ k) * 2 ^ k.
Proof.
  intros Hk Hx Hb. assert (0 < 2 ^ k) by lia.
  unfold ETSS_UTILS_ALIGN. rewrite add32_small by lia.
  set (y := x + (2 ^ k - 1)) in *.
  replace (w32 (Z.lnot (2 ^ k - 1))) with (Z.ldiff (Z.ones 32) (Z.ones k)).
  2: { unfold w32. change 4294967296 with (2 ^ 32).
       rewrite <- Z.land_ones by lia. rewrite Z.ldiff_land, Z.land_comm.
       f_equal. by rewrite Z.ones_equiv, <- Z.sub_1_r. }
  rewrite <- Z.shiftl_mul_pow2, <- Z.shiftr_div_pow2, <- Z.ldiff_ones_r by lia.
  apply Z.bits_inj'. intros n Hn.
  rewrite Z.land_spec, !Z.ldiff_spec.
  destruct (Z.ltb_spec n 32).
  - rewrite (Z.ones_spec_low 32) by lia. by rewrite andb_true_l.
  - rewrite (Z.ones_spec_high 32) by lia. rewrite andb_false_l, andb_false_r.
    replace (Z.testbit y n) with false; [done|]. symmetry.
    rewrite Z.testbit_eqb by lia. rewrite Z.div_small; [done|].
    split; [lia|]. apply Z.lt_le_trans with (2 ^ 32); [lia|].
    apply Z.pow_le_mono_r; lia.
Qed.

Lemma is_aligned_pow2 x k :
  0 <= k -> ETSS_UTILS_IS_ALIGNED x (2 ^ k) = true <-> x mod 2 ^ k = 0.
Proof.
  intros Hk. unfold ETSS_UTILS_IS_ALIGNED.
  rewrite Z.sub_1_r, <- Z.ones_equiv, Z.land_ones by lia. apply Z.eqb_eq.
Qed.

(** The rounding between the value and every multiple above it. *)
Lemma align_bounds x k m :
  0 <= k < 32 -> 0 <= x -> x + (2 ^ k - 1) < 4294967296 -> x <= m -> m mod 2 ^ k = 0 ->
  x <= ETSS_UTILS_ALIGN x (2 ^ k) <= m.
Proof.
  intros Hk Hx Hb Hm Hd. rewrite align_pow2 by done. assert (0 < 2 ^ k) as Hp by lia.
  apply Z.mod_divide in Hd as [j ->]; [|lia]. set (u := 2 ^ k) in *.
  pose proof (Z.div_mod (x + (u - 1)) u ltac:(lia)) as He.
  pose proof (Z.mod_pos_bound (x + (u - 1)) u Hp) as Hr. split; [lia|].
  apply Z.mul_le_mono_nonneg_r; [lia|].
  apply Z.lt_succ_r, Z.div_lt_upper_bound; [lia|]. rewrite Z.mul_succ_r. lia.
Qed.

Lemma align_add x k m :
  0 <= k < 32 -> 0 <= x -> 0 <= m -> m + x + (2 ^ k - 1) < 4294967296 -> m mod 2 ^ k = 0 ->
  ETSS_UTILS_ALIGN (m + x) (2 ^ k) = m + ETSS_UTILS_ALIGN x (2 ^ k).
Proof.
  intros Hk Hx Hm Hb Hd. assert (0 < 2 ^ k) as Hp by lia. rewrite !align_pow2 by lia.
  apply Z.mod_divide in Hd as [j ->]; [|lia].
  replace (j * 2 ^ k + x + (2 ^ k - 1)) with (x + (2 ^ k - 1) + j * 2 ^ k) by lia.
  rewrite Z.div_add by lia. lia.
Qed.

Lemma align_ge x k :
  0 <= k < 32 -> 0 <= x -> x + (2 ^ k - 1) < 4294967296 -> x <= ETSS_UTILS_ALIGN x (2 ^ k).
Proof.
  intros Hk Hx Hb. rewrite align_pow2 by done. assert (0 < 2 ^ k) as Hp by lia.
  pose proof (Z.div_mod (x + (2 ^ k - 1)) (2 ^ k)). pose proof (Z.mod_pos_bound (x + (2 ^ k - 1)) (2 ^ k)). lia.
Qed.
