(* ===== verification/FlashFsDefs.v ===== *)
(** * Flash file system: data model and flash interface

    The structures of etss_flash_fs.h and etss_flash_fs_mblock.h, their byte
    layout, the operations table [etss_flash_fs_ops_t] as a type class, and the
    contract the file system relies on ([FlashLaws]). *)
From Stdlib Require Import ZArith Lia.
From stdpp Require Import base list numbers options.
From S2P Require Import Prelude EtssUtils.

(** ** Configuration (etss_flash_fs.h)

    [flash_dev] is the device of the environment [E] below. *)
Record etss_flash_fs_config_t : Type := {
  flash_area_addr : Z;  (* uint32_t *)
  sector_size : Z;      (* uint32_t *)
  block_size : Z;       (* uint32_t *)
  num_blocks : Z;       (* uint16_t *)
  program_unit : Z;     (* uint16_t *)
  max_file_size : Z;    (* uint16_t *)
  max_num_files : Z;    (* uint16_t *)
  erase_val : Z         (* uint8_t *)
}.

(** The values fit their C types. *)
Record cfg_typed (c : etss_flash_fs_config_t) : Prop := {
  ct_area : is_u32 (flash_area_addr c);
  ct_sector : is_u32 (sector_size c);
  ct_block : is_u32 (block_size c);
  ct_num : is_u16 (num_blocks c);
  ct_unit : is_u16 (program_unit c);
  ct_fsize : is_u16 (max_file_size c);
  ct_files : is_u16 (max_num_files c);
  ct_erase : is_u8 (erase_val c)
}.

Definition ETSS_FLASH_FS_USER_FLAGS_MASK : Z := Z.shiftl 1 16 - 1.
Definition ETSS_FLASH_FS_FLAG_CREATE : Z := Z.shiftl 1 16.
Definition ETSS_FLASH_FS_FLAG_TRUNCATE : Z := Z.shiftl 1 17.
Definition ETSS_BLOCK_INVALID_ID : Z := 4294967295.

(** ** Structures stored in flash (etss_flash_fs_mblock.h)

    [hdr_pad] is the byte the compiler adds after [active_swap_count]. *)
Record etss_metadata_block_header_t : Type := {
  scratch_dblock : Z;
  fs_version : Z;
  metadata_xor : Z;
  active_swap_count : Z;
  hdr_pad : Z
}.

(** The version-1 header: the swap count is where version 2 has the XOR. *)
Definition comp_active_swap_count (h : etss_metadata_block_header_t) : Z :=
  metadata_xor h.

Record etss_block_meta_t : Type := {
  phy_id : Z;
  data_start : Z;
  free_size : Z
}.

Record etss_file_meta_t : Type := {
  lblock : Z;
  data_idx : Z;
  cur_size : Z;
  max_size : Z;
  flags : Z;
  id : list Z
}.

(** [struct etss_file_meta_t file_meta = {0};] *)
Definition zero_file_meta : etss_file_meta_t :=
  {| lblock := 0; data_idx := 0; cur_size := 0; max_size := 0; flags := 0;
     id := replicate 12 0 |}.

(** ** Byte layout (little endian, 4-byte alignment) *)

Definition enc32 (x : Z) : list Z :=
  [w8 x; w8 (x / 256); w8 (x / 65536); w8 (x / 16777216)].

Definition dec32 (bs : list Z) (i : Z) : Z :=
  nth_byte bs i + 256 * nth_byte bs (i + 1) + 65536 * nth_byte bs (i + 2)
  + 16777216 * nth_byte bs (i + 3).

Definition ETSS_BLOCK_META_HEADER_SIZE : Z := 8.
Definition ETSS_BLOCK_META_HEADER_COMP_SIZE : Z := 8.
Definition ETSS_BLOCK_METADATA_SIZE : Z := 12.
Definition ETSS_FILE_METADATA_SIZE : Z := 32.

Definition enc_header (h : etss_metadata_block_header_t) : list Z :=
  enc32 (scratch_dblock h) ++
  [w8 (fs_version h); w8 (metadata_xor h); w8 (active_swap_count h); w8 (hdr_pad h)].

Definition dec_header (bs : list Z) : etss_metadata_block_header_t :=
  {| scratch_dblock := dec32 bs 0; fs_version := nth_byte bs 4;
     metadata_xor := nth_byte bs 5; active_swap_count := nth_byte bs 6;
     hdr_pad := nth_byte bs 7 |}.

Definition enc_block_meta (m : etss_block_meta_t) : list Z :=
  enc32 (phy_id m) ++ enc32 (data_start m) ++ enc32 (free_size m).

Definition dec_block_meta (bs : list Z) : etss_block_meta_t :=
  {| phy_id := dec32 bs 0; data_start := dec32 bs 4; free_size := dec32 bs 8 |}.

(** [memcpy] into a field of [n] bytes *)
Definition fit (n : nat) (bs : list Z) : list Z := take n (bs ++ replicate n 0).

Definition enc_file_meta (m : etss_file_meta_t) : list Z :=
  enc32 (lblock m) ++ enc32 (data_idx m) ++ enc32 (cur_size m) ++
  enc32 (max_size m) ++ enc32 (flags m) ++ fit 12 (w8 <$> id m).

Definition dec_file_meta (bs : list Z) : etss_file_meta_t :=
  {| lblock := dec32 bs 0; data_idx := dec32 bs 4; cur_size := dec32 bs 8;
     max_size := dec32 bs 12; flags := dec32 bs 16; id := take 12 (drop 20 bs) |}.

(** Values that fit their fields. *)
Definition header_typed (h : etss_metadata_block_header_t) : Prop :=
  is_u32 (scratch_dblock h) /\ is_u8 (fs_version h) /\ is_u8 (metadata_xor h) /\
  is_u8 (active_swap_count h) /\ is_u8 (hdr_pad h).

Definition block_meta_typed (m : etss_block_meta_t) : Prop :=
  is_u32 (phy_id m) /\ is_u32 (data_start m) /\ is_u32 (free_size m).

Definition file_meta_typed (m : etss_file_meta_t) : Prop :=
  is_u32 (lblock m) /\ is_u32 (data_idx m) /\ is_u32 (cur_size m) /\
  is_u32 (max_size m) /\ is_u32 (flags m) /\
  length (id m) = 12%nat /\ Forall is_u8 (id m).

Lemma dec_enc32 x (l : list Z) : is_u32 x -> dec32 (enc32 x ++ l) 0 = x.
Proof.
  intros Hx. unfold dec32, enc32, nth_byte, w8, is_u32 in *. simpl.
  rewrite !Zmod_eq_full by lia.
  change 65536 with (256 * 256). change 16777216 with (256 * 256 * 256).
  rewrite <- !Z.div_div by lia. rewrite (Z.div_small (x / _ / _ / _)); [lia|].
  split; [repeat apply Z.div_pos; lia|].
  repeat apply Z.div_lt_upper_bound; lia.
Qed.

Lemma nth_byte_app_r (l1 l2 : list Z) i :
  Z.of_nat (length l1) <= i -> nth_byte (l1 ++ l2) i = nth_byte l2 (i - Z.of_nat (length l1)).
Proof.
  intros Hi. unfold nth_byte. rewrite app_nth2 by lia. f_equal. lia.
Qed.

Lemma dec32_app_r (l1 l2 : list Z) i :
  Z.of_nat (length l1) <= i -> dec32 (l1 ++ l2) i = dec32 l2 (i - Z.of_nat (length l1)).
Proof.
  intros Hi. unfold dec32. rewrite !nth_byte_app_r by lia.
  repeat (f_equal; try lia).
Qed.

Lemma enc32_length x : length (enc32 x) = 4%nat.
Proof. done. Qed.

(** Reading back a 32-bit field written after the bytes [l1]. *)
Lemma dec32_mid (l1 l2 : list Z) x i :
  i = Z.of_nat (length l1) -> is_u32 x -> dec32 (l1 ++ enc32 x ++ l2) i = x.
Proof. intros -> Hx. rewrite dec32_app_r by lia. rewrite Z.sub_diag. by apply dec_enc32. Qed.

#[local] Opaque enc32 dec32.

Lemma dec_enc_header h : header_typed h -> dec_header (enc_header h) = h.
Proof.
  intros (H1 & H2 & H3 & H4 & H5). destruct h as [sd v x c p]; simpl in *.
  unfold dec_header, enc_header; simpl. rewrite dec_enc32 by done.
  rewrite !nth_byte_app_r by (rewrite enc32_length; lia).
  rewrite enc32_length. unfold nth_byte. simpl. by rewrite !w8_small.
Qed.

Lemma dec_enc_block_meta m : block_meta_typed m -> dec_block_meta (enc_block_meta m) = m.
Proof.
  intros (H1 & H2 & H3). destruct m as [p d f]; simpl in *.
  unfold dec_block_meta, enc_block_meta; simpl. f_equal.
  - by apply (dec32_mid []).
  - by apply (dec32_mid (enc32 p)).
  - rewrite app_assoc, <- (app_nil_r (enc32 f)). by apply dec32_mid.
Qed.

Lemma fit_id n bs : length bs = n -> fit n bs = bs.
Proof. intros <-. unfold fit. by rewrite take_app_length. Qed.

Lemma w8_bytes_id bs : Forall is_u8 bs -> w8 <$> bs = bs.
Proof.
  induction 1 as [|x l Hx _ IH]; [done|]. rewrite fmap_cons, IH. by rewrite w8_small.
Qed.

Lemma dec_enc_file_meta m : file_meta_typed m -> dec_file_meta (enc_file_meta m) = m.
Proof.
  intros (H1 & H2 & H3 & H4 & H5 & Hl & Hb). destruct m as [l d c mx fl i]; simpl in *.
  unfold dec_file_meta, enc_file_meta; simpl.
  rewrite w8_bytes_id, fit_id by done. f_equal.
  - by apply (dec32_mid []).
  - by apply (dec32_mid (enc32 l)).
  - rewrite (app_assoc (enc32 l)). by apply dec32_mid.
  - rewrite (app_assoc (enc32 l)), (app_assoc (_ ++ _)). by apply dec32_mid.
  - rewrite (app_assoc (enc32 l)), !(app_assoc (_ ++ _)), <- (app_assoc _ (enc32 fl)).
    by apply dec32_mid.
  - rewrite !app_assoc. rewrite drop_app_length' by done. rewrite take_ge by lia. done.
Qed.

Lemma enc_header_length h : length (enc_header h) = 8%nat.
Proof. done. Qed.
Lemma enc_block_meta_length m : length (enc_block_meta m) = 12%nat.
Proof. done. Qed.
Lemma enc_file_meta_length m : length (enc_file_meta m) = 32%nat.
Proof.
  unfold enc_file_meta, fit. rewrite !length_app, !enc32_length, length_take, length_app,
    length_replicate, length_fmap. lia.
Qed.

#[local] Transparent enc32 dec32.

(** Decoding bytes gives values that fit their fields. *)
Lemma nth_byte_u8 bs i : Forall is_u8 bs -> is_u8 (nth_byte bs i).
Proof.
  intros Hf. unfold nth_byte. destruct (nth_in_or_default (Z.to_nat i) bs 0) as [Hin| ->].
  - rewrite Forall_forall in Hf. by apply Hf.
  - unfold is_u8. lia.
Qed.

Lemma dec32_u32 bs i : Forall is_u8 bs -> is_u32 (dec32 bs i).
Proof.
  intros Hf. unfold dec32, is_u32.
  pose proof (nth_byte_u8 bs i Hf). pose proof (nth_byte_u8 bs (i + 1) Hf).
  pose proof (nth_byte_u8 bs (i + 2) Hf). pose proof (nth_byte_u8 bs (i + 3) Hf).
  unfold is_u8 in *. lia.
Qed.

Lemma dec_header_typed bs : Forall is_u8 bs -> header_typed (dec_header bs).
Proof.
  intros Hf. unfold header_typed, dec_header; cbn [scratch_dblock fs_version metadata_xor active_swap_count hdr_pad].
  auto 6 using dec32_u32, nth_byte_u8.
Qed.

Lemma dec_block_meta_typed bs : Forall is_u8 bs -> block_meta_typed (dec_block_meta bs).
Proof.
  intros Hf. unfold block_meta_typed, dec_block_meta; cbn [phy_id data_start free_size].
  auto using dec32_u32.
Qed.

Lemma dec_file_meta_typed bs :
  length bs = 32%nat -> Forall is_u8 bs -> file_meta_typed (dec_file_meta bs).
Proof.
  intros Hl Hf. unfold file_meta_typed; simpl. do 5 (split; [by apply dec32_u32|]).
  split; [rewrite length_take, length_drop; lia|].
  by apply Forall_take, Forall_drop.
Qed.

Lemma enc32_u8 x : Forall is_u8 (enc32 x).
Proof. unfold enc32. repeat constructor; apply w8_range. Qed.

Lemma enc_header_u8 h : Forall is_u8 (enc_header h).
Proof. apply Forall_app. split; [apply enc32_u8|]. repeat constructor; apply w8_range. Qed.

(** ** The flash operations table [etss_flash_fs_ops_t]

    [E] is the environment behind the function pointers: the flash device and
    whatever else the operations use.  Every operation returns its status and
    the new environment; [fl_read] also returns the bytes now in the buffer. *)
Class FlashOps (E : Type) := {
  fl_init : etss_flash_fs_config_t -> E -> Z * E;
  fl_read : etss_flash_fs_config_t -> Z -> Z -> Z -> E -> Z * list Z * E;
  fl_write : etss_flash_fs_config_t -> Z -> list Z -> Z -> Z -> E -> Z * E;
  fl_flush : etss_flash_fs_config_t -> Z -> E -> Z * E;
  fl_erase : etss_flash_fs_config_t -> Z -> E -> Z * E
}.

(** A valid flash range, the precondition stated in etss_flash_fs.h. *)
Definition in_block (c : etss_flash_fs_config_t) (b off n : Z) : Prop :=
  0 <= b < num_blocks c /\ 0 <= off /\ 0 <= n /\ off + n <= block_size c.

Definition same_image (f g : image) : Prop := forall b o, g b o = f b o.

(** The contract of the operations table, as the file system uses it.

    - A read leaves the contents alone and returns them when it succeeds.
    - A write programs the bytes in ascending order; when it fails (a power
      failure included) it stops after some prefix.  A programmed byte holds
      the new value if it was erased before; otherwise nothing is known.
    - An erase clears the block in ascending order and may also stop early.
    - [init] and [flush] do not change the contents.
    - A [healthy] device executes every valid request and stays healthy. *)
Class FlashLaws (E : Type) `{FO : FlashOps E} (c : etss_flash_fs_config_t) := {
  img : E -> image;
  img_u8 : forall e b o, is_u8 (img e b o);
  healthy : E -> Prop;
  law_init : forall e, let '(st, e') := fl_init c e in
    same_image (img e) (img e') /\ (healthy e -> st = PSA_SUCCESS /\ healthy e');
  law_flush : forall b e, let '(st, e') := fl_flush c b e in
    same_image (img e) (img e') /\ (healthy e -> st = PSA_SUCCESS /\ healthy e');
  law_read : forall b off n e, in_block c b off n ->
    let '(st, bs, e') := fl_read c b off n e in
    same_image (img e) (img e') /\
    (st = PSA_SUCCESS -> bs = rd (img e b) off n) /\
    length bs = Z.to_nat n /\ Forall is_u8 bs /\
    (healthy e -> st = PSA_SUCCESS /\ healthy e');
  law_write : forall b buf off n e,
    in_block c b off n -> n <= Z.of_nat (length buf) -> Forall is_u8 buf ->
    let '(st, e') := fl_write c b buf off n e in
    exists k, 0 <= k <= n /\ (st = PSA_SUCCESS -> k = n) /\
      (forall b' o, ~ (b' = b /\ off <= o < off + k) -> img e' b' o = img e b' o) /\
      (forall i, 0 <= i < k -> img e b (off + i) = erase_val c ->
         img e' b (off + i) = nth_byte buf i) /\
      (healthy e -> st = PSA_SUCCESS /\ healthy e');
  law_erase : forall b e, 0 <= b < num_blocks c ->
    let '(st, e') := fl_erase c b e in
    exists k, 0 <= k <= block_size c /\ (st = PSA_SUCCESS -> k = block_size c) /\
      (forall b' o, ~ (b' = b /\ 0 <= o < k) -> img e' b' o = img e b' o) /\
      (forall o, 0 <= o < k -> img e' b o = erase_val c) /\
      (healthy e -> st = PSA_SUCCESS /\ healthy e')
}.

(** ** The file-system context and its computations *)

Record etss_flash_fs_ctx_t : Type := {
  cfg : etss_flash_fs_config_t;
  meta_block_header : etss_metadata_block_header_t;
  active_metablock : Z;
  scratch_metablock : Z
}.

Record fs_state (E : Type) : Type := { fs_ctx : etss_flash_fs_ctx_t; fs_env : E }.
Arguments fs_ctx {E} _.
Arguments fs_env {E} _.

(** A file-system function: it works on [*fs_ctx] and on the flash. *)
Definition FS (E A : Type) : Type := ST (fs_state E) A.

Section Operations.
Context {E : Type} `{FO : FlashOps E}.

Definition get_ctx : FS E etss_flash_fs_ctx_t := gets fs_ctx.
Definition modify_ctx (f : etss_flash_fs_ctx_t -> etss_flash_fs_ctx_t) : FS E unit :=
  modify (fun s => {| fs_ctx := f (fs_ctx s); fs_env := fs_env s |}).

Definition ops_init : FS E unit := fun s =>
  let '(st, e') := fl_init (cfg (fs_ctx s)) (fs_env s) in
  check st {| fs_ctx := fs_ctx s; fs_env := e' |}.

(** The status and the buffer contents, whatever the status. *)
Definition ops_read_raw (b off n : Z) : FS E (Z * list Z) := fun s =>
  let '(st, bs, e') := fl_read (cfg (fs_ctx s)) b off n (fs_env s) in
  (Ok (st, bs), {| fs_ctx := fs_ctx s; fs_env := e' |}).

Definition ops_read (b off n : Z) : FS E (list Z) :=
  r ← ops_read_raw b off n;
  check r.1;;
  mret r.2.

Definition ops_write (b : Z) (buf : list Z) (off n : Z) : FS E unit := fun s =>
  let '(st, e') := fl_write (cfg (fs_ctx s)) b buf off n (fs_env s) in
  check st {| fs_ctx := fs_ctx s; fs_env := e' |}.

Definition ops_flush (b : Z) : FS E unit := fun s =>
  let '(st, e') := fl_flush (cfg (fs_ctx s)) b (fs_env s) in
  check st {| fs_ctx := fs_ctx s; fs_env := e' |}.

Definition ops_erase (b : Z) : FS E unit := fun s =>
  let '(st, e') := fl_erase (cfg (fs_ctx s)) b (fs_env s) in
  check st {| fs_ctx := fs_ctx s; fs_env := e' |}.
End Operations.
