(* ===== verification/Mblock.v ===== *)
(** * Metadata blocks (etss_flash_fs_mblock.c)

    The functions of etss_flash_fs_mblock.c, in the build configuration of
    etss_config.cmake (ETSS_VALIDATE_METADATA_FROM_FLASH on). *)
From Stdlib Require Import ZArith Lia.
From stdpp Require Import base list numbers options.
From S2P Require Import Prelude EtssUtils FlashFsDefs.

Definition ETSS_MAX_BLOCK_DATA_COPY : Z := 256.
Definition ETSS_METADATA_BLOCK0 : Z := 0.
Definition ETSS_METADATA_BLOCK1 : Z := 1.
Definition ETSS_SUPPORTED_VERSION : Z := 2.
Definition ETSS_BACKWARD_SUPPORTED_VERSION : Z := 1.
Definition ETSS_METADATA_INVALID_INDEX : Z := 65535.
Definition ETSS_LOGICAL_DBLOCK0 : Z := 0.

Definition ETSS_OTHER_META_BLOCK (metablock : Z) : Z :=
  if metablock =? ETSS_METADATA_BLOCK0 then ETSS_METADATA_BLOCK1
  else ETSS_METADATA_BLOCK0.

(** ** Geometry *)

Definition etss_init_scratch_dblock (c : etss_flash_fs_config_t) : Z :=
  if num_blocks c =? 2 then 1 else 2.

Definition etss_init_dblock_start (c : etss_flash_fs_config_t) : Z :=
  if num_blocks c =? 2 then 0 else 3.

Definition etss_num_dedicated_dblocks (c : etss_flash_fs_config_t) : Z :=
  if num_blocks c =? 2 then 0
  else sub32 (num_blocks c) (etss_init_dblock_start c).

Definition etss_num_active_dblocks (c : etss_flash_fs_config_t) : Z :=
  add32 (etss_num_dedicated_dblocks c) 1.

Definition etss_mblock_block_meta_offset (lblock : Z) : Z :=
  add32 ETSS_BLOCK_META_HEADER_SIZE (mul32 lblock ETSS_BLOCK_METADATA_SIZE).

Definition etss_mblock_file_meta_offset (c : etss_flash_fs_config_t) (idx : Z) : Z :=
  add32
    (add32 ETSS_BLOCK_META_HEADER_SIZE
       (mul32 (etss_num_active_dblocks c) ETSS_BLOCK_METADATA_SIZE))
    (mul32 idx ETSS_FILE_METADATA_SIZE).

(** ** Pure checks *)

Definition etss_mblock_latest_meta_block (c : etss_flash_fs_config_t)
    (h_meta0 h_meta1 : etss_metadata_block_header_t) : Z :=
  let meta0_swap_count := active_swap_count h_meta0 in
  let meta1_swap_count := active_swap_count h_meta1 in
  let rollover_val := if erase_val c =? 0 then 1 else 0 in
  if (meta1_swap_count =? rollover_val)
     && negb (meta0_swap_count =? rollover_val + 1) then ETSS_METADATA_BLOCK1
  else if (meta0_swap_count =? rollover_val)
     && negb (meta1_swap_count =? rollover_val + 1) then ETSS_METADATA_BLOCK0
  else if meta1_swap_count >? meta0_swap_count then ETSS_METADATA_BLOCK1
  else ETSS_METADATA_BLOCK0.

Definition etss_mblock_validate_file_meta (c : etss_flash_fs_config_t)
    (m : etss_file_meta_t) : Z :=
  if lblock m >=? etss_num_active_dblocks c then PSA_ERROR_DATA_CORRUPT
  else if etss_utils_validate_fid (id m) =? PSA_SUCCESS then
    if max_size m >? max_file_size c then PSA_ERROR_DATA_CORRUPT
    else if cur_size m >? max_size m then PSA_ERROR_DATA_CORRUPT
    else if (lblock m =? ETSS_LOGICAL_DBLOCK0)
            && (data_idx m <? etss_mblock_file_meta_offset c (max_num_files c))
    then PSA_ERROR_DATA_CORRUPT
    else if negb (etss_utils_check_contained_in (block_size c) (data_idx m) (max_size m)
                  =? PSA_SUCCESS)
    then PSA_ERROR_DATA_CORRUPT
    else PSA_SUCCESS
  else PSA_SUCCESS.

Definition etss_mblock_validate_block_meta (c : etss_flash_fs_config_t)
    (m : etss_block_meta_t) : Z :=
  if phy_id m >=? num_blocks c then PSA_ERROR_DATA_CORRUPT
  else if negb (etss_utils_check_contained_in (block_size c) (data_start m) (free_size m)
                =? PSA_SUCCESS)
  then PSA_ERROR_DATA_CORRUPT
  else
    let valid_data_start_value :=
      if (phy_id m =? ETSS_METADATA_BLOCK0) || (phy_id m =? ETSS_METADATA_BLOCK1)
      then etss_mblock_file_meta_offset c (max_num_files c) else 0 in
    if negb (data_start m =? valid_data_start_value) then PSA_ERROR_DATA_CORRUPT
    else PSA_SUCCESS.

Definition etss_mblock_validate_block_meta_comp (c : etss_flash_fs_config_t)
    (m : etss_block_meta_t) : Z :=
  if phy_id m >=? num_blocks c then PSA_ERROR_DATA_CORRUPT
  else if negb (etss_utils_check_contained_in (block_size c) (data_start m) (free_size m)
                =? PSA_SUCCESS)
  then PSA_ERROR_DATA_CORRUPT
  else
    let valid_data_start_value :=
      if (phy_id m =? ETSS_METADATA_BLOCK0) || (phy_id m =? ETSS_METADATA_BLOCK1)
      then add32
             (add32 ETSS_BLOCK_META_HEADER_COMP_SIZE
                (mul32 (etss_num_active_dblocks c) ETSS_BLOCK_METADATA_SIZE))
             (mul32 (max_num_files c) ETSS_FILE_METADATA_SIZE)
      else 0 in
    if negb (data_start m =? valid_data_start_value) then PSA_ERROR_DATA_CORRUPT
    else PSA_SUCCESS.

Definition etss_mblock_validate_swap_count (c : etss_flash_fs_config_t) (swap_count : Z) : Z :=
  if swap_count =? erase_val c then PSA_ERROR_GENERIC_ERROR else PSA_SUCCESS.

(** [Ok backward_comp], or the error *)
Definition etss_mblock_validate_fs_version (fs_version : Z) : outcome bool :=
  if fs_version =? ETSS_BACKWARD_SUPPORTED_VERSION then Ok true
  else if fs_version =? ETSS_SUPPORTED_VERSION then Ok false
  else Err PSA_ERROR_GENERIC_ERROR.

(** ** Context updates *)

Definition set_header (h : etss_metadata_block_header_t) (x : etss_flash_fs_ctx_t) :=
  {| cfg := cfg x; meta_block_header := h; active_metablock := active_metablock x;
     scratch_metablock := scratch_metablock x |}.

Definition set_metablocks (active scratch : Z) (x : etss_flash_fs_ctx_t) :=
  {| cfg := cfg x; meta_block_header := meta_block_header x;
     active_metablock := active; scratch_metablock := scratch |}.

Definition set_scratch_dblock (v : Z) (h : etss_metadata_block_header_t) :=
  {| scratch_dblock := v; fs_version := fs_version h; metadata_xor := metadata_xor h;
     active_swap_count := active_swap_count h; hdr_pad := hdr_pad h |}.

Definition set_fs_version (v : Z) (h : etss_metadata_block_header_t) :=
  {| scratch_dblock := scratch_dblock h; fs_version := v; metadata_xor := metadata_xor h;
     active_swap_count := active_swap_count h; hdr_pad := hdr_pad h |}.

Definition set_metadata_xor (v : Z) (h : etss_metadata_block_header_t) :=
  {| scratch_dblock := scratch_dblock h; fs_version := fs_version h; metadata_xor := v;
     active_swap_count := active_swap_count h; hdr_pad := hdr_pad h |}.

Definition set_swap_count (v : Z) (h : etss_metadata_block_header_t) :=
  {| scratch_dblock := scratch_dblock h; fs_version := fs_version h;
     metadata_xor := metadata_xor h; active_swap_count := v; hdr_pad := hdr_pad h |}.

Definition set_phy_id (v : Z) (m : etss_block_meta_t) :=
  {| phy_id := v; data_start := data_start m; free_size := free_size m |}.

Definition set_free_size (v : Z) (m : etss_block_meta_t) :=
  {| phy_id := phy_id m; data_start := data_start m; free_size := v |}.

Definition etss_mblock_swap_metablocks (x : etss_flash_fs_ctx_t) : etss_flash_fs_ctx_t :=
  let tmp_block := scratch_metablock x in
  set_metablocks tmp_block (active_metablock x) x.

Section Mblock.
Context {E : Type} `{FO : FlashOps E}.

(** ** Moving data between blocks

    [fuel] bounds the number of 256-byte chunks; the caller gives the size,
    which is enough (lemma [move_loop_fuel]). *)
Fixpoint move_loop (fuel : nat) (dst_block dst_offset src_block src_offset size : Z)
    : FS E unit :=
  if negb (size >? 0) then mret tt else
  match fuel with
  | O => raise UNDEFINED
  | S fuel' =>
      let bytes_to_move := ETSS_UTILS_MIN size ETSS_MAX_BLOCK_DATA_COPY in
      data ← ops_read src_block src_offset bytes_to_move;
      ops_write dst_block data dst_offset bytes_to_move;;
      move_loop fuel' dst_block (add32 dst_offset bytes_to_move)
        src_block (add32 src_offset bytes_to_move) (sub32 size bytes_to_move)
  end.

Definition etss_flash_fs_block_to_block_move
    (dst_block dst_offset src_block src_offset size : Z) : FS E unit :=
  move_loop (Z.to_nat size) dst_block dst_offset src_block src_offset size.

(** ** Reading metadata *)

Definition etss_flash_fs_mblock_read_file_meta (idx : Z) : FS E etss_file_meta_t :=
  x ← get_ctx;
  let offset := etss_mblock_file_meta_offset (cfg x) idx in
  bs ← ops_read (active_metablock x) offset ETSS_FILE_METADATA_SIZE;
  let file_meta := dec_file_meta bs in
  check (etss_mblock_validate_file_meta (cfg x) file_meta);;
  mret file_meta.

Definition etss_flash_fs_mblock_read_block_metadata (lblock : Z) : FS E etss_block_meta_t :=
  x ← get_ctx;
  let pos := etss_mblock_block_meta_offset lblock in
  bs ← ops_read (active_metablock x) pos ETSS_BLOCK_METADATA_SIZE;
  let block_meta := dec_block_meta bs in
  check (etss_mblock_validate_block_meta (cfg x) block_meta);;
  mret block_meta.

Definition etss_flash_fs_mblock_read_block_metadata_comp (lblock : Z)
    : FS E etss_block_meta_t :=
  x ← get_ctx;
  let pos := add32 ETSS_BLOCK_META_HEADER_COMP_SIZE
               (mul32 lblock ETSS_BLOCK_METADATA_SIZE) in
  bs ← ops_read (active_metablock x) pos ETSS_BLOCK_METADATA_SIZE;
  let block_meta := dec_block_meta bs in
  check (etss_mblock_validate_block_meta_comp (cfg x) block_meta);;
  mret block_meta.

(** ** XOR over the metadata *)

(** [for (j = 0; j < SIZE; j++) xor_value_temp ^= metadata[j];] *)
Definition xor_bytes (acc : Z) (metadata : list Z) : Z := fold_left Z.lxor metadata acc.

Definition etss_mblock_calculate_metadata_xor (block_id : Z) : FS E Z :=
  if negb (block_id =? ETSS_METADATA_BLOCK0) && negb (block_id =? ETSS_METADATA_BLOCK1)
  then raise PSA_ERROR_INVALID_ARGUMENT
  else
    x ← get_ctx;
    xor_value_temp ←
      for_acc (Z.to_nat (etss_num_active_dblocks (cfg x))) 0 0 (fun i xor_value_temp =>
        metadata ← ops_read block_id (etss_mblock_block_meta_offset i)
                     ETSS_BLOCK_METADATA_SIZE;
        mret (xor_bytes xor_value_temp metadata));
    for_acc (Z.to_nat (max_num_files (cfg x))) 0 xor_value_temp (fun i xor_value_temp =>
      metadata ← ops_read block_id (etss_mblock_file_meta_offset (cfg x) i)
                   ETSS_FILE_METADATA_SIZE;
      mret (xor_bytes xor_value_temp metadata)).

Definition etss_mblock_validate_metadata_xor (h_meta : etss_metadata_block_header_t)
    (block_id : Z) : FS E unit :=
  xor_value ← etss_mblock_calculate_metadata_xor block_id;
  if negb (xor_value =? metadata_xor h_meta) then raise PSA_ERROR_STORAGE_FAILURE
  else mret tt.

Definition etss_mblock_validate_header_meta (h_meta : etss_metadata_block_header_t)
    (block_id : Z) : FS E unit :=
  x ← get_ctx;
  match etss_mblock_validate_fs_version (fs_version h_meta) with
  | Err err => raise err
  | Ok true => check (etss_mblock_validate_swap_count (cfg x) (comp_active_swap_count h_meta))
  | Ok false =>
      check (etss_mblock_validate_swap_count (cfg x) (active_swap_count h_meta));;
      etss_mblock_validate_metadata_xor h_meta block_id
  end.

(** ** File table lookups *)

(** [Next true]: the loop goes on with [use_spare = true]. *)
Definition etss_get_free_file_index (use_spare : bool) : FS E Z :=
  x ← get_ctx;
  r ← for_loop (Z.to_nat (max_num_files (cfg x))) 0 use_spare (fun i use_spare =>
        tmp ← attempt (etss_flash_fs_mblock_read_file_meta i);
        match tmp with
        | Err _ => mret (Done ETSS_METADATA_INVALID_INDEX)
        | Ok tmp_metadata =>
            if negb (etss_utils_validate_fid (id tmp_metadata) =? PSA_SUCCESS) then
              if negb use_spare then mret (Next true) else mret (Done i)
            else mret (Next use_spare)
        end);
  match r with
  | Done i => mret i
  | Next _ => mret ETSS_METADATA_INVALID_INDEX
  end.

Definition etss_flash_fs_mblock_get_file_idx (fid : list Z) : FS E Z :=
  x ← get_ctx;
  r ← for_loop (Z.to_nat (max_num_files (cfg x))) 0 tt (fun i _ =>
        tmp_metadata ← or_return (etss_flash_fs_mblock_read_file_meta i)
                         PSA_ERROR_GENERIC_ERROR;
        if bool_decide (id tmp_metadata = fid) then mret (Done i) else mret (Next tt));
  match r with
  | Done i => mret i
  | Next _ => raise PSA_ERROR_DOES_NOT_EXIST
  end.

Definition etss_flash_fs_mblock_get_file_idx_flag (flgs : Z) : FS E Z :=
  x ← get_ctx;
  r ← for_loop (Z.to_nat (max_num_files (cfg x))) 0 tt (fun i _ =>
        tmp_metadata ← or_return (etss_flash_fs_mblock_read_file_meta i)
                         PSA_ERROR_GENERIC_ERROR;
        if negb (Z.land (flags tmp_metadata) flgs =? 0) then mret (Done i)
        else mret (Next tt));
  match r with
  | Done i => mret i
  | Next _ => raise PSA_ERROR_DOES_NOT_EXIST
  end.

(** ** Scratch blocks *)

Definition etss_flash_fs_mblock_cur_data_scratch_id (lblock : Z) : FS E Z :=
  x ← get_ctx;
  if lblock =? ETSS_LOGICAL_DBLOCK0 then mret (scratch_metablock x)
  else mret (scratch_dblock (meta_block_header x)).

Definition etss_flash_fs_mblock_set_data_scratch (phy_id lblock : Z) : FS E unit :=
  if negb (lblock =? ETSS_LOGICAL_DBLOCK0) then
    modify_ctx (fun x => set_header (set_scratch_dblock phy_id (meta_block_header x)) x)
  else mret tt.

Definition etss_mblock_erase_scratch_blocks : FS E unit :=
  x ← get_ctx;
  ops_erase (scratch_metablock x);;
  if num_blocks (cfg x) >? 2 then
    scratch_datablock ← etss_flash_fs_mblock_cur_data_scratch_id (ETSS_LOGICAL_DBLOCK0 + 1);
    ops_erase scratch_datablock
  else mret tt.

Definition etss_mblock_update_scratch_block_meta (lblock : Z)
    (block_meta : etss_block_meta_t) : FS E unit :=
  x ← get_ctx;
  let pos := etss_mblock_block_meta_offset lblock in
  ops_write (scratch_metablock x) (enc_block_meta block_meta) pos ETSS_BLOCK_METADATA_SIZE.

Definition etss_flash_fs_mblock_update_scratch_file_meta (idx : Z)
    (file_meta : etss_file_meta_t) : FS E unit :=
  x ← get_ctx;
  let pos := etss_mblock_file_meta_offset (cfg x) idx in
  ops_write (scratch_metablock x) (enc_file_meta file_meta) pos ETSS_FILE_METADATA_SIZE.

Definition etss_mblock_copy_remaining_block_meta (lblock : Z) : FS E unit :=
  x ← get_ctx;
  let scratch_block := scratch_metablock x in
  let meta_block := active_metablock x in
  (if negb (lblock =? ETSS_LOGICAL_DBLOCK0) then
     block_meta ← or_return (etss_flash_fs_mblock_read_block_metadata ETSS_LOGICAL_DBLOCK0)
                    PSA_ERROR_GENERIC_ERROR;
     or_return (etss_mblock_update_scratch_block_meta ETSS_LOGICAL_DBLOCK0
                  (set_phy_id scratch_block block_meta)) PSA_ERROR_GENERIC_ERROR;;
     if lblock >? 1 then
       let pos := etss_mblock_block_meta_offset (ETSS_LOGICAL_DBLOCK0 + 1) in
       let size := sub32 (etss_mblock_block_meta_offset lblock) pos in
       etss_flash_fs_block_to_block_move scratch_block pos meta_block pos size
     else mret tt
   else mret tt);;
  let pos := etss_mblock_block_meta_offset (add32 lblock 1) in
  let size := sub32 (etss_mblock_file_meta_offset (cfg x) 0) pos in
  etss_flash_fs_block_to_block_move scratch_block pos meta_block pos size.

Definition etss_flash_fs_mblock_update_scratch_block_meta (lblock : Z)
    (block_meta : etss_block_meta_t) : FS E unit :=
  x ← get_ctx;
  let block_meta := if lblock =? ETSS_LOGICAL_DBLOCK0
                    then set_phy_id (scratch_metablock x) block_meta else block_meta in
  or_return (etss_mblock_update_scratch_block_meta lblock block_meta)
    PSA_ERROR_GENERIC_ERROR;;
  etss_mblock_copy_remaining_block_meta lblock.

Definition etss_flash_fs_mblock_cp_file_meta (idx_start idx_end : Z) : FS E unit :=
  x ← get_ctx;
  let pos_start := etss_mblock_file_meta_offset (cfg x) idx_start in
  let pos_end := etss_mblock_file_meta_offset (cfg x) idx_end in
  etss_flash_fs_block_to_block_move (scratch_metablock x) pos_start
    (active_metablock x) pos_start (sub32 pos_end pos_start).

Definition etss_flash_fs_mblock_migrate_lb0_data_to_scratch : FS E unit :=
  block_meta ← etss_flash_fs_mblock_read_block_metadata ETSS_LOGICAL_DBLOCK0;
  x ← get_ctx;
  let data_size := sub32 (sub32 (block_size (cfg x)) (data_start block_meta))
                     (free_size block_meta) in
  etss_flash_fs_block_to_block_move (scratch_metablock x) (data_start block_meta)
    (active_metablock x) (data_start block_meta) data_size.

(** ** Committing *)

Definition etss_mblock_write_scratch_meta_header : FS E unit :=
  modify_ctx (fun x => set_header
    (set_swap_count (w8 (active_swap_count (meta_block_header x) + 1))
       (meta_block_header x)) x);;
  x ← get_ctx;
  (if negb (etss_mblock_validate_swap_count (cfg x)
              (active_swap_count (meta_block_header x)) =? PSA_SUCCESS)
   then modify_ctx (fun x => set_header
          (set_swap_count (w8 (active_swap_count (meta_block_header x) + 1))
             (meta_block_header x)) x)
   else mret tt);;
  xor_value ← etss_mblock_calculate_metadata_xor (scratch_metablock x);
  modify_ctx (fun x => set_header (set_metadata_xor xor_value (meta_block_header x)) x);;
  x ← get_ctx;
  ops_write (scratch_metablock x) (enc_header (meta_block_header x)) 0
    ETSS_BLOCK_META_HEADER_SIZE.

Definition etss_flash_fs_mblock_meta_update_finalize : FS E unit :=
  etss_mblock_write_scratch_meta_header;;
  x ← get_ctx;
  ops_flush (scratch_metablock x);;
  modify_ctx etss_mblock_swap_metablocks;;
  etss_mblock_erase_scratch_blocks.

(** ** Start-up *)

Definition etss_mblock_upgrade_meta_header : FS E unit :=
  x ← get_ctx;
  match etss_mblock_validate_fs_version (fs_version (meta_block_header x)) with
  | Err err => raise err
  | Ok false => mret tt
  | Ok true =>
      block_meta_0 ← etss_flash_fs_mblock_read_block_metadata_comp ETSS_LOGICAL_DBLOCK0;
      let number := sub32 (sub32 (block_size (cfg x)) (free_size block_meta_0))
                      ETSS_BLOCK_META_HEADER_COMP_SIZE in
      etss_flash_fs_block_to_block_move (scratch_metablock x)
        (etss_mblock_block_meta_offset ETSS_LOGICAL_DBLOCK0)
        (active_metablock x) ETSS_BLOCK_META_HEADER_COMP_SIZE number;;
      modify_ctx (fun x => set_header
        (set_fs_version ETSS_SUPPORTED_VERSION
           (set_swap_count (comp_active_swap_count (meta_block_header x))
              (meta_block_header x))) x);;
      etss_flash_fs_mblock_meta_update_finalize
  end.

(** The read fills the context's header even if it fails. *)
Definition etss_mblock_read_meta_header : FS E unit :=
  x ← get_ctx;
  r ← ops_read_raw (active_metablock x) 0 ETSS_BLOCK_META_HEADER_SIZE;
  modify_ctx (set_header (dec_header r.2));;
  check r.1;;
  etss_mblock_validate_header_meta (dec_header r.2) (active_metablock x).

(** Reads and validates the header of [block]: [Some h] if it is valid. *)
Definition probe_metablock (block : Z) : FS E (option etss_metadata_block_header_t) :=
  r ← ops_read_raw block 0 ETSS_BLOCK_META_HEADER_SIZE;
  if r.1 =? PSA_SUCCESS then
    let h_meta := dec_header r.2 in
    v ← attempt (etss_mblock_validate_header_meta h_meta block);
    match v with Ok _ => mret (Some h_meta) | Err _ => mret None end
  else mret None.

Definition etss_init_get_active_metablock : FS E unit :=
  m0 ← probe_metablock ETSS_METADATA_BLOCK0;
  m1 ← probe_metablock ETSS_METADATA_BLOCK1;
  x ← get_ctx;
  match m0, m1 with
  | None, None => raise PSA_ERROR_GENERIC_ERROR
  | _, _ =>
      let cur_meta_block :=
        match m0, m1 with
        | Some h_meta0, Some h_meta1 => etss_mblock_latest_meta_block (cfg x) h_meta0 h_meta1
        | Some _, None => ETSS_METADATA_BLOCK0
        | None, _ => ETSS_METADATA_BLOCK1
        end in
      modify_ctx (set_metablocks cur_meta_block (ETSS_OTHER_META_BLOCK cur_meta_block))
  end.

Definition etss_flash_fs_mblock_init : FS E unit :=
  ops_init;;
  or_return etss_init_get_active_metablock PSA_ERROR_GENERIC_ERROR;;
  or_return etss_mblock_read_meta_header PSA_ERROR_GENERIC_ERROR;;
  or_return etss_mblock_erase_scratch_blocks PSA_ERROR_GENERIC_ERROR;;
  etss_mblock_upgrade_meta_header.

(** ** Reserving space *)

Definition etss_mblock_reserve_file (fid : list Z) (size flgs : Z)
    : FS E (etss_file_meta_t * etss_block_meta_t) :=
  x ← get_ctx;
  r ← for_loop (Z.to_nat (etss_num_active_dblocks (cfg x))) 0 tt (fun i _ =>
        block_meta ← or_return (etss_flash_fs_mblock_read_block_metadata i)
                       PSA_ERROR_GENERIC_ERROR;
        if free_size block_meta >=? size then
          mret (Done
            ({| lblock := i;
                data_idx := sub32 (block_size (cfg x)) (free_size block_meta);
                max_size := size; id := fid; cur_size := 0; flags := flgs |},
             set_free_size (sub32 (free_size block_meta) size) block_meta))
        else mret (Next tt));
  match r with
  | Done metas => mret metas
  | Next _ => raise PSA_ERROR_INSUFFICIENT_STORAGE
  end.

(** The index is searched even when no block has room. *)
Definition etss_flash_fs_mblock_reserve_file (fid : list Z) (use_spare : bool)
    (size flgs : Z) : FS E (Z * etss_file_meta_t * etss_block_meta_t) :=
  err ← attempt (etss_mblock_reserve_file fid size flgs);
  idx ← etss_get_free_file_index use_spare;
  match err with
  | Ok (file_meta, block_meta) =>
      if idx =? ETSS_METADATA_INVALID_INDEX then raise PSA_ERROR_INSUFFICIENT_STORAGE
      else mret (idx, file_meta, block_meta)
  | Err _ => raise PSA_ERROR_INSUFFICIENT_STORAGE
  end.

(** ** Formatting *)

Definition initial_header (c : etss_flash_fs_config_t) (h : etss_metadata_block_header_t) :=
  {| active_swap_count := if erase_val c =? 0 then 1 else 0;
     scratch_dblock := etss_init_scratch_dblock c;
     fs_version := ETSS_SUPPORTED_VERSION;
     metadata_xor := metadata_xor h; hdr_pad := hdr_pad h |}.

Definition etss_flash_fs_mblock_reset_metablock : FS E unit :=
  r ← attempt etss_init_get_active_metablock;
  x ← get_ctx;
  let metablock_to_erase_first :=
    match r with Ok _ => scratch_metablock x | Err _ => ETSS_METADATA_BLOCK0 end in
  ops_erase metablock_to_erase_first;;
  ops_erase (ETSS_OTHER_META_BLOCK metablock_to_erase_first);;
  modify_ctx (fun x => set_header (initial_header (cfg x) (meta_block_header x)) x);;
  modify_ctx (set_metablocks ETSS_METADATA_BLOCK0 ETSS_METADATA_BLOCK1);;
  x ← get_ctx;
  let c := cfg x in
  let start := etss_mblock_file_meta_offset c (max_num_files c) in
  etss_mblock_update_scratch_block_meta ETSS_LOGICAL_DBLOCK0
    {| data_start := start; free_size := sub32 (block_size c) start;
       phy_id := scratch_metablock x |};;
  err ← for_acc (Z.to_nat (etss_num_dedicated_dblocks c)) 0 PSA_SUCCESS (fun i err =>
          r ← attempt (ops_erase (add32 i (etss_init_dblock_start c)));
          mret (Z.lor err (status_of r)));
  (if negb (err =? PSA_SUCCESS) then raise PSA_ERROR_STORAGE_FAILURE else mret tt);;
  for_acc (Z.to_nat (etss_num_dedicated_dblocks c)) 0 tt (fun i _ =>
    or_return (etss_mblock_update_scratch_block_meta (i + 1)
      {| data_start := 0; free_size := block_size c;
         phy_id := add32 i (etss_init_dblock_start c) |}) PSA_ERROR_GENERIC_ERROR);;
  for_acc (Z.to_nat (max_num_files c)) 0 tt (fun i _ =>
    or_return (etss_flash_fs_mblock_update_scratch_file_meta i zero_file_meta)
      PSA_ERROR_GENERIC_ERROR);;
  or_return etss_mblock_write_scratch_meta_header PSA_ERROR_GENERIC_ERROR;;
  x ← get_ctx;
  ops_flush (scratch_metablock x);;
  modify_ctx etss_mblock_swap_metablocks.
End Mblock.
