(* ===== verification/Dblock.v ===== *)
(** * Data blocks (etss_flash_fs_dblock.c) *)
From Stdlib Require Import ZArith Lia.
From stdpp Require Import base list numbers options.
From S2P Require Import Prelude EtssUtils FlashFsDefs Mblock.

Section Dblock.
Context {E : Type} `{FO : FlashOps E}.

Definition etss_dblock_lo_to_phy (lblock : Z) : FS E Z :=
  r ← attempt (etss_flash_fs_mblock_read_block_metadata lblock);
  match r with
  | Ok block_meta => mret (phy_id block_meta)
  | Err _ => mret ETSS_BLOCK_INVALID_ID
  end.

Definition etss_flash_fs_dblock_compact_block
    (lblock free_sz src_offset dst_offset size : Z) : FS E unit :=
  block_meta ← etss_flash_fs_mblock_read_block_metadata lblock;
  let block_meta := set_free_size (add32 (free_size block_meta) free_sz) block_meta in
  scratch_id ← etss_flash_fs_mblock_cur_data_scratch_id lblock;
  (if size >? 0 then
     or_return (etss_flash_fs_block_to_block_move scratch_id dst_offset
                  (phy_id block_meta) src_offset size) PSA_ERROR_GENERIC_ERROR
   else mret tt);;
  (if dst_offset >? data_start block_meta then
     or_return (etss_flash_fs_block_to_block_move scratch_id (data_start block_meta)
                  (phy_id block_meta) (data_start block_meta)
                  (sub32 dst_offset (data_start block_meta))) PSA_ERROR_GENERIC_ERROR
   else mret tt);;
  etss_flash_fs_mblock_set_data_scratch (phy_id block_meta) lblock;;
  let block_meta := set_phy_id scratch_id block_meta in
  r ← attempt (etss_flash_fs_mblock_update_scratch_block_meta lblock block_meta);
  match r with
  | Err err =>
      etss_flash_fs_mblock_set_data_scratch scratch_id lblock;;
      raise err
  | Ok _ =>
      if negb (lblock =? ETSS_LOGICAL_DBLOCK0) then ops_flush scratch_id
      else mret tt
  end.

Definition etss_flash_fs_dblock_read_file (file_meta : etss_file_meta_t)
    (offset size : Z) : FS E (list Z) :=
  phys_block ← etss_dblock_lo_to_phy (lblock file_meta);
  if phys_block =? ETSS_BLOCK_INVALID_ID then raise PSA_ERROR_GENERIC_ERROR
  else
    let pos := add32 (data_idx file_meta) offset in
    ops_read phys_block pos size.

Definition etss_flash_fs_dblock_write_file (block_meta : etss_block_meta_t)
    (file_meta : etss_file_meta_t) (offset size : Z) (data : list Z) : FS E unit :=
  scratch_id ← etss_flash_fs_mblock_cur_data_scratch_id (lblock file_meta);
  let pos := add32 (data_idx file_meta) offset in
  etss_flash_fs_block_to_block_move scratch_id (data_start block_meta)
    (phy_id block_meta) (data_start block_meta) (sub32 pos (data_start block_meta));;
  ops_write scratch_id data pos size;;
  let pos := add32 (data_idx file_meta) (max_size file_meta) in
  x ← get_ctx;
  let num_bytes := sub32 (sub32 (block_size (cfg x)) (free_size block_meta)) pos in
  etss_flash_fs_block_to_block_move scratch_id pos (phy_id block_meta) pos num_bytes;;
  if negb (lblock file_meta =? ETSS_LOGICAL_DBLOCK0) then ops_flush scratch_id
  else mret tt.
End Dblock.
