(* ===== verification/FlashFs.v ===== *)
(** * The file system (etss_flash_fs.c) *)
From Stdlib Require Import ZArith Lia.
From stdpp Require Import base list numbers options.
From S2P Require Import Prelude EtssUtils FlashFsDefs Mblock Dblock.

(** [UINT32_MAX - ((1U << 24) - 1)] and [1U << 24] *)
Definition ETSS_FLASH_FS_INTERNAL_FLAGS_MASK : Z := 4294967295 - (Z.shiftl 1 24 - 1).
Definition ETSS_FLASH_FS_FLAG_DELETE : Z := Z.shiftl 1 24.

(** ** Configuration *)

Definition etss_flash_fs_num_active_dblocks (c : etss_flash_fs_config_t) : Z :=
  if num_blocks c =? 2 then 1 else w32 (num_blocks c - 2).

Definition etss_flash_fs_all_metadata_size (c : etss_flash_fs_config_t) : Z :=
  add32
    (add32 ETSS_BLOCK_META_HEADER_SIZE
       (mul32 (etss_flash_fs_num_active_dblocks c) ETSS_BLOCK_METADATA_SIZE))
    (mul32 (max_num_files c) ETSS_FILE_METADATA_SIZE).

Definition etss_flash_fs_validate_config (c : etss_flash_fs_config_t) : Z :=
  let ret := PSA_SUCCESS in
  let ret := if (num_blocks c <? 2) || (num_blocks c =? 3)
             then PSA_ERROR_INVALID_ARGUMENT else ret in
  let ret := if num_blocks c =? 2 then
               if max_file_size c >? sub32 (block_size c) (etss_flash_fs_all_metadata_size c)
               then PSA_ERROR_INVALID_ARGUMENT else ret
             else ret in
  let ret := if max_file_size c >? block_size c
             then PSA_ERROR_INVALID_ARGUMENT else ret in
  if etss_flash_fs_all_metadata_size c >? block_size c
  then PSA_ERROR_INVALID_ARGUMENT else ret.

Record etss_file_info_t : Type := {
  size_current : Z;
  size_max : Z;
  info_flags : Z
}.

(** [memset(fs_ctx, 0, ...)] and the association of [cfg]; the operations
    table is the [FlashOps] instance.  [None] stands for a null pointer. *)
Definition etss_flash_fs_init_ctx (fs_cfg : option etss_flash_fs_config_t)
    : outcome etss_flash_fs_ctx_t :=
  match fs_cfg with
  | None => Err PSA_ERROR_INVALID_ARGUMENT
  | Some c =>
      let err := etss_flash_fs_validate_config c in
      if negb (err =? PSA_SUCCESS) then Err err
      else Ok {| cfg := c;
                 meta_block_header :=
                   {| scratch_dblock := 0; fs_version := 0; metadata_xor := 0;
                      active_swap_count := 0; hdr_pad := 0 |};
                 active_metablock := 0; scratch_metablock := 0 |}
  end.

Section FlashFs.
Context {E : Type} `{FO : FlashOps E}.

Definition etss_flash_fs_file_write_aligned_data (block_meta : etss_block_meta_t)
    (file_meta : etss_file_meta_t) (offset size : Z) (data : list Z) : FS E unit :=
  x ← get_ctx;
  if negb (ETSS_UTILS_IS_ALIGNED offset (program_unit (cfg x)))
  then raise PSA_ERROR_INVALID_ARGUMENT
  else
    let size := ETSS_UTILS_ALIGN size (program_unit (cfg x)) in
    if offset >? cur_size file_meta then raise PSA_ERROR_INVALID_ARGUMENT
    else if negb (etss_utils_check_contained_in (max_size file_meta) offset size
                  =? PSA_SUCCESS)
    then raise PSA_ERROR_INVALID_ARGUMENT
    else etss_flash_fs_dblock_write_file block_meta file_meta offset size data.

Definition set_file_data_idx (v : Z) (m : etss_file_meta_t) :=
  {| lblock := lblock m; data_idx := v; cur_size := cur_size m; max_size := max_size m;
     flags := flags m; id := id m |}.
Definition set_file_cur_size (v : Z) (m : etss_file_meta_t) :=
  {| lblock := lblock m; data_idx := data_idx m; cur_size := v; max_size := max_size m;
     flags := flags m; id := id m |}.
Definition set_file_flags (v : Z) (m : etss_file_meta_t) :=
  {| lblock := lblock m; data_idx := data_idx m; cur_size := cur_size m;
     max_size := max_size m; flags := v; id := id m |}.

(** One iteration of the metadata loop of a deletion: the running
    [src_offset] and [nbr_bytes_to_move]. *)
Definition delete_idx_step (del_file_idx : Z) (del : etss_file_meta_t) (idx : Z)
    (acc : Z * Z) : FS E (Z * Z) :=
  let '(src_offset, nbr_bytes_to_move) := acc in
  if idx =? del_file_idx then mret (src_offset, nbr_bytes_to_move)
  else
    file_meta ← etss_flash_fs_mblock_read_file_meta idx;
    if (lblock file_meta =? lblock del)
       && (etss_utils_validate_fid (id file_meta) =? PSA_SUCCESS)
       && (data_idx file_meta >? data_idx del)
    then
      let src_offset := if src_offset >? data_idx file_meta
                        then data_idx file_meta else src_offset in
      etss_flash_fs_mblock_update_scratch_file_meta idx
        (set_file_data_idx (sub32 (data_idx file_meta) (max_size del)) file_meta);;
      mret (src_offset, add32 nbr_bytes_to_move (max_size file_meta))
    else
      etss_flash_fs_mblock_update_scratch_file_meta idx file_meta;;
      mret (src_offset, nbr_bytes_to_move).

Definition etss_flash_fs_delete_idx (del_file_idx : Z) : FS E unit :=
  x ← get_ctx;
  file_meta ← etss_flash_fs_mblock_read_file_meta del_file_idx;
  if negb (etss_utils_validate_fid (id file_meta) =? PSA_SUCCESS)
  then raise PSA_ERROR_DOES_NOT_EXIST
  else
    etss_flash_fs_mblock_update_scratch_file_meta del_file_idx zero_file_meta;;
    '(src_offset, nbr_bytes_to_move) ←
      for_acc (Z.to_nat (max_num_files (cfg x))) 0 (block_size (cfg x), 0)
        (delete_idx_step del_file_idx file_meta);
    etss_flash_fs_dblock_compact_block (lblock file_meta) (max_size file_meta)
      src_offset (data_idx file_meta) nbr_bytes_to_move;;
    (if negb (lblock file_meta =? ETSS_LOGICAL_DBLOCK0) then
       or_return etss_flash_fs_mblock_migrate_lb0_data_to_scratch PSA_ERROR_GENERIC_ERROR
     else mret tt);;
    etss_flash_fs_mblock_meta_update_finalize.

Definition etss_flash_fs_prepare : FS E unit :=
  etss_flash_fs_mblock_init;;
  err ← attempt (etss_flash_fs_mblock_get_file_idx_flag ETSS_FLASH_FS_FLAG_DELETE);
  match err with
  | Ok idx => etss_flash_fs_delete_idx idx
  | Err e => if negb (e =? PSA_ERROR_DOES_NOT_EXIST) then raise e else mret tt
  end.

Definition etss_flash_fs_wipe_all : FS E unit := etss_flash_fs_mblock_reset_metablock.

Definition etss_flash_fs_file_exist (fid : list Z) : FS E unit :=
  or_return (etss_flash_fs_mblock_get_file_idx fid) PSA_ERROR_DOES_NOT_EXIST;;
  mret tt.

Definition etss_flash_fs_file_get_info (fid : list Z) : FS E etss_file_info_t :=
  idx ← or_return (etss_flash_fs_mblock_get_file_idx fid) PSA_ERROR_DOES_NOT_EXIST;
  tmp_metadata ← etss_flash_fs_mblock_read_file_meta idx;
  if negb (bool_decide (fid = id tmp_metadata)) then raise PSA_ERROR_DOES_NOT_EXIST
  else mret {| size_max := max_size tmp_metadata; size_current := cur_size tmp_metadata;
               info_flags := Z.land (flags tmp_metadata) ETSS_FLASH_FS_USER_FLAGS_MASK |}.

(** The first part of a write: find the file to reuse or mark it for
    deletion.  The result is [(old_idx, new_idx, file_meta)]. *)
Definition file_write_lookup (fid : list Z) (flgs max_sz : Z)
    : FS E (Z * Z * etss_file_meta_t) :=
  err ← attempt (etss_flash_fs_mblock_get_file_idx fid);
  match err with
  | Ok old_idx =>
      file_meta ← or_return (etss_flash_fs_mblock_read_file_meta old_idx)
                    PSA_ERROR_DOES_NOT_EXIST;
      if negb (Z.land flgs ETSS_FLASH_FS_FLAG_TRUNCATE =? 0) then
        if max_size file_meta =? max_sz then
          mret (old_idx, old_idx, set_file_flags flgs (set_file_cur_size 0 file_meta))
        else
          let file_meta := set_file_flags
               (Z.lor (flags file_meta) ETSS_FLASH_FS_FLAG_DELETE) file_meta in
          or_return (etss_flash_fs_mblock_update_scratch_file_meta old_idx file_meta)
            PSA_ERROR_GENERIC_ERROR;;
          mret (old_idx, ETSS_METADATA_INVALID_INDEX, file_meta)
      else mret (old_idx, old_idx, file_meta)
  | Err e =>
      if e =? PSA_ERROR_DOES_NOT_EXIST then
        if Z.land flgs ETSS_FLASH_FS_FLAG_CREATE =? 0 then raise PSA_ERROR_DOES_NOT_EXIST
        else mret (ETSS_METADATA_INVALID_INDEX, ETSS_METADATA_INVALID_INDEX, zero_file_meta)
      else raise e
  end.

(** Reserve a new file unless the old one is reused:
    [(new_idx, file_meta, block_meta)]. *)
Definition file_write_reserve (fid : list Z) (flgs max_sz old_idx new_idx : Z)
    (file_meta : etss_file_meta_t) : FS E (Z * etss_file_meta_t * etss_block_meta_t) :=
  x ← get_ctx;
  if new_idx =? ETSS_METADATA_INVALID_INDEX then
    if max_sz >? max_file_size (cfg x) then raise PSA_ERROR_INVALID_ARGUMENT
    else
      let use_spare := negb (old_idx =? ETSS_METADATA_INVALID_INDEX) in
      etss_flash_fs_mblock_reserve_file fid use_spare max_sz flgs
  else
    block_meta ← or_return (etss_flash_fs_mblock_read_block_metadata (lblock file_meta))
                   PSA_ERROR_GENERIC_ERROR;
    mret (new_idx, file_meta, block_meta).

(** Write the data into the scratch data block and swap the two blocks. *)
Definition file_write_data (file_meta : etss_file_meta_t) (block_meta : etss_block_meta_t)
    (data_size offset : Z) (data : list Z) : FS E (etss_file_meta_t * etss_block_meta_t) :=
  if negb (data_size =? 0) then
    or_return (etss_flash_fs_file_write_aligned_data block_meta file_meta offset data_size data)
      PSA_ERROR_GENERIC_ERROR;;
    let file_meta := if add32 offset data_size >? cur_size file_meta
                     then set_file_cur_size (add32 offset data_size) file_meta
                     else file_meta in
    let cur_phys_block := phy_id block_meta in
    scratch_id ← etss_flash_fs_mblock_cur_data_scratch_id (lblock file_meta);
    etss_flash_fs_mblock_set_data_scratch cur_phys_block (lblock file_meta);;
    mret (file_meta, set_phy_id scratch_id block_meta)
  else mret (file_meta, block_meta).

(** Write the new metadata into the scratch metadata block. *)
Definition file_write_metadata (file_meta : etss_file_meta_t)
    (block_meta : etss_block_meta_t) (old_idx new_idx : Z) : FS E unit :=
  x ← get_ctx;
  or_return (etss_flash_fs_mblock_update_scratch_block_meta (lblock file_meta) block_meta)
    PSA_ERROR_GENERIC_ERROR;;
  or_return (etss_flash_fs_mblock_update_scratch_file_meta new_idx file_meta)
    PSA_ERROR_GENERIC_ERROR;;
  let idx := ETSS_UTILS_MIN new_idx old_idx in
  or_return (etss_flash_fs_mblock_cp_file_meta 0 idx) PSA_ERROR_GENERIC_ERROR;;
  idx ← (if negb (old_idx =? ETSS_METADATA_INVALID_INDEX) && negb (old_idx =? new_idx) then
           or_return (etss_flash_fs_mblock_cp_file_meta (add32 idx 1)
                        (ETSS_UTILS_MAX new_idx old_idx)) PSA_ERROR_GENERIC_ERROR;;
           mret (ETSS_UTILS_MAX new_idx old_idx)
         else mret idx);
  or_return (etss_flash_fs_mblock_cp_file_meta (add32 idx 1) (max_num_files (cfg x)))
    PSA_ERROR_GENERIC_ERROR.

Definition etss_flash_fs_file_write (fid : list Z) (flgs max_sz data_size offset : Z)
    (data : list Z) : FS E unit :=
  if negb (Z.land flgs ETSS_FLASH_FS_INTERNAL_FLAGS_MASK =? 0)
  then raise PSA_ERROR_INVALID_ARGUMENT
  else
    x ← get_ctx;
    let max_sz := ETSS_UTILS_ALIGN max_sz (program_unit (cfg x)) in
    '(old_idx, new_idx, file_meta) ← file_write_lookup fid flgs max_sz;
    '(new_idx, file_meta, block_meta) ←
      file_write_reserve fid flgs max_sz old_idx new_idx file_meta;
    '(file_meta, block_meta) ← file_write_data file_meta block_meta data_size offset data;
    file_write_metadata file_meta block_meta old_idx new_idx;;
    (if negb (lblock file_meta =? ETSS_LOGICAL_DBLOCK0) || (data_size =? 0) then
       or_return etss_flash_fs_mblock_migrate_lb0_data_to_scratch PSA_ERROR_GENERIC_ERROR
     else mret tt);;
    etss_flash_fs_mblock_meta_update_finalize;;
    if negb (old_idx =? ETSS_METADATA_INVALID_INDEX) && negb (old_idx =? new_idx)
    then etss_flash_fs_delete_idx old_idx
    else mret tt.

Definition etss_flash_fs_file_delete (fid : list Z) : FS E unit :=
  del_file_idx ← or_return (etss_flash_fs_mblock_get_file_idx fid) PSA_ERROR_DOES_NOT_EXIST;
  etss_flash_fs_delete_idx del_file_idx.

Definition etss_flash_fs_file_read (fid : list Z) (size offset : Z) : FS E (list Z) :=
  idx ← or_return (etss_flash_fs_mblock_get_file_idx fid) PSA_ERROR_DOES_NOT_EXIST;
  tmp_metadata ← or_return (etss_flash_fs_mblock_read_file_meta idx) PSA_ERROR_GENERIC_ERROR;
  if negb (bool_decide (fid = id tmp_metadata)) then raise PSA_ERROR_DOES_NOT_EXIST
  else
    check (etss_utils_check_contained_in (cur_size tmp_metadata) offset size);;
    or_return (etss_flash_fs_dblock_read_file tmp_metadata offset size)
      PSA_ERROR_GENERIC_ERROR.
End FlashFs.
