(* ===== verification/NorDevice.v ===== *)
(** * A concrete NOR flash

    An executable flash device that satisfies [FlashLaws], used by the
    concrete instances of the theorems.  Programming can only clear bits, an
    erase sets a whole block to 0xFF, and the device can lose power: with a
    budget of [n] units it executes [n] byte programs or sector erases and
    then fails. *)
From Stdlib Require Import ZArith Lia.
From stdpp Require Import base list numbers gmap options.
From S2P Require Import Prelude EtssUtils FlashFsDefs.

Record nor : Type := {
  nor_mem : gmap (Z * Z) Z;   (* programmed bytes; absent means erased *)
  nor_budget : option Z       (* [None]: unlimited *)
}.

Definition nor_byte (m : gmap (Z * Z) Z) (b o : Z) : Z := w8 (default 255 (m !! (b, o))).

Definition nor_empty : nor := {| nor_mem := ∅; nor_budget := None |}.

Fixpoint nor_program (m : gmap (Z * Z) Z) (b off : Z) (bs : list Z) : gmap (Z * Z) Z :=
  match bs with
  | [] => m
  | c :: bs' =>
      nor_program (<[(b, off) := Z.land (nor_byte m b off) c]> m) b (off + 1) bs'
  end.

(** How many of [n] units can be executed. *)
Definition nor_allowed (d : nor) (n : Z) : Z :=
  match nor_budget d with None => n | Some k => Z.max 0 (Z.min k n) end.

Definition nor_spend (d : nor) (n : Z) : option Z :=
  match nor_budget d with None => None | Some k => Some (k - n) end.

Definition nor_alive (d : nor) : bool :=
  match nor_budget d with None => true | Some k => 0 <? k end.

Definition nor_status (ok : bool) : Z := if ok then PSA_SUCCESS else PSA_ERROR_STORAGE_FAILURE.

Definition nor_erase_upto (m : gmap (Z * Z) Z) (b k : Z) : gmap (Z * Z) Z :=
  filter (fun kv => ~ (kv.1.1 = b /\ 0 <= kv.1.2 < k)) m.

#[export] Instance nor_ops : FlashOps nor := {
  fl_init := fun c d => (nor_status (nor_alive d), d);
  fl_read := fun c b off n d =>
    (nor_status (nor_alive d), rd (nor_byte (nor_mem d) b) off n, d);
  fl_write := fun c b buf off n d =>
    let k := nor_allowed d n in
    (nor_status (nor_alive d && (k =? n)),
     {| nor_mem := nor_program (nor_mem d) b off (take (Z.to_nat k) buf);
        nor_budget := nor_spend d n |});
  fl_flush := fun c b d => (nor_status (nor_alive d), d);
  fl_erase := fun c b d =>
    let sectors := block_size c / sector_size c in
    let k := nor_allowed d sectors in
    (nor_status (nor_alive d && (k =? sectors)),
     {| nor_mem := nor_erase_upto (nor_mem d) b
                     (if k =? sectors then block_size c
                      else Z.max 0 (Z.min (k * sector_size c) (block_size c)));
        nor_budget := nor_spend d sectors |})
}.

(** ** The device satisfies the contract *)

Definition nor_healthy (d : nor) : Prop := nor_budget d = None.

Lemma nor_healthy_alive d : nor_healthy d -> nor_status (nor_alive d) = PSA_SUCCESS.
Proof. unfold nor_healthy, nor_alive. by intros ->. Qed.

Lemma nor_byte_u8 m b o : is_u8 (nor_byte m b o).
Proof. apply w8_range. Qed.

Lemma nor_byte_insert m b o b' o' v :
  nor_byte (<[(b, o) := v]> m) b' o' =
  if decide (b = b' /\ o = o') then w8 v else nor_byte m b' o'.
Proof.
  unfold nor_byte. case_decide as H.
  - destruct H as [-> ->]. by rewrite lookup_insert_eq.
  - rewrite lookup_insert_ne; [done|]. intros [=]. by apply H.
Qed.

Lemma nor_program_other m b off bs b' o :
  ~ (b' = b /\ off <= o < off + Z.of_nat (length bs)) ->
  nor_byte (nor_program m b off bs) b' o = nor_byte m b' o.
Proof.
  revert m off. induction bs as [|c bs IH]; intros m off H; [done|]. simpl in *.
  rewrite IH by lia. rewrite nor_byte_insert. rewrite decide_False; [done|]. lia.
Qed.

Lemma nor_program_at m b off bs i :
  0 <= i < Z.of_nat (length bs) ->
  nor_byte (nor_program m b off bs) b (off + i)
  = w8 (Z.land (nor_byte m b (off + i)) (nth_byte bs i)).
Proof.
  revert m off i. induction bs as [|c bs IH]; intros m off i Hi; simpl in *; [lia|].
  destruct (decide (i = 0)) as [->|Hne].
  - rewrite nor_program_other by lia. rewrite nor_byte_insert, decide_True by lia.
    by rewrite Z.add_0_r.
  - replace (off + i) with (off + 1 + (i - 1)) by lia. rewrite IH by lia.
    rewrite nor_byte_insert, decide_False by lia. do 2 f_equal.
    unfold nth_byte. by replace (Z.to_nat i) with (S (Z.to_nat (i - 1))) by lia.
Qed.

Lemma nor_erase_byte m b k b' o :
  nor_byte (nor_erase_upto m b k) b' o =
  if decide (b' = b /\ 0 <= o < k) then 255 else nor_byte m b' o.
Proof.
  unfold nor_byte, nor_erase_upto. rewrite map_lookup_filter.
  destruct (m !! (b', o)) as [v|] eqn:Hv; simpl.
  - case_guard as Hg; simpl; case_decide; simpl in *; done || lia.
  - by case_decide.
Qed.

Lemma nor_status_ok b : nor_status b = PSA_SUCCESS -> b = true.
Proof. by destruct b. Qed.

Lemma u8_land_255 x : is_u8 x -> w8 (Z.land 255 x) = x.
Proof.
  intros Hx. rewrite Z.land_comm. change 255 with (Z.ones 8).
  rewrite Z.land_ones by lia. change (2 ^ 8) with 256.
  unfold w8. rewrite Z.mod_mod by lia. by apply Z.mod_small.
Qed.

Lemma nor_write_law c b buf off n d :
  erase_val c = 255 -> in_block c b off n -> n <= Z.of_nat (length buf) -> Forall is_u8 buf ->
  let '(st, d') := fl_write c b buf off n d in
  exists k, 0 <= k <= n /\ (st = PSA_SUCCESS -> k = n) /\
    (forall b' o, ~ (b' = b /\ off <= o < off + k) ->
       nor_byte (nor_mem d') b' o = nor_byte (nor_mem d) b' o) /\
    (forall i, 0 <= i < k -> nor_byte (nor_mem d) b (off + i) = erase_val c ->
       nor_byte (nor_mem d') b (off + i) = nth_byte buf i) /\
    (nor_healthy d -> st = PSA_SUCCESS /\ nor_healthy d').
Proof.
  intros He Hin Hlen Hu8. simpl. set (k := nor_allowed d n).
  assert (0 <= k <= n) as Hk.
  { unfold k, nor_allowed. destruct Hin as (_ & _ & Hn & _). destruct (nor_budget d); lia. }
  assert (Z.of_nat (length (take (Z.to_nat k) buf)) = k) as Hl by (rewrite length_take; lia).
  exists k. split_and!; [lia..| | | |].
  - intros Hs%nor_status_ok%andb_true_iff. destruct Hs as [_ Hs]. lia.
  - intros b' o Hne. apply nor_program_other. by rewrite Hl.
  - intros i Hi Hold. rewrite nor_program_at by lia. rewrite Hold, He, nth_byte_take by lia.
    apply u8_land_255. by apply nth_byte_u8.
  - unfold nor_healthy. intros Hh. unfold k, nor_alive, nor_allowed, nor_spend. simpl.
    rewrite Hh, Z.eqb_refl. done.
Qed.

Lemma nor_erase_law c b d :
  erase_val c = 255 -> 0 <= block_size c -> 0 < sector_size c ->
  let '(st, d') := fl_erase c b d in
  exists k, 0 <= k <= block_size c /\ (st = PSA_SUCCESS -> k = block_size c) /\
    (forall b' o, ~ (b' = b /\ 0 <= o < k) ->
       nor_byte (nor_mem d') b' o = nor_byte (nor_mem d) b' o) /\
    (forall o, 0 <= o < k -> nor_byte (nor_mem d') b o = erase_val c) /\
    (nor_healthy d -> st = PSA_SUCCESS /\ nor_healthy d').
Proof.
  intros He Hbs Hss. simpl. set (sectors := block_size c / sector_size c).
  set (k := nor_allowed d sectors).
  set (n := if k =? sectors then block_size c
            else Z.max 0 (Z.min (k * sector_size c) (block_size c))).
  exists n. split_and!.
  - unfold n. case_match; lia.
  - unfold n. case_match; lia.
  - intros Hs%nor_status_ok%andb_true_iff. destruct Hs as [_ Hs]. unfold n. by rewrite Hs.
  - intros b' o Hne. rewrite nor_erase_byte. by rewrite decide_False.
  - intros o Ho. rewrite nor_erase_byte, He. by rewrite decide_True.
  - unfold nor_healthy. intros Hh. unfold k, nor_alive, nor_allowed, nor_spend. simpl.
    rewrite Hh, Z.eqb_refl. done.
Qed.

Record nor_cfg (c : etss_flash_fs_config_t) : Prop := {
  nc_erase : erase_val c = 255;
  nc_block : 0 <= block_size c;
  nc_sector : 0 < sector_size c
}.

#[export] Instance nor_laws (c : etss_flash_fs_config_t) (Hc : nor_cfg c) : FlashLaws nor c.
Proof.
  refine {| img := fun d => nor_byte (nor_mem d); healthy := nor_healthy |}.
  - intros. apply nor_byte_u8.
  - intros d. simpl. split; [done|]. auto using nor_healthy_alive.
  - intros b d. simpl. split; [done|]. auto using nor_healthy_alive.
  - intros b off n d Hin. simpl. split_and!; [done..| | |].
    + apply rd_length.
    + apply rd_Forall. intros o. apply nor_byte_u8.
    + auto using nor_healthy_alive.
  - intros b buf off n d. apply nor_write_law. by destruct Hc.
  - intros b d _. apply nor_erase_law; by destruct Hc.
Defined.
