(* ===== verification/MblockSpec.v ===== *)
(** * Metadata blocks: specifications

    What the functions of [Mblock] do to the flash contents, for any device
    that satisfies [FlashLaws].  Every specification bounds the bytes that may
    change, whatever the outcome, and says what was read or written when the
    function succeeds. *)
From Stdlib Require Import ZArith Lia.
From stdpp Require Import base list numbers options.
From S2P Require Import Prelude EtssUtils FlashFsDefs Mblock FlashFs.

#[local] Set Default Proof Using "Type*".

(** ** Valid configurations

    The configuration check of the code accepts it, and an erased version byte
    is not a file-system version.  (On flash the erase value is 0xFF or 0.) *)

Record cfg_ok (c : etss_flash_fs_config_t) : Prop := {
  co_typed : cfg_typed c;
  co_valid : etss_flash_fs_validate_config c = PSA_SUCCESS;
  co_erase : erase_val c <> ETSS_BACKWARD_SUPPORTED_VERSION /\
             erase_val c <> ETSS_SUPPORTED_VERSION
}.

(** Logical data blocks, and the layout of a metadata block. *)
Definition nact (c : etss_flash_fs_config_t) : Z :=
  if num_blocks c =? 2 then 1 else num_blocks c - 2.
Definition bmo (l : Z) : Z := 8 + 12 * l.
Definition fmo (c : etss_flash_fs_config_t) (i : Z) : Z := 8 + 12 * nact c + 32 * i.

Section Geometry.
Context (c : etss_flash_fs_config_t) (Hc : cfg_ok c).

Lemma validate_config_blocks : num_blocks c = 2 \/ 4 <= num_blocks c.
Proof.
  destruct Hc as [_ Hv _]. unfold etss_flash_fs_validate_config in Hv.
  repeat case_match; simplify_eq; try done.
  all: rewrite ?orb_true_iff, ?orb_false_iff in *; lia.
Qed.

Lemma nact_range : 1 <= nact c < 65536.
Proof.
  pose proof validate_config_blocks. destruct Hc as [[] _ _]. unfold nact, is_u16 in *.
  destruct (Z.eqb_spec (num_blocks c) 2); lia.
Qed.

Lemma files_range : 0 <= max_num_files c < 65536.
Proof. by destruct Hc as [[] _ _]. Qed.
Lemma block_size_range : 0 <= block_size c < 4294967296.
Proof. by destruct Hc as [[] _ _]. Qed.

Lemma num_active_eq : etss_num_active_dblocks c = nact c.
Proof.
  pose proof validate_config_blocks as Hb. destruct Hc as [[] _ _]. unfold is_u16 in *.
  unfold etss_num_active_dblocks, etss_num_dedicated_dblocks, etss_init_dblock_start, nact.
  destruct (Z.eqb_spec (num_blocks c) 2); [done|].
  rewrite sub32_small by lia. rewrite add32_small by lia. lia.
Qed.

Lemma fs_num_active_eq : etss_flash_fs_num_active_dblocks c = nact c.
Proof.
  pose proof validate_config_blocks as Hb. destruct Hc as [[] _ _]. unfold is_u16 in *.
  unfold etss_flash_fs_num_active_dblocks, nact.
  destruct (Z.eqb_spec (num_blocks c) 2); [done|]. rewrite w32_small by lia. lia.
Qed.

Lemma block_meta_offset_eq l : 0 <= l < 65537 -> etss_mblock_block_meta_offset l = bmo l.
Proof.
  intros Hl. unfold etss_mblock_block_meta_offset, ETSS_BLOCK_META_HEADER_SIZE,
    ETSS_BLOCK_METADATA_SIZE, bmo.
  rewrite mul32_small, add32_small by lia. lia.
Qed.

Lemma file_meta_offset_eq i :
  0 <= i < 65537 -> etss_mblock_file_meta_offset c i = fmo c i.
Proof.
  intros Hi. pose proof nact_range.
  unfold etss_mblock_file_meta_offset, ETSS_BLOCK_META_HEADER_SIZE,
    ETSS_BLOCK_METADATA_SIZE, ETSS_FILE_METADATA_SIZE, fmo.
  rewrite num_active_eq. rewrite !mul32_small by lia.
  rewrite (add32_small 8) by lia. rewrite add32_small by lia. lia.
Qed.

Lemma all_metadata_size_eq : etss_flash_fs_all_metadata_size c = fmo c (max_num_files c).
Proof.
  pose proof nact_range. pose proof files_range.
  unfold etss_flash_fs_all_metadata_size, ETSS_BLOCK_META_HEADER_SIZE,
    ETSS_BLOCK_METADATA_SIZE, ETSS_FILE_METADATA_SIZE, fmo.
  rewrite fs_num_active_eq. rewrite !mul32_small by lia.
  rewrite (add32_small 8) by lia. rewrite add32_small by lia. lia.
Qed.

(** The metadata fits in a block. *)
Lemma metadata_fits : fmo c (max_num_files c) <= block_size c.
Proof.
  destruct Hc as [_ Hv _]. unfold etss_flash_fs_validate_config in Hv.
  rewrite all_metadata_size_eq in Hv.
  destruct (Z.gtb_spec (fmo c (max_num_files c)) (block_size c)); [done|lia].
Qed.

Lemma fmo_le i j : i <= j -> fmo c i <= fmo c j.
Proof. unfold fmo. lia. Qed.
Lemma fmo_S i : fmo c (i + 1) = fmo c i + 32.
Proof. unfold fmo. lia. Qed.
Lemma bmo_fmo : bmo (nact c) = fmo c 0.
Proof. unfold bmo, fmo. lia. Qed.

(** Ranges of metadata inside metadata blocks 0 and 1. *)
Lemma in_block_bm b l : (b = 0 \/ b = 1) -> 0 <= l < nact c -> in_block c b (bmo l) 12.
Proof.
  intros Hb Hl. pose proof metadata_fits. pose proof validate_config_blocks.
  pose proof files_range. unfold in_block, bmo, fmo in *. lia.
Qed.
Lemma in_block_fm b i : (b = 0 \/ b = 1) -> 0 <= i < max_num_files c -> in_block c b (fmo c i) 32.
Proof.
  intros Hb Hl. pose proof metadata_fits. pose proof validate_config_blocks.
  pose proof nact_range. unfold in_block, fmo in *. lia.
Qed.
Lemma in_block_hdr b : (b = 0 \/ b = 1) -> in_block c b 0 8.
Proof.
  intros Hb. pose proof metadata_fits. pose proof validate_config_blocks.
  pose proof nact_range. pose proof files_range. unfold in_block, fmo in *. lia.
Qed.
Lemma in_block_meta b off n : (b = 0 \/ b = 1) -> 0 <= off -> 0 <= n ->
  off + n <= fmo c (max_num_files c) -> in_block c b off n.
Proof.
  intros Hb ???. pose proof metadata_fits. pose proof validate_config_blocks.
  unfold in_block in *. lia.
Qed.
End Geometry.

(** ** The metadata tables held by a metadata block *)

Definition hdr_at (f : image) (b : Z) : etss_metadata_block_header_t :=
  dec_header (rd (f b) 0 8).
Definition bm_at (f : image) (b l : Z) : etss_block_meta_t :=
  dec_block_meta (rd (f b) (bmo l) 12).
Definition fm_at (c : etss_flash_fs_config_t) (f : image) (b i : Z) : etss_file_meta_t :=
  dec_file_meta (rd (f b) (fmo c i) 32).
(** The XOR of the whole metadata, header excluded. *)
Definition meta_xor (c : etss_flash_fs_config_t) (f : image) (b : Z) : Z :=
  xor_bytes 0 (rd (f b) 8 (fmo c (max_num_files c) - 8)).

Definition erased (c : etss_flash_fs_config_t) (f : image) (b off n : Z) : Prop :=
  forall o, off <= o < off + n -> f b o = erase_val c.

Lemma erased_sub c f b off n off' n' :
  erased c f b off n -> off <= off' -> off' + n' <= off + n -> erased c f b off' n'.
Proof. intros H ?? o Ho. apply H. lia. Qed.

(** ** Frames *)

Section Frames.
Context {E : Type} `{FL : FlashLaws E c}.
Implicit Types s : fs_state E.

Definition im s : image := img (fs_env s).

(** The context and all bytes outside [R] are the same, and a healthy
    device stays healthy. *)
Definition upto (R : Z -> Z -> Prop) s s' : Prop :=
  fs_ctx s' = fs_ctx s /\ (forall b o, ~ R b o -> im s' b o = im s b o) /\
  (healthy (c := c) (fs_env s) -> healthy (c := c) (fs_env s')).

Definition nowhere : Z -> Z -> Prop := fun _ _ => False.
Definition within (b off n : Z) : Z -> Z -> Prop := fun b' o => b' = b /\ off <= o < off + n.

Lemma upto_refl R s : upto R s s.
Proof. done. Qed.
Lemma upto_trans R s1 s2 s3 : upto R s1 s2 -> upto R s2 s3 -> upto R s1 s3.
Proof.
  intros (C1 & H1 & L1) (C2 & H2 & L2). split; [congruence|]. split; [|auto].
  intros b o Hn. by rewrite H2, H1.
Qed.
Lemma upto_weaken R R' s s' : upto R s s' -> (forall b o, R b o -> R' b o) -> upto R' s s'.
Proof.
  intros (C & H & L) HR. split; [done|]. split; [|done].
  intros b o Hn. apply H. by intros ?%HR.
Qed.
Lemma upto_cfg R s s' c' : upto R s s' -> cfg (fs_ctx s) = c' -> cfg (fs_ctx s') = c'.
Proof. by intros [-> _]. Qed.
Lemma upto_ctx R s s' : upto R s s' -> fs_ctx s' = fs_ctx s.
Proof. by intros [-> _]. Qed.
Lemma upto_im R s s' b o : upto R s s' -> ~ R b o -> im s' b o = im s b o.
Proof. intros (_ & H & _). apply H. Qed.
Lemma upto_sick R s s' : upto R s s' -> ~ healthy (c := c) (fs_env s') -> ~ healthy (c := c) (fs_env s).
Proof. intros (_ & _ & H) Hn ?. auto. Qed.
Lemma upto_nowhere s s' b o : upto nowhere s s' -> im s' b o = im s b o.
Proof. intros (_ & H & _). apply H. intros []. Qed.
Lemma upto_any R s s' : upto nowhere s s' -> upto R s s'.
Proof. intros H. eapply upto_weaken; [exact H|]. intros b o []. Qed.
Lemma upto_within_sub b off n off' n' s s' :
  upto (within b off n) s s' -> off' <= off -> off + n <= off' + n' ->
  upto (within b off' n') s s'.
Proof. intros H ??. eapply upto_weaken; [exact H|]. intros b' o [-> ?]. split; [done|lia]. Qed.

#[export] Instance upto_preorder R : PreOrder (upto R).
Proof. split; [intros s; apply upto_refl|intros s1 s2 s3; apply upto_trans]. Qed.

Lemma upto_rd R s s' b off n :
  upto R s s' -> (forall o, off <= o < off + n -> ~ R b o) ->
  rd (im s' b) off n = rd (im s b) off n.
Proof. intros (_ & H & _) Hn. apply rd_ext. intros o Ho. apply H. by apply Hn. Qed.
End Frames.


(** ** The operations table *)

Section OpsSpec.
Context {E : Type} {FO : FlashOps E} (c : etss_flash_fs_config_t) {FL : FlashLaws E c}.
Implicit Types s : fs_state E.

Definition sick s : Prop := ~ healthy (c := c) (fs_env s).

Lemma wp_get_ctx s (Q : outcome etss_flash_fs_ctx_t -> fs_state E -> Prop) :
  Q (Ok (fs_ctx s)) s -> wp get_ctx s Q.
Proof using Type. done. Qed.

(** The shape shared by the operations that only return a status. *)
Lemma wp_status (x : etss_flash_fs_ctx_t) st (e' : E) (Q : outcome unit -> fs_state E -> Prop) :
  (st = PSA_SUCCESS -> Q (Ok tt) {| fs_ctx := x; fs_env := e' |}) ->
  (st <> PSA_SUCCESS -> Q (Err st) {| fs_ctx := x; fs_env := e' |}) ->
  Q (check st {| fs_ctx := x; fs_env := e' |}).1 (check st {| fs_ctx := x; fs_env := e' |}).2.
Proof using Type. intros H1 H2. by apply wp_check. Qed.

Lemma wp_ops_init s :
  cfg (fs_ctx s) = c ->
  wp ops_init s (fun r s' => upto nowhere s s' /\ (r = Ok tt \/ sick s)).
Proof.
  intros Hs. unfold wp, ops_init. rewrite Hs.
  pose proof (law_init (c := c) (fs_env s)) as HL. destruct (fl_init _ _) as [st e'].
  destruct HL as [HI HH].
  assert (upto nowhere s {| fs_ctx := fs_ctx s; fs_env := e' |}) as Hup.
  { split; [done|]. split; [intros b o _; apply HI|]. intros Hh. by apply HH. }
  apply wp_status; [by auto|]. intros Hst. split; [done|right]. intros Hh. by apply Hst, HH.
Qed.

Lemma wp_ops_flush b s :
  cfg (fs_ctx s) = c ->
  wp (ops_flush b) s (fun r s' => upto nowhere s s' /\ (r = Ok tt \/ sick s)).
Proof.
  intros Hs. unfold wp, ops_flush. rewrite Hs.
  pose proof (law_flush (c := c) b (fs_env s)) as HL. destruct (fl_flush _ _ _) as [st e'].
  destruct HL as [HI HH].
  assert (upto nowhere s {| fs_ctx := fs_ctx s; fs_env := e' |}) as Hup.
  { split; [done|]. split; [intros b' o _; apply HI|]. intros Hh. by apply HH. }
  apply wp_status; [by auto|]. intros Hst. split; [done|right]. intros Hh. by apply Hst, HH.
Qed.

Lemma wp_ops_read_raw b off n s :
  cfg (fs_ctx s) = c -> in_block c b off n ->
  wp (ops_read_raw b off n) s (fun r s' =>
    upto nowhere s s' /\
    exists st bs, r = Ok (st, bs) /\ Forall is_u8 bs /\
      (st = PSA_SUCCESS -> bs = rd (im s b) off n) /\ (st = PSA_SUCCESS \/ sick s)).
Proof.
  intros Hs Hb. unfold wp, ops_read_raw. rewrite Hs.
  pose proof (law_read (c := c) b off n (fs_env s) Hb) as HL.
  destruct (fl_read _ _ _ _ _) as [[st bs] e']. destruct HL as (HI & HB & Hlen & Hu8 & HH).
  simpl. split.
  { split; [done|]. split; [intros b' o _; apply HI|]. intros Hh. by apply HH. }
  exists st, bs. split_and!; [done..|].
  destruct (decide (st = PSA_SUCCESS)) as [|Hst]; [by left|right]. intros Hh. by apply Hst, HH.
Qed.

Lemma wp_ops_read b off n s :
  cfg (fs_ctx s) = c -> in_block c b off n ->
  wp (ops_read b off n) s (fun r s' =>
    upto nowhere s s' /\
    match r with Ok bs => bs = rd (im s b) off n | Err e => sick s end).
Proof.
  intros Hs Hb. unfold ops_read. eapply wp_seq; [by apply wp_ops_read_raw| |].
  { intros e s' (_ & st & bs & [=] & _). }
  intros [st bs] s' (Hup & st' & bs' & [= <- <-] & _ & Hbs & Hst'). simpl.
  apply wp_bind, wp_check; intros Hst.
  - apply wp_ret. auto.
  - split; [done|]. by destruct Hst'.
Qed.

Lemma wp_ops_write_torn b buf off n s :
  cfg (fs_ctx s) = c -> in_block c b off n ->
  n <= Z.of_nat (length buf) -> Forall is_u8 buf ->
  wp (ops_write b buf off n) s (fun r s' =>
    exists k, 0 <= k <= n /\ (r = Ok tt -> k = n) /\ upto (within b off k) s s' /\
      (erased c (im s) b off k ->
       forall i, 0 <= i < k -> im s' b (off + i) = nth_byte buf i) /\
      (r = Ok tt \/ sick s)).
Proof.
  intros Hs Hb Hn Hu. unfold wp, ops_write. rewrite Hs.
  pose proof (law_write (c := c) b buf off n (fs_env s) Hb Hn Hu) as HL.
  destruct (fl_write _ _ _ _ _ _) as [st e']. destruct HL as (k & Hk & Hok & Hout & Hin & HH).
  assert (upto (within b off k) s {| fs_ctx := fs_ctx s; fs_env := e' |}) as Hup.
  { split; [done|]. split; [exact Hout|]. intros Hh. by apply HH. }
  assert (erased c (im s) b off k -> forall i, 0 <= i < k ->
    im {| fs_ctx := fs_ctx s; fs_env := e' |} b (off + i) = nth_byte buf i) as Hw.
  { intros He i Hi. apply Hin; [done|]. apply He. lia. }
  apply wp_status; intros Hst; exists k; split_and!; auto; try lia; try done.
  right. intros Hh. by apply Hst, HH.
Qed.

Lemma wp_ops_write b buf off n s :
  cfg (fs_ctx s) = c -> in_block c b off n ->
  n <= Z.of_nat (length buf) -> Forall is_u8 buf ->
  wp (ops_write b buf off n) s (fun r s' =>
    upto (within b off n) s s' /\
    (r = Ok tt -> erased c (im s) b off n ->
     forall i, 0 <= i < n -> im s' b (off + i) = nth_byte buf i) /\
    (r = Ok tt \/ sick s)).
Proof.
  intros Hs Hb Hn Hu. eapply wp_mono; [by apply wp_ops_write_torn|].
  intros r s' (k & Hk & Hok & Hup & Hin & Hr). split_and!; [|..|done].
  - eapply upto_within_sub; [done|lia..].
  - intros Hr'. specialize (Hok Hr') as ->. done.
Qed.

Lemma wp_ops_erase b s :
  cfg (fs_ctx s) = c -> 0 <= b < num_blocks c ->
  wp (ops_erase b) s (fun r s' =>
    exists k, 0 <= k <= block_size c /\ (r = Ok tt -> k = block_size c) /\
      upto (within b 0 k) s s' /\ erased c (im s') b 0 k /\ (r = Ok tt \/ sick s)).
Proof.
  intros Hs Hb. unfold wp, ops_erase. rewrite Hs.
  pose proof (law_erase (c := c) b (fs_env s) Hb) as HL.
  destruct (fl_erase _ _ _) as [st e']. destruct HL as (k & Hk & Hok & Hout & Hin & HH).
  assert (upto (within b 0 k) s {| fs_ctx := fs_ctx s; fs_env := e' |}) as Hup.
  { split; [done|]. split; [|intros Hh; by apply HH].
    intros b' o Hno. apply Hout. intros [-> ?]. apply Hno. split; [done|lia]. }
  assert (erased c (im {| fs_ctx := fs_ctx s; fs_env := e' |}) b 0 k) as Her.
  { intros o Ho. apply Hin. lia. }
  apply wp_status; intros Hst; exists k; split_and!; auto; try lia; try done.
  right. intros Hh. by apply Hst, HH.
Qed.

(** ** Moving data *)

(** The bytes [off', off' + n) of [b'] in [g] are those of [b] at [off] in [f]. *)
Definition copied (f : image) (b off : Z) (g : image) (b' off' n : Z) : Prop :=
  forall i, 0 <= i < n -> g b' (off' + i) = f b (off + i).

Lemma wp_move_loop fuel dst doff src soff n s :
  cfg (fs_ctx s) = c -> dst <> src -> in_block c dst doff n -> in_block c src soff n ->
  block_size c < 4294967296 ->
  n <= Z.of_nat fuel ->
  wp (move_loop fuel dst doff src soff n) s (fun r s' =>
    upto (within dst doff n) s s' /\
    (r = Ok tt -> erased c (im s) dst doff n -> copied (im s) src soff (im s') dst doff n) /\
    (r = Ok tt \/ sick s)).
Proof.
  intros Hs Hne Hd Hsr Hbs. revert doff soff n s Hs Hd Hsr.
  induction fuel as [|fuel IH]; intros doff soff n s Hs Hd Hsr Hf.
  { cbn [move_loop]. destruct (Z.gtb_spec n 0); [lia|].
    apply wp_ret. split_and!; [done| |by left]. intros _ _ i Hi. lia. }
  cbn [move_loop]. destruct (Z.gtb_spec n 0) as [Hn|Hn]; cbn [negb].
  2: { apply wp_ret. split_and!; [done| |by left]. intros _ _ i Hi. lia. }
  rewrite etss_min_spec. unfold ETSS_MAX_BLOCK_DATA_COPY. set (k := Z.min n 256).
  assert (0 < k <= n) as Hk by lia.
  destruct Hd as (Hd1 & Hd2 & Hd3 & Hd4). destruct Hsr as (Hs1 & Hs2 & Hs3 & Hs4).
  eapply wp_seq; [apply wp_ops_read; [done|unfold in_block; lia]| |].
  { intros e s1 [Hup Hsick]. split_and!; [by apply upto_any|done|by right]. }
  intros bs s1 [Hup1 ->].
  pose proof (upto_cfg _ _ _ _ Hup1 Hs) as Hc1.
  assert (forall b o, im s1 b o = im s b o) as He1 by eauto using upto_nowhere.
  eapply wp_seq; [apply wp_ops_write; [done|unfold in_block; lia| |]| |].
  { rewrite rd_length. lia. }
  { apply rd_Forall. intros o. apply img_u8. }
  { intros e s2 (Hup2 & _ & [[=]|Hsick]). split_and!; [|done|].
    - transitivity s1; [by apply upto_any|]. eapply upto_within_sub; [exact Hup2|lia..].
    - right. by eapply upto_sick. }
  intros [] s2 (Hup2 & Hw & _). specialize (Hw eq_refl).
  rewrite !add32_small, sub32_small by lia.
  pose proof (upto_cfg _ _ _ _ Hup2 Hc1) as Hc2.
  eapply wp_mono.
  { apply (IH (doff + k) (soff + k) (n - k) s2 Hc2); [unfold in_block; lia..|lia]. }
  intros r s3 (Hup3 & Hcp & Hsick). split_and!.
  { transitivity s1; [by apply upto_any|]. transitivity s2.
    - eapply upto_within_sub; [exact Hup2|lia..].
    - eapply upto_within_sub; [exact Hup3|lia..]. }
  2: { destruct Hsick as [?|Hsick]; [by left|right].
       eapply upto_sick, upto_sick; [done..|]. exact Hsick. }
  intros Hr Her i Hi. destruct (decide (i < k)) as [Hik|Hik].
  - rewrite (upto_im _ _ _ _ _ Hup3) by (intros [_ ?]; lia).
    rewrite Hw; [|intros o Ho; rewrite He1; apply Her; lia|lia].
    by rewrite nth_byte_rd by lia.
  - replace (doff + i) with (doff + k + (i - k)) by lia.
    rewrite (Hcp Hr); [|..|lia].
    + replace (soff + k + (i - k)) with (soff + i) by lia.
      rewrite (upto_im _ _ _ _ _ Hup2) by (intros [? _]; done). apply He1.
    + intros o Ho. rewrite (upto_im _ _ _ _ _ Hup2) by (intros [_ ?]; lia). rewrite He1. apply Her. lia.
Qed.

Lemma wp_move dst doff src soff n s :
  cfg (fs_ctx s) = c -> dst <> src -> in_block c dst doff n -> in_block c src soff n ->
  block_size c < 4294967296 ->
  wp (etss_flash_fs_block_to_block_move dst doff src soff n) s (fun r s' =>
    upto (within dst doff n) s s' /\
    (r = Ok tt -> erased c (im s) dst doff n -> copied (im s) src soff (im s') dst doff n) /\
    (r = Ok tt \/ sick s)).
Proof. intros. apply wp_move_loop; [done..|lia]. Qed.

(** More fuel changes nothing: the loop has ended with [size = 0]. *)
Lemma move_loop_fuel fuel1 fuel2 dst doff src soff n s :
  0 <= n < 4294967296 -> n <= Z.of_nat fuel1 -> n <= Z.of_nat fuel2 ->
  move_loop fuel1 dst doff src soff n s = move_loop fuel2 dst doff src soff n s.
Proof.
  revert fuel2 doff soff n s.
  induction fuel1 as [|fuel1 IH]; intros [|fuel2] doff soff n s Hn H1 H2;
    cbn [move_loop]; (destruct (Z.gtb_spec n 0); cbn [negb]; [|done]); [lia..|].
  rewrite etss_min_spec. unfold ETSS_MAX_BLOCK_DATA_COPY.
  unfold mbind, ST_bind. destruct (ops_read _ _ _ _) as [[bs|e] s1]; [|done].
  destruct (ops_write _ _ _ _ _) as [[[]|e] s2]; [|done].
  rewrite sub32_small by lia. apply IH; lia.
Qed.
End OpsSpec.
