(* ===== verification/FsReads.v ===== *)
(** * Metadata blocks: what the read functions return

    Specifications of the functions of [Mblock] that only read: the metadata
    reads, the XOR, the header validation, the file-table lookups and the
    reservation of space.  None of them changes a byte ([upto nowhere]). *)
From Stdlib Require Import ZArith Lia.
From stdpp Require Import base list numbers options.
From S2P Require Import Prelude EtssUtils FlashFsDefs Mblock FlashFs MblockSpec.

#[local] Set Default Proof Using "Type*".

(** ** Pure counterparts *)

(** The context of an initialised file system. *)
Record ctx_ok (c : etss_flash_fs_config_t) (x : etss_flash_fs_ctx_t) : Prop := {
  cx_cfg : cfg x = c;
  cx_blocks : (active_metablock x = 0 /\ scratch_metablock x = 1) \/
              (active_metablock x = 1 /\ scratch_metablock x = 0)
}.

(** Is [h] the header of a valid metadata block [b]? *)
Definition header_valid (c : etss_flash_fs_config_t) (f : image)
    (h : etss_metadata_block_header_t) (b : Z) : bool :=
  if fs_version h =? ETSS_BACKWARD_SUPPORTED_VERSION
  then negb (comp_active_swap_count h =? erase_val c)
  else if fs_version h =? ETSS_SUPPORTED_VERSION
  then negb (active_swap_count h =? erase_val c) && (meta_xor c f b =? metadata_xor h)
  else false.

(** The first index that satisfies [p], from [i] on. *)
Fixpoint first_index (p : Z -> bool) (n : nat) (i : Z) : option Z :=
  match n with
  | O => None
  | S n => if p i then Some i else first_index p n (i + 1)
  end.

Lemma first_index_some p n i k :
  first_index p n i = Some k ->
  i <= k < i + Z.of_nat n /\ p k = true /\ (forall j, i <= j < k -> p j = false).
Proof.
  revert i. induction n as [|n IH]; intros i; cbn [first_index]; [done|].
  destruct (p i) eqn:Hp.
  - intros [= <-]. split_and!; [lia..|done|]. intros j ?. lia.
  - intros (? & ? & Hj)%IH. split_and!; [lia..|done|].
    intros j ?. destruct (decide (j = i)) as [->|]; [done|]. apply Hj. lia.
Qed.

Lemma first_index_none p n i :
  first_index p n i = None -> forall j, i <= j < i + Z.of_nat n -> p j = false.
Proof.
  revert i. induction n as [|n IH]; intros i; cbn [first_index]; [lia|].
  destruct (p i) eqn:Hp; [done|]. intros H j Hj.
  destruct (decide (j = i)) as [->|]; [done|]. apply (IH _ H). lia.
Qed.

Lemma first_index_exists p n i k :
  i <= k < i + Z.of_nat n -> p k = true -> exists k', first_index p n i = Some k' /\ k' <= k.
Proof.
  revert i. induction n as [|n IH]; intros i Hk Hp; cbn [first_index]; [lia|].
  destruct (p i) eqn:Hpi; [exists i; split; [done|lia]|].
  apply IH; [|done]. destruct (decide (k = i)) as [->|]; [congruence|lia].
Qed.

Lemma first_index_ext p q n i :
  (forall j, i <= j < i + Z.of_nat n -> p j = q j) -> first_index p n i = first_index q n i.
Proof.
  revert i. induction n as [|n IH]; intros i H; cbn [first_index]; [done|].
  rewrite H by lia. destruct (q i); [done|]. apply IH. intros. apply H. lia.
Qed.

(** The search of [etss_get_free_file_index]: the first index with [p] if
    [use_spare], the second otherwise. *)
Fixpoint free_index (p : Z -> bool) (n : nat) (i : Z) (use_spare : bool) : option Z :=
  match n with
  | O => None
  | S n => if p i then if use_spare then Some i else free_index p n (i + 1) true
           else free_index p n (i + 1) use_spare
  end.

Lemma free_index_some p n i u k :
  free_index p n i u = Some k -> i <= k < i + Z.of_nat n /\ p k = true.
Proof.
  revert i u. induction n as [|n IH]; intros i u; cbn [free_index]; [done|].
  destruct (p i) eqn:Hp; [destruct u|].
  - intros [= <-]. split; [lia|done].
  - intros [? ?]%IH. split; [lia|done].
  - intros [? ?]%IH. split; [lia|done].
Qed.

Lemma free_index_spare p n i : free_index p n i true = first_index p n i.
Proof.
  revert i. induction n as [|n IH]; intros i; cbn [free_index first_index]; [done|].
  by rewrite IH.
Qed.

(** Two free entries are enough without the spare one. *)
Lemma free_index_two p n i j k :
  i <= j < k -> k < i + Z.of_nat n -> p j = true -> p k = true ->
  exists k', free_index p n i false = Some k'.
Proof.
  revert i. induction n as [|n IH]; intros i Hj Hk Hpj Hpk; cbn [free_index]; [lia|].
  destruct (p i) eqn:Hpi.
  - rewrite free_index_spare.
    destruct (first_index_exists p n (i + 1) k) as (k' & -> & _); [lia|done|by eexists].
  - apply IH; [|lia|done..]. destruct (decide (i = j)) as [->|]; [congruence|lia].
Qed.

Lemma xor_bytes_app acc l1 l2 : xor_bytes acc (l1 ++ l2) = xor_bytes (xor_bytes acc l1) l2.
Proof. apply fold_left_app. Qed.

(** ** Reads leave the tables alone *)

Section Reads.
Context {E : Type} {FO : FlashOps E} (c : etss_flash_fs_config_t) {FL : FlashLaws E c}.
Context (Hc : cfg_ok c).
Implicit Types s : fs_state E.

(** [m] returns [v], or fails because the device does; nothing changes. *)
Definition yields {A} s (v : A) (r : outcome A) s' : Prop :=
  upto nowhere s s' /\ match r with Ok a => a = v | Err _ => sick c s end.

Lemma wp_yields {A B} (m : FS E A) (k : A -> FS E B) s v Q :
  wp m s (yields s v) ->
  (forall e s', upto nowhere s s' -> sick c s -> Q (Err e) s') ->
  (forall s', upto nowhere s s' -> wp (k v) s' Q) ->
  wp (m ≫= k) s Q.
Proof using Type.
  intros Hm He Hk. eapply wp_seq; [exact Hm|..].
  - intros e s' [? ?]. by apply He.
  - intros a s' [? ->]. by apply Hk.
Qed.

Lemma nw_rd s s' b off n : upto nowhere s s' -> rd (im s' b) off n = rd (im s b) off n.
Proof using Type. intros H. apply rd_ext. intros. by apply upto_nowhere. Qed.
Lemma nw_fm s s' b i : upto nowhere s s' -> fm_at c (im s') b i = fm_at c (im s) b i.
Proof using Type. intros H. unfold fm_at. by rewrite (nw_rd s s'). Qed.
Lemma nw_bm s s' b l : upto nowhere s s' -> bm_at (im s') b l = bm_at (im s) b l.
Proof using Type. intros H. unfold bm_at. by rewrite (nw_rd s s'). Qed.
Lemma nw_hdr s s' b : upto nowhere s s' -> hdr_at (im s') b = hdr_at (im s) b.
Proof using Type. intros H. unfold hdr_at. by rewrite (nw_rd s s'). Qed.
Lemma nw_xor s s' b : upto nowhere s s' -> meta_xor c (im s') b = meta_xor c (im s) b.
Proof using Type. intros H. unfold meta_xor. by rewrite (nw_rd s s'). Qed.
Lemma nw_sick s s' : upto nowhere s s' -> sick c s' -> sick c s.
Proof using Type. apply upto_sick. Qed.
Lemma ctx_cfg s : ctx_ok c (fs_ctx s) -> cfg (fs_ctx s) = c.
Proof using Type. by intros []. Qed.
Lemma ctx_act s : ctx_ok c (fs_ctx s) ->
  active_metablock (fs_ctx s) = 0 \/ active_metablock (fs_ctx s) = 1.
Proof using Type. intros [_ Hb]. lia. Qed.
Lemma upto_ctx_ok R s s' : upto R s s' -> ctx_ok c (fs_ctx s) -> ctx_ok c (fs_ctx s').
Proof using Type. by intros [-> _]. Qed.

(** ** Reading one entry *)

Lemma wp_read_file_meta i s :
  ctx_ok c (fs_ctx s) -> 0 <= i < max_num_files c ->
  let m := fm_at c (im s) (active_metablock (fs_ctx s)) i in
  wp (etss_flash_fs_mblock_read_file_meta i) s (fun r s' =>
    upto nowhere s s' /\
    match r with
    | Ok m' => m' = m /\ etss_mblock_validate_file_meta c m = PSA_SUCCESS
    | Err e => sick c s \/
        (e = etss_mblock_validate_file_meta c m /\ e <> PSA_SUCCESS)
    end).
Proof.
  intros Hx Hi m. unfold etss_flash_fs_mblock_read_file_meta.
  apply wp_bind, wp_get_ctx. pose proof (files_range c Hc).
  rewrite (ctx_cfg s Hx), file_meta_offset_eq by (done || lia).
  apply (wp_yields _ _ _ (rd (im s (active_metablock (fs_ctx s))) (fmo c i) 32)).
  { apply wp_ops_read; [by apply ctx_cfg|]. apply in_block_fm; [done|by apply ctx_act|done]. }
  { auto. }
  intros s1 Hup. apply wp_bind, wp_check; intros Hv; [by apply wp_ret|auto].
Qed.

Lemma wp_read_file_meta_valid i s :
  ctx_ok c (fs_ctx s) -> 0 <= i < max_num_files c ->
  etss_mblock_validate_file_meta c (fm_at c (im s) (active_metablock (fs_ctx s)) i) = PSA_SUCCESS ->
  wp (etss_flash_fs_mblock_read_file_meta i) s
    (yields s (fm_at c (im s) (active_metablock (fs_ctx s)) i)).
Proof.
  intros Hx Hi Hv. eapply wp_mono; [by apply wp_read_file_meta|].
  intros [m'|e] s' [Hup Hr]; (split; [done|]); [by destruct Hr|].
  destruct Hr as [?|[-> ?]]; done.
Qed.

Lemma wp_read_block_metadata l s :
  ctx_ok c (fs_ctx s) -> 0 <= l < nact c ->
  let m := bm_at (im s) (active_metablock (fs_ctx s)) l in
  wp (etss_flash_fs_mblock_read_block_metadata l) s (fun r s' =>
    upto nowhere s s' /\
    match r with
    | Ok m' => m' = m /\ etss_mblock_validate_block_meta c m = PSA_SUCCESS
    | Err e => sick c s \/
        (e = etss_mblock_validate_block_meta c m /\ e <> PSA_SUCCESS)
    end).
Proof.
  intros Hx Hi m. unfold etss_flash_fs_mblock_read_block_metadata.
  apply wp_bind, wp_get_ctx. pose proof (nact_range c Hc).
  rewrite block_meta_offset_eq by lia.
  apply (wp_yields _ _ _ (rd (im s (active_metablock (fs_ctx s))) (bmo l) 12)).
  { apply wp_ops_read; [by apply ctx_cfg|]. apply in_block_bm; [done|by apply ctx_act|done]. }
  { auto. }
  intros s1 Hup. rewrite (ctx_cfg s Hx).
  apply wp_bind, wp_check; intros Hv; [by apply wp_ret|auto].
Qed.

Lemma wp_read_block_metadata_valid l s :
  ctx_ok c (fs_ctx s) -> 0 <= l < nact c ->
  etss_mblock_validate_block_meta c (bm_at (im s) (active_metablock (fs_ctx s)) l) = PSA_SUCCESS ->
  wp (etss_flash_fs_mblock_read_block_metadata l) s
    (yields s (bm_at (im s) (active_metablock (fs_ctx s)) l)).
Proof.
  intros Hx Hi Hv. eapply wp_mono; [by apply wp_read_block_metadata|].
  intros [m'|e] s' [Hup Hr]; (split; [done|]); [by destruct Hr|].
  destruct Hr as [?|[-> ?]]; done.
Qed.

(** ** The XOR *)

(** One of the two loops: entry [i] is the [n] bytes at [base + n * i]. *)
Lemma wp_xor_loop b base n cnt (off : Z -> Z) acc s :
  cfg (fs_ctx s) = c -> 0 <= b < num_blocks c -> 0 <= base -> 0 <= n ->
  base + n * Z.of_nat cnt <= block_size c ->
  (forall i, 0 <= i < Z.of_nat cnt -> off i = base + n * i) ->
  wp (for_acc cnt 0 acc (fun i a =>
        metadata ← ops_read b (off i) n; mret (xor_bytes a metadata))) s
    (yields s (xor_bytes acc (rd (im s b) base (n * Z.of_nat cnt)))).
Proof.
  intros Hs Hb Hbase Hn Hfit Hoff.
  apply (wp_for_acc (fun i a s1 => upto nowhere s s1 /\
           a = xor_bytes acc (rd (im s b) base (n * i)))).
  - split; [done|]. by rewrite Z.mul_0_r.
  - intros i a s1 Hi [Hup ->]. rewrite Hoff by lia.
    eapply wp_yields.
    { apply wp_ops_read; [by eapply upto_cfg|]. unfold in_block. nia. }
    { intros e s2 Hup2 Hsick. split; [by transitivity s1|]. by eapply nw_sick. }
    intros s2 Hup2. apply wp_ret. split; [by transitivity s1|].
    rewrite (nw_rd s s1) by done.
    by rewrite <- xor_bytes_app, Z.mul_add_distr_l, Z.mul_1_r, rd_app by lia.
  - intros a s1 [Hup ->]. split; [done|]. by rewrite Z.add_0_l.
Qed.

Lemma wp_calculate_metadata_xor b s :
  cfg (fs_ctx s) = c -> b = 0 \/ b = 1 ->
  wp (etss_mblock_calculate_metadata_xor b) s (yields s (meta_xor c (im s) b)).
Proof.
  intros Hs Hb. unfold etss_mblock_calculate_metadata_xor, ETSS_METADATA_BLOCK0, ETSS_METADATA_BLOCK1.
  replace (negb (b =? 0) && negb (b =? 1)) with false by (destruct Hb as [-> | ->]; done).
  apply wp_bind, wp_get_ctx. rewrite Hs, num_active_eq by done.
  pose proof (nact_range c Hc). pose proof (files_range c Hc). pose proof (metadata_fits c Hc) as Hfit.
  pose proof (validate_config_blocks c Hc). unfold fmo in Hfit.
  eapply wp_yields.
  { apply (wp_xor_loop b 8 12); [done|lia..|].
    intros i Hi. rewrite block_meta_offset_eq by lia. done. }
  { intros e s1 Hup Hsick. by split. }
  intros s1 Hup. rewrite Z2Nat.id by lia.
  eapply wp_mono.
  { apply (wp_xor_loop b (8 + 12 * nact c) 32); [by eapply upto_cfg|lia..|].
    intros i Hi. rewrite file_meta_offset_eq by (done || lia). done. }
  intros r s2 [Hup2 Hr]. split; [by transitivity s1|].
  destruct r as [v|e]; [|by eapply nw_sick].
  rewrite Hr, (nw_rd s s1), <- xor_bytes_app, Z2Nat.id by (done || lia).
  unfold meta_xor, fmo.
  replace (8 + 12 * nact c + 32 * max_num_files c - 8) with (12 * nact c + 32 * max_num_files c) by lia.
  by rewrite rd_app by lia.
Qed.

(** ** Header validation *)

Lemma wp_validate_header_meta h b s :
  cfg (fs_ctx s) = c -> b = 0 \/ b = 1 ->
  wp (etss_mblock_validate_header_meta h b) s (fun r s' => upto nowhere s s' /\
    ((r = Ok tt /\ header_valid c (im s) h b = true) \/
     (exists e, r = Err e /\ (header_valid c (im s) h b = false \/ sick c s)))).
Proof.
  intros Hs Hb. unfold etss_mblock_validate_header_meta, etss_mblock_validate_fs_version,
    header_valid, etss_mblock_validate_swap_count.
  apply wp_bind, wp_get_ctx. rewrite Hs.
  destruct (Z.eqb_spec (fs_version h) ETSS_BACKWARD_SUPPORTED_VERSION) as [Hv1|Hv1].
  { destruct (Z.eqb_spec (comp_active_swap_count h) (erase_val c)) as [Hsw|Hsw];
      (split; [done|]); simpl; eauto 6. }
  destruct (Z.eqb_spec (fs_version h) ETSS_SUPPORTED_VERSION) as [Hv2|Hv2].
  2: { apply wp_raise. split; [done|]. eauto. }
  destruct (Z.eqb_spec (active_swap_count h) (erase_val c)) as [Hsw|Hsw].
  { split; [done|]. simpl. eauto 6. }
  apply wp_bind, wp_check; [intros _|done].
  unfold etss_mblock_validate_metadata_xor.
  eapply wp_yields; [by apply wp_calculate_metadata_xor|by eauto 6|].
  intros s1 Hup. simpl.
  destruct (Z.eqb_spec (meta_xor c (im s) b) (metadata_xor h)); simpl;
    [apply wp_ret|apply wp_raise]; eauto 6.
Qed.

Definition probe_spec (f : image) (b : Z) : option etss_metadata_block_header_t :=
  if header_valid c f (hdr_at f b) b then Some (hdr_at f b) else None.

Lemma wp_probe_metablock b s :
  cfg (fs_ctx s) = c -> b = 0 \/ b = 1 ->
  wp (probe_metablock b) s (fun r s' => upto nowhere s s' /\
    (r = Ok (probe_spec (im s) b) \/ (sick c s /\ r = Ok None))).
Proof.
  intros Hs Hb. unfold probe_metablock, probe_spec.
  eapply wp_seq; [apply wp_ops_read_raw; [done|by apply in_block_hdr]|..].
  { intros e s' (_ & st & bs & [=] & _). }
  intros [st' bs'] s1 (Hup & st & bs & [= -> ->] & _ & Hbs & Hst); simpl.
  destruct (Z.eqb_spec st PSA_SUCCESS) as [Hok|Hok].
  2: { apply wp_ret. split; [done|]. destruct Hst; [done|auto]. }
  specialize (Hbs Hok) as ->. apply wp_bind, wp_attempt.
  eapply wp_mono; [apply wp_validate_header_meta; [by eapply upto_cfg|done]|].
  change (dec_header (rd (im s b) 0 ETSS_BLOCK_META_HEADER_SIZE)) with (hdr_at (im s) b).
  unfold header_valid. rewrite (nw_xor s s1) by done. fold (header_valid c (im s) (hdr_at (im s) b) b).
  intros r s2 [Hup2 [[-> ->]|(e & -> & Hr)]]; apply wp_ret; (split; [by transitivity s1|]).
  - by left.
  - destruct Hr as [-> | Hsick]; [by left|right]. split; [by eapply nw_sick|done].
Qed.

(** ** Lookups in the file table *)

Definition act s : Z := active_metablock (fs_ctx s).
Definition nfiles : nat := Z.to_nat (max_num_files c).

(** All entries of the active tables pass their checks. *)
Definition files_valid s : Prop := forall i, 0 <= i < max_num_files c ->
  etss_mblock_validate_file_meta c (fm_at c (im s) (act s) i) = PSA_SUCCESS.
Definition blocks_valid s : Prop := forall l, 0 <= l < nact c ->
  etss_mblock_validate_block_meta c (bm_at (im s) (act s) l) = PSA_SUCCESS.

(** [m] returns [v], or [e0] because the device fails; nothing changes. *)
Definition answers {A} s (v : outcome A) (e0 : Z) (r : outcome A) s' : Prop :=
  upto nowhere s s' /\ (r = v \/ (sick c s /\ r = Err e0)).

Lemma nw_act s s' : upto nowhere s s' -> act s' = act s.
Proof using Type. unfold act. by intros [-> _]. Qed.
Lemma nw_files_valid s s' : upto nowhere s s' -> files_valid s -> files_valid s'.
Proof using Type. intros Hup Hv i Hi. rewrite (nw_fm s s'), (nw_act s s') by done. by apply Hv. Qed.
Lemma nw_blocks_valid s s' : upto nowhere s s' -> blocks_valid s -> blocks_valid s'.
Proof using Type. intros Hup Hv i Hi. rewrite (nw_bm s s'), (nw_act s s') by done. by apply Hv. Qed.

Lemma wp_read_fm i s :
  ctx_ok c (fs_ctx s) -> files_valid s -> 0 <= i < max_num_files c ->
  wp (etss_flash_fs_mblock_read_file_meta i) s (yields s (fm_at c (im s) (act s) i)).
Proof. intros Hx Hv Hi. apply wp_read_file_meta_valid; auto. Qed.

Lemma wp_read_bm l s :
  ctx_ok c (fs_ctx s) -> blocks_valid s -> 0 <= l < nact c ->
  wp (etss_flash_fs_mblock_read_block_metadata l) s (yields s (bm_at (im s) (act s) l)).
Proof. intros Hx Hv Hl. apply wp_read_block_metadata_valid; auto. Qed.

(** [or_return] keeps the value and fixes the error. *)
Lemma wp_yields_or {A} (m : FS E A) e0 s v :
  wp m s (yields s v) -> wp (or_return m e0) s (answers s (Ok v) e0).
Proof using Type.
  intros Hm. apply wp_or_return. eapply wp_mono; [exact Hm|].
  intros [a|e] s' [Hup Hr]; (split; [done|]); [subst; by left|by right].
Qed.

Lemma wp_answers {A B} (m : FS E A) (k : A -> FS E B) e0 s v Q :
  wp m s (answers s (Ok v) e0) ->
  (forall s', upto nowhere s s' -> sick c s -> Q (Err e0) s') ->
  (forall s', upto nowhere s s' -> wp (k v) s' Q) ->
  wp (m ≫= k) s Q.
Proof using Type.
  intros Hm He Hk. eapply wp_seq; [exact Hm|..].
  - intros e s' [? [[=]|[? [= ->]]]]. by apply He.
  - intros a s' [? [[= ->]|[_ [=]]]]. by apply Hk.
Qed.

(** The search loop of the two lookups. *)
Lemma wp_search (p : etss_file_meta_t -> bool) s :
  ctx_ok c (fs_ctx s) -> files_valid s ->
  wp (r ← for_loop nfiles 0 tt (fun i _ =>
        tmp_metadata ← or_return (etss_flash_fs_mblock_read_file_meta i)
                         PSA_ERROR_GENERIC_ERROR;
        if p tmp_metadata then mret (Done i) else mret (Next tt));
      match r with Done i => mret i | Next _ => raise PSA_ERROR_DOES_NOT_EXIST end) s
    (answers s
       match first_index (fun i => p (fm_at c (im s) (act s) i)) nfiles 0 with
       | Some i => Ok i
       | None => Err PSA_ERROR_DOES_NOT_EXIST
       end PSA_ERROR_GENERIC_ERROR).
Proof.
  intros Hx Hv. set (q := fun i => p (fm_at c (im s) (act s) i)). unfold nfiles in *.
  pose proof (files_range c Hc) as HN.
  apply wp_bind, (wp_for_loop (fun i (_ : unit) s1 => upto nowhere s s1 /\
    first_index q (Z.to_nat (max_num_files c)) 0
    = first_index q (Z.to_nat (max_num_files c) - Z.to_nat i) i)).
  - split; [done|]. by rewrite Nat.sub_0_r.
  - intros i [] s1 Hi [Hup Hfi]. apply wp_answers with (e0 := PSA_ERROR_GENERIC_ERROR)
      (v := fm_at c (im s) (act s) i).
    { rewrite <- (nw_fm s s1), <- (nw_act s s1) by done. apply wp_yields_or, wp_read_fm; [|by eapply nw_files_valid|lia].
      by eapply upto_ctx_ok. }
    { intros s2 Hup2 Hsick. split; [by transitivity s1|]. right. split; [by eapply nw_sick|done]. }
    intros s2 Hup2.
    replace (Z.to_nat (max_num_files c) - Z.to_nat i)%nat
      with (S (Z.to_nat (max_num_files c) - Z.to_nat (i + 1))) in Hfi by lia.
    cbn [first_index] in Hfi. unfold q at 2 in Hfi. destruct (p _); apply wp_ret.
    + apply wp_ret. split; [by transitivity s1|]. left. by rewrite Hfi.
    + split; [by transitivity s1|done].
  - intros [] s1 [Hup ->]. apply wp_raise. split; [done|]. left.
    by replace (Z.to_nat (max_num_files c) - _)%nat with O by lia.
Qed.

Definition find_id s (fid : list Z) : option Z :=
  first_index (fun i => bool_decide (id (fm_at c (im s) (act s) i) = fid)) nfiles 0.
Definition find_flag s (flgs : Z) : option Z :=
  first_index (fun i => negb (Z.land (flags (fm_at c (im s) (act s) i)) flgs =? 0)) nfiles 0.

Definition found (o : option Z) : outcome Z :=
  match o with Some i => Ok i | None => Err PSA_ERROR_DOES_NOT_EXIST end.

Lemma wp_get_file_idx fid s :
  ctx_ok c (fs_ctx s) -> files_valid s ->
  wp (etss_flash_fs_mblock_get_file_idx fid) s
    (answers s (found (find_id s fid)) PSA_ERROR_GENERIC_ERROR).
Proof.
  intros Hx Hv. unfold etss_flash_fs_mblock_get_file_idx.
  apply wp_bind, wp_get_ctx. rewrite (ctx_cfg s Hx).
  by apply (wp_search (fun m => bool_decide (id m = fid))).
Qed.

Lemma wp_get_file_idx_flag flgs s :
  ctx_ok c (fs_ctx s) -> files_valid s ->
  wp (etss_flash_fs_mblock_get_file_idx_flag flgs) s
    (answers s (found (find_flag s flgs)) PSA_ERROR_GENERIC_ERROR).
Proof.
  intros Hx Hv. unfold etss_flash_fs_mblock_get_file_idx_flag.
  apply wp_bind, wp_get_ctx. rewrite (ctx_cfg s Hx).
  by apply (wp_search (fun m => negb (Z.land (flags m) flgs =? 0))).
Qed.

(** The free entries. *)
Definition unused (m : etss_file_meta_t) : bool :=
  negb (etss_utils_validate_fid (id m) =? PSA_SUCCESS).

Definition find_free s (use_spare : bool) : option Z :=
  free_index (fun i => unused (fm_at c (im s) (act s) i)) nfiles 0 use_spare.

Lemma wp_get_free_file_index u s :
  ctx_ok c (fs_ctx s) -> files_valid s ->
  wp (etss_get_free_file_index u) s (fun r s' => upto nowhere s s' /\
    (r = Ok (default ETSS_METADATA_INVALID_INDEX (find_free s u)) \/
     (sick c s /\ r = Ok ETSS_METADATA_INVALID_INDEX))).
Proof.
  intros Hx Hv. unfold etss_get_free_file_index, find_free, nfiles.
  set (q := fun i => unused (fm_at c (im s) (act s) i)).
  apply wp_bind, wp_get_ctx. rewrite (ctx_cfg s Hx). pose proof (files_range c Hc) as HN.
  apply wp_bind, (wp_for_loop (fun i u' s1 => upto nowhere s s1 /\
    free_index q (Z.to_nat (max_num_files c)) 0 u
    = free_index q (Z.to_nat (max_num_files c) - Z.to_nat i) i u')).
  - split; [done|]. by rewrite Nat.sub_0_r.
  - intros i u' s1 Hi [Hup Hfi]. apply wp_bind, wp_attempt.
    eapply wp_mono.
    { apply wp_read_fm; [by eapply upto_ctx_ok|by eapply nw_files_valid|lia]. }
    intros [m|e] s2 [Hup2 Hm].
    2: { apply wp_ret, wp_ret. split; [by transitivity s1|]. right. split; [by eapply nw_sick|done]. }
    rewrite (nw_fm s s1), (nw_act s s1) in Hm by done. subst m.
    replace (Z.to_nat (max_num_files c) - Z.to_nat i)%nat
      with (S (Z.to_nat (max_num_files c) - Z.to_nat (i + 1))) in Hfi by lia.
    cbn [free_index] in Hfi. unfold q at 2, unused at 1 in Hfi.
    destruct (negb _); [destruct u'|]; apply wp_ret; [apply wp_ret| |];
      (split; [by transitivity s1|]); rewrite ?Hfi; auto.
  - intros u' s1 [Hup ->]. apply wp_ret. split; [done|]. left.
    by replace (Z.to_nat (max_num_files c) - _)%nat with O by lia.
Qed.

(** ** Reserving space for a new file *)

(** First fit over the logical blocks. *)
Definition find_room s (size : Z) : option Z :=
  first_index (fun l => free_size (bm_at (im s) (act s) l) >=? size)
    (Z.to_nat (nact c)) 0.

Definition new_file_meta (l idx size flgs : Z) (fid : list Z) : etss_file_meta_t :=
  {| lblock := l; data_idx := idx; max_size := size; id := fid; cur_size := 0;
     flags := flgs |}.

Definition reservation s fid size flgs (l : Z) : etss_file_meta_t * etss_block_meta_t :=
  let bm := bm_at (im s) (act s) l in
  (new_file_meta l (sub32 (block_size c) (free_size bm)) size flgs fid,
   set_free_size (sub32 (free_size bm) size) bm).

Lemma wp_mblock_reserve fid size flgs s :
  ctx_ok c (fs_ctx s) -> blocks_valid s ->
  wp (etss_mblock_reserve_file fid size flgs) s
    (answers s match find_room s size with
               | Some l => Ok (reservation s fid size flgs l)
               | None => Err PSA_ERROR_INSUFFICIENT_STORAGE
               end PSA_ERROR_GENERIC_ERROR).
Proof.
  intros Hx Hv. unfold etss_mblock_reserve_file, find_room.
  set (q := fun l => free_size (bm_at (im s) (act s) l) >=? size).
  apply wp_bind, wp_get_ctx. rewrite (ctx_cfg s Hx), num_active_eq by done.
  pose proof (nact_range c Hc) as HN.
  apply wp_bind, (wp_for_loop (fun i (_ : unit) s1 => upto nowhere s s1 /\
    first_index q (Z.to_nat (nact c)) 0
    = first_index q (Z.to_nat (nact c) - Z.to_nat i) i)).
  - split; [done|]. by rewrite Nat.sub_0_r.
  - intros i [] s1 Hi [Hup Hfi]. apply wp_answers with (e0 := PSA_ERROR_GENERIC_ERROR)
      (v := bm_at (im s) (act s) i).
    { rewrite <- (nw_bm s s1), <- (nw_act s s1) by done.
      apply wp_yields_or, wp_read_bm; [by eapply upto_ctx_ok|by eapply nw_blocks_valid|lia]. }
    { intros s2 Hup2 Hsick. split; [by transitivity s1|]. right. split; [by eapply nw_sick|done]. }
    intros s2 Hup2.
    replace (Z.to_nat (nact c) - Z.to_nat i)%nat
      with (S (Z.to_nat (nact c) - Z.to_nat (i + 1))) in Hfi by lia.
    cbn [first_index] in Hfi. unfold q at 2 in Hfi. destruct (_ >=? size); apply wp_ret.
    + apply wp_ret. split; [by transitivity s1|]. left. by rewrite Hfi.
    + split; [by transitivity s1|done].
  - intros [] s1 [Hup ->]. apply wp_raise. split; [done|]. left.
    by replace (Z.to_nat (nact c) - _)%nat with O by lia.
Qed.

Definition reserved s fid (u : bool) size flgs
    : outcome (Z * etss_file_meta_t * etss_block_meta_t) :=
  match find_room s size, find_free s u with
  | Some l, Some i => Ok (i, (reservation s fid size flgs l).1, (reservation s fid size flgs l).2)
  | _, _ => Err PSA_ERROR_INSUFFICIENT_STORAGE
  end.

Lemma find_free_range s u i : find_free s u = Some i -> 0 <= i < max_num_files c.
Proof. intros [? _]%free_index_some. unfold nfiles in *. pose proof (files_range c Hc). lia. Qed.

(** A search that only reads finds the same in the same bytes. *)
Lemma nw_find_free s s' u : upto nowhere s s' -> find_free s' u = find_free s u.
Proof.
  intros Hup. unfold find_free. rewrite (nw_act s s') by done.
  assert (forall n j b, free_index (fun i => unused (fm_at c (im s') (act s) i)) n j b
    = free_index (fun i => unused (fm_at c (im s) (act s) i)) n j b) as ->; [|done].
  induction n as [|n IH]; intros j b; cbn [free_index]; [done|].
  rewrite (nw_fm s s') by done. by rewrite !IH.
Qed.

Lemma nw_find_room s s' size : upto nowhere s s' -> find_room s' size = find_room s size.
Proof.
  intros Hup. unfold find_room. rewrite (nw_act s s') by done. generalize (Z.to_nat (nact c)), 0.
  induction n as [|n IH]; intros j; cbn [first_index]; [done|].
  rewrite (nw_bm s s') by done. by rewrite !IH.
Qed.

Lemma wp_reserve_file fid u size flgs s :
  ctx_ok c (fs_ctx s) -> blocks_valid s -> files_valid s ->
  wp (etss_flash_fs_mblock_reserve_file fid u size flgs) s
    (answers s (reserved s fid u size flgs) PSA_ERROR_INSUFFICIENT_STORAGE).
Proof.
  intros Hx Hbv Hfv. pose proof (files_range c Hc). unfold etss_flash_fs_mblock_reserve_file.
  apply wp_bind, wp_attempt. eapply wp_mono; [by apply wp_mblock_reserve|].
  intros r s1 [Hup1 Hr]. eapply wp_seq.
  { apply wp_get_free_file_index; [by eapply upto_ctx_ok|by eapply nw_files_valid]. }
  { by intros e s2 (_ & [[=]|[_ [=]]]). }
  intros i s2 [Hup2 Hi].
  pose proof (nw_find_free s s1 u Hup1) as Hff.
  rewrite Hff in Hi. unfold reserved.
  assert (upto nowhere s s2) as Hup by by transitivity s1.
  destruct Hr as [-> | [Hsick ->]]; [|apply wp_raise; split; [exact Hup|by right]].
  destruct (find_room s size) as [l|]; [|apply wp_raise; split; [exact Hup|by left]].
  destruct (find_free s u) as [k|] eqn:Hk; simpl in Hi.
  - destruct Hi as [[= ->]|[Hsick [= ->]]].
    + apply find_free_range in Hk. unfold ETSS_METADATA_INVALID_INDEX.
      destruct (Z.eqb_spec k 65535) as [->|].
      * lia.
      * apply wp_ret. split; [done|by left].
    + rewrite Z.eqb_refl. apply wp_raise. split; [done|right].
      split; [exact (nw_sick _ _ Hup1 Hsick)|done].
  - assert (i = ETSS_METADATA_INVALID_INDEX) as -> by by destruct Hi as [[= ->]|[_ [= ->]]].
    rewrite Z.eqb_refl. apply wp_raise. split; [exact Hup|by left].
Qed.
End Reads.
