(* ===== verification/FsTables.v ===== *)
(** * The abstract file system

    The metadata of a block as two tables, what makes them well formed, and
    the abstraction function [view]: the finite map from file identifiers to
    file contents that the tables and the flash contents describe. *)
From Stdlib Require Import ZArith Lia.
From stdpp Require Import base list numbers gmap options.
From S2P Require Import Prelude EtssUtils FlashFsDefs Mblock FlashFs MblockSpec FsReads.

(** ** Tables *)

Record tables : Type := {
  tb : Z -> etss_block_meta_t;
  tf : Z -> etss_file_meta_t
}.

Definition tables_at (c : etss_flash_fs_config_t) (f : image) (b : Z) : tables :=
  {| tb := bm_at f b; tf := fm_at c f b |}.

Definition flagged (m : etss_file_meta_t) : bool :=
  negb (Z.land (flags m) ETSS_FLASH_FS_FLAG_DELETE =? 0).
Definition live (m : etss_file_meta_t) : bool := negb (unused m) && negb (flagged m).

(** The end of the used part of a logical block. *)
Definition used_end (c : etss_flash_fs_config_t) (m : etss_block_meta_t) : Z :=
  block_size c - free_size m.

(** The files of [ord] lie one after the other from [pos] to [stop]. *)
Fixpoint placed (F : Z -> etss_file_meta_t) (pos : Z) (ord : list Z) (stop : Z) : Prop :=
  match ord with
  | [] => pos = stop
  | i :: ord' => data_idx (F i) = pos /\ placed F (pos + max_size (F i)) ord' stop
  end.

Section Tables.
Context (c : etss_flash_fs_config_t).

Definition in_file_table (i : Z) : Prop := 0 <= i < max_num_files c.
Definition in_block_table (l : Z) : Prop := 0 <= l < nact c.

(** Entry [i] is a file of logical block [l]. *)
Definition file_in (T : tables) (l i : Z) : Prop :=
  in_file_table i /\ unused (tf T i) = false /\ lblock (tf T i) = l.

(** The files of block [l], in the order of their data. *)
Definition layout (T : tables) (l : Z) (ord : list Z) : Prop :=
  NoDup ord /\ (forall i, i ∈ ord <-> file_in T l i) /\
  placed (tf T) (data_start (tb T l)) ord (used_end c (tb T l)).

(** Well-formed tables of the metadata block [b], with scratch data block [D]. *)
Record wf (T : tables) (b D : Z) : Prop := {
  wf_bm : forall l, in_block_table l ->
    etss_mblock_validate_block_meta c (tb T l) = PSA_SUCCESS;
  wf_bm_typed : forall l, in_block_table l -> block_meta_typed (tb T l);
  wf_fm : forall i, in_file_table i ->
    etss_mblock_validate_file_meta c (tf T i) = PSA_SUCCESS;
  wf_fm_typed : forall i, in_file_table i -> file_meta_typed (tf T i);
  wf_phy0 : phy_id (tb T 0) = b;
  wf_phy : forall l, in_block_table l -> l <> 0 ->
    2 <= phy_id (tb T l) /\ phy_id (tb T l) <> D;
  wf_inj : forall l l', in_block_table l -> in_block_table l' ->
    phy_id (tb T l) = phy_id (tb T l') -> l = l';
  wf_D : num_blocks c <> 2 -> 2 <= D < num_blocks c;
  wf_layout : forall l, in_block_table l -> exists ord, layout T l ord;
  wf_uniq : forall i j, in_file_table i -> in_file_table j ->
    live (tf T i) = true -> live (tf T j) = true -> id (tf T i) = id (tf T j) -> i = j;
  wf_flag_used : forall i, in_file_table i -> flagged (tf T i) = true -> unused (tf T i) = false;
  wf_flag_one : forall i j, in_file_table i -> in_file_table j ->
    flagged (tf T i) = true -> flagged (tf T j) = true -> i = j;
  wf_flag_pos : forall i, in_file_table i -> flagged (tf T i) = true -> 0 < max_size (tf T i)
}.

(** No file waits for its deletion. *)
Definition clean (T : tables) : Prop := forall i, in_file_table i -> flagged (tf T i) = false.

(** ** The view *)

Record afile : Type := { af_data : list Z; af_max : Z; af_flags : Z }.

(** Byte [o] of logical block [l]. *)
Definition lb_byte (f : image) (T : tables) (l o : Z) : Z := f (phy_id (tb T l)) o.

Definition file_of (f : image) (T : tables) (m : etss_file_meta_t) : afile :=
  {| af_data := rd (lb_byte f T (lblock m)) (data_idx m) (cur_size m);
     af_max := max_size m; af_flags := flags m |}.

Definition entry (f : image) (T : tables) (i : Z) : option (list Z * afile) :=
  if live (tf T i) then Some (id (tf T i), file_of f T (tf T i)) else None.

Definition view (f : image) (T : tables) : gmap (list Z) afile :=
  list_to_map (omap (entry f T) (seqZ 0 (max_num_files c))).

Definition uniq (T : tables) : Prop := forall i j, in_file_table i -> in_file_table j ->
  live (tf T i) = true -> live (tf T j) = true -> id (tf T i) = id (tf T j) -> i = j.

Lemma entries_NoDup f T (L : list Z) :
  uniq T -> NoDup L -> (forall i, i ∈ L -> in_file_table i) ->
  NoDup (omap (entry f T) L).*1.
Proof.
  intros Hu. induction 1 as [|i L Hi HL IH]; intros Hr; [constructor|].
  simpl. unfold entry at 1. destruct (live (tf T i)) eqn:Hlv; simpl.
  2: { apply IH. intros j Hj. apply Hr. by right. }
  constructor; [|apply IH; intros j Hj; apply Hr; by right].
  intros ([fid F] & Heq & Hin)%list_elem_of_fmap. simpl in *. subst fid.
  apply list_elem_of_omap in Hin as (j & Hj & He). unfold entry in He.
  destruct (live (tf T j)) eqn:Hlj; [|done]. injection He as Hid _.
  assert (i = j) as ->; [|done].
  apply Hu; [apply Hr; by left|apply Hr; by right|done..].
Qed.

Lemma view_lookup f T fid F :
  uniq T ->
  view f T !! fid = Some F <->
  exists i, in_file_table i /\ live (tf T i) = true /\ id (tf T i) = fid /\
    F = file_of f T (tf T i).
Proof.
  intros Hu. unfold view.
  rewrite <- elem_of_list_to_map.
  2: { apply entries_NoDup; [done|apply NoDup_seqZ|]. intros i Hi%elem_of_seqZ.
       unfold in_file_table. lia. }
  rewrite list_elem_of_omap. unfold entry. split.
  - intros (i & Hi%elem_of_seqZ & He). destruct (live (tf T i)) eqn:Hl; [|done].
    injection He as <- <-. exists i. unfold in_file_table. split_and!; done || lia.
  - intros (i & Hi & Hl & <- & ->). exists i. rewrite Hl. split; [|done].
    apply elem_of_seqZ. unfold in_file_table in Hi. lia.
Qed.

Lemma view_lookup_none f T fid :
  uniq T ->
  view f T !! fid = None <->
  forall i, in_file_table i -> live (tf T i) = true -> id (tf T i) <> fid.
Proof.
  intros Hu. rewrite eq_None_not_Some. split.
  - intros Hn i Hi Hl <-. apply Hn. exists (file_of f T (tf T i)).
    apply view_lookup; eauto.
  - intros Hn [F (i & Hi & Hl & Hid & _)%view_lookup]; [|done]. by eapply Hn.
Qed.

(** Two views are equal at an identifier if the same files carry it. *)
Lemma view_eq_at f T f' T' fid :
  uniq T -> uniq T' ->
  (forall i, in_file_table i -> live (tf T i) = true -> id (tf T i) = fid ->
     live (tf T' i) = true /\ id (tf T' i) = fid /\ file_of f' T' (tf T' i) = file_of f T (tf T i)) ->
  (forall i, in_file_table i -> live (tf T' i) = true -> id (tf T' i) = fid ->
     live (tf T i) = true /\ id (tf T i) = fid) ->
  view f' T' !! fid = view f T !! fid.
Proof.
  intros Hu Hu' H1 H2. destruct (view f T !! fid) as [F|] eqn:HF.
  - apply view_lookup in HF as (i & Hi & Hl & Hid & ->); [|done].
    apply view_lookup; [done|]. destruct (H1 i Hi Hl Hid) as (? & ? & ?). eauto.
  - apply view_lookup_none; [done|]. intros i Hi Hl Hid.
    destruct (H2 i Hi Hl Hid) as [Hl2 Hid2].
    rewrite view_lookup_none in HF by done. by eapply HF.
Qed.

(** One file written. *)
Lemma view_insert f T f' T' k fid :
  uniq T -> uniq T' -> in_file_table k ->
  live (tf T' k) = true -> id (tf T' k) = fid ->
  (live (tf T k) = true -> id (tf T k) = fid) ->
  (forall i, in_file_table i -> i <> k -> id (tf T i) <> fid ->
     tf T' i = tf T i /\ (live (tf T i) = true -> file_of f' T' (tf T i) = file_of f T (tf T i))) ->
  (forall i, in_file_table i -> i <> k -> id (tf T i) = fid -> id (tf T' i) = fid) ->
  view f' T' = <[fid := file_of f' T' (tf T' k)]> (view f T).
Proof.
  intros Hu Hu' Hk Hlk Hidk HTk Hoth Hsame. apply map_eq. intros fid'.
  destruct (decide (fid' = fid)) as [->|Hne].
  { rewrite lookup_insert_eq. apply view_lookup; eauto. }
  rewrite lookup_insert_ne by done. apply view_eq_at; [done..| |].
  - intros i Hi Hl Hid. assert (i <> k) as Hik by (intros ->; by rewrite HTk in Hid).
    destruct (Hoth i Hi Hik) as [-> Hf]; [congruence|]. auto.
  - intros i Hi Hl Hid. assert (i <> k) as Hik by (intros ->; congruence).
    destruct (decide (id (tf T i) = fid)) as [Hf|Hf].
    + apply Hsame in Hf; [congruence|done..].
    + destruct (Hoth i Hi Hik Hf) as [He _]. by rewrite <- He.
Qed.

(** One file removed; other entries may have moved. *)
Lemma view_delete f T f' T' k fid :
  uniq T -> uniq T' -> in_file_table k ->
  live (tf T' k) = false -> live (tf T k) = true -> id (tf T k) = fid ->
  (forall i, in_file_table i -> i <> k ->
     live (tf T' i) = live (tf T i) /\ id (tf T' i) = id (tf T i) /\
     (live (tf T i) = true -> file_of f' T' (tf T' i) = file_of f T (tf T i))) ->
  view f' T' = delete fid (view f T).
Proof.
  intros Hu Hu' Hk Hlk' Hlk Hid Hoth. apply map_eq. intros fid'.
  destruct (decide (fid' = fid)) as [->|Hne].
  - rewrite lookup_delete_eq. apply view_lookup_none; [done|].
    intros i Hi Hl Hf. assert (i <> k) as Hik by (intros ->; congruence).
    destruct (Hoth i Hi Hik) as (Hl2 & Hi2 & _). apply Hik, Hu; congruence.
  - rewrite lookup_delete_ne by done. apply view_eq_at; [done..| |].
    + intros i Hi Hl Hf. assert (i <> k) as Hik by (intros ->; congruence).
      destruct (Hoth i Hi Hik) as (-> & -> & Hd). auto.
    + intros i Hi Hl Hf. assert (i <> k) as Hik by (intros ->; congruence).
      destruct (Hoth i Hi Hik) as (<- & <- & _). auto.
Qed.

Lemma view_same f T f' T' :
  uniq T -> uniq T' ->
  (forall i, in_file_table i ->
     live (tf T' i) = live (tf T i) /\
     (live (tf T i) = true -> id (tf T' i) = id (tf T i) /\
        file_of f' T' (tf T' i) = file_of f T (tf T i))) ->
  view f' T' = view f T.
Proof.
  intros Hu Hu' H. apply map_eq. intros fid. apply view_eq_at; [done..| |].
  - intros i Hi Hl Hf. destruct (H i Hi) as [-> Hs]. destruct (Hs Hl) as [-> ?]. auto.
  - intros i Hi Hl Hf. destruct (H i Hi) as [He Hs]. rewrite He in Hl.
    destruct (Hs Hl) as [<- ?]. auto.
Qed.

Lemma wf_to_uniq T b D : wf T b D -> uniq T.
Proof. intros []. done. Qed.
End Tables.
