(* ===== verification/FsUpdate.v ===== *)
(** * Updates of well-formed tables

    The two changes the file system makes to its tables, writing a file
    ([put_file], [put_block]) and deleting one ([del_tables]), and why the
    result is well formed again. *)
From Stdlib Require Import ZArith Lia.
From stdpp Require Import base list numbers gmap options.
From S2P Require Import Prelude EtssUtils FlashFsDefs Mblock FlashFs MblockSpec FsReads.
From S2P Require Import FsTables.

#[local] Set Default Proof Using "Type*".

(** ** Files one after the other *)

Lemma placed_app F pos o1 o2 stop :
  placed F pos (o1 ++ o2) stop <-> exists mid, placed F pos o1 mid /\ placed F mid o2 stop.
Proof.
  revert pos. induction o1 as [|i o1 IH]; intros pos; simpl.
  - split; [eauto|]. by intros (mid & <- & ?).
  - rewrite IH. split; [intros (? & mid & ? & ?)|intros (mid & (? & ?) & ?)]; eauto.
Qed.

Lemma placed_ext F G pos ord stop :
  (forall i, i ∈ ord -> data_idx (G i) = data_idx (F i) /\ max_size (G i) = max_size (F i)) ->
  placed F pos ord stop -> placed G pos ord stop.
Proof.
  revert pos. induction ord as [|i ord IH]; intros pos H; simpl; [done|].
  intros [<- Hp]. destruct (H i) as [-> ->]; [by left|]. split; [done|].
  apply IH; [|done]. intros j Hj. apply H. by right.
Qed.

Lemma placed_shift F G k pos ord stop :
  (forall i, i ∈ ord -> data_idx (G i) = data_idx (F i) - k /\ max_size (G i) = max_size (F i)) ->
  placed F pos ord stop -> placed G (pos - k) ord (stop - k).
Proof.
  revert pos. induction ord as [|i ord IH]; intros pos H; simpl; [by intros ->|].
  intros [<- Hp]. destruct (H i) as [-> ->]; [by left|]. split; [done|].
  replace (data_idx (F i) - k + max_size (F i)) with (data_idx (F i) + max_size (F i) - k) by lia.
  apply IH; [|done]. intros j Hj. apply H. by right.
Qed.

Lemma placed_bounds F pos ord stop :
  (forall i, i ∈ ord -> 0 <= max_size (F i)) -> placed F pos ord stop ->
  pos <= stop /\
  forall i, i ∈ ord -> pos <= data_idx (F i) /\ data_idx (F i) + max_size (F i) <= stop.
Proof.
  revert pos. induction ord as [|i ord IH]; intros pos H; simpl.
  - intros ->. split; [lia|]. by intros i ?%not_elem_of_nil.
  - intros [<- Hp]. pose proof (H i (list_elem_of_here _ _)).
    destruct (IH (data_idx (F i) + max_size (F i))) as [Hle Hin]; [|done|].
    { intros j Hj. apply H. by right. }
    split; [lia|]. intros j [->|Hj]%elem_of_cons; [lia|]. specialize (Hin j Hj). lia.
Qed.

Lemma placed_disjoint F pos ord stop i j :
  NoDup ord -> (forall i, i ∈ ord -> 0 <= max_size (F i)) -> placed F pos ord stop ->
  i ∈ ord -> j ∈ ord -> i <> j ->
  data_idx (F i) + max_size (F i) <= data_idx (F j) \/
  data_idx (F j) + max_size (F j) <= data_idx (F i).
Proof.
  intros Hnd Hmax. revert pos. induction Hnd as [|k ord Hk Hnd IH]; intros pos; simpl.
  { intros _ []%not_elem_of_nil. }
  intros [<- Hp] Hi Hj Hne.
  assert (forall i, i ∈ ord -> 0 <= max_size (F i)) as Hmax' by (intros; apply Hmax; by right).
  destruct (placed_bounds _ _ _ _ Hmax' Hp) as [_ Hb].
  apply elem_of_cons in Hi as [->|Hi], Hj as [->|Hj]; [done|..].
  - specialize (Hb j Hj). lia.
  - specialize (Hb i Hi). lia.
  - eapply IH; eauto.
Qed.

(** ** The checks, in arithmetic form *)

Section Checks.
Context (c : etss_flash_fs_config_t) (Hc : cfg_ok c).

Lemma validate_block_meta_iff m :
  block_meta_typed m ->
  etss_mblock_validate_block_meta c m = PSA_SUCCESS <->
  phy_id m < num_blocks c /\ data_start m + free_size m <= block_size c /\
  data_start m = (if (phy_id m =? 0) || (phy_id m =? 1) then fmo c (max_num_files c) else 0).
Proof.
  intros (Hp & Hd & Hf). unfold etss_mblock_validate_block_meta, ETSS_METADATA_BLOCK0, ETSS_METADATA_BLOCK1.
  rewrite file_meta_offset_eq by (done || (pose proof (files_range c Hc); lia)).
  destruct (Z.geb_spec (phy_id m) (num_blocks c)); [split; [done|lia]|].
  pose proof (contained_in_iff (block_size c) (data_start m) (free_size m)) as Hci.
  pose proof (block_size_range c Hc) as Hbs. specialize (Hci Hbs Hd Hf).
  destruct (Z.eqb_spec (etss_utils_check_contained_in (block_size c) (data_start m) (free_size m))
    PSA_SUCCESS) as [He|He]; cbn [negb].
  2: { split; [done|]. intros (_ & ? & _). tauto. }
  set (v := if _ || _ then _ else _).
  destruct (Z.eqb_spec (data_start m) v); cbn [negb]; (split; [|try done]).
  - intros _. split_and!; tauto || lia.
  - done.
  - intros (_ & _ & ?). done.
Qed.

Definition file_meta_fits (m : etss_file_meta_t) : Prop :=
  lblock m < nact c /\
  (unused m = false ->
   max_size m <= max_file_size c /\ cur_size m <= max_size m /\
   (lblock m = 0 -> fmo c (max_num_files c) <= data_idx m) /\
   data_idx m + max_size m <= block_size c).

Lemma validate_file_meta_iff m :
  file_meta_typed m ->
  etss_mblock_validate_file_meta c m = PSA_SUCCESS <-> file_meta_fits m.
Proof.
  intros (Hl & Hd & Hcs & Hm & _). unfold etss_mblock_validate_file_meta, file_meta_fits, unused,
    ETSS_LOGICAL_DBLOCK0.
  rewrite file_meta_offset_eq by (done || (pose proof (files_range c Hc); lia)).
  rewrite num_active_eq by done.
  destruct (Z.geb_spec (lblock m) (nact c)); [split; [done|lia]|].
  destruct (Z.eqb_spec (etss_utils_validate_fid (id m)) PSA_SUCCESS); cbn [negb].
  2: { split; [split; [lia|done]|done]. }
  destruct (Z.gtb_spec (max_size m) (max_file_size c)); [split; [done|intros [_ []]; lia || done]|].
  destruct (Z.gtb_spec (cur_size m) (max_size m)); [split; [done|intros [_ []]; lia || done]|].
  pose proof (contained_in_iff (block_size c) (data_idx m) (max_size m)) as Hci.
  specialize (Hci (block_size_range c Hc) Hd Hm).
  destruct (Z.eqb_spec (lblock m) 0); destruct (Z.ltb_spec (data_idx m) (fmo c (max_num_files c)));
    cbn [andb]; try (split; [done|intros [_ []]; lia || done]).
  all: destruct (Z.eqb_spec (etss_utils_check_contained_in (block_size c) (data_idx m) (max_size m))
    PSA_SUCCESS); cbn [negb]; split; try done;
    [intros _; split_and!; [lia|intros _; split_and!; tauto || lia]
    |intros [_ [_ (_ & _ & ?)]]; tauto].
Qed.

Lemma unused_zero : unused zero_file_meta = true.
Proof using Type. done. Qed.
Lemma flagged_zero : flagged zero_file_meta = false.
Proof using Type. done. Qed.
Lemma zero_typed : file_meta_typed zero_file_meta.
Proof using Type.
  unfold file_meta_typed, is_u32; simpl. split_and!; try lia; try done.
  repeat constructor; unfold is_u8; lia.
Qed.
End Checks.

(** ** Facts about well-formed tables *)

Section Facts.
Context (c : etss_flash_fs_config_t) (Hc : cfg_ok c) (T : tables) (b D : Z) (Hwf : wf c T b D).
Context (Hb : b = 0 \/ b = 1).

Lemma wf_bm_facts l : in_block_table c l ->
  0 <= phy_id (tb T l) < num_blocks c /\ 0 <= data_start (tb T l) /\ 0 <= free_size (tb T l) /\
  data_start (tb T l) + free_size (tb T l) <= block_size c /\
  data_start (tb T l) = (if l =? 0 then fmo c (max_num_files c) else 0).
Proof.
  intros Hl. pose proof (wf_bm_typed _ _ _ _ Hwf l Hl) as Hty.
  pose proof (proj1 (validate_block_meta_iff c Hc _ Hty) (wf_bm _ _ _ _ Hwf l Hl)) as (H1 & H2 & H3).
  destruct Hty as (? & ? & ?). unfold is_u32 in *. split_and!; try lia. rewrite H3.
  destruct (Z.eqb_spec l 0) as [->|Hne].
  - rewrite (wf_phy0 _ _ _ _ Hwf). by destruct Hb as [-> | ->].
  - pose proof (wf_phy _ _ _ _ Hwf l Hl Hne).
    destruct (Z.eqb_spec (phy_id (tb T l)) 0); [lia|].
    destruct (Z.eqb_spec (phy_id (tb T l)) 1); [lia|]. done.
Qed.

Lemma wf_fm_fits i : in_file_table c i -> file_meta_fits c (tf T i).
Proof.
  intros Hi. apply (validate_file_meta_iff c Hc); [by eapply wf_fm_typed|by eapply wf_fm].
Qed.

Lemma wf_max_nonneg i : in_file_table c i -> 0 <= max_size (tf T i).
Proof. intros Hi. pose proof (wf_fm_typed _ _ _ _ Hwf i Hi) as (_ & _ & _ & [? _] & _). done. Qed.

Lemma wf_file_in i : in_file_table c i -> unused (tf T i) = false ->
  file_in c T (lblock (tf T i)) i /\ in_block_table c (lblock (tf T i)).
Proof.
  intros Hi Hu. split; [done|]. destruct (wf_fm_fits i Hi) as [Hl _].
  pose proof (wf_fm_typed _ _ _ _ Hwf i Hi) as ([? _] & _). unfold in_block_table. lia.
Qed.

(** A file lies in the used part of its block. *)
Lemma wf_file_range i : in_file_table c i -> unused (tf T i) = false ->
  let m := tf T i in let bm := tb T (lblock m) in
  data_start bm <= data_idx m /\ data_idx m + max_size m <= used_end c bm /\
  0 <= cur_size m <= max_size m.
Proof.
  intros Hi Hu m bm. destruct (wf_file_in i Hi Hu) as [Hfi Hl].
  destruct (wf_layout _ _ _ _ Hwf _ Hl) as (ord & Hnd & Hord & Hp).
  apply placed_bounds in Hp as [_ Hin].
  2: { intros j Hj. apply Hord in Hj as [Hj _]. by apply wf_max_nonneg. }
  destruct (Hin i) as [H1 H2]; [by apply Hord|].
  destruct (wf_fm_fits i Hi) as [_ (_ & ? & _)]; [done|].
  pose proof (wf_fm_typed _ _ _ _ Hwf i Hi) as (_ & _ & [? _] & _). split_and!; done.
Qed.

(** Different files of a block do not overlap. *)
Lemma wf_disjoint i j :
  in_file_table c i -> in_file_table c j -> i <> j ->
  unused (tf T i) = false -> unused (tf T j) = false -> lblock (tf T i) = lblock (tf T j) ->
  data_idx (tf T i) + max_size (tf T i) <= data_idx (tf T j) \/
  data_idx (tf T j) + max_size (tf T j) <= data_idx (tf T i).
Proof.
  intros Hi Hj Hne Hui Huj Hlb. destruct (wf_file_in i Hi Hui) as [Hfi Hl].
  destruct (wf_layout _ _ _ _ Hwf _ Hl) as (ord & Hnd & Hord & Hp).
  eapply placed_disjoint; [exact Hnd| |exact Hp|by apply Hord|apply Hord; by rewrite Hlb|done].
  intros k Hk. apply Hord in Hk as [Hk _]. by apply wf_max_nonneg.
Qed.

Lemma wf_used_end l : in_block_table c l -> data_start (tb T l) <= used_end c (tb T l) <= block_size c.
Proof. intros Hl. pose proof (wf_bm_facts l Hl). unfold used_end. lia. Qed.

Lemma nact_one : num_blocks c = 2 -> nact c = 1.
Proof using Type. unfold nact. by intros ->. Qed.

Lemma wf_D_range l : in_block_table c l -> l <> 0 -> 2 <= D < num_blocks c.
Proof.
  intros Hl Hne. apply (wf_D _ _ _ _ Hwf). intros H2. pose proof (nact_one H2).
  unfold in_block_table in Hl. lia.
Qed.
End Facts.

(** ** Writing one file *)

Definition put_file (k : Z) (m : etss_file_meta_t) (T : tables) : tables :=
  {| tb := tb T; tf := fun i => if i =? k then m else tf T i |}.

(** Block [l] gets the metadata [bm]; block 0 lives in the new metadata block. *)
Definition put_block (b l : Z) (bm : etss_block_meta_t) (T : tables) : tables :=
  {| tb := fun j => let m := if j =? l then bm else tb T j in
                    if j =? 0 then set_phy_id b m else m;
     tf := tf T |}.

(** The scratch data block takes the place of the physical block of [l] when
    data was moved; otherwise nothing changes.  (For [l = 0], [put_block]
    gives the physical block.) *)
Definition swapped (T : tables) (D l p D' : Z) : Prop :=
  (l = 0 /\ is_u32 p /\ D' = D) \/ (p = phy_id (tb T l) /\ D' = D) \/
  (l <> 0 /\ p = D /\ D' = phy_id (tb T l)).

Section PutBlock.
Context (c : etss_flash_fs_config_t) (Hc : cfg_ok c).
Context (T : tables) (b D : Z) (Hwf : wf c T b D) (Hb : b = 0 \/ b = 1).
Context (b' D' l : Z) (bm : etss_block_meta_t).
Context (Hb' : b' = 0 \/ b' = 1) (Hl : in_block_table c l).
Context (Hsw : swapped T D l (phy_id bm) D').

Let T' : tables := put_block b' l bm T.

Lemma put_phy j : phy_id (tb T' j) =
  if j =? 0 then b' else if j =? l then phy_id bm else phy_id (tb T j).
Proof using Type.
  unfold T'; simpl. destruct (j =? l); by destruct (j =? 0).
Qed.

(** Where the physical blocks go. *)
Lemma put_phy_range j : in_block_table c j -> j <> 0 ->
  2 <= phy_id (tb T' j) < num_blocks c /\ phy_id (tb T' j) <> D'.
Proof.
  intros Hj Hne. rewrite put_phy. destruct (Z.eqb_spec j 0); [done|].
  pose proof (wf_phy _ _ _ _ Hwf j Hj Hne). pose proof (wf_bm_facts c Hc T b D Hwf Hb j Hj).
  destruct (Z.eqb_spec j l) as [->|Hjl].
  - pose proof (wf_D_range c Hc T b D Hwf Hb l Hl Hne). destruct Hsw as [(? & _)|[[-> ->]|(_ & -> & ->)]]; lia.
  - destruct Hsw as [(_ & _ & ->)|[[? ->]|(Hl0 & _ & ->)]]; [lia..|]. split; [lia|]. intros He.
    apply Hjl. by apply (wf_inj _ _ _ _ Hwf).
Qed.

Lemma put_phy_inj i j : in_block_table c i -> in_block_table c j ->
  phy_id (tb T' i) = phy_id (tb T' j) -> i = j.
Proof.
  intros Hi Hj He. destruct (decide (i = 0)) as [->|Hi0], (decide (j = 0)) as [->|Hj0]; [done|..].
  - pose proof (put_phy_range j Hj Hj0). rewrite <- He, put_phy in *. simpl in *. lia.
  - pose proof (put_phy_range i Hi Hi0). rewrite He, put_phy in *. simpl in *. lia.
  - rewrite !put_phy in He.
    destruct (Z.eqb_spec i 0); [done|]. destruct (Z.eqb_spec j 0); [done|].
    destruct (Z.eqb_spec i l) as [->|Hil], (Z.eqb_spec j l) as [->|Hjl]; [done|..].
    + pose proof (wf_phy _ _ _ _ Hwf j Hj Hj0).
      destruct Hsw as [(? & _)|[[Hp _]|(_ & Hp & _)]]; [lia|rewrite Hp in He..]; [|lia].
      by apply (wf_inj _ _ _ _ Hwf).
    + pose proof (wf_phy _ _ _ _ Hwf i Hi Hi0).
      destruct Hsw as [(? & _)|[[Hp _]|(_ & Hp & _)]]; [lia|rewrite Hp in He..]; [|lia].
      by apply (wf_inj _ _ _ _ Hwf).
    + by apply (wf_inj _ _ _ _ Hwf).
Qed.

Context (Hbm : block_meta_typed bm) (Hds : data_start bm = data_start (tb T l)).
Context (Hfs : data_start bm + free_size bm <= block_size c).

Lemma put_bm_typed j : in_block_table c j -> block_meta_typed (tb T' j).
Proof.
  intros Hj. unfold T'; simpl.
  assert (block_meta_typed (if j =? l then bm else tb T j)) as Hty.
  { destruct (Z.eqb_spec j l); [done|]. by apply (wf_bm_typed _ _ _ _ Hwf). }
  destruct (Z.eqb_spec j 0); [|done]. destruct Hty as (_ & ? & ?).
  split_and!; [|done..]. unfold is_u32; simpl. lia.
Qed.

Lemma put_bm_valid j : in_block_table c j ->
  etss_mblock_validate_block_meta c (tb T' j) = PSA_SUCCESS.
Proof.
  intros Hj. apply (validate_block_meta_iff c Hc); [by apply put_bm_typed|].
  assert (data_start (tb T' j) = data_start (tb T j)) as ->.
  { unfold T'; simpl. destruct (Z.eqb_spec j l) as [->|]; by case_match. }
  pose proof (wf_bm_facts c Hc T b D Hwf Hb j Hj) as (_ & _ & _ & Hsum & Hst). rewrite Hst.
  assert (data_start (tb T j) + free_size (tb T' j) <= block_size c) as Hle.
  { unfold T'; simpl. destruct (Z.eqb_spec j l) as [->|]; case_match; simpl; lia. }
  rewrite Hst in Hle. pose proof (validate_config_blocks c Hc).
  destruct (Z.eqb_spec j 0) as [->|Hne].
  - assert (phy_id (tb T' 0) = b') as -> by by rewrite put_phy.
    split_and!; [lia|done|]. by destruct Hb' as [-> | ->].
  - pose proof (put_phy_range j Hj Hne) as [Hr _]. split_and!; [lia|done|].
    destruct (Z.eqb_spec (phy_id (tb T' j)) 0); [lia|].
    destruct (Z.eqb_spec (phy_id (tb T' j)) 1); [lia|]. done.
Qed.
End PutBlock.

Section Put.
Context (c : etss_flash_fs_config_t) (Hc : cfg_ok c).
Context (T : tables) (b D : Z) (Hwf : wf c T b D) (Hb : b = 0 \/ b = 1).
Context (b' D' l k : Z) (bm : etss_block_meta_t) (m : etss_file_meta_t).
Context (Hb' : b' = 0 \/ b' = 1) (Hl : in_block_table c l) (Hk : in_file_table c k).
Context (Hsw : swapped T D l (phy_id bm) D').

Let T' : tables := put_file k m (put_block b' l bm T).

Context (Hbm : block_meta_typed bm) (Hds : data_start bm = data_start (tb T l)).
Context (Hfs : data_start bm + free_size bm <= block_size c).
Context (Hm : file_meta_typed m) (Hfit : file_meta_fits c m) (Hum : unused m = false).
Context (Hlm : lblock m = l).
Context (Hother : unused (tf T k) = true \/ lblock (tf T k) = l).
Context (Hlay : exists ord, layout c T' l ord).
Context (Huniq : forall i, in_file_table c i -> i <> k -> live m = true ->
           live (tf T i) = true -> id (tf T i) <> id m).
Context (Hflag : flagged m = false).

Lemma put_tf i : tf T' i = if i =? k then m else tf T i.
Proof using Type. done. Qed.

Lemma put_layout j : in_block_table c j -> exists ord, layout c T' j ord.
Proof.
  intros Hj. destruct (decide (j = l)) as [->|Hne]; [done|].
  destruct (wf_layout _ _ _ _ Hwf j Hj) as (ord & Hnd & Hord & Hp). exists ord.
  assert (forall i, file_in c T j i <-> file_in c T' j i) as Hfi.
  { intros i. unfold file_in. rewrite put_tf. destruct (Z.eqb_spec i k) as [->|]; [|done].
    split; intros (? & Hu & Hlb); [|congruence]. destruct Hother; congruence. }
  split; [done|]. split; [intros i; by rewrite <- Hfi|].
  unfold T' at 2 3; simpl. destruct (Z.eqb_spec j l); [done|].
  assert (placed (tf T') (data_start (tb T j)) ord (used_end c (tb T j))) as Hp'.
  { eapply placed_ext; [|exact Hp]. intros i Hi. rewrite put_tf.
    destruct (Z.eqb_spec i k) as [->|]; [|done].
    apply Hord in Hi as (_ & Hu & Hlb). destruct Hother; congruence. }
  by destruct (Z.eqb_spec j 0).
Qed.

Lemma wf_put : wf c T' b' D'.
Proof.
  split.
  - by apply (put_bm_valid c Hc T b D Hwf Hb b' D' l bm).
  - by apply (put_bm_typed c Hc T b D Hwf Hb b' D' l bm).
  - intros i Hi. rewrite put_tf. destruct (Z.eqb_spec i k); [|by apply (wf_fm _ _ _ _ Hwf)].
    by apply (validate_file_meta_iff c Hc).
  - intros i Hi. rewrite put_tf. destruct (Z.eqb_spec i k); [done|]. by apply (wf_fm_typed _ _ _ _ Hwf).
  - by apply (put_phy T b' l bm 0).
  - intros j Hj Hne. pose proof (put_phy_range c Hc T b D Hwf Hb b' D' l bm Hb' Hl Hsw j Hj Hne) as [? ?]. split; [apply H|done].
  - by apply (put_phy_inj c Hc T b D Hwf Hb b' D' l bm).
  - intros Hn. destruct Hsw as [(_ & _ & ->)|[[_ ->]|(Hl0 & _ & ->)]]; [by apply (wf_D _ _ _ _ Hwf)..|].
    pose proof (wf_phy _ _ _ _ Hwf l Hl Hl0).
    pose proof (wf_bm_facts c Hc T b D Hwf Hb l Hl). lia.
  - apply put_layout.
  - intros i j Hi Hj. rewrite !put_tf.
    destruct (Z.eqb_spec i k) as [->|Hik], (Z.eqb_spec j k) as [->|Hjk]; intros Hli Hlj He.
    + done.
    + by destruct (Huniq j Hj Hjk Hli Hlj).
    + by destruct (Huniq i Hi Hik Hlj Hli).
    + by apply (wf_uniq _ _ _ _ Hwf).
  - intros i Hi. rewrite put_tf. destruct (Z.eqb_spec i k); [congruence|].
    by apply (wf_flag_used _ _ _ _ Hwf).
  - intros i j Hi Hj. rewrite !put_tf.
    destruct (Z.eqb_spec i k), (Z.eqb_spec j k); [congruence..|].
    by apply (wf_flag_one _ _ _ _ Hwf).
  - intros i Hi. rewrite put_tf. destruct (Z.eqb_spec i k); [congruence|].
    by apply (wf_flag_pos _ _ _ _ Hwf).
Qed.
End Put.

(** *** The two ways a file is written *)

Section PutLayout.
Context (c : etss_flash_fs_config_t) (Hc : cfg_ok c).
Context (T : tables) (b D : Z) (Hwf : wf c T b D) (Hb : b = 0 \/ b = 1).
Context (b' l k : Z) (bm : etss_block_meta_t) (m : etss_file_meta_t).
Context (Hl : in_block_table c l) (Hk : in_file_table c k).
Context (Hds : data_start bm = data_start (tb T l)).
Context (Hum : unused m = false) (Hlm : lblock m = l).

Let T' : tables := put_file k m (put_block b' l bm T).

Lemma put_at_l : data_start (tb T' l) = data_start bm /\ free_size (tb T' l) = free_size bm.
Proof using Type. unfold T'; simpl. rewrite Z.eqb_refl. by destruct (l =? 0). Qed.

(** A new file at the end of the used part. *)
Lemma layout_new :
  unused (tf T k) = true -> free_size bm = free_size (tb T l) - max_size m ->
  data_idx m = used_end c (tb T l) ->
  exists ord, layout c T' l ord.
Proof.
  intros Huk Hfs Hidx. destruct (wf_layout _ _ _ _ Hwf l Hl) as (ord & Hnd & Hord & Hp).
  assert (k ∉ ord) as Hko. { intros (_ & ? & _)%Hord. congruence. }
  exists (ord ++ [k]). split.
  { apply NoDup_app. split_and!; [done| |apply NoDup_singleton].
    intros i Hi ->%list_elem_of_singleton. done. }
  destruct put_at_l as [Hds' Hfs']. split.
  - intros i. rewrite elem_of_app, list_elem_of_singleton, Hord.
    unfold file_in, T'; simpl. destruct (Z.eqb_spec i k) as [->|]; [|tauto].
    split; [done|]. intros _. by right.
  - unfold used_end. rewrite Hds', Hfs', Hds. apply placed_app.
    exists (used_end c (tb T l)). split.
    + eapply placed_ext; [|exact Hp]. intros i Hi. unfold T'; simpl.
      destruct (Z.eqb_spec i k) as [->|]; done.
    + simpl. rewrite Z.eqb_refl, Hfs, Hidx. unfold used_end. split; [done|lia].
Qed.

(** A file that keeps its place. *)
Lemma layout_same :
  unused (tf T k) = false -> lblock (tf T k) = l ->
  free_size bm = free_size (tb T l) ->
  data_idx m = data_idx (tf T k) -> max_size m = max_size (tf T k) ->
  exists ord, layout c T' l ord.
Proof.
  intros Huk Hlk Hfs Hidx Hmax. destruct (wf_layout _ _ _ _ Hwf l Hl) as (ord & Hnd & Hord & Hp).
  exists ord. split; [done|]. destruct put_at_l as [Hds' Hfs']. split.
  - intros i. rewrite Hord. unfold file_in, T'; simpl.
    destruct (Z.eqb_spec i k) as [->|]; [|done]. split; intros _; done.
  - unfold used_end. rewrite Hds', Hfs', Hds, Hfs. eapply placed_ext; [|exact Hp].
    intros i Hi. unfold T'; simpl. destruct (Z.eqb_spec i k) as [->|]; done.
Qed.
End PutLayout.

(** ** Marking a file for deletion *)

Definition flag_meta (m : etss_file_meta_t) : etss_file_meta_t :=
  set_file_flags (Z.lor (flags m) ETSS_FLASH_FS_FLAG_DELETE) m.

Lemma flagged_flag m : flagged (flag_meta m) = true.
Proof.
  unfold flagged, flag_meta; simpl. apply negb_true_iff, Z.eqb_neq. intros H.
  assert (Z.testbit (Z.land (Z.lor (flags m) ETSS_FLASH_FS_FLAG_DELETE) ETSS_FLASH_FS_FLAG_DELETE) 24
          = false) as Hb by (rewrite H; done).
  rewrite Z.land_spec, Z.lor_spec in Hb.
  change (Z.testbit ETSS_FLASH_FS_FLAG_DELETE 24) with true in Hb.
  by rewrite orb_true_r in Hb.
Qed.

Lemma flag_typed m : file_meta_typed m -> file_meta_typed (flag_meta m).
Proof.
  intros (? & ? & ? & ? & Hf & ?). do 4 (split; [done|]). split; [|done]. simpl.
  unfold is_u32 in *. split; [apply Z.lor_nonneg; split; [lia|done]|].
  destruct (decide (Z.lor (flags m) ETSS_FLASH_FS_FLAG_DELETE = 0)) as [->|Hz]; [lia|].
  change 4294967296 with (2 ^ 32). apply Z.log2_lt_pow2; [apply Z.le_neq; split; [|done]; apply Z.lor_nonneg; split; [lia|done]|].
  rewrite Z.log2_lor by (lia || done). apply Z.max_lub_lt; [|done].
  destruct (decide (flags m = 0)) as [->|]; [done|]. apply Z.log2_lt_pow2; lia.
Qed.

Lemma wf_flag c T b D k :
  cfg_ok c -> wf c T b D -> clean c T -> in_file_table c k -> unused (tf T k) = false ->
  0 < max_size (tf T k) -> wf c (put_file k (flag_meta (tf T k)) T) b D.
Proof.
  intros Hc Hwf Hcl Hk Hu Hpos.
  assert (forall i, live (tf (put_file k (flag_meta (tf T k)) T) i) = true ->
            i <> k /\ live (tf T i) = true) as Hlive.
  { intros i. simpl. destruct (Z.eqb_spec i k) as [->|]; [|done].
    unfold live. rewrite flagged_flag, andb_false_r. done. }
  assert (forall i, in_file_table c i ->
            flagged (tf (put_file k (flag_meta (tf T k)) T) i) = true -> i = k) as Hfl.
  { intros i Hi. simpl. destruct (Z.eqb_spec i k) as [->|]; [done|]. by rewrite Hcl. }
  pose proof (wf_fm_typed _ _ _ _ Hwf) as Hty.
  split; try apply Hwf; simpl.
  - intros i Hi. destruct (Z.eqb_spec i k) as [->|]; [|by apply Hwf].
    apply (validate_file_meta_iff c Hc); [by apply flag_typed, Hty|].
    change (file_meta_fits c (tf T k)).
    apply (validate_file_meta_iff c Hc); [by apply Hty|by apply Hwf].
  - intros i Hi. destruct (Z.eqb_spec i k) as [->|]; [|by apply Hwf]. by apply flag_typed, Hty.
  - intros l Hl. destruct (wf_layout _ _ _ _ Hwf l Hl) as (ord & Hnd & Hord & Hp).
    exists ord. split; [done|]. split.
    + intros i. rewrite Hord. unfold file_in; simpl. by destruct (Z.eqb_spec i k) as [->|].
    + eapply placed_ext; [|exact Hp]. intros i _. simpl. by destruct (Z.eqb_spec i k) as [->|].
  - intros i j Hi Hj Hli Hlj. destruct (Hlive i Hli) as [Hne1 ?], (Hlive j Hlj) as [Hne2 ?].
    apply Z.eqb_neq in Hne1, Hne2. rewrite Hne1, Hne2. by apply Hwf.
  - intros i Hi Hf. apply Hfl in Hf as ->; [|done]. by rewrite Z.eqb_refl.
  - intros i j Hi Hj Hfi Hfj. by rewrite (Hfl i Hi Hfi), (Hfl j Hj Hfj).
  - intros i Hi Hf. apply Hfl in Hf as ->; [|done]. by rewrite Z.eqb_refl.
Qed.

(** ** Deleting a file *)

Definition del_file_meta (T : tables) (d i : Z) : etss_file_meta_t :=
  let m := tf T i in
  let del := tf T d in
  if i =? d then zero_file_meta
  else if (lblock m =? lblock del) && (etss_utils_validate_fid (id m) =? PSA_SUCCESS)
          && (data_idx m >? data_idx del)
  then set_file_data_idx (sub32 (data_idx m) (max_size del)) m
  else m.

Definition del_block_meta (T : tables) (d p : Z) : etss_block_meta_t :=
  let bm := tb T (lblock (tf T d)) in
  set_phy_id p (set_free_size (add32 (free_size bm) (max_size (tf T d))) bm).

Definition del_tables (b' d p : Z) (T : tables) : tables :=
  {| tb := tb (put_block b' (lblock (tf T d)) (del_block_meta T d p) T);
     tf := del_file_meta T d |}.

Section Del.
Context (c : etss_flash_fs_config_t) (Hc : cfg_ok c).
Context (T : tables) (b D : Z) (Hwf : wf c T b D) (Hb : b = 0 \/ b = 1).
Context (b' D' d p : Z) (Hb' : b' = 0 \/ b' = 1).
Context (Hd : in_file_table c d) (Hud : unused (tf T d) = false).

Let del := tf T d.
Let l := lblock (tf T d).
Let T' := del_tables b' d p T.

Lemma del_l : in_block_table c l.
Proof. by apply (wf_file_in c Hc T b D Hwf Hb d). Qed.

Lemma del_free : add32 (free_size (tb T l)) (max_size del) = free_size (tb T l) + max_size del
  /\ 0 <= free_size (tb T l) + max_size del /\
  data_start (tb T l) + (free_size (tb T l) + max_size del) <= block_size c.
Proof.
  pose proof (wf_bm_facts c Hc T b D Hwf Hb l del_l). pose proof (block_size_range c Hc).
  pose proof (wf_file_range c Hc T b D Hwf Hb d Hd Hud) as (H1 & H2 & H3).
  simpl in H1, H2, H3. fold l in H1, H2. fold del in H1, H2, H3. unfold used_end in H2.
  rewrite add32_small by lia. lia.
Qed.

(** A file above the deleted one: its index can be lowered without underflow. *)
Lemma del_above i : file_in c T l i -> data_idx del < data_idx (tf T i) ->
  data_idx del + max_size del <= data_idx (tf T i) /\
  del_file_meta T d i = set_file_data_idx (data_idx (tf T i) - max_size del) (tf T i).
Proof.
  intros (Hi & Hu & Hlb) Hgt. assert (i <> d) as Hne by (intros ->; unfold del in Hgt; lia).
  destruct (wf_disjoint c Hc T b D Hwf Hb i d Hi Hd Hne Hu Hud) as [Hdis|Hdis]; [done|..].
  { pose proof (wf_max_nonneg c Hc T b D Hwf Hb i Hi). fold del in Hdis. lia. }
  fold del in Hdis. split; [done|]. unfold del_file_meta. fold del.
  apply Z.eqb_neq in Hne. rewrite Hne.
  pose proof (wf_fm_typed _ _ _ _ Hwf i Hi) as (_ & [? ?] & _).
  pose proof (wf_max_nonneg c Hc T b D Hwf Hb d Hd) as Hmx. fold del in Hmx.
  pose proof (wf_fm_typed _ _ _ _ Hwf d Hd) as (_ & [Hd0 _] & _). fold del in Hd0.
  unfold unused in Hu. apply negb_false_iff in Hu. rewrite Hu.
  unfold l in Hlb. fold del in Hlb. rewrite Hlb, Z.eqb_refl.
  destruct (Z.gtb_spec (data_idx (tf T i)) (data_idx del)); [|lia]. simpl.
  by rewrite sub32_small by lia.
Qed.

Lemma del_other i : i <> d ->
  ~ (file_in c T l i /\ data_idx del < data_idx (tf T i)) -> in_file_table c i ->
  del_file_meta T d i = tf T i.
Proof.
  intros Hne Hn Hi. unfold del_file_meta. apply Z.eqb_neq in Hne. rewrite Hne.
  destruct (Z.eqb_spec (lblock (tf T i)) (lblock (tf T d))) as [Hlb|]; [|done].
  destruct (Z.eqb_spec (etss_utils_validate_fid (id (tf T i))) PSA_SUCCESS) as [Hv|]; [|done].
  destruct (Z.gtb_spec (data_idx (tf T i)) (data_idx (tf T d))); [|done].
  exfalso. apply Hn. split; [|done]. split_and!; [done| |done].
  unfold unused. by rewrite Hv.
Qed.

Lemma del_meta_cases i : in_file_table c i -> i <> d ->
  (file_in c T l i /\ data_idx del + max_size del <= data_idx (tf T i) /\
   data_idx del < data_idx (tf T i) /\
   del_file_meta T d i = set_file_data_idx (data_idx (tf T i) - max_size del) (tf T i)) \/
  (~ (file_in c T l i /\ data_idx del < data_idx (tf T i)) /\ del_file_meta T d i = tf T i).
Proof.
  intros Hi Hne.
  destruct (decide (unused (tf T i) = false /\ lblock (tf T i) = l /\ data_idx del < data_idx (tf T i)))
    as [(Hu & Hlb & Hgt)|Hn].
  - left. destruct (del_above i) as [??]; [done..|]. done.
  - right. assert (~ (file_in c T l i /\ data_idx del < data_idx (tf T i))) as Hn'.
    { intros [(_ & ? & ?) ?]. by apply Hn. }
    split; [done|]. by apply del_other.
Qed.

Context (Hsw : swapped T D l p D') (Hmax : 0 < max_size del).

Lemma del_shape i : in_file_table c i -> i <> d ->
  unused (tf T' i) = unused (tf T i) /\ lblock (tf T' i) = lblock (tf T i) /\
  flags (tf T' i) = flags (tf T i) /\ id (tf T' i) = id (tf T i) /\
  cur_size (tf T' i) = cur_size (tf T i) /\ max_size (tf T' i) = max_size (tf T i).
Proof.
  intros Hi Hne. change (tf T' i) with (del_file_meta T d i).
  destruct (del_meta_cases i Hi Hne) as [(_ & _ & _ & ->)|[_ ->]]; done.
Qed.

Lemma del_at_d : tf T' d = zero_file_meta.
Proof using Type. unfold T', del_tables, del_file_meta; simpl. by rewrite Z.eqb_refl. Qed.

Lemma del_live i : in_file_table c i -> i <> d -> live (tf T' i) = live (tf T i).
Proof.
  intros Hi Hne. destruct (del_shape i Hi Hne) as (Hu & _ & Hf & _).
  unfold live, flagged. by rewrite Hu, Hf.
Qed.

Lemma del_layout_l : exists ord, layout c T' l ord.
Proof.
  destruct (wf_layout _ _ _ _ Hwf l del_l) as (ord & Hnd & Hord & Hp).
  assert (d ∈ ord) as Hdo by by apply Hord.
  apply list_elem_of_split in Hdo as (pre & post & ->).
  apply NoDup_app in Hnd as (Hnd1 & Hdis & Hnd2). apply NoDup_cons in Hnd2 as [Hdp Hnd2].
  apply placed_app in Hp as (mid & Hp1 & Hidx & Hp2). fold del in Hidx, Hp2.
  assert (forall i, i ∈ pre ++ d :: post -> 0 <= max_size (tf T i)) as Hmx.
  { intros i Hi. apply Hord in Hi as (Hi & _). by apply (wf_max_nonneg c Hc T b D Hwf Hb). }
  destruct (placed_bounds _ _ _ _ (fun i Hi => Hmx i (proj2 (elem_of_app _ _ _) (or_introl Hi))) Hp1)
    as [_ Hb1].
  destruct (placed_bounds (tf T) (mid + max_size del) post (used_end c (tb T l))) as [_ Hb2]; [|done|].
  { intros i Hi. apply Hmx. apply elem_of_app. right. by right. }
  exists (pre ++ post). split; [|split].
  - apply NoDup_app. split_and!; [done| |done]. intros i Hi Hp. apply (Hdis i Hi). by right.
  - intros i. rewrite elem_of_app. unfold file_in. split.
    + intros Hi. assert (i <> d) as Hne.
      { intros ->. destruct Hi as [Hi|Hi]; [|done]. apply (Hdis d Hi). by left. }
      assert (file_in c T l i) as (Hti & ? & ?).
      { apply Hord, elem_of_app. destruct Hi; [by left|right; by right]. }
      destruct (del_shape i Hti Hne) as (-> & -> & _). done.
    + intros (Hti & Hu & Hlb). destruct (decide (i = d)) as [->|Hne].
      { by rewrite del_at_d in Hu. }
      destruct (del_shape i Hti Hne) as (Hu' & Hlb' & _).
      assert (i ∈ pre ++ d :: post) as Hi by (apply Hord; split_and!; congruence).
      apply elem_of_app in Hi as [?|[->|?]%elem_of_cons]; auto; done.
  - destruct (put_at_l T b' l d (del_block_meta T d p) (tf T d)) as [Hds Hfs].
    change (data_start (tb T' l) = data_start (tb T l)) in Hds.
    change (free_size (tb T' l) = add32 (free_size (tb T l)) (max_size del)) in Hfs.
    destruct del_free as [Hadd _]. unfold used_end. rewrite Hds, Hfs, Hadd. apply placed_app.
    exists mid. split.
    + eapply placed_ext; [|exact Hp1]. intros i Hi. change (tf T' i) with (del_file_meta T d i).
      specialize (Hb1 i Hi). assert (i <> d) as Hne by (intros ->; apply (Hdis d Hi); by left).
      destruct (proj1 (Hord i)) as (Hti & _); [apply elem_of_app; by left|].
      rewrite del_other; [done|done| |done]. intros [_ Hgt]. specialize (Hmx i).
      rewrite elem_of_app in Hmx. specialize (Hmx (or_introl Hi)). lia.
    + replace mid with (mid + max_size del - max_size del) by lia.
      replace (block_size c - (free_size (tb T l) + max_size del))
        with (used_end c (tb T l) - max_size del) by (unfold used_end; lia).
      eapply placed_shift; [|exact Hp2]. intros i Hi. change (tf T' i) with (del_file_meta T d i).
      specialize (Hb2 i Hi).
      destruct (del_above i) as [_ ->]; [|lia|done].
      apply Hord, elem_of_app. right. by right.
Qed.

Lemma del_layout_other j : in_block_table c j -> j <> l -> exists ord, layout c T' j ord.
Proof.
  intros Hj Hne. destruct (wf_layout _ _ _ _ Hwf j Hj) as (ord & Hnd & Hord & Hp). exists ord.
  split; [done|]. split.
  - intros i. rewrite Hord. unfold file_in. destruct (decide (i = d)) as [->|Hid].
    + rewrite del_at_d. split; [|by intros (_ & [=] & _)]. intros (_ & _ & Hlb). done.
    + split; intros (Hi & ? & ?); destruct (del_shape i Hi Hid) as (Hu' & Hlb' & _);
        split_and!; congruence.
  - assert (placed (tf T') (data_start (tb T j)) ord (used_end c (tb T j))) as Hp'.
    { eapply placed_ext; [|exact Hp]. intros i Hi. apply Hord in Hi as (Hi & Hu & Hlb).
      assert (i <> d) as Hid by (intros ->; done).
      change (tf T' i) with (del_file_meta T d i).
      rewrite del_other; [done|done| |done]. intros [(_ & _ & ?) _]. congruence. }
    unfold T' at 2 3, del_tables, put_block; cbn [tb]. fold l. apply Z.eqb_neq in Hne.
    rewrite Hne. by destruct (j =? 0).
Qed.

Lemma del_bm_typed : block_meta_typed (del_block_meta T d p).
Proof.
  destruct del_free as (Hadd & Hf0 & Hf1). fold l del in Hadd.
  pose proof (wf_bm_typed _ _ _ _ Hwf l del_l) as ([? ?] & [? ?] & _).
  pose proof (block_size_range c Hc).
  unfold del_block_meta, block_meta_typed, is_u32; simpl. fold l. fold del. rewrite Hadd.
  split; [|split; lia]. destruct Hsw as [(_ & ? & _)|[[Hp _]|(Hl0 & Hp & _)]]; [done|rewrite Hp..]; [done|].
  pose proof (wf_D_range c Hc T b D Hwf Hb l del_l Hl0). destruct Hc as [[] _ _]. unfold is_u16 in *. lia.
Qed.

Lemma del_fm_typed i : in_file_table c i -> file_meta_typed (tf T' i).
Proof.
  intros Hi. change (tf T' i) with (del_file_meta T d i).
  destruct (decide (i = d)) as [->|Hne].
  { unfold del_file_meta. rewrite Z.eqb_refl. apply zero_typed. }
  pose proof (wf_fm_typed _ _ _ _ Hwf i Hi) as Hty.
  destruct (del_meta_cases i Hi Hne) as [(_ & Hge & _ & ->)|[_ ->]]; [|done].
  pose proof (wf_max_nonneg c Hc T b D Hwf Hb d Hd) as Hmx. fold del in Hmx.
  pose proof (wf_fm_typed _ _ _ _ Hwf d Hd) as (_ & [Hd0 _] & _). fold del in Hd0.
  destruct Hty as (? & [? ?] & ?). split; [done|]. split; [|done]. split; simpl; lia.
Qed.

Lemma del_fm_fits i : in_file_table c i -> file_meta_fits c (tf T' i).
Proof.
  intros Hi. change (tf T' i) with (del_file_meta T d i).
  destruct (decide (i = d)) as [->|Hne].
  { unfold del_file_meta. rewrite Z.eqb_refl. pose proof (nact_range c Hc). split; [simpl; lia|done]. }
  pose proof (wf_fm_fits c Hc T b D Hwf Hb i Hi) as Hft.
  destruct (del_meta_cases i Hi Hne) as [((_ & _ & Hlb) & Hge & _ & ->)|[_ ->]]; [|done].
  pose proof (wf_fm_fits c Hc T b D Hwf Hb d Hd) as [_ Hdf]. destruct (Hdf Hud) as (_ & _ & Hd0 & _).
  destruct Hft as [? Hft]. split; [done|]. intros Hu. destruct (Hft Hu) as (? & ? & ? & ?).
  simpl. split_and!; [done..| |lia]. intros Hz. fold l in Hd0. fold del in Hd0.
  rewrite Hlb in Hz. specialize (Hd0 Hz). lia.
Qed.

Lemma del_flagged i : in_file_table c i -> flagged (tf T' i) = true ->
  i <> d /\ flagged (tf T i) = true.
Proof.
  intros Hi Hf. assert (i <> d) as Hid by (intros ->; by rewrite del_at_d in Hf).
  destruct (del_shape i Hi Hid) as (_ & _ & Hfl & _). unfold flagged in *. by rewrite <- Hfl.
Qed.

Lemma wf_del : wf c T' b' D'.
Proof.
  pose proof del_l as Hl. pose proof del_bm_typed as Hty. destruct del_free as (Hadd & Hf0 & Hf1).
  assert (swapped T D l (phy_id (del_block_meta T d p)) D') as Hsw' by done.
  assert (data_start (del_block_meta T d p) + free_size (del_block_meta T d p) <= block_size c) as Hfs.
  { simpl. fold l. fold del. rewrite Hadd. exact Hf1. }
  split.
  - intros j Hj. by apply (put_bm_valid c Hc T b D Hwf Hb b' D' l (del_block_meta T d p)).
  - intros j Hj. by apply (put_bm_typed c Hc T b D Hwf Hb b' D' l (del_block_meta T d p)).
  - intros i Hi. apply (validate_file_meta_iff c Hc); [by apply del_fm_typed|by apply del_fm_fits].
  - intros i Hi. by apply del_fm_typed.
  - by apply (put_phy T b' l (del_block_meta T d p) 0).
  - intros j Hj Hne.
    pose proof (put_phy_range c Hc T b D Hwf Hb b' D' l (del_block_meta T d p) Hb' Hl Hsw' j Hj Hne) as [Hr ?].
    split; [apply Hr|done].
  - by apply (put_phy_inj c Hc T b D Hwf Hb b' D' l (del_block_meta T d p)).
  - intros Hn. destruct Hsw as [(_ & _ & HD)|[[_ HD]|(Hl0 & _ & HD)]]; rewrite HD; [by apply (wf_D _ _ _ _ Hwf)..|].
    pose proof (wf_phy _ _ _ _ Hwf l Hl Hl0).
    pose proof (wf_bm_facts c Hc T b D Hwf Hb l Hl). lia.
  - intros j Hj. destruct (decide (j = l)) as [->|Hne]; [apply del_layout_l|by apply del_layout_other].
  - intros i j Hi Hj Hli Hlj He. assert (i <> d /\ j <> d) as [Hid Hjd].
    { split; intros Heq; rewrite Heq, del_at_d in *; done. }
    rewrite del_live in Hli, Hlj by done.
    destruct (del_shape i Hi Hid) as (_ & _ & _ & Hi' & _), (del_shape j Hj Hjd) as (_ & _ & _ & Hj' & _).
    apply (wf_uniq _ _ _ _ Hwf); congruence.
  - intros i Hi Hf. destruct (del_flagged i Hi Hf) as [Hid Hf'].
    destruct (del_shape i Hi Hid) as (-> & _). by apply (wf_flag_used _ _ _ _ Hwf).
  - intros i j Hi Hj Hfi Hfj. apply (wf_flag_one _ _ _ _ Hwf); [done..| |]; by apply del_flagged.
  - intros i Hi Hf. destruct (del_flagged i Hi Hf) as [Hid Hf'].
    destruct (del_shape i Hi Hid) as (_ & _ & _ & _ & _ & ->). by apply (wf_flag_pos _ _ _ _ Hwf).
Qed.

(** Deleting the only flagged file leaves none. *)
Lemma del_clean :
  (forall i, in_file_table c i -> flagged (tf T i) = true -> i = d) -> clean c T'.
Proof.
  intros H i Hi. destruct (flagged (tf T' i)) eqn:Hf; [|done].
  destruct (del_flagged i Hi Hf) as [Hid Hf']. by destruct (Hid (H i Hi Hf')).
Qed.
End Del.

(** ** Updates seen through the view *)

Section ViewUpdates.
Context (c : etss_flash_fs_config_t) (Hc : cfg_ok c).
Context (T : tables) (b D : Z) (Hwf : wf c T b D) (Hb : b = 0 \/ b = 1).
Context (f f' : image).

Lemma live_used m : live m = true -> unused m = false.
Proof using Type. unfold live. rewrite andb_true_iff, negb_true_iff. by intros [? _]. Qed.

(** The data of a file only depends on its bytes. *)
Lemma file_of_ext (T1 T2 : tables) f1 f2 m1 m2 k :
  lblock m2 = lblock m1 -> cur_size m2 = cur_size m1 -> max_size m2 = max_size m1 ->
  flags m2 = flags m1 -> data_idx m2 = data_idx m1 - k ->
  (forall o, data_idx m1 <= o < data_idx m1 + cur_size m1 ->
     lb_byte f2 T2 (lblock m1) (o - k) = lb_byte f1 T1 (lblock m1) o) ->
  file_of f2 T2 m2 = file_of f1 T1 m1.
Proof using Type.
  intros Hlb Hcs Hms Hfl Hdi Hbytes. unfold file_of. rewrite Hlb, Hcs, Hms, Hfl, Hdi. f_equal.
  apply rd_ext_shift. intros i Hi.
  replace (data_idx m1 - k + i) with (data_idx m1 + i - k) by lia. apply Hbytes. lia.
Qed.

(** All bytes of the files but those of [k] are kept. *)
Definition kept_but (T' : tables) (k : Z) : Prop :=
  forall i, in_file_table c i -> i <> k -> unused (tf T i) = false ->
    forall o, data_idx (tf T i) <= o < data_idx (tf T i) + max_size (tf T i) ->
    lb_byte f' T' (lblock (tf T i)) o = lb_byte f T (lblock (tf T i)) o.

Lemma view_put b' D' l k bm m :
  let T' := put_file k m (put_block b' l bm T) in
  wf c T' b' D' -> in_file_table c k -> live m = true ->
  (live (tf T k) = true -> id (tf T k) = id m) ->
  kept_but T' k ->
  view c f' T' = <[id m := file_of f' T' m]> (view c f T).
Proof using All.
  intros T' Hwf' Hk Hlm Hid Hkept.
  assert (tf T' k = m) as Hm by (simpl; by rewrite Z.eqb_refl).
  assert (forall i, i <> k -> tf T' i = tf T i) as Hi.
  { intros i Hne. simpl. apply Z.eqb_neq in Hne. by rewrite Hne. }
  rewrite <- Hm at 2. apply view_insert; 
    [by eapply wf_to_uniq|by eapply wf_to_uniq|done|by rewrite Hm|by rewrite Hm|done| |].
  - intros i Hti Hne _. split; [by apply Hi|]. intros Hl%live_used.
    apply (file_of_ext _ _ _ _ _ _ 0); [done..|lia|]. intros o Ho. rewrite Z.sub_0_r.
    apply Hkept; [done..|]. pose proof (wf_file_range c Hc T b D Hwf Hb i Hti Hl). simpl in *. lia.
  - intros i _ Hne <-. by rewrite Hi.
Qed.
End ViewUpdates.

Section ViewDel.
Context (c : etss_flash_fs_config_t) (Hc : cfg_ok c).
Context (T : tables) (b D : Z) (Hwf : wf c T b D) (Hb : b = 0 \/ b = 1).
Context (b' D' d p : Z) (Hb' : b' = 0 \/ b' = 1).
Context (Hd : in_file_table c d) (Hud : unused (tf T d) = false).
Context (Hsw : swapped T D (lblock (tf T d)) p D') (Hmax : 0 < max_size (tf T d)).
Context (f f' : image).

Let T' := del_tables b' d p T.

(** The bytes of the other files move with their index. *)
Definition compacted : Prop :=
  forall i, in_file_table c i -> i <> d -> unused (tf T i) = false ->
    forall o, data_idx (tf T i) <= o < data_idx (tf T i) + max_size (tf T i) ->
    lb_byte f' T' (lblock (tf T i)) (o - (data_idx (tf T i) - data_idx (tf T' i)))
    = lb_byte f T (lblock (tf T i)) o.

Context (Hcp : compacted).

Let shape := del_shape c Hc T b D Hwf Hb b' D' d p Hb' Hd Hud Hsw Hmax.

Lemma del_file_of i : in_file_table c i -> i <> d -> unused (tf T i) = false ->
  file_of f' T' (tf T' i) = file_of f T (tf T i).
Proof.
  intros Hi Hne Hu. destruct (shape i Hi Hne) as (_ & Hlb & Hfl & _ & Hcs & Hms).
  apply (file_of_ext T T' _ _ _ _ (data_idx (tf T i) - data_idx (tf T' i))); [done..|lia|].
  intros o Ho. apply Hcp; [done..|].
  pose proof (wf_file_range c Hc T b D Hwf Hb i Hi Hu). simpl in *. lia.
Qed.

Lemma del_entry i : in_file_table c i -> i <> d ->
  live (tf T' i) = live (tf T i) /\ id (tf T' i) = id (tf T i) /\
  (live (tf T i) = true -> file_of f' T' (tf T' i) = file_of f T (tf T i)).
Proof.
  intros Hi Hne. destruct (shape i Hi Hne) as (Hu & _ & Hfl & Hid & _). split_and!; [|done|].
  - unfold live, flagged. change (tf T' i) with (tf (del_tables b' d p T) i). by rewrite Hu, Hfl.
  - intros Hl%live_used. by apply del_file_of.
Qed.

Lemma del_dead : live (tf T' d) = false.
Proof using Type. unfold T', del_tables, del_file_meta; simpl. by rewrite Z.eqb_refl. Qed.

Lemma view_del_live :
  live (tf T d) = true -> view c f' T' = delete (id (tf T d)) (view c f T).
Proof.
  intros Hl. apply (view_delete c f T f' T' d);
    [by eapply wf_to_uniq|eapply wf_to_uniq; by apply (wf_del c Hc T b D Hwf Hb b' D')|done|apply del_dead|done|done|].
  intros i Hi Hne. by apply del_entry.
Qed.

Lemma view_del_flagged :
  live (tf T d) = false -> view c f' T' = view c f T.
Proof.
  intros Hl. apply view_same; [by eapply wf_to_uniq|eapply wf_to_uniq; by apply (wf_del c Hc T b D Hwf Hb b' D')|].
  intros i Hi. destruct (decide (i = d)) as [->|Hne].
  - rewrite del_dead, Hl. done.
  - destruct (del_entry i Hi Hne) as (-> & -> & ?). auto.
Qed.
End ViewDel.
