(* ===== verification/FsDisk.v ===== *)
(** * The file system on the device

    Which metadata block a mount selects ([selected]), what makes the device
    contents a valid file system ([disk]), and the state between two
    operations ([ready]). *)
From Stdlib Require Import ZArith Lia ZifyBool.
From stdpp Require Import base list numbers gmap options.
From S2P Require Import Prelude EtssUtils FlashFsDefs Mblock FlashFs MblockSpec FsReads.
From S2P Require Import FsTables FsUpdate.

#[local] Set Default Proof Using "Type*".

(** ** Tables that agree in their range *)

Definition tables_equiv (c : etss_flash_fs_config_t) (T1 T2 : tables) : Prop :=
  (forall l, in_block_table c l -> tb T1 l = tb T2 l) /\
  (forall i, in_file_table c i -> tf T1 i = tf T2 i).

#[export] Instance tables_equiv_equivalence c : Equivalence (tables_equiv c).
Proof.
  split.
  - done.
  - intros T1 T2 [H1 H2]. split; intros; symmetry; auto.
  - intros T1 T2 T3 [H1 H2] [H3 H4]. split; intros; [by rewrite H1, H3|by rewrite H2, H4].
Qed.

Lemma wf_equiv c T1 T2 b D :
  1 <= nact c -> tables_equiv c T1 T2 -> wf c T1 b D -> wf c T2 b D.
Proof.
  intros Hn [HB HF] Hwf.
  split.
  - intros l Hl. rewrite <- HB by done. by apply Hwf.
  - intros l Hl. rewrite <- HB by done. by apply (wf_bm_typed _ _ _ _ Hwf).
  - intros i Hi. rewrite <- HF by done. by apply Hwf.
  - intros i Hi. rewrite <- HF by done. by apply (wf_fm_typed _ _ _ _ Hwf).
  - rewrite <- HB by (unfold in_block_table; lia). apply Hwf.
  - intros l Hl. rewrite <- HB by done. by apply Hwf.
  - intros l l' Hl Hl'. rewrite <- !HB by done. by apply Hwf.
  - apply Hwf.
  - intros l Hl. destruct (wf_layout _ _ _ _ Hwf l Hl) as (ord & Hnd & Hord & Hp).
    exists ord. split; [done|]. split.
    + intros i. rewrite Hord. unfold file_in.
      split; intros (Hi & ? & ?); (split; [done|]); [rewrite <- HF|rewrite HF]; done.
    + rewrite <- HB by done. eapply placed_ext; [|exact Hp].
      intros i Hi. apply Hord in Hi as [Hi _]. by rewrite HF.
  - intros i j Hi Hj. rewrite <- !HF by done. by apply Hwf.
  - intros i Hi. rewrite <- !HF by done. by apply Hwf.
  - intros i j Hi Hj. rewrite <- !HF by done. by apply Hwf.
  - intros i Hi. rewrite <- !HF by done. by apply Hwf.
Qed.

Lemma clean_equiv c T1 T2 : tables_equiv c T1 T2 -> clean c T1 -> clean c T2.
Proof. intros [_ HF] Hcl i Hi. rewrite <- HF by done. by apply Hcl. Qed.

(** The view only depends on the tables and on the bytes of the files. *)
Lemma view_equiv c T1 T2 b D f1 f2 :
  cfg_ok c -> (b = 0 \/ b = 1) -> tables_equiv c T1 T2 -> wf c T1 b D ->
  (forall l o, in_block_table c l -> data_start (tb T1 l) <= o < block_size c ->
     lb_byte f2 T1 l o = lb_byte f1 T1 l o) ->
  view c f2 T2 = view c f1 T1.
Proof.
  intros Hc Hb HE Hwf Hbytes. pose proof (nact_range c Hc). destruct (HE) as [HB HF].
  apply view_same; [by eapply wf_to_uniq| |].
  { eapply wf_to_uniq, wf_equiv; [|done|exact Hwf]. lia. }
  intros i Hi. rewrite <- HF by done. split; [done|]. intros Hl%live_used. split; [done|].
  destruct (wf_file_in c Hc T1 b D Hwf Hb i Hi Hl) as [_ Hlt].
  pose proof (wf_file_range c Hc T1 b D Hwf Hb i Hi Hl) as (H1 & H2 & H3).
  pose proof (wf_used_end c Hc T1 b D Hwf Hb _ Hlt) as H4. simpl in *.
  apply (file_of_ext T1 T2 _ _ _ _ 0); [done..|lia|]. intros o Ho. rewrite Z.sub_0_r.
  unfold lb_byte in *. rewrite <- HB by done. apply Hbytes; [done|]. lia.
Qed.

(** ** Headers *)

Section Headers.
Context (c : etss_flash_fs_config_t) (Hc : cfg_ok c).
Implicit Types f : image.

Lemma hdr_bytes f b :
  hdr_at f b = {| scratch_dblock := f b 0 + 256 * f b 1 + 65536 * f b 2 + 16777216 * f b 3;
                  fs_version := f b 4; metadata_xor := f b 5; active_swap_count := f b 6;
                  hdr_pad := f b 7 |}.
Proof using Type.
  unfold hdr_at, dec_header, dec32. by rewrite !nth_byte_rd by lia.
Qed.

(** The bytes that make a header invalid: a version byte that was not
    programmed, or a swap count that was not. *)
Lemma header_torn f b :
  f b 6 = erase_val c ->
  (f b 4 = ETSS_SUPPORTED_VERSION \/ (f b 4 = erase_val c /\ f b 5 = erase_val c)) ->
  header_valid c f (hdr_at f b) b = false.
Proof using Type.
  intros H6 H45. unfold header_valid. rewrite hdr_bytes. unfold comp_active_swap_count; simpl.
  rewrite H6, Z.eqb_refl. simpl.
  destruct (Z.eqb_spec (f b 4) ETSS_BACKWARD_SUPPORTED_VERSION) as [H4|].
  - destruct H45 as [H45|[_ ->]]; [rewrite H45 in H4; done|by rewrite Z.eqb_refl].
  - by destruct (_ =? _).
Qed.

Lemma header_erased f b : erased c f b 0 8 -> header_valid c f (hdr_at f b) b = false.
Proof using Type. intros H. apply header_torn; [|right; split]; apply H; lia. Qed.

(** What [etss_init_get_active_metablock] selects. *)
Definition selected f : option Z :=
  match probe_spec c f 0, probe_spec c f 1 with
  | None, None => None
  | Some h_meta0, Some h_meta1 => Some (etss_mblock_latest_meta_block c h_meta0 h_meta1)
  | Some _, None => Some ETSS_METADATA_BLOCK0
  | None, Some _ => Some ETSS_METADATA_BLOCK1
  end.

(** The swap count after [v]: it skips the erase value. *)
Definition next_swap (v : Z) : Z :=
  let v1 := w8 (v + 1) in if v1 =? erase_val c then w8 (v1 + 1) else v1.

Lemma next_swap_valid v : is_u8 (next_swap v) /\ next_swap v <> erase_val c.
Proof using Hc.
  destruct Hc as [[] _ _]. unfold next_swap. destruct (Z.eqb_spec (w8 (v + 1)) (erase_val c)) as [He|]; simpl.
  - split; [apply w8_range|]. pose proof (w8_range (v + 1)) as Hr. rewrite <- He. unfold w8, is_u8 in *.
    destruct (decide ((v + 1) mod 256 = 255)) as [->|]; [done|].
    rewrite Z.mod_small; lia.
  - split; [apply w8_range|done].
Qed.

(** The block with the successor count is the latest, whichever it is. *)
Lemma latest_next h h' v :
  erase_val c <> 1 -> is_u8 v -> v <> erase_val c ->
  active_swap_count h = v -> active_swap_count h' = next_swap v ->
  etss_mblock_latest_meta_block c h h' = 1 /\ etss_mblock_latest_meta_block c h' h = 0.
Proof.
  intros H1 Hv Hne Hh Hh'. destruct Hc as [[] _ _]. unfold etss_mblock_latest_meta_block.
  rewrite Hh, Hh'. unfold next_swap, w8, is_u8, ETSS_METADATA_BLOCK0, ETSS_METADATA_BLOCK1 in *.
  assert ((v + 1) mod 256 = if v =? 255 then 0 else v + 1) as ->.
  { destruct (Z.eqb_spec v 255) as [->|]; [done|]. apply Z.mod_small. lia. }
  assert (forall x, 0 <= x <= 256 -> x mod 256 = if x =? 256 then 0 else x) as Hmod.
  { intros x Hx. destruct (Z.eqb_spec x 256) as [->|]; [done|]. apply Z.mod_small. lia. }
  repeat case_match; rewrite ?Hmod in * by lia; repeat case_match; lia.
Qed.
End Headers.

(** ** A valid file system on the device *)

Section Disk.
Context (c : etss_flash_fs_config_t) (Hc : cfg_ok c).
Implicit Types f g : image.

Definition valid_at f b : Prop := header_valid c f (hdr_at f b) b = true.

Record disk f (A : Z) : Prop := {
  dk_block : A = 0 \/ A = 1;
  dk_version : fs_version (hdr_at f A) = ETSS_SUPPORTED_VERSION;
  dk_valid : valid_at f A;
  dk_selected : selected c f = Some A;
  dk_wf : wf c (tables_at c f A) A (scratch_dblock (hdr_at f A))
}.

Definition disk_view f (A : Z) : gmap (list Z) afile := view c f (tables_at c f A).

Lemma selected_only f A :
  A = 0 \/ A = 1 -> valid_at f A -> header_valid c f (hdr_at f (1 - A)) (1 - A) = false ->
  selected c f = Some A.
Proof using Type.
  unfold valid_at, selected, probe_spec. intros [-> | ->]; rewrite ?Z.sub_0_r, ?Z.sub_diag; by intros -> ->.
Qed.

(** The block written last wins, the other header valid or not. *)
Lemma selected_newer f A v :
  erase_val c <> 1 -> is_u8 v -> v <> erase_val c ->
  A = 0 \/ A = 1 -> valid_at f (1 - A) -> active_swap_count (hdr_at f (1 - A)) = next_swap c v ->
  (valid_at f A -> active_swap_count (hdr_at f A) = v) ->
  selected c f = Some (1 - A).
Proof.
  intros He Hv Hve HA Hvalid Hsw Hold. unfold valid_at, selected, probe_spec in *.
  destruct HA as [-> | ->]; rewrite ?Z.sub_0_r, ?Z.sub_diag in *; rewrite Hvalid;
    destruct (header_valid _ _ _ _) eqn:Hh;
    try done; specialize (Hold eq_refl);
    destruct (latest_next c Hc _ _ v He Hv Hve Hold Hsw) as [H1 H2]; by rewrite ?H1, ?H2.
Qed.

Lemma disk_swap f A : disk f A ->
  active_swap_count (hdr_at f A) <> erase_val c.
Proof using Type.
  intros [_ Hver Hv _ _] He. unfold valid_at, header_valid in Hv.
  by rewrite Hver, He, (Z.eqb_refl (erase_val c)) in Hv.
Qed.

(** What the metadata of block [b] consists of. *)
Definition same_meta f g b : Prop := forall o, 0 <= o < fmo c (max_num_files c) -> g b o = f b o.

Lemma same_meta_hdr f g b : same_meta f g b -> hdr_at g b = hdr_at f b.
Proof.
  intros H. unfold hdr_at. f_equal. apply rd_ext. intros o Ho. apply H.
  pose proof (nact_range c Hc). pose proof (files_range c Hc). unfold fmo. lia.
Qed.
Lemma same_meta_xor f g b : same_meta f g b -> meta_xor c g b = meta_xor c f b.
Proof.
  intros H. unfold meta_xor. f_equal. apply rd_ext. intros o Ho. apply H.
  pose proof (nact_range c Hc). pose proof (files_range c Hc). unfold fmo in *. lia.
Qed.
Lemma same_meta_tables f g b : same_meta f g b -> tables_equiv c (tables_at c f b) (tables_at c g b).
Proof.
  intros H. pose proof (nact_range c Hc). pose proof (files_range c Hc).
  split; intros i Hi; unfold in_block_table, in_file_table in Hi; simpl.
  - unfold bm_at. f_equal. symmetry. apply rd_ext. intros o Ho. apply H. unfold bmo, fmo in *. lia.
  - unfold fm_at. f_equal. symmetry. apply rd_ext. intros o Ho. apply H. unfold fmo in *. lia.
Qed.
Lemma same_meta_valid f g b : same_meta f g b ->
  header_valid c g (hdr_at g b) b = header_valid c f (hdr_at f b) b.
Proof. intros H. unfold header_valid. by rewrite (same_meta_hdr f g), (same_meta_xor f g). Qed.

(** The device may change wherever the file system keeps nothing. *)
Lemma disk_frame f g A :
  disk f A -> selected c g = Some A -> same_meta f g A ->
  (forall l o, in_block_table c l -> data_start (bm_at f A l) <= o < block_size c ->
     g (phy_id (bm_at f A l)) o = f (phy_id (bm_at f A l)) o) ->
  disk g A /\ disk_view g A = disk_view f A.
Proof.
  intros Hd Hsel Hm Hbytes. destruct Hd as [Hb Hver Hv _ Hwf].
  pose proof (nact_range c Hc). pose proof (same_meta_tables f g A Hm) as HE. split.
  - split; [done|by rewrite (same_meta_hdr f g)| |done|].
    + unfold valid_at. by rewrite (same_meta_valid f g).
    + rewrite (same_meta_hdr f g) by done. eapply wf_equiv; [|exact HE|done]. lia.
  - eapply view_equiv; [done|exact Hb|exact HE|exact Hwf|]. intros l o Hl Ho. by apply Hbytes.
Qed.

(** The blocks the next update may use. *)
Definition scratch_region (S D b : Z) : Prop := b = S \/ (num_blocks c <> 2 /\ b = D).

Lemma disk_live_blocks f A l :
  disk f A -> in_block_table c l ->
  ~ scratch_region (1 - A) (scratch_dblock (hdr_at f A)) (phy_id (bm_at f A l)).
Proof.
  intros [Hb _ _ _ Hwf] Hl. change (bm_at f A l) with (tb (tables_at c f A) l).
  destruct (decide (l = 0)) as [->|Hne].
  - rewrite (wf_phy0 _ _ _ _ Hwf). unfold scratch_region.
    pose proof (wf_D _ _ _ _ Hwf). lia.
  - pose proof (wf_phy _ _ _ _ Hwf l Hl Hne). unfold scratch_region. lia.
Qed.

(** As long as only the scratch blocks change and no valid header appears
    in the scratch metadata block, a mount finds the old file system. *)
Lemma disk_scratch f g A :
  disk f A -> header_valid c g (hdr_at g (1 - A)) (1 - A) = false ->
  (forall b o, ~ scratch_region (1 - A) (scratch_dblock (hdr_at f A)) b -> g b o = f b o) ->
  disk g A /\ disk_view g A = disk_view f A.
Proof.
  intros Hd Hs Hframe. pose proof (dk_block _ _ Hd) as Hb.
  assert (~ scratch_region (1 - A) (scratch_dblock (hdr_at f A)) A) as HnA.
  { pose proof (disk_live_blocks f A 0 Hd) as H.
    change (bm_at f A 0) with (tb (tables_at c f A) 0) in H.
    rewrite (wf_phy0 _ _ _ _ (dk_wf _ _ Hd)) in H. apply H. pose proof (nact_range c Hc). unfold in_block_table. lia. }
  assert (same_meta f g A) as Hm by (intros o _; by apply Hframe).
  apply disk_frame; [done| |done|].
  - apply selected_only; [done| |done]. unfold valid_at. rewrite (same_meta_valid f g) by done. apply Hd.
  - intros l o Hl _. apply Hframe. by apply disk_live_blocks.
Qed.
End Disk.
