(* ===== verification/FsStage.v ===== *)
(** * Staging an update in the scratch blocks

    Between two commits the file system only writes to the scratch metadata
    block, header excluded, and to the scratch data block ([staging]).  This
    file gives the specifications of the functions that build the new tables
    there. *)
From Stdlib Require Import ZArith Lia.
From stdpp Require Import base list numbers gmap options.
From S2P Require Import Prelude EtssUtils FlashFsDefs Mblock FlashFs MblockSpec FsReads.
From S2P Require Import FsTables FsUpdate FsDisk.

#[local] Set Default Proof Using "Type*".

(** ** Struct fields written to flash *)

Lemma enc_block_meta_u8 m : Forall is_u8 (enc_block_meta m).
Proof. unfold enc_block_meta. rewrite !Forall_app. auto using enc32_u8. Qed.

Lemma enc_file_meta_u8 m : Forall is_u8 (enc_file_meta m).
Proof.
  unfold enc_file_meta. rewrite !Forall_app. do 5 (split; [apply enc32_u8|]).
  unfold fit. apply Forall_take, Forall_app. split.
  - apply Forall_fmap, Forall_true. intros x. apply w8_range.
  - apply Forall_replicate. unfold is_u8. lia.
Qed.

Section Written.
Context (f : image) (b : Z).

Lemma bm_written l m :
  block_meta_typed m ->
  (forall i, 0 <= i < 12 -> f b (bmo l + i) = nth_byte (enc_block_meta m) i) ->
  bm_at f b l = m.
Proof.
  intros Hm H. unfold bm_at. rewrite <- (dec_enc_block_meta m) by done. f_equal.
  apply (rd_of_bytes (f b) (bmo l) (enc_block_meta m)). by rewrite enc_block_meta_length.
Qed.

Lemma fm_written c i m :
  file_meta_typed m ->
  (forall j, 0 <= j < 32 -> f b (fmo c i + j) = nth_byte (enc_file_meta m) j) ->
  fm_at c f b i = m.
Proof.
  intros Hm H. unfold fm_at. rewrite <- (dec_enc_file_meta m) by done. f_equal.
  replace 32 with (Z.of_nat (length (enc_file_meta m))) by by rewrite enc_file_meta_length.
  apply rd_of_bytes. by rewrite enc_file_meta_length.
Qed.

Lemma bm_copied g a l :
  (forall o, bmo l <= o < bmo l + 12 -> f b o = g a o) -> bm_at f b l = bm_at g a l.
Proof. intros H. unfold bm_at. f_equal. by apply rd_ext. Qed.

Lemma fm_copied c g a i :
  (forall o, fmo c i <= o < fmo c i + 32 -> f b o = g a o) -> fm_at c f b i = fm_at c g a i.
Proof. intros H. unfold fm_at. f_equal. by apply rd_ext. Qed.
End Written.

Section Stage.
Context {E : Type} {FO : FlashOps E} (c : etss_flash_fs_config_t) {FL : FlashLaws E c}.
Context (Hc : cfg_ok c).
Implicit Types s : fs_state E.

Definition scr s : Z := scratch_metablock (fs_ctx s).
Definition dsc s : Z := scratch_dblock (meta_block_header (fs_ctx s)).

Definition with_dscratch (D : Z) (x : etss_flash_fs_ctx_t) : etss_flash_fs_ctx_t :=
  set_header (set_scratch_dblock D (meta_block_header x)) x.

(** The bytes an update may write before its commit. *)
Definition area s (b o : Z) : Prop :=
  scratch_region c (scr s) (dsc s) b /\ ~ (b = scr s /\ o < 8).

Definition staging s0 s : Prop :=
  (exists D, fs_ctx s = with_dscratch D (fs_ctx s0)) /\
  (forall b o, ~ area s0 b o -> im s b o = im s0 b o) /\
  (healthy (c := c) (fs_env s0) -> healthy (c := c) (fs_env s)).

(** [m] stages something: it fails only if the device does or in a state
    that [X] describes. *)
Definition stages s0 (X : fs_state E -> Prop) {A} (P : A -> fs_state E -> Prop) (r : outcome A) s' : Prop :=
  staging s0 s' /\ match r with Ok a => P a s' | Err _ => sick c s0 \/ X s' end.

Lemma with_dscratch_id x : with_dscratch (scratch_dblock (meta_block_header x)) x = x.
Proof using Type. by destruct x as [? [] ? ?]. Qed.

Lemma staging_refl s : staging s s.
Proof using Type.
  split; [|done]. exists (dsc s). symmetry. apply with_dscratch_id.
Qed.

Lemma staging_upto s0 s s' R :
  staging s0 s -> upto R s s' -> (forall b o, R b o -> area s0 b o) -> staging s0 s'.
Proof using Type.
  intros (HD & Hf & Hh) (Hx & Hf' & Hh') HR. split; [by rewrite Hx|]. split; [|auto].
  intros b o Hn. rewrite Hf'; [by apply Hf|]. by intros ?%HR.
Qed.

Lemma staging_nowhere s0 s s' : staging s0 s -> upto nowhere s s' -> staging s0 s'.
Proof using Type. intros Hs Hup. eapply staging_upto; [done..|]. intros b o []. Qed.

Lemma staging_sick s0 s : staging s0 s -> sick c s -> sick c s0.
Proof using Type. intros (_ & _ & Hh) Hs ?. by apply Hs, Hh. Qed.

Lemma staging_scr s0 s : staging s0 s -> scr s = scr s0.
Proof using Type. intros ((D & HD) & _). unfold scr. by rewrite HD. Qed.
Lemma staging_act s0 s : staging s0 s -> act s = act s0.
Proof using Type. intros ((D & HD) & _). unfold act. by rewrite HD. Qed.
Lemma staging_cfg s0 s : staging s0 s -> cfg (fs_ctx s) = cfg (fs_ctx s0).
Proof using Type. intros ((D & HD) & _). by rewrite HD. Qed.
Lemma staging_ctx_ok s0 s : staging s0 s -> ctx_ok c (fs_ctx s0) -> ctx_ok c (fs_ctx s).
Proof using Type. intros ((D & HD) & _) [H1 H2]. rewrite HD. by split. Qed.

Lemma wp_stages {A B} (m : FS E A) (k : A -> FS E B) s0 s X P Q :
  wp m s (stages s0 X P) ->
  (forall a s', staging s0 s' -> P a s' -> wp (k a) s' (stages s0 X Q)) ->
  wp (m ≫= k) s (stages s0 X Q).
Proof using Type.
  intros Hm Hk. eapply wp_seq; [exact Hm|..].
  - intros e s' [? ?]. by split.
  - intros a s' [? ?]. by apply Hk.
Qed.

Lemma wp_stages_or {A} (m : FS E A) e0 s0 s X P :
  wp m s (stages s0 X P) -> wp (or_return m e0) s (stages s0 X P).
Proof using Type.
  intros Hm. apply wp_or_return. eapply wp_mono; [exact Hm|]. by intros [a|e] s' [? ?].
Qed.

Lemma wp_stages_ret {A} (a : A) s0 s X (P : A -> fs_state E -> Prop) :
  staging s0 s -> P a s -> wp (mret a) s (stages s0 X P).
Proof using Type. intros. apply wp_ret. by split. Qed.

Lemma wp_stages_err {A} e s0 s (X : fs_state E -> Prop) (P : A -> fs_state E -> Prop) :
  staging s0 s -> X s -> wp (raise e) s (stages s0 X P).
Proof using Type. intros. apply wp_raise. split; [done|by right]. Qed.

(** A command with a frame stages what its frame allows. *)
Lemma wp_stage_upto {A} (m : FS E A) s0 s X R (P : A -> fs_state E -> Prop) :
  staging s0 s -> (forall b o, R b o -> area s0 b o) ->
  wp m s (fun r s' => upto R s s' /\ match r with Ok a => P a s' | Err _ => sick c s end) ->
  wp m s (stages s0 X (fun a s' => upto R s s' /\ P a s')).
Proof using Type.
  intros Hs HR Hm. eapply wp_mono; [exact Hm|]. intros [a|e] s' [Hup Hr].
  - split; [by eapply staging_upto|done].
  - split; [by eapply staging_upto|]. left. by eapply staging_sick.
Qed.

Lemma wp_stage_yields {A} (m : FS E A) s0 s X (v : A) :
  staging s0 s -> wp m s (yields c s v) ->
  wp m s (stages s0 X (fun a s' => a = v /\ upto nowhere s s')).
Proof using Type.
  intros Hs Hm. eapply wp_mono; [exact Hm|]. intros [a|e] s' [Hup Hr].
  - split; [by eapply staging_nowhere|done].
  - split; [by eapply staging_nowhere|]. left. by eapply staging_sick.
Qed.
End Stage.

(** ** Functions with a frame *)

Section Writes.
Context {E : Type} {FO : FlashOps E} (c : etss_flash_fs_config_t) {FL : FlashLaws E c}.
Context (Hc : cfg_ok c).
Implicit Types s : fs_state E.

(** [m] changes only [R], gives [P], and fails only if the device does. *)
Definition writes s (R : Z -> Z -> Prop) {A} (P : A -> fs_state E -> Prop)
    (r : outcome A) s' : Prop :=
  upto R s s' /\ match r with Ok a => P a s' | Err _ => sick c s end.

Lemma wp_writes_seq {A B} (m : FS E A) (k : A -> FS E B) s R P Q :
  wp m s (writes s R P) ->
  (forall a s', upto R s s' -> P a s' -> wp (k a) s' (writes s' R Q)) ->
  wp (m ≫= k) s (writes s R Q).
Proof using Type.
  intros Hm Hk. eapply wp_seq; [exact Hm|..].
  - by intros e s' [? ?].
  - intros a s' [Hup HP]. eapply wp_mono; [by apply Hk|].
    intros [b|e] s'' [Hup' Hr]; (split; [by transitivity s'|]); [done|].
    by eapply upto_sick.
Qed.

Lemma wp_writes_weaken {A} (m : FS E A) s R R' (P Q : A -> fs_state E -> Prop) :
  wp m s (writes s R P) -> (forall b o, R b o -> R' b o) ->
  (forall a s', upto R s s' -> P a s' -> Q a s') ->
  wp m s (writes s R' Q).
Proof using Type.
  intros Hm HR HQ. eapply wp_mono; [exact Hm|]. intros [a|e] s' [Hup Hr];
    (split; [by eapply upto_weaken|]); auto.
Qed.

Lemma wp_writes_or {A} (m : FS E A) e0 s R P :
  wp m s (writes s R P) -> wp (or_return m e0) s (writes s R P).
Proof using Type.
  intros Hm. apply wp_or_return. eapply wp_mono; [exact Hm|]. by intros [a|e] s' [? ?].
Qed.

Lemma wp_writes_ret {A} (a : A) s R (P : A -> fs_state E -> Prop) :
  P a s -> wp (mret a) s (writes s R P).
Proof using Type. intros. apply wp_ret. by split. Qed.

Lemma wp_writes_yields {A} (m : FS E A) s R (v : A) :
  wp m s (yields c s v) -> wp m s (writes s R (fun a s' => a = v /\ upto nowhere s s')).
Proof using Type.
  intros Hm. eapply wp_mono; [exact Hm|]. intros [a|e] s' [Hup Hr];
    (split; [by apply upto_any|done]).
Qed.

(** [n] bytes at [off] of [b] are those of [buf]. *)
Definition holds (f : image) (b off n : Z) (buf : list Z) : Prop :=
  forall i, 0 <= i < n -> f b (off + i) = nth_byte buf i.

Lemma wp_write b buf off n s :
  cfg (fs_ctx s) = c -> in_block c b off n ->
  n <= Z.of_nat (length buf) -> Forall is_u8 buf -> erased c (im s) b off n ->
  wp (ops_write b buf off n) s (writes s (within b off n) (fun _ s' => holds (im s') b off n buf)).
Proof using Type.
  intros Hs Hb Hn Hu He. eapply wp_mono; [by apply wp_ops_write|].
  intros [[]|e] s' (Hup & Hw & Hr); (split; [done|]); [exact (Hw eq_refl He)|by destruct Hr].
Qed.

Lemma wp_copy dst doff src soff n s :
  cfg (fs_ctx s) = c -> dst <> src -> in_block c dst doff n -> in_block c src soff n ->
  erased c (im s) dst doff n ->
  wp (etss_flash_fs_block_to_block_move dst doff src soff n) s
    (writes s (within dst doff n) (fun _ s' => copied (im s) src soff (im s') dst doff n)).
Proof.
  intros Hs Hne Hd Hsr He. eapply wp_mono; [apply wp_move; try done|].
  { pose proof (block_size_range c Hc). lia. }
  intros [[]|e] s' (Hup & Hw & Hr); (split; [done|]); [exact (Hw eq_refl He)|by destruct Hr].
Qed.

(** ** Entries of the new tables *)

Lemma ctx_scr s : ctx_ok c (fs_ctx s) -> scr s = 0 \/ scr s = 1.
Proof using Type. intros [_ Hb]. unfold scr. lia. Qed.
Lemma ctx_scr_act s : ctx_ok c (fs_ctx s) -> scr s <> act s.
Proof using Type. intros [_ Hb]. unfold scr, act. lia. Qed.
Lemma ctx_scr_eq s : ctx_ok c (fs_ctx s) -> scr s = 1 - act s.
Proof using Type. intros [_ Hb]. unfold scr, act. lia. Qed.

(** The context is valid, with active block [A] and scratch block [S]. *)
Definition env_ok s (A S : Z) : Prop := ctx_ok c (fs_ctx s) /\ act s = A /\ scr s = S.

Lemma env_upto R s s' A S : upto R s s' -> env_ok s A S -> env_ok s' A S.
Proof using Type. unfold env_ok, act, scr. by intros [-> _]. Qed.
Lemma env_blocks s A S : env_ok s A S -> (A = 0 /\ S = 1) \/ (A = 1 /\ S = 0).
Proof using Type. intros ([_ Hb] & <- & <-). done. Qed.
Lemma env_act s A S : env_ok s A S -> act s = A.
Proof using Type. by intros (_ & ? & _). Qed.
Lemma env_cfg s A S : env_ok s A S -> cfg (fs_ctx s) = c.
Proof using Type. by intros ([? _] & _). Qed.

Lemma wp_update_fm i m s A S :
  env_ok s A S -> in_file_table c i -> file_meta_typed m ->
  erased c (im s) S (fmo c i) 32 ->
  wp (etss_flash_fs_mblock_update_scratch_file_meta i m) s
    (writes s (within S (fmo c i) 32) (fun _ s' => fm_at c (im s') S i = m)).
Proof.
  intros Hx Hi Hm He. unfold etss_flash_fs_mblock_update_scratch_file_meta.
  apply wp_bind, wp_get_ctx. pose proof (files_range c Hc). unfold in_file_table in Hi.
  pose proof (env_blocks _ _ _ Hx) as Hb. rewrite (env_cfg _ _ _ Hx), file_meta_offset_eq by (done || lia).
  destruct Hx as (Hx & _ & HS). unfold scr in HS. rewrite HS.
  eapply wp_writes_weaken.
  - apply wp_write; [by apply (ctx_cfg c)| | |apply enc_file_meta_u8|exact He].
    + apply in_block_fm; [done|lia|done].
    + by rewrite enc_file_meta_length.
  - done.
  - intros a s' _ Hh. by apply fm_written.
Qed.

Lemma wp_update_bm l m s A S :
  env_ok s A S -> in_block_table c l -> block_meta_typed m ->
  erased c (im s) S (bmo l) 12 ->
  wp (etss_mblock_update_scratch_block_meta l m) s
    (writes s (within S (bmo l) 12) (fun _ s' => bm_at (im s') S l = m)).
Proof.
  intros Hx Hl Hm He. unfold etss_mblock_update_scratch_block_meta.
  apply wp_bind, wp_get_ctx. pose proof (nact_range c Hc). unfold in_block_table in Hl.
  pose proof (env_blocks _ _ _ Hx) as Hb.
  destruct Hx as (Hx & _ & HS). unfold scr in HS. rewrite HS.
  rewrite block_meta_offset_eq by lia.
  eapply wp_writes_weaken.
  - apply wp_write; [by apply (ctx_cfg c)| | |apply enc_block_meta_u8|exact He].
    + apply in_block_bm; [done|lia|done].
    + by rewrite enc_block_meta_length.
  - done.
  - intros a s' _ Hh. by apply bm_written.
Qed.

(** A metadata range copied from the active block. *)
Lemma wp_copy_meta off n s A S :
  env_ok s A S -> 0 <= off -> 0 <= n -> off + n <= block_size c ->
  erased c (im s) S off n ->
  wp (etss_flash_fs_block_to_block_move S off A off n) s
    (writes s (within S off n) (fun _ s' =>
       forall o, off <= o < off + n -> im s' S o = im s A o)).
Proof.
  intros Hx H1 H2 H3 He. pose proof (env_blocks _ _ _ Hx) as Hb.
  pose proof (validate_config_blocks c Hc). eapply wp_writes_weaken.
  - apply wp_copy; [by eapply env_cfg|lia|unfold in_block; lia..|exact He].
  - done.
  - intros a s' _ Hcp o Ho. specialize (Hcp (o - off)).
    replace (off + (o - off)) with o in Hcp by lia. apply Hcp. lia.
Qed.

Lemma wp_cp_file_meta i j s A S :
  env_ok s A S -> 0 <= i <= j -> j <= max_num_files c ->
  erased c (im s) S (fmo c i) (fmo c j - fmo c i) ->
  wp (etss_flash_fs_mblock_cp_file_meta i j) s
    (writes s (within S (fmo c i) (fmo c j - fmo c i)) (fun _ s' =>
       forall o, fmo c i <= o < fmo c j -> im s' S o = im s A o)).
Proof.
  intros Hx Hij Hj He. unfold etss_flash_fs_mblock_cp_file_meta.
  apply wp_bind, wp_get_ctx. pose proof (files_range c Hc). pose proof (nact_range c Hc).
  pose proof (metadata_fits c Hc).
  rewrite (env_cfg _ _ _ Hx), !file_meta_offset_eq by (done || lia).
  rewrite sub32_small by (unfold fmo; lia).
  destruct (Hx) as (_ & HA & HS). unfold scr, act in HA, HS. rewrite HA, HS.
  eapply wp_writes_weaken.
  - eapply wp_copy_meta; [done|unfold fmo in *; lia..|exact He].
  - done.
  - intros a s' _ Hcp o Ho. apply Hcp. lia.
Qed.

Lemma upto_erased R s s' b off n :
  upto R s s' -> (forall o, off <= o < off + n -> ~ R b o) ->
  erased c (im s) b off n -> erased c (im s') b off n.
Proof using Type. intros Hup HR He o Ho. rewrite (upto_im _ _ _ _ _ Hup); auto. Qed.

Lemma copied_bm s s' A S l :
  (forall o, bmo l <= o < bmo l + 12 -> im s' S o = im s A o) ->
  bm_at (im s') S l = bm_at (im s) A l.
Proof using Type. apply bm_copied. Qed.

(** The first part of [etss_mblock_copy_remaining_block_meta], for [l <> 0]:
    entry 0 with its new physical block, then entries [1 .. l - 1]. *)
Lemma wp_copy_below l s A S :
  env_ok s A S -> blocks_valid c s -> in_block_table c l -> l <> 0 ->
  erased c (im s) S 8 (12 * l) -> block_meta_typed (bm_at (im s) A 0) ->
  wp (block_meta ← or_return (etss_flash_fs_mblock_read_block_metadata ETSS_LOGICAL_DBLOCK0)
                     PSA_ERROR_GENERIC_ERROR;
      or_return (etss_mblock_update_scratch_block_meta ETSS_LOGICAL_DBLOCK0
                   (set_phy_id S block_meta)) PSA_ERROR_GENERIC_ERROR;;
      if l >? 1 then
        let pos := etss_mblock_block_meta_offset (ETSS_LOGICAL_DBLOCK0 + 1) in
        let size := sub32 (etss_mblock_block_meta_offset l) pos in
        etss_flash_fs_block_to_block_move S pos A pos size
      else mret tt) s
    (writes s (within S 8 (12 * l)) (fun _ s' =>
       bm_at (im s') S 0 = set_phy_id S (bm_at (im s) A 0) /\
       forall j, 1 <= j < l -> bm_at (im s') S j = bm_at (im s) A j)).
Proof.
  intros Hx Hv Hl Hne He Hty. unfold in_block_table in Hl. pose proof (nact_range c Hc) as Hn.
  pose proof (files_range c Hc) as Hf. pose proof (env_blocks _ _ _ Hx) as Hb.
  pose proof (metadata_fits c Hc) as Hfit. unfold ETSS_LOGICAL_DBLOCK0.
  eapply wp_writes_seq.
  { apply wp_writes_or, wp_writes_yields, (wp_read_bm c Hc); [apply Hx|done|lia]. }
  intros bm0 s1 _ [-> Hup1]. destruct (Hx) as (_ & HA & _). rewrite HA. clear HA.
  eapply wp_writes_seq.
  { apply wp_writes_or. eapply wp_writes_weaken; [eapply wp_update_bm| |].
    - by eapply env_upto.
    - unfold in_block_table. lia.
    - destruct Hty as (_ & ? & ?). split_and!; [|done..]. unfold is_u32; simpl. lia.
    - eapply upto_erased; [exact Hup1|by intros ? _ []|]. eapply erased_sub; [exact He|unfold bmo; lia..].
    - intros b o [-> ?]. split; [done|unfold bmo in *; lia].
    - intros a s2 Hup2 HP. exact (conj Hup2 HP). }
  intros [] s2 _ [Hup2 Hbm0].
  destruct (Z.gtb_spec l 1) as [Hl1|Hl1].
  2: { apply wp_writes_ret. split; [done|]. intros j Hj. lia. }
  rewrite !block_meta_offset_eq by lia. rewrite sub32_small by (unfold bmo; lia).
  eapply wp_writes_weaken.
  { eapply wp_copy_meta; [eapply env_upto, env_upto; done|unfold bmo, fmo in *; lia..|].
    eapply upto_erased; [exact Hup2|intros o Ho [_ ?]; unfold bmo in *; lia|].
    eapply upto_erased; [exact Hup1|by intros ? _ []|]. eapply erased_sub; [exact He|unfold bmo; lia..]. }
  { intros b o [-> Ho]. split; [done|]. unfold bmo in Ho. lia. }
  intros [] s3 Hup3 Hcp. split.
  - rewrite <- Hbm0. apply bm_copied. intros o Ho. apply (upto_im _ _ _ _ _ Hup3).
    unfold within, bmo in *. lia.
  - intros j Hj. apply copied_bm. intros o Ho. rewrite Hcp by (unfold bmo in *; lia).
    rewrite (upto_im _ _ _ _ _ Hup2) by (unfold within, bmo in *; lia). by apply upto_nowhere.
Qed.

(** The block-metadata table of [b] in [f] is that of [T]. *)
Definition bm_table (f : image) (b : Z) (T : tables) : Prop :=
  forall l, in_block_table c l -> bm_at f b l = tb T l.

Lemma bm_table_upto R s s' b T :
  upto R s s' -> (forall o, 8 <= o < fmo c 0 -> ~ R b o) ->
  bm_table (im s) b T -> bm_table (im s') b T.
Proof using Type.
  intros Hup HR HT l Hl. rewrite <- HT by done. apply bm_copied. intros o Ho.
  apply (upto_im _ _ _ _ _ Hup), HR. unfold in_block_table, bmo, fmo in *. lia.
Qed.

(** [etss_mblock_copy_remaining_block_meta]: all entries but [l]. *)
Lemma wp_copy_remaining l s A S :
  env_ok s A S -> blocks_valid c s -> in_block_table c l ->
  erased c (im s) S 8 (12 * l) -> erased c (im s) S (bmo (l + 1)) (fmo c 0 - bmo (l + 1)) ->
  block_meta_typed (bm_at (im s) A 0) ->
  wp (etss_mblock_copy_remaining_block_meta l) s
    (writes s (fun b o => b = S /\ 8 <= o < fmo c 0 /\ ~ (bmo l <= o < bmo l + 12)) (fun _ s' =>
       forall j, in_block_table c j -> j <> l ->
         bm_at (im s') S j = tb (put_block S l (bm_at (im s) A l) (tables_at c (im s) A)) j)).
Proof.
  intros Hx Hv Hl He1 He2 Hty. pose proof (nact_range c Hc) as Hn. unfold in_block_table in Hl.
  pose proof (files_range c Hc) as Hf. pose proof (metadata_fits c Hc) as Hfit.
  unfold etss_mblock_copy_remaining_block_meta. apply wp_bind, wp_get_ctx.
  destruct (Hx) as (_ & HA & HS). unfold act, scr in HA, HS. rewrite HA, HS, (env_cfg _ _ _ Hx).
  clear HA HS. eapply (wp_writes_seq _ _ _ _ (fun _ s1 => upto (within S 8 (12 * l)) s s1 /\
    forall j, 0 <= j < l -> bm_at (im s1) S j
      = tb (put_block S l (bm_at (im s) A l) (tables_at c (im s) A)) j)).
  { unfold ETSS_LOGICAL_DBLOCK0 at 1. destruct (Z.eqb_spec l 0) as [->|Hne]; simpl.
    - apply wp_writes_ret. split; [done|]. intros j Hj. lia.
    - eapply wp_writes_weaken; [by apply (wp_copy_below l s A S)| |].
      + intros b o [-> Ho]. split; [done|]. unfold bmo, fmo in *. lia.
      + intros a s1 Hup1 [H0 Hj]. split; [done|]. intros j Hjl. unfold put_block; simpl.
        destruct (Z.eqb_spec j l); [lia|]. destruct (Z.eqb_spec j 0) as [->|]; [done|].
        apply Hj. lia. }
  intros [] s1 _ [Hup1 Hlow].
  rewrite add32_small, block_meta_offset_eq, file_meta_offset_eq, sub32_small
    by (done || (unfold bmo, fmo in *; lia)).
  eapply wp_writes_weaken.
  { eapply wp_copy_meta; [by eapply env_upto|unfold bmo, fmo in *; lia..|].
    eapply upto_erased; [exact Hup1|intros o Ho [_ ?]; unfold bmo in *; lia|exact He2]. }
  { intros b o [-> Ho]. split; [done|]. unfold bmo, fmo in *. lia. }
  intros [] s2 Hup2 Hcp j Hj Hjl. unfold in_block_table in Hj.
  destruct (decide (j < l)) as [Hlt|Hge].
  - rewrite <- Hlow by lia. apply bm_copied. intros o Ho. apply (upto_im _ _ _ _ _ Hup2).
    unfold within, bmo in *. lia.
  - unfold put_block; simpl. destruct (Z.eqb_spec j l); [done|]. destruct (Z.eqb_spec j 0); [lia|].
    apply copied_bm. intros o Ho. rewrite Hcp by (unfold bmo, fmo in *; lia).
    apply (upto_im _ _ _ _ _ Hup1). pose proof (env_blocks _ _ _ Hx). unfold within. lia.
Qed.

(** The whole table, with the entry of [l] changed. *)
Lemma wp_update_scratch_bm l bm s A S :
  env_ok s A S -> blocks_valid c s -> in_block_table c l ->
  erased c (im s) S 8 (fmo c 0 - 8) ->
  block_meta_typed bm -> block_meta_typed (bm_at (im s) A 0) ->
  wp (etss_flash_fs_mblock_update_scratch_block_meta l bm) s
    (writes s (within S 8 (fmo c 0 - 8)) (fun _ s' =>
       bm_table (im s') S (put_block S l bm (tables_at c (im s) A)))).
Proof.
  intros Hx Hv Hl He Hty Hty0. pose proof (nact_range c Hc) as Hn. unfold in_block_table in Hl.
  unfold etss_flash_fs_mblock_update_scratch_block_meta. apply wp_bind, wp_get_ctx.
  destruct (Hx) as (_ & _ & HS). unfold scr in HS. rewrite HS. clear HS.
  set (bm' := if l =? ETSS_LOGICAL_DBLOCK0 then set_phy_id S bm else bm).
  assert (block_meta_typed bm') as Hty'.
  { pose proof (env_blocks _ _ _ Hx). unfold bm'. destruct (l =? _); [|done].
    destruct Hty as (_ & ? & ?). split_and!; [|done..]. unfold is_u32; simpl. lia. }
  eapply (wp_writes_seq _ _ _ _ (fun _ s1 => upto (within S (bmo l) 12) s s1 /\ bm_at (im s1) S l = bm')).
  { apply wp_writes_or. eapply wp_writes_weaken.
    - eapply wp_update_bm; [exact Hx|done|done|]. eapply erased_sub; [exact He|unfold bmo, fmo in *; lia..].
    - intros b o [-> Ho]. split; [done|]. unfold bmo, fmo in *. lia.
    - intros a s1 Hup1 HP. exact (conj Hup1 HP). }
  intros [] s1 _ [Hup1 Hbl].
  assert (forall o, im s1 A o = im s A o) as HA.
  { intros o. apply (upto_im _ _ _ _ _ Hup1). pose proof (env_blocks _ _ _ Hx). unfold within. lia. }
  assert (forall j, bm_at (im s1) A j = bm_at (im s) A j) as HAj by (intros j; by apply bm_copied).
  eapply wp_writes_weaken.
  { eapply (wp_copy_remaining l s1 A S); [by eapply env_upto| |done|..].
    - intros j Hj. rewrite (env_act _ _ _ (env_upto _ _ _ A S Hup1 Hx)), HAj.
      rewrite <- (env_act _ _ _ Hx). by apply Hv.
    - eapply upto_erased; [exact Hup1|intros o Ho [_ ?]; unfold bmo in *; lia|].
      eapply erased_sub; [exact He|unfold fmo in *; lia..].
    - eapply upto_erased; [exact Hup1|intros o Ho [_ ?]; unfold bmo in *; lia|].
      eapply erased_sub; [exact He|unfold bmo, fmo in *; lia..].
    - by rewrite HAj. }
  { intros b o (-> & Ho & _). split; [done|]. lia. }
  intros [] s2 Hup2 Hrest j Hj. destruct (decide (j = l)) as [->|Hjl].
  - transitivity bm'.
    + rewrite <- Hbl. apply bm_copied. intros o Ho. apply (upto_im _ _ _ _ _ Hup2). lia.
    + unfold put_block, bm'; simpl. by rewrite Z.eqb_refl.
  - rewrite Hrest by done. unfold put_block; simpl.
    destruct (Z.eqb_spec j l); [done|]. by rewrite HAj.
Qed.

(** The data of logical block 0, copied from the active block. *)
Lemma wp_migrate s A S :
  env_ok s A S -> blocks_valid c s -> phy_id (bm_at (im s) A 0) = A ->
  block_meta_typed (bm_at (im s) A 0) ->
  let bm := bm_at (im s) A 0 in
  erased c (im s) S (data_start bm) (used_end c bm - data_start bm) ->
  wp etss_flash_fs_mblock_migrate_lb0_data_to_scratch s
    (writes s (within S (data_start bm) (used_end c bm - data_start bm)) (fun _ s' =>
       forall o, data_start bm <= o < used_end c bm -> im s' S o = im s A o)).
Proof.
  intros Hx Hv Hphy Hty bm He. pose proof (nact_range c Hc) as Hn.
  pose proof (block_size_range c Hc) as Hbs.
  unfold etss_flash_fs_mblock_migrate_lb0_data_to_scratch.
  assert (etss_mblock_validate_block_meta c bm = PSA_SUCCESS) as Hval.
  { destruct (Hx) as (_ & HA & _). unfold bm. rewrite <- HA. apply Hv. unfold in_block_table. lia. }
  pose proof (proj1 (validate_block_meta_iff c Hc bm Hty) Hval) as (_ & Hsum & _).
  destruct Hty as (_ & [Hd0 _] & [Hf0 _]). fold bm in Hd0, Hf0.
  eapply wp_writes_seq.
  { apply wp_writes_yields, (wp_read_bm c Hc); [apply Hx|done|unfold ETSS_LOGICAL_DBLOCK0; lia]. }
  intros bm0 s1 _ [-> Hup1]. destruct (Hx) as (_ & HA & _). rewrite HA. clear HA.
  change (bm_at (im s) A ETSS_LOGICAL_DBLOCK0) with bm.
  apply wp_bind, wp_get_ctx. pose proof (env_upto _ _ _ _ _ Hup1 Hx) as Hx1.
  rewrite (env_cfg _ _ _ Hx1). destruct (Hx1) as (_ & HA1 & HS1). unfold act, scr in HA1, HS1.
  rewrite HA1, HS1, (sub32_small (block_size c)), sub32_small by lia.
  replace (block_size c - data_start bm - free_size bm) with (used_end c bm - data_start bm)
    by (unfold used_end; lia).
  eapply wp_writes_weaken.
  - eapply wp_copy_meta; [exact Hx1|unfold used_end; lia..|].
    eapply upto_erased; [exact Hup1|by intros ? _ []|exact He].
  - done.
  - intros [] s2 Hup2 Hcp o Ho. rewrite Hcp by lia. by apply upto_nowhere.
Qed.
End Writes.
