(* ===== verification/FsCommit.v ===== *)
(** * Commit and mount

    The header write that makes the staged tables the current ones
    ([etss_flash_fs_mblock_meta_update_finalize]), the erasure of the blocks
    that are free afterwards, and the start-up sequence
    ([etss_flash_fs_mblock_init]), with what a power failure at any point
    leaves on the device. *)
From Stdlib Require Import ZArith Lia.
From stdpp Require Import base list numbers gmap options.
From S2P Require Import Prelude EtssUtils FlashFsDefs Mblock FlashFs MblockSpec FsReads.
From S2P Require Import FsTables FsUpdate FsDisk FsStage.

#[local] Set Default Proof Using "Type*".

(** ** The XOR is a byte *)

Lemma lxor_u8 x y : is_u8 x -> is_u8 y -> is_u8 (Z.lxor x y).
Proof.
  unfold is_u8. intros Hx Hy. assert (0 <= Z.lxor x y) by (apply Z.lxor_nonneg; lia).
  split; [done|]. destruct (decide (Z.lxor x y = 0)) as [->|Hne]; [lia|].
  change 256 with (2 ^ 8). apply Z.log2_lt_pow2; [lia|].
  assert (forall z, 0 <= z < 256 -> Z.log2 z < 8) as Hlog.
  { intros z Hz. destruct (decide (z = 0)) as [->|]; [done|]. apply Z.log2_lt_pow2; lia. }
  pose proof (Z.log2_lxor x y). pose proof (Hlog x Hx). pose proof (Hlog y Hy). lia.
Qed.

Lemma xor_bytes_u8 l acc : is_u8 acc -> Forall is_u8 l -> is_u8 (xor_bytes acc l).
Proof.
  intros Hacc Hl. revert acc Hacc. induction Hl as [|x l Hx _ IH]; intros acc Hacc; [done|].
  apply IH. by apply lxor_u8.
Qed.

(** ** The header in flash *)

Section Header.
Context (c : etss_flash_fs_config_t) (Hc : cfg_ok c).
Implicit Types f g : image.

(** A header of which all bytes but the padding were programmed. *)
Lemma hdr_prefix g b h k :
  7 <= k -> header_typed h -> (forall i, 0 <= i < k -> g b i = nth_byte (enc_header h) i) ->
  scratch_dblock (hdr_at g b) = scratch_dblock h /\ fs_version (hdr_at g b) = fs_version h /\
  metadata_xor (hdr_at g b) = metadata_xor h /\
  active_swap_count (hdr_at g b) = active_swap_count h.
Proof using Type.
  intros Hk Hty Hg. rewrite hdr_bytes; cbn [scratch_dblock fs_version metadata_xor active_swap_count].
  rewrite !Hg by lia. pose proof (dec_enc_header h Hty) as Hd. unfold dec_header, dec32 in Hd.
  split_and!; [exact (f_equal scratch_dblock Hd)|exact (f_equal fs_version Hd)
    |exact (f_equal metadata_xor Hd)|exact (f_equal active_swap_count Hd)].
Qed.

(** A header write that stopped before the swap count is no header. *)
Lemma header_torn_write f g b h k :
  erased c f b 0 8 -> 0 <= k <= 6 -> header_typed h -> fs_version h = ETSS_SUPPORTED_VERSION ->
  (forall o, ~ (0 <= o < k) -> g b o = f b o) ->
  (forall i, 0 <= i < k -> g b i = nth_byte (enc_header h) i) ->
  header_valid c g (hdr_at g b) b = false.
Proof using Type.
  intros He Hk Hty Hv Hout Hin. apply header_torn.
  - rewrite Hout by lia. apply He. lia.
  - destruct (decide (k <= 4)) as [Hk4|Hk4].
    + right. split; rewrite Hout by lia; apply He; lia.
    + left. rewrite Hin by lia. pose proof (dec_enc_header h Hty) as Hd.
      change (fs_version (dec_header (enc_header h)) = ETSS_SUPPORTED_VERSION).
      by rewrite Hd.
Qed.

(** Erasing the first bytes of the older metadata block does not change
    which block is selected. *)
Lemma selected_erase f g A k :
  disk c f A -> 0 <= k ->
  (forall o, 0 <= o < fmo c (max_num_files c) -> g A o = f A o) ->
  (forall o, 0 <= o < k -> g (1 - A) o = erase_val c) ->
  (forall o, ~ (0 <= o < k) -> g (1 - A) o = f (1 - A) o) ->
  selected c g = Some A.
Proof.
  intros Hd Hk HA Hin Hout. pose proof (dk_block _ _ _ Hd) as Hb.
  assert (valid_at c g A) as HvA.
  { unfold valid_at. rewrite (same_meta_valid c Hc f g) by done. apply Hd. }
  destruct (decide (header_valid c g (hdr_at g (1 - A)) (1 - A) = false)) as [Hinv|Hval].
  { by apply selected_only. }
  assert (k <= 4) as Hk4.
  { destruct (decide (k <= 4)) as [|Hk4]; [done|]. exfalso. apply Hval.
    destruct (co_erase _ Hc) as [H1 H2]. unfold header_valid. rewrite hdr_bytes.
    cbn [fs_version]. rewrite Hin by lia. apply Z.eqb_neq in H1, H2. by rewrite H1, H2. }
  rewrite <- (dk_selected _ _ _ Hd). unfold selected, probe_spec.
  assert (meta_xor c g (1 - A) = meta_xor c f (1 - A)) as Hx.
  { unfold meta_xor. f_equal. apply rd_ext. intros o Ho. apply Hout. lia. }
  assert (header_valid c g (hdr_at g (1 - A)) (1 - A)
          = header_valid c f (hdr_at f (1 - A)) (1 - A)) as HvS.
  { unfold header_valid. rewrite !hdr_bytes; cbn. by rewrite Hx, !Hout by lia. }
  assert (active_swap_count (hdr_at g (1 - A)) = active_swap_count (hdr_at f (1 - A))) as Hsw.
  { rewrite !hdr_bytes; cbn. by rewrite Hout by lia. }
  assert (hdr_at g A = hdr_at f A) as HhA by by apply (same_meta_hdr c Hc).
  assert (header_valid c g (hdr_at g A) A = header_valid c f (hdr_at f A) A) as HvA'
    by by apply (same_meta_valid c Hc).
  destruct Hb as [-> | ->]; rewrite ?Z.sub_0_r, ?Z.sub_diag in *; rewrite HvS, HvA', HhA;
    destruct (header_valid c f (hdr_at f 0) 0), (header_valid c f (hdr_at f 1) 1);
    cbn iota; try done; unfold etss_mblock_latest_meta_block; by rewrite Hsw.
Qed.
End Header.

Section Commit.
Context {E : Type} {FO : FlashOps E} (c : etss_flash_fs_config_t) {FL : FlashLaws E c}.
Context (Hc : cfg_ok c).
Implicit Types s : fs_state E.

(** A mount of the device contents [f] shows the files [v]. *)
Definition mounts (f : image) (v : gmap (list Z) afile) : Prop :=
  exists A, disk c f A /\ disk_view c f A = v.

(** The state between two operations. *)
Record ready s : Prop := {
  ry_ctx : ctx_ok c (fs_ctx s);
  ry_hdr : meta_block_header (fs_ctx s) = hdr_at (im s) (act s);
  ry_disk : disk c (im s) (act s);
  ry_scr : erased c (im s) (scr s) 0 (block_size c);
  ry_dscr : num_blocks c <> 2 -> erased c (im s) (dsc s) 0 (block_size c)
}.

Definition ready_view s : gmap (list Z) afile := disk_view c (im s) (act s).

Lemma ready_mounts s : ready s -> mounts (im s) (ready_view s).
Proof using Type. intros Hr. exists (act s). split; [apply Hr|done]. Qed.

(** ** Erasing the free blocks *)

Lemma disk_erase f g A k :
  disk c f A -> 0 <= k ->
  (forall b o, ~ ((b = 1 - A /\ 0 <= o < k) \/
      (num_blocks c <> 2 /\ b = scratch_dblock (hdr_at f A))) -> g b o = f b o) ->
  (forall o, 0 <= o < k -> g (1 - A) o = erase_val c) ->
  disk c g A /\ disk_view c g A = disk_view c f A /\ same_meta c f g A.
Proof using Hc.
  intros Hd Hk Hout Hin.
  assert (forall l, in_block_table c l -> forall o,
    g (phy_id (bm_at f A l)) o = f (phy_id (bm_at f A l)) o) as Hlive.
  { intros l Hl o. apply Hout. pose proof (disk_live_blocks c Hc f A l Hd Hl) as Hs.
    unfold scratch_region in Hs. tauto. }
  assert (forall o, g A o = f A o) as HA.
  { intros o. specialize (Hlive 0). change (bm_at f A 0) with (tb (tables_at c f A) 0) in Hlive.
    rewrite (wf_phy0 _ _ _ _ (dk_wf _ _ _ Hd)) in Hlive. apply Hlive.
    pose proof (nact_range c Hc). unfold in_block_table. lia. }
  assert (same_meta c f g A) as Hm by (intros o _; apply HA).
  assert (selected c g = Some A) as Hsel.
  { apply (selected_erase c Hc f g A k); [done..|]. intros o Ho. apply Hout.
    pose proof (wf_D _ _ _ _ (dk_wf _ _ _ Hd)). pose proof (dk_block _ _ _ Hd). lia. }
  destruct (disk_frame c Hc f g A Hd Hsel Hm) as [Hg Hv]; [by auto|].
  by split_and!.
Qed.

Lemma wp_erase_scratch s A S :
  env_ok c s A S -> disk c (im s) A -> dsc s = scratch_dblock (hdr_at (im s) A) ->
  wp etss_mblock_erase_scratch_blocks s (fun r s' =>
    fs_ctx s' = fs_ctx s /\ disk c (im s') A /\
    disk_view c (im s') A = disk_view c (im s) A /\ same_meta c (im s) (im s') A /\
    (healthy (c := c) (fs_env s) -> healthy (c := c) (fs_env s')) /\
    match r with
    | Ok _ => erased c (im s') S 0 (block_size c) /\
              (num_blocks c <> 2 -> erased c (im s') (dsc s) 0 (block_size c))
    | Err _ => sick c s
    end).
Proof.
  intros Hx Hd HD. pose proof (env_blocks c _ _ _ Hx) as Hb. pose proof (validate_config_blocks c Hc) as Hnb.
  pose proof (wf_D _ _ _ _ (dk_wf _ _ _ Hd)) as HDr. rewrite <- HD in HDr.
  assert (S = 1 - A) as HS by lia.
  unfold etss_mblock_erase_scratch_blocks. apply wp_bind, wp_get_ctx.
  destruct (Hx) as (_ & _ & HS'). unfold scr in HS'. rewrite HS', (env_cfg c _ _ _ Hx).
  eapply wp_seq; [apply (wp_ops_erase c); [by eapply env_cfg|lia]| |].
  { intros e s1 (k & Hk & _ & Hup & He & [[=]|Hsick]).
    destruct (disk_erase (im s) (im s1) A k) as (? & ? & ?); [done|lia| |..].
    - intros b o Hno. apply (upto_im _ _ _ _ _ Hup). unfold within. lia.
    - intros o Ho. rewrite <- HS. apply He. lia.
    - split_and!; [apply Hup|done..|apply Hup|done]. }
  intros [] s1 (k & _ & Hk & Hup & He & _). specialize (Hk eq_refl) as ->.
  destruct (Z.gtb_spec (num_blocks c) 2) as [Hn|Hn].
  2: { apply wp_ret. destruct (disk_erase (im s) (im s1) A (block_size c)) as (? & ? & ?).
       - done.
       - pose proof (block_size_range c Hc). lia.
       - intros b o Hno. apply (upto_im _ _ _ _ _ Hup). unfold within. lia.
       - intros o Ho. rewrite <- HS. apply He. lia.
       - split_and!; [apply Hup|done..|apply Hup|done|lia]. }
  unfold etss_flash_fs_mblock_cur_data_scratch_id, ETSS_LOGICAL_DBLOCK0.
  apply wp_bind, wp_bind, wp_get_ctx, wp_ret.
  assert (scratch_dblock (meta_block_header (fs_ctx s1)) = dsc s) as -> by (unfold dsc; by rewrite (upto_ctx _ _ _ Hup)).
  eapply wp_mono; [apply (wp_ops_erase c); [eapply upto_cfg; [exact Hup|by eapply env_cfg]|lia]|].
  intros r s2 (k & Hk & Hok & Hup2 & He2 & Hr).
  destruct (disk_erase (im s) (im s2) A (block_size c)) as (? & ? & ?).
  - done.
  - lia.
  - intros b o Hno. rewrite (upto_im _ _ _ _ _ Hup2), (upto_im _ _ _ _ _ Hup); [done|unfold within; lia..].
  - intros o Ho. rewrite (upto_im _ _ _ _ _ Hup2) by (unfold within; lia). rewrite <- HS. apply He. lia.
  - split_and!; [by rewrite (upto_ctx _ _ _ Hup2), (upto_ctx _ _ _ Hup)|done..| |].
    { intros Hh. apply Hup2, Hup, Hh. }
    destruct r as [[]|e]; [|destruct Hr as [[=]|Hsick]; by eapply upto_sick].
    specialize (Hok eq_refl) as ->. split; [|done].
    intros o Ho. rewrite (upto_im _ _ _ _ _ Hup2) by (unfold within; lia). by apply He.
Qed.

(** ** The header write *)

(** The new tables are complete in block [S]; only the header is missing. *)
Record prepared s (A S : Z) : Prop := {
  pp_env : env_ok c s A S;
  pp_typed : header_typed (meta_block_header (fs_ctx s));
  pp_version : fs_version (meta_block_header (fs_ctx s)) = ETSS_SUPPORTED_VERSION;
  pp_swap : valid_at c (im s) A ->
    active_swap_count (meta_block_header (fs_ctx s)) = active_swap_count (hdr_at (im s) A) /\
    active_swap_count (hdr_at (im s) A) <> erase_val c;
  pp_erased : erased c (im s) S 0 8;
  pp_wf : wf c (tables_at c (im s) S) S (dsc s)
}.

Definition new_header s (S : Z) : etss_metadata_block_header_t :=
  let h := meta_block_header (fs_ctx s) in
  set_metadata_xor (meta_xor c (im s) S)
    (set_swap_count (next_swap c (active_swap_count h)) h).

Lemma new_header_typed s A S : prepared s A S -> header_typed (new_header s S).
Proof using FL Hc.
  intros Hp. destruct (pp_typed _ _ _ Hp) as (? & ? & ? & ? & ?).
  split_and!; try apply next_swap_valid; try done.
  all: pose proof (xor_bytes_u8 (rd (im s S) 8 (fmo c (max_num_files c) - 8)) 0) as Hx;
    apply Hx; [unfold is_u8; lia|apply rd_Forall; intros o; apply img_u8].
Qed.

(** What a header write of [k] bytes leaves on the device. *)
Lemma commit_disk s (g : image) A S k :
  prepared s A S -> 0 <= k <= 8 ->
  (forall b o, ~ (b = S /\ 0 <= o < k) -> g b o = im s b o) ->
  (forall i, 0 <= i < k -> g S i = nth_byte (enc_header (new_header s S)) i) ->
  (k <= 6 -> disk c (im s) A -> disk c g A /\ disk_view c g A = disk_view c (im s) A) /\
  (7 <= k -> disk c g S /\ disk_view c g S = disk_view c (im s) S /\
     scratch_dblock (hdr_at g S) = dsc s).
Proof using FL Hc.
  intros Hp Hk Hout Hin. pose proof (env_blocks c _ _ _ (pp_env _ _ _ Hp)) as Hb.
  assert (S = 1 - A) as HS by lia. pose proof (new_header_typed s A S Hp) as Hty.
  split; [intros Hk' Hd|intros Hk'].
  - apply (disk_scratch c Hc); [done| |].
    + rewrite <- HS. apply (header_torn_write c (im s) g S (new_header s S) k); try done.
      * exact (pp_erased _ _ _ Hp).
      * lia.
      * exact (pp_version _ _ _ Hp).
      * intros o Ho. apply Hout. intros [_ ?]. done.
    + intros b o Hno. apply Hout. intros [-> _]. apply Hno. left. lia.
  - destruct (hdr_prefix g S (new_header s S) k Hk' Hty Hin) as (Hsd & Hver & Hxor & Hsw).
    assert (forall o, 8 <= o -> g S o = im s S o) as HgS by (intros o Ho; apply Hout; lia).
    assert (forall o, g A o = im s A o) as HgA by (intros o; apply Hout; lia).
    assert (tables_equiv c (tables_at c (im s) S) (tables_at c g S)) as HE.
    { split; intros i Hi; simpl; [apply bm_copied|apply fm_copied]; intros o Ho; symmetry; apply HgS;
        unfold in_block_table, in_file_table, bmo, fmo in *; pose proof (nact_range c Hc); lia. }
    assert (valid_at c g S) as Hv.
    { unfold valid_at, header_valid. rewrite Hver, Hxor, Hsw.
      change (fs_version (new_header s S)) with (fs_version (meta_block_header (fs_ctx s))).
      rewrite (pp_version _ _ _ Hp). cbn -[next_swap].
      pose proof (next_swap_valid c Hc (active_swap_count (meta_block_header (fs_ctx s)))) as [_ Hne].
      apply Z.eqb_neq in Hne. rewrite Hne. simpl. apply Z.eqb_eq. unfold meta_xor. f_equal.
      apply rd_ext. intros o Ho. apply HgS. lia. }
    pose proof (pp_swap _ _ _ Hp) as Hps.
    split; [|split; [|done]].
    + split; [lia|rewrite Hver; exact (pp_version _ _ _ Hp)|done| |].
      * assert (hdr_at g A = hdr_at (im s) A) as HhA
          by (apply (same_meta_hdr c Hc (im s) g A); intros o _; apply HgA).
        assert (valid_at c g A <-> valid_at c (im s) A) as HvA.
        { unfold valid_at. by rewrite (same_meta_valid c Hc (im s) g A) by (intros o _; apply HgA). }
        destruct (decide (header_valid c g (hdr_at g A) A = false)) as [Hinv|Hval%not_false_is_true].
        { apply selected_only; [lia|done|]. by replace (1 - S) with A by lia. }
        destruct (Hps (proj1 HvA Hval)) as [Heq Hne].
        rewrite HS. destruct (pp_typed _ _ _ Hp) as (_ & _ & _ & Hu & _). rewrite Heq in Hu.
        assert (active_swap_count (hdr_at g S) = next_swap c (active_swap_count (hdr_at (im s) A))) as Hsw'
          by (rewrite Hsw, <- Heq; done).
        apply (selected_newer c Hc g A (active_swap_count (hdr_at (im s) A)));
          [apply Hc|done|done|lia|by rewrite <- HS|by rewrite <- HS|by rewrite HhA].
      * rewrite Hsd. eapply wf_equiv; [|exact HE|exact (pp_wf _ _ _ Hp)]. pose proof (nact_range c Hc). lia.
    + eapply view_equiv; [done| |exact HE|exact (pp_wf _ _ _ Hp)|]; [lia|]. intros l o Hl Ho. apply Hout.
      intros [HeS Hlt].
      destruct (wf_bm_facts c Hc _ _ _ (pp_wf _ _ _ Hp) ltac:(lia) l Hl) as (_ & ? & _ & _ & Hst).
      destruct (Z.eqb_spec l 0) as [->|Hne].
      * rewrite Hst in Ho. pose proof (nact_range c Hc). pose proof (files_range c Hc). unfold fmo in Ho. lia.
      * pose proof (wf_phy _ _ _ _ (pp_wf _ _ _ Hp) l Hl Hne). lia.
Qed.

Lemma wp_write_header s A S :
  prepared s A S ->
  wp etss_mblock_write_scratch_meta_header s (fun r s' => exists k, 0 <= k <= 8 /\
    (forall b o, ~ (b = S /\ 0 <= o < k) -> im s' b o = im s b o) /\
    (forall i, 0 <= i < k -> im s' S i = nth_byte (enc_header (new_header s S)) i) /\
    (healthy (c := c) (fs_env s) -> healthy (c := c) (fs_env s')) /\
    match r with
    | Ok _ => k = 8 /\ fs_ctx s' = set_header (new_header s S) (fs_ctx s)
    | Err _ => sick c s
    end).
Proof.
  intros Hp. pose proof (env_blocks c _ _ _ (pp_env _ _ _ Hp)) as Hb.
  pose proof (new_header_typed s A S Hp) as Hty.
  unfold etss_mblock_write_scratch_meta_header.
  set (h := meta_block_header (fs_ctx s)).
  set (s1 := {| fs_ctx := set_header (set_swap_count (next_swap c (active_swap_count h)) h) (fs_ctx s);
                fs_env := fs_env s |}).
  set (x1 := set_header (set_swap_count (w8 (active_swap_count h + 1)) h) (fs_ctx s)).
  assert (forall (k : etss_flash_fs_ctx_t -> FS E unit) Q, wp (k x1) s1 Q ->
    wp (modify_ctx (fun x => set_header (set_swap_count
          (w8 (active_swap_count (meta_block_header x) + 1)) (meta_block_header x)) x);;
        x ← get_ctx;
        _ ← (if negb (etss_mblock_validate_swap_count (cfg x)
              (active_swap_count (meta_block_header x)) =? PSA_SUCCESS)
         then modify_ctx (fun x => set_header (set_swap_count
                (w8 (active_swap_count (meta_block_header x) + 1)) (meta_block_header x)) x)
         else mret tt); k x) s Q) as Hswap.
  { intros k Q HQ. apply wp_bind, wp_modify, wp_bind, wp_get_ctx. cbn [fs_ctx].
    change (cfg (set_header _ _)) with (cfg (fs_ctx s)). rewrite (env_cfg c _ _ _ (pp_env _ _ _ Hp)).
    cbn [meta_block_header set_header set_swap_count active_swap_count].
    unfold etss_mblock_validate_swap_count. unfold s1, next_swap in HQ.
    destruct (w8 (active_swap_count h + 1) =? erase_val c) eqn:He; fold h; rewrite He; simpl.
    - apply wp_bind, wp_modify. exact HQ.
    - apply wp_bind, wp_ret. exact HQ. }
  apply (Hswap (fun x => xor_value ← etss_mblock_calculate_metadata_xor (scratch_metablock x); _)).
  clear Hswap.
  assert (cfg (fs_ctx s1) = c) as Hc1 by exact (env_cfg c _ _ _ (pp_env _ _ _ Hp)).
  assert (scratch_metablock (fs_ctx s1) = S) as HS1 by apply (pp_env _ _ _ Hp).
  change (scratch_metablock x1) with (scratch_metablock (fs_ctx s1)). rewrite HS1. eapply wp_yields; [apply (wp_calculate_metadata_xor c Hc); [done|lia]|..].
  { intros e s2 Hup Hsick. exists 0. split; [lia|].
    split; [intros b o _; by apply (upto_nowhere s1 s2)|]. split; [lia|]. split; [apply Hup|done]. }
  intros s2 Hup. apply wp_bind, wp_modify, wp_bind, wp_get_ctx. cbn [fs_ctx].
  rewrite (upto_ctx _ _ _ Hup).
  eapply wp_mono.
  { apply (wp_ops_write_torn c); cbn [fs_ctx set_header cfg scratch_metablock];
      rewrite ?(upto_ctx _ _ _ Hup).
    - exact Hc1.
    - rewrite HS1. apply in_block_hdr; [done|lia].
    - done.
    - apply enc_header_u8. }
  intros r s3 (k & Hk & Hok & Hup3 & Hw & Hr).
  cbn [fs_ctx set_header scratch_metablock] in Hup3, Hw. rewrite HS1 in Hup3, Hw. exists k. unfold ETSS_BLOCK_META_HEADER_SIZE in Hk.
  assert (forall b o, im s2 b o = im s b o) as H2 by (intros b o; by apply (upto_nowhere s1 s2)).
  split; [lia|]. split; [|split; [|split]].
  - intros b o Hno. rewrite (upto_im _ _ _ _ _ Hup3) by (unfold within; lia). apply H2.
  - assert (erased c (im s2) S 0 k) as He.
    { intros o Ho. rewrite H2. apply (pp_erased _ _ _ Hp). lia. }
    intros i Hi. exact (Hw He i Hi).
  - intros Hh. apply Hup3. simpl. by apply Hup.
  - destruct r as [[]|e].
    + split; [by apply Hok|]. by rewrite (upto_ctx _ _ _ Hup3).
    + destruct Hr as [[=]|Hsick]. intros Hh. apply Hsick. simpl. by apply Hup.
Qed.

(** ** The commit

    Whatever happens, a mount shows the old files or the new ones; on
    success the file system is ready with the new ones. *)
Lemma wp_finalize s A S :
  prepared s A S -> disk c (im s) A ->
  wp etss_flash_fs_mblock_meta_update_finalize s (fun r s' =>
    (mounts (im s') (disk_view c (im s) A) \/ mounts (im s') (disk_view c (im s) S)) /\
    (healthy (c := c) (fs_env s) -> healthy (c := c) (fs_env s')) /\
    match r with
    | Ok _ => ready s' /\ ready_view s' = disk_view c (im s) S /\ act s' = S /\ scr s' = A /\
              tables_equiv c (tables_at c (im s) S) (tables_at c (im s') S)
    | Err _ => sick c s
    end).
Proof.
  intros Hp Hd. pose proof (env_blocks c _ _ _ (pp_env _ _ _ Hp)) as Hb.
  unfold etss_flash_fs_mblock_meta_update_finalize.
  eapply wp_seq; [by apply (wp_write_header s A S)|..].
  { intros e s1 (k & Hk & Hout & Hin & Hh & Hsick).
    destruct (commit_disk s (im s1) A S k Hp Hk Hout Hin) as [Hold Hnew].
    split; [|done]. destruct (decide (k <= 6)) as [Hk6|Hk6].
    - left. exists A. by apply Hold.
    - right. exists S. destruct Hnew as (? & ? & _); [lia|done]. }
  intros [] s1 (k & Hk & Hout & Hin & Hh & -> & Hctx1).
  destruct (commit_disk s (im s1) A S 8 Hp Hk Hout Hin) as [_ Hnew].
  destruct Hnew as (Hd1 & Hv1 & HD1); [lia|].
  assert (hdr_at (im s1) S = new_header s S) as Hhdr.
  { unfold hdr_at. rewrite <- (dec_enc_header (new_header s S)) by exact (new_header_typed s A S Hp). f_equal.
    apply (rd_of_bytes (im s1 S) 0 (enc_header (new_header s S))). by rewrite enc_header_length. }
  assert (tables_equiv c (tables_at c (im s) S) (tables_at c (im s1) S)) as HE1.
  { split; intros i Hi; simpl; [apply bm_copied|apply fm_copied]; intros o Ho; symmetry; apply Hout;
      unfold in_block_table, in_file_table, bmo, fmo in *; pose proof (nact_range c Hc); lia. }
  assert (cfg (fs_ctx s1) = c) as Hc1 by (rewrite Hctx1; apply (env_cfg c _ _ _ (pp_env _ _ _ Hp))).
  apply wp_bind, wp_get_ctx. eapply wp_seq; [by apply (wp_ops_flush c)|..].
  { intros e s2 (Hup2 & [[=]|Hsick]). split; [|split; [intros Hh0; by apply Hup2, Hh|intros Hh0; by apply Hsick, Hh]].
    right. exists S. destruct (disk_erase (im s1) (im s2) S 0 Hd1) as (? & ? & _); [lia| |lia|].
    - intros b o _. by apply upto_nowhere.
    - split; [done|congruence]. }
  intros [] s2 (Hup2 & _). apply wp_bind, wp_modify.
  set (s3 := {| fs_ctx := etss_mblock_swap_metablocks (fs_ctx s2); fs_env := fs_env s2 |}).
  destruct (disk_erase (im s1) (im s2) S 0 Hd1) as (Hd2 & Hv2 & Hh2); [lia| |lia|].
  { intros b o _. by apply upto_nowhere. }
  assert (fs_ctx s3 = set_metablocks S A (set_header (new_header s S) (fs_ctx s))) as Hctx3.
  { unfold s3; simpl. rewrite (upto_ctx _ _ _ Hup2), Hctx1. destruct (pp_env _ _ _ Hp) as (_ & HA & HS).
    unfold etss_mblock_swap_metablocks, act, scr in *; simpl. by rewrite HA, HS. }
  assert (env_ok c s3 S A) as Hx3.
  { unfold env_ok, act, scr. rewrite Hctx3. split; [|done]. split; [apply (env_cfg c _ _ _ (pp_env _ _ _ Hp))|].
    simpl. lia. }
  assert (dsc s3 = dsc s) as HD3 by (unfold dsc; by rewrite Hctx3).
  change (im s2) with (im s3) in Hd2, Hv2, Hh2.
  eapply wp_mono; [apply (wp_erase_scratch s3 S A Hx3 Hd2); by rewrite HD3, (same_meta_hdr c Hc _ _ _ Hh2)|].
  intros r s4 (Hctx4 & Hd4 & Hv4 & Hh4 & Hhl & Hr).
  assert (disk_view c (im s4) S = disk_view c (im s) S) as Hv.
  { congruence. }
  split; [right; by exists S|]. split; [intros Hh0; by apply Hhl, Hup2, Hh|].
  destruct r as [[]|e]; [|intros Hh0; by apply Hr, Hup2, Hh].
  assert (act s4 = S /\ scr s4 = A) as [Ha4 Hs4] by (unfold act, scr; rewrite Hctx4, Hctx3; done).
  destruct Hr as [He1 He2]. split_and!; [|unfold ready_view; by rewrite Ha4|done..|].
  - split.
    + rewrite Hctx4. apply Hx3.
    + rewrite Ha4, (same_meta_hdr c Hc _ _ _ Hh4), (same_meta_hdr c Hc _ _ _ Hh2), Hhdr.
      by rewrite Hctx4, Hctx3.
    + by rewrite Ha4.
    + by rewrite Hs4.
    + intros Hn. unfold dsc. rewrite Hctx4. by apply He2.
  - transitivity (tables_at c (im s1) S); [done|].
    transitivity (tables_at c (im s3) S); by apply (same_meta_tables c Hc).
Qed.

(** ** Mounting *)

Definition ok s : Prop := healthy (c := c) (fs_env s).

Lemma ok_upto R s s' : upto R s s' -> ok s -> ok s'.
Proof using Type. intros Hup. apply Hup. Qed.

(** On a healthy device a read-only function returns its value. *)
Lemma wp_yields_ok {A B} (m : FS E A) (k : A -> FS E B) s v Q :
  ok s -> wp m s (yields c s v) ->
  (forall s', upto nowhere s s' -> ok s' -> wp (k v) s' Q) -> wp (m ≫= k) s Q.
Proof using Type.
  intros Hok Hm Hk. eapply wp_yields; [exact Hm|..].
  - intros e s' _ Hsick. by destruct Hsick.
  - intros s' Hup. apply Hk; [done|by eapply ok_upto].
Qed.

Lemma wp_probe_ok b s :
  ok s -> cfg (fs_ctx s) = c -> b = 0 \/ b = 1 ->
  wp (probe_metablock b) s (yields c s (probe_spec c (im s) b)).
Proof.
  intros Hok Hs Hb. eapply wp_mono; [by apply (wp_probe_metablock c Hc)|].
  intros r s' [Hup [-> | [Hsick _]]]; [by split|by destruct Hsick].
Qed.

Lemma wp_get_active s :
  ok s -> cfg (fs_ctx s) = c ->
  wp etss_init_get_active_metablock s (fun r s' =>
    ok s' /\ (forall b o, im s' b o = im s b o) /\
    match selected c (im s) with
    | Some A => r = Ok tt /\ fs_ctx s' = set_metablocks A (ETSS_OTHER_META_BLOCK A) (fs_ctx s)
    | None => r = Err PSA_ERROR_GENERIC_ERROR /\ fs_ctx s' = fs_ctx s
    end).
Proof.
  intros Hok Hs. unfold etss_init_get_active_metablock.
  apply (wp_yields_ok _ _ _ _ _ Hok (wp_probe_ok ETSS_METADATA_BLOCK0 s Hok Hs ltac:(by left))).
  intros s1 Hup1 Hok1. pose proof (upto_cfg _ _ _ _ Hup1 Hs) as Hs1.
  apply (wp_yields_ok _ _ _ _ _ Hok1 (wp_probe_ok ETSS_METADATA_BLOCK1 s1 Hok1 Hs1 ltac:(by right))).
  intros s2 Hup2 Hok2. apply wp_bind, wp_get_ctx.
  assert (forall b o, im s2 b o = im s b o) as Him.
  { intros b o. rewrite (upto_nowhere s1 s2) by done. by apply upto_nowhere. }
  assert (probe_spec c (im s1) ETSS_METADATA_BLOCK1 = probe_spec c (im s) 1) as ->.
  { unfold probe_spec, header_valid, ETSS_METADATA_BLOCK1. by rewrite (nw_hdr c s s1), (nw_xor c s s1). }
  change (probe_spec c (im s) ETSS_METADATA_BLOCK0) with (probe_spec c (im s) 0).
  rewrite (upto_ctx _ _ _ Hup2), (upto_ctx _ _ _ Hup1), Hs. unfold selected.
  destruct (probe_spec c (im s) 0) as [h0|], (probe_spec c (im s) 1) as [h1|];
    [apply wp_modify|apply wp_modify|apply wp_modify|apply wp_raise];
    (split; [done|]; split; [done|]; split; [done|]; cbn [fs_ctx];
     by rewrite (upto_ctx _ _ _ Hup2), (upto_ctx _ _ _ Hup1)).
Qed.

(** The header of the active block is read and valid. *)
Lemma wp_read_header s A :
  ok s -> cfg (fs_ctx s) = c -> active_metablock (fs_ctx s) = A -> A = 0 \/ A = 1 ->
  valid_at c (im s) A ->
  wp etss_mblock_read_meta_header s (fun r s' =>
    r = Ok tt /\ ok s' /\ (forall b o, im s' b o = im s b o) /\
    fs_ctx s' = set_header (hdr_at (im s) A) (fs_ctx s)).
Proof.
  intros Hok Hs HA Hb Hv. unfold etss_mblock_read_meta_header. apply wp_bind, wp_get_ctx.
  rewrite HA. eapply wp_seq; [apply (wp_ops_read_raw c); [done|by apply in_block_hdr]|..].
  { intros e s1 (_ & st & bs & [=] & _). }
  intros [st bs] s1 (Hup1 & st' & bs' & [= <- <-] & _ & Hbs & [Hst|Hsick]); [|by destruct Hsick].
  specialize (Hbs Hst) as ->. simpl. apply wp_bind, wp_modify, wp_bind, wp_check; [intros _|done].
  change (dec_header (rd (im s A) 0 ETSS_BLOCK_META_HEADER_SIZE)) with (hdr_at (im s) A).
  set (s2 := {| fs_ctx := set_header (hdr_at (im s) A) (fs_ctx s1); fs_env := fs_env s1 |}).
  assert (cfg (fs_ctx s2) = c) as Hs2 by exact (upto_cfg _ _ _ _ Hup1 Hs).
  assert (ok s2) as Hok2 by exact (ok_upto _ _ _ Hup1 Hok).
  eapply wp_mono; [by apply (wp_validate_header_meta c Hc)|].
  assert (header_valid c (im s2) (hdr_at (im s) A) A = true) as Hv2.
  { change (im s2) with (im s1). unfold header_valid. rewrite (nw_xor c s s1) by done. exact Hv. }
  intros r s3 [Hup3 [[-> _]|(e & -> & [Hno|Hsick])]]; [|congruence|by destruct Hsick].
  split; [done|]. split; [by eapply ok_upto|]. split.
  - intros b o. rewrite (upto_nowhere s2 s3) by done. by apply (upto_nowhere s s1).
  - rewrite (upto_ctx _ _ _ Hup3). simpl. by rewrite (upto_ctx _ _ _ Hup1).
Qed.

Lemma disk_same f g A : disk c f A -> (forall b o, g b o = f b o) ->
  disk c g A /\ disk_view c g A = disk_view c f A /\ same_meta c f g A.
Proof using Hc. intros Hd H. apply (disk_erase f g A 0 Hd); [lia|intros; apply H|lia]. Qed.

Lemma wp_init s A :
  ok s -> cfg (fs_ctx s) = c -> disk c (im s) A ->
  wp etss_flash_fs_mblock_init s (fun r s' =>
    r = Ok tt /\ ok s' /\ ready s' /\ act s' = A /\ ready_view s' = disk_view c (im s) A /\
    tables_equiv c (tables_at c (im s) A) (tables_at c (im s') A)).
Proof.
  intros Hok Hs Hd. pose proof (dk_block _ _ _ Hd) as Hb. unfold etss_flash_fs_mblock_init.
  eapply wp_seq; [by apply (wp_ops_init c)|..].
  { intros e s1 (_ & [[=]|Hsick]). by destruct Hsick. }
  intros [] s1 (Hup1 & _). pose proof (ok_upto _ _ _ Hup1 Hok) as Hok1.
  pose proof (upto_cfg _ _ _ _ Hup1 Hs) as Hs1.
  destruct (disk_same (im s) (im s1) A Hd) as (Hd1 & Hv1 & Hm1); [intros; by apply upto_nowhere|].
  apply wp_bind, wp_or_return. eapply wp_mono; [by apply wp_get_active|].
  intros r s2 (Hok2 & Hi2 & Hr). rewrite (dk_selected _ _ _ Hd1) in Hr. destruct Hr as [-> Hx2].
  destruct (disk_same (im s1) (im s2) A Hd1 Hi2) as (Hd2 & Hv2 & Hm2).
  apply wp_bind, wp_or_return. eapply wp_mono.
  { apply (wp_read_header s2 A Hok2); [by rewrite Hx2|by rewrite Hx2|done|apply Hd2]. }
  intros r s3 (-> & Hok3 & Hi3 & Hx3).
  destruct (disk_same (im s2) (im s3) A Hd2 Hi3) as (Hd3 & Hv3 & Hm3).
  assert (env_ok c s3 A (1 - A)) as He3.
  { unfold env_ok, act, scr. rewrite Hx3, Hx2. simpl. split; [split; [done|]|split; [done|]];
      destruct Hb as [-> | ->]; simpl; rewrite ?Z.sub_0_r, ?Z.sub_diag; auto. }
  assert (meta_block_header (fs_ctx s3) = hdr_at (im s3) A) as Hh3.
  { rewrite Hx3, (same_meta_hdr c Hc _ _ _ Hm3). done. }
  apply wp_bind, wp_or_return. eapply wp_mono.
  { apply (wp_erase_scratch s3 A (1 - A) He3 Hd3). unfold dsc. by rewrite Hh3. }
  intros r s4 (Hx4 & Hd4 & Hv4 & Hm4 & Hok4 & Hr). destruct r as [[]|e]; [|by destruct Hr].
  destruct Hr as [Hr1 Hr2]. apply (wp_bind get_ctx), wp_get_ctx.
  assert (fs_version (meta_block_header (fs_ctx s4)) = ETSS_SUPPORTED_VERSION) as ->.
  { rewrite Hx4, Hh3. apply Hd3. }
  apply wp_ret. specialize (Hok4 Hok3).
  assert (act s4 = A) as Ha4 by (unfold act; rewrite Hx4; apply He3).
  split_and!; [done..| |done| |].
  - split.
    + rewrite Hx4. apply He3.
    + by rewrite Ha4, Hx4, Hh3, (same_meta_hdr c Hc _ _ _ Hm4).
    + by rewrite Ha4.
    + assert (scr s4 = 1 - A) as -> by (unfold scr; rewrite Hx4; apply He3). done.
    + intros Hn. unfold dsc. rewrite Hx4. by apply Hr2.
  - unfold ready_view. rewrite Ha4. congruence.
  - transitivity (tables_at c (im s1) A); [by apply (same_meta_tables c Hc)|].
    transitivity (tables_at c (im s2) A); [by apply (same_meta_tables c Hc)|].
    transitivity (tables_at c (im s3) A); by apply (same_meta_tables c Hc).
Qed.
End Commit.
