(* ===== verification/FsRead.v ===== *)
(** * Reading files

    [etss_flash_fs_file_read], [_get_info] and [_exist] return what the view
    of the file system says, and change nothing. *)
From Stdlib Require Import ZArith Lia.
From stdpp Require Import base list numbers gmap options.
From S2P Require Import Prelude EtssUtils FlashFsDefs Mblock Dblock FlashFs MblockSpec.
From S2P Require Import FsReads FsTables FsUpdate FsDisk FsStage FsCommit.

#[local] Set Default Proof Using "Type*".

(** A file identifier: twelve bytes, not all zero. *)
Definition fid_ok (fid : list Z) : Prop :=
  length fid = 12%nat /\ Forall is_u8 fid /\ etss_utils_validate_fid fid = PSA_SUCCESS.

Lemma rd_take_drop f p m o n :
  0 <= o -> 0 <= n -> o + n <= m ->
  take (Z.to_nat n) (drop (Z.to_nat o) (rd f p m)) = rd f (p + o) n.
Proof.
  intros Ho Hn Hm. replace m with (o + (n + (m - o - n))) by lia.
  rewrite rd_app by lia. rewrite drop_app_length' by (rewrite rd_length; lia).
  rewrite rd_app by lia. by rewrite take_app_length' by (rewrite rd_length; lia).
Qed.

(** ** What the functions promise *)

Definition read_spec (v : gmap (list Z) afile) (fid : list Z) (size offset : Z)
    : outcome (list Z) :=
  match v !! fid with
  | None => Err PSA_ERROR_DOES_NOT_EXIST
  | Some F =>
      if offset + size <=? Z.of_nat (length (af_data F))
      then Ok (take (Z.to_nat size) (drop (Z.to_nat offset) (af_data F)))
      else Err PSA_ERROR_INVALID_ARGUMENT
  end.

Definition info_spec (v : gmap (list Z) afile) (fid : list Z) : outcome etss_file_info_t :=
  match v !! fid with
  | None => Err PSA_ERROR_DOES_NOT_EXIST
  | Some F => Ok {| size_max := af_max F; size_current := Z.of_nat (length (af_data F));
                    info_flags := Z.land (af_flags F) ETSS_FLASH_FS_USER_FLAGS_MASK |}
  end.

Definition exist_spec (v : gmap (list Z) afile) (fid : list Z) : outcome unit :=
  match v !! fid with None => Err PSA_ERROR_DOES_NOT_EXIST | Some _ => Ok tt end.

Section Read.
Context {E : Type} {FO : FlashOps E} (c : etss_flash_fs_config_t) {FL : FlashLaws E c}.
Context (Hc : cfg_ok c).
Implicit Types s : fs_state E.

(** Ready, and no deletion is pending. *)
Definition settled s : Prop := ready c s /\ clean c (tables_at c (im s) (act s)).

Lemma ready_wf s : ready c s -> wf c (tables_at c (im s) (act s)) (act s) (dsc s).
Proof using Type.
  intros Hr. unfold dsc. rewrite (ry_hdr _ _ Hr). apply (ry_disk _ _ Hr).
Qed.
Lemma ready_act s : ready c s -> act s = 0 \/ act s = 1.
Proof using Type. intros Hr. apply (ry_disk _ _ Hr). Qed.
Lemma ready_env s : ready c s -> env_ok c s (act s) (scr s).
Proof using Type. intros Hr. split; [apply Hr|done]. Qed.
Lemma ready_files s : ready c s -> files_valid c s.
Proof using Type. intros Hr i Hi. by apply (wf_fm _ _ _ _ (ready_wf s Hr)). Qed.
Lemma ready_blocks s : ready c s -> blocks_valid c s.
Proof using Type. intros Hr i Hi. by apply (wf_bm _ _ _ _ (ready_wf s Hr)). Qed.

(** What a look-up needs: valid tables in the active block.  Less than
    [settled], which is about the scratch blocks, too. *)
Record readable s : Prop := {
  rb_ctx : ctx_ok c (fs_ctx s);
  rb_tables : exists D, wf c (tables_at c (im s) (act s)) (act s) D;
  rb_act : act s = 0 \/ act s = 1;
  rb_clean : clean c (tables_at c (im s) (act s))
}.

Lemma settled_readable s : settled s -> readable s.
Proof using Type.
  intros [Hr Hcl]. split; [apply Hr|exists (dsc s); by apply ready_wf|by apply ready_act|done].
Qed.

Lemma readable_files s : readable s -> files_valid c s.
Proof using Type. intros Hb i Hi. destruct (rb_tables _ Hb) as [D Hwf]. by apply (wf_fm _ _ _ _ Hwf). Qed.
Lemma readable_blocks s : readable s -> blocks_valid c s.
Proof using Type. intros Hb i Hi. destruct (rb_tables _ Hb) as [D Hwf]. by apply (wf_bm _ _ _ _ Hwf). Qed.

(** The result agrees with [v], unless the device fails; nothing changes. *)
Definition reads {A} s (v : outcome A) (r : outcome A) s' : Prop :=
  upto nowhere s s' /\ (r = v \/ (sick c s /\ exists e, r = Err e)).

(** The sizes and flags of a file are those of its entry. *)
Lemma readable_file s fid F : readable s -> ready_view c s !! fid = Some F ->
  exists m, file_meta_typed m /\ Z.of_nat (length (af_data F)) = cur_size m /\
    af_max F = max_size m /\ af_flags F = flags m.
Proof.
  intros Hb HF. destruct (rb_tables _ Hb) as [D Hwf].
  unfold ready_view, disk_view in HF. apply view_lookup in HF; [|by eapply wf_to_uniq].
  destruct HF as (i & Hi & _ & _ & ->). exists (tf (tables_at c (im s) (act s)) i).
  pose proof (wf_fm_typed _ _ _ _ Hwf i Hi) as Ht. split; [exact Ht|].
  destruct Ht as (_ & _ & [Hsz _] & _). unfold file_of. cbn [af_data]. rewrite rd_length.
  split_and!; [|done|done]. by apply Z2Nat.id.
Qed.

(** A file holds bytes. *)
Lemma readable_file_bytes s fid F : readable s -> ready_view c s !! fid = Some F -> Forall is_u8 (af_data F).
Proof.
  intros Hb HF. destruct (rb_tables _ Hb) as [D Hwf].
  unfold ready_view, disk_view in HF. apply view_lookup in HF; [|by eapply wf_to_uniq].
  destruct HF as (i & _ & _ & _ & ->). apply rd_Forall. intros o. apply img_u8.
Qed.

Lemma fid_used m fid : fid_ok fid -> id m = fid -> unused m = false.
Proof using Type. intros (_ & _ & Hv) <-. unfold unused. by rewrite Hv. Qed.

(** The lookup finds the file of the view. *)
Lemma find_id_view s fid :
  readable s -> fid_ok fid ->
  match find_id c s fid with
  | Some i =>
      let m := fm_at c (im s) (act s) i in
      in_file_table c i /\ unused m = false /\ live m = true /\ id m = fid /\
      ready_view c s !! fid = Some (file_of (im s) (tables_at c (im s) (act s)) m)
  | None => ready_view c s !! fid = None
  end.
Proof.
  intros Hb Hfid. destruct (rb_tables _ Hb) as [D Hwf]. pose proof (rb_clean _ Hb) as Hcl.
  pose proof (wf_to_uniq _ _ _ _ Hwf) as Hu.
  pose proof (files_range c Hc) as Hn. unfold find_id.
  destruct (first_index _ _ _) as [i|] eqn:Hf.
  - apply first_index_some in Hf as (Hi & Hid & _). apply bool_decide_eq_true in Hid.
    unfold nfiles in Hi. set (m := fm_at c (im s) (act s) i) in *.
    assert (in_file_table c i) as Hti by (unfold in_file_table; lia).
    pose proof (fid_used m fid Hfid Hid) as Hum.
    assert (live m = true) as Hl.
    { unfold live. rewrite Hum. specialize (Hcl i Hti). simpl in Hcl. fold m in Hcl. by rewrite Hcl. }
    split_and!; try done. apply view_lookup; [done|]. by exists i.
  - apply view_lookup_none; [done|]. intros i Hi Hl Hid.
    apply (first_index_none _ _ _ ) with (j := i) in Hf; [|unfold nfiles, in_file_table in *; lia].
    by apply bool_decide_eq_false in Hf.
Qed.

Lemma readable_upto s s' : upto nowhere s s' -> readable s -> files_valid c s' /\ blocks_valid c s'.
Proof using Type.
  intros Hup Hr. split; [by eapply nw_files_valid, readable_files|by eapply nw_blocks_valid, readable_blocks].
Qed.

Theorem wp_file_exist fid s :
  readable s -> fid_ok fid ->
  wp (etss_flash_fs_file_exist fid) s (reads s (exist_spec (ready_view c s) fid)).
Proof.
  intros Hst Hfid. pose proof (find_id_view s fid Hst Hfid) as Hf.
  unfold etss_flash_fs_file_exist. apply wp_bind, wp_or_return.
  eapply wp_mono; [apply (wp_get_file_idx c Hc); [apply Hst|by apply readable_files]|].
  unfold exist_spec. intros r s1 [Hup [-> | [Hsick ->]]].
  - destruct (find_id c s fid) as [i|]; simpl.
    + destruct Hf as (_ & _ & _ & _ & ->). apply wp_ret. split; [done|by left].
    + rewrite Hf. split; [done|by left].
  - split; [done|]. right. eauto.
Qed.

(** The common start of [get_info] and [read]: the file's metadata. *)
Lemma wp_lookup_meta {A} fid e1 (k : etss_file_meta_t -> FS E A) s v :
  readable s -> fid_ok fid ->
  (ready_view c s !! fid = None -> v = Err PSA_ERROR_DOES_NOT_EXIST) ->
  (forall i s', let m := fm_at c (im s) (act s) i in
     upto nowhere s s' -> in_file_table c i -> live m = true -> id m = fid ->
     ready_view c s !! fid = Some (file_of (im s) (tables_at c (im s) (act s)) m) ->
     wp (k m) s' (reads s v)) ->
  wp (idx ← or_return (etss_flash_fs_mblock_get_file_idx fid) PSA_ERROR_DOES_NOT_EXIST;
      tmp ← match e1 with
            | Some e1 => or_return (etss_flash_fs_mblock_read_file_meta idx) e1
            | None => etss_flash_fs_mblock_read_file_meta idx
            end;
      k tmp) s (reads s v).
Proof.
  intros Hst Hfid Hnone Hk. pose proof (find_id_view s fid Hst Hfid) as Hf.
  apply wp_bind, wp_or_return.
  eapply wp_mono; [apply (wp_get_file_idx c Hc); [apply Hst|by apply readable_files]|].
  intros r s1 [Hup [-> | [Hsick ->]]]; [|split; [done|right; eauto]].
  destruct (find_id c s fid) as [i|]; simpl; [|split; [done|left; by rewrite Hnone]].
  destruct Hf as (Hi & _ & Hl & Hid & Hv).
  destruct (readable_upto s s1 Hup Hst) as [Hfv _].
  assert (ctx_ok c (fs_ctx s1)) as Hx1 by (eapply upto_ctx_ok; [done|apply Hst]).
  pose proof (wp_read_fm c Hc i s1 Hx1 Hfv Hi) as Hread.
  rewrite (nw_fm c s s1), (nw_act c s s1) in Hread by done.
  assert (forall r s2, yields c s1 (fm_at c (im s) (act s) i) r s2 ->
    match r with Ok m => upto nowhere s s2 /\ m = fm_at c (im s) (act s) i | Err e => upto nowhere s s2 /\ sick c s end) as Hy.
  { intros r s2 [Hup2 Hr2]. assert (upto nowhere s s2) by by transitivity s1.
    destruct r; [by split|]. split; [done|]. exact (nw_sick c _ _ Hup Hr2). }
  apply wp_bind. destruct e1 as [e1|]; [apply wp_or_return|]; (eapply wp_mono; [exact Hread|]);
    intros r s2 Hr2%Hy; (destruct r as [m|e]; [destruct Hr2 as [Hup2 ->]; by apply (Hk i)|
      destruct Hr2; split; [done|right; eauto]]).
Qed.

Theorem wp_file_get_info fid s :
  readable s -> fid_ok fid ->
  wp (etss_flash_fs_file_get_info fid) s (reads s (info_spec (ready_view c s) fid)).
Proof.
  intros Hst Hfid. unfold etss_flash_fs_file_get_info, info_spec.
  apply (wp_lookup_meta fid None); [done..|by intros ->|].
  intros i s' m Hup Hi Hl Hid ->. rewrite bool_decide_eq_true_2 by done. simpl.
  apply wp_ret. split; [done|left]. do 2 f_equal. rewrite rd_length.
  destruct (rb_tables _ Hst) as [D Hwf]. pose proof (wf_fm_typed _ _ _ _ Hwf i Hi) as (_ & _ & [? _] & _). simpl in *. fold m in H. lia.
Qed.

Lemma wp_lo_to_phy l s :
  ctx_ok c (fs_ctx s) -> blocks_valid c s -> in_block_table c l ->
  wp (etss_dblock_lo_to_phy l) s (fun r s' => upto nowhere s s' /\
    (r = Ok (phy_id (bm_at (im s) (act s) l)) \/ (sick c s /\ r = Ok ETSS_BLOCK_INVALID_ID))).
Proof.
  intros Hx Hv Hl. unfold etss_dblock_lo_to_phy. apply wp_bind, wp_attempt.
  eapply wp_mono; [by apply (wp_read_bm c Hc)|].
  intros [m|e] s1 [Hup Hm]; apply wp_ret; (split; [done|]); [by left; rewrite Hm|by right].
Qed.

(** [offset] and [size] are [size_t] values. *)
Theorem wp_file_read fid size offset s :
  readable s -> fid_ok fid -> is_u32 size -> is_u32 offset ->
  wp (etss_flash_fs_file_read fid size offset) s
    (reads s (read_spec (ready_view c s) fid size offset)).
Proof.
  intros Hst Hfid Hsz Hoff. unfold etss_flash_fs_file_read, read_spec.
  apply (wp_lookup_meta fid (Some PSA_ERROR_GENERIC_ERROR)); [done..|by intros ->|].
  intros i s' m Hup Hi Hl Hid ->. rewrite bool_decide_eq_true_2 by done. cbn [negb].
  destruct (rb_tables _ Hst) as [D Hwf]. pose proof (rb_act _ Hst) as Hact.
  pose proof (live_used m Hl) as Hu. pose proof (block_size_range c Hc) as Hbs.
  pose proof (wf_fm_typed _ _ _ _ Hwf i Hi) as (_ & Hd & Hcs & _). change (tf _ i) with m in Hd, Hcs.
  destruct (wf_file_in c Hc _ _ _ Hwf Hact i Hi Hu) as [_ Hlt]. change (tf _ i) with m in Hlt.
  pose proof (wf_file_range c Hc _ _ _ Hwf Hact i Hi Hu) as (H1 & H2 & H3).
  pose proof (wf_used_end c Hc _ _ _ Hwf Hact _ Hlt) as H4.
  pose proof (wf_bm_facts c Hc _ _ _ Hwf Hact _ Hlt) as (Hphy & Hds & _).
  change (tf _ i) with m in H1, H2, H3. cbn [af_data file_of]. rewrite rd_length, Z2Nat.id by lia.
  apply wp_bind, wp_check.
  2: { intros He. split; [done|left]. unfold etss_utils_check_contained_in in *.
       destruct (Z.leb_spec (offset + size) (cur_size m)) as [Hle|Hgt].
       - destruct (Z.gtb_spec offset (cur_size m)); [unfold is_u32 in *; lia|].
         rewrite sub32_small in * by (unfold is_u32 in *; lia).
         by destruct (Z.gtb_spec size (cur_size m - offset)); [lia|].
       - by repeat case_match. }
  intros Hok. apply contained_in_iff in Hok; [|done..].
  destruct (Z.leb_spec (offset + size) (cur_size m)) as [_|]; [|lia].
  apply wp_or_return. unfold etss_flash_fs_dblock_read_file. apply wp_bind.
  destruct (readable_upto s s' Hup Hst) as [_ Hbv].
  eapply wp_mono; [apply wp_lo_to_phy; [eapply upto_ctx_ok; [done|apply Hst]|done|done]|].
  rewrite (nw_bm c s s'), (nw_act c s s') by done. unfold ETSS_BLOCK_INVALID_ID.
  intros r s1 [Hup1 [-> | [Hsick ->]]].
  2: { rewrite Z.eqb_refl. split; [by transitivity s'|right]. split; [by eapply nw_sick|eauto]. }
  change (bm_at (im s) (act s) (lblock m)) with (tb (tables_at c (im s) (act s)) (lblock m)).
  set (p := phy_id _) in *. pose proof (ct_num _ (co_typed _ Hc)).
  destruct (Z.eqb_spec p 4294967295); [unfold is_u16 in *; lia|].
  unfold is_u32 in *. rewrite add32_small by lia.
  eapply wp_mono.
  { apply (wp_ops_read c); [|unfold in_block; lia].
    eapply upto_cfg; [exact Hup1|]. eapply upto_cfg; [exact Hup|]. apply Hst. }
  intros r s2 [Hup2 Hr2]. assert (upto nowhere s s2) as Hup02.
  { transitivity s'; [done|]. by transitivity s1. }
  destruct r as [bs|e]; (split; [done|]).
  - left. f_equal. rewrite Hr2, (nw_rd c s' s1), (nw_rd c s s') by done.
    symmetry. apply rd_take_drop; lia.
  - right. split; [|eauto]. eapply nw_sick, nw_sick; [exact Hup|exact Hup1|exact Hr2].
Qed.
End Read.
