(* ===== verification/FsStaged.v ===== *)
(** * Working from a ready state

    The specifications of [FsStage] for a file system that was ready when the
    operation began: the tables of the active block do not change, and the
    writes stay in the scratch blocks. *)
From Stdlib Require Import ZArith Lia.
From stdpp Require Import base list numbers gmap options.
From S2P Require Import Prelude EtssUtils FlashFsDefs Mblock Dblock FlashFs MblockSpec.
From S2P Require Import FsReads FsTables FsUpdate FsDisk FsStage FsCommit FsRead.

#[local] Set Default Proof Using "All".

Lemma fmo_8 c (Hc : cfg_ok c) i : 0 <= i -> 8 <= fmo c i.
Proof. pose proof (nact_range c Hc). unfold fmo. lia. Qed.

Section Staged.
Context {E : Type} {FO : FlashOps E} (c : etss_flash_fs_config_t) {FL : FlashLaws E c}.
Context (Hc : cfg_ok c) (s0 : fs_state E) (Hr : ready c s0).
Implicit Types s : fs_state E.

Let A := act s0.
Let S := scr s0.
Let D := dsc s0.
Let T := tables_at c (im s0) (act s0).

Lemma st_blocks : (A = 0 /\ S = 1) \/ (A = 1 /\ S = 0).
Proof. exact (env_blocks c s0 _ _ (ready_env c s0 Hr)). Qed.

Lemma st_wf : wf c T A D.
Proof. exact (ready_wf c s0 Hr). Qed.

Lemma st_S : 1 - A = S.
Proof. pose proof st_blocks. lia. Qed.

Lemma st_Dh : scratch_dblock (hdr_at (im s0) A) = D.
Proof. unfold D, dsc. by rewrite (ry_hdr _ _ Hr). Qed.

Lemma st_D : num_blocks c <> 2 -> 2 <= D < num_blocks c.
Proof. apply st_wf. Qed.

(** The scratch data block of logical block [l]. *)
Definition sid (l : Z) : Z := if l =? 0 then scr s0 else dsc s0.

Lemma sid_range l : in_block_table c l ->
  0 <= sid l < num_blocks c /\ sid l <> phy_id (tb T l) /\ scratch_region c S D (sid l).
Proof.
  intros Hl. pose proof st_blocks. pose proof (validate_config_blocks c Hc).
  unfold sid, scratch_region. fold S. fold D. destruct (Z.eqb_spec l 0) as [->|Hne].
  - rewrite (wf_phy0 _ _ _ _ st_wf). lia.
  - pose proof (wf_phy _ _ _ _ st_wf l Hl Hne). pose proof (wf_D_range c Hc T A D st_wf ltac:(lia) l Hl Hne).
    assert (num_blocks c <> 2). { intros Hn2. pose proof (nact_one c Hn2). unfold in_block_table in Hl. lia. }
    lia.
Qed.

Lemma area_S off n b o : 8 <= off -> within S off n b o -> area c s0 b o.
Proof. intros Hoff [-> Ho]. split; [by left|]. lia. Qed.

Lemma area_sid l off n b o : in_block_table c l -> (l = 0 -> 8 <= off) -> within (sid l) off n b o ->
  area c s0 b o.
Proof.
  intros Hl Hoff [-> Ho]. destruct (sid_range l Hl) as (_ & _ & Hreg). split; [done|].
  intros [He Hlt]. unfold sid in He. destruct (Z.eqb_spec l 0) as [->|Hne]; [lia|].
  pose proof (wf_D_range c Hc T A D st_wf ltac:(pose proof st_blocks; lia) l Hl Hne).
  fold S D in He. pose proof st_blocks. lia.
Qed.

Section At.
Context (s : fs_state E) (Hst : staging c s0 s).

Lemma st_env : env_ok c s A S.
Proof.
  split; [by eapply staging_ctx_ok, ry_ctx|].
  by rewrite (staging_act c s0 s Hst), (staging_scr c s0 s Hst).
Qed.

Lemma st_frame b o : ~ scratch_region c (1 - A) (scratch_dblock (hdr_at (im s0) A)) b ->
  im s b o = im s0 b o.
Proof. rewrite st_S, st_Dh. intros Hno. apply Hst. by intros [? _]. Qed.

(** Live blocks keep their contents. *)
Lemma st_live l o : in_block_table c l -> im s (phy_id (tb T l)) o = im s0 (phy_id (tb T l)) o.
Proof. intros Hl. apply st_frame, (disk_live_blocks c Hc); [apply Hr|done]. Qed.

Lemma st_act o : im s A o = im s0 A o.
Proof.
  pose proof (st_live 0 o) as H. rewrite (wf_phy0 _ _ _ _ st_wf) in H. apply H.
  pose proof (nact_range c Hc). unfold in_block_table. lia.
Qed.

Lemma st_fm i : fm_at c (im s) A i = tf T i.
Proof. apply fm_copied. intros. apply st_act. Qed.
Lemma st_bm l : bm_at (im s) A l = tb T l.
Proof. apply bm_copied. intros. apply st_act. Qed.

Lemma st_files : files_valid c s.
Proof.
  intros i Hi. rewrite (env_act c _ _ _ st_env), st_fm. by apply (wf_fm _ _ _ _ st_wf).
Qed.
Lemma st_bms : blocks_valid c s.
Proof.
  intros i Hi. rewrite (env_act c _ _ _ st_env), st_bm. by apply (wf_bm _ _ _ _ st_wf).
Qed.

(** The scratch header is still erased. *)
Lemma st_header : erased c (im s) S 0 8.
Proof.
  intros o Ho. assert (im s S o = im s0 S o) as ->.
  { apply Hst. intros [_ Hn]. apply Hn. split; [done|lia]. }
  apply (ry_scr _ _ Hr). pose proof (metadata_fits c Hc). pose proof (nact_range c Hc).
  pose proof (files_range c Hc). unfold fmo in *. lia.
Qed.

(** A mount still finds the old files. *)
Lemma st_disk : disk c (im s) A /\ disk_view c (im s) A = ready_view c s0.
Proof.
  apply (disk_scratch c Hc (im s0)); [apply Hr| |apply st_frame].
  pose proof (header_erased c (im s) S st_header) as Hh. by rewrite <- st_S in Hh.
Qed.

Lemma st_mounts : mounts c (im s) (ready_view c s0).
Proof. exists A. apply st_disk. Qed.

(** So do look-ups. *)
Lemma st_readable : clean c T -> readable c s /\ ready_view c s = ready_view c s0.
Proof.
  intros Hcl. destruct st_disk as [Hd Hv]. pose proof (env_act c _ _ _ st_env) as Ha.
  split; [|unfold ready_view at 1; by rewrite Ha]. split; rewrite ?Ha.
  - apply st_env.
  - eexists. apply Hd.
  - apply Hd.
  - intros i Hi. cbn [tf tables_at]. rewrite st_fm. by apply Hcl.
Qed.

Lemma wp_st_writes (X : fs_state E -> Prop) {B} (m : FS E B) R (P : B -> fs_state E -> Prop) :
  wp m s (writes c s R P) -> (forall b o, R b o -> area c s0 b o) ->
  wp m s (stages c s0 X (fun a s' => upto R s s' /\ P a s')).
Proof. intros Hm HR. by apply wp_stage_upto. Qed.

Lemma wp_st_read_fm (X : fs_state E -> Prop) i : in_file_table c i ->
  wp (etss_flash_fs_mblock_read_file_meta i) s
    (stages c s0 X (fun m s' => m = tf T i /\ upto nowhere s s')).
Proof.
  intros Hi. apply wp_stage_yields; [done|]. rewrite <- st_fm, <- (env_act c _ _ _ st_env).
  apply (wp_read_fm c Hc); [apply st_env|apply st_files|done].
Qed.

Lemma wp_st_read_bm (X : fs_state E -> Prop) l : in_block_table c l ->
  wp (etss_flash_fs_mblock_read_block_metadata l) s
    (stages c s0 X (fun m s' => m = tb T l /\ upto nowhere s s')).
Proof.
  intros Hi. apply wp_stage_yields; [done|]. rewrite <- st_bm, <- (env_act c _ _ _ st_env).
  apply (wp_read_bm c Hc); [apply st_env|apply st_bms|done].
Qed.

Lemma wp_st_update_fm (X : fs_state E -> Prop) i m : in_file_table c i -> file_meta_typed m ->
  erased c (im s) S (fmo c i) 32 ->
  wp (etss_flash_fs_mblock_update_scratch_file_meta i m) s
    (stages c s0 X (fun _ s' => upto (within S (fmo c i) 32) s s' /\ fm_at c (im s') S i = m)).
Proof.
  intros Hi Hm He. apply wp_st_writes.
  - by apply (wp_update_fm c Hc i m s A S st_env).
  - intros b o. apply area_S, (fmo_8 c Hc), Hi.
Qed.

Lemma wp_st_update_bms (X : fs_state E -> Prop) l bm : in_block_table c l -> block_meta_typed bm ->
  erased c (im s) S 8 (fmo c 0 - 8) ->
  wp (etss_flash_fs_mblock_update_scratch_block_meta l bm) s
    (stages c s0 X (fun _ s' => upto (within S 8 (fmo c 0 - 8)) s s' /\
       bm_table c (im s') S (put_block S l bm T))).
Proof.
  intros Hl Hm He. apply wp_st_writes.
  - eapply wp_writes_weaken; [apply (wp_update_scratch_bm c Hc l bm s A S st_env st_bms); try done| |].
    + rewrite st_bm. apply (wf_bm_typed _ _ _ _ st_wf). pose proof (nact_range c Hc). unfold in_block_table. lia.
    + done.
    + intros [] s' _ HT j Hj. rewrite HT by done. unfold put_block; simpl.
      pose proof (st_bm j) as Hj'. change (bm_at (im s) A j = tb T j) in Hj'. by rewrite Hj'.
  - intros b o. by apply area_S.
Qed.

(** Data copied into the scratch data block. *)
Lemma wp_st_copy (X : fs_state E -> Prop) l doff soff n : in_block_table c l -> 0 <= n ->
  (l = 0 -> 8 <= doff) -> 0 <= doff -> doff + n <= block_size c ->
  0 <= soff -> soff + n <= block_size c -> erased c (im s) (sid l) doff n ->
  wp (etss_flash_fs_block_to_block_move (sid l) doff (phy_id (tb T l)) soff n) s
    (stages c s0 X (fun _ s' => upto (within (sid l) doff n) s s' /\
       forall i, 0 <= i < n -> im s' (sid l) (doff + i) = im s0 (phy_id (tb T l)) (soff + i))).
Proof.
  intros Hl Hn Hd8 Hd Hdn Hs Hsn He. destruct (sid_range l Hl) as (Hsr & Hne & _).
  pose proof (wf_bm_facts c Hc T A D st_wf ltac:(pose proof st_blocks; lia) l Hl) as (Hp & _).
  apply wp_st_writes.
  - eapply wp_writes_weaken.
    + apply (wp_copy c Hc); [eapply env_cfg, st_env|done|unfold in_block; lia..|exact He].
    + done.
    + intros [] s' _ Hcp i Hi. rewrite Hcp by done. by apply st_live.
  - intros b o. by apply area_sid.
Qed.

(** The same behind a test for an empty range. *)
Lemma wp_st_copy_if (X : fs_state E -> Prop) (t : bool) l doff soff n : in_block_table c l -> 0 <= n ->
  (t = false -> n = 0) ->
  (l = 0 -> 8 <= doff) -> 0 <= doff -> doff + n <= block_size c ->
  0 <= soff -> (t = true -> soff + n <= block_size c) -> erased c (im s) (sid l) doff n ->
  wp (if t then or_return (etss_flash_fs_block_to_block_move (sid l) doff
                             (phy_id (tb T l)) soff n) PSA_ERROR_GENERIC_ERROR
      else mret tt) s
    (stages c s0 X (fun _ s' => upto (within (sid l) doff n) s s' /\
       forall i, 0 <= i < n -> im s' (sid l) (doff + i) = im s0 (phy_id (tb T l)) (soff + i))).
Proof.
  intros Hl Hn Ht Hd8 Hd Hdn Hs Hsn He. destruct t.
  - apply wp_stages_or, wp_st_copy; auto.
  - apply wp_stages_ret; [done|]. split; [done|]. rewrite Ht by done. lia.
Qed.

Lemma wp_st_migrate (X : fs_state E -> Prop) :
  let bm := tb T 0 in
  erased c (im s) S (data_start bm) (used_end c bm - data_start bm) ->
  wp etss_flash_fs_mblock_migrate_lb0_data_to_scratch s
    (stages c s0 X (fun _ s' =>
       upto (within S (data_start bm) (used_end c bm - data_start bm)) s s' /\
       forall o, data_start bm <= o < used_end c bm -> im s' S o = im s0 A o)).
Proof.
  intros bm He. pose proof (nact_range c Hc) as Hn.
  assert (in_block_table c 0) as H0 by (unfold in_block_table; lia).
  pose proof (wf_bm_facts c Hc T A D st_wf ltac:(pose proof st_blocks; lia) 0 H0) as (_ & _ & _ & _ & Hds).
  apply wp_st_writes.
  - pose proof (wp_migrate c Hc s A S st_env st_bms) as Hm. rewrite st_bm in Hm.
    eapply wp_writes_weaken; [apply Hm|..].
    + apply (wf_phy0 _ _ _ _ st_wf).
    + by apply (wf_bm_typed _ _ _ _ st_wf).
    + exact He.
    + done.
    + intros [] s' _ Hcp o Ho. rewrite Hcp by done. apply st_act.
  - intros b o. apply area_S. unfold bm. rewrite Hds. simpl. apply (fmo_8 c Hc). apply (files_range c Hc).
Qed.

(** The scratch data block is recorded in the context only. *)
Lemma wp_st_set_scratch (X : fs_state E -> Prop) p l (P : unit -> fs_state E -> Prop) :
  (forall s', staging c s0 s' -> fs_env s' = fs_env s ->
     dsc s' = (if l =? 0 then dsc s else p) -> P tt s') ->
  wp (etss_flash_fs_mblock_set_data_scratch p l) s (stages c s0 X P).
Proof.
  intros HP. unfold etss_flash_fs_mblock_set_data_scratch, ETSS_LOGICAL_DBLOCK0.
  destruct Hst as ((D1 & HD1) & Hf & Hh). destruct (Z.eqb_spec l 0) as [->|Hne]; simpl.
  - apply wp_ret. split; [done|]. by apply HP.
  - apply wp_modify. assert (staging c s0 {| fs_ctx := with_dscratch p (fs_ctx s); fs_env := fs_env s |}) as Hst'.
    { split; [|done]. exists p. simpl. rewrite HD1. by destruct (fs_ctx s0) as [? [] ? ?]. }
    split; [exact Hst'|]. by apply HP.
Qed.
End At.

(** Where the data of [l] goes is erased as long as only the file metadata
    was written. *)
Lemma sid_erased l s : in_block_table c l ->
  upto (within S (fmo c 0) (32 * max_num_files c)) s0 s ->
  erased c (im s) (sid l) (data_start (tb T l)) (block_size c - data_start (tb T l)).
Proof.
  intros Hl Hup. pose proof st_blocks. pose proof (nact_range c Hc).
  pose proof (wf_bm_facts c Hc T A D st_wf ltac:(lia) l Hl) as (_ & _ & _ & _ & Hds).
  intros o Ho. unfold sid. destruct (Z.eqb_spec l 0) as [->|Hne].
  - pose proof (files_range c Hc). rewrite (upto_im _ _ _ _ _ Hup) by (unfold within, fmo in *; lia).
    apply (ry_scr _ _ Hr). unfold fmo in *. lia.
  - pose proof (wf_D_range c Hc T A D st_wf ltac:(lia) l Hl Hne) as HD.
    rewrite (upto_im _ _ _ _ _ Hup) by (intros [He _]; fold D in He; lia).
    apply (ry_dscr _ _ Hr); [|lia]. intros Hn2. pose proof (nact_one c Hn2).
    unfold in_block_table in Hl. lia.
Qed.

Lemma wp_cur_scratch_id l s (Q : outcome Z -> fs_state E -> Prop) :
  staging c s0 s -> dsc s = D -> Q (Ok (sid l)) s ->
  wp (etss_flash_fs_mblock_cur_data_scratch_id l) s Q.
Proof.
  intros Hst HD HQ. unfold etss_flash_fs_mblock_cur_data_scratch_id, ETSS_LOGICAL_DBLOCK0.
  apply wp_bind, wp_get_ctx. unfold sid in HQ. pose proof (staging_scr c s0 s Hst) as HS.
  unfold scr in HS, HQ. destruct (l =? 0); apply wp_ret; [by rewrite HS|].
  unfold D in HD. rewrite <- HD in HQ. exact HQ.
Qed.

(** From a finished staging to the commit. *)
Lemma st_prepared s T' D' :
  staging c s0 s -> dsc s = D' -> tables_equiv c T' (tables_at c (im s) S) -> wf c T' S D' ->
  is_u32 D' -> prepared c s A S.
Proof.
  intros Hst HD HE Hwf HDu. destruct (Hst) as ((D1 & HD1) & _).
  assert (header_typed (meta_block_header (fs_ctx s0))) as (? & ? & ? & ? & ?).
  { rewrite (ry_hdr _ _ Hr). apply dec_header_typed, rd_Forall. intros o. apply img_u8. }
  assert (D1 = D') as -> by (rewrite <- HD; unfold dsc; by rewrite HD1).
  split.
  - by apply st_env.
  - by rewrite HD1.
  - rewrite HD1. simpl. rewrite (ry_hdr _ _ Hr). apply (ry_disk _ _ Hr).
  - intros _. assert (hdr_at (im s) A = hdr_at (im s0) A) as ->.
    { apply (same_meta_hdr c Hc). intros o _. by apply st_act. }
    split; [rewrite HD1; unfold A; by rewrite <- (ry_hdr _ _ Hr)|].
    apply disk_swap, (ry_disk _ _ Hr).
  - by apply st_header.
  - rewrite HD. eapply wf_equiv; [|exact HE|done]. pose proof (nact_range c Hc). lia.
Qed.
End Staged.
