(* ===== verification/FsDelete.v ===== *)
(** * Deleting a file

    [etss_flash_fs_delete_idx]: the metadata loop, the compaction of the data
    block and the commit.  The deleted file must have a maximum size above
    zero (see [zero_length_delete_damages] in [FsTheorems]). *)
From Stdlib Require Import ZArith Lia.
From stdpp Require Import base list numbers gmap options.
From S2P Require Import Prelude EtssUtils FlashFsDefs Mblock Dblock FlashFs MblockSpec.
From S2P Require Import FsReads FsTables FsUpdate FsDisk FsStage FsCommit FsRead FsStaged.

#[local] Set Default Proof Using "All".

(** ** Sums over lists of indices *)

Definition zsum (g : Z -> Z) (l : list Z) : Z := foldr (fun i acc => g i + acc) 0 l.

Lemma zsum_app g l1 l2 : zsum g (l1 ++ l2) = zsum g l1 + zsum g l2.
Proof. induction l1 as [|i l1 IH]; simpl; [done|]. unfold zsum in *. simpl. lia. Qed.

Lemma zsum_perm g l1 l2 : l1 ≡ₚ l2 -> zsum g l1 = zsum g l2.
Proof. induction 1; unfold zsum in *; simpl; lia. Qed.

Lemma zsum_nonneg g l : (forall i, i ∈ l -> 0 <= g i) -> 0 <= zsum g l.
Proof.
  induction l as [|i l IH]; intros H; [done|]. unfold zsum in *; simpl.
  pose proof (H i ltac:(left)). assert (0 <= foldr (fun i acc => g i + acc) 0 l); [|lia].
  apply IH. intros j Hj. apply H. by right.
Qed.

Lemma placed_sum F pos ord stop : placed F pos ord stop -> zsum (fun i => max_size (F i)) ord = stop - pos.
Proof.
  revert pos. induction ord as [|i ord IH]; intros pos; simpl; [intros ->; unfold zsum; simpl; lia|].
  intros [<- Hp]. apply IH in Hp. unfold zsum in *. simpl. lia.
Qed.

Lemma seqZ_snoc i : 0 <= i -> seqZ 0 (i + 1) = seqZ 0 i ++ [i].
Proof. intros Hi. rewrite seqZ_app by lia. done. Qed.

(** ** What the metadata loop computes *)

Section Span.
Context (c : etss_flash_fs_config_t) (Hc : cfg_ok c).
Context (T : tables) (b D : Z) (Hwf : wf c T b D) (Hb : b = 0 \/ b = 1).
Context (d : Z) (Hd : in_file_table c d) (Hud : unused (tf T d) = false).
Context (Hmax : 0 < max_size (tf T d)).

(** The files the loop moves. *)
Definition above (i : Z) : bool :=
  negb (i =? d) && (lblock (tf T i) =? lblock (tf T d))
  && (etss_utils_validate_fid (id (tf T i)) =? PSA_SUCCESS)
  && (data_idx (tf T i) >? data_idx (tf T d)).

Definition span_ok (i : Z) (acc : Z * Z) : Prop :=
  acc.2 = zsum (fun j => max_size (tf T j)) (filter (fun j => above j = true) (seqZ 0 i)) /\
  (forall j, 0 <= j < i -> above j = true -> acc.1 <= data_idx (tf T j)) /\
  (acc.1 = block_size c \/ exists j, 0 <= j < i /\ above j = true /\ acc.1 = data_idx (tf T j)).

Let dend := data_idx (tf T d) + max_size (tf T d).
Let uend := used_end c (tb T (lblock (tf T d))).

Lemma above_iff i : in_file_table c i ->
  above i = true <-> file_in c T (lblock (tf T d)) i /\ data_idx (tf T d) < data_idx (tf T i).
Proof.
  intros Hi. unfold above, file_in, unused. rewrite !andb_true_iff, !negb_true_iff, negb_false_iff,
    Z.eqb_eq, Z.gtb_gt. split.
  - intros (((_ & ?) & ?) & ?). split_and!; done || lia.
  - intros ((_ & ? & ?) & ?). split_and!; [|done..|lia]. apply Z.eqb_neq. intros ->. lia.
Qed.

(** The order of the files: those above [d] are the ones behind it. *)
Lemma above_split : exists post, NoDup post /\
  (forall i, i ∈ post <-> in_file_table c i /\ above i = true) /\ placed (tf T) dend post uend.
Proof using Hc Hwf Hb Hd Hud Hmax.
  destruct (wf_file_in c Hc T b D Hwf Hb d Hd Hud) as [Hfd Hl].
  destruct (wf_layout _ _ _ _ Hwf _ Hl) as (ord & Hnd & Hord & Hp).
  assert (d ∈ ord) as Hdo by by apply Hord.
  apply list_elem_of_split in Hdo as (pre & post & ->). exists post.
  apply NoDup_app in Hnd as (Hnd1 & Hdis & Hnd2). apply NoDup_cons in Hnd2 as [Hdp Hnd2].
  apply placed_app in Hp as (mid & Hp1 & Hidx & Hp2).
  assert (forall i, i ∈ pre ++ d :: post -> 0 <= max_size (tf T i)) as Hmx.
  { intros i Hi. apply Hord in Hi as (Hi & _). by apply (wf_max_nonneg c Hc T b D Hwf Hb). }
  assert (forall i, i ∈ pre -> 0 <= max_size (tf T i)) as Hmx1 by (intros; apply Hmx, elem_of_app; by left).
  assert (forall i, i ∈ post -> 0 <= max_size (tf T i)) as Hmx2 by (intros; apply Hmx, elem_of_app; right; by right).
  destruct (placed_bounds _ _ _ _ Hmx1 Hp1) as [_ Hb1], (placed_bounds _ _ _ _ Hmx2 Hp2) as [_ Hb2].
  split; [done|]. split; [|unfold dend; by rewrite Hidx].
  intros i. split.
  - intros Hi. destruct (proj1 (Hord i)) as (Hti & ?); [apply elem_of_app; right; by right|].
    split; [done|]. apply above_iff; [done|]. split; [done|]. specialize (Hb2 i Hi). lia.
  - intros [Hti Ha]. apply above_iff in Ha as [Hfi Hgt]; [|done].
    apply Hord, elem_of_app in Hfi as [Hi|[->|?]%elem_of_cons]; [|lia|done].
    specialize (Hb1 i Hi). specialize (Hmx1 i Hi). lia.
Qed.

(** The accumulated sizes never exceed the block. *)
Lemma span_bound i acc : 0 <= i <= max_num_files c -> span_ok i acc -> 0 <= acc.2 <= uend - dend.
Proof using Hc Hwf Hb Hd Hud Hmax.
  intros Hi (-> & _). destruct above_split as (post & Hnd & Hpost & Hp).
  set (g := fun j => max_size (tf T j)). set (P := fun j => above j = true).
  rewrite <- (placed_sum _ _ _ _ Hp). fold g.
  assert (forall j, in_file_table c j -> 0 <= g j) as Hg.
  { intros j Hj. by apply (wf_max_nonneg c Hc T b D Hwf Hb). }
  assert (post ≡ₚ filter P (seqZ 0 i) ++ filter P (seqZ i (max_num_files c - i))) as ->%(zsum_perm g).
  { rewrite <- filter_app. apply NoDup_Permutation; [done| |].
    - replace (seqZ i (max_num_files c - i)) with (seqZ (0 + i) (max_num_files c - i)) by done.
      rewrite <- seqZ_app by lia. apply NoDup_filter, NoDup_seqZ.
    - intros j. rewrite Hpost, list_elem_of_filter, elem_of_app, !elem_of_seqZ.
      unfold in_file_table, P. intuition lia. }
  rewrite zsum_app. split.
  - apply zsum_nonneg. intros j [_ Hj%elem_of_seqZ]%list_elem_of_filter. apply Hg. unfold in_file_table. lia.
  - assert (0 <= zsum g (filter P (seqZ i (max_num_files c - i)))); [|lia].
    apply zsum_nonneg. intros j [_ Hj%elem_of_seqZ]%list_elem_of_filter. apply Hg. unfold in_file_table. lia.
Qed.

(** At the end: all bytes behind [d], starting right behind it. *)
Lemma span_final acc : span_ok (max_num_files c) acc ->
  acc.2 = uend - dend /\ (0 < acc.2 -> acc.1 = dend).
Proof using Hc Hwf Hb Hd Hud Hmax.
  intros (Hsum & Hle & Hsrc). destruct above_split as (post & Hnd & Hpost & Hp).
  assert (acc.2 = uend - dend) as Hs.
  { rewrite Hsum, <- (placed_sum _ _ _ _ Hp). apply zsum_perm, NoDup_Permutation; [apply NoDup_filter, NoDup_seqZ|done|].
    intros j. rewrite Hpost, list_elem_of_filter, elem_of_seqZ. unfold in_file_table. intuition lia. }
  split; [done|]. intros Hpos. destruct post as [|h post].
  { simpl in Hp. lia. }
  destruct Hp as [Hh _]. destruct (proj1 (Hpost h)) as [Hth Hah]; [left|].
  specialize (Hle h Hth Hah). rewrite Hh in Hle.
  destruct (wf_file_in c Hc T b D Hwf Hb d Hd Hud) as [_ Hl].
  pose proof (wf_used_end c Hc T b D Hwf Hb _ Hl) as Hue. fold uend in Hue.
  destruct Hsrc as [Hsrc|(j & Hj & Haj & Hsrc)]; [lia|].
  apply above_iff in Haj as [Hfj Hgt]; [|unfold in_file_table; lia].
  destruct (del_above c Hc T b D Hwf Hb b d 0 Hb Hd Hud j Hfj Hgt) as [Hge _]. fold dend in Hge. lia.
Qed.
End Span.

(** ** The metadata loop *)

Section Delete.
Context {E : Type} {FO : FlashOps E} (c : etss_flash_fs_config_t) {FL : FlashLaws E c}.
Context (Hc : cfg_ok c) (s0 : fs_state E) (Hr : ready c s0).
Implicit Types s : fs_state E.

Let A := act s0.
Let S := scr s0.
(** A deletion is never refused: it fails only if the device does. *)
Let X (_ : fs_state E) : Prop := False.
Let D := dsc s0.
Let T := tables_at c (im s0) (act s0).

Context (d : Z) (Hd : in_file_table c d) (Hud : unused (tf T d) = false).
Context (Hmax : 0 < max_size (tf T d)).

Let l := lblock (tf T d).
Let Hwf : wf c T A D := st_wf c Hc s0 Hr.
Let HA : A = 0 \/ A = 1 := ready_act c s0 Hr.

Lemma dl_l : in_block_table c l.
Proof. by apply (wf_file_in c Hc T A D Hwf HA d). Qed.

Lemma dl_typed i : in_file_table c i -> file_meta_typed (del_file_meta T d i).
Proof.
  intros Hi. apply (del_fm_typed c Hc T A D Hwf HA A D d (phy_id (tb T l)) HA Hd Hud); [by right; left|done|done].
Qed.

Lemma span_step i acc :
  0 <= i < max_num_files c -> span_ok c T d i acc ->
  span_ok c T d (i + 1) (if above T d i
    then (if acc.1 >? data_idx (tf T i) then data_idx (tf T i) else acc.1,
          add32 acc.2 (max_size (tf T i)))
    else acc).
Proof.
  intros Hi Hsp. assert (span_ok c T d (i + 1) (if above T d i
    then (if acc.1 >? data_idx (tf T i) then data_idx (tf T i) else acc.1,
          acc.2 + max_size (tf T i)) else acc)) as H.
  { destruct Hsp as (Hsum & Hle & Hsrc). unfold span_ok.
    rewrite seqZ_snoc, filter_app, zsum_app, filter_cons, filter_nil by lia.
    destruct (above T d i) eqn:Ha; cbn [fst snd].
    - split_and!.
      + rewrite Hsum. unfold zsum at 3. simpl. lia.
      + intros j Hj Haj. destruct (decide (j = i)) as [->|]; [destruct (Z.gtb_spec acc.1 (data_idx (tf T i))); lia|].
        specialize (Hle j ltac:(lia) Haj). destruct (Z.gtb_spec acc.1 (data_idx (tf T i))); lia.
      + destruct (Z.gtb_spec acc.1 (data_idx (tf T i))); [right; exists i; split_and!; done || lia|].
        destruct Hsrc as [?|(j & Hj & ? & ?)]; [by left|right]. exists j. split_and!; done || lia.
    - split_and!.
      + rewrite Hsum. unfold zsum at 3. simpl. lia.
      + intros j Hj Haj. destruct (decide (j = i)) as [->|]; [congruence|]. apply Hle; [lia|done].
      + destruct Hsrc as [?|(j & Hj & ? & ?)]; [by left|right]. exists j. split_and!; done || lia. }
  destruct (above T d i); [|done].
  pose proof (span_bound c Hc T A D Hwf HA d Hd Hud Hmax (i + 1) _ ltac:(lia) H) as Hb. cbn [snd] in Hb.
  pose proof (block_size_range c Hc). pose proof (wf_used_end c Hc T A D Hwf HA l dl_l) as Hue.
  pose proof (wf_file_range c Hc T A D Hwf HA d Hd Hud) as (Hf & _).
  cbv zeta in Hf. fold l in Hf, Hb.
  pose proof (wf_bm_facts c Hc T A D Hwf HA l dl_l) as Hbm.
  rewrite add32_small; [done|]. lia.
Qed.

(** Entry [i] of the new table is written, or its place is still erased. *)
Definition loop_inv (i : Z) s : Prop :=
  upto (within S (fmo c 0) (32 * max_num_files c)) s0 s /\
  fm_at c (im s) S d = zero_file_meta /\
  (forall j, 0 <= j < i -> j <> d -> fm_at c (im s) S j = del_file_meta T d j) /\
  (forall j, i <= j < max_num_files c -> j <> d -> erased c (im s) S (fmo c j) 32).

Lemma loop_region b o : within S (fmo c 0) (32 * max_num_files c) b o -> area c s0 b o.
Proof. apply (area_S c Hc s0 Hr), (fmo_8 c Hc). lia. Qed.

Lemma loop_staging i s : loop_inv i s -> staging c s0 s.
Proof.
  intros (Hup & _). eapply staging_upto; [apply staging_refl|exact Hup|apply loop_region].
Qed.

(** Writing entry [i] keeps the invariant. *)
Lemma loop_write i s s' :
  0 <= i < max_num_files c -> i <> d -> loop_inv i s ->
  upto (within S (fmo c i) 32) s s' -> fm_at c (im s') S i = del_file_meta T d i ->
  loop_inv (i + 1) s'.
Proof.
  intros Hi Hne (Hup & Hz & Hdone & Hrest) Hup' Hw. unfold loop_inv.
  assert (forall j, j <> i -> forall o, fmo c j <= o < fmo c j + 32 -> im s' S o = im s S o) as Hkeep.
  { intros j Hj o Ho. apply (upto_im _ _ _ _ _ Hup'). unfold within, fmo in *. lia. }
  split_and!.
  - transitivity s; [done|]. eapply upto_within_sub; [exact Hup'|unfold fmo; lia..].
  - rewrite <- Hz. apply fm_copied. by apply Hkeep.
  - intros j Hj Hjd. destruct (decide (j = i)) as [->|Hji]; [done|].
    rewrite <- Hdone by lia. apply fm_copied. by apply Hkeep.
  - intros j Hj Hjd o Ho. rewrite (Hkeep j) by lia. by apply (Hrest j); [lia|..].
Qed.

Lemma wp_delete_step i acc s :
  0 <= i < max_num_files c -> loop_inv i s -> span_ok c T d i acc ->
  wp (delete_idx_step d (tf T d) i acc) s
    (stages c s0 X (fun acc' s' => loop_inv (i + 1) s' /\ span_ok c T d (i + 1) acc')).
Proof.
  intros Hi Hinv Hsp. pose proof (span_step i acc Hi Hsp) as Hsp'. pose proof (loop_staging i s Hinv) as Hst.
  unfold delete_idx_step. destruct acc as [src nbr]. unfold above in Hsp'.
  destruct (Z.eqb_spec i d) as [->|Hne].
  { apply wp_stages_ret; [done|]. simpl in Hsp'. split; [|done].
    destruct Hinv as (? & ? & Hdone & Hrest). split_and!; [done..| |].
    - intros j Hj Hjd. apply Hdone; [lia|done].
    - intros j Hj Hjd. apply Hrest; [lia|done]. }
  eapply wp_stages; [by apply (wp_st_read_fm c Hc s0 Hr s Hst)|].
  intros m s1 Hst1 [-> Hup1]. fold T. cbn [negb andb fst snd] in Hsp'.
  assert (loop_inv i s1) as Hinv1.
  { destruct Hinv as (Hup & Hz & Hdone & Hrest). split_and!.
    - transitivity s; [done|by apply upto_any].
    - by rewrite (nw_fm c s s1).
    - intros j Hj Hjd. rewrite (nw_fm c s s1) by done. auto.
    - intros j Hj Hjd o Ho. rewrite (upto_nowhere s s1) by done. by apply (Hrest j). }
  assert (wp (etss_flash_fs_mblock_update_scratch_file_meta i (del_file_meta T d i)) s1
    (stages c s0 X (fun _ s' => loop_inv (i + 1) s'))) as Hw.
  { eapply wp_mono; [apply (wp_st_update_fm c Hc s0 Hr s1 Hst1 X i); [done|by apply dl_typed|]|].
    - destruct Hinv1 as (_ & _ & _ & Hrest). apply Hrest; [lia|done].
    - intros [[]|e] s2 [Hst2 Hr2]; (split; [done|]); [|done].
      destruct Hr2 as [Hup2 Hfm]. by eapply loop_write. }
  unfold del_file_meta in Hw. apply Z.eqb_neq in Hne. rewrite Hne in Hw.
  destruct ((lblock (tf T i) =? lblock (tf T d)) && (etss_utils_validate_fid (id (tf T i)) =? PSA_SUCCESS)
    && (data_idx (tf T i) >? data_idx (tf T d))) eqn:Hcond;
    (eapply wp_stages; [exact Hw|]; intros [] s2 Hst2 Hinv2; by apply wp_stages_ret).
Qed.

Lemma wp_delete_loop s :
  loop_inv 0 s ->
  wp (for_acc (Z.to_nat (max_num_files c)) 0 (block_size c, 0) (delete_idx_step d (tf T d))) s
    (stages c s0 X (fun acc s' => loop_inv (max_num_files c) s' /\ span_ok c T d (max_num_files c) acc)).
Proof.
  intros Hinv. pose proof (files_range c Hc) as Hn.
  apply (wp_for_acc (fun i acc s1 => loop_inv i s1 /\ span_ok c T d i acc)).
  - split; [done|]. split_and!; [done|lia|by left].
  - intros i acc s1 Hi [Hinv1 Hsp]. eapply wp_mono; [apply (wp_delete_step); [lia|done..]|].
    intros [acc'|e] s2 [Hst2 Hr2]; [done|]. by split.
  - intros acc s1 [Hinv1 Hsp]. rewrite Z.add_0_l, Z2Nat.id in Hinv1, Hsp by lia.
    split; [by eapply loop_staging|done].
Qed.

(** ** The compaction *)

Let p : Z := phy_id (tb T l).
Let ds : Z := data_start (tb T l).
Let dst : Z := data_idx (tf T d).
Let dend : Z := data_idx (tf T d) + max_size (tf T d).
Let uend : Z := used_end c (tb T l).

Lemma dl_ranges : 0 <= ds <= dst /\ dst <= dend /\ dend <= uend /\ uend <= block_size c /\
  block_size c < 4294967296 /\ (l = 0 -> ds = fmo c (max_num_files c)).
Proof.
  pose proof (wf_file_range c Hc T A D Hwf HA d Hd Hud) as (H1 & H2 & _). cbv zeta in H1, H2.
  pose proof (wf_used_end c Hc T A D Hwf HA l dl_l) as H3.
  pose proof (wf_bm_facts c Hc T A D Hwf HA l dl_l) as (_ & H4 & _ & _ & H5).
  pose proof (block_size_range c Hc). fold l in H1, H2. unfold ds, dst, dend, uend.
  split_and!; try lia. intros Hl. rewrite Hl in H5 |- *. done.
Qed.

(** The scratch data block after the compaction. *)
Definition compact_data (f : image) : Prop :=
  (forall o, ds <= o < dst -> f (sid s0 l) o = im s0 p o) /\
  (forall i, 0 <= i < uend - dend -> f (sid s0 l) (dst + i) = im s0 p (dend + i)).

Lemma wp_compact_data s src nbr :
  upto (within S (fmo c 0) (32 * max_num_files c)) s0 s ->
  nbr = uend - dend -> (0 < nbr -> src = dend) ->
  0 <= src ->
  forall {B} (k : unit -> FS E B) Q,
  (forall s', staging c s0 s' -> upto (within (sid s0 l) ds (uend - ds)) s s' -> dsc s' = D ->
     compact_data (im s') -> wp (k tt) s' (stages c s0 X Q)) ->
  wp ((if nbr >? 0 then or_return (etss_flash_fs_block_to_block_move (sid s0 l) dst p src nbr)
                          PSA_ERROR_GENERIC_ERROR else mret tt);;
      _ ← (if dst >? ds then
             or_return (etss_flash_fs_block_to_block_move (sid s0 l) ds p ds (sub32 dst ds))
               PSA_ERROR_GENERIC_ERROR else mret tt); k tt) s (stages c s0 X Q).
Proof.
  intros Hup Hnbr Hsrc Hsrc0 B k Q Hk. pose proof dl_ranges as (H1 & H2 & H3 & H4 & H5 & H6).
  pose proof (fmo_8 c Hc (max_num_files c)) as H8. pose proof (files_range c Hc) as Hfr.
  assert (staging c s0 s) as Hst by (eapply staging_upto; [apply staging_refl|exact Hup|apply loop_region]).
  pose proof (sid_erased c Hc s0 Hr l s dl_l Hup) as He. fold T in He. fold ds in He.
  eapply wp_stages.
  { apply (wp_st_copy_if c Hc s0 Hr s Hst X (nbr >? 0) l dst src nbr dl_l); [lia..|].
    eapply erased_sub; [exact He|lia..]. }
  intros [] s1 Hst1 [Hup1 Hc1]. rewrite sub32_small by lia.
  eapply wp_stages.
  { apply (wp_st_copy_if c Hc s0 Hr s1 Hst1 X (dst >? ds) l ds ds (dst - ds) dl_l); [lia..|].
    eapply upto_erased; [exact Hup1|intros o Ho [_ ?]; lia|]. eapply erased_sub; [exact He|lia..]. }
  intros [] s2 Hst2 [Hup2 Hc2]. apply Hk; [done| | |split].
  - transitivity s1; (eapply upto_within_sub; [eassumption|lia..]).
  - unfold dsc. rewrite (upto_ctx _ _ _ Hup2), (upto_ctx _ _ _ Hup1), (upto_ctx _ _ _ Hup). done.
  - intros o Ho. specialize (Hc2 (o - ds) ltac:(lia)). replace (ds + (o - ds)) with o in Hc2 by lia. exact Hc2.
  - intros i Hi. rewrite (upto_im _ _ _ _ _ Hup2) by (unfold within; lia).
    rewrite Hc1 by lia. by rewrite Hsrc by lia.
Qed.

Let D' : Z := if l =? 0 then D else p.

(** What the compaction leaves in the scratch blocks, given the state [s]
    after the metadata loop. *)
Definition compacted_state s s' : Prop :=
  dsc s' = D' /\ compact_data (im s') /\
  bm_table c (im s') S (put_block S l (del_block_meta T d (sid s0 l)) T) /\
  (forall o, fmo c 0 <= o -> (l = 0 -> o < fmo c (max_num_files c)) -> im s' S o = im s S o).

Lemma dl_swapped : swapped T D l (sid s0 l) D'.
Proof.
  unfold swapped, sid, D'. fold S D. destruct (Z.eqb_spec l 0) as [He|Hne]; [|by right; right].
  left. split_and!; [done| |done]. pose proof (st_blocks c Hc s0 Hr). fold S in H. unfold is_u32. lia.
Qed.

Lemma dl_bm_typed : block_meta_typed (del_block_meta T d (sid s0 l)).
Proof. exact (del_bm_typed c Hc T A D Hwf HA A D' d (sid s0 l) HA Hd Hud dl_swapped Hmax). Qed.

(** The end of the compaction: the block table and the flush. *)
Lemma wp_compact_tail s :
  staging c s0 s -> dsc s = D' -> erased c (im s) S 8 (fmo c 0 - 8) ->
  wp (r ← attempt (etss_flash_fs_mblock_update_scratch_block_meta l (del_block_meta T d (sid s0 l)));
      match r with
      | Err err => etss_flash_fs_mblock_set_data_scratch (sid s0 l) l;; raise err
      | Ok _ => if negb (l =? ETSS_LOGICAL_DBLOCK0) then ops_flush (sid s0 l) else mret tt
      end) s
    (stages c s0 X (fun _ s' => upto (within S 8 (fmo c 0 - 8)) s s' /\
       bm_table c (im s') S (put_block S l (del_block_meta T d (sid s0 l)) T))).
Proof.
  intros Hst HD He. apply wp_bind, wp_attempt. eapply wp_mono.
  { apply (wp_st_update_bms c Hc s0 Hr s Hst X l _ dl_l dl_bm_typed He). }
  intros [[]|e] s1 [Hst1 Hr1].
  - destruct Hr1 as [Hup1 HT]. destruct (negb _); [|by apply wp_stages_ret].
    eapply wp_mono; [apply (wp_ops_flush c)|].
    { rewrite (staging_cfg c s0 s1 Hst1). apply Hr. }
    intros r s2 [Hup2 Hr2]. split; [by eapply staging_nowhere|].
    destruct r as [[]|e]; [|left; destruct Hr2 as [[=]|Hsick]; by eapply staging_sick].
    split; [transitivity s1; [done|by apply upto_any]|].
    eapply bm_table_upto; [exact Hup2|by intros ? _ []|done].
  - apply wp_bind. eapply wp_mono; [by apply (wp_st_set_scratch c Hc s0 Hr s1 Hst1 X _ _ (fun _ _ => True))|].
    intros [[]|e'] s2 [Hst2 Hr2]; (split; [done|]); [|done]. by destruct Hr1 as [?|[]]; left.
Qed.

Lemma wp_compact s acc :
  upto (within S (fmo c 0) (32 * max_num_files c)) s0 s -> span_ok c T d (max_num_files c) acc ->
  wp (etss_flash_fs_dblock_compact_block l (max_size (tf T d)) acc.1 dst acc.2) s
    (stages c s0 X (fun _ s' => compacted_state s s')).
Proof.
  intros Hup Hsp. pose proof dl_ranges as (H1 & H2 & H3 & H4 & H5 & H6).
  pose proof (span_final c Hc T A D Hwf HA d Hd Hud Hmax acc Hsp) as [Hnbr Hsrc].
  assert (0 <= acc.1) as Hsrc0.
  { destruct Hsp as (_ & _ & [->|(j & Hj & _ & ->)]); [lia|].
    destruct (wf_fm_typed _ _ _ _ Hwf j Hj) as (_ & [? _] & _). done. }
  assert (staging c s0 s) as Hst by (eapply staging_upto; [apply staging_refl|exact Hup|apply loop_region]).
  unfold etss_flash_fs_dblock_compact_block.
  eapply wp_stages; [by apply (wp_st_read_bm c Hc s0 Hr s Hst X l dl_l)|].
  intros bm s1 Hst1 [-> Hup1]. fold T. apply wp_bind.
  assert (upto (within S (fmo c 0) (32 * max_num_files c)) s0 s1) as Hup01.
  { transitivity s; [done|by apply upto_any]. }
  assert (dsc s1 = D) as HD1 by (unfold dsc; by rewrite (upto_ctx _ _ _ Hup01)).
  apply (wp_cur_scratch_id c Hc s0 Hr l s1); [done..|].
  cbn [phy_id data_start set_free_size]. fold p. fold ds.
  apply (wp_compact_data s1 acc.1 acc.2 Hup01 Hnbr Hsrc Hsrc0
    (fun _ => _ ← etss_flash_fs_mblock_set_data_scratch p l; _)).
  intros s2 Hst2 Hup2 HD2 Hdata.
  eapply wp_stages; [apply (wp_st_set_scratch c Hc s0 Hr s2 Hst2 X p l
    (fun _ s' => fs_env s' = fs_env s2 /\ dsc s' = D')); intros s' _ He Hds'; split; [done|]|].
  { unfold D'. rewrite Hds', HD2. done. }
  intros [] s3 Hst3 [He3 HD3]. assert (im s3 = im s2) as Him3 by (unfold im; by rewrite He3).
  (* the table region of the scratch block is still erased *)
  assert (forall o, (o < fmo c 0 \/ fmo c 0 <= o) -> (l = 0 -> o < fmo c (max_num_files c)) ->
    im s3 S o = im s S o) as Hkeep.
  { intros o _ Ho. rewrite Him3, (upto_im _ _ _ _ _ Hup2), (upto_nowhere s s1); [done..|].
    unfold within, sid. fold S D. pose proof (st_blocks c Hc s0 Hr) as Hb. fold S in Hb.
    destruct (Z.eqb_spec l 0) as [Hl0|Hl0]; [specialize (Ho Hl0); specialize (H6 Hl0); lia|].
    pose proof (wf_D_range c Hc T A D Hwf HA l dl_l Hl0). lia. }
  eapply wp_mono; [apply (wp_compact_tail s3 Hst3 HD3)|].
  - intros o Ho. pose proof (files_range c Hc). rewrite Hkeep by (unfold fmo in *; lia).
    rewrite (upto_im _ _ _ _ _ Hup) by (unfold within; lia). apply (ry_scr _ _ Hr).
    pose proof (metadata_fits c Hc). unfold fmo in *. lia.
  - intros [[]|e] s4 [Hst4 Hr4]; (split; [done|]); [|done]. destruct Hr4 as [Hup4 HT].
    pose proof (fmo_8 c Hc 0 ltac:(lia)). pose proof (files_range c Hc).
    split_and!; [unfold dsc; rewrite (upto_ctx _ _ _ Hup4); exact HD3| |done|].
    + assert (forall o, ds <= o -> im s4 (sid s0 l) o = im s2 (sid s0 l) o) as Hs.
      { intros o Ho. rewrite (upto_im _ _ _ _ _ Hup4), Him3; [done|].
        unfold within, sid. fold S D. pose proof (st_blocks c Hc s0 Hr) as Hb. fold S in Hb.
        destruct (Z.eqb_spec l 0) as [Hl0|Hl0].
        - specialize (H6 Hl0). unfold fmo in *. lia.
        - pose proof (wf_D_range c Hc T A D Hwf HA l dl_l Hl0). lia. }
      destruct Hdata as [Ha Hb]. split; intros o Ho; rewrite Hs by lia; auto.
    + intros o Ho Hl0. rewrite (upto_im _ _ _ _ _ Hup4) by (unfold within; lia). apply Hkeep; [by right|done].
Qed.

(** ** The new tables and their data *)

Let T' : tables := del_tables S d (sid s0 l) T.

(** The staging is complete. *)
Definition deletion_staged s : Prop :=
  staging c s0 s /\ dsc s = D' /\ tables_equiv c T' (tables_at c (im s) S) /\
  compact_data (im s) /\
  (l <> 0 -> forall o, data_start (tb T 0) <= o < used_end c (tb T 0) -> im s S o = im s0 A o).

Lemma dl_wf : wf c T' S D'.
Proof.
  apply (wf_del c Hc T A D Hwf HA S D' d (sid s0 l)); [|done|done|apply dl_swapped|done].
  pose proof (st_blocks c Hc s0 Hr) as Hb. fold S in Hb. lia.
Qed.

Lemma dl_phy j : phy_id (tb T' j) = if j =? 0 then S else if j =? l then sid s0 l else phy_id (tb T j).
Proof. apply put_phy. Qed.

Lemma dl_compacted s : deletion_staged s -> compacted c T S d (sid s0 l) (im s0) (im s).
Proof.
  intros (Hst & _ & _ & [Hlow Hhigh] & Hmig) i Hi Hne Hu o Ho.
  destruct (wf_file_in c Hc T A D Hwf HA i Hi Hu) as [Hfi Hli].
  pose proof (wf_file_range c Hc T A D Hwf HA i Hi Hu) as (H1 & H2 & _). cbv zeta in H1, H2.
  change (tf (del_tables S d (sid s0 l) T) i) with (del_file_meta T d i).
  unfold lb_byte. fold T'. rewrite dl_phy.
  destruct (Z.eqb_spec (lblock (tf T i)) l) as [Hl|Hl].
  - assert ((if lblock (tf T i) =? 0 then S else sid s0 l) = sid s0 l) as ->.
    { unfold sid. fold S D. rewrite Hl. by destruct (l =? 0). }
    rewrite Hl in *. fold p. fold ds in H1. fold uend in H2.
    destruct (del_meta_cases c Hc T A D Hwf HA A d 0 HA Hd Hud i Hi Hne)
      as [(_ & Hge & _ & ->)|[Hna ->]].
    + cbn [data_idx set_file_data_idx]. fold dend in Hge.
      replace (o - _) with (dst + (o - dend)) by (unfold dst, dend; lia).
      rewrite Hhigh by lia. f_equal. lia.
    + rewrite Z.sub_diag, Z.sub_0_r. apply Hlow.
      destruct (wf_disjoint c Hc T A D Hwf HA i d Hi Hd Hne Hu Hud Hl) as [?|Hge]; [unfold dst; lia|].
      exfalso. apply Hna. split; [done|]. lia.
  - rewrite (del_other c Hc T A D Hwf HA A d 0 HA Hd Hud i Hne); [|intros [(_ & _ & ?) _]; done|done].
    rewrite Z.sub_diag, Z.sub_0_r.
    destruct (Z.eqb_spec (lblock (tf T i)) 0) as [H0|H0].
    + rewrite H0 in *. rewrite Hmig by (done || lia). by rewrite (wf_phy0 _ _ _ _ Hwf).
    + by apply (st_live c Hc s0 Hr s Hst).
Qed.

Let v : gmap (list Z) afile := ready_view c s0.
Definition del_view : gmap (list Z) afile :=
  if live (tf T d) then delete (id (tf T d)) (ready_view c s0) else ready_view c s0.

Lemma dl_view s : deletion_staged s -> disk_view c (im s) S = del_view.
Proof.
  intros Hds. pose proof (dl_compacted s Hds) as Hcp. destruct Hds as (_ & _ & HE & _).
  pose proof (st_blocks c Hc s0 Hr) as Hb. fold S A in Hb.
  transitivity (view c (im s) T').
  - symmetry. apply (view_equiv c _ _ S D' _ _ Hc); [lia|by symmetry| |done].
    eapply wf_equiv; [|exact HE|apply dl_wf]. pose proof (nact_range c Hc). lia.
  - unfold del_view. destruct (live (tf T d)) eqn:Hl.
    + by apply (view_del_live c Hc T A D Hwf HA S D' d (sid s0 l) ltac:(lia) Hd Hud dl_swapped Hmax).
    + by apply (view_del_flagged c Hc T A D Hwf HA S D' d (sid s0 l) ltac:(lia) Hd Hud dl_swapped Hmax).
Qed.

Lemma dl_D_u32 : is_u32 D'.
Proof.
  unfold D'. destruct (l =? 0).
  - unfold D, dsc. rewrite (ry_hdr _ _ Hr). apply dec_header_typed, rd_Forall. intros o. apply img_u8.
  - apply (wf_bm_typed _ _ _ _ Hwf l dl_l).
Qed.

(** ** The whole deletion *)

Lemma dl_staged s1 s2 s3 acc :
  staging c s0 s3 -> loop_inv (max_num_files c) s1 -> span_ok c T d (max_num_files c) acc ->
  compacted_state s1 s2 ->
  upto (if l =? 0 then nowhere else
        within S (data_start (tb T 0)) (used_end c (tb T 0) - data_start (tb T 0))) s2 s3 ->
  (l <> 0 -> forall o, data_start (tb T 0) <= o < used_end c (tb T 0) -> im s3 S o = im s0 A o) ->
  deletion_staged s3.
Proof.
  intros Hst (Hup & Hz & Hdone & _) Hsp (HD & [Hlow Hhigh] & HT & Hkeep) Hup3 Hmig.
  pose proof (nact_range c Hc) as Hn. pose proof (files_range c Hc) as Hf.
  assert (in_block_table c 0) as H0 by (unfold in_block_table; lia).
  pose proof (wf_bm_facts c Hc T A D Hwf HA 0 H0) as (_ & _ & _ & _ & Hds0).
  rewrite Z.eqb_refl in Hds0. pose proof (st_blocks c Hc s0 Hr) as Hb. fold A S in Hb.
  assert (forall o, o < fmo c (max_num_files c) -> im s3 S o = im s2 S o) as H32.
  { intros o Ho. apply (upto_im _ _ _ _ _ Hup3). destruct (l =? 0); unfold within, nowhere; [tauto|lia]. }
  assert (forall o, ds <= o -> im s3 (sid s0 l) o = im s2 (sid s0 l) o) as H32d.
  { intros o Ho. apply (upto_im _ _ _ _ _ Hup3). unfold sid, within. fold S D.
    destruct (Z.eqb_spec l 0) as [Hl|Hl]; [intros []|]. pose proof (wf_D_range c Hc T A D Hwf HA l dl_l Hl). lia. }
  pose proof dl_ranges as (? & ? & ? & _).
  split; [done|]. split; [unfold dsc; rewrite (upto_ctx _ _ _ Hup3); exact HD|]. split; [split|split; [split|done]].
  - intros j Hj. transitivity (bm_at (im s2) S j); [symmetry; exact (HT j Hj)|].
    symmetry. apply bm_copied. intros o Ho. apply H32.
    unfold in_block_table, bmo, fmo in *. lia.
  - intros i Hi. transitivity (fm_at c (im s1) S i).
    + change (tf T' i) with (del_file_meta T d i). destruct (decide (i = d)) as [->|Hne].
      * rewrite Hz. unfold del_file_meta. by rewrite Z.eqb_refl.
      * symmetry. apply Hdone; [unfold in_file_table in Hi; lia|done].
    + symmetry. apply fm_copied. unfold in_file_table in Hi. intros o Ho.
      rewrite H32 by (unfold fmo in *; lia). apply Hkeep; unfold fmo in *; lia.
  - intros o Ho. rewrite H32d by lia. by apply Hlow.
  - intros i Hi. rewrite H32d by lia. by apply Hhigh.
Qed.

Theorem wp_delete_idx :
  (forall i, in_file_table c i -> flagged (tf T i) = true -> i = d) ->
  wp (etss_flash_fs_delete_idx d) s0 (fun r s' =>
    (mounts c (im s') (ready_view c s0) \/ mounts c (im s') del_view) /\
    (ok c s0 -> ok c s') /\
    match r with
    | Ok _ => settled c s' /\ ready_view c s' = del_view
    | Err _ => sick c s0
    end).
Proof.
  intros Hfl. pose proof (st_blocks c Hc s0 Hr) as Hb. fold A S in Hb.
  pose proof (files_range c Hc) as Hf. pose proof (nact_range c Hc) as Hn.
  pose proof (metadata_fits c Hc) as Hfit.
  assert (forall (e : Z) s', staging c s0 s' -> sick c s0 \/ False ->
    (mounts c (im s') (ready_view c s0) \/ mounts c (im s') del_view) /\
    (ok c s0 -> ok c s') /\ sick c s0) as Herr.
  { intros e s' Hst [Hs|[]]. split; [left; by apply (st_mounts c Hc s0 Hr)|]. split; [apply Hst|done]. }
  unfold etss_flash_fs_delete_idx. apply wp_bind, wp_get_ctx.
  pose proof (staging_refl c s0) as Hst0.
  eapply wp_seq; [by apply (wp_st_read_fm c Hc s0 Hr s0 Hst0 X d)|by intros e s' [??]; apply (Herr e)|].
  intros m s1 [Hst1 [-> Hup1]]. fold T.
  assert ((etss_utils_validate_fid (id (tf T d)) =? PSA_SUCCESS) = true) as ->.
  { unfold unused in Hud. by apply negb_false_iff in Hud. }
  assert (forall j, 0 <= j < max_num_files c -> erased c (im s1) S (fmo c j) 32) as He1.
  { intros j Hj o Ho. rewrite (upto_nowhere s0 s1) by done. apply (ry_scr _ _ Hr). unfold fmo in *. lia. }
  eapply wp_seq; [apply (wp_st_update_fm c Hc s0 Hr s1 Hst1 X d _ Hd zero_typed), He1; done|
    by intros e s' [??]; apply (Herr e)|].
  intros [] s2 [Hst2 [Hup2 Hz]]. assert (loop_inv 0 s2) as Hinv2.
  { split_and!; [|done|lia|].
    - transitivity s1; [by apply upto_any|].
      eapply upto_within_sub; [exact Hup2|unfold in_file_table, fmo in *; lia..].
    - intros j Hj Hjd. eapply upto_erased; [exact Hup2| |by apply He1].
      intros o Ho [_ ?]. unfold fmo in *. lia. }
  assert (cfg (fs_ctx s0) = c) as -> by apply Hr.
  eapply wp_seq; [by apply (wp_delete_loop s2)|by intros e s' [??]; apply (Herr e)|].
  intros [src nbr] s3 [Hst3 [Hinv3 Hsp]].
  pose proof Hinv3 as (Hup3 & _).
  eapply wp_seq; [by apply (wp_compact s3 (src, nbr))|by intros e s' [??]; apply (Herr e)|].
  intros [] s4 [Hst4 Hcs].
  eapply (wp_seq _ _ _ (stages c s0 X (fun _ s' => deletion_staged s'))); [|by intros e s' [??]; apply (Herr e)|].
  { fold l. unfold ETSS_LOGICAL_DBLOCK0. destruct (decide (l = 0)) as [Hl|Hl].
    - rewrite (proj2 (Z.eqb_eq l 0) Hl). cbn [negb].
      apply wp_stages_ret; [done|]. eapply dl_staged; [done..| |done].
      by rewrite (proj2 (Z.eqb_eq l 0) Hl).
    - rewrite (proj2 (Z.eqb_neq l 0) Hl). cbn [negb]. apply wp_stages_or. eapply wp_mono; [apply (wp_st_migrate c Hc s0 Hr s4 Hst4 X)|].
      + destruct Hcs as (_ & _ & _ & Hkeep).
        assert (in_block_table c 0) as H0 by (unfold in_block_table; lia).
        pose proof (wf_bm_facts c Hc T A D Hwf HA 0 H0) as (_ & _ & _ & _ & Hds0).
        pose proof (wf_used_end c Hc T A D Hwf HA 0 H0) as Hue. rewrite Z.eqb_refl in Hds0.
        intros o Ho. fold T in Ho. rewrite Hkeep by (unfold fmo in *; lia || done).
        rewrite (upto_im _ _ _ _ _ Hup3) by (unfold within, fmo in *; lia). apply (ry_scr _ _ Hr). unfold fmo in *. lia.
      + intros [[]|e] s5 [Hst5 Hr5]; (split; [done|]); [|done]. destruct Hr5 as [Hup5 Hmig].
        eapply dl_staged; [done..| |done]. by rewrite (proj2 (Z.eqb_neq l 0) Hl). }
  intros [] s5 [Hst5 Hds]. pose proof Hds as (_ & HD5 & HE5 & _).
  eapply wp_mono.
  { apply (wp_finalize c Hc s5 A S); [|exact (proj1 (st_disk c Hc s0 Hr s5 Hst5))]. eapply (st_prepared c Hc s0 Hr); [done|done|exact HE5|apply dl_wf|apply dl_D_u32]. }
  rewrite (dl_view s5 Hds). intros r s6 (Hm & Hh & Hr6).
  destruct (st_disk c Hc s0 Hr s5 Hst5) as [_ Hv5]. fold A in Hv5. rewrite Hv5 in Hm.
  split; [done|]. split; [intros Hok; apply Hh, Hst5, Hok|].
  destruct r as [[]|e]; [|by eapply staging_sick].
  destruct Hr6 as (Hr6 & Hv6 & Ha6 & _ & HE6). split; [split; [done|]|done].
  rewrite Ha6. eapply clean_equiv; [exact HE6|]. eapply clean_equiv; [exact HE5|].
  apply (del_clean c Hc T A D Hwf HA S D' d (sid s0 l)); [lia|done|done|apply dl_swapped|done|done].
Qed.
End Delete.
