(* ===== verification/FsWrite.v ===== *)
(** * Writing a file

    [etss_flash_fs_file_write]: lookup, reservation, data, metadata, commit
    and, when a file is replaced by one of another size, the deletion of the
    old one. *)
From Stdlib Require Import ZArith Lia.
From stdpp Require Import base list numbers gmap options.
From S2P Require Import Prelude EtssUtils FlashFsDefs Mblock Dblock FlashFs MblockSpec.
From S2P Require Import FsReads FsTables FsUpdate FsDisk FsStage FsCommit FsRead FsStaged.
From S2P Require Import FsDelete.

#[local] Set Default Proof Using "All".

(** ** The contents after a write *)

(** [size] bytes of [data] at [offset] of a file that held [base]; the flash
    is programmed up to [asize], the size rounded up to the program unit, and
    bytes of the file behind that come out erased. *)
Definition written (erase : Z) (base data : list Z) (offset size asize : Z) : list Z :=
  if size =? 0 then base
  else (fun k => if k <? offset then nth_byte base k
                 else if k <? offset + asize then nth_byte data (k - offset) else erase)
       <$> seqZ 0 (Z.max (Z.of_nat (length base)) (offset + size)).

(** Appending, or overwriting to the end: the usual meaning of a write. *)
Lemma written_to_end erase base data offset size asize :
  0 < size <= asize -> 0 <= offset <= Z.of_nat (length base) ->
  Z.of_nat (length base) <= offset + size -> asize <= Z.of_nat (length data) ->
  written erase base data offset size asize
  = take (Z.to_nat offset) base ++ take (Z.to_nat size) data.
Proof.
  intros Hs Ho Hl Hd. unfold written. destruct (Z.eqb_spec size 0); [lia|].
  rewrite Z.max_r by lia. rewrite seqZ_app, fmap_app by lia. f_equal.
  - apply list_eq. intros i. rewrite list_lookup_fmap.
    destruct (decide (i < Z.to_nat offset)%nat) as [Hi|Hi].
    + rewrite lookup_take_lt, lookup_seqZ_lt by lia. simpl.
      destruct (Z.ltb_spec (0 + Z.of_nat i) offset); [|lia].
      destruct (lookup_lt_is_Some_2 base i ltac:(lia)) as [x Hx]. rewrite Hx. f_equal.
      unfold nth_byte. rewrite Z.add_0_l, Nat2Z.id. by apply nth_lookup_Some.
    + rewrite lookup_seqZ_ge by lia. by rewrite lookup_take_ge by lia.
  - apply list_eq. intros i. rewrite list_lookup_fmap.
    destruct (decide (i < Z.to_nat size)%nat) as [Hi|Hi].
    + rewrite lookup_take_lt, lookup_seqZ_lt by lia. simpl.
      destruct (Z.ltb_spec (0 + offset + Z.of_nat i) offset); [lia|].
      destruct (Z.ltb_spec (0 + offset + Z.of_nat i) (offset + asize)); [|lia].
      destruct (lookup_lt_is_Some_2 data i ltac:(lia)) as [x Hx]. rewrite Hx. f_equal.
      unfold nth_byte. replace (Z.to_nat _) with i by lia. by apply nth_lookup_Some.
    + rewrite lookup_seqZ_ge by lia. by rewrite lookup_take_ge by lia.
Qed.

Lemma set_cur_size_same m : set_file_cur_size (cur_size m) m = m.
Proof. by destruct m. Qed.
Lemma set_phy_id_same bm : set_phy_id (phy_id bm) bm = bm.
Proof. by destruct bm. Qed.

(** ** The new table entry *)

Section Target.
Context (c : etss_flash_fs_config_t) (Hc : cfg_ok c).
Context (T : tables) (A D S : Z) (Hwf : wf c T A D) (HAS : (A = 0 /\ S = 1) \/ (A = 1 /\ S = 0)).
Context (Hcl : clean c T) (fid : list Z).

(** [rep]: the file to be replaced, marked for deletion. *)
Definition base_tables (rep : option Z) : tables :=
  match rep with None => T | Some o => put_file o (flag_meta (tf T o)) T end.

Record target (rep : option Z) (k : Z) (m : etss_file_meta_t) (bm : etss_block_meta_t) : Prop := {
  tg_k : in_file_table c k;
  tg_l : in_block_table c (lblock m);
  tg_typed : file_meta_typed m;
  tg_fits : file_meta_fits c m;
  tg_used : unused m = false;
  tg_flag : flagged m = false;
  tg_id : id m = fid;
  tg_bm : block_meta_typed bm;
  tg_phy : phy_id bm = phy_id (tb T (lblock m));
  tg_ds : data_start bm = data_start (tb T (lblock m));
  tg_fs : data_start bm + free_size bm <= block_size c;
  tg_place :
    (unused (tf T k) = true /\ free_size bm = free_size (tb T (lblock m)) - max_size m /\
     data_idx m = used_end c (tb T (lblock m)) /\ cur_size m = 0) \/
    (unused (tf T k) = false /\ lblock (tf T k) = lblock m /\
     free_size bm = free_size (tb T (lblock m)) /\ data_idx m = data_idx (tf T k) /\
     max_size m = max_size (tf T k) /\ id (tf T k) = fid /\ rep = None /\
     0 <= cur_size m <= cur_size (tf T k));
  tg_uniq : forall i, in_file_table c i -> i <> k -> live (tf (base_tables rep) i) = true ->
    id (tf T i) <> fid;
  tg_rep : forall o, rep = Some o ->
    in_file_table c o /\ o <> k /\ unused (tf T o) = false /\ id (tf T o) = fid /\
    0 < max_size (tf T o)
}.

Context (rep : option Z) (k : Z) (m : etss_file_meta_t) (bm : etss_block_meta_t).
Context (Htg : target rep k m bm).
(** The size, and where the data went. *)
Context (n p D' : Z) (Hn : cur_size m <= n <= max_size m) (Hsw : swapped T D (lblock m) p D').

Let l := lblock m.
Let m' := set_file_cur_size n m.
Let bm' := set_phy_id p bm.
Let T1 := base_tables rep.
Let T' := put_file k m' (put_block S l bm' T1).

Lemma tg_A : A = 0 \/ A = 1.
Proof using HAS. clear - HAS. lia. Qed.

Lemma base_wf : wf c T1 A D.
Proof.
  unfold T1, base_tables. destruct rep as [o|]; [|done].
  destruct (tg_rep _ _ _ _ Htg o eq_refl) as (Ho & _ & Hu & _ & Hp). by apply wf_flag.
Qed.

Lemma base_tf i : rep <> Some i -> tf T1 i = tf T i.
Proof.
  intros Hi. unfold T1, base_tables. destruct rep as [o|]; [|done]. simpl.
  destruct (Z.eqb_spec i o); [congruence|done].
Qed.

Lemma base_tb j : tb T1 j = tb T j.
Proof. unfold T1, base_tables. by destruct rep. Qed.

Lemma base_same i : unused (tf T1 i) = unused (tf T i) /\ lblock (tf T1 i) = lblock (tf T i) /\
  data_idx (tf T1 i) = data_idx (tf T i) /\ max_size (tf T1 i) = max_size (tf T i) /\
  id (tf T1 i) = id (tf T i).
Proof.
  unfold T1, base_tables. destruct rep as [o|]; [|done]. simpl.
  destruct (Z.eqb_spec i o) as [->|]; done.
Qed.

Lemma base_k : tf T1 k = tf T k.
Proof. apply base_tf. intros Hr. by destruct (tg_rep _ _ _ _ Htg k Hr) as (_ & ? & _). Qed.

Lemma m'_typed : file_meta_typed m'.
Proof.
  destruct (tg_typed _ _ _ _ Htg) as (? & ? & [? ?] & [? ?] & ?).
  split; [done|]. split; [done|]. split; [|done]. split; simpl; lia.
Qed.

Lemma m'_fits : file_meta_fits c m'.
Proof.
  destruct (tg_fits _ _ _ _ Htg) as [? Hf]. split; [done|]. intros Hu. destruct (Hf Hu) as (? & _ & ?).
  split_and!; [done|simpl; lia|apply H1..].
Qed.

Lemma bm'_typed : block_meta_typed bm'.
Proof.
  destruct (tg_bm _ _ _ _ Htg) as (_ & ? & ?). split; [|done]. simpl.
  destruct Hsw as [(_ & ? & _)|[[-> _]|(Hl0 & -> & _)]]; [done| |].
  - rewrite <- (tg_phy _ _ _ _ Htg). apply (tg_bm _ _ _ _ Htg).
  - pose proof (wf_D_range c Hc T A D Hwf tg_A _ (tg_l _ _ _ _ Htg) Hl0).
    pose proof (ct_num _ (co_typed _ Hc)). unfold is_u16, is_u32 in *. lia.
Qed.

Lemma target_wf : wf c T' S D'.
Proof.
  pose proof tg_A as HA. pose proof base_wf as Hwf1. pose proof (tg_l _ _ _ _ Htg) as Hl.
  assert (swapped T1 D l (phy_id bm') D') as Hsw1.
  { unfold swapped. rewrite base_tb. exact Hsw. }
  pose proof base_k as Hk.
  apply (wf_put c Hc T1 A D Hwf1 HA S D' l k bm' m').
  - clear - HAS. lia.
  - done.
  - apply (tg_k _ _ _ _ Htg).
  - done.
  - apply bm'_typed.
  - rewrite base_tb. apply (tg_ds _ _ _ _ Htg).
  - apply (tg_fs _ _ _ _ Htg).
  - apply m'_typed.
  - apply m'_fits.
  - apply (tg_used _ _ _ _ Htg).
  - done.
  - rewrite Hk. destruct (tg_place _ _ _ _ Htg) as [(? & _)|(_ & ? & _)]; auto.
  - destruct (tg_place _ _ _ _ Htg) as [(? & ? & ? & _)|(? & ? & ? & ? & ? & _)].
    + apply (layout_new c Hc T1 A D Hwf1 HA); try (by rewrite ?base_tb, ?Hk); try apply Htg; try done.
      rewrite base_tb. apply (tg_ds _ _ _ _ Htg).
    + apply (layout_same c Hc T1 A D Hwf1 HA); try (by rewrite ?base_tb, ?Hk); try apply Htg; try done.
      rewrite base_tb. apply (tg_ds _ _ _ _ Htg).
  - intros i Hi Hne _ Hl'. destruct (base_same i) as (_ & _ & _ & _ & ->).
    rewrite (tg_id _ _ _ _ Htg : id m' = fid). by apply (tg_uniq _ _ _ _ Htg).
  - apply (tg_flag _ _ _ _ Htg).
Qed.

Lemma target_flagged i : in_file_table c i -> flagged (tf T' i) = true -> rep = Some i.
Proof.
  intros Hi. unfold T'; simpl. destruct (Z.eqb_spec i k) as [->|Hne].
  { intros Hf. by rewrite (tg_flag _ _ _ _ Htg : flagged m' = false) in Hf. }
  intros Hf. unfold T1, base_tables in *. destruct rep as [o|]; [|by rewrite Hcl in Hf].
  simpl in Hf. destruct (Z.eqb_spec i o) as [->|]; [done|]. by rewrite Hcl in Hf.
Qed.

(** Before the new file is put, the view at [fid] does not matter. *)
Lemma base_view f fl : <[fid := fl]> (view c f T1) = <[fid := fl]> (view c f T).
Proof.
  pose proof base_wf as Hwf1. apply map_eq. intros fid'.
  destruct (decide (fid' = fid)) as [->|Hne]; [by rewrite !lookup_insert_eq|].
  rewrite !lookup_insert_ne by done.
  assert (forall i, in_file_table c i -> id (tf T i) = fid' -> tf T1 i = tf T i) as Htf.
  { intros i Hi Hid. apply base_tf. intros Hr. destruct (tg_rep _ _ _ _ Htg i Hr) as (_ & _ & _ & ? & _). congruence. }
  apply view_eq_at; [by eapply wf_to_uniq|by eapply wf_to_uniq|..].
  - intros i Hi Hl Hid. rewrite Htf by done. split_and!; [done..|].
    apply (file_of_ext _ _ _ _ _ _ 0); [done..|lia|]. intros o _. unfold lb_byte. by rewrite base_tb, Z.sub_0_r.
  - intros i Hi Hl Hid. destruct (base_same i) as (_ & _ & _ & _ & Hid'). rewrite Hid' in Hid.
    rewrite Htf in Hl by done. done.
Qed.

Lemma tg_idx : data_start bm <= data_idx m.
Proof.
  pose proof tg_A as HA. rewrite (tg_ds _ _ _ _ Htg).
  destruct (tg_place _ _ _ _ Htg) as [(_ & _ & -> & _)|(Hu & Hlk & _ & -> & _)].
  - by apply (wf_used_end c Hc T A D Hwf HA), Htg.
  - rewrite <- Hlk. by apply (wf_file_range c Hc T A D Hwf HA), Hu; apply Htg.
Qed.

Context (f f' : image) (data : list Z) (off sz asz : Z).
Context (Hsz : n = if sz =? 0 then cur_size m else Z.max (cur_size m) (off + sz)).
Context (Hoff : sz <> 0 -> 0 <= off <= cur_size m /\ 0 <= asz /\ off + asz <= max_size m).

(** What the data phase leaves in the blocks. *)
Definition own_data : Prop :=
  let q := phy_id (tb T' l) in
  let p0 := phy_id (tb T l) in
  if sz =? 0 then
    forall o, data_start bm <= o < used_end c (tb T l) -> f' q o = f p0 o
  else
    (forall o, data_start bm <= o < data_idx m + off -> f' q o = f p0 o) /\
    (forall i, 0 <= i < asz -> f' q (data_idx m + off + i) = nth_byte data i) /\
    (forall o, data_idx m + off + asz <= o < data_idx m + max_size m -> f' q o = erase_val c) /\
    (forall o, data_idx m + max_size m <= o < used_end c (tb T l) -> f' q o = f p0 o).

Definition other_data : Prop := forall j o, in_block_table c j -> j <> l ->
  data_start (tb T j) <= o < used_end c (tb T j) ->
  f' (phy_id (tb T' j)) o = f (phy_id (tb T j)) o.

Context (Hown : own_data) (Hother : other_data).

(** The bytes of the other files are kept. *)
Lemma target_kept : kept_but c T1 f f' T' k.
Proof.
  pose proof tg_A as HA. intros i Hi Hne Hu o Ho. destruct (base_same i) as (Hu' & Hlb & Hdi & Hms & _).
  rewrite Hu' in Hu. rewrite Hlb. rewrite Hdi, Hms in Ho. unfold lb_byte. rewrite base_tb.
  destruct (wf_file_in c Hc T A D Hwf HA i Hi Hu) as [Hfi Hli].
  pose proof (wf_file_range c Hc T A D Hwf HA i Hi Hu) as (H1 & H2 & _). cbv zeta in H1, H2.
  destruct (decide (lblock (tf T i) = l)) as [Hl|Hl]; [|apply Hother; [done|done|lia]].
  rewrite Hl in *. unfold own_data in Hown.
  pose proof (tg_ds _ _ _ _ Htg) as Hdseq. fold l in Hdseq.
  assert (data_idx (tf T i) + max_size (tf T i) <= data_idx m \/ data_idx m + max_size m <= data_idx (tf T i)) as Hdis.
  { destruct (tg_place _ _ _ _ Htg) as [(_ & _ & -> & _)|(Huk & Hlk & _ & -> & -> & _)]; [left; done|].
    apply (wf_disjoint c Hc T A D Hwf HA); [done|apply Htg|done|done|done|by rewrite Hl]. }
  pose proof tg_idx. destruct (Z.eqb_spec sz 0) as [Hz|Hz]; [apply Hown; lia|].
  destruct Hown as (Ha & _ & _ & Hd), (Hoff Hz) as (? & ? & ?).
  destruct Hdis; [apply Ha; lia|apply Hd; lia].
Qed.

Definition new_file : afile :=
  {| af_data := written (erase_val c) (rd (lb_byte f T l) (data_idx m) (cur_size m)) data off sz asz;
     af_max := max_size m; af_flags := flags m |}.

Lemma target_file : file_of f' T' m' = new_file.
Proof.
  pose proof tg_A as HA. pose proof tg_idx as Hidx. unfold file_of, new_file; simpl. f_equal.
  change (lblock m) with l. unfold written. unfold own_data in Hown. rewrite rd_length.
  assert (0 <= cur_size m) as Hc0 by (destruct (tg_typed _ _ _ _ Htg) as (_ & _ & [? _] & _); done).
  destruct (Z.eqb_spec sz 0) as [Hz|Hz].
  - rewrite Hsz. apply rd_ext. intros o Ho. apply Hown.
    destruct (tg_place _ _ _ _ Htg) as [(_ & _ & _ & ?)|(Huk & Hlk & _ & Hdi & _ & _ & _ & ?)]; [lia|].
    pose proof (wf_file_range c Hc T A D Hwf HA k (tg_k _ _ _ _ Htg) Huk) as (_ & H2 & H3). cbv zeta in H2, H3.
    rewrite Hlk in H2. fold l in H2. lia.
  - destruct Hown as (Ha & Hb & He & _), (Hoff Hz) as (? & ? & ?). rewrite Z2Nat.id by lia. rewrite <- Hsz.
    unfold rd at 1. apply list_eq. intros i. rewrite !list_lookup_fmap.
    destruct (decide (i < Z.to_nat n)%nat) as [Hi|Hi]; [|by rewrite !lookup_seqZ_ge by lia].
    rewrite !lookup_seqZ_lt by lia. simpl. f_equal. rewrite Z.add_0_l.
    destruct (Z.ltb_spec (Z.of_nat i) off).
    + rewrite nth_byte_rd by lia. apply Ha. lia.
    + destruct (Z.ltb_spec (Z.of_nat i) (off + asz)).
      * replace (data_idx m + Z.of_nat i) with (data_idx m + off + (Z.of_nat i - off)) by lia. apply Hb. lia.
      * apply He. lia.
Qed.

Lemma target_view : view c f' T' = <[fid := new_file]> (view c f T).
Proof.
  rewrite <- base_view, <- target_file, <- (tg_id _ _ _ _ Htg).
  apply (view_put c Hc T1 A D base_wf tg_A f f' S D' l k bm' m').
  - apply target_wf.
  - apply Htg.
  - unfold live. by rewrite (tg_used _ _ _ _ Htg : unused m' = false), (tg_flag _ _ _ _ Htg : flagged m' = false).
  - rewrite base_k. intros Hl%live_used. simpl. rewrite (tg_id _ _ _ _ Htg).
    destruct (tg_place _ _ _ _ Htg) as [(? & _)|(_ & _ & _ & _ & _ & ? & _)]; [congruence|done].
  - apply target_kept.
Qed.
End Target.

(** ** The requests *)

(** Preconditions on the caller's arguments (types, and the contract that the
    buffer holds the data rounded up to the program unit). *)
Record write_args (c : etss_flash_fs_config_t) (fid : list Z)
    (flgs max_sz data_size offset : Z) (data : list Z) : Prop := {
  wa_fid : fid_ok fid;
  wa_flags : is_u32 flgs;
  wa_max : is_u32 max_sz;
  wa_size : is_u32 data_size;
  wa_off : is_u32 offset;
  wa_data : Forall is_u8 data;
  wa_align : data_size <= ETSS_UTILS_ALIGN data_size (program_unit c);
  wa_len : ETSS_UTILS_ALIGN data_size (program_unit c) <= Z.of_nat (length data)
}.

Lemma land_u32 x y : is_u32 x -> 0 <= y -> is_u32 (Z.land x y).
Proof.
  unfold is_u32. intros Hx Hy. assert (0 <= Z.land x y) by (apply Z.land_nonneg; lia).
  split; [done|]. destruct (decide (Z.land x y = 0)) as [->|]; [lia|].
  change 4294967296 with (2 ^ 32). apply Z.log2_lt_pow2; [lia|].
  pose proof (Z.log2_land x y ltac:(lia) Hy) as Hl.
  assert (Z.log2 x < 32); [|lia]. destruct (decide (x = 0)) as [->|]; [done|]. apply Z.log2_lt_pow2; lia.
Qed.

Lemma align_u32 x a : is_u32 (ETSS_UTILS_ALIGN x a).
Proof. apply land_u32; [apply w32_range|apply w32_range]. Qed.

Definition truncates (flgs : Z) : bool := negb (Z.land flgs ETSS_FLASH_FS_FLAG_TRUNCATE =? 0).

Section Request.
Context (c : etss_flash_fs_config_t).
Context (v : gmap (list Z) afile) (fid : list Z) (flgs max_sz data_size offset : Z) (data : list Z).

Let amax := ETSS_UTILS_ALIGN max_sz (program_unit c).
Let asize := ETSS_UTILS_ALIGN data_size (program_unit c).

(** The file the data goes to: its contents so far, its maximum size and
    its flags. *)
Definition write_base : list Z * Z * Z :=
  match v !! fid with
  | Some F => if truncates flgs then ([], amax, flgs) else (af_data F, af_max F, af_flags F)
  | None => ([], amax, flgs)
  end.

(** What [etss_flash_fs_file_write] promises. *)
Definition write_spec : gmap (list Z) afile :=
  let '(base, mx, fl) := write_base in
  <[fid := {| af_data := written (erase_val c) base data offset data_size asize;
              af_max := mx; af_flags := fl |}]> v.

(** An existing file makes room for one of another size. *)
Definition replaces : bool :=
  match v !! fid with Some F => truncates flgs && negb (af_max F =? amax) | None => false end.

Definition creates : bool := match v !! fid with Some _ => replaces | None => true end.

(** The requests the file system accepts, [room] and [index] saying that a
    block and an entry are free. *)
Definition acceptable (room : Z -> Prop) (index : bool -> Prop) : Prop :=
  Z.land flgs ETSS_FLASH_FS_INTERNAL_FLAGS_MASK = 0 /\
  (v !! fid = None -> Z.land flgs ETSS_FLASH_FS_FLAG_CREATE <> 0) /\
  (creates = true -> amax <= max_file_size c /\ room amax /\ index replaces) /\
  (data_size <> 0 ->
     ETSS_UTILS_IS_ALIGNED offset (program_unit c) = true /\
     offset <= Z.of_nat (length write_base.1.1) /\ offset + asize <= write_base.1.2).
End Request.

(** ** Lookup and reservation *)

Section Write.
Context {E : Type} {FO : FlashOps E} (c : etss_flash_fs_config_t) {FL : FlashLaws E c}.
Context (Hc : cfg_ok c) (s0 : fs_state E) (Hset : settled c s0).
Context (fid : list Z) (flgs max_sz data_size offset : Z) (data : list Z).
Context (Hargs : write_args c fid flgs max_sz data_size offset data).
(** A file that is to be replaced has room for some data. *)
Context (Hroom : forall F, ready_view c s0 !! fid = Some F ->
  replaces c (ready_view c s0) fid flgs max_sz = true -> 0 < af_max F).
Implicit Types s : fs_state E.

Let A := act s0.
Let S := scr s0.
Let D := dsc s0.
Let T := tables_at c (im s0) (act s0).
Let v := ready_view c s0.
Let amax := ETSS_UTILS_ALIGN max_sz (program_unit c).
Let asize := ETSS_UTILS_ALIGN data_size (program_unit c).
Let Hr : ready c s0 := proj1 Hset.
Let Hwf : wf c T A D := st_wf c Hc s0 Hr.
Let HAS : (A = 0 /\ S = 1) \/ (A = 1 /\ S = 0) := st_blocks c Hc s0 Hr.

(** Room and entries, as the reservation looks for them. *)
Definition accepted : Prop :=
  acceptable c v fid flgs max_sz data_size offset
    (fun size => exists l, find_room c s0 size = Some l)
    (fun spare => exists i, find_free c s0 spare = Some i).

(** What a refusal leaves behind: the device as it was, unless the flag of
    the file to be replaced is already staged. *)
Definition spared s : Prop := replaces c v fid flgs max_sz = true \/ upto nowhere s0 s.
Let X s : Prop := ~ accepted /\ spared s.

Lemma ww_A : A = 0 \/ A = 1.
Proof using Hset Hc. clear Hargs. unfold A. destruct (ready_act c s0 Hr); auto. Qed.

(** Entry [i] is the file. *)
Definition found_at (i : Z) : Prop :=
  in_file_table c i /\ unused (tf T i) = false /\ live (tf T i) = true /\ id (tf T i) = fid /\
  v !! fid = Some (file_of (im s0) T (tf T i)).

Inductive looked : Z -> Z -> etss_file_meta_t -> fs_state E -> Prop :=
| lk_create s : upto nowhere s0 s -> v !! fid = None ->
    Z.land flgs ETSS_FLASH_FS_FLAG_CREATE <> 0 ->
    looked ETSS_METADATA_INVALID_INDEX ETSS_METADATA_INVALID_INDEX zero_file_meta s
| lk_same i s : upto nowhere s0 s -> found_at i -> truncates flgs = false ->
    looked i i (tf T i) s
| lk_truncate i s : upto nowhere s0 s -> found_at i -> truncates flgs = true ->
    max_size (tf T i) = amax ->
    looked i i (set_file_flags flgs (set_file_cur_size 0 (tf T i))) s
| lk_replace i s : upto (within S (fmo c i) 32) s0 s -> fm_at c (im s) S i = flag_meta (tf T i) ->
    found_at i -> truncates flgs = true -> max_size (tf T i) <> amax ->
    looked i ETSS_METADATA_INVALID_INDEX (flag_meta (tf T i)) s.

Lemma wp_write_lookup :
  wp (file_write_lookup fid flgs amax) s0
    (stages c s0 X (fun r s' => looked r.1.1 r.1.2 r.2 s')).
Proof.
  pose proof (find_id_view c Hc s0 fid (settled_readable c s0 Hset) (wa_fid _ _ _ _ _ _ _ Hargs)) as Hf.
  unfold file_write_lookup. apply wp_bind, wp_attempt.
  eapply wp_mono; [apply (wp_get_file_idx c Hc); [apply Hr|by apply (ready_files c s0)]|].
  intros r s1 [Hup1 Hr1]. assert (staging c s0 s1) as Hst1.
  { eapply staging_nowhere; [apply staging_refl|done]. }
  destruct Hr1 as [-> | [Hsick ->]].
  2: { change (PSA_ERROR_GENERIC_ERROR =? PSA_ERROR_DOES_NOT_EXIST) with false. cbn iota.
       apply wp_raise. split; [done|by left]. }
  destruct (find_id c s0 fid) as [i|]; cbn [found].
  - destruct Hf as (Hi & Hu & Hl & Hid & Hv).
    assert (found_at i) as Hfound by done.
    eapply wp_stages; [apply wp_stages_or, (wp_st_read_fm c Hc s0 Hr s1 Hst1 X i Hi)|].
    intros m s2 Hst2 [-> Hup2]. fold T. assert (upto nowhere s0 s2) as Hup by by transitivity s1.
    fold (truncates flgs). destruct (truncates flgs) eqn:Htr; [|apply wp_stages_ret; [done|by apply lk_same]].
    destruct (Z.eqb_spec (max_size (tf T i)) amax) as [Hmx|Hmx];
      [apply wp_stages_ret; [done|by apply lk_truncate]|].
    eapply wp_stages.
    { apply wp_stages_or, (wp_st_update_fm c Hc s0 Hr s2 Hst2 X i (flag_meta (tf T i)) Hi).
      - by apply flag_typed, (wf_fm_typed _ _ _ _ Hwf).
      - intros o Ho. rewrite (upto_nowhere s0 s2) by done. apply (ry_scr _ _ Hr).
        pose proof (metadata_fits c Hc). pose proof (nact_range c Hc). unfold in_file_table, fmo in *. lia. }
    intros [] s3 Hst3 [Hup3 Hfm]. apply wp_stages_ret; [done|]. apply lk_replace; [|done..].
    transitivity s2; [by apply upto_any|done].
  - change (PSA_ERROR_DOES_NOT_EXIST =? PSA_ERROR_DOES_NOT_EXIST) with true. cbn iota.
    destruct (Z.eqb_spec (Z.land flgs ETSS_FLASH_FS_FLAG_CREATE) 0) as [Hcr|Hcr].
    + apply wp_stages_err; [done|]. split; [intros (_ & Hcreate & _); by apply Hcreate|].
      right. exact Hup1.
    + apply wp_stages_ret; [done|]. by apply lk_create.
Qed.

(** The plan of the write, after the reservation. *)
Record planned (rep : option Z) (k : Z) (m : etss_file_meta_t) (bm : etss_block_meta_t) s : Prop := {
  pl_target : target c T fid rep k m bm;
  pl_base : (rd (lb_byte (im s0) T (lblock m)) (data_idx m) (cur_size m), max_size m, flags m)
            = write_base c v fid flgs max_sz;
  pl_cur : 0 <= cur_size m <= max_size m;
  pl_rep : rep <> None <-> replaces c v fid flgs max_sz = true;
  pl_upto : upto (match rep with None => nowhere | Some o => within S (fmo c o) 32 end) s0 s;
  pl_flag : forall o, rep = Some o -> fm_at c (im s) S o = flag_meta (tf T o);
  pl_accept : (v !! fid = None -> Z.land flgs ETSS_FLASH_FS_FLAG_CREATE <> 0) /\
    (creates c v fid flgs max_sz = true -> amax <= max_file_size c /\
       (exists l, find_room c s0 amax = Some l) /\
       (exists i, find_free c s0 (replaces c v fid flgs max_sz) = Some i))
}.

Definition old_code (rep : option Z) (old k : Z) : Prop :=
  match rep with
  | Some o => old = o
  | None => old = ETSS_METADATA_INVALID_INDEX \/ old = k
  end.

Lemma fid_unused m : id m = fid -> unused m = false.
Proof. intros Hid. eapply fid_used; [apply Hargs|done]. Qed.

Hypothesis Hint : Z.land flgs ETSS_FLASH_FS_INTERNAL_FLAGS_MASK = 0.

Lemma flgs_not_flagged m : flags m = flgs -> flagged m = false.
Proof.
  intros Hm. unfold flagged. rewrite Hm. apply negb_false_iff, Z.eqb_eq.
  change ETSS_FLASH_FS_FLAG_DELETE
    with (Z.land ETSS_FLASH_FS_INTERNAL_FLAGS_MASK ETSS_FLASH_FS_FLAG_DELETE).
  by rewrite Z.land_assoc, Hint, Z.land_0_l.
Qed.

(** A file that keeps its entry. *)
Lemma target_reuse i m :
  found_at i -> lblock m = lblock (tf T i) -> data_idx m = data_idx (tf T i) ->
  max_size m = max_size (tf T i) -> id m = id (tf T i) -> 0 <= cur_size m <= cur_size (tf T i) ->
  is_u32 (flags m) -> flagged m = false ->
  target c T fid None i m (tb T (lblock m)).
Proof.
  intros (Hi & Hu & Hl & Hid & Hv) Hlb Hdi Hms Him Hcs Hfu Hfl. pose proof ww_A as HA.
  destruct (wf_file_in c Hc T A D Hwf HA i Hi Hu) as [_ Hlt]. rewrite <- Hlb in Hlt.
  destruct (wf_fm_typed _ _ _ _ Hwf i Hi) as (? & ? & [? ?] & ? & _ & ? & ?).
  pose proof (wf_fm_fits c Hc T A D Hwf HA i Hi) as [? Hft]. destruct (Hft Hu) as (? & ? & ? & ?).
  pose proof (wf_bm_facts c Hc T A D Hwf HA _ Hlt) as (_ & _ & _ & ? & _).
  split; try done.
  - unfold file_meta_typed. rewrite Hlb, Hdi, Hms, Him. split_and!; try done; unfold is_u32; lia.
  - unfold file_meta_fits. rewrite Hlb, Hdi, Hms. split; [done|]. intros _. split_and!; done || lia.
  - apply fid_unused. congruence.
  - congruence.
  - by apply (wf_bm_typed _ _ _ _ Hwf).
  - right. split_and!; done || lia.
  - intros j Hj Hne Hlj Hidj. apply Hne. apply (wf_uniq _ _ _ _ Hwf); [done..|congruence].
Qed.

(** A file that gets a new entry, and maybe replaces [o]. *)
Lemma target_fresh rep k l :
  first_index (fun l => free_size (tb T l) >=? amax) (Z.to_nat (nact c)) 0 = Some l ->
  in_file_table c k -> unused (tf T k) = true -> amax <= max_file_size c ->
  match rep with
  | Some o => found_at o /\ replaces c v fid flgs max_sz = true
  | None => v !! fid = None
  end ->
  let m := new_file_meta l (sub32 (block_size c) (free_size (tb T l))) amax flgs fid in
  target c T fid rep k m (set_free_size (sub32 (free_size (tb T l)) amax) (tb T l)).
Proof.
  intros (Hl & Hfree & _)%first_index_some Hk Huk Hmax Hrep. pose proof ww_A as HA.
  pose proof (nact_range c Hc) as Hn. pose proof (align_u32 max_sz (program_unit c)) as Ham. fold amax in Ham.
  assert (in_block_table c l) as Hlt by (unfold in_block_table; lia).
  pose proof (wf_bm_facts c Hc T A D Hwf HA l Hlt) as (? & ? & ? & ? & Hds).
  pose proof (wf_bm_typed _ _ _ _ Hwf l Hlt) as (? & ? & [_ ?]). pose proof (block_size_range c Hc).
  apply Z.geb_le in Hfree. unfold is_u32 in Ham. rewrite !sub32_small by lia.
  destruct (wa_fid _ _ _ _ _ _ _ Hargs) as (Hlen & Hu8 & _).
  split; cbn [lblock data_idx cur_size max_size flags id new_file_meta phy_id data_start free_size set_free_size]; try done.
  - unfold file_meta_typed, is_u32; cbn [lblock data_idx cur_size max_size flags id new_file_meta phy_id data_start free_size set_free_size].
    split_and!; try done; try lia; apply Hargs.
  - split; cbn [lblock data_idx cur_size max_size flags id new_file_meta phy_id data_start free_size set_free_size]; [lia|]. intros _. split_and!; try lia. intros ->. rewrite Z.eqb_refl in Hds. lia.
  - by apply fid_unused.
  - by apply flgs_not_flagged.
  - split_and!; [done..|]. unfold is_u32; cbn [free_size set_free_size]. lia.
  - lia.
  - left. split_and!; done || lia.
  - intros i Hi Hne Hli Hid. destruct rep as [o|].
    + change (live (if i =? o then flag_meta (tf T o) else tf T i) = true) in Hli.
      destruct (Z.eqb_spec i o) as [->|Hio].
      { unfold live in Hli. by rewrite flagged_flag, andb_false_r in Hli. }
      destruct Hrep as [(Ho & _ & Hlo & Hido & _) _]. apply Hio, (wf_uniq _ _ _ _ Hwf); congruence.
    + apply (proj1 (view_lookup_none c (im s0) T fid (wf_to_uniq _ _ _ _ Hwf)) Hrep i); done.
  - intros o ->. destruct Hrep as [(Ho & Huo & _ & Hido & Hvo) Hrp]. split_and!; [done| |done|done|].
    + intros ->. congruence.
    + exact (Hroom _ Hvo Hrp).
Qed.

(** The searches see the tables of [s0]. *)
Lemma st_find_room s size : staging c s0 s ->
  find_room c s size = first_index (fun l => free_size (tb T l) >=? size) (Z.to_nat (nact c)) 0.
Proof.
  intros Hst. unfold find_room. apply first_index_ext. intros l Hl.
  rewrite (staging_act c s0 s Hst). by rewrite (st_bm c Hc s0 Hr s Hst l).
Qed.

Lemma st_find_free s u : staging c s0 s -> find_free c s u = find_free c s0 u.
Proof.
  intros Hst. unfold find_free. rewrite (staging_act c s0 s Hst). generalize (nfiles c) 0 u.
  induction n as [|n IH]; intros i b; cbn [free_index]; [done|].
  rewrite (st_fm c Hc s0 Hr s Hst i). by rewrite !IH.
Qed.

Lemma replaces_found i : found_at i -> replaces c v fid flgs max_sz
  = truncates flgs && negb (max_size (tf T i) =? amax).
Proof. intros (_ & _ & _ & _ & Hv). unfold replaces. by rewrite Hv. Qed.

Lemma found_not_invalid i : found_at i -> i <> ETSS_METADATA_INVALID_INDEX.
Proof.
  intros [Hi _] ->. pose proof (files_range c Hc). unfold in_file_table, ETSS_METADATA_INVALID_INDEX in Hi. lia.
Qed.

(** A new entry, for a new file or one that replaces [rep]. *)
Lemma wp_reserve_fresh rep old m s :
  staging c s0 s ->
  match rep with
  | Some o => found_at o /\ replaces c v fid flgs max_sz = true /\ old = o /\
              fm_at c (im s) S o = flag_meta (tf T o) /\ truncates flgs = true
  | None => v !! fid = None /\ old = ETSS_METADATA_INVALID_INDEX /\
            Z.land flgs ETSS_FLASH_FS_FLAG_CREATE <> 0
  end ->
  upto (match rep with None => nowhere | Some o => within S (fmo c o) 32 end) s0 s ->
  wp (file_write_reserve fid flgs amax old ETSS_METADATA_INVALID_INDEX m) s
    (stages c s0 X (fun r s' => planned rep r.1.1 r.1.2 r.2 s' /\ old_code rep old r.1.1)).
Proof.
  intros Hst Hrep Hup.
  assert (forall s', upto nowhere s s' -> spared s') as Hsp.
  { intros s' Hup'. destruct rep as [o|]; [by left; apply Hrep|right; by transitivity s]. }
  unfold file_write_reserve. apply wp_bind, wp_get_ctx. rewrite Z.eqb_refl.
  assert (creates c v fid flgs max_sz = true) as Hcr.
  { unfold creates. destruct rep as [o|]; [|by destruct Hrep as [-> _]].
    destruct Hrep as ((_ & _ & _ & _ & Hv) & Hrp & _). by rewrite Hv. }
  assert (cfg (fs_ctx s) = c) as -> by (rewrite (staging_cfg c s0 s Hst); apply Hr).
  destruct (Z.gtb_spec amax (max_file_size c)) as [Hgt|Hle].
  { apply wp_stages_err; [done|]. split; [|by apply Hsp].
    intros (_ & _ & Hacc & _). destruct (Hacc Hcr). fold amax in H. lia. }
  assert (negb (old =? ETSS_METADATA_INVALID_INDEX) = replaces c v fid flgs max_sz) as ->.
  { destruct rep as [o|].
    - destruct Hrep as (Hf & -> & -> & _). by rewrite (proj2 (Z.eqb_neq _ _) (found_not_invalid o Hf)).
    - destruct Hrep as (Hv & -> & _). unfold replaces. by rewrite Hv. }
  eapply wp_mono.
  { apply (wp_reserve_file c Hc); 
      [exact (proj1 (st_env c Hc s0 Hr s Hst))|by apply (st_bms c Hc s0 Hr)|by apply (st_files c Hc s0 Hr)]. }
  intros r s1 [Hup1 Hr1]. assert (staging c s0 s1) as Hst1 by by eapply staging_nowhere.
  destruct Hr1 as [-> | [Hsick ->]]; [|split; [done|left; exact (staging_sick c s0 s Hst Hsick)]].
  unfold reserved. rewrite (st_find_free s) by done. pose proof (st_find_room s amax Hst) as Hrm.
  pose proof (st_find_room s0 amax (staging_refl c s0)) as Hrm0.
  destruct (find_room c s amax) as [l|] eqn:Hl.
  2: { split; [done|right; split; [|by apply Hsp]].
       intros (_ & _ & Hacc & _). destruct (Hacc Hcr) as (_ & [l Hl'] & _). fold amax in Hl'. congruence. }
  destruct (find_free c s0 (replaces c v fid flgs max_sz)) as [k|] eqn:Hk.
  2: { split; [done|right; split; [|by apply Hsp]].
       intros (_ & _ & Hacc & _). destruct (Hacc Hcr) as (_ & _ & [k Hk']). congruence. }
  split; [done|]. pose proof (find_free_range c Hc s0 _ k Hk) as Hkr.
  pose proof Hk as Hk0. apply free_index_some in Hk as [_ Hku]. change (unused (tf T k) = true) in Hku.
  assert (reservation c s fid amax flgs l = reservation c s0 fid amax flgs l) as ->.
  { unfold reservation. rewrite (staging_act c s0 s Hst). by rewrite (st_bm c Hc s0 Hr s Hst l). }
  symmetry in Hrm. cbn [fst snd reservation]. change (bm_at (im s0) (act s0) l) with (tb T l).
  split.
  - split.
    + apply target_fresh; [done..|]. destruct rep; [split|]; apply Hrep.
    + cbn [cur_size max_size flags new_file_meta]. rewrite rd_nonpos by lia.
      unfold write_base. destruct rep as [o|].
      * destruct Hrep as ((_ & _ & _ & _ & ->) & _ & _ & _ & ->). done.
      * by destruct Hrep as [-> _].
    + cbn. pose proof (align_u32 max_sz (program_unit c)) as Ham. unfold is_u32 in Ham. fold amax in Ham. lia.
    + destruct rep as [o|]; [destruct Hrep as (_ & -> & _); done|].
      destruct Hrep as (Hv & _). unfold replaces. rewrite Hv. done.
    + transitivity s; [done|by apply upto_any].
    + intros o ->. rewrite (nw_fm c s s1) by done. apply Hrep.
    + split; [|intros _; split; [done|split; [|by exists k]]].
      * intros Hv. destruct rep as [o|]; [|apply Hrep]. destruct Hrep as ((_ & _ & _ & _ & Hv') & _). congruence.
      * exists l. congruence.
  - destruct rep; [apply Hrep|left; apply Hrep].
Qed.

Lemma wp_write_reserve old new m s :
  staging c s0 s -> looked old new m s ->
  wp (file_write_reserve fid flgs amax old new m) s
    (stages c s0 X (fun r s' => exists rep,
       planned rep r.1.1 r.1.2 r.2 s' /\ old_code rep old r.1.1)).
Proof.
  intros Hst Hlk.
  assert (forall rep r s', planned rep r.1.1 r.1.2 r.2 s' /\ old_code rep old r.1.1 ->
    exists rep, planned rep r.1.1 r.1.2 r.2 s' /\ old_code rep old r.1.1) as Hex by eauto.
  assert (forall i m, found_at i -> upto nowhere s0 s -> old = i -> replaces c v fid flgs max_sz = false ->
    target c T fid None i m (tb T (lblock m)) ->
    (rd (lb_byte (im s0) T (lblock m)) (data_idx m) (cur_size m), max_size m, flags m)
      = write_base c v fid flgs max_sz -> 0 <= cur_size m <= max_size m ->
    wp (file_write_reserve fid flgs amax old i m) s
      (stages c s0 X (fun r s' => exists rep,
         planned rep r.1.1 r.1.2 r.2 s' /\ old_code rep old r.1.1))) as Hreuse.
  { clear Hlk. intros i m0 Hf Hup -> Hrp Htg Hb Hcs. unfold file_write_reserve. apply wp_bind, wp_get_ctx.
    rewrite (proj2 (Z.eqb_neq _ _) (found_not_invalid i Hf)).
    eapply wp_stages; [apply wp_stages_or, (wp_st_read_bm c Hc s0 Hr s Hst X); apply Htg|].
    intros bm s1 Hst1 [-> Hup1]. apply wp_stages_ret; [done|]. exists None. split; [|by right].
    split; [done|done|done| |by transitivity s|done|]; [by rewrite Hrp|].
    destruct Hf as (_ & _ & _ & _ & Hvf). split; [intros Hv; congruence|].
    unfold creates. rewrite Hvf, Hrp. done. }
  pose proof ww_A as HA.
  destruct Hlk as [s Hup Hv Hcr|i s Hup Hf Htr|i s Hup Hf Htr Hmx|i s Hup Hfm Hf Htr Hmx].
  - eapply wp_mono; [by apply (wp_reserve_fresh None)|].
    intros [a|e] s1 [? ?]; (split; [done|]); eauto.
  - pose proof Hf as (Hi & Hu & Hl & Hid & Hv).
    pose proof (wf_file_range c Hc T A D Hwf HA i Hi Hu) as (_ & _ & Hcs). cbv zeta in Hcs.
    apply Hreuse; [done..| | | |done].
    + rewrite (replaces_found i Hf), Htr. done.
    + apply (target_reuse i); try done; [lia|by apply (wf_fm_typed _ _ _ _ Hwf i Hi)|by apply Hset].
    + unfold write_base. rewrite Hv, Htr. done.
  - pose proof Hf as (Hi & Hu & Hl & Hid & Hv).
    pose proof (wf_file_range c Hc T A D Hwf HA i Hi Hu) as (_ & _ & Hcs). cbv zeta in Hcs.
    apply Hreuse; [done..| | | |].
    + rewrite (replaces_found i Hf), Htr, Hmx, Z.eqb_refl. done.
    + apply (target_reuse i); try done;
        [cbn [cur_size set_file_flags set_file_cur_size]; lia|apply Hargs|by apply flgs_not_flagged].
    + unfold write_base. rewrite Hv, Htr. cbn [cur_size max_size flags set_file_flags set_file_cur_size].
      by rewrite rd_nonpos, Hmx by lia.
    + cbn [cur_size max_size set_file_flags set_file_cur_size]. lia.
  - eapply wp_mono; [apply (wp_reserve_fresh (Some i)); [done| |done]|].
    + split_and!; try done. rewrite (replaces_found i Hf), Htr. simpl. apply negb_true_iff, Z.eqb_neq. done.
    + intros [a|e] s1 [? ?]; (split; [done|]); eauto.
Qed.

(** ** The data *)

Section Data.
Context (rep : option Z) (k : Z) (m : etss_file_meta_t) (bm : etss_block_meta_t).

Let l := lblock m.
Let q := sid s0 l.

(** The new size of the file, and where its block is afterwards. *)
Definition new_size : Z :=
  if data_size =? 0 then cur_size m else Z.max (cur_size m) (offset + data_size).
Definition new_phy : Z := if data_size =? 0 then phy_id bm else q.
Definition new_scratch : Z :=
  if (data_size =? 0) || (l =? 0) then D else phy_id (tb T l).

Definition data_written (f : image) : Prop :=
  (forall o, data_start bm <= o < data_idx m + offset -> f q o = im s0 (phy_id (tb T l)) o) /\
  (forall i, 0 <= i < asize -> f q (data_idx m + offset + i) = nth_byte data i) /\
  (forall o, data_idx m + offset + asize <= o < data_idx m + max_size m -> f q o = erase_val c) /\
  (forall o, data_idx m + max_size m <= o < used_end c bm -> f q o = im s0 (phy_id (tb T l)) o).

Definition data_post s s' : Prop :=
  staging c s0 s' /\ dsc s' = new_scratch /\
  (forall b o, ~ (data_size <> 0 /\ b = q /\ data_start bm <= o) -> im s' b o = im s b o) /\
  (data_size <> 0 -> data_written (im s') /\
    offset <= cur_size m /\ offset + asize <= max_size m /\
    ETSS_UTILS_IS_ALIGNED offset (program_unit c) = true).

Context (s : fs_state E) (Hpl : planned rep k m bm s) (Hst : staging c s0 s).

Let Htg : target c T fid rep k m bm := pl_target _ _ _ _ _ Hpl.

Lemma pl_loop : upto (within S (fmo c 0) (32 * max_num_files c)) s0 s.
Proof.
  pose proof (pl_upto _ _ _ _ _ Hpl) as Hup. pose proof (tg_rep _ _ _ _ _ _ _ Htg) as Hrep.
  destruct rep as [o|]; [|by apply upto_any]. destruct (Hrep o eq_refl) as (Ho & _).
  eapply upto_within_sub; [exact Hup|unfold in_file_table, fmo in *; lia..].
Qed.

Lemma pl_spared : spared s.
Proof.
  pose proof (pl_upto _ _ _ _ _ Hpl) as Hup. pose proof (proj1 (pl_rep _ _ _ _ _ Hpl)) as Hrp.
  destruct rep as [o|]; [left; by apply Hrp|by right].
Qed.

Lemma pl_ranges :
  0 <= data_start bm <= data_idx m /\ data_idx m + max_size m <= used_end c bm /\
  used_end c bm <= block_size c /\ used_end c (tb T l) <= used_end c bm /\
  block_size c < 4294967296 /\ 0 <= cur_size m <= max_size m /\ 0 <= free_size bm /\
  (l = 0 -> data_start bm = fmo c (max_num_files c)) /\ data_start bm = data_start (tb T l).
Proof.
  pose proof ww_A as HA. pose proof (tg_idx c Hc T A D S Hwf HAS (proj2 Hset) fid rep k m bm Htg
    (cur_size m) (phy_id bm) D ltac:(pose proof (pl_cur _ _ _ _ _ Hpl); lia)
    ltac:(right; left; split; [apply Htg|done])) as Hidx.
  pose proof (wf_bm_facts c Hc T A D Hwf HA l (tg_l _ _ _ _ _ _ _ Htg)) as (_ & H4 & H6 & H7 & H5).
  pose proof (block_size_range c Hc). pose proof (pl_cur _ _ _ _ _ Hpl).
  destruct (tg_bm _ _ _ _ _ _ _ Htg) as (_ & [? ?] & [? ?]). pose proof (tg_fs _ _ _ _ _ _ _ Htg).
  pose proof (tg_ds _ _ _ _ _ _ _ Htg) as Hds. fold l in Hds.
  assert (l = 0 -> data_start bm = fmo c (max_num_files c)).
  { intros Hl. rewrite Hds, H5, Hl. done. }
  unfold used_end. destruct (tg_place _ _ _ _ _ _ _ Htg) as [(_ & Hf & Hi & _)|(Hu & Hlk & Hf & Hi & Hm & _)];
    fold l in Hf; unfold used_end in *.
  - fold l in Hi. split_and!; lia || done.
  - pose proof (wf_file_range c Hc T A D Hwf HA k (tg_k _ _ _ _ _ _ _ Htg) Hu) as (_ & Hrg & _). cbv zeta in Hrg.
    unfold used_end in Hrg. rewrite Hlk in Hrg. fold l in Hrg. split_and!; lia || done.
Qed.

Lemma base_length : cur_size m = Z.of_nat (length (write_base c v fid flgs max_sz).1.1) /\
  max_size m = (write_base c v fid flgs max_sz).1.2.
Proof.
  pose proof (pl_base _ _ _ _ _ Hpl) as Hb. pose proof (pl_cur _ _ _ _ _ Hpl).
  rewrite <- Hb. cbn [fst snd]. rewrite rd_length. lia.
Qed.

(** The first copy and the data themselves. *)
Lemma wp_dblock_write :
  data_size <> 0 -> offset <= cur_size m -> offset + asize <= max_size m ->
  wp (etss_flash_fs_dblock_write_file bm m offset asize data) s
    (stages c s0 X (fun _ s' => upto (within q (data_start bm) (used_end c bm - data_start bm)) s s' /\
       dsc s' = D /\ data_written (im s'))).
Proof.
  intros Hz Hoff Hmx. pose proof pl_ranges as (H1 & H2 & H3 & H4 & H5 & H6 & H7 & H8 & H9).
  pose proof (tg_l _ _ _ _ _ _ _ Htg) as Hl. fold l in Hl.
  pose proof (wa_off _ _ _ _ _ _ _ Hargs) as [Ho0 _]. pose proof (wa_size _ _ _ _ _ _ _ Hargs) as [Hs0 _].
  pose proof (wa_align _ _ _ _ _ _ _ Hargs) as Hal. pose proof (wa_len _ _ _ _ _ _ _ Hargs) as Hlen.
  fold asize in Hal, Hlen.
  pose proof (sid_erased c Hc s0 Hr l s Hl pl_loop) as He. fold T in He. rewrite <- H9 in He. fold q in He.
  pose proof (fmo_8 c Hc (max_num_files c) ltac:(apply (files_range c Hc))) as H10.
  assert (dsc s = D) as HD by (unfold dsc; by rewrite (upto_ctx _ _ _ pl_loop)).
  unfold etss_flash_fs_dblock_write_file. apply wp_bind.
  apply (wp_cur_scratch_id c Hc s0 Hr); [done..|]. fold l. fold q.
  rewrite (add32_small (data_idx m) offset), sub32_small by (unfold used_end in *; lia).
  rewrite (tg_phy _ _ _ _ _ _ _ Htg). fold l.
  eapply wp_stages.
  { apply (wp_st_copy c Hc s0 Hr s Hst X l (data_start bm) (data_start bm)
      (data_idx m + offset - data_start bm) Hl); [lia..|].
    eapply erased_sub; [exact He|lia..]. }
  intros [] s1 Hst1 [Hup1 Hc1]. eapply wp_stages.
  { apply (wp_st_writes c Hc s0 Hr s1 Hst1 X _ (within q (data_idx m + offset) asize)).
    - apply wp_write; [|unfold in_block|exact Hlen|apply Hargs|].
      + rewrite (staging_cfg c s0 s1 Hst1). apply Hr.
      + destruct (sid_range c Hc s0 Hr l Hl) as [? _]. fold q in H. lia.
      + eapply upto_erased; [exact Hup1|intros o Ho [_ ?]; lia|].
        eapply erased_sub; [exact He|lia..].
    - intros b o. apply (area_sid c Hc s0 Hr l); [done|lia]. }
  intros [] s2 Hst2 [Hup2 Hdat]. apply wp_bind, wp_get_ctx.
  assert (cfg (fs_ctx s2) = c) as -> by (rewrite (staging_cfg c s0 s2 Hst2); apply Hr).
  rewrite add32_small, (sub32_small (block_size c)), sub32_small by (unfold used_end in *; lia).
  change (block_size c - free_size bm) with (used_end c bm).
  eapply wp_stages.
  { apply (wp_st_copy c Hc s0 Hr s2 Hst2 X l (data_idx m + max_size m) (data_idx m + max_size m)
      (used_end c bm - (data_idx m + max_size m)) Hl); [lia..|].
    eapply upto_erased; [exact Hup2|intros o Ho [_ ?]; lia|].
    eapply upto_erased; [exact Hup1|intros o Ho [_ ?]; lia|]. eapply erased_sub; [exact He|lia..]. }
  intros [] s3 Hst3 [Hup3 Hc3].
  assert (upto (within q (data_start bm) (used_end c bm - data_start bm)) s s3) as Hup.
  { transitivity s1; [|transitivity s2]; (eapply upto_within_sub; [eassumption|lia..]). }
  assert (data_written (im s3)) as Hw.
  { split_and!.
    - intros o Ho. rewrite (upto_im _ _ _ _ _ Hup3), (upto_im _ _ _ _ _ Hup2) by (unfold within; lia).
      specialize (Hc1 (o - data_start bm) ltac:(lia)).
      by replace (data_start bm + (o - data_start bm)) with o in Hc1 by lia.
    - intros i Hi. rewrite (upto_im _ _ _ _ _ Hup3) by (unfold within; lia). by apply Hdat.
    - intros o Ho. rewrite (upto_im _ _ _ _ _ Hup3), (upto_im _ _ _ _ _ Hup2),
        (upto_im _ _ _ _ _ Hup1) by (unfold within; lia). apply He. lia.
    - intros o Ho. specialize (Hc3 (o - (data_idx m + max_size m)) ltac:(lia)).
      by replace (data_idx m + max_size m + (o - (data_idx m + max_size m))) with o in Hc3 by lia. }
  assert (dsc s3 = D) as HD3 by (unfold dsc; by rewrite (upto_ctx _ _ _ Hup)).
  destruct (negb _); [|by apply wp_stages_ret].
  eapply wp_mono; [apply (wp_ops_flush c)|].
  { rewrite (staging_cfg c s0 s3 Hst3). apply Hr. }
  intros r s4 [Hup4 Hr4]. split; [by eapply staging_nowhere|].
  destruct r as [[]|e]; [|left; destruct Hr4 as [[=]|Hsick]; exact (staging_sick c s0 s3 Hst3 Hsick)].
  split; [transitivity s3; [done|by apply upto_any]|].
  split; [unfold dsc; by rewrite (upto_ctx _ _ _ Hup4)|].
  destruct Hw as (Ha & Hb & Hcc & Hd). split_and!; intros o Ho; rewrite (upto_nowhere s3 s4); auto.
Qed.

Lemma wp_aligned_data :
  data_size <> 0 ->
  wp (etss_flash_fs_file_write_aligned_data bm m offset data_size data) s
    (stages c s0 X (fun _ s' => upto (within q (data_start bm) (used_end c bm - data_start bm)) s s' /\
       dsc s' = D /\ data_written (im s') /\ offset <= cur_size m /\ offset + asize <= max_size m /\
       ETSS_UTILS_IS_ALIGNED offset (program_unit c) = true)).
Proof.
  intros Hz. destruct base_length as [Hbl Hmx].
  unfold etss_flash_fs_file_write_aligned_data. apply wp_bind, wp_get_ctx.
  assert (cfg (fs_ctx s) = c) as -> by (rewrite (staging_cfg c s0 s Hst); apply Hr).
  destruct (ETSS_UTILS_IS_ALIGNED offset (program_unit c)) eqn:Hal; cbn [negb].
  2: { apply wp_stages_err; [done|]. split; [|by apply pl_spared].
       intros (_ & _ & _ & Hacc). destruct (Hacc Hz) as (Hal' & _). congruence. }
  fold asize. destruct (Z.gtb_spec offset (cur_size m)) as [Hgt|Hle].
  { apply wp_stages_err; [done|]. split; [|by apply pl_spared].
    intros (_ & _ & _ & Hacc). destruct (Hacc Hz) as (_ & ? & _). lia. }
  pose proof (align_u32 data_size (program_unit c)) as Has. fold asize in Has.
  pose proof (contained_in_iff (max_size m) offset asize) as Hci.
  specialize (Hci ltac:(apply Htg) ltac:(apply Hargs) Has).
  destruct (Z.eqb_spec (etss_utils_check_contained_in (max_size m) offset asize) PSA_SUCCESS) as [Hin|Hout];
    cbn [negb].
  - apply Hci in Hin. eapply wp_mono; [by apply wp_dblock_write|].
    intros [[]|e] s' [Hst' Hr']; (split; [done|]); [|done]. destruct Hr' as (? & ? & ?). split_and!; done.
  - apply wp_stages_err; [done|]. split; [|by apply pl_spared].
    intros (_ & _ & _ & Hacc). destruct (Hacc Hz) as (_ & _ & Hle'). rewrite <- Hmx in Hle'. tauto.
Qed.

Lemma wp_write_data :
  wp (file_write_data m bm data_size offset data) s
    (stages c s0 X (fun r s' => r = (set_file_cur_size new_size m, set_phy_id new_phy bm) /\
       data_post s s')).
Proof.
  unfold file_write_data, new_size, new_phy, data_post, new_scratch.
  assert (dsc s = D) as HD by (unfold dsc; by rewrite (upto_ctx _ _ _ pl_loop)).
  destruct (Z.eqb_spec data_size 0) as [Hz|Hz]; cbn [negb orb].
  { apply wp_stages_ret; [done|]. split; [by rewrite set_cur_size_same, set_phy_id_same|].
    split_and!; [done..|]. lia. }
  pose proof pl_ranges as (H1 & H2 & H3 & H4 & H5 & H6 & H7 & H8 & H9).
  eapply wp_stages; [by apply wp_stages_or, wp_aligned_data|].
  intros [] s1 Hst1 (Hup1 & HD1 & Hw & Hoff & Hmx & Hal1).
  apply wp_bind. fold l. apply (wp_cur_scratch_id c Hc s0 Hr); [done..|]. fold q.
  pose proof (wa_off _ _ _ _ _ _ _ Hargs) as [Ho0 _]. pose proof (wa_size _ _ _ _ _ _ _ Hargs) as [Hs0 _].
  pose proof (wa_align _ _ _ _ _ _ _ Hargs) as Hal. fold asize in Hal.
  rewrite add32_small by lia.
  assert (lblock (if offset + data_size >? cur_size m then set_file_cur_size (offset + data_size) m else m) = l) as ->.
  { by destruct (_ >? _). }
  assert ((if offset + data_size >? cur_size m then set_file_cur_size (offset + data_size) m else m)
    = set_file_cur_size (cur_size m `max` (offset + data_size)) m) as ->.
  { destruct (Z.gtb_spec (offset + data_size) (cur_size m)); [by rewrite Z.max_r by lia|].
    rewrite Z.max_l by lia. by rewrite set_cur_size_same. }
  rewrite (tg_phy _ _ _ _ _ _ _ Htg). fold l.
  eapply wp_stages; [apply (wp_st_set_scratch c Hc s0 Hr s1 Hst1 X _ l
    (fun _ s' => fs_env s' = fs_env s1 /\ dsc s' = if l =? 0 then D else phy_id (tb T l)));
    intros s' _ He Hds'; split; [done|by rewrite Hds', HD1]|].
  intros [] s2 Hst2 [He2 HD2]. assert (im s2 = im s1) as Him by (unfold im; by rewrite He2).
  apply wp_stages_ret; [done|]. split; [done|]. split_and!; [done..| |].
  - intros b o Hno. rewrite Him. apply (upto_im _ _ _ _ _ Hup1). unfold within. lia.
  - intros _. by rewrite Him.
Qed.
End Data.

(** ** The metadata *)

(** A range of entries copied from the active block. *)
Lemma wp_st_cp i j s :
  staging c s0 s -> 0 <= i <= j -> j <= max_num_files c ->
  erased c (im s) S (fmo c i) (fmo c j - fmo c i) ->
  wp (etss_flash_fs_mblock_cp_file_meta i j) s
    (stages c s0 X (fun _ s' => upto (within S (fmo c i) (fmo c j - fmo c i)) s s' /\
       forall x, i <= x < j -> fm_at c (im s') S x = tf T x)).
Proof.
  intros Hst Hij Hj He. apply (wp_st_writes c Hc s0 Hr s Hst X).
  - eapply wp_writes_weaken; [apply (wp_cp_file_meta c Hc i j s A S (st_env c Hc s0 Hr s Hst)); done|done|].
    intros [] s' _ Hcp x Hx. etransitivity; [|exact (st_fm c Hc s0 Hr s Hst x)]. apply fm_copied.
    intros o Ho. apply Hcp. unfold fmo in *. lia.
  - intros b o. apply (area_S c Hc s0 Hr), (fmo_8 c Hc). lia.
Qed.

Lemma base_tf_ne rep x : rep <> Some x -> tf (base_tables T rep) x = tf T x.
Proof using Type.
  intros Hx. destruct rep as [o|]; [|done]. simpl. destruct (Z.eqb_spec x o); [congruence|done].
Qed.

(** An entry of the new table, kept by later writes elsewhere. *)
Lemma fm_keep R s s' x m : upto R s s' -> (forall o, fmo c x <= o < fmo c x + 32 -> ~ R S o) ->
  fm_at c (im s) S x = m -> fm_at c (im s') S x = m.
Proof.
  intros Hup HR <-. apply fm_copied. intros o Ho. apply (upto_im _ _ _ _ _ Hup). by apply HR.
Qed.

Lemma wp_write_metadata rep k m bm old s :
  staging c s0 s -> in_file_table c k -> in_block_table c (lblock m) ->
  file_meta_typed m -> block_meta_typed bm -> old_code rep old k ->
  (forall o, rep = Some o -> in_file_table c o /\ o <> k /\ fm_at c (im s) S o = flag_meta (tf T o)) ->
  erased c (im s) S 8 (fmo c 0 - 8) ->
  (forall x, in_file_table c x -> rep <> Some x -> erased c (im s) S (fmo c x) 32) ->
  wp (file_write_metadata m bm old k) s
    (stages c s0 X (fun _ s' => upto (within S 8 (fmo c (max_num_files c) - 8)) s s' /\
       tables_equiv c (put_file k m (put_block S (lblock m) bm (base_tables T rep)))
         (tables_at c (im s') S))).
Proof.
  intros Hst Hk Hl Hm Hbm Hold Hrep He8 He. pose proof (files_range c Hc) as Hf.
  pose proof (nact_range c Hc) as Hn. unfold in_file_table in Hk.
  assert (forall i j, 0 <= i <= j -> j <= max_num_files c -> (forall x, i <= x < j -> rep <> Some x) ->
    erased c (im s) S (fmo c i) (fmo c j - fmo c i)) as Her.
  { intros i j Hij Hj Hx o Ho. set (x := (o - fmo c 0) / 32).
    pose proof (Z.div_mod (o - fmo c 0) 32 ltac:(lia)) as Hdm.
    pose proof (Z.mod_pos_bound (o - fmo c 0) 32 ltac:(lia)) as Hmb. fold x in Hdm.
    assert (i <= x < j) as Hxr by (unfold fmo in *; lia).
    apply (He x); [unfold in_file_table; lia|by apply Hx|unfold fmo in *; lia]. }
  unfold file_write_metadata. apply wp_bind, wp_get_ctx.
  assert (cfg (fs_ctx s) = c) as -> by (rewrite (staging_cfg c s0 s Hst); apply Hr).
  eapply wp_stages; [by apply wp_stages_or, (wp_st_update_bms c Hc s0 Hr s Hst X)|].
  intros [] s1 Hst1 [Hup1 HT1]. eapply wp_stages.
  { apply wp_stages_or, (wp_st_update_fm c Hc s0 Hr s1 Hst1 X k m Hk Hm).
    eapply upto_erased; [exact Hup1|intros o Ho [_ ?]; unfold fmo in *; lia|]. apply He; [done|].
    intros Hr'. by destruct (Hrep k Hr') as (_ & ? & _). }
  intros [] s2 Hst2 [Hup2 Hfk]. rewrite etss_min_spec, etss_max_spec.
  (* entries before the first changed one *)
  assert (0 <= k `min` old <= k) as Hlo.
  { destruct rep as [o|]; [destruct (Hrep o eq_refl) as (? & _); unfold in_file_table, old_code in *; lia|].
    unfold old_code, ETSS_METADATA_INVALID_INDEX in Hold. lia. }
  eapply wp_stages.
  { apply wp_stages_or, (wp_st_cp 0 (k `min` old) s2 Hst2); [lia|lia|].
    eapply upto_erased; [exact Hup2|intros o Ho [_ ?]; unfold fmo in *; lia|].
    eapply upto_erased; [exact Hup1|intros o Ho [_ ?]; unfold fmo in *; lia|].
    apply Her; [lia..|]. intros x Hx Hr'. rewrite Hr' in Hold. unfold old_code in Hold. lia. }
  intros [] s3 Hst3 [Hup3 Hf3].
  (* entries between the two changed ones *)
  set (hi := match rep with Some _ => k `max` old | None => k end).
  eapply (wp_stages _ _ _ _ _ _ (fun i s4 => i = hi /\
    upto (within S (fmo c (k `min` old + 1)) (fmo c hi - fmo c (k `min` old + 1))) s3 s4 /\
    forall x, k `min` old + 1 <= x < hi -> fm_at c (im s4) S x = tf T x)).
  { assert (negb (old =? ETSS_METADATA_INVALID_INDEX) && negb (old =? k)
      = match rep with Some _ => true | None => false end) as ->.
    { destruct rep as [o|].
      - destruct (Hrep o eq_refl) as (Ho & Hok & _). simpl in Hold. subst old. unfold in_file_table in Ho.
        rewrite !(proj2 (Z.eqb_neq _ _)) by (unfold ETSS_METADATA_INVALID_INDEX; lia). done.
      - destruct Hold as [-> | ->]; [done|]. rewrite (Z.eqb_refl k). by rewrite andb_false_r. }
    destruct rep as [o|]; simpl in hi.
    - destruct (Hrep o eq_refl) as (Ho & Hok & _). simpl in Hold. subst old. unfold in_file_table in Ho.
      rewrite add32_small by lia. eapply wp_stages.
      { apply wp_stages_or, (wp_st_cp (k `min` o + 1) hi s3 Hst3); [lia|lia|].
        eapply upto_erased; [exact Hup3|intros o' Ho' [_ ?]; unfold fmo in *; lia|].
        eapply upto_erased; [exact Hup2|intros o' Ho' [_ ?]; unfold fmo in *; lia|].
        eapply upto_erased; [exact Hup1|intros o' Ho' [_ ?]; unfold fmo in *; lia|].
        apply Her; [lia..|]. intros x Hx [= ->]. lia. }
      intros [] s4 Hst4 [Hup4 Hf4]. by apply wp_stages_ret.
    - assert (k `min` old = k) as Hkm.
      { unfold old_code, ETSS_METADATA_INVALID_INDEX in Hold. lia. }
      apply wp_stages_ret; [done|]. rewrite Hkm. split_and!; [done..|lia]. }
  intros i s4 Hst4 (-> & Hup4 & Hf4).
  assert (k <= hi < max_num_files c /\ (rep = None -> k `min` old = k)) as [Hhi Hmn].
  { unfold hi. destruct rep as [o|]; [|split; [lia|]; intros _; unfold old_code, ETSS_METADATA_INVALID_INDEX in Hold; lia].
    destruct (Hrep o eq_refl) as (Ho & _). simpl in Hold. subst old. unfold in_file_table in Ho. split; [lia|done]. }
  rewrite add32_small by lia. eapply wp_mono.
  { apply wp_stages_or, (wp_st_cp (hi + 1) (max_num_files c) s4 Hst4); [lia|lia|].
    eapply upto_erased; [exact Hup4|intros o Ho [_ ?]; unfold fmo in *; lia|].
    eapply upto_erased; [exact Hup3|intros o Ho [_ ?]; unfold fmo in *; lia|].
    eapply upto_erased; [exact Hup2|intros o Ho [_ ?]; unfold fmo in *; lia|].
    eapply upto_erased; [exact Hup1|intros o Ho [_ ?]; unfold fmo in *; lia|].
    apply Her; [lia..|]. intros x Hx Hr'. unfold hi in *. rewrite Hr' in *. simpl in Hold. lia. }
  intros [[]|e] s5 [Hst5 Hr5]; (split; [done|]); [|done]. destruct Hr5 as [Hup5 Hf5].
  pose proof (fmo_8 c Hc 0 ltac:(lia)) as H8. split.
  { transitivity s1; [|transitivity s2; [|transitivity s3; [|transitivity s4]]];
      (eapply upto_within_sub; [eassumption|unfold fmo in *; lia..]). }
  split.
  - intros j Hj. transitivity (tb (put_block S (lblock m) bm T) j).
    { unfold put_file, put_block; cbn [tb]. unfold base_tables. by destruct rep. }
    symmetry. revert j Hj. do 4 (eapply bm_table_upto; [eassumption|intros o Ho [_ ?]; unfold fmo in *; lia|]).
    exact HT1.
  - intros x Hx. unfold in_file_table in Hx. symmetry. unfold put_file, put_block; cbn [tf tables_at].
    destruct (Z.eqb_spec x k) as [->|Hxk].
    { assert (k = k `min` old \/ k = hi) as Hkk.
      { unfold hi. destruct rep; [lia|]. right. done. }
      clearbody hi. do 3 (eapply fm_keep; [eassumption|intros o Ho [_ ?]; unfold fmo in *; lia|]). done. }
    destruct (decide (x < k `min` old)) as [H1|H1].
    { do 2 (eapply fm_keep; [eassumption|intros o Ho [_ ?]; unfold fmo in *; lia|]).
      rewrite Hf3 by lia. symmetry. apply base_tf_ne. intros Hr'. rewrite Hr' in Hold. unfold old_code in Hold. lia. }
    destruct (decide (k `min` old < x < hi)) as [H2|H2].
    { eapply fm_keep; [eassumption|intros o Ho [_ ?]; unfold fmo in *; lia|].
      rewrite Hf4 by lia. symmetry. apply base_tf_ne. intros Hr'. unfold hi in H2. rewrite Hr' in *.
      unfold old_code in Hold. lia. }
    destruct (decide (hi < x)) as [H3|H3].
    { rewrite Hf5 by lia. symmetry. apply base_tf_ne. intros Hr'. unfold hi in H3. rewrite Hr' in *.
      unfold old_code in Hold. lia. }
    destruct rep as [o|]; [|specialize (Hmn eq_refl); unfold hi in *; lia].
    destruct (Hrep o eq_refl) as (Ho & Hok & Hfo). simpl in Hold. subst old.
    assert (x = o) as -> by (unfold hi in *; lia). simpl. rewrite Z.eqb_refl.
    do 5 (eapply fm_keep; [eassumption|intros o' Ho' [_ ?]; unfold hi, fmo in *; lia|]). done.
Qed.

(** ** Putting the parts together *)

Section Finish.
Context (rep : option Z) (k : Z) (m : etss_file_meta_t) (bm : etss_block_meta_t).
Context (s : fs_state E) (Hpl : planned rep k m bm s) (Hst : staging c s0 s).

Let l := lblock m.
Let q := sid s0 l.
Let m3 := set_file_cur_size (new_size m) m.
Let bm3 := set_phy_id (new_phy m bm) bm.
Let T' := put_file k m3 (put_block S l bm3 (base_tables T rep)).
Let Htg : target c T fid rep k m bm := pl_target _ _ _ _ _ Hpl.
Let Hl : in_block_table c l := tg_l _ _ _ _ _ _ _ Htg.

Lemma fin_swapped : swapped T D l (new_phy m bm) (new_scratch m).
Proof.
  unfold swapped, new_phy, new_scratch. fold l. destruct (data_size =? 0); cbn [orb].
  - right. left. split; [apply Htg|done].
  - unfold sid. destruct (Z.eqb_spec l 0) as [H0|H0]; [|right; right; done].
    left. split_and!; [done| |done]. fold S. unfold is_u32. pose proof HAS. lia.
Qed.

(** The staged update, complete but for the header. *)
Record write_staged s' : Prop := {
  ws_staging : staging c s0 s';
  ws_dsc : dsc s' = new_scratch m;
  ws_tables : tables_equiv c T' (tables_at c (im s') S);
  ws_data : data_size <> 0 -> data_written m bm (im s') /\
              offset <= cur_size m /\ offset + asize <= max_size m;
  ws_lb0 : l <> 0 \/ data_size = 0 ->
    forall o, data_start (tb T 0) <= o < used_end c (tb T 0) -> im s' S o = im s0 A o
}.

Lemma fin_size s' : write_staged s' -> cur_size m <= new_size m <= max_size m.
Proof.
  intros Hws. pose proof (pl_cur _ _ _ _ _ Hpl). unfold new_size.
  destruct (Z.eqb_spec data_size 0) as [Hz|Hz]; [lia|].
  destruct (ws_data _ Hws Hz) as (_ & ? & ?).
  pose proof (wa_align _ _ _ _ _ _ _ Hargs) as Hal. fold asize in Hal. lia.
Qed.

Lemma fin_wf s' : write_staged s' -> wf c T' S (new_scratch m).
Proof.
  intros Hws. apply (target_wf c Hc T A D S Hwf HAS (proj2 Hset) fid rep k m bm Htg (new_size m)
    (new_phy m bm) (new_scratch m) (fin_size s' Hws) fin_swapped).
Qed.

Lemma fin_phy j : phy_id (tb T' j) =
  if j =? 0 then S else if j =? l then new_phy m bm else phy_id (tb T j).
Proof.
  unfold T'. cbn [put_file tb]. rewrite put_phy. destruct (j =? 0); [done|].
  destruct (j =? l); [done|]. unfold base_tables. by destruct rep.
Qed.

Lemma fin_own s' : write_staged s' ->
  own_data c T S rep k m bm (new_size m) (new_phy m bm) (im s0) (im s') data offset data_size asize.
Proof.
  intros Hws. unfold own_data. fold l. fold m3 bm3. fold T'. rewrite fin_phy, Z.eqb_refl.
  destruct (pl_ranges rep k m bm s Hpl Hst) as (_ & _ & _ & Hue & _ & _ & _ & _ & Hds). fold l in Hue, Hds.
  destruct (Z.eqb_spec data_size 0) as [Hz|Hz].
  - unfold new_phy. rewrite (proj2 (Z.eqb_eq _ _) Hz), (tg_phy _ _ _ _ _ _ _ Htg). fold l.
    intros o Ho. destruct (Z.eqb_spec l 0) as [H0|H0].
    + rewrite H0 in *. rewrite (ws_lb0 _ Hws (or_intror Hz)) by lia.
      by rewrite (wf_phy0 _ _ _ _ Hwf).
    + apply (st_live c Hc s0 Hr s' (ws_staging _ Hws) l o Hl).
  - assert ((if l =? 0 then S else new_phy m bm) = q) as ->.
    { unfold new_phy, q, sid. fold l. fold S. rewrite (proj2 (Z.eqb_neq _ _) Hz). by destruct (l =? 0). }
    destruct (ws_data _ Hws Hz) as ((Ha & Hb & He & Hd) & _). split_and!; [done..|].
    intros o Ho. apply Hd. lia.
Qed.

Lemma fin_other s' : write_staged s' ->
  other_data c T S rep k m bm (new_size m) (new_phy m bm) (im s0) (im s').
Proof.
  intros Hws j o Hj Hne Ho. fold l in Hne. fold m3 bm3 l. fold T'. rewrite fin_phy.
  destruct (Z.eqb_spec j 0) as [->|H0].
  - rewrite (ws_lb0 _ Hws) by (done || (left; congruence)). by rewrite (wf_phy0 _ _ _ _ Hwf).
  - rewrite (proj2 (Z.eqb_neq _ _) Hne). by apply (st_live c Hc s0 Hr s' (ws_staging _ Hws)).
Qed.

Let v' := write_spec c v fid flgs max_sz data_size offset data.

Lemma fin_view s' : write_staged s' -> disk_view c (im s') S = v'.
Proof.
  intros Hws. pose proof HAS as Hb. transitivity (view c (im s') T').
  - symmetry. apply (view_equiv c _ _ S (new_scratch m) _ _ Hc); [lia|symmetry; apply (ws_tables _ Hws)| |done].
    eapply wf_equiv; [|apply (ws_tables _ Hws)|exact (fin_wf s' Hws)]. pose proof (nact_range c Hc). lia.
  - pose proof (target_view c Hc T A D S Hwf HAS (proj2 Hset) fid rep k m bm Htg (new_size m)
      (new_phy m bm) (new_scratch m) (fin_size s' Hws) fin_swapped (im s0) (im s') data offset data_size
      asize) as Htv.
    etransitivity; [apply Htv; [done| |exact (fin_own s' Hws)|exact (fin_other s' Hws)]|].
    + intros Hz. destruct (ws_data _ Hws Hz) as (_ & ? & ?). pose proof (wa_off _ _ _ _ _ _ _ Hargs) as [? _].
      pose proof (align_u32 data_size (program_unit c)) as [? _]. fold asize in H2. lia.
    + unfold v', write_spec, new_file. rewrite <- (pl_base _ _ _ _ _ Hpl). done.
Qed.

Lemma fin_scratch_u32 : is_u32 (new_scratch m).
Proof.
  unfold new_scratch. destruct (_ || _).
  - unfold D, dsc. rewrite (ry_hdr _ _ Hr). apply dec_header_typed, rd_Forall. intros o. apply img_u8.
  - apply (wf_bm_typed _ _ _ _ Hwf _ Hl).
Qed.

(** ** The metadata and the rest of block 0 *)

Context (s1 : fs_state E) (Hpost : data_post m bm s s1).

Let Hst1 : staging c s0 s1 := proj1 Hpost.

Lemma post_size : cur_size m <= new_size m <= max_size m.
Proof.
  pose proof Hpost as (_ & _ & _ & Hd). pose proof (pl_cur _ _ _ _ _ Hpl). unfold new_size.
  destruct (Z.eqb_spec data_size 0) as [Hz|Hz]; [lia|]. destruct (Hd Hz) as (_ & ? & ? & _).
  pose proof (wa_align _ _ _ _ _ _ _ Hargs) as Hal. fold asize in Hal. lia.
Qed.

(** What the data phase did not touch. *)
Lemma post_keep o : o < fmo c (max_num_files c) \/ l <> 0 \/ data_size = 0 ->
  im s1 S o = im s S o.
Proof.
  intros Ho. pose proof Hpost as (_ & _ & Hout & _). apply Hout. intros (Hz & Hq & Hge).
  destruct (pl_ranges rep k m bm s Hpl Hst) as (_ & _ & _ & _ & _ & _ & _ & Hl0 & _). fold l in Hl0.
  fold l q in Hq. unfold q, sid in Hq. pose proof HAS as Hb.
  destruct (Z.eqb_spec l 0) as [H0|H0]; [specialize (Hl0 H0); lia|].
  pose proof (wf_D_range c Hc T A D Hwf ww_A l Hl H0). fold S D in Hq. lia.
Qed.

Lemma post_erased off n : 0 <= off -> 0 <= n -> off + n <= block_size c ->
  off + n <= fmo c (max_num_files c) \/ l <> 0 \/ data_size = 0 ->
  (forall o, rep = Some o -> off + n <= fmo c o \/ fmo c o + 32 <= off) ->
  erased c (im s1) S off n.
Proof.
  intros H1 H2 H3 H4 H5 o Ho. rewrite post_keep by lia.
  pose proof (pl_upto _ _ _ _ _ Hpl) as Hup. transitivity (im s0 S o); [|apply (ry_scr _ _ Hr); lia].
  apply (upto_im _ _ _ _ _ Hup).
  assert (forall R, match R with None => nowhere | Some r => within S (fmo c r) 32 end S o ->
    exists r, R = Some r /\ fmo c r <= o < fmo c r + 32) as Hx by (intros [r|]; [intros []; eauto|intros []]).
  intros (r & Hrp & ?)%Hx. specialize (H5 r Hrp). lia.
Qed.

Lemma wp_write_finish old :
  old_code rep old k ->
  wp (file_write_metadata m3 bm3 old k;;
      (if negb (lblock m3 =? ETSS_LOGICAL_DBLOCK0) || (data_size =? 0) then
         or_return etss_flash_fs_mblock_migrate_lb0_data_to_scratch PSA_ERROR_GENERIC_ERROR
       else mret tt)) s1
    (stages c s0 X (fun _ s' => write_staged s')).
Proof.
  intros Hold. pose proof ww_A as HA. pose proof (files_range c Hc) as Hfr. pose proof (nact_range c Hc) as Hnr.
  pose proof (metadata_fits c Hc) as Hfit. pose proof HAS as Hb.
  assert (in_block_table c 0) as Hl0 by (unfold in_block_table; lia).
  pose proof (wf_bm_facts c Hc T A D Hwf HA 0 Hl0) as (_ & _ & _ & _ & Hds0). rewrite Z.eqb_refl in Hds0.
  pose proof (wf_used_end c Hc T A D Hwf HA 0 Hl0) as Hue0.
  pose proof (tg_rep _ _ _ _ _ _ _ Htg) as Hrep.
  eapply wp_stages.
  { apply (wp_write_metadata rep k m3 bm3 old s1 Hst1).
    - apply Htg.
    - exact Hl.
    - exact (m'_typed c Hc T A D S Hwf HAS (proj2 Hset) fid rep k m bm Htg (new_size m)
        (new_phy m bm) (new_scratch m) post_size fin_swapped).
    - exact (bm'_typed c Hc T A D S Hwf HAS (proj2 Hset) fid rep k m bm Htg (new_size m)
        (new_phy m bm) (new_scratch m) post_size fin_swapped).
    - done.
    - intros o Ho. destruct (Hrep o Ho) as (Hof & ? & _). split_and!; [done..|].
      rewrite <- (pl_flag _ _ _ _ _ Hpl o Ho). apply fm_copied. intros o' Ho'. apply post_keep.
      unfold in_file_table, fmo in *. lia.
    - apply post_erased; try (unfold fmo in *; lia).
      intros o Ho. destruct (Hrep o Ho) as (Hof & _). unfold in_file_table, fmo in *. lia.
    - intros x Hx Hxr. unfold in_file_table in Hx. apply post_erased; try (unfold fmo in *; lia).
      intros o Ho. destruct (Hrep o Ho) as (Hof & _).
      assert (o <> x) by congruence. unfold in_file_table, fmo in *. lia. }
  intros [] s2 Hst2 [Hup2 HT2]. change (lblock m3) with l.
  pose proof Hpost as (_ & HD1 & _ & Hd1).
  assert (dsc s2 = new_scratch m) as HD2 by (unfold dsc; rewrite (upto_ctx _ _ _ Hup2); exact HD1).
  destruct (pl_ranges rep k m bm s Hpl Hst) as (R1 & R2 & R3 & R4 & R5 & R6 & R7 & Rl0 & R9). fold l in Rl0, R4, R9.
  pose proof (wa_off _ _ _ _ _ _ _ Hargs) as [Ho0 _].
  pose proof (align_u32 data_size (program_unit c)) as [Has0 _]. fold asize in Has0.
  (* later writes keep the data *)
  assert (forall s', (forall o, data_size <> 0 -> data_start bm <= o -> im s' q o = im s1 q o) ->
    data_size <> 0 -> data_written m bm (im s') /\ offset <= cur_size m /\ offset + asize <= max_size m) as Hdata.
  { intros s' Hk Hz. destruct (Hd1 Hz) as ((Ha & Hb' & Hc' & Hd') & Hof & Hmx & _). split; [|done].
    fold l q in Ha, Hb', Hc', Hd'.
    split_and!; intros o Ho; fold l q; rewrite Hk by (done || lia); auto. }
  assert (forall o, data_start bm <= o -> im s2 q o = im s1 q o) as H21.
  { intros o Ho. apply (upto_im _ _ _ _ _ Hup2). unfold within, q, sid. fold S D.
    destruct (Z.eqb_spec l 0) as [H0|H0]; [specialize (Rl0 H0); lia|].
    pose proof (wf_D_range c Hc T A D Hwf HA l Hl H0). lia. }
  unfold ETSS_LOGICAL_DBLOCK0. destruct (negb (l =? 0) || (data_size =? 0)) eqn:Hmg.
  - assert (l <> 0 \/ data_size = 0) as Hcase.
    { apply orb_true_iff in Hmg as [Hm|Hm]; [left; by apply negb_true_iff, Z.eqb_neq in Hm|right; by apply Z.eqb_eq]. }
    eapply wp_mono; [apply wp_stages_or, (wp_st_migrate c Hc s0 Hr s2 Hst2 X)|].
    { fold T. intros o Ho. rewrite (upto_im _ _ _ _ _ Hup2) by (unfold within; lia).
      revert o Ho. change (erased c (im s1) S (data_start (tb T 0))
        (used_end c (tb T 0) - data_start (tb T 0))). apply post_erased; try lia; [unfold fmo in *; lia|].
      intros o Ho. destruct (Hrep o Ho) as (Hof & _). unfold in_file_table, fmo in *. lia. }
    intros [[]|e] s3 [Hst3 Hr3]; (split; [done|]); [|done]. fold S T in Hr3. destruct Hr3 as [Hup3 Hm3].
    split; [done|unfold dsc; rewrite (upto_ctx _ _ _ Hup3); exact HD2| | |done].
    + transitivity (tables_at c (im s2) S); [done|].
      split; intros i Hi; simpl; [symmetry; apply bm_copied|symmetry; apply fm_copied]; intros o Ho;
        apply (upto_im _ _ _ _ _ Hup3); unfold within, in_block_table, in_file_table, bmo, fmo in *; lia.
    + apply Hdata. intros o Hz Ho. rewrite <- H21 by done. apply (upto_im _ _ _ _ _ Hup3).
      assert (l <> 0) as H0 by lia. unfold within, q, sid. fold S D.
      rewrite (proj2 (Z.eqb_neq l 0) H0). pose proof (wf_D_range c Hc T A D Hwf HA l Hl H0). lia.
  - apply wp_stages_ret; [done|]. split; [done|done|done| |lia].
    apply Hdata. intros o _ Ho. by apply H21.
Qed.
End Finish.
End Write.

(** ** The whole write *)

Section Whole.
Context {E : Type} {FO : FlashOps E} (c : etss_flash_fs_config_t) {FL : FlashLaws E c}.
Context (Hc : cfg_ok c) (s0 : fs_state E) (Hset : settled c s0).
Context (fid : list Z) (flgs max_sz data_size offset : Z) (data : list Z).
Context (Hargs : write_args c fid flgs max_sz data_size offset data).
(** A file that is to be replaced has room for some data. *)
Context (Hroom : forall F, ready_view c s0 !! fid = Some F ->
  replaces c (ready_view c s0) fid flgs max_sz = true -> 0 < af_max F).

Let v := ready_view c s0.
Let v' := write_spec c v fid flgs max_sz data_size offset data.
Let X (s' : fs_state E) : Prop :=
  ~ accepted c s0 fid flgs max_sz data_size offset /\ spared c s0 fid flgs max_sz s'.
Let T := tables_at c (im s0) (act s0).
Let Hr : ready c s0 := proj1 Hset.

(** All files are the old ones, or the file is written.  A refused request
    leaves the device as it was, unless it would have replaced the file. *)
Definition write_result (r : outcome unit) (s' : fs_state E) : Prop :=
  (mounts c (im s') v \/ mounts c (im s') v') /\
  (ok c s0 -> ok c s') /\
  match r with
  | Ok _ => settled c s' /\ ready_view c s' = v' /\ accepted c s0 fid flgs max_sz data_size offset
  | Err _ => sick c s0 \/ (X s' /\ staging c s0 s')
  end.

Lemma write_failed e s' : staging c s0 s' -> sick c s0 \/ X s' -> write_result (Err e) s'.
Proof.
  intros Hst Hs. pose proof (st_mounts c Hc s0 Hr s' Hst) as Hm.
  split; [by left|]. split; [apply Hst|]. destruct Hs; [by left|by right].
Qed.

Lemma planned_old rep k m bm s (Hint : Z.land flgs ETSS_FLASH_FS_INTERNAL_FLAGS_MASK = 0) o :
  planned c s0 fid flgs max_sz rep k m bm s -> rep = Some o ->
  in_file_table c o /\ o <> k /\ unused (tf T o) = false /\ 0 < max_size (tf T o).
Proof.
  intros Hpl ->. destruct (tg_rep _ _ _ _ _ _ _ (pl_target _ _ _ _ _ _ _ _ _ _ Hpl) o eq_refl)
    as (Ho & Hne & Hu & Hid & Hp). done.
Qed.

Theorem wp_file_write : wp (etss_flash_fs_file_write fid flgs max_sz data_size offset data) s0 write_result.
Proof.
  unfold etss_flash_fs_file_write.
  destruct (Z.eqb_spec (Z.land flgs ETSS_FLASH_FS_INTERNAL_FLAGS_MASK) 0) as [Hint|Hint]; cbn [negb].
  2: { apply wp_raise, write_failed; [apply staging_refl|]. right. split; [by intros [? _]|by right]. }
  apply wp_bind, wp_get_ctx. assert (cfg (fs_ctx s0) = c) as -> by apply Hr.
  eapply wp_seq; [exact (wp_write_lookup c Hc s0 Hset fid flgs max_sz data_size offset data Hargs Hroom)|
    intros e s' [Hst He]; by apply write_failed|].
  intros [[old new] m0] s1 [Hst1 Hlk]. cbn [fst snd] in Hlk.
  eapply wp_seq; [exact (wp_write_reserve c Hc s0 Hset fid flgs max_sz data_size offset data Hargs Hroom Hint
    old new m0 s1 Hst1 Hlk)|intros e s' [Hst He]; by apply write_failed|].
  intros [[k m] bm] s2 [Hst2 (rep & Hpl & Hold)]. cbn [fst snd] in Hpl, Hold.
  eapply wp_seq; [exact (wp_write_data c Hc s0 Hset fid flgs max_sz data_size offset data Hargs Hroom Hint
    rep k m bm s2 Hpl Hst2)|intros e s' [Hst He]; by apply write_failed|].
  intros [m3 bm3] s3 [Hst3 [[= -> ->] Hpost]].
  pose proof (wp_write_finish c Hc s0 Hset fid flgs max_sz data_size offset data Hargs Hroom Hint
    rep k m bm s2 Hpl Hst2 s3 Hpost old Hold) as Hfin.
  pose proof (planned_old rep k m bm s2) as Hpo.
  assert (accepted c s0 fid flgs max_sz data_size offset) as Hacc.
  { destruct (base_length c Hc s0 Hset fid flgs max_sz data_size offset data Hargs Hroom Hint rep k m bm s2
      Hpl Hst2) as [Hbl Hmx]. destruct Hpost as (_ & _ & _ & Hd).
    split; [done|]. split; [apply (pl_accept _ _ _ _ _ _ _ _ _ _ Hpl)|].
    split; [apply (pl_accept _ _ _ _ _ _ _ _ _ _ Hpl)|].
    intros Hz. destruct (Hd Hz) as (_ & Ho & Hm & Hal). rewrite <- Hbl, <- Hmx. done. }
  apply wp_bind_assoc. eapply wp_seq; [exact Hfin|intros e s' [Hst He]; by apply write_failed|].
  intros [] s4 [Hst4 Hws].
  pose proof (fin_wf c Hc s0 Hset fid flgs max_sz data_size offset data Hargs Hroom Hint rep k m bm s2 Hpl Hst2
    s4 Hws) as Hwf'.
  pose proof (fin_view c Hc s0 Hset fid flgs max_sz data_size offset data Hargs Hroom Hint rep k m bm s2 Hpl Hst2
    s4 Hws) as Hview. fold v in Hview. fold v' in Hview.
  pose proof Hws as [_ HD4 HE4 _ _].
  eapply wp_seq.
  { apply (wp_finalize c Hc s4 (act s0) (scr s0)); [|exact (proj1 (st_disk c Hc s0 Hr s4 Hst4))].
    eapply (st_prepared c Hc s0 Hr); [done|exact HD4|exact HE4|exact Hwf'|].
    exact (fin_scratch_u32 c Hc s0 Hset fid flgs max_sz data_size offset data Hargs Hroom Hint rep k m bm s2 Hpl Hst2). }
  { intros e s5 (Hm & Hh & Hsick). rewrite Hview in Hm.
    destruct (st_disk c Hc s0 Hr s4 Hst4) as [_ Hv4]. rewrite Hv4 in Hm.
    split; [done|]. split; [intros Hok; apply Hh, Hst4, Hok|]. left. exact (staging_sick c s0 s4 Hst4 Hsick). }
  intros [] s5 (Hm & Hh & Hr5 & Hv5 & Ha5 & Hs5 & HE5). rewrite Hview in Hm, Hv5.
  destruct (st_disk c Hc s0 Hr s4 Hst4) as [_ Hv4]. rewrite Hv4 in Hm.
  assert (ok c s0 -> ok c s5) as Hok5 by (intros Hok; apply Hh, Hst4, Hok).
  match type of HE4 with tables_equiv _ ?Tn _ => set (T' := Tn) in * end.
  assert (tables_equiv c T' (tables_at c (im s5) (act s5))) as HE.
  { rewrite Ha5. transitivity (tables_at c (im s4) (scr s0)); done. }
  assert (forall i, in_file_table c i -> flagged (tf (tables_at c (im s5) (act s5)) i) = true -> rep = Some i) as Hfl.
  { intros i Hi. rewrite <- (proj2 HE i Hi).
    exact (target_flagged c Hc T (act s0) (dsc s0) (scr s0) (st_wf c Hc s0 Hr) (st_blocks c Hc s0 Hr)
      (proj2 Hset) fid rep k m bm (pl_target _ _ _ _ _ _ _ _ _ _ Hpl) _ _ _
      (fin_size c Hc s0 Hset fid flgs max_sz data_size offset data Hargs Hroom Hint rep k m bm s2 Hpl Hst2 s4 Hws)
      (fin_swapped c Hc s0 Hset fid flgs max_sz data_size offset data Hargs Hroom Hint rep k m bm s2 Hpl Hst2) i Hi). }
  assert (negb (old =? ETSS_METADATA_INVALID_INDEX) && negb (old =? k)
      = match rep with Some _ => true | None => false end) as ->.
  { clear - Hold Hpo Hint Hpl Hc. destruct rep as [o|].
    - destruct (Hpo Hint o Hpl eq_refl) as ((Ho & Ho') & Hne & _). simpl in Hold. subst old.
      pose proof (files_range c Hc). rewrite !(proj2 (Z.eqb_neq _ _)) by (unfold ETSS_METADATA_INVALID_INDEX; lia). done.
    - destruct Hold as [-> | ->]; [done|]. rewrite (Z.eqb_refl k). by rewrite andb_false_r. }
  destruct rep as [o|].
  - simpl in Hold. subst old. destruct (Hpo Hint o Hpl eq_refl) as (Ho & Hne & Hu & Hmx).
    assert (tf T' o = flag_meta (tf T o)) as HT'.
    { unfold T'. cbn [put_file put_block base_tables tf]. rewrite (proj2 (Z.eqb_neq o k) Hne). by rewrite Z.eqb_refl. }
    pose proof (proj2 HE o Ho) as Hto. rewrite HT' in Hto.
    eapply wp_mono; [apply (wp_delete_idx c Hc s5 Hr5 o Ho)|].
    + by rewrite <- Hto.
    + by rewrite <- Hto.
    + intros i Hi Hf. specialize (Hfl i Hi Hf). congruence.
    + assert (del_view c s5 o = v') as ->.
      { unfold del_view. rewrite <- Hto. unfold live. by rewrite flagged_flag, andb_false_r. }
      rewrite Hv5. intros r s6 (Hm6 & Hok6 & Hr6). split; [right; tauto|]. split; [auto|].
      destruct r; [split; [apply Hr6|]; split; [apply Hr6|]; exact Hacc|]. left. intros Hok. apply Hr6, Hok5, Hok.
  - apply wp_ret. split; [exact Hm|]. split; [exact Hok5|]. split; [|split; [exact Hv5|exact Hacc]]. split; [exact Hr5|].
    intros i Hi. apply not_true_is_false. intros Hf. specialize (Hfl i Hi Hf). done.
Qed.
End Whole.
