(* ===== verification/FsOps.v ===== *)
(** * Deleting a file, mounting and formatting

    [etss_flash_fs_file_delete], [etss_flash_fs_prepare] and
    [etss_flash_fs_wipe_all]. *)
From Stdlib Require Import ZArith Lia.
From stdpp Require Import base list numbers gmap options.
From S2P Require Import Prelude EtssUtils FlashFsDefs Mblock Dblock FlashFs MblockSpec.
From S2P Require Import FsReads FsTables FsUpdate FsDisk FsStage FsCommit FsRead FsStaged.
From S2P Require Import FsDelete.

#[local] Set Default Proof Using "Type*".

Section Ops.
Context {E : Type} {FO : FlashOps E} (c : etss_flash_fs_config_t) {FL : FlashLaws E c}.
Context (Hc : cfg_ok c).
Implicit Types s : fs_state E.

(** Reading changes nothing. *)
Lemma ready_nw s s' : upto nowhere s s' -> ready c s ->
  ready c s' /\ ready_view c s' = ready_view c s /\
  tables_equiv c (tables_at c (im s) (act s)) (tables_at c (im s') (act s')).
Proof.
  intros Hup Hr. pose proof (upto_ctx _ _ _ Hup) as Hx.
  assert (act s' = act s) as Ha by (unfold act; by rewrite Hx).
  destruct (disk_same c Hc (im s) (im s') (act s)) as (Hd & Hv & Hm); [apply Hr|intros; by apply upto_nowhere|].
  split; [|split; [unfold ready_view; by rewrite Ha|rewrite Ha; by apply (same_meta_tables c Hc)]].
  destruct Hr as [H1 H2 H3 H4 H5]. split.
  - by rewrite Hx.
  - rewrite Ha, Hx, H2. symmetry. by apply (same_meta_hdr c Hc).
  - by rewrite Ha.
  - unfold scr. rewrite Hx. intros o Ho. rewrite (upto_nowhere s s') by done. by apply H4.
  - unfold dsc. rewrite Hx. intros Hn o Ho. rewrite (upto_nowhere s s') by done. by apply H5.
Qed.

(** The device may be switched off and on. *)
Lemma mounts_same f g v : same_image f g -> mounts c f v -> mounts c g v.
Proof.
  intros Him (A & Hd & Hv). destruct (disk_same c Hc f g A Hd Him) as (Hd1 & Hv1 & _).
  exists A. split; [done|congruence].
Qed.

(** ** Deletion *)

Lemma wp_file_delete s fid :
  settled c s -> fid_ok fid ->
  (forall F, ready_view c s !! fid = Some F -> 0 < af_max F) ->
  wp (etss_flash_fs_file_delete fid) s (fun r s' =>
    (mounts c (im s') (ready_view c s) \/ mounts c (im s') (delete fid (ready_view c s))) /\
    (ok c s -> ok c s') /\
    match r with
    | Ok _ => settled c s' /\ is_Some (ready_view c s !! fid) /\
              ready_view c s' = delete fid (ready_view c s)
    | Err e => sick c s \/ (e = PSA_ERROR_DOES_NOT_EXIST /\ ready_view c s !! fid = None /\
                 settled c s' /\ ready_view c s' = ready_view c s)
    end).
Proof.
  intros Hset Hfid Hpos. pose proof (find_id_view c Hc s fid (settled_readable c s Hset) Hfid) as Hf. destruct (Hset) as [Hr Hcl].
  unfold etss_flash_fs_file_delete. apply wp_bind, wp_or_return.
  eapply wp_mono; [apply (wp_get_file_idx c Hc); [apply Hr|by apply (ready_files c s)]|].
  intros r s1 [Hup Hr1]. destruct (ready_nw s s1 Hup Hr) as (Hrd & Hv & HE).
  assert (mounts c (im s1) (ready_view c s)) as Hm1 by (rewrite <- Hv; by apply ready_mounts).
  destruct Hr1 as [-> | [Hsick ->]]; [|split; [by left|]; split; [apply Hup|by left]].
  destruct (find_id c s fid) as [i|]; cbn [found].
  - destruct Hf as (Hi & Hu & Hl & Hid & Hvi). pose proof (proj2 HE i Hi) as Hti.
    change (tf (tables_at c (im s) (act s)) i) with (fm_at c (im s) (act s) i) in Hti.
    eapply wp_mono; [apply (wp_delete_idx c Hc s1 Hrd i Hi)|].
    + by rewrite <- Hti.
    + rewrite <- Hti. exact (Hpos _ Hvi).
    + intros j Hj Hfl. rewrite <- (proj2 HE j Hj) in Hfl. by rewrite (Hcl j Hj) in Hfl.
    + assert (del_view c s1 i = delete fid (ready_view c s)) as ->.
      { unfold del_view. rewrite <- Hti, Hl, Hid. by rewrite Hv. }
      rewrite Hv. intros r s2 (Hm & Hok & Hr2). split; [done|]. split; [intros ?; by apply Hok, Hup|].
      destruct r as [[]|e]; [|left; by eapply upto_sick].
      split; [apply Hr2|]. split; [by rewrite Hvi|apply Hr2].
  - split; [by left|]. split; [apply Hup|right]. split_and!; [done..| |done].
    split; [done|]. by eapply clean_equiv.
Qed.

(** ** Mounting *)

Lemma wp_prepare s v :
  ok c s -> cfg (fs_ctx s) = c -> mounts c (im s) v ->
  wp etss_flash_fs_prepare s (fun r s' =>
    r = Ok tt /\ ok c s' /\ settled c s' /\ ready_view c s' = v).
Proof.
  intros Hok Hs (A & Hd & Hv). unfold etss_flash_fs_prepare.
  eapply wp_seq; [by apply (wp_init c Hc s A)|by intros e s1 [[=] _]|].
  intros [] s1 (_ & Hok1 & Hr1 & Ha1 & Hv1 & HE1). rewrite Hv in Hv1.
  pose proof (ready_wf c s1 Hr1) as Hwf.
  apply wp_bind, wp_attempt.
  eapply wp_mono; [apply (wp_get_file_idx_flag c Hc); [apply Hr1|by apply (ready_files c)]|].
  intros r s2 [Hup Hr]. destruct Hr as [-> | [Hsick _]]; [|by destruct Hsick].
  pose proof (ok_upto c _ _ _ Hup Hok1) as Hok2.
  destruct (ready_nw s1 s2 Hup Hr1) as (Hr2 & Hv2 & HE2). rewrite Hv1 in Hv2.
  pose proof (files_range c Hc) as Hn.
  destruct (find_flag c s1 ETSS_FLASH_FS_FLAG_DELETE) as [d|] eqn:Hf; cbn [found]; unfold find_flag in Hf.
  - apply first_index_some in Hf as (Hi & Hfl & _). unfold nfiles in Hi.
    assert (in_file_table c d) as Hd' by (unfold in_file_table; lia).
    set (T := tables_at c (im s1) (act s1)) in *.
    assert (flagged (tf T d) = true) as Hflag by exact Hfl.
    pose proof (proj2 HE2 d Hd') as Hti.
    eapply wp_mono; [apply (wp_delete_idx c Hc s2 Hr2 d Hd')|].
    + rewrite <- Hti. by apply (wf_flag_used _ _ _ _ Hwf).
    + rewrite <- Hti. by apply (wf_flag_pos _ _ _ _ Hwf).
    + intros i Hi' Hfi. rewrite <- (proj2 HE2 i Hi') in Hfi. by apply (wf_flag_one _ _ _ _ Hwf).
    + assert (del_view c s2 d = v) as ->.
      { unfold del_view. rewrite <- Hti. unfold live. by rewrite Hflag, andb_false_r. }
      intros r s3 (_ & Hok3 & Hr3). specialize (Hok3 Hok2).
      destruct r as [[]|e]; [by destruct Hr3|by destruct Hr3].
  - change (negb (PSA_ERROR_DOES_NOT_EXIST =? PSA_ERROR_DOES_NOT_EXIST)) with false. cbn iota.
    apply wp_ret. split_and!; [done..| |done]. split; [done|].
    eapply clean_equiv; [exact HE2|]. intros i Hi. apply not_true_is_false. intros Hfl.
    eapply first_index_none with (j := i) in Hf; [|unfold nfiles, in_file_table in *; lia].
    unfold flagged in Hfl. simpl in Hfl, Hf. congruence.
Qed.
End Ops.

(** ** Formatting *)

Section Format.
Context (c : etss_flash_fs_config_t) (Hc : cfg_ok c).

Definition fresh_block (l : Z) : etss_block_meta_t :=
  if l =? 0 then {| phy_id := 1; data_start := fmo c (max_num_files c);
                    free_size := block_size c - fmo c (max_num_files c) |}
  else {| phy_id := l + 2; data_start := 0; free_size := block_size c |}.

Definition fresh_tables : tables := {| tb := fresh_block; tf := fun _ => zero_file_meta |}.

Lemma fresh_block_typed l : in_block_table c l -> block_meta_typed (fresh_block l).
Proof.
  intros Hl. pose proof (nact_range c Hc). pose proof (files_range c Hc). pose proof (block_size_range c Hc).
  pose proof (metadata_fits c Hc). unfold in_block_table in Hl. unfold fresh_block, block_meta_typed, is_u32.
  destruct (l =? 0); cbn [phy_id data_start free_size]; unfold fmo in *; lia.
Qed.

Lemma fresh_wf : wf c fresh_tables 1 (etss_init_scratch_dblock c).
Proof.
  pose proof (nact_range c Hc) as Hn. pose proof (files_range c Hc). pose proof (block_size_range c Hc).
  pose proof (metadata_fits c Hc). pose proof (validate_config_blocks c Hc) as Hnb.
  assert (num_blocks c <> 2 -> nact c = num_blocks c - 2) as Hna.
  { unfold nact. by destruct (Z.eqb_spec (num_blocks c) 2). }
  assert (num_blocks c = 2 -> nact c = 1) as Hna2 by (unfold nact; by intros ->).
  unfold etss_init_scratch_dblock. split; simpl.
  - intros l Hl. apply (validate_block_meta_iff c Hc); [by apply fresh_block_typed|].
    unfold in_block_table in Hl. unfold fresh_block. destruct (Z.eqb_spec l 0); cbn [phy_id data_start free_size].
    + change (1 =? 0) with false. change (1 =? 1) with true. cbn [orb]. lia.
    + destruct (Z.eqb_spec (l + 2) 0); [lia|]. destruct (Z.eqb_spec (l + 2) 1); [lia|]. cbn [orb]. lia.
  - apply fresh_block_typed.
  - intros i Hi. apply (validate_file_meta_iff c Hc); [apply zero_typed|]. split; [simpl; lia|done].
  - intros i Hi. apply zero_typed.
  - done.
  - intros l Hl Hne. unfold in_block_table in Hl. unfold fresh_block. apply Z.eqb_neq in Hne as Hne'. rewrite Hne'. simpl.
    split; [lia|]. destruct (Z.eqb_spec (num_blocks c) 2); lia.
  - intros l l' Hl Hl'. unfold in_block_table in *. unfold fresh_block.
    destruct (Z.eqb_spec l 0), (Z.eqb_spec l' 0); simpl; lia.
  - intros Hne. apply Z.eqb_neq in Hne as Hne'. rewrite Hne'. lia.
  - intros l Hl. exists []. split; [constructor|]. split.
    + intros i. split; [by intros ?%elem_of_nil|]. by intros (_ & Hu & _).
    + simpl. unfold used_end, fresh_block. destruct (l =? 0); simpl; lia.
  - intros i j _ _ Hl. done.
  - intros i _ Hf. done.
  - intros i j _ _ Hf. done.
  - intros i _ Hf. done.
Qed.

Lemma fresh_view f : view c f fresh_tables = ∅.
Proof using Hc.
  apply map_eq. intros fid. rewrite lookup_empty. apply view_lookup_none; [|done].
  eapply wf_to_uniq, fresh_wf.
Qed.
End Format.

Section Wipe.
Context {E : Type} {FO : FlashOps E} (c : etss_flash_fs_config_t) {FL : FlashLaws E c}.
Context (Hc : cfg_ok c).
Implicit Types s : fs_state E.

(** On a healthy device the writes succeed. *)
Lemma wp_ok_writes {A} (m : FS E A) s R (P : A -> fs_state E -> Prop) (Q : outcome A -> fs_state E -> Prop) :
  ok c s -> wp m s (writes c s R P) ->
  (forall a s', ok c s' -> upto R s s' -> P a s' -> Q (Ok a) s') -> wp m s Q.
Proof using Type.
  intros Hok Hm HQ. eapply wp_mono; [exact Hm|]. intros [a|e] s' [Hup HP]; [|by destruct HP].
  apply HQ; [by eapply ok_upto|done..].
Qed.

Lemma wp_ok_erase b s (Q : outcome unit -> fs_state E -> Prop) :
  ok c s -> cfg (fs_ctx s) = c -> 0 <= b < num_blocks c ->
  (forall s', ok c s' -> upto (within b 0 (block_size c)) s s' -> erased c (im s') b 0 (block_size c) ->
     Q (Ok tt) s') ->
  wp (ops_erase b) s Q.
Proof using Type.
  intros Hok Hs Hb HQ. eapply wp_mono; [by apply (wp_ops_erase c)|].
  intros r s' (k & _ & Hk & Hup & He & [Hr|Hsick]); [|by destruct Hsick]. subst r.
  specialize (Hk eq_refl) as ->. apply HQ; [by eapply ok_upto|done..].
Qed.

(** Both metadata blocks are erased, whatever they held. *)
Lemma wp_wipe_erase s (k : unit -> FS E unit) Q :
  ok c s -> cfg (fs_ctx s) = c ->
  (forall s', ok c s' -> cfg (fs_ctx s') = c ->
     meta_block_header (fs_ctx s') = meta_block_header (fs_ctx s) ->
     erased c (im s') 0 0 (block_size c) -> erased c (im s') 1 0 (block_size c) -> wp (k tt) s' Q) ->
  wp (r ← attempt etss_init_get_active_metablock;
      x ← get_ctx;
      let metablock_to_erase_first :=
        match r with Ok _ => scratch_metablock x | Err _ => ETSS_METADATA_BLOCK0 end in
      ops_erase metablock_to_erase_first;;
      ops_erase (ETSS_OTHER_META_BLOCK metablock_to_erase_first) ≫= k) s Q.
Proof.
  intros Hok Hs Hk. pose proof (validate_config_blocks c Hc) as Hnb.
  apply wp_bind, wp_attempt. eapply wp_mono; [by apply (wp_get_active c Hc)|].
  intros r s1 (Hok1 & _ & Hr). apply wp_bind, wp_get_ctx.
  assert (exists b, (b = 0 \/ b = 1) /\ match r with Ok _ => scratch_metablock (fs_ctx s1)
      | Err _ => ETSS_METADATA_BLOCK0 end = b /\ cfg (fs_ctx s1) = c /\
      meta_block_header (fs_ctx s1) = meta_block_header (fs_ctx s)) as (b & Hb & -> & Hs1 & Hh1).
  { destruct (selected c (im s)) as [A|] eqn:Hsel; destruct Hr as [-> Hx]; rewrite Hx; cbn [scratch_metablock set_metablocks].
    - eexists. split; [|split; [reflexivity|done]]. unfold ETSS_OTHER_META_BLOCK, ETSS_METADATA_BLOCK0, ETSS_METADATA_BLOCK1.
      destruct (_ =? _); auto.
    - exists 0. auto. }
  cbv zeta. apply wp_bind, (wp_ok_erase b); [done..|lia|]. intros s2 Hok2 Hup2 He2.
  pose proof (upto_cfg _ _ _ _ Hup2 Hs1) as Hs2.
  assert (ETSS_OTHER_META_BLOCK b = 1 - b) as -> by (destruct Hb as [-> | ->]; done).
  apply wp_bind, (wp_ok_erase (1 - b)); [done..|lia|]. intros s3 Hok3 Hup3 He3.
  assert (erased c (im s3) b 0 (block_size c)) as He3'.
  { eapply upto_erased; [exact Hup3|intros o _ [? _]; lia|done]. }
  apply Hk; [done|by eapply upto_cfg| |destruct Hb as [-> | ->]; done..].
  by rewrite (upto_ctx _ _ _ Hup3), (upto_ctx _ _ _ Hup2).
Qed.

(** The metadata written so far: [m] block entries and [n] file entries. *)
Record formatted s (m n : Z) : Prop := {
  fo_env : env_ok c s 0 1;
  fo_ok : ok c s;
  fo_hdr : erased c (im s) 0 0 8 /\ erased c (im s) 1 0 8;
  fo_bm : forall l, 0 <= l < m -> bm_at (im s) 1 l = fresh_block c l;
  fo_fm : forall i, 0 <= i < n -> fm_at c (im s) 1 i = zero_file_meta;
  fo_bm_rest : erased c (im s) 1 (bmo m) (bmo (nact c) - bmo m);
  fo_fm_rest : erased c (im s) 1 (fmo c n) (fmo c (max_num_files c) - fmo c n)
}.

Lemma formatted_upto R s s' m n :
  formatted s m n -> 0 <= m <= nact c -> 0 <= n -> ok c s' -> upto R s s' ->
  (forall o, ~ R 0 o) -> (forall o, o < fmo c (max_num_files c) -> ~ R 1 o) -> n <= max_num_files c ->
  formatted s' m n.
Proof using Type.
  intros [H1 H2 [H3 H3'] H4 H5 H6 H7] Hm Hn Hok Hup HR0 HR1 Hn'.
  assert (forall o, o < fmo c (max_num_files c) -> im s' 1 o = im s 1 o) as Hk.
  { intros o Ho. apply (upto_im _ _ _ _ _ Hup). by apply HR1. }
  split; [by eapply env_upto|done| | | | |].
  - split; intros o Ho; [rewrite (upto_im _ _ _ _ _ Hup) by apply HR0; by apply H3|].
    rewrite Hk by (unfold fmo; lia). by apply H3'.
  - intros l Hl. rewrite <- (H4 l) by done. apply bm_copied. intros o Ho. apply Hk. unfold bmo, fmo in *. lia.
  - intros i Hi. rewrite <- (H5 i) by done. apply fm_copied. intros o Ho. apply Hk. unfold fmo in *. lia.
  - intros o Ho. rewrite Hk by (unfold bmo, fmo in *; lia). by apply H6.
  - intros o Ho. rewrite Hk by (unfold fmo in *; lia). by apply H7.
Qed.

Lemma wp_format_bm s m (Q : outcome unit -> fs_state E -> Prop) :
  formatted s m 0 -> 0 <= m < nact c ->
  (forall s', formatted s' (m + 1) 0 -> fs_ctx s' = fs_ctx s -> Q (Ok tt) s') ->
  wp (etss_mblock_update_scratch_block_meta m (fresh_block c m)) s Q.
Proof.
  intros [H1 H2 [H3 H3'] H4 H5 H6 H7] Hm HQ. pose proof (files_range c Hc).
  eapply wp_ok_writes; [done|apply (wp_update_bm c Hc m _ s 0 1 H1 Hm (fresh_block_typed c Hc m Hm))|].
  { eapply erased_sub; [exact H6|unfold bmo in *; lia..]. }
  intros [] s' Hok' Hup Hbm. apply HQ; [|by apply (upto_ctx _ _ _ Hup)].
  assert (forall o, ~ bmo m <= o < bmo m + 12 -> im s' 1 o = im s 1 o) as Hk.
  { intros o Ho. apply (upto_im _ _ _ _ _ Hup). unfold within. lia. }
  split; [by eapply env_upto|done| | |lia| |].
  - split; intros o Ho; [rewrite (upto_im _ _ _ _ _ Hup) by (unfold within; lia); by apply H3|].
    rewrite Hk by (unfold bmo; lia). by apply H3'.
  - intros l Hl. destruct (decide (l = m)) as [->|Hne]; [done|]. rewrite <- (H4 l) by lia.
    apply bm_copied. intros o Ho. apply Hk. unfold bmo in *. lia.
  - intros o Ho. rewrite Hk by (unfold bmo in *; lia). apply H6. unfold bmo in *. lia.
  - intros o Ho. rewrite Hk by (unfold bmo, fmo in *; lia). by apply H7.
Qed.

Lemma wp_format_fm s n (Q : outcome unit -> fs_state E -> Prop) :
  formatted s (nact c) n -> 0 <= n < max_num_files c ->
  (forall s', formatted s' (nact c) (n + 1) -> fs_ctx s' = fs_ctx s -> Q (Ok tt) s') ->
  wp (etss_flash_fs_mblock_update_scratch_file_meta n zero_file_meta) s Q.
Proof.
  intros [H1 H2 [H3 H3'] H4 H5 H6 H7] Hn HQ. pose proof (nact_range c Hc).
  eapply wp_ok_writes; [done|apply (wp_update_fm c Hc n _ s 0 1 H1 Hn zero_typed)|].
  { eapply erased_sub; [exact H7|unfold fmo in *; lia..]. }
  intros [] s' Hok' Hup Hfm. apply HQ; [|by apply (upto_ctx _ _ _ Hup)].
  assert (forall o, ~ fmo c n <= o < fmo c n + 32 -> im s' 1 o = im s 1 o) as Hk.
  { intros o Ho. apply (upto_im _ _ _ _ _ Hup). unfold within. lia. }
  split; [by eapply env_upto|done| | | |intros o Ho; lia|].
  - split; intros o Ho; [rewrite (upto_im _ _ _ _ _ Hup) by (unfold within; lia); by apply H3|].
    rewrite Hk by (unfold fmo; lia). by apply H3'.
  - intros l Hl. rewrite <- (H4 l) by lia. apply bm_copied. intros o Ho. apply Hk. unfold bmo, fmo in *. lia.
  - intros i Hi. destruct (decide (i = n)) as [->|Hne]; [done|]. rewrite <- (H5 i) by lia.
    apply fm_copied. intros o Ho. apply Hk. unfold fmo in *. lia.
  - intros o Ho. rewrite Hk by (unfold fmo in *; lia). apply H7. unfold fmo in *. lia.
Qed.

(** The data blocks are erased. *)
Lemma wp_format_erase s (Q : outcome Z -> fs_state E -> Prop) :
  formatted s 1 0 ->
  (forall s', formatted s' 1 0 -> fs_ctx s' = fs_ctx s -> Q (Ok PSA_SUCCESS) s') ->
  wp (for_acc (Z.to_nat (etss_num_dedicated_dblocks c)) 0 PSA_SUCCESS (fun i err =>
        r ← attempt (ops_erase (add32 i (etss_init_dblock_start c)));
        mret (Z.lor err (status_of r)))) s Q.
Proof.
  intros Hf HQ. pose proof (validate_config_blocks c Hc) as Hnb. pose proof (nact_range c Hc).
  pose proof (ct_num _ (co_typed _ Hc)) as Hn16. pose proof (files_range c Hc).
  apply (wp_for_acc (fun _ err s' => err = PSA_SUCCESS /\ formatted s' 1 0 /\ fs_ctx s' = fs_ctx s)).
  - done.
  - intros j err s1 Hj (-> & Hf1 & Hx1).
    unfold etss_num_dedicated_dblocks, etss_init_dblock_start in *.
    destruct (Z.eqb_spec (num_blocks c) 2) as [|Hn2]; [simpl in Hj; lia|].
    unfold is_u16 in Hn16. rewrite sub32_small in Hj by lia. rewrite add32_small by lia.
    apply wp_bind, wp_attempt, wp_ok_erase; [apply Hf1|by eapply env_cfg, Hf1|lia|].
    intros s2 Hok2 Hup2 _. apply wp_ret. split_and!; [done| |by rewrite (upto_ctx _ _ _ Hup2)].
    eapply formatted_upto; [exact Hf1|lia..|done|exact Hup2|intros o [? _]; lia|intros o _ [? _]; lia|lia].
  - intros err s1 (-> & Hf1 & Hx1). by apply HQ.
Qed.

Lemma wp_format_blocks s (Q : outcome unit -> fs_state E -> Prop) :
  formatted s 1 0 ->
  (forall s', formatted s' (nact c) 0 -> fs_ctx s' = fs_ctx s -> Q (Ok tt) s') ->
  wp (for_acc (Z.to_nat (etss_num_dedicated_dblocks c)) 0 tt (fun i _ =>
        or_return (etss_mblock_update_scratch_block_meta (i + 1)
          {| data_start := 0; free_size := block_size c;
             phy_id := add32 i (etss_init_dblock_start c) |}) PSA_ERROR_GENERIC_ERROR)) s Q.
Proof.
  intros Hf HQ. pose proof (validate_config_blocks c Hc) as Hnb. pose proof (nact_range c Hc).
  pose proof (ct_num _ (co_typed _ Hc)) as Hn16. unfold is_u16 in Hn16.
  assert (etss_num_dedicated_dblocks c = nact c - 1) as Hd.
  { unfold etss_num_dedicated_dblocks, etss_init_dblock_start, nact.
    destruct (Z.eqb_spec (num_blocks c) 2); [done|]. rewrite sub32_small by lia. lia. }
  rewrite Hd. apply (wp_for_acc (fun j _ s' => formatted s' (j + 1) 0 /\ fs_ctx s' = fs_ctx s)).
  - done.
  - intros j [] s1 Hj (Hf1 & Hx1). apply wp_or_return.
    assert ({| data_start := 0; free_size := block_size c; phy_id := add32 j (etss_init_dblock_start c) |}
      = fresh_block c (j + 1)) as ->.
    { unfold fresh_block, etss_init_dblock_start. destruct (Z.eqb_spec (j + 1) 0); [lia|].
      unfold nact in Hd, Hj. destruct (Z.eqb_spec (num_blocks c) 2); [simpl in Hj; lia|].
      rewrite add32_small by lia. f_equal. lia. }
    apply wp_format_bm; [done|lia|]. intros s2 Hf2 Hx2. split; [done|congruence].
  - intros [] s1 (Hf1 & Hx1). apply HQ; [|done].
    replace (0 + Z.of_nat (Z.to_nat (nact c - 1)) + 1) with (nact c) in Hf1 by lia. done.
Qed.

Lemma wp_format_files s (Q : outcome unit -> fs_state E -> Prop) :
  formatted s (nact c) 0 ->
  (forall s', formatted s' (nact c) (max_num_files c) -> fs_ctx s' = fs_ctx s -> Q (Ok tt) s') ->
  wp (for_acc (Z.to_nat (max_num_files c)) 0 tt (fun i _ =>
        or_return (etss_flash_fs_mblock_update_scratch_file_meta i zero_file_meta)
          PSA_ERROR_GENERIC_ERROR)) s Q.
Proof.
  intros Hf HQ. pose proof (files_range c Hc).
  apply (wp_for_acc (fun j _ s' => formatted s' (nact c) j /\ fs_ctx s' = fs_ctx s)).
  - done.
  - intros j [] s1 Hj (Hf1 & Hx1). apply wp_or_return, wp_format_fm; [done|lia|].
    intros s2 Hf2 Hx2. split; [done|congruence].
  - intros [] s1 (Hf1 & Hx1). apply HQ; [|done].
    by replace (0 + Z.of_nat (Z.to_nat (max_num_files c))) with (max_num_files c) in Hf1 by lia.
Qed.

(** Formatting a healthy device makes an empty file system, whatever the
    device held. *)
Lemma wp_wipe_all s :
  ok c s -> cfg (fs_ctx s) = c -> header_typed (meta_block_header (fs_ctx s)) ->
  wp etss_flash_fs_wipe_all s (fun r s' =>
    r = Ok tt /\ ok c s' /\ cfg (fs_ctx s') = c /\ mounts c (im s') ∅).
Proof.
  intros Hok Hs Hh. pose proof (nact_range c Hc) as Hn. pose proof (files_range c Hc) as Hfr.
  pose proof (metadata_fits c Hc) as Hfit. pose proof (block_size_range c Hc) as Hbs.
  unfold etss_flash_fs_wipe_all, etss_flash_fs_mblock_reset_metablock.
  apply (wp_wipe_erase s (fun _ => _) _ Hok Hs). intros s1 Hok1 Hs1 Hh1 He0 He1.
  apply wp_bind, wp_modify, wp_bind, wp_modify.
  match goal with |- wp _ ?st _ => set (s2 := st) end.
  assert (env_ok c s2 0 1) as Hx2.
  { split; [split; [exact Hs1|by left]|]. done. }
  assert (cfg (fs_ctx s2) = c) as Hs2 by exact Hs1.
  assert (formatted s2 0 0) as Hf2.
  { split; [done|done|split|lia|lia|..].
    - eapply (erased_sub c); [exact He0|unfold fmo in *; lia..].
    - eapply (erased_sub c); [exact He1|unfold fmo in *; lia..].
    - eapply (erased_sub c); [exact He1|unfold bmo, fmo in *; lia..].
    - eapply (erased_sub c); [exact He1|unfold fmo in *; lia..]. }
  apply wp_bind, wp_get_ctx. rewrite Hs2. cbv zeta.
  rewrite file_meta_offset_eq by (done || lia). rewrite sub32_small by (unfold fmo in *; lia).
  apply wp_bind, (wp_format_bm s2 0 _ Hf2); [lia|]. intros s3 Hf3 Hx3.
  apply wp_bind, wp_format_erase; [exact Hf3|]. intros s4 Hf4 Hx4.
  change (negb (PSA_SUCCESS =? PSA_SUCCESS)) with false. apply wp_bind, wp_ret.
  apply wp_bind, wp_format_blocks; [done|]. intros s5 Hf5 Hx5.
  apply wp_bind, wp_format_files; [done|]. intros s6 Hf6 Hx6.
  assert (fs_ctx s6 = fs_ctx s2) as Hx by congruence.
  assert (dsc s6 = etss_init_scratch_dblock c) as HD.
  { unfold dsc. rewrite Hx. simpl. by rewrite Hs1. }
  assert (tables_equiv c (fresh_tables c) (tables_at c (im s6) 1)) as HE.
  { destruct Hf6 as [_ _ _ Hbm Hfm _ _]. split; intros j Hj; simpl; symmetry; [by apply Hbm|by apply Hfm]. }
  assert (prepared c s6 0 1) as Hp.
  { split.
    - apply Hf6.
    - rewrite Hx. unfold s2; cbn [fs_ctx set_metablocks meta_block_header set_header]. rewrite Hs1, Hh1.
      destruct Hh as (? & ? & ? & ? & ?). unfold initial_header, etss_init_scratch_dblock.
      split_and!; cbn [scratch_dblock fs_version metadata_xor active_swap_count hdr_pad]; try done;
        repeat case_match; unfold is_u32, is_u8; lia.
    - rewrite Hx. done.
    - unfold valid_at. rewrite header_erased; [done|]. apply Hf6.
    - apply Hf6.
    - rewrite HD. eapply wf_equiv; [lia|exact HE|by apply fresh_wf]. }
  apply wp_bind, wp_or_return. eapply wp_mono; [by apply (wp_write_header c Hc s6 0 1)|].
  intros r s7 (k & Hk & Hout & Hin & Hok7 & Hr). specialize (Hok7 (fo_ok _ _ _ Hf6)).
  destruct r as [[]|e]; [|by destruct Hr; apply Hf6]. destruct Hr as [-> Hx7].
  destruct (commit_disk c Hc s6 (im s7) 0 1 8 Hp Hk Hout Hin) as [_ Hnew].
  destruct Hnew as (Hd7 & Hv7 & _); [lia|].
  assert (disk_view c (im s6) 1 = ∅) as Hv6.
  { unfold disk_view. etransitivity; [|apply (fresh_view c Hc (im s6))].
    by apply (view_equiv c _ _ 1 _ _ _ Hc (or_intror eq_refl) HE (fresh_wf c Hc)). }
  assert (cfg (fs_ctx s7) = c) as Hs7 by (rewrite Hx7; simpl; by rewrite Hx).
  apply wp_bind, wp_get_ctx. apply wp_bind. eapply wp_mono; [by apply (wp_ops_flush c)|].
  intros r s8 (Hup8 & [-> | Hsick]); [|by destruct Hsick]. apply wp_modify.
  split; [done|]. split; [by eapply (ok_upto c _ _ _ Hup8)|]. split; [exact (upto_cfg _ _ _ _ Hup8 Hs7)|].
  exists 1. change (im _) with (im s8).
  destruct (disk_same c Hc (im s7) (im s8) 1 Hd7) as (Hd8 & Hv8 & _); [intros; by apply upto_nowhere|].
  split; [done|congruence].
Qed.
End Wipe.

(** ** Starting on any device *)

(** The device holds the file system [v], or none at all. *)
Definition bootable (c : etss_flash_fs_config_t) (g : image) (v : gmap (list Z) afile) : Prop :=
  mounts c g v \/ (selected c g = None /\ v = ∅).

Section Boot.
Context {E : Type} {FO : FlashOps E} (c : etss_flash_fs_config_t) {FL : FlashLaws E c}.
Context (Hc : cfg_ok c).
Implicit Types s : fs_state E.

(** Without a valid metadata block mounting fails, and only reads. *)
Lemma wp_prepare_unformatted s :
  ok c s -> cfg (fs_ctx s) = c -> selected c (im s) = None ->
  wp etss_flash_fs_prepare s (fun r s' =>
    r = Err PSA_ERROR_GENERIC_ERROR /\ ok c s' /\ fs_ctx s' = fs_ctx s).
Proof.
  intros Hok Hs Hsel. unfold etss_flash_fs_prepare, etss_flash_fs_mblock_init.
  apply wp_bind. eapply wp_seq; [by apply (wp_ops_init c)|..].
  { intros e s1 (_ & [[=]|Hsick]). by destruct Hsick. }
  intros [] s1 (Hup1 & _). pose proof (ok_upto _ _ _ _ Hup1 Hok) as Hok1.
  pose proof (upto_cfg _ _ _ _ Hup1 Hs) as Hs1. apply wp_bind, wp_or_return.
  eapply wp_mono; [by apply (wp_get_active c Hc)|]. intros r s2 (Hok2 & _ & Hr).
  assert (selected c (im s1) = None) as Hsel1.
  { rewrite <- Hsel. unfold selected, probe_spec, header_valid.
    by rewrite !(nw_hdr c s s1), !(nw_xor c s s1) by done. }
  rewrite Hsel1 in Hr. destruct Hr as [-> Hx2]. split; [done|]. split; [done|].
  by rewrite Hx2, (upto_ctx _ _ _ Hup1).
Qed.
End Boot.
