(* ===== verification/FsRefine.v ===== *)
(** * The abstract file system and the refinement

    What the flash file system promises to its clients, as an automaton over
    finite maps from file identifiers to files: it is mounted, or it waits for
    a mount after a failure.  A failed update has happened completely or not
    at all, a refused one changes nothing.  Every run of the file system, with
    failing devices, refused requests and restarts, is a run of the automaton.

    Two limits of the code show in the automaton.  After the refusal of a
    write that would have replaced a file, the mark of that file stays in the
    scratch metadata block: until the next mount only look-ups are promised
    ([FsDetails.refused_write_loses_file] is the run that shows why).  And the
    deletion or replacement of a file that has room for no byte is not
    promised to work ([FsDetails.delete_zero_size_corrupts]). *)
From Stdlib Require Import ZArith Lia.
From stdpp Require Import base list numbers gmap options.
From S2P Require Import Prelude EtssUtils FlashFsDefs Mblock Dblock FlashFs MblockSpec.
From S2P Require Import FsReads FsTables FsUpdate FsDisk FsStage FsCommit FsRead FsStaged.
From S2P Require Import FsDelete FsWrite FsOps.

#[local] Set Default Proof Using "Type*".

(** ** Requests *)

Inductive request : Type :=
| RWrite (fid : list Z) (flgs max_sz data_size offset : Z) (data : list Z)
| RDelete (fid : list Z)
| RRead (fid : list Z) (size offset : Z)
| RInfo (fid : list Z)
| RExist (fid : list Z).

Inductive answer : Type :=
| ADone
| AData (bs : list Z)
| AInfo (i : etss_file_info_t).

Definition succeeded {A} (r : outcome A) : bool := match r with Ok _ => true | Err _ => false end.

Definition to_answer {A} (f : A -> answer) (r : outcome A) : outcome answer :=
  match r with Ok a => Ok (f a) | Err e => Err e end.

Section Serve.
Context {E : Type} {FO : FlashOps E}.

(** A request carried out by the file system. *)
Definition serve (q : request) (s : fs_state E) : outcome answer * fs_state E :=
  match q with
  | RWrite fid flgs max_sz data_size offset data =>
      let '(r, s') := etss_flash_fs_file_write fid flgs max_sz data_size offset data s in
      (to_answer (fun _ => ADone) r, s')
  | RDelete fid =>
      let '(r, s') := etss_flash_fs_file_delete fid s in (to_answer (fun _ => ADone) r, s')
  | RRead fid size offset =>
      let '(r, s') := etss_flash_fs_file_read fid size offset s in (to_answer AData r, s')
  | RInfo fid =>
      let '(r, s') := etss_flash_fs_file_get_info fid s in (to_answer AInfo r, s')
  | RExist fid =>
      let '(r, s') := etss_flash_fs_file_exist fid s in (to_answer (fun _ => ADone) r, s')
  end.
End Serve.

(** ** The automaton *)

Definition files : Type := gmap (list Z) afile.

(** Mounted; mounted, with the mark of a refused replacement; or waiting for
    a mount. *)
Inductive afs : Type :=
| Mounted (v : files)
| Marked (v : files)
| Unmounted (v : files).

Definition files_of (a : afs) : files :=
  match a with Mounted v | Marked v | Unmounted v => v end.

Section Abstract.
Context (c : etss_flash_fs_config_t).

(** The files after a request that was carried out. *)
Definition updated (q : request) (v : files) : files :=
  match q with
  | RWrite fid flgs max_sz data_size offset data =>
      write_spec c v fid flgs max_sz data_size offset data
  | RDelete fid => delete fid v
  | _ => v
  end.

(** The answer of a request that does not change the files. *)
Definition looked_up (q : request) (v : files) : option (outcome answer) :=
  match q with
  | RRead fid size offset => Some (to_answer AData (read_spec v fid size offset))
  | RInfo fid => Some (to_answer AInfo (info_spec v fid))
  | RExist fid => Some (to_answer (fun _ => ADone) (exist_spec v fid))
  | _ => None
  end.

(** Types and buffer lengths; a file that is deleted or replaced can hold
    at least one byte. *)
Definition sensible (q : request) (v : files) : Prop :=
  match q with
  | RWrite fid flgs max_sz data_size offset data =>
      write_args c fid flgs max_sz data_size offset data /\
      forall F, v !! fid = Some F -> replaces c v fid flgs max_sz = true -> 0 < af_max F
  | RDelete fid => fid_ok fid /\ forall F, v !! fid = Some F -> 0 < af_max F
  | RRead fid size offset => fid_ok fid /\ is_u32 size /\ is_u32 offset
  | RInfo fid | RExist fid => fid_ok fid
  end.

(** The write replaces a file. *)
Definition replacing (q : request) (v : files) : bool :=
  match q with
  | RWrite fid flgs max_sz _ _ _ => replaces c v fid flgs max_sz
  | _ => false
  end.

(** A write may be refused if its arguments are wrong, or if it needs a new
    entry, for which there may be no room. *)
Definition refusable (q : request) (v : files) : Prop :=
  match q with
  | RWrite fid flgs max_sz data_size offset _ =>
      creates c v fid flgs max_sz = true \/
      ~ acceptable c v fid flgs max_sz data_size offset (fun _ => True) (fun _ => True)
  | _ => False
  end.

Inductive astep : afs -> option (request * outcome answer) -> afs -> Prop :=
| as_look q v r : sensible q v -> looked_up q v = Some r ->
    astep (Mounted v) (Some (q, r)) (Mounted v)
| as_update q v : sensible q v -> looked_up q v = None ->
    astep (Mounted v) (Some (q, Ok ADone)) (Mounted (updated q v))
| as_missing fid v : sensible (RDelete fid) v -> v !! fid = None ->
    astep (Mounted v) (Some (RDelete fid, Err PSA_ERROR_DOES_NOT_EXIST)) (Mounted v)
| as_refused q v e : sensible q v -> refusable q v -> replacing q v = false ->
    astep (Mounted v) (Some (q, Err e)) (Mounted v)
| as_marked q v e : sensible q v -> refusable q v -> replacing q v = true ->
    astep (Mounted v) (Some (q, Err e)) (Marked v)
| as_look_marked q v r : sensible q v -> looked_up q v = Some r ->
    astep (Marked v) (Some (q, r)) (Marked v)
| as_fail_marked q v e : sensible q v -> looked_up q v <> None ->
    astep (Marked v) (Some (q, Err e)) (Unmounted v)
| as_stop_marked v : astep (Marked v) None (Unmounted v)
| as_old q v e : sensible q v -> astep (Mounted v) (Some (q, Err e)) (Unmounted v)
| as_new q v e : sensible q v -> astep (Mounted v) (Some (q, Err e)) (Unmounted (updated q v))
| as_stop v : astep (Mounted v) None (Unmounted v)
| as_mount v : astep (Unmounted v) None (Mounted v).

Inductive arun : afs -> list (option (request * outcome answer)) -> afs -> Prop :=
| ar_nil a : arun a [] a
| ar_cons a l a' ls a'' : astep a l a' -> arun a' ls a'' -> arun a (l :: ls) a''.

(** The files only change through requests. *)
Lemma arun_app a l1 a' l2 a'' : arun a l1 a' -> arun a' l2 a'' -> arun a (l1 ++ l2) a''.
Proof. induction 1; simpl; [done|]. intros. econstructor; eauto. Qed.
End Abstract.

(** ** The concrete runs *)

Section Refine.
Context {E : Type} {FO : FlashOps E} (c : etss_flash_fs_config_t) {FL : FlashLaws E c}.
Context (Hc : cfg_ok c).

(** A restart: the flash keeps its contents, works again, and the context
    is set up anew. *)
Record restart (s s' : fs_state E) : Prop := {
  rs_image : same_image (im s) (im s');
  rs_healthy : ok c s';
  rs_cfg : cfg (fs_ctx s') = c
}.

(** A running file system serves requests; one that has refused a
    replacement serves look-ups; after an error of an update, or at any time,
    it may be restarted and mounted. *)
Inductive cstate : Type :=
| Up (s : fs_state E)
| Worn (s : fs_state E)
| Down (s : fs_state E).

(** The state after the answer of a working device. *)
Definition after (q : request) (v : files) (r : outcome answer) (s' : fs_state E) : cstate :=
  if succeeded r then Up s' else if replacing c q v then Worn s' else Up s'.

Inductive cstep : cstate -> option (request * outcome answer) -> cstate -> Prop :=
| cs_serve q s r s' : sensible c q (ready_view c s) -> serve q s = (r, s') ->
    ok c s \/ succeeded r = true -> cstep (Up s) (Some (q, r)) (after q (ready_view c s) r s')
| cs_look q s r s' : sensible c q (ready_view c s) -> looked_up q (ready_view c s) <> None ->
    serve q s = (r, s') -> ok c s \/ succeeded r = true -> cstep (Worn s) (Some (q, r)) (Worn s')
| cs_fail q s e s' : sensible c q (ready_view c s) -> serve q s = (Err e, s') ->
    cstep (Up s) (Some (q, Err e)) (Down s')
| cs_fail_look q s e s' : sensible c q (ready_view c s) -> looked_up q (ready_view c s) <> None ->
    serve q s = (Err e, s') -> cstep (Worn s) (Some (q, Err e)) (Down s')
| cs_stop s : cstep (Up s) None (Down s)
| cs_stop_worn s : cstep (Worn s) None (Down s)
| cs_mount s s1 s' : restart s s1 -> etss_flash_fs_prepare s1 = (Ok tt, s') ->
    cstep (Down s) None (Up s').

(** Look-ups work, and a mount would find the files. *)
Definition worn (s : fs_state E) (v : files) : Prop :=
  readable c s /\ ready_view c s = v /\ mounts c (im s) v.

Definition refines (x : cstate) (a : afs) : Prop :=
  match x, a with
  | Up s, Mounted v => settled c s /\ ready_view c s = v
  | Worn s, Marked v => worn s v
  | Down s, Unmounted v => mounts c (im s) v
  | _, _ => False
  end.

Inductive crun : cstate -> list (option (request * outcome answer)) -> cstate -> Prop :=
| cr_nil x : crun x [] x
| cr_cons x l x' ls x'' : cstep x l x' -> crun x' ls x'' -> crun x (l :: ls) x''.

Lemma wp_run {S A} (m : ST S A) s Q r s' : wp m s Q -> m s = (r, s') -> Q r s'.
Proof using Type. unfold wp. intros H Heq. by rewrite Heq in H. Qed.

Lemma serve_read {B} (m : FS E B) (f : B -> answer) s v r s' :
  wp m s (reads c s v) -> (let '(r, s') := m s in (to_answer f r, s')) = (r, s') ->
  upto nowhere s s' /\ (r = to_answer f v \/ (sick c s /\ succeeded r = false)).
Proof using Type.
  intros Hm Heq. destruct (m s) as [r0 s1] eqn:Hms. simplify_eq.
  destruct (wp_run m s _ _ _ Hm Hms) as [Hup [-> | (Hsick & e & ->)]]; auto.
Qed.

Lemma settled_nw s s' : upto nowhere s s' -> settled c s ->
  settled c s' /\ ready_view c s' = ready_view c s.
Proof.
  intros Hup [Hr Hcl]. destruct (ready_nw c Hc s s' Hup Hr) as (Hr' & Hv & HE).
  split; [split; [done|]|done]. by eapply clean_equiv.
Qed.

Lemma settled_mounts s : settled c s -> mounts c (im s) (ready_view c s).
Proof using Type. intros [Hr _]. by apply ready_mounts. Qed.

Lemma settled_worn s v : settled c s -> ready_view c s = v -> worn s v.
Proof using Type. intros Hset <-. split; [by apply settled_readable|]. split; [done|by apply settled_mounts]. Qed.

(** What is staged for an update that is then given up does no harm to
    look-ups. *)
Lemma staged_worn s s' v : settled c s -> ready_view c s = v -> staging c s s' -> worn s' v.
Proof.
  intros [Hr Hcl] <- Hst. destruct (st_readable c Hc s Hr s' Hst Hcl) as [Hb Hv].
  split; [done|]. split; [done|]. by apply (st_mounts c Hc s Hr).
Qed.

Lemma worn_nw s s' v : upto nowhere s s' -> worn s v -> worn s' v.
Proof.
  intros Hup (Hb & <- & Hm). pose proof (nw_act c s s' Hup) as Ha.
  destruct (rb_tables _ _ Hb) as [D Hwf]. pose proof (nact_range c Hc) as Hn.
  assert (same_image (im s) (im s')) as Him by (intros b o; by apply upto_nowhere).
  assert (tables_equiv c (tables_at c (im s) (act s)) (tables_at c (im s') (act s'))) as HE.
  { rewrite Ha. split; intros i Hi; cbn; [by rewrite (nw_bm c s s')|by rewrite (nw_fm c s s')]. }
  split; [|split; [|by eapply mounts_same]].
  - split; [by eapply upto_ctx_ok, rb_ctx|exists D|rewrite Ha; apply Hb|by eapply clean_equiv, rb_clean].
    rewrite Ha in *. eapply wf_equiv; [lia|done..].
  - apply (view_equiv c _ _ (act s) D); [done|apply Hb|done|done|]. intros l o _ _. apply Him.
Qed.

(** A file system that can be used: fully, or, if it is marked, for look-ups
    only. *)
Definition usable (marked : bool) (s : fs_state E) : Prop :=
  if marked then worn s (ready_view c s) else settled c s.

Lemma usable_readable mk s : usable mk s -> readable c s.
Proof using Type. destruct mk; [by intros []|apply settled_readable]. Qed.

Lemma usable_mounts mk s : usable mk s -> mounts c (im s) (ready_view c s).
Proof using Type. destruct mk; [by intros (_ & _ & ?)|apply settled_mounts]. Qed.

Lemma usable_nw mk s s' : upto nowhere s s' -> usable mk s ->
  usable mk s' /\ ready_view c s' = ready_view c s.
Proof.
  intros Hup Hu. destruct mk; [|by apply settled_nw].
  pose proof (worn_nw s s' _ Hup Hu) as Hw. destruct (Hw) as (_ & Hv & _). unfold usable. by rewrite Hv.
Qed.

(** A write on a working device: carried out, or refused.  Then all files are
    there; only if the request would have replaced the file, the file system
    is left marked. *)
Lemma wp_file_write_usable s fid flgs mx n off data :
  settled c s -> write_args c fid flgs mx n off data ->
  (forall F, ready_view c s !! fid = Some F -> replaces c (ready_view c s) fid flgs mx = true -> 0 < af_max F) ->
  wp (etss_flash_fs_file_write fid flgs mx n off data) s (fun r s' =>
    (ok c s -> ok c s') /\
    match r with
    | Ok _ => settled c s' /\ accepted c s fid flgs mx n off /\
              ready_view c s' = write_spec c (ready_view c s) fid flgs mx n off data
    | Err _ => sick c s \/
        (~ accepted c s fid flgs mx n off /\
         usable (replaces c (ready_view c s) fid flgs mx) s' /\ ready_view c s' = ready_view c s)
    end).
Proof.
  intros Hset Hargs Hroom.
  eapply wp_mono; [exact (wp_file_write c Hc s Hset fid flgs mx n off data Hargs Hroom)|].
  intros r s' (_ & Hok & Hr). split; [done|]. destruct r as [[]|e]; [by destruct Hr as (? & ? & ?)|].
  destruct Hr as [?|[[Hno Hsp] Hst]]; [by left|right]. split; [done|].
  pose proof (staged_worn s s' _ Hset eq_refl Hst) as Hw. destruct (Hw) as (_ & Hv & _).
  split; [|done]. destruct (replaces _ _ _ _ _) eqn:Hrp; cbn; [by rewrite Hv|].
  destruct Hsp as [Hsp|Hup]; [congruence|by eapply settled_nw].
Qed.

(** A look-up: the answer of the view, and an unchanged device. *)
Lemma serve_look q s v r s' a :
  readable c s -> ready_view c s = v -> sensible c q v -> looked_up q v = Some a ->
  serve q s = (r, s') ->
  upto nowhere s s' /\ (r = a \/ (sick c s /\ succeeded r = false)).
Proof.
  intros Hset Hv Hsen Hl Hs.
  destruct q as [fid flgs mx n off data|fid|fid size offset|fid|fid]; simpl in *; try done;
    injection Hl as <-; rewrite <- Hv.
  - destruct Hsen as (? & ? & ?). eapply serve_read; [|exact Hs]. by apply (wp_file_read c Hc).
  - eapply serve_read; [|exact Hs]. by apply (wp_file_get_info c Hc).
  - eapply serve_read; [|exact Hs]. by apply (wp_file_exist c Hc).
Qed.

Lemma refused_refusable s fid flgs mx n off data :
  ~ accepted c s fid flgs mx n off -> refusable c (RWrite fid flgs mx n off data) (ready_view c s).
Proof.
  intros Hno. simpl. destruct (creates c _ fid flgs mx) eqn:Hcr; [by left|right].
  intros (H1 & H2 & H3 & H4). apply Hno. split_and!; [done..|by rewrite Hcr|done].
Qed.

(** An update: done, or refused, or a failure between the two. *)
Lemma serve_update q s v r s' :
  settled c s -> ready_view c s = v -> sensible c q v -> looked_up q v = None ->
  serve q s = (r, s') ->
  (mounts c (im s') v \/ mounts c (im s') (updated c q v)) /\
  match r with
  | Ok a => a = ADone /\ settled c s' /\ ready_view c s' = updated c q v
  | Err e => sick c s \/
      ((exists fid, q = RDelete fid /\ v !! fid = None) /\ e = PSA_ERROR_DOES_NOT_EXIST /\
       settled c s' /\ ready_view c s' = v) \/
      (refusable c q v /\
       if replacing c q v then worn s' v else settled c s' /\ ready_view c s' = v)
  end.
Proof.
  intros Hset <- Hsen Hl Hs. destruct q as [fid flgs mx n off data|fid|fid size offset|fid|fid]; try done; simpl in *.
  - destruct Hsen as [Hargs Hroom].
    pose proof (wp_file_write c Hc s Hset fid flgs mx n off data Hargs Hroom) as Hw.
    destruct (etss_flash_fs_file_write _ _ _ _ _ _ s) as [r0 s1] eqn:Hm. simplify_eq.
    destruct (wp_run _ _ _ _ _ Hw Hm) as (Hmt & _ & Hr). split; [done|].
    destruct r0 as [[]|e]; simpl; [split_and!; [done|apply Hr..]|].
    destruct Hr as [?|[[Hno Hsp] Hst]]; [by left|right; right]. split; [by apply refused_refusable|].
    destruct (replaces _ _ _ _ _) eqn:Hrp; [by eapply staged_worn|].
    destruct Hsp as [Hsp|Hup]; [congruence|by apply settled_nw].
  - destruct Hsen as [Hfid Hpos]. pose proof (wp_file_delete c Hc s fid Hset Hfid Hpos) as Hw.
    destruct (etss_flash_fs_file_delete _ s) as [r0 s1] eqn:Hm. simplify_eq.
    destruct (wp_run _ _ _ _ _ Hw Hm) as (Hmt & _ & Hr). split; [done|].
    destruct r0 as [[]|e]; simpl; [split_and!; [done|apply Hr..]|].
    destruct Hr as [?|(-> & ? & ? & ?)]; [by left|right; left]. split_and!; [by exists fid|done..].
Qed.

(** A request to a running file system. *)
Lemma refines_serve q s r s' v :
  settled c s -> ready_view c s = v -> sensible c q v -> serve q s = (r, s') ->
  ok c s \/ succeeded r = true ->
  exists a', astep c (Mounted v) (Some (q, r)) a' /\ refines (after q v r s') a'.
Proof.
  intros Hset Hv Hsen Hs Hok. unfold after. destruct (looked_up q v) as [a|] eqn:Hl.
  - destruct (serve_look q s v r s' a (settled_readable c s Hset) Hv Hsen Hl Hs) as [Hup Hr].
    assert (r = a) as -> by (destruct Hr as [|[Hsick Hf]]; [done|destruct Hok; [by destruct Hsick|congruence]]).
    assert (replacing c q v = false) as -> by by destruct q.
    destruct (settled_nw s s' Hup Hset) as [Hset' Hv'].
    exists (Mounted v). split; [by apply as_look|]. destruct (succeeded a); split; congruence.
  - destruct (serve_update q s v r s' Hset Hv Hsen Hl Hs) as [_ Hr]. destruct r as [a|e]; cbn [succeeded].
    + destruct Hr as (-> & ? & ?). exists (Mounted (updated c q v)). split; [by apply as_update|done].
    + destruct Hok as [Hok|[=]]. destruct Hr as [Hsick|[((fid & -> & Hn) & -> & ? & ?)|[Href Hr]]]; [by destruct Hsick|..].
      * exists (Mounted v). split; [by apply as_missing|done].
      * destruct (replacing c q v) eqn:Hrp; [exists (Marked v)|exists (Mounted v)]; (split; [|done]);
          [by apply as_marked|by apply as_refused].
Qed.

(** A look-up after a refused replacement. *)
Lemma refines_look q s r s' v :
  worn s v -> sensible c q v -> looked_up q v <> None -> serve q s = (r, s') ->
  worn s' v /\ (ok c s \/ succeeded r = true -> astep c (Marked v) (Some (q, r)) (Marked v)).
Proof.
  intros Hw Hsen Hl Hs. destruct (looked_up q v) as [a|] eqn:Ha; [|done].
  destruct (serve_look q s v r s' a (proj1 Hw) (proj1 (proj2 Hw)) Hsen Ha Hs) as [Hup Hr].
  split; [by eapply worn_nw|]. intros Hok. apply as_look_marked; [done|].
  destruct Hr as [->|[Hsick Hf]]; [done|]. destruct Hok; [by destruct Hsick|congruence].
Qed.

(** A failure: the files before the request, or after it. *)
Lemma refines_fail q s e s' v :
  settled c s -> ready_view c s = v -> sensible c q v -> serve q s = (Err e, s') ->
  exists a', astep c (Mounted v) (Some (q, Err e)) a' /\ refines (Down s') a'.
Proof.
  intros Hset Hv Hsen Hs. destruct (looked_up q v) as [a|] eqn:Hl.
  - destruct (serve_look q s v _ s' a (settled_readable c s Hset) Hv Hsen Hl Hs) as [Hup _].
    exists (Unmounted v). split; [by apply as_old|]. by apply (worn_nw s s' v Hup), settled_worn.
  - destruct (serve_update q s v _ s' Hset Hv Hsen Hl Hs) as [[Hm|Hm] _];
      [exists (Unmounted v); split; [by apply as_old|done]
      |exists (Unmounted (updated c q v)); split; [by apply as_new|done]].
Qed.

Lemma refines_mount s s1 s' v :
  mounts c (im s) v -> restart s s1 -> etss_flash_fs_prepare s1 = (Ok tt, s') ->
  refines (Up s') (Mounted v).
Proof.
  intros Hm [Him Hok Hcfg] Hp. apply (mounts_same c Hc _ _ _ Him) in Hm.
  destruct (wp_run _ _ _ _ _ (wp_prepare c Hc s1 v Hok Hcfg Hm) Hp) as (_ & _ & ? & ?). done.
Qed.

(** One step of the file system is one step of the automaton. *)
Lemma refines_step x l x' a : refines x a -> cstep x l x' ->
  exists a', astep c a l a' /\ refines x' a'.
Proof.
  intros Href Hstep. destruct a as [v|v|v]; destruct Hstep; try done; cbn in Href.
  - destruct Href as [Hset Hv]. subst v. by eapply refines_serve.
  - destruct Href as [Hset Hv]. subst v. by eapply refines_fail.
  - destruct Href as [Hset <-]. eexists. split; [apply as_stop|by apply settled_mounts].
  - destruct Href as (Hb & <- & Hm). destruct (refines_look q s r s' _ ltac:(done) H H0 H1) as [Hw Hst].
    exists (Marked (ready_view c s)). split; [by apply Hst|done].
  - destruct Href as (Hb & <- & Hm). destruct (refines_look q s _ s' _ ltac:(done) H H0 H1) as [Hw _].
    exists (Unmounted (ready_view c s)). split; [by apply as_fail_marked|apply Hw].
  - exists (Unmounted v). split; [apply as_stop_marked|apply Href].
  - exists (Mounted v). split; [apply as_mount|by eapply refines_mount].
Qed.
End Refine.
