(* ===== verification/FsExample.v ===== *)
(** * A concrete file system

    Small configurations on the NOR device of [NorDevice], formatted and
    mounted, for the concrete instances of the theorems. *)
From Stdlib Require Import ZArith Lia.
From stdpp Require Import base list numbers gmap options.
From S2P Require Import Prelude EtssUtils FlashFsDefs Mblock Dblock FlashFs NorDevice.
From S2P Require Import MblockSpec FsReads FsTables FsUpdate FsDisk FsStage FsCommit.
From S2P Require Import FsRead FsStaged FsDelete FsWrite FsOps FsRefine.

(** Five blocks of 512 bytes: two metadata blocks, the scratch data block and
    two dedicated data blocks. *)
Definition c5 : etss_flash_fs_config_t :=
  {| flash_area_addr := 0; sector_size := 256; block_size := 512; num_blocks := 5;
     program_unit := 1; max_file_size := 200; max_num_files := 4; erase_val := 255 |}.

(** Two blocks only: data and metadata share them. *)
Definition c2 : etss_flash_fs_config_t :=
  {| flash_area_addr := 0; sector_size := 256; block_size := 512; num_blocks := 2;
     program_unit := 4; max_file_size := 200; max_num_files := 4; erase_val := 255 |}.

Lemma c5_nor : nor_cfg c5.
Proof. by split. Qed.
Lemma c2_nor : nor_cfg c2.
Proof. by split. Qed.

#[export] Instance c5_laws : FlashLaws nor c5 := nor_laws c5 c5_nor.
#[export] Instance c2_laws : FlashLaws nor c2 := nor_laws c2 c2_nor.

Lemma c5_ok : cfg_ok c5.
Proof. by repeat split. Qed.
Lemma c2_ok : cfg_ok c2.
Proof. by repeat split. Qed.

Definition boot_ctx (c : etss_flash_fs_config_t) : etss_flash_fs_ctx_t :=
  match etss_flash_fs_init_ctx (Some c) with
  | Ok x => x
  | Err _ => {| cfg := c; meta_block_header := dec_header []; active_metablock := 0; scratch_metablock := 0 |}
  end.

(** A device as delivered, and a device switched on. *)
Definition boot (c : etss_flash_fs_config_t) (d : nor) : fs_state nor :=
  {| fs_ctx := boot_ctx c; fs_env := d |}.

Definition format : FS nor unit := etss_flash_fs_wipe_all;; etss_flash_fs_prepare.

(** The freshly formatted file systems. *)
Definition empty5 : fs_state nor := (format (boot c5 nor_empty)).2.
Definition empty2 : fs_state nor := (format (boot c2 nor_empty)).2.

Definition file1 : list Z := [1; 0; 0; 0; 0; 0; 0; 0; 0; 0; 0; 0].
Definition file2 : list Z := [2; 0; 0; 0; 0; 0; 0; 0; 0; 0; 0; 0].
Definition file3 : list Z := [3; 0; 0; 0; 0; 0; 0; 0; 0; 0; 0; 0].
Definition hello : list Z := [104; 101; 108; 108; 111; 33; 0; 0].

Definition create_truncate : Z := ETSS_FLASH_FS_FLAG_CREATE + ETSS_FLASH_FS_FLAG_TRUNCATE.

(** One file written. *)
Definition one5 : fs_state nor :=
  (etss_flash_fs_file_write file1 create_truncate 8 6 0 hello empty5).2.

Lemma format_ok (c : etss_flash_fs_config_t) (Hc : cfg_ok c) {FL : FlashLaws nor c} (s : fs_state nor) :
  ok c s -> cfg (fs_ctx s) = c -> header_typed (meta_block_header (fs_ctx s)) ->
  wp format s (fun r s' => r = Ok tt /\ ok c s' /\ settled c s' /\ ready_view c s' = ∅).
Proof.
  intros Hok Hs Hh. unfold format. apply wp_bind. eapply wp_mono; [by apply (wp_wipe_all c Hc)|].
  intros r s1 (-> & Hok1 & Hs1 & Hm1). by apply (wp_prepare c Hc).
Qed.

Lemma boot_typed c d : etss_flash_fs_validate_config c = PSA_SUCCESS ->
  header_typed (meta_block_header (fs_ctx (boot c d))).
Proof.
  intros Hv. unfold boot, boot_ctx, etss_flash_fs_init_ctx; simpl. rewrite Hv. simpl.
  repeat split; simpl; lia.
Qed.

Lemma empty5_ok : ok c5 empty5 /\ settled c5 empty5 /\ ready_view c5 empty5 = ∅.
Proof.
  pose proof (format_ok c5 c5_ok (boot c5 nor_empty) eq_refl eq_refl
    (boot_typed c5 nor_empty eq_refl)) as H.
  unfold wp in H. fold empty5 in H. exact (proj2 H).
Qed.

Lemma empty2_ok : ok c2 empty2 /\ settled c2 empty2 /\ ready_view c2 empty2 = ∅.
Proof.
  pose proof (format_ok c2 c2_ok (boot c2 nor_empty) eq_refl eq_refl
    (boot_typed c2 nor_empty eq_refl)) as H.
  unfold wp in H. fold empty2 in H. exact (proj2 H).
Qed.

Lemma file1_ok : fid_ok file1.
Proof. split; [done|]. split; [|done]. repeat constructor; lia. Qed.

Lemma write_hello_args c off : 0 < program_unit c -> program_unit c = 1 -> is_u32 off ->
  write_args c file1 create_truncate 8 6 off hello.
Proof.
  intros _ Hp Hoff. split; try done; [apply file1_ok|repeat constructor; lia|..];
    rewrite Hp; vm_compute; done.
Qed.

Definition hello_view : gmap (list Z) afile :=
  {[ file1 := {| af_data := [104; 101; 108; 108; 111; 33]; af_max := 8; af_flags := create_truncate |} ]}.

Lemma no_file c fid flgs mx : forall F, (∅ : gmap (list Z) afile) !! fid = Some F ->
  replaces c ∅ fid flgs mx = true -> 0 < af_max F.
Proof. by intros F. Qed.

Lemma run_ok {S A} (m : ST S A) s a : (m s).1 = Ok a -> m s = (Ok a, (m s).2).
Proof. destruct (m s); simpl. by intros ->. Qed.

(** A write that returned successfully. *)
Lemma wrote c (Hc : cfg_ok c) {FL : FlashLaws nor c} s fid flgs mx n off data s' :
  ok c s -> settled c s -> write_args c fid flgs mx n off data ->
  (forall F, ready_view c s !! fid = Some F -> replaces c (ready_view c s) fid flgs mx = true -> 0 < af_max F) ->
  etss_flash_fs_file_write fid flgs mx n off data s = (Ok tt, s') ->
  ok c s' /\ settled c s' /\ ready_view c s' = write_spec c (ready_view c s) fid flgs mx n off data.
Proof.
  intros Hok Hset Hargs Hroom Hrun.
  destruct (wp_run _ _ _ _ _ (wp_file_write c Hc s Hset fid flgs mx n off data Hargs Hroom) Hrun) as (_ & Ho & Hr).
  split; [by apply Ho|]. split; apply Hr.
Qed.

Lemma one5_run : etss_flash_fs_file_write file1 create_truncate 8 6 0 hello empty5 = (Ok tt, one5).
Proof.
  unfold one5.
  refine (run_ok (etss_flash_fs_file_write file1 create_truncate 8 6 0 hello) empty5 tt _).
  vm_compute. reflexivity.
Qed.

Lemma one5_ok : ok c5 one5 /\ settled c5 one5 /\ ready_view c5 one5 = hello_view.
Proof.
  destruct empty5_ok as (Hok & Hset & Hv).
  assert (is_u32 0) as H0 by (unfold is_u32; lia).
  pose proof (write_hello_args c5 0 eq_refl eq_refl H0) as Hargs.
  pose proof (wrote c5 c5_ok empty5 _ _ _ _ _ _ one5 Hok Hset Hargs) as H. rewrite Hv in H.
  destruct (H (no_file _ _ _ _) one5_run) as (H1 & H2 & H3).
  exact (conj H1 (conj H2 (eq_trans H3 eq_refl))).
Qed.
