(* ===== verification/FsTheorems.v ===== *)
(** * The theorems about the flash file system

    The promises of [etss_flash_fs_*] for every device that satisfies the
    contract of the operations table, with instances on a concrete device. *)
From Stdlib Require Import ZArith Lia.
From stdpp Require Import base list numbers gmap options.
From S2P Require Import Prelude EtssUtils FlashFsDefs Mblock Dblock FlashFs NorDevice.
From S2P Require Import MblockSpec FsReads FsTables FsUpdate FsDisk FsStage FsCommit.
From S2P Require Import FsRead FsStaged FsDelete FsWrite FsOps FsRefine FsExample.

#[local] Set Default Proof Using "Type*".

(** The bytes that a write put into the file. *)
Lemma written_mid erase base data offset size asize :
  0 < size <= asize -> 0 <= offset -> size <= Z.of_nat (length data) ->
  take (Z.to_nat size) (drop (Z.to_nat offset) (written erase base data offset size asize))
  = take (Z.to_nat size) data.
Proof.
  intros Hs Ho Hd. unfold written. destruct (Z.eqb_spec size 0); [lia|].
  apply list_eq. intros i. destruct (decide (i < Z.to_nat size)%nat) as [Hi|Hi].
  - rewrite !lookup_take_lt by lia. rewrite lookup_drop, list_lookup_fmap, lookup_seqZ_lt by lia. simpl. rewrite Z.add_0_l.
    destruct (Z.ltb_spec (Z.of_nat (Z.to_nat offset + i)) offset); [lia|].
    destruct (Z.ltb_spec (Z.of_nat (Z.to_nat offset + i)) (offset + asize)); [|lia].
    destruct (lookup_lt_is_Some_2 data i ltac:(lia)) as [x Hx]. rewrite Hx. f_equal.
    unfold nth_byte. replace (Z.to_nat (Z.of_nat (Z.to_nat offset + i) - offset)) with i by lia. by apply nth_lookup_Some.
  - by rewrite !lookup_take_ge by lia.
Qed.

Lemma written_length erase base data offset size asize :
  size <> 0 -> 0 <= offset + size ->
  Z.of_nat (length (written erase base data offset size asize))
  = Z.max (Z.of_nat (length base)) (offset + size).
Proof.
  intros Hs Ho. unfold written. apply Z.eqb_neq in Hs. rewrite Hs.
  rewrite length_fmap, length_seqZ. lia.
Qed.

Section Theorems.
Context {E : Type} {FO : FlashOps E} (c : etss_flash_fs_config_t) {FL : FlashLaws E c}.
Context (Hc : cfg_ok c).
Implicit Types s : fs_state E.

(** What a caller knows about a write: typed arguments and a buffer of the
    right length; a file that is replaced has room for at least one byte. *)
Definition write_request s (fid : list Z) (flgs max_sz data_size offset : Z) (data : list Z) : Prop :=
  write_args c fid flgs max_sz data_size offset data /\
  forall F, ready_view c s !! fid = Some F ->
    replaces c (ready_view c s) fid flgs max_sz = true -> 0 < af_max F.

(** C4: On a working device [etss_flash_fs_file_write] succeeds exactly for
    the acceptable requests (flags, sizes, alignment, free space and a free
    table entry); then the files are the old ones with this file written,
    and the file system is ready for the next operation.  A refused request
    leaves all files as they were. *)
Theorem file_write_correct s fid flgs max_sz data_size offset data :
  settled c s -> ok c s -> write_request s fid flgs max_sz data_size offset data ->
  wp (etss_flash_fs_file_write fid flgs max_sz data_size offset data) s (fun r s' =>
    ok c s' /\
    match r with
    | Ok _ => accepted c s fid flgs max_sz data_size offset /\ settled c s' /\
              ready_view c s' = write_spec c (ready_view c s) fid flgs max_sz data_size offset data
    | Err _ => ~ accepted c s fid flgs max_sz data_size offset /\
               mounts c (im s') (ready_view c s)
    end).
Proof.
  intros Hset Hok [Hargs Hroom].
  eapply wp_mono; [exact (wp_file_write c Hc s Hset fid flgs max_sz data_size offset data Hargs Hroom)|].
  intros r s' (_ & Hok' & Hr). split; [auto|]. destruct r as [[]|e].
  - destruct Hr as (? & ? & ?). done.
  - destruct Hr as [Hsick|[[Hno _] Hst]]; [by destruct Hsick|]. split; [done|].
    apply (st_mounts c Hc s (proj1 Hset) s' Hst).
Qed.

(** C5: A write is atomic.  Whatever the device does during it (an error at
    any point, a loss of power after any number of programmed bytes or
    erased sectors), the next mount on a working device succeeds and shows
    either all the old files or all the new ones. *)
Theorem file_write_atomic s fid flgs max_sz data_size offset data s1 :
  settled c s -> write_request s fid flgs max_sz data_size offset data ->
  restart c (etss_flash_fs_file_write fid flgs max_sz data_size offset data s).2 s1 ->
  wp etss_flash_fs_prepare s1 (fun r s2 =>
    r = Ok tt /\ ok c s2 /\ settled c s2 /\
    (ready_view c s2 = ready_view c s \/
     ready_view c s2 = write_spec c (ready_view c s) fid flgs max_sz data_size offset data)).
Proof.
  intros Hset [Hargs Hroom] [Him Hok Hcfg].
  pose proof (wp_file_write c Hc s Hset fid flgs max_sz data_size offset data Hargs Hroom) as Hw.
  destruct Hw as ([Hm|Hm] & _); apply (mounts_same c Hc _ _ _ Him) in Hm;
    (eapply wp_mono; [exact (wp_prepare c Hc s1 _ Hok Hcfg Hm)|]);
    intros r s2 (-> & ? & ? & Hv); auto.
Qed.

(** C6: Refinement.  Every run of the file system, made of sensible requests,
    device failures, restarts and mounts in any order, is a run of the
    automaton [astep] over finite maps from identifiers to files.  A request
    that a working device refuses changes nothing and the next request
    follows; only writes that need a new entry or have wrong arguments are
    refused.  Two kinds of runs are left out, because the code corrupts a file
    in them: an update between the refusal of a write that would have replaced
    a file ([Worn], where only look-ups follow) and the next mount, as in
    [FsDetails.refused_write_loses_file]; and the deletion or replacement of
    a file with room for no byte ([sensible]), as in
    [FsDetails.delete_zero_size_corrupts]. *)
Theorem file_system_refines x a ls x' :
  refines c x a -> crun c x ls x' -> exists a', arun c a ls a' /\ refines c x' a'.
Proof.
  intros Href Hrun. revert a Href. induction Hrun as [x|x l x1 ls x' Hstep _ IH]; intros a Href.
  - exists a. split; [apply ar_nil|done].
  - destruct (refines_step c Hc x l x1 a Href Hstep) as (a1 & Ha & Href1).
    destruct (IH a1 Href1) as (a' & Hrun & Href'). exists a'. split; [by eapply ar_cons|done].
Qed.

(** Reading back what was written: after an accepted write, a read of
    the same range returns exactly the bytes of the request. *)
Theorem file_write_read s fid flgs max_sz data_size offset data :
  settled c s -> ok c s -> write_request s fid flgs max_sz data_size offset data ->
  accepted c s fid flgs max_sz data_size offset -> 0 < data_size ->
  wp (etss_flash_fs_file_write fid flgs max_sz data_size offset data;;
      etss_flash_fs_file_read fid data_size offset) s
    (fun r s' => r = Ok (take (Z.to_nat data_size) data) /\ ok c s').
Proof.
  intros Hset Hok [Hargs Hroom] Hacc Hpos.
  eapply wp_seq; [exact (wp_file_write c Hc s Hset fid flgs max_sz data_size offset data Hargs Hroom)|..].
  { intros e s1 (_ & _ & [Hsick|[[Hno _] _]]); [by destruct Hsick|by destruct Hno]. }
  intros [] s1 (_ & Hok1 & Hset1 & Hv1 & _). specialize (Hok1 Hok).
  destruct Hargs as [Hfid _ _ Hsz Hoff _ Hal Hlen].
  eapply wp_mono; [exact (wp_file_read c Hc fid data_size offset s1 (settled_readable c s1 Hset1) Hfid Hsz Hoff)|].
  intros r s2 [Hup Hr]. split; [|by eapply ok_upto].
  destruct Hr as [-> | [Hsick _]]; [|by destruct Hsick].
  unfold read_spec. rewrite Hv1. unfold write_spec.
  destruct (write_base _ _ _ _ _) as [[base mx] fl]. rewrite lookup_insert_eq. simpl.
  rewrite written_length by (unfold is_u32 in Hoff; lia). destruct (Z.leb_spec (offset + data_size) (Z.max (Z.of_nat (length base)) (offset + data_size))); [|lia].
  f_equal. apply written_mid; [lia|apply Hoff|lia].
Qed.

(** C15: Deletion on a working device: the file is gone and all others are
    unchanged; deleting a file that is not there reports
    [PSA_ERROR_DOES_NOT_EXIST] and changes nothing. *)
Theorem file_delete_correct s fid :
  settled c s -> ok c s -> fid_ok fid ->
  (forall F, ready_view c s !! fid = Some F -> 0 < af_max F) ->
  wp (etss_flash_fs_file_delete fid) s (fun r s' =>
    ok c s' /\ settled c s' /\ ready_view c s' = delete fid (ready_view c s) /\
    r = match ready_view c s !! fid with Some _ => Ok tt | None => Err PSA_ERROR_DOES_NOT_EXIST end).
Proof.
  intros Hset Hok Hfid Hpos. eapply wp_mono; [exact (wp_file_delete c Hc s fid Hset Hfid Hpos)|].
  intros r s' (_ & Hok' & Hr). split; [by apply Hok'|]. destruct r as [[]|e].
  - destruct Hr as (? & [F HF] & ?). by rewrite HF.
  - destruct Hr as [Hsick|(-> & HN & ? & ->)]; [by destruct Hsick|]. rewrite HN.
    split_and!; [done| |done]. by rewrite delete_id.
Qed.

(** C16: Deletion is atomic, too: after a failure at any point of it, the
    next mount shows the files with or without the deleted one, and nothing
    else has changed. *)
Theorem file_delete_atomic s fid s1 :
  settled c s -> fid_ok fid -> (forall F, ready_view c s !! fid = Some F -> 0 < af_max F) ->
  restart c (etss_flash_fs_file_delete fid s).2 s1 ->
  wp etss_flash_fs_prepare s1 (fun r s2 =>
    r = Ok tt /\ ok c s2 /\ settled c s2 /\
    (ready_view c s2 = ready_view c s \/ ready_view c s2 = delete fid (ready_view c s))).
Proof.
  intros Hset Hfid Hpos [Him Hok Hcfg]. pose proof (wp_file_delete c Hc s fid Hset Hfid Hpos) as Hw.
  destruct Hw as ([Hm|Hm] & _); apply (mounts_same c Hc _ _ _ Him) in Hm;
    (eapply wp_mono; [exact (wp_prepare c Hc s1 _ Hok Hcfg Hm)|]);
    intros r s2 (-> & ? & ? & Hv); auto.
Qed.

(** C17: Reading: an answer is never wrong.  A read returns the requested
    bytes of the file, [PSA_ERROR_DOES_NOT_EXIST] for an unknown file and
    [PSA_ERROR_INVALID_ARGUMENT] for a range that leaves the file (without
    overflow); a failing device can only cause an error, and the device and
    the context are not changed. *)
Theorem file_read_correct s fid size offset :
  settled c s -> fid_ok fid -> is_u32 size -> is_u32 offset ->
  wp (etss_flash_fs_file_read fid size offset) s (fun r s' =>
    fs_ctx s' = fs_ctx s /\ same_image (im s) (im s') /\
    (r = read_spec (ready_view c s) fid size offset \/ (~ ok c s /\ exists e, r = Err e))).
Proof.
  intros Hset Hfid Hsz Hoff. eapply wp_mono; [exact (wp_file_read c Hc fid size offset s (settled_readable c s Hset) Hfid Hsz Hoff)|].
  intros r s' [Hup Hr]. split; [exact (upto_ctx _ _ _ Hup)|]. split; [|exact Hr].
  intros b o. by apply upto_nowhere.
Qed.

(** [etss_flash_fs_file_get_info] reports the maximum size, the current
    size and the user flags of the file. *)
Theorem file_get_info_correct s fid :
  settled c s -> ok c s -> fid_ok fid ->
  wp (etss_flash_fs_file_get_info fid) s (fun r s' =>
    r = info_spec (ready_view c s) fid /\ settled c s' /\ ready_view c s' = ready_view c s).
Proof.
  intros Hset Hok Hfid. eapply wp_mono; [exact (wp_file_get_info c Hc fid s (settled_readable c s Hset) Hfid)|].
  intros r s' [Hup [-> | [Hsick _]]]; [|by destruct Hsick]. split; [done|]. by apply settled_nw.
Qed.

(** Formatting and mounting give an empty file system on every working
    device, whatever the device held before (an interrupted format, an old
    file system, random bytes). *)
Theorem wipe_all_prepare s :
  ok c s -> cfg (fs_ctx s) = c -> header_typed (meta_block_header (fs_ctx s)) ->
  wp (etss_flash_fs_wipe_all;; etss_flash_fs_prepare) s (fun r s' =>
    r = Ok tt /\ ok c s' /\ settled c s' /\ ready_view c s' = ∅).
Proof.
  intros Hok Hs Hh. apply wp_bind. eapply wp_mono; [by apply (wp_wipe_all c Hc)|].
  intros r s1 (-> & Hok1 & Hs1 & Hm1). by apply (wp_prepare c Hc).
Qed.

(** C18: Mounting preserves the files: after any restart of a file system
    in a mountable condition, [etss_flash_fs_prepare] succeeds, finishes a
    deletion that was pending, and shows the same files. *)
Theorem prepare_correct s v :
  ok c s -> cfg (fs_ctx s) = c -> mounts c (im s) v ->
  wp etss_flash_fs_prepare s (fun r s' => r = Ok tt /\ ok c s' /\ settled c s' /\ ready_view c s' = v).
Proof. intros. by apply (wp_prepare c Hc). Qed.
End Theorems.

(** ** Instances on the concrete device *)

Section Instances.
(** Another content and another maximum size for [file1]. *)
Definition bytes4 : list Z := [1; 2; 3; 4].

Lemma bytes4_args : write_args c5 file1 create_truncate 4 4 0 bytes4.
Proof.
  split; try done; [apply file1_ok|repeat constructor; lia|vm_compute; done..].
Qed.

Lemma hello_pos : forall F, hello_view !! file1 = Some F -> 0 < af_max F.
Proof.
  intros F HF. unfold hello_view in HF. rewrite lookup_singleton_eq in HF. injection HF as <-. done.
Qed.

Lemma one5_view_pos : forall F, ready_view c5 one5 !! file1 = Some F -> 0 < af_max F.
Proof. destruct one5_ok as (_ & _ & ->). exact hello_pos. Qed.

Lemma bytes4_request : write_request c5 one5 file1 create_truncate 4 4 0 bytes4.
Proof. split; [exact bytes4_args|]. intros F HF _. exact (one5_view_pos F HF). Qed.

Lemma hello_request : write_request c5 empty5 file1 create_truncate 8 6 0 hello.
Proof.
  assert (is_u32 0) as H0 by (unfold is_u32; lia).
  split; [exact (write_hello_args c5 0 eq_refl eq_refl H0)|].
  intros F HF. destruct empty5_ok as (_ & _ & Hv). rewrite Hv, lookup_empty in HF. discriminate HF.
Qed.

(** Power is lost after [n] units of the write, and comes back. *)
Definition cut (n : Z) (s : fs_state nor) : fs_state nor :=
  {| fs_ctx := fs_ctx s; fs_env := {| nor_mem := nor_mem (fs_env s); nor_budget := Some n |} |}.
Definition reboot (c : etss_flash_fs_config_t) (s : fs_state nor) : fs_state nor :=
  boot c {| nor_mem := nor_mem (fs_env s); nor_budget := None |}.

Lemma reboot_restart s : restart c5 s (reboot c5 s).
Proof. split; [by intros b o|done|done]. Qed.

Lemma cut_settled n s : settled c5 s -> settled c5 (cut n s) /\ ready_view c5 (cut n s) = ready_view c5 s.
Proof. intros [[] Hcl]. split; [|done]. split; [|exact Hcl]. split; done. Qed.

Lemma file_write_correct_witness :
  wp (etss_flash_fs_file_write file1 create_truncate 4 4 0 bytes4) one5 (fun r s' =>
    ok c5 s' /\
    match r with
    | Ok _ => accepted c5 one5 file1 create_truncate 4 4 0 /\ settled c5 s' /\
              ready_view c5 s'
              = write_spec c5 (ready_view c5 one5) file1 create_truncate 4 4 0 bytes4
    | Err _ => ~ accepted c5 one5 file1 create_truncate 4 4 0 /\ mounts c5 (im s') (ready_view c5 one5)
    end).
Proof.
  exact (file_write_correct c5 c5_ok one5 file1 create_truncate 4 4 0 bytes4
    (proj1 (proj2 one5_ok)) (proj1 one5_ok) bytes4_request).
Defined.

Lemma cut_request n : write_request c5 (cut n one5) file1 create_truncate 4 4 0 bytes4.
Proof.
  split; [exact bytes4_args|]. destruct (cut_settled n one5 (proj1 (proj2 one5_ok))) as [_ ->].
  intros F HF _. exact (one5_view_pos F HF).
Qed.

Lemma file_write_atomic_witness :
  wp etss_flash_fs_prepare
    (reboot c5 (etss_flash_fs_file_write file1 create_truncate 4 4 0 bytes4 (cut 90 one5)).2)
    (fun r s2 => r = Ok tt /\ ok c5 s2 /\ settled c5 s2 /\
      (ready_view c5 s2 = ready_view c5 (cut 90 one5) \/
       ready_view c5 s2
       = write_spec c5 (ready_view c5 (cut 90 one5)) file1 create_truncate 4 4 0 bytes4)).
Proof.
  exact (file_write_atomic c5 c5_ok (cut 90 one5) file1 create_truncate 4 4 0 bytes4 _
    (proj1 (cut_settled 90 one5 (proj1 (proj2 one5_ok)))) (cut_request 90) (reboot_restart _)).
Defined.

(** A write, a loss of power, and a mount. *)
Definition hello_req : request := RWrite file1 create_truncate 8 6 0 hello.
Lemma hello_serve : serve hello_req empty5 = (Ok ADone, one5).
Proof. unfold serve, hello_req. rewrite one5_run. reflexivity. Qed.

(** A replacement that is refused: the new maximum size is too large. *)
Definition large_req : request := RWrite file1 create_truncate 300 6 0 hello.
Definition worn5 : fs_state nor :=
  (etss_flash_fs_file_write file1 create_truncate 300 6 0 hello one5).2.
Definition looked5 : fs_state nor := (etss_flash_fs_file_get_info file1 worn5).2.
Definition hello_info : etss_file_info_t :=
  {| size_max := 8; size_current := 6; info_flags := 0 |}.
Definition again_worn5 : fs_state nor := (etss_flash_fs_prepare (reboot c5 looked5)).2.

Lemma run_result {S A} (m : ST S A) s r : (m s).1 = r -> m s = (r, (m s).2).
Proof. destruct (m s). by intros <-. Qed.

Lemma worn5_run : etss_flash_fs_file_write file1 create_truncate 300 6 0 hello one5
  = (Err PSA_ERROR_INVALID_ARGUMENT, worn5).
Proof.
  unfold worn5.
  refine (run_result (etss_flash_fs_file_write file1 create_truncate 300 6 0 hello) one5
    (Err PSA_ERROR_INVALID_ARGUMENT) _). vm_compute. reflexivity.
Qed.

Lemma large_serve : serve large_req one5 = (Err PSA_ERROR_INVALID_ARGUMENT, worn5).
Proof. unfold serve, large_req. rewrite worn5_run. reflexivity. Qed.

Lemma looked5_run : etss_flash_fs_file_get_info file1 worn5 = (Ok hello_info, looked5).
Proof.
  unfold looked5.
  refine (run_result (etss_flash_fs_file_get_info file1) worn5 (Ok hello_info) _). vm_compute. reflexivity.
Qed.

Lemma looked5_serve : serve (RInfo file1) worn5 = (Ok (AInfo hello_info), looked5).
Proof. unfold serve. rewrite looked5_run. reflexivity. Qed.

Lemma again_worn5_run : etss_flash_fs_prepare (reboot c5 looked5) = (Ok tt, again_worn5).
Proof.
  unfold again_worn5. refine (run_ok etss_flash_fs_prepare (reboot c5 looked5) tt _). vm_compute. reflexivity.
Qed.

Lemma large_sensible : sensible c5 large_req (ready_view c5 one5).
Proof.
  split; [split; try done; [apply file1_ok|repeat constructor; lia|..]; vm_compute; done|].
  intros F HF _. exact (one5_view_pos F HF).
Qed.

Lemma example_run :
  crun c5 (Up empty5)
    [Some (hello_req, Ok ADone); Some (large_req, Err PSA_ERROR_INVALID_ARGUMENT);
     Some (RInfo file1, Ok (AInfo hello_info)); None; None] (Up again_worn5).
Proof.
  eapply cr_cons; [exact (cs_serve c5 hello_req empty5 (Ok ADone) one5 hello_request hello_serve
    (or_intror eq_refl))|].
  pose proof (cs_serve c5 large_req one5 _ worn5 large_sensible large_serve
    (or_introl (proj1 one5_ok))) as Hw.
  unfold after in Hw. rewrite (proj2 (proj2 one5_ok)) in Hw. eapply cr_cons; [exact Hw|].
  eapply cr_cons; [exact (cs_look c5 (RInfo file1) worn5 _ looked5 file1_ok ltac:(discriminate)
    looked5_serve (or_intror eq_refl))|].
  eapply cr_cons; [apply cs_stop_worn|]. eapply cr_cons; [|apply cr_nil].
  exact (cs_mount c5 looked5 _ again_worn5 (reboot_restart looked5) again_worn5_run).
Qed.

Lemma file_system_refines_witness :
  exists a', arun c5 (Mounted ∅)
    [Some (hello_req, Ok ADone); Some (large_req, Err PSA_ERROR_INVALID_ARGUMENT);
     Some (RInfo file1, Ok (AInfo hello_info)); None; None] a' /\
    refines c5 (Up again_worn5) a'.
Proof.
  exact (file_system_refines c5 c5_ok (Up empty5) (Mounted ∅) _ _ (proj2 empty5_ok) example_run).
Defined.

Lemma hello_accepted : accepted c5 empty5 file1 create_truncate 8 6 0.
Proof.
  pose proof (wp_file_write c5 c5_ok empty5 (proj1 (proj2 empty5_ok)) file1 create_truncate 8 6 0 hello
    (proj1 hello_request) (proj2 hello_request)) as H.
  destruct (wp_run _ _ _ _ _ H one5_run) as (_ & _ & Hr). apply Hr.
Qed.

Lemma file_write_read_witness :
  wp (etss_flash_fs_file_write file1 create_truncate 8 6 0 hello;;
      etss_flash_fs_file_read file1 6 0) empty5
    (fun r s' => r = Ok [104; 101; 108; 108; 111; 33] /\ ok c5 s').
Proof.
  exact (file_write_read c5 c5_ok empty5 file1 create_truncate 8 6 0 hello (proj1 (proj2 empty5_ok))
    (proj1 empty5_ok) hello_request hello_accepted eq_refl).
Defined.

Lemma file_delete_correct_witness :
  wp (etss_flash_fs_file_delete file1) one5 (fun r s' =>
    ok c5 s' /\ settled c5 s' /\ ready_view c5 s' = delete file1 (ready_view c5 one5) /\
    r = match ready_view c5 one5 !! file1 with
        | Some _ => Ok tt | None => Err PSA_ERROR_DOES_NOT_EXIST end).
Proof.
  exact (file_delete_correct c5 c5_ok one5 file1 (proj1 (proj2 one5_ok)) (proj1 one5_ok) file1_ok
    one5_view_pos).
Defined.

Lemma cut_pos n : forall F, ready_view c5 (cut n one5) !! file1 = Some F -> 0 < af_max F.
Proof. destruct (cut_settled n one5 (proj1 (proj2 one5_ok))) as [_ ->]. exact one5_view_pos. Qed.

Lemma file_delete_atomic_witness :
  wp etss_flash_fs_prepare (reboot c5 (etss_flash_fs_file_delete file1 (cut 40 one5)).2)
    (fun r s2 => r = Ok tt /\ ok c5 s2 /\ settled c5 s2 /\
      (ready_view c5 s2 = ready_view c5 (cut 40 one5) \/
       ready_view c5 s2 = delete file1 (ready_view c5 (cut 40 one5)))).
Proof.
  exact (file_delete_atomic c5 c5_ok (cut 40 one5) file1 _
    (proj1 (cut_settled 40 one5 (proj1 (proj2 one5_ok)))) file1_ok (cut_pos 40) (reboot_restart _)).
Defined.

Lemma u32_small x : 0 <= x <= 1000 -> is_u32 x.
Proof. unfold is_u32. lia. Qed.

Lemma file_read_correct_witness :
  wp (etss_flash_fs_file_read file1 3 2) one5 (fun r s' =>
    fs_ctx s' = fs_ctx one5 /\ same_image (im one5) (im s') /\
    (r = read_spec (ready_view c5 one5) file1 3 2 \/ (~ ok c5 one5 /\ exists e, r = Err e))).
Proof.
  exact (file_read_correct c5 c5_ok one5 file1 3 2 (proj1 (proj2 one5_ok)) file1_ok
    (u32_small 3 ltac:(lia)) (u32_small 2 ltac:(lia))).
Defined.

Lemma file_get_info_correct_witness :
  wp (etss_flash_fs_file_get_info file1) one5 (fun r s' =>
    r = info_spec (ready_view c5 one5) file1 /\ settled c5 s' /\
    ready_view c5 s' = ready_view c5 one5).
Proof.
  exact (file_get_info_correct c5 c5_ok one5 file1 (proj1 (proj2 one5_ok)) (proj1 one5_ok) file1_ok).
Defined.

(** A device that holds something else. *)
Definition used5 : fs_state nor := reboot c5 one5.

Lemma wipe_all_prepare_witness :
  wp (etss_flash_fs_wipe_all;; etss_flash_fs_prepare) used5 (fun r s' =>
    r = Ok tt /\ ok c5 s' /\ settled c5 s' /\ ready_view c5 s' = ∅).
Proof.
  exact (wipe_all_prepare c5 c5_ok used5 eq_refl eq_refl (boot_typed c5 _ eq_refl)).
Defined.

Lemma used5_mounts : mounts c5 (im used5) (ready_view c5 one5).
Proof.
  apply (mounts_same c5 c5_ok (im one5)); [exact (rs_image c5 _ _ (reboot_restart one5))|].
  exact (settled_mounts c5 one5 (proj1 (proj2 one5_ok))).
Qed.

Lemma prepare_correct_witness :
  wp etss_flash_fs_prepare used5 (fun r s' =>
    r = Ok tt /\ ok c5 s' /\ settled c5 s' /\ ready_view c5 s' = ready_view c5 one5).
Proof.
  exact (prepare_correct c5 c5_ok used5 _ eq_refl eq_refl used5_mounts).
Defined.
End Instances.
