(* ===== verification/FsDetails.v ===== *)
(** * Parts of the flash file system, and its limits

    The copy loop, the range check, the choice of the metadata block and the
    encodings; then, on the concrete device, inputs for which the code does
    not do what it means to. *)
From Stdlib Require Import ZArith Lia.
From stdpp Require Import base list numbers gmap options.
From S2P Require Import Prelude EtssUtils FlashFsDefs Mblock Dblock FlashFs NorDevice.
From S2P Require Import MblockSpec FsReads FsTables FsUpdate FsDisk FsStage FsCommit.
From S2P Require Import FsRead FsStaged FsDelete FsWrite FsOps FsRefine FsExample.

#[local] Set Default Proof Using "Type*".

(** ** The copy loop *)

Section Move.
Context {E : Type} {FO : FlashOps E} (c : etss_flash_fs_config_t) {FL : FlashLaws E c}.
Context (Hc : cfg_ok c).

(** [etss_flash_fs_block_to_block_move] copies any number of bytes
    through its small buffer into an erased range, touches nothing else,
    ends, and fails only when the device fails. *)
Theorem block_to_block_move_correct (s : fs_state E) dst doff src soff n :
  cfg (fs_ctx s) = c -> dst <> src -> in_block c dst doff n -> in_block c src soff n ->
  erased c (im s) dst doff n ->
  wp (etss_flash_fs_block_to_block_move dst doff src soff n) s (fun r s' =>
    fs_ctx s' = fs_ctx s /\
    (forall b o, ~ (b = dst /\ doff <= o < doff + n) -> im s' b o = im s b o) /\
    (r = Ok tt -> forall i, 0 <= i < n -> im s' dst (doff + i) = im s src (soff + i)) /\
    (ok c s -> r = Ok tt)).
Proof.
  intros Hs Hne Hd Hsr He. pose proof (block_size_range c Hc) as Hb.
  eapply wp_mono; [by apply (wp_move c); [..|lia]|].
  intros r s' (Hup & Hcp & Hr). split; [apply (upto_ctx _ _ _ Hup)|].
  split; [intros b o Hno; by apply (upto_im _ _ _ _ _ Hup)|].
  split; [intros Ho i Hi; by apply Hcp|]. intros Hok. destruct Hr as [|Hsick]; [done|by destruct Hsick].
Qed.
End Move.

(** ** Checks and choices *)

(** [etss_utils_check_contained_in] accepts exactly the ranges inside
    the superset, for all 32-bit values: the sum of offset and size cannot
    wrap around. *)
Theorem check_contained_in_correct superset_size subset_offset subset_size :
  is_u32 superset_size -> is_u32 subset_offset -> is_u32 subset_size ->
  etss_utils_check_contained_in superset_size subset_offset subset_size =
    (if subset_offset + subset_size <=? superset_size then PSA_SUCCESS else PSA_ERROR_INVALID_ARGUMENT).
Proof.
  intros H1 H2 H3. pose proof (contained_in_iff _ _ _ H1 H2 H3) as Hiff.
  destruct (Z.leb_spec (subset_offset + subset_size) superset_size) as [Hle|Hgt]; [by apply Hiff|].
  unfold etss_utils_check_contained_in in *. repeat case_match; try done.
  all: exfalso; specialize (proj1 Hiff eq_refl); lia.
Qed.

(** Between the two metadata blocks the one written last is selected:
    if one header has the swap count that the update assigns after the other's
    (skipping the erase value, wrapping at 8 bits), its block is chosen. *)
Theorem latest_meta_block_correct c h h' v :
  cfg_ok c -> is_u8 v -> v <> erase_val c ->
  active_swap_count h = v -> active_swap_count h' = next_swap c v ->
  etss_mblock_latest_meta_block c h h' = ETSS_METADATA_BLOCK1 /\
  etss_mblock_latest_meta_block c h' h = ETSS_METADATA_BLOCK0.
Proof.
  intros Hc Hv Hne Hh Hh'. apply (latest_next c Hc h h' v); [apply Hc|done..].
Qed.

(** The metadata structures survive the way through the flash: decoding
    the stored bytes gives back the header, the block entry and the file
    entry. *)
Theorem metadata_roundtrip h bm fm :
  header_typed h -> block_meta_typed bm -> file_meta_typed fm ->
  dec_header (enc_header h) = h /\ dec_block_meta (enc_block_meta bm) = bm /\
  dec_file_meta (enc_file_meta fm) = fm.
Proof.
  intros. split_and!; [by apply dec_enc_header|by apply dec_enc_block_meta|by apply dec_enc_file_meta].
Qed.

(** [ETSS_UTILS_ALIGN] rounds up to the program unit as long as the sum
    does not wrap: the result is the least multiple that is not smaller. *)
Theorem align_correct x k :
  0 <= k < 32 -> 0 <= x -> x + (2 ^ k - 1) < 4294967296 ->
  let y := ETSS_UTILS_ALIGN x (2 ^ k) in
  x <= y < x + 2 ^ k /\ ETSS_UTILS_IS_ALIGNED y (2 ^ k) = true.
Proof.
  intros Hk Hx Hlt. cbv zeta. rewrite align_pow2 by done. assert (0 < 2 ^ k) as Hp by lia.
  rewrite is_aligned_pow2, Z.mod_mul by lia. split; [|done].
  pose proof (Z.div_mod (x + (2 ^ k - 1)) (2 ^ k) ltac:(lia)) as Hd.
  pose proof (Z.mod_pos_bound (x + (2 ^ k - 1)) (2 ^ k) Hp). lia.
Qed.

(** ** Instances *)

Lemma in_block5 b off n : 0 <= b < 5 -> 0 <= off -> 0 <= n -> off + n <= 512 -> in_block c5 b off n.
Proof. intros. split; [done|]. split; [done|]. done. Qed.

Lemma empty5_erased : erased c5 (im (c := c5) empty5) 2 0 100.
Proof.
  assert (num_blocks c5 <> 2) as Hn by discriminate.
  assert (dsc empty5 = 2) as HD by (vm_compute; reflexivity).
  assert (0 + 100 <= 0 + block_size c5) as Hle by (cbn; lia).
  pose proof (ry_dscr _ _ (proj1 (proj1 (proj2 empty5_ok))) Hn) as He. rewrite HD in He.
  exact (fun o Ho => He o (conj (proj1 Ho) (Z.lt_le_trans _ _ _ (proj2 Ho) Hle))).
Qed.

Lemma block_to_block_move_correct_witness :
  wp (etss_flash_fs_block_to_block_move 2 0 1 0 100) empty5 (fun r s' =>
    fs_ctx s' = fs_ctx empty5 /\
    (forall b o, ~ (b = 2 /\ 0 <= o < 0 + 100) -> im (c := c5) s' b o = im (c := c5) empty5 b o) /\
    (r = Ok tt -> forall i, 0 <= i < 100 -> im (c := c5) s' 2 (0 + i) = im (c := c5) empty5 1 (0 + i)) /\
    (ok c5 empty5 -> r = Ok tt)).
Proof.
  refine (block_to_block_move_correct c5 c5_ok empty5 2 0 1 0 100 _ _ _ _ empty5_erased).
  - vm_compute. reflexivity.
  - lia.
  - apply in_block5; lia.
  - apply in_block5; lia.
Defined.

Lemma check_contained_in_correct_witness :
  etss_utils_check_contained_in 100 4294967295 2 = PSA_ERROR_INVALID_ARGUMENT.
Proof.
  refine (check_contained_in_correct 100 4294967295 2 _ _ _); unfold is_u32; lia.
Defined.

Definition swap_header (v : Z) : etss_metadata_block_header_t :=
  {| scratch_dblock := 2; fs_version := 2; metadata_xor := 0; active_swap_count := v; hdr_pad := 0 |}.

Lemma latest_meta_block_correct_witness :
  etss_mblock_latest_meta_block c5 (swap_header 254) (swap_header 0) = ETSS_METADATA_BLOCK1 /\
  etss_mblock_latest_meta_block c5 (swap_header 0) (swap_header 254) = ETSS_METADATA_BLOCK0.
Proof.
  refine (latest_meta_block_correct c5 (swap_header 254) (swap_header 0) 254 c5_ok _ _ eq_refl eq_refl).
  - unfold is_u8. lia.
  - discriminate.
Defined.

Lemma metadata_roundtrip_witness :
  dec_header (enc_header (swap_header 7)) = swap_header 7 /\
  dec_block_meta (enc_block_meta (fresh_block c5 0)) = fresh_block c5 0 /\
  dec_file_meta (enc_file_meta zero_file_meta) = zero_file_meta.
Proof.
  refine (metadata_roundtrip (swap_header 7) (fresh_block c5 0) zero_file_meta _ _ _).
  - repeat split; vm_compute; congruence.
  - repeat split; vm_compute; congruence.
  - repeat split; try (vm_compute; congruence). repeat constructor; vm_compute; congruence.
Defined.

Lemma align_correct_witness :
  let y := ETSS_UTILS_ALIGN 13 (2 ^ 2) in
  13 <= y < 13 + 2 ^ 2 /\ ETSS_UTILS_IS_ALIGNED y (2 ^ 2) = true.
Proof. refine (align_correct 13 2 _ _ _); lia. Defined.

(** ** Limits *)

(** The result of operations on the freshly formatted device [c5]. *)
Definition outcome_of {A} (m : FS nor A) : outcome A := (m empty5).1.

Definition write_all (fid : list Z) (bs : list Z) : FS nor unit :=
  etss_flash_fs_file_write fid create_truncate (Z.of_nat (length bs)) (Z.of_nat (length bs)) 0 bs.

(** A file of maximum size zero cannot be deleted safely: it shares its
    index with the file after it, which the deletion then fails to move; the
    second file reads as erased flash afterwards. *)
Theorem delete_zero_size_corrupts :
  outcome_of (write_all file1 [];; write_all file2 [1; 2; 3; 4];;
              etss_flash_fs_file_delete file1;;
              etss_flash_fs_file_read file2 4 0) = Ok [255; 255; 255; 255].
Proof. vm_compute. reflexivity. Qed.

(** A write into the middle of a file ends the file's data there: the
    bytes behind the written range come out erased, while the size of the file
    does not change. *)
Theorem overwrite_loses_tail :
  outcome_of (write_all file1 [1; 2; 3; 4; 5; 6];;
              etss_flash_fs_file_write file1 0 6 2 1 [8; 9];;
              etss_flash_fs_file_read file1 6 0) = Ok [1; 8; 9; 255; 255; 255].
Proof. vm_compute. reflexivity. Qed.

(** A write that is refused after the old file was marked (here because
    the new maximum size is too large) leaves the mark in the scratch metadata
    block, which is not erased before the next update programs over it: the
    deletion of another file then makes this file unreadable. *)
Theorem refused_write_loses_file :
  outcome_of (write_all file1 (replicate 10 7);; write_all file2 (replicate 11 3);;
              r ← attempt (etss_flash_fs_file_write file2 create_truncate 300 4 0 [1; 2; 3; 4]);
              etss_flash_fs_file_delete file1;;
              i ← attempt (etss_flash_fs_file_get_info file2);
              mret (r, i))
  = Ok (Err PSA_ERROR_INVALID_ARGUMENT, Err PSA_ERROR_DOES_NOT_EXIST).
Proof. vm_compute. reflexivity. Qed.

(** A device of two blocks with a file, its header rewritten in the layout of
    version 1 (the swap count in the sixth byte, no check value). *)
Definition version1 (s : fs_state nor) : nor :=
  let a := active_metablock (fs_ctx s) in
  {| nor_mem :=
       <[(a, 4) := ETSS_BACKWARD_SUPPORTED_VERSION]>
         (<[(a, 5) := active_swap_count (meta_block_header (fs_ctx s))]>
            (<[(a, 6) := 255]> (nor_mem (fs_env s))));
     nor_budget := None |}.

Definition old_device : nor := version1 ((write_all file1 [1; 2; 3; 4]) empty2).2.

(** Mounting a device of version 1 loses the data of logical block 0: the
    upgrade copies the block entry unchanged, so that it still names the block
    that is erased afterwards. *)
Theorem upgrade_loses_block0 :
  ((etss_flash_fs_prepare;; etss_flash_fs_file_read file1 4 0) (boot c2 old_device)).1
  = Ok [255; 255; 255; 255].
Proof. vm_compute. reflexivity. Qed.
