(* ===== verification/SpiNor.v ===== *)
(** * The SPI NOR command layer (spi_nor.c)

    The host controller (spi_nor_hc.h) is a parameter: its operations on a
    hardware state [H].  A function returns its C status as a value. *)
From Stdlib Require Import ZArith Lia.
From stdpp Require Import base list numbers options.
From S2P Require Import Prelude.

#[local] Set Default Proof Using "Type*".

(** ** The host controller *)

Class SpiOps (H : Type) := {
  spi_write : list Z -> H -> Z * H;
  spi_read : list Z -> Z -> H -> Z * list Z * H;
  wait_for_ms : Z -> H -> H;
  spi_nor_hc_init : H -> Z * H
}.

(** ** Commands *)

Definition STD_INST_RDSCUR : Z := 43.
Definition STD_INST_RDCR : Z := 21.
Definition STD_INST_RDSR : Z := 5.
Definition STD_INST_RDID : Z := 159.
Definition STD_INST_RSTEN : Z := 102.
Definition STD_INST_RST : Z := 153.
Definition STD_INST_WREN : Z := 6.
Definition SR_WIP : Z := 1.
Definition SCUR_ORDY : Z := 16.
Definition BUFFER_SIZE : Z := 306.
Definition MAX_POLLING_TIMES : Z := 1000.
Definition SUCCESS : Z := 0.

Record nor_cmd_packet : Type := {
  cmd : Z;
  addr : list Z;
  addr_len : Z;
  dummy_len : Z;
  data : option (list Z);   (* [None]: a null pointer *)
  data_len : Z;
  tx_buf : list Z;
  tx_len : Z
}.

(** [memcpy] and [memset] into a buffer at an offset. *)
Definition put_bytes (i : Z) (bs buf : list Z) : list Z :=
  take (Z.to_nat i) buf ++ bs ++ drop (Z.to_nat i + length bs) buf.

Definition cmd_packing (p : nor_cmd_packet) : nor_cmd_packet :=
  let buf := put_bytes 0 [cmd p] (tx_buf p) in
  let send_packet_size := 1 in
  let '(buf, send_packet_size) :=
    if addr_len p >? 0
    then (put_bytes send_packet_size (take (Z.to_nat (addr_len p)) (addr p)) buf,
          send_packet_size + addr_len p)
    else (buf, send_packet_size) in
  let '(buf, send_packet_size) :=
    if dummy_len p >? 0
    then (put_bytes send_packet_size (replicate (Z.to_nat (dummy_len p)) 255) buf,
          send_packet_size + dummy_len p)
    else (buf, send_packet_size) in
  let '(buf, send_packet_size) :=
    match data p with
    | Some d => (put_bytes send_packet_size (take (Z.to_nat (data_len p)) d) buf,
                 send_packet_size + data_len p)
    | None => (buf, send_packet_size)
    end in
  {| cmd := cmd p; addr := addr p; addr_len := addr_len p; dummy_len := dummy_len p;
     data := data p; data_len := data_len p; tx_buf := buf; tx_len := send_packet_size |}.

(** The assignments before [cmd_packing]: an instruction without operands. *)
Definition plain_cmd (inst : Z) (p : nor_cmd_packet) : nor_cmd_packet :=
  {| cmd := inst; addr := addr p; addr_len := 0; dummy_len := 0; data := None;
     data_len := data_len p; tx_buf := tx_buf p; tx_len := tx_len p |}.

(** The global [spi_nor] and the hardware. *)
Record spi_state (H : Type) : Type := { cmd_packet : nor_cmd_packet; hardware : H }.
Arguments cmd_packet {H} _.
Arguments hardware {H} _.
Arguments Build_spi_state {H} _ _.

Section SpiNor.
Context {H : Type} {HO : SpiOps H}.
Implicit Types s : spi_state H.

Definition send_inst (inst : Z) : ST (spi_state H) Z := fun s =>
  let p := cmd_packing (plain_cmd inst (cmd_packet s)) in
  let '(st, h) := spi_write (take (Z.to_nat (tx_len p)) (tx_buf p)) (hardware s) in
  (Ok st, {| cmd_packet := p; hardware := h |}).

(** The status and the bytes received. *)
Definition read_inst (inst size : Z) : ST (spi_state H) (Z * list Z) := fun s =>
  let p := cmd_packing (plain_cmd inst (cmd_packet s)) in
  let '(st, rx, h) := spi_read (take (Z.to_nat (tx_len p)) (tx_buf p)) size (hardware s) in
  (Ok (st, rx), {| cmd_packet := p; hardware := h |}).

Definition wait_ms (n : Z) : ST (spi_state H) unit :=
  modify (fun s => {| cmd_packet := cmd_packet s; hardware := wait_for_ms n (hardware s) |}).

Definition spi_nor_reset_enable : ST (spi_state H) Z := send_inst STD_INST_RSTEN.
Definition spi_nor_reset : ST (spi_state H) Z := send_inst STD_INST_RST.
Definition spi_nor_write_enable : ST (spi_state H) Z := send_inst STD_INST_WREN.
Definition spi_nor_read_id (size : Z) : ST (spi_state H) (Z * list Z) := read_inst STD_INST_RDID size.
Definition spi_nor_read_sr (size : Z) : ST (spi_state H) (Z * list Z) := read_inst STD_INST_RDSR size.
Definition spi_nor_read_cr (size : Z) : ST (spi_state H) (Z * list Z) := read_inst STD_INST_RDCR size.
Definition spi_nor_read_scur (size : Z) : ST (spi_state H) (Z * list Z) :=
  read_inst STD_INST_RDSCUR size.

Definition spi_nor_software_reset : ST (spi_state H) Z :=
  st ← spi_nor_reset_enable;
  if negb (st =? SUCCESS) then mret (-1)
  else
    st ← spi_nor_reset;
    if negb (st =? SUCCESS) then mret (-1)
    else wait_ms 1;; mret 0.

Definition set_bits (reg mask : Z) : bool := negb (Z.land reg mask =? 0).

(** The [do ... while] loops: [fuel] bounds the iterations, [cnt] counts them. *)
Fixpoint poll_wr (fuel : nat) (cnt : Z) : ST (spi_state H) Z :=
  match fuel with
  | O => mret (-1)
  | S fuel =>
      let cnt := cnt + 1 in
      '(st, rx) ← spi_nor_read_sr 1;
      if negb (st =? SUCCESS) then mret (-1)
      else
        wait_ms 1;;
        if set_bits (nth_byte rx 0) SR_WIP && (cnt <? MAX_POLLING_TIMES) then poll_wr fuel cnt
        else if cnt >=? MAX_POLLING_TIMES then mret (-1) else mret 0
  end.

Definition spi_nor_polling_for_wr_ready : ST (spi_state H) Z :=
  poll_wr (Z.to_nat MAX_POLLING_TIMES) 0.

Fixpoint poll_out (fuel : nat) (cnt : Z) : ST (spi_state H) Z :=
  match fuel with
  | O => mret (-1)
  | S fuel =>
      let cnt := cnt + 1 in
      '(st, rx) ← spi_nor_read_scur 1;
      if negb (st =? SUCCESS) then mret (-1)
      else
        '(st, rx') ← spi_nor_read_sr 1;
        if negb (st =? SUCCESS) then mret (-1)
        else
          wait_ms 1;;
          if (set_bits (nth_byte rx' 0) SR_WIP || negb (set_bits (nth_byte rx 0) SCUR_ORDY))
             && (cnt <? MAX_POLLING_TIMES) then poll_out fuel cnt
          else if cnt >=? MAX_POLLING_TIMES then mret (-1) else mret 0
  end.

Definition spi_nor_polling_for_out_ready : ST (spi_state H) Z :=
  poll_out (Z.to_nat MAX_POLLING_TIMES) 0.

Definition spi_nor_init : ST (spi_state H) Z := fun s =>
  let '(st, h) := spi_nor_hc_init (hardware s) in
  let s := {| cmd_packet := cmd_packet s; hardware := h |} in
  if negb (st =? 0) then (Ok (-1), s)
  else (st ← spi_nor_software_reset; if negb (st =? 0) then mret (-1) else mret 0) s.
End SpiNor.

(** ** Packets *)

Lemma put_bytes_length i bs buf :
    0 <= i -> i + Z.of_nat (length bs) <= Z.of_nat (length buf) ->
    length (put_bytes i bs buf) = length buf.
Proof. intros. unfold put_bytes. rewrite !length_app, length_take, length_drop. lia. Qed.

Lemma put_bytes_take i bs buf :
    0 <= i <= Z.of_nat (length buf) ->
    take (Z.to_nat i + length bs) (put_bytes i bs buf) = take (Z.to_nat i) buf ++ bs.
Proof.
    intros Hi. unfold put_bytes. rewrite app_assoc. apply take_app_length'.
    rewrite length_app, length_take. lia.
Qed.

Lemma put_bytes_nil i buf : put_bytes i [] buf = buf.
Proof. unfold put_bytes. cbn [app length]. by rewrite Nat.add_0_r, take_drop. Qed.

Lemma put_bytes_all bs buf : length bs = length buf -> put_bytes 0 bs buf = bs.
Proof.
    intros Hl. unfold put_bytes. change (Z.to_nat 0) with 0%nat. rewrite take_0, drop_ge by lia.
    cbn [app]. apply app_nil_r.
Qed.

Lemma put_bytes_put_bytes i b1 b2 buf :
    0 <= i -> i + Z.of_nat (length b1) + Z.of_nat (length b2) <= Z.of_nat (length buf) ->
    put_bytes (i + Z.of_nat (length b1)) b2 (put_bytes i b1 buf) = put_bytes i (b1 ++ b2) buf.
Proof.
    intros Hi Hl. unfold put_bytes at 1.
    replace (Z.to_nat (i + Z.of_nat (length b1))) with (Z.to_nat i + length b1)%nat by lia.
    rewrite put_bytes_take by lia. unfold put_bytes. rewrite <- !app_assoc. do 3 f_equal.
    rewrite length_app, !drop_app, length_take, drop_drop.
    rewrite (drop_ge (take _ _)), (drop_ge b1) by (rewrite ?length_take; lia). cbn [app].
    f_equal. lia.
Qed.

Lemma put_bytes_Forall (P : Z -> Prop) i bs buf :
    Forall P bs -> Forall P buf -> Forall P (put_bytes i bs buf).
Proof.
    intros H1 H2. unfold put_bytes. rewrite !Forall_app. split_and!; [by apply Forall_take|done|by apply Forall_drop].
Qed.

(** [bs] is what a buffer of length [L] starts with. *)
Definition packed (L : nat) (buf bs : list Z) : Prop :=
    length buf = L /\ take (length bs) buf = bs.

Lemma packed_put L buf bs more :
    packed L buf bs -> (length bs + length more <= L)%nat ->
    packed L (put_bytes (Z.of_nat (length bs)) more buf) (bs ++ more).
Proof.
    intros [Hl Ht] Hm. split.
    - rewrite put_bytes_length; lia.
    - rewrite length_app. pose proof (put_bytes_take (Z.of_nat (length bs)) more buf ltac:(lia)) as Hp.
      rewrite Nat2Z.id in Hp. by rewrite Hp, Ht.
Qed.

(** One optional field of a packet. *)
Lemma packed_field L buf bs more n :
    packed L buf bs -> n = Z.of_nat (length more) -> (length bs + length more <= L)%nat ->
    let '(buf', m) := if n >? 0 then (put_bytes (Z.of_nat (length bs)) more buf, Z.of_nat (length bs) + n)
                      else (buf, Z.of_nat (length bs)) in
    packed L buf' (bs ++ more) /\ m = Z.of_nat (length (bs ++ more)).
Proof.
    intros Hp -> Hm. destruct (Z.gtb_spec (Z.of_nat (length more)) 0).
    - split; [by apply packed_put|rewrite length_app; lia].
    - assert (more = []) as -> by (by apply length_zero_iff_nil; lia).
      by rewrite app_nil_r.
Qed.

Section Polling.
Context {H : Type} {HO : SpiOps H}.
Implicit Types s : spi_state H.

(** One poll: the state after it, and what it read. *)
Definition poll_read s : Z * list Z * spi_state H :=
  match spi_nor_read_sr 1 s with
  | (Ok (st, rx), s') => (st, rx, (wait_ms 1 s').2)
  | (Err _, s') => (-1, [], s')
  end.
Definition poll_next s : spi_state H := (poll_read s).2.
Definition poll_busy s : bool := set_bits (nth_byte (poll_read s).1.2 0) SR_WIP.
Definition poll_ok s : Prop := (poll_read s).1.1 = SUCCESS.

Lemma poll_wr_step fuel cnt s :
  poll_ok s ->
  poll_wr (S fuel) cnt s =
  if poll_busy s && (cnt + 1 <? MAX_POLLING_TIMES) then poll_wr fuel (cnt + 1) (poll_next s)
  else (Ok (if cnt + 1 >=? MAX_POLLING_TIMES then -1 else 0), poll_next s).
Proof.
  unfold poll_ok, poll_busy, poll_next, poll_read. cbn [poll_wr].
  unfold mbind at 1, ST_bind at 1. unfold spi_nor_read_sr, read_inst.
  destruct (spi_read _ _ _) as [[st rx] h]. cbn [fst snd]. intros ->.
  change (negb (SUCCESS =? SUCCESS)) with false. cbv iota.
  unfold mbind, ST_bind. cbn [wait_ms modify].
  destruct (_ && _); [done|]. by destruct (_ >=? _).
Qed.

(** The state before poll [k]. *)
Definition poll_at s (k : nat) : spi_state H := Nat.iter k poll_next s.

Lemma poll_at_S s k : poll_at s (S k) = poll_at (poll_next s) k.
Proof. unfold poll_at. by rewrite Nat.iter_succ_r. Qed.

(** From poll [c] on, with the polls left to the bound. *)
Lemma poll_wr_spec fuel cnt s :
  cnt + Z.of_nat fuel = MAX_POLLING_TIMES -> (0 < fuel)%nat ->
  (forall k, (k < fuel)%nat -> poll_ok (poll_at s k)) ->
  (exists k, (S k < fuel)%nat /\ poll_busy (poll_at s k) = false /\
     (forall j, (j < k)%nat -> poll_busy (poll_at s j) = true) /\
     poll_wr fuel cnt s = (Ok 0, poll_at s (S k))) \/
  ((forall k, (S k < fuel)%nat -> poll_busy (poll_at s k) = true) /\
   poll_wr fuel cnt s = (Ok (-1), poll_at s fuel)).
Proof.
  revert cnt s. induction fuel as [|fuel IH]; intros cnt s Hc Hf Hok; [lia|].
  rewrite (poll_wr_step _ _ s (Hok O ltac:(lia))).
  destruct (poll_busy s) eqn:Hb; rewrite ?Hb; cbn [andb].
  - destruct (Z.ltb_spec (cnt + 1) MAX_POLLING_TIMES) as [Hlt|Hge].
    + destruct (IH (cnt + 1) (poll_next s)) as [(k & Hk & Hbk & Hj & Hr)|[Hall Hr]]; [lia|lia| | |].
      * intros k Hk. rewrite <- poll_at_S. apply Hok. lia.
      * left. exists (S k). split_and!; [lia| | |].
        -- by rewrite poll_at_S.
        -- intros [|j] Hjk; [done|]. rewrite poll_at_S. apply Hj. lia.
        -- by rewrite Hr, (poll_at_S s (S k)).
      * right. rewrite Hr, poll_at_S. split; [|done]. intros [|k] Hk; [done|].
        rewrite poll_at_S. apply Hall. lia.
    + right. assert (fuel = 0%nat) as -> by lia. split; [intros k Hk; lia|].
      destruct (Z.geb_spec (cnt + 1) MAX_POLLING_TIMES); [done|lia].
  - destruct (Z.geb_spec (cnt + 1) MAX_POLLING_TIMES) as [Hge|Hlt].
    + right. assert (fuel = 0%nat) as -> by lia. split; [intros k Hk; lia|done].
    + left. exists O. split_and!; [lia|done|lia|done].
Qed.
End Polling.

(** ** Properties *)

(** Waiting for the end of a write reads the status register once per
    millisecond and returns 0 in the state after the first poll among the
    first 999 that is ready; if none of them is, it returns -1 after exactly
    1000 polls -- also when the 1000th poll was ready. *)
Theorem polling_outcome {H} {HO : SpiOps H} (s : spi_state H)
    (Hok : forall k, (k < 1000)%nat -> poll_ok (poll_at s k)) :
    (exists k, (k < 999)%nat /\ poll_busy (poll_at s k) = false /\
       (forall j, (j < k)%nat -> poll_busy (poll_at s j) = true) /\
       spi_nor_polling_for_wr_ready s = (Ok 0, poll_at s (S k))) \/
    ((forall k, (k < 999)%nat -> poll_busy (poll_at s k) = true) /\
     spi_nor_polling_for_wr_ready s = (Ok (-1), poll_at s 1000)).
Proof.
    destruct (poll_wr_spec (Z.to_nat MAX_POLLING_TIMES) 0 s) as [(k & Hk & Hb)|[Ha Hr]];
      [exact eq_refl|unfold MAX_POLLING_TIMES; lia|intros k Hk; apply Hok; exact Hk| |].
    - left. exists k. split; [|exact Hb]. unfold MAX_POLLING_TIMES in Hk. lia.
    - right. split; [|exact Hr]. intros k Hk. apply Ha. unfold MAX_POLLING_TIMES. lia.
Qed.

(** Packing a command writes the opcode, the address bytes, the dummy
    bytes 0xFF and the data one after the other, and the length it sends is
    theirs; the transmit buffer keeps its size when the packet fits it. *)
Theorem cmd_packing_layout (p : nor_cmd_packet)
    (Ha : addr_len p = Z.of_nat (length (addr p)))
    (Hy : 0 <= dummy_len p)
    (Hd : forall d, data p = Some d -> data_len p = Z.of_nat (length d))
    (Hfit : 1 + addr_len p + dummy_len p + Z.of_nat (length (default [] (data p)))
            <= Z.of_nat (length (tx_buf p))) :
    let q := cmd_packing p in
    let bytes := cmd p :: addr p ++ replicate (Z.to_nat (dummy_len p)) 255 ++ default [] (data p) in
    tx_len q = Z.of_nat (length bytes) /\
    take (Z.to_nat (tx_len q)) (tx_buf q) = bytes /\
    length (tx_buf q) = length (tx_buf p).
Proof.
    set (L := length (tx_buf p)) in *.
    assert (packed L (put_bytes 0 [cmd p] (tx_buf p)) [cmd p]) as H0
      by (apply (packed_put L (tx_buf p) [] [cmd p]); [done|simpl; lia]).
    pose proof (packed_field L _ _ (addr p) _ H0 Ha ltac:(simpl; lia)) as H1.
    unfold cmd_packing. rewrite (take_ge (addr p)) by lia.
    change (Z.of_nat (length [cmd p])) with 1 in H1.
    destruct (if addr_len p >? 0 then _ else _) as [b1 n1]. destruct H1 as [H1 ->].
    pose proof (packed_field L _ _ (replicate (Z.to_nat (dummy_len p)) 255) (dummy_len p) H1
      ltac:(rewrite length_replicate; lia)
      ltac:(rewrite length_app, length_replicate; simpl; lia)) as H2.
    destruct (if dummy_len p >? 0 then _ else _) as [b2 n2]. destruct H2 as [H2 ->].
    assert (forall bs m b, packed L b bs -> m = Z.of_nat (length bs) ->
      m = Z.of_nat (length bs) /\ take (Z.to_nat m) b = bs /\ length b = L) as Hend
      by (intros bs m b [Hl Ht] ->; rewrite Nat2Z.id; done).
    destruct (data p) as [d|] eqn:Ed; cbn [default tx_len tx_buf].
    - rewrite (Hd d eq_refl), (take_ge d) by lia.
      apply Hend; cbn [app]; rewrite app_comm_cons, app_assoc.
      + apply packed_put; [exact H2|]. simpl in Hfit. rewrite !length_app, length_replicate.
        simpl. lia.
      + unfold id. simpl. rewrite !length_app. lia.
    - cbn [app] in H2. apply Hend; rewrite ?app_nil_r; [exact H2|done].
Qed.

(** ** A host controller whose device is busy for a number of reads *)

Definition busy_hc : SpiOps nat := {|
  spi_write := fun _ n => (0, n);
  spi_read := fun _ _ n => match n with O => (0, [0], O) | S m => (0, [1], m) end;
  wait_for_ms := fun _ n => n;
  spi_nor_hc_init := fun n => (0, n)
  |}.

Definition idle_packet : nor_cmd_packet :=
    {| cmd := 0; addr := []; addr_len := 0; dummy_len := 0; data := None; data_len := 0;
       tx_buf := replicate 306 0; tx_len := 0 |}.

Definition busy_state (n : nat) : spi_state nat := {| cmd_packet := idle_packet; hardware := n |}.

Lemma busy_hc_ok (s : spi_state nat) : poll_ok (HO := busy_hc) s.
Proof.
    destruct s as [p n]. unfold poll_ok, poll_read, spi_nor_read_sr, read_inst.
    destruct n; reflexivity.
Qed.

(** A device that needs two polls, and one that is ready exactly at the 1000th. *)
Lemma polling_outcome_witness :
    (exists k, (k < 999)%nat /\
       spi_nor_polling_for_wr_ready (HO := busy_hc) (busy_state 2)
         = (Ok 0, poll_at (HO := busy_hc) (busy_state 2) (S k))) /\
    (spi_nor_polling_for_wr_ready (HO := busy_hc) (busy_state 998)).1 = Ok 0 /\
    (spi_nor_polling_for_wr_ready (HO := busy_hc) (busy_state 999)).1 = Ok (-1).
Proof.
    split; [|split; vm_compute; reflexivity].
    destruct (polling_outcome (HO := busy_hc) (busy_state 2) (fun k _ => busy_hc_ok _))
      as [(k & Hk & _ & _ & Hr)|[_ Hr]].
    - exists k. exact (conj Hk Hr).
    - exfalso. apply (f_equal fst) in Hr. vm_compute in Hr. discriminate Hr.
Defined.

Definition program_packet : nor_cmd_packet :=
    {| cmd := 2; addr := [0; 16; 32]; addr_len := 3; dummy_len := 1; data := Some [7; 8];
       data_len := 2; tx_buf := replicate 306 0; tx_len := 0 |}.

Lemma cmd_packing_layout_witness :
    let q := cmd_packing program_packet in
    tx_len q = 7 /\ take (Z.to_nat (tx_len q)) (tx_buf q) = [2; 0; 16; 32; 255; 7; 8] /\
    length (tx_buf q) = 306%nat.
Proof.
    apply (cmd_packing_layout program_packet).
    - reflexivity.
    - discriminate.
    - intros d [= <-]. reflexivity.
    - vm_compute. discriminate.
Defined.
