(* ===== verification/SecureFlash.v ===== *)
(** * The secure flash API layer (secureflash.c) and its file-system port
    (etss_secureflash.c)

    The JEDEC security HAL and the vendor support (the TG424_3 submodule) are
    a parameter: [JedecOps] lists what secureflash.c calls.  SP_ETSS comes from
    the generated psa_manifest/pid.h and is a parameter too.

    A function whose C status is not SECUREFLASH_SUCCESS is [Err] with that
    status.  [UNDEFINED] marks an access outside an array
    or a loop that does not end. *)
From Stdlib Require Import ZArith Lia.
From stdpp Require Import base list numbers options.
From S2P Require Import Prelude.
From S2P Require Import EtssUtils.
From S2P Require Import FlashFsDefs.
From S2P Require Import SpiNor.

#[local] Set Default Proof Using "Type*".

(** ** Error codes (secureflash_error.h) *)

Definition SECUREFLASH_SUCCESS : Z := 0.
Definition SECUREFLASH_ERROR_INITIAL : Z := -1.
Definition SECUREFLASH_ERROR_DEVICE : Z := -3.
Definition SECUREFLASH_ERROR_CREATE_SESSION : Z := -4.
Definition SECUREFLASH_ERROR_CLOSE_SESSION : Z := -5.
Definition SECUREFLASH_ERROR_SECURE_READ : Z := -8.
Definition SECUREFLASH_ERROR_SECURE_PROGRAM : Z := -9.
Definition SECUREFLASH_ERROR_SECURE_ERASE : Z := -10.
Definition SECUREFLASH_ERROR_SECURE_INIT : Z := -35.
Definition SECUREFLASH_ERROR_INVALID_ARGUMENT : Z := -39.
Definition SECUREFLASH_ERROR_ILLEGAL_ACCESS : Z := -40.
Definition SECUREFLASH_ERROR_UNSUPPORTED_DEVICE : Z := -43.
Definition SECUREFLASH_ERROR_GET_PROVISION_INFO : Z := -44.
Definition SECUREFLASH_ERROR_SECURE_DEINIT : Z := -45.

(** ** Data (secureflash.h) *)

Record app_data_t : Type := { app_id : Z; key_id : Z; zone_id : Z; mc_id : Z }.
Definition zero_app_data : app_data_t := {| app_id := 0; key_id := 0; zone_id := 0; mc_id := 0 |}.
Definition APP_INFO_MAX_NUM : nat := 16.

Record app_info_t : Type := { app_num : Z; app_data : list app_data_t }.
Definition zero_app_info : app_info_t :=
  {| app_num := 0; app_data := replicate APP_INFO_MAX_NUM zero_app_data |}.

(** The fields of [flash_profile->architecture] the code reads. *)
Record architecture_t : Type := {
  secure_zone_size : Z;
  secure_zone_total_size : Z;
  secure_read_size : Z;
  secure_program_size : Z;
  regions_min_secure_erase_size : Z
}.

(** The fields of [flash_profile->security_feature] the code reads. *)
Record security_feature_t : Type := {
  security_storage : bool;
  puf : bool;
  rng : bool;
  rpmc : bool
}.

(** An entry of the table [flash_info]; [id_len] is the length of the id. *)
Record flash_info_t : Type := {
  info_id : list Z;
  flash_profile : architecture_t;
  security_feature : security_feature_t
}.

(** [vendor] is the index of the table entry whose pointers were copied into
    [flash_info]. *)
Record secureflash_t : Type := {
  _init_ref_count : Z;
  _is_initialized : bool;
  app_info : app_info_t;
  flash_id : list Z;
  vendor : option nat
}.

(** ** The JEDEC security HAL and the vendor support *)

Class JedecOps (D : Type) := {
  SP_ETSS : Z;
  SECUREFLASH_AUTHEN_KEY_ID : Z;
  SECURE_FLASH_MAX_ID_LEN : Z;
  JEDEC_ERROR_NONE : Z;
  flash_info : list flash_info_t;
  jedec_set_vendor : flash_info_t -> D -> D;
  (* provision_item_get_data(ITEM_APP_INFO): status, items and their number *)
  provision_get_app_info : flash_info_t -> D -> Z * app_info_t * D;
  perform_and_verify : flash_info_t -> list Z -> D -> Z * D;
  jedec_secure_init : Z -> D -> Z * D;
  jedec_secure_uninit : Z -> D -> Z * D;
  jedec_create_session : Z -> D -> Z * Z * D;
  jedec_terminate_session : Z -> D -> Z * D;
  jedec_secure_read : Z -> Z -> Z -> D -> Z * list Z * D;   (* address, size, session *)
  jedec_secure_program : Z -> list Z -> Z -> D -> Z * D;    (* address, bytes, session *)
  jedec_secure_erase : Z -> Z -> Z -> D -> Z * D            (* address, size, session *)
}.

(** The secure flash context, the global of etss_secureflash.c, the command
    packet of spi_nor.c and the device. *)
Record sf_world (D : Type) : Type := {
  secureflash : secureflash_t;
  secureflash_app_id : Z;
  spi_nor : spi_state D
}.
Arguments secureflash {D} _.
Arguments secureflash_app_id {D} _.
Arguments spi_nor {D} _.
Arguments Build_sf_world {D} _ _ _.

Definition device {D} (w : sf_world D) : D := hardware (spi_nor w).

Section SecureFlash.
Context {D : Type} {SO : SpiOps D} {JO : JedecOps D}.
Implicit Types w : sf_world D.
Abbreviation SF := (ST (sf_world D)).

(** *** Access to the parts of the world *)

Definition get_sf : SF secureflash_t := gets secureflash.
Definition set_sf (f : secureflash_t -> secureflash_t) : SF unit := modify (fun w =>
  {| secureflash := f (secureflash w); secureflash_app_id := secureflash_app_id w;
     spi_nor := spi_nor w |}).

Definition with_spi {A} (m : ST (spi_state D) A) : SF A := fun w =>
  let '(r, s) := m (spi_nor w) in
  (r, {| secureflash := secureflash w; secureflash_app_id := secureflash_app_id w; spi_nor := s |}).

Definition with_device {A} (f : D -> A * D) : SF A :=
  with_spi (fun s =>
    let '(a, d) := f (hardware s) in (Ok a, {| cmd_packet := cmd_packet s; hardware := d |})).

(** [if (status) { status = e; goto exit; }] *)
Definition fail_if (b : bool) (e : Z) : SF unit := if b then raise e else mret tt.

(** [if (m != SECUREFLASH_SUCCESS) return e;] *)
Definition or_fail {A} (m : SF A) (e : Z) : SF A := fun w =>
  match m w with
  | (Ok a, w') => (Ok a, w')
  | (Err x, w') => (Err (if x =? UNDEFINED then UNDEFINED else e), w')
  end.

Definition set_ref_count (n : Z) (x : secureflash_t) : secureflash_t :=
  {| _init_ref_count := n; _is_initialized := _is_initialized x; app_info := app_info x;
     flash_id := flash_id x; vendor := vendor x |}.
Definition set_initialized (b : bool) (x : secureflash_t) : secureflash_t :=
  {| _init_ref_count := _init_ref_count x; _is_initialized := b; app_info := app_info x;
     flash_id := flash_id x; vendor := vendor x |}.
Definition set_app_info (a : app_info_t) (x : secureflash_t) : secureflash_t :=
  {| _init_ref_count := _init_ref_count x; _is_initialized := _is_initialized x; app_info := a;
     flash_id := flash_id x; vendor := vendor x |}.
Definition set_flash_id (l : list Z) (x : secureflash_t) : secureflash_t :=
  {| _init_ref_count := _init_ref_count x; _is_initialized := _is_initialized x;
     app_info := app_info x; flash_id := l; vendor := vendor x |}.
Definition set_vendor (v : nat) (x : secureflash_t) : secureflash_t :=
  {| _init_ref_count := _init_ref_count x; _is_initialized := _is_initialized x;
     app_info := app_info x; flash_id := flash_id x; vendor := Some v |}.

(** Following the pointers in [flash_info]. *)
Definition get_vendor : SF flash_info_t :=
  x ← get_sf;
  match vendor x ≫= fun i => flash_info !! i with Some v => mret v | None => raise UNDEFINED end.

(** *** Access control *)

(** The loops of [query_app_info]: items from [n] on. *)
Fixpoint find_app (etss : bool) (client zone : Z) (num : nat) (items : list app_data_t)
  : option (option app_data_t) :=
  match num with
  | O => Some None
  | S num =>
      match items with
      | [] => None
      | a :: items =>
          if (etss || (app_id a =? client)) && (zone_id a =? zone) then Some (Some a)
          else find_app etss client zone num items
      end
  end.

(** [None]: the search leaves the array; [Some None]: a null pointer. *)
Definition query_app_info (x : secureflash_t) (arch : architecture_t) (addr client : Z)
  : option (option app_data_t) :=
  let zone := addr / secure_zone_size arch in
  find_app (client =? SP_ETSS) client zone (Z.to_nat (app_num (app_info x))) (app_data (app_info x)).

(** *** Initialisation *)

Definition secureflash_get_app_info : SF unit :=
  v ← get_vendor;
  '(st, a) ← with_device (provision_get_app_info v);
  set_sf (set_app_info a);;
  fail_if (negb (st =? SECUREFLASH_SUCCESS)) SECUREFLASH_ERROR_GET_PROVISION_INFO.

(** The bound of the loop is [sizeof(flash_info)], four bytes per pointer. *)
Definition secureflash_match_id (id : list Z) : SF unit :=
  r ← for_loop (4 * length flash_info) 0 tt (fun i _ =>
    match flash_info !! Z.to_nat i with
    | None => raise UNDEFINED
    | Some v =>
        if bool_decide (take (length (info_id v)) id = info_id v) then
          with_device (fun d => (tt, jedec_set_vendor v d));;
          set_sf (set_vendor (Z.to_nat i));;
          mret (Done tt)
        else mret (Next tt)
    end);
  match r with
  | Done _ => mret tt
  | Next _ => raise SECUREFLASH_ERROR_UNSUPPORTED_DEVICE
  end.

Definition secureflash_probe : SF unit :=
  '(st, id) ← with_spi (spi_nor_read_id SECURE_FLASH_MAX_ID_LEN);
  set_sf (set_flash_id id);;
  fail_if (negb (st =? 0)) SECUREFLASH_ERROR_DEVICE;;
  or_fail (secureflash_match_id id) SECUREFLASH_ERROR_UNSUPPORTED_DEVICE.

Definition secureflash_init : SF unit :=
  x ← get_sf;
  (if negb (_is_initialized x) then set_sf (set_ref_count 0) else mret tt);;
  x ← get_sf;
  set_sf (set_ref_count (add32 (_init_ref_count x) 1));;
  if negb (add32 (_init_ref_count x) 1 =? 1) then mret tt
  else
    st ← with_spi spi_nor_init;
    fail_if (negb (st =? 0)) SECUREFLASH_ERROR_INITIAL;;
    secureflash_probe;;
    set_sf (set_app_info zero_app_info);;
    or_fail secureflash_get_app_info SECUREFLASH_ERROR_GET_PROVISION_INFO;;
    st ← with_device (jedec_secure_init SECUREFLASH_AUTHEN_KEY_ID);
    fail_if (negb (st =? JEDEC_ERROR_NONE)) SECUREFLASH_ERROR_SECURE_INIT;;
    set_sf (set_initialized true).

Definition secureflash_uninit : SF unit :=
  st ← with_device (jedec_secure_uninit SECUREFLASH_AUTHEN_KEY_ID);
  fail_if (negb (st =? JEDEC_ERROR_NONE)) SECUREFLASH_ERROR_SECURE_DEINIT;;
  set_sf (set_app_info zero_app_info);;
  x ← get_sf;
  set_sf (set_ref_count (sub32 (_init_ref_count x) 1));;
  if negb (sub32 (_init_ref_count x) 1 =? 0) then mret tt
  else if negb (_is_initialized x) then set_sf (set_ref_count 0)
  else set_sf (set_initialized false).

(** *** Read, program, erase *)

(** The common start: the checks and the session.  [extra] is the check the
  erase function makes before it looks the client up. *)
Definition open_session (extra : architecture_t -> bool) (addr size client : Z) : SF (architecture_t * Z) :=
  x ← get_sf;
  fail_if (negb (_is_initialized x)) SECUREFLASH_ERROR_DEVICE;;
  v ← get_vendor;
  let arch := flash_profile v in
  fail_if (add32 addr size >? secure_zone_total_size arch) SECUREFLASH_ERROR_INVALID_ARGUMENT;;
  fail_if (extra arch) SECUREFLASH_ERROR_INVALID_ARGUMENT;;
  match query_app_info x arch addr client with
  | None => raise UNDEFINED
  | Some None => raise SECUREFLASH_ERROR_ILLEGAL_ACCESS
  | Some (Some a) =>
      '(st, sid) ← with_device (jedec_create_session (key_id a));
      fail_if (negb (st =? JEDEC_ERROR_NONE)) SECUREFLASH_ERROR_CREATE_SESSION;;
      mret (arch, sid)
  end.

Definition close_session (sid : Z) : SF unit :=
  st ← with_device (jedec_terminate_session sid);
  fail_if (negb (st =? JEDEC_ERROR_NONE)) SECUREFLASH_ERROR_CLOSE_SESSION.

(** The bytes up to the next multiple of [len], at most [size]. *)
Definition chunk_size (addr size len : Z) : Z :=
  let offset := addr mod len in
  if add32 offset size <? len then size else len - offset.

(** The [while (size > 0)] loops; [fuel] is the size, every chunk being at
  least one byte. *)
Fixpoint read_loop (fuel : nat) (len addr size sid pos : Z) (buffer : list Z)
  : SF (outcome unit * list Z) :=
  if negb (size >? 0) then mret (Ok tt, buffer) else
  match fuel with
  | O => mret (Err UNDEFINED, buffer)
  | S fuel =>
      let chunk := chunk_size addr size len in
      '(st, bs) ← with_device (jedec_secure_read addr chunk sid);
      let buffer := put_bytes pos (take (Z.to_nat chunk) bs) buffer in
      if negb (st =? JEDEC_ERROR_NONE) then mret (Err SECUREFLASH_ERROR_SECURE_READ, buffer)
      else read_loop fuel len (add32 addr chunk) (size - chunk) sid (pos + chunk) buffer
  end.

(** The status and the buffer, which an error leaves partly filled. *)
Definition secureflash_secure_read (buffer : list Z) (addr size client : Z)
  : SF (outcome unit * list Z) :=
  r ← attempt (open_session (fun _ => false) addr size client);
  match r with
  | Err e => mret (Err e, buffer)
  | Ok (arch, sid) =>
      '(r, buffer) ← read_loop (Z.to_nat size) (secure_read_size arch) addr size sid 0 buffer;
      match r with
      | Err e => mret (Err e, buffer)
      | Ok _ => r ← attempt (close_session sid); mret (r, buffer)
      end
  end.

Fixpoint program_loop (fuel : nat) (len addr size sid : Z) (buffer : list Z) : SF unit :=
  if negb (size >? 0) then mret tt else
  match fuel with
  | O => raise UNDEFINED
  | S fuel =>
      let chunk := chunk_size addr size len in
      st ← with_device (jedec_secure_program addr (take (Z.to_nat chunk) buffer) sid);
      fail_if (negb (st =? JEDEC_ERROR_NONE)) SECUREFLASH_ERROR_SECURE_PROGRAM;;
      program_loop fuel len (add32 addr chunk) (size - chunk) sid (drop (Z.to_nat chunk) buffer)
  end.

Definition secureflash_secure_program (buffer : list Z) (addr size client : Z) : SF unit :=
  '(arch, sid) ← open_session (fun _ => false) addr size client;
  program_loop (Z.to_nat size) (secure_program_size arch) addr size sid buffer;;
  close_session sid.

Fixpoint erase_loop (fuel : nat) (erase_size addr size sid : Z) : SF unit :=
  if negb (size >? 0) then mret tt else
  match fuel with
  | O => raise UNDEFINED
  | S fuel =>
      st ← with_device (jedec_secure_erase addr erase_size sid);
      fail_if (negb (st =? JEDEC_ERROR_NONE)) SECUREFLASH_ERROR_SECURE_ERASE;;
      erase_loop fuel erase_size (add32 addr erase_size) (sub32 size erase_size) sid
  end.

Definition misaligned (addr size : Z) (arch : architecture_t) : bool :=
  let erase_size := regions_min_secure_erase_size arch in
  negb (addr mod erase_size =? 0) || negb (add32 addr size mod erase_size =? 0).

Definition secureflash_secure_erase (addr size client : Z) : SF unit :=
  '(arch, sid) ← open_session (misaligned addr size) addr size client;
  erase_loop (Z.to_nat size) (regions_min_secure_erase_size arch) addr size sid;;
  close_session sid.

(** *** Functions without an implementation *)

Definition secureflash_get_puf : SF unit := mret tt.
Definition secureflash_get_trng : SF unit := mret tt.
Definition secureflash_get_uid : SF unit := mret tt.
Definition mc_access_grant (client mc_addr : Z) : bool := false.
Definition secureflash_increase_mc (mc_addr client : Z) : SF unit := mret tt.
Definition secureflash_get_mc (mc_addr client : Z) : SF unit := mret tt.

Definition secureflash_provision (provision_data : list Z) : SF Z :=
  v ← get_vendor;
  with_device (perform_and_verify v provision_data).

(** ** The operations of the file system (etss_secureflash.c) *)

Definition get_phys_address (c : etss_flash_fs_config_t) (block_id offset : Z) : Z :=
  add32 (add32 (flash_area_addr c) (mul32 block_id (block_size c))) offset.

Definition etss_client_id_pass_on (client_id : Z) : SF unit := modify (fun w =>
  {| secureflash := secureflash w; secureflash_app_id := client_id; spi_nor := spi_nor w |}).

(** [if (secureflash_...()) return PSA_ERROR_STORAGE_FAILURE;] *)
Definition to_psa {A} (r : outcome A) : Z :=
  match r with
  | Ok _ => PSA_SUCCESS
  | Err e => if e =? UNDEFINED then UNDEFINED else PSA_ERROR_STORAGE_FAILURE
  end.

Definition run_psa {A} (m : SF A) w : Z * sf_world D :=
  let '(r, w') := m w in (to_psa r, w').

Definition etss_secureflash_init (c : etss_flash_fs_config_t) w : Z * sf_world D :=
  run_psa (etss_client_id_pass_on SP_ETSS;; secureflash_init) w.

(** The caller's buffer is taken as zeroed. *)
Definition etss_secureflash_read (c : etss_flash_fs_config_t) (block_id offset size : Z) w
  : Z * list Z * sf_world D :=
  let buffer := replicate (Z.to_nat size) 0 in
  match secureflash_secure_read buffer (get_phys_address c block_id offset) size
          (secureflash_app_id w) w with
  | (Ok (r, bs), w') => (to_psa r, bs, w')
  | (Err e, w') => (to_psa (A := unit) (Err e), buffer, w')
  end.

Definition etss_secureflash_write (c : etss_flash_fs_config_t) (block_id : Z) (buffer : list Z)
  (offset size : Z) w : Z * sf_world D :=
  run_psa (secureflash_secure_program buffer (get_phys_address c block_id offset) size
             (secureflash_app_id w)) w.

Definition etss_secureflash_flush (c : etss_flash_fs_config_t) w : Z * sf_world D :=
  (PSA_SUCCESS, w).

(** [for (offset = 0; offset < block_size; offset += sector_size)] *)
Fixpoint erase_sectors (fuel : nat) (c : etss_flash_fs_config_t) (block_id offset : Z) : SF unit :=
  if negb (offset <? block_size c) then mret tt else
  match fuel with
  | O => raise UNDEFINED
  | S fuel =>
      w ← get;
      secureflash_secure_erase (get_phys_address c block_id offset) (sector_size c)
        (secureflash_app_id w);;
      erase_sectors fuel c block_id (add32 offset (sector_size c))
  end.

Definition etss_secureflash_erase (c : etss_flash_fs_config_t) (block_id : Z) w : Z * sf_world D :=
  run_psa (erase_sectors (Z.to_nat (block_size c)) c block_id 0) w.

(** [etss_secure_flash_fs_ops] *)
#[export] Instance etss_secure_flash_fs_ops : FlashOps (sf_world D) := {
  fl_init := etss_secureflash_init;
  fl_read := etss_secureflash_read;
  fl_write := etss_secureflash_write;
  fl_flush := fun c _ => etss_secureflash_flush c;
  fl_erase := etss_secureflash_erase
}.
End SecureFlash.
