(* ===== verification/SecureFlashSpec.v ===== *)
(** * The secure flash as the flash of the file system

    [JedecLaws] states what the code relies on of the security HAL and the
    device: sessions give access to the addresses their root key is granted,
    programs and erases run in ascending order and may stop early.  The lemmas
    below specify every operation of secureflash.c for such a device. *)
From Stdlib Require Import ZArith Lia.
From stdpp Require Import base list numbers options.
From S2P Require Import Prelude.
From S2P Require Import EtssUtils.
From S2P Require Import FlashFsDefs.
From S2P Require Import SpiNor.
From S2P Require Import SecureFlash.

#[local] Set Default Proof Using "Type*".

(** ** The contract of the device *)

Record arch_ok (a : architecture_t) : Prop := {
  ao_zone : 0 < secure_zone_size a;
  ao_read : 0 < secure_read_size a < 4294967296;
  ao_program : 0 < secure_program_size a < 4294967296;
  ao_erase : 0 < regions_min_secure_erase_size a < 4294967296
}.

(** [dimg d a]: the byte at address [a].  [granted k a]: the root key [k]
    opens the zone of [a].  [session_key d sid]: the key of an open session.
    [dev_index], [dev_id] and [dev_apps] describe a healthy device: its entry
    of [flash_info], its JEDEC id and what was provisioned. *)
Class JedecLaws (D : Type) {SO : SpiOps D} {JO : JedecOps D} := {
  dimg : D -> Z -> Z;
  dev_erase : Z;
  granted : Z -> Z -> Prop;
  session_key : D -> Z -> option Z;
  dev_healthy : D -> Prop;
  dev_index : nat;
  dev_info : flash_info_t;
  dev_id : list Z;
  dev_apps : app_info_t;
  jl_u8 : forall d a, is_u8 (dimg d a);
  jl_erase_u8 : is_u8 dev_erase;
  jl_arch : Forall (fun v => arch_ok (flash_profile v)) flash_info;
  jl_info : flash_info !! dev_index = Some dev_info;
  jl_id : take (length (info_id dev_info)) dev_id = info_id dev_info;
  jl_first : forall j v, (j < dev_index)%nat -> flash_info !! j = Some v ->
    take (length (info_id v)) dev_id <> info_id v;
  jl_hc_init : forall d, let '(st, d') := spi_nor_hc_init d in
    (forall a, dimg d' a = dimg d a) /\ (dev_healthy d -> st = 0 /\ dev_healthy d');
  jl_reset : forall inst d, inst = STD_INST_RSTEN \/ inst = STD_INST_RST ->
    let '(st, d') := spi_write [inst] d in
    (forall a, dimg d' a = dimg d a) /\ (dev_healthy d -> st = SUCCESS /\ dev_healthy d');
  jl_wait : forall n d, (forall a, dimg (wait_for_ms n d) a = dimg d a) /\
    (dev_healthy d -> dev_healthy (wait_for_ms n d));
  jl_read_id : forall d,
    let '(st, rx, d') := spi_read [STD_INST_RDID] SECURE_FLASH_MAX_ID_LEN d in
    (forall a, dimg d' a = dimg d a) /\
    (dev_healthy d -> st = SUCCESS /\ rx = dev_id /\ dev_healthy d');
  jl_set_vendor : forall v d, (forall a, dimg (jedec_set_vendor v d) a = dimg d a) /\
    (dev_healthy d -> dev_healthy (jedec_set_vendor v d));
  jl_app_info : forall v d, let '(st, apps, d') := provision_get_app_info v d in
    (forall a, dimg d' a = dimg d a) /\
    (dev_healthy d -> v = dev_info -> st = SECUREFLASH_SUCCESS /\ apps = dev_apps /\ dev_healthy d');
  jl_secure_init : forall k d, let '(st, d') := jedec_secure_init k d in
    (forall a, dimg d' a = dimg d a) /\
    (dev_healthy d -> st = JEDEC_ERROR_NONE /\ dev_healthy d');
  jl_create : forall k d, let '(st, sid, d') := jedec_create_session k d in
    (forall a, dimg d' a = dimg d a) /\
    (st = JEDEC_ERROR_NONE -> session_key d' sid = Some k) /\
    (dev_healthy d -> st = JEDEC_ERROR_NONE /\ dev_healthy d');
  jl_terminate : forall sid d, let '(st, d') := jedec_terminate_session sid d in
    (forall a, dimg d' a = dimg d a) /\
    (dev_healthy d -> session_key d sid <> None -> st = JEDEC_ERROR_NONE /\ dev_healthy d');
  jl_read : forall addr n sid d, let '(st, bs, d') := jedec_secure_read addr n sid d in
    (forall a, dimg d' a = dimg d a) /\
    (forall x, session_key d' x = session_key d x) /\
    Forall is_u8 bs /\ (length bs <= Z.to_nat n)%nat /\
    (st = JEDEC_ERROR_NONE -> bs = rd (dimg d) addr n) /\
    (forall k, dev_healthy d -> session_key d sid = Some k ->
       (forall a, addr <= a < addr + n -> granted k a) ->
       addr mod secure_read_size (flash_profile dev_info) + n
         <= secure_read_size (flash_profile dev_info) ->
       st = JEDEC_ERROR_NONE /\ dev_healthy d');
  jl_program : forall addr bs sid d, let '(st, d') := jedec_secure_program addr bs sid d in
    (forall x, session_key d' x = session_key d x) /\
    (forall a, dimg d' a <> dimg d a -> exists k, session_key d sid = Some k /\ granted k a) /\
    (exists n, 0 <= n <= Z.of_nat (length bs) /\
       (st = JEDEC_ERROR_NONE -> n = Z.of_nat (length bs)) /\
       (forall a, ~ (addr <= a < addr + n) -> dimg d' a = dimg d a) /\
       (Forall is_u8 bs -> forall i, 0 <= i < n -> dimg d (addr + i) = dev_erase ->
          dimg d' (addr + i) = nth_byte bs i)) /\
    (forall k, dev_healthy d -> session_key d sid = Some k ->
       (forall a, addr <= a < addr + Z.of_nat (length bs) -> granted k a) ->
       addr mod secure_program_size (flash_profile dev_info) + Z.of_nat (length bs)
         <= secure_program_size (flash_profile dev_info) ->
       st = JEDEC_ERROR_NONE /\ dev_healthy d');
  jl_erase : forall addr n sid d, let '(st, d') := jedec_secure_erase addr n sid d in
    (forall x, session_key d' x = session_key d x) /\
    (forall a, dimg d' a <> dimg d a -> exists k, session_key d sid = Some k /\ granted k a) /\
    (0 <= n -> exists m, 0 <= m <= n /\ (st = JEDEC_ERROR_NONE -> m = n) /\
       (forall a, ~ (addr <= a < addr + m) -> dimg d' a = dimg d a) /\
       (forall a, addr <= a < addr + m -> dimg d' a = dev_erase)) /\
    (forall k, dev_healthy d -> session_key d sid = Some k ->
       (forall a, addr <= a < addr + n -> granted k a) ->
       n = regions_min_secure_erase_size (flash_profile dev_info) -> addr mod n = 0 ->
       st = JEDEC_ERROR_NONE /\ dev_healthy d')
}.

(** ** The shape of the functions *)

Section Structure.
Context {D : Type} {SO : SpiOps D} {JO : JedecOps D}.
Implicit Types w : sf_world D.
Implicit Types d : D.

Definition set_device w d : sf_world D :=
  {| secureflash := secureflash w; secureflash_app_id := secureflash_app_id w;
     spi_nor := {| cmd_packet := cmd_packet (spi_nor w); hardware := d |} |}.

Lemma with_device_eq {A} (f : D -> A * D) w :
  with_device f w = (Ok (f (device w)).1, set_device w (f (device w)).2).
Proof. unfold with_device, with_spi, device, set_device. by destruct (f _). Qed.

Lemma bind_device {A B} (f : D -> A * D) (k : A -> ST (sf_world D) B) w :
  (with_device f ≫= k) w = k (f (device w)).1 (set_device w (f (device w)).2).
Proof. unfold mbind, ST_bind. by rewrite with_device_eq. Qed.

Lemma chunk_size_spec addr size len :
  0 < len -> 0 <= addr -> 0 < size -> addr + size < 4294967296 ->
  let n := chunk_size addr size len in
  0 < n <= size /\ addr mod len + n <= len /\ (n = size \/ (addr + n) mod len = 0).
Proof.
  intros Hl Ha Hs Hb n. subst n. unfold chunk_size.
  pose proof (Z.mod_pos_bound addr len Hl). pose proof (Z.mod_le addr len Ha Hl).
  rewrite add32_small by lia. destruct (Z.ltb_spec (addr mod len + size) len); [lia|].
  split_and!; [lia..|]. right.
  rewrite (Z.div_mod addr len) at 1 by lia.
  replace (len * (addr / len) + addr mod len + (len - addr mod len)) with ((addr / len + 1) * len) by lia.
  apply Z.mod_mul. lia.
Qed.

(** The table entry of the device found at start-up. *)
Definition current_info w : option flash_info_t :=
  vendor (secureflash w) ≫= fun i => flash_info !! i.

(** *** Who may access what, read off the provisioned table

  Independent of how the code searches: the rows in use are the first
  [app_num] ones; a row opens a zone to its own application, and to the
  partition itself; what a client gets is the first such row. *)
Definition rows (apps : app_info_t) : list app_data_t :=
  take (Z.to_nat (app_num apps)) (app_data apps).
Definition opens (client zone : Z) (q : app_data_t) : Prop :=
  zone_id q = zone /\ (app_id q = client \/ client = SP_ETSS).
#[export] Instance opens_dec client zone q : Decision (opens client zone q).
Proof. unfold opens. apply _. Defined.
Definition row_for (apps : app_info_t) (client zone : Z) : option app_data_t :=
  snd <$> list_find (opens client zone) (rows apps).

(** The row that lets [client] access [addr]. *)
Definition entry_for w addr client : option app_data_t :=
  v ← current_info w;
  row_for (app_info (secureflash w)) client (addr / secure_zone_size (flash_profile v)).

(** The number of rows in use is one the array can have. *)
Definition table_fits (apps : app_info_t) : Prop := app_num apps <= Z.of_nat (length (app_data apps)).

Lemma find_app_row client zone num items :
  find_app (client =? SP_ETSS) client zone num items =
  match list_find (opens client zone) (take num items) with
  | Some (_, q) => Some (Some q)
  | None => if decide (num <= length items)%nat then Some None else None
  end.
Proof.
  revert items. induction num as [|num IH]; intros [|a items]; cbn [take find_app]; [done..|].
  cbn [list_find]. rewrite IH.
  assert (((client =? SP_ETSS) || (app_id a =? client)) && (zone_id a =? zone)
    = bool_decide (opens client zone a)) as ->.
  { apply eq_bool_prop_intro. rewrite bool_decide_spec. unfold opens.
    destruct (Z.eqb_spec client SP_ETSS), (Z.eqb_spec (app_id a) client), (Z.eqb_spec (zone_id a) zone);
    cbn; tauto. }
  destruct (decide (opens client zone a)) as [Ho|Ho];
    [by rewrite bool_decide_eq_true_2|rewrite bool_decide_eq_false_2 by done; cbn [length]].
  destruct (list_find _ _) as [[j q]|]; [done|].
  destruct (decide (num <= length items)%nat), (decide (S num <= S (length items))%nat); done || lia.
Qed.

(** The search of the code finds the row of the table. *)
Lemma query_row x arch addr client :
  mjoin (query_app_info x arch addr client) = row_for (app_info x) client (addr / secure_zone_size arch).
Proof.
  unfold query_app_info, row_for, rows. rewrite find_app_row.
  destruct (list_find _ _) as [[j q]|]; [done|]. by case_decide.
Qed.

(** No row, no entry. *)
Lemma query_no_row x arch addr client :
  table_fits (app_info x) -> (forall q, q ∈ rows (app_info x) -> ~ opens client (addr / secure_zone_size arch) q) ->
  query_app_info x arch addr client = Some None.
Proof.
  intros Hf Hn. unfold query_app_info. rewrite find_app_row.
  destruct (list_find _ _) as [[j q]|] eqn:Hl.
  - apply list_find_Some in Hl as (Hj & Ho & _). destruct (Hn q); [|done].
    by eapply list_elem_of_lookup_2.
  - unfold table_fits in Hf. by case_decide; [|lia].
Qed.

(** The checks made before a session is opened. *)
Definition admission (extra : architecture_t -> bool) w addr size client
  : Z + architecture_t * app_data_t :=
  if negb (_is_initialized (secureflash w)) then inl SECUREFLASH_ERROR_DEVICE else
  match current_info w with
  | None => inl UNDEFINED
  | Some v =>
      let arch := flash_profile v in
      if add32 addr size >? secure_zone_total_size arch then inl SECUREFLASH_ERROR_INVALID_ARGUMENT
      else if extra arch then inl SECUREFLASH_ERROR_INVALID_ARGUMENT
      else match query_app_info (secureflash w) arch addr client with
           | None => inl UNDEFINED
           | Some None => inl SECUREFLASH_ERROR_ILLEGAL_ACCESS
           | Some (Some q) => inr (arch, q)
           end
  end.

Lemma bind_fail_if {A} b e (k : unit -> ST (sf_world D) A) w :
  (fail_if b e ≫= k) w = if b then (Err e, w) else k tt w.
Proof. by destruct b. Qed.

Lemma get_vendor_eq w :
  get_vendor w = (match current_info w with Some v => Ok v | None => Err UNDEFINED end, w).
Proof.
  unfold get_vendor. rewrite (bind_ok get_sf _ w (secureflash w) w eq_refl).
  fold (current_info w). by destruct (current_info w).
Qed.

Lemma open_session_eq extra addr size client w :
  open_session extra addr size client w =
  match admission extra w addr size client with
  | inl e => (Err e, w)
  | inr (arch, q) =>
      let '(st, sid, d) := jedec_create_session (key_id q) (device w) in
      (if st =? JEDEC_ERROR_NONE then Ok (arch, sid) else Err SECUREFLASH_ERROR_CREATE_SESSION,
       set_device w d)
  end.
Proof.
  unfold open_session, admission. rewrite (bind_ok get_sf _ w (secureflash w) w eq_refl), bind_fail_if.
  destruct (_is_initialized _); cbn [negb]; [|done].
  pose proof (get_vendor_eq w) as Hg. destruct (current_info w) as [v|];
    [rewrite (bind_ok _ _ _ _ _ Hg)|by rewrite (bind_err _ _ _ _ _ Hg)].
  cbv zeta. rewrite bind_fail_if. destruct (_ >? _); [done|].
  rewrite bind_fail_if. destruct (extra _); [done|].
  destruct (query_app_info _ _ _ _) as [[q|]|]; [|done..].
  rewrite bind_device. destruct (jedec_create_session _ _) as [[st sid] d]. cbn [fst snd].
  rewrite bind_fail_if. by destruct (st =? _).
Qed.

Lemma admission_ok extra w addr size client arch q :
  admission extra w addr size client = inr (arch, q) ->
  exists v, current_info w = Some v /\ arch = flash_profile v /\
    entry_for w addr client = Some q /\ extra arch = false /\
    add32 addr size <= secure_zone_total_size arch.
Proof.
  unfold admission, entry_for. destruct (_is_initialized _); [|done]. cbn [negb].
  destruct (current_info w) as [v|]; [|done].
  destruct (Z.gtb_spec (add32 addr size) (secure_zone_total_size (flash_profile v))) as [|Hle]; [done|].
  destruct (extra (flash_profile v)) eqn:He; [done|].
  destruct (query_app_info _ _ _ _) as [[q'|]|] eqn:Hq; [|done..].
  intros [= <- <-]. exists v. split_and!; [done|done| |done|lia]. cbn. by rewrite <- query_row, Hq.
Qed.

Lemma attempt_eq {A} (m : ST (sf_world D) A) w r w' : m w = (r, w') -> attempt m w = (Ok r, w').
Proof. unfold attempt. by intros ->. Qed.

Lemma packet_bytes inst buf : take (Z.to_nat 1) (put_bytes 0 [inst] buf) = [inst].
Proof. done. Qed.

Lemma send_inst_eq inst (s : spi_state D) : exists p,
  send_inst inst s = (Ok (spi_write [inst] (hardware s)).1,
    {| cmd_packet := p; hardware := (spi_write [inst] (hardware s)).2 |}).
Proof.
  unfold send_inst. cbn. rewrite packet_bytes.
  eexists. by destruct (spi_write _ _).
Qed.

Lemma read_inst_eq inst n (s : spi_state D) : exists p,
  read_inst inst n s = (Ok (spi_read [inst] n (hardware s)).1,
    {| cmd_packet := p; hardware := (spi_read [inst] n (hardware s)).2 |}).
Proof.
  unfold read_inst. cbn. rewrite packet_bytes.
  eexists. by destruct (spi_read _ _ _) as [[st rx] h].
Qed.
End Structure.

Section Spec.
Context {D : Type} {SO : SpiOps D} {JO : JedecOps D} {JL : JedecLaws D}.
Implicit Types w : sf_world D.
Implicit Types d : D.

(** ** Nothing but the device changes, or not even its contents *)

(** Same contents. *)
Definition same_mem w w' : Prop := forall a, dimg (device w') a = dimg (device w) a.
(** Same memory, same client, same secure-flash context. *)
Definition quiet w w' : Prop :=
  same_mem w w' /\ secureflash w' = secureflash w /\ secureflash_app_id w' = secureflash_app_id w.

#[export] Instance same_mem_pre : PreOrder same_mem.
Proof. split; [by intros w a|]. intros w1 w2 w3 H1 H2 a. by rewrite H2, H1. Qed.
#[export] Instance quiet_pre : PreOrder quiet.
Proof.
  split; [by intros w; split_and!|].
  intros w1 w2 w3 (?&Ha&Hb) (?&Hc&Hd). split_and!; [by etrans|by rewrite Hc|by rewrite Hd].
Qed.

(** ** The loops *)

(** The range of addresses a root key opens. *)
Definition grants (k addr size : Z) : Prop := forall a, addr <= a < addr + size -> granted k a.

Lemma grants_sub k addr size addr' size' :
  grants k addr size -> addr <= addr' -> addr' + size' <= addr + size -> grants k addr' size'.
Proof. intros H ?? a Ha. apply H. lia. Qed.

(** The device serves session [sid], opened with the key [k]. *)
Definition serving w sid k : Prop :=
  dev_healthy (device w) /\ session_key (device w) sid = Some k.

(** Same client, same secure-flash context; every byte that changed is in a
  zone the key of session [sid] opens. *)
Definition within_session sid w w' : Prop :=
  secureflash w' = secureflash w /\ secureflash_app_id w' = secureflash_app_id w /\
  (forall x, session_key (device w') x = session_key (device w) x) /\
  forall a, dimg (device w') a <> dimg (device w) a ->
    exists k, session_key (device w) sid = Some k /\ granted k a.

#[export] Instance within_session_pre sid : PreOrder (within_session sid).
Proof.
  split; [by intros w; split_and!|].
  intros w1 w2 w3 (H1&H2&H3&H4) (H5&H6&H7&H8). split_and!; [congruence..| |].
  - intros x. by rewrite H7, H3.
  - intros a Ha. destruct (Z.eq_dec (dimg (device w2) a) (dimg (device w1) a)) as [He|Hn]; [|by apply H4].
    rewrite <- (H3 sid). apply H8. by rewrite He.
Qed.

(** The bytes [bs] were programmed from [addr] on, the first [n] of them. *)
Definition programmed w w' addr (bs : list Z) n : Prop :=
  (forall a, ~ (addr <= a < addr + n) -> dimg (device w') a = dimg (device w) a) /\
  (forall i, 0 <= i < n -> dimg (device w) (addr + i) = dev_erase ->
     dimg (device w') (addr + i) = nth_byte bs i).

Lemma programmed_app w1 w2 w3 addr bs n m :
  0 <= n -> 0 <= m -> programmed w1 w2 addr (take (Z.to_nat n) bs) n ->
  programmed w2 w3 (addr + n) (drop (Z.to_nat n) bs) m -> programmed w1 w3 addr bs (n + m).
Proof.
  intros Hn Hm [H1 H2] [H3 H4]. split.
  - intros a Ha. rewrite H3, H1 by lia. done.
  - intros i Hi He. destruct (decide (i < n)) as [Hlt|Hge].
    + rewrite H3, H2 by (done || lia). apply nth_byte_take. lia.
    + replace (addr + i) with (addr + n + (i - n)) in * by lia.
      rewrite H4; [|lia|rewrite H1 by lia; done]. rewrite nth_byte_drop by lia. f_equal. lia.
Qed.

Lemma programmed_nil w addr bs : programmed w w addr bs 0.
Proof. split; [done|lia]. Qed.

(** The bytes from [addr] on are erased, the first [n] of them. *)
Definition cleared w w' addr n : Prop :=
  (forall a, ~ (addr <= a < addr + n) -> dimg (device w') a = dimg (device w) a) /\
  (forall a, addr <= a < addr + n -> dimg (device w') a = dev_erase).

Lemma cleared_nil w addr : cleared w w addr 0.
Proof. split; [done|lia]. Qed.

Lemma cleared_app w1 w2 w3 addr n m :
  0 <= n -> 0 <= m -> cleared w1 w2 addr n -> cleared w2 w3 (addr + n) m ->
  cleared w1 w3 addr (n + m).
Proof.
  intros Hn Hm [H1 H2] [H3 H4]. split.
  - intros a Ha. rewrite H3, H1 by lia. done.
  - intros a Ha. destruct (decide (a < addr + n)) as [Hlt|Hge].
    + rewrite H3, H2 by lia. done.
    + apply H4. lia.
Qed.

Lemma read_loop_spec len sid fuel addr size pos buf w :
  0 < len -> 0 <= addr -> 0 <= size <= Z.of_nat fuel -> addr + size < 4294967296 ->
  0 <= pos -> pos + size <= Z.of_nat (length buf) -> Forall is_u8 buf ->
  exists r bs w', read_loop fuel len addr size sid pos buf w = (Ok (r, bs), w') /\
    quiet w w' /\ length bs = length buf /\ Forall is_u8 bs /\
    (r = Ok tt -> bs = put_bytes pos (rd (dimg (device w)) addr size) buf) /\
    (forall k, serving w sid k -> grants k addr size ->
       len = secure_read_size (flash_profile dev_info) -> r = Ok tt /\ serving w' sid k).
Proof.
  intros Hlen. revert addr size pos buf w.
  induction fuel as [|fuel IH]; intros addr size pos buf w Ha Hs Hw Hp Hfit Hu8; cbn [read_loop];
    destruct (Z.gtb_spec size 0) as [Hpos|Hz]; cbn [negb]; [lia| | |].
  1, 3: assert (size = 0) as -> by lia; exists (Ok tt), buf, w; rewrite rd_nil, put_bytes_nil;
    split_and!; by try done; split_and!.
  rewrite bind_device.
  pose proof (chunk_size_spec addr size len Hlen Ha ltac:(lia) Hw) as (Hn & Hin & _).
  set (n := chunk_size addr size len) in *.
  pose proof (jl_read addr n sid (device w)) as Hr.
  destruct (jedec_secure_read addr n sid (device w)) as [[st bs] d']. cbn [fst snd].
  destruct Hr as (Hmem & Hses & Hbs & Hlb & Hok & Hserve).
  assert (length (take (Z.to_nat n) bs) <= Z.to_nat n)%nat as Hlt by (rewrite length_take; lia).
  set (buf' := put_bytes pos (take (Z.to_nat n) bs) buf).
  assert (length buf' = length buf) as Hl' by (apply put_bytes_length; lia).
  assert (Forall is_u8 buf') as Hu' by (apply put_bytes_Forall; [by apply Forall_take|done]).
  assert (quiet w (set_device w d')) as Hq by (split_and!; done).
  destruct (Z.eqb_spec st JEDEC_ERROR_NONE) as [Hst|Hst]; cbn [negb].
  - rewrite add32_small by lia.
    destruct (IH (addr + n) (size - n) (pos + n) buf' (set_device w d'))
      as (r & bs' & w' & -> & Hq' & Hlen' & Hu'' & Hval & Hs'); [lia..|done|].
    exists r, bs', w'. split_and!; [done|by etrans|congruence|done| |].
    + intros Hr. rewrite (Hval Hr). unfold buf'. rewrite (Hok Hst).
      rewrite take_ge by (rewrite rd_length; lia).
      rewrite (rd_ext (dimg (device (set_device w d'))) (dimg (device w))) by (intros; apply Hmem).
      replace (pos + n) with (pos + Z.of_nat (length (rd (dimg (device w)) addr n)))
        by (rewrite rd_length; lia).
      rewrite put_bytes_put_bytes by (rewrite ?rd_length; lia).
      rewrite <- rd_app by lia. do 2 f_equal. lia.
    + intros k [Hh Hk] Hg Hl.
      destruct (Hserve k Hh Hk) as [_ Hh']; [|by rewrite <- Hl|].
      { eapply grants_sub; [exact Hg|lia..]. }
      apply (Hs' k); [|eapply grants_sub; [exact Hg|lia..]|done].
      split; [done|]. unfold device in *. cbn. by rewrite Hses.
  - exists (Err SECUREFLASH_ERROR_SECURE_READ), buf', (set_device w d'). split_and!; try done.
    intros k [Hh Hk] Hg Hl. exfalso. apply Hst.
    apply (Hserve k Hh Hk); [eapply grants_sub; [exact Hg|lia..]|by rewrite <- Hl].
Qed.

Lemma program_loop_spec len sid fuel addr size buf w :
  0 < len -> 0 <= addr -> 0 <= size <= Z.of_nat fuel -> addr + size < 4294967296 ->
  size <= Z.of_nat (length buf) -> Forall is_u8 buf ->
  exists r w' n, program_loop fuel len addr size sid buf w = (r, w') /\
    within_session sid w w' /\ 0 <= n <= size /\ (r = Ok tt -> n = size) /\
    programmed w w' addr buf n /\
    (forall k, serving w sid k -> grants k addr size ->
       len = secure_program_size (flash_profile dev_info) -> r = Ok tt /\ serving w' sid k).
Proof.
  intros Hlen. revert addr size buf w.
  induction fuel as [|fuel IH]; intros addr size buf w Ha Hs Hw Hfit Hu; cbn [program_loop];
    destruct (Z.gtb_spec size 0) as [Hpos|Hz]; cbn [negb]; [lia| | |].
  1, 3: exists (Ok tt), w, 0; split_and!; by try lia; try apply programmed_nil.
  rewrite bind_device.
  pose proof (chunk_size_spec addr size len Hlen Ha ltac:(lia) Hw) as (Hn & Hin & _).
  set (n := chunk_size addr size len) in *.
  pose proof (jl_program addr (take (Z.to_nat n) buf) sid (device w)) as Hp.
  assert (Z.of_nat (length (take (Z.to_nat n) buf)) = n) as Htn by (rewrite length_take; lia).
  rewrite Htn in Hp.
  destruct (jedec_secure_program addr _ sid (device w)) as [st d']. cbn [fst snd].
  destruct Hp as (Hses & Hgr & (k & Hk & Hkn & Hout & Hval) & Hserve).
  assert (within_session sid w (set_device w d')) as Hws by (split_and!; done).
  assert (programmed w (set_device w d') addr (take (Z.to_nat n) buf) k) as Hpr
    by (split; [done|apply Hval; by apply Forall_take]).
  destruct (Z.eqb_spec st JEDEC_ERROR_NONE) as [Hst|Hst]; cbn [negb fail_if].
  - rewrite (Hkn Hst) in Hpr. rewrite add32_small by lia.
    destruct (IH (addr + n) (size - n) (drop (Z.to_nat n) buf) (set_device w d'))
      as (r & w' & m & Hrun & Hws' & Hm & Hmr & Hpr' & Hs'); [lia..|rewrite length_drop; lia|by apply Forall_drop|].
    rewrite (bind_ok _ _ _ tt (set_device w d')), Hrun by done.
    exists r, w', (n + m). split_and!; [done|by etrans|lia|lia|intros Hr; rewrite (Hmr Hr); lia| |].
    + by eapply programmed_app; [lia|lia|..].
    + intros key [Hh Hkey] Hg Hl.
      destruct (Hserve key Hh Hkey) as [_ Hh'];
        [eapply grants_sub; [exact Hg|lia..]|by rewrite <- Hl|].
      apply (Hs' key); [|eapply grants_sub; [exact Hg|lia..]|done].
      split; [done|]. unfold device in *. cbn. by rewrite Hses.
  - rewrite (bind_err _ _ _ SECUREFLASH_ERROR_SECURE_PROGRAM (set_device w d')) by done.
    exists (Err SECUREFLASH_ERROR_SECURE_PROGRAM), (set_device w d'), k. split_and!; [done|done|lia|lia|done| |].
    + destruct Hpr as [H1 H2]. split; [done|]. intros i Hi He. rewrite H2 by done.
      apply nth_byte_take. lia.
    + intros key [Hh Hkey] Hg Hl. exfalso. apply Hst.
      apply (Hserve key Hh Hkey); [eapply grants_sub; [exact Hg|lia..]|by rewrite <- Hl].
Qed.

Lemma erase_loop_spec es sid fuel addr size w :
  0 < es -> 0 <= addr -> 0 <= size <= Z.of_nat fuel -> addr + size < 4294967296 ->
  size mod es = 0 ->
  exists r w' n, erase_loop fuel es addr size sid w = (r, w') /\
    within_session sid w w' /\ 0 <= n <= size /\ (r = Ok tt -> n = size) /\
    cleared w w' addr n /\
    (forall k, serving w sid k -> grants k addr size -> addr mod es = 0 ->
       es = regions_min_secure_erase_size (flash_profile dev_info) -> r = Ok tt /\ serving w' sid k).
Proof.
  intros Hes. revert addr size w.
  induction fuel as [|fuel IH]; intros addr size w Ha Hs Hw Hmod; cbn [erase_loop];
    destruct (Z.gtb_spec size 0) as [Hpos|Hz]; cbn [negb]; [lia| | |].
  1, 3: exists (Ok tt), w, 0; split_and!; by try lia; try apply cleared_nil.
  assert (es <= size) as Hle.
  { destruct (Z_lt_le_dec size es) as [Hlt|]; [|lia]. rewrite Z.mod_small in Hmod by lia. lia. }
  rewrite bind_device.
  pose proof (jl_erase addr es sid (device w)) as Hp.
  destruct (jedec_secure_erase addr es sid (device w)) as [st d']. cbn [fst snd].
  destruct Hp as (Hses & Hgr & Hpre & Hserve).
  destruct (Hpre ltac:(lia)) as (k & Hk & Hkn & Hout & Hval).
  assert (within_session sid w (set_device w d')) as Hws by (split_and!; done).
  assert (cleared w (set_device w d') addr k) as Hpr by (split; done).
  destruct (Z.eqb_spec st JEDEC_ERROR_NONE) as [Hst|Hst]; cbn [negb fail_if].
  - rewrite (Hkn Hst) in Hpr. rewrite add32_small, sub32_small by lia.
    destruct (IH (addr + es) (size - es) (set_device w d'))
      as (r & w' & m & Hrun & Hws' & Hm & Hmr & Hpr' & Hs'); [lia..| |].
    { rewrite <- (Z.mod_add _ 1), Z.mul_1_l by lia. by replace (size - es + es) with size by lia. }
    rewrite (bind_ok _ _ _ tt (set_device w d')), Hrun by done.
    exists r, w', (es + m). split_and!; [done|by etrans|lia|lia|intros Hr; rewrite (Hmr Hr); lia| |].
    + by eapply cleared_app; [lia|lia|..].
    + intros key [Hh Hkey] Hg Hmo Hl.
      destruct (Hserve key Hh Hkey) as [_ Hh'];
        [eapply grants_sub; [exact Hg|lia..]|done|done|].
      apply (Hs' key); [|eapply grants_sub; [exact Hg|lia..]| |done].
      * split; [done|]. unfold device in *. cbn. by rewrite Hses.
      * rewrite <- (Z.mod_add _ (-1)) by lia. by replace (addr + es + -1 * es) with addr by lia.
  - rewrite (bind_err _ _ _ SECUREFLASH_ERROR_SECURE_ERASE (set_device w d')) by done.
    exists (Err SECUREFLASH_ERROR_SECURE_ERASE), (set_device w d'), k.
    split_and!; [done|done|lia|lia|done|done|].
    intros key [Hh Hkey] Hg Hmo Hl. exfalso. apply Hst.
    apply (Hserve key Hh Hkey); [eapply grants_sub; [exact Hg|lia..]|done|done].
Qed.

(** ** Sessions *)

(** What makes an access by [client] succeed. *)
Definition served w addr size client : Prop :=
  dev_healthy (device w) /\ _is_initialized (secureflash w) = true /\
  vendor (secureflash w) = Some dev_index /\
  addr + size <= secure_zone_total_size (flash_profile dev_info) /\
  exists q, entry_for w addr client = Some q /\ grants (key_id q) addr size.

Lemma current_arch w v : current_info w = Some v -> arch_ok (flash_profile v).
Proof.
  intros Hv. pose proof jl_arch as Ha. apply (proj1 (list.Forall_forall _ _) Ha).
  unfold current_info in Hv. apply bind_Some in Hv as (j & _ & Hj).
  by eapply list_elem_of_lookup_2.
Qed.

Lemma served_info w addr size client : served w addr size client -> current_info w = Some dev_info.
Proof. intros (_ & _ & Hv & _). unfold current_info. rewrite Hv. exact jl_info. Qed.

Lemma served_entry w addr size client v q :
  served w addr size client -> current_info w = Some v -> entry_for w addr client = Some q ->
  v = dev_info /\ grants (key_id q) addr size.
Proof.
  intros Hs Hv Hq. pose proof (served_info _ _ _ _ Hs) as Hi.
  destruct Hs as (_ & _ & _ & _ & q' & Hq' & Hg). split; [congruence|]. by simplify_eq.
Qed.

Lemma admission_served extra w addr size client q :
  served w addr size client -> 0 <= addr -> 0 <= size -> addr + size < 4294967296 ->
  entry_for w addr client = Some q -> extra (flash_profile dev_info) = false ->
  admission extra w addr size client = inr (flash_profile dev_info, q).
Proof.
  intros Hs Ha Hz Hb Hq He. pose proof (served_info _ _ _ _ Hs) as Hv.
  destruct Hs as (_ & Hi & _ & Hfit & _). unfold admission, entry_for in *.
  rewrite Hi, Hv, He in *. cbn [negb] in *. rewrite add32_small by lia.
  destruct (Z.gtb_spec (addr + size) (secure_zone_total_size (flash_profile dev_info))); [lia|].
  cbn in Hq. rewrite <- query_row in Hq. destruct (query_app_info _ _ _ _) as [[q'|]|]; cbn in Hq; congruence.
Qed.

Lemma open_session_spec extra addr size client w :
  0 <= addr -> 0 <= size -> addr + size < 4294967296 ->
  exists r w', open_session extra addr size client w = (r, w') /\ quiet w w' /\
    (forall arch sid, r = Ok (arch, sid) -> exists v q, current_info w = Some v /\
       arch = flash_profile v /\ entry_for w addr client = Some q /\ extra arch = false /\
       session_key (device w') sid = Some (key_id q)) /\
    (forall q, served w addr size client -> entry_for w addr client = Some q ->
       extra (flash_profile dev_info) = false ->
       exists sid, r = Ok (flash_profile dev_info, sid) /\ serving w' sid (key_id q)).
Proof.
  intros Ha Hs Hb. rewrite open_session_eq.
  destruct (admission extra w addr size client) as [e|[arch q]] eqn:Had.
  - exists (Err e), w. split_and!; [done|done|done|]. intros q Hsv Hq He.
    rewrite (admission_served _ _ _ _ _ q) in Had by done. done.
  - pose proof (jl_create (key_id q) (device w)) as Hc.
    destruct (jedec_create_session _ _) as [[st sid] d]. destruct Hc as (Hm & Hk & Hh).
    eexists _, _. split; [done|]. split; [by split_and!|].
    destruct (admission_ok _ _ _ _ _ _ _ Had) as (v & Hv & Harch & Hq & He & Hf).
    destruct (Z.eqb_spec st JEDEC_ERROR_NONE) as [Hst|Hst]; (split; [intros arch' sid' [= <- <-]|]).
    + exists v, q. split_and!; [done|done|done|done|by apply Hk].
    + intros q' Hsv Hq' He'. rewrite (admission_served _ _ _ _ _ q') in Had by done.
      injection Had as <- <-. exists sid. split; [done|]. split; [|by apply Hk].
      by apply Hh, Hsv.
    + intros q' Hsv Hq' He'. exfalso. apply Hst, Hh, Hsv.
Qed.

Lemma close_session_spec sid w :
  exists r w', close_session sid w = (r, w') /\ quiet w w' /\
    (forall k, serving w sid k -> r = Ok tt /\ dev_healthy (device w')).
Proof.
  unfold close_session. rewrite bind_device.
  pose proof (jl_terminate sid (device w)) as Ht.
  destruct (jedec_terminate_session _ _) as [st d]. destruct Ht as (Hm & Hh). cbn [fst snd].
  destruct (Z.eqb_spec st JEDEC_ERROR_NONE) as [Hst|Hst]; cbn [negb fail_if];
    eexists _, _; (split; [done|]; split; [by split_and!|]); intros k [Hd Hk].
  - split; [done|]. apply Hh; [done|]. by rewrite Hk.
  - exfalso. apply Hst, Hh; [done|]. by rewrite Hk.
Qed.

(** ** Confinement: the bytes of a zone change only through a session of its key *)

Lemma program_loop_keeps sid fuel len addr size buf :
  keeps (within_session sid) (program_loop fuel len addr size sid buf).
Proof.
  revert addr size buf. induction fuel as [|fuel IH]; intros addr size buf; cbn [program_loop];
    destruct (negb _); try apply keeps_ret, _; [apply keeps_raise, _|].
  apply keeps_bind; [apply _| |intros st; apply keeps_bind; [apply _| |intros []; apply IH]].
  - intros w. rewrite with_device_eq. pose proof (jl_program addr
      (take (Z.to_nat (chunk_size addr size len)) buf) sid (device w)) as Hp.
    destruct (jedec_secure_program _ _ _ _) as [st d]. destruct Hp as (Hs & Hg & _).
    by split_and!.
  - unfold fail_if. destruct (negb _); [apply keeps_raise, _|apply keeps_ret, _].
Qed.

Lemma erase_loop_keeps sid fuel es addr size :
  keeps (within_session sid) (erase_loop fuel es addr size sid).
Proof.
  revert addr size. induction fuel as [|fuel IH]; intros addr size; cbn [erase_loop];
    destruct (negb _); try apply keeps_ret, _; [apply keeps_raise, _|].
  apply keeps_bind; [apply _| |intros st; apply keeps_bind; [apply _| |intros []; apply IH]].
  - intros w. rewrite with_device_eq. pose proof (jl_erase addr es sid (device w)) as Hp.
    destruct (jedec_secure_erase _ _ _ _) as [st d]. destruct Hp as (Hs & Hg & _).
    by split_and!.
  - unfold fail_if. destruct (negb _); [apply keeps_raise, _|apply keeps_ret, _].
Qed.

(** Only bytes in zones of [client] change. *)
Definition confined (client : Z) w w' : Prop :=
  secureflash w' = secureflash w /\ secureflash_app_id w' = secureflash_app_id w /\
  forall a, dimg (device w') a <> dimg (device w) a ->
    exists addr q, entry_for w addr client = Some q /\ granted (key_id q) a.

Lemma entry_for_same w w' addr client :
  secureflash w' = secureflash w -> entry_for w' addr client = entry_for w addr client.
Proof. intros H. unfold entry_for, current_info. by rewrite H. Qed.

#[export] Instance confined_pre client : PreOrder (confined client).
Proof.
  split; [by intros w; split_and!|].
  intros w1 w2 w3 (H1&H2&H3) (H4&H5&H6). split_and!; [congruence..|].
  intros a Ha. destruct (Z.eq_dec (dimg (device w2) a) (dimg (device w1) a)) as [He|Hn]; [|by apply H3].
  destruct (H6 a ltac:(congruence)) as (addr & q & Hq & Hg). exists addr, q. split; [|done].
  by rewrite <- (entry_for_same w1 w2).
Qed.

Lemma quiet_confined client w w' : quiet w w' -> confined client w w'.
Proof. intros (Hm & Hs & Ha). split_and!; [done|done|]. intros a Hn. by destruct (Hn (Hm a)). Qed.

(** A session opened for the client keeps to the client's zones. *)
Lemma within_session_confined w0 w1 w2 addr client sid q :
  quiet w0 w1 -> entry_for w0 addr client = Some q ->
  session_key (device w1) sid = Some (key_id q) -> within_session sid w1 w2 -> confined client w1 w2.
Proof.
  intros (Hm & Hsf & Hid) Hq Hk (H1 & H2 & _ & H4). split_and!; [done|done|].
  intros a Ha. destruct (H4 a Ha) as (k & Hk' & Hg). exists addr, q.
  rewrite (entry_for_same w0 w1) by done. split; [done|]. congruence.
Qed.

Lemma open_session_any extra addr size client w :
  exists r w', open_session extra addr size client w = (r, w') /\ quiet w w' /\
    (forall arch sid, r = Ok (arch, sid) -> exists q, entry_for w addr client = Some q /\
       session_key (device w') sid = Some (key_id q)).
Proof.
  rewrite open_session_eq.
  destruct (admission extra w addr size client) as [e|[arch q]] eqn:Had; [by exists (Err e), w|].
  pose proof (jl_create (key_id q) (device w)) as Hc.
  destruct (jedec_create_session _ _) as [[st sid] d]. destruct Hc as (Hm & Hk & Hh).
  eexists _, _. split; [done|]. split; [by split_and!|].
  destruct (admission_ok _ _ _ _ _ _ _ Had) as (v & _ & _ & Hq & _).
  destruct (Z.eqb_spec st JEDEC_ERROR_NONE) as [Hst|]; [|done].
  intros arch' sid' [= <- <-]. exists q. split; [done|by apply Hk].
Qed.

Lemma in_session_confined {A} extra addr size client (body : architecture_t -> Z -> ST (sf_world D) A) :
  (forall arch sid, keeps (within_session sid) (body arch sid)) ->
  keeps (confined client) ('(arch, sid) ← open_session extra addr size client;
                           body arch sid;; close_session sid).
Proof.
  intros Hb w. destruct (open_session_any extra addr size client w) as (r & w1 & Ho & Hq & Hok).
  destruct r as [[arch sid]|e];
    [rewrite (bind_ok _ _ _ _ _ Ho)|rewrite (bind_err _ _ _ _ _ Ho); by apply quiet_confined].
  destruct (Hok _ _ eq_refl) as (q & Hent & Hk). etrans; [by apply quiet_confined|].
  specialize (Hb arch sid w1). destruct (body arch sid w1) as [[a|e] w2] eqn:Hrun; cbn [snd] in Hb.
  - rewrite (bind_ok _ _ _ _ _ Hrun). etrans; [by eapply within_session_confined|].
    destruct (close_session_spec sid w2) as (r & w3 & -> & Hq3 & _). by apply quiet_confined.
  - rewrite (bind_err _ _ _ _ _ Hrun). by eapply within_session_confined.
Qed.

Lemma secure_program_confined buf addr size client :
  keeps (confined client) (secureflash_secure_program buf addr size client).
Proof. apply in_session_confined. intros. apply program_loop_keeps. Qed.

Lemma secure_erase_confined addr size client :
  keeps (confined client) (secureflash_secure_erase addr size client).
Proof. apply in_session_confined. intros. apply erase_loop_keeps. Qed.

Lemma read_loop_keeps sid fuel len addr size pos buf :
  keeps quiet (read_loop fuel len addr size sid pos buf).
Proof.
  revert addr size pos buf. induction fuel as [|fuel IH]; intros addr size pos buf; cbn [read_loop];
    destruct (negb _); try apply keeps_ret, _.
  apply keeps_bind; [apply _| |intros [st bs]].
  - intros w. rewrite with_device_eq. pose proof (jl_read addr (chunk_size addr size len) sid (device w)) as Hp.
    destruct (jedec_secure_read _ _ _ _) as [[st bs] d]. destruct Hp as (Hs & _). by split_and!.
  - cbv zeta. destruct (negb _); [apply keeps_ret, _|apply IH].
Qed.

Lemma secure_read_quiet buf addr size client :
  keeps quiet (secureflash_secure_read buf addr size client).
Proof.
  apply keeps_bind; [apply _| |intros [[arch sid]|e]; [|apply keeps_ret, _]].
  - apply keeps_attempt; [apply _|]. intros w.
    destruct (open_session_any (fun _ => false) addr size client w) as (r & w1 & -> & Hq & _). exact Hq.
  - apply keeps_bind; [apply _|apply read_loop_keeps|intros [[[]|e] bs]; [|apply keeps_ret, _]].
    apply keeps_bind; [apply _| |intros; apply keeps_ret, _]. apply keeps_attempt; [apply _|]. intros w.
    destruct (close_session_spec sid w) as (r & w' & -> & Hq & _). exact Hq.
Qed.

(** ** The three operations *)

Lemma secure_read_spec buf addr size client w :
  0 <= addr -> 0 <= size -> addr + size < 4294967296 -> length buf = Z.to_nat size ->
  Forall is_u8 buf ->
  exists r bs w', secureflash_secure_read buf addr size client w = (Ok (r, bs), w') /\
    length bs = length buf /\ Forall is_u8 bs /\
    (r = Ok tt -> bs = rd (dimg (device w)) addr size) /\
    (served w addr size client -> r = Ok tt /\ dev_healthy (device w')).
Proof.
  intros Ha Hs Hb Hl Hu. unfold secureflash_secure_read.
  destruct (open_session_spec (fun _ => false) addr size client w Ha Hs Hb)
    as (r & w1 & Ho & Hq & Hok & Hsv).
  rewrite (bind_ok _ _ _ _ _ (attempt_eq _ _ _ _ Ho)). destruct r as [[arch sid]|e].
  2: { exists (Err e), buf, w1. split_and!; [done|done|done|done|].
    intros Hserved. pose proof Hserved as (_ & _ & _ & _ & q & Hent & _).
    by destruct (Hsv q Hserved Hent eq_refl) as (sid & ? & _). }
  destruct (Hok _ _ eq_refl) as (v & q & Hv & -> & Hent & _ & Hk).
  pose proof (ao_read _ (current_arch _ _ Hv)) as Hlen.
  destruct (read_loop_spec (secure_read_size (flash_profile v)) sid (Z.to_nat size) addr size 0 buf w1)
    as (r & bs & w2 & Hrun & Hq2 & Hlb & Hub & Hval & Hs2); [lia..|done|].
  assert (served w addr size client -> r = Ok tt /\ serving w2 sid (key_id q)) as Hs2'.
  { intros Hserved. destruct (Hsv q Hserved Hent eq_refl) as (sid' & [= _ ->] & Hsq).
    destruct (served_entry _ _ _ _ _ _ Hserved Hv Hent) as [-> Hg]. by apply Hs2. }
  rewrite (bind_ok _ _ _ _ _ Hrun). destruct r as [[]|e].
  2: { exists (Err e), bs, w2. split_and!; [done|done|done|done|]. intros Hserved.
    by destruct (Hs2' Hserved). }
  destruct (close_session_spec sid w2) as (r & w3 & Hc & Hq3 & Hs3).
  rewrite (bind_ok _ _ _ _ _ (attempt_eq _ _ _ _ Hc)). exists r, bs, w3. split_and!; [done|done|done| |].
  - intros _. rewrite (Hval eq_refl). rewrite put_bytes_all by (rewrite rd_length; lia).
    apply rd_ext. intros. apply Hq.
  - intros Hserved. apply (Hs3 (key_id q)). by apply Hs2'.
Qed.

(** The common part of programming and erasing: [P w w' n] is what [n] bytes do. *)
Lemma in_session_spec extra addr size client (body : architecture_t -> Z -> ST (sf_world D) unit)
    (P : sf_world D -> sf_world D -> Z -> Prop) w :
  0 <= addr -> 0 <= size -> addr + size < 4294967296 ->
  (forall w1 w2 w3 n, same_mem w1 w2 -> P w2 w3 n -> P w1 w3 n) ->
  (forall w1 w2 w3 n, same_mem w2 w3 -> P w1 w2 n -> P w1 w3 n) -> P w w 0 ->
  (forall v sid w1, arch_ok (flash_profile v) -> extra (flash_profile v) = false ->
     exists r w2 n, body (flash_profile v) sid w1 = (r, w2) /\ 0 <= n <= size /\
       (r = Ok tt -> n = size) /\ P w1 w2 n /\
       (forall k, serving w1 sid k -> grants k addr size -> v = dev_info ->
          r = Ok tt /\ serving w2 sid k)) ->
  exists r w' n, ('(arch, sid) ← open_session extra addr size client;
                  body arch sid;; close_session sid) w = (r, w') /\
    0 <= n <= size /\ (r = Ok tt -> n = size) /\ P w w' n /\
    (served w addr size client -> extra (flash_profile dev_info) = false ->
       r = Ok tt /\ dev_healthy (device w')).
Proof.
  intros Ha Hs Hb Hpre Hpost HP0 Hbody.
  destruct (open_session_spec extra addr size client w Ha Hs Hb) as (r & w1 & Ho & Hq & Hok & Hsv).
  destruct r as [[arch sid]|e].
  2: { rewrite (bind_err _ _ _ _ _ Ho). exists (Err e), w1, 0.
    split_and!; [done|lia|lia|done|by eapply Hpost; [apply Hq|]|]. intros Hserved He.
    pose proof Hserved as (_ & _ & _ & _ & q & Hent & _).
    by destruct (Hsv q Hserved Hent He) as (sid & ? & _). }
  rewrite (bind_ok _ _ _ _ _ Ho).
  destruct (Hok _ _ eq_refl) as (v & q & Hv & -> & Hent & He & Hk).
  destruct (Hbody v sid w1 (current_arch _ _ Hv) He) as (r & w2 & n & Hrun & Hn & Hrn & HP & Hs2).
  assert (served w addr size client -> extra (flash_profile dev_info) = false ->
    r = Ok tt /\ serving w2 sid (key_id q)) as Hs2'.
  { intros Hserved He'. destruct (Hsv q Hserved Hent He') as (sid' & [= _ ->] & Hsq).
    destruct (served_entry _ _ _ _ _ _ Hserved Hv Hent) as [-> Hg]. by apply Hs2. }
  destruct r as [[]|e].
  - rewrite (bind_ok _ _ _ _ _ Hrun).
    destruct (close_session_spec sid w2) as (r & w3 & -> & Hq3 & Hs3). exists r, w3, n.
    split_and!; [done|lia|lia|by auto| |].
    + eapply Hpost; [apply Hq3|]. eapply Hpre; [apply Hq|done].
    + intros Hserved He'. apply (Hs3 (key_id q)). by apply Hs2'.
  - rewrite (bind_err _ _ _ _ _ Hrun). exists (Err e), w2, n. split_and!; [done|lia|lia|done| |].
    + eapply Hpre; [apply Hq|done].
    + intros Hserved He'. by destruct (Hs2' Hserved He').
Qed.

Lemma secure_program_spec buf addr size client w :
  0 <= addr -> 0 <= size -> addr + size < 4294967296 -> size <= Z.of_nat (length buf) ->
  Forall is_u8 buf ->
  exists r w' n, secureflash_secure_program buf addr size client w = (r, w') /\
    0 <= n <= size /\ (r = Ok tt -> n = size) /\ programmed w w' addr buf n /\
    (served w addr size client -> r = Ok tt /\ dev_healthy (device w')).
Proof.
  intros Ha Hs Hb Hl Hu.
  destruct (in_session_spec (fun _ => false) addr size client
    (fun arch sid => program_loop (Z.to_nat size) (secure_program_size arch) addr size sid buf)
    (fun w w' n => programmed w w' addr buf n) w) as (r & w' & n & Hr & Hn & Hrn & HP & Hsv);
    [done..| | |apply programmed_nil| |].
  - intros w1 w2 w3 n Hm [H1 H2]. split; intros.
    + rewrite H1 by done. apply Hm.
    + apply H2; [done|]. by rewrite (Hm _).
  - intros w1 w2 w3 n Hm [H1 H2]. split; intros; rewrite (Hm _); auto.
  - intros v sid w1 Harch _. pose proof (ao_program _ Harch).
    destruct (program_loop_spec (secure_program_size (flash_profile v)) sid (Z.to_nat size) addr size buf w1)
      as (r & w2 & n & Hr & _ & Hn & Hrn & HP & Hsv); [lia..|done|].
    exists r, w2, n. split_and!; [done|lia|lia|done|done|]. intros k Hk Hg ->. by apply Hsv.
  - exists r, w', n. split_and!; [done|lia|lia|done|done|]. intros Hserved. by apply Hsv.
Qed.

Lemma secure_erase_spec addr size client w :
  0 <= addr -> 0 <= size -> addr + size < 4294967296 ->
  exists r w' n, secureflash_secure_erase addr size client w = (r, w') /\
    0 <= n <= size /\ (r = Ok tt -> n = size) /\ cleared w w' addr n /\
    (served w addr size client -> misaligned addr size (flash_profile dev_info) = false ->
       r = Ok tt /\ dev_healthy (device w')).
Proof.
  intros Ha Hs Hb.
  apply (in_session_spec (misaligned addr size) addr size client
    (fun arch sid => erase_loop (Z.to_nat size) (regions_min_secure_erase_size arch) addr size sid)
    (fun w w' n => cleared w w' addr n) w); [done..| | |apply cleared_nil|].
  - intros w1 w2 w3 n Hm [H1 H2]. split; intros; [|by apply H2]. rewrite H1 by done. apply Hm.
  - intros w1 w2 w3 n Hm [H1 H2]. split; intros; rewrite (Hm _); auto.
  - intros v sid w1 Harch Hmis. pose proof (ao_erase _ Harch) as Hes.
    set (es := regions_min_secure_erase_size (flash_profile v)) in *.
    unfold misaligned in Hmis. fold es in Hmis. apply orb_false_iff in Hmis as [H1 H2].
    rewrite add32_small in H2 by lia. apply negb_false_iff, Z.eqb_eq in H1, H2.
    assert (size mod es = 0) as Hmod.
    { rewrite Z.add_mod, H1, Z.add_0_l, Z.mod_mod in H2 by lia. done. }
    destruct (erase_loop_spec es sid (Z.to_nat size) addr size w1)
      as (r & w2 & n & Hr & _ & Hn & Hrn & HP & Hsv); [lia..|done|].
    exists r, w2, n. split_and!; [done|lia|lia|done|done|]. intros k Hk Hg ->. by apply Hsv.
Qed.

(** ** Start-up *)

(** A step of the start-up: the contents stay, and a healthy device does it. *)
Definition steps {A} (m : ST (spi_state D) A) (good : A -> Prop) : Prop := forall s,
  exists r s', m s = (r, s') /\ (forall a, dimg (hardware s') a = dimg (hardware s) a) /\
    (dev_healthy (hardware s) -> dev_healthy (hardware s') /\ exists a, r = Ok a /\ good a).

Lemma steps_bind {A B} (m : ST (spi_state D) A) (k : A -> ST (spi_state D) B) P Q :
  steps m P -> (forall a, steps (k a) (fun b => P a -> Q b)) -> steps (m ≫= k) Q.
Proof.
  intros Hm Hk s. destruct (Hm s) as (r & s1 & Hr & Hs & Hh). unfold mbind, ST_bind. rewrite Hr.
  destruct r as [a|e].
  - destruct (Hk a s1) as (r & s2 & -> & Hs2 & Hh2). exists r, s2. split_and!; [done| |].
    + intros x. by rewrite Hs2.
    + intros Hd. destruct (Hh Hd) as (Hd1 & a' & [= <-] & HP).
      destruct (Hh2 Hd1) as (Hd2 & b & -> & HQ). eauto.
  - exists (Err e), s1. split_and!; [done|done|]. intros Hd. by destruct (Hh Hd) as (_ & ? & ? & _).
Qed.

Lemma steps_ret {A} (a : A) (P : A -> Prop) : P a -> steps (mret a) P.
Proof. intros HP s. exists (Ok a), s. split_and!; [done|done|]. eauto. Qed.

Lemma steps_weaken {A} (m : ST (spi_state D) A) (P Q : A -> Prop) :
  steps m P -> (forall a, P a -> Q a) -> steps m Q.
Proof.
  intros Hm H s. destruct (Hm s) as (r & s' & ? & ? & Hh). exists r, s'. split_and!; [done|done|].
  intros Hd. destruct (Hh Hd) as (? & a & ? & ?). eauto.
Qed.

Lemma steps_reset inst : inst = STD_INST_RSTEN \/ inst = STD_INST_RST ->
  steps (send_inst inst) (fun st => st = SUCCESS).
Proof.
  intros Hi s. destruct (send_inst_eq inst s) as [p ->].
  pose proof (jl_reset inst (hardware s) Hi) as Hr. destruct (spi_write _ _) as [st d].
  destruct Hr as [Hs Hh]. eexists _, _. split_and!; [done|done|].
  intros Hd. destruct (Hh Hd). split; [done|]. by exists st.
Qed.

Lemma steps_read_id :
  steps (spi_nor_read_id SECURE_FLASH_MAX_ID_LEN) (fun '(st, rx) => st = SUCCESS /\ rx = dev_id).
Proof.
  intros s. unfold spi_nor_read_id.
  destruct (read_inst_eq STD_INST_RDID SECURE_FLASH_MAX_ID_LEN s) as [p ->].
  pose proof (jl_read_id (hardware s)) as Hr. destruct (spi_read _ _ _) as [[st rx] d].
  destruct Hr as [Hs Hh]. eexists _, _. split_and!; [done|done|].
  intros Hd. destruct (Hh Hd) as (? & ? & ?). split; [done|]. by exists (st, rx).
Qed.

Lemma steps_wait n : steps (wait_ms n) (fun _ => True).
Proof.
  intros s. eexists _, _. split; [done|]. destruct (jl_wait n (hardware s)). split; [done|].
  intros Hd. split; [by auto|]. by exists tt.
Qed.

Lemma steps_init : steps spi_nor_init (fun st => st = 0).
Proof.
  assert (steps spi_nor_software_reset (fun st => st = 0)) as Hreset.
  { apply (steps_bind _ _ (fun st => st = SUCCESS)); [apply steps_reset; by left|]. intros st.
    destruct (Z.eqb_spec st SUCCESS) as [->|Hne]; cbn [negb]; [|by apply steps_ret].
    apply (steps_weaken _ (fun st => st = 0)); [|done].
    apply (steps_bind _ _ (fun st => st = SUCCESS)); [apply steps_reset; by right|]. intros st.
    destruct (Z.eqb_spec st SUCCESS) as [->|Hne]; cbn [negb]; [|by apply steps_ret].
    apply (steps_weaken _ (fun st => st = 0)); [|done].
    apply (steps_bind _ _ (fun _ => True)); [apply steps_wait|]. intros _. by apply steps_ret. }
  intros s. unfold spi_nor_init. pose proof (jl_hc_init (hardware s)) as Hi.
  destruct (spi_nor_hc_init _) as [st d]. destruct Hi as [Hs Hh].
  destruct (Z.eqb_spec st 0) as [->|Hne]; cbn [negb].
  - assert (steps (st ← spi_nor_software_reset; if negb (st =? 0) then mret (-1) else mret 0)
      (fun st => st = 0)) as Hst.
    { apply (steps_bind _ _ (fun st => st = 0)); [apply Hreset|]. intros st.
      destruct (Z.eqb_spec st 0) as [->|Hne]; cbn [negb]; by apply steps_ret. }
    destruct (Hst {| cmd_packet := cmd_packet s; hardware := d |}) as (r & s' & -> & Hs' & Hh').
    exists r, s'. split_and!; [done| |].
    + intros a. rewrite Hs'. apply Hs.
    + intros Hd. by apply Hh', Hh.
  - eexists _, _. split_and!; [done|done|]. intros Hd. by destruct (Hh Hd).
Qed.

(** Start-up leaves the contents and the client alone. *)
Definition calm w w' : Prop :=
  same_mem w w' /\ secureflash_app_id w' = secureflash_app_id w.

#[export] Instance calm_pre : PreOrder calm.
Proof.
  split; [by intros w|]. intros w1 w2 w3 (?&Ha) (?&Hb). split; [by etrans|by rewrite Hb].
Qed.

Lemma set_sf_calm f : keeps calm (set_sf f).
Proof. by intros w. Qed.
Lemma fail_if_calm b e : keeps calm (fail_if b e).
Proof. by destruct b. Qed.
Lemma or_fail_calm {A} (m : ST (sf_world D) A) e : keeps calm m -> keeps calm (or_fail m e).
Proof. intros H w. unfold or_fail. specialize (H w). by destruct (m w) as [[a|x] w']. Qed.
Lemma with_spi_calm {A} (m : ST (spi_state D) A) good : steps m good -> keeps calm (with_spi m).
Proof.
  intros H w. unfold with_spi. destruct (H (spi_nor w)) as (r & s & -> & Hs & _). by split.
Qed.
Lemma with_device_calm {A} (f : D -> A * D) :
  (forall d a, dimg (f d).2 a = dimg d a) -> keeps calm (with_device f).
Proof. intros H w. rewrite with_device_eq. by split; [intros a; apply H|]. Qed.
Lemma get_sf_calm : keeps calm get_sf.
Proof. apply keeps_gets, _. Qed.
Lemma get_vendor_calm : keeps calm get_vendor.
Proof. intros w. by rewrite get_vendor_eq. Qed.
#[local] Hint Resolve set_sf_calm fail_if_calm get_sf_calm get_vendor_calm : keeps.

Lemma match_id_calm id : keeps calm (secureflash_match_id id).
Proof.
  unfold secureflash_match_id. apply keeps_bind; [apply _| |by keeps_walk].
  apply keeps_for_loop; [apply _|]. intros i _. destruct (_ !! _) as [v|]; [|by keeps_walk].
  destruct (bool_decide _); [|by keeps_walk].
  apply keeps_bind; [apply _| |by keeps_walk].
  apply with_device_calm. intros d a. apply jl_set_vendor.
Qed.

Lemma probe_calm : keeps calm secureflash_probe.
Proof.
  unfold secureflash_probe. apply keeps_bind; [apply _|eapply with_spi_calm, steps_read_id|].
  intros [st id]. keeps_walk. apply or_fail_calm, match_id_calm.
Qed.

Lemma get_app_info_calm : keeps calm secureflash_get_app_info.
Proof.
  unfold secureflash_get_app_info. apply keeps_bind; [apply _|apply get_vendor_calm|]. intros v.
  apply keeps_bind; [apply _| |by keeps_walk]. apply with_device_calm. intros d a.
  pose proof (jl_app_info v d) as H. destruct (provision_get_app_info v d) as [[st apps] d'].
  apply H.
Qed.

Lemma init_calm : keeps calm secureflash_init.
Proof.
  assert (keeps calm (with_device (jedec_secure_init SECUREFLASH_AUTHEN_KEY_ID))) as Hs.
  { apply with_device_calm. intros d a. pose proof (jl_secure_init SECUREFLASH_AUTHEN_KEY_ID d) as H.
    destruct (jedec_secure_init _ d). apply H. }
  pose proof (with_spi_calm _ _ steps_init) as Hi. pose proof probe_calm as Hp.
  pose proof (or_fail_calm _ SECUREFLASH_ERROR_GET_PROVISION_INFO get_app_info_calm) as Hg.
  unfold secureflash_init. by keeps_walk.
Qed.

(** A context initialised for the device. *)
Definition booted w : Prop :=
  dev_healthy (device w) /\ _is_initialized (secureflash w) = true /\
  vendor (secureflash w) = Some dev_index /\ app_info (secureflash w) = dev_apps.

(** A healthy start: what the command returns and the context after it. *)
Definition runs {A} (m : ST (sf_world D) A) w (P : A -> sf_world D -> Prop) : Prop :=
  exists a w', m w = (Ok a, w') /\ dev_healthy (device w') /\ P a w'.

Lemma runs_bind {A B} (m : ST (sf_world D) A) (k : A -> ST (sf_world D) B) w P Q :
  runs m w P -> (forall a w', dev_healthy (device w') -> P a w' -> runs (k a) w' Q) ->
  runs (m ≫= k) w Q.
Proof.
  intros (a & w' & Hm & Hd & HP) Hk. destruct (Hk a w' Hd HP) as (b & w'' & Hk' & Hd' & HQ).
  exists b, w''. rewrite (bind_ok _ _ _ _ _ Hm). done.
Qed.

Lemma runs_set_sf f w (P : unit -> sf_world D -> Prop) :
  dev_healthy (device w) ->
  P tt {| secureflash := f (secureflash w); secureflash_app_id := secureflash_app_id w;
          spi_nor := spi_nor w |} -> runs (set_sf f) w P.
Proof. intros Hd HP. by eexists tt, _. Qed.

Lemma runs_spi {A} (m : ST (spi_state D) A) (good : A -> Prop) w :
  steps m good -> dev_healthy (device w) ->
  runs (with_spi m) w (fun a w' => good a /\ secureflash w' = secureflash w).
Proof.
  intros H Hd. unfold runs, with_spi. destruct (H (spi_nor w)) as (r & s & -> & _ & Hh).
  destruct (Hh Hd) as (Hd' & a & -> & Hg). by eexists a, _.
Qed.

Lemma runs_device {A} (f : D -> A * D) (good : A -> Prop) w :
  (let '(a, d) := f (device w) in good a /\ dev_healthy d) ->
  runs (with_device f) w (fun a w' => good a /\ secureflash w' = secureflash w).
Proof.
  intros H. unfold runs. rewrite with_device_eq. destruct (f _) as [a d]. destruct H.
  by exists a, (set_device w d).
Qed.

Lemma dev_index_lt : (dev_index < length flash_info)%nat.
Proof. apply lookup_lt_is_Some_1. exists dev_info. exact jl_info. Qed.

Lemma runs_match_loop w n i :
  dev_healthy (device w) -> 0 <= i -> i <= Z.of_nat dev_index < i + Z.of_nat n ->
  runs (for_loop n i tt (fun i _ =>
    match flash_info !! Z.to_nat i with
    | None => raise UNDEFINED
    | Some v =>
        if bool_decide (take (length (info_id v)) dev_id = info_id v) then
          with_device (fun d => (tt, jedec_set_vendor v d));;
          set_sf (set_vendor (Z.to_nat i));;
          mret (Done tt)
        else mret (Next tt)
    end)) w
    (fun r w' => r = Done tt /\ secureflash w' = set_vendor dev_index (secureflash w)).
Proof.
  intros Hd. revert i. induction n as [|n IH]; intros i Hi Hn; [lia|]. cbn [for_loop].
  destruct (decide (i = Z.of_nat dev_index)) as [->|Hne].
  - rewrite Nat2Z.id, jl_info, bool_decide_eq_true_2 by apply jl_id.
    unfold runs, mbind, ST_bind. rewrite with_device_eq. cbn.
    eexists (Done tt), _. split; [done|]. split; [by apply jl_set_vendor|]. by split.
  - destruct (lookup_lt_is_Some_2 flash_info (Z.to_nat i)) as [v Hv].
    { pose proof dev_index_lt. lia. }
    rewrite Hv, bool_decide_eq_false_2 by (apply (jl_first (Z.to_nat i)); [lia|done]).
    eapply (runs_bind _ _ _ (fun r w' => r = Next tt /\ w' = w)); [by exists (Next tt), w|].
    intros r w' _ [-> ->]. apply IH; lia.
Qed.

Lemma runs_probe w : dev_healthy (device w) ->
  runs secureflash_probe w (fun _ w' =>
    vendor (secureflash w') = Some dev_index).
Proof.
  intros Hd. unfold secureflash_probe. eapply runs_bind; [apply runs_spi; [apply steps_read_id|done]|].
  intros [st id] w1 Hd1 [[-> ->] Hs1].
  eapply (runs_bind _ _ _ (fun _ _ => True)); [by apply runs_set_sf|]. intros [] w2 Hd2 _.
  eapply (runs_bind _ _ _ (fun _ _ => True)); [by exists tt, w2|]. intros [] w3 Hd3 _.
  assert (runs (secureflash_match_id dev_id) w3
    (fun _ w' => vendor (secureflash w') = Some dev_index)) as (a & w4 & Hr & Hd4 & Hv).
  { unfold secureflash_match_id. eapply runs_bind.
    - apply runs_match_loop; [done|lia|]. pose proof dev_index_lt. lia.
    - intros r w' Hd' [-> Hs]. exists tt, w'. split_and!; [done|done|]. by rewrite Hs. }
  exists a, w4. unfold or_fail. by rewrite Hr.
Qed.

Lemma runs_get_app_info w : dev_healthy (device w) -> vendor (secureflash w) = Some dev_index ->
  runs (or_fail secureflash_get_app_info SECUREFLASH_ERROR_GET_PROVISION_INFO) w (fun _ w' =>
    vendor (secureflash w') = Some dev_index /\ app_info (secureflash w') = dev_apps).
Proof.
  intros Hd Hv.
  assert (runs secureflash_get_app_info w (fun _ w' =>
    vendor (secureflash w') = Some dev_index /\ app_info (secureflash w') = dev_apps))
    as (a & w4 & Hr & Hd4 & Hq).
  { unfold secureflash_get_app_info, runs.
    assert (current_info w = Some dev_info) as Hc by (unfold current_info; rewrite Hv; apply jl_info).
    rewrite (bind_ok get_vendor _ w dev_info w) by (by rewrite get_vendor_eq, Hc).
    rewrite bind_device. pose proof (jl_app_info dev_info (device w)) as Hp.
    destruct (provision_get_app_info _ _) as [[st apps] d]. destruct Hp as [_ Hp].
    destruct (Hp Hd eq_refl) as (-> & -> & Hd'). by eexists tt, _. }
  exists a, w4. unfold or_fail. by rewrite Hr.
Qed.

Lemma init_boots w : dev_healthy (device w) ->
  (_is_initialized (secureflash w) = true -> booted w) ->
  runs secureflash_init w (fun _ w' => booted w').
Proof.
  intros Hd Hb. unfold secureflash_init.
  unfold runs. rewrite (bind_ok get_sf _ w (secureflash w) w eq_refl).
  set (x := secureflash w) in *.
  assert (exists w1, (if negb (_is_initialized x) then set_sf (set_ref_count 0) else mret tt) w = (Ok tt, w1) /\
    dev_healthy (device w1) /\ (booted w1 \/ _init_ref_count (secureflash w1) = 0)) as (w1 & H1 & Hd1 & Hb1).
  { destruct (_is_initialized x); cbn [negb]; eexists; (split; [done|]); (split; [done|]); auto. }
  rewrite (bind_ok _ _ _ _ _ H1), (bind_ok get_sf _ w1 (secureflash w1) w1 eq_refl).
  set (n := add32 _ 1). eapply (runs_bind _ _ _ (fun _ w' => n <> 1 -> booted w')).
  { apply runs_set_sf; [done|]. intros Hn. destruct Hb1 as [Hb1|Hz]; [exact Hb1|].
    subst n. rewrite Hz in Hn. done. }
  intros [] w2 Hd2 Hb2. destruct (Z.eqb_spec n 1) as [Hn|Hn]; cbn [negb];
    [|exists tt, w2; split_and!; by auto].
  eapply runs_bind; [apply runs_spi; [apply steps_init|done]|]. intros st w3 Hd3 [-> _].
  eapply (runs_bind _ _ _ (fun _ _ => True)); [by exists tt, w3|]. intros [] w4 Hd4 _.
  eapply runs_bind; [by apply runs_probe|]. intros [] w5 Hd5 Hv5.
  eapply (runs_bind _ _ _ (fun _ w' => vendor (secureflash w') = Some dev_index));
    [by apply runs_set_sf|]. intros [] w6 Hd6 Hv6.
  eapply runs_bind; [by apply runs_get_app_info|]. intros [] w7 Hd7 [Hv7 Ha7].
  eapply (runs_bind _ _ _ _ _ (runs_device _ (fun st => st = JEDEC_ERROR_NONE) w7 _)).
  intros st w8 Hd8 [-> Hs8]. rewrite Z.eqb_refl. cbn [negb].
  eapply (runs_bind _ _ _ (fun _ w => secureflash w = secureflash w8)); [by exists tt, w8|]. intros [] w9 Hd9 Hs9.
  apply runs_set_sf; [done|]. split_and!; [done|done|..]; cbn; by rewrite Hs9, Hs8.
  Unshelve.
  pose proof (jl_secure_init SECUREFLASH_AUTHEN_KEY_ID (device w7)) as Hi.
  destruct (jedec_secure_init _ _) as [st d]. destruct Hi as [_ Hi]. by apply Hi.
Qed.
End Spec.
