(* ===== verification/SecureFlashFs.v ===== *)
(** * The secure flash meets the contract of the file system

    For a file system whose area the client and the ETSS partition may access,
    etss_secureflash.c on top of secureflash.c satisfies [FlashLaws]. *)
From Stdlib Require Import ZArith Lia.
From stdpp Require Import base list numbers options.
From S2P Require Import Prelude.
From S2P Require Import EtssUtils.
From S2P Require Import FlashFsDefs.
From S2P Require Import SpiNor.
From S2P Require Import SecureFlash.
From S2P Require Import SecureFlashSpec.

#[local] Set Default Proof Using "Type*".

(** ** The contract of the file system *)

Section FlashContract.
Context {D : Type} {SO : SpiOps D} {JO : JedecOps D} {JL : JedecLaws D}.
Context (c : etss_flash_fs_config_t).
Implicit Types w : sf_world D.

(** The application entry of [client] for an address of the device. *)
Definition provisioned (client addr : Z) : option app_data_t :=
  row_for dev_apps client (addr / secure_zone_size (flash_profile dev_info)).

Definition area_size : Z := num_blocks c * block_size c.

(** [client] may access the area: one entry covers it, up to its end (a request
  of zero bytes at the end of the area looks up the entry of that address),
  and its key opens it. *)
Definition allowed (client : Z) : Prop :=
  exists q, grants (key_id q) (flash_area_addr c) area_size /\
    forall a, flash_area_addr c <= a <= flash_area_addr c + area_size -> provisioned client a = Some q.

(** The area of the file system and the device fit together. *)
Record area_ok : Prop := {
  ar_typed : cfg_typed c;
  ar_end : flash_area_addr c + area_size < 4294967296;
  ar_zones : flash_area_addr c + area_size <= secure_zone_total_size (flash_profile dev_info);
  ar_sector : 0 < sector_size c;
  ar_blocks : block_size c mod sector_size c = 0;
  ar_sector_erase : sector_size c mod regions_min_secure_erase_size (flash_profile dev_info) = 0;
  ar_area_erase : flash_area_addr c mod regions_min_secure_erase_size (flash_profile dev_info) = 0;
  ar_erase_val : erase_val c = dev_erase;
  ar_etss : allowed SP_ETSS
}.

Context (Hc : area_ok).

(** The bytes of the area as blocks. *)
Definition sf_image w : image := fun b o =>
  if bool_decide (0 <= b < num_blocks c /\ 0 <= o < block_size c)
  then dimg (device w) (flash_area_addr c + b * block_size c + o) else erase_val c.

Definition sf_healthy w : Prop := booted w /\ allowed (secureflash_app_id w).

Definition phys (b o : Z) : Z := flash_area_addr c + b * block_size c + o.

Lemma in_area b off n : in_block c b off n ->
  flash_area_addr c <= phys b off /\ phys b off + n <= flash_area_addr c + area_size.
Proof.
  intros (Hb & Ho & Hn & Hf). unfold phys, area_size.
  assert (b * block_size c + block_size c <= num_blocks c * block_size c) by nia. nia.
Qed.

Lemma area_nonneg : 0 <= flash_area_addr c.
Proof. apply (ct_area c), Hc. Qed.
Lemma bs_range : 0 <= block_size c < 4294967296.
Proof. apply (ct_block c), Hc. Qed.

Lemma phys_eq b off n : in_block c b off n -> get_phys_address c b off = phys b off.
Proof.
  intros Hb. pose proof (in_area _ _ _ Hb). pose proof area_nonneg. pose proof (ar_end Hc).
  destruct Hb as (Hb & Ho & Hn & Hf). unfold get_phys_address, phys in *.
  assert (0 <= b * block_size c) by nia.
  rewrite mul32_small, (add32_small (flash_area_addr c)) by lia. apply add32_small. lia.
Qed.

Lemma sf_image_in w b o :
  0 <= b < num_blocks c -> 0 <= o < block_size c -> sf_image w b o = dimg (device w) (phys b o).
Proof. intros. unfold sf_image. by rewrite bool_decide_eq_true_2 by done. Qed.

Lemma sf_image_same w w' : same_mem w w' -> same_image (sf_image w) (sf_image w').
Proof. intros Hm b o. unfold sf_image. by rewrite (Hm _). Qed.

(** Two places of the area are two addresses. *)
Lemma phys_inj b o b' o' :
  0 <= b < num_blocks c -> 0 <= o < block_size c -> 0 <= b' < num_blocks c -> 0 <= o' < block_size c ->
  phys b o = phys b' o' -> b = b' /\ o = o'.
Proof.
  unfold phys. intros Hb Ho Hb' Ho' Heq.
  assert (b * block_size c + o = b' * block_size c + o') as He by lia.
  pose proof (Z.div_unique_pos (b * block_size c + o) (block_size c) b o ltac:(lia) ltac:(lia)).
  pose proof (Z.div_unique_pos (b * block_size c + o) (block_size c) b' o' ltac:(lia) ltac:(lia)). lia.
Qed.

(** An unchanged range of addresses is an unchanged range of the block. *)
Lemma sf_image_frame w w' b off k :
  0 <= b < num_blocks c -> 0 <= off -> off + k <= block_size c ->
  (forall a, ~ (phys b off <= a < phys b off + k) -> dimg (device w') a = dimg (device w) a) ->
  forall b' o, ~ (b' = b /\ off <= o < off + k) -> sf_image w' b' o = sf_image w b' o.
Proof.
  intros Hb Ho Hk Hf b' o Hn. unfold sf_image. case_bool_decide as Hin; [|done]. apply Hf.
  intros Ha. apply Hn. destruct Hin as [Hb' Ho'].
  fold (phys b' o) in Ha.
  destruct (phys_inj b' o b (off + (phys b' o - phys b off))) as [-> Heq]; [done|done|done|lia| |].
  - unfold phys. lia.
  - lia.
Qed.

Lemma sf_served w b off n : sf_healthy w -> in_block c b off n ->
  served w (phys b off) n (secureflash_app_id w).
Proof.
  intros [(Hd & Hi & Hv & Ha) (q & Hg & Hq)] Hb. destruct (in_area _ _ _ Hb) as [H1 H2].
  pose proof (ar_zones Hc) as H3. destruct Hb as (_ & _ & Hn & _). split_and!; [done|done|done|lia|]. exists q. split.
  - unfold entry_for, current_info. rewrite Hv. cbn. rewrite jl_info. cbn.
    rewrite Ha. apply Hq. lia.
  - eapply grants_sub; [exact Hg|lia..].
Qed.

Lemma sf_law_init w : let '(st, w') := fl_init c w in
  same_image (sf_image w) (sf_image w') /\ (sf_healthy w -> st = PSA_SUCCESS /\ sf_healthy w').
Proof.
  cbn [fl_init etss_secure_flash_fs_ops]. unfold etss_secureflash_init, run_psa.
  set (w1 := {| secureflash := secureflash w; secureflash_app_id := SP_ETSS; spi_nor := spi_nor w |}).
  change ((etss_client_id_pass_on SP_ETSS;; secureflash_init) w) with (secureflash_init w1).
  pose proof (init_calm w1) as [Hm Ha]. pose proof (init_boots w1) as Hb.
  destruct (secureflash_init w1) as [r w'] eqn:Hr. cbn [snd] in Hm, Ha. split.
  - apply sf_image_same. intros a. apply Hm.
  - intros [(Hd & Hi & Hrest) _]. destruct (Hb Hd) as ([] & w2 & Hr2 & Hd2 & Hb2); [by intros _|].
    rewrite Hr in Hr2. injection Hr2 as -> ->. split; [done|]. split; [done|]. rewrite Ha. apply Hc.
Qed.

Lemma sf_law_read b off n w : in_block c b off n ->
  let '(st, bs, w') := fl_read c b off n w in
  same_image (sf_image w) (sf_image w') /\
  (st = PSA_SUCCESS -> bs = rd (sf_image w b) off n) /\
  length bs = Z.to_nat n /\ Forall is_u8 bs /\
  (sf_healthy w -> st = PSA_SUCCESS /\ sf_healthy w').
Proof.
  intros Hb. cbn [fl_read etss_secure_flash_fs_ops]. unfold etss_secureflash_read.
  rewrite (phys_eq _ _ _ Hb). pose proof (in_area _ _ _ Hb) as [H1 H2].
  pose proof area_nonneg. pose proof (ar_end Hc). pose proof Hb as (Hb1 & Ho & Hn & Hf).
  set (buf := replicate (Z.to_nat n) 0).
  pose proof (secure_read_quiet buf (phys b off) n (secureflash_app_id w) w) as (Hm & Hs & Ha).
  destruct (secure_read_spec buf (phys b off) n (secureflash_app_id w) w)
    as (r & bs & w' & Hr & Hl & Hu & Hval & Hsv); [lia..|apply length_replicate|by apply Forall_replicate|].
  rewrite Hr in *. cbn [snd] in *. split_and!.
  - by apply sf_image_same.
  - intros Hst. rewrite Hval by (destruct r as [[]|e]; [done|]; cbn in Hst; by destruct (e =? UNDEFINED)).
    apply rd_ext_shift. intros i Hi. rewrite sf_image_in by lia. f_equal. unfold phys. lia.
  - rewrite Hl. apply length_replicate.
  - done.
  - intros Hh. destruct (Hsv (sf_served _ _ _ _ Hh Hb)) as [-> Hd]. split; [done|].
    destruct Hh as [(_ & Hi & Hv & Hap) Hal]. split; [|by rewrite Ha]. by split_and!; rewrite ?Hs.
Qed.

(** Health after an operation that keeps to the client's zones. *)
Lemma healthy_after client w w' : sf_healthy w -> confined client w w' -> dev_healthy (device w') ->
  sf_healthy w'.
Proof.
  intros [(_ & Hi & Hv & Hap) Hal] (Hs & Ha & _) Hd. split; [|by rewrite Ha].
  by split_and!; rewrite ?Hs.
Qed.

Lemma sf_law_write b buf off n w :
  in_block c b off n -> n <= Z.of_nat (length buf) -> Forall is_u8 buf ->
  let '(st, w') := fl_write c b buf off n w in
  exists k, 0 <= k <= n /\ (st = PSA_SUCCESS -> k = n) /\
    (forall b' o, ~ (b' = b /\ off <= o < off + k) -> sf_image w' b' o = sf_image w b' o) /\
    (forall i, 0 <= i < k -> sf_image w b (off + i) = erase_val c ->
       sf_image w' b (off + i) = nth_byte buf i) /\
    (sf_healthy w -> st = PSA_SUCCESS /\ sf_healthy w').
Proof.
  intros Hb Hlen Hu. cbn [fl_write etss_secure_flash_fs_ops]. unfold etss_secureflash_write, run_psa.
  rewrite (phys_eq _ _ _ Hb). pose proof (in_area _ _ _ Hb) as [H1 H2].
  pose proof area_nonneg. pose proof (ar_end Hc). pose proof Hb as (Hb1 & Ho & Hn & Hf).
  pose proof (secure_program_confined buf (phys b off) n (secureflash_app_id w) w) as Hconf.
  destruct (secure_program_spec buf (phys b off) n (secureflash_app_id w) w)
    as (r & w' & k & Hr & Hk & Hrk & [Hout Hval] & Hsv); [lia..|done|].
  rewrite Hr in *. exists k. split_and!; [lia|lia| | | |].
  - intros Hst. apply Hrk. destruct r as [[]|e]; [done|]. cbn in Hst. by destruct (e =? UNDEFINED).
  - apply sf_image_frame; [lia..|done].
  - intros i Hi. rewrite !sf_image_in by lia.
    replace (phys b (off + i)) with (phys b off + i) by (unfold phys; lia).
    rewrite (ar_erase_val Hc). by apply Hval.
  - intros Hh. destruct (Hsv (sf_served _ _ _ _ Hh Hb)) as [-> Hd]. split; [done|].
    by eapply healthy_after.
Qed.

Lemma sector_aligned b offset : in_block c b offset (sector_size c) -> offset mod sector_size c = 0 ->
  misaligned (phys b offset) (sector_size c) (flash_profile dev_info) = false.
Proof.
  intros Hin Hmod. pose proof (in_area _ _ _ Hin) as [H1 H2]. pose proof area_nonneg.
  pose proof (ar_end Hc). pose proof (ar_sector Hc). pose proof (ar_blocks Hc) as Hbl.
  pose proof (ar_sector_erase Hc) as Hse. pose proof (ar_area_erase Hc) as Har.
  unfold misaligned. rewrite add32_small by lia. set (es := regions_min_secure_erase_size _) in *.
  assert (0 < es) as Hes.
  { pose proof (Forall_lookup_1 _ _ _ _ jl_arch jl_info) as Ha. apply ao_erase in Ha. subst es. lia. }
  apply Z.mod_divide in Hmod; [|lia]. apply Z.mod_divide in Hbl; [|lia].
  apply Z.mod_divide in Hse; [|lia]. apply Z.mod_divide in Har; [|lia].
  assert (es | phys b offset) as Hph.
  { unfold phys. repeat apply Z.divide_add_r; [done|apply Z.divide_mul_r|];
      by apply (Z.divide_trans _ (sector_size c)). }
  apply orb_false_iff. split; apply negb_false_iff, Z.eqb_eq, Z.mod_divide; [lia|done|lia|].
  by apply Z.divide_add_r.
Qed.

(** The bytes outside the request, by their address. *)
Lemma etss_write_frame b buf off n w : in_block c b off n -> n <= Z.of_nat (length buf) ->
  Forall is_u8 buf -> forall a, ~ (phys b off <= a < phys b off + n) ->
  dimg (device (etss_secureflash_write c b buf off n w).2) a = dimg (device w) a.
Proof.
  intros Hb Hl Hu a Ha. unfold etss_secureflash_write, run_psa. rewrite (phys_eq _ _ _ Hb).
  pose proof (in_area _ _ _ Hb) as [H1 H2]. pose proof area_nonneg. pose proof (ar_end Hc).
  pose proof Hb as (Hb1 & Ho & Hn & Hf).
  destruct (secure_program_spec buf (phys b off) n (secureflash_app_id w) w)
    as (r & w' & k & -> & Hk & _ & [Hout _] & _); [lia..|done|]. cbn [snd]. apply Hout. lia.
Qed.

Lemma etss_read_frame b off n w : same_mem w (etss_secureflash_read c b off n w).2.
Proof.
  unfold etss_secureflash_read.
  pose proof (secure_read_quiet (replicate (Z.to_nat n) 0) (get_phys_address c b off) n
    (secureflash_app_id w) w) as [Hm _].
  by destruct (secureflash_secure_read _ _ _ _ w) as [[[r bs]|e] w'].
Qed.

(** Erasing the sectors from [offset] on. *)
Lemma erase_sectors_spec fuel b offset w :
  0 <= b < num_blocks c -> 0 <= offset <= block_size c -> offset mod sector_size c = 0 ->
  block_size c - offset <= Z.of_nat fuel ->
  exists r w' k, erase_sectors fuel c b offset w = (r, w') /\ confined (secureflash_app_id w) w w' /\
    0 <= k <= block_size c - offset /\ (r = Ok tt -> k = block_size c - offset) /\
    cleared w w' (phys b offset) k /\
    (sf_healthy w -> r = Ok tt /\ sf_healthy w').
Proof.
  intros Hb. revert offset w. pose proof (ar_sector Hc) as Hsec.
  induction fuel as [|fuel IH]; intros offset w Ho Hmod Hfuel; cbn [erase_sectors];
    (destruct (Z.ltb_spec offset (block_size c)) as [Hlt|Hge]; cbn [negb]; [|
      exists (Ok tt), w, 0; split; [done|]; split; [reflexivity|]; split; [lia|]; split; [lia|];
      split; [apply cleared_nil|by intros Hh]]); [lia|].
  assert (offset + sector_size c <= block_size c) as Hfit.
  { pose proof (ar_blocks Hc) as Hbl. apply Z.mod_divide in Hmod as [i ->]; [|lia].
    apply Z.mod_divide in Hbl as [j Hj]; [|lia]. rewrite Hj in *.
    assert (i < j) by (apply (Z.mul_lt_mono_pos_r (sector_size c)); lia).
    assert ((i + 1) * sector_size c <= j * sector_size c) by (apply Z.mul_le_mono_nonneg_r; lia). lia. }
  assert (in_block c b offset (sector_size c)) as Hin by (unfold in_block; lia).
  pose proof (in_area _ _ _ Hin) as [H1 H2]. pose proof area_nonneg. pose proof (ar_end Hc).
  pose proof bs_range. rewrite (bind_ok get _ w w w eq_refl), (phys_eq _ _ _ Hin).
  pose proof (secure_erase_confined (phys b offset) (sector_size c) (secureflash_app_id w) w) as Hconf.
  destruct (secure_erase_spec (phys b offset) (sector_size c) (secureflash_app_id w) w)
    as (r & w1 & k & Hr & Hk & Hrk & Hcl & Hsv); [lia..|].
  rewrite Hr in Hconf. cbn [snd] in Hconf.
  assert (sf_healthy w -> r = Ok tt /\ sf_healthy w1) as Hh.
  { intros Hh. destruct (Hsv (sf_served _ _ _ _ Hh Hin)) as [-> Hd].
    - by apply sector_aligned.
    - split; [done|]. by eapply healthy_after. }
  destruct r as [[]|e].
  - rewrite (bind_ok _ _ _ _ _ Hr), add32_small by lia.
    destruct (IH (offset + sector_size c) w1) as (r & w' & m & Hrun & Hconf' & Hm & Hrm & Hcl' & Hh');
      [lia| |lia|].
    { rewrite Z.add_mod, Hmod, Z.mod_same by lia. done. }
    pose proof (Hrk eq_refl) as ->. exists r, w', (sector_size c + m).
    split; [done|]. split; [|split; [lia|split; [intros Hr'; specialize (Hrm Hr'); lia|split]]].
    + etrans; [exact Hconf|]. destruct Hconf as (_ & Ha & _). by rewrite <- Ha.
    + eapply cleared_app; [lia|lia|exact Hcl|].
      by replace (phys b offset + sector_size c) with (phys b (offset + sector_size c)) by (unfold phys; lia).
    + intros Hhe. by apply Hh', Hh.
  - rewrite (bind_err _ _ _ _ _ Hr). exists (Err e), w1, k.
    split; [done|]. split; [done|]. split; [lia|]. split; [done|]. split; [done|].
    intros Hhe. by destruct (Hh Hhe).
Qed.

Lemma sf_law_erase b w : 0 <= b < num_blocks c ->
  let '(st, w') := fl_erase c b w in
  exists k, 0 <= k <= block_size c /\ (st = PSA_SUCCESS -> k = block_size c) /\
    (forall b' o, ~ (b' = b /\ 0 <= o < k) -> sf_image w' b' o = sf_image w b' o) /\
    (forall o, 0 <= o < k -> sf_image w' b o = erase_val c) /\
    (sf_healthy w -> st = PSA_SUCCESS /\ sf_healthy w').
Proof.
  intros Hb. cbn [fl_erase etss_secure_flash_fs_ops]. unfold etss_secureflash_erase, run_psa.
  pose proof bs_range. pose proof (ar_sector Hc) as Hsec.
  destruct (erase_sectors_spec (Z.to_nat (block_size c)) b 0 w) as (r & w' & k & -> & _ & Hk & Hrk & [Hout Hval] & Hh);
    [lia|lia|by apply Z.mod_0_l; lia|lia|].
  exists k. split; [lia|]. split; [|split; [|split]].
  - intros Hst. rewrite Hrk; [lia|]. destruct r as [[]|e]; [done|]. cbn in Hst. by destruct (e =? UNDEFINED).
  - apply (sf_image_frame w w' b 0 k); [lia..|done].
  - intros o Ho. rewrite sf_image_in, (ar_erase_val Hc) by lia. apply Hval. unfold phys. lia.
  - intros Hhe. by destruct (Hh Hhe) as [-> ?].
Qed.

Lemma sf_image_u8 w b o : is_u8 (sf_image w b o).
Proof.
  unfold sf_image. case_bool_decide; [apply jl_u8|]. rewrite (ar_erase_val Hc). apply jl_erase_u8.
Qed.

Lemma sf_law_flush (b : Z) w : let '(st, w') := fl_flush c b w in
  same_image (sf_image w) (sf_image w') /\ (sf_healthy w -> st = PSA_SUCCESS /\ sf_healthy w').
Proof. by split. Qed.

(** etss_secureflash.c meets the contract of the operations table. *)
#[export] Instance sf_laws : FlashLaws (sf_world D) c := {
  img := sf_image;
  img_u8 := sf_image_u8;
  healthy := sf_healthy;
  law_init := sf_law_init;
  law_flush := sf_law_flush;
  law_read := sf_law_read;
  law_write := sf_law_write;
  law_erase := sf_law_erase
}.

(** *** Outside the area

    The bytes of the device outside the area never change.  This is a second
    instance of the contract, with the same image: the device is healthy when
    it also holds [f] outside the area. *)

Definition outside (a : Z) : Prop := ~ (flash_area_addr c <= a < flash_area_addr c + area_size).

Definition fence (f : Z -> Z) w : Prop := forall a, outside a -> dimg (device w) a = f a.
Definition fenced (f : Z -> Z) w : Prop := sf_healthy w /\ fence f w.

Context (f : Z -> Z).

Lemma fence_same w w' : same_mem w w' -> fence f w -> fence f w'.
Proof using Type. intros Hm Hf a Ha. rewrite (Hm a). by apply Hf. Qed.

Lemma fence_frame w w' b off n : in_block c b off n ->
  (forall a, ~ (phys b off <= a < phys b off + n) -> dimg (device w') a = dimg (device w) a) ->
  fence f w -> fence f w'.
Proof.
  intros Hb Hw Hf a Ha. pose proof (in_area _ _ _ Hb) as [H1 H2]. unfold outside in Ha.
  rewrite Hw by lia. by apply Hf.
Qed.

Lemma fence_init w : fence f w -> fence f (fl_init c w).2.
Proof.
  cbn [fl_init etss_secure_flash_fs_ops]. unfold etss_secureflash_init, run_psa.
  set (w1 := {| secureflash := secureflash w; secureflash_app_id := SP_ETSS; spi_nor := spi_nor w |}).
  change ((etss_client_id_pass_on SP_ETSS;; secureflash_init) w) with (secureflash_init w1).
  pose proof (init_calm w1) as [Hm _]. destruct (secureflash_init w1) as [r w'].
  apply (fence_same w). exact Hm.
Qed.

Lemma fence_read b off n w : fence f w -> fence f (fl_read c b off n w).2.
Proof. apply fence_same, etss_read_frame. Qed.

Lemma fence_write b buf off n w : in_block c b off n -> n <= Z.of_nat (length buf) ->
  Forall is_u8 buf -> fence f w -> fence f (fl_write c b buf off n w).2.
Proof. intros Hb Hl Hu. apply (fence_frame w _ b off n Hb). by apply etss_write_frame. Qed.

Lemma fence_erase b w : 0 <= b < num_blocks c -> fence f w -> fence f (fl_erase c b w).2.
Proof.
  intros Hb. pose proof bs_range. pose proof (ar_sector Hc).
  cbn [fl_erase etss_secure_flash_fs_ops]. unfold etss_secureflash_erase, run_psa.
  destruct (erase_sectors_spec (Z.to_nat (block_size c)) b 0 w) as (r & w' & k & -> & _ & Hk & _ & [Hout _] & _);
    [lia|lia|by apply Z.mod_0_l; lia|lia|].
  apply (fence_frame w _ b 0 (block_size c)); [unfold in_block; lia|].
  intros a Ha. apply Hout. lia.
Qed.

Lemma fenced_law_init w : let '(st, w') := fl_init c w in
  same_image (sf_image w) (sf_image w') /\ (fenced f w -> st = PSA_SUCCESS /\ fenced f w').
Proof.
  pose proof (sf_law_init w) as Hl. pose proof (fence_init w) as Hf.
  destruct (fl_init c w) as [st w']. destruct Hl as [Him Hh]. split; [exact Him|].
  intros [H1 H2]. destruct (Hh H1). split; [done|]. split; auto.
Qed.

Lemma fenced_law_read b off n w : in_block c b off n ->
  let '(st, bs, w') := fl_read c b off n w in
  same_image (sf_image w) (sf_image w') /\
  (st = PSA_SUCCESS -> bs = rd (sf_image w b) off n) /\
  length bs = Z.to_nat n /\ Forall is_u8 bs /\
  (fenced f w -> st = PSA_SUCCESS /\ fenced f w').
Proof.
  intros Hb. pose proof (sf_law_read b off n w Hb) as Hl. pose proof (fence_read b off n w) as Hf.
  destruct (fl_read c b off n w) as [[st bs] w']. destruct Hl as (H1 & H2 & H3 & H4 & Hh).
  split_and!; try done. intros [H5 H6]. destruct (Hh H5). split; [done|]. split; auto.
Qed.

Lemma fenced_law_write b buf off n w :
  in_block c b off n -> n <= Z.of_nat (length buf) -> Forall is_u8 buf ->
  let '(st, w') := fl_write c b buf off n w in
  exists k, 0 <= k <= n /\ (st = PSA_SUCCESS -> k = n) /\
    (forall b' o, ~ (b' = b /\ off <= o < off + k) -> sf_image w' b' o = sf_image w b' o) /\
    (forall i, 0 <= i < k -> sf_image w b (off + i) = erase_val c ->
       sf_image w' b (off + i) = nth_byte buf i) /\
    (fenced f w -> st = PSA_SUCCESS /\ fenced f w').
Proof.
  intros Hb Hn Hu. pose proof (sf_law_write b buf off n w Hb Hn Hu) as Hl.
  pose proof (fence_write b buf off n w Hb Hn Hu) as Hf.
  destruct (fl_write c b buf off n w) as [st w']. destruct Hl as (k & H1 & H2 & H3 & H4 & Hh).
  exists k. split_and!; try done; try lia. intros [H5 H6]. destruct (Hh H5). split; [done|]. split; auto.
Qed.

Lemma fenced_law_erase b w : 0 <= b < num_blocks c ->
  let '(st, w') := fl_erase c b w in
  exists k, 0 <= k <= block_size c /\ (st = PSA_SUCCESS -> k = block_size c) /\
    (forall b' o, ~ (b' = b /\ 0 <= o < k) -> sf_image w' b' o = sf_image w b' o) /\
    (forall o, 0 <= o < k -> sf_image w' b o = erase_val c) /\
    (fenced f w -> st = PSA_SUCCESS /\ fenced f w').
Proof.
  intros Hb. pose proof (sf_law_erase b w Hb) as Hl. pose proof (fence_erase b w Hb) as Hf.
  destruct (fl_erase c b w) as [st w']. destruct Hl as (k & H1 & H2 & H3 & H4 & Hh).
  exists k. split_and!; try done; try lia. intros [H5 H6]. destruct (Hh H5). split; [done|]. split; auto.
Qed.

Lemma fenced_law_flush (b : Z) w : let '(st, w') := fl_flush c b w in
  same_image (sf_image w) (sf_image w') /\ (fenced f w -> st = PSA_SUCCESS /\ fenced f w').
Proof. by split. Qed.

Definition fenced_laws : FlashLaws (sf_world D) c := {|
  img := sf_image;
  img_u8 := sf_image_u8;
  healthy := fenced f;
  law_init := fenced_law_init;
  law_flush := fenced_law_flush;
  law_read := fenced_law_read;
  law_write := fenced_law_write;
  law_erase := fenced_law_erase
|}.

(** *** The contents alone

    The same image on a device of which nothing is expected. *)
Lemma image_law_init w : let '(st, w') := fl_init c w in
  same_image (sf_image w) (sf_image w') /\ (False -> st = PSA_SUCCESS /\ False).
Proof. pose proof (sf_law_init w) as Hl. destruct (fl_init c w). by split; [apply Hl|]. Qed.

Lemma image_law_flush (b : Z) w : let '(st, w') := fl_flush c b w in
  same_image (sf_image w) (sf_image w') /\ (False -> st = PSA_SUCCESS /\ False).
Proof. by split. Qed.

Lemma image_law_read b off n w : in_block c b off n ->
  let '(st, bs, w') := fl_read c b off n w in
  same_image (sf_image w) (sf_image w') /\
  (st = PSA_SUCCESS -> bs = rd (sf_image w b) off n) /\
  length bs = Z.to_nat n /\ Forall is_u8 bs /\ (False -> st = PSA_SUCCESS /\ False).
Proof.
  intros Hb. pose proof (sf_law_read b off n w Hb) as Hl.
  destruct (fl_read c b off n w) as [[st bs] w']. by destruct Hl as (? & ? & ? & ? & _).
Qed.

Lemma image_law_write b buf off n w :
  in_block c b off n -> n <= Z.of_nat (length buf) -> Forall is_u8 buf ->
  let '(st, w') := fl_write c b buf off n w in
  exists k, 0 <= k <= n /\ (st = PSA_SUCCESS -> k = n) /\
    (forall b' o, ~ (b' = b /\ off <= o < off + k) -> sf_image w' b' o = sf_image w b' o) /\
    (forall i, 0 <= i < k -> sf_image w b (off + i) = erase_val c ->
       sf_image w' b (off + i) = nth_byte buf i) /\
    (False -> st = PSA_SUCCESS /\ False).
Proof.
  intros Hb Hn Hu. pose proof (sf_law_write b buf off n w Hb Hn Hu) as Hl.
  destruct (fl_write c b buf off n w) as [st w']. destruct Hl as (k & ? & ? & ? & ? & _). by exists k.
Qed.

Lemma image_law_erase b w : 0 <= b < num_blocks c ->
  let '(st, w') := fl_erase c b w in
  exists k, 0 <= k <= block_size c /\ (st = PSA_SUCCESS -> k = block_size c) /\
    (forall b' o, ~ (b' = b /\ 0 <= o < k) -> sf_image w' b' o = sf_image w b' o) /\
    (forall o, 0 <= o < k -> sf_image w' b o = erase_val c) /\
    (False -> st = PSA_SUCCESS /\ False).
Proof.
  intros Hb. pose proof (sf_law_erase b w Hb) as Hl.
  destruct (fl_erase c b w) as [st w']. destruct Hl as (k & ? & ? & ? & ? & _). by exists k.
Qed.

Definition image_laws : FlashLaws (sf_world D) c := {|
  img := sf_image;
  img_u8 := sf_image_u8;
  healthy := fun _ => False;
  law_init := image_law_init;
  law_flush := image_law_flush;
  law_read := image_law_read;
  law_write := image_law_write;
  law_erase := image_law_erase
|}.
End FlashContract.
