(* ===== verification/SecureClients.v ===== *)
(** * What every file-system function leaves alone

    A relation between file-system states that every read, write, flush and
    erase keeps, with any arguments, and that ignores the context, is kept by
    every function the services call on a prepared file system.  No contract
    of the flash is needed.  On the secure flash this gives what a client can
    change. *)
From Stdlib Require Import ZArith Lia.
From stdpp Require Import base list numbers gmap options.
From S2P Require Import Prelude.
From S2P Require Import EtssUtils.
From S2P Require Import FlashFsDefs.
From S2P Require Import Mblock.
From S2P Require Import Dblock.
From S2P Require Import FlashFs.
From S2P Require Import SpiNor.
From S2P Require Import SecureFlash.
From S2P Require Import SecureFlashSpec.
From S2P Require Import SecureFlashFs.

#[local] Set Default Proof Using "Type*".

Section Frame.
Context {E : Type} {FO : FlashOps E} (R : relation (fs_state E)) {HR : PreOrder R}.
Context (R_read : forall b off n, keeps R (ops_read_raw b off n)).
Context (R_write : forall b buf off n, keeps R (ops_write b buf off n)).
Context (R_flush : forall b, keeps R (ops_flush b)).
Context (R_erase : forall b, keeps R (ops_erase b)).
Context (R_ctx : forall f, keeps R (modify_ctx f)).

#[local] Hint Resolve R_read R_write R_flush R_erase R_ctx : keeps.

Lemma get_ctx_keeps : keeps R get_ctx.
Proof. apply keeps_gets, _. Qed.
#[local] Hint Resolve get_ctx_keeps : keeps.

Lemma ops_read_keeps b off n : keeps R (ops_read b off n).
Proof. unfold ops_read. keeps_walk. Qed.
#[local] Hint Resolve ops_read_keeps : keeps.

(** *** Metadata blocks *)

Lemma move_loop_keeps fuel db doff sb soff size : keeps R (move_loop fuel db doff sb soff size).
Proof.
  revert doff soff size. induction fuel as [|fuel IH]; intros doff soff size; cbn [move_loop];
  keeps_walk; apply IH.
Qed.
#[local] Hint Resolve move_loop_keeps : keeps.
Lemma move_keeps db doff sb soff size : keeps R (etss_flash_fs_block_to_block_move db doff sb soff size).
Proof. unfold etss_flash_fs_block_to_block_move. keeps_walk. Qed.
Lemma read_file_meta_keeps idx : keeps R (etss_flash_fs_mblock_read_file_meta idx).
Proof. unfold etss_flash_fs_mblock_read_file_meta. keeps_walk. Qed.
Lemma read_block_meta_keeps l : keeps R (etss_flash_fs_mblock_read_block_metadata l).
Proof. unfold etss_flash_fs_mblock_read_block_metadata. keeps_walk. Qed.
Lemma calculate_xor_keeps b : keeps R (etss_mblock_calculate_metadata_xor b).
Proof. unfold etss_mblock_calculate_metadata_xor. keeps_walk. Qed.
#[local] Hint Resolve move_keeps read_file_meta_keeps read_block_meta_keeps calculate_xor_keeps : keeps.
Lemma free_index_keeps b : keeps R (etss_get_free_file_index b).
Proof. unfold etss_get_free_file_index. keeps_walk. Qed.
Lemma file_idx_keeps fid : keeps R (etss_flash_fs_mblock_get_file_idx fid).
Proof. unfold etss_flash_fs_mblock_get_file_idx. keeps_walk. Qed.
Lemma file_idx_flag_keeps f : keeps R (etss_flash_fs_mblock_get_file_idx_flag f).
Proof. unfold etss_flash_fs_mblock_get_file_idx_flag. keeps_walk. Qed.
Lemma scratch_id_keeps l : keeps R (etss_flash_fs_mblock_cur_data_scratch_id l).
Proof. unfold etss_flash_fs_mblock_cur_data_scratch_id. keeps_walk. Qed.
Lemma set_scratch_keeps p l : keeps R (etss_flash_fs_mblock_set_data_scratch p l).
Proof. unfold etss_flash_fs_mblock_set_data_scratch. keeps_walk. Qed.
Lemma erase_scratch_keeps : keeps R etss_mblock_erase_scratch_blocks.
Proof. unfold etss_mblock_erase_scratch_blocks. keeps_walk. Qed.
Lemma update_sbm_keeps l m : keeps R (etss_mblock_update_scratch_block_meta l m).
Proof. unfold etss_mblock_update_scratch_block_meta. keeps_walk. Qed.
Lemma update_sfm_keeps i m : keeps R (etss_flash_fs_mblock_update_scratch_file_meta i m).
Proof. unfold etss_flash_fs_mblock_update_scratch_file_meta. keeps_walk. Qed.
#[local] Hint Resolve free_index_keeps file_idx_keeps file_idx_flag_keeps scratch_id_keeps
  set_scratch_keeps erase_scratch_keeps update_sbm_keeps update_sfm_keeps : keeps.
Lemma copy_remaining_keeps l : keeps R (etss_mblock_copy_remaining_block_meta l).
Proof. unfold etss_mblock_copy_remaining_block_meta. keeps_walk. Qed.
#[local] Hint Resolve copy_remaining_keeps : keeps.
Lemma update_block_meta_keeps l m : keeps R (etss_flash_fs_mblock_update_scratch_block_meta l m).
Proof. unfold etss_flash_fs_mblock_update_scratch_block_meta. keeps_walk. Qed.
Lemma cp_file_meta_keeps i j : keeps R (etss_flash_fs_mblock_cp_file_meta i j).
Proof. unfold etss_flash_fs_mblock_cp_file_meta. keeps_walk. Qed.
Lemma migrate_keeps : keeps R etss_flash_fs_mblock_migrate_lb0_data_to_scratch.
Proof. unfold etss_flash_fs_mblock_migrate_lb0_data_to_scratch. keeps_walk. Qed.
Lemma write_header_keeps : keeps R etss_mblock_write_scratch_meta_header.
Proof. unfold etss_mblock_write_scratch_meta_header. keeps_walk. Qed.
#[local] Hint Resolve update_block_meta_keeps cp_file_meta_keeps migrate_keeps write_header_keeps : keeps.
Lemma finalize_keeps : keeps R etss_flash_fs_mblock_meta_update_finalize.
Proof. unfold etss_flash_fs_mblock_meta_update_finalize. keeps_walk. Qed.
Lemma reserve_one_keeps fid n f : keeps R (etss_mblock_reserve_file fid n f).
Proof. unfold etss_mblock_reserve_file. keeps_walk. Qed.
#[local] Hint Resolve finalize_keeps reserve_one_keeps : keeps.
Lemma reserve_keeps fid sp n f : keeps R (etss_flash_fs_mblock_reserve_file fid sp n f).
Proof. unfold etss_flash_fs_mblock_reserve_file. keeps_walk. Qed.
#[local] Hint Resolve reserve_keeps : keeps.

(** *** Data blocks *)

Lemma lo_to_phy_keeps l : keeps R (etss_dblock_lo_to_phy l).
Proof. unfold etss_dblock_lo_to_phy. keeps_walk. Qed.
#[local] Hint Resolve lo_to_phy_keeps : keeps.
Lemma compact_keeps l fs si di sz : keeps R (etss_flash_fs_dblock_compact_block l fs si di sz).
Proof. unfold etss_flash_fs_dblock_compact_block. keeps_walk. Qed.
Lemma dblock_read_keeps m off n : keeps R (etss_flash_fs_dblock_read_file m off n).
Proof. unfold etss_flash_fs_dblock_read_file. keeps_walk. Qed.
Lemma dblock_write_keeps bm m off n d : keeps R (etss_flash_fs_dblock_write_file bm m off n d).
Proof. unfold etss_flash_fs_dblock_write_file. keeps_walk. Qed.
#[local] Hint Resolve compact_keeps dblock_read_keeps dblock_write_keeps : keeps.

(** *** Files *)

Lemma aligned_data_keeps bm m off n d : keeps R (etss_flash_fs_file_write_aligned_data bm m off n d).
Proof. unfold etss_flash_fs_file_write_aligned_data. keeps_walk. Qed.
Lemma delete_step_keeps i m j x : keeps R (delete_idx_step i m j x).
Proof. unfold delete_idx_step. keeps_walk. Qed.
#[local] Hint Resolve aligned_data_keeps delete_step_keeps : keeps.
Lemma delete_idx_keeps i : keeps R (etss_flash_fs_delete_idx i).
Proof. unfold etss_flash_fs_delete_idx. keeps_walk. Qed.
#[local] Hint Resolve delete_idx_keeps : keeps.
Lemma file_exist_keeps fid : keeps R (etss_flash_fs_file_exist fid).
Proof. unfold etss_flash_fs_file_exist. keeps_walk. Qed.
Lemma file_get_info_keeps fid : keeps R (etss_flash_fs_file_get_info fid).
Proof. unfold etss_flash_fs_file_get_info. keeps_walk. Qed.
Lemma write_lookup_keeps fid f mx : keeps R (file_write_lookup fid f mx).
Proof. unfold file_write_lookup. keeps_walk. Qed.
Lemma write_reserve_keeps fid f mx o n m : keeps R (file_write_reserve fid f mx o n m).
Proof. unfold file_write_reserve. keeps_walk. Qed.
Lemma write_data_keeps m bm off n d : keeps R (file_write_data m bm off n d).
Proof. unfold file_write_data. keeps_walk. Qed.
Lemma write_metadata_keeps m bm i o : keeps R (file_write_metadata m bm i o).
Proof. unfold file_write_metadata. keeps_walk. Qed.
#[local] Hint Resolve write_lookup_keeps write_reserve_keeps write_data_keeps write_metadata_keeps : keeps.
Lemma file_write_keeps fid f mx n off d : keeps R (etss_flash_fs_file_write fid f mx n off d).
Proof. unfold etss_flash_fs_file_write. keeps_walk. Qed.
Lemma file_delete_keeps fid : keeps R (etss_flash_fs_file_delete fid).
Proof. unfold etss_flash_fs_file_delete. keeps_walk. Qed.
Lemma file_read_keeps fid n off : keeps R (etss_flash_fs_file_read fid n off).
Proof. unfold etss_flash_fs_file_read. keeps_walk. Qed.
End Frame.

(** ** Clients of the file system on the secure flash

    While a client is the current one, every file-system function changes
    only bytes in the zones of that client. *)

Section Clients.
Context {D : Type} {SO : SpiOps D} {JO : JedecOps D} {JL : JedecLaws D}.
Implicit Types w : sf_world D.
Implicit Types s : fs_state (sf_world D).

(** A function called while [client] is the current client is confined. *)
Definition client_frame (client : Z) s s' : Prop :=
  secureflash_app_id (fs_env s) = client -> confined client (fs_env s) (fs_env s').

#[export] Instance client_frame_pre client : PreOrder (client_frame client).
Proof.
  split; [by intros s _|]. intros s1 s2 s3 H1 H2 Hid. specialize (H1 Hid).
  etrans; [exact H1|]. apply H2. destruct H1 as (_ & -> & _). exact Hid.
Qed.

Lemma erase_sectors_confined fuel c b offset w :
  confined (secureflash_app_id w) w (erase_sectors fuel c b offset w).2.
Proof.
  revert offset w. induction fuel as [|fuel IH]; intros offset w; cbn [erase_sectors];
  (destruct (negb _); [reflexivity|]); [reflexivity|].
  rewrite (bind_ok get _ w w w eq_refl).
  pose proof (secure_erase_confined (get_phys_address c b offset) (sector_size c)
  (secureflash_app_id w) w) as Hc.
  destruct (secureflash_secure_erase _ _ _ w) as [[[]|e] w1] eqn:Hr; cbn [snd] in Hc.
  - rewrite (bind_ok _ _ _ _ _ Hr). etrans; [exact Hc|]. destruct Hc as (_ & <- & _). apply IH.
  - by rewrite (bind_err _ _ _ _ _ Hr).
Qed.

Section Serving.
Context (client : Z).

Lemma client_read b off n : keeps (client_frame client) (ops_read_raw (E := sf_world D) b off n).
Proof.
  intros s Hid. unfold ops_read_raw. cbn. unfold etss_secureflash_read.
  pose proof (secure_read_quiet (replicate (Z.to_nat n) 0) (get_phys_address (cfg (fs_ctx s)) b off) n
  (secureflash_app_id (fs_env s)) (fs_env s)) as Hq.
  destruct (secureflash_secure_read _ _ _ _ _) as [[[r bs]|e] w']; cbn in *; by apply quiet_confined.
Qed.

Lemma snd_check st (x : fs_state (sf_world D)) : (check st x).2 = x.
Proof. unfold check. by destruct (_ =? _). Qed.

Lemma client_write b buf off n : keeps (client_frame client) (ops_write (E := sf_world D) b buf off n).
Proof.
  intros s Hid. unfold ops_write. cbn [fl_write etss_secure_flash_fs_ops]. unfold etss_secureflash_write, run_psa.
  pose proof (secure_program_confined buf (get_phys_address (cfg (fs_ctx s)) b off) n
  (secureflash_app_id (fs_env s)) (fs_env s)) as Hq.
  destruct (secureflash_secure_program _ _ _ _ _) as [r w']. rewrite snd_check. cbn in *. by subst client.
Qed.

Lemma client_erase b : keeps (client_frame client) (ops_erase (E := sf_world D) b).
Proof.
  intros s Hid. unfold ops_erase. cbn [fl_erase etss_secure_flash_fs_ops]. unfold etss_secureflash_erase, run_psa.
  pose proof (erase_sectors_confined (Z.to_nat (block_size (cfg (fs_ctx s)))) (cfg (fs_ctx s)) b 0 (fs_env s)) as Hq.
  destruct (erase_sectors _ _ _ _ _) as [r w']. rewrite snd_check. cbn in *. by subst client.
Qed.

Lemma client_flush b : keeps (client_frame client) (ops_flush (E := sf_world D) b).
Proof. intros s Hid. unfold ops_flush. cbn [fl_flush etss_secure_flash_fs_ops etss_secureflash_flush]. by rewrite snd_check. Qed.

Lemma client_ctx f : keeps (client_frame client) (modify_ctx (E := sf_world D) f).
Proof. by intros s Hid. Qed.

Lemma client_file_write fid flgs mx n off data : keeps (client_frame client) (etss_flash_fs_file_write fid flgs mx n off data).
Proof.
  exact (file_write_keeps _ client_read client_write client_flush client_erase client_ctx fid flgs mx n off data).
Qed.
Lemma client_file_delete fid : keeps (client_frame client) (etss_flash_fs_file_delete fid).
Proof.
  exact (file_delete_keeps _ client_read client_write client_flush client_erase client_ctx fid).
Qed.
Lemma client_file_read fid n off : keeps (client_frame client) (etss_flash_fs_file_read fid n off).
Proof.
  exact (file_read_keeps _ client_read client_write client_flush client_erase client_ctx fid n off).
Qed.
Lemma client_file_get_info fid : keeps (client_frame client) (etss_flash_fs_file_get_info fid).
Proof.
  exact (file_get_info_keeps _ client_read client_write client_flush client_erase client_ctx fid).
Qed.
Lemma client_file_exist fid : keeps (client_frame client) (etss_flash_fs_file_exist fid).
Proof.
  exact (file_exist_keeps _ client_read client_write client_flush client_erase client_ctx fid).
Qed.
End Serving.
End Clients.
