(* ===== verification/SecureDevice.v ===== *)
(** * A concrete secure flash

    An executable device that satisfies [JedecLaws], for the concrete
    instances of the theorems: two zones of 4096 bytes, one root key for
    each, provisioned for the clients 1 and 2.  Programming can only clear
    bits, an erase sets bytes to 0xFF, and every access needs a session with
    the key of the zone. *)
From Stdlib Require Import ZArith Lia.
From stdpp Require Import base list numbers gmap options.
From S2P Require Import Prelude.
From S2P Require Import EtssUtils.
From S2P Require Import FlashFsDefs.
From S2P Require Import NorDevice.
From S2P Require Import SpiNor.
From S2P Require Import SecureFlash.
From S2P Require Import SecureFlashSpec.
From S2P Require Import SecureFlashFs.

Record sdev : Type := {
  sd_mem : gmap Z Z;        (* programmed bytes; absent means erased *)
  sd_sessions : gmap Z Z;   (* session to root key *)
  sd_next : Z               (* the next session *)
}.

Definition sd_empty : sdev := {| sd_mem := ∅; sd_sessions := ∅; sd_next := 1 |}.
Definition set_mem (m : gmap Z Z) (d : sdev) : sdev :=
  {| sd_mem := m; sd_sessions := sd_sessions d; sd_next := sd_next d |}.
Definition set_sessions (m : gmap Z Z) (d : sdev) : sdev :=
  {| sd_mem := sd_mem d; sd_sessions := m; sd_next := sd_next d |}.

Definition sd_byte (m : gmap Z Z) (a : Z) : Z := w8 (default 255 (m !! a)).

(** Root key 10 opens zone 0, root key 11 zone 1. *)
Definition key_zone (k : Z) : option Z :=
  if k =? 10 then Some 0 else if k =? 11 then Some 1 else None.

Definition opens (k addr size : Z) : bool :=
  (size <=? 0) ||
  match key_zone k with
  | Some z => (z * 4096 <=? addr) && (addr + size <=? z * 4096 + 4096)
  | None => false
  end.

Definition session_opens (d : sdev) (sid addr size : Z) : bool :=
  match sd_sessions d !! sid with Some k => opens k addr size | None => false end.

Fixpoint sd_program (m : gmap Z Z) (addr : Z) (bs : list Z) : gmap Z Z :=
  match bs with
  | [] => m
  | c :: bs' => sd_program (<[addr := Z.land (sd_byte m addr) c]> m) (addr + 1) bs'
  end.

Definition sd_erase (m : gmap Z Z) (addr n : Z) : gmap Z Z :=
  filter (fun kv => ~ (addr <= kv.1 < addr + n)) m.

Definition sd_arch : architecture_t :=
  {| secure_zone_size := 4096; secure_zone_total_size := 8192; secure_read_size := 64;
     secure_program_size := 64; regions_min_secure_erase_size := 256 |}.
Definition sd_features : security_feature_t :=
  {| security_storage := true; puf := false; rng := true; rpmc := false |}.
Definition other_info : flash_info_t :=
  {| info_id := [239; 64]; flash_profile := sd_arch; security_feature := sd_features |}.
Definition sd_info : flash_info_t :=
  {| info_id := [194; 149; 68]; flash_profile := sd_arch; security_feature := sd_features |}.
Definition sd_id : list Z := [194; 149; 68; 0].
Definition sd_apps : app_info_t :=
  {| app_num := 2;
     app_data := {| app_id := 1; key_id := 10; zone_id := 0; mc_id := 0 |}
              :: {| app_id := 2; key_id := 11; zone_id := 1; mc_id := 0 |}
              :: replicate 14 zero_app_data |}.

#[export] Instance sd_spi : SpiOps sdev := {
  spi_write := fun _ d => (0, d);
  spi_read := fun _ n d => (0, take (Z.to_nat n) sd_id, d);
  wait_for_ms := fun _ d => d;
  spi_nor_hc_init := fun d => (0, d)
}.

#[export] Instance sd_jedec : JedecOps sdev := {
  SP_ETSS := 259;
  SECUREFLASH_AUTHEN_KEY_ID := 1;
  SECURE_FLASH_MAX_ID_LEN := 4;
  JEDEC_ERROR_NONE := 0;
  flash_info := [other_info; sd_info];
  jedec_set_vendor := fun _ d => d;
  provision_get_app_info := fun _ d => (0, sd_apps, d);
  perform_and_verify := fun _ _ d => (0, d);
  jedec_secure_init := fun _ d => (0, d);
  jedec_secure_uninit := fun _ d => (0, d);
  jedec_create_session := fun k d =>
    (0, sd_next d, {| sd_mem := sd_mem d; sd_sessions := <[sd_next d := k]> (sd_sessions d);
                      sd_next := sd_next d + 1 |});
  jedec_terminate_session := fun sid d =>
    if bool_decide (is_Some (sd_sessions d !! sid)) then (0, set_sessions (delete sid (sd_sessions d)) d)
    else (-1, d);
  jedec_secure_read := fun addr n sid d =>
    if session_opens d sid addr n && (addr mod 64 + n <=? 64) then (0, rd (sd_byte (sd_mem d)) addr n, d)
    else (-1, [], d);
  jedec_secure_program := fun addr bs sid d =>
    if session_opens d sid addr (Z.of_nat (length bs)) && (addr mod 64 + Z.of_nat (length bs) <=? 64)
    then (0, set_mem (sd_program (sd_mem d) addr bs) d) else (-1, d);
  jedec_secure_erase := fun addr n sid d =>
    if session_opens d sid addr n && (n =? 256) && (addr mod 256 =? 0)
    then (0, set_mem (sd_erase (sd_mem d) addr n) d) else (-1, d)
}.

(** ** The laws *)

Lemma sd_program_other m addr bs a :
  ~ (addr <= a < addr + Z.of_nat (length bs)) -> sd_byte (sd_program m addr bs) a = sd_byte m a.
Proof.
  revert m addr. induction bs as [|c bs IH]; intros m addr Ha; cbn [sd_program]; [done|].
  cbn [length] in Ha. rewrite IH by lia. unfold sd_byte. by rewrite lookup_insert_ne by lia.
Qed.

Lemma sd_program_at m addr bs i : 0 <= i < Z.of_nat (length bs) ->
  sd_byte (sd_program m addr bs) (addr + i) = w8 (Z.land (sd_byte m (addr + i)) (nth_byte bs i)).
Proof.
  revert m addr i. induction bs as [|c bs IH]; intros m addr i Hi; cbn [sd_program length] in *; [lia|].
  destruct (Z.eq_dec i 0) as [->|Hne].
  - rewrite sd_program_other by lia. rewrite Z.add_0_r. unfold sd_byte at 1. by rewrite lookup_insert_eq.
  - replace (addr + i) with (addr + 1 + (i - 1)) by lia. rewrite IH by lia.
    f_equal. f_equal.
    + unfold sd_byte. by rewrite lookup_insert_ne by lia.
    + unfold nth_byte. replace (Z.to_nat i) with (S (Z.to_nat (i - 1))) by lia. done.
Qed.

Lemma sd_erase_byte m addr n a :
  sd_byte (sd_erase m addr n) a = if decide (addr <= a < addr + n) then 255 else sd_byte m a.
Proof.
  unfold sd_byte, sd_erase. case_decide as Ha.
  - rewrite map_lookup_filter_None_2; [done|]. right. intros x Hx Hn. by apply Hn.
  - destruct (m !! a) as [x|] eqn:Hx.
    + by rewrite (map_lookup_filter_Some_2 _ _ _ x).
    + rewrite map_lookup_filter_None_2; [done|by left].
Qed.

Definition sd_granted (k a : Z) : Prop := opens k a 1 = true.

Lemma opens_sub k addr n a : opens k addr n = true -> addr <= a < addr + n -> sd_granted k a.
Proof.
  unfold sd_granted, opens. destruct (key_zone k);
    rewrite ?orb_true_iff, ?andb_true_iff, ?Z.leb_le; intuition (try lia; try discriminate).
Qed.

Lemma opens_all k addr n : (forall a, addr <= a < addr + n -> sd_granted k a) -> opens k addr n = true.
Proof.
  intros H. unfold opens. destruct (Z.leb_spec n 0) as [|Hn]; [done|].
  pose proof (H addr ltac:(lia)) as H1. pose proof (H (addr + n - 1) ltac:(lia)) as H2.
  unfold sd_granted, opens in *. cbn [orb Z.leb Z.compare] in *. destruct (key_zone k); [|done].
  rewrite ?andb_true_iff, ?Z.leb_le in *. lia.
Qed.

Lemma session_opens_grants d sid addr n a : session_opens d sid addr n = true ->
  addr <= a < addr + n -> exists k, sd_sessions d !! sid = Some k /\ sd_granted k a.
Proof.
  unfold session_opens. destruct (sd_sessions d !! sid) as [k|]; [|done].
  intros Ho Ha. exists k. split; [done|]. by eapply opens_sub.
Qed.

Lemma sd_byte_u8 m a : is_u8 (sd_byte m a).
Proof. apply w8_range. Qed.

Lemma sd_law_read addr n sid d : let '(st, bs, d') := jedec_secure_read addr n sid d in
  (forall a, sd_byte (sd_mem d') a = sd_byte (sd_mem d) a) /\
  (forall x, sd_sessions d' !! x = sd_sessions d !! x) /\
  Forall is_u8 bs /\ (length bs <= Z.to_nat n)%nat /\
  (st = JEDEC_ERROR_NONE -> bs = rd (sd_byte (sd_mem d)) addr n) /\
  (forall k, True -> sd_sessions d !! sid = Some k ->
     (forall a, addr <= a < addr + n -> sd_granted k a) ->
     addr mod secure_read_size (flash_profile sd_info) + n <= secure_read_size (flash_profile sd_info) ->
     st = JEDEC_ERROR_NONE /\ True).
Proof.
  cbn. destruct (session_opens d sid addr n && _) eqn:Hc.
  - split_and!; try done; [apply rd_Forall, sd_byte_u8|by rewrite rd_length].
  - split_and!; try done; [simpl; lia|]. intros k _ Hk Hg Hm. exfalso.
    unfold session_opens in Hc. rewrite Hk, (opens_all _ _ _ Hg) in Hc. simpl in Hc.
    apply Z.leb_gt in Hc. lia.
Qed.

Lemma sd_law_program addr bs sid d : let '(st, d') := jedec_secure_program addr bs sid d in
  (forall x, sd_sessions d' !! x = sd_sessions d !! x) /\
  (forall a, sd_byte (sd_mem d') a <> sd_byte (sd_mem d) a ->
     exists k, sd_sessions d !! sid = Some k /\ sd_granted k a) /\
  (exists n, 0 <= n <= Z.of_nat (length bs) /\
     (st = JEDEC_ERROR_NONE -> n = Z.of_nat (length bs)) /\
     (forall a, ~ (addr <= a < addr + n) -> sd_byte (sd_mem d') a = sd_byte (sd_mem d) a) /\
     (Forall is_u8 bs -> forall i, 0 <= i < n -> sd_byte (sd_mem d) (addr + i) = 255 ->
        sd_byte (sd_mem d') (addr + i) = nth_byte bs i)) /\
  (forall k, True -> sd_sessions d !! sid = Some k ->
     (forall a, addr <= a < addr + Z.of_nat (length bs) -> sd_granted k a) ->
     addr mod secure_program_size (flash_profile sd_info) + Z.of_nat (length bs)
       <= secure_program_size (flash_profile sd_info) ->
     st = JEDEC_ERROR_NONE /\ True).
Proof.
  cbn. destruct (session_opens d sid addr (Z.of_nat (length bs)) && _) eqn:Hc.
  - apply andb_true_iff in Hc as [Hs _]. cbn. split; [done|]. split; [|split; [|done]].
    + intros a Ha. eapply session_opens_grants; [exact Hs|].
      destruct (decide (addr <= a < addr + Z.of_nat (length bs))) as [|Hn]; [done|].
      by destruct (Ha (sd_program_other _ _ _ _ Hn)).
    + exists (Z.of_nat (length bs)). split_and!; [lia..|done|intros; by apply sd_program_other|].
      intros Hu i Hi He. rewrite sd_program_at, He by lia. apply u8_land_255, nth_byte_u8, Hu.
  - split; [done|]. split; [by intros a Ha|]. split.
    + exists 0. split_and!; [lia..|done|done|lia].
    + intros k _ Hk Hg Hm. exfalso.
      unfold session_opens in Hc. rewrite Hk, (opens_all _ _ _ Hg) in Hc. simpl in Hc.
      apply Z.leb_gt in Hc. lia.
Qed.

Lemma sd_law_erase addr n sid d : let '(st, d') := jedec_secure_erase addr n sid d in
  (forall x, sd_sessions d' !! x = sd_sessions d !! x) /\
  (forall a, sd_byte (sd_mem d') a <> sd_byte (sd_mem d) a ->
     exists k, sd_sessions d !! sid = Some k /\ sd_granted k a) /\
  (0 <= n -> exists m, 0 <= m <= n /\ (st = JEDEC_ERROR_NONE -> m = n) /\
     (forall a, ~ (addr <= a < addr + m) -> sd_byte (sd_mem d') a = sd_byte (sd_mem d) a) /\
     (forall a, addr <= a < addr + m -> sd_byte (sd_mem d') a = 255)) /\
  (forall k, True -> sd_sessions d !! sid = Some k ->
     (forall a, addr <= a < addr + n -> sd_granted k a) ->
     n = regions_min_secure_erase_size (flash_profile sd_info) -> addr mod n = 0 ->
     st = JEDEC_ERROR_NONE /\ True).
Proof.
  cbn. destruct (session_opens d sid addr n && (n =? 256) && (addr mod 256 =? 0)) eqn:Hc.
  - apply andb_true_iff in Hc as [[Hs _]%andb_true_iff _]. cbn.
    split; [done|]. split; [|split; [|done]].
    + intros a. rewrite sd_erase_byte. case_decide as Ha; [|done]. intros _.
      by eapply session_opens_grants.
    + intros Hn. exists n. split_and!; [lia..|done| |]; intros a Ha; rewrite sd_erase_byte;
        case_decide; done.
  - split; [done|]. split; [by intros a Ha|]. split.
    + intros Hn. exists 0. split_and!; [lia..|done|done|lia].
    + intros k _ Hk Hg -> Hm. exfalso.
      unfold session_opens in Hc. rewrite Hk, (opens_all _ _ _ Hg) in Hc. simpl in Hc.
      by apply Z.eqb_neq in Hc.
Qed.

Lemma sd_law_arch : Forall (fun v => arch_ok (flash_profile v)) flash_info.
Proof. repeat constructor; cbn; lia. Qed.

Lemma sd_law_first j v : (j < 1)%nat -> flash_info !! j = Some v ->
  take (length (info_id v)) sd_id <> info_id v.
Proof. intros Hj. assert (j = 0%nat) as -> by lia. by intros [= <-]. Qed.

Lemma sd_law_create k d : let '(st, sid, d') := jedec_create_session k d in
  (forall a, sd_byte (sd_mem d') a = sd_byte (sd_mem d) a) /\
  (st = JEDEC_ERROR_NONE -> sd_sessions d' !! sid = Some k) /\
  (True -> st = JEDEC_ERROR_NONE /\ True).
Proof. cbn. split_and!; try done. intros _. apply lookup_insert_eq. Qed.

Lemma sd_law_terminate sid d : let '(st, d') := jedec_terminate_session sid d in
  (forall a, sd_byte (sd_mem d') a = sd_byte (sd_mem d) a) /\
  (True -> sd_sessions d !! sid <> None -> st = JEDEC_ERROR_NONE /\ True).
Proof.
  cbn. case_bool_decide as H; [done|]. split; [done|]. intros _ Hn.
  destruct H. by apply not_eq_None_Some.
Qed.

#[export] Program Instance sd_laws : JedecLaws sdev := {
  dimg := fun d => sd_byte (sd_mem d);
  dev_erase := 255;
  granted := sd_granted;
  session_key := fun d sid => sd_sessions d !! sid;
  dev_healthy := fun _ => True;
  dev_index := 1;
  dev_info := sd_info;
  dev_id := sd_id;
  dev_apps := sd_apps;
  jl_u8 := fun d => sd_byte_u8 (sd_mem d);
  jl_arch := sd_law_arch;
  jl_first := sd_law_first;
  jl_create := sd_law_create;
  jl_terminate := sd_law_terminate;
  jl_read := sd_law_read;
  jl_program := sd_law_program;
  jl_erase := sd_law_erase
}.
Solve All Obligations with (repeat split; cbn; (done || lia)).

(** ** A file system for each client *)

(** Five blocks of 512 bytes in zone [z]. *)
Definition zone_cfg (z : Z) : etss_flash_fs_config_t :=
  {| flash_area_addr := z * 4096; sector_size := 256; block_size := 512; num_blocks := 5;
     program_unit := 1; max_file_size := 200; max_num_files := 4; erase_val := 255 |}.

Lemma provisioned_same client a b : a / 4096 = b / 4096 -> provisioned client a = provisioned client b.
Proof. intros H. unfold provisioned. cbn [dev_info sd_laws sd_info flash_profile sd_arch secure_zone_size]. by rewrite H. Qed.

Lemma zone_allowed z client q : 0 <= z < 2 ->
  provisioned client (z * 4096) = Some q -> key_zone (key_id q) = Some z ->
  allowed (zone_cfg z) client.
Proof.
  intros Hz Hq Hk. exists q. split.
  - intros a. unfold area_size. cbn. intros Ha. unfold sd_granted, opens. rewrite Hk. cbn.
    rewrite !(proj2 (Z.leb_le _ _)) by lia. done.
  - intros a. unfold area_size. cbn [flash_area_addr num_blocks block_size zone_cfg]. intros Ha.
    rewrite (provisioned_same _ _ (z * 4096)); [done|].
    rewrite Z.div_mul by lia. symmetry. apply (Z.div_unique _ _ _ (a - z * 4096)); lia.
Qed.

Lemma zone0_ok : area_ok (zone_cfg 0).
Proof.
  split; try (vm_compute; reflexivity); [split; cbn; unfold is_u32, is_u16, is_u8; lia|vm_compute; discriminate|].
  by eapply (zone_allowed 0).
Qed.

Lemma zone1_ok : area_ok (zone_cfg 1).
Proof.
  split; try (vm_compute; reflexivity); [split; cbn; unfold is_u32, is_u16, is_u8; lia|vm_compute; discriminate|].
  by eapply (zone_allowed 1).
Qed.

Lemma zone0_client : allowed (zone_cfg 0) 1.
Proof. by eapply (zone_allowed 0). Qed.
Lemma zone1_client : allowed (zone_cfg 1) 2.
Proof. by eapply (zone_allowed 1). Qed.

(** ** The world before and after the first initialisation *)

Definition cold : sf_world sdev := {|
  secureflash := {| _init_ref_count := 0; _is_initialized := false; app_info := zero_app_info;
                    flash_id := []; vendor := None |};
  secureflash_app_id := 0;
  spi_nor := {| cmd_packet := idle_packet; hardware := sd_empty |}
|}.

Definition warm : sf_world sdev := (secureflash_init cold).2.
(** Serving a client. *)
Definition as_client (client : Z) : sf_world sdev := (etss_client_id_pass_on client warm).2.

Lemma warm_booted : booted warm.
Proof. split; [exact I|]. split_and!; vm_compute; reflexivity. Qed.

Lemma booted_client client (w : sf_world sdev) : booted w -> booted (etss_client_id_pass_on client w).2.
Proof. by intros H. Qed.

Lemma as_client_booted client : booted (as_client client).
Proof. apply booted_client, warm_booted. Qed.
