(* ===== verification/SecureTheorems.v ===== *)
(** * The theorems about the secure flash

    Access control, confinement of clients to their zones, the contract of the
    storage operations, initialisation, and what the error paths leave
    behind; with instances on the device of [SecureDevice]. *)
From Stdlib Require Import ZArith Lia.
From stdpp Require Import base list numbers gmap options.
From S2P Require Import Prelude.
From S2P Require Import EtssUtils.
From S2P Require Import FlashFsDefs.
From S2P Require Import Mblock.
From S2P Require Import Dblock.
From S2P Require Import FlashFs.
From S2P Require Import FsRefine.
From S2P Require Import SpiNor.
From S2P Require Import SecureFlash.
From S2P Require Import SecureFlashSpec.
From S2P Require Import SecureFlashFs.
From S2P Require Import SecureClients.
From S2P Require Import SecureDevice.

#[local] Set Default Proof Using "Type*".

Section AccessControl.
Context {D : Type} {SO : SpiOps D} {JO : JedecOps D}.
Implicit Types w : sf_world D.

(** No row in use opens the zone of [addr] to [client]: every row is for
another zone or for another application, and [client] is not the partition. *)
Definition no_entry w (addr client : Z) : Prop :=
  table_fits (app_info (secureflash w)) /\ exists v, current_info w = Some v /\
  forall q, q ∈ rows (app_info (secureflash w)) ->
    zone_id q <> addr / secure_zone_size (flash_profile v) \/
    (app_id q <> client /\ client <> SP_ETSS).

Definition in_zones w (addr size : Z) : Prop :=
  exists v, current_info w = Some v /\ add32 addr size <= secure_zone_total_size (flash_profile v).

Lemma denied extra addr size client w :
  _is_initialized (secureflash w) = true -> in_zones w addr size -> no_entry w addr client ->
  (forall v, current_info w = Some v -> extra (flash_profile v) = false) ->
  open_session extra addr size client w = (Err SECUREFLASH_ERROR_ILLEGAL_ACCESS, w).
Proof.
  intros Hi (v & Hv & Hz) (Hf & v' & Hv' & Hq) He. rewrite open_session_eq. unfold admission.
  rewrite Hi, Hv. cbn [negb]. assert (v' = v) as -> by congruence.
  destruct (Z.gtb_spec (add32 addr size) (secure_zone_total_size (flash_profile v))); [lia|].
  rewrite (He v Hv), query_no_row; [done|done|].
  intros q Hin [Hz' Ha]. destruct (Hq q Hin) as [|[]]; intuition.
Qed.

(** C20: A client to which no row of the provisioned table opens the zone of
the address it accesses (every row in use names another zone or another
application, and the client is not the partition itself) is refused with
SECUREFLASH_ERROR_ILLEGAL_ACCESS by read, program and (for aligned requests)
erase; the device is not touched, the buffer neither. *)
Theorem illegal_access_refused w addr size client buffer
  (Hi : _is_initialized (secureflash w) = true)
  (Hz : in_zones w addr size) (Hn : no_entry w addr client) :
  secureflash_secure_read buffer addr size client w
  = (Ok (Err SECUREFLASH_ERROR_ILLEGAL_ACCESS, buffer), w) /\
  secureflash_secure_program buffer addr size client w = (Err SECUREFLASH_ERROR_ILLEGAL_ACCESS, w) /\
  ((forall v, current_info w = Some v -> misaligned addr size (flash_profile v) = false) ->
  secureflash_secure_erase addr size client w = (Err SECUREFLASH_ERROR_ILLEGAL_ACCESS, w)).
Proof.
  split; [|split].
  - unfold secureflash_secure_read.
  by rewrite (bind_ok _ _ _ _ _ (attempt_eq _ _ _ _ (denied (fun _ => false) _ _ _ _ Hi Hz Hn (fun _ _ => eq_refl)))).
  - exact (bind_err _ _ _ _ _ (denied (fun _ => false) _ _ _ _ Hi Hz Hn (fun _ _ => eq_refl))).
  - intros He. exact (bind_err _ _ _ _ _ (denied _ _ _ _ _ Hi Hz Hn He)).
Qed.

(** The number of initialisations is counted, but the first
[secureflash_uninit] already clears the application table: after it the
context may still be initialised, and every request of every client is
refused. *)
Theorem uninit_revokes_all w addr size client buffer
  (Hi : _is_initialized (secureflash w) = true)
  (Hc : 2 <= _init_ref_count (secureflash w) < 4294967296)
  (Hd : (jedec_secure_uninit SECUREFLASH_AUTHEN_KEY_ID (device w)).1 = JEDEC_ERROR_NONE)
  (Hz : in_zones w addr size) :
  exists w', secureflash_uninit w = (Ok tt, w') /\ _is_initialized (secureflash w') = true /\
  secureflash_secure_read buffer addr size client w'
    = (Ok (Err SECUREFLASH_ERROR_ILLEGAL_ACCESS, buffer), w') /\
  secureflash_secure_program buffer addr size client w' = (Err SECUREFLASH_ERROR_ILLEGAL_ACCESS, w').
Proof.
  unfold secureflash_uninit. rewrite bind_device.
  destruct (jedec_secure_uninit _ _) as [st d] eqn:Hu. cbn [fst snd] in *. subst st.
  rewrite Z.eqb_refl. cbn [negb]. set (w1 := set_device w d).
  pose proof (sub32_small (_init_ref_count (secureflash w)) 1 ltac:(lia)) as Hs.
  set (w' := {| secureflash := set_ref_count (_init_ref_count (secureflash w) - 1)
                (set_app_info zero_app_info (secureflash w));
              secureflash_app_id := secureflash_app_id w; spi_nor := spi_nor w1 |}).
  exists w'. split; [|split; [exact Hi|]].
  { unfold mbind, ST_bind, fail_if, set_sf, get_sf, modify, gets. cbn -[sub32]. rewrite Hs.
  destruct (Z.eqb_spec (_init_ref_count (secureflash w) - 1) 0); [lia|done]. }
  assert (no_entry w' addr client) as Hn.
  { destruct Hz as (v & Hv & _). split; [done|]. exists v. split; [exact Hv|].
  intros q Hin. by apply elem_of_nil in Hin. }
  assert (open_session (fun _ => false) addr size client w' = (Err SECUREFLASH_ERROR_ILLEGAL_ACCESS, w')) as Ho
  by (apply denied; done).
  split.
  - unfold secureflash_secure_read. by rewrite (bind_ok _ _ _ _ _ (attempt_eq _ _ _ _ Ho)).
  - exact (bind_err _ _ _ _ _ Ho).
Qed.

(** The search for the device does not end at the last entry of the
table: for an id that no entry matches, it reads past the array instead
of returning SECUREFLASH_ERROR_UNSUPPORTED_DEVICE. *)
Theorem match_id_overruns w id
  (Hne : flash_info <> [])
  (Hno : Forall (fun v => take (length (info_id v)) id <> info_id v) flash_info) :
  secureflash_match_id id w = (Err UNDEFINED, w).
Proof.
  unfold secureflash_match_id. rewrite (bind_err _ _ _ UNDEFINED w); [done|].
  assert (forall n i, 0 <= i <= Z.of_nat (length flash_info) ->
  Z.of_nat (length flash_info) < i + Z.of_nat n ->
  for_loop n i tt (fun i _ =>
    match flash_info !! Z.to_nat i with
    | None => raise UNDEFINED
    | Some v =>
        if bool_decide (take (length (info_id v)) id = info_id v) then
          with_device (fun d => (tt, jedec_set_vendor v d));;
          set_sf (set_vendor (Z.to_nat i));;
          mret (Done tt)
        else mret (Next tt)
    end) w = (Err UNDEFINED, w)) as Hl.
  { induction n as [|n IH]; intros i Hi Hn; [lia|]. cbn [for_loop].
  destruct (flash_info !! Z.to_nat i) as [v|] eqn:Hv.
  - rewrite bool_decide_eq_false_2 by (by eapply (Forall_lookup_1 _ _ _ _ Hno)).
    apply lookup_lt_Some in Hv. rewrite (bind_ok _ _ w (Next tt) w) by done. apply IH; lia.
  - by rewrite (bind_err _ _ w UNDEFINED w). }
  apply Hl; [lia|]. destruct flash_info; [done|]. cbn [length]. lia.
Qed.
End AccessControl.

(** ** With the contract of the device *)

Section Device.
Context {D : Type} {SO : SpiOps D} {JO : JedecOps D} {JL : JedecLaws D}.
Implicit Types w : sf_world D.

(** Whatever the address, the size and the buffer, programming and erasing
for a client change only bytes that a root key of one of the client's
entries opens, also when they fail; reading changes nothing. *)
Theorem client_confined w buffer addr size client :
  confined client w (secureflash_secure_program buffer addr size client w).2 /\
  confined client w (secureflash_secure_erase addr size client w).2 /\
  quiet w (secureflash_secure_read buffer addr size client w).2.
Proof.
  split; [|split].
  - apply secure_program_confined.
  - apply secure_erase_confined.
  - apply secure_read_quiet.
Qed.

(** On a working device the first initialisation, and every later one of a
context that is initialised already, succeeds: the context then names the
table entry of the device and holds what was provisioned; the contents of
the device and the current client are unchanged. *)
Theorem init_succeeds w
  (Hd : dev_healthy (device w))
  (Hb : _is_initialized (secureflash w) = true -> booted w) :
  exists w', secureflash_init w = (Ok tt, w') /\ booted w' /\ same_mem w w' /\
  secureflash_app_id w' = secureflash_app_id w.
Proof.
  destruct (init_boots w Hd Hb) as ([] & w' & Hr & _ & Hb'). exists w'. split; [exact Hr|].
  pose proof (init_calm w) as [Hm Ha]. rewrite Hr in Hm, Ha. auto.
Qed.

(** *** The storage operations of etss_secureflash.c *)

Context (c : etss_flash_fs_config_t) (Hc : area_ok c).

(** C21: For a client that may access the area, a write into erased bytes
succeeds and a read of the range returns what was written, across any
number of program and read units; every other byte of the device is
unchanged. *)
Theorem secure_write_read w b buf off n
  (Hh : sf_healthy c w) (Hb : in_block c b off n)
  (Hl : n <= Z.of_nat (length buf)) (Hu : Forall is_u8 buf)
  (He : forall i, 0 <= i < n -> sf_image c w b (off + i) = erase_val c) :
  let '(st, w1) := etss_secureflash_write c b buf off n w in
  let '(st', bs, w2) := etss_secureflash_read c b off n w1 in
  st = PSA_SUCCESS /\ st' = PSA_SUCCESS /\ bs = take (Z.to_nat n) buf /\
  (forall a, ~ (phys c b off <= a < phys c b off + n) -> dimg (device w2) a = dimg (device w) a).
Proof.
  pose proof (sf_law_write c Hc b buf off n w Hb Hl Hu) as Hw. cbn in Hw.
  pose proof (etss_write_frame c Hc b buf off n w Hb Hl Hu) as Hfw.
  destruct (etss_secureflash_write c b buf off n w) as [st w1]. cbn [snd] in Hfw.
  destruct Hw as (k & _ & Hk & _ & Hval & Hh1). destruct (Hh1 Hh) as [Hst Hh1'].
  rewrite (Hk Hst) in Hval.
  pose proof (sf_law_read c Hc b off n w1 Hb) as Hr. cbn in Hr.
  pose proof (etss_read_frame c Hc b off n w1) as Hfr.
  destruct (etss_secureflash_read c b off n w1) as [[st' bs] w2]. cbn [snd] in Hfr.
  destruct Hr as (_ & Hbs & _ & _ & Hh2). destruct (Hh2 Hh1') as [Hst' _].
  split; [done|]. split; [done|]. split; [|intros a Ha; rewrite (Hfr a); by apply Hfw].
  rewrite (Hbs Hst'). destruct Hb as (_ & _ & Hn & _).
  rewrite <- (rd_of_bytes (sf_image c w1 b) off (take (Z.to_nat n) buf)); rewrite length_take.
  - f_equal. lia.
  - intros i Hi. rewrite nth_byte_take, Hval by (try apply He; lia). done.
Qed.
End Device.

(** ** Clients of the file system *)

Section Clients.
Context {D : Type} {SO : SpiOps D} {JO : JedecOps D} {JL : JedecLaws D} (client : Z).
Implicit Types s : fs_state (sf_world D).

(** C19: Isolation of clients.  Whatever a client asks of its file system, and
whatever the outcome (an error, a corrupted table, a full block), only
bytes in zones opened by the root key of a row of the client can change: the
first row of the provisioned table that names the client's application and
the zone looked up (any application for the partition's own requests). *)
Theorem requests_confined s (q : request) (Hid : secureflash_app_id (fs_env s) = client) :
  confined client (fs_env s) (fs_env (serve q s).2).
Proof.
  destruct q as [fid flgs mx n off data|fid|fid n off|fid|fid]; unfold serve.
  - pose proof (client_file_write client fid flgs mx n off data s Hid) as H.
    by destruct (etss_flash_fs_file_write _ _ _ _ _ _ s).
  - pose proof (client_file_delete client fid s Hid) as H. by destruct (etss_flash_fs_file_delete _ s).
  - pose proof (client_file_read client fid n off s Hid) as H. by destruct (etss_flash_fs_file_read _ _ _ s).
  - pose proof (client_file_get_info client fid s Hid) as H. by destruct (etss_flash_fs_file_get_info _ s).
  - pose proof (client_file_exist client fid s Hid) as H. by destruct (etss_flash_fs_file_exist _ s).
Qed.
End Clients.

(** ** Instances on the concrete device *)

Definition page : list Z := seqZ 0 100.

Lemma illegal_access_refused_witness :
    secureflash_secure_read page 16 100 2 warm = (Ok (Err SECUREFLASH_ERROR_ILLEGAL_ACCESS, page), warm) /\
    secureflash_secure_program page 16 100 2 warm = (Err SECUREFLASH_ERROR_ILLEGAL_ACCESS, warm).
Proof.
    assert (in_zones warm 16 100) as Hz.
    { exists sd_info. split; [vm_compute; reflexivity|vm_compute; discriminate]. }
    assert (no_entry warm 16 2) as Hn.
    { split; [vm_compute; discriminate|]. exists sd_info. split; [vm_compute; reflexivity|].
      assert (rows (app_info (secureflash warm)) = take 2 (app_data sd_apps)) as -> by (vm_compute; reflexivity).
      intros q [->|[->|[]%elem_of_nil]%elem_of_cons]%elem_of_cons.
      - right. vm_compute. split; discriminate.
      - left. vm_compute. discriminate. }
    destruct (illegal_access_refused warm 16 100 2 page eq_refl Hz Hn) as (H1 & H2 & _).
    exact (conj H1 H2).
Defined.

(** Initialised twice. *)
Definition warm2 : sf_world sdev := (secureflash_init warm).2.

Lemma uninit_revokes_all_witness :
    exists w', secureflash_uninit warm2 = (Ok tt, w') /\ _is_initialized (secureflash w') = true /\
      secureflash_secure_read page 0 100 1 w'
        = (Ok (Err SECUREFLASH_ERROR_ILLEGAL_ACCESS, page), w') /\
      secureflash_secure_program page 0 100 1 w' = (Err SECUREFLASH_ERROR_ILLEGAL_ACCESS, w').
Proof.
    assert (in_zones warm2 0 100) as Hz.
    { exists sd_info. split; [vm_compute; reflexivity|vm_compute; discriminate]. }
    refine (uninit_revokes_all warm2 0 100 1 page eq_refl _ eq_refl Hz).
    split; [vm_compute; discriminate|vm_compute; reflexivity].
Defined.

Lemma match_id_overruns_witness :
    secureflash_match_id [1; 2; 3; 4] cold = (Err UNDEFINED, cold).
Proof.
    apply match_id_overruns; [discriminate|]. repeat constructor; discriminate.
Defined.

Lemma init_succeeds_witness :
    exists w', secureflash_init cold = (Ok tt, w') /\ booted w' /\ same_mem cold w' /\
      secureflash_app_id w' = 0.
Proof. apply (init_succeeds cold); [exact I|discriminate]. Defined.

Lemma as_client_image client b o : sf_image (zone_cfg 0) (as_client client) b o = 255.
Proof. unfold sf_image. by case_bool_decide. Qed.

Lemma as_client1_healthy : sf_healthy (zone_cfg 0) (as_client 1).
Proof. split; [apply as_client_booted|apply zone0_client]. Qed.

Lemma page_u8 : Forall is_u8 page.
Proof.
    apply Forall_forall. intros x Hx. apply list_elem_of_lookup in Hx as [i Hi].
    apply lookup_seqZ in Hi. unfold is_u8. lia.
Qed.

(** A write across the program units of the device. *)
Lemma secure_write_read_witness :
    let '(st, w1) := etss_secureflash_write (zone_cfg 0) 2 page 60 100 (as_client 1) in
    let '(st', bs, w2) := etss_secureflash_read (zone_cfg 0) 2 60 100 w1 in
    st = PSA_SUCCESS /\ st' = PSA_SUCCESS /\ bs = take (Z.to_nat 100) page /\
    (forall a, ~ (phys (zone_cfg 0) 2 60 <= a < phys (zone_cfg 0) 2 60 + 100) ->
       dimg (device w2) a = dimg (device (as_client 1)) a).
Proof.
    assert (in_block (zone_cfg 0) 2 60 100) as Hb by (unfold in_block; cbn; lia).
    assert (100 <= Z.of_nat (length page)) as Hl by (vm_compute; discriminate).
    exact (secure_write_read (zone_cfg 0) zone0_ok (as_client 1) 2 page 60 100 as_client1_healthy Hb Hl
      page_u8 (fun i _ => as_client_image 1 2 (60 + i))).
Defined.

(** A file system of client 1 on the device. *)
Definition fs_client1 : fs_state (sf_world sdev) :=
    {| fs_ctx := {| cfg := zone_cfg 0; meta_block_header := dec_header []; active_metablock := 0;
                    scratch_metablock := 1 |};
       fs_env := as_client 1 |}.

Lemma requests_confined_witness :
    confined 1 (as_client 1) (fs_env (serve (RDelete [1]) fs_client1).2).
Proof. apply (requests_confined 1 fs_client1 (RDelete [1])). reflexivity. Defined.

(** The check of the client looks at the zone of the first address only,
    and an error in the middle of a request leaves the session open: a read
    of client 1 that starts in its zone and ends in the next one is admitted,
    fails in the device, and its session stays. *)
Theorem cross_zone_read_leaks_session :
    let '(r, w') := secureflash_secure_read (replicate 128 0) 4032 128 1 warm in
    (exists buf, r = Ok (Err SECUREFLASH_ERROR_SECURE_READ, buf)) /\
    sd_sessions (device warm) = ∅ /\ sd_sessions (device w') = {[ 1 := 10 ]}.
Proof. vm_compute. split; [eexists; reflexivity|]. split; reflexivity. Qed.

Lemma client_confined_witness :
    confined 1 warm (secureflash_secure_program page 60 100 1 warm).2 /\
    confined 1 warm (secureflash_secure_erase 0 256 1 warm).2 /\
    quiet warm (secureflash_secure_read page 60 100 1 warm).2.
Proof.
    destruct (client_confined warm page 60 100 1) as (H1 & _ & H3).
    destruct (client_confined warm page 0 256 1) as (_ & H2 & _).
    exact (conj H1 (conj H2 H3)).
Defined.
