(* ===== verification/PsaApi.v ===== *)
(** * The PSA firmware framework (psa/service.h)

    The messages and the calls by which the partitions receive and answer
    them.  The framework is not part of the program: its calls are the class
    [PsaOps], what the partitions rely on the class [PsaLaws]. *)
From Stdlib Require Import ZArith Lia.
From stdpp Require Import base list numbers options.
From S2P Require Import Prelude.

(** ** The PSA framework *)

(** The types of the framework, and those of a service's own calls. *)
Inductive msg_type : Type := PSA_IPC_CONNECT | PSA_IPC_CALL | PSA_IPC_DISCONNECT | PSA_IPC_OTHER (n : Z).

#[export] Instance msg_type_eq_dec : EqDecision msg_type.
Proof. solve_decision. Defined.

Record psa_msg_t : Type := {
  type : msg_type;
  handle : Z;
  client_id : Z;
  in_size : list Z;
  out_size : list Z
}.

Definition in_len (m : psa_msg_t) (i : nat) : Z := default 0 (in_size m !! i).
Definition out_len (m : psa_msg_t) (i : nat) : Z := default 0 (out_size m !! i).

(** The sizes of a message are size_t. *)
Definition msg_ok (m : psa_msg_t) : Prop := Forall (fun n => 0 <= n) (in_size m).

Lemma in_len_nonneg m i : msg_ok m -> 0 <= in_len m i.
Proof.
  intros H. unfold in_len. destruct (in_size m !! i) as [n|] eqn:E; cbn; [|lia].
  by eapply (Forall_lookup_1 _ _ _ _ H).
Qed.

(** [psa_panic()], which does not return; no C status. *)
Definition PANIC : Z := 4294967297.

(** [psa_read] returns the bytes it copied, [psa_get] a status and the message. *)
Class PsaOps (P : Type) := {
  psa_read : Z -> Z -> Z -> P -> list Z * P;    (* handle, vector, number of bytes *)
  psa_write : Z -> Z -> list Z -> P -> P;       (* handle, vector, bytes *)
  psa_get : Z -> P -> Z * psa_msg_t * P;
  psa_reply : Z -> Z -> P -> P;                 (* handle, status *)
  psa_wait : P -> Z * P
}.

(** ** What the services rely on

    [in_data p h i]: what is left to read of input vector [i] of the message
    [h]; [out_data p h i]: what was written to output vector [i];
    [replies p]: the replies sent, with their statuses. *)
Class PsaLaws (P : Type) {PO : PsaOps P} := {
  in_data : P -> Z -> Z -> list Z;
  out_data : P -> Z -> Z -> list Z;
  replies : P -> list (Z * Z);
  pl_in_u8 : forall p h i, Forall is_u8 (in_data p h i);
  pl_read : forall h i n p, let '(bs, p') := psa_read h i n p in
    bs = take (Z.to_nat n) (in_data p h i) /\
    in_data p' h i = drop (Z.to_nat n) (in_data p h i) /\
    (forall h' j, (h', j) <> (h, i) -> in_data p' h' j = in_data p h' j) /\
    (forall h' j, out_data p' h' j = out_data p h' j) /\ replies p' = replies p;
  pl_write : forall h i bs p, let p' := psa_write h i bs p in
    out_data p' h i = out_data p h i ++ bs /\
    (forall h' j, (h', j) <> (h, i) -> out_data p' h' j = out_data p h' j) /\
    (forall h' j, in_data p' h' j = in_data p h' j) /\ replies p' = replies p;
  pl_reply : forall h st p, let p' := psa_reply h st p in replies p' = replies p ++ [(h, st)] /\
    forall h' j, out_data p' h' j = out_data p h' j;
  pl_get : forall sig p, replies (psa_get sig p).2 = replies p;
  pl_sizes : forall sig p, (psa_get sig p).1.1 = PSA_SUCCESS -> msg_ok (psa_get sig p).1.2;
  pl_wait : forall p, replies (psa_wait p).2 = replies p
}.

(** ** The client side (psa/client.h)

    [psa_call]: given the handle, the type, the input vectors and the sizes of
    the output buffers it returns the status and what was written to the
    output vectors. *)
Class PsaCalls (C : Type) := {
  psa_call : Z -> Z -> list (list Z) -> list Z -> C -> Z * list (list Z) * C
}.

(** The type of a call to a service with connections, [PSA_IPC_CALL]. *)
Definition IPC_CALL : Z := 0.
