(* ===== verification/PsaSample.v ===== *)
(** * An executable PSA framework

    A framework that satisfies [PsaLaws], for the concrete instances of the
    theorems of the services. *)
From Stdlib Require Import ZArith Lia.
From stdpp Require Import base list numbers gmap options.
From S2P Require Import Prelude.
From S2P Require Import PsaApi.

(** Input vectors, output vectors, replies, and the messages to come, each
    with its signal and its input vectors. *)
Record pstate : Type := {
  ps_in : gmap (Z * Z) (list Z);
  ps_out : gmap (Z * Z) (list Z);
  ps_replies : list (Z * Z);
  ps_queue : list (Z * psa_msg_t * list (list Z))
}.

Definition ps_data (p : pstate) (h i : Z) : list Z := w8 <$> default [] (ps_in p !! (h, i)).

Fixpoint deliver (h i : Z) (vs : list (list Z)) (m : gmap (Z * Z) (list Z)) : gmap (Z * Z) (list Z) :=
  match vs with [] => m | v :: vs => deliver h (i + 1) vs (<[(h, i) := v]> m) end.

(** A message is as long as its vectors. *)
Definition sized (m : psa_msg_t) (vs : list (list Z)) : psa_msg_t :=
  {| type := type m; handle := handle m; client_id := client_id m;
     in_size := (fun v => Z.of_nat (length v)) <$> vs; out_size := out_size m |}.

#[export] Instance ps_ops : PsaOps pstate := {
  psa_read := fun h i n p =>
    (take (Z.to_nat n) (ps_data p h i),
     {| ps_in := <[(h, i) := drop (Z.to_nat n) (ps_data p h i)]> (ps_in p); ps_out := ps_out p;
        ps_replies := ps_replies p; ps_queue := ps_queue p |});
  psa_write := fun h i bs p =>
    {| ps_in := ps_in p; ps_out := <[(h, i) := default [] (ps_out p !! (h, i)) ++ bs]> (ps_out p);
       ps_replies := ps_replies p; ps_queue := ps_queue p |};
  psa_get := fun sig p =>
    match ps_queue p with
    | (sig', m, vs) :: q =>
        if sig =? sig' then
          (PSA_SUCCESS, sized m vs, {| ps_in := deliver (handle m) 0 vs (ps_in p); ps_out := ps_out p;
             ps_replies := ps_replies p; ps_queue := q |})
        else (PSA_ERROR_DOES_NOT_EXIST, m, p)
    | [] => (PSA_ERROR_DOES_NOT_EXIST,
        {| type := PSA_IPC_OTHER 0; handle := 0; client_id := 0; in_size := []; out_size := [] |}, p)
    end;
  psa_reply := fun h st p =>
    {| ps_in := ps_in p; ps_out := ps_out p; ps_replies := ps_replies p ++ [(h, st)];
       ps_queue := ps_queue p |};
  psa_wait := fun p => (match ps_queue p with (sig, _, _) :: _ => sig | [] => 0 end, p)
}.

Lemma w8_byte (l : list Z) : w8 <$> (w8 <$> l) = w8 <$> l.
Proof.
  rewrite <- list_fmap_compose. apply list_fmap_ext. intros i x _. unfold compose, w8.
  by rewrite Z.mod_mod by lia.
Qed.

#[export] Program Instance ps_laws : PsaLaws pstate := {
  in_data := ps_data;
  out_data := fun p h i => default [] (ps_out p !! (h, i));
  replies := ps_replies
}.
Next Obligation. intros p h i. apply Forall_fmap, Forall_forall. intros x _. apply w8_range. Qed.
Next Obligation.
  intros h i n p. cbn. split_and!; try done.
  - unfold ps_data at 1. cbn. rewrite lookup_insert_eq. cbn. unfold ps_data.
    by rewrite <- fmap_drop, w8_byte.
  - intros h' j Hn. unfold ps_data. cbn. by rewrite lookup_insert_ne.
Qed.
Next Obligation.
  intros h i bs p. cbn. split_and!; try done.
  - by rewrite lookup_insert_eq.
  - intros h' j Hn. by rewrite lookup_insert_ne.
Qed.
Next Obligation. by intros h st p; split. Qed.
Next Obligation. intros sig p. cbn. destruct (ps_queue p) as [|[[? ?] ?] ?]; [done|]. by case_match. Qed.
Next Obligation.
  intros sig p. cbn. destruct (ps_queue p) as [|[[? ?] vs] ?]; [done|]. case_match; [|done]. intros _.
  apply Forall_fmap, Forall_true. intros v. apply Nat2Z.is_nonneg.
Qed.
Next Obligation. done. Qed.

Definition no_msg : psa_msg_t :=
  {| type := PSA_IPC_OTHER 0; handle := 0; client_id := 0; in_size := []; out_size := [] |}.

(** No message has come yet. *)
Definition quiet : pstate := {| ps_in := ∅; ps_out := ∅; ps_replies := []; ps_queue := [] |}.
