(* ===== verification/EtssService.v ===== *)
(** * The external trusted secure storage service
    (external_trusted_secure_storage.c)

    The service with MULTI_CLIENT_ISOLATION and ETSS_CREATE_FLASH_LAYOUT on,
    the defaults of etss_config.cmake: one file system per client on the
    secure flash.  The values of secureflash_layout.h and of the build are the
    class [EtssConfig]; the PSA framework that carries the messages is the
    class [PsaOps] of PsaApi.v. *)
From Stdlib Require Import ZArith Lia.
From stdpp Require Import base list numbers gmap options.
From S2P Require Import Prelude.
From S2P Require Import EtssUtils.
From S2P Require Import FlashFsDefs.
From S2P Require Import Mblock.
From S2P Require Import Dblock.
From S2P Require Import FlashFs.
From S2P Require Import SpiNor.
From S2P Require Import SecureFlash.
From S2P Require Import PsaApi.

#[local] Set Default Proof Using "Type*".

(** ** Error codes (etss_defs.h) *)

Definition ETSS_SUCCESS : Z := 0.
Definition ETSS_ERR_PROGRAMMER_ERROR : Z := -129.
Definition ETSS_ERR_GENERIC_ERROR : Z := -132.
Definition ETSS_ERR_NOT_PERMITTED : Z := -133.
Definition ETSS_ERR_NOT_SUPPORTED : Z := -134.
Definition ETSS_ERR_INVALID_ARGUMENT : Z := -135.
Definition ETSS_ERR_DOES_NOT_EXIST : Z := -140.
Definition ETSS_ERR_STORAGE_FAILURE : Z := -146.
Definition ETSS_ERR_SF_UNPROVISIONED : Z := -158.
Definition ETSS_ERR_SF_INIT : Z := -159.
Definition ETSS_ERR_SF_PROVISION : Z := -160.
Definition ETSS_INVALID_UID : Z := 0.

(** psa/storage_common.h *)
Definition PSA_STORAGE_FLAG_WRITE_ONCE : Z := 1.
Definition PSA_STORAGE_FLAG_NO_CONFIDENTIALITY : Z := 2.
Definition PSA_STORAGE_FLAG_NO_REPLAY_PROTECTION : Z := 4.

Record psa_storage_info_t : Type := { p_capacity : Z; p_size : Z; p_flags : Z }.

(** ** The build and the flash layout *)

(** The macros SECURE_FLASH_CLIENTn_... of secureflash_layout.h. *)
Record client_layout : Type := {
  AREA_START_ADDR : Z;
  SECTORS_PER_BLOCK : Z;
  AREA_SIZE : Z;
  CLIENT_ID : Z
}.

(** [indeterminate n]: what the stack holds where the service declares a
    buffer of [n] bytes without initialising it. *)
Class EtssConfig := {
  ETSS_BUF_SIZE : Z;
  ETSS_MAX_ASSET_SIZE : Z;
  ETSS_NUM_ASSETS : Z;
  SECURE_FLASH_PROGRAM_UNIT : Z;
  SECURE_FLASH_SECTOR_SIZE : Z;
  SECURE_FLASH_ERASED_VALUE : Z;
  SECURE_FLASH_MAX_PUF_SIZE : Z;
  SECURE_FLASH_MAX_TRNG_SIZE : Z;
  SECURE_FLASH_MAX_MC_SIZE : Z;
  PROV_BLOB_LEN_MAX : Z;
  clients : list client_layout;
  indeterminate : Z -> list Z
}.

Definition ETSS_FLASH_ALIGNMENT `{EtssConfig} : Z := SECURE_FLASH_PROGRAM_UNIT.
Definition SECURE_FLASH_CLIENT_NUM `{EtssConfig} : nat := length clients.
Definition asset_data_size `{EtssConfig} : Z := ETSS_UTILS_ALIGN ETSS_BUF_SIZE ETSS_FLASH_ALIGNMENT.

(** ** The state: the static variables, the flash and the framework *)

Record etss_state (D P : Type) : Type := {
  asset_data : list Z;
  g_fid : list Z;
  g_file_info : etss_file_info_t;
  fs_cfg_etss : list etss_flash_fs_config_t;
  etss_fs_ctx_tbl : list (Z * etss_flash_fs_ctx_t);
  fs_ctx_etss_ptr : option nat;    (* the entry it points to *)
  flash : sf_world D;
  msg : psa_msg_t;
  psa : P
}.
Arguments asset_data {D P} _.
Arguments g_fid {D P} _.
Arguments g_file_info {D P} _.
Arguments fs_cfg_etss {D P} _.
Arguments etss_fs_ctx_tbl {D P} _.
Arguments fs_ctx_etss_ptr {D P} _.
Arguments flash {D P} _.
Arguments msg {D P} _.
Arguments psa {D P} _.

Section EtssService.
Context {D P : Type} {SO : SpiOps D} {JO : JedecOps D} {PO : PsaOps P} {CF : EtssConfig}.
Implicit Types s : etss_state D P.
Abbreviation ETSS := (ST (etss_state D P)).

(** *** Assignments *)

Definition set_asset_data (x : list Z) s : etss_state D P :=
  {| asset_data := x; g_fid := g_fid s; g_file_info := g_file_info s; fs_cfg_etss := fs_cfg_etss s;
     etss_fs_ctx_tbl := etss_fs_ctx_tbl s; fs_ctx_etss_ptr := fs_ctx_etss_ptr s; flash := flash s;
     msg := msg s; psa := psa s |}.
Definition set_g_fid (x : list Z) s : etss_state D P :=
  {| asset_data := asset_data s; g_fid := x; g_file_info := g_file_info s; fs_cfg_etss := fs_cfg_etss s;
     etss_fs_ctx_tbl := etss_fs_ctx_tbl s; fs_ctx_etss_ptr := fs_ctx_etss_ptr s; flash := flash s;
     msg := msg s; psa := psa s |}.
Definition set_g_file_info (x : etss_file_info_t) s : etss_state D P :=
  {| asset_data := asset_data s; g_fid := g_fid s; g_file_info := x; fs_cfg_etss := fs_cfg_etss s;
     etss_fs_ctx_tbl := etss_fs_ctx_tbl s; fs_ctx_etss_ptr := fs_ctx_etss_ptr s; flash := flash s;
     msg := msg s; psa := psa s |}.
Definition set_fs_cfg (x : list etss_flash_fs_config_t) s : etss_state D P :=
  {| asset_data := asset_data s; g_fid := g_fid s; g_file_info := g_file_info s; fs_cfg_etss := x;
     etss_fs_ctx_tbl := etss_fs_ctx_tbl s; fs_ctx_etss_ptr := fs_ctx_etss_ptr s; flash := flash s;
     msg := msg s; psa := psa s |}.
Definition set_ctx_tbl (x : list (Z * etss_flash_fs_ctx_t)) s : etss_state D P :=
  {| asset_data := asset_data s; g_fid := g_fid s; g_file_info := g_file_info s; fs_cfg_etss := fs_cfg_etss s;
     etss_fs_ctx_tbl := x; fs_ctx_etss_ptr := fs_ctx_etss_ptr s; flash := flash s;
     msg := msg s; psa := psa s |}.
Definition set_ctx_ptr (x : option nat) s : etss_state D P :=
  {| asset_data := asset_data s; g_fid := g_fid s; g_file_info := g_file_info s; fs_cfg_etss := fs_cfg_etss s;
     etss_fs_ctx_tbl := etss_fs_ctx_tbl s; fs_ctx_etss_ptr := x; flash := flash s;
     msg := msg s; psa := psa s |}.
Definition set_flash (x : sf_world D) s : etss_state D P :=
  {| asset_data := asset_data s; g_fid := g_fid s; g_file_info := g_file_info s; fs_cfg_etss := fs_cfg_etss s;
     etss_fs_ctx_tbl := etss_fs_ctx_tbl s; fs_ctx_etss_ptr := fs_ctx_etss_ptr s; flash := x;
     msg := msg s; psa := psa s |}.
Definition set_msg (x : psa_msg_t) s : etss_state D P :=
  {| asset_data := asset_data s; g_fid := g_fid s; g_file_info := g_file_info s; fs_cfg_etss := fs_cfg_etss s;
     etss_fs_ctx_tbl := etss_fs_ctx_tbl s; fs_ctx_etss_ptr := fs_ctx_etss_ptr s; flash := flash s;
     msg := x; psa := psa s |}.
Definition set_psa (x : P) s : etss_state D P :=
  {| asset_data := asset_data s; g_fid := g_fid s; g_file_info := g_file_info s; fs_cfg_etss := fs_cfg_etss s;
     etss_fs_ctx_tbl := etss_fs_ctx_tbl s; fs_ctx_etss_ptr := fs_ctx_etss_ptr s; flash := flash s;
     msg := msg s; psa := x |}.

(** A secure-flash function. *)
Definition on_flash {A} (m : ST (sf_world D) A) : ETSS A := fun s =>
  let '(r, w) := m (flash s) in (r, set_flash w s).

(** A call of the PSA framework. *)
Definition on_psa {A} (f : P -> A * P) : ETSS A := fun s =>
  let '(a, p) := f (psa s) in (Ok a, set_psa p s).

(** A file-system function on the context of entry [i] of the table. *)
Definition on_ctx {A} (i : nat) (m : FS (sf_world D) A) : ETSS A := fun s =>
  match etss_fs_ctx_tbl s !! i with
  | None => (Err UNDEFINED, s)
  | Some (id, x) =>
      let '(r, s') := m {| fs_ctx := x; fs_env := flash s |} in
      (r, set_ctx_tbl (<[i := (id, fs_ctx s')]> (etss_fs_ctx_tbl s)) (set_flash (fs_env s') s))
  end.

(** A file-system function on [fs_ctx_etss_ptr]. *)
Definition on_fs {A} (m : FS (sf_world D) A) : ETSS A := fun s =>
  match fs_ctx_etss_ptr s with
  | None => (Err UNDEFINED, s)
  | Some i => on_ctx i m s
  end.

(** [if (secureflash.flash_info.flash_profile->security_feature.f)] *)
Definition supports (f : security_feature_t -> bool) : ETSS bool :=
  v ← on_flash get_vendor; mret (f (security_feature v)).

(** *** The request manager's buffers (etss_req_mngr.c) *)

Definition etss_req_mngr_read (num_bytes : Z) : ETSS (list Z) :=
  s ← get; on_psa (psa_read (handle (msg s)) 1 num_bytes).

Definition etss_req_mngr_write (buf : list Z) (num_bytes : Z) : ETSS unit :=
  s ← get; on_psa (fun p => (tt, psa_write (handle (msg s)) 0 (take (Z.to_nat num_bytes) buf) p)).

(** *** Names of files *)

Definition enc64 (x : Z) : list Z := enc32 x ++ enc32 (x / 4294967296).

(** A negative [client_id] is stored in two's complement. *)
Definition etss_get_fid (client uid : Z) : list Z := enc32 (w32 client) ++ enc64 uid.

Fixpoint find_client (client : Z) (i : nat) (tbl : list (Z * etss_flash_fs_ctx_t)) : option nat :=
  match tbl with
  | [] => None
  | (c, _) :: tbl => if c =? client then Some i else find_client client (S i) tbl
  end.

Definition etss_get_fs_ctx (client : Z) : ETSS unit :=
  s ← get;
  match find_client client 0 (etss_fs_ctx_tbl s) with
  | Some i => modify (set_ctx_ptr (Some i))
  | None => raise ETSS_ERR_DOES_NOT_EXIST
  end.

(** *** Start-up *)

(** The common part of a client's configuration, and the client's own part;
    only the first four clients have one. *)
Definition common_cfg (c : etss_flash_fs_config_t) : etss_flash_fs_config_t :=
  {| flash_area_addr := flash_area_addr c; sector_size := SECURE_FLASH_SECTOR_SIZE;
     block_size := block_size c; num_blocks := num_blocks c;
     program_unit := w16 ETSS_FLASH_ALIGNMENT;
     max_file_size := w16 (ETSS_UTILS_ALIGN ETSS_MAX_ASSET_SIZE ETSS_FLASH_ALIGNMENT);
     max_num_files := w16 (ETSS_NUM_ASSETS + 1);
     erase_val := SECURE_FLASH_ERASED_VALUE |}.

Definition client_cfg (l : client_layout) (c : etss_flash_fs_config_t) : etss_flash_fs_config_t :=
  let block := mul32 (sector_size c) (SECTORS_PER_BLOCK l) in
  {| flash_area_addr := AREA_START_ADDR l; sector_size := sector_size c;
     block_size := block; num_blocks := w16 (AREA_SIZE l / block);
     program_unit := program_unit c; max_file_size := max_file_size c;
     max_num_files := max_num_files c; erase_val := erase_val c |}.

Definition zero_cfg : etss_flash_fs_config_t :=
  {| flash_area_addr := 0; sector_size := 0; block_size := 0; num_blocks := 0; program_unit := 0;
     max_file_size := 0; max_num_files := 0; erase_val := 0 |}.

Fixpoint client_cfgs (n : nat) (ls : list client_layout) : list etss_flash_fs_config_t :=
  match ls with
  | [] => []
  | l :: ls =>
      match n with
      | O => common_cfg zero_cfg :: client_cfgs O ls
      | S n => client_cfg l (common_cfg zero_cfg) :: client_cfgs n ls
      end
  end.

Fixpoint client_ids (n : nat) (ls : list client_layout) (tbl : list (Z * etss_flash_fs_ctx_t))
  : list (Z * etss_flash_fs_ctx_t) :=
  match n, ls, tbl with
  | S n, l :: ls, (_, x) :: tbl => (CLIENT_ID l, x) :: client_ids n ls tbl
  | _, _, _ => tbl
  end.

Definition init_fs_cfg : ETSS unit :=
  modify (set_fs_cfg (client_cfgs 4 clients));;
  modify (fun s => set_ctx_tbl (client_ids 4 clients (etss_fs_ctx_tbl s)) s).

(** [m] as a status, anything but success becoming a storage failure. *)
Definition etss_flash_fs_init_ctx_and_prepare (i : nat) (fs_cfg : option etss_flash_fs_config_t)
  : ETSS unit :=
  match etss_flash_fs_init_ctx fs_cfg with
  | Err _ => raise ETSS_ERR_STORAGE_FAILURE
  | Ok x =>
      modify (fun s => set_ctx_tbl
        (alter (fun e => (e.1, x)) i (etss_fs_ctx_tbl s)) s);;
      r ← attempt (on_ctx i etss_flash_fs_prepare);
      match r with
      | Ok _ => mret tt
      | Err _ =>
          on_ctx i etss_flash_fs_wipe_all;;
          or_return (on_ctx i etss_flash_fs_prepare) ETSS_ERR_STORAGE_FAILURE
      end
  end.

Definition etss_init : ETSS unit :=
  r ← attempt (on_flash secureflash_init);
  match r with
  | Err e =>
      raise (if e =? UNDEFINED then UNDEFINED
             else if (e =? SECUREFLASH_ERROR_GET_PROVISION_INFO) || (e =? SECUREFLASH_ERROR_SECURE_INIT)
             then ETSS_ERR_SF_UNPROVISIONED else ETSS_ERR_SF_INIT)
  | Ok _ =>
      b ← supports security_storage;
      if negb b then mret tt
      else
        init_fs_cfg;;
        for_acc SECURE_FLASH_CLIENT_NUM 0 tt (fun i _ =>
          s ← get;
          or_return (etss_flash_fs_init_ctx_and_prepare (Z.to_nat i) (fs_cfg_etss s !! Z.to_nat i))
            ETSS_ERR_STORAGE_FAILURE)
  end.

Definition etss_secure_flash_provisioning (client : Z) (prov_data : list Z) : ETSS unit :=
  st ← on_flash (secureflash_provision prov_data);
  if negb (st =? 0) then raise ETSS_ERR_SF_PROVISION else mret tt.

(** *** Storage *)

(** The common start of the four storage functions: the checks, the name of
    the file and the client's file system. *)
Definition storage_request (client uid : Z) (accepts : bool) : ETSS unit :=
  b ← supports security_storage;
  if negb b then raise ETSS_ERR_NOT_SUPPORTED
  else if uid =? ETSS_INVALID_UID then raise ETSS_ERR_INVALID_ARGUMENT
  else if negb accepts then raise ETSS_ERR_NOT_SUPPORTED
  else
    modify (set_g_fid (etss_get_fid client uid));;
    on_flash (etss_client_id_pass_on client);;
    or_return (etss_get_fs_ctx client) ETSS_ERR_NOT_PERMITTED.

Definition read_file_info : ETSS unit :=
  s ← get;
  i ← on_fs (etss_flash_fs_file_get_info (g_fid s));
  modify (set_g_file_info i).

(** [flags] without CREATE and TRUNCATE. *)
Definition keep_flags (flags : Z) : Z :=
  Z.ldiff flags (Z.lor ETSS_FLASH_FS_FLAG_CREATE ETSS_FLASH_FS_FLAG_TRUNCATE).

(** The [do ... while] loop of [etss_set]; every iteration but the last
    consumes a full buffer, so [data_length + 1] iterations are enough. *)
Fixpoint set_loop (fuel : nat) (flags data_length offset : Z) : ETSS unit :=
  match fuel with
  | O => raise UNDEFINED
  | S fuel =>
      let write_size := ETSS_UTILS_MIN data_length asset_data_size in
      bs ← etss_req_mngr_read write_size;
      modify (fun s => set_asset_data (put_bytes 0 bs (asset_data s)) s);;
      s ← get;
      on_fs (etss_flash_fs_file_write (g_fid s) flags data_length write_size offset (asset_data s));;
      let data_length := sub32 data_length write_size in
      if data_length >? 0
      then set_loop fuel (keep_flags flags) data_length (add32 offset write_size)
      else mret tt
  end.

Definition flags_supported (create_flags : Z) : bool :=
  Z.ldiff create_flags (Z.lor PSA_STORAGE_FLAG_WRITE_ONCE
    (Z.lor PSA_STORAGE_FLAG_NO_CONFIDENTIALITY PSA_STORAGE_FLAG_NO_REPLAY_PROTECTION)) =? 0.

Definition etss_set (client uid data_length create_flags : Z) : ETSS unit :=
  storage_request client uid (flags_supported create_flags);;
  r ← attempt read_file_info;
  s ← get;
  (match r with
   | Ok _ => if negb (Z.land (info_flags (g_file_info s)) PSA_STORAGE_FLAG_WRITE_ONCE =? 0)
             then raise ETSS_ERR_NOT_PERMITTED else mret tt
   | Err e => if negb (e =? PSA_ERROR_DOES_NOT_EXIST) then raise e else mret tt
   end);;
  set_loop (S (Z.to_nat data_length))
    (Z.lor create_flags (Z.lor ETSS_FLASH_FS_FLAG_CREATE ETSS_FLASH_FS_FLAG_TRUNCATE)) data_length 0.

(** The [do ... while] loop of [etss_get]. *)
Fixpoint get_loop (fuel : nat) (data_offset data_size : Z) : ETSS unit :=
  match fuel with
  | O => raise UNDEFINED
  | S fuel =>
      let read_size := ETSS_UTILS_MIN data_size asset_data_size in
      s ← get;
      bs ← on_fs (etss_flash_fs_file_read (g_fid s) read_size data_offset);
      modify (fun s => set_asset_data (put_bytes 0 bs (asset_data s)) s);;
      s ← get;
      etss_req_mngr_write (asset_data s) read_size;;
      let data_size := sub32 data_size read_size in
      if data_size >? 0 then get_loop fuel (add32 data_offset read_size) data_size else mret tt
  end.

(** The result is [*p_data_length]. *)
Definition etss_get (client uid data_offset data_size : Z) : ETSS Z :=
  storage_request client uid true;;
  read_file_info;;
  s ← get;
  if data_offset >? size_current (g_file_info s) then raise ETSS_ERR_INVALID_ARGUMENT
  else
    let data_size := ETSS_UTILS_MIN data_size (sub32 (size_current (g_file_info s)) data_offset) in
    get_loop (S (Z.to_nat data_size)) data_offset data_size;;
    mret data_size.

Definition etss_get_info (client uid : Z) : ETSS psa_storage_info_t :=
  storage_request client uid true;;
  read_file_info;;
  s ← get;
  mret {| p_capacity := size_current (g_file_info s); p_size := size_current (g_file_info s);
          p_flags := info_flags (g_file_info s) |}.

Definition etss_remove (client uid : Z) : ETSS unit :=
  storage_request client uid true;;
  read_file_info;;
  s ← get;
  if negb (Z.land (info_flags (g_file_info s)) PSA_STORAGE_FLAG_WRITE_ONCE =? 0)
  then raise ETSS_ERR_NOT_PERMITTED
  else on_fs (etss_flash_fs_file_delete (g_fid s)).

(** *** PUF, random numbers, monotonic counters

    The secure-flash functions behind them return success without setting
    their output parameters ([secureflash_get_puf] and the others), so the
    buffer and [actual_size] keep the indeterminate values of the stack. *)

Definition actual_size : Z := nth_byte (indeterminate 1) 0.

(** Sending from an array of the stack; more than the array has is an
    access outside it. *)
Definition send_array (array : list Z) (num_bytes : Z) : ETSS unit :=
  if num_bytes <=? Z.of_nat (length array) then etss_req_mngr_write array num_bytes else raise UNDEFINED.

Definition etss_get_puf (client buf_size : Z) : ETSS Z :=
  b ← supports puf;
  if negb b then raise ETSS_ERR_NOT_SUPPORTED
  else
    or_return (on_flash secureflash_get_puf) ETSS_ERR_STORAGE_FAILURE;;
    let buf_size := ETSS_UTILS_MIN buf_size actual_size in
    send_array (indeterminate SECURE_FLASH_MAX_PUF_SIZE) buf_size;;
    mret buf_size.

Fixpoint random_loop (fuel : nat) (buf_size random_len : Z) : ETSS Z :=
  if negb (buf_size >? 0) then mret random_len else
  match fuel with
  | O => raise UNDEFINED
  | S fuel =>
      or_return (on_flash secureflash_get_trng) ETSS_ERR_STORAGE_FAILURE;;
      let actual := w8 (ETSS_UTILS_MIN buf_size actual_size) in
      send_array (indeterminate SECURE_FLASH_MAX_TRNG_SIZE) actual;;
      random_loop fuel (sub32 buf_size actual) (add32 random_len actual)
  end.

Definition etss_generate_random_number (client buf_size : Z) : ETSS Z :=
  b ← supports rng;
  if negb b then raise ETSS_ERR_NOT_SUPPORTED else random_loop (Z.to_nat buf_size) buf_size 0.

Definition etss_mc_increment (client mc_id : Z) : ETSS unit :=
  b ← supports rpmc;
  if negb b then raise ETSS_ERR_NOT_SUPPORTED
  else or_return (on_flash (secureflash_increase_mc mc_id client)) ETSS_ERR_STORAGE_FAILURE.

Definition etss_mc_get (client mc_id size : Z) : ETSS unit :=
  b ← supports rpmc;
  if negb b then raise ETSS_ERR_NOT_SUPPORTED
  else
    or_return (on_flash (secureflash_get_mc mc_id client)) ETSS_ERR_STORAGE_FAILURE;;
    send_array (indeterminate SECURE_FLASH_MAX_MC_SIZE) (ETSS_UTILS_MIN size actual_size).
End EtssService.
