(* ===== verification/EtssReqMngr.v ===== *)
(** * The request manager of the secure storage service (etss_req_mngr.c)

    The entry points for the eight signals, the handling of one message, and
    the main loop as a number of rounds.  The signal masks are those of the
    generated psa_manifest/etss.h, a parameter. *)
From Stdlib Require Import ZArith Lia.
From stdpp Require Import base list numbers options.
From S2P Require Import Prelude.
From S2P Require Import EtssUtils.
From S2P Require Import FlashFsDefs.
From S2P Require Import SpiNor.
From S2P Require Import SecureFlash.
From S2P Require Import PsaApi.
From S2P Require Import EtssService.

#[local] Set Default Proof Using "Type*".

Class EtssManifest := {
  ETSS_SET_SIGNAL : Z;
  ETSS_GET_SIGNAL : Z;
  ETSS_GET_INFO_SIGNAL : Z;
  ETSS_REMOVE_SIGNAL : Z;
  ETSS_GET_PUF_SIGNAL : Z;
  ETSS_GENERATE_RANDOM_NUMBER_SIGNAL : Z;
  ETSS_MC_INCREMENT_SIGNAL : Z;
  ETSS_MC_GET_SIGNAL : Z;
  ETSS_SECURE_FLASH_PROVISIONING_SIGNAL : Z
}.

(** What [etss_req_mngr_init] goes on with after the start-up. *)
Inductive phase : Type := Serving | Provisioning | Reset.

Section ReqMngr.
Context {D P : Type} {SO : SpiOps D} {JO : JedecOps D} {PO : PsaOps P} {CF : EtssConfig}.
Context {MF : EtssManifest}.
Implicit Types s : etss_state D P.
Abbreviation ETSS := (ST (etss_state D P)).

(** [num = psa_read(msg.handle, idx, &x, n); if (num != n) return e;] *)
Definition read_arg (idx n : Z) : ETSS (list Z) :=
  s ← get;
  bs ← on_psa (psa_read (handle (msg s)) idx n);
  if negb (Z.of_nat (length bs) =? n) then raise ETSS_ERR_PROGRAMMER_ERROR else mret bs.

Definition get_msg : ETSS psa_msg_t := gets msg.

Definition dec64 (bs : list Z) : Z := dec32 bs 0 + 4294967296 * dec32 bs 4.

Definition etss_set_ipc : ETSS unit :=
  m ← get_msg;
  if negb (in_len m 0 =? 8) || negb (in_len m 2 =? 4) then raise ETSS_ERR_PROGRAMMER_ERROR
  else
    uid ← read_arg 0 8;
    create_flags ← read_arg 2 4;
    etss_set (client_id m) (dec64 uid) (in_len m 1) (dec32 create_flags 0).

Definition etss_get_ipc : ETSS unit :=
  m ← get_msg;
  if negb (in_len m 0 =? 8) || negb (in_len m 1 =? 4) then raise ETSS_ERR_PROGRAMMER_ERROR
  else
    uid ← read_arg 0 8;
    data_offset ← read_arg 1 4;
    etss_get (client_id m) (dec64 uid) (dec32 data_offset 0) (out_len m 0);;
    mret tt.

(** [psa_write] of the structure: three words. *)
Definition enc_info (i : psa_storage_info_t) : list Z :=
  enc32 (p_capacity i) ++ enc32 (p_size i) ++ enc32 (p_flags i).

Definition etss_get_info_ipc : ETSS unit :=
  m ← get_msg;
  if negb (in_len m 0 =? 8) || negb (out_len m 0 =? 12) then raise ETSS_ERR_PROGRAMMER_ERROR
  else
    uid ← read_arg 0 8;
    info ← etss_get_info (client_id m) (dec64 uid);
    on_psa (fun p => (tt, psa_write (handle m) 0 (enc_info info) p)).

Definition etss_remove_ipc : ETSS unit :=
  m ← get_msg;
  if negb (in_len m 0 =? 8) then raise ETSS_ERR_PROGRAMMER_ERROR
  else
    uid ← read_arg 0 8;
    etss_remove (client_id m) (dec64 uid).

Definition etss_get_puf_ipc : ETSS unit :=
  m ← get_msg; etss_get_puf (client_id m) (out_len m 0);; mret tt.

Definition etss_generate_random_number_ipc : ETSS unit :=
  m ← get_msg; etss_generate_random_number (client_id m) (out_len m 0);; mret tt.

Definition etss_mc_increment_ipc : ETSS unit :=
  m ← get_msg;
  mc_id ← read_arg 0 1;
  etss_mc_increment (client_id m) (nth_byte mc_id 0).

Definition etss_mc_get_ipc : ETSS unit :=
  m ← get_msg;
  mc_id ← read_arg 0 1;
  etss_mc_get (client_id m) (nth_byte mc_id 0) (out_len m 0).

Definition etss_secure_flash_provisioning_ipc : ETSS unit :=
  m ← get_msg;
  let data_length := in_len m 0 in
  if data_length >? PROV_BLOB_LEN_MAX then raise ETSS_ERR_GENERIC_ERROR
  else
    prov_data ← read_arg 0 data_length;
    etss_secure_flash_provisioning (client_id m) prov_data.

Definition reply (status : Z) : ETSS unit :=
  m ← get_msg; on_psa (fun p => (tt, psa_reply (handle m) status p)).

(** [status = pfn(); psa_reply(msg.handle, status);] *)
Definition call_and_reply (pfn : ETSS unit) : ETSS unit :=
  r ← attempt pfn;
  if status_of r =? UNDEFINED then raise UNDEFINED else reply (status_of r).

Definition etss_signal_handle (signal : Z) (pfn : ETSS unit) : ETSS unit :=
  '(status, m) ← on_psa (psa_get signal);
  if negb (status =? PSA_SUCCESS) then mret tt
  else
    modify (set_msg m);;
    match type m with
    | PSA_IPC_CONNECT => reply PSA_SUCCESS
    | PSA_IPC_CALL => call_and_reply pfn
    | PSA_IPC_DISCONNECT => reply PSA_SUCCESS
    | PSA_IPC_OTHER _ => raise PANIC
    end.

(** The [else if] chain of the main loop. *)
Definition handlers : list (Z * ETSS unit) :=
  [(ETSS_SET_SIGNAL, etss_set_ipc); (ETSS_GET_SIGNAL, etss_get_ipc);
   (ETSS_GET_INFO_SIGNAL, etss_get_info_ipc); (ETSS_REMOVE_SIGNAL, etss_remove_ipc);
   (ETSS_GET_PUF_SIGNAL, etss_get_puf_ipc);
   (ETSS_GENERATE_RANDOM_NUMBER_SIGNAL, etss_generate_random_number_ipc);
   (ETSS_MC_INCREMENT_SIGNAL, etss_mc_increment_ipc); (ETSS_MC_GET_SIGNAL, etss_mc_get_ipc)].

Fixpoint dispatch (signals : Z) (hs : list (Z * ETSS unit)) : ETSS unit :=
  match hs with
  | [] => raise PANIC
  | (sig, pfn) :: hs =>
      if negb (Z.land signals sig =? 0) then etss_signal_handle sig pfn else dispatch signals hs
  end.

(** One round of the main loop. *)
Definition serve_round : ETSS unit := signals ← on_psa psa_wait; dispatch signals handlers.

(** One round of the provisioning loop. *)
Definition provision_round : ETSS unit :=
  on_psa psa_wait;;
  '(_, m) ← on_psa (psa_get ETSS_SECURE_FLASH_PROVISIONING_SIGNAL);
  modify (set_msg m);;
  match type m with
  | PSA_IPC_CONNECT | PSA_IPC_DISCONNECT => reply PSA_SUCCESS
  | PSA_IPC_CALL => call_and_reply etss_secure_flash_provisioning_ipc
  | PSA_IPC_OTHER _ => mret tt
  end.

(** The start, ETSS_PROV_DEVELOPER_MODE off; the loop that follows runs for ever. *)
Definition etss_req_mngr_init : ETSS phase :=
  r ← attempt etss_init;
  match r with
  | Ok _ => mret Serving
  | Err e =>
      if e =? UNDEFINED then raise UNDEFINED
      else if e =? ETSS_ERR_SF_UNPROVISIONED then mret Provisioning else mret Reset
  end.

(** The first [n] rounds of the main loop. *)
Definition serve_rounds (n : nat) : ETSS unit := for_acc n 0 tt (fun _ _ => serve_round).
End ReqMngr.
