(* ===== verification/EtssApi.v ===== *)
(** * The client library of the secure storage service (etss_secure_api.c)

    One function per request of the service: it packs the arguments into
    vectors, connects, calls and closes the connection.  etss_ipc_api.c, the
    library of the non-secure side, has the same functions but the one for the
    PUF code.  A caller's buffer is the list of its bytes; the library passes
    on the size that the caller states, and the framework writes to the buffer
    whatever the status is. *)
From Stdlib Require Import ZArith Lia.
From stdpp Require Import base list numbers options.
From S2P Require Import Prelude.
From S2P Require Import EtssUtils.
From S2P Require Import FlashFsDefs.
From S2P Require Import PsaApi.
From S2P Require Import EtssService.

#[local] Set Default Proof Using "Type*".

(** The calls of psa/client.h for services with connections. *)
Class PsaSession (C : Type) := {
  session_calls :: PsaCalls C;
  psa_connect : Z -> Z -> C -> Z * C;     (* service identifier, version *)
  psa_close : Z -> C -> C;
  PSA_HANDLE_IS_VALID : Z -> bool
}.

(** The identifiers of the generated psa_manifest/sid.h. *)
Class EtssSids := {
  ETSS_SET_SID : Z;
  ETSS_SET_VERSION : Z;
  ETSS_GET_SID : Z;
  ETSS_GET_VERSION : Z;
  ETSS_GET_INFO_SID : Z;
  ETSS_GET_INFO_VERSION : Z;
  ETSS_REMOVE_SID : Z;
  ETSS_REMOVE_VERSION : Z;
  ETSS_GET_PUF_SID : Z;
  ETSS_GET_PUF_VERSION : Z;
  ETSS_GENERATE_RANDOM_NUMBER_SID : Z;
  ETSS_GENERATE_RANDOM_NUMBER_VERSION : Z;
  ETSS_MC_INCREMENT_SID : Z;
  ETSS_MC_INCREMENT_VERSION : Z;
  ETSS_MC_GET_SID : Z;
  ETSS_MC_GET_VERSION : Z;
  ETSS_SECURE_FLASH_PROVISIONING_SID : Z;
  ETSS_SECURE_FLASH_PROVISIONING_VERSION : Z
}.

Section Client.
Context {C : Type} {PC : PsaSession C} {SI : EtssSids}.
Abbreviation CL := (ST C).

(** What all functions do with their vectors: the status of the service and
    the contents of the output vectors. *)
Definition connect_and_call (sid version : Z) (in_vec : list (list Z)) (out_vec : list Z)
    : CL (Z * list (list Z)) :=
  handle ← on_call (psa_connect sid version);
  if negb (PSA_HANDLE_IS_VALID handle) then raise ETSS_ERR_GENERIC_ERROR
  else
    r ← on_call (psa_call handle IPC_CALL in_vec out_vec);
    modify (psa_close handle);;
    mret r.

(** The framework's writing to the one output buffer, and its [len] after it. *)
Definition fill (buf : list Z) (outs : list (list Z)) : CL (list Z * Z) :=
  let bs := default [] (outs !! 0%nat) in
  buf' ← memcpy buf 0 bs (Z.of_nat (length bs));
  mret (buf', Z.of_nat (length bs)).

Definition tfm_etss_secure_flash_provisioning (p_data : list Z) : CL unit :=
  '(status, _) ← connect_and_call ETSS_SECURE_FLASH_PROVISIONING_SID ETSS_SECURE_FLASH_PROVISIONING_VERSION
    [p_data] [];
  check status.

Definition tfm_etss_set (uid : Z) (p_data : list Z) (create_flags : Z) : CL unit :=
  '(status, _) ← connect_and_call ETSS_SET_SID ETSS_SET_VERSION
    [enc64 uid; p_data; enc32 create_flags] [];
  check status.

(** [p_data_length]: whether the pointer is not null.  The status, the buffer
    and the length. *)
Definition tfm_etss_get (uid data_offset data_size : Z) (p_data : list Z) (p_data_length : bool)
    : CL (Z * list Z * Z) :=
  if negb p_data_length then raise ETSS_ERR_INVALID_ARGUMENT
  else
    '(status, outs) ← connect_and_call ETSS_GET_SID ETSS_GET_VERSION
      [enc64 uid; enc32 data_offset] [data_size];
    '(buf, len) ← fill p_data outs;
    mret (status, buf, len).

(** [p_info] is the structure of three words. *)
Definition tfm_etss_get_info (uid : Z) (p_info : list Z) : CL (Z * list Z) :=
  '(status, outs) ← connect_and_call ETSS_GET_INFO_SID ETSS_GET_INFO_VERSION [enc64 uid] [12];
  '(info, _) ← fill p_info outs;
  mret (status, info).

Definition tfm_etss_remove (uid : Z) : CL unit :=
  '(status, _) ← connect_and_call ETSS_REMOVE_SID ETSS_REMOVE_VERSION [enc64 uid] [];
  check status.

Definition tfm_etss_get_puf (buf : list Z) (buf_size : Z) (puf_len : bool) : CL (Z * list Z * Z) :=
  if negb puf_len then raise ETSS_ERR_INVALID_ARGUMENT
  else
    '(status, outs) ← connect_and_call ETSS_GET_PUF_SID ETSS_GET_PUF_VERSION [] [buf_size];
    '(buf', len) ← fill buf outs;
    mret (status, buf', w32 len).

Definition tfm_etss_generate_random_number (buf : list Z) (buf_size : Z) : CL (Z * list Z) :=
  '(status, outs) ← connect_and_call ETSS_GENERATE_RANDOM_NUMBER_SID ETSS_GENERATE_RANDOM_NUMBER_VERSION
    [] [buf_size];
  '(buf', _) ← fill buf outs;
  mret (status, buf').

Definition tfm_etss_mc_increment (mc_id : Z) : CL unit :=
  '(status, _) ← connect_and_call ETSS_MC_INCREMENT_SID ETSS_MC_INCREMENT_VERSION [[w8 mc_id]] [];
  check status.

Definition tfm_etss_mc_get (mc_id : Z) (buf : list Z) (buf_size : Z) : CL (Z * list Z) :=
  '(status, outs) ← connect_and_call ETSS_MC_GET_SID ETSS_MC_GET_VERSION [[w8 mc_id]] [buf_size];
  '(buf', _) ← fill buf outs;
  mret (status, buf').
End Client.
