(* ===== verification/EtssSpec.v ===== *)
(** * The secure storage service: specifications

    What the storage functions do for one client whose file system is
    mounted, in terms of the finite map of the client's files.  The PSA
    framework is any one that satisfies [PsaLaws]. *)
From Stdlib Require Import ZArith Lia.
From stdpp Require Import base list numbers gmap options.
From S2P Require Import Prelude.
From S2P Require Import EtssUtils.
From S2P Require Import FlashFsDefs.
From S2P Require Import Mblock.
From S2P Require Import Dblock.
From S2P Require Import FlashFs.
From S2P Require Import MblockSpec.
From S2P Require Import FsReads.
From S2P Require Import FsTables.
From S2P Require Import FsUpdate.
From S2P Require Import FsDisk.
From S2P Require Import FsStage.
From S2P Require Import FsCommit.
From S2P Require Import FsRead.
From S2P Require Import FsStaged.
From S2P Require Import FsDelete.
From S2P Require Import FsWrite.
From S2P Require Import FsOps.
From S2P Require Import FsRefine.
From S2P Require Import SpiNor.
From S2P Require Import SecureFlash.
From S2P Require Import SecureFlashSpec.
From S2P Require Import SecureFlashFs.
From S2P Require Import SecureClients.
From S2P Require Import PsaApi.
From S2P Require Import EtssService.

#[local] Set Default Proof Using "Type*".

(** ** Names of files *)

Lemma fid_length client uid : length (etss_get_fid client uid) = 12%nat.
Proof. done. Qed.

Lemma dec_fid client uid : 0 <= uid < 18446744073709551616 ->
  dec32 (etss_get_fid client uid) 4 + 4294967296 * dec32 (etss_get_fid client uid) 8 = uid.
Proof.
  intros Hu. pose proof (dec_enc32 (w32 uid) [] (w32_range uid)) as H1.
  assert (enc32 (w32 uid) = enc32 uid) as Hw.
  { unfold enc32, w32, w8. f_equal; [|f_equal; [|f_equal; [|f_equal]]];
      Z.to_euclidean_division_equations; lia. }
  rewrite Hw in H1. pose proof (dec_enc32 (uid / 4294967296) []) as H2.
  rewrite app_nil_r in *. specialize (H2 ltac:(unfold is_u32; Z.to_euclidean_division_equations; lia)).
  transitivity (w32 uid + 4294967296 * (uid / 4294967296)); [|unfold w32; pose proof (Z.div_mod uid 4294967296); lia].
  f_equal; [exact H1|f_equal; exact H2].
Qed.

Lemma fid_valid client uid : 0 <= uid < 18446744073709551616 -> uid <> 0 ->
  fid_ok (etss_get_fid client uid).
Proof.
  intros Hu Hn. split; [done|]. split.
  - unfold etss_get_fid, enc64. rewrite !Forall_app. split_and!; apply enc32_u8.
  - apply validate_fid_success; [done|]. intros He. pose proof (dec_fid client uid Hu) as Hd.
    rewrite He in Hd. vm_compute in Hd. congruence.
Qed.

Lemma find_client_lookup client tbl i j : find_client client i tbl = Some j ->
  (i <= j)%nat /\ exists x, tbl !! (j - i)%nat = Some (client, x).
Proof.
  revert i. induction tbl as [|[c x] tbl IH]; intros i; simpl; [done|].
  destruct (Z.eqb_spec c client) as [->|].
  - intros [= ->]. split; [lia|]. rewrite Nat.sub_diag. by exists x.
  - intros H. apply IH in H as (Hl & y & Hy). split; [lia|]. exists y.
    replace (j - i)%nat with (S (j - S i)) by lia. done.
Qed.

(** Replacing the context of an entry keeps its place. *)
Lemma find_client_insert client tbl i k id x y : tbl !! k = Some (id, x) ->
  find_client client i (<[k := (id, y)]> tbl) = find_client client i tbl.
Proof.
  revert i k. induction tbl as [|[c z] tbl IH]; intros i k Hk; [done|].
  destruct k as [|k]; simpl in *; [by injection Hk as -> ->|]. by rewrite IH.
Qed.

(** Different owners or different identifiers have different files. *)
Lemma fid_inj c1 u1 c2 u2 :
  -2147483648 <= c1 < 2147483648 -> -2147483648 <= c2 < 2147483648 ->
  0 <= u1 < 18446744073709551616 -> 0 <= u2 < 18446744073709551616 ->
  etss_get_fid c1 u1 = etss_get_fid c2 u2 -> c1 = c2 /\ u1 = u2.
Proof.
  intros Hc1 Hc2 Hu1 Hu2 He. split.
  - assert (w32 c1 = w32 c2) as Hw.
    { rewrite <- (dec_enc32 (w32 c1) (enc64 u1)) by apply w32_range.
      rewrite <- (dec_enc32 (w32 c2) (enc64 u2)) by apply w32_range. by f_equal. }
    unfold w32 in Hw. Z.to_euclidean_division_equations. lia.
  - rewrite <- (dec_fid c1 u1), <- (dec_fid c2 u2) by done. by rewrite He.
Qed.

(** Prefixes of what an input vector holds. *)
Lemma take_app_drop (l : list Z) k n : 0 <= k <= n ->
  take (Z.to_nat k) l ++ take (Z.to_nat (n - k)) (drop (Z.to_nat k) l) = take (Z.to_nat n) l.
Proof.
  intros Hk. rewrite take_take_drop. f_equal. lia.
Qed.

Lemma take_drop_split (l : list Z) off k n : 0 <= off -> 0 <= k <= n ->
  take (Z.to_nat n) (drop (Z.to_nat off) l)
  = take (Z.to_nat k) (drop (Z.to_nat off) l)
    ++ take (Z.to_nat (n - k)) (drop (Z.to_nat (off + k)) l).
Proof.
  intros Ho Hk. replace (Z.to_nat (off + k)) with (Z.to_nat off + Z.to_nat k)%nat by lia.
  rewrite <- drop_drop. replace (Z.to_nat n) with (Z.to_nat k + Z.to_nat (n - k))%nat by lia.
  generalize (drop (Z.to_nat off) l). intros l'.
  by rewrite <- (take_take_drop l' (Z.to_nat k)).
Qed.

(** ** Flags and turns *)

(** The loop's body, as a command of its own. *)
Lemma wp_turn {S A B C} (m1 : ST S A) (m2 : A -> ST S unit) (m4 : S -> ST S B) (k : B -> ST S C) (s : S) Q :
  wp ((a ← m1; m2 a;; s ← get; m4 s) ≫= k) s Q ->
  wp (a ← m1; m2 a;; s ← get; m4 s ≫= k) s Q.
Proof.
  unfold wp, mbind, ST_bind, get. destruct (m1 s) as [[a|e] s1]; [|done].
  destruct (m2 a s1) as [[[]|e] s2]; [|done]. by destruct (m4 s2 s2) as [[b|e] s3].
Qed.

Lemma keep_flags_truncates flgs : truncates (keep_flags flgs) = false.
Proof.
  unfold truncates, keep_flags. replace (Z.land _ _) with 0; [done|].
  symmetry. apply Z.bits_inj'. intros j Hj. rewrite Z.bits_0, Z.land_spec, Z.ldiff_spec, Z.lor_spec.
  by destruct (Z.testbit flgs j), (Z.testbit ETSS_FLASH_FS_FLAG_CREATE j), (Z.testbit ETSS_FLASH_FS_FLAG_TRUNCATE j).
Qed.

Lemma ldiff_u32 a b : is_u32 a -> is_u32 (Z.ldiff a b).
Proof.
  intros Hu. replace (Z.ldiff a b) with (Z.land a (Z.ldiff a b)).
  - apply land_u32; [done|]. apply Z.ldiff_nonneg. left. apply Hu.
  - apply Z.bits_inj'. intros j Hj. rewrite Z.land_spec, Z.ldiff_spec.
    by destruct (Z.testbit a j), (Z.testbit b j).
Qed.

Lemma keep_flags_internal flgs : Z.land flgs ETSS_FLASH_FS_INTERNAL_FLAGS_MASK = 0 ->
  Z.land (keep_flags flgs) ETSS_FLASH_FS_INTERNAL_FLAGS_MASK = 0.
Proof.
  intros H. apply Z.bits_inj'. intros j Hj. pose proof (f_equal (fun z => Z.testbit z j) H) as Hb.
  cbv beta in Hb. unfold keep_flags. rewrite Z.land_spec, Z.ldiff_spec, Z.bits_0 in *.
  by destruct (Z.testbit flgs j), (Z.testbit ETSS_FLASH_FS_INTERNAL_FLAGS_MASK j),
    (Z.testbit (Z.lor ETSS_FLASH_FS_FLAG_CREATE ETSS_FLASH_FS_FLAG_TRUNCATE) j).
Qed.

Definition set_flags (create_flags : Z) : Z :=
  Z.lor create_flags (Z.lor ETSS_FLASH_FS_FLAG_CREATE ETSS_FLASH_FS_FLAG_TRUNCATE).

Lemma flags_supported_range cf : flags_supported cf = true -> 0 <= cf <= 7.
Proof. unfold flags_supported. rewrite Z.eqb_eq. by apply Z.ldiff_le. Qed.

Lemma set_flags_ok cf : flags_supported cf = true ->
  is_u32 (set_flags cf) /\ truncates (set_flags cf) = true /\
  Z.land (set_flags cf) ETSS_FLASH_FS_INTERNAL_FLAGS_MASK = 0 /\
  Z.land (set_flags cf) ETSS_FLASH_FS_FLAG_CREATE <> 0 /\
  Z.land (set_flags cf) ETSS_FLASH_FS_USER_FLAGS_MASK = cf.
Proof.
  intros H%flags_supported_range.
  assert (cf = 0 \/ cf = 1 \/ cf = 2 \/ cf = 3 \/ cf = 4 \/ cf = 5 \/ cf = 6 \/ cf = 7) as Hcf by lia.
  unfold is_u32. destruct_or!; subst; vm_compute; split_and!; (done || congruence).
Qed.

(** ** Contents and file systems

    What a mounted file system is depends on its context and the bytes of its
    area only. *)

Section Contents.
Context {D : Type} {SO : SpiOps D} {JO : JedecOps D} {JL : JedecLaws D}.
Context (c : etss_flash_fs_config_t) (Hc : cfg_ok c) (Ha : area_ok c).

Definition mounted_on mk x (w : sf_world D) : Prop :=
  usable (FL := image_laws c Ha) c mk {| fs_ctx := x; fs_env := w |}.

Lemma usable_on f mk x w :
  usable (FL := fenced_laws c Ha f) c mk {| fs_ctx := x; fs_env := w |} <-> mounted_on mk x w.
Proof using Type.
  destruct mk; split.
  1, 2: intros ([? ? ? ?] & _ & ?); split; [by split|done].
  all: by intros [[? ? ? ? ?] ?].
Qed.

Lemma mounted_on_same mk x w w' : same_image (sf_image c w) (sf_image c w') ->
  mounted_on mk x w -> mounted_on mk x w' /\
  disk_view c (sf_image c w') (active_metablock x) = disk_view c (sf_image c w) (active_metablock x).
Proof.
  intros Him Hs.
  exact (usable_nw (FL := image_laws c Ha) c Hc mk {| fs_ctx := x; fs_env := w |} {| fs_ctx := x; fs_env := w' |}
    (conj eq_refl (conj (fun b o _ => Him b o) (fun H => False_ind _ H))) Hs).
Qed.
End Contents.

(** ** One client *)

Section Client.
Context {D P : Type} {SO : SpiOps D} {JO : JedecOps D} {PO : PsaOps P} {CF : EtssConfig}.
Context {JL : JedecLaws D} {PL : PsaLaws P}.
Context (c : etss_flash_fs_config_t) (Hc : cfg_ok c) (Ha : area_ok c).
Context (client : Z) (Hal : allowed c client).
Context (Hfeat : security_storage (security_feature dev_info) = true).
Implicit Types s : etss_state D P.
Implicit Types x : etss_flash_fs_ctx_t.
Implicit Types i : nat.

(** [f] is what the device holds outside the client's area. *)
Context (f : Z -> Z).

#[local] Instance client_laws : FlashLaws (sf_world D) c := fenced_laws c Ha f.

(** The client's file system, with context [x], on the flash. *)
Definition fs_at x (w : sf_world D) : fs_state (sf_world D) := {| fs_ctx := x; fs_env := w |}.

(** Entry [i] of the table is the client's, with the mounted context [x];
    [mk] if its file system is marked by a refused replacement. *)
Record mounted_at (mk : bool) s (i : nat) x : Prop := {
  ma_find : find_client client 0 (etss_fs_ctx_tbl s) = Some i;
  ma_entry : etss_fs_ctx_tbl s !! i = Some (client, x);
  ma_boot : booted (flash s);
  ma_out : fence c f (flash s);
  ma_fs : usable c mk (fs_at x (flash s))
}.

(** The same, the client's request being served. *)
Record selected (mk : bool) s (i : nat) x : Prop := {
  se_ptr : fs_ctx_etss_ptr s = Some i;
  se_mounted : mounted_at mk s i x;
  se_client : secureflash_app_id (flash s) = client
}.

Definition files_at x (w : sf_world D) : gmap (list Z) afile := ready_view c (fs_at x w).

Lemma selected_ok {mk} s i x : selected mk s i x -> ok c (fs_at x (flash s)).
Proof.
  intros [_ [_ _ Hb Hf _] Hid]. split; [|exact Hf]. split; [exact Hb|]. unfold fs_at. cbn. by rewrite Hid.
Qed.

(** Nothing changed but the files. *)
Record same_vars s s' : Prop := {
  sv_data : asset_data s' = asset_data s;
  sv_fid : g_fid s' = g_fid s;
  sv_info : g_file_info s' = g_file_info s;
  sv_msg : msg s' = msg s;
  sv_psa : psa s' = psa s
}.

(** A mounted file system stays so while its bytes and its context do. *)
Lemma usable_same mk x (w w' : sf_world D) : same_image (sf_image c w) (sf_image c w') ->
  ok c (fs_at x w') -> usable c mk (fs_at x w) ->
  usable c mk (fs_at x w') /\ files_at x w' = files_at x w.
Proof.
  intros Hm Hok Hs.
  exact (usable_nw c Hc mk (fs_at x w) (fs_at x w')
    (conj eq_refl (conj (fun b o _ => Hm b o) (fun _ => Hok))) Hs).
Qed.

(** What a file-system function on entry [i] may change. *)
Record fs_step i s s' : Prop := {
  fst_vars : same_vars s s';
  fst_flash : confined client (flash s) (flash s');
  fst_tbl : forall j, j <> i -> etss_fs_ctx_tbl s' !! j = etss_fs_ctx_tbl s !! j
}.

(** Entry [i] of the table is the client's, with context [x]. *)
Record entry_at s (i : nat) x : Prop := {
  ea_ptr : fs_ctx_etss_ptr s = Some i;
  ea_find : find_client client 0 (etss_fs_ctx_tbl s) = Some i;
  ea_entry : etss_fs_ctx_tbl s !! i = Some (client, x)
}.

(** A file-system function, whatever it promises. *)
Lemma wp_on_fs_any {mk A} (m : FS (sf_world D) A) s i x (Q : outcome A -> fs_state (sf_world D) -> Prop) :
  selected mk s i x -> keeps (client_frame client) m -> wp m (fs_at x (flash s)) Q ->
  wp (on_fs m) s (fun r s' => exists x', entry_at s' i x' /\ fs_step i s s' /\
    Q r (fs_at x' (flash s'))).
Proof.
  intros [Hp [Hf He Hb Hfe Hs] Hid] Hk Hm. specialize (Hk (fs_at x (flash s)) Hid).
  unfold wp, on_fs in *. rewrite Hp. unfold on_ctx. rewrite He.
  unfold fs_at in *. destruct (m _) as [r [x' w']]. cbn [fst snd fs_ctx fs_env] in *.
  exists x'. split; [|split; [|exact Hm]].
  - split; [exact Hp|cbn; by rewrite (find_client_insert _ _ _ _ _ x)|].
    apply list_lookup_insert_eq. by apply lookup_lt_Some in He.
  - split; [by split|exact Hk|]. intros j Hj. cbn. by apply list_lookup_insert_ne.
Qed.

(** The entry after a function that leaves the file system ready. *)
Lemma entry_selected {mk mk'} s s' i x x' : selected mk s i x -> entry_at s' i x' -> fs_step i s s' ->
  ok c (fs_at x' (flash s')) -> usable c mk' (fs_at x' (flash s')) -> selected mk' s' i x'.
Proof.
  intros [_ _ Hid] [Hp Hf He] [_ (_ & Hid' & _) _] [[Hb _] Hfe] Hset.
  split; [done| |congruence]. by split.
Qed.

(** ** Requests *)

(** The state in which the client's request is served. *)
Definition served_state (uid : Z) i s : etss_state D P :=
  set_ctx_ptr (Some i) (set_flash {| secureflash := secureflash (flash s);
    secureflash_app_id := client; spi_nor := spi_nor (flash s) |} (set_g_fid (etss_get_fid client uid) s)).

Lemma supports_storage s : booted (flash s) -> supports security_storage s = (Ok true, s).
Proof using Hfeat.
  intros (_ & _ & Hv & _). unfold supports, mbind, ST_bind, on_flash.
  rewrite get_vendor_eq. unfold current_info. rewrite Hv. cbn. rewrite jl_info, Hfeat. by destruct s.
Qed.

Lemma storage_request_ok {mk} uid s i x : mounted_at mk s i x -> uid <> 0 ->
  storage_request client uid true s = (Ok tt, served_state uid i s) /\
  selected mk (served_state uid i s) i x.
Proof.
  intros [Hf He Hb Hfe Hs] Hu. split.
  - unfold storage_request, mbind, ST_bind. rewrite supports_storage by done. cbn [negb].
    rewrite (proj2 (Z.eqb_neq uid ETSS_INVALID_UID)) by exact Hu. cbn [negb modify].
    unfold on_flash. cbn. unfold or_return, etss_get_fs_ctx, get, modify, mbind, ST_bind. cbn.
    by rewrite Hf.
  - split; [done| |done]. split; [exact Hf|exact He|exact Hb|exact Hfe|].
    apply (usable_same mk x (flash s)); [done| |exact Hs]. split; [|exact Hfe]. split; [exact Hb|exact Hal].
Qed.

(** The files, and the free places, are as before. *)
Record unchanged x (w : sf_world D) x' (w' : sf_world D) : Prop := {
  un_upto : upto nowhere (fs_at x w) (fs_at x' w');
  un_files : files_at x' w' = files_at x w
}.

(** A read-only function on a working device returns what it promises. *)
Lemma wp_on_fs_read {mk A} (m : FS (sf_world D) A) s i x (spec : outcome A) :
  selected mk s i x -> keeps (client_frame client) m ->
  wp m (fs_at x (flash s)) (reads c (fs_at x (flash s)) spec) ->
  wp (on_fs m) s (fun r s' => r = spec /\ exists x', selected mk s' i x' /\ fs_step i s s' /\
    unchanged x (flash s) x' (flash s')).
Proof.
  intros Hs Hk Hm. pose proof (selected_ok s i x Hs) as Hok.
  eapply wp_mono; [exact (wp_on_fs_any m s i x _ Hs Hk Hm)|].
  intros r s' (x' & He & Hst & Hup & Hr).
  destruct (usable_nw c Hc mk _ _ Hup (ma_fs _ _ _ _ (se_mounted _ _ _ _ Hs))) as [Hset Hv].
  split; [destruct Hr as [Hr|[Hsick _]]; [exact Hr|by destruct Hsick]|]. exists x'.
  split; [|split; [exact Hst|by split]].
  apply (entry_selected s s' i x x' Hs He Hst); [exact (ok_upto c _ _ _ Hup Hok)|exact Hset].
Qed.

(** ** The storage functions *)

Lemma selected_ext {mk} s s' i x : fs_ctx_etss_ptr s' = fs_ctx_etss_ptr s ->
  etss_fs_ctx_tbl s' = etss_fs_ctx_tbl s -> flash s' = flash s -> selected mk s i x -> selected mk s' i x.
Proof.
  intros H1 H2 H3 [Hp [Hf He Hb Hfe Hs] Hid]. split; [by rewrite H1| |by rewrite H3].
  split; rewrite ?H2, ?H3; done.
Qed.

(** What a request may change besides its buffers. *)
Record op_step i s s' : Prop := {
  os_fid : g_fid s' = g_fid s;
  os_msg : msg s' = msg s;
  os_flash : confined client (flash s) (flash s');
  os_tbl : forall j, j <> i -> etss_fs_ctx_tbl s' !! j = etss_fs_ctx_tbl s !! j
}.

#[export] Instance op_step_pre i : PreOrder (op_step i).
Proof.
  split; [by intros s|]. intros s1 s2 s3 [H1 H2 H3 H4] [H5 H6 H7 H8].
  split; [congruence..|by etrans|]. intros j Hj. by rewrite H8, H4.
Qed.

Lemma fs_op_step i s s' : fs_step i s s' -> op_step i s s'.
Proof. intros [[H1 H2 H3 H4 H5] H6 H7]. by split. Qed.

Definition info_of (F : afile) : etss_file_info_t :=
  {| size_max := af_max F; size_current := Z.of_nat (length (af_data F));
     info_flags := Z.land (af_flags F) ETSS_FLASH_FS_USER_FLAGS_MASK |}.

Lemma wp_read_file_info {mk} s i x : selected mk s i x -> fid_ok (g_fid s) ->
  wp read_file_info s (fun r s' => exists x', selected mk s' i x' /\ op_step i s s' /\
    unchanged x (flash s) x' (flash s') /\ asset_data s' = asset_data s /\ psa s' = psa s /\
    match files_at x (flash s) !! g_fid s with
    | None => r = Err PSA_ERROR_DOES_NOT_EXIST
    | Some F => r = Ok tt /\ g_file_info s' = info_of F
    end).
Proof.
  intros Hs Hfid. unfold read_file_info. apply wp_bind. unfold wp at 1. cbn [get fst snd].
  apply wp_bind. eapply wp_mono.
  { apply (wp_on_fs_read _ s i x _ Hs (client_file_get_info client (g_fid s))
      (wp_file_get_info c Hc (g_fid s) _
        (usable_readable c _ _ (ma_fs _ _ _ _ (se_mounted _ _ _ _ Hs))) Hfid)). }
  intros r s1 (-> & x1 & Hs1 & Hst & Hv). unfold info_spec. fold (files_at x (flash s)).
  pose proof (fs_op_step _ _ _ Hst) as Ho. destruct Hst as [[H1 H2 H3 H4 H5] H6 H7].
  destruct (files_at x (flash s) !! g_fid s) as [F|].
  - apply wp_modify. exists x1. destruct Ho.
    split; [by apply (selected_ext s1)|]. by split_and!.
  - exists x1. by split_and!.
Qed.

(** *** Reading *)

Definition h_of s : Z := handle (msg s).

(** What was appended to output vector 0 of the message. *)
Definition answered s s' (bs : list Z) : Prop :=
  out_data (psa s') (h_of s) 0 = out_data (psa s) (h_of s) 0 ++ bs /\ replies (psa s') = replies (psa s).

Lemma req_mngr_write_spec buf n s : exists p,
  etss_req_mngr_write buf n s = (Ok tt, set_psa p s) /\
  answered s (set_psa p s) (take (Z.to_nat n) buf).
Proof using Type.
  pose proof (pl_write (handle (msg s)) 0 (take (Z.to_nat n) buf) (psa s)) as (H1 & _ & _ & H2).
  eexists. split; [reflexivity|]. by split.
Qed.

Lemma min_spec a b : ETSS_UTILS_MIN a b = Z.min a b.
Proof using Type. apply etss_min_spec. Qed.

Lemma answered_trans s1 s2 s3 a b :
  msg s2 = msg s1 -> answered s1 s2 a -> answered s2 s3 b -> answered s1 s3 (a ++ b).
Proof using Type.
  unfold answered, h_of. intros -> [H1 H2] [H3 H4]. by rewrite H3, H1, app_assoc, H4, H2.
Qed.

(** The transfer buffer has its declared size and holds bytes. *)
Definition bytes_ok s : Prop :=
  Z.of_nat (length (asset_data s)) = asset_data_size /\ Forall is_u8 (asset_data s).

Lemma wp_get_loop {mk} fuel off n s i x F :
  selected mk s i x -> fid_ok (g_fid s) -> files_at x (flash s) !! g_fid s = Some F ->
  0 <= off -> 0 <= n < Z.of_nat fuel -> off + n <= Z.of_nat (length (af_data F)) ->
  Z.of_nat (length (af_data F)) < 4294967296 -> 0 < asset_data_size ->
  bytes_ok s -> Forall is_u8 (af_data F) ->
  wp (get_loop fuel off n) s (fun r s' => r = Ok tt /\ exists x', selected mk s' i x' /\ op_step i s s' /\
    files_at x' (flash s') = files_at x (flash s) /\ bytes_ok s' /\
    answered s s' (take (Z.to_nat n) (drop (Z.to_nat off) (af_data F)))).
Proof.
  revert off n s x. induction fuel as [|fuel IH]; intros off n s x Hs Hfid HF Hoff Hn Hfit Hlen Hbuf [Had Hu8] HFu; [lia|].
  cbn [get_loop]. rewrite min_spec. set (k := Z.min n asset_data_size) in *.
  apply wp_bind. unfold wp at 1. cbn [get fst snd]. apply wp_bind. eapply wp_mono.
  { apply (wp_on_fs_read _ s i x (Ok (take (Z.to_nat k) (drop (Z.to_nat off) (af_data F)))) Hs
      (client_file_read client (g_fid s) k off)).
    pose proof (wp_file_read c Hc (g_fid s) k off _
      (usable_readable c _ _ (ma_fs _ _ _ _ (se_mounted _ _ _ _ Hs))) Hfid
      ltac:(unfold is_u32; lia) ltac:(unfold is_u32; lia)) as Hr.
    unfold read_spec in Hr. fold (files_at x (flash s)) in Hr. rewrite HF in Hr.
    destruct (Z.leb_spec (off + k) (Z.of_nat (length (af_data F)))); [exact Hr|lia]. }
  intros r s1 (-> & x1 & Hs1 & Hst & [_ Hv]). set (bs := take (Z.to_nat k) _).
  assert (length bs = Z.to_nat k) as Hbs by (unfold bs; rewrite length_take, length_drop; lia).
  apply wp_bind, wp_modify. set (s2 := set_asset_data _ s1).
  assert (selected mk s2 i x1) as Hs2 by (by apply (selected_ext s1)).
  apply wp_bind. unfold wp at 1. cbn [get fst snd].
  destruct (req_mngr_write_spec (asset_data s2) k s2) as (p & Hw & Hans).
  apply wp_bind. unfold wp at 1. rewrite Hw. cbn [fst snd]. set (s3 := set_psa p s2) in *.
  assert (selected mk s3 i x1) as Hs3 by (by apply (selected_ext s1)).
  destruct (Hst) as [[V1 V2 V3 V4 V5] V6 V7].
  assert (op_step i s s3) as Ho3 by (split; [exact V2|exact V4|exact V6|exact V7]).
  assert (bytes_ok s3) as Hl3.
  { unfold s3, s2, bytes_ok. cbn. rewrite put_bytes_length by (rewrite ?Hbs, ?V1; lia). rewrite V1.
    split; [done|]. apply put_bytes_Forall; [|done]. by apply Forall_take, Forall_drop. }
  assert (answered s s3 bs) as Ha3.
  { destruct Hans as [Ha1 Ha2]. unfold answered, h_of in *. cbn in Ha1, Ha2 |- *. rewrite V4, V5 in *.
    split; [|exact Ha2]. rewrite Ha1. f_equal.
    pose proof (put_bytes_take 0 bs (asset_data s1) ltac:(lia)) as Hp. rewrite Hbs in Hp. exact Hp. }
  rewrite sub32_small by lia. destruct (Z.gtb_spec (n - k) 0).
  - rewrite add32_small by lia. eapply wp_mono.
    { apply (IH (off + k) (n - k) s3 x1 Hs3); try lia.
      - exact (eq_ind_r fid_ok Hfid V2).
      - rewrite <- HF. change (flash s3) with (flash s1). change (g_fid s3) with (g_fid s1).
        by rewrite Hv, V2.
      - exact Hl3.
      - exact HFu. }
    intros r s' (-> & x' & Hs' & Ho' & Hv' & Hl' & Ha'). split; [done|]. exists x'.
    split; [exact Hs'|]. split; [by etrans|]. split; [exact (eq_trans Hv' Hv)|]. split; [exact Hl'|].
    rewrite (take_drop_split _ off k n) by lia.
    apply (answered_trans s s3); [exact V4|exact Ha3|exact Ha'].
  - apply wp_ret. split; [done|]. exists x1. split; [exact Hs3|]. split; [exact Ho3|].
    split; [exact Hv|]. split; [exact Hl3|]. replace n with k by lia. exact Ha3.
Qed.

(** What a whole request may change for others: bytes of the client's zones
    and the client's entry. *)
Record client_step i s s' : Prop := {
  cs_msg : msg s' = msg s;
  cs_sf : secureflash (flash s') = secureflash (flash s);
  cs_bytes : forall a, dimg (device (flash s')) a <> dimg (device (flash s)) a ->
    exists addr q, entry_for (flash s) addr client = Some q /\ granted (key_id q) a;
  cs_tbl : forall j, j <> i -> etss_fs_ctx_tbl s' !! j = etss_fs_ctx_tbl s !! j
}.

Lemma client_step_of uid i s s' : op_step i (served_state uid i s) s' -> client_step i s s'.
Proof. intros [H1 H2 (H3 & _ & H4) H5]. split; [exact H2|exact H3|exact H4|exact H5]. Qed.

(** The promise of [etss_get]: status and length, and the bytes sent. *)
Definition get_spec (v : gmap (list Z) afile) (fid : list Z) (off n : Z) : outcome Z * list Z :=
  match v !! fid with
  | None => (Err ETSS_ERR_DOES_NOT_EXIST, [])
  | Some F =>
      let len := Z.of_nat (length (af_data F)) in
      if off >? len then (Err ETSS_ERR_INVALID_ARGUMENT, [])
      else (Ok (Z.min n (len - off)), take (Z.to_nat n) (drop (Z.to_nat off) (af_data F)))
  end.

Definition uid_ok (uid : Z) : Prop := 0 < uid < 18446744073709551616.

Lemma answered_nil s s' : psa s' = psa s -> answered s s' [].
Proof using Type. intros H. unfold answered. by rewrite H, app_nil_r. Qed.

Lemma file_length_u32 {mk} s i x fid F : mounted_at mk s i x -> files_at x (flash s) !! fid = Some F ->
  Z.of_nat (length (af_data F)) < 4294967296.
Proof.
  intros [_ _ _ _ Hu] HF. destruct (readable_file c Hc _ _ _ (usable_readable c _ _ Hu) HF) as (m & (_ & _ & Hs & _) & -> & _).
  apply Hs.
Qed.

Lemma file_bytes {mk} s i x fid F : mounted_at mk s i x -> files_at x (flash s) !! fid = Some F -> Forall is_u8 (af_data F).
Proof.
  intros [_ _ _ _ Hu] HF. exact (readable_file_bytes c Hc _ _ _ (usable_readable c _ _ Hu) HF).
Qed.

Lemma wp_get {mk} uid off n s i x :
  mounted_at mk s i x -> uid_ok uid -> is_u32 off -> is_u32 n -> 0 < asset_data_size -> bytes_ok s ->
  wp (etss_get client uid off n) s (fun r s' =>
    let '(r', bs) := get_spec (files_at x (flash s)) (etss_get_fid client uid) off n in
    r = r' /\ exists x', selected mk s' i x' /\ client_step i s s' /\
    files_at x' (flash s') = files_at x (flash s) /\ bytes_ok s' /\ answered s s' bs).
Proof.
  intros Hm Hu Hoff Hn Hb0 Hb. set (fid := etss_get_fid client uid).
  destruct (storage_request_ok uid s i x Hm ltac:(unfold uid_ok in Hu; lia)) as [Hreq Hsel].
  set (s0 := served_state uid i s) in *.
  assert (fid_ok (g_fid s0)) as Hfid by (apply fid_valid; unfold uid_ok in Hu; lia).
  unfold etss_get. apply wp_bind. unfold wp at 1. rewrite Hreq. cbn [fst snd].
  apply wp_bind. eapply wp_mono; [exact (wp_read_file_info s0 i x Hsel Hfid)|].
  intros r s1 (x1 & Hs1 & Ho1 & [_ Hv1] & Hd1 & Hp1 & Hr). unfold get_spec.
  change (files_at x (flash s0)) with (files_at x (flash s)) in *. change (g_fid s0) with fid in *.
  destruct (files_at x (flash s) !! fid) as [F|] eqn:HF.
  2: { subst r. split; [done|]. exists x1. split; [exact Hs1|].
    split; [by eapply client_step_of|]. split; [exact Hv1|]. split; [unfold bytes_ok; by rewrite Hd1|].
    by apply answered_nil. }
  destruct Hr as [-> Hinfo]. apply wp_bind. unfold wp at 1. cbn [get fst snd].
  rewrite Hinfo. cbn [info_of size_current].
  pose proof (file_length_u32 _ _ _ _ _ Hm HF) as Hlen. unfold is_u32 in *.
  destruct (Z.gtb_spec off (Z.of_nat (length (af_data F)))) as [Hgt|Hle].
  - apply wp_raise. split; [done|]. exists x1. split; [exact Hs1|].
    split; [by eapply client_step_of|]. split; [exact Hv1|]. split; [unfold bytes_ok; by rewrite Hd1|].
    by apply answered_nil.
  - rewrite sub32_small, min_spec by lia. set (m := Z.min n _).
    assert (g_fid s1 = fid) as Hf1 by (rewrite (os_fid _ _ _ Ho1); done).
    apply wp_bind. eapply wp_mono.
    { apply (wp_get_loop _ off m s1 i x1 F Hs1); [by rewrite Hf1|by rewrite Hf1, Hv1|lia..|exact Hb0| |].
      - unfold bytes_ok. by rewrite Hd1.
      - by eapply file_bytes. }
    intros r s2 (-> & x2 & Hs2 & Ho2 & Hv2 & Hl2 & Ha2). apply wp_ret. split; [done|].
    exists x2. split; [exact Hs2|]. split; [eapply client_step_of; by etrans|].
    split; [by rewrite Hv2|]. split; [exact Hl2|].
    replace (take (Z.to_nat n) (drop (Z.to_nat off) (af_data F)))
      with (take (Z.to_nat m) (drop (Z.to_nat off) (af_data F))).
    + unfold answered, h_of in *. rewrite (os_msg _ _ _ Ho1), Hp1 in Ha2. exact Ha2.
    + destruct (Z.leb_spec n (Z.of_nat (length (af_data F)) - off)); [f_equal; lia|].
      rewrite !take_ge by (rewrite length_drop; lia). done.
Qed.
(** *** Writing *)

(** The flash is programmed in units of a power of two, of which the transfer
    buffer is a multiple. *)
Record transfer_ok : Prop := {
  to_unit : exists k, 0 <= k < 16 /\ program_unit c = 2 ^ k /\ asset_data_size mod 2 ^ k = 0;
  to_size : 0 < asset_data_size <= 4294901760
}.

(** [n] more bytes of the request's data were read. *)
Definition consumed s s' (n : Z) : Prop :=
  in_data (psa s') (h_of s) 1 = drop (Z.to_nat n) (in_data (psa s) (h_of s) 1) /\
  replies (psa s') = replies (psa s) /\
  (forall h j, out_data (psa s') h j = out_data (psa s) h j).

Lemma consumed_trans s1 s2 s3 a b : msg s2 = msg s1 -> 0 <= a -> 0 <= b ->
  consumed s1 s2 a -> consumed s2 s3 b -> consumed s1 s3 (a + b).
Proof.
  unfold consumed, h_of. intros -> Ha' Hb (H1 & H2 & H3) (H4 & H5 & H6).
  split_and!; [|congruence|intros; by rewrite H6, H3].
  rewrite H4, H1, drop_drop. f_equal. lia.
Qed.

(** One turn of the loop: a buffer full of the request's data. *)
Lemma receive_spec s n : bytes_ok s -> 0 <= n <= asset_data_size ->
  n <= Z.of_nat (length (in_data (psa s) (h_of s) 1)) ->
  exists s', (bs ← etss_req_mngr_read n;
      modify (fun s => set_asset_data (put_bytes 0 bs (asset_data s)) s)) s = (Ok tt, s') /\
    consumed s s' n /\ bytes_ok s' /\
    take (Z.to_nat n) (asset_data s') = take (Z.to_nat n) (in_data (psa s) (h_of s) 1) /\
    fs_ctx_etss_ptr s' = fs_ctx_etss_ptr s /\ etss_fs_ctx_tbl s' = etss_fs_ctx_tbl s /\
    flash s' = flash s /\ g_fid s' = g_fid s /\ msg s' = msg s.
Proof.
  intros [Hlen Hu8] Hn Hin. unfold etss_req_mngr_read, on_psa, get, modify, mbind, ST_bind. cbn.
  pose proof (pl_read (handle (msg s)) 1 n (psa s)) as Hr.
  destruct (psa_read (handle (msg s)) 1 n (psa s)) as [bs p]. destruct Hr as (-> & Hi & _ & Ho & Hrep).
  unfold h_of in *. set (l := in_data (psa s) (handle (msg s)) 1) in *.
  assert (length (take (Z.to_nat n) l) = Z.to_nat n) as Hl by (rewrite length_take; lia).
  eexists. split; [reflexivity|]. split; [by split_and!|].
  split; [split; cbn; [by rewrite put_bytes_length by lia|]|].
  - apply put_bytes_Forall; [|done]. apply Forall_take, pl_in_u8.
  - split; [|by split_and!]. cbn. pose proof (put_bytes_take 0 (take (Z.to_nat n) l) (asset_data s)) as Hp.
    rewrite Hl in Hp. apply Hp. lia.
Qed.
(** Writing on a working device: what the file system accepts is written,
    anything else is refused and the flash still holds the old files. *)
Lemma wp_on_fs_write s i x flgs mx n off : selected false s i x ->
  write_args c (g_fid s) flgs mx n off (asset_data s) ->
  (forall F, files_at x (flash s) !! g_fid s = Some F ->
    replaces c (files_at x (flash s)) (g_fid s) flgs mx = true -> 0 < af_max F) ->
  wp (on_fs (etss_flash_fs_file_write (g_fid s) flgs mx n off (asset_data s))) s (fun r s' =>
    fs_step i s s' /\
    match r with
    | Ok _ => accepted c (fs_at x (flash s)) (g_fid s) flgs mx n off /\
        exists x', selected false s' i x' /\
        files_at x' (flash s') = write_spec c (files_at x (flash s)) (g_fid s) flgs mx n off (asset_data s)
    | Err _ => ~ accepted c (fs_at x (flash s)) (g_fid s) flgs mx n off /\
        exists x', selected (replaces c (files_at x (flash s)) (g_fid s) flgs mx) s' i x' /\
        files_at x' (flash s') = files_at x (flash s)
    end).
Proof.
  intros Hs Hargs Hroom. pose proof (selected_ok s i x Hs) as Hok.
  pose proof (ma_fs _ _ _ _ (se_mounted _ _ _ _ Hs)) as Hset.
  eapply wp_mono.
  { refine (wp_on_fs_any _ s i x _ Hs (client_file_write client _ flgs mx n off _) _).
    exact (wp_file_write_usable c Hc _ (g_fid s) flgs mx n off (asset_data s) Hset Hargs Hroom). }
  intros r s' (x' & He & Hst & Hok' & Hr). split; [exact Hst|]. specialize (Hok' Hok).
  destruct r as [[]|e].
  - destruct Hr as (Hset' & Hacc & Hv). split; [exact Hacc|]. exists x'.
    split; [by eapply (entry_selected (mk' := false))|exact Hv].
  - destruct Hr as [Hsick|(Hno & Hu & Hv)]; [by destruct Hsick|]. split; [exact Hno|]. exists x'.
    split; [by eapply entry_selected|exact Hv].
Qed.
(** A whole turn: the data received, then the write.  [k] bytes of the
    request go to [off]. *)
Definition chunk (n : Z) : Z := Z.min n asset_data_size.

Lemma chunk_args n : transfer_ok -> 0 <= n ->
  0 <= chunk n <= n /\ chunk n <= asset_data_size /\
  chunk n <= ETSS_UTILS_ALIGN (chunk n) (program_unit c) <= asset_data_size.
Proof.
  intros [(k & Hk & -> & Hm) Hs] Hn. unfold chunk in *.
  assert (2 ^ k < 2 ^ 16) as Hlt by (apply Z.pow_lt_mono_r; lia). change (2 ^ 16) with 65536 in Hlt.
  split; [lia|]. split; [lia|]. apply align_bounds; lia.
Qed.

(** A full buffer is a number of program units. *)
Lemma chunk_full n : transfer_ok -> chunk n < n ->
  exists k, 0 <= k < 16 /\ program_unit c = 2 ^ k /\ chunk n mod 2 ^ k = 0.
Proof.
  intros [(k & Hk & Hp & Hm) Hs] Hn. exists k. split_and!; [lia..|done|].
  unfold chunk in *. by rewrite Z.min_r by lia.
Qed.

Lemma wp_chunk s i x flgs mx n off :
  transfer_ok -> selected false s i x -> bytes_ok s -> fid_ok (g_fid s) ->
  is_u32 flgs -> is_u32 mx -> is_u32 n -> is_u32 off ->
  n <= Z.of_nat (length (in_data (psa s) (h_of s) 1)) ->
  (forall F, files_at x (flash s) !! g_fid s = Some F ->
    replaces c (files_at x (flash s)) (g_fid s) flgs mx = true -> 0 < af_max F) ->
  wp (bs ← etss_req_mngr_read (chunk n);
      modify (fun s => set_asset_data (put_bytes 0 bs (asset_data s)) s);;
      s ← get;
      on_fs (etss_flash_fs_file_write (g_fid s) flgs mx (chunk n) off (asset_data s))) s (fun r s' =>
    op_step i s s' /\ consumed s s' (chunk n) /\ bytes_ok s' /\
    match r with
    | Ok _ => accepted c (fs_at x (flash s)) (g_fid s) flgs mx (chunk n) off /\
        exists x' data, selected false s' i x' /\
        asset_data_size <= Z.of_nat (length data) /\
        take (Z.to_nat (chunk n)) data = take (Z.to_nat (chunk n)) (in_data (psa s) (h_of s) 1) /\
        files_at x' (flash s') = write_spec c (files_at x (flash s)) (g_fid s) flgs mx (chunk n) off data
    | Err _ => ~ accepted c (fs_at x (flash s)) (g_fid s) flgs mx (chunk n) off /\
        exists x', selected (replaces c (files_at x (flash s)) (g_fid s) flgs mx) s' i x' /\
        files_at x' (flash s') = files_at x (flash s)
    end).
Proof.
  intros Ht Hs Hb Hfid Hfl Hmx Hn Hoff Hin Hroom. unfold is_u32 in *.
  pose proof (chunk_args n Ht ltac:(lia)) as (Hk & Hkb & Hal1).
  destruct (receive_spec s (chunk n) Hb ltac:(lia) ltac:(lia))
    as (s1 & Hrun & Hcons & Hb1 & Hdata & E1 & E2 & E3 & E4 & E5).
  apply wp_bind_assoc, wp_bind. unfold wp at 1. rewrite Hrun. cbn [fst snd].
  assert (selected false s1 i x) as Hs1 by (by apply (selected_ext s)).
  apply wp_bind. unfold wp at 1. cbn [get fst snd]. destruct Hb1 as [Hl1 Hu1].
  eapply wp_mono.
  { apply (wp_on_fs_write s1 i x flgs mx (chunk n) off Hs1).
    - split; rewrite ?E4; unfold is_u32; try lia; done.
    - by rewrite E3, E4. }
  intros r s2 [Hst Hr]. rewrite E3, E4 in Hr.
  assert (op_step i s s2) as Hop.
  { transitivity s1; [|by apply fs_op_step]. split; [done..|by rewrite E3|by intros; rewrite E2]. }
  destruct Hst as [[V1 V2 V3 V4 V5] _ _]. destruct Hcons as (C1 & C2 & C3).
  split; [exact Hop|]. split; [by unfold consumed, h_of in *; rewrite V5|].
  split; [unfold bytes_ok; by rewrite V1|].
  destruct r as [[]|e]; [|exact Hr]. destruct Hr as (Hacc & x' & Hs' & Hv). split; [exact Hacc|].
  exists x', (asset_data s1). split_and!; [done|lia|done|done].
Qed.
(** The turns after the first: the rest of the request is appended. *)
Lemma wp_set_more fuel flgs n off s i x F :
  transfer_ok -> selected false s i x -> bytes_ok s -> fid_ok (g_fid s) ->
  is_u32 flgs -> truncates flgs = false -> Z.land flgs ETSS_FLASH_FS_INTERNAL_FLAGS_MASK = 0 ->
  files_at x (flash s) !! g_fid s = Some F -> Z.of_nat (length (af_data F)) = off ->
  (forall k, program_unit c = 2 ^ k -> 0 <= k -> off mod 2 ^ k = 0) ->
  0 < n < Z.of_nat fuel -> n <= 4294901760 -> is_u32 (off + ETSS_UTILS_ALIGN n (program_unit c)) ->
  off + ETSS_UTILS_ALIGN n (program_unit c) <= af_max F ->
  n <= Z.of_nat (length (in_data (psa s) (h_of s) 1)) ->
  wp (set_loop fuel flgs n off) s (fun r s' => r = Ok tt /\ exists x', selected false s' i x' /\
    op_step i s s' /\ bytes_ok s' /\ consumed s s' n /\
    files_at x' (flash s') = <[g_fid s := {|
      af_data := af_data F ++ take (Z.to_nat n) (in_data (psa s) (h_of s) 1);
      af_max := af_max F; af_flags := af_flags F |}]> (files_at x (flash s))).
Proof.
  intros Ht. revert flgs n off s x F.
  induction fuel as [|fuel IH];
    intros flgs n off s x F Hs Hb Hfid Hfl Htr Hint HF Hlen Hoff Hn Hn32 Hu Hmax Hin; [lia|].
  cbn [set_loop]. rewrite min_spec. fold (chunk n). pose proof (chunk_args n Ht ltac:(lia)) as (Hk & Hkb & Hkal).
  destruct (Ht) as [(k & Hk16 & Hpu & Hbm) HB].
  assert (2 ^ k < 2 ^ 16) as Hlt by (apply Z.pow_lt_mono_r; lia). change (2 ^ 16) with 65536 in Hlt.
  assert (0 < 2 ^ k) as Hp0 by lia.
  assert (chunk n <= n /\ 0 < chunk n) as [Hcn Hc0] by (unfold chunk; lia).
  assert (n <= ETSS_UTILS_ALIGN n (program_unit c)) as Hna by (rewrite Hpu; apply align_ge; lia).
  assert (ETSS_UTILS_ALIGN (chunk n) (program_unit c) <= ETSS_UTILS_ALIGN n (program_unit c)) as Hca.
  { rewrite Hpu in *. destruct (Z.leb_spec n asset_data_size).
    - unfold chunk. rewrite Z.min_l by lia. lia.
    - unfold chunk in *. rewrite Z.min_r in * by lia. lia. }
  unfold is_u32 in Hu.
  set (v := files_at x (flash s)) in *. set (fid := g_fid s) in *.
  assert (forall mx, write_base c v fid flgs mx = (af_data F, af_max F, af_flags F)) as Hbase.
  { intros mx. unfold write_base. by rewrite HF, Htr. }
  assert (forall mx, replaces c v fid flgs mx = false) as Hrep.
  { intros mx. unfold replaces. by rewrite HF, Htr. }
  apply wp_turn. eapply wp_seq.
  { apply (wp_chunk s i x flgs n n off Ht Hs Hb Hfid Hfl); unfold is_u32; try lia.
    intros G _. fold v fid. by rewrite Hrep. }
  - intros e s1 (_ & _ & _ & Hno & _). exfalso. apply Hno. clear Hno.
    unfold accepted. change (ready_view c (fs_at x (flash s))) with v. fold fid.
    split; [exact Hint|]. split; [by rewrite HF|]. split.
    + unfold creates. by rewrite HF, Hrep.
    + intros _. rewrite Hbase. cbn [fst snd]. split; [|split; [lia|lia]].
      rewrite Hpu. apply is_aligned_pow2; [lia|]. apply Hoff; [exact Hpu|lia].
  - intros [] s1 (Ho1 & Hc1 & Hb1 & _ & x1 & data & Hs1 & Hdl & Hdata & Hv1).
    fold fid in Hv1. fold v in Hv1. unfold write_spec in Hv1. rewrite Hbase in Hv1.
    rewrite written_to_end, take_ge in Hv1 by lia. rewrite Hdata in Hv1.
    set (l := in_data (psa s) (h_of s) 1) in *. set (F1 := {| af_data := _ |}) in Hv1.
    rewrite sub32_small by lia. destruct (Z.gtb_spec (n - chunk n) 0) as [Hmore|Hdone].
    + rewrite add32_small by lia.
      assert (chunk n mod 2 ^ k = 0) as Hcm by (unfold chunk in *; by rewrite Z.min_r by lia).
      assert (ETSS_UTILS_ALIGN n (program_unit c) = chunk n + ETSS_UTILS_ALIGN (n - chunk n) (program_unit c)) as Hsplit.
      { rewrite Hpu. rewrite <- align_add by lia. f_equal. lia. }
      assert (Z.of_nat (length (af_data F1)) = off + chunk n) as HF1.
      { cbn. rewrite length_app, length_take. lia. }
      pose proof (os_fid _ _ _ Ho1) as Hfd.
      assert (in_data (psa s1) (h_of s1) 1 = drop (Z.to_nat (chunk n)) l) as Hin1.
      { unfold h_of. rewrite (os_msg _ _ _ Ho1). apply Hc1. }
      eapply wp_mono.
      { apply (IH (keep_flags flgs) (n - chunk n) (off + chunk n) s1 x1 F1); unfold is_u32; try lia.
        - exact Hs1.
        - exact Hb1.
        - by rewrite Hfd.
        - apply ldiff_u32, Hfl.
        - apply keep_flags_truncates.
        - by apply keep_flags_internal.
        - rewrite Hv1, Hfd. apply lookup_insert_eq.
        - intros j Hj Hj0. assert (j = k) as -> by (apply (Z.pow_inj_r 2); lia).
          rewrite Z.add_mod, Hoff, Hcm by lia. by rewrite Z.mod_0_l by lia.
        - cbn. lia.
        - rewrite Hin1, length_drop. lia. }
      intros r s2 (-> & x2 & Hs2 & Ho2 & Hb2 & Hc2 & Hv2). split; [done|]. exists x2.
      split; [exact Hs2|]. split; [by etrans|]. split; [exact Hb2|]. split.
      * replace n with (chunk n + (n - chunk n)) by lia.
        apply (consumed_trans s s1); [exact (os_msg _ _ _ Ho1)|lia..|exact Hc1|exact Hc2].
      * rewrite Hv2, Hv1, Hfd, insert_insert_eq, Hin1. cbn. by rewrite <- app_assoc, take_app_drop by lia.
    + apply wp_ret. split; [done|]. exists x1. replace n with (chunk n) by lia. by split_and!.
Qed.
(** The file a request makes, and when the file system has a place for it. *)
Definition stored (n create_flags : Z) (data : list Z) : afile :=
  {| af_data := take (Z.to_nat n) data; af_max := ETSS_UTILS_ALIGN n (program_unit c);
     af_flags := set_flags create_flags |}.

Definition has_place x (w : sf_world D) (fid : list Z) (flgs n : Z) : Prop :=
  creates c (files_at x w) fid flgs n = true ->
  ETSS_UTILS_ALIGN n (program_unit c) <= max_file_size c /\
  (exists l, find_room c (fs_at x w) (ETSS_UTILS_ALIGN n (program_unit c)) = Some l) /\
  (exists e, find_free c (fs_at x w) (replaces c (files_at x w) fid flgs n) = Some e).

Lemma no_place_creates x (w : sf_world D) fid flgs n :
  ~ has_place x w fid flgs n -> creates c (files_at x w) fid flgs n = true.
Proof using Type. intros Hno. apply not_false_is_true. intros Hcr. apply Hno. unfold has_place. by rewrite Hcr. Qed.

Lemma accepted_place s x fid flgs n m :
  Z.land flgs ETSS_FLASH_FS_INTERNAL_FLAGS_MASK = 0 -> Z.land flgs ETSS_FLASH_FS_FLAG_CREATE <> 0 ->
  truncates flgs = true ->
  ETSS_UTILS_ALIGN m (program_unit c) <= ETSS_UTILS_ALIGN n (program_unit c) ->
  accepted c (fs_at x (flash s)) fid flgs n m 0 <-> has_place x (flash s) fid flgs n.
Proof using Type.
  intros Hint Hcr Htr Hal'. unfold accepted, acceptable, has_place, files_at.
  split; [by intros (_ & _ & H & _)|]. intros H. split_and!; [done|done|exact H|].
  intros _. assert (write_base c (ready_view c (fs_at x (flash s))) fid flgs n
    = ([], ETSS_UTILS_ALIGN n (program_unit c), flgs)) as ->.
  { unfold write_base. rewrite Htr. by destruct (_ !! fid). }
  cbn [fst snd length]. unfold ETSS_UTILS_IS_ALIGNED. by split_and!.
Qed.

Lemma align_chunk n : transfer_ok -> 0 <= n <= 4294901760 ->
  ETSS_UTILS_ALIGN (chunk n) (program_unit c) <= ETSS_UTILS_ALIGN n (program_unit c) /\
  n <= ETSS_UTILS_ALIGN n (program_unit c).
Proof.
  intros Ht Hn. pose proof (chunk_args n Ht ltac:(lia)) as (Hk & Hkb & Hkal).
  destruct (Ht) as [(k & Hk16 & Hpu & Hbm) HB].
  assert (2 ^ k < 2 ^ 16) as Hlt by (apply Z.pow_lt_mono_r; lia). change (2 ^ 16) with 65536 in Hlt.
  assert (n <= ETSS_UTILS_ALIGN n (program_unit c)) as Hna by (rewrite Hpu; apply align_ge; lia).
  split; [|done]. destruct (Z.leb_spec n asset_data_size).
  - unfold chunk. by rewrite Z.min_l by lia.
  - unfold chunk in *. rewrite Z.min_r in * by lia. lia.
Qed.
(** The result of writing a file. *)
Definition set_post s i x (flgs n : Z) (F : afile) (r : outcome unit) (s' : etss_state D P) : Prop :=
  bytes_ok s' /\ replies (psa s') = replies (psa s) /\
  match r with
  | Ok _ => has_place x (flash s) (g_fid s) flgs n /\ exists x', selected false s' i x' /\
      files_at x' (flash s') = <[g_fid s := F]> (files_at x (flash s))
  | Err _ => ~ has_place x (flash s) (g_fid s) flgs n /\ exists x',
      selected (replaces c (files_at x (flash s)) (g_fid s) flgs n) s' i x' /\
      files_at x' (flash s') = files_at x (flash s)
  end.

Lemma wp_set_loop cf n s i x :
  transfer_ok -> selected false s i x -> bytes_ok s -> fid_ok (g_fid s) -> flags_supported cf = true ->
  0 <= n <= 4294901760 -> n <= Z.of_nat (length (in_data (psa s) (h_of s) 1)) ->
  (forall F, files_at x (flash s) !! g_fid s = Some F ->
    replaces c (files_at x (flash s)) (g_fid s) (set_flags cf) n = true -> 0 < af_max F) ->
  wp (set_loop (S (Z.to_nat n)) (set_flags cf) n 0) s (fun r s' => op_step i s s' /\
    set_post s i x (set_flags cf) n (stored n cf (in_data (psa s) (h_of s) 1)) r s').
Proof.
  intros Ht Hs Hb Hfid Hcf Hn Hin Hpos.
  destruct (set_flags_ok cf Hcf) as (Hfl & Htr & Hint & Hcr & _).
  pose proof (chunk_args n Ht ltac:(lia)) as (Hk & Hkb & Hkal). destruct (align_chunk n Ht ltac:(lia)) as [Hca Hna].
  pose proof (accepted_place s x (g_fid s) (set_flags cf) n (chunk n) Hint Hcr Htr Hca) as Hacc.
  pose proof (align_u32 n (program_unit c)) as Hau. cbn [set_loop]. rewrite min_spec. fold (chunk n).
  set (v := files_at x (flash s)) in *. set (fid := g_fid s) in *. set (fl := set_flags cf) in *.
  set (l := in_data (psa s) (h_of s) 1) in *.
  assert (write_base c v fid fl n = ([], ETSS_UTILS_ALIGN n (program_unit c), fl)) as Hbase.
  { unfold write_base. rewrite Htr. by destruct (v !! fid). }
  apply wp_turn. eapply wp_seq.
  { apply (wp_chunk s i x fl n n 0 Ht Hs Hb Hfid Hfl); unfold is_u32; try lia; [exact Hin|].
    exact Hpos. }
  - intros e s1 (Ho & (_ & Hrep & _) & Hb1 & Hno & Hx). split; [exact Ho|].
    split; [exact Hb1|]. split; [exact Hrep|]. split; [|exact Hx].
    exact (fun H => Hno (proj2 Hacc H)).
  - intros [] s1 (Ho1 & Hc1 & Hb1 & Hyes & x1 & data & Hs1 & Hdl & Hdata & Hv1).
    apply Hacc in Hyes. fold fid v in Hv1. unfold write_spec in Hv1. rewrite Hbase in Hv1.
    set (F1 := {| af_data := _ |}) in Hv1.
    assert (af_data F1 = take (Z.to_nat (chunk n)) l) as HF1.
    { cbn. destruct (Z.eq_dec (chunk n) 0) as [Hz|Hz].
      - unfold written. by rewrite Hz.
      - rewrite written_to_end by (cbn; lia). by rewrite Hdata, take_nil. }
    rewrite sub32_small by (unfold is_u32; lia).
    destruct (Z.gtb_spec (n - chunk n) 0) as [Hmore|Hdone].
    + destruct (chunk_full n Ht ltac:(lia)) as (k & Hk16 & Hpu & Hcm).
      assert (2 ^ k < 2 ^ 16) as Hlt by (apply Z.pow_lt_mono_r; lia). change (2 ^ 16) with 65536 in Hlt.
      assert (ETSS_UTILS_ALIGN n (program_unit c) = chunk n + ETSS_UTILS_ALIGN (n - chunk n) (program_unit c)) as Hsplit.
      { rewrite Hpu. rewrite <- align_add by lia. f_equal. lia. }
      rewrite add32_small by lia. rewrite Z.add_0_l.
      assert (0 < chunk n) as Hc0 by (destruct Ht as [_ HB]; unfold chunk in *; lia).
      pose proof (os_fid _ _ _ Ho1 : g_fid s1 = fid) as Hfd.
      assert (in_data (psa s1) (h_of s1) 1 = drop (Z.to_nat (chunk n)) l) as Hin1.
      { unfold h_of. rewrite (os_msg _ _ _ Ho1). apply Hc1. }
      eapply wp_mono.
      { apply (wp_set_more (Z.to_nat n) (keep_flags fl) (n - chunk n) (chunk n) s1 i x1 F1 Ht Hs1 Hb1).
        all: rewrite ?Hfd, ?HF1, ?Hin1, ?length_take, ?length_drop; unfold is_u32 in *; try lia.
        - done.
        - apply ldiff_u32, Hfl.
        - apply keep_flags_truncates.
        - by apply keep_flags_internal.
        - rewrite Hv1. apply lookup_insert_eq.
        - intros j Hj Hj0. assert (j = k) as -> by (apply (Z.pow_inj_r 2); lia). done.
        - cbn. lia. }
      intros r s2 (-> & x2 & Hs2 & Ho2 & Hb2 & Hc2 & Hv2). split; [by etrans|]. split; [exact Hb2|].
      split; [exact (eq_trans (proj1 (proj2 Hc2)) (proj1 (proj2 Hc1)))|]. split; [done|].
      exists x2. split; [exact Hs2|]. rewrite Hv2, Hv1, Hfd, insert_insert_eq. f_equal.
      unfold stored. fold fl. f_equal. rewrite HF1, Hin1. by apply take_app_drop.
    + apply wp_ret. split; [exact Ho1|]. split; [exact Hb1|]. split; [apply Hc1|]. split; [done|].
      exists x1. split; [exact Hs1|]. rewrite Hv1. f_equal. unfold stored. fold fl. 
      assert (chunk n = n) as Hcn by lia. rewrite <- Hcn at 1. rewrite <- HF1. done.
Qed.
(** A file whose owner gave up the right to change it. *)
Definition write_once (F : afile) : bool :=
  negb (Z.land (Z.land (af_flags F) ETSS_FLASH_FS_USER_FLAGS_MASK) PSA_STORAGE_FLAG_WRITE_ONCE =? 0).

Lemma has_place_unchanged x x' (w w' : sf_world D) fid flgs n : unchanged x w x' w' ->
  has_place x' w' fid flgs n <-> has_place x w fid flgs n.
Proof.
  intros [Hup Hv]. unfold has_place. rewrite Hv, (nw_find_room c Hc _ _ _ Hup), (nw_find_free c Hc _ _ _ Hup). done.
Qed.

(** Serving the client makes no difference to its files. *)
Lemma unchanged_served {mk} uid s i x x' w' : selected mk (served_state uid i s) i x ->
  unchanged x (flash (served_state uid i s)) x' w' -> unchanged x (flash s) x' w'.
Proof.
  intros Hs [(Hx & Him & Hh) Hv]. split; [|exact Hv].
  split; [exact Hx|]. split; [exact Him|]. intros _. apply Hh, (selected_ok _ i x Hs).
Qed.

(** What [etss_set] does on a working device: a write-once file stays; any
    other request is stored when there is a place for it, and refused with the
    old files when there is none.  The refusal of a replacement marks the file
    system. *)
Definition set_result mk (uid n cf : Z) s i x (r : outcome unit) (s' : etss_state D P) : Prop :=
  let fid := etss_get_fid client uid in
  let v := files_at x (flash s) in
  if from_option write_once false (v !! fid)
  then r = Err ETSS_ERR_NOT_PERMITTED /\ exists x', selected mk s' i x' /\ files_at x' (flash s') = v
  else match r with
  | Ok _ => has_place x (flash s) fid (set_flags cf) n /\ exists x', selected false s' i x' /\
      files_at x' (flash s') = <[fid := stored n cf (in_data (psa s) (h_of s) 1)]> v
  | Err _ => ~ has_place x (flash s) fid (set_flags cf) n /\ exists x',
      selected (replaces c v fid (set_flags cf) n) s' i x' /\ files_at x' (flash s') = v
  end.

Record set_request (uid n cf : Z) s x : Prop := {
  sr_uid : uid_ok uid;
  sr_flags : flags_supported cf = true;
  sr_size : 0 <= n <= 4294901760;
  sr_data : n <= Z.of_nat (length (in_data (psa s) (h_of s) 1));
  sr_old : forall F, files_at x (flash s) !! etss_get_fid client uid = Some F -> write_once F = false ->
    replaces c (files_at x (flash s)) (etss_get_fid client uid) (set_flags cf) n = true -> 0 < af_max F
}.

(** The loop, from a state that only differs by reads. *)
Lemma wp_set_loop_from mk uid cf n s i x s1 x1 :
  transfer_ok -> set_request uid n cf s x -> bytes_ok s1 -> g_fid s1 = etss_get_fid client uid ->
  selected false s1 i x1 -> client_step i s s1 -> unchanged x (flash s) x1 (flash s1) -> psa s1 = psa s ->
  from_option write_once false (files_at x (flash s) !! etss_get_fid client uid) = false ->
  op_step i (served_state uid i s) s1 ->
  wp (set_loop (S (Z.to_nat n)) (set_flags cf) n 0) s1 (fun r s' =>
    set_result mk uid n cf s i x r s' /\ client_step i s s' /\ bytes_ok s' /\ replies (psa s') = replies (psa s)).
Proof.
  intros Ht [Hu Hcf Hn Hin Hpos] Hb Hf Hs Hcs Hun Hp Hw Ho.
  assert (h_of s1 = h_of s) as Hh by (unfold h_of; by rewrite (cs_msg _ _ _ Hcs)).
  eapply wp_mono.
  { apply (wp_set_loop cf n s1 i x1 Ht Hs Hb); rewrite ?Hf, ?Hp, ?Hh; try done.
    - apply fid_valid; unfold uid_ok in Hu; lia.
    - rewrite (un_files _ _ _ _ Hun). intros F HF. apply Hpos; [done|]. by rewrite HF in Hw. }
  intros r s2 [Ho2 (Hb2 & Hr2 & Hr)]. split; [|split; [|split; [exact Hb2|congruence]]].
  2: { eapply client_step_of. by etrans. }
  unfold set_result. rewrite Hw. rewrite Hf, Hp, Hh in Hr. destruct r as [[]|e].
  - destruct Hr as (Hpl & x2 & Hs2 & Hv2). rewrite (has_place_unchanged x x1) in Hpl by done.
    split; [exact Hpl|]. exists x2. split; [exact Hs2|]. by rewrite Hv2, (un_files _ _ _ _ Hun).
  - destruct Hr as (Hpl & x2 & Hs2 & Hv2). rewrite (has_place_unchanged x x1) in Hpl by done.
    split; [exact Hpl|]. exists x2. rewrite <- (un_files _ _ _ _ Hun). by split_and!.
Qed.

Lemma wp_set {mk} uid n cf s i x :
  transfer_ok -> mounted_at mk s i x -> bytes_ok s -> set_request uid n cf s x ->
  (from_option write_once false (files_at x (flash s) !! etss_get_fid client uid) = false -> mk = false) ->
  wp (etss_set client uid n cf) s (fun r s' =>
    set_result mk uid n cf s i x r s' /\ client_step i s s' /\ bytes_ok s' /\ replies (psa s') = replies (psa s)).
Proof.
  intros Ht Hm Hb Hreq Hmk. pose proof (sr_uid _ _ _ _ _ Hreq) as Hu. unfold uid_ok in Hu.
  destruct (storage_request_ok uid s i x Hm ltac:(lia)) as [Hrun Hsel].
  set (s0 := served_state uid i s) in *.
  assert (fid_ok (g_fid s0)) as Hfid by (apply fid_valid; lia).
  unfold etss_set. rewrite (sr_flags _ _ _ _ _ Hreq). apply wp_bind. unfold wp at 1. rewrite Hrun. cbn [fst snd].
  apply wp_bind, wp_attempt. eapply wp_mono; [exact (wp_read_file_info s0 i x Hsel Hfid)|].
  intros r s1 (x1 & Hs1 & Ho1 & Hun1 & Hd1 & Hp1 & Hr).
  assert (bytes_ok s1) as Hb1 by (unfold bytes_ok in *; by rewrite Hd1).
  pose proof (client_step_of _ _ _ _ Ho1) as Hcs1.
  apply wp_bind. unfold wp at 1. cbn [get fst snd].
  pose proof (unchanged_served uid s i x x1 _ Hsel Hun1) as Hun.
  change (files_at x (flash s0)) with (files_at x (flash s)) in *. change (g_fid s0) with (etss_get_fid client uid) in *.
  assert (g_fid s1 = etss_get_fid client uid) as Hf1 by exact (os_fid _ _ _ Ho1).
  destruct (files_at x (flash s) !! etss_get_fid client uid) as [F|] eqn:HF.
  - destruct Hr as [-> Hinfo]. rewrite Hinfo. cbn [info_of info_flags]. change (negb _) with (write_once F).
    destruct (write_once F) eqn:Hw.
    + apply wp_bind, wp_raise. unfold set_result. rewrite HF. cbn [from_option]. rewrite Hw.
      split; [split; [done|]|split; [done|split; [done|by rewrite Hp1]]].
      exists x1. split; [exact Hs1|apply (un_files _ _ _ _ Hun)].
    + pose proof (Hmk Hw) as ->. apply wp_bind, wp_ret. apply (wp_set_loop_from false uid cf n s i x s1 x1); rewrite ?HF; try done.
  - pose proof (Hmk eq_refl) as ->. subst r. apply wp_bind, wp_ret. apply (wp_set_loop_from false uid cf n s i x s1 x1); rewrite ?HF; try done.
Qed.
(** *** Information and removal *)

(** The common start of the functions on an existing file. *)
Lemma wp_find_file {mk A} uid s i x (m : ST (etss_state D P) A) Q :
  mounted_at mk s i x -> uid_ok uid ->
  let fid := etss_get_fid client uid in let v := files_at x (flash s) in
  (forall s1 x1, selected mk s1 i x1 -> op_step i (served_state uid i s) s1 -> g_fid s1 = fid ->
    unchanged x (flash s) x1 (flash s1) -> asset_data s1 = asset_data s -> psa s1 = psa s ->
    (v !! fid = None -> Q (Err ETSS_ERR_DOES_NOT_EXIST) s1) /\
    (forall F, v !! fid = Some F -> g_file_info s1 = info_of F -> wp m s1 Q)) ->
  wp (storage_request client uid true;; read_file_info;; m) s Q.
Proof.
  intros Hm Hu fid v H. unfold uid_ok in Hu.
  destruct (storage_request_ok uid s i x Hm ltac:(lia)) as [Hrun Hsel].
  assert (fid_ok (g_fid (served_state uid i s))) as Hfid by (apply fid_valid; lia).
  apply wp_bind. unfold wp at 1. rewrite Hrun. cbn [fst snd].
  apply wp_bind. eapply wp_mono; [exact (wp_read_file_info (served_state uid i s) i x Hsel Hfid)|].
  intros r s1 (x1 & Hs1 & Ho1 & Hun1 & Hd1 & Hp1 & Hr).
  pose proof (unchanged_served uid s i x x1 _ Hsel Hun1) as Hun.
  change (files_at x (flash (served_state uid i s))) with v in Hr.
  change (g_fid (served_state uid i s)) with fid in Hr.
  destruct (H s1 x1 Hs1 Ho1 (os_fid _ _ _ Ho1) Hun Hd1 Hp1) as [Hnone Hsome].
  destruct (v !! fid) as [F|] eqn:HF; [destruct Hr as [-> Hi]; by apply (Hsome F)|].
  subst r. by apply Hnone.
Qed.

Definition get_info_spec (v : gmap (list Z) afile) (fid : list Z) : outcome psa_storage_info_t :=
  match v !! fid with
  | None => Err ETSS_ERR_DOES_NOT_EXIST
  | Some F => Ok {| p_capacity := Z.of_nat (length (af_data F)); p_size := Z.of_nat (length (af_data F));
                    p_flags := Z.land (af_flags F) ETSS_FLASH_FS_USER_FLAGS_MASK |}
  end.

Lemma wp_get_info {mk} uid s i x : mounted_at mk s i x -> uid_ok uid ->
  wp (etss_get_info client uid) s (fun r s' =>
    r = get_info_spec (files_at x (flash s)) (etss_get_fid client uid) /\
    client_step i s s' /\ asset_data s' = asset_data s /\ psa s' = psa s /\
    exists x', selected mk s' i x' /\ files_at x' (flash s') = files_at x (flash s)).
Proof.
  intros Hm Hu. unfold etss_get_info. apply (wp_find_file (mk := mk) uid s i x); [done..|].
  intros s1 x1 Hs1 Ho1 Hf Hun Hd Hp. pose proof (client_step_of _ _ _ _ Ho1) as Hcs.
  unfold get_info_spec. split.
  - intros ->. split_and!; [done..|]. exists x1. split; [exact Hs1|apply Hun].
  - intros F -> Hi. apply wp_bind. unfold wp at 1. cbn [get fst snd]. apply wp_ret. rewrite Hi.
    split_and!; [done..|]. exists x1. split; [exact Hs1|apply Hun].
Qed.

Definition remove_spec (v : gmap (list Z) afile) (fid : list Z) : outcome unit * gmap (list Z) afile :=
  match v !! fid with
  | None => (Err ETSS_ERR_DOES_NOT_EXIST, v)
  | Some F => if write_once F then (Err ETSS_ERR_NOT_PERMITTED, v) else (Ok tt, delete fid v)
  end.

Lemma wp_on_fs_delete s i x F : selected false s i x -> fid_ok (g_fid s) ->
  files_at x (flash s) !! g_fid s = Some F -> 0 < af_max F ->
  wp (on_fs (etss_flash_fs_file_delete (g_fid s))) s (fun r s' => r = Ok tt /\ fs_step i s s' /\
    exists x', selected false s' i x' /\ files_at x' (flash s') = delete (g_fid s) (files_at x (flash s))).
Proof.
  intros Hs Hfid HF Hpos. pose proof (selected_ok s i x Hs) as Hok.
  eapply wp_mono.
  { refine (wp_on_fs_any _ s i x _ Hs (client_file_delete client _) _).
    apply (wp_file_delete c Hc _ (g_fid s) (ma_fs _ _ _ _ (se_mounted _ _ _ _ Hs)) Hfid).
    intros G HG. unfold files_at in HF. congruence. }
  intros r s' (x' & He & Hst & _ & Hok' & Hr). specialize (Hok' Hok).
  destruct r as [[]|e].
  - destruct Hr as (Hset & _ & Hv). split; [done|]. split; [exact Hst|]. exists x'.
    split; [exact (entry_selected (mk' := false) s s' i x x' Hs He Hst Hok' Hset)|exact Hv].
  - destruct Hr as [Hsick|(_ & Hn & _)]; [by destruct Hsick|]. unfold files_at in HF. congruence.
Qed.

Lemma wp_remove {mk} uid s i x : mounted_at mk s i x -> uid_ok uid ->
  (forall F, files_at x (flash s) !! etss_get_fid client uid = Some F -> write_once F = false ->
    mk = false /\ 0 < af_max F) ->
  wp (etss_remove client uid) s (fun r s' =>
    let '(r', v') := remove_spec (files_at x (flash s)) (etss_get_fid client uid) in
    r = r' /\ client_step i s s' /\ asset_data s' = asset_data s /\ psa s' = psa s /\
    exists x', selected mk s' i x' /\ files_at x' (flash s') = v').
Proof.
  intros Hm Hu Hpos. unfold etss_remove. apply (wp_find_file (mk := mk) uid s i x); [done..|].
  intros s1 x1 Hs1 Ho1 Hf Hun Hd Hp. pose proof (client_step_of _ _ _ _ Ho1) as Hcs.
  unfold remove_spec. split.
  - intros ->. split_and!; [done..|]. exists x1. split; [exact Hs1|apply Hun].
  - intros F HF Hi. rewrite HF. apply wp_bind. unfold wp at 1. cbn [get fst snd].
    rewrite Hi. cbn [info_of info_flags]. change (negb _) with (write_once F). destruct (write_once F) eqn:Hw.
    + apply wp_raise. split_and!; [done..|]. exists x1. split; [exact Hs1|apply Hun].
    + destruct (Hpos F HF Hw) as [-> Hmax]. rewrite <- (un_files _ _ _ _ Hun), <- Hf in HF.
      eapply wp_mono; [apply (wp_on_fs_delete s1 i x1 F Hs1)|].
      * rewrite Hf. apply fid_valid; unfold uid_ok in Hu; lia.
      * exact HF.
      * exact Hmax.
      * intros r s2 (-> & Hst & x2 & Hs2 & Hv2). split; [done|].
        split; [eapply client_step_of; etrans; [exact Ho1|by apply fs_op_step]|].
        destruct Hst as [[V1 V2 V3 V4 V5] _ _]. split; [congruence|]. split; [congruence|].
        exists x2. split; [exact Hs2|]. by rewrite Hv2, Hf, (un_files _ _ _ _ Hun).
Qed.
End Client.
