(* ===== verification/EtssClients.v ===== *)
(** * The secure storage service: all clients

    The clients' file systems lie in disjoint areas of the flash.  A request
    of one client leaves the file systems of all others as they are, and the
    start-up mounts the file system of every client. *)
From Stdlib Require Import ZArith Lia.
From stdpp Require Import base list numbers gmap options.
From S2P Require Import Prelude.
From S2P Require Import EtssUtils.
From S2P Require Import FlashFsDefs.
From S2P Require Import Mblock.
From S2P Require Import Dblock.
From S2P Require Import FlashFs.
From S2P Require Import MblockSpec.
From S2P Require Import FsReads.
From S2P Require Import FsTables.
From S2P Require Import FsUpdate.
From S2P Require Import FsDisk.
From S2P Require Import FsStage.
From S2P Require Import FsCommit.
From S2P Require Import FsRead.
From S2P Require Import FsStaged.
From S2P Require Import FsDelete.
From S2P Require Import FsWrite.
From S2P Require Import FsOps.
From S2P Require Import SpiNor.
From S2P Require Import SecureFlash.
From S2P Require Import SecureFlashSpec.
From S2P Require Import SecureFlashFs.
From S2P Require Import SecureClients.
From S2P Require Import PsaApi.
From S2P Require Import EtssService.
From S2P Require Import EtssSpec.

#[local] Set Default Proof Using "Type*".

(** ** The table of clients *)

Lemma find_client_ids client i (t t' : list (Z * etss_flash_fs_ctx_t)) :
  t'.*1 = t.*1 -> find_client client i t' = find_client client i t.
Proof.
  revert i t'. induction t as [|[a x] t IH]; intros i [|[b y] t'] He; simplify_eq/=; [done|].
  case_match; [done|]. by apply IH.
Qed.

(** Changing the context of entry [i] changes no identifier. *)
Lemma table_ids (t t' : list (Z * etss_flash_fs_ctx_t)) i client x x' :
  t !! i = Some (client, x) -> t' !! i = Some (client, x') ->
  (forall j, j <> i -> t' !! j = t !! j) -> t'.*1 = t.*1.
Proof.
  intros H1 H2 H. apply list_eq. intros j. rewrite !list_lookup_fmap.
  destruct (decide (j = i)) as [->|Hn]; [by rewrite H1, H2|by rewrite H].
Qed.

(** ** Areas apart *)

Section Areas.
Context {D : Type} {SO : SpiOps D} {JO : JedecOps D} {JL : JedecLaws D}.
Implicit Types w : sf_world D.

Definition apart (c c2 : etss_flash_fs_config_t) : Prop :=
  flash_area_addr c + area_size c <= flash_area_addr c2 \/
  flash_area_addr c2 + area_size c2 <= flash_area_addr c.

Lemma apart_sym c c2 : apart c c2 -> apart c2 c.
Proof using Type. unfold apart. lia. Qed.

(** What keeps to the area of [c] does not touch the area of [c2]. *)
Lemma fence_image c c2 f w w' : area_ok c2 -> apart c c2 -> fence c f w -> fence c f w' ->
  same_image (sf_image c2 w) (sf_image c2 w').
Proof.
  intros Hc2 Hap H1 H2 b o. unfold sf_image. case_bool_decide as Hin; [|done].
  assert (in_block c2 b o 1) as Hb by (unfold in_block; lia).
  pose proof (in_area c2 Hc2 b o 1 Hb) as [Hl Hu]. unfold phys in Hl, Hu.
  rewrite H2, H1; [done|unfold outside, apart in *; lia..].
Qed.

Lemma fence_self c w : fence c (dimg (device w)) w.
Proof using Type. by intros a _. Qed.
End Areas.

(** ** The state of the service

    [cs] lists the clients, each with the configuration of its file system;
    [vs] the files of each; [ms] says whose file system is marked by a refused
    replacement. *)

Section Service.
Context {D P : Type} {SO : SpiOps D} {JO : JedecOps D} {PO : PsaOps P} {CF : EtssConfig}.
Context {JL : JedecLaws D}.
Implicit Types s : etss_state D P.
Implicit Types x : etss_flash_fs_ctx_t.
Implicit Types j k : nat.
Implicit Types cs : list (Z * etss_flash_fs_config_t).
Implicit Types vs : list (gmap (list Z) afile).

Definition files_of (c : etss_flash_fs_config_t) x (w : sf_world D) : gmap (list Z) afile :=
  disk_view c (sf_image c w) (active_metablock x).

(** Entry [j] of the table is the client's, its file system mounted. *)
Record mounted (mk : bool) (client : Z) (c : etss_flash_fs_config_t) s j x : Prop := {
  mo_find : find_client client 0 (etss_fs_ctx_tbl s) = Some j;
  mo_entry : etss_fs_ctx_tbl s !! j = Some (client, x);
  mo_fs : exists Ha : area_ok c, mounted_on c Ha mk x (flash s)
}.

Record clients_ok (cs : list (Z * etss_flash_fs_config_t)) : Prop := {
  ck_cfg : forall j client c, cs !! j = Some (client, c) -> cfg_ok c /\ area_ok c /\ allowed c client;
  ck_apart : forall j k client c client' c', j <> k ->
    cs !! j = Some (client, c) -> cs !! k = Some (client', c') -> apart c c'
}.

Record hosts (cs : list (Z * etss_flash_fs_config_t)) (ms : nat -> bool)
    (vs : list (gmap (list Z) afile)) s : Prop := {
  ho_boot : booted (flash s);
  ho_files : forall j client c, cs !! j = Some (client, c) -> exists x v,
    vs !! j = Some v /\ mounted (ms j) client c s j x /\ files_of c x (flash s) = v
}.

(** No file system is marked: every client is served in full. *)
Definition unmarked : nat -> bool := fun _ => false.
Definition service (cs : list (Z * etss_flash_fs_config_t)) (vs : list (gmap (list Z) afile)) s : Prop :=
  hosts cs unmarked vs s.

Lemma mounted_on_any (c : etss_flash_fs_config_t) (Ha Ha' : area_ok c) mk x w :
  mounted_on c Ha mk x w -> mounted_on c Ha' mk x w.
Proof using Type.
  destruct mk; [intros ([? ? ? ?] & _ & ?); split; [by split|done]|by intros [[? ? ? ? ?] ?]].
Qed.

(** The client's view of the state, [f] the bytes outside its area. *)
Lemma mounted_client c Ha client f mk s j x : fence c f (flash s) -> booted (flash s) ->
  mounted mk client c s j x -> mounted_at c Ha client f mk s j x.
Proof using Type.
  intros Hf Hb [H1 H2 [Ha' H3]]. split; [done..|]. apply usable_on. by eapply mounted_on_any.
Qed.

Lemma client_mounted c Ha client f mk s j x : mounted_at c Ha client f mk s j x -> mounted mk client c s j x.
Proof using Type. intros [H1 H2 _ _ H3]. split; [done..|]. exists Ha. by apply usable_on in H3. Qed.

(** Another client stays mounted, with its files. *)
Lemma mounted_other c f client client' c' mk s s' j k x y y' :
  cfg_ok c' -> area_ok c' -> apart c c' -> j <> k ->
  fence c f (flash s) -> fence c f (flash s') ->
  etss_fs_ctx_tbl s !! j = Some (client, y) -> etss_fs_ctx_tbl s' !! j = Some (client, y') ->
  (forall i, i <> j -> etss_fs_ctx_tbl s' !! i = etss_fs_ctx_tbl s !! i) ->
  mounted mk client' c' s k x -> mounted mk client' c' s' k x /\ files_of c' x (flash s') = files_of c' x (flash s).
Proof using Type.
  intros Hc' Ha' Hap Hjk H1 H2 He He' Ht [Hf Hk [Ha Hm]].
  destruct (mounted_on_same c' Hc' Ha mk x (flash s) (flash s')) as [Hm' Hv]; [exact (fence_image c c' f _ _ Ha' Hap H1 H2)|done|].
  split; [|exact Hv]. split; [|by rewrite Ht|by exists Ha].
  rewrite (find_client_ids _ _ (etss_fs_ctx_tbl s)); [done|exact (table_ids _ _ j client y y' He He' Ht)].
Qed.

(** Everybody but client [j] is served. *)
Definition host_others (cs : list (Z * etss_flash_fs_config_t)) (ms : nat -> bool)
    (vs : list (gmap (list Z) afile)) s j : Prop :=
  forall k client c, k <> j -> cs !! k = Some (client, c) -> exists x v,
    vs !! k = Some v /\ mounted (ms k) client c s k x /\ files_of c x (flash s) = v.

Definition others (cs : list (Z * etss_flash_fs_config_t)) (vs : list (gmap (list Z) afile)) s j : Prop :=
  host_others cs unmarked vs s j.

(** Whatever client [j] does within its area, the others keep their files. *)
Lemma hosts_others cs ms vs s s' j client c x x' :
  clients_ok cs -> hosts cs ms vs s -> cs !! j = Some (client, c) ->
  etss_fs_ctx_tbl s !! j = Some (client, x) -> etss_fs_ctx_tbl s' !! j = Some (client, x') ->
  fence c (dimg (device (flash s))) (flash s') -> client_step client j s s' -> host_others cs ms vs s' j.
Proof.
  intros Hcs [Hb Hfs] Hj He He' Hf Hst k client' c' Hn Hk.
  destruct (Hfs _ _ _ Hk) as (y & v' & Hv' & Hmy & Hvy). exists y, v'. split; [done|].
  destruct (ck_cfg _ Hcs _ _ _ Hk) as (Hc' & Ha' & _).
  destruct (mounted_other c (dimg (device (flash s))) client client' c' (ms k) s s' j k y x x')
    as [H1 H2]; try done.
  - by apply (ck_apart _ Hcs j k client c client' c').
  - apply Hst.
  - split; [exact H1|congruence].
Qed.

(** A served request of client [j]: only its files change, and maybe its
    mark. *)
Lemma hosts_step cs ms ms' vs s s' j client c Ha x x' :
  clients_ok cs -> hosts cs ms vs s -> cs !! j = Some (client, c) ->
  etss_fs_ctx_tbl s !! j = Some (client, x) -> (forall k, k <> j -> ms' k = ms k) ->
  selected c Ha client (dimg (device (flash s))) (ms' j) s' j x' -> client_step client j s s' ->
  hosts cs ms' (<[j := files_of c x' (flash s')]> vs) s'.
Proof.
  intros Hcs Hsv Hj He Hms [Hp Hm Hid] Hst. split; [by destruct Hm|].
  pose proof (hosts_others cs ms vs s s' j client c x x' Hcs Hsv Hj He
    (ma_entry _ _ _ _ _ _ _ _ Hm) (ma_out _ _ _ _ _ _ _ _ Hm) Hst) as Ho.
  destruct Hsv as [Hb Hfs]. destruct (Hfs _ _ _ Hj) as (_ & v & Hv & _).
  intros k client' c' Hk. destruct (decide (k = j)) as [->|Hn].
  - assert (client' = client /\ c' = c) as [-> ->] by (split; congruence). exists x', (files_of c x' (flash s')).
    split; [apply list_lookup_insert_eq; by apply lookup_lt_Some in Hv|]. split; [by eapply client_mounted|done].
  - destruct (Ho k client' c' Hn Hk) as (y & v' & Hv' & H). exists y, v'.
    rewrite list_lookup_insert_ne, Hms by done. done.
Qed.

Lemma hosts_ext cs ms vs s s' : etss_fs_ctx_tbl s' = etss_fs_ctx_tbl s -> flash s' = flash s ->
  hosts cs ms vs s -> hosts cs ms vs s'.
Proof using Type.
  intros Ht Hf [Hb Hfs]. split; [by rewrite Hf|]. intros j client c Hj.
  destruct (Hfs _ _ _ Hj) as (x & v & Hv & [H1 H2 H3] & Hx). exists x, v.
  split; [done|]. rewrite Hf. split; [|done]. split; rewrite ?Ht, ?Hf; done.
Qed.

Lemma service_ext cs vs s s' : etss_fs_ctx_tbl s' = etss_fs_ctx_tbl s -> flash s' = flash s ->
  service cs vs s -> service cs vs s'.
Proof using Type. apply hosts_ext. Qed.

(** The client's part of the state. *)
Lemma hosts_client cs ms vs s j client c v : clients_ok cs -> hosts cs ms vs s ->
  cs !! j = Some (client, c) -> vs !! j = Some v ->
  exists x (Ha : area_ok c), cfg_ok c /\ allowed c client /\
    mounted_at c Ha client (dimg (device (flash s))) (ms j) s j x /\
    files_at c Ha (dimg (device (flash s))) x (flash s) = v.
Proof.
  intros Hcs [Hb Hfs] Hj Hv. destruct (Hfs _ _ _ Hj) as (x & v' & Hv' & Hm & Hfi).
  destruct (ck_cfg _ Hcs _ _ _ Hj) as (Hc & Ha & Hal). exists x, Ha. split_and!; [done..| |].
  - apply mounted_client; [apply fence_self|done|done].
  - unfold files_at. assert (v = v') as -> by congruence. exact Hfi.
Qed.
End Service.

(** ** Start-up of one client *)

Section Start.
Context {D P : Type} {SO : SpiOps D} {JO : JedecOps D} {PO : PsaOps P} {CF : EtssConfig}.
Context {JL : JedecLaws D}.
Context (c : etss_flash_fs_config_t) (Hc : cfg_ok c) (Ha : area_ok c) (f : Z -> Z).
Implicit Types s : etss_state D P.
Implicit Types x : etss_flash_fs_ctx_t.
Implicit Types i : nat.

#[local] Instance start_laws : FlashLaws (sf_world D) c := fenced_laws c Ha f.

(** The file system's own start makes the ETSS partition the current client. *)
Definition as_etss (w : sf_world D) : sf_world D :=
  {| secureflash := secureflash w; secureflash_app_id := SP_ETSS; spi_nor := spi_nor w |}.

Lemma prepare_as_etss x w : cfg x = c ->
  etss_flash_fs_prepare (E := sf_world D) {| fs_ctx := x; fs_env := w |}
  = etss_flash_fs_prepare {| fs_ctx := x; fs_env := as_etss w |}.
Proof using Type. done. Qed.

Lemma wp_on_ctx {A} (m : FS (sf_world D) A) s i (id : Z) x (Q : outcome A -> fs_state (sf_world D) -> Prop) :
  etss_fs_ctx_tbl s !! i = Some (id, x) -> wp m {| fs_ctx := x; fs_env := flash s |} Q ->
  wp (on_ctx i m) s (fun r s' => exists t : fs_state (sf_world D), Q r t /\
    s' = set_ctx_tbl (<[i := (id, fs_ctx t)]> (etss_fs_ctx_tbl s)) (set_flash (fs_env t) s)).
Proof using Type.
  intros He Hm. unfold wp, on_ctx in *. rewrite He. destruct (m _) as [r t]. by exists t.
Qed.

(** The context [etss_flash_fs_init_ctx] makes for a valid configuration. *)
Definition fresh_ctx : etss_flash_fs_ctx_t :=
  {| cfg := c; meta_block_header := {| scratch_dblock := 0; fs_version := 0; metadata_xor := 0;
       active_swap_count := 0; hdr_pad := 0 |}; active_metablock := 0; scratch_metablock := 0 |}.

Lemma init_ctx_ok : etss_flash_fs_init_ctx (Some c) = Ok fresh_ctx.
Proof using Hc. unfold etss_flash_fs_init_ctx. rewrite (co_valid _ Hc). done. Qed.

(** Entry [i] after the start of its client. *)
Definition started i (id : Z) s (v : gmap (list Z) afile) (s' : etss_state D P) : Prop :=
  exists x, etss_fs_ctx_tbl s' = <[i := (id, x)]> (etss_fs_ctx_tbl s) /\
  fs_cfg_etss s' = fs_cfg_etss s /\ booted (flash s') /\ fence c f (flash s') /\
  mounted_on c Ha false x (flash s') /\ files_of c x (flash s') = v.

(** Mounting a file system that is there. *)
Lemma wp_mount x w v : cfg x = c -> booted w -> fence c f w -> mounts c (sf_image c w) v ->
  wp (etss_flash_fs_prepare (E := sf_world D)) {| fs_ctx := x; fs_env := w |} (fun r t =>
    r = Ok tt /\ booted (fs_env t) /\ fence c f (fs_env t) /\
    mounted_on c Ha false (fs_ctx t) (fs_env t) /\ files_of c (fs_ctx t) (fs_env t) = v).
Proof.
  intros Hx Hb Hf Hm. unfold wp. rewrite prepare_as_etss by done.
  eapply wp_mono; [apply (wp_prepare c Hc _ v)|].
  - split; [split; [exact Hb|apply (ar_etss c Ha)]|exact Hf].
  - exact Hx.
  - exact Hm.
  - intros r [x' w'] (-> & [[Hb' _] Hf'] & Hs & Hv). split; [done|]. split; [done|]. split; [done|].
    split; [by apply (usable_on c Ha f false)|exact Hv].
Qed.

Lemma wp_mount_unformatted x w : cfg x = c -> booted w -> fence c f w ->
  FsDisk.selected c (sf_image c w) = None ->
  wp (etss_flash_fs_prepare (E := sf_world D)) {| fs_ctx := x; fs_env := w |} (fun r t =>
    r = Err PSA_ERROR_GENERIC_ERROR /\ ok c t /\ fs_ctx t = x).
Proof.
  intros Hx Hb Hf Hsel. unfold wp. rewrite prepare_as_etss by done.
  apply (wp_prepare_unformatted c Hc {| fs_ctx := x; fs_env := as_etss w |}); [|exact Hx|exact Hsel].
  split; [split; [exact Hb|apply (ar_etss c Ha)]|exact Hf].
Qed.

(** Mounting, or formatting and mounting. *)
Lemma wp_start_client s i (id : Z) x0 v :
  etss_fs_ctx_tbl s !! i = Some (id, x0) -> booted (flash s) -> fence c f (flash s) ->
  bootable c (sf_image c (flash s)) v ->
  wp (etss_flash_fs_init_ctx_and_prepare i (Some c)) s (fun r s' => r = Ok tt /\ started i id s v s').
Proof.
  intros He Hb Hf Hboot. unfold etss_flash_fs_init_ctx_and_prepare. rewrite init_ctx_ok.
  apply wp_bind, wp_modify. set (s0 := set_ctx_tbl _ s).
  assert (etss_fs_ctx_tbl s0 = <[i := (id, fresh_ctx)]> (etss_fs_ctx_tbl s)) as Ht0.
  { unfold s0. cbn. apply list_eq. intros j. destruct (decide (j = i)) as [->|Hn].
    - rewrite list_lookup_alter_eq, He, list_lookup_insert_eq; [done|by eapply lookup_lt_Some].
    - by rewrite list_lookup_alter_ne, list_lookup_insert_ne. }
  assert (etss_fs_ctx_tbl s0 !! i = Some (id, fresh_ctx)) as He0.
  { rewrite Ht0. apply list_lookup_insert_eq. by eapply lookup_lt_Some. }
  apply wp_bind, wp_attempt. destruct Hboot as [Hm|[Hsel ->]].
  - eapply wp_mono; [refine (wp_on_ctx _ s0 i id fresh_ctx _ He0 _); by apply (wp_mount fresh_ctx (flash s) v)|].
    intros r s1 (t & (-> & Hb1 & Hf1 & Hs1 & Hv1) & ->). apply wp_ret. split; [done|]. exists (fs_ctx t).
    split; [|done].
    change (<[i := (id, fs_ctx t)]> (etss_fs_ctx_tbl s0) = <[i := (id, fs_ctx t)]> (etss_fs_ctx_tbl s)).
    by rewrite Ht0, list_insert_insert_eq.
  - eapply wp_mono.
    { refine (wp_on_ctx _ s0 i id fresh_ctx _ He0 _). by apply (wp_mount_unformatted fresh_ctx (flash s)). }
    intros r s1 (t & (-> & Hok1 & Hx1) & ->).
    set (s2 := set_ctx_tbl _ _).
    assert (etss_fs_ctx_tbl s2 !! i = Some (id, fs_ctx t)) as He2.
    { apply list_lookup_insert_eq. by eapply lookup_lt_Some. }
    apply wp_bind. eapply wp_mono.
    { refine (wp_on_ctx _ s2 i id (fs_ctx t) _ He2 _). apply (wp_wipe_all c Hc).
      - exact Hok1.
      - cbn. by rewrite Hx1.
      - cbn. rewrite Hx1. split_and!; cbn; unfold is_u32, is_u8; try lia; repeat constructor. }
    intros r s3 (t3 & (-> & [[Hb3 _] Hf3] & Hc3 & Hm3) & ->).
    set (s4 := set_ctx_tbl _ _).
    assert (etss_fs_ctx_tbl s4 !! i = Some (id, fs_ctx t3)) as He4.
    { apply list_lookup_insert_eq. by eapply lookup_lt_Some. }
    apply wp_or_return. eapply wp_mono.
    { refine (wp_on_ctx _ s4 i id (fs_ctx t3) _ He4 _). by apply (wp_mount (fs_ctx t3) (fs_env t3) ∅). }
    intros r s5 (t5 & (-> & Hb5 & Hf5 & Hs5 & Hv5) & ->). split; [done|]. exists (fs_ctx t5).
    split; [|done].
    change (<[i := (id, fs_ctx t5)]> (<[i := (id, fs_ctx t3)]> (<[i := (id, fs_ctx t)]> (etss_fs_ctx_tbl s0)))
      = <[i := (id, fs_ctx t5)]> (etss_fs_ctx_tbl s)).
    by rewrite Ht0, !list_insert_insert_eq.
Qed.
End Start.


(** ** Start-up of the service *)

Section Init.
Context {D P : Type} {SO : SpiOps D} {JO : JedecOps D} {PO : PsaOps P} {CF : EtssConfig}.
Context {JL : JedecLaws D}.
Implicit Types s : etss_state D P.
Implicit Types x : etss_flash_fs_ctx_t.
Implicit Types j k : nat.

(** The clients of the layout, as [init_fs_cfg] sets them up. *)
Definition configured : list (Z * etss_flash_fs_config_t) :=
  (fun l => (CLIENT_ID l, client_cfg l (common_cfg zero_cfg))) <$> clients.

Lemma client_cfgs_all n ls : (length ls <= n)%nat ->
  client_cfgs n ls = (fun l => client_cfg l (common_cfg zero_cfg)) <$> ls.
Proof using Type.
  revert n. induction ls as [|l ls IH]; intros [|n] Hn; simpl in *; [done|done|lia|].
  f_equal. apply IH. lia.
Qed.

Lemma client_ids_all n ls (tbl : list (Z * etss_flash_fs_ctx_t)) :
  (length ls <= n)%nat -> length tbl = length ls -> (client_ids n ls tbl).*1 = CLIENT_ID <$> ls.
Proof using Type.
  revert n tbl. induction ls as [|l ls IH]; intros [|n] [|[a x] tbl] Hn Hl; simpl in *; try done; [lia|].
  f_equal. apply IH; lia.
Qed.

Lemma configured_cfg j client c : configured !! j = Some (client, c) ->
  ((fun l => client_cfg l (common_cfg zero_cfg)) <$> clients) !! j = Some c /\ (CLIENT_ID <$> clients) !! j = Some client.
Proof using Type.
  unfold configured. rewrite !list_lookup_fmap. destruct (clients !! j) as [l|]; [|done].
  by intros [= <- <-].
Qed.

(** An identifier that occurs once is found where it is. *)
Lemma find_client_nodup client i j (t : list (Z * etss_flash_fs_ctx_t)) :
  NoDup t.*1 -> t.*1 !! j = Some client -> find_client client i t = Some (i + j)%nat.
Proof using Type.
  revert i j. induction t as [|[a x] t IH]; intros i j Hnd Hj; [done|]. apply NoDup_cons in Hnd as [Hni Hnd].
  destruct j as [|j]; simpl in *.
  - injection Hj as ->. by rewrite Z.eqb_refl, Nat.add_0_r.
  - destruct (Z.eqb_spec a client) as [->|].
    + destruct Hni. by eapply list_elem_of_lookup_2.
    + rewrite (IH (S i) j) by done. f_equal. lia.
Qed.

Lemma bootable_same (c : etss_flash_fs_config_t) (Hc : cfg_ok c) (Ha : area_ok c) (w w' : sf_world D) v :
  same_image (sf_image c w) (sf_image c w') -> bootable c (sf_image c w) v -> bootable c (sf_image c w') v.
Proof using Type.
  intros Him [Hm|[Hsel ->]]; [left; exact (mounts_same (FL := image_laws c Ha) c Hc _ _ _ Him Hm)|right]. split; [|done]. rewrite <- Hsel.
  set (x := fresh_ctx c).
  assert (upto (FL := image_laws c Ha) nowhere {| fs_ctx := x; fs_env := w |} {| fs_ctx := x; fs_env := w' |}) as Hup.
  { split; [done|]. split; [intros b o _; apply Him|done]. }
  unfold FsDisk.selected, probe_spec, header_valid.
  by rewrite !(nw_hdr (FL := image_laws c Ha) c _ _ _ Hup), !(nw_xor (FL := image_laws c Ha) c _ _ _ Hup).
Qed.

(** The state after the first [i] clients: those are mounted, the areas of
    the others are as they were. *)
Record starting (vs : list (gmap (list Z) afile)) (i : Z) s : Prop := {
  st_cfg : fs_cfg_etss s = (fun l => client_cfg l (common_cfg zero_cfg)) <$> clients;
  st_ids : (etss_fs_ctx_tbl s).*1 = CLIENT_ID <$> clients;
  st_boot : booted (flash s);
  st_done : forall j client c, Z.of_nat j < i -> configured !! j = Some (client, c) -> exists x v (Ha : area_ok c),
    vs !! j = Some v /\ etss_fs_ctx_tbl s !! j = Some (client, x) /\
    mounted_on c Ha false x (flash s) /\ files_of c x (flash s) = v;
  st_todo : forall j client c, i <= Z.of_nat j -> configured !! j = Some (client, c) -> exists v,
    vs !! j = Some v /\ bootable c (sf_image c (flash s)) v
}.

Context (Hcs : clients_ok configured).

Lemma wp_start_next vs i s : 0 <= i < Z.of_nat (length clients) -> starting vs i s ->
  wp (s ← get; or_return (etss_flash_fs_init_ctx_and_prepare (Z.to_nat i) (fs_cfg_etss s !! Z.to_nat i))
        ETSS_ERR_STORAGE_FAILURE) s (fun r s' =>
    match r with Ok _ => starting vs (i + 1) s' | Err _ => False end).
Proof.
  intros Hi [Hcfg Hids Hb Hdone Htodo]. apply wp_bind. unfold wp at 1. cbn [get fst snd].
  destruct (lookup_lt_is_Some_2 clients (Z.to_nat i) ltac:(lia)) as [l Hl].
  set (c := client_cfg l (common_cfg zero_cfg)).
  assert (configured !! Z.to_nat i = Some (CLIENT_ID l, c)) as Hci.
  { unfold configured. by rewrite list_lookup_fmap, Hl. }
  rewrite Hcfg, list_lookup_fmap, Hl. cbn [fmap option_fmap option_map]. fold c.
  destruct (ck_cfg _ Hcs _ _ _ Hci) as (Hc & Ha & _).
  destruct (Htodo (Z.to_nat i) _ _ ltac:(lia) Hci) as (v & Hv & Hboot).
  assert (exists x0, etss_fs_ctx_tbl s !! Z.to_nat i = Some (CLIENT_ID l, x0)) as [x0 He].
  { assert ((etss_fs_ctx_tbl s).*1 !! Z.to_nat i = Some (CLIENT_ID l)) as H by (by rewrite Hids, list_lookup_fmap, Hl).
    rewrite list_lookup_fmap in H. destruct (etss_fs_ctx_tbl s !! Z.to_nat i) as [[a x0]|]; simplify_eq/=.
    by exists x0. }
  apply wp_or_return. eapply wp_mono.
  { apply (wp_start_client c Hc Ha (dimg (device (flash s))) s (Z.to_nat i) (CLIENT_ID l) x0 v);
      [done..|apply fence_self|done]. }
  intros r s' (-> & x & Ht & Hcf & Hb' & Hf' & Hm & Hfi).
  assert (forall j client c', j <> Z.to_nat i -> configured !! j = Some (client, c') ->
    same_image (sf_image c' (flash s)) (sf_image c' (flash s'))) as Him.
  { intros j client c' Hn Hj. destruct (ck_cfg _ Hcs _ _ _ Hj) as (_ & Ha' & _).
    apply (fence_image c c' (dimg (device (flash s)))); [done| |apply fence_self|done].
    by apply (ck_apart _ Hcs (Z.to_nat i) j (CLIENT_ID l) c client c'). }
  split; [congruence| |done|..].
  - rewrite <- Hids, Ht. apply (table_ids _ _ (Z.to_nat i) (CLIENT_ID l) x0 x); [done| |].
    + apply list_lookup_insert_eq. by eapply lookup_lt_Some.
    + intros j Hn. by apply list_lookup_insert_ne.
  - intros j client c' Hji Hj. rewrite Ht. destruct (decide (j = Z.to_nat i)) as [->|Hn].
    + assert (client = CLIENT_ID l /\ c' = c) as [-> ->] by (split; congruence). exists x, v, Ha.
      split_and!; [done| |done|done]. apply list_lookup_insert_eq. by eapply lookup_lt_Some.
    + destruct (Hdone j client c' ltac:(lia) Hj) as (y & v' & Ha' & Hv' & He' & Hm' & Hf'').
      destruct (ck_cfg _ Hcs _ _ _ Hj) as (Hc' & _).
      destruct (mounted_on_same c' Hc' Ha' false y _ _ (Him j client c' Hn Hj) Hm') as [Hm2 Hv2].
      exists y, v', Ha'. rewrite list_lookup_insert_ne by done. split_and!; [done..|].
      unfold files_of in *. congruence.
  - intros j client c' Hji Hj. destruct (Htodo j client c' ltac:(lia) Hj) as (v' & Hv' & Hbt).
    exists v'. split; [done|]. destruct (ck_cfg _ Hcs _ _ _ Hj) as (Hc' & Ha' & _).
    apply (bootable_same c' Hc' Ha' (flash s)); [|done]. apply (Him j client c'); [lia|done].
Qed.

(** The state before the start: a working device, a table of the layout's size,
    and every client's area holding a file system or none. *)
Record powered_up (vs : list (gmap (list Z) afile)) s : Prop := {
  pu_dev : dev_healthy (device (flash s));
  pu_init : _is_initialized (secureflash (flash s)) = true -> booted (flash s);
  pu_table : length (etss_fs_ctx_tbl s) = length clients;
  pu_areas : forall j client c, configured !! j = Some (client, c) -> exists v,
    vs !! j = Some v /\ bootable c (sf_image c (flash s)) v
}.

Lemma wp_etss_init vs s :
  (length clients <= 4)%nat -> NoDup (CLIENT_ID <$> clients) ->
  security_storage (security_feature dev_info) = true -> powered_up vs s ->
  wp etss_init s (fun r s' => r = Ok tt /\ service configured vs s').
Proof.
  intros Hn Hnd Hfeat [Hd Hi Hlen Hareas]. unfold etss_init.
  destruct (init_boots (flash s) Hd Hi) as ([] & w & Hrun & _ & Hbw).
  pose proof (init_calm (flash s)) as [Hmem _]. rewrite Hrun in Hmem. cbn [snd] in Hmem.
  apply wp_bind, wp_attempt. unfold wp at 1, on_flash. rewrite Hrun. cbn [fst snd].
  set (s1 := set_flash w s).
  assert (booted (flash s1)) as Hb1 by exact Hbw.
  apply wp_bind. unfold wp at 1. rewrite supports_storage by done. cbn [fst snd negb].
  apply wp_bind. unfold init_fs_cfg. apply wp_bind, wp_modify, wp_modify.
  match goal with |- wp _ ?st _ => set (s2 := st) end.
  apply (wp_for_acc (fun i _ => starting vs i)).
  - split.
    + apply client_cfgs_all, Hn.
    + by apply client_ids_all.
    + exact Hb1.
    + lia.
    + intros j client c _ Hj. destruct (Hareas j client c Hj) as (v & Hv & Hbt). exists v. split; [done|].
      destruct (ck_cfg _ Hcs _ _ _ Hj) as (Hc & Ha & _).
      apply (bootable_same c Hc Ha (flash s)); [|exact Hbt]. by apply sf_image_same.
  - intros i [] s3 Hir Hst. eapply wp_mono; [by apply (wp_start_next vs i)|].
    intros [[]|e] s4 H; [exact H|done].
  - intros [] s3 [_ Hids Hb Hdone _]. split; [done|]. split; [exact Hb|].
    intros j client c Hj. assert (Z.of_nat j < 0 + Z.of_nat SECURE_FLASH_CLIENT_NUM) as Hjn.
    { apply lookup_lt_Some in Hj. unfold configured in Hj. rewrite length_fmap in Hj.
      unfold SECURE_FLASH_CLIENT_NUM. lia. }
    destruct (Hdone j client c Hjn Hj) as (x & v & Ha & Hv & He & Hm & Hf). exists x, v.
    split; [done|]. split; [|done]. split; [|done|by exists Ha].
    apply (find_client_nodup client 0 j); [by rewrite Hids|].
    rewrite Hids. by destruct (configured_cfg j client c Hj) as [_ ->].
Qed.
End Init.

