(* ===== verification/EtssRefine.v ===== *)
(** * The secure storage service as an automaton over files

    What each request does to the files of the clients, and the refinement:
    every run of requests, of any clients in any order, is a run of an
    automaton over a finite map of files per client.  A client whose file
    system refused a replacement is marked: its look-ups and all requests of
    the others are served as before.  The run is followed up to the first
    request that the code does not survive ([damaging]): an update of a marked
    file system, or the replacement or removal of a file without room. *)
From Stdlib Require Import ZArith Lia.
From stdpp Require Import base list numbers gmap functions options.
From S2P Require Import Prelude.
From S2P Require Import EtssUtils.
From S2P Require Import FlashFsDefs.
From S2P Require Import FlashFs.
From S2P Require Import MblockSpec.
From S2P Require Import FsReads.
From S2P Require Import FsTables.
From S2P Require Import FsDisk.
From S2P Require Import FsCommit.
From S2P Require Import FsRead.
From S2P Require Import FsWrite.
From S2P Require Import FsOps.
From S2P Require Import FsRefine.
From S2P Require Import SpiNor.
From S2P Require Import SecureFlash.
From S2P Require Import SecureFlashSpec.
From S2P Require Import SecureFlashFs.
From S2P Require Import PsaApi.
From S2P Require Import EtssService.
From S2P Require Import EtssSpec.
From S2P Require Import EtssClients.

#[local] Set Default Proof Using "Type*".

Section Storage.
Context {D P : Type} {SO : SpiOps D} {JO : JedecOps D} {PO : PsaOps P} {CF : EtssConfig}.
Context {JL : JedecLaws D} {PL : PsaLaws P}.
Context (cs : list (Z * etss_flash_fs_config_t)) (Hcs : clients_ok cs).
Context (Hfeat : security_storage (security_feature dev_info) = true).
Implicit Types s : etss_state D P.
Implicit Types ms : nat -> bool.
Implicit Types vs : list (gmap (list Z) afile).
Implicit Types v : gmap (list Z) afile.
Implicit Types j : nat.

(** A request of client [j], whose files are [v]. *)
Record asked ms vs s j (client : Z) (c : etss_flash_fs_config_t) v : Prop := {
  aq_hosts : hosts cs ms vs s;
  aq_client : cs !! j = Some (client, c);
  aq_files : vs !! j = Some v
}.

Definition request_of vs s j (client : Z) (c : etss_flash_fs_config_t) v : Prop :=
  asked unmarked vs s j client c v.

(** Client [j] may get a mark. *)
Definition mark (b : bool) j ms : nat -> bool := if b then <[j := true]> ms else ms.

Lemma mark_ne b j k ms : k <> j -> mark b j ms k = ms k.
Proof using Type. intros H. destruct b; [by apply fn_lookup_insert_ne|done]. Qed.
Lemma mark_eq b j ms : ms j = false -> mark b j ms j = b.
Proof using Type. intros H. destruct b; [apply fn_lookup_insert|done]. Qed.

(** Every client's files are on the flash for the next mount. *)
Lemma hosts_mounts ms vs s j client c v : asked ms vs s j client c v -> mounts c (sf_image c (flash s)) v.
Proof using Type.
  intros [[Hb Hf] Hj Hv]. destruct (Hf _ _ _ Hj) as (x & v' & Hv' & [_ _ [Ha Hm]] & Hx).
  assert (v = files_of c x (flash s)) as -> by congruence. exact (usable_mounts c _ _ Hm).
Qed.

Lemma hosts_set ms vs s j client c v uid n cf :
  asked ms vs s j client c v -> transfer_ok c -> bytes_ok s ->
  uid_ok uid -> flags_supported cf = true -> 0 <= n <= 4294901760 ->
  n <= Z.of_nat (length (in_data (psa s) (h_of s) 1)) ->
  let fid := etss_get_fid client uid in
  (forall F, v !! fid = Some F -> write_once F = false ->
    replaces c v fid (set_flags cf) n = true -> 0 < af_max F) ->
  (from_option write_once false (v !! fid) = false -> ms j = false) ->
  wp (etss_set client uid n cf) s (fun r s' =>
    bytes_ok s' /\ replies (psa s') = replies (psa s) /\
    if from_option write_once false (v !! fid)
    then r = Err ETSS_ERR_NOT_PERMITTED /\ hosts cs ms vs s'
    else exists x (Ha : area_ok c), etss_fs_ctx_tbl s !! j = Some (client, x) /\
      match r with
      | Ok _ => has_place c Ha (dimg (device (flash s))) x (flash s) fid (set_flags cf) n /\
          hosts cs ms (<[j := <[fid := stored c n cf (in_data (psa s) (h_of s) 1)]> v]> vs) s'
      | Err _ => ~ has_place c Ha (dimg (device (flash s))) x (flash s) fid (set_flags cf) n /\
          creates c v fid (set_flags cf) n = true /\
          hosts cs (mark (replaces c v fid (set_flags cf) n) j ms) vs s'
      end).
Proof.
  intros [Hsv Hj Hv] Ht Hb Hu Hcf Hn Hin fid Hold Hmk.
  destruct (hosts_client cs ms vs s j client c v Hcs Hsv Hj Hv) as (x & Ha & Hc & Hal & Hm & Hfi).
  eapply wp_mono.
  { apply (wp_set c Hc Ha client Hal Hfeat (dimg (device (flash s))) uid n cf s j x Ht Hm Hb);
      [split; try done|]; by rewrite Hfi. }
  intros r s' (Hres & Hst & Hb' & Hrep). split; [exact Hb'|]. split; [exact Hrep|].
  pose proof (ma_entry _ _ _ _ _ _ _ _ Hm) as He.
  assert (forall mk x', selected c Ha client (dimg (device (flash s))) (mark mk j ms j) s' j x' ->
    hosts cs (mark mk j ms) (<[j := files_of c x' (flash s')]> vs) s') as Hstep.
  { intros mk x' Hs'. eapply (hosts_step cs ms _ vs s s' j client c Ha x x'); try done.
    intros k Hk. by apply mark_ne. }
  unfold set_result in Hres. rewrite Hfi in Hres. fold fid in Hres. destruct (from_option write_once false _).
  - destruct Hres as (-> & x' & Hs' & Hv'). split; [done|]. specialize (Hstep false x' Hs').
    change (files_of c x' (flash s') = v) in Hv'. by rewrite Hv', list_insert_id in Hstep.
  - specialize (Hmk eq_refl). exists x, Ha. split; [exact He|]. destruct r as [[]|e].
    + destruct Hres as (Hpl & x' & Hs' & Hv'). split; [exact Hpl|]. rewrite <- Hv'.
      apply (Hstep false). by rewrite mark_eq.
    + destruct Hres as (Hpl & x' & Hs' & Hv'). split; [exact Hpl|].
      split; [by apply (no_place_creates c Ha (dimg (device (flash s))) x (flash s)) in Hpl; rewrite Hfi in Hpl|].
      rewrite <- (mark_eq _ j ms Hmk) in Hs'. apply Hstep in Hs'.
      change (files_of c x' (flash s') = v) in Hv'. by rewrite Hv', list_insert_id in Hs'.
Qed.

(** Without marks. *)
Lemma service_set vs s j client c v uid n cf :
  request_of vs s j client c v -> transfer_ok c -> bytes_ok s ->
  uid_ok uid -> flags_supported cf = true -> 0 <= n <= 4294901760 ->
  n <= Z.of_nat (length (in_data (psa s) (h_of s) 1)) ->
  (forall F, v !! etss_get_fid client uid = Some F -> 0 < af_max F) ->
  wp (etss_set client uid n cf) s (fun r s' =>
    let fid := etss_get_fid client uid in
    bytes_ok s' /\ replies (psa s') = replies (psa s) /\
    if from_option write_once false (v !! fid)
    then r = Err ETSS_ERR_NOT_PERMITTED /\ service cs vs s'
    else exists x (Ha : area_ok c), etss_fs_ctx_tbl s !! j = Some (client, x) /\
      match r with
      | Ok _ => has_place c Ha (dimg (device (flash s))) x (flash s) fid (set_flags cf) n /\
          service cs (<[j := <[fid := stored c n cf (in_data (psa s) (h_of s) 1)]> v]> vs) s'
      | Err _ => ~ has_place c Ha (dimg (device (flash s))) x (flash s) fid (set_flags cf) n /\
          mounts c (sf_image c (flash s')) v /\ others cs vs s' j
      end).
Proof.
  intros Hrq Ht Hb Hu Hcf Hn Hin Hold. pose proof Hrq as [_ Hj Hv].
  eapply wp_mono; [by apply (hosts_set unmarked vs s j client c v uid n cf Hrq Ht Hb Hu Hcf Hn Hin); auto|].
  intros r s' (Hb' & Hrep & H). split; [done|]. split; [done|].
  destruct (from_option write_once false _); [done|]. destruct H as (x & Ha & He & H). exists x, Ha.
  split; [done|]. destruct r as [[]|e]; [done|]. destruct H as (Hno & _ & Hh). split; [done|].
  split; [by eapply hosts_mounts|]. intros k client' c' Hk Hkc.
  destruct (ho_files _ _ _ _ Hh k client' c' Hkc) as (y & v' & Hv' & Hm & Hf). rewrite mark_ne in Hm by done.
  by exists y, v'.
Qed.

(** A request that only reads. *)
Lemma hosts_same ms vs s s' j client c v x x' Ha : asked ms vs s j client c v ->
  mounted_at c Ha client (dimg (device (flash s))) (ms j) s j x ->
  selected c Ha client (dimg (device (flash s))) (ms j) s' j x' -> client_step client j s s' ->
  files_of c x' (flash s') = v -> hosts cs ms vs s'.
Proof.
  intros [Hsv Hj Hv] Hm Hs Hst Hv'.
  pose proof (hosts_step cs ms ms vs s s' j client c Ha x x' Hcs Hsv Hj (ma_entry _ _ _ _ _ _ _ _ Hm)
    (fun _ _ => eq_refl) Hs Hst) as H.
  by rewrite Hv', list_insert_id in H.
Qed.

Lemma hosts_get ms vs s j client c v uid off n :
  asked ms vs s j client c v -> 0 < asset_data_size -> bytes_ok s ->
  uid_ok uid -> is_u32 off -> is_u32 n ->
  wp (etss_get client uid off n) s (fun r s' =>
    let '(r', bs) := get_spec v (etss_get_fid client uid) off n in
    r = r' /\ answered s s' bs /\ bytes_ok s' /\ hosts cs ms vs s').
Proof.
  intros Hrq Hb0 Hb Hu Hoff Hn.
  destruct (hosts_client cs ms vs s j client c v Hcs (aq_hosts _ _ _ _ _ _ _ Hrq) (aq_client _ _ _ _ _ _ _ Hrq)
    (aq_files _ _ _ _ _ _ _ Hrq)) as (x & Ha & Hc & Hal & Hm & Hfi).
  eapply wp_mono; [by apply (wp_get c Hc Ha client Hal Hfeat (dimg (device (flash s))) uid off n s j x Hm)|].
  intros r s' H. cbv beta in H. rewrite Hfi in H. destruct (get_spec v _ off n) as [r' bs].
  destruct H as (-> & x' & Hs' & Hst & Hv' & Hb' & Hans). split; [done|]. split; [done|]. split; [done|].
  by apply (hosts_same ms vs s s' j client c v x x' Ha).
Qed.

Lemma service_get vs s j client c v uid off n :
  request_of vs s j client c v -> 0 < asset_data_size -> bytes_ok s ->
  uid_ok uid -> is_u32 off -> is_u32 n ->
  wp (etss_get client uid off n) s (fun r s' =>
    let '(r', bs) := get_spec v (etss_get_fid client uid) off n in
    r = r' /\ answered s s' bs /\ bytes_ok s' /\ service cs vs s').
Proof. apply hosts_get. Qed.

Lemma hosts_info ms vs s j client c v uid : asked ms vs s j client c v -> uid_ok uid ->
  wp (etss_get_info client uid) s (fun r s' =>
    r = get_info_spec v (etss_get_fid client uid) /\ asset_data s' = asset_data s /\ psa s' = psa s /\
    hosts cs ms vs s').
Proof.
  intros Hrq Hu.
  destruct (hosts_client cs ms vs s j client c v Hcs (aq_hosts _ _ _ _ _ _ _ Hrq) (aq_client _ _ _ _ _ _ _ Hrq)
    (aq_files _ _ _ _ _ _ _ Hrq)) as (x & Ha & Hc & Hal & Hm & Hfi).
  eapply wp_mono; [by apply (wp_get_info c Hc Ha client Hal Hfeat (dimg (device (flash s))) uid s j x Hm)|].
  intros r s' (Hr & Hst & Hd & Hp & x' & Hs' & Hv'). rewrite Hfi in *. split_and!; [done..|].
  by apply (hosts_same ms vs s s' j client c v x x' Ha).
Qed.

Lemma hosts_remove ms vs s j client c v uid : asked ms vs s j client c v -> uid_ok uid ->
  (forall F, v !! etss_get_fid client uid = Some F -> write_once F = false -> ms j = false /\ 0 < af_max F) ->
  wp (etss_remove client uid) s (fun r s' =>
    let '(r', v') := remove_spec v (etss_get_fid client uid) in
    r = r' /\ asset_data s' = asset_data s /\ psa s' = psa s /\ hosts cs ms (<[j := v']> vs) s').
Proof.
  intros Hrq Hu Hpos. destruct (Hrq) as [Hsv Hj Hv].
  destruct (hosts_client cs ms vs s j client c v Hcs Hsv Hj Hv) as (x & Ha & Hc & Hal & Hm & Hfi).
  eapply wp_mono.
  { apply (wp_remove c Hc Ha client Hal Hfeat (dimg (device (flash s))) uid s j x Hm Hu). by rewrite Hfi. }
  intros r s' H. cbv beta in H. rewrite Hfi in H. destruct (remove_spec v _) as [r' v'].
  destruct H as (Hr & Hst & Hd & Hp & x' & Hs' & Hv'). split_and!; [done..|].
  pose proof (hosts_step cs ms ms vs s s' j client c Ha x x' Hcs Hsv Hj (ma_entry _ _ _ _ _ _ _ _ Hm)
    (fun _ _ => eq_refl) Hs' Hst) as H.
  change (files_of c x' (flash s') = v') in Hv'. by rewrite Hv' in H.
Qed.

(** ** The automaton *)

(** A request of the four storage functions; [data] is the data of the
    message.  The answers, with the bytes sent. *)
Inductive sreq : Type :=
  | SSet (uid n create_flags : Z) (data : list Z)
  | SGet (uid offset n : Z)
  | SInfo (uid : Z)
  | SRemove (uid : Z).
Inductive sres : Type :=
  | SDone (r : outcome unit)
  | SBytes (r : outcome Z) (bs : list Z)
  | SFacts (r : outcome psa_storage_info_t).

Definition uid_of (q : sreq) : Z :=
  match q with SSet uid _ _ _ | SGet uid _ _ | SInfo uid | SRemove uid => uid end.

(** The reserved identifier and unknown flags are rejected. *)
Definition rejected (q : sreq) : option Z :=
  if uid_of q =? ETSS_INVALID_UID then Some ETSS_ERR_INVALID_ARGUMENT
  else match q with
       | SSet _ _ cf _ => if flags_supported cf then None else Some ETSS_ERR_NOT_SUPPORTED
       | _ => None
       end.

Definition failure (q : sreq) (e : Z) : sres :=
  match q with
  | SSet _ _ _ _ | SRemove _ => SDone (Err e)
  | SGet _ _ _ => SBytes (Err e) []
  | SInfo _ => SFacts (Err e)
  end.

(** The reference: a request to a client's files, as a function. *)
Definition aserve (client : Z) (c : etss_flash_fs_config_t) v (q : sreq) : sres * gmap (list Z) afile :=
  let fid := etss_get_fid client (uid_of q) in
  match rejected q with
  | Some e => (failure q e, v)
  | None =>
      match q with
      | SSet _ n cf data =>
          if from_option write_once false (v !! fid) then (SDone (Err ETSS_ERR_NOT_PERMITTED), v)
          else (SDone (Ok tt), <[fid := stored c n cf data]> v)
      | SGet _ off n => let '(r, bs) := get_spec v fid off n in (SBytes r bs, v)
      | SInfo _ => (SFacts (get_info_spec v fid), v)
      | SRemove _ => let '(r, v') := remove_spec v fid in (SDone r, v')
      end
  end.

(** What any message holds: a 64-bit identifier and 32-bit sizes, offsets and
    flags, with as much data as announced.  A file of more than [2^32 - 2^16]
    bytes has no message. *)
Definition sreq_ok (q : sreq) : Prop :=
  0 <= uid_of q < 18446744073709551616 /\
  match q with
  | SSet uid n cf data => 0 <= n <= 4294901760 /\ n <= Z.of_nat (length data)
  | SGet uid off n => is_u32 off /\ is_u32 n
  | SInfo uid | SRemove uid => True
  end.

(** A request that changes the client's file. *)
Definition updates (client : Z) v (q : sreq) : bool :=
  let F := v !! etss_get_fid client (uid_of q) in
  match rejected q, q with
  | None, SSet _ _ _ _ => negb (from_option write_once false F)
  | None, SRemove _ => from_option (fun F => negb (write_once F)) false F
  | _, _ => false
  end.

(** A request that gives up the entry of the client's file. *)
Definition vacates (client : Z) (c : etss_flash_fs_config_t) v (q : sreq) : bool :=
  match q with
  | SSet uid n cf _ => replaces c v (etss_get_fid client uid) (set_flags cf) n
  | SRemove _ => true
  | _ => false
  end.

(** A request of the code: the function that serves it, and its answer. *)
Inductive served (client : Z) s : sreq -> sres -> etss_state D P -> Prop :=
  | served_set uid n cf r s' :
      etss_set client uid n cf s = (r, s') ->
      served client s (SSet uid n cf (in_data (psa s) (h_of s) 1)) (SDone r) s'
  | served_get uid off n r bs s' :
      etss_get client uid off n s = (r, s') -> answered s s' bs ->
      served client s (SGet uid off n) (SBytes r bs) s'
  | served_info uid r s' :
      etss_get_info client uid s = (r, s') -> served client s (SInfo uid) (SFacts r) s'
  | served_remove uid r s' :
      etss_remove client uid s = (r, s') -> served client s (SRemove uid) (SDone r) s'.

Definition event : Type := nat * sreq * sres.

(** Runs of the code; the next message is any message, and the framework may
    change in any way. *)
Inductive crun : etss_state D P -> list event -> etss_state D P -> Prop :=
  | crun_nil s : crun s [] s
  | crun_message s m p es s' : crun (set_msg m (set_psa p s)) es s' -> crun s es s'
  | crun_request s j client c q a s1 es s' :
      cs !! j = Some (client, c) -> sreq_ok q -> served client s q a s1 ->
      crun s1 es s' -> crun s ((j, q, a) :: es) s'.

(** Steps of the automaton: a request is served as the reference says, by a
    marked file system only if it changes no file; or it is refused, for want
    of a place for a new entry, and then no file changes. *)
Inductive astep ms vs : event -> (nat -> bool) -> list (gmap (list Z) afile) -> Prop :=
  | as_served j client c v v' q a :
      cs !! j = Some (client, c) -> vs !! j = Some v ->
      (ms j = true -> updates client v q = false) -> aserve client c v q = (a, v') ->
      astep ms vs (j, q, a) ms (<[j := v']> vs)
  | as_refused j client c v uid n cf data e :
      let q := SSet uid n cf data in let fid := etss_get_fid client uid in
      cs !! j = Some (client, c) -> vs !! j = Some v -> ms j = false ->
      updates client v q = true -> creates c v fid (set_flags cf) n = true ->
      astep ms vs (j, q, SDone (Err e)) (mark (vacates client c v q) j ms) vs.

Inductive arun : (nat -> bool) -> list (gmap (list Z) afile) -> list event ->
    (nat -> bool) -> list (gmap (list Z) afile) -> Prop :=
  | arun_nil ms vs : arun ms vs [] ms vs
  | arun_cons ms vs e ms1 vs1 es ms' vs' :
      astep ms vs e ms1 vs1 -> arun ms1 vs1 es ms' vs' -> arun ms vs (e :: es) ms' vs'.

(** The updates that the code does not survive: of a marked file system, and
    those that give up the entry of a file without room for a byte. *)
Definition damaging ms vs (e : event) : Prop :=
  exists j client c v q a, e = (j, q, a) /\ cs !! j = Some (client, c) /\ vs !! j = Some v /\
    updates client v q = true /\
    (ms j = true \/
     (vacates client c v q = true /\
      exists F, v !! etss_get_fid client (uid_of q) = Some F /\ af_max F <= 0)).

Record serving ms vs s : Prop := {
  sg_hosts : hosts cs ms vs s;
  sg_bytes : bytes_ok s
}.

Context (Htr : forall j client c, cs !! j = Some (client, c) -> transfer_ok c) (Hbuf : 0 < asset_data_size).

(** Rejected requests do not get to the flash. *)
Lemma storage_request_rejected client uid b s : booted (flash s) ->
  (uid = ETSS_INVALID_UID -> storage_request client uid b s = (Err ETSS_ERR_INVALID_ARGUMENT, s)) /\
  (uid <> ETSS_INVALID_UID -> storage_request client uid false s = (Err ETSS_ERR_NOT_SUPPORTED, s)).
Proof using Hfeat JL.
  intros Hb. unfold storage_request, mbind, ST_bind. rewrite supports_storage by done. cbn [negb].
  split; [by intros ->|]. intros Hu. by rewrite (proj2 (Z.eqb_neq _ _) Hu).
Qed.

Lemma served_rejected client s q a s' e : booted (flash s) -> rejected q = Some e ->
  served client s q a s' -> a = failure q e /\ s' = s.
Proof using Hfeat JL.
  intros Hb He Hs. destruct Hs as [uid n cf r s' Hr|uid off n r bs s' Hr Hans|uid r s' Hr|uid r s' Hr];
    unfold rejected in He; cbn [uid_of failure] in *;
    destruct (storage_request_rejected client uid true s Hb) as [H1 _];
    destruct (Z.eqb_spec uid ETSS_INVALID_UID) as [Hu|Hu]; try done; simplify_eq.
  - destruct (storage_request_rejected client ETSS_INVALID_UID (flags_supported cf) s Hb) as [H2 _].
    unfold etss_set, mbind, ST_bind in Hr. rewrite H2 in Hr by done. by simplify_eq.
  - destruct (flags_supported cf) eqn:Hf; simplify_eq.
    destruct (storage_request_rejected client uid true s Hb) as [_ H2].
    unfold etss_set, mbind, ST_bind in Hr. rewrite Hf, H2 in Hr by done. by simplify_eq.
  - unfold etss_get, mbind, ST_bind in Hr. rewrite H1 in Hr by done. simplify_eq. split; [|done].
    f_equal. destruct Hans as [Hans _]. rewrite <- (app_nil_r (out_data _ _ 0)) in Hans at 1.
    by apply app_inj_1 in Hans as [_ <-].
  - unfold etss_get_info, mbind, ST_bind in Hr. rewrite H1 in Hr by done. by simplify_eq.
  - unfold etss_remove, mbind, ST_bind in Hr. rewrite H1 in Hr by done. by simplify_eq.
Qed.

(** A request that does no damage. *)
Definition harmless ms j client c v (q : sreq) : Prop :=
  updates client v q = true -> ms j = false /\
  (vacates client c v q = true ->
   forall F, v !! etss_get_fid client (uid_of q) = Some F -> 0 < af_max F).

Lemma damaging_or_harmless ms vs j client c v q a : cs !! j = Some (client, c) -> vs !! j = Some v ->
  damaging ms vs (j, q, a) \/ harmless ms j client c v q.
Proof using Type.
  intros Hj Hv. unfold harmless. destruct (updates client v q) eqn:Hu; [|by right].
  destruct (ms j) eqn:Hm; [left; exists j, client, c, v, q, a; by split_and!; auto|].
  destruct (vacates client c v q) eqn:Hva; [|by right].
  destruct (v !! etss_get_fid client (uid_of q)) as [F|] eqn:HF; [|by right].
  destruct (Z.ltb_spec 0 (af_max F)) as [Hpos|Hle]; [right; intros _; split; [done|]; by intros _ ? [= <-]|].
  left. exists j, client, c, v, q, a. split_and!; [done..|]. right. split; [done|]. by exists F.
Qed.

(** Its step. *)
Lemma serve_set ms vs s j client c v uid n cf r s' :
  let q := SSet uid n cf (in_data (psa s) (h_of s) 1) in
  serving ms vs s -> cs !! j = Some (client, c) -> vs !! j = Some v -> sreq_ok q -> rejected q = None ->
  harmless ms j client c v q -> etss_set client uid n cf s = (r, s') ->
  exists ms' vs', astep ms vs (j, q, SDone r) ms' vs' /\ serving ms' vs' s'.
Proof.
  intros q [Hh Hb] Hj Hv (Hu & Hn & Hin) Hrj Hsafe Hr. cbn [uid_of] in Hu.
  unfold harmless, updates in Hsafe. rewrite Hrj in Hsafe. pose proof Hrj as Hrj'.
  unfold rejected in Hrj. cbn [uid_of q] in *.
  destruct (Z.eqb_spec uid ETSS_INVALID_UID) as [|Hz]; [done|]. destruct (flags_supported cf) eqn:Hcf; [|done].
  unfold ETSS_INVALID_UID in Hz. cbn [vacates uid_of q] in Hsafe.
  set (fid := etss_get_fid client uid) in *.
  assert (from_option write_once false (v !! fid) = true \/
    from_option write_once false (v !! fid) = false) as Hw by (by destruct (from_option _ _ _); auto).
  pose proof (hosts_set ms vs s j client c v uid n cf ltac:(by split) (Htr _ _ _ Hj) Hb ltac:(unfold uid_ok; lia)
    Hcf Hn Hin) as H. fold fid in H. cbv zeta in H.
  destruct Hw as [Hw|Hw]; rewrite Hw in H, Hsafe; cbn [negb] in Hsafe.
  - specialize (H ltac:(intros F HF HwF; rewrite HF in Hw; cbn in Hw; congruence) ltac:(done)).
    unfold wp in H. rewrite Hr in H. cbn [fst snd] in H. destruct H as (Hb' & _ & -> & Hh').
    exists ms, vs. split; [|by split].
    rewrite <- (list_insert_id vs j v) at 2 by done. eapply as_served; [done..| |].
    + intros _. unfold updates. rewrite Hrj'. subst q. cbn [uid_of]. fold fid. by rewrite Hw.
    + unfold aserve. rewrite Hrj'. subst q. cbn [uid_of]. fold fid. by rewrite Hw.
  - destruct (Hsafe eq_refl) as [Hms Hpos].
    specialize (H ltac:(intros F HF _ Hrep; by apply Hpos) ltac:(done)).
    assert (updates client v q = true) as Hup by (unfold updates; rewrite Hrj'; cbn [uid_of q]; fold fid; by rewrite Hw).
    unfold wp in H. rewrite Hr in H. cbn [fst snd] in H. destruct H as (Hb' & _ & x & Ha & _ & H).
    destruct r as [[]|e].
    + destruct H as [_ Hh']. eexists ms, _. split; [|split; [exact Hh'|done]].
      eapply as_served; [done..|congruence|]. unfold aserve. rewrite Hrj'. subst q. cbn [uid_of]. fold fid. by rewrite Hw.
    + destruct H as (_ & Hcr & Hh'). eexists _, vs. split; [|split; [exact Hh'|done]].
      by apply as_refused.
Qed.

(** A request that changes no file, whatever the mark. *)
Lemma serve_unchanged ms vs j client c v q a s s' : cs !! j = Some (client, c) -> vs !! j = Some v ->
  updates client v q = false -> aserve client c v q = (a, v) -> serving ms vs s' ->
  exists ms' vs', astep ms vs (j, q, a) ms' vs' /\ serving ms' vs' s'.
Proof.
  intros Hj Hv Hu Ha Hs. exists ms, (<[j := v]> vs). split; [by eapply as_served|].
  by rewrite list_insert_id.
Qed.

Lemma rejected_updates client v q e : rejected q = Some e -> updates client v q = false.
Proof using Type. intros H. unfold updates. by rewrite H. Qed.

Lemma uid_accepted q : 0 <= uid_of q < 18446744073709551616 -> rejected q = None -> uid_ok (uid_of q).
Proof using Type.
  unfold rejected, uid_ok, ETSS_INVALID_UID. intros [Hl Hu] Hr.
  destruct (Z.eqb_spec (uid_of q) 0); [done|]. split; [|exact Hu]. apply Z.le_neq. by split.
Qed.

Lemma serve_get ms vs s j client c v uid off n r bs s' :
  let q := SGet uid off n in
  serving ms vs s -> cs !! j = Some (client, c) -> vs !! j = Some v -> sreq_ok q -> rejected q = None ->
  etss_get client uid off n s = (r, s') -> answered s s' bs ->
  exists ms' vs', astep ms vs (j, q, SBytes r bs) ms' vs' /\ serving ms' vs' s'.
Proof.
  intros q [Hh Hb] Hj Hv (Hu & Hoff & Hn) Hrj Hr [Hans _]. pose proof (uid_accepted q Hu Hrj) as Huid.
  pose proof (hosts_get ms vs s j client c v uid off n ltac:(by split) Hbuf Hb Huid Hoff Hn) as H.
  unfold wp in H. rewrite Hr in H. cbn [fst snd] in H.
  destruct (get_spec v _ off n) as [r' bs'] eqn:Hg. destruct H as (-> & [Hans' _] & Hb' & Hh').
  rewrite Hans in Hans'. apply app_inj_1 in Hans' as [_ ->]; [|done].
  apply (serve_unchanged ms vs j client c v q _ s); [done..| | |by split].
  - unfold updates. by rewrite Hrj.
  - unfold aserve. rewrite Hrj. unfold q. cbn [uid_of]. by rewrite Hg.
Qed.

Lemma serve_info ms vs s j client c v uid r s' :
  let q := SInfo uid in
  serving ms vs s -> cs !! j = Some (client, c) -> vs !! j = Some v -> sreq_ok q -> rejected q = None ->
  etss_get_info client uid s = (r, s') ->
  exists ms' vs', astep ms vs (j, q, SFacts r) ms' vs' /\ serving ms' vs' s'.
Proof.
  intros q [Hh Hb] Hj Hv [Hu _] Hrj Hr. pose proof (uid_accepted q Hu Hrj) as Huid.
  pose proof (hosts_info ms vs s j client c v uid ltac:(by split) Huid) as H.
  unfold wp in H. rewrite Hr in H. cbn [fst snd] in H. destruct H as (-> & Hd & _ & Hh').
  apply (serve_unchanged ms vs j client c v q _ s); [done..| | |split; [done|unfold bytes_ok; by rewrite Hd]].
  - unfold updates. by rewrite Hrj.
  - unfold aserve. by rewrite Hrj.
Qed.

Lemma serve_remove ms vs s j client c v uid r s' :
  let q := SRemove uid in
  serving ms vs s -> cs !! j = Some (client, c) -> vs !! j = Some v -> sreq_ok q -> rejected q = None ->
  harmless ms j client c v q -> etss_remove client uid s = (r, s') ->
  exists ms' vs', astep ms vs (j, q, SDone r) ms' vs' /\ serving ms' vs' s'.
Proof.
  intros q [Hh Hb] Hj Hv [Hu _] Hrj Hsafe Hr. pose proof (uid_accepted q Hu Hrj) as Huid.
  unfold harmless, updates in Hsafe. rewrite Hrj in Hsafe. unfold q in Hsafe. cbn [uid_of vacates] in Hsafe.
  pose proof (hosts_remove ms vs s j client c v uid ltac:(by split) Huid) as H.
  set (fid := etss_get_fid client uid) in *.
  specialize (H ltac:(intros F HF HwF; rewrite HF in Hsafe; cbn in Hsafe; rewrite HwF in Hsafe;
    destruct (Hsafe eq_refl) as [? Hp]; split; [done|by apply Hp])).
  unfold wp in H. rewrite Hr in H. cbn [fst snd] in H. destruct (remove_spec v fid) as [r' v'] eqn:Hrs.
  destruct H as (-> & Hd & _ & Hh'). exists ms, (<[j := v']> vs).
  split; [|split; [done|unfold bytes_ok; by rewrite Hd]]. eapply as_served; [done..| |].
  - intros Hms. unfold updates. rewrite Hrj. unfold q. cbn [uid_of]. fold fid.
    destruct (v !! fid) as [F|]; [|done]. cbn in *. destruct (write_once F); [done|].
    destruct (Hsafe eq_refl) as [Hms' _]. congruence.
  - unfold aserve. rewrite Hrj. unfold q. cbn [uid_of]. fold fid. by rewrite Hrs.
Qed.

(** Every request is a step of the automaton, or does damage. *)
Lemma served_step ms vs s j client c v q a s' :
  serving ms vs s -> cs !! j = Some (client, c) -> vs !! j = Some v -> sreq_ok q -> served client s q a s' ->
  (exists ms' vs', astep ms vs (j, q, a) ms' vs' /\ serving ms' vs' s') \/ damaging ms vs (j, q, a).
Proof.
  intros Hsg Hj Hv Hq Hs. destruct (damaging_or_harmless ms vs j client c v q a Hj Hv) as [|Hsafe]; [by right|left].
  destruct (rejected q) as [e|] eqn:Hrj.
  - destruct (served_rejected client s q a s' e (ho_boot _ _ _ _ (sg_hosts _ _ _ Hsg)) Hrj Hs) as [-> ->].
    apply (serve_unchanged ms vs j client c v q _ s); [done..|by eapply rejected_updates| |done].
    unfold aserve. by rewrite Hrj.
  - destruct Hs; [by eapply serve_set|by eapply serve_get|by eapply serve_info|by eapply serve_remove].
Qed.

(** A run of the code and of the automaton side by side, up to the end or to
    the first request that does damage. *)
Definition follows ms vs s (es : list event) s' (Q : (nat -> bool) -> list (gmap (list Z) afile) -> Prop) : Prop :=
  exists es1 es2 s1 ms1 vs1, es = es1 ++ es2 /\
    crun s es1 s1 /\ arun ms vs es1 ms1 vs1 /\ serving ms1 vs1 s1 /\ Q ms1 vs1 /\
    ((es2 = [] /\ s1 = s') \/ exists e es3, es2 = e :: es3 /\ damaging ms1 vs1 e).

Lemma run_refines ms vs s (es : list event) s' (Q : (nat -> bool) -> list (gmap (list Z) afile) -> Prop) :
  (forall ms vs e ms' vs', astep ms vs e ms' vs' -> Q ms vs -> Q ms' vs') ->
  serving ms vs s -> crun s es s' -> Q ms vs -> follows ms vs s es s' Q.
Proof.
  intros Hinv Hsg Hrun. revert ms vs Hsg.
  induction Hrun as [s|s m p es s' _ IH|s j client c q a s1 es s' Hj Hq Hs Hrun IH]; intros ms vs Hsg HQ.
  - exists [], [], s, ms, vs. split_and!; [done|apply crun_nil|apply arun_nil|done|done|by left].
  - destruct (IH ms vs) as (es1 & es2 & s1 & ms1 & vs1 & -> & Hc & H); [|done|].
    { destruct Hsg as [Hh Hby]. split; [by apply (hosts_ext cs ms vs s)|done]. }
    exists es1, es2, s1, ms1, vs1. split; [done|]. split; [by eapply crun_message|done].
  - destruct (ho_files _ _ _ _ (sg_hosts _ _ _ Hsg) j client c Hj) as (x & v & Hv & _).
    destruct (served_step ms vs s j client c v q a s1 Hsg Hj Hv Hq Hs) as [(ms' & vs' & Hst & Hsg')|Hdam].
    + destruct (IH ms' vs' Hsg') as (es1 & es2 & s2 & ms1 & vs1 & -> & Hc & Ha & H); [by eapply Hinv|].
      exists ((j, q, a) :: es1), es2, s2, ms1, vs1. split; [done|].
      split; [by eapply crun_request|]. split; [by eapply arun_cons|done].
    + exists [], ((j, q, a) :: es), s, ms, vs. split_and!; [done|apply crun_nil|apply arun_nil|done|done|].
      right. by exists (j, q, a), es.
Qed.

(** A write-once file survives every step of the automaton. *)
Lemma aserve_once client c v q a v' fid F : aserve client c v q = (a, v') ->
  v !! fid = Some F -> write_once F = true -> v' !! fid = Some F.
Proof using Type.
  intros Hq HF Hw. unfold aserve in Hq. destruct (rejected q); [by injection Hq as _ <-|].
  destruct q as [uid n cf data|uid off n|uid|uid]; cbn [uid_of] in Hq.
  - destruct (decide (etss_get_fid client uid = fid)) as [He|Hn].
    + rewrite He, HF in Hq. cbn [from_option] in Hq. rewrite Hw in Hq. by injection Hq as _ <-.
    + destruct (from_option _ _ _); injection Hq as _ <-; [done|]. by rewrite lookup_insert_ne.
  - destruct (get_spec _ _ _ _); by injection Hq as _ <-.
  - by injection Hq as _ <-.
  - unfold remove_spec in Hq. destruct (v !! etss_get_fid client uid) as [G|] eqn:HG.
    + destruct (write_once G) eqn:HwG; injection Hq as _ <-; [done|].
      rewrite lookup_delete_ne; [done|]. intros He. rewrite He, HF in HG. injection HG as <-. by rewrite Hw in HwG.
    + by injection Hq as _ <-.
Qed.

Lemma astep_once ms vs e ms' vs' j fid F : astep ms vs e ms' vs' -> write_once F = true ->
  (exists v, vs !! j = Some v /\ v !! fid = Some F) -> exists v', vs' !! j = Some v' /\ v' !! fid = Some F.
Proof using Type.
  intros Hst Hw (v & Hv & HF). destruct Hst as [k client c u u' q a Hk Hu _ Hq|]; [|by exists v].
  destruct (decide (k = j)) as [->|Hn].
  - exists u'. split; [apply list_lookup_insert_eq; by eapply lookup_lt_Some|].
    eapply aserve_once; [exact Hq| |done]. congruence.
  - exists v. by rewrite list_lookup_insert_ne.
Qed.
End Storage.
