(* ===== verification/EtssReqSpec.v ===== *)
(** * The request manager: one reply for every message

    None of the handlers replies, so the manager's own [psa_reply] is the only
    one; the bytes a client is sent for random numbers. *)
From Stdlib Require Import ZArith Lia.
From stdpp Require Import base list numbers gmap options.
From S2P Require Import Prelude.
From S2P Require Import EtssUtils.
From S2P Require Import FlashFsDefs.
From S2P Require Import FlashFs.
From S2P Require Import SpiNor.
From S2P Require Import SecureFlash.
From S2P Require Import SecureFlashSpec.
From S2P Require Import PsaApi.
From S2P Require Import EtssService.
From S2P Require Import EtssSpec.
From S2P Require Import EtssReqMngr.

#[local] Set Default Proof Using "Type*".

Section Replies.
Context {D P : Type} {SO : SpiOps D} {JO : JedecOps D} {PO : PsaOps P} {CF : EtssConfig}.
Context {MF : EtssManifest} {PL : PsaLaws P}.
Implicit Types s : etss_state D P.

(** The message stays, and nothing is replied. *)
Record silent s s' : Prop := {
  si_msg : msg s' = msg s;
  si_replies : replies (psa s') = replies (psa s)
}.

#[local] Instance silent_pre : PreOrder silent.
Proof. split; [done|]. intros s1 s2 s3 [H1 H2] [H3 H4]. split; congruence. Qed.

(** *** The primitives *)

Lemma silent_on_flash {A} (m : ST (sf_world D) A) : keeps silent (on_flash m).
Proof. intros s. unfold on_flash. by destruct (m (flash s)). Qed.

Lemma silent_on_ctx {A} i (m : FS (sf_world D) A) : keeps silent (on_ctx i m).
Proof. intros s. unfold on_ctx. destruct (etss_fs_ctx_tbl s !! i) as [[? ?]|]; [|done]. by destruct (m _). Qed.

Lemma silent_on_fs {A} (m : FS (sf_world D) A) : keeps silent (on_fs m).
Proof. intros s. unfold on_fs. destruct (fs_ctx_etss_ptr s); [apply silent_on_ctx|done]. Qed.

Lemma silent_read h i n : keeps silent (on_psa (psa_read h i n)).
Proof.
  intros s. unfold on_psa. pose proof (pl_read h i n (psa s)) as H.
  destruct (psa_read h i n (psa s)) as [bs p]. by split; [|apply H].
Qed.

Lemma silent_write h i bs : keeps silent (on_psa (fun p => (tt, psa_write h i bs p))).
Proof. intros s. split; [done|]. apply (pl_write h i bs (psa s)). Qed.

Lemma silent_modify f : (forall s, msg (f s) = msg s /\ psa (f s) = psa s) -> keeps silent (modify f).
Proof. intros H s. destruct (H s) as [H1 H2]. split; cbn; [done|by rewrite H2]. Qed.

#[local] Hint Resolve silent_on_flash silent_on_ctx silent_on_fs silent_read silent_write : keeps.
#[local] Hint Extern 1 (keeps silent (modify _)) => (apply silent_modify; done) : keeps.

(** *** The handlers *)

Lemma silent_req_read n : keeps silent (etss_req_mngr_read n).
Proof. unfold etss_req_mngr_read. keeps_walk. Qed.
Lemma silent_req_write bs n : keeps silent (etss_req_mngr_write bs n).
Proof. unfold etss_req_mngr_write. keeps_walk. Qed.
Lemma silent_supports f : keeps silent (supports (D := D) (P := P) f).
Proof. unfold supports. keeps_walk. Qed.
Lemma silent_get_fs_ctx client : keeps silent (etss_get_fs_ctx (D := D) (P := P) client).
Proof. unfold etss_get_fs_ctx. keeps_walk. Qed.
#[local] Hint Resolve silent_req_read silent_req_write silent_supports silent_get_fs_ctx : keeps.

Lemma silent_storage_request client uid b : keeps silent (storage_request (D := D) (P := P) client uid b).
Proof. unfold storage_request. keeps_walk. Qed.
Lemma silent_read_file_info : keeps silent (read_file_info (D := D) (P := P)).
Proof. unfold read_file_info. keeps_walk. Qed.
#[local] Hint Resolve silent_storage_request silent_read_file_info : keeps.

Lemma silent_set_loop fuel flgs n off : keeps silent (set_loop fuel flgs n off).
Proof. revert flgs n off. induction fuel as [|fuel IH]; intros; cbn [set_loop]; keeps_walk; apply IH. Qed.
Lemma silent_get_loop fuel off n : keeps silent (get_loop fuel off n).
Proof. revert off n. induction fuel as [|fuel IH]; intros; cbn [get_loop]; keeps_walk; apply IH. Qed.
Lemma silent_send_array buf n : keeps silent (send_array buf n).
Proof. unfold send_array. keeps_walk. Qed.
#[local] Hint Resolve silent_send_array : keeps.
Lemma silent_random_loop fuel n l : keeps silent (random_loop fuel n l).
Proof. revert n l. induction fuel as [|fuel IH]; intros; cbn [random_loop]; keeps_walk; apply IH. Qed.
#[local] Hint Resolve silent_set_loop silent_get_loop silent_random_loop : keeps.

Lemma silent_set client uid n f : keeps silent (etss_set client uid n f).
Proof. unfold etss_set. keeps_walk. Qed.
Lemma silent_get client uid off n : keeps silent (etss_get client uid off n).
Proof. unfold etss_get. keeps_walk. Qed.
Lemma silent_get_info client uid : keeps silent (etss_get_info client uid).
Proof. unfold etss_get_info. keeps_walk. Qed.
Lemma silent_remove client uid : keeps silent (etss_remove client uid).
Proof. unfold etss_remove. keeps_walk. Qed.
Lemma silent_puf client n : keeps silent (etss_get_puf client n).
Proof. unfold etss_get_puf. keeps_walk. Qed.
Lemma silent_random client n : keeps silent (etss_generate_random_number client n).
Proof. unfold etss_generate_random_number. keeps_walk. Qed.
Lemma silent_mc_increment client mc : keeps silent (etss_mc_increment client mc).
Proof. unfold etss_mc_increment. keeps_walk. Qed.
Lemma silent_mc_get client mc n : keeps silent (etss_mc_get client mc n).
Proof. unfold etss_mc_get. keeps_walk. Qed.
#[local] Hint Resolve silent_set silent_get silent_get_info silent_remove silent_puf silent_random
  silent_mc_increment silent_mc_get : keeps.

Lemma silent_read_arg i n : keeps silent (read_arg i n).
Proof. unfold read_arg. keeps_walk. Qed.
Lemma silent_get_msg : keeps silent (get_msg (D := D) (P := P)).
Proof. unfold get_msg. keeps_walk. Qed.
#[local] Hint Resolve silent_read_arg silent_get_msg : keeps.

Lemma handlers_silent : Forall (fun h => keeps silent h.2) handlers.
Proof.
  unfold handlers. repeat apply Forall_cons_2; try apply Forall_nil_2; cbn [snd];
    unfold etss_set_ipc, etss_get_ipc, etss_get_info_ipc, etss_remove_ipc, etss_get_puf_ipc,
      etss_generate_random_number_ipc, etss_mc_increment_ipc, etss_mc_get_ipc; keeps_walk.
Qed.

(** *** One message *)

Lemma wp_reply st s : wp (reply st) s (fun r s' => r = Ok tt /\
  replies (psa s') = replies (psa s) ++ [(h_of s, st)]).
Proof. split; [done|]. apply (proj1 (pl_reply (handle (msg s)) st (psa s))). Qed.

(** The message [m] of the signal is answered once: with success for a
    connection, with the handler's status for a call. *)
Lemma wp_signal_handle sig pfn s st m p : keeps silent pfn ->
  psa_get sig (psa s) = (st, m, p) ->
  wp (etss_signal_handle sig pfn) s (fun r s' =>
    let s0 := set_msg m (set_psa p s) in
    if negb (st =? PSA_SUCCESS) then r = Ok tt /\ s' = set_psa p s
    else match type m with
    | PSA_IPC_CONNECT | PSA_IPC_DISCONNECT =>
        r = Ok tt /\ replies (psa s') = replies (psa s) ++ [(handle m, PSA_SUCCESS)]
    | PSA_IPC_CALL =>
        let st' := status_of (pfn s0).1 in
        if st' =? UNDEFINED then r = Err UNDEFINED
        else r = Ok tt /\ replies (psa s') = replies (psa s) ++ [(handle m, st')]
    | PSA_IPC_OTHER _ => r = Err PANIC
    end).
Proof.
  intros Hk Hget. pose proof (pl_get sig (psa s)) as Hrep. rewrite Hget in Hrep. cbn [snd] in Hrep.
  unfold etss_signal_handle. apply wp_bind. unfold wp at 1, on_psa. rewrite Hget. cbn [fst snd].
  destruct (negb (st =? PSA_SUCCESS)); [by apply wp_ret|].
  apply wp_bind, wp_modify. set (s0 := set_msg m (set_psa p s)).
  assert (replies (psa s0) = replies (psa s)) as Hr0 by exact Hrep.
  destruct (type m); [| |..].
  - eapply wp_mono; [apply wp_reply|]. intros r s' [-> H]. split; [done|]. by rewrite H, Hr0.
  - unfold call_and_reply. apply wp_bind, wp_attempt. pose proof (Hk s0) as [Hm Hr].
    unfold wp at 1. destruct (pfn s0) as [r s1]. cbn [fst snd] in *.
    destruct (status_of r =? UNDEFINED); [by apply wp_raise|].
    eapply wp_mono; [apply wp_reply|]. intros r' s' [-> H]. split; [done|].
    rewrite H, Hr, Hr0. unfold h_of. by rewrite Hm.
  - eapply wp_mono; [apply wp_reply|]. intros r s' [-> H]. split; [done|]. by rewrite H, Hr0.
  - by apply wp_raise.
Qed.

(** ** Random numbers *)

(** What is sent repeats the first [actual_size] bytes of the buffer that was
    never written. *)
Definition repeats (buf : list Z) (a n : Z) (bs : list Z) : Prop :=
  Z.of_nat (length bs) = n /\ forall i, 0 <= i < n -> nth_byte bs i = nth_byte buf (i mod a).

Lemma repeats_short buf a n : 0 <= n <= a -> n <= Z.of_nat (length buf) ->
  repeats buf a n (take (Z.to_nat n) buf).
Proof.
  intros Hn Hl. split; [rewrite length_take; lia|]. intros i Hi.
  rewrite nth_byte_take by lia. by rewrite Z.mod_small by lia.
Qed.

Lemma repeats_more buf a n bs : 0 < a <= Z.of_nat (length buf) -> 0 <= n -> repeats buf a n bs ->
  repeats buf a (a + n) (take (Z.to_nat a) buf ++ bs).
Proof.
  intros Ha Hn [Hl Hb]. split; [rewrite length_app, length_take; lia|]. intros i Hi.
  unfold nth_byte. destruct (Z.ltb_spec i a).
  - rewrite app_nth1 by (rewrite length_take; lia). rewrite Z.mod_small by lia. by apply nth_byte_take; lia.
  - rewrite app_nth2 by (rewrite length_take; lia). rewrite length_take.
    replace (Z.to_nat i - Z.to_nat a `min` length buf)%nat with (Z.to_nat (i - a)) by lia.
    specialize (Hb (i - a) ltac:(lia)). unfold nth_byte in Hb. rewrite Hb. do 2 f_equal.
    replace i with (i - a + 1 * a) at 2 by lia. by rewrite Z.mod_add by lia.
Qed.

Lemma wp_random_loop fuel n len s :
  0 < actual_size < 256 -> Z.min n actual_size <= Z.of_nat (length (indeterminate SECURE_FLASH_MAX_TRNG_SIZE)) ->
  0 <= n <= Z.of_nat fuel -> 0 <= len -> len + n < 4294967296 ->
  wp (random_loop fuel n len) s (fun r s' => r = Ok (len + n) /\ msg s' = msg s /\ exists bs,
    answered s s' bs /\ repeats (indeterminate SECURE_FLASH_MAX_TRNG_SIZE) actual_size n bs).
Proof.
  intros Ha Hbuf. revert n len s Hbuf. set (buf := indeterminate _) in *. set (a := actual_size) in *.
  induction fuel as [|fuel IH]; intros n len s Hbuf Hn Hl Hs; cbn [random_loop];
    (destruct (Z.gtb_spec n 0) as [Hp|Hz]; cbn [negb]; [|
      assert (n = 0) as -> by lia; apply wp_ret; rewrite Z.add_0_r; split; [done|]; split; [done|];
      exists []; split; [by apply answered_nil|split; [done|lia]]]); [lia|].
  apply wp_bind, wp_or_return. unfold wp at 1, on_flash. cbn [secureflash_get_trng mret ST_ret fst snd].
  fold a buf. rewrite min_spec.
  assert (w8 (Z.min n a) = Z.min n a) as -> by (apply Z.mod_small; lia). set (k := Z.min n a).
  apply wp_bind. destruct (req_mngr_write_spec buf k (set_flash (flash s) s)) as (p & Hw & Hans).
  unfold wp at 1, send_array. rewrite (proj2 (Z.leb_le _ _)) by lia. rewrite Hw. cbn [fst snd]. set (s1 := set_psa p _) in *.
  assert (answered s s1 (take (Z.to_nat k) buf)) as Hans1 by exact Hans.
  rewrite sub32_small, add32_small by lia.
  eapply wp_mono; [apply (IH (n - k) (len + k) s1); lia|].
  intros r s' (-> & Hm & bs & Hb & Hrep). split; [f_equal; lia|]. split; [exact Hm|].
  exists (take (Z.to_nat k) buf ++ bs). split; [by apply (answered_trans s s1)|].
  destruct (Z.leb_spec n a).
  - assert (k = n) as Hk by lia. rewrite Hk in *. destruct Hrep as [Hlen _]. rewrite Z.sub_diag in Hlen.
    destruct bs; [|simpl in Hlen; lia]. rewrite app_nil_r. apply repeats_short; lia.
  - assert (k = a) as Hk by lia. rewrite Hk in *. replace n with (a + (n - a)) by lia.
    apply repeats_more; [lia|lia|done].
Qed.

(** With an [actual_size] of zero a round sends nothing and starts over. *)
Lemma random_loop_stuck fuel n len s : actual_size = 0 -> 0 < n < 4294967296 -> 0 <= len < 4294967296 ->
  exists s', answered s s' [] /\ random_loop (S fuel) n len s = random_loop fuel n len s'.
Proof.
  intros Ha Hn Hl. cbn [random_loop]. destruct (Z.gtb_spec n 0); [|lia]. cbn [negb].
  unfold or_return at 1, on_flash, mbind at 1, ST_bind at 1. cbn [secureflash_get_trng mret ST_ret fst snd].
  rewrite min_spec, Ha, Z.min_r by lia. change (w8 0) with 0. unfold send_array.
  rewrite (proj2 (Z.leb_le _ _)) by lia.
  destruct (req_mngr_write_spec (indeterminate SECURE_FLASH_MAX_TRNG_SIZE) 0 (set_flash (flash s) s)) as (p & Hw & Hans).
  rewrite (bind_ok _ _ _ _ _ Hw). rewrite sub32_small, add32_small, Z.sub_0_r, Z.add_0_r by lia.
  eexists. split; [|reflexivity]. exact Hans.
Qed.

Lemma random_loop_hangs fuel n len s : actual_size = 0 -> 0 < n < 4294967296 -> 0 <= len < 4294967296 ->
  (random_loop fuel n len s).1 = Err UNDEFINED.
Proof.
  intros Ha Hn Hl. revert s. induction fuel as [|fuel IH]; intros s.
  - cbn [random_loop]. by destruct (Z.gtb_spec n 0); [|lia].
  - destruct (random_loop_stuck fuel n len s Ha Hn Hl) as (s' & _ & ->). apply IH.
Qed.

Lemma random_loop_overrun fuel n s : 0 < n < 4294967296 -> 0 < actual_size < 256 ->
  Z.of_nat (length (indeterminate SECURE_FLASH_MAX_TRNG_SIZE)) < Z.min n actual_size ->
  (random_loop (S fuel) n 0 s).1 = Err UNDEFINED.
Proof.
  intros Hn Ha Hb. cbn [random_loop]. destruct (Z.gtb_spec n 0); [|lia]. cbn [negb].
  unfold or_return at 1, on_flash, mbind at 1, ST_bind at 1. cbn [secureflash_get_trng mret ST_ret fst snd].
  rewrite min_spec. assert (w8 (Z.min n actual_size) = Z.min n actual_size) as -> by (apply Z.mod_small; lia).
  unfold send_array. rewrite (proj2 (Z.leb_gt _ _)) by lia. done.
Qed.

(** ** Arguments of a message *)

Lemma dec64_enc64 uid : 0 <= uid < 18446744073709551616 -> dec64 (enc64 uid) = uid.
Proof. exact (dec_fid 0 uid). Qed.

Lemma dec32_enc32_nil x : is_u32 x -> dec32 (enc32 x) 0 = x.
Proof. intros Hx. rewrite <- (app_nil_r (enc32 x)). by apply dec_enc32. Qed.

(** A vector of the expected length is read whole; the others stay. *)
Lemma read_arg_spec i bs s : in_data (psa s) (h_of s) i = bs ->
  exists p, read_arg i (Z.of_nat (length bs)) s = (Ok bs, set_psa p s) /\
    (forall h j, (h, j) <> (h_of s, i) -> in_data p h j = in_data (psa s) h j) /\
    (forall h j, out_data p h j = out_data (psa s) h j) /\ replies p = replies (psa s).
Proof.
  intros Hbs. unfold read_arg, on_psa, get, mbind, ST_bind. cbn.
  pose proof (pl_read (handle (msg s)) i (Z.of_nat (length bs)) (psa s)) as H.
  destruct (psa_read _ _ _ _) as [bs' p]. destruct H as (-> & _ & H1 & H2 & H3).
  unfold h_of in *. rewrite Hbs, Nat2Z.id, firstn_all, Z.eqb_refl. cbn [negb].
  by exists p.
Qed.

(** The handler of SET calls [etss_set] with the arguments of the message. *)
Lemma set_ipc_calls uid cf s :
  uid_ok uid -> is_u32 cf -> in_len (msg s) 0 = 8 -> in_len (msg s) 2 = 4 ->
  in_data (psa s) (h_of s) 0 = enc64 uid -> in_data (psa s) (h_of s) 2 = enc32 cf ->
  exists p, etss_set_ipc s = etss_set (client_id (msg s)) uid (in_len (msg s) 1) cf (set_psa p s) /\
    in_data p (h_of s) 1 = in_data (psa s) (h_of s) 1 /\ replies p = replies (psa s).
Proof.
  intros Hu Hcf H0 H2 Hd0 Hd2. unfold uid_ok in Hu.
  destruct (read_arg_spec 0 (enc64 uid) s Hd0) as (p1 & Hr1 & Hi1 & _ & Hrep1).
  destruct (read_arg_spec 2 (enc32 cf) (set_psa p1 s)) as (p2 & Hr2 & Hi2 & _ & Hrep2).
  { cbn. rewrite Hi1; [done|]. by intros [= ]. }
  exists p2. split.
  - unfold etss_set_ipc, get_msg. rewrite (bind_ok (gets msg) _ s (msg s) s eq_refl), H0, H2.
    change (negb (8 =? 8) || negb (4 =? 4)) with false. cbv iota.
    change (Z.of_nat (length (enc64 uid))) with 8 in Hr1. change (Z.of_nat (length (enc32 cf))) with 4 in Hr2.
    rewrite (bind_ok _ _ _ _ _ Hr1), (bind_ok _ _ _ _ _ Hr2).
    by rewrite dec64_enc64, dec32_enc32_nil by (done || lia).
  - cbn in Hi2, Hrep2. split; [|by rewrite Hrep2]. rewrite Hi2 by (by intros [= ]). apply Hi1. by intros [= ].
Qed.

(** The handler of GET calls [etss_get] with the arguments of the message. *)
Lemma get_ipc_calls uid off s :
  uid_ok uid -> is_u32 off -> in_len (msg s) 0 = 8 -> in_len (msg s) 1 = 4 ->
  in_data (psa s) (h_of s) 0 = enc64 uid -> in_data (psa s) (h_of s) 1 = enc32 off ->
  exists p, etss_get_ipc s =
      (etss_get (client_id (msg s)) uid off (out_len (msg s) 0);; mret tt) (set_psa p s) /\
    (forall j, out_data p (h_of s) j = out_data (psa s) (h_of s) j) /\ replies p = replies (psa s).
Proof.
  intros Hu Hoff H0 H1 Hd0 Hd1. unfold uid_ok in Hu.
  destruct (read_arg_spec 0 (enc64 uid) s Hd0) as (p1 & Hr1 & Hi1 & Ho1 & Hrep1).
  destruct (read_arg_spec 1 (enc32 off) (set_psa p1 s)) as (p2 & Hr2 & _ & Ho2 & Hrep2).
  { cbn. rewrite Hi1; [done|]. by intros [= ]. }
  exists p2. split.
  - unfold etss_get_ipc, get_msg. rewrite (bind_ok (gets msg) _ s (msg s) s eq_refl), H0, H1.
    change (negb (8 =? 8) || negb (4 =? 4)) with false. cbv iota.
    change (Z.of_nat (length (enc64 uid))) with 8 in Hr1. change (Z.of_nat (length (enc32 off))) with 4 in Hr2.
    rewrite (bind_ok _ _ _ _ _ Hr1), (bind_ok _ _ _ _ _ Hr2).
    by rewrite dec64_enc64, dec32_enc32_nil by (done || lia).
  - cbn in Ho2, Hrep2. split; [|by rewrite Hrep2]. intros j. by rewrite Ho2, Ho1.
Qed.
End Replies.
