(* ===== verification/EtssDelivery.v ===== *)
(** * From the client library to the service

    What the client library and the request manager rely on when a call is
    delivered ([Delivery]), and what a call of the library does then to the
    service. *)
From Stdlib Require Import ZArith Lia.
From stdpp Require Import base list numbers gmap options.
From S2P Require Import Prelude.
From S2P Require Import EtssUtils.
From S2P Require Import FlashFsDefs.
From S2P Require Import SpiNor.
From S2P Require Import SecureFlash.
From S2P Require Import PsaApi.
From S2P Require Import EtssService.
From S2P Require Import EtssSpec.
From S2P Require Import EtssReqMngr.
From S2P Require Import EtssReqSpec.
From S2P Require Import EtssApi.

#[local] Set Default Proof Using "Type*".

Section Delivery.
Context {D P C : Type} {SO : SpiOps D} {JO : JedecOps D} {PO : PsaOps P} {CF : EtssConfig}.
Context {MF : EtssManifest} {PL : PsaLaws P} {PC : PsaSession C} {SI : EtssSids}.
Implicit Types s : etss_state D P.
Implicit Types c : C.

(** Messages and the framework's own data come and go. *)
Definition same_service s s' : Prop := exists m p, s' = set_msg m (set_psa p s).

#[global] Instance same_service_pre : PreOrder same_service.
Proof.
  split.
  - intros s. exists (msg s), (psa s). by destruct s.
  - intros s1 s2 s3 (m & p & ->) (m' & p' & ->). by exists m', p'.
Qed.

(** The message [m] is the client's call with these vectors. *)
Record call_of (client : Z) (ins : list (list Z)) (outs : list Z) (m : psa_msg_t) (p : P) : Prop := {
  co_type : type m = PSA_IPC_CALL;
  co_client : client_id m = client;
  co_in : forall i, in_len m i = Z.of_nat (length (default [] (ins !! i)));
  co_out : forall i, out_len m i = default 0 (outs !! i);
  co_data : forall i, in_data p (handle m) (Z.of_nat i) = default [] (ins !! i);
  co_empty : forall j, out_data p (handle m) j = []
}.

(** The signal of each service identifier. *)
Definition signals : list (Z * Z) :=
  [(ETSS_SET_SID, ETSS_SET_SIGNAL); (ETSS_GET_SID, ETSS_GET_SIGNAL);
   (ETSS_GET_INFO_SID, ETSS_GET_INFO_SIGNAL); (ETSS_REMOVE_SID, ETSS_REMOVE_SIGNAL);
   (ETSS_GET_PUF_SID, ETSS_GET_PUF_SIGNAL);
   (ETSS_GENERATE_RANDOM_NUMBER_SID, ETSS_GENERATE_RANDOM_NUMBER_SIGNAL);
   (ETSS_MC_INCREMENT_SID, ETSS_MC_INCREMENT_SIGNAL); (ETSS_MC_GET_SID, ETSS_MC_GET_SIGNAL)].

(** Each signal is a bit of its own. *)
Definition signals_apart : Prop := forall i j x y,
  signals !! i = Some x -> signals !! j = Some y -> Z.land x.2 y.2 = 0 <-> i <> j.

(** [service_of c]: the memory of the partition; [caller c]: the identifier
    of the client.  A valid handle is open for the signal of the service; a
    call wakes up the partition with the client's message, and returns when
    the partition has replied, with the status of the reply and what was
    written to the output vectors. *)
Class Delivery := {
  service_of : C -> etss_state D P;
  caller : C -> Z;
  open : C -> Z -> Z -> Prop;
  de_connect : forall sid version c h c', psa_connect sid version c = (h, c') ->
    same_service (service_of c) (service_of c') /\ caller c' = caller c /\
    (PSA_HANDLE_IS_VALID h = true -> forall sig, (sid, sig) ∈ signals -> open c' h sig);
  de_close : forall h c,
    same_service (service_of c) (service_of (psa_close h c)) /\ caller (psa_close h c) = caller c;
  de_call : forall h sig ins outs c st os c',
    open c h sig -> Forall (Forall is_u8) ins -> psa_call h IPC_CALL ins outs c = (st, os, c') ->
    caller c' = caller c /\
    exists m p0 p1 p, psa_wait p0 = (sig, p1) /\ psa_get sig p1 = (PSA_SUCCESS, m, p) /\
      call_of (caller c) ins outs m p /\
      forall s', serve_round (set_psa p0 (service_of c)) = (Ok tt, s') ->
        same_service s' (service_of c') /\ replies (psa s') = replies p ++ [(handle m, st)] /\
        os = (fun i => out_data (psa s') (handle m) (Z.of_nat i)) <$> seq 0 (length outs)
}.

Context {DE : Delivery} (Hsig : signals_apart).

(** ** One call *)

Lemma dispatch_nth i sig pfn : handlers !! i = Some (sig, pfn) ->
  (forall j x, (j < i)%nat -> handlers !! j = Some x -> Z.land sig x.1 = 0) -> Z.land sig sig <> 0 ->
  dispatch sig handlers = etss_signal_handle sig pfn.
Proof using Type.
  generalize handlers. intros hs. revert i. induction hs as [|[sig' pfn'] hs IH]; intros i Hi Hb Hs; [done|].
  cbn [dispatch]. destruct i as [|i].
  - injection Hi as -> ->. by destruct (Z.eqb_spec (Z.land sig sig) 0).
  - pose proof (Hb 0%nat (sig', pfn') ltac:(lia) eq_refl) as H0. cbn [fst] in H0. rewrite H0. cbn [Z.eqb negb]. apply (IH i); [done| |done].
    intros j x Hj Hx. apply (Hb (S j) x); [lia|done].
Qed.

Lemma signals_handlers : signals.*2 = handlers.*1.
Proof using Type. done. Qed.

Lemma dispatch_handler i sid sig pfn : signals !! i = Some (sid, sig) -> handlers !! i = Some (sig, pfn) ->
  dispatch sig handlers = etss_signal_handle sig pfn.
Proof using Hsig.
  intros Hi Hh. apply (dispatch_nth i); [done| |].
  - intros j x Hj Hx. assert (signals.*2 !! j = Some x.1) as Hy.
    { by rewrite signals_handlers, list_lookup_fmap, Hx. }
    rewrite list_lookup_fmap, fmap_Some in Hy. destruct Hy as (y & Hy & ->).
    apply (Hsig i j (sid, sig) y Hi Hy). lia.
  - intros H. by apply (Hsig i i (sid, sig) (sid, sig) Hi Hi) in H.
Qed.

(** The handler runs on the message; then the manager replies. *)
Lemma handle_call sig pfn s m p r s1 :
  psa_get sig (psa s) = (PSA_SUCCESS, m, p) -> type m = PSA_IPC_CALL ->
  pfn (set_msg m (set_psa p s)) = (r, s1) -> status_of r <> UNDEFINED ->
  etss_signal_handle sig pfn s = (Ok tt, set_psa (psa_reply (handle (msg s1)) (status_of r) (psa s1)) s1).
Proof using Type.
  intros Hg Ht Hp Hu. unfold etss_signal_handle.
  assert (on_psa (psa_get sig) s = (Ok (PSA_SUCCESS, m), set_psa p s)) as H1.
  { unfold on_psa. by rewrite Hg. }
  rewrite (bind_ok _ _ _ _ _ H1). cbn [negb Z.eqb PSA_SUCCESS].
  rewrite (bind_ok (modify _) _ _ tt (set_msg m (set_psa p s)) eq_refl), Ht. unfold call_and_reply.
  assert (attempt pfn (set_msg m (set_psa p s)) = (Ok r, s1)) as H2 by (unfold attempt; by rewrite Hp).
  rewrite (bind_ok _ _ _ _ _ H2). by destruct (Z.eqb_spec (status_of r) UNDEFINED).
Qed.

(** A call of the library on the signal of the handler [pfn]: either there is
    no connection, or [pfn] has run once on the client's message, in a state
    with the same files, and the client has its status and what it wrote. *)
Lemma wp_connect_and_call i sid sig pfn version ins outs c (Q : outcome unit -> etss_state D P -> etss_state D P -> Prop) :
  signals !! i = Some (sid, sig) -> handlers !! i = Some (sig, pfn) -> keeps silent pfn ->
  Forall (Forall is_u8) ins ->
  (forall s, same_service (service_of c) s -> call_of (caller c) ins outs (msg s) (psa s) ->
     wp pfn s (fun r s' => status_of r <> UNDEFINED /\ Q r s s')) ->
  wp (connect_and_call sid version ins outs) c (fun r c' => caller c' = caller c /\
    ((r = Err ETSS_ERR_GENERIC_ERROR /\ same_service (service_of c) (service_of c')) \/
     exists r1 s0 s1, Q r1 s0 s1 /\ call_of (caller c) ins outs (msg s0) (psa s0) /\
       same_service (service_of c) s0 /\ same_service s1 (service_of c') /\
       r = Ok (status_of r1, (fun i => out_data (psa s1) (handle (msg s0)) (Z.of_nat i)) <$> seq 0 (length outs)))).
Proof using Hsig.
  intros Hi Hh Hsil Hins Hrun. unfold connect_and_call. apply wp_bind. unfold wp at 1, on_call.
  destruct (psa_connect sid version c) as [h c1] eqn:E1. cbn [fst snd].
  destruct (de_connect _ _ _ _ _ E1) as (Hs1 & Hc1 & Hop).
  destruct (PSA_HANDLE_IS_VALID h); cbn [negb]; [|apply wp_raise; split; [done|left; done]].
  assert (open c1 h sig) as Ho by (apply Hop; [done|]; by eapply list_elem_of_lookup_2).
  apply wp_bind. unfold wp at 1, on_call. destruct (psa_call h IPC_CALL ins outs c1) as [[st os] c2] eqn:E2. cbn [fst snd].
  destruct (de_call _ _ _ _ _ _ _ _ Ho Hins E2) as (Hc2 & m & p0 & p1 & p & Hw & Hg & Hcall & Hserve).
  apply wp_bind, wp_modify, wp_ret. destruct (de_close h c2) as [Hs3 Hc3]. split; [congruence|]. right.
  set (s0 := set_msg m (set_psa p (service_of c1))).
  assert (same_service (service_of c) s0) as Hs0 by (etrans; [exact Hs1|]; by exists m, p).
  rewrite Hc1 in Hcall. pose proof (Hrun s0 Hs0 Hcall) as Hwp. pose proof (Hsil s0) as [Hm Hrep].
  destruct (pfn s0) as [r1 s1] eqn:E3. destruct (wp_elim _ _ _ _ _ E3 Hwp) as [Hst HQ]. cbn [snd] in *.
  destruct (Hserve (set_psa (psa_reply (handle (msg s1)) (status_of r1) (psa s1)) s1)) as (Hsame & Hr & ->).
  { unfold serve_round. assert (on_psa psa_wait (set_psa p0 (service_of c1)) = (Ok sig, set_psa p1 (service_of c1))) as H1.
    { unfold on_psa. cbn [psa set_psa]. by rewrite Hw. }
    rewrite (bind_ok _ _ _ _ _ H1), (dispatch_handler i sid sig pfn Hi Hh).
    by rewrite (handle_call sig pfn (set_psa p1 (service_of c1)) m p r1 s1 Hg (co_type _ _ _ _ _ Hcall) E3 Hst). }
  exists r1, s0, s1. split; [done|]. split; [done|]. split; [done|].
  destruct (pl_reply (handle (msg s1)) (status_of r1) (psa s1)) as [Hr1 Ho1]. split.
  { etrans; [|exact Hs3]. etrans; [|exact Hsame]. exists (msg s1), (psa_reply (handle (msg s1)) (status_of r1) (psa s1)).
    by destruct s1. }
  cbn [psa set_psa] in Hr. rewrite Hr1, Hrep, Hm in Hr. apply app_inj_tail in Hr as [_ [= <-]].
  do 2 f_equal. apply list_fmap_ext. intros k x _. apply Ho1.
Qed.
End Delivery.
