(* ===== verification/EtssExample.v ===== *)
(** * A concrete secure storage service

    The service on the device of SecureDevice.v with two clients, on the
    framework of PsaSample.v, and that framework between a client and the
    service, for the concrete instances of the theorems. *)
From Stdlib Require Import ZArith Lia.
From stdpp Require Import base list numbers gmap options.
From S2P Require Import Prelude.
From S2P Require Import EtssUtils.
From S2P Require Import FlashFsDefs.
From S2P Require Import FlashFs.
From S2P Require Import MblockSpec.
From S2P Require Import FsTables.
From S2P Require Import FsOps.
From S2P Require Import SpiNor.
From S2P Require Import SecureFlash.
From S2P Require Import SecureFlashSpec.
From S2P Require Import SecureFlashFs.
From S2P Require Import SecureDevice.
From S2P Require Import PsaApi.
From S2P Require Import PsaSample.
From S2P Require Import EtssService.
From S2P Require Import EtssSpec.
From S2P Require Import EtssClients.
From S2P Require Import EtssReqMngr.
From S2P Require Import EtssRefine.
From S2P Require Import EtssReqSpec.
From S2P Require Import EtssApi.
From S2P Require Import EtssDelivery.

(** ** The build *)

#[export] Instance two_clients : EtssConfig := {
  ETSS_BUF_SIZE := 32;
  ETSS_MAX_ASSET_SIZE := 200;
  ETSS_NUM_ASSETS := 3;
  SECURE_FLASH_PROGRAM_UNIT := 1;
  SECURE_FLASH_SECTOR_SIZE := 256;
  SECURE_FLASH_ERASED_VALUE := 255;
  SECURE_FLASH_MAX_PUF_SIZE := 64;
  SECURE_FLASH_MAX_TRNG_SIZE := 32;
  SECURE_FLASH_MAX_MC_SIZE := 4;
  PROV_BLOB_LEN_MAX := 256;
  clients := [{| AREA_START_ADDR := 0; SECTORS_PER_BLOCK := 2; AREA_SIZE := 2560; CLIENT_ID := 1 |};
              {| AREA_START_ADDR := 4096; SECTORS_PER_BLOCK := 2; AREA_SIZE := 2560; CLIENT_ID := 2 |}];
  indeterminate := fun n => replicate (Z.to_nat n) 7
}.

Lemma configured_zones : configured = [(1, zone_cfg 0); (2, zone_cfg 1)].
Proof. vm_compute. reflexivity. Qed.

Lemma zone_cfg_ok z : 0 <= z < 2 -> cfg_ok (zone_cfg z).
Proof.
  intros Hz. assert (z = 0 \/ z = 1) as [-> | ->] by lia;
    (split; [split; cbn; unfold is_u32, is_u16, is_u8; lia|vm_compute; reflexivity|vm_compute; split; discriminate]).
Qed.

Lemma configured_ok : clients_ok configured.
Proof.
  rewrite configured_zones. split.
  - intros [|[|j]] client c Hj; simplify_eq/=.
    + split; [apply zone_cfg_ok; lia|]. split; [exact zone0_ok|exact zone0_client].
    + split; [apply zone_cfg_ok; lia|]. split; [exact zone1_ok|exact zone1_client].
  - intros [|[|j]] [|[|k]] client c client' c' Hn Hj Hk; simplify_eq/=;
      unfold apart, area_size; cbn; lia.
Qed.

Lemma zone_transfer z : transfer_ok (zone_cfg z).
Proof. split; [|vm_compute; split; congruence]. exists 0. by vm_compute. Qed.

(** ** Power up *)

Definition off_state : etss_state sdev pstate := {|
  asset_data := replicate 32 0;
  g_fid := replicate 12 0;
  g_file_info := {| size_current := 0; size_max := 0; info_flags := 0 |};
  fs_cfg_etss := [];
  etss_fs_ctx_tbl := [(0, fresh_ctx zero_cfg); (0, fresh_ctx zero_cfg)];
  fs_ctx_etss_ptr := None;
  flash := cold;
  msg := no_msg;
  psa := {| ps_in := ∅; ps_out := ∅; ps_replies := []; ps_queue := [] |}
|}.

Lemma off_powered : powered_up [∅; ∅] off_state.
Proof.
  split; [exact I|done|done|]. rewrite configured_zones.
  intros [|[|j]] client c Hj; simplify_eq/=; (eexists; split; [reflexivity|]); right; (split; [|done]);
    vm_compute; reflexivity.
Qed.

(** The service after its start. *)
Definition up : etss_state sdev pstate := (etss_init off_state).2.

Lemma up_service : service configured [∅; ∅] up.
Proof.
  pose proof (wp_etss_init configured_ok [∅; ∅] off_state ltac:(vm_compute; lia)
    ltac:(apply (bool_decide_unpack _); vm_compute; exact I) eq_refl off_powered) as H.
  apply H.
Qed.

(** A message with its data, as [psa_get] delivers it. *)
Definition with_request (m : psa_msg_t) (vs : list (list Z)) (s : etss_state sdev pstate) : etss_state sdev pstate :=
  set_msg m (set_psa {| ps_in := deliver (handle m) 0 vs (ps_in (psa s)); ps_out := ps_out (psa s);
    ps_replies := ps_replies (psa s); ps_queue := ps_queue (psa s) |} s).

#[export] Instance sample_manifest : EtssManifest := {
  ETSS_SET_SIGNAL := 16;
  ETSS_GET_SIGNAL := 32;
  ETSS_GET_INFO_SIGNAL := 64;
  ETSS_REMOVE_SIGNAL := 128;
  ETSS_GET_PUF_SIGNAL := 256;
  ETSS_GENERATE_RANDOM_NUMBER_SIGNAL := 512;
  ETSS_MC_INCREMENT_SIGNAL := 1024;
  ETSS_MC_GET_SIGNAL := 2048;
  ETSS_SECURE_FLASH_PROVISIONING_SIGNAL := 4096
}.

(** ** Sample requests

    Client 1 stores forty bytes, more than the transfer buffer holds, in a
    file that may be written once. *)

Definition forty : list Z := seqZ 1 40.
Definition set_msg_1 : psa_msg_t :=
  {| type := PSA_IPC_CALL; handle := 3; client_id := 1; in_size := [8; 40; 4]; out_size := [] |}.
Definition asking : etss_state sdev pstate := with_request set_msg_1 [enc64 5; forty; enc32 1] up.

Lemma asking_service : service configured [∅; ∅] asking.
Proof. apply (service_ext _ _ up); [done|done|apply up_service]. Qed.

Lemma asking_bytes : bytes_ok asking.
Proof.
  split; [vm_compute; reflexivity|]. unfold is_u8. apply (bool_decide_unpack _). vm_compute. exact I.
Qed.

Lemma asking_data : in_data (psa asking) (h_of asking) 1 = forty.
Proof. vm_compute. reflexivity. Qed.

Lemma asking_serving : serving configured unmarked [∅; ∅] asking.
Proof. split; [apply asking_service|apply asking_bytes]. Qed.

(** The same with SET's message still to be delivered. *)
Definition waiting : etss_state sdev pstate :=
  set_psa {| ps_in := ∅; ps_out := ∅; ps_replies := [];
             ps_queue := [(16, set_msg_1, [enc64 5; forty; enc32 1])] |} up.

(** After the request. *)
Definition stored_once : etss_state sdev pstate := (etss_set 1 5 40 1 asking).2.

(** ** A framework between a client and the service

    Calls are put in the queue of PsaSample.v and served at once by the main
    loop of the partition: an instance of [Delivery]. *)

(** The partition and the client that talks to it. *)
Record world : Type := { partition : etss_state sdev pstate; client_of_world : Z }.

#[export] Instance sample_sids : EtssSids := {
  ETSS_SET_SID := 224; ETSS_SET_VERSION := 1;
  ETSS_GET_SID := 225; ETSS_GET_VERSION := 1;
  ETSS_GET_INFO_SID := 226; ETSS_GET_INFO_VERSION := 1;
  ETSS_REMOVE_SID := 227; ETSS_REMOVE_VERSION := 1;
  ETSS_GET_PUF_SID := 228; ETSS_GET_PUF_VERSION := 1;
  ETSS_GENERATE_RANDOM_NUMBER_SID := 229; ETSS_GENERATE_RANDOM_NUMBER_VERSION := 1;
  ETSS_MC_INCREMENT_SID := 230; ETSS_MC_INCREMENT_VERSION := 1;
  ETSS_MC_GET_SID := 231; ETSS_MC_GET_VERSION := 1;
  ETSS_SECURE_FLASH_PROVISIONING_SID := 232; ETSS_SECURE_FLASH_PROVISIONING_VERSION := 1
}.

(** The signal of an identifier serves as the handle. *)
Fixpoint lookup_sid (sid : Z) (l : list (Z * Z)) : Z :=
  match l with
  | [] => -1
  | (x, sig) :: l => if x =? sid then sig else lookup_sid sid l
  end.

(** The state of the framework with one call waiting. *)
Definition calling (h who : Z) (ins : list (list Z)) (outs : list Z) (p : pstate) : pstate := {|
  ps_in := ∅;
  ps_out := ∅;
  ps_replies := ps_replies p;
  ps_queue := [(h, {| type := PSA_IPC_CALL; handle := h; client_id := who; in_size := []; out_size := outs |}, ins)]
|}.

(** Serving it; the status of the last reply and the output vectors. *)
Definition serve_call (h : Z) (ins : list (list Z)) (outs : list Z) (w : world) : Z * list (list Z) * world :=
  let s0 := set_psa (calling h (client_of_world w) ins outs (psa (partition w))) (partition w) in
  let s' := (serve_round s0).2 in
  (default 0 (snd <$> last (ps_replies (psa s'))),
   (fun i => out_data (psa s') h (Z.of_nat i)) <$> seq 0 (length outs),
   {| partition := s'; client_of_world := client_of_world w |}).

#[export] Instance sample_session : PsaSession world := {
  session_calls := {| psa_call := fun h _ => serve_call h |};
  psa_connect := fun sid _ w => (lookup_sid sid signals, w);
  psa_close := fun _ w => w;
  PSA_HANDLE_IS_VALID := fun h => 0 <? h
}.

(** What is delivered to the vectors. *)
Lemma deliver_before h j k vs m : j < k -> deliver h k vs m !! (h, j) = m !! (h, j).
Proof.
  revert k m. induction vs as [|v vs IH]; intros k m Hk; cbn [deliver]; [done|].
  rewrite IH by lia. apply lookup_insert_ne. intros [= ]. lia.
Qed.

Lemma deliver_lookup h k vs m i : deliver h k vs m !! (h, k + Z.of_nat i) =
  match vs !! i with Some v => Some v | None => m !! (h, k + Z.of_nat i) end.
Proof.
  revert k m i. induction vs as [|v vs IH]; intros k m i; cbn [deliver]; [done|]. destruct i as [|i].
  - rewrite Z.add_0_r, deliver_before by lia. apply lookup_insert_eq.
  - change ((v :: vs) !! S i) with (vs !! i). replace (k + Z.of_nat (S i)) with (k + 1 + Z.of_nat i) by lia.
    rewrite IH. destruct (vs !! i); [done|]. apply lookup_insert_ne. intros [= ]. lia.
Qed.

Lemma bytes_w8 bs : Forall is_u8 bs -> w8 <$> bs = bs.
Proof. induction 1 as [|x bs Hx _ IH]; [done|]. cbn. rewrite IH. f_equal. apply Z.mod_small, Hx. Qed.

Lemma calling_message h who ins outs p : Forall (Forall is_u8) ins ->
  exists m q, psa_get h (calling h who ins outs p) = (PSA_SUCCESS, m, q) /\ handle m = h /\
    replies q = ps_replies p /\ call_of who ins outs m q.
Proof.
  intros Hb. cbn. rewrite Z.eqb_refl. eexists _, _. split; [reflexivity|]. split; [done|]. split; [done|].
  split; try done.
  - intros i. unfold in_len. cbn. rewrite list_lookup_fmap. by destruct (ins !! i).
  - intros i. cbn. unfold ps_data. cbn. replace (Z.of_nat i) with (0 + Z.of_nat i) by lia.
    rewrite deliver_lookup. destruct (ins !! i) as [v|] eqn:E; cbn; [|by rewrite lookup_empty].
    apply bytes_w8. by apply (Forall_lookup_1 _ _ _ _ Hb E).
Qed.

Lemma lookup_signals sid sig : (sid, sig) ∈ signals -> lookup_sid sid signals = sig.
Proof. unfold signals. rewrite !elem_of_cons, elem_of_nil. intros H. by destruct_or!; simplify_eq. Qed.

Lemma sample_apart : signals_apart.
Proof.
  assert (forall i j, (i < 8)%nat -> (j < 8)%nat -> forall x y, signals !! i = Some x -> signals !! j = Some y ->
    (Z.land x.2 y.2 =? 0) = negb (Nat.eqb i j)) as H.
  { intros i j Hi Hj. do 8 (destruct i as [|i]; [do 8 (destruct j as [|j]; [by intros ?? [= <-] [= <-]|]); lia|]). lia. }
  intros i j x y Hi Hj. pose proof (lookup_lt_Some _ _ _ Hi) as Li. pose proof (lookup_lt_Some _ _ _ Hj) as Lj.
  specialize (H i j Li Lj x y Hi Hj). rewrite <- Z.eqb_eq, H, negb_true_iff. apply Nat.eqb_neq.
Qed.

(** Serving a call sends one reply. *)
Lemma served_replies i sid sig who ins outs s s' : signals !! i = Some (sid, sig) ->
  serve_round (set_psa (calling sig who ins outs (psa s)) s) = (Ok tt, s') ->
  exists st, replies (psa s') = ps_replies (psa s) ++ [(sig, st)].
Proof.
  intros Hi Hs. assert (signals.*2 !! i = Some sig) as Hx by by rewrite list_lookup_fmap, Hi.
  rewrite signals_handlers, list_lookup_fmap, fmap_Some in Hx. destruct Hx as ([sig' pfn] & Hh & Hsig). cbn in Hsig.
  subst sig'. set (s0 := set_psa (calling sig who ins outs (psa s)) s) in *.
  assert (exists m p, psa_get sig (psa s0) = (PSA_SUCCESS, m, p) /\ handle m = sig /\ type m = PSA_IPC_CALL)
    as (m & p & Hg & Hm & Ht) by (cbn; rewrite Z.eqb_refl; by eexists _, _).
  pose proof (wp_signal_handle sig pfn s0 PSA_SUCCESS m p (proj1 (Forall_lookup _ _) handlers_silent i _ Hh) Hg) as H.
  assert (serve_round s0 = etss_signal_handle sig pfn s0) as He.
  { assert (on_psa psa_wait s0 = (Ok sig, s0)) as Hw by reflexivity.
    unfold serve_round. rewrite (bind_ok _ _ _ _ _ Hw). by rewrite (dispatch_handler sample_apart i sid sig pfn Hi Hh). }
  rewrite He in Hs. pose proof (wp_elim _ _ _ _ _ Hs H) as H'. cbv zeta in H'. rewrite Ht in H'. cbn [negb Z.eqb PSA_SUCCESS] in H'.
  destruct (_ =? UNDEFINED); [done|]. destruct H' as [_ H']. eexists. rewrite Hm in H'. exact H'.
Qed.

#[export] Program Instance sample_delivery : Delivery (C := world) := {
  service_of := partition;
  caller := client_of_world;
  open := fun _ h sig => h = sig /\ exists i sid, signals !! i = Some (sid, sig)
}.
Next Obligation.
  intros sid version w h w' [= <- <-]. split; [done|]. split; [done|]. intros _ sig H.
  split; [by apply lookup_signals|]. apply list_elem_of_lookup_1 in H as [i Hi]. by exists i, sid.
Qed.
Next Obligation. done. Qed.
Next Obligation.
  intros h sig ins outs w st os w' [<- (i & sid & Hi)] Hb Hcall. cbn in Hcall. unfold serve_call in Hcall.
  injection Hcall as Hst Hos <-. split; [done|].
  destruct (calling_message h (client_of_world w) ins outs (psa (partition w)) Hb) as (m & p & Hg & Hm & Hr & Hc).
  set (p0 := calling h (client_of_world w) ins outs (psa (partition w))) in *.
  exists m, p0, p0, p. split; [reflexivity|]. split; [exact Hg|]. split; [exact Hc|].
  intros s' Hs'. rewrite Hs' in Hst, Hos |- *. cbn [snd fst partition] in *. split; [done|].
  destruct (served_replies i sid h _ _ _ _ s' Hi Hs') as [st' Hrep].
  rewrite Hr, Hm. cbn [replies ps_laws] in *. rewrite Hrep in Hst |- *. rewrite last_snoc in Hst. cbn in Hst.
  by rewrite <- Hst.
Qed.
