(* ===== verification/EtssEndToEnd.v ===== *)
(** * The secure storage from the client's side

    The composition of the client library, the framework, the request manager,
    the service, the file systems and the secure flash. *)
From Stdlib Require Import ZArith Lia.
From stdpp Require Import base list numbers gmap options.
From S2P Require Import Prelude.
From S2P Require Import EtssUtils.
From S2P Require Import FlashFsDefs.
From S2P Require Import FlashFs.
From S2P Require Import MblockSpec.
From S2P Require Import FsReads.
From S2P Require Import FsTables.
From S2P Require Import FsDisk.
From S2P Require Import FsCommit.
From S2P Require Import FsRead.
From S2P Require Import FsWrite.
From S2P Require Import FsOps.
From S2P Require Import SpiNor.
From S2P Require Import SecureFlash.
From S2P Require Import SecureFlashSpec.
From S2P Require Import SecureFlashFs.
From S2P Require Import PsaApi.
From S2P Require Import EtssService.
From S2P Require Import EtssSpec.
From S2P Require Import EtssClients.
From S2P Require Import EtssRefine.
From S2P Require Import EtssReqMngr.
From S2P Require Import EtssReqSpec.
From S2P Require Import EtssApi.
From S2P Require Import EtssDelivery.
From S2P Require Import PsaSample.
From S2P Require Import SecureDevice.
From S2P Require Import EtssExample.

#[local] Set Default Proof Using "Type*".

(** The status and the bytes that [tfm_etss_get] gives back. *)
Definition got (v : gmap (list Z) afile) (fid : list Z) (off k : Z) (buf : list Z) : Z * list Z * Z :=
  let '(r, bs) := get_spec v fid off k in
  (status_of r, bs ++ drop (length bs) buf, Z.of_nat (length bs)).

Lemma get_spec_length v fid off k : 0 <= k -> Z.of_nat (length (get_spec v fid off k).2) <= k.
Proof.
  intros Hk. unfold get_spec. destruct (v !! fid) as [F|]; [|cbn; lia].
  destruct (off >? _); cbn [snd length]; [lia|]. rewrite length_take. lia.
Qed.

Lemma get_spec_status v fid off k : status_of (get_spec v fid off k).1 <> UNDEFINED.
Proof. unfold get_spec. destruct (v !! fid) as [F|]; [|done]. by destruct (off >? _). Qed.

(** The buffer and its [len] after a call. *)
Lemma fill_ok {C} buf bs (w : C) : Z.of_nat (length bs) <= Z.of_nat (length buf) ->
  fill buf [bs] w = (Ok (bs ++ drop (length bs) buf, Z.of_nat (length bs)), w).
Proof.
  intros Hl. unfold fill, memcpy. change (default [] ([bs] !! 0%nat)) with bs.
  replace (_ && _) with true.
  - unfold mbind, ST_bind. cbn [mret ST_ret fst snd]. do 4 f_equal. change (Z.to_nat 0) with 0%nat.
    by rewrite take_0, Z.add_0_l, Nat2Z.id, firstn_all.
  - symmetry. rewrite !andb_true_iff, !Z.leb_le. lia.
Qed.

Section EndToEnd.
Context {D P C : Type} {SO : SpiOps D} {JO : JedecOps D} {PO : PsaOps P} {CF : EtssConfig}.
Context {JL : JedecLaws D} {MF : EtssManifest} {PL : PsaLaws P} {PC : PsaSession C} {SI : EtssSids}.
Context {DE : Delivery (D := D) (P := P) (C := C)} (Hsig : signals_apart).
Context (cs : list (Z * etss_flash_fs_config_t)) (Hcs : clients_ok cs).
Context (Hfeat : security_storage (security_feature dev_info) = true).
Context (Hbuf : 0 < asset_data_size).
Implicit Types s : etss_state D P.
Implicit Types w : C.
Implicit Types v : gmap (list Z) afile.

(** The service as client [caller w] finds it. *)
Record storage_of vs j (c : etss_flash_fs_config_t) v w : Prop := {
  st_service : service cs vs (service_of w);
  st_bytes : bytes_ok (service_of w);
  st_client : cs !! j = Some (caller w, c);
  st_files : vs !! j = Some v
}.

Lemma storage_at vs j c v w s : storage_of vs j c v w -> same_service (service_of w) s ->
  request_of cs vs s j (caller w) c v /\ bytes_ok s.
Proof using Type.
  intros [H1 H2 H3 H4] (m & p & ->). split; [|exact H2]. split; [|done..]. by apply (service_ext cs _ (service_of w)).
Qed.

Lemma storage_same vs j c v w w' : storage_of vs j c v w -> same_service (service_of w) (service_of w') ->
  caller w' = caller w -> storage_of vs j c v w'.
Proof using Type.
  intros Hst Hs Hc. destruct (storage_at _ _ _ _ _ _ Hst Hs) as [[H1 H2 H3] Hb].
  split; [exact H1|exact Hb|by rewrite Hc|exact H3].
Qed.

(** ** The two requests *)

Lemma silent_set_ipc : keeps silent (etss_set_ipc (D := D) (P := P)).
Proof. apply (proj1 (Forall_lookup _ _) handlers_silent 0%nat _ eq_refl). Qed.
Lemma silent_get_ipc : keeps silent (etss_get_ipc (D := D) (P := P)).
Proof. apply (proj1 (Forall_lookup _ _) handlers_silent 1%nat _ eq_refl). Qed.

Lemma enc64_u8 uid : Forall is_u8 (enc64 uid).
Proof. unfold enc64. rewrite Forall_app. split; apply enc32_u8. Qed.

(** The file of a successful request of [tfm_etss_set]. *)
Definition file_of (c : etss_flash_fs_config_t) (data : list Z) (cf : Z) : afile :=
  stored c (Z.of_nat (length data)) cf data.

(** The file system of client [j] has a place for a file of [n] bytes. *)
Definition room_for j (c : etss_flash_fs_config_t) w uid cf n : Prop :=
  forall x (Ha : area_ok c), etss_fs_ctx_tbl (service_of w) !! j = Some (caller w, x) ->
  has_place c Ha (dimg (device (flash (service_of w)))) x (flash (service_of w))
    (etss_get_fid (caller w) uid) (set_flags cf) n.

(** What the handler of SET does with the client's message. *)
Lemma set_handled vs j c v w uid data cf s : storage_of vs j c v w -> transfer_ok c ->
  uid_ok uid -> flags_supported cf = true -> Z.of_nat (length data) <= 4294901760 ->
  (forall F, v !! etss_get_fid (caller w) uid = Some F -> 0 < af_max F) ->
  room_for j c w uid cf (Z.of_nat (length data)) ->
  same_service (service_of w) s -> call_of (caller w) [enc64 uid; data; enc32 cf] [] (msg s) (psa s) ->
  wp etss_set_ipc s (fun r s' =>
    let fid := etss_get_fid (caller w) uid in
    bytes_ok s' /\ if from_option write_once false (v !! fid)
    then r = Err ETSS_ERR_NOT_PERMITTED /\ service cs vs s'
    else r = Ok tt /\ service cs (<[j := <[fid := file_of c data cf]> v]> vs) s').
Proof.
  intros Hst Ht Hu Hcf Hn Hold Hroom Hs Hcall. pose proof (flags_supported_range cf Hcf) as Hcr.
  destruct (storage_at vs j c v w s Hst Hs) as [[Hq1 Hq2 Hq3] Hb].
  destruct (set_ipc_calls uid cf s Hu) as (p & Hp & Hin & _);
    [unfold is_u32; lia|by rewrite (co_in _ _ _ _ _ Hcall)..|apply (co_data _ _ _ _ _ Hcall 0%nat)
    |apply (co_data _ _ _ _ _ Hcall 2%nat)|].
  rewrite (co_in _ _ _ _ _ Hcall), (co_client _ _ _ _ _ Hcall) in Hp. cbn [lookup list_lookup default] in Hp.
  unfold wp. rewrite Hp. set (s1 := set_psa p s) in *.
  pose proof (co_data _ _ _ _ _ Hcall 1%nat : in_data (psa s) (h_of s) 1 = data) as Hdata.
  assert (in_data (psa s1) (h_of s1) 1 = data) as Hd1 by exact (eq_trans Hin Hdata).
  assert (request_of cs vs s1 j (caller w) c v) as Hrq1.
  { split; [by apply (service_ext cs _ s)|done..]. }
  pose proof (service_set cs Hcs Hfeat vs s1 j (caller w) c v uid (Z.of_nat (length data)) cf Hrq1 Ht Hb Hu Hcf
    ltac:(lia) ltac:(rewrite Hd1; lia) Hold) as H.
  unfold wp in H. destruct (etss_set _ _ _ _ s1) as [r s']. destruct H as (Hb' & _ & H). cbv beta iota zeta in *.
  split; [exact Hb'|]. destruct (from_option write_once false _); [exact H|].
  destruct H as (x & Ha & Hx & H). rewrite Hd1 in H. destruct r as [[]|e]; [by destruct H|].
  destruct H as [H _]. exfalso. apply H. destruct Hs as (m & q & ->). exact (Hroom x Ha Hx).
Qed.

(** The service after a handler, as the client finds it. *)
Lemma storage_after vs j c v w w' s1 vs' v' : storage_of vs j c v w -> caller w' = caller w ->
  bytes_ok s1 -> same_service s1 (service_of w') -> service cs vs' s1 -> vs' !! j = Some v' ->
  storage_of vs' j c v' w'.
Proof using Type.
  intros Hst Hc Hb (m & p & Hm) Hsv Hv. split; rewrite ?Hm, ?Hc; [by apply (service_ext cs _ s1)|done| |done].
  apply (st_client _ _ _ _ _ Hst).
Qed.

(** [tfm_etss_set] by the files before and after. *)
Lemma wp_api_set vs j c v w uid data cf : storage_of vs j c v w -> transfer_ok c ->
  uid_ok uid -> flags_supported cf = true -> Forall is_u8 data -> Z.of_nat (length data) <= 4294901760 ->
  (forall F, v !! etss_get_fid (caller w) uid = Some F -> 0 < af_max F) ->
  room_for j c w uid cf (Z.of_nat (length data)) ->
  wp (tfm_etss_set uid data cf) w (fun r w' =>
    let fid := etss_get_fid (caller w) uid in
    let v' := <[fid := file_of c data cf]> v in
    caller w' = caller w /\
    ((r = Err ETSS_ERR_GENERIC_ERROR /\ storage_of vs j c v w') \/
    if from_option write_once false (v !! fid)
    then r = Err ETSS_ERR_NOT_PERMITTED /\ storage_of vs j c v w'
    else r = Ok tt /\ storage_of (<[j := v']> vs) j c v' w')).
Proof.
  intros Hst Ht Hu Hcf Hd Hn Hold Hroom. pose proof (flags_supported_range cf Hcf) as Hcr.
  apply wp_bind. eapply wp_mono.
  { apply (wp_connect_and_call Hsig 0 ETSS_SET_SID ETSS_SET_SIGNAL etss_set_ipc ETSS_SET_VERSION
      [enc64 uid; data; enc32 cf] [] w
      (fun r _ s' => let fid := etss_get_fid (caller w) uid in
         bytes_ok s' /\ if from_option write_once false (v !! fid)
         then r = Err ETSS_ERR_NOT_PERMITTED /\ service cs vs s'
         else r = Ok tt /\ service cs (<[j := <[fid := file_of c data cf]> v]> vs) s')
      eq_refl eq_refl silent_set_ipc).
    - apply Forall_cons_2; [apply enc64_u8|]. apply Forall_cons_2; [exact Hd|].
      apply Forall_cons_2; [apply enc32_u8|apply Forall_nil_2].
    - intros s Hs Hcall. eapply wp_mono; [by apply (set_handled vs j c v w uid data cf s)|].
      intros r s' [Hb H]. cbv zeta in *. split; [|by split]. destruct (from_option _ _ _); by destruct H as [-> _]. }
  intros r w' [Hc Hr]. pose proof (st_files _ _ _ _ _ Hst) as Hv. cbv zeta.
  destruct Hr as [[-> Hsame]|(r1 & s0 & s1 & [Hb HQ] & _ & _ & Hsame & ->)].
  { split; [done|]. left. split; [done|]. by apply (storage_same _ _ _ _ w). }
  cbv beta iota. unfold check.
  destruct (from_option write_once false _); destruct HQ as [-> HQ]; (split; [done|]); right; (split; [done|]).
  - by eapply storage_after.
  - eapply storage_after; [done..|]. apply list_lookup_insert_eq. by eapply lookup_lt_Some.
Qed.

(** What the handler of GET does with the client's message. *)
Lemma get_handled vs j c v w uid off k s : storage_of vs j c v w -> uid_ok uid -> is_u32 off -> is_u32 k ->
  same_service (service_of w) s -> call_of (caller w) [enc64 uid; enc32 off] [k] (msg s) (psa s) ->
  wp etss_get_ipc s (fun r s' =>
    let '(r', bs) := get_spec v (etss_get_fid (caller w) uid) off k in
    status_of r = status_of r' /\ out_data (psa s') (handle (msg s)) 0 = bs /\ bytes_ok s' /\ service cs vs s').
Proof.
  intros Hst Hu Hoff Hk Hs Hcall. destruct (storage_at vs j c v w s Hst Hs) as [[Hq1 Hq2 Hq3] Hb].
  destruct (get_ipc_calls uid off s Hu Hoff) as (p & Hp & Hout & _);
    [by rewrite (co_in _ _ _ _ _ Hcall)..|apply (co_data _ _ _ _ _ Hcall 0%nat)
    |apply (co_data _ _ _ _ _ Hcall 1%nat)|].
  rewrite (co_out _ _ _ _ _ Hcall), (co_client _ _ _ _ _ Hcall) in Hp. cbn [lookup list_lookup default] in Hp.
  unfold wp. rewrite Hp. set (s1 := set_psa p s) in *. cbn [default] in *.
  assert (request_of cs vs s1 j (caller w) c v) as Hrq1.
  { split; [by apply (service_ext cs _ s)|done..]. }
  pose proof (service_get cs Hcs Hfeat vs s1 j (caller w) c v uid off k Hrq1 Hbuf Hb Hu Hoff Hk) as H.
  unfold wp in H. unfold mbind, ST_bind. change (default 0 (Some k)) with k.
  destruct (etss_get _ _ _ _ s1) as [r s']. destruct (get_spec _ _ _ _) as [r' bs]. cbn [fst snd] in H.
  destruct H as (-> & [Ha _] & Hb' & Hsv).
  assert (out_data (psa s') (handle (msg s)) 0 = bs) as Hbs.
  { etrans; [exact Ha|]. change (h_of s1) with (h_of s). unfold s1. cbn [psa set_psa].
    rewrite Hout. by rewrite (co_empty _ _ _ _ _ Hcall). }
  by destruct r'.
Qed.

(** [tfm_etss_get] by the files. *)
Lemma wp_api_get vs j c v w uid off k buf : storage_of vs j c v w -> uid_ok uid -> is_u32 off -> is_u32 k ->
  k <= Z.of_nat (length buf) ->
  wp (tfm_etss_get uid off k buf true) w (fun r w' => storage_of vs j c v w' /\ caller w' = caller w /\
    (r = Err ETSS_ERR_GENERIC_ERROR \/ r = Ok (got v (etss_get_fid (caller w) uid) off k buf))).
Proof.
  intros Hst Hu Hoff Hk Hlen. unfold tfm_etss_get. cbn [negb]. apply wp_bind. eapply wp_mono.
  { apply (wp_connect_and_call Hsig 1 ETSS_GET_SID ETSS_GET_SIGNAL etss_get_ipc ETSS_GET_VERSION
      [enc64 uid; enc32 off] [k] w
      (fun r s s' => let '(r', bs) := get_spec v (etss_get_fid (caller w) uid) off k in
         status_of r = status_of r' /\ out_data (psa s') (handle (msg s)) 0 = bs /\ bytes_ok s' /\ service cs vs s')
      eq_refl eq_refl silent_get_ipc).
    - apply Forall_cons_2; [apply enc64_u8|]. apply Forall_cons_2; [apply enc32_u8|apply Forall_nil_2].
    - intros s Hs Hcall. eapply wp_mono; [by apply (get_handled vs j c v w uid off k s)|].
      intros r s'. pose proof (get_spec_status v (etss_get_fid (caller w) uid) off k) as Hns.
      destruct (get_spec _ _ _ _) as [r' bs]. intros (H1 & H2). cbn [fst] in Hns. by rewrite H1. }
  intros r w' [Hc Hr]. destruct Hr as [[-> Hsame]|(r1 & s0 & s1 & HQ & _ & _ & Hsame & ->)].
  { split; [by apply (storage_same _ _ _ _ w)|]. split; [done|]. by left. }
  unfold got. pose proof (get_spec_length v (etss_get_fid (caller w) uid) off k ltac:(unfold is_u32 in Hk; lia)) as Hbl.
  destruct (get_spec _ _ _ _) as [r' bs]. destruct HQ as (-> & Hout & Hb & Hsv). cbn [snd] in Hbl.
  cbn [length seq fmap list_fmap]. change (Z.of_nat 0) with 0. rewrite Hout.
  unfold wp. rewrite (bind_ok _ _ _ _ _ (fill_ok buf bs w' ltac:(lia))). cbn [fst snd].
  split; [by apply (storage_after vs j c v w w' s1 vs v); [..|apply (st_files _ _ _ _ _ Hst)]|]. split; [done|].
  by right.
Qed.

(** C1: End to end.  A client that calls [tfm_etss_set] for a file the file
    system has a place for is refused only when the file is write-once or
    when it gets no connection.  Otherwise the call succeeds, and every later
    [tfm_etss_get] of a part of the file that gets a connection returns
    success, the bytes of the file in the buffer and their number; the files
    of the other clients are what they were. *)
Theorem stored_file_returned vs j c v w uid data cf :
  storage_of vs j c v w -> transfer_ok c ->
  uid_ok uid -> flags_supported cf = true -> Forall is_u8 data -> Z.of_nat (length data) <= 4294901760 ->
  (forall F, v !! etss_get_fid (caller w) uid = Some F -> 0 < af_max F) ->
  room_for j c w uid cf (Z.of_nat (length data)) ->
  wp (tfm_etss_set uid data cf) w (fun r w' =>
    let fid := etss_get_fid (caller w) uid in
    let v' := <[fid := file_of c data cf]> v in
    (r = Err ETSS_ERR_GENERIC_ERROR /\ storage_of vs j c v w') \/
    if from_option write_once false (v !! fid)
    then r = Err ETSS_ERR_NOT_PERMITTED /\ storage_of vs j c v w'
    else r = Ok tt /\ storage_of (<[j := v']> vs) j c v' w' /\
      forall off k buf, 0 <= off <= Z.of_nat (length data) -> is_u32 k -> k <= Z.of_nat (length buf) ->
      wp (tfm_etss_get uid off k buf true) w' (fun r w'' => storage_of (<[j := v']> vs) j c v' w'' /\
        (r = Err ETSS_ERR_GENERIC_ERROR \/
         let bs := take (Z.to_nat k) (drop (Z.to_nat off) data) in
         r = Ok (ETSS_SUCCESS, bs ++ drop (length bs) buf, Z.of_nat (length bs))))).
Proof.
  intros Hst Ht Hu Hcf Hd Hn Hold Hroom.
  eapply wp_mono; [by apply (wp_api_set vs j c v w uid data cf)|].
  intros r w' [Hc H]. cbv zeta in *. destruct H as [H|H]; [by left|right].
  destruct (from_option _ _ _); [exact H|]. destruct H as [-> H]. split; [done|]. split; [exact H|].
  intros off k buf Hoff Hk Hbl. set (v' := <[etss_get_fid (caller w) uid := file_of c data cf]> v) in *.
  eapply wp_mono; [apply (wp_api_get _ j c v' w' uid off k buf H Hu); unfold is_u32 in *; lia|].
  intros r w'' (Hst' & _ & Hr). split; [exact Hst'|]. rewrite Hc in Hr. unfold got, get_spec, v' in Hr.
  rewrite lookup_insert_eq in Hr. cbn [file_of stored af_data] in Hr. rewrite Nat2Z.id, firstn_all in Hr.
  by destruct (Z.gtb_spec off (Z.of_nat (length data))); [lia|].
Qed.
End EndToEnd.

(** ** A concrete instance

    Client 1 stores forty bytes and reads twenty of them from offset 10. *)

Definition start : world := {| partition := up; client_of_world := 1 |}.

Lemma start_storage : storage_of configured [∅; ∅] 0 (zone_cfg 0) ∅ start.
Proof.
  split; [exact up_service| |by rewrite configured_zones|done].
  split; [vm_compute; reflexivity|]. unfold is_u8. apply (bool_decide_unpack _). vm_compute. exact I.
Qed.

Lemma start_room : room_for 0 (zone_cfg 0) start 5 0 40.
Proof.
  intros x Ha Hx _. vm_compute in Hx. injection Hx as <-. split; [vm_compute; discriminate|].
  split; (eexists; vm_compute; reflexivity).
Qed.

Lemma stored_file_returned_witness :
  wp (tfm_etss_set 5 forty 0) start (fun r w' =>
    (r = Err ETSS_ERR_GENERIC_ERROR /\ storage_of configured [∅; ∅] 0 (zone_cfg 0) ∅ w') \/
    r = Ok tt /\ wp (tfm_etss_get 5 10 20 (replicate 32 0) true) w' (fun r w'' =>
      r = Err ETSS_ERR_GENERIC_ERROR \/ r = Ok (ETSS_SUCCESS, seqZ 11 20 ++ replicate 12 0, 20))).
Proof.
  assert (Forall is_u8 forty) as Hd by (unfold is_u8; apply (bool_decide_unpack _); vm_compute; exact I).
  assert (forall F : afile, (∅ : gmap (list Z) afile) !! etss_get_fid (caller start) 5 = Some F -> 0 < af_max F) as Hold.
  { intros F. by rewrite lookup_empty. }
  assert (Z.of_nat (length forty) <= 4294901760) as Hn by (vm_compute; discriminate).
  assert (0 < asset_data_size) as Hbuf by (vm_compute; reflexivity).
  assert (Z.of_nat (length forty) = 40) as Hlen by (vm_compute; reflexivity).
  assert (room_for 0 (zone_cfg 0) start 5 0 (Z.of_nat (length forty))) as Hroom by (rewrite Hlen; apply start_room).
  assert (uid_ok 5) as Hu by (unfold uid_ok; lia).
  assert (flags_supported 0 = true) as Hcf by reflexivity.
  pose proof (stored_file_returned sample_apart configured configured_ok eq_refl Hbuf) as H0.
  pose proof (H0 [∅; ∅] 0%nat (zone_cfg 0) ∅ start 5 forty 0 start_storage (zone_transfer 0)) as H1.
  pose proof (H1 Hu Hcf Hd Hn Hold Hroom) as H.
  eapply wp_mono; [exact H|]. intros r w' H'. cbv zeta in H'. rewrite lookup_empty in H'. cbn [from_option] in H'.
  destruct H' as [H'|(-> & _ & H')]; [by left|right]. split; [done|].
  eapply wp_mono; [apply (H' 10 20 (replicate 32 0)); [vm_compute; split; congruence..|vm_compute; congruence]|].
  intros r w'' [_ [-> | ->]]; [by left|right]. vm_compute. reflexivity.
Defined.

(** On the concrete framework the connection is made. *)
Example start_answered : (tfm_etss_set 5 forty 0 start).1 = Ok tt.
Proof. vm_compute. reflexivity. Qed.
