(* ===== verification/EtssTheorems.v ===== *)
(** * The secure storage service: its properties

    The theorems about external_trusted_secure_storage.c and
    etss_req_mngr.c, each with a concrete instance where it has hypotheses.
    [service cs vs s]: the clients [cs] are served, client [j] owning the
    files [vs !! j]; [serving cs ms vs s]: the same, with the clients marked
    in [ms] whose file system has refused to replace a file. *)
From Stdlib Require Import ZArith Lia.
From stdpp Require Import base list numbers gmap options.
From S2P Require Import Prelude.
From S2P Require Import EtssUtils.
From S2P Require Import FlashFsDefs.
From S2P Require Import FlashFs.
From S2P Require Import MblockSpec.
From S2P Require Import FsReads.
From S2P Require Import FsTables.
From S2P Require Import FsDisk.
From S2P Require Import FsCommit.
From S2P Require Import FsRead.
From S2P Require Import FsWrite.
From S2P Require Import FsOps.
From S2P Require Import SpiNor.
From S2P Require Import SecureFlash.
From S2P Require Import SecureFlashSpec.
From S2P Require Import SecureFlashFs.
From S2P Require Import SecureDevice.
From S2P Require Import PsaApi.
From S2P Require Import PsaSample.
From S2P Require Import EtssService.
From S2P Require Import EtssSpec.
From S2P Require Import EtssClients.
From S2P Require Import EtssRefine.
From S2P Require Import EtssReqMngr.
From S2P Require Import EtssReqSpec.
From S2P Require Import EtssExample.

#[local] Set Default Proof Using "Type*".

Section Storage.
Context {D P : Type} {SO : SpiOps D} {JO : JedecOps D} {PO : PsaOps P} {CF : EtssConfig}.
Context {JL : JedecLaws D} {PL : PsaLaws P}.
Context (cs : list (Z * etss_flash_fs_config_t)) (Hcs : clients_ok cs).
Context (Hfeat : security_storage (security_feature dev_info) = true).
Implicit Types s : etss_state D P.
Implicit Types vs : list (gmap (list Z) afile).
Implicit Types v : gmap (list Z) afile.
Implicit Types j : nat.

(** C3: On a working device [etss_set] answers NOT_PERMITTED when the file is
    write-once.  Otherwise it succeeds exactly when the file system has a
    place for the file; then the client's files are the old ones with this
    file, holding all the bytes of the request over any number of buffers.
    A refused request leaves the old files on the flash.  The files of all
    other clients stay what they are. *)
Theorem etss_set_correct vs s j client c v uid n cf :
  request_of cs vs s j client c v -> transfer_ok c -> bytes_ok s ->
  uid_ok uid -> flags_supported cf = true -> 0 <= n <= 4294901760 ->
  n <= Z.of_nat (length (in_data (psa s) (h_of s) 1)) ->
  (forall F, v !! etss_get_fid client uid = Some F -> 0 < af_max F) ->
  wp (etss_set client uid n cf) s (fun r s' =>
    let fid := etss_get_fid client uid in
    bytes_ok s' /\ replies (psa s') = replies (psa s) /\
    if from_option write_once false (v !! fid)
    then r = Err ETSS_ERR_NOT_PERMITTED /\ service cs vs s'
    else exists x (Ha : area_ok c), etss_fs_ctx_tbl s !! j = Some (client, x) /\
      match r with
      | Ok _ => has_place c Ha (dimg (device (flash s))) x (flash s) fid (set_flags cf) n /\
          service cs (<[j := <[fid := stored c n cf (in_data (psa s) (h_of s) 1)]> v]> vs) s'
      | Err _ => ~ has_place c Ha (dimg (device (flash s))) x (flash s) fid (set_flags cf) n /\
          mounts c (sf_image c (flash s')) v /\ others cs vs s' j
      end).
Proof. apply (service_set cs Hcs Hfeat). Qed.

(** What a client stored it gets back: after a successful [etss_set],
    [etss_get] under any later message returns the requested part of the data
    and its length. *)
Theorem set_get_roundtrip vs s j client c v uid n cf :
  request_of cs vs s j client c v -> transfer_ok c -> 0 < asset_data_size -> bytes_ok s ->
  uid_ok uid -> flags_supported cf = true -> 0 <= n <= 4294901760 ->
  n <= Z.of_nat (length (in_data (psa s) (h_of s) 1)) ->
  (forall F, v !! etss_get_fid client uid = Some F -> 0 < af_max F) ->
  wp (etss_set client uid n cf) s (fun r s' => r = Ok tt ->
    forall m p off k, is_u32 off -> is_u32 k -> off <= n ->
    wp (etss_get client uid off k) (set_msg m (set_psa p s')) (fun r s'' =>
      r = Ok (Z.min k (n - off)) /\
      answered (set_msg m (set_psa p s')) s''
        (take (Z.to_nat k) (drop (Z.to_nat off) (take (Z.to_nat n) (in_data (psa s) (h_of s) 1)))))).
Proof.
  intros Hrq Ht Hb0 Hb Hu Hcf Hn Hin Hold.
  eapply wp_mono; [by apply (service_set cs Hcs Hfeat vs s j client c v uid n cf)|].
  intros r s' (Hb' & _ & H) -> m p off k Hoff Hk Hle.
  destruct (from_option write_once false _); [by destruct H|].
  destruct H as (x & Ha & _ & _ & Hsv'). set (data := in_data (psa s) (h_of s) 1) in *.
  set (v' := <[etss_get_fid client uid := stored c n cf data]> v) in *.
  pose proof (service_get cs Hcs Hfeat (<[j := v']> vs) (set_msg m (set_psa p s')) j client c v' uid off k) as Hg.
  assert (get_spec v' (etss_get_fid client uid) off k
    = (Ok (Z.min k (n - off)), take (Z.to_nat k) (drop (Z.to_nat off) (take (Z.to_nat n) data)))) as Hspec.
  { unfold get_spec, v'. rewrite lookup_insert_eq. cbn [stored af_data].
    replace (Z.of_nat (length (take (Z.to_nat n) data))) with n by (rewrite length_take; lia).
    destruct (Z.gtb_spec off n); [lia|done]. }
  rewrite Hspec in Hg. eapply wp_mono; [apply Hg; try done|].
  - destruct Hrq as [_ Hj Hv]. split; [by apply (service_ext cs _ s')|done|].
    apply list_lookup_insert_eq. by eapply lookup_lt_Some.
  - intros r s'' (-> & Hans & _). by split.
Qed.

(** C2: Refinement.  A run of storage requests, of any clients in any order,
    of any length including zero, with valid or invalid identifiers and flags
    and under any messages, is a run of the automaton [astep] over one map of
    files per client.  A request that is refused for want of a place changes no
    file; if it would have replaced one, the client is marked and from then on
    only its look-ups are promised, while the others are served as before.
    The run is followed to its end or to the first [damaging] request: an
    update by a marked client ([FsDetails.refused_write_loses_file] shows the
    loss), or the removal or replacement of a file that was created with
    length zero ([FsDetails.delete_zero_size_corrupts]); up to it all is as
    the automaton says. *)
Theorem service_refines ms vs s es s' :
  (forall j client c, cs !! j = Some (client, c) -> transfer_ok c) -> 0 < asset_data_size ->
  serving cs ms vs s -> crun cs s es s' ->
  exists es1 es2 s1 ms1 vs1, es = es1 ++ es2 /\
    crun cs s es1 s1 /\ arun cs ms vs es1 ms1 vs1 /\ serving cs ms1 vs1 s1 /\
    ((es2 = [] /\ s1 = s') \/ exists e es3, es2 = e :: es3 /\ damaging cs ms1 vs1 e).
Proof.
  intros Htr Hb Hsg Hrun.
  destruct (run_refines cs Hcs Hfeat Htr Hb ms vs s es s' (fun _ _ => True) ltac:(done) Hsg Hrun I)
    as (es1 & es2 & s1 & ms1 & vs1 & ? & ? & ? & ? & _ & ?).
  by exists es1, es2, s1, ms1, vs1.
Qed.

(** C12: A write-once file stays as it is, whatever the clients ask for,
    refusals and rejections included, as long as no request is [damaging]:
    no client updates its file system after the refusal of a replacement, and
    no file created with length zero is removed or replaced. *)
Theorem write_once_stays ms vs s es s' j v fid F :
  (forall k client c, cs !! k = Some (client, c) -> transfer_ok c) -> 0 < asset_data_size ->
  serving cs ms vs s -> vs !! j = Some v -> v !! fid = Some F -> write_once F = true -> crun cs s es s' ->
  exists es1 es2 s1 ms1 vs1, es = es1 ++ es2 /\ crun cs s es1 s1 /\ serving cs ms1 vs1 s1 /\
    (exists v1, vs1 !! j = Some v1 /\ v1 !! fid = Some F) /\
    ((es2 = [] /\ s1 = s') \/ exists e es3, es2 = e :: es3 /\ damaging cs ms1 vs1 e).
Proof.
  intros Htr Hb Hsg Hv HF Hw Hrun.
  destruct (run_refines cs Hcs Hfeat Htr Hb ms vs s es s'
    (fun _ vs => exists v, vs !! j = Some v /\ v !! fid = Some F)
    (fun ms vs e ms' vs' Hst => astep_once cs ms vs e ms' vs' j fid F Hst Hw) Hsg Hrun ltac:(by exists v))
    as (es1 & es2 & s1 & ms1 & vs1 & ? & ? & ? & ? & ? & ?).
  by exists es1, es2, s1, ms1, vs1.
Qed.
End Storage.

(** ** Start-up *)

Section Start.
Context {D P : Type} {SO : SpiOps D} {JO : JedecOps D} {PO : PsaOps P} {CF : EtssConfig}.
Context {JL : JedecLaws D}.
Implicit Types s : etss_state D P.

(** C9: On a working device [etss_init] mounts the file system of every client
    of the layout: those that hold files keep them, an area without a file
    system is formatted, and no client's start touches the area of another. *)
Theorem etss_init_mounts vs s :
  clients_ok configured -> (length clients <= 4)%nat -> NoDup (CLIENT_ID <$> clients) ->
  security_storage (security_feature dev_info) = true -> powered_up vs s ->
  wp etss_init s (fun r s' => r = Ok tt /\ service configured vs s').
Proof. intros Hcs Hn Hnd Hf Hp. by apply wp_etss_init. Qed.

(** What a storage request is refused with before it reaches the flash. *)
Definition refusal (client uid : Z) (accepts : bool) s : option Z :=
  if negb (security_storage (security_feature dev_info)) then Some ETSS_ERR_NOT_SUPPORTED
  else if uid =? ETSS_INVALID_UID then Some ETSS_ERR_INVALID_ARGUMENT
  else if negb accepts then Some ETSS_ERR_NOT_SUPPORTED
  else match find_client client 0 (etss_fs_ctx_tbl s) with
       | Some _ => None
       | None => Some ETSS_ERR_NOT_PERMITTED
       end.

(** Only the identifiers of the request and of the current client changed. *)
Record untouched s s' : Prop := {
  ut_dev : spi_nor (flash s') = spi_nor (flash s);
  ut_sf : secureflash (flash s') = secureflash (flash s);
  ut_tbl : etss_fs_ctx_tbl s' = etss_fs_ctx_tbl s;
  ut_psa : psa s' = psa s;
  ut_data : asset_data s' = asset_data s
}.

Lemma refused_request client uid b s e : booted (flash s) -> refusal client uid b s = Some e ->
  exists s', storage_request client uid b s = (Err e, s') /\ untouched s s'.
Proof.
  intros (Hd & Hi & Hv & Hap) He. unfold storage_request, mbind, ST_bind.
  assert (supports security_storage s = (Ok (security_storage (security_feature dev_info)), s)) as ->.
  { unfold supports, mbind, ST_bind, on_flash. rewrite get_vendor_eq. unfold current_info.
    rewrite Hv. cbn. rewrite jl_info. by destruct s. }
  unfold refusal in He. destruct (security_storage _); cbn [negb] in *; [|by simplify_eq; exists s].
  destruct (uid =? ETSS_INVALID_UID); [by simplify_eq; exists s|].
  destruct b; cbn [negb] in *; [|by simplify_eq; exists s].
  cbn. unfold or_return, etss_get_fs_ctx, get, mbind, ST_bind. cbn.
  destruct (find_client _ _ _); [done|]. injection He as <-. eexists. by split.
Qed.

(** A request for a device without storage, with the reserved identifier,
    with unknown flags, or of a client that has no file system is refused
    with the matching status, and the flash, the contexts, the buffer and the
    message are as before. *)
Theorem storage_rejected client uid cf n off s e :
  booted (flash s) -> refusal client uid (flags_supported cf) s = Some e ->
  exists s', untouched s s' /\ etss_set client uid n cf s = (Err e, s') /\
    (flags_supported cf = true ->
     etss_get client uid off n s = (Err e, s') /\ etss_get_info client uid s = (Err e, s') /\
     etss_remove client uid s = (Err e, s')).
Proof.
  intros Hb He. destruct (refused_request client uid (flags_supported cf) s e Hb He) as (s' & Hr & Hu).
  exists s'. split; [done|].
  unfold etss_set, etss_get, etss_get_info, etss_remove, mbind, ST_bind. rewrite Hr.
  split; [done|]. intros Hcf. rewrite Hcf in Hr. by rewrite Hr.
Qed.
End Start.

(** ** The request manager *)

Section Manager.
Context {D P : Type} {SO : SpiOps D} {JO : JedecOps D} {PO : PsaOps P} {CF : EtssConfig}.
Context {MF : EtssManifest} {JL : JedecLaws D} {PL : PsaLaws P}.
Implicit Types s : etss_state D P.

(** C39: Every message is answered exactly once: a connection or its end with
    success, a call with the status of the signal's handler, run on that
    message; a message the framework did not deliver gets no answer, and one
    of an unknown type stops the partition. *)
Theorem message_answered_once sig pfn s st m p :
  In (sig, pfn) handlers -> psa_get sig (psa s) = (st, m, p) ->
  wp (etss_signal_handle sig pfn) s (fun r s' =>
    let s0 := set_msg m (set_psa p s) in
    if negb (st =? PSA_SUCCESS) then r = Ok tt /\ s' = set_psa p s
    else match type m with
    | PSA_IPC_CONNECT | PSA_IPC_DISCONNECT =>
        r = Ok tt /\ replies (psa s') = replies (psa s) ++ [(handle m, PSA_SUCCESS)]
    | PSA_IPC_CALL =>
        let st' := status_of (pfn s0).1 in
        if st' =? UNDEFINED then r = Err UNDEFINED
        else r = Ok tt /\ replies (psa s') = replies (psa s) ++ [(handle m, st')]
    | PSA_IPC_OTHER _ => r = Err PANIC
    end).
Proof.
  intros Hin. apply wp_signal_handle.
  exact (proj1 (Forall_forall _ _) handlers_silent _ (proj2 (list_elem_of_In _ _) Hin)).
Qed.

(** C40: Random numbers.  The flash driver's function reports success and sets
    neither the buffer nor the size: both are what the stack holds.  So, for a
    client that asks for [n] bytes: if the size is zero, a round of the loop
    sends nothing and starts over, for ever (any amount of fuel runs out); if
    the size and [n] are larger than the buffer, the first round reads behind
    it; otherwise the client gets exactly [n] bytes, which repeat the first
    [actual_size] bytes of the buffer that was never written. *)
Theorem random_number_repeats client n s :
  booted (flash s) -> rng (security_feature dev_info) = true -> 0 < n < 4294967296 -> is_u8 actual_size ->
  let buf := indeterminate SECURE_FLASH_MAX_TRNG_SIZE in
  if actual_size =? 0 then
    (forall fuel s0, exists s1, answered s0 s1 [] /\ random_loop (S fuel) n 0 s0 = random_loop fuel n 0 s1) /\
    (forall fuel, (random_loop fuel n 0 s).1 = Err UNDEFINED)
  else if Z.of_nat (length buf) <? Z.min n actual_size then (etss_generate_random_number client n s).1 = Err UNDEFINED
  else wp (etss_generate_random_number client n) s (fun r s' => r = Ok n /\ exists bs,
    answered s s' bs /\ repeats buf actual_size n bs).
Proof.
  intros (Hd & Hi & Hv & Hap) Hf Hn Ha buf. unfold is_u8 in Ha.
  assert (etss_generate_random_number client n s = random_loop (Z.to_nat n) n 0 s) as Hgen.
  { unfold etss_generate_random_number, supports, mbind, ST_bind, on_flash. rewrite get_vendor_eq.
    unfold current_info. rewrite Hv. cbn. rewrite jl_info, Hf. cbn [negb]. by destruct s. }
  destruct (Z.eqb_spec actual_size 0) as [Hz|Hz].
  { split; [intros fuel s0; by apply random_loop_stuck|intros fuel; by apply random_loop_hangs]. }
  destruct (Z.ltb_spec (Z.of_nat (length buf)) (Z.min n actual_size)).
  - rewrite Hgen. replace (Z.to_nat n) with (S (Z.to_nat (n - 1))) by lia. apply random_loop_overrun; [done|lia|done].
  - unfold wp. rewrite Hgen. eapply wp_mono; [apply wp_random_loop; subst buf; lia|].
    intros r s' (-> & _ & bs & Hans & Hrep). split; [done|]. by exists bs.
Qed.

(** The SET handler passes the identifier, the length and the flags of the
    message to [etss_set], and leaves the data vector to be read by it. *)
Theorem set_handler_arguments uid cf s :
  uid_ok uid -> is_u32 cf -> in_len (msg s) 0 = 8 -> in_len (msg s) 2 = 4 ->
  in_data (psa s) (h_of s) 0 = enc64 uid -> in_data (psa s) (h_of s) 2 = enc32 cf ->
  exists p, etss_set_ipc s = etss_set (client_id (msg s)) uid (in_len (msg s) 1) cf (set_psa p s) /\
    in_data p (h_of s) 1 = in_data (psa s) (h_of s) 1 /\ replies p = replies (psa s).
Proof. apply set_ipc_calls. Qed.
End Manager.

(** ** Concrete instances *)

Lemma zones_transfer j client c : configured !! j = Some (client, c) -> transfer_ok c.
Proof.
  rewrite configured_zones. destruct j as [|[|j]]; intros Hj; simplify_eq/=; apply zone_transfer.
Qed.

Lemma asking_request : request_of configured [∅; ∅] asking 0 1 (zone_cfg 0) ∅.
Proof. split; [apply asking_service|by rewrite configured_zones|done]. Qed.

Lemma set_ok : (etss_set 1 5 40 1 asking).1 = Ok tt.
Proof. vm_compute. reflexivity. Qed.

Lemma no_old (F : afile) : (∅ : gmap (list Z) afile) !! etss_get_fid 1 5 = Some F -> 0 < af_max F.
Proof. by rewrite lookup_empty. Qed.

Lemma asking_length : 40 <= Z.of_nat (length (in_data (psa asking) (h_of asking) 1)).
Proof. by rewrite asking_data. Qed.

Lemma uid5 : uid_ok 5.
Proof. unfold uid_ok. lia. Qed.

Lemma etss_set_correct_witness :
  (etss_set 1 5 40 1 asking).1 = Ok tt /\
  service configured [<[etss_get_fid 1 5 := stored (zone_cfg 0) 40 1 forty]> ∅; ∅] stored_once.
Proof.
  pose proof (etss_set_correct configured configured_ok eq_refl [∅; ∅] asking 0 1 (zone_cfg 0) ∅ 5 40 1
    asking_request (zone_transfer 0) asking_bytes uid5 eq_refl ltac:(lia) asking_length no_old) as H.
  split; [exact set_ok|]. unfold wp in H. cbv zeta in H. rewrite set_ok, lookup_empty in H.
  destruct H as (_ & _ & x & Ha & _ & _ & H). rewrite asking_data in H. exact H.
Defined.

Lemma set_get_roundtrip_witness :
  (etss_set 1 5 40 1 asking).1 = Ok tt /\ forall m p,
  wp (etss_get 1 5 3 64) (set_msg m (set_psa p stored_once)) (fun r s'' =>
    r = Ok 37 /\ answered (set_msg m (set_psa p stored_once)) s'' (seqZ 4 37)).
Proof.
  pose proof (set_get_roundtrip configured configured_ok eq_refl [∅; ∅] asking 0 1 (zone_cfg 0) ∅ 5 40 1
    asking_request (zone_transfer 0) ltac:(vm_compute; reflexivity) asking_bytes uid5 eq_refl ltac:(lia)
    asking_length no_old) as H.
  split; [exact set_ok|]. intros m p.
  specialize (H set_ok m p 3 64 ltac:(unfold is_u32; lia) ltac:(unfold is_u32; lia) ltac:(lia)).
  rewrite asking_data in H. exact H.
Defined.

(** Three requests and their run: the forty bytes, an empty file, and its
    facts. *)
Definition empty_msg : psa_msg_t :=
  {| type := PSA_IPC_CALL; handle := 4; client_id := 1; in_size := [8; 0; 4]; out_size := [] |}.
Definition asking_empty : etss_state sdev pstate := with_request empty_msg [enc64 6; []; enc32 0] stored_once.
Definition stored_empty : etss_state sdev pstate := (etss_set 1 6 0 0 asking_empty).2.
Definition told : etss_state sdev pstate := (etss_get_info 1 6 stored_empty).2.
Definition three_events : list event :=
  [(0%nat, SSet 5 40 1 forty, SDone (Ok tt)); (0%nat, SSet 6 0 0 [], SDone (Ok tt));
   (0%nat, SInfo 6, SFacts (Ok {| p_capacity := 0; p_size := 0; p_flags := 0 |}))].

Lemma set_run : crun configured asking three_events told.
Proof.
  apply (crun_request _ asking 0 1 (zone_cfg 0) _ _ stored_once); [by rewrite configured_zones|by vm_compute| |].
  { rewrite <- asking_data. apply served_set. rewrite <- set_ok. apply surjective_pairing. }
  apply (crun_message _ stored_once empty_msg (psa asking_empty)).
  change (set_msg empty_msg (set_psa (psa asking_empty) stored_once)) with asking_empty.
  apply (crun_request _ asking_empty 0 1 (zone_cfg 0) _ _ stored_empty); [by rewrite configured_zones|by vm_compute| |].
  { assert (in_data (psa asking_empty) (h_of asking_empty) 1 = []) as <- by (vm_compute; reflexivity).
    apply served_set. assert ((etss_set 1 6 0 0 asking_empty).1 = Ok tt) as <- by (vm_compute; reflexivity).
    apply surjective_pairing. }
  apply (crun_request _ stored_empty 0 1 (zone_cfg 0) _ _ told);
    [by rewrite configured_zones|by vm_compute| |apply crun_nil].
  apply served_info. unfold told.
  assert ((etss_get_info 1 6 stored_empty).1 = Ok {| p_capacity := 0; p_size := 0; p_flags := 0 |}) as <-
    by (vm_compute; reflexivity).
  apply surjective_pairing.
Qed.

Lemma service_refines_witness :
  exists es1 es2 s1 ms1 vs1, three_events = es1 ++ es2 /\
    crun configured asking es1 s1 /\ arun configured unmarked [∅; ∅] es1 ms1 vs1 /\
    serving configured ms1 vs1 s1 /\
    ((es2 = [] /\ s1 = told) \/ exists e es3, es2 = e :: es3 /\ damaging configured ms1 vs1 e).
Proof.
  exact (service_refines configured configured_ok eq_refl unmarked [∅; ∅] asking three_events told
    zones_transfer ltac:(vm_compute; reflexivity) asking_serving set_run).
Defined.

(** The state in which the file is there, and an attempt to replace it. *)
Definition one_file : list (gmap (list Z) afile) :=
  [<[etss_get_fid 1 5 := stored (zone_cfg 0) 40 1 forty]> ∅; ∅].

Lemma stored_serving : serving configured unmarked one_file stored_once.
Proof.
  destruct (service_set configured configured_ok eq_refl [∅; ∅] asking 0 1 (zone_cfg 0) ∅ 5 40 1
    asking_request (zone_transfer 0) asking_bytes uid5 eq_refl ltac:(lia) asking_length no_old)
    as (Hb & _ & H).
  rewrite lookup_empty, set_ok in H. destruct H as (x & Ha & _ & _ & H). rewrite asking_data in H.
  split; [exact H|exact Hb].
Qed.

Lemma overwrite_run : crun configured stored_once
  [(0%nat, SRemove 5, SDone (Err ETSS_ERR_NOT_PERMITTED))] (etss_remove 1 5 stored_once).2.
Proof.
  apply (crun_request _ stored_once 0 1 (zone_cfg 0) _ _ (etss_remove 1 5 stored_once).2);
    [by rewrite configured_zones|by vm_compute| |apply crun_nil].
  apply served_remove.
  assert ((etss_remove 1 5 stored_once).1 = Err ETSS_ERR_NOT_PERMITTED) as <- by (vm_compute; reflexivity).
  apply surjective_pairing.
Qed.

Lemma write_once_stays_witness :
  exists es1 es2 s1 ms1 vs1, [(0%nat, SRemove 5, SDone (Err ETSS_ERR_NOT_PERMITTED))] = es1 ++ es2 /\
    crun configured stored_once es1 s1 /\ serving configured ms1 vs1 s1 /\
    (exists v1, vs1 !! 0%nat = Some v1 /\ v1 !! etss_get_fid 1 5 = Some (stored (zone_cfg 0) 40 1 forty)) /\
    ((es2 = [] /\ s1 = (etss_remove 1 5 stored_once).2) \/
     exists e es3, es2 = e :: es3 /\ damaging configured ms1 vs1 e).
Proof.
  exact (write_once_stays configured configured_ok eq_refl unmarked one_file stored_once _ _ 0 _
    (etss_get_fid 1 5) (stored (zone_cfg 0) 40 1 forty) zones_transfer ltac:(vm_compute; reflexivity)
    stored_serving eq_refl (lookup_insert_eq _ _ _) eq_refl overwrite_run).
Defined.

Lemma etss_init_mounts_witness : (etss_init off_state).1 = Ok tt /\ service configured [∅; ∅] up.
Proof.
  exact (etss_init_mounts [∅; ∅] off_state configured_ok ltac:(vm_compute; lia)
    ltac:(apply (bool_decide_unpack _); vm_compute; exact I) eq_refl off_powered).
Defined.

(** Client 9 has no file system. *)
Lemma storage_rejected_witness :
  exists s', untouched up s' /\ etss_set 9 5 40 0 up = (Err ETSS_ERR_NOT_PERMITTED, s') /\
    (flags_supported 0 = true ->
     etss_get 9 5 0 40 up = (Err ETSS_ERR_NOT_PERMITTED, s') /\
     etss_get_info 9 5 up = (Err ETSS_ERR_NOT_PERMITTED, s') /\
     etss_remove 9 5 up = (Err ETSS_ERR_NOT_PERMITTED, s')).
Proof.
  apply (storage_rejected 9 5 0 40 0 up ETSS_ERR_NOT_PERMITTED); [apply up_service|vm_compute; reflexivity].
Defined.

Lemma message_answered_once_witness :
  In (ETSS_SET_SIGNAL, etss_set_ipc) (handlers (D := sdev) (P := pstate)) /\
  wp (etss_signal_handle ETSS_SET_SIGNAL etss_set_ipc) waiting (fun r s' =>
    r = Ok tt /\ replies (psa s') = [(3, PSA_SUCCESS)]).
Proof.
  split; [by left|].
  pose proof (message_answered_once ETSS_SET_SIGNAL etss_set_ipc waiting PSA_SUCCESS set_msg_1
    (psa_get ETSS_SET_SIGNAL (psa waiting)).2 ltac:(by left) ltac:(vm_compute; reflexivity)) as H.
  assert (status_of (etss_set_ipc (set_msg set_msg_1 (set_psa (psa_get ETSS_SET_SIGNAL (psa waiting)).2 waiting))).1
    = PSA_SUCCESS) as Hst by (vm_compute; reflexivity).
  unfold wp in *. cbv zeta in H. rewrite Hst in H. exact H.
Defined.

Lemma random_number_repeats_witness :
  wp (etss_generate_random_number 1 20) up (fun r s' => r = Ok 20 /\ exists bs,
    answered up s' bs /\ repeats (indeterminate SECURE_FLASH_MAX_TRNG_SIZE) actual_size 20 bs).
Proof.
  assert (booted (flash up)) as Hb by apply up_service.
  exact (random_number_repeats 1 20 up Hb eq_refl ltac:(lia) ltac:(vm_compute; split; [discriminate|reflexivity])).
Defined.

Lemma set_handler_arguments_witness :
  exists p, etss_set_ipc asking = etss_set 1 5 40 1 (set_psa p asking) /\
    in_data p 3 1 = forty /\ replies p = [].
Proof.
  assert (in_data (psa asking) (h_of asking) 0 = enc64 5) as H0 by (vm_compute; reflexivity).
  assert (in_data (psa asking) (h_of asking) 2 = enc32 1) as H4 by (vm_compute; reflexivity).
  pose proof (set_handler_arguments 5 1 asking uid5 ltac:(unfold is_u32; lia) eq_refl eq_refl H0 H4)
    as (p & H1 & H2 & H3).
  exists p. split; [exact H1|]. split; [exact (eq_trans H2 asking_data)|]. rewrite H3. vm_compute. reflexivity.
Defined.
