(* ===== verification/MeasuredBoot.v ===== *)
(** * Measured boot (measured_boot.c, measured_boot_utils.c)

    The measurement slots and the operations on them.  The size of a digest
    and the algorithm are those of the build; psa_hash_compute belongs to the
    crypto service and is a parameter.  An array is the list of its bytes; a
    pointer argument is the list of the bytes it points to, and every copy
    outside an array is [UNDEFINED].  LOG_DBGFMT prints are left out, the
    reads and copies that feed them are not. *)
From Stdlib Require Import ZArith Lia.
From stdpp Require Import base list numbers options.
From S2P Require Import Prelude.

#[local] Set Default Proof Using "Type*".

(** ** Limits (measured_boot_api.h) *)

Definition MEASUREMENT_VALUE_MIN_SIZE : Z := 32.
Definition MEASUREMENT_VALUE_MAX_SIZE : Z := 64.
Definition SIGNER_ID_MIN_SIZE : Z := MEASUREMENT_VALUE_MIN_SIZE.
Definition SIGNER_ID_MAX_SIZE : Z := MEASUREMENT_VALUE_MAX_SIZE.
Definition VERSION_MAX_SIZE : Z := 14.
Definition SW_TYPE_MAX_SIZE : Z := 20.
Definition NUM_OF_MEASUREMENT_SLOTS : Z := 32.
Definition MEASUREMENT_VALUE_INIT_PATTERN : Z := 0.

(** ** The slots *)

Record measurement_metadata_t : Type := {
  signer_id : list Z;
  signer_id_size : Z;
  version : list Z;
  version_size : Z;
  measurement_algo : Z;
  sw_type : list Z;
  sw_type_size : Z
}.

Record measurement_value_t : Type := { hash_buf : list Z; hash_buf_size : Z }.

Record measurement_t : Type := { value : measurement_value_t; metadata : measurement_metadata_t }.

Record measured_boot_slot_t : Type := {
  is_locked : bool;
  is_populated : bool;
  is_common : bool;
  measurement : measurement_t
}.

(** The build and the crypto service: [psa_hash_compute alg input size]
    returns a status and the hash it wrote, at most [size] bytes. *)
Class HashOps (P : Type) := {
  MEASUREMENT_VALUE_SIZE : Z;
  TFM_MEASURED_BOOT_HASH_ALG : Z;
  psa_hash_compute : Z -> list Z -> Z -> P -> Z * list Z * P
}.

(** The static variables of the partition, and the framework it calls. *)
Record mb_state (P : Type) : Type := {
  measurement_slot : list measured_boot_slot_t;
  boot_measurements : list Z;
  g_measured_boot_caller_id : Z;
  mb_psa : P
}.
Arguments measurement_slot {P} _.
Arguments boot_measurements {P} _.
Arguments g_measured_boot_caller_id {P} _.
Arguments mb_psa {P} _.

(** Bytes set by memset. *)
Definition filled (n x : Z) : list Z := replicate (Z.to_nat n) x.

Section MeasuredBoot.
Context {P : Type} {HO : HashOps P}.
Implicit Types s : mb_state P.
Abbreviation MB := (ST (mb_state P)).

(** *** Assignments *)

Definition set_slots (x : list measured_boot_slot_t) s : mb_state P :=
  {| measurement_slot := x; boot_measurements := boot_measurements s;
     g_measured_boot_caller_id := g_measured_boot_caller_id s; mb_psa := mb_psa s |}.
Definition set_boot_measurements (x : list Z) s : mb_state P :=
  {| measurement_slot := measurement_slot s; boot_measurements := x;
     g_measured_boot_caller_id := g_measured_boot_caller_id s; mb_psa := mb_psa s |}.
Definition set_caller_id (x : Z) s : mb_state P :=
  {| measurement_slot := measurement_slot s; boot_measurements := boot_measurements s;
     g_measured_boot_caller_id := x; mb_psa := mb_psa s |}.
Definition set_mb_psa (x : P) s : mb_state P :=
  {| measurement_slot := measurement_slot s; boot_measurements := boot_measurements s;
     g_measured_boot_caller_id := g_measured_boot_caller_id s; mb_psa := x |}.

(** A call of the framework or of another service. *)
Definition on_mb_psa {A} (f : P -> A * P) : MB A := fun s =>
  let '(a, p) := f (mb_psa s) in (Ok a, set_mb_psa p s).

(** [measurement_slot[index]], read and written. *)
Definition slot_at (index : Z) : MB measured_boot_slot_t := fun s =>
  match measurement_slot s !! Z.to_nat index with
  | Some slot => (Ok slot, s)
  | None => (Err UNDEFINED, s)
  end.

Definition set_slot (index : Z) (f : measured_boot_slot_t -> measured_boot_slot_t) : MB unit :=
  slot ← slot_at index;
  modify (fun s => set_slots (<[Z.to_nat index := f slot]> (measurement_slot s)) s).

Definition with_value (v : measurement_value_t) (slot : measured_boot_slot_t) : measured_boot_slot_t :=
  {| is_locked := is_locked slot; is_populated := is_populated slot; is_common := is_common slot;
     measurement := {| value := v; metadata := metadata (measurement slot) |} |}.
Definition with_metadata (m : measurement_metadata_t) (slot : measured_boot_slot_t) : measured_boot_slot_t :=
  {| is_locked := is_locked slot; is_populated := is_populated slot; is_common := is_common slot;
     measurement := {| value := value (measurement slot); metadata := m |} |}.
Definition with_populated (slot : measured_boot_slot_t) : measured_boot_slot_t :=
  {| is_locked := is_locked slot; is_populated := true; is_common := is_common slot;
     measurement := measurement slot |}.
Definition with_locked (slot : measured_boot_slot_t) : measured_boot_slot_t :=
  {| is_locked := true; is_populated := is_populated slot; is_common := is_common slot;
     measurement := measurement slot |}.

(** *** Access control *)

(** [memcmp(a, b, n) != 0] *)
Definition memcmp_differs (a b : list Z) (n : Z) : MB bool :=
  if (n <=? Z.of_nat (length a)) && (n <=? Z.of_nat (length b))
  then mret (negb (bool_decide (take (Z.to_nat n) a = take (Z.to_nat n) b)))
  else raise UNDEFINED.

(** The stored size is a uint8_t here. *)
Definition is_signer_id_different (index : Z) (client_signer_id : list Z) : MB bool :=
  slot ← slot_at index;
  let m := metadata (measurement slot) in
  memcmp_differs client_signer_id (signer_id m) (w8 (signer_id_size m)).

Definition is_slot_access_prohibited (slot_index : Z) (client_signer_id : list Z) : MB bool :=
  different ← is_signer_id_different slot_index client_signer_id;
  if different : bool then slot ← slot_at slot_index; mret (negb (is_common slot))
  else mret false.

Definition is_read_access_prohibited (slot_index : Z) : bool := false.

Definition is_measurement_slot_populated (index : Z) : MB bool :=
  slot ← slot_at index; mret (is_populated slot).

(** *** Reading *)

(** What the out-parameters hold after a successful read: the four buffers
    and their lengths, the algorithm and the lock. *)
Record reading : Type := {
  r_signer_id : list Z;
  r_signer_id_len : Z;
  r_version : list Z;
  r_version_len : Z;
  r_measurement_algo : Z;
  r_sw_type : list Z;
  r_sw_type_len : Z;
  r_measurement_value : list Z;
  r_measurement_value_len : Z;
  r_is_locked : Z
}.

(** The buffers are passed with the sizes the caller claims for them. *)
Definition measured_boot_read_measurement (index : Z)
    (signer_id_buf : list Z) (signer_id_buf_size : Z) (version_buf : list Z) (version_buf_size : Z)
    (sw_type_buf : list Z) (sw_type_buf_size : Z)
    (measurement_value_buf : list Z) (measurement_value_buf_size : Z) : MB reading :=
  if is_read_access_prohibited index then raise PSA_ERROR_NOT_PERMITTED
  else
    slot ← slot_at index;
    let m := metadata (measurement slot) in
    let v := value (measurement slot) in
    populated ← is_measurement_slot_populated index;
    if populated : bool then
      if (version_buf_size <? version_size m) || (sw_type_buf_size <? sw_type_size m)
        || (signer_id_buf_size <? signer_id_size m) || (measurement_value_buf_size <? hash_buf_size v)
      then raise PSA_ERROR_INVALID_ARGUMENT
      else
        sid ← memcpy signer_id_buf 0 (signer_id m) (signer_id_size m);
        ver ← memcpy version_buf 0 (version m) (version_size m);
        swt ← memcpy sw_type_buf 0 (sw_type m) (sw_type_size m);
        val ← memcpy measurement_value_buf 0 (hash_buf v) (hash_buf_size v);
        mret {| r_signer_id := sid; r_signer_id_len := signer_id_size m;
                r_version := ver; r_version_len := version_size m;
                r_measurement_algo := measurement_algo m;
                r_sw_type := swt; r_sw_type_len := sw_type_size m;
                r_measurement_value := val; r_measurement_value_len := hash_buf_size v;
                r_is_locked := Z.b2z (is_locked slot) |}
    else raise PSA_ERROR_DOES_NOT_EXIST.

(** *** Extending *)

Definition update_metadata (index : Z) (sid : list Z) (sid_size : Z) (ver : list Z) (ver_size : Z)
    (algo : Z) (swt : list Z) (swt_size : Z) : MB unit :=
  slot ← slot_at index;
  let m := metadata (measurement slot) in
  sid' ← memcpy (signer_id m) 0 sid sid_size;
  ver' ← memcpy (version m) 0 ver ver_size;
  swt' ← memcpy (sw_type m) 0 swt swt_size;
  set_slot index (with_metadata
    {| signer_id := sid'; signer_id_size := sid_size; version := ver'; version_size := w8 ver_size;
       measurement_algo := algo; sw_type := swt'; sw_type_size := w8 swt_size |}).

Definition extend_metadata (index : Z) : MB unit :=
  slot ← slot_at index;
  let m := metadata (measurement slot) in
  set_slot index (with_metadata
    {| signer_id := signer_id m; signer_id_size := signer_id_size m;
       version := filled VERSION_MAX_SIZE 0; version_size := 0; measurement_algo := measurement_algo m;
       sw_type := filled SW_TYPE_MAX_SIZE 0; sw_type_size := 0 |}).

Definition store_measurement_value (index : Z) (src_value : list Z) (measurement_size : Z) : MB unit :=
  slot ← slot_at index;
  buf ← memcpy (hash_buf (value (measurement slot))) 0 src_value measurement_size;
  set_slot index (with_value {| hash_buf := buf; hash_buf_size := w8 measurement_size |}).

Definition lock_measurement_slot (index : Z) : MB unit := set_slot index with_locked.

Definition get_stored_measurement_value (index : Z) (output_buffer : list Z) : MB (list Z) :=
  slot ← slot_at index;
  memcpy output_buffer 0 (hash_buf (value (measurement slot))) MEASUREMENT_VALUE_SIZE.

Definition TEMP_BUFFER_SIZE : Z := MEASUREMENT_VALUE_SIZE + MEASUREMENT_VALUE_MAX_SIZE.

(** The part of [temp_buffer] that is hashed has been written before. *)
Definition extend_measurement_value (index : Z) (m : list Z) (measurement_size : Z) : MB (list Z) :=
  temp ← get_stored_measurement_value index (filled TEMP_BUFFER_SIZE 0);
  temp ← memcpy temp MEASUREMENT_VALUE_SIZE m measurement_size;
  let total_size := measurement_size + MEASUREMENT_VALUE_SIZE in
  '(status, hash) ← on_mb_psa
    (psa_hash_compute TFM_MEASURED_BOOT_HASH_ALG (take (Z.to_nat total_size) temp) MEASUREMENT_VALUE_SIZE);
  check status;; mret hash.

Definition is_measurement_slot_locked (index : Z) : MB bool :=
  slot ← slot_at index; mret (is_locked slot).

Definition mark_slot_as_occupied (index : Z) : MB unit := set_slot index with_populated.

(** *** Logging (measured_boot_utils.c) *)

Definition print_byte_array (array : list Z) (len : Z) : MB unit :=
  for_acc (Z.to_nat len) 0 tt (fun i _ =>
    match array !! Z.to_nat i with Some _ => mret tt | None => raise UNDEFINED end).

Definition add_null_terminator (dest src : list Z) (src_len : Z) : MB (list Z) :=
  dest ← memcpy dest 0 src src_len; memcpy dest src_len [0] 1.

Definition log_extend_measurement (sid : list Z) (sid_size : Z) (ver : list Z) (ver_size : Z)
    (swt : list Z) (swt_size : Z) (m : list Z) (m_size : Z) : MB unit :=
  let string_buf := filled ((if SW_TYPE_MAX_SIZE >? VERSION_MAX_SIZE then SW_TYPE_MAX_SIZE
                             else VERSION_MAX_SIZE) + 1) 0 in
  print_byte_array sid sid_size;;
  string_buf ← add_null_terminator string_buf ver ver_size;
  add_null_terminator string_buf swt swt_size;;
  print_byte_array m m_size.

(** *** The extend operation *)

Definition measured_boot_extend_measurement (index : Z) (sid : list Z) (sid_size : Z)
    (ver : list Z) (ver_size : Z) (algo : Z) (swt : list Z) (swt_size : Z)
    (m : list Z) (m_size : Z) (lock_measurement : Z) : MB unit :=
  log_extend_measurement sid sid_size ver ver_size swt swt_size m m_size;;
  prohibited ← is_slot_access_prohibited index sid;
  if prohibited : bool then raise PSA_ERROR_NOT_PERMITTED
  else
    locked ← is_measurement_slot_locked index;
    if locked : bool then raise PSA_ERROR_BAD_STATE
    else
      populated ← is_measurement_slot_populated index;
      (if populated : bool then extend_metadata index
       else update_metadata index sid sid_size ver ver_size algo swt swt_size;;
            mark_slot_as_occupied index);;
      hash ← extend_measurement_value index m m_size;
      hash_result ← memcpy (filled MEASUREMENT_VALUE_SIZE 0) 0 hash (Z.of_nat (length hash));
      store_measurement_value index hash_result (Z.of_nat (length hash));;
      if negb (lock_measurement =? 0) then lock_measurement_slot index else mret tt.

(** *** Start-up *)

Definition zero_metadata : measurement_metadata_t :=
  {| signer_id := filled SIGNER_ID_MAX_SIZE 0; signer_id_size := 0;
     version := filled VERSION_MAX_SIZE 0; version_size := 0; measurement_algo := 0;
     sw_type := filled SW_TYPE_MAX_SIZE 0; sw_type_size := 0 |}.

(** The size of the value is left as it is. *)
Definition initial_slot (slot : measured_boot_slot_t) : measured_boot_slot_t :=
  {| is_locked := false; is_populated := false; is_common := false;
     measurement := {| value := {| hash_buf := filled MEASUREMENT_VALUE_MAX_SIZE MEASUREMENT_VALUE_INIT_PATTERN;
                                   hash_buf_size := hash_buf_size (value (measurement slot)) |};
                       metadata := zero_metadata |} |}.

Definition initialise_all_measurements : MB unit :=
  for_acc (Z.to_nat NUM_OF_MEASUREMENT_SLOTS) 0 tt (fun i _ => set_slot i initial_slot).
End MeasuredBoot.
