(* ===== verification/MeasuredBootReq.v ===== *)
(** * The measured boot partition (measured_boot.c, measured_boot_req_mngr.c)

    The collection of the measurements the boot loaders left in the shared
    area, the two requests, the handling of one message, and the start and
    the loop of the partition.  The format of the shared area belongs to the
    firmware framework and to MCUboot and is the class [BootData]. *)
From Stdlib Require Import ZArith Lia.
From stdpp Require Import base list numbers options.
From S2P Require Import Prelude.
From S2P Require Import FlashFsDefs.
From S2P Require Import PsaApi.
From S2P Require Import MeasuredBoot.

#[local] Set Default Proof Using "Type*".

(** ** The shared data area (tfm_boot_status.h, boot_hal.h)

    The structures are decoded from the bytes at their address. *)

Record shared_data_tlv_header : Type := { tlv_magic : Z; tlv_tot_len : Z }.
Record shared_data_tlv_entry : Type := { tlv_type : Z; tlv_len : Z }.
Record boot_measurement_metadata : Type := {
  b_signer_id : list Z;
  b_signer_id_size : Z;
  b_measurement_type : Z;
  b_sw_type : list Z;
  b_sw_version : list Z
}.

(** [tfm_core_get_boot_data major size] returns a status and the bytes it
    wrote to the buffer; [tfm_strnlen s max] the length of a string. *)
Class BootData (P : Type) := {
  CONFIG_TFM_BOOT_STORE_MEASUREMENTS : bool;
  MCUBOOT_IMAGE_NUMBER : Z;
  TLV_MAJOR_MBS : Z;
  SHARED_DATA_TLV_INFO_MAGIC : Z;
  SHARED_DATA_HEADER_SIZE : Z;
  SHARED_DATA_ENTRY_HEADER_SIZE : Z;
  SW_MEASURE_METADATA : Z;
  SW_MEASURE_VALUE : Z;
  SW_MEASURE_VALUE_NON_EXTENDABLE : Z;
  GET_MBS_CLAIM : Z -> Z;
  GET_MBS_SLOT : Z -> Z;
  tlv_header_at : list Z -> shared_data_tlv_header;
  tlv_entry_at : list Z -> shared_data_tlv_entry;
  sizeof_boot_measurement_metadata : Z;
  boot_metadata_at : list Z -> boot_measurement_metadata;
  tfm_strnlen : list Z -> Z -> Z;
  tfm_core_get_boot_data : Z -> Z -> P -> Z * list Z * P;
  TFM_MEASURED_BOOT_SIGNAL : Z
}.

(** Message types (measured_boot_defs.h) *)
Definition TFM_MEASURED_BOOT_READ : Z := 1001.
Definition TFM_MEASURED_BOOT_EXTEND : Z := 1002.

Section Partition.
Context {P : Type} {PO : PsaOps P} {HO : HashOps P} {BD : BootData P}.
Implicit Types s : mb_state P.
Abbreviation MB := (ST (mb_state P)).

(** *** The measurements of the boot loaders *)

Definition SHARED_BOOT_MEASUREMENT_SIZE : Z :=
  2 * SHARED_DATA_ENTRY_HEADER_SIZE + sizeof_boot_measurement_metadata + MEASUREMENT_VALUE_MAX_SIZE.
Definition MAX_SHARED_BOOT_DATA_LENGTH : Z := (2 + MCUBOOT_IMAGE_NUMBER) * SHARED_BOOT_MEASUREMENT_SIZE.

(** The [n] bytes at offset [off] of [boot_measurements]. *)
Definition boot_bytes (off n : Z) : MB (list Z) := fun s =>
  let b := boot_measurements s in
  if (0 <=? off) && (0 <=? n) && (off + n <=? Z.of_nat (length b))
  then (Ok (take (Z.to_nat n) (drop (Z.to_nat off) b)), s)
  else (Err UNDEFINED, s).

(** The entry whose metadata is at [tlv_curr]: the size of both its TLVs. *)
Definition collect_entry (tlv_curr : Z) : MB Z :=
  hdr ← boot_bytes tlv_curr SHARED_DATA_ENTRY_HEADER_SIZE;
  let tlv_entry := tlv_entry_at hdr in
  if negb (GET_MBS_CLAIM (tlv_type tlv_entry) =? SW_MEASURE_METADATA)
    || negb (tlv_len tlv_entry =? sizeof_boot_measurement_metadata)
  then raise PSA_ERROR_GENERIC_ERROR
  else
    let metadata_ptr := tlv_curr + SHARED_DATA_ENTRY_HEADER_SIZE in
    let tlv_curr := tlv_curr + (SHARED_DATA_ENTRY_HEADER_SIZE + tlv_len tlv_entry) in
    hdr ← boot_bytes tlv_curr SHARED_DATA_ENTRY_HEADER_SIZE;
    let tlv_entry := tlv_entry_at hdr in
    let claim := w8 (GET_MBS_CLAIM (tlv_type tlv_entry)) in
    if negb (claim =? SW_MEASURE_VALUE) && negb (claim =? SW_MEASURE_VALUE_NON_EXTENDABLE)
    then raise PSA_ERROR_GENERIC_ERROR
    else
      bytes ← boot_bytes metadata_ptr sizeof_boot_measurement_metadata;
      let m := boot_metadata_at bytes in
      if (b_signer_id_size m <? SIGNER_ID_MIN_SIZE) || (b_signer_id_size m >? SIGNER_ID_MAX_SIZE)
        || (tlv_len tlv_entry <? MEASUREMENT_VALUE_MIN_SIZE)
        || (tlv_len tlv_entry >? MEASUREMENT_VALUE_MAX_SIZE)
      then raise PSA_ERROR_GENERIC_ERROR
      else
        v ← boot_bytes (tlv_curr + SHARED_DATA_ENTRY_HEADER_SIZE) (tlv_len tlv_entry);
        measured_boot_extend_measurement (w8 (GET_MBS_SLOT (tlv_type tlv_entry)))
          (b_signer_id m) (b_signer_id_size m)
          (b_sw_version m) (w8 (tfm_strnlen (b_sw_version m) (Z.of_nat (length (b_sw_version m)))))
          (b_measurement_type m)
          (b_sw_type m) (w8 (tfm_strnlen (b_sw_type m) (Z.of_nat (length (b_sw_type m)))))
          v (tlv_len tlv_entry)
          (Z.b2z (claim =? SW_MEASURE_VALUE_NON_EXTENDABLE));;
        mret (tlv_curr + (SHARED_DATA_ENTRY_HEADER_SIZE + tlv_len tlv_entry)).

(** The loop, [status] being what it returns when it ends here. *)
Fixpoint collect_loop (fuel : nat) (tlv_curr tlv_end status : Z) : MB unit :=
  if tlv_curr <? tlv_end then
    match fuel with
    | O => raise UNDEFINED
    | S fuel =>
        tlv_curr ← collect_entry tlv_curr;
        collect_loop fuel tlv_curr tlv_end PSA_SUCCESS
    end
  else check status.

Definition collect_shared_measurements : MB unit :=
  s ← get;
  '(rc, bytes) ← on_mb_psa
    (tfm_core_get_boot_data TLV_MAJOR_MBS (Z.of_nat (length (boot_measurements s))));
  b ← memcpy (boot_measurements s) 0 bytes (Z.of_nat (length bytes));
  modify (set_boot_measurements b);;
  if negb (rc =? PSA_SUCCESS) then raise PSA_ERROR_GENERIC_ERROR
  else
    hdr ← boot_bytes 0 SHARED_DATA_HEADER_SIZE;
    let header := tlv_header_at hdr in
    if negb (tlv_magic header =? SHARED_DATA_TLV_INFO_MAGIC) then raise PSA_ERROR_GENERIC_ERROR
    else collect_loop (Z.to_nat (tlv_tot_len header)) SHARED_DATA_HEADER_SIZE (tlv_tot_len header)
           PSA_ERROR_GENERIC_ERROR.

(** *** The requests *)

(** [num = psa_read(msg->handle, idx, &x, n); if (num != n) return e;] *)
Definition read_vec (m : psa_msg_t) (idx n : Z) : MB (list Z) :=
  bs ← on_mb_psa (psa_read (handle m) idx n);
  if negb (Z.of_nat (length bs) =? n) then raise PSA_ERROR_PROGRAMMER_ERROR else mret bs.

Definition write_vec (m : psa_msg_t) (idx : Z) (bs : list Z) : MB unit :=
  on_mb_psa (fun p => (tt, psa_write (handle m) idx bs p)).

(** The reply structure, with the padding the ABI puts into it. *)
Definition enc_read_iovec_out (r : reading) : list Z :=
  [r_is_locked r; 0; 0; 0] ++ enc32 (r_measurement_algo r) ++ r_sw_type r ++ [r_sw_type_len r]
    ++ r_version r ++ [r_version_len r].

Definition sizeof_read_iovec_in : Z := 3.
Definition sizeof_read_iovec_out : Z := 44.
Definition sizeof_extend_iovec : Z := 32.

Definition read_measurements (m : psa_msg_t) : MB unit :=
  modify (set_caller_id (client_id m));;
  let signer_id_buf_size := out_len m 1 in
  let measurement_value_size := out_len m 2 in
  if negb (in_len m 0 =? sizeof_read_iovec_in) || negb (out_len m 0 =? sizeof_read_iovec_out)
  then raise PSA_ERROR_PROGRAMMER_ERROR
  else
    read_iov_in ← read_vec m 0 sizeof_read_iovec_in;
    let index := nth_byte read_iov_in 0 in
    let sw_type_buf_size := nth_byte read_iov_in 1 in
    let version_buf_size := nth_byte read_iov_in 2 in
    if index >=? NUM_OF_MEASUREMENT_SLOTS then raise PSA_ERROR_INVALID_ARGUMENT
    else
      r ← measured_boot_read_measurement index
        (filled SIGNER_ID_MAX_SIZE 0) signer_id_buf_size (filled VERSION_MAX_SIZE 0) version_buf_size
        (filled SW_TYPE_MAX_SIZE 0) sw_type_buf_size (filled MEASUREMENT_VALUE_SIZE 0) measurement_value_size;
      write_vec m 0 (enc_read_iovec_out r);;
      write_vec m 1 (take (Z.to_nat (r_signer_id_len r)) (r_signer_id r));;
      write_vec m 2 (take (Z.to_nat (r_measurement_value_len r)) (r_measurement_value r)).

Definition extend_measurement (m : psa_msg_t) : MB unit :=
  modify (set_caller_id (client_id m));;
  if negb (in_len m 0 =? sizeof_extend_iovec) then raise PSA_ERROR_PROGRAMMER_ERROR
  else
    let sid_size := in_len m 1 in
    let ver_size := in_len m 2 in
    let measurement_value_size := in_len m 3 in
    extend_iov ← read_vec m 0 sizeof_extend_iovec;
    let index := nth_byte extend_iov 0 in
    let lock_measurement := nth_byte extend_iov 1 in
    let algo := dec32 extend_iov 4 in
    let swt := take 20 (drop 8 extend_iov) in
    let swt_size := nth_byte extend_iov 28 in
    if (sid_size <? SIGNER_ID_MIN_SIZE) || (sid_size >? SIGNER_ID_MAX_SIZE) || (ver_size >? VERSION_MAX_SIZE)
      || (measurement_value_size <? MEASUREMENT_VALUE_MIN_SIZE)
      || (measurement_value_size >? MEASUREMENT_VALUE_MAX_SIZE) || (swt_size >? SW_TYPE_MAX_SIZE)
    then raise PSA_ERROR_INVALID_ARGUMENT
    else if index >=? NUM_OF_MEASUREMENT_SLOTS then raise PSA_ERROR_INVALID_ARGUMENT
    else
      bs ← read_vec m 1 sid_size;
      sid ← memcpy (filled SIGNER_ID_MAX_SIZE 0) 0 bs sid_size;
      bs ← read_vec m 2 ver_size;
      ver ← memcpy (filled VERSION_MAX_SIZE 0) 0 bs ver_size;
      bs ← read_vec m 3 measurement_value_size;
      v ← memcpy (filled MEASUREMENT_VALUE_MAX_SIZE 0) 0 bs measurement_value_size;
      measured_boot_extend_measurement index sid sid_size ver (w8 ver_size) algo swt swt_size
        v measurement_value_size lock_measurement.

(** *** The partition *)

(** [status = handler(&msg); psa_reply(msg.handle, status);] *)
Definition handle_and_reply (m : psa_msg_t) (handler : psa_msg_t -> MB unit) : MB unit :=
  r ← attempt (handler m);
  if status_of r =? UNDEFINED then raise UNDEFINED
  else on_mb_psa (fun p => (tt, psa_reply (handle m) (status_of r) p)).

(** The default case only sets the status: the message is not answered. *)
Definition measured_boot_signal_handle (signal : Z) : MB unit :=
  '(status, m) ← on_mb_psa (psa_get signal);
  if negb (status =? PSA_SUCCESS) then mret tt
  else
    match type m with
    | PSA_IPC_OTHER n =>
        if n =? TFM_MEASURED_BOOT_READ then handle_and_reply m read_measurements
        else if n =? TFM_MEASURED_BOOT_EXTEND then handle_and_reply m extend_measurement
        else mret tt
    | _ => mret tt
    end.

(** The start, before the loop. *)
Definition tfm_measured_boot_init : MB unit :=
  initialise_all_measurements;;
  if CONFIG_TFM_BOOT_STORE_MEASUREMENTS then
    r ← attempt collect_shared_measurements;
    if status_of r =? UNDEFINED then raise UNDEFINED
    else if negb (status_of r =? PSA_SUCCESS) then raise PANIC
    else mret tt
  else mret tt.

(** One round of the loop. *)
Definition measured_boot_round : MB unit :=
  signals ← on_mb_psa psa_wait;
  if negb (Z.land signals TFM_MEASURED_BOOT_SIGNAL =? 0)
  then measured_boot_signal_handle TFM_MEASURED_BOOT_SIGNAL
  else raise PANIC.
End Partition.

(** ** The client library (measured_boot_api.c) *)

(** [uninit n]: what the stack holds where a structure of [n] bytes is
    declared without an initialiser. *)
Class PsaClient (C : Type) := {
  client_calls :: PsaCalls C;
  TFM_MEASURED_BOOT_HANDLE : Z;
  uninit : Z -> list Z
}.

(** ** The vectors (measured_boot_defs.h, with the padding of the ABI) *)

Definition enc_read_iovec_in (index sw_type_buf_size version_buf_size : Z) : list Z :=
  [index; w8 sw_type_buf_size; w8 version_buf_size].

(** [swt] is the array of the structure. *)
Definition enc_extend_iovec (index lock algo : Z) (swt : list Z) (swt_size : Z) : list Z :=
  [index; lock; 0; 0] ++ enc32 algo ++ swt ++ [w8 swt_size; 0; 0; 0].

Definition read_in_vec (index sw_type_buf_size version_buf_size : Z) : list (list Z) :=
  [enc_read_iovec_in index sw_type_buf_size version_buf_size].

Definition extend_in_vec (index : Z) (sid ver : list Z) (algo : Z) (swt : list Z) (swt_size : Z) (m : list Z)
    (lock : bool) : list (list Z) :=
  [enc_extend_iovec index (Z.b2z lock) algo swt swt_size; sid; ver; m].

Section Client.
Context {C : Type} {PC : PsaClient C}.
Abbreviation CL := (ST C).

(** What a successful read leaves in the caller's variables. *)
Record api_reading : Type := {
  ar_signer_id : list Z;
  ar_signer_id_len : Z;
  ar_version : list Z;
  ar_version_len : Z;
  ar_measurement_algo : Z;
  ar_sw_type : list Z;
  ar_sw_type_len : Z;
  ar_measurement_value : list Z;
  ar_measurement_value_len : Z;
  ar_is_locked : bool
}.

(** What the framework has written goes to the structure and to two of the
    buffers; on success the rest is taken from the structure. *)
Definition unpack_reading (status : Z) (outs : list (list Z))
    (signer_id_buf version_buf sw_type_buf measurement_value_buf : list Z) : CL api_reading :=
  let out i := match outs !! i with Some bs => bs | None => [] end in
  iov ← memcpy (uninit sizeof_read_iovec_out) 0 (out 0%nat) (Z.of_nat (length (out 0%nat)));
  sid ← memcpy signer_id_buf 0 (out 1%nat) (Z.of_nat (length (out 1%nat)));
  val ← memcpy measurement_value_buf 0 (out 2%nat) (Z.of_nat (length (out 2%nat)));
  check status;;
  let sw_type_len := nth_byte iov 28 in
  let version_len := nth_byte iov 43 in
  swt ← memcpy sw_type_buf 0 (take 20 (drop 8 iov)) sw_type_len;
  ver ← memcpy version_buf 0 (take 14 (drop 29 iov)) version_len;
  mret {| ar_signer_id := sid; ar_signer_id_len := Z.of_nat (length (out 1%nat));
          ar_version := ver; ar_version_len := version_len;
          ar_measurement_algo := dec32 iov 4;
          ar_sw_type := swt; ar_sw_type_len := sw_type_len;
          ar_measurement_value := val; ar_measurement_value_len := Z.of_nat (length (out 2%nat));
          ar_is_locked := negb (nth_byte iov 0 =? 0) |}.

(** The buffers [signer_id], [version], [sw_type] and [measurement_value] of
    the caller, with the sizes it passes for them. *)
Definition tfm_measured_boot_read_measurement (index : Z)
    (signer_id_buf : list Z) (signer_id_buf_size : Z) (version_buf : list Z) (version_buf_size : Z)
    (sw_type_buf : list Z) (sw_type_buf_size : Z)
    (measurement_value_buf : list Z) (measurement_value_buf_size : Z) : CL api_reading :=
  '(status, outs) ← on_call (psa_call TFM_MEASURED_BOOT_HANDLE TFM_MEASURED_BOOT_READ
    (read_in_vec index sw_type_buf_size version_buf_size)
    [sizeof_read_iovec_out; signer_id_buf_size; measurement_value_buf_size]);
  unpack_reading status outs signer_id_buf version_buf sw_type_buf measurement_value_buf.

(** [swt] is [None] for a null pointer; the other arguments are the bytes of
    the buffers. *)
Definition tfm_measured_boot_extend_measurement (index : Z) (sid ver : list Z) (algo : Z)
    (swt : option (list Z)) (swt_size : Z) (m : list Z) (lock : bool) : CL unit :=
  arr ← (match swt with
         | Some t => if swt_size >? SW_TYPE_MAX_SIZE then raise PSA_ERROR_INVALID_ARGUMENT
                     else memcpy (filled SW_TYPE_MAX_SIZE 0) 0 t swt_size
         | None => mret (filled SW_TYPE_MAX_SIZE 0)
         end);
  '(status, _) ← on_call (psa_call TFM_MEASURED_BOOT_HANDLE TFM_MEASURED_BOOT_EXTEND
    (extend_in_vec index sid ver algo arr swt_size m lock) []);
  check status.
End Client.
