(* ===== verification/MeasuredBootSpec.v ===== *)
(** * The measurement slots, operation by operation

    The invariant of the slots, and for every operation of measured_boot.c the
    equation that says what it returns and what it does to the slot. *)
From Stdlib Require Import ZArith Lia.
From stdpp Require Import base list numbers options.
From S2P Require Import Prelude.
From S2P Require Import PsaApi.
From S2P Require Import MeasuredBoot.

#[local] Set Default Proof Using "Type*".

(** The crypto service never writes more than it was given room for, and when
    it succeeds it has written the digest. *)
Class HashLaws (P : Type) {HO : HashOps P} := {
  digest : Z -> list Z -> list Z;
  hl_size : 32 <= MEASUREMENT_VALUE_SIZE <= 64;
  hl_digest : forall input, Z.of_nat (length (digest TFM_MEASURED_BOOT_HASH_ALG input)) = MEASUREMENT_VALUE_SIZE;
  hl_compute : forall input p, let '(st, h, p') := psa_hash_compute TFM_MEASURED_BOOT_HASH_ALG input MEASUREMENT_VALUE_SIZE p in
    Z.of_nat (length h) <= MEASUREMENT_VALUE_SIZE /\
    (st = PSA_SUCCESS -> h = digest TFM_MEASURED_BOOT_HASH_ALG input) /\ st <> UNDEFINED
}.

(** ** Arrays *)

(** The contents after [n] bytes of [src] were copied to the start. *)
Definition over (dst src : list Z) (n : Z) : list Z := take (Z.to_nat n) src ++ drop (Z.to_nat n) dst.

Lemma over_length dst src n : 0 <= n <= Z.of_nat (length dst) -> n <= Z.of_nat (length src) ->
  length (over dst src n) = length dst.
Proof. intros. unfold over. rewrite length_app, length_take, length_drop. lia. Qed.

Lemma over_take dst src n : 0 <= n <= Z.of_nat (length src) ->
  take (Z.to_nat n) (over dst src n) = take (Z.to_nat n) src.
Proof. intros. unfold over. rewrite take_app_le by (rewrite length_take; lia). rewrite take_take. f_equal. lia. Qed.

Lemma memcpy_start {S} dst src n (s : S) : 0 <= n <= Z.of_nat (length dst) -> n <= Z.of_nat (length src) ->
  memcpy dst 0 src n s = (Ok (over dst src n), s).
Proof.
  intros H1 H2. unfold memcpy. rewrite !(proj2 (Z.leb_le _ _)) by lia. cbn [andb]. by rewrite Z.add_0_l.
Qed.

Lemma bind_memcpy {S B} dst src n (k : list Z -> ST S B) (s : S) : 0 <= n <= Z.of_nat (length dst) ->
  n <= Z.of_nat (length src) -> (memcpy dst 0 src n ≫= k) s = k (over dst src n) s.
Proof. intros. by rewrite (bind_ok _ _ _ _ _ (memcpy_start dst src n s ltac:(lia) ltac:(lia))). Qed.

Lemma memcpy_at {S} dst off src n (s : S) : 0 <= off -> 0 <= n -> off + n <= Z.of_nat (length dst) ->
  n <= Z.of_nat (length src) ->
  memcpy dst off src n s =
    (Ok (take (Z.to_nat off) dst ++ take (Z.to_nat n) src ++ drop (Z.to_nat (off + n)) dst), s).
Proof. intros. unfold memcpy. by rewrite !(proj2 (Z.leb_le _ _)) by lia. Qed.

Lemma filled_length n x : 0 <= n -> Z.of_nat (length (filled n x)) = n.
Proof. intros. unfold filled. rewrite length_replicate. lia. Qed.

Section Slots.
Context {P : Type} {HO : HashOps P} {HL : HashLaws P}.
Implicit Types s : mb_state P.
Abbreviation MB := (ST (mb_state P)).

(** ** The invariant *)

Record slot_ok (sl : measured_boot_slot_t) : Prop := {
  so_signer : length (signer_id (metadata (measurement sl))) = 64%nat;
  so_signer_size : 0 <= signer_id_size (metadata (measurement sl)) <= 64;
  so_version : length (version (metadata (measurement sl))) = 14%nat;
  so_version_size : 0 <= version_size (metadata (measurement sl)) <= 14;
  so_sw_type : length (sw_type (metadata (measurement sl))) = 20%nat;
  so_sw_type_size : 0 <= sw_type_size (metadata (measurement sl)) <= 20;
  so_hash : length (hash_buf (value (measurement sl))) = 64%nat;
  so_hash_size : 0 <= hash_buf_size (value (measurement sl)) <= MEASUREMENT_VALUE_SIZE
}.

Record slots_ok s : Prop := {
  sk_length : length (measurement_slot s) = 32%nat;
  sk_slot : Forall slot_ok (measurement_slot s)
}.

(** What a caller of the extend operation has to provide. *)
Record args_ok (sid : list Z) (sid_size : Z) (ver : list Z) (ver_size : Z) (swt : list Z) (swt_size : Z)
    (m : list Z) (m_size : Z) : Prop := {
  ao_signer : 32 <= sid_size <= 64 /\ 64 <= Z.of_nat (length sid);
  ao_version : 0 <= ver_size <= 14 /\ ver_size <= Z.of_nat (length ver);
  ao_sw_type : 0 <= swt_size <= 20 /\ swt_size <= Z.of_nat (length swt);
  ao_value : 32 <= m_size <= 64 /\ m_size <= Z.of_nat (length m)
}.

(** ** Single steps *)

Lemma slot_at_ok s i sl : measurement_slot s !! Z.to_nat i = Some sl -> slot_at i s = (Ok sl, s).
Proof. intros H. unfold slot_at. by rewrite H. Qed.

Lemma bind_slot_at {B} s i sl (k : measured_boot_slot_t -> MB B) : measurement_slot s !! Z.to_nat i = Some sl ->
  (slot_at i ≫= k) s = k sl s.
Proof. intros H. by rewrite (bind_ok _ _ _ _ _ (slot_at_ok _ _ _ H)). Qed.

Lemma set_slot_ok s i f sl : measurement_slot s !! Z.to_nat i = Some sl ->
  set_slot i f s = (Ok tt, set_slots (<[Z.to_nat i := f sl]> (measurement_slot s)) s).
Proof. intros H. unfold set_slot. by rewrite (bind_slot_at _ _ _ _ H). Qed.

(** Does the signer differ from the one stored? *)
Definition differs (sl : measured_boot_slot_t) (sid : list Z) : bool :=
  let m := metadata (measurement sl) in
  let n := Z.to_nat (signer_id_size m) in
  negb (bool_decide (take n sid = take n (signer_id m))).

Lemma prohibited_eq s i sl sid : measurement_slot s !! Z.to_nat i = Some sl -> slot_ok sl ->
  64 <= Z.of_nat (length sid) ->
  is_slot_access_prohibited i sid s = (Ok (differs sl sid && negb (is_common sl)), s).
Proof.
  intros Hi Ho Hl. unfold is_slot_access_prohibited, is_signer_id_different.
  pose proof (so_signer _ Ho). pose proof (so_signer_size _ Ho).
  rewrite (bind_ok _ _ s (differs sl sid) s).
  - destruct (differs sl sid); [|done]. by rewrite (bind_slot_at _ _ _ _ Hi).
  - rewrite (bind_slot_at _ _ _ _ Hi). unfold memcmp_differs.
    rewrite w8_small by lia. by rewrite !(proj2 (Z.leb_le _ _)) by lia.
Qed.

Lemma print_ok array len s : len <= Z.of_nat (length array) -> print_byte_array array len s = (Ok tt, s).
Proof.
  intros Hl. unfold print_byte_array.
  assert (forall n i s, 0 <= i -> i + Z.of_nat n <= Z.of_nat (length array) ->
    for_acc n i tt (fun i _ => match array !! Z.to_nat i with Some _ => mret tt | None => raise UNDEFINED end) s
      = (Ok tt, s)) as Hloop.
  { clear. induction n as [|n IH]; intros i s H0 H1; cbn [for_acc]; [done|].
    destruct (lookup_lt_is_Some_2 array (Z.to_nat i)) as [x Hx]; [lia|]. rewrite Hx.
    rewrite (bind_ok _ _ s tt s) by done. apply IH; lia. }
  destruct (decide (len < 0)).
  - by replace (Z.to_nat len) with 0%nat by lia.
  - apply Hloop; lia.
Qed.

Lemma terminator_ok dest src n s : 0 <= n -> n + 1 <= Z.of_nat (length dest) -> n <= Z.of_nat (length src) ->
  exists l, add_null_terminator dest src n s = (Ok l, s) /\ length l = length dest.
Proof.
  intros H0 H1 H2. unfold add_null_terminator.
  rewrite (bind_ok _ _ _ _ _ (memcpy_start dest src n s ltac:(lia) H2)).
  eexists. split.
  - apply memcpy_at; [lia..| |cbn; lia]. rewrite over_length by lia. lia.
  - change (take (Z.to_nat 1) [0]) with [0].
    rewrite !length_app, length_take, length_drop, over_length by lia. cbn [length]. lia.
Qed.

Lemma log_ok sid sid_size ver ver_size swt swt_size m m_size s :
  args_ok sid sid_size ver ver_size swt swt_size m m_size ->
  log_extend_measurement sid sid_size ver ver_size swt swt_size m m_size s = (Ok tt, s).
Proof.
  intros [Hs Hv Ht Hm]. unfold log_extend_measurement.
  rewrite (bind_ok _ _ _ _ _ (print_ok sid sid_size s ltac:(lia))).
  destruct (terminator_ok (filled (SW_TYPE_MAX_SIZE + 1) 0) ver ver_size s) as (l & E & Hl);
    [lia|rewrite filled_length; unfold SW_TYPE_MAX_SIZE; lia|lia|].
  change (SW_TYPE_MAX_SIZE >? VERSION_MAX_SIZE) with true. cbv iota. rewrite (bind_ok _ _ _ _ _ E).
  assert (Z.of_nat (length l) = 21) as Hl' by by rewrite Hl, filled_length.
  destruct (terminator_ok l swt swt_size s) as (l2 & E2 & _); [lia..|].
  rewrite (bind_ok _ _ _ _ _ E2). apply print_ok. lia.
Qed.

(** ** The extend operation *)

(** The slot once its metadata has been written. *)
Definition opened (sl : measured_boot_slot_t) (sid : list Z) (sid_size : Z) (ver : list Z) (ver_size : Z)
    (algo : Z) (swt : list Z) (swt_size : Z) : measured_boot_slot_t :=
  let m := metadata (measurement sl) in
  if is_populated sl then
    with_metadata {| signer_id := signer_id m; signer_id_size := signer_id_size m;
      version := filled VERSION_MAX_SIZE 0; version_size := 0; measurement_algo := measurement_algo m;
      sw_type := filled SW_TYPE_MAX_SIZE 0; sw_type_size := 0 |} sl
  else
    with_populated (with_metadata {| signer_id := over (signer_id m) sid sid_size; signer_id_size := sid_size;
      version := over (version m) ver ver_size; version_size := ver_size; measurement_algo := algo;
      sw_type := over (sw_type m) swt swt_size; sw_type_size := swt_size |} sl).

(** The bytes that are hashed: the old value, then the new measurement. *)
Definition chained (sl : measured_boot_slot_t) (m : list Z) (m_size : Z) : list Z :=
  take (Z.to_nat MEASUREMENT_VALUE_SIZE) (hash_buf (value (measurement sl))) ++ take (Z.to_nat m_size) m.

(** The slot once the new value [h] has been stored. *)
Definition closed (sl : measured_boot_slot_t) (h : list Z) (lock : Z) : measured_boot_slot_t :=
  let n := Z.of_nat (length h) in
  let sl := with_value {| hash_buf := over (hash_buf (value (measurement sl))) h n; hash_buf_size := n |} sl in
  if lock =? 0 then sl else with_locked sl.

Lemma metadata_step s i sl sid sid_size ver ver_size algo swt swt_size m m_size :
  measurement_slot s !! Z.to_nat i = Some sl -> slot_ok sl ->
  args_ok sid sid_size ver ver_size swt swt_size m m_size ->
  (if is_populated sl then extend_metadata i
   else update_metadata i sid sid_size ver ver_size algo swt swt_size;; mark_slot_as_occupied i) s
  = (Ok tt, set_slots (<[Z.to_nat i := opened sl sid sid_size ver ver_size algo swt swt_size]>
      (measurement_slot s)) s).
Proof.
  intros Hi Ho [Hs Hv Ht Hm]. unfold opened. destruct (is_populated sl).
  - unfold extend_metadata. rewrite (bind_slot_at _ _ _ _ Hi). by rewrite (set_slot_ok _ _ _ _ Hi).
  - destruct Ho as [H1 H2 H3 H4 H5 H6 H7 H8].
    rewrite (bind_ok _ _ s tt (set_slots (<[Z.to_nat i := with_metadata
      {| signer_id := over (signer_id (metadata (measurement sl))) sid sid_size; signer_id_size := sid_size;
         version := over (version (metadata (measurement sl))) ver ver_size; version_size := ver_size;
         measurement_algo := algo; sw_type := over (sw_type (metadata (measurement sl))) swt swt_size;
         sw_type_size := swt_size |} sl]> (measurement_slot s)) s)).
    + unfold mark_slot_as_occupied. erewrite set_slot_ok.
      2:{ cbn. apply list_lookup_insert_eq. by eapply lookup_lt_Some. }
      cbn. by rewrite list_insert_insert_eq.
    + unfold update_metadata. rewrite (bind_slot_at _ _ _ _ Hi).
      rewrite bind_memcpy by lia.
      rewrite bind_memcpy by lia.
      rewrite bind_memcpy by lia.
      rewrite !w8_small by lia. by rewrite (set_slot_ok _ _ _ _ Hi).
Qed.

Lemma hash_step s i sl m m_size : measurement_slot s !! Z.to_nat i = Some sl -> slot_ok sl ->
  32 <= m_size <= 64 -> m_size <= Z.of_nat (length m) ->
  extend_measurement_value i m m_size s =
    (let '(st, h, p) := psa_hash_compute TFM_MEASURED_BOOT_HASH_ALG (chained sl m m_size)
       MEASUREMENT_VALUE_SIZE (mb_psa s) in
     (if st =? PSA_SUCCESS then Ok h else Err st, set_mb_psa p s)).
Proof.
  intros Hi Ho Hm Hl. pose proof hl_size. pose proof (so_hash _ Ho).
  unfold extend_measurement_value, get_stored_measurement_value.
  assert (Z.of_nat (length (filled TEMP_BUFFER_SIZE 0)) = MEASUREMENT_VALUE_SIZE + 64) as Ht
    by (rewrite filled_length; unfold TEMP_BUFFER_SIZE, MEASUREMENT_VALUE_MAX_SIZE; lia).
  set (temp := over (filled TEMP_BUFFER_SIZE 0) (hash_buf (value (measurement sl))) MEASUREMENT_VALUE_SIZE).
  assert (Z.of_nat (length temp) = MEASUREMENT_VALUE_SIZE + 64) as Htemp
    by (unfold temp; rewrite over_length; lia).
  rewrite (bind_ok _ _ s temp s).
  2:{ rewrite (bind_slot_at _ _ _ _ Hi). apply memcpy_start; lia. }
  erewrite bind_ok; [|apply memcpy_at; lia].
  unfold temp. rewrite over_take by lia.
  rewrite app_assoc, take_app_le by (rewrite length_app, !length_take; lia).
  rewrite (take_ge (_ ++ _)) by (rewrite length_app, !length_take; lia).
  unfold on_mb_psa, mbind at 1, ST_bind. fold (chained sl m m_size).
  destruct (psa_hash_compute _ _ _ _) as [[st h] p]. unfold check, mbind, ST_bind.
  by destruct (st =? PSA_SUCCESS).
Qed.
(** What the operation returns and does, given the crypto service's answer. *)
Definition extended s (i : Z) (sl sl1 : measured_boot_slot_t) (m : list Z) (m_size lock : Z) : outcome unit * mb_state P :=
  let '(st, h, p) := psa_hash_compute TFM_MEASURED_BOOT_HASH_ALG (chained sl m m_size)
    MEASUREMENT_VALUE_SIZE (mb_psa s) in
  if st =? PSA_SUCCESS
  then (Ok tt, set_mb_psa p (set_slots (<[Z.to_nat i := closed sl1 h lock]> (measurement_slot s)) s))
  else (Err st, set_mb_psa p (set_slots (<[Z.to_nat i := sl1]> (measurement_slot s)) s)).

Lemma store_step s i sl h lock : measurement_slot s !! Z.to_nat i = Some sl -> slot_ok sl ->
  Z.of_nat (length h) <= MEASUREMENT_VALUE_SIZE ->
  (hash_result ← memcpy (filled MEASUREMENT_VALUE_SIZE 0) 0 h (Z.of_nat (length h));
   store_measurement_value i hash_result (Z.of_nat (length h));;
   if negb (lock =? 0) then lock_measurement_slot i else mret tt) s
  = (Ok tt, set_slots (<[Z.to_nat i := closed sl h lock]> (measurement_slot s)) s).
Proof.
  intros Hi Ho Hh. pose proof hl_size. pose proof (so_hash _ Ho).
  assert (Z.of_nat (length (filled MEASUREMENT_VALUE_SIZE 0)) = MEASUREMENT_VALUE_SIZE) as Hf
    by (apply filled_length; lia).
  rewrite bind_memcpy by lia. set (res := over _ h _).
  assert (take (length h) res = h) as Hres.
  { rewrite <- (Nat2Z.id (length h)) at 1. unfold res. rewrite over_take by (split; lia).
    rewrite Nat2Z.id. by apply take_ge. }
  assert (length h <= length res)%nat by (unfold res; rewrite over_length; lia).
  assert (over (hash_buf (value (measurement sl))) res (Z.of_nat (length h))
    = over (hash_buf (value (measurement sl))) h (Z.of_nat (length h))) as Ho2.
  { unfold over. rewrite !Nat2Z.id. by rewrite Hres, (take_ge h). }
  rewrite (bind_ok _ _ s tt (set_slots (<[Z.to_nat i := closed sl h 0]> (measurement_slot s)) s)).
  - unfold closed. cbn [Z.eqb negb]. destruct (lock =? 0); [done|]. cbn [negb]. unfold lock_measurement_slot.
    erewrite set_slot_ok.
    2:{ cbn. apply list_lookup_insert_eq. by eapply lookup_lt_Some. }
    cbn. by rewrite list_insert_insert_eq.
  - unfold store_measurement_value. rewrite (bind_slot_at _ _ _ _ Hi).
    rewrite bind_memcpy by lia. rewrite (set_slot_ok _ _ _ _ Hi). unfold closed. cbn [Z.eqb].
    by rewrite w8_small, Ho2 by lia.
Qed.

Lemma opened_ok sl sid sid_size ver ver_size algo swt swt_size m m_size : slot_ok sl ->
  args_ok sid sid_size ver ver_size swt swt_size m m_size ->
  slot_ok (opened sl sid sid_size ver ver_size algo swt swt_size).
Proof.
  intros [] [Hs Hv Ht Hm]. unfold opened. destruct (is_populated sl); split; cbn; rewrite ?over_length; try done; lia.
Qed.

Lemma closed_ok sl h lock : slot_ok sl -> Z.of_nat (length h) <= MEASUREMENT_VALUE_SIZE -> slot_ok (closed sl h lock).
Proof.
  intros [] Hh. pose proof hl_size. unfold closed. destruct (lock =? 0); split; cbn; rewrite ?over_length; try done; lia.
Qed.

Lemma chained_opened sl sid sid_size ver ver_size algo swt swt_size m m_size :
  chained (opened sl sid sid_size ver ver_size algo swt swt_size) m m_size = chained sl m m_size.
Proof. unfold chained, opened. by destruct (is_populated sl). Qed.

Lemma extend_eq s i sl sid sid_size ver ver_size algo swt swt_size m m_size lock :
  measurement_slot s !! Z.to_nat i = Some sl -> slot_ok sl ->
  args_ok sid sid_size ver ver_size swt swt_size m m_size ->
  measured_boot_extend_measurement i sid sid_size ver ver_size algo swt swt_size m m_size lock s =
    if differs sl sid && negb (is_common sl) then (Err PSA_ERROR_NOT_PERMITTED, s)
    else if is_locked sl then (Err PSA_ERROR_BAD_STATE, s)
    else extended s i sl (opened sl sid sid_size ver ver_size algo swt swt_size) m m_size lock.
Proof.
  intros Hi Ho Ha. pose proof Ha as [Hs Hv Ht Hm]. unfold measured_boot_extend_measurement.
  rewrite (bind_ok _ _ s tt s) by by apply log_ok.
  rewrite (bind_ok _ _ _ _ _ (prohibited_eq s i sl sid Hi Ho ltac:(lia))).
  destruct (differs sl sid && negb (is_common sl)); [done|].
  unfold is_measurement_slot_locked. rewrite (bind_ok _ _ s (is_locked sl) s) by by rewrite (bind_slot_at _ _ _ _ Hi).
  destruct (is_locked sl); [done|].
  unfold is_measurement_slot_populated.
  rewrite (bind_ok _ _ s (is_populated sl) s) by by rewrite (bind_slot_at _ _ _ _ Hi).
  rewrite (bind_ok _ _ _ _ _ (metadata_step s i sl _ _ _ ver_size algo _ _ _ _ Hi Ho Ha)).
  pose proof (opened_ok sl _ _ _ ver_size algo _ _ _ _ Ho Ha) as Ho1.
  set (sl1 := opened _ _ _ _ _ _ _ _) in *. set (s1 := set_slots _ s).
  assert (measurement_slot s1 !! Z.to_nat i = Some sl1) as Hi1.
  { cbn. apply list_lookup_insert_eq. by eapply lookup_lt_Some. }
  unfold extended. rewrite <- (chained_opened sl sid sid_size ver ver_size algo swt swt_size). fold sl1.
  pose proof (hl_compute (chained sl1 m m_size) (mb_psa s)) as Hc.
  unfold mbind at 1, ST_bind at 1. rewrite (hash_step s1 i sl1 m m_size Hi1 Ho1) by lia.
  change (mb_psa s1) with (mb_psa s).
  destruct (psa_hash_compute _ _ _ _) as [[st h] p]. destruct Hc as (Hlen & _ & _).
  destruct (st =? PSA_SUCCESS); [|done].
  rewrite (store_step (set_mb_psa p s1) i sl1 h lock Hi1 Ho1 Hlen). cbn. by rewrite list_insert_insert_eq.
Qed.

(** ** The read operation *)

Definition fits (sl : measured_boot_slot_t) (sid_size ver_size swt_size val_size : Z) : bool :=
  let m := metadata (measurement sl) in
  (version_size m <=? ver_size) && (sw_type_size m <=? swt_size) && (signer_id_size m <=? sid_size)
    && (hash_buf_size (value (measurement sl)) <=? val_size).

Definition reading_of (sl : measured_boot_slot_t) (sid ver swt val : list Z) : reading :=
  let m := metadata (measurement sl) in
  let v := value (measurement sl) in
  {| r_signer_id := over sid (signer_id m) (signer_id_size m); r_signer_id_len := signer_id_size m;
     r_version := over ver (version m) (version_size m); r_version_len := version_size m;
     r_measurement_algo := measurement_algo m;
     r_sw_type := over swt (sw_type m) (sw_type_size m); r_sw_type_len := sw_type_size m;
     r_measurement_value := over val (hash_buf v) (hash_buf_size v);
     r_measurement_value_len := hash_buf_size v; r_is_locked := Z.b2z (is_locked sl) |}.

Lemma read_eq s i sl sid sid_size ver ver_size swt swt_size val val_size :
  measurement_slot s !! Z.to_nat i = Some sl -> slot_ok sl ->
  64 <= Z.of_nat (length sid) -> 14 <= Z.of_nat (length ver) -> 20 <= Z.of_nat (length swt) ->
  MEASUREMENT_VALUE_SIZE <= Z.of_nat (length val) ->
  measured_boot_read_measurement i sid sid_size ver ver_size swt swt_size val val_size s =
    (if negb (is_populated sl) then Err PSA_ERROR_DOES_NOT_EXIST
     else if fits sl sid_size ver_size swt_size val_size then Ok (reading_of sl sid ver swt val)
     else Err PSA_ERROR_INVALID_ARGUMENT, s).
Proof.
  intros Hi [] Hs Hv Ht Hval. pose proof hl_size.
  unfold measured_boot_read_measurement, is_read_access_prohibited.
  rewrite (bind_slot_at _ _ _ _ Hi). unfold is_measurement_slot_populated.
  rewrite (bind_ok _ _ s (is_populated sl) s) by by rewrite (bind_slot_at _ _ _ _ Hi).
  destruct (is_populated sl); [|done]. unfold fits. rewrite !Z.leb_antisym.
  destruct (ver_size <? _); [done|]. destruct (swt_size <? _); [done|].
  destruct (sid_size <? _); [done|]. destruct (val_size <? _); [done|]. cbn [negb andb orb].
  by rewrite !bind_memcpy by lia.
Qed.

(** ** Start-up *)

Lemma init_eq s : length (measurement_slot s) = 32%nat ->
  initialise_all_measurements s = (Ok tt, set_slots (initial_slot <$> measurement_slot s) s).
Proof.
  intros Hlen. unfold initialise_all_measurements. change (Z.to_nat _) with 32%nat.
  assert (forall n i s0, measurement_slot s0 = take i (initial_slot <$> measurement_slot s) ++ drop i (measurement_slot s) ->
    s0 = set_slots (measurement_slot s0) s -> (i + n = 32)%nat ->
    for_acc n (Z.of_nat i) tt (fun i _ => set_slot i initial_slot) s0
    = (Ok tt, set_slots (initial_slot <$> measurement_slot s) s)) as Hloop.
  { induction n as [|n IH]; intros i s0 Hs0 Hset Hn; cbn [for_acc].
    - rewrite Hset, Hs0, drop_ge, app_nil_r, take_ge by (rewrite ?length_fmap; lia). done.
    - destruct (lookup_lt_is_Some_2 (measurement_slot s) i) as [sl Hsl]; [lia|].
      assert (length (take i (initial_slot <$> measurement_slot s)) = i) as Hti
        by (rewrite length_take, length_fmap; lia).
      assert (measurement_slot s0 !! Z.to_nat (Z.of_nat i) = Some sl) as Hi.
      { rewrite Nat2Z.id, Hs0, lookup_app_r by lia. rewrite Hti, lookup_drop. rewrite Nat.sub_diag, Nat.add_0_r. done. }
      rewrite (bind_ok _ _ _ _ _ (set_slot_ok _ _ _ _ Hi)). rewrite Nat2Z.id.
      replace (Z.of_nat i + 1) with (Z.of_nat (S i)) by lia. apply IH; [| |lia].
      + cbn. rewrite Hs0, insert_app_r_alt by lia. rewrite Hti, Nat.sub_diag.
        rewrite (drop_S _ _ _ Hsl). cbn [list_insert insert].
        rewrite (take_S_r _ i (initial_slot sl)) by by rewrite list_lookup_fmap, Hsl. by rewrite <- app_assoc.
      + rewrite Hset. by destruct s. }
  apply (Hloop 32%nat 0%nat s); [done|by destruct s|done].
Qed.
End Slots.
