(* ===== verification/MeasuredBootSafe.v ===== *)
(** * The measured boot requests, whatever the client sends

    Both request handlers stay inside their arrays on every message, keep the
    invariant of the slots, and never touch a locked slot. *)
From Stdlib Require Import ZArith Lia.
From stdpp Require Import base list numbers relations options.
From S2P Require Import Prelude.
From S2P Require Import FlashFsDefs.
From S2P Require Import PsaApi.
From S2P Require Import MeasuredBoot.
From S2P Require Import MeasuredBootReq.
From S2P Require Import MeasuredBootSpec.

#[local] Set Default Proof Using "Type*".

Section Safe.
Context {P : Type} {PO : PsaOps P} {PL : PsaLaws P} {HO : HashOps P} {HL : HashLaws P}.
Implicit Types s : mb_state P.
Abbreviation MB := (ST (mb_state P)).

(** Nothing but the caller's id and the framework has changed. *)
Record idle s s' : Prop := {
  id_slots : measurement_slot s' = measurement_slot s;
  id_boot : boot_measurements s' = boot_measurements s
}.

#[local] Instance idle_pre : PreOrder idle.
Proof. split; [done|]. intros s1 s2 s3 [] []. split; congruence. Qed.

Lemma idle_psa {A} (f : P -> A * P) : keeps idle (on_mb_psa f).
Proof. intros s. unfold on_mb_psa. by destruct (f (mb_psa s)). Qed.

Lemma idle_slots_ok s s' : idle s s' -> slots_ok s -> slots_ok s'.
Proof. intros [H _] []. split; by rewrite H. Qed.

(** *** The arguments of the handlers *)

Lemma wp_read_vec (m : psa_msg_t) i n s (Q : outcome (list Z) -> mb_state P -> Prop) :
  (forall s1, idle s s1 -> Q (Err PSA_ERROR_PROGRAMMER_ERROR) s1) ->
  (forall bs s1, idle s s1 -> Forall is_u8 bs -> Z.of_nat (length bs) = n -> Q (Ok bs) s1) ->
  wp (read_vec m i n) s Q.
Proof.
  intros He Hk. unfold read_vec. apply wp_bind. pose proof (idle_psa (psa_read (handle m) i n) s) as Hi.
  pose proof (pl_read (handle m) i n (mb_psa s)) as Hr. pose proof (pl_in_u8 (mb_psa s) (handle m) i) as Hu.
  unfold wp at 1. unfold on_mb_psa in *. destruct (psa_read (handle m) i n (mb_psa s)) as [bs p].
  destruct Hr as (-> & _). cbn [fst snd] in *.
  destruct (Z.eqb_spec (Z.of_nat (length (take (Z.to_nat n) (in_data (mb_psa s) (handle m) i)))) n);
    [apply wp_ret, Hk|apply wp_raise, He]; try done. by apply Forall_take.
Qed.

(** The extend handler either refuses the message or calls the operation with
    arguments the operation can work with. *)
Lemma wp_extend_handler m s (Q : outcome unit -> mb_state P -> Prop) : msg_ok m ->
  (forall e s1, e <> UNDEFINED -> idle s s1 -> Q (Err e) s1) ->
  (forall index sid sid_size ver ver_size algo swt swt_size v v_size lock s1,
     0 <= index < 32 -> args_ok sid sid_size ver ver_size swt swt_size v v_size -> idle s s1 ->
     wp (measured_boot_extend_measurement index sid sid_size ver ver_size algo swt swt_size v v_size lock) s1 Q) ->
  wp (extend_measurement m) s Q.
Proof.
  intros Hm He Hk. unfold extend_measurement. apply wp_bind, wp_modify.
  assert (idle s (set_caller_id (client_id m) s)) as H0 by done. set (s0 := set_caller_id _ _) in *.
  pose proof (in_len_nonneg m 2 Hm) as Hver.
  apply wp_if; intros _; [by apply wp_raise, He|].
  apply wp_bind, wp_read_vec; [intros s1 H1; apply He; [done|by etrans]|].
  intros iov s1 H1 Hu Hiov. assert (idle s s1) as H1' by by etrans.
  pose proof (nth_byte_u8 iov 28 Hu) as Ht. pose proof (nth_byte_u8 iov 0 Hu) as Hx.
  apply wp_if; [intros _; by apply wp_raise, He|]. intros Hsz.
  rewrite !orb_false_iff, !Z.gtb_ltb, !Z.ltb_ge in Hsz. destruct Hsz as (((((Hs1 & Hs2) & Hs3) & Hs4) & Hs5) & Hs6).
  unfold SIGNER_ID_MIN_SIZE, SIGNER_ID_MAX_SIZE, VERSION_MAX_SIZE, MEASUREMENT_VALUE_MIN_SIZE,
    MEASUREMENT_VALUE_MAX_SIZE, SW_TYPE_MAX_SIZE in *.
  apply wp_if; [intros _; by apply wp_raise, He|]. rewrite Z.geb_leb, Z.leb_gt. unfold NUM_OF_MEASUREMENT_SLOTS.
  intros Hidx. unfold is_u8 in *.
  apply wp_bind, wp_read_vec; [intros s2 H2; apply He; [done|by etrans]|]. intros bs s2 H2 _ Hbs.
  assert (idle s s2) as H2' by by etrans. unfold wp at 1. rewrite bind_memcpy by (rewrite ?filled_length; lia).
  apply wp_bind, wp_read_vec; [intros s3 H3; apply He; [done|by etrans]|]. intros bs2 s3 H3 _ Hbs2.
  assert (idle s s3) as H3' by by etrans. unfold wp at 1. rewrite bind_memcpy by (rewrite ?filled_length; lia).
  apply wp_bind, wp_read_vec; [intros s4 H4; apply He; [done|by etrans]|]. intros bs3 s4 H4 _ Hbs3.
  assert (idle s s4) as H4' by by etrans. unfold wp at 1. rewrite bind_memcpy by (rewrite ?filled_length; lia).
  apply Hk; [lia| |done]. rewrite w8_small by lia.
  pose proof (filled_length 64 0 ltac:(lia)). pose proof (filled_length 14 0 ltac:(lia)).
  split; rewrite ?over_length by lia; (split; [lia|]); try lia.
  rewrite length_take, length_drop. unfold sizeof_extend_iovec in Hiov. lia.
Qed.

(** The read handler: likewise, with buffers of the right sizes. *)
Lemma wp_read_handler m s (Q : outcome unit -> mb_state P -> Prop) : slots_ok s ->
  (forall e s1, e <> UNDEFINED -> idle s s1 -> Q (Err e) s1) ->
  (forall s1, idle s s1 -> Q (Ok tt) s1) ->
  wp (read_measurements m) s Q.
Proof.
  intros Hok He Hk. unfold read_measurements. apply wp_bind, wp_modify.
  assert (idle s (set_caller_id (client_id m) s)) as H0 by done. set (s0 := set_caller_id _ _) in *.
  apply wp_if; intros _; [by apply wp_raise, He|].
  apply wp_bind, wp_read_vec; [intros s1 H1; apply He; [done|by etrans]|].
  intros iov s1 H1 Hu Hiov. assert (idle s s1) as H1' by by etrans.
  pose proof (nth_byte_u8 iov 0 Hu) as Hx. unfold is_u8 in *.
  apply wp_if; [intros _; by apply wp_raise, He|]. rewrite Z.geb_leb, Z.leb_gt. unfold NUM_OF_MEASUREMENT_SLOTS.
  intros Hidx. destruct (idle_slots_ok _ _ H1' Hok) as [Hlen Hall].
  destruct (lookup_lt_is_Some_2 (measurement_slot s1) (Z.to_nat (nth_byte iov 0))) as [sl Hsl]; [lia|].
  apply wp_bind. unfold wp at 1. pose proof hl_size. unfold is_u8 in *.
  rewrite (read_eq s1 _ sl) by (try done; try (rewrite filled_length; lia); by eapply (Forall_lookup_1 _ _ _ _ Hall)).
  destruct (is_populated sl); cbn [negb fst snd]; [|by apply He].
  destruct (fits _ _ _ _ _); cbn [fst snd]; [|by apply He].
  unfold write_vec, wp, on_mb_psa, mbind, ST_bind. cbn. apply Hk. by split; cbn; apply H1'.
Qed.

(** *** Relations every request keeps *)

(** A locked slot stays as it is. *)
Definition locked_kept s s' : Prop :=
  forall i sl, measurement_slot s !! i = Some sl -> is_locked sl = true -> measurement_slot s' !! i = Some sl.

#[local] Instance locked_kept_pre : PreOrder locked_kept.
Proof. split; [by intros s i sl|]. intros s1 s2 s3 H12 H23 i sl H Hl. by apply H23; [apply H12|]. Qed.

(** A populated slot keeps its owner and stays populated. *)
Definition owned_by (sl : measured_boot_slot_t) : list Z * Z * Z :=
  let m := metadata (measurement sl) in (signer_id m, signer_id_size m, measurement_algo m).

Definition owner_kept s s' : Prop :=
  forall i sl, measurement_slot s !! i = Some sl -> is_populated sl = true ->
  exists sl', measurement_slot s' !! i = Some sl' /\ is_populated sl' = true /\ owned_by sl' = owned_by sl.

#[local] Instance owner_kept_pre : PreOrder owner_kept.
Proof.
  split; [intros s i sl; by eauto|]. intros s1 s2 s3 H12 H23 i sl Hi Hp.
  destruct (H12 i sl Hi Hp) as (sl2 & Hi2 & Hp2 & E2). destruct (H23 i sl2 Hi2 Hp2) as (sl3 & Hi3 & Hp3 & E3).
  exists sl3. by rewrite E3.
Qed.

Lemma opened_populated sl sid sid_size ver ver_size algo swt swt_size :
  is_populated (opened sl sid sid_size ver ver_size algo swt swt_size) = true.
Proof using Type. unfold opened. by destruct (is_populated sl) eqn:E. Qed.

Lemma closed_populated sl h lock : is_populated (closed sl h lock) = is_populated sl.
Proof using Type. unfold closed. by destruct (lock =? 0). Qed.

Lemma closed_owner sl h lock : owned_by (closed sl h lock) = owned_by sl.
Proof using Type. unfold closed. by destruct (lock =? 0). Qed.

(** The operation, as far as the slot of the request and the others go. *)
Lemma wp_extend_slot i sid sid_size ver ver_size algo swt swt_size v v_size lock s :
  slots_ok s -> 0 <= i < 32 -> args_ok sid sid_size ver ver_size swt swt_size v v_size ->
  wp (measured_boot_extend_measurement i sid sid_size ver ver_size algo swt swt_size v v_size lock) s
    (fun r s' => status_of r <> UNDEFINED /\ boot_measurements s' = boot_measurements s /\
      (measurement_slot s' = measurement_slot s \/
       exists sl sl', measurement_slot s !! Z.to_nat i = Some sl /\ is_locked sl = false /\ slot_ok sl' /\
         (differs sl sid = true -> is_common sl = true) /\
         measurement_slot s' = <[Z.to_nat i := sl']> (measurement_slot s) /\ is_populated sl' = true /\
         (is_populated sl = true -> owned_by sl' = owned_by sl))).
Proof using HL.
  intros [Hlen Hall] Hi Ha. destruct (lookup_lt_is_Some_2 (measurement_slot s) (Z.to_nat i)) as [sl Hsl]; [lia|].
  pose proof (Forall_lookup_1 _ _ _ _ Hall Hsl) as Ho. unfold wp. rewrite (extend_eq s i sl) by done.
  destruct (differs sl sid && negb (is_common sl)) eqn:Hd; [cbn; auto|].
  assert (differs sl sid = true -> is_common sl = true) as Hd'
    by (intros E; rewrite E in Hd; by destruct (is_common sl)).
  destruct (is_locked sl) eqn:Hl; [cbn; auto|]. unfold extended.
  pose proof (hl_compute (chained sl v v_size) (mb_psa s)) as Hc.
  pose proof (opened_ok sl _ _ _ ver_size algo _ _ _ _ Ho Ha) as Ho1.
  pose proof (opened_populated sl sid sid_size ver ver_size algo swt swt_size) as Hp.
  assert (is_populated sl = true -> owned_by (opened sl sid sid_size ver ver_size algo swt swt_size) = owned_by sl)
    as Hown by (unfold opened; by intros ->).
  set (sl1 := opened _ _ _ _ _ _ _ _) in *.
  destruct (psa_hash_compute _ _ _ _) as [[st h] p]. destruct Hc as (Hh & _ & Hst).
  destruct (st =? PSA_SUCCESS); cbn; (split; [done|split; [done|right]]).
  - exists sl, (closed sl1 h lock). split_and!; try done; [by apply closed_ok|by rewrite closed_populated|].
    intros. rewrite closed_owner. auto.
  - by exists sl, sl1.
Qed.

(** Any message leaves the arrays intact and the invariant in force. *)
Record well_behaved {A} (r : outcome A) s s' : Prop := {
  wb_defined : status_of r <> UNDEFINED;
  wb_slots : slots_ok s';
  wb_locked : locked_kept s s';
  wb_owner : owner_kept s s'
}.

Lemma idle_well_behaved {A} (r : outcome A) s s' : status_of r <> UNDEFINED -> slots_ok s -> idle s s' ->
  well_behaved r s s'.
Proof.
  intros Hr Hok H. split; [done|by eapply idle_slots_ok| |].
  - intros i sl Hi _. by rewrite (id_slots _ _ H).
  - intros i sl Hi Hp. exists sl. by rewrite (id_slots _ _ H).
Qed.

Lemma wp_extend_safe m s : slots_ok s -> msg_ok m ->
  wp (extend_measurement m) s (fun r s' => well_behaved r s s').
Proof.
  intros Hok Hm. apply wp_extend_handler; [done| |].
  { intros e s1 He H. by apply idle_well_behaved. }
  intros index sid sid_size ver ver_size algo swt swt_size v v_size lock s1 Hi Ha H1.
  pose proof (idle_slots_ok _ _ H1 Hok) as Hok1.
  eapply wp_mono; [by apply wp_extend_slot|].
  intros r s' (Hst & Hb & [Hs|(sl & sl' & Hsl & Hl & Ho & _ & Hs & Hp & Hown)]).
  { apply idle_well_behaved; [done..|]. etrans; [exact H1|by split]. }
  rewrite (id_slots _ _ H1) in *. split; [done| | |].
  - destruct Hok as [Hlen Hall]. split; rewrite Hs; [by rewrite length_insert|by apply Forall_insert].
  - intros j sl2 Hj Hl2. rewrite Hs. destruct (decide (j = Z.to_nat index)) as [->|Hne].
    + congruence.
    + by rewrite list_lookup_insert_ne.
  - intros j sl2 Hj Hp2. rewrite Hs. destruct (decide (j = Z.to_nat index)) as [->|Hne].
    + exists sl'. simplify_eq. rewrite list_lookup_insert_eq by (by eapply lookup_lt_Some). auto.
    + exists sl2. by rewrite list_lookup_insert_ne.
Qed.

Lemma wp_read_safe m s : slots_ok s -> wp (read_measurements m) s (fun r s' => well_behaved r s s').
Proof.
  intros Hok. apply wp_read_handler; [done|..]; intros; by apply idle_well_behaved.
Qed.

(** *** The loop of the partition *)

Lemma well_behaved_trans {A B} (r1 : outcome A) (r : outcome B) s1 s2 s3 : well_behaved r1 s1 s2 -> well_behaved r s2 s3 ->
  well_behaved r s1 s3.
Proof. intros [_ _ L1 O1] [D S L2 O2]. split; [done..|by etrans|by etrans]. Qed.

Context {BD : BootData P}.

Lemma wp_reply_safe m h s : slots_ok s -> (forall s0, slots_ok s0 -> wp (h m) s0 (fun r s' => well_behaved r s0 s')) ->
  wp (handle_and_reply m h) s (fun r s' => well_behaved r s s').
Proof.
  intros Hok Hh. unfold handle_and_reply. apply wp_bind, wp_attempt. eapply wp_mono; [by apply Hh|].
  intros r s1 Hr. pose proof Hr as [Hd Hs _ _]. destruct (Z.eqb_spec (status_of r) UNDEFINED); [done|].
  eapply well_behaved_trans; [exact Hr|]. apply idle_well_behaved; [done..|]. apply idle_psa.
Qed.

Lemma wp_signal_safe sig s : slots_ok s -> wp (measured_boot_signal_handle sig) s (fun r s' => well_behaved r s s').
Proof.
  intros Hok. unfold measured_boot_signal_handle. apply wp_bind.
  pose proof (pl_sizes sig (mb_psa s)) as Hm. unfold wp at 1, on_mb_psa.
  destruct (psa_get sig (mb_psa s)) as [[st m] p]. cbn [fst snd] in *.
  assert (forall r : outcome unit, status_of r <> UNDEFINED -> well_behaved r s (set_mb_psa p s)) as Hidle
    by (intros r Hr; by apply idle_well_behaved).
  assert (slots_ok (set_mb_psa p s)) as Hokp by by apply (idle_slots_ok s).
  destruct (Z.eqb_spec st PSA_SUCCESS) as [->|]; cbn [negb]; [|by apply wp_ret, Hidle]. specialize (Hm eq_refl).
  destruct (type m) as [| | |n]; try by apply wp_ret, Hidle.
  apply wp_if; intros _; [|apply wp_if; intros _; [|by apply wp_ret, Hidle]].
  - eapply wp_mono; [apply wp_reply_safe; [done|]; intros; by apply wp_read_safe|].
    intros r s'. by apply (well_behaved_trans (Ok tt)), Hidle.
  - eapply wp_mono; [apply wp_reply_safe; [done|]; intros; by apply wp_extend_safe|].
    intros r s'. by apply (well_behaved_trans (Ok tt)), Hidle.
Qed.

Lemma wp_round_safe s : slots_ok s -> wp measured_boot_round s (fun r s' => well_behaved r s s').
Proof.
  intros Hok. unfold measured_boot_round. apply wp_bind. unfold wp at 1, on_mb_psa.
  destruct (psa_wait (mb_psa s)) as [sig p]. cbn [fst snd]. apply wp_if; intros _.
  - eapply wp_mono; [apply wp_signal_safe; by apply (idle_slots_ok s)|].
    intros r s'. by apply (well_behaved_trans (Ok tt)), idle_well_behaved.
  - apply wp_raise. by apply idle_well_behaved.
Qed.

(** The partition serves a message, or the framework moves on. *)
Inductive mb_step : relation (mb_state P) :=
| ms_framework s p : mb_step s (set_mb_psa p s)
| ms_round s r s' : measured_boot_round s = (r, s') -> mb_step s s'.

Lemma step_safe s s' : mb_step s s' -> slots_ok s -> slots_ok s' /\ locked_kept s s' /\ owner_kept s s'.
Proof.
  intros [s0 p|s0 r s1 E] Hok.
  - by destruct (idle_well_behaved (Ok tt) s0 (set_mb_psa p s0)).
  - by destruct (wp_elim _ _ _ _ _ E (wp_round_safe _ Hok)).
Qed.

Lemma steps_safe s s' : rtc mb_step s s' -> slots_ok s -> slots_ok s' /\ locked_kept s s' /\ owner_kept s s'.
Proof.
  induction 1 as [s|s1 s2 s3 H12 _ IH]; intros Hok; [split_and!; [done|intros i sl; done|reflexivity]|].
  destruct (step_safe _ _ H12 Hok) as (Hok2 & L & O). destruct (IH Hok2) as (Hok3 & L' & O').
  split_and!; [done|by etrans|by etrans].
Qed.
End Safe.
