(* ===== verification/MeasuredBootRefine.v ===== *)
(** * Measured boot as an automaton

    What the partition promises its clients: a list of slots, each empty or
    holding its owner, the description of the component, and the measurements
    taken so far, of which the value is the hash chain.  Every run of requests
    packed by the client library refines the automaton, also when the hash
    service fails. *)
From Stdlib Require Import ZArith Lia.
From stdpp Require Import base list numbers options.
From S2P Require Import Prelude.
From S2P Require Import FlashFsDefs.
From S2P Require Import PsaApi.
From S2P Require Import MeasuredBoot.
From S2P Require Import MeasuredBootReq.
From S2P Require Import MeasuredBootSpec.
From S2P Require Import MeasuredBootSafe.

#[local] Set Default Proof Using "Type*".

(** ** The specification *)

Record aslot : Type := {
  a_signer : list Z;
  a_version : list Z;
  a_algo : Z;
  a_sw_type : list Z;
  a_chain : list (list Z);
  a_size : Z;
  a_locked : bool
}.

(** A request, as the client library packs it. *)
Inductive mreq : Type :=
| MExtend (index : Z) (sid ver : list Z) (algo : Z) (swt : list Z) (swt_size : Z) (m : list Z) (lock : bool)
| MRead (index swt_size ver_size sid_room val_room : Z).

Definition in_vec (q : mreq) : list (list Z) :=
  match q with
  | MExtend index sid ver algo swt swt_size m lock => extend_in_vec index sid ver algo swt swt_size m lock
  | MRead index swt_size ver_size _ _ => read_in_vec index swt_size ver_size
  end.

Definition out_sizes (q : mreq) : list Z :=
  match q with
  | MExtend _ _ _ _ _ _ _ _ => []
  | MRead _ _ _ sid_room val_room => [sizeof_read_iovec_out; sid_room; val_room]
  end.

(** The C types of the arguments. *)
Definition mreq_ok (q : mreq) : Prop :=
  match q with
  | MExtend index sid ver algo swt swt_size m lock =>
      is_u8 index /\ is_u32 algo /\ length swt = 20%nat /\ is_u8 swt_size
  | MRead index swt_size ver_size sid_room val_room =>
      is_u8 index /\ is_u8 swt_size /\ is_u8 ver_size
  end.

Section Spec.
Context {P : Type} {HO : HashOps P} {HL : HashLaws P}.

(** The value of a slot: each measurement is hashed with the value before. *)
Definition chain_value (ms : list (list Z)) : list Z :=
  fold_left (fun v m => digest TFM_MEASURED_BOOT_HASH_ALG (v ++ m)) ms (filled MEASUREMENT_VALUE_SIZE 0).

(** Is the client the owner of the slot?  Its id, in an array of 64 bytes, is
    compared as far as the owner's id goes. *)
Definition owner (a : aslot) (sid : list Z) : bool :=
  bool_decide (take (length (a_signer a)) sid = a_signer a).

Definition aextend (oa : option aslot) (sid : list Z) (sid_size : Z) (ver : list Z) (algo : Z) (swt m : list Z)
    (lock : bool) : Z * option aslot :=
  match oa with
  | None => (PSA_SUCCESS, Some {| a_signer := take (Z.to_nat sid_size) sid; a_version := ver; a_algo := algo; a_sw_type := swt;
      a_chain := [m]; a_size := MEASUREMENT_VALUE_SIZE; a_locked := lock |})
  | Some a =>
      if negb (owner a sid) then (PSA_ERROR_NOT_PERMITTED, oa)
      else if a_locked a then (PSA_ERROR_BAD_STATE, oa)
      else (PSA_SUCCESS, Some {| a_signer := a_signer a; a_version := []; a_algo := a_algo a; a_sw_type := [];
        a_chain := a_chain a ++ [m]; a_size := MEASUREMENT_VALUE_SIZE; a_locked := lock |})
  end.

(** A permitted extension for which the hash fails: the slot gets its owner,
    or loses its description, and no measurement; a slot that was empty reads
    as holding one all the same, of the size [k] that was left in it. *)
Definition afailed (k : Z) (oa : option aslot) (sid : list Z) (sid_size : Z) (ver : list Z) (algo : Z) (swt : list Z)
    : option aslot :=
  match oa with
  | None => Some {| a_signer := take (Z.to_nat sid_size) sid; a_version := ver; a_algo := algo; a_sw_type := swt;
      a_chain := []; a_size := k; a_locked := false |}
  | Some a => Some {| a_signer := a_signer a; a_version := []; a_algo := a_algo a; a_sw_type := [];
      a_chain := a_chain a; a_size := a_size a; a_locked := false |}
  end.

(** The extension when the hash service answers with the status [hs]. *)
Definition aextend_hashed (hs k : Z) (oa : option aslot) (sid : list Z) (sid_size : Z) (ver : list Z) (algo : Z)
    (swt m : list Z) (lock : bool) : Z * option aslot :=
  let '(st, oa') := aextend oa sid sid_size ver algo swt m lock in
  if (st =? PSA_SUCCESS) && negb (hs =? PSA_SUCCESS) then (hs, afailed k oa sid sid_size ver algo swt) else (st, oa').

(** The value a read gives: the chain, or what an empty slot holds. *)
Definition avalue (a : aslot) : list Z :=
  match a_chain a with [] => filled (a_size a) 0 | ms => chain_value ms end.

Definition len (l : list Z) : Z := Z.of_nat (length l).

(** The reply structure of a slot. *)
Definition described (a : aslot) : list Z :=
  [Z.b2z (a_locked a); 0; 0; 0] ++ enc32 (a_algo a) ++ fit 20 (a_sw_type a) ++ [len (a_sw_type a)]
    ++ fit 14 (a_version a) ++ [len (a_version a)].

(** The three output vectors of a read that is refused. *)
Definition nothing : list (list Z) := [[]; []; []].

Definition aread (oa : option aslot) (swt_size ver_size sid_room val_room : Z) : Z * list (list Z) :=
  match oa with
  | None => (PSA_ERROR_DOES_NOT_EXIST, nothing)
  | Some a =>
      if (len (a_version a) <=? ver_size) && (len (a_sw_type a) <=? swt_size) && (len (a_signer a) <=? sid_room)
         && (a_size a <=? val_room)
      then (PSA_SUCCESS, [described a; a_signer a; avalue a])
      else (PSA_ERROR_INVALID_ARGUMENT, nothing)
  end.

(** One request: the status, what is written to the output vectors, and the
    slots afterwards.  Reading is open to every client. *)
Definition aserve (hs k : Z) (sls : list (option aslot)) (q : mreq) : Z * list (list Z) * list (option aslot) :=
  match q with
  | MExtend index sid ver algo swt swt_size m lock =>
      if (len sid <? 32) || (len sid >? 64) || (len ver >? 14) || (len m <? 32) || (len m >? 64) || (swt_size >? 20)
      then (PSA_ERROR_INVALID_ARGUMENT, [], sls)
      else match sls !! Z.to_nat index with
      | None => (PSA_ERROR_INVALID_ARGUMENT, [], sls)
      | Some oa =>
          let '(st, oa') := aextend_hashed hs k oa (fit 64 sid) (len sid) ver algo (take (Z.to_nat swt_size) swt) m lock in
          (st, [], <[Z.to_nat index := oa']> sls)
      end
  | MRead index swt_size ver_size sid_room val_room =>
      match sls !! Z.to_nat index with
      | None => (PSA_ERROR_INVALID_ARGUMENT, nothing, sls)
      | Some oa => let '(st, outs) := aread oa swt_size ver_size sid_room val_room in (st, outs, sls)
      end
  end.

(** ** The correspondence *)

Definition represents (sl : measured_boot_slot_t) (oa : option aslot) : Prop :=
  let m := metadata (measurement sl) in
  let v := value (measurement sl) in
  slot_ok sl /\ is_common sl = false /\
  match oa with
  | None => is_populated sl = false /\ is_locked sl = false /\ signer_id_size m = 0 /\
      take (Z.to_nat MEASUREMENT_VALUE_SIZE) (hash_buf v) = filled MEASUREMENT_VALUE_SIZE 0
  | Some a => is_populated sl = true /\ is_locked sl = a_locked a /\
      take (Z.to_nat (signer_id_size m)) (signer_id m) = a_signer a /\
      take (Z.to_nat (version_size m)) (version m) = a_version a /\
      measurement_algo m = a_algo a /\ is_u32 (a_algo a) /\
      take (Z.to_nat (sw_type_size m)) (sw_type m) = a_sw_type a /\
      (hash_buf_size v = a_size a /\ (a_chain a = [] \/ a_size a = MEASUREMENT_VALUE_SIZE)) /\
      take (Z.to_nat MEASUREMENT_VALUE_SIZE) (hash_buf v) = chain_value (a_chain a)
  end.

Definition refines (s : mb_state P) (sls : list (option aslot)) : Prop :=
  length sls = 32%nat /\ Forall2 represents (measurement_slot s) sls.

Lemma refines_ok s sls : refines s sls -> slots_ok s.
Proof.
  intros [Hlen H]. split.
  - rewrite <- Hlen. by eapply Forall2_length.
  - eapply Forall2_Forall_l; [exact H|]. apply Forall_true. by intros oa sl [].
Qed.

Lemma refines_lookup s sls i oa : refines s sls -> sls !! i = Some oa ->
  exists sl, measurement_slot s !! i = Some sl /\ represents sl oa.
Proof. intros [_ H] Hi. by eapply Forall2_lookup_r. Qed.

Lemma refines_insert s s' sls i sl oa : refines s sls -> represents sl oa ->
  measurement_slot s' = <[i := sl]> (measurement_slot s) -> refines s' (<[i := oa]> sls).
Proof. intros [Hl H] Hr Hs. split; [by rewrite length_insert|]. rewrite Hs. by apply Forall2_insert. Qed.

Lemma refines_same s s' sls : refines s sls -> measurement_slot s' = measurement_slot s -> refines s' sls.
Proof. intros [Hl H] Hs. split; [done|]. by rewrite Hs. Qed.

(** A table of empty slots. *)
Definition no_slots : list (option aslot) := replicate 32 None.

(** *** One extension *)

Lemma fit_over n l : len l <= Z.of_nat n -> fit n l = over (filled (Z.of_nat n) 0) l (len l).
Proof.
  intros H. unfold fit, over, filled, len in *. rewrite !Nat2Z.id, firstn_all.
  rewrite take_app_ge by lia. f_equal. rewrite take_replicate, drop_replicate. f_equal. lia.
Qed.

Lemma over_all dst l : take (length l) (over dst l (len l)) = l.
Proof. unfold over, len. rewrite !Nat2Z.id, firstn_all. apply take_app_length. Qed.

Lemma over_len dst l : take (Z.to_nat (len l)) (over dst l (len l)) = l.
Proof. unfold len at 1. rewrite Nat2Z.id. apply over_all. Qed.

Lemma closed_represents sl1 a h ms lock : slot_ok sl1 -> is_common sl1 = false -> is_populated sl1 = true ->
  is_locked sl1 = false ->
  len h = MEASUREMENT_VALUE_SIZE -> h = chain_value ms -> a_chain a = ms -> a_size a = MEASUREMENT_VALUE_SIZE -> a_locked a = negb (lock =? 0) ->
  (let m := metadata (measurement sl1) in
   take (Z.to_nat (signer_id_size m)) (signer_id m) = a_signer a /\
   take (Z.to_nat (version_size m)) (version m) = a_version a /\
   measurement_algo m = a_algo a /\ is_u32 (a_algo a) /\
   take (Z.to_nat (sw_type_size m)) (sw_type m) = a_sw_type a) ->
  represents (closed sl1 h lock) (Some a).
Proof.
  intros Ho Hc Hp Hnl Hlen Hh Hms Hsz Hlk (H1 & H2 & H3 & H4 & H5).
  split; [apply closed_ok; [done|unfold len in Hlen; lia]|].
  assert (take (Z.to_nat MEASUREMENT_VALUE_SIZE) (over (hash_buf (value (measurement sl1))) h (len h)) = h) as Hv.
  { rewrite <- Hlen. unfold len at 1. rewrite Nat2Z.id. apply over_all. }
  unfold closed. destruct (lock =? 0); cbn in *; subst; split_and!; try done; try (by right); try (rewrite Hsz; exact Hlen); congruence.
Qed.
Lemma differs_owner sl a sid : represents sl (Some a) -> differs sl sid = negb (owner a sid).
Proof.
  intros (Ho & _ & _ & _ & Hs & _). unfold differs, owner.
  pose proof (so_signer _ Ho). pose proof (so_signer_size _ Ho).
  rewrite <- Hs. rewrite length_take, Nat.min_l by lia. done.
Qed.

(** A status as an outcome. *)
Definition outcome_of (st : Z) : outcome unit := if st =? PSA_SUCCESS then Ok tt else Err st.

Lemma status_outcome st : status_of (outcome_of st) = st.
Proof using Type. unfold outcome_of. by destruct (Z.eqb_spec st PSA_SUCCESS) as [->|]. Qed.

(** The statuses that the hash service can give. *)
Definition hash_status (hs : Z) : Prop :=
  exists input p, (psa_hash_compute TFM_MEASURED_BOOT_HASH_ALG input MEASUREMENT_VALUE_SIZE p).1.1 = hs.

Lemma opened_represents sl oa sid sid_size ver ver_size algo swt swt_size m m_size :
  represents sl oa -> args_ok sid sid_size ver ver_size swt swt_size m m_size -> is_u32 algo -> is_locked sl = false ->
  represents (opened sl sid sid_size ver ver_size algo swt swt_size)
    (afailed (hash_buf_size (value (measurement sl))) oa sid sid_size (take (Z.to_nat ver_size) ver) algo
       (take (Z.to_nat swt_size) swt)).
Proof.
  intros (Ho & Hcom & Hcase) Ha Halgo Hl. pose proof (opened_ok sl _ _ _ _ algo _ _ _ _ Ho Ha) as Ho1.
  unfold opened in *. destruct oa as [a|].
  - destruct Hcase as (Hp & Hl' & H1 & H2 & H3 & H4 & H5 & H6 & H7). rewrite Hp in *. by split_and!.
  - destruct Hcase as (Hp & _ & H1 & H2). rewrite Hp in *. destruct Ha. cbn in *.
    split_and!; try done; try (apply over_take; lia). by left.
Qed.

Lemma extend_represents s sls i oa sid sid_size ver ver_size algo swt swt_size m m_size lock :
  refines s sls -> sls !! i = Some oa -> args_ok sid sid_size ver ver_size swt swt_size m m_size -> is_u32 algo ->
  wp (measured_boot_extend_measurement (Z.of_nat i) sid sid_size ver ver_size algo swt swt_size m m_size lock) s
    (fun r s' => exists hs k, hash_status hs /\ 0 <= k <= MEASUREMENT_VALUE_SIZE /\
       let '(st, oa') := aextend_hashed hs k oa sid sid_size (take (Z.to_nat ver_size) ver) algo
         (take (Z.to_nat swt_size) swt) (take (Z.to_nat m_size) m) (negb (lock =? 0)) in
       r = outcome_of st /\ refines s' (<[i := oa']> sls)).
Proof.
  intros HR Hoa Ha Halgo.
  destruct (refines_lookup _ _ _ _ HR Hoa) as (sl & Hsl & Hrep). pose proof Hrep as (Ho & Hcom & Hcase).
  unfold wp. rewrite (extend_eq s _ sl) by (rewrite ?Nat2Z.id; done).
  assert (<[i := oa]> sls = sls) as Hsame by by apply list_insert_id.
  pose proof (hl_compute (chained sl m m_size) (mb_psa s)) as Hc.
  pose proof (opened_ok sl _ _ _ _ algo _ _ _ _ Ho Ha) as Ho1. unfold extended.
  assert (hash_status (psa_hash_compute TFM_MEASURED_BOOT_HASH_ALG (chained sl m m_size)
    MEASUREMENT_VALUE_SIZE (mb_psa s)).1.1) as Hhs by by eexists _, _.
  destruct (psa_hash_compute _ _ _ _) as [[hs h] p]. cbn [fst snd] in Hhs. destruct Hc as (_ & Hh & _).
  exists hs, (hash_buf_size (value (measurement sl))). split; [done|]. split; [apply Ho|]. rewrite Nat2Z.id.
  pose proof (opened_represents sl oa sid sid_size ver ver_size algo swt swt_size m m_size Hrep Ha Halgo) as Hfail.
  unfold aextend_hashed. destruct oa as [a|]; unfold aextend.
  - rewrite (differs_owner sl a) by done. rewrite Hcom. cbn [negb]. rewrite andb_true_r.
    destruct Hcase as (Hp & Hl & H1 & H2 & H3 & H4 & H5 & H6 & H7).
    destruct (owner a sid); cbn [negb];
      [|change (PSA_ERROR_NOT_PERMITTED =? PSA_SUCCESS) with false; cbn [andb]; by rewrite Hsame].
    rewrite Hl in *. destruct (a_locked a) eqn:Hlk;
      [change (PSA_ERROR_BAD_STATE =? PSA_SUCCESS) with false; cbn [andb]; by rewrite Hsame|].
    change (PSA_SUCCESS =? PSA_SUCCESS) with true. cbn [andb].
    destruct (Z.eqb_spec hs PSA_SUCCESS) as [->|Hne]; cbn [negb].
    + split; [done|]. specialize (Hh eq_refl).
      assert (len h = MEASUREMENT_VALUE_SIZE) as Hlen by (rewrite Hh; apply hl_digest).
      eapply refines_insert; [exact HR| |done].
      unfold opened in *. rewrite Hp in *. apply (closed_represents _ _ _ (a_chain a ++ [take (Z.to_nat m_size) m])); try done.
      rewrite Hh. unfold chained. rewrite H7. unfold chain_value. by rewrite fold_left_app.
    + split; [unfold outcome_of; by destruct (Z.eqb_spec hs PSA_SUCCESS)|].
      eapply refines_insert; [exact HR|by apply Hfail|done].
  - destruct Hcase as (Hp & Hl & H1 & H2).
    assert (differs sl sid = false) as -> by (unfold differs; by rewrite H1).
    rewrite Hl. change (PSA_SUCCESS =? PSA_SUCCESS) with true. cbn [andb]. destruct (Z.eqb_spec hs PSA_SUCCESS) as [->|Hne]; cbn [negb].
    + split; [done|]. specialize (Hh eq_refl).
      assert (len h = MEASUREMENT_VALUE_SIZE) as Hlen by (rewrite Hh; apply hl_digest).
      eapply refines_insert; [exact HR| |done].
      unfold opened in *. rewrite Hp in *. apply (closed_represents _ _ _ [take (Z.to_nat m_size) m]); try done.
      * rewrite Hh. unfold chained. by rewrite H2.
      * destruct Ha. cbn. split_and!; try done; apply over_take; lia.
    + split; [unfold outcome_of; by destruct (Z.eqb_spec hs PSA_SUCCESS)|].
      eapply refines_insert; [exact HR|by apply Hfail|done].
Qed.

(** A request that does not get as far as the hash. *)
Lemma unhashed (p : P) (F : Z -> Z -> Prop) : (forall hs k, F hs k) ->
  exists hs k, hash_status hs /\ 0 <= k <= MEASUREMENT_VALUE_SIZE /\ F hs k.
Proof.
  intros H. pose proof hl_size.
  exists (psa_hash_compute TFM_MEASURED_BOOT_HASH_ALG [] MEASUREMENT_VALUE_SIZE p).1.1, 0.
  split; [by eexists _, _|]. split; [lia|done].
Qed.

Lemma aextend_hashed_ok k oa sid n ver algo swt m lock :
  aextend_hashed PSA_SUCCESS k oa sid n ver algo swt m lock = aextend oa sid n ver algo swt m lock.
Proof. unfold aextend_hashed. destruct (aextend _ _ _ _ _ _ _ _) as [st oa']. cbn. by rewrite andb_false_r. Qed.

(** The same when the hash works. *)
Lemma extend_represents_hashed s sls i oa sid sid_size ver ver_size algo swt swt_size m m_size lock :
  (forall hs, hash_status hs -> hs = PSA_SUCCESS) ->
  refines s sls -> sls !! i = Some oa -> args_ok sid sid_size ver ver_size swt swt_size m m_size -> is_u32 algo ->
  wp (measured_boot_extend_measurement (Z.of_nat i) sid sid_size ver ver_size algo swt swt_size m m_size lock) s
    (fun r s' => let '(st, oa') := aextend oa sid sid_size (take (Z.to_nat ver_size) ver) algo
         (take (Z.to_nat swt_size) swt) (take (Z.to_nat m_size) m) (negb (lock =? 0)) in
       r = outcome_of st /\ refines s' (<[i := oa']> sls)).
Proof.
  intros Hw HR Hoa Ha Hg. eapply wp_mono; [by apply (extend_represents s sls i oa)|].
  intros r s' (hs & k & Hhs & _ & H). rewrite (Hw hs Hhs), aextend_hashed_ok in H. exact H.
Qed.
End Spec.

(** ** The handlers *)

Section Handlers.
Context {P : Type} {PO : PsaOps P} {PL : PsaLaws P} {HO : HashOps P} {HL : HashLaws P}.
Implicit Types s : mb_state P.

(** The message [m] carries the request. *)
Record delivered (q : mreq) (m : psa_msg_t) s : Prop := {
  de_in : in_size m = len <$> in_vec q;
  de_out : out_size m = out_sizes q;
  de_data : forall i v, in_vec q !! i = Some v -> in_data (mb_psa s) (handle m) (Z.of_nat i) = v
}.

Definition handler (q : mreq) (m : psa_msg_t) : ST (mb_state P) unit :=
  match q with MExtend _ _ _ _ _ _ _ _ => extend_measurement m | MRead _ _ _ _ _ => read_measurements m end.

(** The other vectors keep their data, and nothing is written. *)
Record reads_on (h i : Z) s s' : Prop := {
  ro_idle : idle s s';
  ro_in : forall j, j <> i -> in_data (mb_psa s') h j = in_data (mb_psa s) h j;
  ro_out : forall j, out_data (mb_psa s') h j = out_data (mb_psa s) h j
}.

Lemma wp_read_vec_all m i v n s (Q : outcome (list Z) -> mb_state P -> Prop) :
  in_data (mb_psa s) (handle m) i = v -> n = len v ->
  (forall s1, reads_on (handle m) i s s1 -> Q (Ok v) s1) -> wp (read_vec m i n) s Q.
Proof using PL.
  intros Hv -> Hk. unfold read_vec. apply wp_bind. pose proof (pl_read (handle m) i (len v) (mb_psa s)) as Hr.
  unfold wp at 1, on_mb_psa. destruct (psa_read _ _ _ _) as [bs p] eqn:E. destruct Hr as (-> & _ & Hin & Hout & _).
  cbn [fst snd]. rewrite Hv. assert (take (Z.to_nat (len v)) v = v) as ->
    by (unfold len; by rewrite Nat2Z.id, firstn_all).
  fold (len v). rewrite Z.eqb_refl.
  apply wp_ret, Hk. split; [done| |].
  - intros j Hj. apply Hin. congruence.
  - intros j. apply Hout.
Qed.

Lemma enc_extend_fields index lock algo swt swt_size : is_u8 swt_size -> is_u32 algo -> length swt = 20%nat ->
  let iov := enc_extend_iovec index lock algo swt swt_size in
  len iov = 32 /\ nth_byte iov 0 = index /\ nth_byte iov 1 = lock /\ dec32 iov 4 = algo /\
  take 20 (drop 8 iov) = swt /\ nth_byte iov 28 = swt_size.
Proof using Type.
  intros Ht Ha Hl iov. unfold iov, enc_extend_iovec. rewrite w8_small by done.
  pose proof (enc32_length algo). split_and!; try done.
  - unfold len. rewrite !length_app. cbn [length]. lia.
  - apply (dec32_mid [index; lock; 0; 0]); done.
  - rewrite drop_app_ge by (cbn; lia). cbn [length]. rewrite drop_app_ge by (rewrite H; lia).
    rewrite H. rewrite drop_0. by rewrite <- Hl, take_app_length.
  - rewrite (nth_byte_app_r [index; lock; 0; 0]) by (cbn; lia). cbn [length].
    rewrite nth_byte_app_r by lia. rewrite H. rewrite nth_byte_app_r by lia. rewrite Hl. done.
Qed.

Lemma wp_extend_served s sls index sid ver algo swt swt_size m lock msg :
  let q := MExtend index sid ver algo swt swt_size m lock in
  mreq_ok q -> delivered q msg s -> refines s sls ->
  wp (extend_measurement msg) s (fun r s' => exists hs k, hash_status hs /\ 0 <= k <= MEASUREMENT_VALUE_SIZE /\
    let '(st, _, sls') := aserve hs k sls q in status_of r = st /\ refines s' sls').
Proof.
  intros q (Hx & Ha & Hl & Ht) [Hin _ Hdata] HR. cbn [in_vec q] in *. unfold extend_in_vec in *. cbn [fmap list_fmap] in Hin.
  destruct (enc_extend_fields index (Z.b2z lock) algo swt swt_size Ht Ha Hl) as (Ilen & I0 & I1 & I4 & I8 & I28).
  set (iov := enc_extend_iovec _ _ _ _ _) in *.
  assert (in_len msg 0 = 32 /\ in_len msg 1 = len sid /\ in_len msg 2 = len ver /\ in_len msg 3 = len m)
    as (L0 & L1 & L2 & L3) by (unfold in_len; rewrite Hin; cbn [lookup list_lookup default]; done).
  unfold extend_measurement. apply wp_bind, wp_modify. set (s0 := set_caller_id _ s).
  rewrite L0, L1, L2, L3. cbn [Z.eqb negb]. unfold sizeof_extend_iovec at 1. change (negb (32 =? 32)) with false. cbv iota.
  apply wp_bind, (wp_read_vec_all _ _ iov); [apply (Hdata 0%nat); done|done|]. intros s1 [H1 D1 _].
  assert (refines s1 sls) as HR1 by (eapply refines_same; [exact HR|]; etrans; [apply H1|done]).
  rewrite I0, I1, I4, I8, I28. unfold aserve, q.
  unfold SIGNER_ID_MIN_SIZE, SIGNER_ID_MAX_SIZE, VERSION_MAX_SIZE, MEASUREMENT_VALUE_MIN_SIZE,
    MEASUREMENT_VALUE_MAX_SIZE, SW_TYPE_MAX_SIZE, NUM_OF_MEASUREMENT_SLOTS.
  destruct (_ || _) eqn:Hsz; [apply wp_raise, (unhashed (mb_psa s)); done|].
  rewrite !orb_false_iff, !Z.gtb_ltb, !Z.ltb_ge in Hsz. destruct Hsz as (((((Hs1 & Hs2) & Hs3) & Hs4) & Hs5) & Hs6).
  destruct (Z.geb_spec index 32).
  { rewrite lookup_ge_None_2 by (destruct HR; lia). by apply wp_raise, (unhashed (mb_psa s)). }
  unfold is_u8 in *. pose proof HR1 as [Hlen _].
  destruct (lookup_lt_is_Some_2 sls (Z.to_nat index)) as [oa Hoa]; [lia|]. rewrite Hoa.
  assert (forall j v, j <> 0%nat -> in_vec q !! j = Some v -> in_data (mb_psa s1) (handle msg) (Z.of_nat j) = v) as Hd1.
  { intros j v Hj Hv. rewrite D1 by lia. by apply Hdata. }
  apply wp_bind, (wp_read_vec_all _ _ sid); [by apply (Hd1 1%nat)|done|]. intros s2 [H2 D2 _].
  unfold wp at 1. rewrite bind_memcpy by (rewrite ?filled_length; unfold len in *; lia).
  apply wp_bind, (wp_read_vec_all _ _ ver); [rewrite D2 by lia; by apply (Hd1 2%nat)|done|]. intros s3 [H3 D3 _].
  unfold wp at 1. rewrite bind_memcpy by (rewrite ?filled_length; unfold len in *; lia).
  apply wp_bind, (wp_read_vec_all _ _ m); [rewrite D3, D2 by lia; by apply (Hd1 3%nat)|done|]. intros s4 [H4 _ _].
  unfold wp at 1. rewrite bind_memcpy by (rewrite ?filled_length; unfold len in *; lia).
  assert (refines s4 sls) as HR4.
  { eapply refines_same; [exact HR1|]. by rewrite (id_slots _ _ H4), (id_slots _ _ H3), (id_slots _ _ H2). }
  rewrite w8_small by (unfold len in *; lia).
  pose proof (filled_length 64 0 ltac:(lia)). pose proof (filled_length 14 0 ltac:(lia)).
  pose proof (extend_represents s4 sls (Z.to_nat index) oa (over (filled 64 0) sid (len sid)) (len sid)
    (over (filled 14 0) ver (len ver)) (len ver) algo swt swt_size (over (filled 64 0) m (len m)) (len m)
    (Z.b2z lock) HR4 Hoa) as HE.
  rewrite Z2Nat.id in HE by lia. rewrite !over_len in HE.
  rewrite (fit_over 64 sid) by (unfold len in *; lia). change (Z.of_nat 64) with 64.
  replace (negb (Z.b2z lock =? 0)) with lock in HE by by destruct lock.
  eapply wp_mono; [apply HE; [|done]|].
  - split; rewrite ?over_length; unfold len in *; lia.
  - intros r s' (hs & k & Hhs & Hk & HF). exists hs, k. split; [exact Hhs|]. split; [exact Hk|].
    destruct (aextend_hashed _ _ _ _ _ _ _ _ _ _) as [st oa']. destruct HF as [-> HF].
    split; [apply status_outcome|exact HF].
Qed.

(** What the handler has written to the three vectors of a read. *)
Definition written (m : psa_msg_t) s s' : list (list Z) :=
  (fun i => drop (length (out_data (mb_psa s) (handle m) i)) (out_data (mb_psa s') (handle m) i)) <$> [0; 1; 2].

Lemma written_nothing m s s' : (forall j, out_data (mb_psa s') (handle m) j = out_data (mb_psa s) (handle m) j) ->
  written m s s' = nothing.
Proof using Type. intros H. unfold written. cbn. by rewrite !H, !drop_all. Qed.

Lemma over_taken dst l n : 0 <= n <= Z.of_nat (length l) ->
  over dst l n = over dst (take (Z.to_nat n) l) (len (take (Z.to_nat n) l)).
Proof using Type.
  intros Hn. assert (len (take (Z.to_nat n) l) = n) as -> by (unfold len; rewrite length_take; lia).
  unfold over. rewrite take_take. by rewrite Nat.min_id.
Qed.

(** The value that a slot holds. *)
Lemma stored_value sl a : represents sl (Some a) ->
  take (Z.to_nat (hash_buf_size (value (measurement sl)))) (hash_buf (value (measurement sl))) = avalue a.
Proof using HL.
  intros (Ho & _ & _ & _ & _ & _ & _ & _ & _ & [H6 Hs] & H7). destruct Ho. pose proof hl_size. unfold avalue.
  destruct (a_chain a) as [|m ms].
  - rewrite H6 in *. change (chain_value []) with (filled MEASUREMENT_VALUE_SIZE 0) in H7.
    apply (f_equal (take (Z.to_nat (a_size a)))) in H7. rewrite take_take, Nat.min_l in H7 by lia. rewrite H7.
    unfold filled. rewrite take_replicate. f_equal. lia.
  - destruct Hs as [Hs|Hs]; [done|]. by rewrite H6, Hs.
Qed.

(** The reply of a read is what the specification says of the slot. *)
Lemma described_reading sl a : represents sl (Some a) ->
  let r := reading_of sl (filled 64 0) (filled 14 0) (filled 20 0) (filled MEASUREMENT_VALUE_SIZE 0) in
  enc_read_iovec_out r = described a /\
  take (Z.to_nat (r_signer_id_len r)) (r_signer_id r) = a_signer a /\
  take (Z.to_nat (r_measurement_value_len r)) (r_measurement_value r) = avalue a.
Proof using HL.
  intros Hrep r. pose proof (stored_value _ _ Hrep) as Hval.
  destruct Hrep as (Ho & _ & Hp & Hl & H1 & H2 & H3 & H4 & H5 & [H6 _] & H7). destruct Ho. pose proof hl_size.
  unfold r, reading_of, enc_read_iovec_out, described. cbn -[take Z.to_nat over filled].
  rewrite !over_take by lia. split_and!; try done.
  assert (len (a_version a) = version_size (metadata (measurement sl))) as Hv
    by (rewrite <- H2; unfold len; rewrite length_take; lia).
  assert (len (a_sw_type a) = sw_type_size (metadata (measurement sl))) as Ht
    by (rewrite <- H5; unfold len; rewrite length_take; lia).
  rewrite (over_taken _ (version _)), (over_taken _ (sw_type _)) by lia. rewrite H2, H5, H3, Hl.
  rewrite (fit_over 20), (fit_over 14) by lia. by rewrite Hv, Ht.
Qed.

Lemma wp_write_vec m i bs s (Q : outcome unit -> mb_state P -> Prop) :
  (forall s1, idle s s1 -> out_data (mb_psa s1) (handle m) i = out_data (mb_psa s) (handle m) i ++ bs ->
     (forall j, j <> i -> out_data (mb_psa s1) (handle m) j = out_data (mb_psa s) (handle m) j) -> Q (Ok tt) s1) ->
  wp (write_vec m i bs) s Q.
Proof using PL.
  intros Hk. pose proof (pl_write (handle m) i bs (mb_psa s)) as (H1 & H2 & _).
  unfold wp, write_vec, on_mb_psa. cbn. apply Hk; [done|exact H1|].
  intros j Hj. apply H2. congruence.
Qed.

Lemma wp_read_served s sls index swt_size ver_size sid_room val_room msg :
  let q := MRead index swt_size ver_size sid_room val_room in
  mreq_ok q -> delivered q msg s -> refines s sls ->
  wp (read_measurements msg) s (fun r s' => forall hs k, let '(st, outs, sls') := aserve hs k sls q in
    status_of r = st /\ refines s' sls' /\ written msg s s' = outs).
Proof using PL HL.
  intros q (Hx & Ht & Hv) [Hin Hout Hdata] HR. cbn [in_vec out_sizes q] in *. unfold read_in_vec in *.
  cbn [fmap list_fmap] in Hin. set (iov := enc_read_iovec_in _ _ _) in *.
  assert (in_len msg 0 = 3 /\ out_len msg 0 = 44 /\ out_len msg 1 = sid_room /\ out_len msg 2 = val_room)
    as (L0 & L1 & L2 & L3) by (unfold in_len, out_len; rewrite Hin, Hout; done).
  unfold read_measurements. apply wp_bind, wp_modify. set (s0 := set_caller_id _ s).
  rewrite L0, L1, L2, L3. change (negb (3 =? sizeof_read_iovec_in) || negb (44 =? sizeof_read_iovec_out)) with false.
  cbv iota. apply wp_bind, (wp_read_vec_all _ _ iov); [apply (Hdata 0%nat); done|done|]. intros s1 [H1 _ O1].
  assert (forall j, out_data (mb_psa s1) (handle msg) j = out_data (mb_psa s) (handle msg) j) as O1'
    by (intros j; apply O1).
  assert (refines s1 sls) as HR1 by (eapply refines_same; [exact HR|]; etrans; [apply H1|done]).
  change (nth_byte iov 0) with index. change (nth_byte iov 1) with (w8 swt_size).
  change (nth_byte iov 2) with (w8 ver_size). rewrite !w8_small by done. unfold aserve, q, NUM_OF_MEASUREMENT_SLOTS.
  destruct (Z.geb_spec index 32).
  { rewrite lookup_ge_None_2 by (destruct HR; lia). apply wp_raise. intros hs k. split_and!; try done. by apply written_nothing. }
  unfold is_u8 in *. pose proof HR1 as [Hlen _].
  destruct (lookup_lt_is_Some_2 sls (Z.to_nat index)) as [oa Hoa]; [lia|]. rewrite Hoa.
  destruct (refines_lookup _ _ _ _ HR1 Hoa) as (sl & Hsl & Hrep). pose proof Hrep as (Ho & _ & Hcase).
  apply wp_bind. unfold wp at 1. pose proof hl_size.
  rewrite (read_eq s1 index sl) by (try done; rewrite filled_length; unfold SIGNER_ID_MAX_SIZE,
    MEASUREMENT_VALUE_MAX_SIZE, VERSION_MAX_SIZE, SW_TYPE_MAX_SIZE; lia).
  unfold aread. destruct oa as [a|]; cbn [fst snd].
  2:{ destruct Hcase as (-> & _). cbn [negb]. intros hs k. split_and!; try done. by apply written_nothing. }
  pose proof (described_reading sl a Hrep) as (D0 & D1 & D2).
  destruct Hcase as (Hp & Hl & E1 & E2 & E3 & E4 & E5 & [E6 _] & E7). rewrite Hp. cbn [negb].
  assert (fits sl sid_room ver_size swt_size val_room = (len (a_version a) <=? ver_size)
    && (len (a_sw_type a) <=? swt_size) && (len (a_signer a) <=? sid_room) && (a_size a <=? val_room)) as ->.
  { unfold fits. rewrite E6, <- E1, <- E2, <- E5. unfold len. destruct Ho. rewrite !length_take, !Nat2Z.inj_min, !Z2Nat.id by lia.
    by rewrite !Z.min_l by lia. }
  destruct (_ && _) eqn:Hfit; [|intros hs k; split_and!; try done; by apply written_nothing].
  change (filled SIGNER_ID_MAX_SIZE 0) with (filled 64 0). change (filled VERSION_MAX_SIZE 0) with (filled 14 0).
  change (filled SW_TYPE_MAX_SIZE 0) with (filled 20 0). rewrite D0, D1, D2.
  apply wp_bind, wp_write_vec. intros s2 I2 W2 N2. apply wp_bind, wp_write_vec. intros s3 I3 W3 N3.
  apply wp_write_vec. intros s4 I4 W4 N4 hs k.
  split_and!; [done| |].
  - eapply refines_same; [exact HR1|]. by rewrite (id_slots _ _ I4), (id_slots _ _ I3), (id_slots _ _ I2).
  - unfold written. cbn. rewrite W4, (N4 0), (N4 1), (N3 0), W3, (N3 2), W2, (N2 1), (N2 2), !O1' by lia.
    by rewrite !drop_app_length.
Qed.

(** ** Runs *)

Definition event : Type := mreq * Z * list (list Z).

Definition outs_of (q : mreq) (m : psa_msg_t) s s' : list (list Z) :=
  match q with MExtend _ _ _ _ _ _ _ _ => [] | MRead _ _ _ _ _ => written m s s' end.

(** Between the requests the framework does what it likes with its state. *)
Inductive mrun : mb_state P -> list event -> mb_state P -> Prop :=
| mr_nil s : mrun s [] s
| mr_psa s p es s' : mrun (set_mb_psa p s) es s' -> mrun s es s'
| mr_serve s q m r s1 es s' : mreq_ok q -> delivered q m s -> handler q m s = (r, s1) -> mrun s1 es s' ->
    mrun s ((q, status_of r, outs_of q m s s1) :: es) s'.

(** Each request is served with a status that the hash service can give. *)
Inductive arun : list (option aslot) -> list event -> list (option aslot) -> Prop :=
| ar_nil sls : arun sls [] sls
| ar_serve sls q hs k st outs sls1 es sls' : hash_status hs -> 0 <= k <= MEASUREMENT_VALUE_SIZE ->
    aserve hs k sls q = (st, outs, sls1) -> arun sls1 es sls' -> arun sls ((q, st, outs) :: es) sls'.

Lemma served s sls q m r s1 : mreq_ok q -> delivered q m s -> refines s sls -> handler q m s = (r, s1) ->
  exists hs k sls1, hash_status hs /\ 0 <= k <= MEASUREMENT_VALUE_SIZE /\
    aserve hs k sls q = (status_of r, outs_of q m s s1, sls1) /\ refines s1 sls1.
Proof.
  intros Hq Hd HR E. destruct q; cbn [handler outs_of] in *.
  - pose proof (wp_elim _ _ _ _ _ E (wp_extend_served s sls _ _ _ _ _ _ _ _ m Hq Hd HR)) as (hs & k & Hhs & Hk & H).
    destruct (aserve _ _ _ _) as [[st outs] sls1] eqn:Ea. destruct H as [-> H]. exists hs, k, sls1. rewrite Ea.
    enough (outs = []) as -> by done. clear -Ea. unfold aserve in Ea. repeat case_match; by simplify_eq.
  - pose proof (wp_elim _ _ _ _ _ E (wp_read_served s sls _ _ _ _ _ m Hq Hd HR)) as H.
    destruct (unhashed (mb_psa s) (fun _ _ => True)) as (hs & k & Hhs & Hk & _); [done|]. specialize (H hs k).
    destruct (aserve _ _ _ _) as [[st outs] sls1] eqn:Ea. destruct H as (-> & H & ->). by exists hs, k, sls1.
Qed.

Lemma run_refined s es s' : mrun s es s' -> forall sls, refines s sls -> exists sls', arun sls es sls' /\ refines s' sls'.
Proof.
  induction 1 as [s|s p es s' _ IH|s q m r s1 es s' Hq Hd E _ IH]; intros sls HR.
  - exists sls. split; [constructor|done].
  - apply IH. by eapply refines_same.
  - destruct (served _ _ _ _ _ _ Hq Hd HR E) as (hs & k & sls1 & Hhs & Hk & Ea & HR1).
    destruct (IH _ HR1) as (sls' & Hrun & HR'). exists sls'. split; [by econstructor|done].
Qed.

(** *** What a run leaves in a slot *)

(** The measurements that the requests of the run have added to slot [i]. *)
Definition measured (i : nat) (e : event) : list (list Z) :=
  match e with
  | (MExtend j _ _ _ _ _ m _, st, _) => if bool_decide (Z.to_nat j = i) && (st =? PSA_SUCCESS) then [m] else []
  | _ => []
  end.

Definition taken (i : nat) (es : list event) : list (list Z) := mjoin (measured i <$> es).

Definition chain_of (x : option (option aslot)) : list (list Z) :=
  match x with Some (Some a) => a_chain a | _ => [] end.

(** A slot that is not empty holds a measurement. *)
Definition nonempty (sls : list (option aslot)) : Prop :=
  forall i a, sls !! i = Some (Some a) -> a_chain a <> [].

Lemma aextend_chain oa sid n ver algo swt m lock :
  let '(st, oa') := aextend oa sid n ver algo swt m lock in
  chain_of (Some oa') = chain_of (Some oa) ++ (if st =? PSA_SUCCESS then [m] else []) /\
  ((forall a, oa = Some a -> a_chain a <> []) -> forall a, oa' = Some a -> a_chain a <> []).
Proof using Type.
  destruct oa as [a|]; cbn; [|by split; [done|intros _ a [= <-]]].
  destruct (owner a sid); cbn; [|by rewrite app_nil_r].
  destruct (a_locked a); cbn; [by rewrite app_nil_r|]. split; [done|]. intros _ a' [= <-]. cbn. by destruct (a_chain a).
Qed.

(** A failing hash adds nothing to the chain. *)
Lemma aextend_hashed_chain hs k oa sid n ver algo swt m lock :
  let '(st, oa') := aextend_hashed hs k oa sid n ver algo swt m lock in
  chain_of (Some oa') = chain_of (Some oa) ++ (if st =? PSA_SUCCESS then [m] else []) /\
  (hs = PSA_SUCCESS -> (forall a, oa = Some a -> a_chain a <> []) -> forall a, oa' = Some a -> a_chain a <> []).
Proof using Type.
  unfold aextend_hashed. pose proof (aextend_chain oa sid n ver algo swt m lock) as H.
  destruct (aextend _ _ _ _ _ _ _ _) as [st oa']. destruct H as [H1 H2].
  destruct (st =? PSA_SUCCESS) eqn:Est; cbn [andb]; [|by rewrite Est].
  destruct (hs =? PSA_SUCCESS) eqn:Ehs; cbn [negb]; [by rewrite Est|]. rewrite Ehs, app_nil_r.
  split; [by destruct oa|]. by intros ->.
Qed.

Lemma aserve_chain hs k sls q st outs sls1 i : aserve hs k sls q = (st, outs, sls1) ->
  chain_of (sls1 !! i) = chain_of (sls !! i) ++ measured i (q, st, outs) /\
  (hs = PSA_SUCCESS -> nonempty sls -> nonempty sls1).
Proof using Type.
  intros E. destruct q as [index sid ver algo swt swt_size m lock|]; cbn [aserve] in E.
  2:{ assert (sls1 = sls) as -> by (repeat case_match; by simplify_eq). by rewrite app_nil_r. }
  assert (forall e, e <> PSA_SUCCESS -> measured i (MExtend index sid ver algo swt swt_size m lock, e, outs) = []) as Hrej.
  { intros e He. cbn. destruct (Z.eqb_spec e PSA_SUCCESS); [done|by rewrite andb_false_r]. }
  destruct (_ || _); [injection E as <- <- <-; by rewrite Hrej, app_nil_r|].
  destruct (sls !! Z.to_nat index) as [oa|] eqn:Hoa; [|injection E as <- <- <-; by rewrite Hrej, app_nil_r].
  pose proof (aextend_hashed_chain hs k oa (fit 64 sid) (len sid) ver algo (take (Z.to_nat swt_size) swt) m lock) as Hc.
  destruct (aextend_hashed _ _ _ _ _ _ _ _ _ _) as [st1 oa']. injection E as <- <- <-. destruct Hc as [Hc Hne]. cbn [measured].
  pose proof (lookup_lt_Some _ _ _ Hoa) as Hlt. split.
  - case_bool_decide as Hi; cbn [andb].
    + subst i. rewrite list_lookup_insert_eq by done. by rewrite Hoa.
    + rewrite list_lookup_insert_ne by done. by rewrite app_nil_r.
  - intros Hs Hn j a Hj. destruct (decide (j = Z.to_nat index)) as [->|Hji].
    + rewrite list_lookup_insert_eq in Hj by done. injection Hj as Hj. apply Hne; [done| |done].
      intros b ->. by apply (Hn _ _ Hoa).
    + rewrite list_lookup_insert_ne in Hj by done. by apply (Hn _ _ Hj).
Qed.

Lemma arun_chain sls es sls' i : arun sls es sls' ->
  chain_of (sls' !! i) = chain_of (sls !! i) ++ taken i es /\
  ((forall hs, hash_status hs -> hs = PSA_SUCCESS) -> nonempty sls -> nonempty sls').
Proof using Type.
  induction 1 as [sls|sls q hs k st outs sls1 es sls' Hhs _ E _ [IH1 IH2]]; [by rewrite app_nil_r|].
  destruct (aserve_chain _ _ _ _ _ _ _ i E) as [H1 H2]. split; [|auto].
  rewrite IH1, H1. unfold taken. cbn [fmap list_fmap mjoin list_join]. by rewrite app_assoc.
Qed.

Lemma mrun_app s es1 es2 s' : mrun s (es1 ++ es2) s' -> exists s1, mrun s es1 s1 /\ mrun s1 es2 s'.
Proof using Type.
  intros H. remember (es1 ++ es2) as es eqn:E. revert es1 E.
  induction H as [s|s p es s' H IH|s q m r s1 es s' Hq Hd He H IH]; intros es1 E.
  - destruct es1; [|done]. cbn in E. subst. eexists. split; constructor.
  - destruct (IH es1 E) as (s1 & H1 & H2). exists s1. split; [by econstructor|done].
  - destruct es1 as [|e es1]; cbn in E.
    + subst. exists s. split; [constructor|]. by econstructor.
    + injection E as <- E. destruct (IH es1 E) as (s2 & H1 & H2). exists s2. split; [by econstructor|done].
Qed.
End Handlers.
