(* ===== verification/MeasuredBootStart.v ===== *)
(** * The start of the measured boot partition

    The measurements that the boot loaders left in the shared area become
    extensions of the automaton, in the order of the area; the loop over the
    area ends on every content. *)
From Stdlib Require Import ZArith Lia.
From stdpp Require Import base list numbers options.
From S2P Require Import Prelude.
From S2P Require Import PsaApi.
From S2P Require Import MeasuredBoot.
From S2P Require Import MeasuredBootReq.
From S2P Require Import MeasuredBootSpec.
From S2P Require Import MeasuredBootSafe.
From S2P Require Import MeasuredBootRefine.

#[local] Set Default Proof Using "Type*".

(** The sizes of the headers and of the metadata. *)
Class BootLaws (P : Type) {BD : BootData P} := {
  bl_header : 0 <= SHARED_DATA_HEADER_SIZE;
  bl_entry : 0 <= SHARED_DATA_ENTRY_HEADER_SIZE;
  bl_metadata : 0 <= sizeof_boot_measurement_metadata
}.

Section Start.
Context {P : Type} {PO : PsaOps P} {HO : HashOps P} {BD : BootData P} {HL : HashLaws P} {BL : BootLaws P}.
Implicit Types s : mb_state P.

(** ** The area *)

Definition bytes_at (b : list Z) (off n : Z) (bs : list Z) : Prop :=
  0 <= off /\ 0 <= n /\ off + n <= Z.of_nat (length b) /\ take (Z.to_nat n) (drop (Z.to_nat off) b) = bs.

Lemma boot_bytes_ok s off n bs : bytes_at (boot_measurements s) off n bs -> boot_bytes off n s = (Ok bs, s).
Proof using Type. intros (? & ? & ? & <-). unfold boot_bytes. by rewrite !(proj2 (Z.leb_le _ _)) by lia. Qed.

(** A measurement of the area: the slot it goes to, its metadata, its bytes
    and whether the slot is closed with it. *)
Record boot_entry : Type := { e_slot : Z; e_metadata : boot_measurement_metadata; e_value : list Z; e_lock : bool }.

Definition ver_len (m : boot_measurement_metadata) : Z := tfm_strnlen (b_sw_version m) (len (b_sw_version m)).
Definition swt_len (m : boot_measurement_metadata) : Z := tfm_strnlen (b_sw_type m) (len (b_sw_type m)).

(** Two TLVs per measurement: the metadata at [off], then the value. *)
Inductive tlv_area (b : list Z) (fin : Z) : Z -> list boot_entry -> Prop :=
| ta_end : tlv_area b fin fin []
| ta_entry off h1 t1 md h2 t2 l2 v es :
    bytes_at b off SHARED_DATA_ENTRY_HEADER_SIZE h1 ->
    tlv_entry_at h1 = {| tlv_type := t1; tlv_len := sizeof_boot_measurement_metadata |} ->
    GET_MBS_CLAIM t1 = SW_MEASURE_METADATA ->
    bytes_at b (off + SHARED_DATA_ENTRY_HEADER_SIZE) sizeof_boot_measurement_metadata md ->
    let off2 := off + (SHARED_DATA_ENTRY_HEADER_SIZE + sizeof_boot_measurement_metadata) in
    bytes_at b off2 SHARED_DATA_ENTRY_HEADER_SIZE h2 ->
    tlv_entry_at h2 = {| tlv_type := t2; tlv_len := l2 |} ->
    w8 (GET_MBS_CLAIM t2) = SW_MEASURE_VALUE \/ w8 (GET_MBS_CLAIM t2) = SW_MEASURE_VALUE_NON_EXTENDABLE ->
    bytes_at b (off2 + SHARED_DATA_ENTRY_HEADER_SIZE) l2 v ->
    32 <= l2 <= 64 ->
    tlv_area b fin (off2 + (SHARED_DATA_ENTRY_HEADER_SIZE + l2)) es ->
    tlv_area b fin off ({| e_slot := w8 (GET_MBS_SLOT t2); e_metadata := boot_metadata_at md; e_value := v;
      e_lock := w8 (GET_MBS_CLAIM t2) =? SW_MEASURE_VALUE_NON_EXTENDABLE |} :: es).

(** What the fields of a measurement have to satisfy. *)
Record entry_ok (e : boot_entry) : Prop := {
  eo_slot : 0 <= e_slot e < 32;
  eo_args : args_ok (b_signer_id (e_metadata e)) (b_signer_id_size (e_metadata e))
    (b_sw_version (e_metadata e)) (ver_len (e_metadata e))
    (b_sw_type (e_metadata e)) (swt_len (e_metadata e)) (e_value e) (len (e_value e));
  eo_algo : is_u32 (b_measurement_type (e_metadata e))
}.

Definition entry_extend (e : boot_entry) : ST (mb_state P) unit :=
  let m := e_metadata e in
  measured_boot_extend_measurement (e_slot e) (b_signer_id m) (b_signer_id_size m)
    (b_sw_version m) (w8 (ver_len m)) (b_measurement_type m) (b_sw_type m) (w8 (swt_len m))
    (e_value e) (len (e_value e)) (Z.b2z (e_lock e)).

(** One measurement: the operation is called with what the area says. *)
Lemma collect_entry_eq s fin off e es : tlv_area (boot_measurements s) fin off (e :: es) ->
  32 <= b_signer_id_size (e_metadata e) <= 64 ->
  exists off', tlv_area (boot_measurements s) fin off' es /\ off + 32 <= off' /\
    collect_entry off s = (entry_extend e;; mret off') s.
Proof using BL.
  pose proof bl_entry. pose proof bl_metadata.
  intros Ha Hs. inversion Ha as [|? h1 t1 md h2 t2 l2 v ? B1 E1 C1 B2 off2 B3 E2 C2 B4 Hl Hes]. subst.
  eexists. split; [exact Hes|split; [unfold off2; lia|]]. unfold collect_entry.
  rewrite (bind_ok _ _ _ _ _ (boot_bytes_ok _ _ _ _ B1)), E1. cbn [tlv_type tlv_len].
  rewrite C1, !Z.eqb_refl. cbn [negb orb]. fold off2.
  rewrite (bind_ok _ _ _ _ _ (boot_bytes_ok _ _ _ _ B3)), E2. cbn [tlv_type tlv_len].
  replace (negb (w8 (GET_MBS_CLAIM t2) =? SW_MEASURE_VALUE) && negb (w8 (GET_MBS_CLAIM t2) =? SW_MEASURE_VALUE_NON_EXTENDABLE))
    with false by (destruct C2 as [-> | ->]; rewrite Z.eqb_refl; [done|by rewrite andb_false_r]).
  rewrite (bind_ok _ _ _ _ _ (boot_bytes_ok _ _ _ _ B2)). cbn [e_metadata] in Hs.
  unfold SIGNER_ID_MIN_SIZE, SIGNER_ID_MAX_SIZE, MEASUREMENT_VALUE_MIN_SIZE, MEASUREMENT_VALUE_MAX_SIZE.
  rewrite !Z.gtb_ltb, !(proj2 (Z.ltb_ge _ _)) by lia. cbn [orb].
  rewrite (bind_ok _ _ _ _ _ (boot_bytes_ok _ _ _ _ B4)).
  assert (len v = l2) as Hv.
  { destruct B4 as (? & ? & ? & <-). unfold len. rewrite length_take, length_drop. lia. }
  unfold entry_extend, ver_len, swt_len, len. cbn. by fold (len v); rewrite Hv.
Qed.

(** ** The collection *)

(** The automaton on the measurements of the area, up to the first one it
    does not accept. *)
Fixpoint aboot (sls : list (option aslot)) (es : list boot_entry) : Z * list (option aslot) :=
  match es with
  | [] => (PSA_SUCCESS, sls)
  | e :: es =>
      let m := e_metadata e in
      let '(st, oa) := aextend (default None (sls !! Z.to_nat (e_slot e))) (b_signer_id m) (b_signer_id_size m)
        (take (Z.to_nat (ver_len m)) (b_sw_version m)) (b_measurement_type m)
        (take (Z.to_nat (swt_len m)) (b_sw_type m)) (e_value e) (e_lock e) in
      let sls := <[Z.to_nat (e_slot e) := oa]> sls in
      if st =? PSA_SUCCESS then aboot sls es else (st, sls)
  end.

Lemma take_len l : take (Z.to_nat (len l)) l = l.
Proof using Type. unfold len. by rewrite Nat2Z.id, firstn_all. Qed.

Lemma entry_extended s sls e : 
  (forall input p, (psa_hash_compute TFM_MEASURED_BOOT_HASH_ALG input MEASUREMENT_VALUE_SIZE p).1.1 = PSA_SUCCESS) ->
  refines s sls -> entry_ok e ->
  wp (entry_extend e) s (fun r s' =>
    let m := e_metadata e in
    let '(st, oa) := aextend (default None (sls !! Z.to_nat (e_slot e))) (b_signer_id m) (b_signer_id_size m)
      (take (Z.to_nat (ver_len m)) (b_sw_version m)) (b_measurement_type m)
      (take (Z.to_nat (swt_len m)) (b_sw_type m)) (e_value e) (e_lock e) in
    r = outcome_of st /\ refines s' (<[Z.to_nat (e_slot e) := oa]> sls) /\ boot_measurements s' = boot_measurements s).
Proof using HL.
  intros Hw HR [Hs Ha Hg]. pose proof HR as [Hlen _]. pose proof Ha as [_ [Hv _] [Ht _] _].
  destruct (lookup_lt_is_Some_2 sls (Z.to_nat (e_slot e))) as [oa Hoa]; [lia|]. rewrite Hoa. cbn [default].
  assert (forall hs, hash_status hs -> hs = PSA_SUCCESS) as Hws by (intros hs (input & p & <-); apply Hw).
  pose proof (extend_represents_hashed s sls _ oa _ _ _ _ (b_measurement_type (e_metadata e)) _ _ _ _
    (Z.b2z (e_lock e)) Hws HR Hoa Ha Hg) as HE.
  rewrite (take_len (e_value e)), Z2Nat.id in HE by lia.
  replace (negb (Z.b2z (e_lock e) =? 0)) with (e_lock e) in HE by by destruct (e_lock e).
  pose proof (wp_extend_slot (e_slot e) _ _ _ _ (b_measurement_type (e_metadata e)) _ _ _ _ (Z.b2z (e_lock e)) s
    (refines_ok _ _ HR) Hs Ha) as HB.
  unfold entry_extend. rewrite !w8_small by lia. unfold wp in *.
  destruct (aextend _ _ _ _ _ _ _ _). destruct HE as [-> HE]. split; [done|]. split; [exact HE|apply HB].
Qed.

Lemma collect_loop_refines es : forall s sls fin off n st,
  (forall input p, (psa_hash_compute TFM_MEASURED_BOOT_HASH_ALG input MEASUREMENT_VALUE_SIZE p).1.1 = PSA_SUCCESS) ->
  tlv_area (boot_measurements s) fin off es -> Forall entry_ok es -> refines s sls -> fin - off <= Z.of_nat n ->
  (es = [] -> st = PSA_SUCCESS) ->
  wp (collect_loop n off fin st) s (fun r s' => status_of r = (aboot sls es).1 /\ refines s' (aboot sls es).2).
Proof using HL BL.
  induction es as [|e es IH]; intros s sls fin off n st Hw Ha Hok HR Hn Hst.
  - inversion Ha. subst. specialize (Hst eq_refl). subst st.
    assert (collect_loop n off off PSA_SUCCESS = mret tt) as ->
      by (destruct n; cbn [collect_loop]; by rewrite Z.ltb_irrefl).
    by split.
  - inversion Hok as [|? ? He Hes]. subst. pose proof (ao_signer _ _ _ _ _ _ _ _ (eo_args _ He)) as [Hsid _].
    destruct (collect_entry_eq s fin off e es Ha Hsid) as (off' & Ha' & Hoff & Eq).
    assert (off' <= fin) as Hfin.
    { clear -Ha' BL. pose proof bl_entry. pose proof bl_metadata. induction Ha'; [lia|]. unfold off2 in *. lia. }
    destruct n as [|n]; [lia|]. cbn [collect_loop]. rewrite (proj2 (Z.ltb_lt _ _)) by lia.
    pose proof (entry_extended s sls e Hw HR He) as HE. unfold wp in HE. apply wp_bind. unfold wp at 1. rewrite Eq.
    unfold mbind, ST_bind. cbn [aboot].
    destruct (entry_extend e s) as [r s1]. cbn [fst snd] in HE.
    destruct (aextend _ _ _ _ _ _ _ _) as [st1 oa]. destruct HE as (Hr & HR1 & Hb).
    subst r. unfold outcome_of. destruct (st1 =? PSA_SUCCESS) eqn:Est; [|by split].
    apply (IH s1); [done|by rewrite Hb|done..|lia|done].
Qed.

(** The partition asks for the area and finds this in it. *)
Record area_found s (p : P) (b : list Z) (fin : Z) (es : list boot_entry) : Prop := {
  af_call : exists bytes, tfm_core_get_boot_data TLV_MAJOR_MBS (len (boot_measurements s)) (mb_psa s) = (PSA_SUCCESS, bytes, p) /\
    len bytes <= len (boot_measurements s) /\ b = over (boot_measurements s) bytes (len bytes);
  af_header : exists hdr, bytes_at b 0 SHARED_DATA_HEADER_SIZE hdr /\
    tlv_header_at hdr = {| tlv_magic := SHARED_DATA_TLV_INFO_MAGIC; tlv_tot_len := fin |};
  af_area : tlv_area b fin SHARED_DATA_HEADER_SIZE es;
  af_some : es <> [];
  af_ok : Forall entry_ok es
}.

Lemma collect_refines s sls p b fin es :
  (forall input p, (psa_hash_compute TFM_MEASURED_BOOT_HASH_ALG input MEASUREMENT_VALUE_SIZE p).1.1 = PSA_SUCCESS) ->
  area_found s p b fin es -> refines s sls ->
  wp collect_shared_measurements s (fun r s' => status_of r = (aboot sls es).1 /\ refines s' (aboot sls es).2).
Proof using HL BL.
  intros Hw [(bytes & Hcall & Hlen & Hb) (hdr & B0 & Hhdr) Harea Hne Hok] HR. pose proof bl_header.
  unfold collect_shared_measurements. apply wp_bind. unfold wp at 1, get. cbn [fst snd].
  apply wp_bind. unfold wp at 1, on_mb_psa. fold (len (boot_measurements s)). rewrite Hcall. cbn [fst snd].
  unfold wp at 1. rewrite bind_memcpy by (unfold len in *; lia). fold (len bytes). rewrite <- Hb.
  apply wp_bind, wp_modify. cbv iota. set (s1 := set_boot_measurements b _).
  change (negb (PSA_SUCCESS =? PSA_SUCCESS)) with false. cbv iota.
  unfold wp. rewrite (bind_ok _ _ s1 hdr s1) by by apply boot_bytes_ok. rewrite Hhdr. cbn [tlv_magic tlv_tot_len].
  rewrite Z.eqb_refl. cbn [negb].
  apply (collect_loop_refines es s1 sls); try done. lia.
Qed.

(** The start: empty slots, then the measurements of the boot loaders. *)
Lemma init_refines s : slots_ok s -> wp initialise_all_measurements s (fun r s' => r = Ok tt /\ refines s' no_slots /\
  boot_measurements s' = boot_measurements s /\ mb_psa s' = mb_psa s).
Proof using HL.
  intros [Hlen Hall]. unfold wp. rewrite init_eq by done.
  enough (Forall2 represents (initial_slot <$> measurement_slot s) no_slots) by by split_and!.
  rewrite Forall2_fmap_l. unfold no_slots. rewrite <- Hlen. apply Forall2_replicate_r; [done|].
  revert Hall. apply List.Forall_impl. intros sl []. pose proof hl_size. split; [|split; [done|]].
  - split; cbn; done || lia.
  - cbn. split_and!; try done. unfold filled. rewrite take_replicate. f_equal. unfold MEASUREMENT_VALUE_MAX_SIZE. lia.
Qed.

(** ** The loop ends on every content *)

Lemma collect_entry_progress s off :
  wp (collect_entry off) s (fun r _ => match r with Ok off' => off + 32 <= off' | Err _ => True end).
Proof using BL.
  pose proof bl_entry. pose proof bl_metadata. unfold collect_entry.
  apply wp_bind, wp_any. intros [h1|] s1; [|done].
  destruct (negb (GET_MBS_CLAIM (tlv_type (tlv_entry_at h1)) =? SW_MEASURE_METADATA)); [by apply wp_raise|]. cbn [orb].
  destruct (Z.eqb_spec (tlv_len (tlv_entry_at h1)) sizeof_boot_measurement_metadata) as [E1|]; [|by apply wp_raise]. cbn [negb].
  apply wp_bind, wp_any. intros [h2|] s2; [|done].
  destruct (_ && _); [by apply wp_raise|].
  apply wp_bind, wp_any. intros [md|] s3; [|done].
  destruct (_ || _) eqn:Hsz; [by apply wp_raise|].
  rewrite !orb_false_iff, !Z.gtb_ltb, !Z.ltb_ge in Hsz. unfold MEASUREMENT_VALUE_MIN_SIZE in Hsz.
  apply wp_bind, wp_any. intros [v|] s4; [|done].
  apply wp_bind, wp_any. intros [u|] s5; [|done]. apply wp_ret. lia.
Qed.

Lemma collect_loop_more n : forall k off fin st s, fin - off <= Z.of_nat n ->
  collect_loop (n + k) off fin st s = collect_loop n off fin st s.
Proof using BL.
  induction n as [|n IH]; intros k off fin st s Hn.
  - cbn [Nat.add]. destruct k; cbn [collect_loop]; by rewrite (proj2 (Z.ltb_ge _ _)) by lia.
  - cbn [Nat.add collect_loop]. destruct (off <? fin); [|done]. unfold mbind, ST_bind.
    pose proof (collect_entry_progress s off) as Hp. unfold wp in Hp.
    destruct (collect_entry off s) as [[off'|e] s']; [|done]. cbn in Hp. apply IH. lia.
Qed.
End Start.
