(* ===== verification/MeasuredBootExample.v ===== *)
(** * A concrete measured boot partition

    Digests of 32 bytes computed by a toy hash on the framework of
    PsaSample.v, and a shared area in the layout of the firmware framework,
    for the concrete instances of the theorems. *)
From Stdlib Require Import ZArith Lia.
From stdpp Require Import base list numbers gmap options.
From S2P Require Import Prelude.
From S2P Require Import FlashFsDefs.
From S2P Require Import PsaApi.
From S2P Require Import PsaSample.
From S2P Require Import MeasuredBoot.
From S2P Require Import MeasuredBootReq.
From S2P Require Import MeasuredBootSpec.
From S2P Require Import MeasuredBootSafe.
From S2P Require Import MeasuredBootRefine.
From S2P Require Import MeasuredBootStart.

(** ** The crypto service *)

(** A toy digest: byte [i] is a polynomial in the input. *)
Definition toy_digest (input : list Z) : list Z :=
  (fun i => fold_left (fun h x => (h * 31 + x + i) mod 256) input i) <$> seqZ 0 32.

#[export] Instance toy_hash : HashOps pstate := {
  MEASUREMENT_VALUE_SIZE := 32;
  TFM_MEASURED_BOOT_HASH_ALG := 33554441;
  psa_hash_compute := fun _ input _ p => (PSA_SUCCESS, toy_digest input, p)
}.

#[export] Program Instance toy_hash_laws : HashLaws pstate := { digest := fun _ => toy_digest }.
Next Obligation. cbn. lia. Qed.
Next Obligation. intros input. unfold toy_digest. rewrite length_fmap, length_seqZ. done. Qed.
Next Obligation. intros input p. cbn. split_and!; [|done|done]. unfold toy_digest. rewrite length_fmap, length_seqZ. done. Qed.

Lemma toy_works input p :
  (psa_hash_compute (P := pstate) TFM_MEASURED_BOOT_HASH_ALG input MEASUREMENT_VALUE_SIZE p).1.1 = PSA_SUCCESS.
Proof. done. Qed.

(** ** The shared area *)

Definition le16 (bs : list Z) (i : Z) : Z := nth_byte bs i + 256 * nth_byte bs (i + 1).

Fixpoint strnlen (s : list Z) : Z := match s with [] => 0 | x :: s => if x =? 0 then 0 else 1 + strnlen s end.

(** Two measurements: signer ids of ones and of twos, for slots 0 and 1, the
    second slot locked. *)
Definition tlv (claim slot : Z) (body : list Z) : list Z :=
  [(claim + 64 * slot) mod 256; (claim + 64 * slot) / 256; Z.of_nat (length body); 0] ++ body.
Definition meta (x : Z) : list Z :=
  replicate 64 x ++ [32; 0; 0; 0] ++ enc32 33554441 ++ [66; 76; 50] ++ replicate 17 0 ++ [49; 46; 48] ++ replicate 11 0.
Definition sample_area (slot : Z) : list Z :=
  tlv 8 0 (meta 1) ++ tlv 9 0 (replicate 32 5) ++ tlv 8 slot (meta 2) ++ tlv 10 slot (replicate 32 6).
Definition shared (slot : Z) : list Z := [22; 32; 4 + Z.of_nat (length (sample_area slot)) - 256; 1] ++ sample_area slot.

(** [slot]: where the second measurement goes. *)
Definition boot_from (slot : Z) : BootData pstate := {|
  CONFIG_TFM_BOOT_STORE_MEASUREMENTS := true;
  MCUBOOT_IMAGE_NUMBER := 1;
  TLV_MAJOR_MBS := 2;
  SHARED_DATA_TLV_INFO_MAGIC := 8214;
  SHARED_DATA_HEADER_SIZE := 4;
  SHARED_DATA_ENTRY_HEADER_SIZE := 4;
  SW_MEASURE_METADATA := 8;
  SW_MEASURE_VALUE := 9;
  SW_MEASURE_VALUE_NON_EXTENDABLE := 10;
  GET_MBS_CLAIM := fun t => Z.land t 63;
  GET_MBS_SLOT := fun t => Z.land (Z.shiftr t 6) 63;
  tlv_header_at := fun bs => {| tlv_magic := le16 bs 0; tlv_tot_len := le16 bs 2 |};
  tlv_entry_at := fun bs => {| tlv_type := le16 bs 0; tlv_len := le16 bs 2 |};
  sizeof_boot_measurement_metadata := 106;
  boot_metadata_at := fun bs =>
    {| b_signer_id := take 64 bs; b_signer_id_size := dec32 bs 64; b_measurement_type := dec32 bs 68;
       b_sw_type := take 20 (drop 72 bs); b_sw_version := take 14 (drop 92 bs) |};
  tfm_strnlen := fun s n => Z.min n (strnlen s);
  tfm_core_get_boot_data := fun _ _ p => (PSA_SUCCESS, shared slot, p);
  TFM_MEASURED_BOOT_SIGNAL := 16
|}.

#[export] Instance sample_boot : BootData pstate := boot_from 1.

#[export] Instance sample_boot_laws : BootLaws pstate.
Proof. by split. Qed.

(** ** The partition *)

Definition zero_slot : measured_boot_slot_t :=
  {| is_locked := false; is_populated := false; is_common := false;
     measurement := {| value := {| hash_buf := filled 64 0; hash_buf_size := 0 |}; metadata := zero_metadata |} |}.

(** Before the start: static variables are zero. *)
Definition mb_off : mb_state pstate :=
  {| measurement_slot := replicate 32 zero_slot; boot_measurements := filled (4 + MAX_SHARED_BOOT_DATA_LENGTH) 0;
     g_measured_boot_caller_id := 0; mb_psa := quiet |}.

Lemma mb_off_ok : slots_ok mb_off.
Proof.
  split; [done|]. apply Forall_replicate. split; try done.
Qed.

Definition mb_up : mb_state pstate := (initialise_all_measurements mb_off).2.

Lemma mb_up_refines : refines mb_up no_slots.
Proof. apply (init_refines mb_off mb_off_ok). Qed.

(** A request, delivered. *)
Definition msg_of (t : Z) (q : mreq) : psa_msg_t :=
  {| type := PSA_IPC_OTHER t; handle := 3; client_id := 1; in_size := len <$> in_vec q; out_size := out_sizes q |}.
Definition mtype (q : mreq) : Z :=
  match q with MExtend _ _ _ _ _ _ _ _ => TFM_MEASURED_BOOT_EXTEND | MRead _ _ _ _ _ => TFM_MEASURED_BOOT_READ end.
Definition mmsg (q : mreq) : psa_msg_t := msg_of (mtype q) q.
Definition with_mreq (q : mreq) (s : mb_state pstate) : mb_state pstate :=
  set_mb_psa {| ps_in := deliver 3 0 (in_vec q) ∅; ps_out := ∅; ps_replies := []; ps_queue := [] |} s.

Definition extend_5 (lock : bool) : mreq :=
  MExtend 2 (replicate 32 1) [49; 46; 48] 33554441 ([66; 76; 50] ++ replicate 17 0) 3 (replicate 32 5) lock.
Definition read_2 : mreq := MRead 2 20 14 64 32.

(** The partition after the request, and what the request gave. *)
Definition after (q : mreq) (s : mb_state pstate) : mb_state pstate := (handler q (mmsg q) (with_mreq q s)).2.
Definition event_of (q : mreq) (s : mb_state pstate) : event :=
  (q, status_of (handler q (mmsg q) (with_mreq q s)).1, outs_of q (mmsg q) (with_mreq q s) (after q s)).

Lemma delivered_req q s : length (in_vec q) = 4%nat \/ length (in_vec q) = 1%nat ->
  Forall (Forall is_u8) (in_vec q) -> delivered q (mmsg q) (with_mreq q s).
Proof.
  intros Hl Hu. split; [done|done|]. intros i v Hv. cbn.
  pose proof (Forall_lookup_1 _ _ _ _ Hu Hv) as Hvu.
  assert (default [] (deliver 3 0 (in_vec q) ∅ !! (3, Z.of_nat i)) = v) as E.
  { destruct Hl as [Hl|Hl]; destruct (in_vec q) as [|v0 [|v1 [|v2 [|v3 [|]]]]]; try done;
      destruct i as [|[|[|[|]]]]; try done; cbn in Hv; injection Hv as ->; done. }
  unfold ps_data. cbn. rewrite E. by apply w8_bytes_id.
Qed.

Lemma event_run q s es s' : mreq_ok q -> length (in_vec q) = 4%nat \/ length (in_vec q) = 1%nat ->
  Forall (Forall is_u8) (in_vec q) -> mrun (after q s) es s' -> mrun s (event_of q s :: es) s'.
Proof.
  intros Hq Hl Hu H. eapply (mr_psa _ (mb_psa (with_mreq q s))). fold (with_mreq q s).
  unfold event_of, after in *. destruct (handler q (mmsg q) (with_mreq q s)) as [r s1] eqn:E.
  cbn [fst snd] in *. by eapply mr_serve; [| apply delivered_req| |].
Qed.
