(* ===== verification/MeasuredBootTheorems.v ===== *)
(** * What the measured boot partition guarantees *)
From Stdlib Require Import ZArith Lia.
From stdpp Require Import base list numbers gmap relations options.
From S2P Require Import Prelude.
From S2P Require Import FlashFsDefs.
From S2P Require Import PsaApi.
From S2P Require Import PsaSample.
From S2P Require Import MeasuredBoot.
From S2P Require Import MeasuredBootReq.
From S2P Require Import MeasuredBootSpec.
From S2P Require Import MeasuredBootSafe.
From S2P Require Import MeasuredBootRefine.
From S2P Require Import MeasuredBootStart.
From S2P Require Import MeasuredBootExample.

#[local] Set Default Proof Using "Type*".

(** ** Runs of requests *)

Section Partition.
Context {P : Type} {PO : PsaOps P} {PL : PsaLaws P} {HO : HashOps P} {HL : HashLaws P}.
Implicit Types s : mb_state P.

Definition hash_works : Prop := forall input p,
  (psa_hash_compute TFM_MEASURED_BOOT_HASH_ALG input MEASUREMENT_VALUE_SIZE p).1.1 = PSA_SUCCESS.

(** C7: Every run of extend and read requests packed by the client library
    refines the automaton of measurement slots: the statuses and the bytes
    written to the clients are those of the automaton, and so are the slots
    afterwards, whatever statuses the hash service gives.  A permitted
    extension for which the hash fails answers that status, adds no
    measurement, and still makes the slot occupied.  In the automaton, as in
    the code, any client may read any slot: the documented
    PSA_ERROR_NOT_PERMITTED for a client that is not the owner is never given
    ([any_client_reads]). *)
Theorem measured_boot_refines s sls es s' (HR : refines s sls) (Hrun : mrun s es s') :
  exists sls', arun sls es sls' /\ refines s' sls'.
Proof. by apply (run_refined s es s' Hrun). Qed.

(** Who calls plays no part in a read, and no read is refused for want of
    permission: whatever the owner of the slot, a populated slot whose contents
    fit into the buffers is read. *)
Theorem any_client_reads s c index sl sid_buf sid_room ver_buf ver_room swt_buf swt_room val_buf val_room
    (Hsl : measurement_slot s !! Z.to_nat index = Some sl) (Hok : slot_ok sl)
    (Hsid : length sid_buf = 64%nat) (Hver : length ver_buf = 14%nat) (Hswt : length swt_buf = 20%nat)
    (Hval : MEASUREMENT_VALUE_SIZE <= Z.of_nat (length val_buf)) :
  let read s := measured_boot_read_measurement index sid_buf sid_room ver_buf ver_room swt_buf swt_room
    val_buf val_room s in
  (read (set_caller_id c s)).1 = (read s).1 /\
  (read s).1 <> Err PSA_ERROR_NOT_PERMITTED /\
  (is_populated sl = true -> fits sl sid_room ver_room swt_room val_room = true ->
     (read s).1 = Ok (reading_of sl sid_buf ver_buf swt_buf val_buf)).
Proof.
  cbv zeta. rewrite (read_eq (set_caller_id c s) index sl), (read_eq s index sl) by (done || lia). cbn [fst].
  split; [done|]. split; [by repeat case_match|]. intros -> ->. done.
Qed.

(** C8: The hash chain.  After the slots have been initialised and any run of
    requests, a read that succeeds returns as the value of the slot the chain
    of all measurements that requests have added to it, in their order: each
    one hashed together with the value before, from the initial pattern on;
    and there is at least one. *)
Theorem read_returns_chain (Hw : hash_works) s0 s es s' index a b c d outs (Hok : slots_ok s0)
    (Hinit : initialise_all_measurements s0 = (Ok tt, s))
    (Hrun : mrun s (es ++ [(MRead index a b c d, PSA_SUCCESS, outs)]) s') :
  outs !! 2%nat = Some (chain_value (taken (Z.to_nat index) es)) /\ taken (Z.to_nat index) es <> [].
Proof.
  assert (refines s no_slots) as HR by apply (wp_elim _ _ _ _ _ Hinit (init_refines s0 Hok)).
  destruct (mrun_app _ _ _ _ Hrun) as (s1 & Hrun1 & Hrun2).
  assert (forall hs, hash_status hs -> hs = PSA_SUCCESS) as Hws by (intros hs (input & p & <-); apply Hw).
  destruct (run_refined _ _ _ Hrun1 _ HR) as (sls1 & Ha1 & HR1).
  destruct (run_refined _ _ _ Hrun2 _ HR1) as (sls2 & Ha2 & _).
  destruct (arun_chain _ _ _ (Z.to_nat index) Ha1) as [Hchain Hne].
  assert (nonempty no_slots) as Hn0 by (intros i x Hx; by apply lookup_replicate in Hx as [? _]).
  inversion Ha2 as [|? ? hs k ? ? sls3 ? ? _ _ E _]. subst. cbn [aserve] in E.
  replace (chain_of (no_slots !! Z.to_nat index)) with (@nil (list Z)) in Hchain.
  2:{ unfold no_slots. by destruct (replicate 32 None !! Z.to_nat index) as [x|] eqn:Ex;
        [apply lookup_replicate in Ex as [-> _]|]. }
  cbn [app] in Hchain. rewrite <- Hchain.
  destruct (sls1 !! Z.to_nat index) as [oa|] eqn:Hoa; [|done].
  destruct (aread oa a b c d) as [st o] eqn:Er. simplify_eq. destruct oa as [x|]; cbn [aread] in Er; [|done].
  destruct (_ && _); [|done]. simplify_eq. pose proof (Hne Hws Hn0 _ _ Hoa) as Hx. split; [|done].
  unfold avalue. cbn [chain_of] in *. by destruct (a_chain x).
Qed.

(** C13: Whatever clients send and however the framework behaves between the
    messages, the partition stays inside its arrays in every round of its
    loop; a slot that has been locked never changes again, and a slot that
    holds a measurement keeps it owner and its algorithm. *)
Theorem locked_slots_stay {BD : BootData P} s s' (Hok : slots_ok s) (Hsteps : rtc mb_step s s') :
  slots_ok s' /\ status_of (measured_boot_round s').1 <> UNDEFINED /\
  (forall i sl, measurement_slot s !! i = Some sl -> is_locked sl = true -> measurement_slot s' !! i = Some sl) /\
  (forall i sl, measurement_slot s !! i = Some sl -> is_populated sl = true ->
     exists sl', measurement_slot s' !! i = Some sl' /\ is_populated sl' = true /\ owned_by sl' = owned_by sl).
Proof.
  destruct (steps_safe _ _ Hsteps Hok) as (Hok' & L & O). split_and!; [done| |exact L|exact O].
  apply (wp_round_safe s' Hok').
Qed.

(** Who may extend a slot, in the order of the checks: a client whose
    signer id differs from the owner's, over the length of the owner's id, is
    refused with PSA_ERROR_NOT_PERMITTED unless the slot is common; then a
    locked slot refuses with PSA_ERROR_BAD_STATE; both leave the whole state
    alone.  Otherwise the status is that of the hash computation over the old
    value and the new measurement, and no other slot changes. *)
Theorem extend_permission s i sl sid sid_size ver ver_size algo swt swt_size m m_size lock
    (Hsl : measurement_slot s !! Z.to_nat i = Some sl) (Hok : slot_ok sl)
    (Ha : args_ok sid sid_size ver ver_size swt swt_size m m_size) :
  let res := measured_boot_extend_measurement i sid sid_size ver ver_size algo swt swt_size m m_size lock s in
  if differs sl sid && negb (is_common sl) then res = (Err PSA_ERROR_NOT_PERMITTED, s)
  else if is_locked sl then res = (Err PSA_ERROR_BAD_STATE, s)
  else status_of res.1 = (psa_hash_compute TFM_MEASURED_BOOT_HASH_ALG (chained sl m m_size)
         MEASUREMENT_VALUE_SIZE (mb_psa s)).1.1 /\
       (forall j, j <> Z.to_nat i -> measurement_slot res.2 !! j = measurement_slot s !! j).
Proof.
  cbv zeta. rewrite (extend_eq s i sl) by done. destruct (differs sl sid && negb (is_common sl)); [done|].
  destruct (is_locked sl); [done|]. unfold extended.
  destruct (psa_hash_compute _ _ _ _) as [[st h] p]. cbn [fst].
  destruct (Z.eqb_spec st PSA_SUCCESS) as [->|]; (split; [done|]);
    intros j Hj; cbn; by rewrite list_lookup_insert_ne.
Qed.

(** When the hash computation fails the request fails, but the slot is
    populated all the same, with an owner and no value: a read succeeds. *)
Theorem failed_hash_populates s i sl sid sid_size ver ver_size algo swt swt_size m m_size lock e p h
    (Hi : measurement_slot s !! Z.to_nat i = Some sl) (Hok : slot_ok sl) (Hempty : is_populated sl = false)
    (Hs : signer_id_size (metadata (measurement sl)) = 0) (Hl : is_locked sl = false)
    (Ha : args_ok sid sid_size ver ver_size swt swt_size m m_size)
    (Hh : psa_hash_compute TFM_MEASURED_BOOT_HASH_ALG (chained sl m m_size) MEASUREMENT_VALUE_SIZE (mb_psa s) = (e, h, p))
    (He : e <> PSA_SUCCESS) :
  exists s' sl', measured_boot_extend_measurement i sid sid_size ver ver_size algo swt swt_size m m_size lock s = (Err e, s') /\
    measurement_slot s' !! Z.to_nat i = Some sl' /\ is_populated sl' = true /\
    value (measurement sl') = value (measurement sl).
Proof.
  rewrite (extend_eq s i sl) by done. unfold differs. rewrite Hs, Hl.
  cbn [Z.to_nat take]. rewrite bool_decide_true by done. cbn [negb andb]. unfold extended. rewrite Hh.
  destruct (Z.eqb_spec e PSA_SUCCESS); [done|]. eexists _, _. split; [done|]. cbn.
  rewrite list_lookup_insert_eq by (by eapply lookup_lt_Some).
  split; [done|]. unfold opened. by rewrite Hempty.
Qed.
End Partition.

(** ** Messages *)

Section Messages.
Context {P : Type} {PO : PsaOps P} {PL : PsaLaws P} {HO : HashOps P} {HL : HashLaws P} {BD : BootData P}.
Context (hash_silent : forall alg input n p, replies (psa_hash_compute alg input n p).2 = replies p).
Implicit Types s : mb_state P.

(** The handlers send no reply themselves. *)
Definition unreplied s s' : Prop := replies (mb_psa s') = replies (mb_psa s).

#[local] Instance unreplied_pre : PreOrder unreplied.
Proof using Type. unfold unreplied. split; [done|]. intros s1 s2 s3 H1 H2. congruence. Qed.

Lemma unreplied_psa {A} (f : P -> A * P) : (forall p, replies (f p).2 = replies p) -> keeps unreplied (on_mb_psa f).
Proof using Type. intros H s. unfold on_mb_psa. specialize (H (mb_psa s)). by destruct (f (mb_psa s)). Qed.

Lemma unreplied_read h i n : keeps unreplied (on_mb_psa (psa_read h i n)).
Proof using PL.
  apply unreplied_psa. intros p. pose proof (pl_read h i n p) as H.
  destruct (psa_read h i n p) as [bs p']. apply H.
Qed.

Lemma unreplied_write m i bs : keeps unreplied (write_vec m i bs).
Proof using PL. apply unreplied_psa. intros p. apply (pl_write (handle m) i bs p). Qed.

Lemma unreplied_hash alg input n : keeps unreplied (on_mb_psa (psa_hash_compute alg input n)).
Proof using hash_silent. apply unreplied_psa. apply hash_silent. Qed.

Lemma unreplied_slot_at i : keeps unreplied (slot_at (P := P) i).
Proof using Type. intros s. unfold slot_at. by destruct (measurement_slot s !! Z.to_nat i). Qed.

Lemma unreplied_modify f : (forall s, mb_psa (f s) = mb_psa s) -> keeps unreplied (modify f).
Proof using Type. intros H s. unfold unreplied. cbn. by rewrite H. Qed.

Lemma unreplied_memcpy d off src n : keeps unreplied (memcpy (S := mb_state P) d off src n).
Proof using Type. intros s. unfold memcpy. by destruct (_ && _). Qed.

#[local] Hint Resolve unreplied_read unreplied_write unreplied_hash unreplied_slot_at unreplied_memcpy : keeps.
#[local] Hint Extern 1 (keeps unreplied (modify _)) => (apply unreplied_modify; done) : keeps.

Lemma unreplied_set_slot i f : keeps unreplied (set_slot (P := P) i f).
Proof. unfold set_slot. keeps_walk. Qed.
Lemma unreplied_read_vec m i n : keeps unreplied (read_vec (P := P) m i n).
Proof. unfold read_vec. keeps_walk. Qed.
#[local] Hint Resolve unreplied_set_slot unreplied_read_vec : keeps.

Lemma unreplied_log sid a ver b swt c m d : keeps unreplied (log_extend_measurement (P := P) sid a ver b swt c m d).
Proof. unfold log_extend_measurement, print_byte_array, add_null_terminator. keeps_walk. Qed.

Lemma unreplied_extend i sid a ver b algo swt c m d lock :
  keeps unreplied (measured_boot_extend_measurement (P := P) i sid a ver b algo swt c m d lock).
Proof.
  unfold measured_boot_extend_measurement, is_slot_access_prohibited, is_signer_id_different, memcmp_differs,
    is_measurement_slot_locked, is_measurement_slot_populated, extend_metadata, update_metadata,
    mark_slot_as_occupied, extend_measurement_value, get_stored_measurement_value, store_measurement_value,
    lock_measurement_slot. pose proof unreplied_log. keeps_walk.
Qed.

Lemma unreplied_handlers m : keeps unreplied (read_measurements m) /\ keeps unreplied (extend_measurement m).
Proof.
  pose proof unreplied_extend. unfold read_measurements, extend_measurement, measured_boot_read_measurement,
    is_measurement_slot_populated. split; keeps_walk.
Qed.

(** A delivered read or extend request gets exactly one reply, with the
    status of its handler; a message of any other type gets none, so its
    client is never unblocked. *)
Theorem request_answered s sig m p (Hok : slots_ok s) (Hget : psa_get sig (mb_psa s) = (PSA_SUCCESS, m, p)) :
  let s0 := set_mb_psa p s in
  let answered st := exists s', measured_boot_signal_handle sig s = (Ok tt, s') /\
    replies (mb_psa s') = replies (mb_psa s) ++ [(handle m, st)] in
  let unanswered := exists s', measured_boot_signal_handle sig s = (Ok tt, s') /\ replies (mb_psa s') = replies (mb_psa s) in
  match type m with
  | PSA_IPC_OTHER n =>
      if n =? TFM_MEASURED_BOOT_READ then answered (status_of (read_measurements m s0).1)
      else if n =? TFM_MEASURED_BOOT_EXTEND then answered (status_of (extend_measurement m s0).1)
      else unanswered
  | _ => unanswered
  end.
Proof.
  cbv zeta. set (s0 := set_mb_psa p s).
  assert (slots_ok s0) as Hok0 by by apply (idle_slots_ok s).
  pose proof (pl_get sig (mb_psa s)) as Hr. pose proof (pl_sizes sig (mb_psa s)) as Hm. rewrite Hget in Hr, Hm.
  specialize (Hm eq_refl). cbn [fst snd] in Hr, Hm.
  assert (forall h : psa_msg_t -> ST (mb_state P) unit, keeps unreplied (h m) -> wp (h m) s0 (fun r s' => well_behaved r s0 s') ->
    exists s', handle_and_reply m h s0 = (Ok tt, s') /\
      replies (mb_psa s') = replies (mb_psa s) ++ [(handle m, status_of (h m s0).1)]) as Hans.
  { intros h Hk Hs. pose proof (wb_defined _ _ _ Hs) as Hd. pose proof (Hk s0) as Hq. unfold unreplied in Hq.
    unfold handle_and_reply, attempt, mbind, ST_bind. destruct (h m s0) as [r s1]. cbn [fst snd] in *.
    destruct (Z.eqb_spec (status_of r) UNDEFINED); [done|]. eexists. split; [done|]. cbn.
    pose proof (proj1 (pl_reply (handle m) (status_of r) (mb_psa s1))) as Hp. cbv zeta in Hp. rewrite Hp, Hq. by rewrite <- Hr. }
  unfold measured_boot_signal_handle.
  rewrite (bind_ok _ _ s (PSA_SUCCESS, m) s0) by (unfold on_mb_psa; by rewrite Hget).
  change (negb (PSA_SUCCESS =? PSA_SUCCESS)) with false. cbv iota.
  destruct (unreplied_handlers m) as [Hk1 Hk2].
  destruct (type m) as [| | |n]; [by exists s0..|].
  destruct (n =? TFM_MEASURED_BOOT_READ); [apply Hans; [done|by apply wp_read_safe]|].
  destruct (n =? TFM_MEASURED_BOOT_EXTEND); [apply Hans; [done|by apply wp_extend_safe]|]. by exists s0.
Qed.
End Messages.

(** ** The start *)

Section Start.
Context {P : Type} {PO : PsaOps P} {HO : HashOps P} {BD : BootData P} {HL : HashLaws P} {BL : BootLaws P}.
Implicit Types s : mb_state P.

Lemma aboot_status es : forall sls, (aboot sls es).1 <> UNDEFINED.
Proof using Type.
  induction es as [|e es IH]; intros sls; cbn [aboot]; [done|].
  assert (forall oa sid n ver algo swt m lock, (aextend oa sid n ver algo swt m lock).1 <> UNDEFINED) as Ha
    by (intros [a|] *; cbn; [destruct (owner _ _); cbn; [by destruct (a_locked a)|done]|done]).
  match goal with |- context [aextend ?a ?b ?c ?d ?e ?f ?g ?h] => specialize (Ha a b c d e f g h);
    destruct (aextend a b c d e f g h) as [st oa] end.
  destruct (st =? PSA_SUCCESS); [apply IH|done].
Qed.

(** C36: The start of the partition.  The slots are emptied and the measurements
    of the boot loaders, as laid out in the shared area, are added to the
    automaton in their order; the partition starts to serve exactly when the
    automaton accepts them all, with the slots the automaton ends in, and
    panics otherwise. *)
Theorem boot_measurements_collected (Hw : hash_works (P := P)) s p b fin es (Hok : slots_ok s)
    (Hconf : CONFIG_TFM_BOOT_STORE_MEASUREMENTS = true)
    (Harea : forall s1, boot_measurements s1 = boot_measurements s -> mb_psa s1 = mb_psa s -> area_found s1 p b fin es) :
  let '(st, sls) := aboot no_slots es in
  exists s', tfm_measured_boot_init s = (if st =? PSA_SUCCESS then Ok tt else Err PANIC, s') /\ refines s' sls.
Proof.
  pose proof (init_refines s Hok) as Hi. unfold wp in Hi.
  destruct (initialise_all_measurements s) as [r0 s0] eqn:E0. cbn [fst snd] in Hi.
  destruct Hi as (-> & HR & Hb & Hp).
  pose proof (collect_refines s0 no_slots p b fin es Hw (Harea s0 Hb Hp) HR) as Hc. unfold wp in Hc.
  pose proof (aboot_status es no_slots) as Hinvalid.
  unfold tfm_measured_boot_init. rewrite (bind_ok _ _ _ _ _ E0), Hconf.
  unfold attempt, mbind, ST_bind. destruct (collect_shared_measurements s0) as [r s1]. cbn [fst snd] in Hc.
  destruct (aboot no_slots es) as [st sls]. cbn [fst snd] in *. destruct Hc as [-> HR1].
  destruct (Z.eqb_spec st UNDEFINED) as [->|]; [done|]. exists s1.
  by destruct (st =? PSA_SUCCESS).
Qed.

(** The loop over the shared area ends on every content of the area: its
    fuel, the length the header gives, is never used up, as more fuel gives
    the same result. *)
Theorem collection_terminates s k : forall tot_len st,
  collect_loop (Z.to_nat tot_len + k) SHARED_DATA_HEADER_SIZE tot_len st s
  = collect_loop (Z.to_nat tot_len) SHARED_DATA_HEADER_SIZE tot_len st s.
Proof. intros tot_len st. apply collect_loop_more. pose proof bl_header. lia. Qed.

(** The slot number in the shared area is not checked: a measurement for a
    slot beyond the table leads to an access outside it. *)
Theorem collected_slot_unchecked s fin off e es n st
    (Harea : tlv_area (boot_measurements s) fin off (e :: es)) (Hlen : length (measurement_slot s) = 32%nat)
    (Hargs : args_ok (b_signer_id (e_metadata e)) (b_signer_id_size (e_metadata e))
      (b_sw_version (e_metadata e)) (ver_len (e_metadata e))
      (b_sw_type (e_metadata e)) (swt_len (e_metadata e)) (e_value e) (len (e_value e)))
    (Hslot : 32 <= e_slot e) (Hoff : off < fin) :
  collect_loop (S n) off fin st s = (Err UNDEFINED, s).
Proof.
  pose proof (ao_signer _ _ _ _ _ _ _ _ Hargs) as [Hsid _].
  destruct (collect_entry_eq s fin off e es Harea Hsid) as (off' & _ & _ & Eq).
  cbn [collect_loop]. rewrite (proj2 (Z.ltb_lt _ _)) by lia. apply bind_err. rewrite Eq. apply bind_err.
  unfold entry_extend, measured_boot_extend_measurement. pose proof Hargs as [_ [Hv _] [Ht _] _].
  rewrite !w8_small by lia. rewrite (bind_ok _ _ s tt s) by by apply log_ok.
  apply bind_err. unfold is_slot_access_prohibited, is_signer_id_different. apply bind_err, bind_err.
  unfold slot_at. by rewrite lookup_ge_None_2 by lia.
Qed.
End Start.

(** ** Instances *)

Lemma toy_hash_works : hash_works (P := pstate).
Proof. intros input p. reflexivity. Qed.

Ltac bytes := apply (bool_decide_unpack _); vm_compute; exact I.

Lemma extend_event lock s es s' : mrun (after (extend_5 lock) s) es s' -> mrun s (event_of (extend_5 lock) s :: es) s'.
Proof.
  apply event_run; [|by left|unfold is_u8; destruct lock; bytes]. split_and!; try done; unfold is_u8, is_u32; lia.
Qed.

Lemma read_event s es s' : mrun (after read_2 s) es s' -> mrun s (event_of read_2 s :: es) s'.
Proof. apply event_run; [|by right|unfold is_u8; bytes]. split_and!; unfold is_u8; lia. Qed.

(** Two measurements for slot 2, then a read. *)
Definition once : mb_state pstate := after (extend_5 false) mb_up.
Definition twice : mb_state pstate := after (extend_5 false) once.
Definition sample_run : list event :=
  [event_of (extend_5 false) mb_up; event_of (extend_5 false) once; event_of read_2 twice].

Lemma sample_mrun : mrun mb_up sample_run (after read_2 twice).
Proof. apply extend_event, extend_event, read_event. constructor. Qed.

Lemma measured_boot_refines_witness :
  exists sls', arun no_slots sample_run sls' /\ refines (after read_2 twice) sls'.
Proof. apply (measured_boot_refines mb_up no_slots); [apply mb_up_refines|apply sample_mrun]. Defined.

Lemma sample_measurements : taken 2 [event_of (extend_5 false) mb_up; event_of (extend_5 false) once]
  = [replicate 32 5; replicate 32 5].
Proof. vm_compute. reflexivity. Qed.

Lemma read_returns_chain_witness :
  (event_of read_2 twice).2 !! 2%nat = Some (toy_digest (toy_digest (replicate 32 0 ++ replicate 32 5) ++ replicate 32 5)).
Proof.
  destruct (read_returns_chain toy_hash_works mb_off mb_up [event_of (extend_5 false) mb_up; event_of (extend_5 false) once]
    (after read_2 twice) 2 20 14 64 32 (event_of read_2 twice).2) as [H _];
    [apply mb_off_ok|vm_compute; reflexivity| |].
  - assert (event_of read_2 twice = (MRead 2 20 14 64 32, PSA_SUCCESS, (event_of read_2 twice).2)) as <-
      by (vm_compute; reflexivity).
    apply sample_mrun.
  - change (Z.to_nat 2) with 2%nat in H. rewrite sample_measurements in H. exact H.
Defined.

(** The partition with a message that locks slot 2 in its queue. *)
Definition mb_waiting : mb_state pstate :=
  set_mb_psa {| ps_in := ∅; ps_out := ∅; ps_replies := [];
    ps_queue := [(16, mmsg (extend_5 true), in_vec (extend_5 true)); (16, mmsg (extend_5 true), in_vec (extend_5 true))] |} mb_up.
Definition mb_locked : mb_state pstate := (measured_boot_round mb_waiting).2.

Lemma mb_waiting_ok : slots_ok mb_waiting.
Proof. apply (idle_slots_ok mb_up); [done|]. apply (refines_ok _ _ mb_up_refines). Qed.

Lemma mb_locked_ok : slots_ok mb_locked.
Proof. apply (wp_round_safe mb_waiting mb_waiting_ok). Qed.

(** The second message finds the slot locked. *)
Lemma locked_slots_stay_witness :
  is_locked <$> (measurement_slot mb_locked !! 2%nat) = Some true /\
  measurement_slot (measured_boot_round mb_locked).2 !! 2%nat = measurement_slot mb_locked !! 2%nat.
Proof.
  split; [vm_compute; reflexivity|].
  destruct (locked_slots_stay mb_locked (measured_boot_round mb_locked).2 mb_locked_ok) as (_ & _ & H & _).
  - apply rtc_once. eapply ms_round. apply surjective_pairing.
  - destruct (measurement_slot mb_locked !! 2%nat) as [sl|] eqn:E; [|vm_compute in E; discriminate].
    apply (H 2%nat sl E). vm_compute in E. injection E as <-. reflexivity.
Defined.

Lemma once_ok : slots_ok once.
Proof.
  unfold once, after. pose proof (wp_extend_safe (mmsg (extend_5 false)) (with_mreq (extend_5 false) mb_up)) as H.
  cbn [handler]. apply H; [|bytes]. apply (idle_slots_ok mb_up); [done|]. apply (refines_ok _ _ mb_up_refines).
Qed.

(** Another signer, who owns nothing. *)
Lemma extend_permission_witness :
  measured_boot_extend_measurement 2 (replicate 64 9) 32 [] 0 0 [] 0 (replicate 32 7) 32 0 once
  = (Err PSA_ERROR_NOT_PERMITTED, once).
Proof.
  destruct (measurement_slot once !! Z.to_nat 2) as [sl|] eqn:E; [|vm_compute in E; discriminate].
  pose proof (extend_permission once 2 sl (replicate 64 9) 32 [] 0 0 [] 0 (replicate 32 7) 32 0 E) as H.
  cbv zeta in H. replace (differs sl (replicate 64 9) && negb (is_common sl)) with true in H.
  - apply H; [|split; cbn; lia]. destruct once_ok as [_ Hall]. by apply (Forall_lookup_1 _ _ _ _ Hall E).
  - vm_compute in E. injection E as <-. vm_compute. reflexivity.
Defined.

Lemma toy_silent alg input n (p : pstate) : replies (psa_hash_compute alg input n p).2 = replies p.
Proof. reflexivity. Qed.

Lemma request_answered_witness : exists s', measured_boot_signal_handle 16 mb_waiting = (Ok tt, s') /\
  replies (mb_psa s') = [(3, PSA_SUCCESS)].
Proof.
  pose proof (request_answered toy_silent mb_waiting 16
    (sized (mmsg (extend_5 true)) (in_vec (extend_5 true))) (psa_get 16 (mb_psa mb_waiting)).2 mb_waiting_ok) as H.
  destruct H as (s' & E & Hr); [vm_compute; reflexivity|]. exists s'. split; [exact E|].
  rewrite Hr. vm_compute. reflexivity.
Defined.

(** What the sample area holds. *)
Definition sample_entry (t x v : Z) : boot_entry :=
  {| e_slot := w8 (GET_MBS_SLOT t); e_metadata := boot_metadata_at (meta x); e_value := replicate 32 v;
     e_lock := w8 (GET_MBS_CLAIM t) =? SW_MEASURE_VALUE_NON_EXTENDABLE |}.
Definition sample_entries : list boot_entry := [sample_entry 9 1 5; sample_entry 74 2 6].

Lemma sample_found s1 : boot_measurements s1 = boot_measurements mb_off -> mb_psa s1 = mb_psa mb_off ->
  area_found s1 quiet (over (boot_measurements mb_off) (shared 1) (len (shared 1))) 296 sample_entries.
Proof.
  intros Hb Hp. split; [| | |done|].
  - exists (shared 1). rewrite Hb, Hp. split_and!; [done|vm_compute; discriminate|done].
  - eexists. split; [by split_and!|]. vm_compute. reflexivity.
  - eapply (ta_entry _ _ _ (take 4 (sample_area 1)) 8 (meta 1) (take 4 (drop 110 (sample_area 1))) 9 32 (replicate 32 5));
      try (by split_and!); try (vm_compute; reflexivity); [by left|].
    eapply (ta_entry _ _ _ (take 4 (drop 146 (sample_area 1))) 72 (meta 2) (take 4 (drop 256 (sample_area 1))) 74 32 (replicate 32 6));
      try (by split_and!); try (vm_compute; reflexivity); [by right|].
    constructor.
  - repeat constructor; vm_compute; discriminate || reflexivity.
Qed.

Lemma boot_measurements_collected_witness : exists s', tfm_measured_boot_init mb_off = (Ok tt, s') /\
  refines s' (aboot no_slots sample_entries).2.
Proof.
  pose proof (boot_measurements_collected toy_hash_works mb_off quiet _ 296 sample_entries mb_off_ok eq_refl sample_found) as H.
  replace (aboot no_slots sample_entries) with (PSA_SUCCESS, (aboot no_slots sample_entries).2) in H
    by (vm_compute; reflexivity).
  exact H.
Defined.

Lemma collection_terminates_witness :
  collect_loop (Z.to_nat 296 + 7) SHARED_DATA_HEADER_SIZE 296 PSA_ERROR_GENERIC_ERROR mb_off
  = collect_loop (Z.to_nat 296) SHARED_DATA_HEADER_SIZE 296 PSA_ERROR_GENERIC_ERROR mb_off.
Proof. apply (collection_terminates mb_off 7). Defined.

(** The same area with the second measurement for slot 40. *)
Example slot_beyond_table :
  status_of (tfm_measured_boot_init (BD := boot_from 40) mb_off).1 = UNDEFINED.
Proof. vm_compute. reflexivity. Qed.
