(* ===== verification/DelegatedAttest.v ===== *)
(** * Delegated attestation (delegated_attest.c, delegated_attest_req_mngr.c,
      tfm_delegated_attestation_api.c)

    The crypto service, the initial attestation service and the CBOR encoder
    QCBOR are not part of the program: [CryptoOps], [AttestOps] and [QcborOps]
    list what the partition calls of them, with the constants of their
    headers.  What QCBOR leaves in the buffer before it has finished is not
    modelled: the buffer is read only after a success.  A NULL pointer is
    [None] where the code tests for one that can occur. *)
From Stdlib Require Import ZArith Lia.
From stdpp Require Import base list numbers options.
From S2P Require Import Prelude.
From S2P Require Import FlashFsDefs.
From S2P Require Import PsaApi.
From S2P Require Import MeasuredBoot.
From S2P Require Import MeasuredBootReq.
From S2P Require Import EtssApi.

#[local] Set Default Proof Using "Type*".

(** ** The other services *)

Record key_attributes : Type := { key_usage : Z; key_type : Z; key_bits : Z }.

(** Every operation returns its status first, then what it wrote; the
    operation objects are part of the state of the service. *)
Class CryptoOps (P : Type) := {
  PSA_ALG_NONE : Z;
  PSA_ALG_SHA_256 : Z;
  PSA_ALG_SHA_384 : Z;
  PSA_ALG_SHA_512 : Z;
  PSA_ALG_HKDF : Z -> Z;
  PSA_HASH_LENGTH : Z -> Z;
  PSA_KEY_ID_NULL : Z;
  PSA_KEY_USAGE_EXPORT : Z;
  PSA_KEY_TYPE_ECC_KEY_PAIR : Z -> Z;
  PSA_ECC_FAMILY_SECP_R1 : Z;
  PSA_KEY_DERIVATION_INPUT_SECRET : Z;
  PSA_KEY_DERIVATION_INPUT_INFO : Z;
  PSA_KEY_EXPORT_ECC_PUBLIC_KEY_MAX_SIZE : Z -> Z;
  PSA_KEY_EXPORT_ECC_KEY_PAIR_MAX_SIZE : Z -> Z;
  TFM_BUILTIN_KEY_ID_DAK_SEED : Z;
  psa_hash_setup : Z -> P -> Z * P;                           (* algorithm *)
  psa_hash_abort : P -> Z * P;
  psa_hash_compare : Z -> list Z -> list Z -> P -> Z * P;     (* algorithm, input, hash *)
  psa_export_public_key : Z -> Z -> P -> Z * list Z * P;      (* key, size of the buffer *)
  psa_export_key : Z -> Z -> P -> Z * list Z * P;
  psa_destroy_key : Z -> P -> Z * P;
  psa_key_derivation_setup : Z -> P -> Z * P;
  psa_key_derivation_input_key : Z -> Z -> P -> Z * P;        (* step, key *)
  psa_key_derivation_input_bytes : Z -> list Z -> P -> Z * P; (* step, data *)
  psa_key_derivation_output_key : key_attributes -> P -> Z * Z * P;
  psa_key_derivation_abort : P -> Z * P
}.

Class AttestOps (P : Type) := {
  PSA_INITIAL_ATTEST_TOKEN_MAX_SIZE : Z;
  TFM_ATTEST_BOOT_RECORDS_MAX_SIZE : Z;
  TFM_DELEGATED_ATTESTATION_SIGNAL : Z;
  psa_initial_attest_get_token : list Z -> Z -> P -> Z * list Z * P  (* challenge, size of the buffer *)
}.

(** A context is set up for a buffer of some size; [QCBOREncode_Finish]
    returns an error code and the encoding. *)
Class QcborOps := {
  QCBOREncodeContext : Type;
  QCBOREncode_Init : Z -> QCBOREncodeContext;
  QCBOREncode_OpenArray : QCBOREncodeContext -> QCBOREncodeContext;
  QCBOREncode_CloseArray : QCBOREncodeContext -> QCBOREncodeContext;
  QCBOREncode_OpenMap : QCBOREncodeContext -> QCBOREncodeContext;
  QCBOREncode_CloseMap : QCBOREncodeContext -> QCBOREncodeContext;
  QCBOREncode_AddBytesToMapN : Z -> list Z -> QCBOREncodeContext -> QCBOREncodeContext;
  QCBOREncode_AddTextToMapN : Z -> list Z -> QCBOREncodeContext -> QCBOREncodeContext;
  QCBOREncode_Finish : QCBOREncodeContext -> Z * list Z;
  QCBOR_SUCCESS : Z;
  QCBOR_ERR_BUFFER_TOO_SMALL : Z;
  IAT_SW_COMPONENT_SIGNER_ID : Z;
  IAT_SW_COMPONENT_VERSION : Z;
  IAT_SW_COMPONENT_MEASUREMENT_TYPE : Z;
  IAT_SW_COMPONENT_MEASUREMENT_DESC : Z;
  IAT_SW_COMPONENT_MEASUREMENT_VALUE : Z
}.

(** Message types (tfm_delegated_attest_defs.h) *)
Definition DELEGATED_ATTEST_GET_DELEGATED_KEY : Z := 1001.
Definition DELEGATED_ATTEST_GET_PLATFORM_TOKEN : Z := 1002.

(** ** The static variables *)

Record da_state (P : Type) : Type := {
  dak_key_id : Z;
  dak_requested : bool;
  boot_state_buffer : list Z;
  dak_pub_hash_algo : Z;
  dak_buf : list Z;
  token_buf : list Z;
  da_psa : P
}.
Arguments dak_key_id {P} _.
Arguments dak_requested {P} _.
Arguments boot_state_buffer {P} _.
Arguments dak_pub_hash_algo {P} _.
Arguments dak_buf {P} _.
Arguments token_buf {P} _.
Arguments da_psa {P} _.

Section DelegatedAttest.
Context {P : Type} {PO : PsaOps P} {PC : PsaClient P} {CO : CryptoOps P} {AO : AttestOps P} {QO : QcborOps}.
Implicit Types s : da_state P.
Abbreviation DA := (ST (da_state P)).

Definition set_dak_key_id (x : Z) s : da_state P :=
  {| dak_key_id := x; dak_requested := dak_requested s; boot_state_buffer := boot_state_buffer s;
     dak_pub_hash_algo := dak_pub_hash_algo s; dak_buf := dak_buf s; token_buf := token_buf s; da_psa := da_psa s |}.
Definition set_requested (algo : Z) s : da_state P :=
  {| dak_key_id := dak_key_id s; dak_requested := true; boot_state_buffer := boot_state_buffer s;
     dak_pub_hash_algo := algo; dak_buf := dak_buf s; token_buf := token_buf s; da_psa := da_psa s |}.
Definition set_boot_state (x : list Z) s : da_state P :=
  {| dak_key_id := dak_key_id s; dak_requested := dak_requested s; boot_state_buffer := x;
     dak_pub_hash_algo := dak_pub_hash_algo s; dak_buf := dak_buf s; token_buf := token_buf s; da_psa := da_psa s |}.
Definition set_dak_buf (x : list Z) s : da_state P :=
  {| dak_key_id := dak_key_id s; dak_requested := dak_requested s; boot_state_buffer := boot_state_buffer s;
     dak_pub_hash_algo := dak_pub_hash_algo s; dak_buf := x; token_buf := token_buf s; da_psa := da_psa s |}.
Definition set_token_buf (x : list Z) s : da_state P :=
  {| dak_key_id := dak_key_id s; dak_requested := dak_requested s; boot_state_buffer := boot_state_buffer s;
     dak_pub_hash_algo := dak_pub_hash_algo s; dak_buf := dak_buf s; token_buf := x; da_psa := da_psa s |}.
Definition set_da_psa (x : P) s : da_state P :=
  {| dak_key_id := dak_key_id s; dak_requested := dak_requested s; boot_state_buffer := boot_state_buffer s;
     dak_pub_hash_algo := dak_pub_hash_algo s; dak_buf := dak_buf s; token_buf := token_buf s; da_psa := x |}.

(** A call of the framework or of another service; [call] for those that
    return nothing but a status. *)
Definition on_da_psa {A} (f : P -> A * P) : DA A := fun s =>
  let '(a, p) := f (da_psa s) in (Ok a, set_da_psa p s).
Definition call (f : P -> Z * P) : DA Z := on_da_psa f.

(** A function of a client library. *)
Definition on_client {A} (m : ST P A) : DA A := fun s =>
  let '(r, p) := m (da_psa s) in (r, set_da_psa p s).

(** ** The hash of the public key *)

Definition verify_dak_pub_hash (dak_pub_hash : list Z) : DA unit :=
  s ← get;
  if negb (Z.of_nat (length dak_pub_hash) =? PSA_HASH_LENGTH (dak_pub_hash_algo s))
  then raise PSA_ERROR_INVALID_ARGUMENT
  else
    '(status, pub_key) ← on_da_psa
      (psa_export_public_key (dak_key_id s) (PSA_KEY_EXPORT_ECC_PUBLIC_KEY_MAX_SIZE 521));
    if negb (status =? PSA_SUCCESS) then raise PSA_ERROR_GENERIC_ERROR
    else
      status ← call (psa_hash_compare (dak_pub_hash_algo s) pub_key dak_pub_hash);
      if negb (status =? PSA_SUCCESS) then raise PSA_ERROR_INVALID_ARGUMENT else mret tt.

(** ** The boot state *)

(** "sha-256", "sha-384" and "sha-512" *)
Definition get_firmware_measurement_description (algorithm : Z) : DA (list Z) :=
  if algorithm =? PSA_ALG_SHA_256 then mret [115; 104; 97; 45; 50; 53; 54]
  else if algorithm =? PSA_ALG_SHA_384 then mret [115; 104; 97; 45; 51; 56; 52]
  else if algorithm =? PSA_ALG_SHA_512 then mret [115; 104; 97; 45; 53; 49; 50]
  else raise PSA_ERROR_NOT_SUPPORTED.

Definition encode_firmware_measurement (encode_ctx : option QCBOREncodeContext)
    (sid ver swt measurement_desc m : option (list Z)) : DA QCBOREncodeContext :=
  match encode_ctx, sid, ver, swt, measurement_desc, m with
  | Some c, Some sid, Some ver, Some swt, Some measurement_desc, Some m =>
      let c := QCBOREncode_OpenMap c in
      let c := QCBOREncode_AddBytesToMapN IAT_SW_COMPONENT_SIGNER_ID sid c in
      let c := QCBOREncode_AddTextToMapN IAT_SW_COMPONENT_VERSION ver c in
      let c := QCBOREncode_AddTextToMapN IAT_SW_COMPONENT_MEASUREMENT_TYPE swt c in
      let c := QCBOREncode_AddTextToMapN IAT_SW_COMPONENT_MEASUREMENT_DESC measurement_desc c in
      let c := QCBOREncode_AddBytesToMapN IAT_SW_COMPONENT_MEASUREMENT_VALUE m c in
      mret (QCBOREncode_CloseMap c)
  | _, _, _, _, _, _ => raise PSA_ERROR_INVALID_ARGUMENT
  end.

(** A q_useful_buf: the array and the field [len]. *)
Record useful_buf : Type := { ub_bytes : list Z; ub_len : Z }.
Definition ub_contents (b : useful_buf) : list Z := take (Z.to_nat (ub_len b)) (ub_bytes b).
Definition stack_ub (n : Z) : useful_buf := {| ub_bytes := uninit n; ub_len := n |}.

(** The loop variables: the count, the encoder and the four buffers, whose
    [len] is both the capacity given to a read and the length it returns. *)
Record collecting : Type := {
  measurement_cnt : Z;
  encode_context : QCBOREncodeContext;
  signer_id_buf : useful_buf;
  sw_version_buf : useful_buf;
  sw_type_buf : useful_buf;
  measurement_buf : useful_buf
}.

Definition boot_state_step (slot_index : Z) (c : collecting) : DA collecting :=
  r ← attempt (on_client (tfm_measured_boot_read_measurement slot_index
    (ub_bytes (signer_id_buf c)) (ub_len (signer_id_buf c))
    (ub_bytes (sw_version_buf c)) (ub_len (sw_version_buf c))
    (ub_bytes (sw_type_buf c)) (ub_len (sw_type_buf c))
    (ub_bytes (measurement_buf c)) (ub_len (measurement_buf c))));
  match r with
  | Err e => if e =? UNDEFINED then raise UNDEFINED else mret c
  | Ok r =>
      let sid := {| ub_bytes := ar_signer_id r; ub_len := ar_signer_id_len r |} in
      let ver := {| ub_bytes := ar_version r; ub_len := ar_version_len r |} in
      let swt := {| ub_bytes := ar_sw_type r; ub_len := ar_sw_type_len r |} in
      let m := {| ub_bytes := ar_measurement_value r; ub_len := ar_measurement_value_len r |} in
      let cnt := add32 (measurement_cnt c) 1 in
      let ctx := if cnt =? 1 then QCBOREncode_OpenArray (encode_context c) else encode_context c in
      desc ← or_return (get_firmware_measurement_description (ar_measurement_algo r)) PSA_ERROR_GENERIC_ERROR;
      ctx ← encode_firmware_measurement (Some ctx) (Some (ub_contents sid)) (Some (ub_contents ver))
        (Some (ub_contents swt)) (Some desc) (Some (ub_contents m));
      mret {| measurement_cnt := cnt; encode_context := ctx; signer_id_buf := sid; sw_version_buf := ver;
              sw_type_buf := swt; measurement_buf := m |}
  end.

(** Encodes into the buffer of [boot_state_len] bytes; the encoding. *)
Definition get_platform_boot_state (boot_state_len : Z) : DA (list Z) :=
  if boot_state_len =? 0 then raise PSA_ERROR_INVALID_ARGUMENT
  else
    c ← for_acc (Z.to_nat NUM_OF_MEASUREMENT_SLOTS) 0
      {| measurement_cnt := 0; encode_context := QCBOREncode_Init boot_state_len;
         signer_id_buf := stack_ub SIGNER_ID_MAX_SIZE; sw_version_buf := stack_ub VERSION_MAX_SIZE;
         sw_type_buf := stack_ub SW_TYPE_MAX_SIZE; measurement_buf := stack_ub MEASUREMENT_VALUE_MAX_SIZE |}
      boot_state_step;
    let ctx := if negb (measurement_cnt c =? 0) then QCBOREncode_CloseArray (encode_context c) else encode_context c in
    let '(encode_error, encoded) := QCBOREncode_Finish ctx in
    if encode_error =? QCBOR_ERR_BUFFER_TOO_SMALL then raise PSA_ERROR_BUFFER_TOO_SMALL
    else if negb (encode_error =? QCBOR_SUCCESS) then raise PSA_ERROR_GENERIC_ERROR
    else mret encoded.

(** ** The key *)

(** [err_release_op:] and [err_release_key:] *)
Definition release_op {A} : DA A := call psa_key_derivation_abort;; raise PSA_ERROR_GENERIC_ERROR.
Definition release_key {A} : DA A := s ← get; call (psa_destroy_key (dak_key_id s));; release_op.

(** [if (status != PSA_SUCCESS) goto err_release_op;] *)
Definition or_release (status : Z) : DA unit :=
  if negb (status =? PSA_SUCCESS) then release_op else mret tt.

(** Derives the key into the buffer of [key_buf_len] bytes; its length. *)
Definition derive_delegated_attestation_key (ecc_curve key_bits : Z) (salt : list Z) (key_buf_len : Z) : DA Z :=
  if Z.of_nat (length salt) =? 0 then raise PSA_ERROR_INVALID_ARGUMENT
  else
    s ← get;
    status ← call (psa_destroy_key (dak_key_id s));
    if negb (status =? PSA_SUCCESS) && negb (status =? PSA_ERROR_INVALID_HANDLE) then raise status
    else
      let attributes := {| key_usage := PSA_KEY_USAGE_EXPORT; key_type := PSA_KEY_TYPE_ECC_KEY_PAIR ecc_curve;
                           key_bits := key_bits |} in
      status ← call (psa_key_derivation_setup (PSA_ALG_HKDF PSA_ALG_SHA_256));
      check status;;
      status ← call (psa_key_derivation_input_key PSA_KEY_DERIVATION_INPUT_SECRET TFM_BUILTIN_KEY_ID_DAK_SEED);
      or_release status;;
      status ← call (psa_key_derivation_input_bytes PSA_KEY_DERIVATION_INPUT_INFO salt);
      or_release status;;
      '(status, key) ← on_da_psa (psa_key_derivation_output_key attributes);
      modify (set_dak_key_id key);;
      or_release status;;
      '(status, exported) ← on_da_psa (psa_export_key key key_buf_len);
      s ← get;
      b ← memcpy (dak_buf s) 0 exported (Z.of_nat (length exported));
      modify (set_dak_buf b);;
      if negb (status =? PSA_SUCCESS) then release_key
      else
        status ← call psa_key_derivation_abort;
        check status;;
        mret (Z.of_nat (length exported)).

(** The size of the key that is now in [dak_buf]. *)
Definition delegated_attest_get_delegated_key (ecc_curve key_bits key_buf_size hash_algo : Z) : DA Z :=
  status ← call (psa_hash_setup hash_algo);
  call psa_hash_abort;;
  check status;;
  s ← get;
  encoded ← get_platform_boot_state (Z.of_nat (length (boot_state_buffer s)));
  b ← memcpy (boot_state_buffer s) 0 encoded (Z.of_nat (length encoded));
  modify (set_boot_state b);;
  key_len ← derive_delegated_attestation_key ecc_curve key_bits (take (length encoded) b) key_buf_size;
  modify (set_requested hash_algo);;
  mret key_len.

(** The size of the token that is now in [token_buf]. *)
Definition delegated_attest_get_platform_token (dak_pub_hash : list Z) (token_buf_size : Z) : DA Z :=
  s ← get;
  if negb (dak_requested s) then raise PSA_ERROR_INVALID_ARGUMENT
  else
    verify_dak_pub_hash dak_pub_hash;;
    '(status, token) ← on_da_psa (psa_initial_attest_get_token dak_pub_hash token_buf_size);
    s ← get;
    b ← memcpy (token_buf s) 0 token (Z.of_nat (length token));
    modify (set_token_buf b);;
    check status;;
    mret (Z.of_nat (length token)).

(** ** The requests *)

(** [bytes_read = psa_read(msg->handle, idx, &x, n); if (bytes_read != n) return PSA_ERROR_GENERIC_ERROR;] *)
Definition da_read (m : psa_msg_t) (idx n : Z) : DA (list Z) :=
  bs ← on_da_psa (psa_read (handle m) idx n);
  if negb (Z.of_nat (length bs) =? n) then raise PSA_ERROR_GENERIC_ERROR else mret bs.

Definition da_write (m : psa_msg_t) (bs : list Z) : DA unit :=
  on_da_psa (fun p => (tt, psa_write (handle m) 0 bs p)).

Definition get_delegated_attestation_key (m : psa_msg_t) : DA unit :=
  if negb (in_len m 0 =? 1) || negb (in_len m 1 =? 4) || negb (in_len m 2 =? 4)
  then raise PSA_ERROR_PROGRAMMER_ERROR
  else
    bs ← da_read m 0 1;
    let ecc_curve := nth_byte bs 0 in
    bs ← da_read m 1 4;
    let bits := dec32 bs 0 in
    bs ← da_read m 2 4;
    let hash_algo := dec32 bs 0 in
    if negb (ecc_curve =? PSA_ECC_FAMILY_SECP_R1) then raise PSA_ERROR_INVALID_ARGUMENT
    else if negb (bits =? 256) && negb (bits =? 384) && negb (bits =? 521) then raise PSA_ERROR_INVALID_ARGUMENT
    else if out_len m 0 <? PSA_KEY_EXPORT_ECC_KEY_PAIR_MAX_SIZE bits then raise PSA_ERROR_BUFFER_TOO_SMALL
    else
      s ← get;
      let size := Z.of_nat (length (dak_buf s)) in
      let key_buf_size := if out_len m 0 <? size then out_len m 0 else size in
      key_len ← delegated_attest_get_delegated_key ecc_curve bits key_buf_size hash_algo;
      s ← get;
      da_write m (take (Z.to_nat key_len) (dak_buf s)).

(** The hash is read into an array of the size of a SHA-512 digest before its
    length is checked. *)
Definition get_platform_attestation_token (m : psa_msg_t) : DA unit :=
  let dak_pub_hash_size := in_len m 0 in
  bs ← da_read m 0 dak_pub_hash_size;
  dak_pub_hash ← memcpy (uninit (PSA_HASH_LENGTH PSA_ALG_SHA_512)) 0 bs dak_pub_hash_size;
  s ← get;
  let size := Z.of_nat (length (token_buf s)) in
  let token_buf_size := if out_len m 0 <? size then out_len m 0 else size in
  if negb (dak_pub_hash_size =? PSA_HASH_LENGTH PSA_ALG_SHA_256)
    && negb (dak_pub_hash_size =? PSA_HASH_LENGTH PSA_ALG_SHA_384)
    && negb (dak_pub_hash_size =? PSA_HASH_LENGTH PSA_ALG_SHA_512)
  then raise PSA_ERROR_INVALID_ARGUMENT
  else
    token_size ← delegated_attest_get_platform_token (take (Z.to_nat dak_pub_hash_size) dak_pub_hash) token_buf_size;
    s ← get;
    da_write m (take (Z.to_nat token_size) (token_buf s)).

(** [status = handler(&msg); psa_reply(msg.handle, status);] *)
Definition da_handle_and_reply (m : psa_msg_t) (handler : psa_msg_t -> DA unit) : DA unit :=
  r ← attempt (handler m);
  if status_of r =? UNDEFINED then raise UNDEFINED
  else on_da_psa (fun p => (tt, psa_reply (handle m) (status_of r) p)).

Definition delegated_attestation_signal_handle (signal : Z) : DA unit :=
  '(status, m) ← on_da_psa (psa_get signal);
  if negb (status =? PSA_SUCCESS) then mret tt
  else
    match type m with
    | PSA_IPC_OTHER n =>
        if n =? DELEGATED_ATTEST_GET_DELEGATED_KEY then da_handle_and_reply m get_delegated_attestation_key
        else if n =? DELEGATED_ATTEST_GET_PLATFORM_TOKEN then da_handle_and_reply m get_platform_attestation_token
        else raise PANIC
    | _ => raise PANIC
    end.

(** One round of the loop. *)
Definition delegated_attest_round : DA unit :=
  signals ← on_da_psa psa_wait;
  if negb (Z.land signals TFM_DELEGATED_ATTESTATION_SIGNAL =? 0)
  then delegated_attestation_signal_handle TFM_DELEGATED_ATTESTATION_SIGNAL
  else raise PANIC.
End DelegatedAttest.

(** ** The client library (tfm_delegated_attestation_api.c)

    The two calls, which pack their arguments into vectors and call the
    partition. *)

(** The handle of the generated psa_manifest/sid.h *)
Class DelegatedAttestHandle := { TFM_DELEGATED_ATTESTATION_HANDLE : Z }.

Section Client.
Context {C : Type} {PC : PsaCalls C} {DH : DelegatedAttestHandle}.
Abbreviation CL := (ST C).

(** What both functions do with their vectors: the status, the contents of the
    caller's buffer, and the size that they report on success. *)
Definition da_client_call (type : Z) (in_vec : list (list Z)) (buf : list Z) (buf_size : Z) (size_ptr : bool)
    : CL (Z * list Z * option Z) :=
  if negb size_ptr then raise PSA_ERROR_INVALID_ARGUMENT
  else
    '(status, outs) ← on_call (psa_call TFM_DELEGATED_ATTESTATION_HANDLE type in_vec [buf_size]);
    '(buf', len) ← fill buf outs;
    mret (status, buf', if status =? PSA_SUCCESS then Some len else None).

(** [key_size], [token_size]: whether the pointer is not null. *)
Definition tfm_delegated_attest_get_delegated_key (ecc_curve key_bits : Z) (key_buf : list Z) (key_buf_size : Z)
    (key_size : bool) (hash_algo : Z) : CL (Z * list Z * option Z) :=
  da_client_call DELEGATED_ATTEST_GET_DELEGATED_KEY [[w8 ecc_curve]; enc32 key_bits; enc32 hash_algo]
    key_buf key_buf_size key_size.

Definition tfm_delegated_attest_get_token (dak_pub_hash : list Z) (token_buf : list Z) (token_buf_size : Z)
    (token_size : bool) : CL (Z * list Z * option Z) :=
  da_client_call DELEGATED_ATTEST_GET_PLATFORM_TOKEN [dak_pub_hash] token_buf token_buf_size token_size.
End Client.
