(* ===== verification/DelegatedAttestSpec.v ===== *)
(** * The boot state of delegated attestation

    The measured boot partition answers its reads as its automaton does; what
    the loop over the slots makes of the answers, the encoding it hands to
    QCBOR, and which slots it sees. *)
From Stdlib Require Import ZArith Lia.
From stdpp Require Import base list numbers options.
From S2P Require Import Prelude.
From S2P Require Import FlashFsDefs.
From S2P Require Import PsaApi.
From S2P Require Import MeasuredBoot.
From S2P Require Import MeasuredBootReq.
From S2P Require Import MeasuredBootSpec.
From S2P Require Import MeasuredBootRefine.
From S2P Require Import DelegatedAttest.

#[local] Set Default Proof Using "Type*".

(** ** The slots as the loop sees them *)

Record aslot_ok {M : Type} {HO : HashOps M} (a : aslot) : Prop := {
  ak_signer : len (a_signer a) <= 64;
  ak_version : len (a_version a) <= 14;
  ak_sw_type : len (a_sw_type a) <= 20;
  ak_algo : is_u32 (a_algo a);
  ak_size : 0 <= a_size a <= MEASUREMENT_VALUE_SIZE;
  ak_value : a_chain a = [] \/ a_size a = MEASUREMENT_VALUE_SIZE
}.

(** The [len] fields of the four buffers. *)
Record capacities : Type := { cap_signer : Z; cap_version : Z; cap_sw_type : Z; cap_value : Z }.

Record caps_ok (c : capacities) : Prop := {
  cp_signer : 0 <= cap_signer c <= 64;
  cp_version : 0 <= cap_version c <= 14;
  cp_sw_type : 0 <= cap_sw_type c <= 20;
  cp_value : 0 <= cap_value c <= 64
}.

Lemma described_fields {M : Type} {HO : HashOps M} (a : aslot) : aslot_ok a ->
  len (described a) = 44 /\ negb (nth_byte (described a) 0 =? 0) = a_locked a /\ dec32 (described a) 4 = a_algo a /\
  take 20 (drop 8 (described a)) = fit 20 (a_sw_type a) /\ nth_byte (described a) 28 = len (a_sw_type a) /\
  take 14 (drop 29 (described a)) = fit 14 (a_version a) /\ nth_byte (described a) 43 = len (a_version a).
Proof.
  intros [H1 H2 H3 H4 _ _]. unfold described. pose proof (enc32_length (a_algo a)) as H.
  assert (length (fit 20 (a_sw_type a)) = 20%nat) as Ht by (unfold fit; rewrite length_take, length_app, length_replicate; lia).
  assert (length (fit 14 (a_version a)) = 14%nat) as Hv by (unfold fit; rewrite length_take, length_app, length_replicate; lia).
  set (hd := [Z.b2z (a_locked a); 0; 0; 0]). assert (length hd = 4%nat) as Hh by done.
  split_and!.
  - unfold len. rewrite !length_app. cbn [length]. lia.
  - cbn. by destruct (a_locked a).
  - by apply (dec32_mid hd).
  - rewrite !drop_app_ge by (rewrite ?Hh, ?H; lia). rewrite Hh, H, drop_0. by apply take_app_length'.
  - rewrite !nth_byte_app_r by (rewrite ?Hh, ?H, ?Ht; lia). rewrite Hh, H, Ht. done.
  - rewrite !drop_app_ge by (rewrite ?Hh, ?H, ?Ht; cbn [length]; lia). rewrite Hh, H, Ht. cbn [length].
    rewrite drop_0. by apply take_app_length'.
  - rewrite !nth_byte_app_r by (rewrite ?Hh, ?H, ?Ht, ?Hv; cbn [length]; lia). rewrite Hh, H, Ht, Hv. done.
Qed.

(** What a slot of the measured boot partition represents is such a slot. *)
Lemma represents_ok {M} {HO : HashOps M} {HL : HashLaws M} sl a : represents sl (Some a) -> aslot_ok a.
Proof.
  intros ([] & _ & _ & _ & H1 & H2 & _ & H3 & H4 & [H5 H6] & _).
  split; rewrite <- ?H1, <- ?H2, <- ?H4, <- ?H5; unfold len; rewrite ?length_take; try lia; try done. by rewrite H5.
Qed.

Lemma fit_take n l : len l <= Z.of_nat n -> take (Z.to_nat (len l)) (fit n l) = l.
Proof. intros H. unfold fit, len in *. rewrite take_take, Nat2Z.id, Nat.min_l by lia. apply take_app_length. Qed.

Section Reads.
Context {P M : Type} {PC : PsaClient P} {HO : HashOps M} {HL : HashLaws M}.
Context (uninit_length : forall n, 0 <= n -> len (uninit n) = n).
Context (sls : list (option aslot)).

(** Reads are answered as the automaton answers them on its slots, and change
    nothing but the state of the framework; no hash is computed for a read. *)
Definition reads_answered : Prop := forall index swt_size ver_size sid_room val_room p,
  is_u8 index -> exists p',
  psa_call TFM_MEASURED_BOOT_HANDLE TFM_MEASURED_BOOT_READ (read_in_vec index swt_size ver_size)
    [sizeof_read_iovec_out; sid_room; val_room] p
  = (let '(st, outs, _) := aserve 0 0 sls (MRead index (w8 swt_size) (w8 ver_size) sid_room val_room) in (st, outs, p')).

Definition slot_fits (a : aslot) (c : capacities) : bool :=
  (len (a_version a) <=? cap_version c) && (len (a_sw_type a) <=? cap_sw_type c)
    && (len (a_signer a) <=? cap_signer c) && (a_size a <=? cap_value c).

(** The four buffers hold [a]. *)
Record holds (a : aslot) (r : api_reading) : Prop := {
  ho_signer : ar_signer_id_len r = len (a_signer a) /\ length (ar_signer_id r) = 64%nat /\
    take (Z.to_nat (ar_signer_id_len r)) (ar_signer_id r) = a_signer a;
  ho_version : ar_version_len r = len (a_version a) /\ length (ar_version r) = 14%nat /\
    take (Z.to_nat (ar_version_len r)) (ar_version r) = a_version a;
  ho_sw_type : ar_sw_type_len r = len (a_sw_type a) /\ length (ar_sw_type r) = 20%nat /\
    take (Z.to_nat (ar_sw_type_len r)) (ar_sw_type r) = a_sw_type a;
  ho_value : ar_measurement_value_len r = a_size a /\ length (ar_measurement_value r) = 64%nat /\
    take (Z.to_nat (ar_measurement_value_len r)) (ar_measurement_value r) = avalue a;
  ho_algo : ar_measurement_algo r = a_algo a;
  ho_locked : ar_is_locked r = a_locked a
}.

Lemma chain_value_length ms : len (chain_value (HO := HO) ms) = MEASUREMENT_VALUE_SIZE.
Proof using HL.
  unfold chain_value. destruct ms as [|x ms] using rev_ind.
  - unfold len. cbn [fold_left]. rewrite filled_length; [done|]. pose proof hl_size. lia.
  - rewrite fold_left_app. apply hl_digest.
Qed.

Lemma avalue_length a : aslot_ok a -> len (avalue (HO := HO) a) = a_size a.
Proof using HL.
  intros [_ _ _ _ H1 H2]. unfold avalue. destruct (a_chain a) as [|m ms] eqn:E.
  - unfold len. rewrite filled_length; lia.
  - destruct H2 as [H2|H2]; [done|]. rewrite <- E, H2. apply chain_value_length.
Qed.

Lemma unpack_refused e sidb verb swtb valb (p : P) : e <> PSA_SUCCESS ->
  unpack_reading e nothing sidb verb swtb valb p = (Err e, p).
Proof using uninit_length.
  intros He. pose proof (uninit_length 44 ltac:(lia)) as Hun. unfold len in Hun. unfold unpack_reading. cbv zeta.
  cbn [nothing lookup list_lookup]. unfold sizeof_read_iovec_out. rewrite !bind_memcpy by (cbn; lia).
  unfold check. by destruct (Z.eqb_spec e PSA_SUCCESS).
Qed.

Lemma unpack_held x sidb verb swtb valb (p : P) : aslot_ok x ->
  length sidb = 64%nat -> length verb = 14%nat -> length swtb = 20%nat -> length valb = 64%nat ->
  exists r, unpack_reading PSA_SUCCESS [described x; a_signer x; avalue x] sidb verb swtb valb p = (Ok r, p) /\
    holds x r.
Proof using HL uninit_length.
  intros Hok L1 L2 L3 L4. pose proof (uninit_length 44 ltac:(lia)) as Hun. unfold len in Hun.
  destruct (described_fields x Hok) as (D0 & D1 & D2 & D3 & D4 & D5 & D6).
  pose proof (avalue_length x Hok) as Hcv. destruct Hok as [K1 K2 K3 K4 K5 _]. pose proof hl_size.
  unfold unpack_reading. cbv zeta. cbn [lookup list_lookup]. unfold sizeof_read_iovec_out.
  fold (len (described x)). fold (len (a_signer x)). fold (len (avalue x)).
  rewrite !bind_memcpy by (unfold len in *; lia).
  assert (over (uninit 44) (described x) (len (described x)) = described x) as ->.
  { unfold over. rewrite D0. rewrite take_ge by (unfold len in D0; lia). rewrite drop_ge by lia. apply app_nil_r. }
  change (check PSA_SUCCESS) with (mret (M := ST P) tt). rewrite (bind_ok _ _ p tt p) by done.
  rewrite D3, D4, D5, D6.
  assert (length (fit 20 (a_sw_type x)) = 20%nat) as Ht by (unfold fit; rewrite length_take, length_app, length_replicate; lia).
  assert (length (fit 14 (a_version x)) = 14%nat) as Hv by (unfold fit; rewrite length_take, length_app, length_replicate; lia).
  rewrite !bind_memcpy by (unfold len in *; lia). eexists. split; [reflexivity|].
  split; cbn -[take Z.to_nat over fit]; try done;
    (split; [done|split; [rewrite over_length by (unfold len in *; lia); done|]]); try apply over_len;
    rewrite over_take by (unfold len in *; lia); by apply fit_take.
Qed.

Lemma wp_client_read i a c sidb verb swtb valb p : reads_answered -> 0 <= i < 32 -> sls !! Z.to_nat i = Some a ->
  (forall x, a = Some x -> aslot_ok x) -> caps_ok c ->
  length sidb = 64%nat -> length verb = 14%nat -> length swtb = 20%nat -> length valb = 64%nat ->
  wp (tfm_measured_boot_read_measurement i sidb (cap_signer c) verb (cap_version c) swtb (cap_sw_type c)
        valb (cap_value c)) p
    (fun r _ => match r with
     | Ok r => exists x, a = Some x /\ slot_fits x c = true /\ holds x r
     | Err e => e <> UNDEFINED /\ forall x, a = Some x -> slot_fits x c = false
     end).
Proof using HL uninit_length.
  intros Hcon Hi Ha Hok [C1 C2 C3 C4] L1 L2 L3 L4. unfold tfm_measured_boot_read_measurement.
  destruct (Hcon i (cap_sw_type c) (cap_version c) (cap_signer c) (cap_value c) p ltac:(unfold is_u8; lia)) as [p' E].
  unfold aserve in E. rewrite Ha in E. rewrite !w8_small in E by lia.
  apply wp_bind. unfold wp at 1, on_call. unfold aread in E. destruct a as [x|].
  2:{ rewrite E. cbn [fst snd]. unfold wp. by rewrite unpack_refused. }
  fold (slot_fits x c) in E. destruct (slot_fits x c) eqn:Hfit.
  2:{ rewrite E. cbn [fst snd]. unfold wp. rewrite unpack_refused by done. split; [done|]. by intros y [= <-]. }
  rewrite E. cbn [fst snd]. destruct (unpack_held x sidb verb swtb valb p' (Hok x eq_refl)) as (r & Er & Hr); [done..|].
  unfold wp. rewrite Er. by exists x.
Qed.
End Reads.

(** ** The boot state *)

Section BootState.
Context {P M : Type} {PO : PsaOps P} {PC : PsaClient P} {CO : CryptoOps P} {AO : AttestOps P} {QO : QcborOps}.
Context {HO : HashOps M} {HL : HashLaws M}.
Context (uninit_length : forall n, 0 <= n -> len (uninit n) = n).
Context (sls : list (option aslot)).
Implicit Types s : da_state P.

Definition description (algo : Z) : option (list Z) :=
  if algo =? PSA_ALG_SHA_256 then Some [115; 104; 97; 45; 50; 53; 54]
  else if algo =? PSA_ALG_SHA_384 then Some [115; 104; 97; 45; 51; 56; 52]
  else if algo =? PSA_ALG_SHA_512 then Some [115; 104; 97; 45; 53; 49; 50]
  else None.

Definition supported (a : aslot) : bool := match description (a_algo a) with Some _ => true | None => false end.

(** The slots that end up in the boot state.  After each of them the buffers
    are only as large as what it has put into them. *)
Fixpoint visible (l : list (option aslot)) (c : capacities) : list aslot :=
  match l with
  | [] => []
  | None :: l => visible l c
  | Some a :: l =>
      if slot_fits a c
      then a :: visible l {| cap_signer := len (a_signer a); cap_version := len (a_version a);
                             cap_sw_type := len (a_sw_type a); cap_value := a_size a |}
      else visible l c
  end.

Definition full_buffers : capacities := {| cap_signer := 64; cap_version := 14; cap_sw_type := 20; cap_value := 64 |}.

(** The map of one slot. *)
Definition enc_slot (c : QCBOREncodeContext) (a : aslot) : QCBOREncodeContext :=
  QCBOREncode_CloseMap
    (QCBOREncode_AddBytesToMapN IAT_SW_COMPONENT_MEASUREMENT_VALUE (avalue a)
    (QCBOREncode_AddTextToMapN IAT_SW_COMPONENT_MEASUREMENT_DESC (default [] (description (a_algo a)))
    (QCBOREncode_AddTextToMapN IAT_SW_COMPONENT_MEASUREMENT_TYPE (a_sw_type a)
    (QCBOREncode_AddTextToMapN IAT_SW_COMPONENT_VERSION (a_version a)
    (QCBOREncode_AddBytesToMapN IAT_SW_COMPONENT_SIGNER_ID (a_signer a)
    (QCBOREncode_OpenMap c)))))).

Definition enc_slots (n : Z) (vs : list aslot) : QCBOREncodeContext :=
  match vs with [] => QCBOREncode_Init n | _ => fold_left enc_slot vs (QCBOREncode_OpenArray (QCBOREncode_Init n)) end.

Definition boot_state_of (n : Z) (vs : list aslot) : outcome (list Z) :=
  if forallb supported vs then
    let '(err, encoded) := QCBOREncode_Finish (match vs with [] => enc_slots n vs | _ => QCBOREncode_CloseArray (enc_slots n vs) end) in
    if err =? QCBOR_ERR_BUFFER_TOO_SMALL then Err PSA_ERROR_BUFFER_TOO_SMALL
    else if negb (err =? QCBOR_SUCCESS) then Err PSA_ERROR_GENERIC_ERROR else Ok encoded
  else Err PSA_ERROR_GENERIC_ERROR.

(** The loop variables once [vs] have been encoded. *)
Record gathered (n : Z) (vs : list aslot) (c : capacities) (x : collecting) : Prop := {
  ga_cnt : measurement_cnt x = Z.of_nat (length vs);
  ga_ctx : encode_context x = enc_slots n vs;
  ga_caps : cap_signer c = ub_len (signer_id_buf x) /\ cap_version c = ub_len (sw_version_buf x) /\
    cap_sw_type c = ub_len (sw_type_buf x) /\ cap_value c = ub_len (measurement_buf x);
  ga_bufs : length (ub_bytes (signer_id_buf x)) = 64%nat /\ length (ub_bytes (sw_version_buf x)) = 14%nat /\
    length (ub_bytes (sw_type_buf x)) = 20%nat /\ length (ub_bytes (measurement_buf x)) = 64%nat;
  ga_ok : caps_ok c
}.

(** Only the framework has changed. *)
Definition only_psa s s' : Prop := exists p, s' = set_da_psa p s.

#[local] Instance only_psa_pre : PreOrder only_psa.
Proof using Type.
  split; [intros s; exists (da_psa s); by destruct s|]. intros s1 s2 s3 [p ->] [p' ->]. by exists p'.
Qed.

Lemma description_step algo s : get_firmware_measurement_description algo s =
  (match description algo with Some d => Ok d | None => Err PSA_ERROR_NOT_SUPPORTED end, s).
Proof using Type. unfold get_firmware_measurement_description, description. by repeat case_match. Qed.

Lemma enc_slots_snoc n vs a : (length vs < 32)%nat ->
  enc_slot (if add32 (Z.of_nat (length vs)) 1 =? 1 then QCBOREncode_OpenArray (enc_slots n vs) else enc_slots n vs) a
  = enc_slots n (vs ++ [a]).
Proof using Type.
  intros Hl. rewrite add32_small by lia. destruct vs as [|v vs]; [done|].
  rewrite (proj2 (Z.eqb_neq _ _)) by (cbn [length]; lia). 
  change (enc_slots n ((v :: vs) ++ [a])) with
    (fold_left enc_slot ((v :: vs) ++ [a]) (QCBOREncode_OpenArray (QCBOREncode_Init n))).
  by rewrite fold_left_app.
Qed.

Lemma wp_boot_state_step n vs c x i a s : reads_answered (P := P) sls -> gathered n vs c x ->
  0 <= i < 32 -> (length vs < 32)%nat -> sls !! Z.to_nat i = Some a -> (forall y, a = Some y -> aslot_ok y) ->
  wp (boot_state_step i x) s (fun r s' => only_psa s s' /\
    match a with
    | Some y => if slot_fits y c
                then if supported y
                     then exists x', r = Ok x' /\ gathered n (vs ++ [y]) {| cap_signer := len (a_signer y);
                       cap_version := len (a_version y); cap_sw_type := len (a_sw_type y);
                       cap_value := a_size y |} x'
                     else r = Err PSA_ERROR_GENERIC_ERROR
                else r = Ok x
    | None => r = Ok x
    end).
Proof.
  intros Hcon [G1 G2 (C1 & C2 & C3 & C4) (B1 & B2 & B3 & B4) G5] Hi Hvs Ha Hok. unfold boot_state_step.
  apply wp_bind, wp_attempt. rewrite <- C1, <- C2, <- C3, <- C4.
  pose proof (wp_client_read uninit_length sls i a c _ _ _ _ (da_psa s) Hcon Hi Ha Hok G5 B1 B2 B3 B4) as Hr.
  unfold wp in Hr. unfold wp at 1, on_client.
  destruct (tfm_measured_boot_read_measurement _ _ _ _ _ _ _ _ _ (da_psa s)) as [[r|e] p]; cbn [fst snd] in Hr |- *.
  2:{ destruct Hr as [Hu Hnf]. destruct (Z.eqb_spec e UNDEFINED); [done|]. split; [by exists p|].
      destruct a as [y|]; [by rewrite (Hnf y eq_refl)|done]. }
  destruct Hr as (y & -> & Hfit & [H1 H2 H3 H4 H5 H6]). rewrite Hfit. specialize (Hok y eq_refl).
  apply wp_bind, wp_or_return. unfold wp at 1. rewrite description_step, H5.
  unfold supported. destruct (description (a_algo y)) as [d|] eqn:Hd; cbn [fst snd]; [|by split; [exists p|]].
  split; [by exists p|]. eexists. split; [reflexivity|].
  destruct H1 as (H1 & H1l & H1t). destruct H2 as (H2 & H2l & H2t). destruct H3 as (H3 & H3l & H3t). destruct H4 as (H4 & H4l & H4t).
  pose proof hl_size. destruct Hok as [K1 K2 K3 K4 K5 _].
  split; cbn [measurement_cnt encode_context signer_id_buf sw_version_buf sw_type_buf measurement_buf ub_len ub_bytes
    cap_signer cap_version cap_sw_type cap_value]; [| |by split_and!|by split_and!|].
  - rewrite G1, length_app. cbn [length]. rewrite add32_small by lia. lia.
  - unfold ub_contents. cbn [ub_len ub_bytes]. rewrite H1t, H2t, H3t, H4t, G1, G2.
    rewrite <- (enc_slots_snoc n vs y) by done. unfold enc_slot at 1. by rewrite Hd.
  - unfold len in *. split; cbn; lia.
Qed.

Lemma wp_boot_state_loop n rest : reads_answered (P := P) sls -> (forall y, Some y ∈ sls -> aslot_ok y) -> length sls = 32%nat ->
  forall i vs c x s, gathered n vs c x -> drop i sls = rest -> (length vs <= i)%nat ->
  wp (for_acc (length rest) (Z.of_nat i) x boot_state_step) s (fun r s' => only_psa s s' /\
    if forallb supported (visible rest c)
    then exists x' c', r = Ok x' /\ gathered n (vs ++ visible rest c) c' x'
    else r = Err PSA_ERROR_GENERIC_ERROR).
Proof.
  intros Hcon Hok Hlen. induction rest as [|a rest IH]; intros i vs c x s Hg Hrest Hvs; cbn [length for_acc visible].
  { apply wp_ret. split; [reflexivity|]. exists x, c. by rewrite app_nil_r. }
  assert (sls !! i = Some a) as Ha.
  { rewrite <- (Nat.add_0_r i), <- lookup_drop, Hrest. done. }
  assert (drop (S i) sls = rest) as Hrest' by (by rewrite (drop_S _ a i Ha) in Hrest; injection Hrest).
  pose proof (lookup_lt_Some _ _ _ Ha) as Hlt.
  apply wp_bind. eapply wp_mono.
  { eapply (wp_boot_state_step n vs c x (Z.of_nat i) a s Hcon Hg); [lia|lia|by rewrite Nat2Z.id|].
    intros y ->. apply Hok. by eapply list_elem_of_lookup_2. }
  intros r s1 [Hs1 Hr]. cbn beta in Hr. replace (Z.of_nat i + 1) with (Z.of_nat (S i)) by lia.
  assert (forall vs' c' x', gathered n vs' c' x' -> (length vs' <= S i)%nat ->
    wp (for_acc (length rest) (Z.of_nat (S i)) x' boot_state_step) s1 (fun r s' => only_psa s s' /\
      if forallb supported (visible rest c')
      then exists x'' c'', r = Ok x'' /\ gathered n (vs' ++ visible rest c') c'' x''
      else r = Err PSA_ERROR_GENERIC_ERROR)) as Hnext.
  { intros vs' c' x' Hg' Hvs'. eapply wp_mono; [by apply (IH (S i) vs' c' x' s1)|].
    intros r' s2 [Hs2 H]. split; [by etrans|done]. }
  destruct a as [y|]; [|subst r; apply Hnext; [done|lia]].
  destruct (slot_fits y c); [|subst r; apply Hnext; [done|lia]].
  cbn [forallb]. destruct (supported y); [|by subst r]. destruct Hr as (x' & -> & Hg').
  cbn [andb]. eapply wp_mono; [apply Hnext; [exact Hg'|rewrite length_app; cbn; lia]|].
  intros r' s2 [Hs2 H]. split; [done|]. by rewrite <- app_assoc in H.
Qed.

Lemma wp_boot_state n s : reads_answered (P := P) sls -> (forall y, Some y ∈ sls -> aslot_ok y) -> length sls = 32%nat ->
  0 < n ->
  wp (get_platform_boot_state n) s (fun r s' => only_psa s s' /\ r = boot_state_of n (visible sls full_buffers)).
Proof.
  intros Hcon Hok Hlen Hn. unfold get_platform_boot_state. rewrite (proj2 (Z.eqb_neq _ _)) by lia.
  apply wp_bind. change (Z.to_nat NUM_OF_MEASUREMENT_SLOTS) with 32%nat. rewrite <- Hlen. eapply wp_mono.
  { apply (wp_boot_state_loop n sls Hcon Hok Hlen 0 [] full_buffers); [|done|done]. pose proof uninit_length as U.
    pose proof (U 64 ltac:(lia)). pose proof (U 14 ltac:(lia)). pose proof (U 20 ltac:(lia)). unfold len in *.
    split; cbn; try done; unfold SIGNER_ID_MAX_SIZE, VERSION_MAX_SIZE, SW_TYPE_MAX_SIZE, MEASUREMENT_VALUE_MAX_SIZE;
      split_and!; lia. }
  intros r s1 [Hs1 Hr]. unfold boot_state_of. set (vs := visible sls full_buffers) in *.
  destruct (forallb supported vs); [|by subst r]. destruct Hr as (x & c & -> & [G1 G2 _ _ _]).
  cbn [app] in *. rewrite G1, G2.
  assert ((if negb (Z.of_nat (length vs) =? 0) then QCBOREncode_CloseArray (enc_slots n vs) else enc_slots n vs)
    = match vs with [] => enc_slots n vs | _ => QCBOREncode_CloseArray (enc_slots n vs) end) as -> by by destruct vs.
  destruct (QCBOREncode_Finish _) as [err encoded].
  destruct (err =? QCBOR_ERR_BUFFER_TOO_SMALL); [by apply wp_raise|].
  destruct (negb (err =? QCBOR_SUCCESS)); [by apply wp_raise|]. by apply wp_ret.
Qed.
End BootState.
