(* ===== verification/DelegatedAttestExample.v ===== *)
(** * A concrete delegated attestation partition

    Services that always succeed, with the toy hash of MeasuredBootExample.v,
    an encoder that writes indefinite-length CBOR, and a measured boot
    partition with given slots, for the concrete instances of the theorems. *)
From Stdlib Require Import ZArith Lia.
From stdpp Require Import base list numbers gmap options.
From S2P Require Import Prelude.
From S2P Require Import FlashFsDefs.
From S2P Require Import PsaApi.
From S2P Require Import PsaSample.
From S2P Require Import MeasuredBoot.
From S2P Require Import MeasuredBootReq.
From S2P Require Import MeasuredBootSpec.
From S2P Require Import MeasuredBootRefine.
From S2P Require Import MeasuredBootExample.
From S2P Require Import DelegatedAttest.
From S2P Require Import DelegatedAttestSpec.

(** ** The measured boot partition *)

(** Clients of a partition with the slots [sls]. *)
Definition client_of (sls : list (option aslot)) : PsaClient pstate := {|
  client_calls := {| psa_call := fun _ _ vecs sizes p =>
    match vecs, sizes with
    | [v], [_; sid_room; val_room] =>
        let '(st, outs, _) := aserve 0 0 sls (MRead (nth_byte v 0) (nth_byte v 1) (nth_byte v 2) sid_room val_room) in
        (st, outs, p)
    | _, _ => (PSA_ERROR_PROGRAMMER_ERROR, [], p)
    end |};
  TFM_MEASURED_BOOT_HANDLE := 1073742080;
  uninit := fun n => replicate (Z.to_nat n) 7
|}.

(** A component measured once, and one measured twice: it has no version. *)
Definition slot_once (x : Z) : aslot :=
  {| a_signer := replicate 32 x; a_version := [49; 46; 48]; a_algo := 33554441; a_sw_type := [66; 76; 50];
     a_chain := [replicate 32 x]; a_size := 32; a_locked := false |}.
Definition slot_twice (x : Z) : aslot :=
  {| a_signer := replicate 32 x; a_version := []; a_algo := 33554441; a_sw_type := [];
     a_chain := [replicate 32 x; replicate 32 x]; a_size := 32; a_locked := false |}.

Definition table : list (option aslot) := [Some (slot_once 1); None; Some (slot_once 2)] ++ replicate 29 None.
Definition short_table : list (option aslot) := [None; Some (slot_twice 1); Some (slot_once 2)] ++ replicate 29 None.

#[export] Instance sample_client : PsaClient pstate := client_of table.

Lemma client_answers sls : reads_answered (PC := client_of sls) sls.
Proof. intros index swt_size ver_size sid_room val_room p _. exists p. reflexivity. Qed.

Lemma client_uninit sls n : 0 <= n -> len (uninit (PsaClient := client_of sls) n) = n.
Proof. intros Hn. unfold len. cbn. rewrite length_replicate. lia. Qed.

Lemma slot_once_ok x : aslot_ok (slot_once x).
Proof. split; try done. by right. Qed.
Lemma slot_twice_ok x : aslot_ok (slot_twice x).
Proof. split; try done. by right. Qed.

Lemma slots_all_ok (pre : list (option aslot)) y :
  Forall (fun oa => forall x, oa = Some x -> aslot_ok x) pre -> Some y ∈ pre ++ replicate 29 None -> aslot_ok y.
Proof.
  intros Hp [H|[H _]%elem_of_replicate]%elem_of_app; [|done]. by apply (proj1 (Forall_forall _ _) Hp _ H).
Qed.

Lemma table_ok y : Some y ∈ table -> aslot_ok y.
Proof. apply slots_all_ok. repeat (apply Forall_cons; split); try done; intros x [= <-]; apply slot_once_ok. Qed.

Lemma short_table_ok y : Some y ∈ short_table -> aslot_ok y.
Proof.
  apply slots_all_ok. repeat (apply Forall_cons; split); try done; intros x [= <-];
    [apply slot_twice_ok|apply slot_once_ok].
Qed.

(** ** The services *)

Definition public_key : list Z := 4 :: replicate 64 3.

#[export] Instance sample_crypto : CryptoOps pstate := {
  PSA_ALG_NONE := 0;
  PSA_ALG_SHA_256 := 33554441;
  PSA_ALG_SHA_384 := 33554442;
  PSA_ALG_SHA_512 := 33554443;
  PSA_ALG_HKDF := fun a => 134217728 + a;
  PSA_HASH_LENGTH := fun a => if a =? 33554441 then 32 else if a =? 33554442 then 48 else 64;
  PSA_KEY_ID_NULL := 0;
  PSA_KEY_USAGE_EXPORT := 1;
  PSA_KEY_TYPE_ECC_KEY_PAIR := fun c => 28928 + c;
  PSA_ECC_FAMILY_SECP_R1 := 18;
  PSA_KEY_DERIVATION_INPUT_SECRET := 257;
  PSA_KEY_DERIVATION_INPUT_INFO := 515;
  PSA_KEY_EXPORT_ECC_PUBLIC_KEY_MAX_SIZE := fun b => 2 * ((b + 7) / 8) + 1;
  PSA_KEY_EXPORT_ECC_KEY_PAIR_MAX_SIZE := fun b => (b + 7) / 8;
  TFM_BUILTIN_KEY_ID_DAK_SEED := 2;
  psa_hash_setup := fun _ p => (PSA_SUCCESS, p);
  psa_hash_abort := fun p => (PSA_SUCCESS, p);
  psa_hash_compare := fun _ input hash p =>
    (if bool_decide (toy_digest input = hash) then PSA_SUCCESS else -149, p);
  psa_export_public_key := fun _ n p => if n <? 65 then (PSA_ERROR_BUFFER_TOO_SMALL, [], p) else (PSA_SUCCESS, public_key, p);
  psa_export_key := fun _ n p => if n <? 32 then (PSA_ERROR_BUFFER_TOO_SMALL, [], p) else (PSA_SUCCESS, replicate 32 9, p);
  psa_destroy_key := fun _ p => (PSA_SUCCESS, p);
  psa_key_derivation_setup := fun _ p => (PSA_SUCCESS, p);
  psa_key_derivation_input_key := fun _ _ p => (PSA_SUCCESS, p);
  psa_key_derivation_input_bytes := fun _ _ p => (PSA_SUCCESS, p);
  psa_key_derivation_output_key := fun _ p => (PSA_SUCCESS, 5, p);
  psa_key_derivation_abort := fun p => (PSA_SUCCESS, p)
}.

#[export] Instance sample_attest : AttestOps pstate := {
  PSA_INITIAL_ATTEST_TOKEN_MAX_SIZE := 64;
  TFM_ATTEST_BOOT_RECORDS_MAX_SIZE := 512;
  TFM_DELEGATED_ATTESTATION_SIGNAL := 16;
  psa_initial_attest_get_token := fun hash n p =>
    if n <? 1 + Z.of_nat (length hash) then (PSA_ERROR_BUFFER_TOO_SMALL, [], p) else (PSA_SUCCESS, 210 :: hash, p)
}.

(** The bytes so far and the size of the buffer. *)
#[export] Instance sample_qcbor : QcborOps := {
  QCBOREncodeContext := (list Z * Z)%type;
  QCBOREncode_Init := fun n => ([], n);
  QCBOREncode_OpenArray := fun c => (c.1 ++ [159], c.2);
  QCBOREncode_CloseArray := fun c => (c.1 ++ [255], c.2);
  QCBOREncode_OpenMap := fun c => (c.1 ++ [191], c.2);
  QCBOREncode_CloseMap := fun c => (c.1 ++ [255], c.2);
  QCBOREncode_AddBytesToMapN := fun label v c => (c.1 ++ [label; 64 + Z.of_nat (length v)] ++ v, c.2);
  QCBOREncode_AddTextToMapN := fun label v c => (c.1 ++ [label; 96 + Z.of_nat (length v)] ++ v, c.2);
  QCBOREncode_Finish := fun c => if Z.of_nat (length c.1) <=? c.2 then (0, c.1) else (1, []);
  QCBOR_SUCCESS := 0;
  QCBOR_ERR_BUFFER_TOO_SMALL := 1;
  IAT_SW_COMPONENT_SIGNER_ID := 5;
  IAT_SW_COMPONENT_VERSION := 4;
  IAT_SW_COMPONENT_MEASUREMENT_TYPE := 1;
  IAT_SW_COMPONENT_MEASUREMENT_DESC := 6;
  IAT_SW_COMPONENT_MEASUREMENT_VALUE := 2
}.

(** ** The partition after power-up *)

Definition da_off : da_state pstate :=
  {| dak_key_id := PSA_KEY_ID_NULL; dak_requested := false; boot_state_buffer := filled 512 0;
     dak_pub_hash_algo := PSA_ALG_NONE; dak_buf := filled 66 0; token_buf := filled 64 0; da_psa := quiet |}.

Definition key_request : ST (da_state pstate) Z := delegated_attest_get_delegated_key 18 256 32 33554441.
Definition with_key : da_state pstate := (key_request da_off).2.
Definition token_request : ST (da_state pstate) Z := delegated_attest_get_platform_token (toy_digest public_key) 64.
