(* ===== verification/DelegatedAttestReplies.v ===== *)
(** * How the delegated attestation partition answers

    What the partition relies on from the services that it calls
    ([DaServices]): they do not touch the messages of its clients, and what
    they return fits the buffers.  Then every request gets one reply, and data
    only with a success. *)
From Stdlib Require Import ZArith Lia.
From stdpp Require Import base list numbers gmap options.
From S2P Require Import Prelude.
From S2P Require Import FlashFsDefs.
From S2P Require Import PsaApi.
From S2P Require Import PsaSample.
From S2P Require Import MeasuredBoot.
From S2P Require Import MeasuredBootReq.
From S2P Require Import MeasuredBootSpec.
From S2P Require Import MeasuredBootRefine.
From S2P Require Import MeasuredBootExample.
From S2P Require Import DelegatedAttest.
From S2P Require Import DelegatedAttestSpec.
From S2P Require Import DelegatedAttestExample.

#[local] Set Default Proof Using "Type*".

(** [psa_status_t] is [int32_t]. *)
Definition is_status (st : Z) : Prop := -2147483648 <= st < 2147483648.

Section Services.
Context {P M : Type} {PO : PsaOps P} {PL : PsaLaws P} {PC : PsaClient P} {CO : CryptoOps P} {AO : AttestOps P} {QO : QcborOps}.
Context {HO : HashOps M} {HL : HashLaws M}.

(** The messages of the clients are as they were. *)
Record hush (p p' : P) : Prop := {
  hu_replies : replies p' = replies p;
  hu_out : forall h i, out_data p' h i = out_data p h i
}.

#[export] Instance hush_pre : PreOrder hush.
Proof using Type. split; [done|]. intros p1 p2 p3 [R1 O1] [R2 O2]. split; [congruence|]. intros h i. by rewrite O2. Qed.

(** A call that returns a status, of 32 bits. *)
Definition answers (f : P -> Z * P) : Prop := forall p, hush p (f p).2 /\ is_status (f p).1.
(** A call that fills a buffer of [n] bytes. *)
Definition fills (n : Z) (f : P -> Z * list Z * P) : Prop :=
  forall p, hush p (f p).2 /\ is_status (f p).1.1 /\ len (f p).1.2 <= Z.max 0 n.

Class DaServices : Prop := {
  ds_hash_setup : forall a, answers (psa_hash_setup a);
  ds_hash_abort : answers psa_hash_abort;
  ds_hash_compare : forall a i h, answers (psa_hash_compare a i h);
  ds_destroy_key : forall k, answers (psa_destroy_key k);
  ds_setup : forall a, answers (psa_key_derivation_setup a);
  ds_input_key : forall st k, answers (psa_key_derivation_input_key st k);
  ds_input_bytes : forall st d, answers (psa_key_derivation_input_bytes st d);
  ds_abort : answers psa_key_derivation_abort;
  ds_output_key : forall at' p, hush p (psa_key_derivation_output_key at' p).2;
  ds_public_key : forall k n, fills n (psa_export_public_key k n);
  ds_export_key : forall k n, fills n (psa_export_key k n);
  ds_token : forall c n, fills n (psa_initial_attest_get_token c n);
  ds_call : forall h t iv os p, hush p (psa_call h t iv os p).2;
  ds_encoded : forall n vs encoded, boot_state_of (P := P) (M := M) n vs = Ok encoded -> len encoded <= n
}.

Context {DS : DaServices}.
Implicit Types s : da_state P.

(** What the requests do to the partition until they write their answer. *)
Record calm s s' : Prop := {
  ca_hush : hush (da_psa s) (da_psa s');
  ca_dak : len (dak_buf s') = len (dak_buf s);
  ca_token : len (token_buf s') = len (token_buf s);
  ca_boot : len (boot_state_buffer s') = len (boot_state_buffer s)
}.

#[local] Instance calm_pre : PreOrder calm.
Proof using Type.
  split; [by intros s; split|]. intros s1 s2 s3 [H1 D1 T1 B1] [H2 D2 T2 B2]. split; [by etrans|congruence..].
Qed.

Lemma calm_psa {A} (f : P -> A * P) s : hush (da_psa s) (f (da_psa s)).2 -> calm s (set_da_psa (f (da_psa s)).2 s).
Proof using Type. intros H. by split. Qed.

Lemma wp_call {B} (f : P -> Z * P) (k : Z -> ST (da_state P) B) s0 s Q : answers f -> calm s0 s ->
  (forall st s', is_status st -> calm s0 s' -> wp (k st) s' Q) -> wp (call f ≫= k) s Q.
Proof using Type.
  intros Hf H0 Hk. apply wp_bind. unfold wp at 1, call, on_da_psa. destruct (Hf (da_psa s)) as [H1 H2].
  pose proof (calm_psa f s H1) as Hc. destruct (f (da_psa s)) as [st p']. cbn [fst snd] in *. apply Hk; [done|by etrans].
Qed.

Lemma wp_fill_buffer {B} n (f : P -> Z * list Z * P) (k : Z * list Z -> ST (da_state P) B) s0 s Q : fills n f -> calm s0 s ->
  (forall st bs s', is_status st -> len bs <= Z.max 0 n -> calm s0 s' -> wp (k (st, bs)) s' Q) -> wp (on_da_psa f ≫= k) s Q.
Proof using Type.
  intros Hf H0 Hk. apply wp_bind. unfold wp at 1, on_da_psa. destruct (Hf (da_psa s)) as (H1 & H2 & H3).
  pose proof (calm_psa f s H1) as Hc. destruct (f (da_psa s)) as [[st bs] p']. cbn [fst snd] in *. apply Hk; [done|done|by etrans].
Qed.

Lemma wp_calmly {A B} (m : ST (da_state P) A) (k : A -> ST (da_state P) B) s0 s Q : calm s0 s ->
  (exists a s', m s = (Ok a, s') /\ calm s s') -> (forall a s', calm s0 s' -> wp (k a) s' Q) -> wp (m ≫= k) s Q.
Proof using Type.
  intros H0 (a & s' & E & Hc) Hk. apply wp_bind. unfold wp at 1. rewrite E. apply Hk. by etrans.
Qed.

(** A result that the partition can report. *)
Definition reported {A} (s : da_state P) (ok : A -> da_state P -> Prop) (r : outcome A) s' : Prop :=
  calm s s' /\ match r with Ok a => ok a s' | Err e => is_status e /\ e <> PSA_SUCCESS end.

Lemma reported_raise {A} e s0 s (ok : A -> da_state P -> Prop) : calm s0 s -> is_status e -> e <> PSA_SUCCESS ->
  wp (raise e) s (reported s0 ok).
Proof using Type. intros Hc He Hn. by apply wp_raise. Qed.

Lemma wp_checked {B} st (k : unit -> ST (da_state P) B) s0 s ok : calm s0 s -> is_status st ->
  wp (k tt) s (reported s0 ok) -> wp (check st ≫= k) s (reported s0 ok).
Proof using Type.
  intros Hc Hs Hk. apply wp_bind, wp_check; [done|]. intros Hn. split; [done|]. by split.
Qed.

Lemma wp_released {A} s0 s (ok : A -> da_state P -> Prop) : calm s0 s -> wp release_op s (reported s0 ok).
Proof using DS.
  intros Hc. unfold release_op. eapply wp_call; [apply ds_abort|exact Hc|]. intros st s' _ Hc'. by apply reported_raise.
Qed.

Lemma wp_or_released {B} st (k : unit -> ST (da_state P) B) s0 s ok : calm s0 s ->
  wp (k tt) s (reported s0 ok) -> wp (or_release st ≫= k) s (reported s0 ok).
Proof using DS.
  intros Hc Hk. apply wp_bind. unfold or_release. destruct (negb (st =? PSA_SUCCESS)); [|by apply wp_ret].
  eapply wp_mono; [by apply (wp_released s0 s (fun _ _ => False))|]. intros [a|e] s' [H1 H2]; [done|by split].
Qed.

(** *** The key *)

Lemma calm_client {A} (m : ST P A) : keeps hush m -> keeps calm (on_client m).
Proof using Type. intros Hm s. unfold on_client. pose proof (Hm (da_psa s)) as H. destruct (m (da_psa s)). by split. Qed.

Lemma hush_memcpy d off src n : keeps hush (memcpy (S := P) d off src n).
Proof using Type. intros p. unfold memcpy. by destruct (_ && _). Qed.
#[local] Hint Resolve hush_memcpy : keeps.

Lemma hush_read i a b c d e f g h : keeps hush (tfm_measured_boot_read_measurement i a b c d e f g h).
Proof using DS.
  unfold tfm_measured_boot_read_measurement, unpack_reading. apply keeps_bind; [apply _| |].
  - intros p. unfold on_call. pose proof (ds_call TFM_MEASURED_BOOT_HANDLE TFM_MEASURED_BOOT_READ (read_in_vec i f d)
      [sizeof_read_iovec_out; b; h] p) as H. by destruct (psa_call _ _ _ _ p).
  - keeps_walk.
Qed.

#[local] Hint Resolve calm_client hush_read : keeps.

Lemma calm_boot_state n : keeps calm (get_platform_boot_state n).
Proof using DS.
  unfold get_platform_boot_state, boot_state_step, get_firmware_measurement_description, encode_firmware_measurement.
  keeps_walk.
Qed.

(** A key of [n] bytes, in the buffer. *)
Definition key_made (size : Z) (n : Z) s : Prop := 0 <= n <= Z.max 0 size.

Lemma calm_set_dak b s s' : calm s s' -> len b = len (dak_buf s') -> calm s (set_dak_buf b s').
Proof using Type. intros [H1 H2 H3 H4] Hb. split; try done. by rewrite <- H2. Qed.

Lemma len_over d src : len src <= len d -> len (over d src (len src)) = len d.
Proof using Type. intros H. unfold over, len in *. rewrite Nat2Z.id, firstn_all, length_app, length_drop. lia. Qed.

Lemma wp_da_copy (dst src : list Z) {B} (k : list Z -> ST (da_state P) B) s Q : len src <= len dst ->
  wp (k (over dst src (len src))) s Q -> wp (memcpy dst 0 src (Z.of_nat (length src)) ≫= k) s Q.
Proof using Type. intros Hl Hk. apply wp_bind. unfold wp at 1. unfold len in Hl. by rewrite memcpy_start by lia. Qed.

Lemma wp_derive_reported ecc bits salt size s : size <= len (dak_buf s) ->
  wp (derive_delegated_attestation_key ecc bits salt size) s (reported s (key_made size)).
Proof using DS.
  intros Hsize. assert (calm s s) as C by done. unfold derive_delegated_attestation_key.
  destruct (_ =? 0); [by apply reported_raise|]. apply wp_bind. unfold wp at 1, get. cbn [fst snd].
  eapply wp_call; [apply ds_destroy_key|exact C|]. clear C. intros st1 s1 Hs1 C.
  destruct (negb (st1 =? PSA_SUCCESS) && negb (st1 =? PSA_ERROR_INVALID_HANDLE)) eqn:E1.
  { apply andb_true_iff in E1 as [E1%negb_true_iff _]. apply Z.eqb_neq in E1. by apply reported_raise. }
  eapply wp_call; [apply ds_setup|exact C|]. clear C E1. intros st2 s2 Hs2 C. apply wp_checked; [done|done|].
  eapply wp_call; [apply ds_input_key|exact C|]. clear C. intros st3 s3 _ C. apply wp_or_released; [done|].
  eapply wp_call; [apply ds_input_bytes|exact C|]. clear C. intros st4 s4 _ C. apply wp_or_released; [done|].
  eapply wp_calmly; [exact C| |].
  { unfold on_da_psa. set (at' := {| key_usage := _ |}).
    pose proof (calm_psa (psa_key_derivation_output_key at') s4 (ds_output_key at' (da_psa s4))) as C5.
    destruct (psa_key_derivation_output_key at' (da_psa s4)) as [r p5]. by eexists _, _. }
  clear C. intros [st5 key] s5 C. eapply wp_calmly; [exact C|by eexists _, _; split; [done|by split]|].
  clear C. intros [] s6 C. apply wp_or_released; [done|].
  eapply (wp_fill_buffer size); [apply ds_export_key|exact C|]. clear C. intros st7 exported s7 Hs7 Hl C.
  apply wp_bind. unfold wp at 1, get. cbn [fst snd]. apply wp_da_copy; [rewrite (ca_dak _ _ C); unfold len in *; lia|].
  apply wp_bind, wp_modify. set (s8 := set_dak_buf _ s7). assert (calm s s8) as C8.
  { apply calm_set_dak; [done|]. apply len_over. rewrite (ca_dak _ _ C). unfold len in *; lia. }
  destruct (negb (st7 =? PSA_SUCCESS)).
  - unfold release_key. apply wp_bind. unfold wp at 1, get. cbn [fst snd].
    eapply wp_call; [apply ds_destroy_key|exact C8|]. intros st9 s9 _ C9. by apply wp_released.
  - eapply wp_call; [apply ds_abort|exact C8|]. intros st9 s9 Hs9 C9.
    apply wp_checked; [done|done|]. apply wp_ret. split; [done|]. unfold key_made, len in *. lia.
Qed.

Lemma reported_from {A} s0 s (ok : A -> da_state P -> Prop) r s' : calm s0 s -> reported s ok r s' -> reported s0 ok r s'.
Proof using Type. intros H0 [H1 H2]. split; [by etrans|done]. Qed.

(** *** The token *)

Lemma wp_token_reported hash size s : size <= len (token_buf s) ->
  wp (S := da_state P) (delegated_attest_get_platform_token hash size) s (reported s (key_made size)).
Proof using DS.
  intros Hsize. assert (calm s s) as C by done. unfold delegated_attest_get_platform_token.
  apply wp_bind. unfold wp at 1, get. cbn [fst snd]. destruct (negb (dak_requested s)); [by apply reported_raise|].
  apply wp_bind. eapply (wp_mono _ _ (reported s (fun _ _ => True))).
  { unfold verify_dak_pub_hash. apply wp_bind. unfold wp at 1, get. cbn [fst snd].
    destruct (negb _); [by apply reported_raise|].
    eapply wp_fill_buffer; [apply ds_public_key|exact C|]. clear C. intros st1 pub s1 _ _ C.
    destruct (negb _); [by apply reported_raise|].
    eapply wp_call; [apply ds_hash_compare|exact C|]. clear C. intros st2 s2 _ C.
    destruct (negb _); [by apply reported_raise|]. by apply wp_ret. }
  clear C. intros r s1 [C Hr]. destruct r as [[]|e]; [|by split].
  eapply (wp_fill_buffer size); [apply ds_token|exact C|]. clear C Hr. intros st2 token s2 Hs2 Hl C.
  apply wp_bind. unfold wp at 1, get. cbn [fst snd]. apply wp_da_copy; [rewrite (ca_token _ _ C); unfold len in *; lia|].
  apply wp_bind, wp_modify. set (s3 := set_token_buf _ s2). assert (calm s s3) as C3.
  { destruct C as [H1 H2 H3 H4]. split; try done. cbn. rewrite len_over by (unfold len in *; lia). done. }
  apply wp_checked; [done|done|]. apply wp_ret. split; [done|]. unfold key_made, len in *. lia.
Qed.

(** *** The requests *)

(** The answer to the message [m]: data go to its first output vector only,
    and only with a success. *)
Record answered (m : psa_msg_t) s (st : Z) (bs : list Z) s' : Prop := {
  an_replies : replies (da_psa s') = replies (da_psa s);
  an_out : out_data (da_psa s') (handle m) 0 = out_data (da_psa s) (handle m) 0 ++ bs;
  an_others : forall h i, (h, i) <> (handle m, 0) -> out_data (da_psa s') h i = out_data (da_psa s) h i;
  an_size : len bs <= Z.max 0 (out_len m 0);
  an_status : is_status st;
  an_success : st <> PSA_SUCCESS -> bs = []
}.

Definition handled (m : psa_msg_t) s (r : outcome unit) s' : Prop := exists bs, answered m s (status_of r) bs s'.

Lemma handled_error m s e s' : calm s s' -> is_status e -> handled m s (Err e) s'.
Proof using Type.
  intros [[H1 H2] _ _ _] He. exists []. split; [done|by rewrite H2, app_nil_r|by intros; apply H2|unfold len; cbn [length]; lia|done|done].
Qed.

Lemma wp_da_read {B} m idx n (k : list Z -> ST (da_state P) B) s0 s (Q : outcome B -> da_state P -> Prop) : calm s0 s ->
  (forall s', calm s0 s' -> Q (Err PSA_ERROR_GENERIC_ERROR) s') ->
  (forall bs s', len bs = n -> calm s0 s' -> wp (k bs) s' Q) -> wp (da_read m idx n ≫= k) s Q.
Proof using Type.
  intros C He Hk. apply wp_bind. unfold da_read. apply wp_bind. unfold wp at 1, on_da_psa.
  pose proof (pl_read (handle m) idx n (da_psa s)) as H. destruct (psa_read (handle m) idx n (da_psa s)) as [bs p'].
  destruct H as (_ & _ & _ & H1 & H2). cbn [fst snd]. set (s1 := set_da_psa p' s).
  assert (calm s0 s1) as C1 by (etrans; [exact C|]; by repeat split).
  destruct (Z.eqb_spec (Z.of_nat (length bs)) n); cbn [negb]; [apply wp_ret|apply wp_raise]; [by apply Hk|by apply He].
Qed.

(** The end of both requests. *)
Lemma wp_answer m bs s0 s n : calm s0 s -> len bs <= n -> n <= Z.max 0 (out_len m 0) ->
  wp (da_write m bs) s (handled m s0).
Proof using Type.
  intros C Hl Ho. unfold wp, da_write, on_da_psa. cbn [fst snd]. destruct C as [[H1 H2] _ _ _].
  destruct (pl_write (handle m) 0 bs (da_psa s)) as (W1 & W2 & _ & W4). exists bs.
  split; cbn [da_psa set_da_psa]; [congruence|by rewrite W1, H2| |lia|done|done].
  intros h i Hne. by rewrite W2, H2.
Qed.

Lemma handled_outcome m s0 s {A} (ok : A -> da_state P -> Prop) e s' : calm s0 s -> reported s ok (Err e) s' -> handled m s0 (Err e) s'.
Proof using Type. intros C [C1 [H1 H2]]. apply handled_error; [by etrans|done]. Qed.

(** The hash of the request goes into an array of 64 bytes.  It fits, or the
    client has announced more than it sends, or it overruns the array. *)
Definition hash_fits (m : psa_msg_t) (p : P) : bool :=
  (in_len m 0 <=? len (uninit (PSA_HASH_LENGTH PSA_ALG_SHA_512))) || (len (in_data p (handle m) 0) <? in_len m 0).

Lemma wp_token_overrun m s : hash_fits m (da_psa s) = false -> (get_platform_attestation_token m s).1 = Err UNDEFINED.
Proof using PL.
  unfold hash_fits. rewrite orb_false_iff, Z.leb_gt, Z.ltb_ge. intros [Hlong Hin].
  unfold get_platform_attestation_token, da_read, mbind, ST_bind, on_da_psa.
  pose proof (pl_read (handle m) 0 (in_len m 0) (da_psa s)) as H.
  destruct (psa_read (handle m) 0 (in_len m 0) (da_psa s)) as [bs p]. destruct H as (-> & _).
  assert (Z.of_nat (length (take (Z.to_nat (in_len m 0)) (in_data (da_psa s) (handle m) 0))) = in_len m 0) as ->.
  { unfold len in *. rewrite length_take. lia. }
  rewrite Z.eqb_refl. cbn [negb mret ST_ret fst snd]. unfold memcpy. unfold len in *.
  rewrite (proj2 (Z.leb_gt (0 + _) _)) by lia. by rewrite andb_false_r.
Qed.

Lemma wp_token_request m s : 0 <= in_len m 0 -> hash_fits m (da_psa s) = true ->
  wp (get_platform_attestation_token m) s (handled m s).
Proof using DS.
  intros Hpos Hfit. assert (calm s s) as C by done.
  destruct (Z.leb_spec (in_len m 0) (len (uninit (PSA_HASH_LENGTH PSA_ALG_SHA_512)))) as [Hmax|Hlong].
  2:{ unfold hash_fits in Hfit. rewrite (proj2 (Z.leb_gt _ _)) in Hfit by lia. apply Z.ltb_lt in Hfit.
      unfold get_platform_attestation_token. apply wp_bind. unfold da_read. apply wp_bind. unfold wp at 1, on_da_psa.
      pose proof (pl_read (handle m) 0 (in_len m 0) (da_psa s)) as H.
      destruct (psa_read (handle m) 0 (in_len m 0) (da_psa s)) as [bs p']. destruct H as (-> & _ & _ & H1 & H2). cbn [fst snd].
      unfold len in *. rewrite (proj2 (Z.eqb_neq _ _)) by (rewrite length_take; lia). cbn [negb].
      apply wp_raise, handled_error; [by repeat split|done]. }
  pose proof (conj Hpos Hmax) as Hin. clear Hfit. unfold get_platform_attestation_token.
  eapply wp_da_read; [exact C|by intros; apply handled_error|]. clear C. intros bs1 s1 Hl C. apply wp_bind.
  unfold wp at 1. unfold len in Hl, Hin. rewrite memcpy_start by lia. apply wp_bind. unfold wp at 1, get. cbn [fst snd].
  fold (len (token_buf s1)). set (size := if out_len m 0 <? len (token_buf s1) then out_len m 0 else len (token_buf s1)).
  assert (size <= len (token_buf s1) /\ size <= out_len m 0) as [Hs1 Hs2]
    by (unfold size; destruct (Z.ltb_spec (out_len m 0) (len (token_buf s1))); lia).
  destruct (_ && _ && _); [by apply wp_raise, handled_error|]. apply wp_bind.
  eapply wp_mono; [apply wp_token_reported; exact Hs1|].
  intros r s2 Hr. destruct r as [n|e]; [|by eapply handled_outcome]. destruct Hr as [C2 Hn]. unfold key_made in Hn.
  apply wp_bind. unfold wp at 1, get. cbn [fst snd]. apply (wp_answer m _ s s2 n); [by etrans| |lia].
  unfold len. rewrite length_take. lia.
Qed.
(** *** Key requests *)

Context (Hun : forall n, 0 <= n -> len (uninit n) = n) (sls : list (option aslot)) (Hcon : reads_answered sls).
Context (Hok : forall y, Some y ∈ sls -> aslot_ok y) (Hlen : length sls = 32%nat).

Lemma status_of_boot_state n vs e : boot_state_of (P := P) (M := M) n vs = Err e -> is_status e /\ e <> PSA_SUCCESS.
Proof using Type.
  unfold boot_state_of. destruct (forallb _ _); [|by intros [= <-]]. destruct (QCBOREncode_Finish _) as [err enc].
  destruct (err =? _); [by intros [= <-]|]. by destruct (negb _); intros [= <-].
Qed.

Lemma wp_key_reported ecc bits size algo s : 0 < len (boot_state_buffer s) -> size <= len (dak_buf s) ->
  wp (S := da_state P) (delegated_attest_get_delegated_key ecc bits size algo) s (reported s (key_made size)).
Proof.
  intros Hb Hsize. assert (calm s s) as C by done. unfold delegated_attest_get_delegated_key.
  eapply wp_call; [apply ds_hash_setup|exact C|]. clear C. intros st1 s1 Hs1 C.
  eapply wp_call; [apply ds_hash_abort|exact C|]. clear C. intros st2 s2 Hs2 C. apply wp_checked; [done|done|].
  apply wp_bind. unfold wp at 1, get. cbn [fst snd]. fold (len (boot_state_buffer s2)). apply wp_bind.
  pose proof (ca_boot _ _ C) as Hb2. pose proof (calm_boot_state (len (boot_state_buffer s2)) s2) as C3.
  pose proof (wp_boot_state Hun sls (len (boot_state_buffer s2)) s2 Hcon Hok Hlen ltac:(lia)) as W3.
  unfold wp in W3. unfold wp at 1. destruct (get_platform_boot_state _ s2) as [r s3]. cbn [fst snd] in *.
  destruct W3 as [_ ->]. assert (calm s s3) as C4 by (by etrans).
  destruct (boot_state_of _ _) as [encoded|e] eqn:E; [|by split; [|eapply status_of_boot_state]].
  apply ds_encoded in E. apply wp_da_copy; [lia|]. apply wp_bind, wp_modify.
  set (s5 := set_boot_state _ s3). assert (calm s s5) as C5.
  { destruct C4 as [H1 H2 H3 H4]. split; try done. cbn. rewrite len_over by lia. exact Hb2. }
  apply wp_bind. eapply wp_mono; [apply wp_derive_reported; rewrite (ca_dak _ _ C5); exact Hsize|].
  intros r s6 Hr. apply (reported_from s s5) in Hr; [|done]. destruct r as [n|e]; [|exact Hr].
  apply wp_bind, wp_modify, wp_ret. destruct Hr as [[] Hn]. by split.
Qed.

Lemma wp_key_request m s : 0 < len (boot_state_buffer s) -> wp (get_delegated_attestation_key m) s (handled m s).
Proof.
  intros Hb. assert (calm s s) as C by done. unfold get_delegated_attestation_key.
  destruct (_ || _ || _); [by apply wp_raise, handled_error|].
  eapply wp_da_read; [exact C|by intros; apply handled_error|]. clear C. intros bs1 s1 _ C.
  eapply wp_da_read; [exact C|by intros; apply handled_error|]. clear C. intros bs2 s2 _ C.
  eapply wp_da_read; [exact C|by intros; apply handled_error|]. clear C. intros bs3 s3 _ C.
  destruct (negb _); [by apply wp_raise, handled_error|]. destruct (_ && _ && _); [by apply wp_raise, handled_error|].
  destruct (_ <? _); [by apply wp_raise, handled_error|]. apply wp_bind. unfold wp at 1, get. cbn [fst snd]. apply wp_bind.
  fold (len (dak_buf s3)). set (size := if out_len m 0 <? len (dak_buf s3) then out_len m 0 else len (dak_buf s3)).
  assert (size <= len (dak_buf s3) /\ size <= out_len m 0) as [Hs1 Hs2]
    by (unfold size; destruct (Z.ltb_spec (out_len m 0) (len (dak_buf s3))); lia).
  eapply wp_mono; [apply wp_key_reported; [by rewrite (ca_boot _ _ C)|exact Hs1]|].
  intros r s4 Hr. destruct r as [n|e]; [|by eapply handled_outcome]. destruct Hr as [C4 Hn]. unfold key_made in Hn.
  apply wp_bind. unfold wp at 1, get. cbn [fst snd]. apply (wp_answer m _ s s4 n); [by etrans| |lia].
  unfold len. rewrite length_take. lia.
Qed.

End Services.
Arguments DaServices P M {_ _ _ _ _ _ _ _}.

(** ** The services of the example *)

Lemma sample_encoded n vs encoded : boot_state_of (P := pstate) (M := pstate) n vs = Ok encoded -> len encoded <= n.
Proof.
  unfold boot_state_of. destruct (forallb _ _); [|done].
  assert (forall vs c, (fold_left (enc_slot (P := pstate) (M := pstate)) vs c).2 = c.2) as Hf.
  { induction vs0 as [|v vs0 IH]; intros c; [done|]. cbn [fold_left]. by rewrite IH. }
  set (c := match vs with [] => _ | _ => _ end). assert (c.2 = n) as Hc.
  { unfold c, enc_slots. destruct vs as [|v vs]; [done|]. cbn [QCBOREncode_CloseArray sample_qcbor snd]. by rewrite Hf. }
  cbn [QCBOREncode_Finish sample_qcbor]. rewrite Hc. destruct (Z.leb_spec (Z.of_nat (length c.1)) n); cbn; [|done].
  by intros [= <-].
Qed.

Lemma sample_fills n l : fills n (fun p : pstate =>
  if n <? len l then (PSA_ERROR_BUFFER_TOO_SMALL, [], p) else (PSA_SUCCESS, l, p)).
Proof. intros p. destruct (Z.ltb_spec n (len l)); cbn [fst snd]; (split; [done|split; [done|]]); unfold len in *; cbn [length]; lia. Qed.

Lemma sample_silent (h t : Z) iv os (p : pstate) : hush p (psa_call h t iv os p).2.
Proof.
  cbn -[aserve]. destruct iv as [|v [|? ?]]; [done| |done]. destruct os as [|a [|b [|c [|? ?]]]]; try done.
  by destruct (aserve _ _ _ _) as [[st outs] ?].
Qed.

#[export] Instance sample_services : DaServices pstate pstate.
Proof.
  split; try (intros; split; done); try (intros; done).
  - intros a i h p. split; [done|]. cbn. by destruct (bool_decide _).
  - intros k n. apply (sample_fills n public_key).
  - intros k n. apply (sample_fills n (replicate 32 9)).
  - intros c n. pose proof (sample_fills n (210 :: c)) as H. intros p. specialize (H p).
    replace (len (210 :: c)) with (1 + Z.of_nat (length c)) in H by (unfold len; cbn [length]; lia). exact H.
  - apply sample_silent.
  - apply sample_encoded.
Qed.
