(* ===== verification/DelegatedAttestTheorems.v ===== *)
(** * What delegated attestation guarantees *)
From Stdlib Require Import ZArith Lia.
From stdpp Require Import base list numbers gmap options.
From S2P Require Import Prelude.
From S2P Require Import FlashFsDefs.
From S2P Require Import PsaApi.
From S2P Require Import PsaSample.
From S2P Require Import MeasuredBoot.
From S2P Require Import MeasuredBootReq.
From S2P Require Import MeasuredBootSpec.
From S2P Require Import MeasuredBootRefine.
From S2P Require Import MeasuredBootExample.
From S2P Require Import DelegatedAttest.
From S2P Require Import DelegatedAttestSpec.
From S2P Require Import DelegatedAttestExample.
From S2P Require Import DelegatedAttestReplies.

#[local] Set Default Proof Using "Type*".

(** ** The key and the token *)

Section Keys.
Context {P : Type} {PO : PsaOps P} {PC : PsaClient P} {CO : CryptoOps P} {AO : AttestOps P} {QO : QcborOps}.
Implicit Types s : da_state P.

(** What is remembered of key requests. *)
Record flags_kept s s' : Prop := {
  fk_requested : dak_requested s' = dak_requested s;
  fk_algo : dak_pub_hash_algo s' = dak_pub_hash_algo s
}.

#[local] Instance flags_kept_pre : PreOrder flags_kept.
Proof using Type. split; [done|]. intros s1 s2 s3 [] []. split; congruence. Qed.

Lemma flags_psa {A} (f : P -> A * P) : keeps flags_kept (on_da_psa f).
Proof using Type. intros s. unfold on_da_psa. by destruct (f (da_psa s)). Qed.

Lemma flags_call (f : P -> Z * P) : keeps flags_kept (call f).
Proof using Type. apply flags_psa. Qed.

Lemma flags_client {A} (m : ST P A) : keeps flags_kept (on_client m).
Proof using Type. intros s. unfold on_client. by destruct (m (da_psa s)). Qed.

Lemma flags_modify f : (forall s, flags_kept s (f s)) -> keeps flags_kept (modify f).
Proof using Type. intros H s. apply H. Qed.

Lemma flags_memcpy d off src n : keeps flags_kept (memcpy (S := da_state P) d off src n).
Proof using Type. intros s. unfold memcpy. by destruct (_ && _). Qed.

#[local] Hint Resolve flags_psa flags_call flags_client flags_memcpy : keeps.
#[local] Hint Extern 1 (keeps flags_kept (modify _)) => (apply flags_modify; done) : keeps.

Lemma flags_boot_state n : keeps flags_kept (get_platform_boot_state n).
Proof.
  unfold get_platform_boot_state, boot_state_step, get_firmware_measurement_description, encode_firmware_measurement.
  keeps_walk.
Qed.

Lemma flags_derive ecc bits salt n : keeps flags_kept (derive_delegated_attestation_key ecc bits salt n).
Proof. unfold derive_delegated_attestation_key, or_release, release_key, release_op. keeps_walk. Qed.

Lemma flags_token h n : keeps flags_kept (delegated_attest_get_platform_token h n).
Proof. unfold delegated_attest_get_platform_token, verify_dak_pub_hash. keeps_walk. Qed.

(** ** Key requests *)

(** The calls of a derivation that succeeds, from the framework [p0]: the
    salt is the only input beside the seed, and [key] is exported. *)
Inductive derivation (ecc bits : Z) (salt : list Z) (size : Z) (p0 : P) (key : Z) (exported : list Z) : Prop :=
| derived p1 p2 p3 p4 p5 :
    psa_key_derivation_setup (PSA_ALG_HKDF PSA_ALG_SHA_256) p0 = (PSA_SUCCESS, p1) ->
    psa_key_derivation_input_key PSA_KEY_DERIVATION_INPUT_SECRET TFM_BUILTIN_KEY_ID_DAK_SEED p1 = (PSA_SUCCESS, p2) ->
    psa_key_derivation_input_bytes PSA_KEY_DERIVATION_INPUT_INFO salt p2 = (PSA_SUCCESS, p3) ->
    psa_key_derivation_output_key {| key_usage := PSA_KEY_USAGE_EXPORT; key_type := PSA_KEY_TYPE_ECC_KEY_PAIR ecc;
      key_bits := bits |} p3 = (PSA_SUCCESS, key, p4) ->
    psa_export_key key size p4 = (PSA_SUCCESS, exported, p5) ->
    derivation ecc bits salt size p0 key exported.

(** Case analysis on the status of the next call. *)
Ltac next_call :=
  apply wp_bind; unfold wp at 1, call, on_da_psa; cbn [fst snd da_psa set_da_psa];
  match goal with |- context [let '(_, _) := ?f in _] => let st := fresh "st" in let p := fresh "p" in
    let E := fresh "E" in destruct f as [st p] eqn:E; cbn [fst snd] end.

Lemma wp_or_release st s (Q : outcome unit -> da_state P -> Prop) :
  (st = PSA_SUCCESS -> Q (Ok tt) s) -> (forall s', Q (Err PSA_ERROR_GENERIC_ERROR) s') -> wp (or_release st) s Q.
Proof using Type.
  intros H1 H2. unfold or_release. destruct (Z.eqb_spec st PSA_SUCCESS); cbn [negb]; [by apply wp_ret, H1|].
  unfold release_op. apply wp_bind. unfold wp, call, on_da_psa.
  destruct (psa_key_derivation_abort (da_psa s)). apply H2.
Qed.

Lemma wp_memcpy_all dst src s (Q : outcome (list Z) -> da_state P -> Prop) :
  Q (Ok (over dst src (len src))) s -> Q (Err UNDEFINED) s -> wp (memcpy dst 0 src (Z.of_nat (length src))) s Q.
Proof using Type.
  intros H1 H2. destruct (decide (length src <= length dst)%nat).
  - unfold wp. rewrite memcpy_start by lia. exact H1.
  - unfold wp, memcpy. cbn [Z.leb]. rewrite (proj2 (Z.leb_gt _ (Z.of_nat (length dst)))) by lia.
    rewrite andb_false_r. exact H2.
Qed.

Lemma wp_derive ecc bits salt size s :
  wp (derive_delegated_attestation_key ecc bits salt size) s (fun r s' =>
    match r with
    | Ok n => salt <> [] /\ exists p0 exported, derivation ecc bits salt size p0 (dak_key_id s') exported /\
        n = len exported /\ take (Z.to_nat n) (dak_buf s') = exported /\ boot_state_buffer s' = boot_state_buffer s
    | Err _ => True
    end).
Proof using Type.
  unfold derive_delegated_attestation_key. destruct (Z.eqb_spec (Z.of_nat (length salt)) 0); [by apply wp_raise|].
  assert (salt <> []) as Hsalt by (by intros ->).
  apply wp_bind. unfold wp at 1, get. cbn [fst snd].
  next_call. destruct (negb (st =? PSA_SUCCESS) && negb (st =? PSA_ERROR_INVALID_HANDLE)); [by apply wp_raise|].
  next_call. apply wp_bind, wp_check; [intros ->|done].
  next_call. apply wp_bind, wp_or_release; [intros ->|done].
  next_call. apply wp_bind, wp_or_release; [intros ->|done].
  apply wp_bind. unfold wp at 1, on_da_psa. cbn [da_psa set_da_psa].
  destruct (psa_key_derivation_output_key _ p2) as [[st3 key] p3] eqn:E3. cbn [fst snd].
  apply wp_bind, wp_modify. apply wp_bind, wp_or_release; [intros ->|done].
  apply wp_bind. unfold wp at 1, on_da_psa. cbn [da_psa set_da_psa set_dak_key_id].
  destruct (psa_export_key key size p3) as [[st4 exported] p4] eqn:E4. cbn [fst snd].
  apply wp_bind. unfold wp at 1, get. cbn [fst snd]. apply wp_bind.
  apply wp_memcpy_all; [|done].
  apply wp_bind, wp_modify. destruct (Z.eqb_spec st4 PSA_SUCCESS) as [->|]; cbn [negb].
  2:{ unfold release_key. apply wp_bind. unfold wp at 1, get. cbn [fst snd]. next_call. unfold release_op. next_call. by apply wp_raise. }
  next_call. apply wp_bind, wp_check; [intros ->|done]. apply wp_ret. split; [done|].
  eexists _, exported. split_and!; [by econstructor|done| |done].
  apply over_len.
Qed.

(** A key request, on both branches. *)
Lemma key_derived {M : Type} {HO : HashOps M} {HL : HashLaws M}
    (Hun : forall n, 0 <= n -> len (uninit n) = n) sls (Hcon : reads_answered sls)
    (Hok : forall y, Some y ∈ sls -> aslot_ok y) (Hlen : length sls = 32%nat)
    ecc bits size algo s r s' (Hbuf : 0 < len (boot_state_buffer s))
    (E : delegated_attest_get_delegated_key ecc bits size algo s = (r, s')) :
  match r with
  | Ok n => exists encoded p0 exported,
      boot_state_of (len (boot_state_buffer s)) (visible sls full_buffers) = Ok encoded /\ encoded <> [] /\
      derivation ecc bits encoded size p0 (dak_key_id s') exported /\
      n = len exported /\ take (Z.to_nat n) (dak_buf s') = exported /\
      dak_requested s' = true /\ dak_pub_hash_algo s' = algo
  | Err _ => dak_requested s' = dak_requested s /\ dak_pub_hash_algo s' = dak_pub_hash_algo s
  end.
Proof.
  refine (wp_elim _ _ (fun r s' => _) _ _ E _). clear E r s'.
  unfold delegated_attest_get_delegated_key.
  next_call. next_call. apply wp_bind, wp_check; [intros ->|done].
  apply wp_bind. unfold wp at 1, get. cbn [fst snd]. set (s1 := set_da_psa p0 _).
  change (boot_state_buffer s1) with (boot_state_buffer s). fold (len (boot_state_buffer s)).
  apply wp_bind. eapply wp_mono; [by apply (wp_boot_state Hun sls (len (boot_state_buffer s)) s1)|].
  intros r s2 [[p2 ->] ->]. set (r := boot_state_of _ _) in *. destruct r as [encoded|e]; [|done].
  apply wp_bind, wp_memcpy_all; [|done].
  apply wp_bind, wp_modify. rewrite over_all.
  set (s3 := set_boot_state _ _). apply wp_bind.
  pose proof (wp_derive ecc bits encoded size s3) as Hd. pose proof (flags_derive ecc bits encoded size s3) as [F1 F2].
  unfold wp in Hd. unfold wp at 1.
  destruct (derive_delegated_attestation_key ecc bits encoded size s3) as [[n|e] s4]; cbn [fst snd] in *; [|done].
  destruct Hd as (Hne & q & exported & Hder & -> & Htake & _). apply wp_bind, wp_modify, wp_ret.
  exists encoded, q, exported. by split_and!.
Qed.

(** C37: A key request that succeeds has derived the key from the seed and the
    encoded boot state alone: the encoding of the slots visible in the
    measured boot partition, which is not empty; it leaves the exported key in
    the buffer and remembers the hash algorithm.  A request that fails leaves
    what is remembered of earlier requests. *)
Theorem key_derived_from_boot_state {M : Type} {HO : HashOps M} {HL : HashLaws M}
    (Hun : forall n, 0 <= n -> len (uninit n) = n) sls (Hcon : reads_answered sls)
    (Hok : forall y, Some y ∈ sls -> aslot_ok y) (Hlen : length sls = 32%nat)
    ecc bits size algo s r s' (Hbuf : 0 < len (boot_state_buffer s))
    (E : delegated_attest_get_delegated_key ecc bits size algo s = (r, s')) :
  match r with
  | Ok n => exists encoded p0 exported,
      boot_state_of (len (boot_state_buffer s)) (visible sls full_buffers) = Ok encoded /\ encoded <> [] /\
      derivation ecc bits encoded size p0 (dak_key_id s') exported /\
      n = len exported /\ take (Z.to_nat n) (dak_buf s') = exported /\
      dak_requested s' = true /\ dak_pub_hash_algo s' = algo
  | Err _ => dak_requested s' = dak_requested s /\ dak_pub_hash_algo s' = dak_pub_hash_algo s
  end.
Proof. exact (key_derived Hun sls Hcon Hok Hlen ecc bits size algo s r s' Hbuf E). Qed.

(** Without a measurement there is no key. *)
Theorem no_measurement_no_key {M : Type} {HO : HashOps M} {HL : HashLaws M}
    (Hun : forall n, 0 <= n -> len (uninit n) = n) sls (Hcon : reads_answered sls)
    (Hnone : visible sls full_buffers = []) (Hlen : length sls = 32%nat) (Hok : forall y, Some y ∈ sls -> aslot_ok y)
    (Hempty : forall n, QCBOREncode_Finish (QCBOREncode_Init n) = (QCBOR_SUCCESS, []))
    ecc bits size algo s r s' (Hbuf : 0 < len (boot_state_buffer s))
    (E : delegated_attest_get_delegated_key ecc bits size algo s = (Ok r, s')) : False.
Proof.
  pose proof (key_derived Hun sls Hcon Hok Hlen ecc bits size algo s (Ok r) s' Hbuf E) as
    (encoded & _ & _ & Henc & Hne & _).
  unfold boot_state_of in Henc. rewrite Hnone in Henc. cbn [forallb enc_slots] in Henc. rewrite Hempty in Henc.
  destruct (_ =? _); [done|]. rewrite Z.eqb_refl in Henc. cbn in Henc. congruence.
Qed.

(** ** Tokens *)

(** The request, call by call. *)
Lemma token_eq s hash size : delegated_attest_get_platform_token hash size s =
  if negb (dak_requested s) || negb (len hash =? PSA_HASH_LENGTH (dak_pub_hash_algo s))
  then (Err PSA_ERROR_INVALID_ARGUMENT, s)
  else
    let '(st1, pub, p1) := psa_export_public_key (dak_key_id s) (PSA_KEY_EXPORT_ECC_PUBLIC_KEY_MAX_SIZE 521) (da_psa s) in
    if negb (st1 =? PSA_SUCCESS) then (Err PSA_ERROR_GENERIC_ERROR, set_da_psa p1 s)
    else
      let '(st2, p2) := psa_hash_compare (dak_pub_hash_algo s) pub hash p1 in
      if negb (st2 =? PSA_SUCCESS) then (Err PSA_ERROR_INVALID_ARGUMENT, set_da_psa p2 s)
      else
        let '(st3, token, p3) := psa_initial_attest_get_token hash size p2 in
        if negb (length token <=? length (token_buf s))%nat then (Err UNDEFINED, set_da_psa p3 s)
        else (if st3 =? PSA_SUCCESS then Ok (len token) else Err st3,
              set_token_buf (over (token_buf s) token (len token)) (set_da_psa p3 s)).
Proof using Type.
  unfold delegated_attest_get_platform_token. rewrite (bind_ok _ _ s s s) by done.
  destruct (dak_requested s); cbn [negb orb]; [|done].
  unfold verify_dak_pub_hash. fold (len hash). unfold mbind, ST_bind, get.
  destruct (negb (len hash =? _)); [done|]. unfold call, on_da_psa.
  destruct (psa_export_public_key _ _ _) as [[st1 pub] p1]. destruct (negb (st1 =? PSA_SUCCESS)); [done|].
  cbn [da_psa set_da_psa].
  destruct (psa_hash_compare _ _ _ _) as [st2 p2]. destruct (negb (st2 =? PSA_SUCCESS)); [done|].
  cbn [mret ST_ret da_psa set_da_psa]. destruct (psa_initial_attest_get_token hash size p2) as [[st3 token] p3].
  destruct (Nat.leb_spec (length token) (length (token_buf s))) as [Hl|Hl]; cbn [negb].
  - rewrite memcpy_start by (cbn [token_buf set_da_psa]; lia). unfold modify, check.
    by destruct (st3 =? PSA_SUCCESS).
  - unfold memcpy. cbn [Z.leb token_buf set_da_psa]. rewrite (proj2 (Z.leb_gt _ (Z.of_nat (length (token_buf s))))) by lia.
    by rewrite andb_false_r.
Qed.

(** A token request: refused with PSA_ERROR_INVALID_ARGUMENT and without
    any effect before a key has been requested or when the hash has the wrong
    length; otherwise the public part of the current key is exported, hashed
    with the algorithm of the key request and compared, and only if the hashes
    agree does the initial attestation service make a token for the hash. *)
Theorem platform_token_checks s hash size
    (Hroom : forall p, len (psa_initial_attest_get_token hash size p).1.2 <= len (token_buf s)) :
  let res := delegated_attest_get_platform_token hash size s in
  if negb (dak_requested s) || negb (len hash =? PSA_HASH_LENGTH (dak_pub_hash_algo s))
  then res = (Err PSA_ERROR_INVALID_ARGUMENT, s)
  else
    let '(st1, pub, p1) := psa_export_public_key (dak_key_id s) (PSA_KEY_EXPORT_ECC_PUBLIC_KEY_MAX_SIZE 521) (da_psa s) in
    if negb (st1 =? PSA_SUCCESS) then res.1 = Err PSA_ERROR_GENERIC_ERROR
    else
      let '(st2, p2) := psa_hash_compare (dak_pub_hash_algo s) pub hash p1 in
      if negb (st2 =? PSA_SUCCESS) then res.1 = Err PSA_ERROR_INVALID_ARGUMENT
      else
        let '(st3, token, p3) := psa_initial_attest_get_token hash size p2 in
        if st3 =? PSA_SUCCESS
        then res.1 = Ok (len token) /\ take (length token) (token_buf res.2) = token
        else res.1 = Err st3.
Proof using Type.
  cbv zeta. rewrite token_eq. destruct (_ || _); [done|].
  destruct (psa_export_public_key _ _ _) as [[st1 pub] p1]. destruct (negb (st1 =? PSA_SUCCESS)); [done|].
  destruct (psa_hash_compare _ _ _ _) as [st2 p2]. destruct (negb (st2 =? PSA_SUCCESS)); [done|].
  specialize (Hroom p2). destruct (psa_initial_attest_get_token hash size p2) as [[st3 token] p3]. cbn [fst snd] in Hroom.
  rewrite (proj2 (Nat.leb_le _ _)) by (unfold len in *; lia). cbn [negb].
  destruct (st3 =? PSA_SUCCESS); cbn; [|done]. split; [done|]. apply over_all.
Qed.

(** Requests in the order they are served, and whether they were granted; for
    a key request also the identifier of the key that the partition holds
    after it. *)
Inductive da_event : Type := KeyRequest (algo key : Z) (ok : bool) | TokenRequest (hash : list Z) (ok : bool).

Definition granted {A} (r : outcome A) : bool := match r with Ok _ => true | Err _ => false end.

Inductive da_run : da_state P -> list da_event -> da_state P -> Prop :=
| dr_nil s : da_run s [] s
| dr_psa s p es s' : da_run (set_da_psa p s) es s' -> da_run s es s'
| dr_key s ecc bits size algo r s1 es s' :
    delegated_attest_get_delegated_key ecc bits size algo s = (r, s1) -> da_run s1 es s' ->
    da_run s (KeyRequest algo (dak_key_id s1) (granted r) :: es) s'
| dr_token s hash size r s1 es s' :
    delegated_attest_get_platform_token hash size s = (r, s1) -> da_run s1 es s' ->
    da_run s (TokenRequest hash (granted r) :: es) s'.

(** The algorithm of the last key request that was granted. *)
Definition remember (k : option Z) (e : da_event) : option Z :=
  match e with KeyRequest algo _ true => Some algo | _ => k end.
Definition last_key (es : list da_event) : option Z := fold_left remember es None.
(** The key that the partition holds: the one of the last key request. *)
Definition held (key : Z) (e : da_event) : Z := match e with KeyRequest _ key' _ => key' | TokenRequest _ _ => key end.
Definition held_key (key : Z) (es : list da_event) : Z := fold_left held es key.
Definition remembered s : option Z := if dak_requested s then Some (dak_pub_hash_algo s) else None.

Lemma flags_remembered s s' : flags_kept s s' -> remembered s' = remembered s.
Proof using Type. intros [H1 H2]. unfold remembered. by rewrite H1, H2. Qed.

Lemma key_remembered ecc bits size algo s : let '(r, s') := delegated_attest_get_delegated_key ecc bits size algo s in
  remembered s' = remember (remembered s) (KeyRequest algo (dak_key_id s') (granted r)).
Proof.
  set (m := delegated_attest_get_delegated_key ecc bits size algo).
  assert (wp m s (fun r s' => remembered s' = remember (remembered s) (KeyRequest algo (dak_key_id s') (granted r)))) as H.
  2:{ unfold wp in H. by destruct (m s). }
  assert (forall A (m1 : ST (da_state P) A) (k : A -> ST (da_state P) Z) s0, flags_kept s s0 -> keeps flags_kept m1 ->
    (forall a s1, flags_kept s s1 -> wp (k a) s1 (fun r s' => remembered s' = remember (remembered s) (KeyRequest algo (dak_key_id s') (granted r)))) ->
    wp (m1 ≫= k) s0 (fun r s' => remembered s' = remember (remembered s) (KeyRequest algo (dak_key_id s') (granted r)))) as Hstep.
  { intros A m1 k s0 Hs0 Hm1 Hk. apply wp_bind. specialize (Hm1 s0). unfold wp at 1.
    destruct (m1 s0) as [[a|e] s1]; cbn [fst snd] in *; [apply Hk; by etrans|]. cbn [granted remember].
    apply flags_remembered. by etrans. }
  unfold m, delegated_attest_get_delegated_key. apply Hstep; [done|apply flags_call|]. intros st s1 H1.
  apply Hstep; [done|apply flags_call|]. intros st2 s2 H2.
  apply Hstep; [done|apply keeps_check; apply _|]. intros [] s3 H3.
  apply Hstep; [done|apply keeps_get; apply _|]. intros s4 s5 H5.
  apply Hstep; [done|apply flags_boot_state|]. intros encoded s6 H6.
  apply Hstep; [done|apply flags_memcpy|]. intros b s7 H7.
  apply Hstep; [done|by apply flags_modify|]. intros [] s8 H8.
  apply Hstep; [done|apply flags_derive|]. intros n s9 H9.
  apply wp_bind, wp_modify. by apply wp_ret.
Qed.

Lemma run_remembered s es s' : da_run s es s' -> remembered s' = fold_left remember es (remembered s).
Proof.
  induction 1 as [s|s p es s' _ IH|s ecc bits size algo r s1 es s' E _ IH|s hash size r s1 es s' E _ IH]; [done|by rewrite IH| |].
  - pose proof (key_remembered ecc bits size algo s) as Hk. rewrite E in Hk. rewrite IH, Hk. done.
  - pose proof (flags_token hash size s) as Hk. rewrite E in Hk. cbn [snd] in Hk. rewrite IH, (flags_remembered _ _ Hk). done.
Qed.

(** A token request does not change the key. *)
Lemma token_key hash size s : dak_key_id (delegated_attest_get_platform_token hash size s).2 = dak_key_id s.
Proof using Type. rewrite token_eq. by repeat case_match. Qed.

Lemma run_key s es s' : da_run s es s' -> dak_key_id s' = held_key (dak_key_id s) es.
Proof using Type.
  induction 1 as [s|s p es s' _ IH|s ecc bits size algo r s1 es s' E _ IH|s hash size r s1 es s' E _ IH]; try done.
  rewrite IH. pose proof (token_key hash size s) as Hk. rewrite E in Hk. cbn [snd] in Hk. by rewrite Hk.
Qed.

(** The state in which the last request of a run was served. *)
Lemma run_last s es e s' : da_run s (es ++ [e]) s' -> exists s1 s2, da_run s es s1 /\ da_run s2 [] s' /\
  match e with
  | KeyRequest algo key ok => exists ecc bits size r, delegated_attest_get_delegated_key ecc bits size algo s1 = (r, s2) /\
      key = dak_key_id s2 /\ ok = granted r
  | TokenRequest hash ok => exists size r, delegated_attest_get_platform_token hash size s1 = (r, s2) /\ ok = granted r
  end.
Proof using Type.
  intros H. remember (es ++ [e]) as es' eqn:E. revert es E.
  induction H as [s|s p es0 s' H IH|s ecc bits size algo r s1 es0 s' He H IH|s hash size r s1 es0 s' He H IH]; intros es E.
  - by destruct es.
  - destruct (IH es E) as (s1 & s2 & H1 & H2 & H3). exists s1, s2. split; [by econstructor|done].
  - destruct es as [|e0 es]; cbn in E.
    + injection E as <- ->. exists s, s1. split; [constructor|]. split; [exact H|]. by exists ecc, bits, size, r.
    + injection E as <- E. destruct (IH es E) as (s2 & s3 & H1 & H2 & H3). exists s2, s3. split; [by econstructor|done].
  - destruct es as [|e0 es]; cbn in E.
    + injection E as <- ->. exists s, s1. split; [constructor|]. split; [exact H|]. by exists size, r.
    + injection E as <- E. destruct (IH es E) as (s2 & s3 & H1 & H2 & H3). exists s2, s3. split; [by econstructor|done].
Qed.

Lemma token_granted hash size s n s' : delegated_attest_get_platform_token hash size s = (Ok n, s') ->
  exists algo, remembered s = Some algo /\ len hash = PSA_HASH_LENGTH algo /\
    exists pub token p1 p2 p3,
      psa_export_public_key (dak_key_id s) (PSA_KEY_EXPORT_ECC_PUBLIC_KEY_MAX_SIZE 521) (da_psa s) = (PSA_SUCCESS, pub, p1) /\
      psa_hash_compare algo pub hash p1 = (PSA_SUCCESS, p2) /\
      psa_initial_attest_get_token hash size p2 = (PSA_SUCCESS, token, p3) /\
      n = len token /\ take (length token) (token_buf s') = token.
Proof using Type.
  intros E. rewrite token_eq in E. unfold remembered. destruct (dak_requested s); cbn [negb orb] in E; [|done].
  exists (dak_pub_hash_algo s). split; [done|].
  destruct (Z.eqb_spec (len hash) (PSA_HASH_LENGTH (dak_pub_hash_algo s))); cbn [negb] in E; [|done].
  split; [done|]. destruct (psa_export_public_key _ _ _) as [[st1 pub] p1].
  destruct (Z.eqb_spec st1 PSA_SUCCESS) as [->|]; cbn [negb] in E; [|done].
  destruct (psa_hash_compare _ _ _ _) as [st2 p2] eqn:E2.
  destruct (Z.eqb_spec st2 PSA_SUCCESS) as [->|]; cbn [negb] in E; [|done].
  destruct (psa_initial_attest_get_token hash size p2) as [[st3 token] p3] eqn:E3.
  destruct (negb _); [done|]. destruct (Z.eqb_spec st3 PSA_SUCCESS) as [->|]; [|done]. injection E as <- <-.
  exists pub, token, p1, p2, p3. split_and!; try done. apply over_all.
Qed.

(** C14: No token without a key: in every run of key and token requests from a
    state in which no key has been requested, a token that is granted was
    preceded by a key request that was granted; the token is made only after
    the public part of the key that the partition holds then, the one left by
    the last key request of the run, was exported and its hash, under the
    algorithm of the last key request that was granted, agreed with the hash
    of the request; and the token is the one that the initial attestation
    service made for that hash. *)
Theorem token_needs_key s es hash s' (H0 : dak_requested s = false)
    (Hrun : da_run s (es ++ [TokenRequest hash true]) s') :
  exists s1 algo, da_run s es s1 /\ last_key es = Some algo /\ len hash = PSA_HASH_LENGTH algo /\
    dak_key_id s1 = held_key (dak_key_id s) es /\
    exists pub token size p1 p2 p3,
      psa_export_public_key (dak_key_id s1) (PSA_KEY_EXPORT_ECC_PUBLIC_KEY_MAX_SIZE 521) (da_psa s1) = (PSA_SUCCESS, pub, p1) /\
      psa_hash_compare algo pub hash p1 = (PSA_SUCCESS, p2) /\
      psa_initial_attest_get_token hash size p2 = (PSA_SUCCESS, token, p3) /\
      take (length token) (token_buf s') = token.
Proof.
  destruct (run_last _ _ _ _ Hrun) as (s1 & s2 & Hrun1 & Hrun2 & size & [n|] & E & Hr); [|done].
  destruct (token_granted _ _ _ _ _ E) as (algo & Ha & Hl & pub & token & p1 & p2 & p3 & E1 & E2 & E3 & _ & Ht).
  assert (token_buf s' = token_buf s2) as Hb.
  { clear -Hrun2. remember [] as es eqn:Ee. by induction Hrun2 as [|? ? ? ? _ IH| |]; [|apply IH| |]. }
  exists s1, algo. split; [exact Hrun1|]. split; [|split; [exact Hl|split; [by apply run_key|]]].
  - pose proof (run_remembered _ _ _ Hrun1) as Hm. unfold remembered at 2 in Hm. rewrite H0 in Hm.
    unfold last_key. by rewrite <- Hm.
  - exists pub, token, size, p1, p2, p3. by rewrite Hb.
Qed.

(** The hash of a token request is copied into an array of 64 bytes before its
    length is checked: a longer one is written outside the array. *)
Theorem long_hash_overflows {PL : PsaLaws P} s m bs (Hin : in_data (da_psa s) (handle m) 0 = bs)
    (Hlen : in_len m 0 = len bs) (Hlong : len (uninit (PSA_HASH_LENGTH PSA_ALG_SHA_512)) < len bs) :
  (get_platform_attestation_token m s).1 = Err UNDEFINED.
Proof using Type.
  unfold get_platform_attestation_token. rewrite Hlen.
  pose proof (pl_read (handle m) 0 (len bs) (da_psa s)) as Hr.
  destruct (psa_read (handle m) 0 (len bs) (da_psa s)) as [bs' p] eqn:E. destruct Hr as (Hbs & _).
  rewrite Hin, take_ge in Hbs by (unfold len; lia). subst bs'.
  rewrite (bind_ok _ _ s bs (set_da_psa p s)).
  - unfold mbind, ST_bind. unfold memcpy. unfold len in *.
    rewrite (proj2 (Z.leb_gt (0 + _) _)) by lia. by rewrite andb_false_r.
  - unfold da_read. rewrite (bind_ok _ _ s bs (set_da_psa p s)) by (unfold on_da_psa; by rewrite E).
    fold (len bs). by rewrite Z.eqb_refl.
Qed.
End Keys.

(** ** Replies *)

Section Replies.
Context {P M : Type} {PO : PsaOps P} {PL : PsaLaws P} {PC : PsaClient P} {CO : CryptoOps P} {AO : AttestOps P} {QO : QcborOps}.
Context {HO : HashOps M} {HL : HashLaws M} {DS : DaServices P M}.
Implicit Types s : da_state P.

(** One reply to the message [m], and data for its client only with a success. *)
Definition replied m s p s' : Prop := exists st bs,
  replies (da_psa s') = replies (da_psa s) ++ [(handle m, st)] /\
  out_data (da_psa s') (handle m) 0 = out_data p (handle m) 0 ++ bs /\
  (forall h i, (h, i) <> (handle m, 0) -> out_data (da_psa s') h i = out_data p h i) /\
  len bs <= Z.max 0 (out_len m 0) /\ (st <> PSA_SUCCESS -> bs = []).

Lemma wp_handle_and_reply m (h : psa_msg_t -> ST (da_state P) unit) s p : replies p = replies (da_psa s) ->
  wp (h m) (set_da_psa p s) (handled m (set_da_psa p s)) ->
  exists s', da_handle_and_reply m h (set_da_psa p s) = (Ok tt, s') /\ replied m s p s'.
Proof using Type.
  intros Hp H. unfold da_handle_and_reply, attempt, mbind, ST_bind. unfold wp in H.
  destruct (h m (set_da_psa p s)) as [r s1]. cbn [fst snd] in H. destruct H as [bs [H1 H2 H3 H4 H5 H6]].
  destruct (Z.eqb_spec (status_of r) UNDEFINED) as [E|_]; [by rewrite E in H5; destruct H5|].
  eexists. split; [reflexivity|]. exists (status_of r), bs. destruct (pl_reply (handle m) (status_of r) (da_psa s1)) as [R1 R2].
  cbn [da_psa set_da_psa] in *. split_and!; [by rewrite R1, H1, Hp|by rewrite R2|intros h' i Hne; by rewrite R2, H3|done|done].
Qed.

(** C26: Every key request that is delivered gets exactly one reply, whatever
    the services below answer, and so does every token request whose hash fits
    the array of 64 bytes that it is read into (or is announced longer than it
    is sent); only its own client is sent data, only together with a success,
    and no more than it has room for.  A longer hash is written outside the
    array before its size is checked, so that nothing can be said of the reply
    then.  A message of any other type is a panic. *)
Theorem attestation_replies sls (Hcon : reads_answered (P := P) sls) (Hun : forall n, 0 <= n -> len (uninit n) = n)
    (Hok : forall y, Some y ∈ sls -> aslot_ok y) (Hlen : length sls = 32%nat)
    sig m p s (Hget : psa_get sig (da_psa s) = (PSA_SUCCESS, m, p)) (Hbuf : 0 < len (boot_state_buffer s)) :
  let answered := exists s', delegated_attestation_signal_handle sig s = (Ok tt, s') /\ replied m s p s' in
  match type m with
  | PSA_IPC_OTHER n =>
      if n =? DELEGATED_ATTEST_GET_DELEGATED_KEY then answered
      else if n =? DELEGATED_ATTEST_GET_PLATFORM_TOKEN then
        if hash_fits m p then answered else (delegated_attestation_signal_handle sig s).1 = Err UNDEFINED
      else (delegated_attestation_signal_handle sig s).1 = Err PANIC
  | _ => (delegated_attestation_signal_handle sig s).1 = Err PANIC
  end.
Proof.
  pose proof (pl_get sig (da_psa s)) as Hr. pose proof (pl_sizes sig (da_psa s)) as Hm. rewrite Hget in Hr, Hm.
  specialize (Hm eq_refl). cbn [fst snd] in Hr, Hm. unfold delegated_attestation_signal_handle.
  rewrite (bind_ok _ _ s (PSA_SUCCESS, m) (set_da_psa p s)) by (unfold on_da_psa; by rewrite Hget).
  rewrite Z.eqb_refl. cbn [negb]. cbv zeta.
  destruct (type m) as [| | |n]; [done..|].
  destruct (n =? DELEGATED_ATTEST_GET_DELEGATED_KEY).
  { apply wp_handle_and_reply; [done|]. by apply (wp_key_request Hun sls). }
  destruct (n =? DELEGATED_ATTEST_GET_PLATFORM_TOKEN); [|done].
  destruct (hash_fits m p) eqn:Hfit.
  - apply wp_handle_and_reply; [done|]. apply wp_token_request; [by apply in_len_nonneg|done].
  - pose proof (wp_token_overrun m (set_da_psa p s) Hfit) as H. unfold da_handle_and_reply, attempt, mbind, ST_bind.
    destruct (get_platform_attestation_token m (set_da_psa p s)) as [r s1]. cbn [fst] in H. subst r. done.
Qed.
End Replies.

(** ** What the boot state leaves out *)

Section Hidden.
Context {P M : Type} {PO : PsaOps P} {PC : PsaClient P} {CO : CryptoOps P} {AO : AttestOps P} {QO : QcborOps}.
Context {HO : HashOps M} {HL : HashLaws M}.

Lemma visible_capped l : forall c, Forall (fun oa => forall a, oa = Some a -> cap_version c < len (a_version a)) l ->
  visible l c = [].
Proof using Type.
  induction l as [|[a|] l IH]; intros c Hl; [done| |]; cbn [visible]; apply Forall_cons in Hl as [Ha Hl]; [|by apply IH].
  specialize (Ha a eq_refl). unfold slot_fits. rewrite (proj2 (Z.leb_gt _ _)) by lia. by apply IH.
Qed.

(** C38: The boot state lists the slots that answer the reads of the loop, in
    order, and the loop gives each read only as much room as the slot before
    has used: behind a slot with a version shorter than all later ones (such
    as the empty version of a slot extended twice) nothing else is listed,
    and the request succeeds without those measurements. *)
Theorem boot_state_lists_visible (Hun : forall n, 0 <= n -> len (uninit n) = n) sls (Hcon : reads_answered (P := P) sls)
    (Hok : forall y, Some y ∈ sls -> aslot_ok y) (Hlen : length sls = 32%nat) n (s : da_state P) (Hn : 0 < n) :
  (get_platform_boot_state n s).1 = boot_state_of n (visible sls full_buffers) /\
  (forall pre a l, sls = pre ++ Some a :: l -> Forall (fun oa => oa = None) pre ->
     Forall (fun oa => forall b, oa = Some b -> len (a_version a) < len (a_version b)) l ->
     visible sls full_buffers = [a]).
Proof.
  split; [apply (wp_boot_state Hun sls n s Hcon Hok Hlen Hn)|].
  intros pre a l -> Hpre Hl. pose proof hl_size.
  destruct (Hok a) as [K1 K2 K3 K4]; [apply elem_of_app; right; apply list_elem_of_here|].
  clear Hcon Hok Hlen. induction pre as [|oa pre IH]; cbn [app visible].
  - assert (slot_fits a full_buffers = true) as ->.
    { unfold slot_fits, full_buffers. cbn. rewrite !(proj2 (Z.leb_le _ _)) by lia. done. }
    f_equal. by apply visible_capped.
  - apply Forall_cons in Hpre as [-> Hpre]. by apply IH.
Qed.
End Hidden.

(** ** Instances *)

Lemma key_derived_from_boot_state_witness : exists encoded p0 exported,
  boot_state_of 512 (visible table full_buffers) = Ok encoded /\
  derivation 18 256 encoded 32 p0 (dak_key_id with_key) exported.
Proof.
  destruct (key_derived_from_boot_state (client_uninit table) table (client_answers table) table_ok eq_refl
    18 256 32 33554441 da_off (Ok 32) with_key) as (encoded & p0 & exported & E & _ & D & _);
    [vm_compute; reflexivity..|]. by exists encoded, p0, exported.
Defined.

Lemma sample_room p : len (psa_initial_attest_get_token (P := pstate) (toy_digest public_key) 64 p).1.2 <= len (token_buf with_key).
Proof. vm_compute. discriminate. Qed.

Lemma platform_token_checks_witness : (token_request with_key).1 = Ok 33.
Proof.
  pose proof (platform_token_checks with_key (toy_digest public_key) 64 sample_room) as H. revert H.
  vm_compute. intros [H _]. exact H.
Defined.

Lemma key_is_granted : delegated_attest_get_delegated_key 18 256 32 33554441 da_off = (Ok 32, with_key).
Proof. vm_compute. reflexivity. Qed.

Lemma token_is_granted :
  delegated_attest_get_platform_token (toy_digest public_key) 64 with_key = (Ok 33, (token_request with_key).2).
Proof. vm_compute. reflexivity. Qed.

(** A key request of a client with room for 32 bytes. *)
Definition key_message : psa_msg_t :=
  {| type := PSA_IPC_OTHER DELEGATED_ATTEST_GET_DELEGATED_KEY; handle := 7; client_id := 1; in_size := []; out_size := [32] |}.
Definition key_vectors : list (list Z) := [[18]; enc32 256; enc32 33554441].
Definition da_waiting : da_state pstate :=
  set_da_psa {| ps_in := ∅; ps_out := ∅; ps_replies := []; ps_queue := [(16, key_message, key_vectors)] |} da_off.

Lemma attestation_replies_witness : exists s', delegated_attestation_signal_handle 16 da_waiting = (Ok tt, s') /\
  length (replies (da_psa s')) = 1%nat /\ len (out_data (da_psa s') 7 0) <= 32.
Proof.
  pose proof (attestation_replies (P := pstate) (M := pstate) table (client_answers table) (client_uninit table) table_ok eq_refl
    16 (sized key_message key_vectors) (psa_get 16 (da_psa da_waiting)).2 da_waiting) as H.
  destruct H as (s' & E & st & bs & H1 & H2 & _ & H3 & _); [vm_compute; reflexivity|vm_compute; reflexivity|].
  exists s'. split; [exact E|]. split; [by rewrite H1|]. change 7 with (handle (sized key_message key_vectors)). rewrite H2. exact H3.
Defined.

Lemma token_needs_key_witness : exists (s1 : da_state pstate) algo,
  last_key [KeyRequest 33554441 5 true] = Some algo /\ len (toy_digest public_key) = PSA_HASH_LENGTH algo /\
  dak_key_id s1 = 5.
Proof.
  destruct (token_needs_key da_off [KeyRequest 33554441 5 true] (toy_digest public_key) (token_request with_key).2)
    as (s1 & algo & _ & H1 & H2 & H3 & _); [reflexivity| |by exists s1, algo].
  apply (dr_key da_off 18 256 32 33554441 (Ok 32) with_key _ _ key_is_granted).
  apply (dr_token with_key (toy_digest public_key) 64 (Ok 33) (token_request with_key).2 [] _ token_is_granted).
  constructor.
Defined.

(** The component in slot 2 is measured, but not attested. *)
Lemma boot_state_lists_visible_witness :
  (get_platform_boot_state (PC := client_of short_table) 512 da_off).1 = boot_state_of 512 [slot_twice 1].
Proof.
  destruct (boot_state_lists_visible (client_uninit short_table) short_table (client_answers short_table)
    short_table_ok eq_refl 512 da_off eq_refl) as [H1 H2].
  rewrite H1, (H2 [None] (slot_twice 1) (Some (slot_once 2) :: replicate 29 None)); [done|done|by constructor|].
  constructor; [by intros b [= <-]|]. apply Forall_replicate. done.
Defined.
