(* ===== verification/Interrupts.v ===== *)
(** * Interruptible code

    A thread whose shared accesses are single steps, and an interrupt handler
    that runs to its end between any two of them.  [prog] is the code of the
    thread as a tree of steps; [run] is what it does without interrupts,
    [exec] what it may do with them. *)
From Stdlib Require Import ZArith Lia.
From stdpp Require Import base list numbers relations options.
From S2P Require Import Prelude.

#[local] Set Default Proof Using "Type*".

(** A loop that goes on beyond the rounds it is given; no C status. *)
Definition HANG : Z := 4294967298.

Inductive prog (S A : Type) : Type :=
| Ret (a : A)
| Act (X : Type) (m : ST S X) (k : X -> prog S A).
Arguments Ret {S A} a.
Arguments Act {S A X} m k.

#[export] Instance prog_ret {S} : MRet (prog S) := fun A a => Ret a.
#[export] Instance prog_bind {S} : MBind (prog S) := fun A B =>
  fix bind k p := match p with Ret a => k a | Act m k' => Act m (fun x => bind k (k' x)) end.

(** One step. *)
Definition act {S A} (m : ST S A) : prog S A := Act m Ret.

Fixpoint run {S A} (p : prog S A) : ST S A :=
  match p with
  | Ret a => mret a
  | Act m k => x ← m; run (k x)
  end.

(** A part of the state. *)
Class Lens (S T : Type) := { view : S -> T; update : T -> S -> S }.

Definition zoom {S T A} {L : Lens S T} (m : ST T A) : ST S A := fun s =>
  let '(r, t) := m (view s) in (r, update t s).

(** Code on a part of the state. *)
Fixpoint within {S T A} {L : Lens S T} (p : prog T A) : prog S A :=
  match p with
  | Ret a => Ret a
  | Act m k => Act (zoom m) (fun x => within (k x))
  end.

Lemma run_bind {S A B} (p : prog S A) (k : A -> prog S B) s :
  run (p ≫= k) s = (run p ≫= fun a => run (k a)) s.
Proof.
  revert s. induction p as [a|X m k' IH]; intros s; [done|].
  change ((m ≫= fun x => run (k' x ≫= k)) s = ((m ≫= fun x => run (k' x)) ≫= fun a => run (k a)) s).
  unfold mbind at 1 3 4, ST_bind at 1 2 3. destruct (m s) as [[x|e] s1]; [|done]. apply IH.
Qed.

Lemma run_act {S A} (m : ST S A) s : run (act m) s = m s.
Proof. cbn. unfold mbind, ST_bind. by destruct (m s) as [[a|e] s1]. Qed.

Lemma run_next {S A B} (p : prog S A) (k : A -> prog S B) s a s' : run p s = (Ok a, s') ->
  run (p ≫= k) s = run (k a) s'.
Proof. intros H. rewrite run_bind. unfold mbind, ST_bind. by rewrite H. Qed.

Lemma run_step {S A B} (m : ST S A) (k : A -> prog S B) s a s' : m s = (Ok a, s') ->
  run (act m ≫= k) s = run (k a) s'.
Proof. intros H. apply run_next. by rewrite run_act. Qed.

(** Rules for the code without interrupts. *)
Lemma wp_run_bind {S A B} (p : prog S A) (k : A -> prog S B) s Q :
  wp (run p) s (fun r s' => match r with Ok a => wp (run (k a)) s' Q | Err e => Q (Err e) s' end) ->
  wp (run (p ≫= k)) s Q.
Proof. intros H. unfold wp. rewrite run_bind. by apply wp_bind. Qed.

Lemma wp_run_act {S A B} (m : ST S A) (k : A -> prog S B) s Q :
  wp m s (fun r s' => match r with Ok a => wp (run (k a)) s' Q | Err e => Q (Err e) s' end) ->
  wp (run (act m ≫= k)) s Q.
Proof. intros H. apply wp_run_bind. unfold wp at 1. by rewrite run_act. Qed.

(** ** Interrupts *)

Section Exec.
Context {S : Type} (enabled : S -> bool) (isr : ST S unit).

Definition irq (s s' : S) : Prop := enabled s = true /\ isr s = (Ok tt, s').
Definition irqs : relation S := rtc irq.

(** An interrupt whose handler does not return. *)
Definition irq_dies (s : S) (e : Z) (s' : S) : Prop :=
  exists s1, irqs s s1 /\ enabled s1 = true /\ isr s1 = (Err e, s').

(** [exec p s r s']: [p] started in [s] may end with [r] in [s'], with
    interrupts before each of its steps and at the end. *)
Fixpoint exec {A} (p : prog S A) (s : S) (r : outcome A) (s' : S) : Prop :=
  (exists e, r = Err e /\ irq_dies s e s') \/
  exists s1, irqs s s1 /\
  match p with
  | Ret a => r = Ok a /\ s' = s1
  | Act m k =>
      match m s1 with
      | (Ok x, s2) => exec (k x) s2 r s'
      | (Err e, s2) => r = Err e /\ s' = s2
      end
  end.

Lemma exec_run {A} (p : prog S A) s : exec p s (run p s).1 (run p s).2.
Proof using Type.
  revert s. induction p as [a|X m k IH]; intros s; cbn [run exec]; right; exists s; (split; [done|]); [done|].
  unfold mbind, ST_bind. destruct (m s) as [[x|e] s1]; [apply IH|done].
Qed.

Lemma exec_irqs {A} (p : prog S A) s s1 r s' : irqs s s1 -> exec p s1 r s' -> exec p s r s'.
Proof using Type.
  intros H Hex. destruct p as [a|X m k]; cbn [exec] in *;
    (destruct Hex as [(e & -> & s2 & H1 & H2)|(s2 & H1 & H2)];
     [left; exists e; split; [done|]; exists s2; split; [by etrans|exact H2]
     |right; exists s2; split; [by etrans|exact H2]]).
Qed.

Lemma exec_bind {A B} (p : prog S A) (k : A -> prog S B) s r s' : exec (p ≫= k) s r s' ->
  (exists a s1, exec p s (Ok a) s1 /\ exec (k a) s1 r s') \/ (exists e, r = Err e /\ exec p s (Err e) s').
Proof using Type.
  revert s. induction p as [a|X m k' IH]; intros s Hex.
  - left. exists a, s. split; [|exact Hex]. right. by exists s.
  - change (exec (Act m (fun x => k' x ≫= k)) s r s') in Hex. cbn [exec] in Hex.
    destruct Hex as [(e & -> & Hd)|(s1 & H1 & H2)]; [right; exists e; split; [done|]; left; by exists e|].
    destruct (m s1) as [[x|e] s2] eqn:E.
    + destruct (IH x s2 H2) as [(a & s3 & H3 & H4)|(e & -> & H3)].
      * left. exists a, s3. split; [|exact H4]. right. exists s1. by rewrite E.
      * right. exists e. split; [done|]. right. exists s1. by rewrite E.
    + destruct H2 as [-> ->]. right. exists e. split; [done|]. right. exists s1. by rewrite E.
Qed.

(** *** What all steps keep, the thread keeps under interrupts *)

Section Keep.
Context (R : relation S) `{!PreOrder R}.

Fixpoint pkeeps {A} (p : prog S A) : Prop :=
  match p with
  | Ret _ => True
  | Act m k => keeps R m /\ forall x, pkeeps (k x)
  end.

Lemma pkeeps_bind {A B} (p : prog S A) (k : A -> prog S B) :
  pkeeps p -> (forall a, pkeeps (k a)) -> pkeeps (p ≫= k).
Proof using Type.
  intros Hp Hk. induction p as [a|X m k' IH]; [apply Hk|]. destruct Hp as [Hm Hp]. split; [exact Hm|].
  intros x. by apply IH.
Qed.

Lemma pkeeps_ret {A} (a : A) : pkeeps (mret a).
Proof using Type. exact I. Qed.

Lemma pkeeps_act {A} (m : ST S A) : keeps R m -> pkeeps (act m).
Proof using Type. by split. Qed.

Lemma run_keeps {A} (p : prog S A) : pkeeps p -> keeps R (run p).
Proof using PreOrder0.
  induction p as [a|X m k IH]; cbn [run pkeeps]; [intros _; by apply keeps_ret|]. intros [Hm Hk].
  apply keeps_bind; [done|exact Hm|]. intros x. by apply IH.
Qed.

Context (Hisr : keeps R isr).

Lemma irqs_keep s s' : irqs s s' -> R s s'.
Proof.
  induction 1 as [s|s s1 s' [_ H] _ IH]; [done|]. etrans; [|exact IH]. specialize (Hisr s). by rewrite H in Hisr.
Qed.

Lemma irq_dies_keep s e s' : irq_dies s e s' -> R s s'.
Proof.
  intros (s1 & H1 & _ & H2). etrans; [by apply irqs_keep|]. specialize (Hisr s1). by rewrite H2 in Hisr.
Qed.

Lemma exec_keeps {A} (p : prog S A) s r s' : pkeeps p -> exec p s r s' -> R s s'.
Proof.
  revert s. induction p as [a|X m k IH]; intros s Hp Hex; cbn [exec] in Hex;
    (destruct Hex as [(e & -> & Hd)|(s1 & H1 & H2)]; [by eapply irq_dies_keep|]).
  - destruct H2 as [_ ->]. by apply irqs_keep.
  - destruct Hp as [Hm Hk]. specialize (Hm s1). etrans; [by apply irqs_keep|].
    destruct (m s1) as [[x|e] s2]; cbn [snd] in Hm.
    + etrans; [exact Hm|]. eapply IH; [apply Hk|exact H2].
    + by destruct H2 as [_ ->].
Qed.

(** One step of the thread. *)
Lemma exec_act {A} (m : ST S A) s r s' : exec (act m) s r s' ->
  (exists e, r = Err e /\ irq_dies s e s') \/
  (exists s1 r1 s2, irqs s s1 /\ m s1 = (r1, s2) /\
    match r1 with
    | Err e => r = Err e /\ s' = s2
    | Ok a => (r = Ok a /\ irqs s2 s') \/ (exists e, r = Err e /\ irq_dies s2 e s')
    end).
Proof using Type.
  cbn [act exec]. intros [H|(s1 & H1 & H2)]; [by left|right].
  destruct (m s1) as [[a|e] s2] eqn:E; [|by exists s1, (Err e), s2].
  exists s1, (Ok a), s2. split; [done|]. split; [done|].
  destruct H2 as [H2|(s3 & H3 & -> & ->)]; [by right|by left].
Qed.
End Keep.

Lemma pkeeps_mono (R1 R2 : relation S) {A} (p : prog S A) : (forall s s', R1 s s' -> R2 s s') ->
  pkeeps R1 p -> pkeeps R2 p.
Proof using Type.
  intros HR. induction p as [a|X m k IH]; [done|]. intros [Hm Hk]. split; [intros s; apply HR, Hm|].
  intros x. apply IH, Hk.
Qed.

(** *** Guarded execution

    Interrupts and steps stay within [R] as long as [I] holds, and end in the
    errors of [E] only. *)
Fixpoint errs (E : Z -> Prop) {A} (p : prog S A) : Prop :=
  match p with
  | Ret _ => True
  | Act m k => (forall s e s', m s = (Err e, s') -> E e) /\ forall x, errs E (k x)
  end.

Lemma errs_bind E {A B} (p : prog S A) (k : A -> prog S B) :
  errs E p -> (forall a, errs E (k a)) -> errs E (p ≫= k).
Proof using Type.
  intros Hp Hk. induction p as [a|X m k' IH]; [apply Hk|]. destruct Hp as [Hm Hp]. split; [exact Hm|].
  intros x. by apply IH.
Qed.

Lemma errs_ret E {A} (a : A) : errs E (mret a).
Proof using Type. exact I. Qed.

Lemma errs_act E {A} (m : ST S A) : (forall s e s', m s = (Err e, s') -> E e) -> errs E (act m).
Proof using Type. by split. Qed.

Lemma run_errs E {A} (p : prog S A) s e s' : errs E p -> run p s = (Err e, s') -> E e.
Proof using Type.
  revert s. induction p as [a|X m k IH]; intros s Hp H; [done|]. cbn [run] in H. unfold mbind, ST_bind in H.
  destruct Hp as [Hm Hk]. destruct (m s) as [[x|e'] s1] eqn:Em; [by eapply IH|]. injection H as <- <-. by eapply Hm.
Qed.

Section Guard.
Context (R : relation S) `{!PreOrder R} (I : S -> Prop) (E : Z -> Prop).
Context (HRI : forall s s', R s s' -> I s -> I s').
Context (Hirq : forall s s', I s -> irq s s' -> R s s').
Context (Hdie : forall s e s', I s -> enabled s = true -> isr s = (Err e, s') -> E e).

Lemma irqs_guarded s s' : I s -> irqs s s' -> R s s'.
Proof.
  intros Hs H. revert Hs. induction H as [s|s s1 s' H1 _ IH]; intros Hs; [done|].
  pose proof (Hirq _ _ Hs H1) as HR. etrans; [exact HR|]. apply IH. by eapply HRI.
Qed.

Lemma irq_dies_guarded s e s' : I s -> irq_dies s e s' -> E e.
Proof.
  intros Hs (s1 & H1 & He & H2). eapply Hdie; [|exact He|exact H2]. eapply HRI; [by eapply irqs_guarded|done].
Qed.

Lemma exec_guarded {A} (p : prog S A) s r s' : pkeeps R p -> errs E p -> I s -> exec p s r s' ->
  match r with Ok _ => R s s' | Err e => E e end.
Proof.
  revert s. induction p as [a|X m k IH]; intros s Hp Hq Hs Hex; cbn [exec] in Hex;
    (destruct Hex as [(e & -> & Hd)|(s1 & H1 & H2)]; [by eapply irq_dies_guarded|]).
  - destruct H2 as [-> ->]. by apply irqs_guarded.
  - destruct Hp as [Hm Hk], Hq as [He Hq]. specialize (Hm s1). pose proof (irqs_guarded _ _ Hs H1) as HR.
    assert (I s1) as Hs1 by by eapply HRI.
    destruct (m s1) as [[x|e] s2] eqn:Em; cbn [snd] in Hm.
    + assert (I s2) as Hs2 by by eapply HRI. specialize (IH x s2 (Hk x) (Hq x) Hs2 H2).
      destruct r as [a|e]; [|exact IH]. etrans; [exact HR|]. by etrans.
    + destruct H2 as [-> _]. by eapply He.
Qed.

(** *** A program logic

    [wpi p s Q]: however [p] is interrupted, it ends with a value and in a
    state that satisfy [Q], or with an error of [E]. *)
Definition wpi {A} (p : prog S A) (s : S) (Q : A -> S -> Prop) : Prop :=
  forall r s', exec p s r s' -> match r with Ok a => Q a s' | Err e => E e end.

Lemma wpi_mono {A} (p : prog S A) s (Q1 Q2 : A -> S -> Prop) :
  wpi p s Q1 -> (forall a s', Q1 a s' -> Q2 a s') -> wpi p s Q2.
Proof using Type. intros H HQ r s' Hex. specialize (H r s' Hex). destruct r as [a|e]; [by apply HQ|done]. Qed.

Lemma wpi_bind {A B} (p : prog S A) (k : A -> prog S B) s Q :
  wpi p s (fun a s' => wpi (k a) s' Q) -> wpi (p ≫= k) s Q.
Proof using Type.
  intros H r s' [(a & s1 & H1 & H2)|(e & -> & H1)]%exec_bind; [exact (H _ _ H1 r s' H2)|exact (H _ _ H1)].
Qed.

Lemma wpi_ret {A} (a : A) s (Q : A -> S -> Prop) : I s -> (forall s', R s s' -> Q a s') -> wpi (mret a) s Q.
Proof.
  intros Hs H r s' [(e & -> & Hd)|(s1 & H1 & -> & ->)]; [by eapply irq_dies_guarded|].
  apply H. by apply irqs_guarded.
Qed.

(** One step: the interrupts before it and after it. *)
Lemma wpi_act {A} (m : ST S A) s (Q : A -> S -> Prop) : I s ->
  (forall s1, R s s1 -> I s1 -> wp m s1 (fun r s2 =>
    match r with Ok a => I s2 /\ forall s', R s2 s' -> Q a s' | Err e => E e end)) ->
  wpi (act m) s Q.
Proof.
  intros Hs H r s' [(e & -> & Hd)|(s1 & r1 & s2 & H1 & H2 & H3)]%exec_act; [by eapply irq_dies_guarded|].
  apply (irqs_guarded _ _ Hs) in H1. specialize (H s1 H1 (HRI _ _ H1 Hs)). unfold wp in H. rewrite H2 in H.
  destruct r1 as [a|e]; [|by destruct H3 as [-> ->]]. destruct H as [Hs2 H].
  destruct H3 as [[-> H3]|(e & -> & H3)]; [|by eapply irq_dies_guarded]. apply H. by apply irqs_guarded.
Qed.

(** Code whose steps stay within [R]. *)
Lemma wpi_within {A} (p : prog S A) s (Q : A -> S -> Prop) : I s -> pkeeps R p -> errs E p ->
  (forall a s', R s s' -> Q a s') -> wpi p s Q.
Proof.
  intros Hs Hk He H r s' Hex. pose proof (exec_guarded _ _ _ _ Hk He Hs Hex) as Hg.
  destruct r as [a|e]; [by apply H|exact Hg].
Qed.
End Guard.
End Exec.

(** *** Code on a part of the state *)

Section Within.
Context {S T : Type} {L : Lens S T}.

Lemma errs_within E {A} (p : prog T A) : errs E p -> errs E (within (S := S) p).
Proof using Type.
  induction p as [a|X m k IH]; [done|]. intros [Hm Hk]. split; [|intros x; apply IH, Hk].
  intros s e s' H. unfold zoom in H. destruct (m (view s)) as [[x|e'] t] eqn:E1; [done|]. injection H as <- _.
  by eapply Hm.
Qed.

Lemma pkeeps_within (R : relation S) {A} (p : prog T A) : (forall s t, R s (update t s)) -> pkeeps R (within p).
Proof using Type.
  intros HR. induction p as [a|X m k IH]; [done|]. split; [|done]. intros s. unfold zoom.
  destruct (m (view s)) as [r t]. apply HR.
Qed.

(** A part behaves like a variable. *)
Class LensLaws := {
  view_update : forall t (s : S), view (update t s) = t;
  update_update : forall t u (s : S), update t (update u s) = update t s;
  update_view : forall s : S, update (view s) s = s
}.

Lemma run_within {LL : LensLaws} {A} (p : prog T A) (s : S) :
  run (within p) s = ((run p (view s)).1, update (run p (view s)).2 s).
Proof using Type.
  revert s. induction p as [a|X m k IH]; intros s; cbn [within run]; [cbn; by rewrite update_view|].
  unfold mbind, ST_bind, zoom. destruct (m (view s)) as [[x|e] t]; [|done].
  rewrite IH, view_update. cbn. by rewrite update_update.
Qed.
End Within.
Arguments LensLaws S T {L}.
