(* ===== verification/SysTimer.v ===== *)
(** * Delays (vad_an552_sp/Libraries/systimer_armv8-m_timeout.c)

    The timeouts on the system timer, and the two functions that wait.  The
    timer is any device of the class [SystimerOps].  Loops that poll it have
    [polls] rounds and end in [HANG] beyond them. *)
From Stdlib Require Import ZArith Lia.
From stdpp Require Import base list numbers options.
From S2P Require Import Prelude.
From S2P Require Import Interrupts.

#[local] Set Default Proof Using "Type*".

Definition SYSTIMER3_ARMV8M_DEFAULT_FREQ_HZ : Z := 32000000.

(** The 32-bit products of the macros. *)
Definition MS_TO_TICK (ms : Z) : Z := w32 (ms * (SYSTIMER3_ARMV8M_DEFAULT_FREQ_HZ / 1000)).
Definition US_TO_TICK (us : Z) : Z := w32 (us * SYSTIMER3_ARMV8M_DEFAULT_FREQ_HZ) / 1000000.
Definition MAX_DELAY_MS : Z := 4294967295 / (SYSTIMER3_ARMV8M_DEFAULT_FREQ_HZ / 1000).
Definition MAX_DELAY_US : Z := 4294967295 / (SYSTIMER3_ARMV8M_DEFAULT_FREQ_HZ / 1000000).

(** systimer_armv8-m_drv.h *)
Class SystimerOps (T : Type) := {
  systimer_armv8_m_init : T -> T;
  systimer_armv8_m_set_timer_value : Z -> T -> T;
  systimer_armv8_m_is_interrupt_asserted : T -> bool * T
}.

(** The two timeouts of the program: the static variables of [wait_us] and of
    [wait_ms].  [dev_ptr] is the one timer, once it is set. *)
Inductive timeout_id : Type := OF_WAIT_US | OF_WAIT_MS.

Record timeout_t : Type := { dev_ptr : bool; is_initialized : bool }.

Record timer_state (T : Type) : Type := {
  delay_in_tick : Z;
  timeout_us : timeout_t;
  timeout_ms : timeout_t;
  systimer : T
}.
Arguments delay_in_tick {T} _.
Arguments timeout_us {T} _.
Arguments timeout_ms {T} _.
Arguments systimer {T} _.

Section Timer.
Context {T : Type} {TO : SystimerOps T}.
Implicit Types s : timer_state T.

Definition timeout_of (i : timeout_id) s : timeout_t :=
  match i with OF_WAIT_US => timeout_us s | OF_WAIT_MS => timeout_ms s end.

Definition set_timeout (i : timeout_id) (x : timeout_t) s : timer_state T :=
  match i with
  | OF_WAIT_US => {| delay_in_tick := delay_in_tick s; timeout_us := x; timeout_ms := timeout_ms s; systimer := systimer s |}
  | OF_WAIT_MS => {| delay_in_tick := delay_in_tick s; timeout_us := timeout_us s; timeout_ms := x; systimer := systimer s |}
  end.

Definition set_delay (x : Z) s : timer_state T :=
  {| delay_in_tick := x; timeout_us := timeout_us s; timeout_ms := timeout_ms s; systimer := systimer s |}.
Definition set_systimer (x : T) s : timer_state T :=
  {| delay_in_tick := delay_in_tick s; timeout_us := timeout_us s; timeout_ms := timeout_ms s; systimer := x |}.

(** The bodies of [timeout_init] and [timeout_init_us], which differ in the
    limit and in the conversion.  [None] is the null pointer. *)
Definition timeout_start (limit : Z) (to_tick : Z -> Z) (timeout : option timeout_id) (delay : Z)
    : prog (timer_state T) bool :=
  match timeout with
  | None => mret false
  | Some i =>
      if delay >? limit then mret false
      else
        t ← act (gets (timeout_of i));
        if is_initialized t then mret false
        else
          act (modify (fun s => set_systimer (systimer_armv8_m_init (systimer s)) s));;
          act (modify (set_delay (to_tick delay)));;
          act (modify (fun s => set_systimer (systimer_armv8_m_set_timer_value (delay_in_tick s) (systimer s)) s));;
          act (modify (set_timeout i {| dev_ptr := true; is_initialized := true |}));;
          mret true
  end.

Definition timeout_init := timeout_start MAX_DELAY_MS MS_TO_TICK.
Definition timeout_init_us := timeout_start MAX_DELAY_US US_TO_TICK.

Definition timeout_delay_is_elapsed (timeout : option timeout_id) : prog (timer_state T) bool :=
  match timeout with
  | None => mret false
  | Some i =>
      t ← act (gets (timeout_of i));
      if negb (is_initialized t) then mret false
      else
        asserted ← act (fun s => let '(b, d) := systimer_armv8_m_is_interrupt_asserted (systimer s) in
                                 (Ok b, set_systimer d s));
        if (asserted : bool) then
          act (modify (fun s => set_systimer (systimer_armv8_m_set_timer_value (delay_in_tick s) (systimer s)) s));;
          mret true
        else mret false
  end.

(** [while (!timeout_delay_is_elapsed(&timeout));] *)
Fixpoint wait_loop (polls : nat) (i : timeout_id) : prog (timer_state T) unit :=
  match polls with
  | O => act (raise HANG)
  | S polls =>
      elapsed ← timeout_delay_is_elapsed (Some i);
      if (elapsed : bool) then mret tt else wait_loop polls i
  end.

Definition wait_us (polls : nat) (usec : Z) : prog (timer_state T) unit :=
  timeout_init_us (Some OF_WAIT_US) usec;; wait_loop polls OF_WAIT_US.

Definition wait_ms (polls : nat) (ms : Z) : prog (timer_state T) unit :=
  timeout_init (Some OF_WAIT_MS) ms;; wait_loop polls OF_WAIT_MS.
End Timer.

(** ** Conversions *)

(** The conversion of milliseconds is exact for every delay that is accepted;
    that of microseconds only up to 134, because the product wraps around. *)
Lemma MS_TO_TICK_exact ms : 0 <= ms <= MAX_DELAY_MS -> MS_TO_TICK ms = 32000 * ms.
Proof.
  unfold MAX_DELAY_MS, MS_TO_TICK, SYSTIMER3_ARMV8M_DEFAULT_FREQ_HZ. change (32000000 / 1000) with 32000.
  change (4294967295 / 32000) with 134217. intros H. unfold w32. rewrite Z.mod_small by lia. lia.
Qed.

Lemma US_TO_TICK_exact us : 0 <= us <= MAX_DELAY_US -> US_TO_TICK us = 32 * us <-> us <= 134.
Proof.
  unfold MAX_DELAY_US, US_TO_TICK, SYSTIMER3_ARMV8M_DEFAULT_FREQ_HZ. change (32000000 / 1000000) with 32.
  change (4294967295 / 32) with 134217727. intros H. unfold w32. split.
  - intros He. Z.to_euclidean_division_equations. lia.
  - intros Hu. rewrite Z.mod_small by lia. replace (us * 32000000) with (32 * us * 1000000) by lia.
    apply Z.div_mul. lia.
Qed.

(** ** Waits *)

Section Waits.
Context {T : Type} {TO : SystimerOps T}.
Implicit Types s : timer_state T.

(** Once a timeout is initialised its delay is fixed: the argument of a later
    wait has no effect. *)
Lemma wait_ms_again polls s ms : is_initialized (timeout_ms s) = true ->
  run (wait_ms polls ms) s = run (wait_loop polls OF_WAIT_MS) s.
Proof.
  intros Hi. unfold wait_ms. rewrite run_bind. unfold timeout_init, timeout_start.
  destruct (ms >? MAX_DELAY_MS); [done|]. unfold mbind, ST_bind. cbn. unfold mbind, ST_bind. cbn. by rewrite Hi.
Qed.

Lemma wait_us_again polls s us : is_initialized (timeout_us s) = true ->
  run (wait_us polls us) s = run (wait_loop polls OF_WAIT_US) s.
Proof.
  intros Hi. unfold wait_us. rewrite run_bind. unfold timeout_init_us, timeout_start.
  destruct (us >? MAX_DELAY_US); [done|]. unfold mbind, ST_bind. cbn. unfold mbind, ST_bind. cbn. by rewrite Hi.
Qed.

(** What the waits rely on: the timer counts down to the next interrupt, at
    least by one between two polls. *)
Class SystimerLaws := {
  ticks : T -> Z;
  tl_set : forall v t, ticks (systimer_armv8_m_set_timer_value v t) = v;
  tl_poll : forall t, let '(b, t') := systimer_armv8_m_is_interrupt_asserted t in
    (b = true <-> ticks t <= 0) /\ (b = false -> ticks t' < ticks t)
}.

Context {TL : SystimerLaws}.

(** What else holds of the device, and the timer's operations keep. *)
Context (I : T -> Prop).
Context (I_init : forall t, I t -> I (systimer_armv8_m_init t)).
Context (I_set : forall v t, I t -> I (systimer_armv8_m_set_timer_value v t)).
Context (I_poll : forall t, I t -> I (systimer_armv8_m_is_interrupt_asserted t).2).

(** A wait ends when the timer does; the timer is set to the delay that
    [delay_in_tick] holds then. *)
Lemma wait_loop_ends polls i s : is_initialized (timeout_of i s) = true -> ticks (systimer s) < Z.of_nat polls ->
  0 < Z.of_nat polls -> I (systimer s) ->
  exists t, run (wait_loop polls i) s = (Ok tt, set_systimer t s) /\ ticks t = delay_in_tick s /\ I t.
Proof.
  revert s. induction polls as [|polls IH]; intros s Hi Ht Hp HI; [lia|].
  cbn [wait_loop]. rewrite run_bind. unfold timeout_delay_is_elapsed. unfold mbind, ST_bind. cbn.
  unfold mbind, ST_bind. cbn. rewrite Hi. cbn. unfold mbind, ST_bind. cbn.
  pose proof (tl_poll (systimer s)) as H. pose proof (I_poll _ HI) as HI1.
  destruct (systimer_armv8_m_is_interrupt_asserted (systimer s)) as [b t].
  destruct H as [H1 H2]. destruct b; cbn.
  - eexists. split; [reflexivity|]. cbn. split; [apply tl_set|by apply I_set].
  - assert (~ ticks (systimer s) <= 0) as Hpos by (intros H; by apply H1 in H). specialize (H2 eq_refl).
    destruct (IH (set_systimer t s)) as (t' & Hr & Ht' & HI'); [by destruct i|cbn; lia|lia|done|].
    exists t'. by rewrite Hr.
Qed.

(** The first wait sets the delay that it and every later one has. *)
Definition startable (limit : Z) (to_tick : Z -> Z) (polls : nat) (i : timeout_id) (delay : Z) s : Prop :=
  is_initialized (timeout_of i s) = true \/ delay <= limit /\ to_tick delay < Z.of_nat polls.

Lemma wait_ends limit to_tick polls i delay s : startable limit to_tick polls i delay s ->
  ticks (systimer s) < Z.of_nat polls -> delay_in_tick s < Z.of_nat polls -> 0 < Z.of_nat polls -> I (systimer s) ->
  exists s', run (timeout_start limit to_tick (Some i) delay;; wait_loop polls i) s = (Ok tt, s') /\
    is_initialized (timeout_of i s') = true /\
    delay_in_tick s' = (if is_initialized (timeout_of i s) then delay_in_tick s else to_tick delay) /\
    (forall j, j <> i -> timeout_of j s' = timeout_of j s) /\
    ticks (systimer s') = delay_in_tick s' /\ I (systimer s').
Proof.
  intros Hst Ht Hd Hp HI. destruct (is_initialized (timeout_of i s)) eqn:Hi.
  - destruct (wait_loop_ends polls i s Hi Ht Hp HI) as (t & E & Ht' & HI'). exists (set_systimer t s).
    split; [|split_and!; try done; by destruct i]. rewrite <- E.
    apply run_next with (a := false). unfold timeout_start. destruct (delay >? limit); [done|].
    rewrite (run_step (gets (timeout_of i)) _ s _ s eq_refl). by rewrite Hi.
  - destruct Hst as [Hst|[Hl Htick]]; [congruence|].
    set (s1 := set_timeout i {| dev_ptr := true; is_initialized := true |}
      (set_systimer (systimer_armv8_m_set_timer_value (to_tick delay) (systimer_armv8_m_init (systimer s)))
        (set_delay (to_tick delay) s))).
    assert (run (timeout_start limit to_tick (Some i) delay) s = (Ok true, s1)) as E1.
    { unfold timeout_start. destruct (Z.gtb_spec delay limit); [lia|].
      rewrite (run_step (gets (timeout_of i)) _ s _ s eq_refl), Hi. reflexivity. }
    rewrite (run_next _ _ _ _ _ E1). assert (systimer s1 = systimer_armv8_m_set_timer_value (to_tick delay)
      (systimer_armv8_m_init (systimer s))) as Es by by destruct i.
    destruct (wait_loop_ends polls i s1) as (t & E & Ht' & HI'); [by destruct i| |done| |].
    { by rewrite Es, tl_set. }
    { rewrite Es. by apply I_set, I_init. }
    exists (set_systimer t s1). split; [exact E|]. split_and!; try by destruct i.
    intros j Hj. by destruct i, j.
Qed.

(** The polls suffice for what the timer holds and for the delay that is set. *)
Definition bounded (polls : nat) s : Prop :=
  ticks (systimer s) < Z.of_nat polls /\ delay_in_tick s < Z.of_nat polls /\ 0 < Z.of_nat polls.

Lemma wait_bounded limit to_tick polls i delay s : bounded polls s -> startable limit to_tick polls i delay s ->
  I (systimer s) ->
  exists s', run (timeout_start limit to_tick (Some i) delay;; wait_loop polls i) s = (Ok tt, s') /\
    bounded polls s' /\ is_initialized (timeout_of i s') = true /\
    (forall j, j <> i -> timeout_of j s' = timeout_of j s) /\ I (systimer s').
Proof.
  intros (H1 & H2 & H3) Hst HI.
  destruct (wait_ends limit to_tick polls i delay s) as (s' & E & Hi & Hd & Hj & Ht & HI'); try done.
  exists s'. split_and!; try done. assert (delay_in_tick s' < Z.of_nat polls) as Hdt.
  { rewrite Hd. destruct (is_initialized (timeout_of i s)) eqn:Hn; [done|]. destruct Hst as [Hst|[_ Hst]]; congruence. }
  split; [lia|done].
Qed.
End Waits.
