(* ===== verification/I2sDriver.v ===== *)
(** * The audio interface (vad_an552_sp/native_drivers/audio_i2s_mps3_drv.c)

    The registers are those of any device of the class [I2sOps]; a change of
    the control register reads it and then writes it, in two steps. *)
From Stdlib Require Import ZArith Lia.
From stdpp Require Import base list numbers options.
From S2P Require Import Prelude.
From S2P Require Import Interrupts.

#[local] Set Default Proof Using "Type*".

(** The registers that the driver uses, of [audio_i2s_mps3_reg_map_t]. *)
Inductive i2s_reg : Type := CONTROL | STATUS | ERROR | DIVIDE | TXBUF | RXBUF.

Class I2sOps (W : Type) := {
  i2s_read : i2s_reg -> W -> Z * W;
  i2s_write : i2s_reg -> Z -> W -> W
}.

Definition AUDIO_I2S_MPS3_CONTROL_TX_EN_OFF : Z := 0.
Definition AUDIO_I2S_MPS3_CONTROL_TX_INTREN_OFF : Z := 1.
Definition AUDIO_I2S_MPS3_CONTROL_RX_EN_OFF : Z := 2.
Definition AUDIO_I2S_MPS3_CONTROL_RX_INTREN_OFF : Z := 3.
Definition AUDIO_I2S_MPS3_CONTROL_TX_BUFF_IRQ_WATER_LVL_OFF : Z := 8.
Definition AUDIO_I2S_MPS3_CONTROL_RX_BUFF_IRQ_WATER_LVL_OFF : Z := 12.
Definition AUDIO_I2S_MPS3_CONTROL_FIFO_RESET_OFF : Z := 16.
Definition AUDIO_I2S_MPS3_CONTROL_CODEC_RESET_OFF : Z := 17.
Definition AUDIO_I2S_MPS3_STATUS_TXBUF_EMPTY_OFF : Z := 2.
Definition AUDIO_I2S_MPS3_STATUS_TXBUF_FULL_OFF : Z := 3.
Definition AUDIO_I2S_MPS3_STATUS_RXBUF_EMPTY_OFF : Z := 4.
Definition AUDIO_I2S_MPS3_STATUS_RXBUF_FULL_OFF : Z := 5.
Definition LRDIV_MAX_VALUE : Z := 1023.

Definition AUDIO_I2S_MPS3_ERR_NONE : Z := 0.
Definition AUDIO_I2S_MPS3_ERR_INVALID_ARG : Z := 1.

Record audio_i2s_mps3_sample_t : Type := { left_channel : Z; right_channel : Z }.

(** Clearing the bits of [mask] in a word, [w & ~mask]. *)
Definition clear_bits (w mask : Z) : Z := Z.land w (w32 (Z.lnot mask)).

Section Driver.
Context {W : Type} {IO : I2sOps W}.
Abbreviation I2S := (prog W).

Definition read_reg (r : i2s_reg) : I2S Z := act (on_call (i2s_read r)).
Definition write_reg (r : i2s_reg) (x : Z) : I2S unit := act (modify (i2s_write r x)).

(** [p_i2s->control |= (1 << off);] and [p_i2s->control &= ~(1 << off);] *)
Definition set_control_bit (off : Z) : I2S unit :=
  c ← read_reg CONTROL; write_reg CONTROL (Z.lor c (Z.shiftl 1 off)).
Definition clear_control_bit (off : Z) : I2S unit :=
  c ← read_reg CONTROL; write_reg CONTROL (clear_bits c (Z.shiftl 1 off)).

Definition audio_i2s_mps3_set_codec_reset : I2S unit := set_control_bit AUDIO_I2S_MPS3_CONTROL_CODEC_RESET_OFF.
Definition audio_i2s_mps3_set_fifo_reset : I2S unit := set_control_bit AUDIO_I2S_MPS3_CONTROL_FIFO_RESET_OFF.
Definition audio_i2s_mps3_clear_codec_reset : I2S unit := clear_control_bit AUDIO_I2S_MPS3_CONTROL_CODEC_RESET_OFF.
Definition audio_i2s_mps3_clear_fifo_reset : I2S unit := clear_control_bit AUDIO_I2S_MPS3_CONTROL_FIFO_RESET_OFF.

Definition audio_i2s_mps3_speed_config (lrdiv : Z) : I2S Z :=
  if lrdiv >? LRDIV_MAX_VALUE then mret AUDIO_I2S_MPS3_ERR_INVALID_ARG
  else write_reg DIVIDE lrdiv;; mret AUDIO_I2S_MPS3_ERR_NONE.

(** A bit of the status register. *)
Definition status_bit (off : Z) : I2S bool :=
  st ← read_reg STATUS; mret (negb (Z.land (Z.shiftr st off) 1 =? 0)).

Definition audio_i2s_mps3_is_rx_buffer_empty : I2S bool := status_bit AUDIO_I2S_MPS3_STATUS_RXBUF_EMPTY_OFF.
Definition audio_i2s_mps3_is_rx_buffer_full : I2S bool := status_bit AUDIO_I2S_MPS3_STATUS_RXBUF_FULL_OFF.
Definition audio_i2s_mps3_is_tx_buffer_empty : I2S bool := status_bit AUDIO_I2S_MPS3_STATUS_TXBUF_EMPTY_OFF.
Definition audio_i2s_mps3_is_tx_buffer_full : I2S bool := status_bit AUDIO_I2S_MPS3_STATUS_TXBUF_FULL_OFF.

Definition audio_i2s_mps3_get_rxbuf : I2S Z := read_reg RXBUF.
Definition audio_i2s_mps3_set_txbuf (left_channel right_channel : Z) : I2S unit :=
  write_reg TXBUF (add32 (w32 (Z.shiftl left_channel 16)) right_channel).
Definition audio_i2s_mps3_get_control : I2S Z := read_reg CONTROL.
Definition audio_i2s_mps3_get_status : I2S Z := read_reg STATUS.
Definition audio_i2s_mps3_get_error : I2S Z := read_reg ERROR.

Definition audio_i2s_mps3_enable_rxbuf : I2S unit := set_control_bit AUDIO_I2S_MPS3_CONTROL_RX_EN_OFF.
Definition audio_i2s_mps3_enable_rxinterrupt : I2S unit := set_control_bit AUDIO_I2S_MPS3_CONTROL_RX_INTREN_OFF.
Definition audio_i2s_mps3_enable_txbuf : I2S unit := set_control_bit AUDIO_I2S_MPS3_CONTROL_TX_EN_OFF.
Definition audio_i2s_mps3_enable_txinterrupt : I2S unit := set_control_bit AUDIO_I2S_MPS3_CONTROL_TX_INTREN_OFF.
Definition audio_i2s_mps3_disable_rxbuf : I2S unit := clear_control_bit AUDIO_I2S_MPS3_CONTROL_RX_EN_OFF.
Definition audio_i2s_mps3_disable_rxinterrupt : I2S unit := clear_control_bit AUDIO_I2S_MPS3_CONTROL_RX_INTREN_OFF.
Definition audio_i2s_mps3_disable_txbuf : I2S unit := clear_control_bit AUDIO_I2S_MPS3_CONTROL_TX_EN_OFF.
Definition audio_i2s_mps3_disable_txinterrupt : I2S unit := clear_control_bit AUDIO_I2S_MPS3_CONTROL_TX_INTREN_OFF.

Definition read_sample : I2S audio_i2s_mps3_sample_t :=
  s ← audio_i2s_mps3_get_rxbuf;
  mret {| right_channel := Z.land s 65535; left_channel := w16 (Z.shiftr s 16) |}.
Definition write_sample (sample : audio_i2s_mps3_sample_t) : I2S unit :=
  audio_i2s_mps3_set_txbuf (left_channel sample) (right_channel sample).

(** The three-bit water level at [off]. *)
Definition set_water_lvl (off level : Z) : I2S unit :=
  c ← read_reg CONTROL;
  write_reg CONTROL (Z.lor (clear_bits c (Z.shiftl 7 off)) (Z.shiftl (Z.land level 7) off)).
Definition get_water_lvl (off : Z) : I2S Z :=
  c ← read_reg CONTROL; mret (w8 (Z.land (Z.shiftr c off) 7)).

Definition audio_i2s_mps3_set_tx_buff_water_lvl := set_water_lvl AUDIO_I2S_MPS3_CONTROL_TX_BUFF_IRQ_WATER_LVL_OFF.
Definition audio_i2s_mps3_get_tx_buff_water_lvl := get_water_lvl AUDIO_I2S_MPS3_CONTROL_TX_BUFF_IRQ_WATER_LVL_OFF.
Definition audio_i2s_mps3_set_rx_buff_water_lvl := set_water_lvl AUDIO_I2S_MPS3_CONTROL_RX_BUFF_IRQ_WATER_LVL_OFF.
Definition audio_i2s_mps3_get_rx_buff_water_lvl := get_water_lvl AUDIO_I2S_MPS3_CONTROL_RX_BUFF_IRQ_WATER_LVL_OFF.
End Driver.
