(* ===== verification/I2cSbcon.v ===== *)
(** * The I2C driver (vad_an552_sp/native_drivers/i2c_sbcon_drv.c)

    The two lines are driven by writes to a set and a clear register and read
    back in a status register, those of any device of the class [SbconOps];
    the device also has the function that sleeps, a pointer in the
    configuration of the driver. *)
From Stdlib Require Import ZArith Lia.
From stdpp Require Import base list numbers options.
From S2P Require Import Prelude.

#[local] Set Default Proof Using "Type*".

Definition SDA : Z := 2.
Definition SCL : Z := 1.
Definition I2C_SBCON_INITIALIZED : Z := 1.
Definition I2C_10BIT : Z := 1024.

Definition I2C_ERR_NONE : Z := 0.
Definition I2C_ERR_INVALID_ARG : Z := 1.
Definition I2C_ERR_NOT_INIT : Z := 2.

Class SbconRegs (B : Type) := {
  set_reg : Z -> B -> B;
  clear_reg : Z -> B -> B;
  status_reg : B -> Z * B
}.

Class SbconOps (B : Type) := {
  sbcon_regs :: SbconRegs B;
  sleep_us : Z -> ST B unit
}.

(** [dev->data], and the device behind [dev->cfg->base]. *)
Record i2c_sbcon_dev_t (B : Type) : Type := {
  freq_us : Z;
  sys_clk : Z;
  i2c_state : Z;
  bus : B
}.
Arguments freq_us {B} _.
Arguments sys_clk {B} _.
Arguments i2c_state {B} _.
Arguments bus {B} _.

Section Driver.
Context {B : Type} {BO : SbconOps B}.
Context (default_freq_hz : Z).
Implicit Types d : i2c_sbcon_dev_t B.
Abbreviation I2C := (ST (i2c_sbcon_dev_t B)).

Definition set_bus (b : B) d : i2c_sbcon_dev_t B :=
  {| freq_us := freq_us d; sys_clk := sys_clk d; i2c_state := i2c_state d; bus := b |}.

Definition I2C_HIGH (pin : Z) : I2C unit := modify (fun d => set_bus (set_reg pin (bus d)) d).
Definition I2C_LOW (pin : Z) : I2C unit := modify (fun d => set_bus (clear_reg pin (bus d)) d).
Definition I2C_GET (pin : Z) : I2C Z := fun d =>
  let '(st, b) := status_reg (bus d) in (Ok (Z.land (Z.shiftr st (pin - 1)) 1), set_bus b d).

(** [dev->cfg->sleep_us(dev->data->freq_us)] *)
Definition sleep : I2C unit := fun d =>
  let '(r, b) := sleep_us (freq_us d) (bus d) in (r, set_bus b d).

Definition i2c_tx_bit (bit : Z) : I2C unit :=
  (if negb (bit =? 0) then I2C_HIGH SDA else I2C_LOW SDA);;
  sleep;;
  I2C_HIGH SCL;; sleep;;
  I2C_LOW SCL;; sleep.

Definition i2c_rx_bit : I2C Z :=
  I2C_HIGH SDA;; sleep;;
  I2C_HIGH SCL;; sleep;;
  bit ← I2C_GET SDA;
  I2C_LOW SCL;; sleep;;
  mret bit.

(** The C division, undefined by zero. *)
Definition div32 (x y : Z) : I2C Z := if y =? 0 then raise UNDEFINED else mret (x / y).

Definition initialized d : bool := negb (Z.land (i2c_state d) I2C_SBCON_INITIALIZED =? 0).

Definition i2c_sbcon_init (clk : Z) : I2C unit :=
  if clk =? 0 then raise I2C_ERR_INVALID_ARG
  else
    modify (fun d => {| freq_us := freq_us d; sys_clk := clk; i2c_state := i2c_state d; bus := bus d |});;
    f ← div32 clk default_freq_hz;
    modify (fun d => {| freq_us := f; sys_clk := sys_clk d; i2c_state := I2C_SBCON_INITIALIZED; bus := bus d |}).

Definition i2c_sbcon_reset : I2C unit :=
  d ← get;
  if negb (initialized d) then raise I2C_ERR_NOT_INIT
  else
    I2C_LOW SDA;; sleep;;
    for_acc 9 0 tt (fun _ _ => I2C_LOW SCL;; sleep;; I2C_HIGH SCL;; sleep);;
    I2C_HIGH SDA;; sleep.

Definition i2c_sbcon_set_freq (i2c_hz : Z) : I2C unit :=
  d ← get;
  if (sys_clk d <? i2c_hz) || (i2c_hz =? 0) then raise I2C_ERR_INVALID_ARG
  else if negb (initialized d) then raise I2C_ERR_NOT_INIT
  else
    f ← div32 (sys_clk d) i2c_hz;
    modify (fun d => {| freq_us := f; sys_clk := sys_clk d; i2c_state := i2c_state d; bus := bus d |}).

Definition i2c_sbcon_get_freq : I2C Z :=
  d ← get; mret (if negb (initialized d) then 0 else w32 (freq_us d * sys_clk d)).

Definition i2c_sbcon_set_sys_clk (clk : Z) : I2C unit :=
  if clk =? 0 then raise I2C_ERR_INVALID_ARG
  else
    d ← get;
    if negb (initialized d) then raise I2C_ERR_NOT_INIT
    else
      let i2c_hz := w32 (freq_us d * sys_clk d) in
      modify (fun d => {| freq_us := freq_us d; sys_clk := clk; i2c_state := i2c_state d; bus := bus d |});;
      f ← div32 clk i2c_hz;
      modify (fun d => {| freq_us := f; sys_clk := sys_clk d; i2c_state := i2c_state d; bus := bus d |}).

Definition i2c_sbcon_tx_start : I2C unit :=
  I2C_HIGH (Z.lor SCL SDA);; sleep;;
  I2C_LOW SDA;; sleep;;
  I2C_LOW SCL;; sleep.

Definition i2c_sbcon_tx_stop : I2C unit :=
  I2C_LOW SDA;; sleep;;
  I2C_HIGH SCL;; sleep;;
  I2C_HIGH SDA;; sleep.

Definition i2c_sbcon_tx_ack (ack : Z) : I2C unit := i2c_tx_bit ack.

Definition i2c_sbcon_tx_byte (data : Z) : I2C unit :=
  for_acc 8 0 data (fun _ data => i2c_tx_bit (Z.land data 128);; mret (w8 (Z.shiftl data 1)));;
  mret tt.

Definition i2c_sbcon_rx_ack : I2C Z := i2c_rx_bit.

Definition i2c_sbcon_rx_byte : I2C Z :=
  for_acc 8 0 0 (fun _ data => bit ← i2c_rx_bit; mret (Z.lor (w8 (Z.shiftl data 1)) bit)).

(** [data[i]] *)
Definition at_index (data : list Z) (i : Z) : I2C Z :=
  match data !! Z.to_nat i with Some x => mret x | None => raise UNDEFINED end.

(** The address, in one or two bytes. *)
Definition tx_addr (first addr : Z) : I2C unit :=
  i2c_sbcon_tx_byte first;; i2c_sbcon_rx_ack;;
  if negb (Z.land addr I2C_10BIT =? 0)
  then i2c_sbcon_tx_byte (w8 (Z.shiftr addr 8));; i2c_sbcon_rx_ack;; mret tt
  else mret tt.

(** The number of bytes written. *)
Definition i2c_sbcon_master_transmit (addr : Z) (data : list Z) (len : Z) (xfer_pending : Z) : I2C Z :=
  i2c_sbcon_tx_start;;
  tx_addr (w8 addr) addr;;
  for_acc (Z.to_nat len) 0 tt (fun i _ =>
    x ← at_index data i; i2c_sbcon_tx_byte x;; i2c_sbcon_rx_ack;; mret tt);;
  (if xfer_pending =? 0 then i2c_sbcon_tx_stop else mret tt);;
  mret len.

(** [room] is the size of the caller's array; the bytes and their number. *)
Definition i2c_sbcon_master_receive (addr : Z) (room : Z) (len : Z) (xfer_pending : Z) : I2C (list Z * Z) :=
  i2c_sbcon_tx_start;;
  tx_addr (w8 (Z.lor addr 1)) addr;;
  x ← i2c_sbcon_rx_byte;
  (if room <? 1 then raise UNDEFINED else mret tt);;
  data ← for_acc (Z.to_nat (len - 1)) 1 [x] (fun i data =>
    i2c_sbcon_tx_ack 0;;
    x ← i2c_sbcon_rx_byte;
    if room <=? i then raise UNDEFINED else mret (data ++ [x]));
  i2c_sbcon_tx_ack 1;;
  (if xfer_pending =? 0 then i2c_sbcon_tx_stop else mret tt);;
  mret (data, Z.of_nat (length data)).
End Driver.
