(* ===== verification/I2cSpec.v ===== *)
(** * What the I2C driver puts on the wire

    An observer of the two lines sees start and stop conditions and bits
    ([observe]); the bytes sent are what a receiver decodes from them.  The
    device is any one that drives the lines as told ([LineLaws]). *)
From Stdlib Require Import ZArith Lia.
From stdpp Require Import base list numbers options.
From S2P Require Import Prelude.
From S2P Require Import I2cSbcon.

#[local] Set Default Proof Using "Type*".

(** ** The two lines

    SDA may change while SCL is low; a change while SCL is high is a start or
    stop condition.  A bit is a high period of SCL without such a change. *)
Inductive i2c_event : Type := START | STOP | BIT (b : bool).

Record wire_state : Type := {
  scl : bool;
  sda : bool;
  condition : bool;      (* in this high period *)
  events : list i2c_event
}.

Definition observe (scl' sda' : bool) (w : wire_state) : wire_state :=
  match scl w, scl' with
  | true, true =>
      if eqb (sda w) sda' then w
      else {| scl := true; sda := sda'; condition := true;
              events := events w ++ [if sda' then STOP else START] |}
  | true, false =>
      {| scl := false; sda := sda'; condition := false;
         events := if condition w then events w else events w ++ [BIT (sda w)] |}
  | false, _ => {| scl := scl'; sda := sda'; condition := false; events := events w |}
  end.

Definition has_pin (pins pin : Z) : bool := negb (Z.land pins pin =? 0).

Definition raise_lines (pins : Z) (w : wire_state) : wire_state :=
  observe (scl w || has_pin pins SCL) (sda w || has_pin pins SDA) w.
Definition lower_lines (pins : Z) (w : wire_state) : wire_state :=
  observe (scl w && negb (has_pin pins SCL)) (sda w && negb (has_pin pins SDA)) w.

(** [wire b]: what the observer has seen of the lines as the driver drives
    them.  [incoming b]: the levels of SDA that the reads to come will find.
    [ready us b]: the device can sleep for [us]. *)
Class LineLaws (B : Type) {BO : SbconOps B} := {
  wire : B -> wire_state;
  incoming : B -> list bool;
  ready : Z -> B -> Prop;
  ll_set : forall p b, let b' := set_reg p b in
    wire b' = raise_lines p (wire b) /\ incoming b' = incoming b /\ (forall us, ready us b -> ready us b');
  ll_clear : forall p b, let b' := clear_reg p b in
    wire b' = lower_lines p (wire b) /\ incoming b' = incoming b /\ (forall us, ready us b -> ready us b');
  ll_status : forall b, let '(st, b') := status_reg b in
    wire b' = wire b /\ 0 <= st /\ (incoming b <> [] -> incoming b = Z.testbit st 1 :: incoming b') /\
    (forall us, ready us b -> ready us b');
  ll_sleep : forall us b, ready us b -> exists b', sleep_us us b = (Ok tt, b') /\
    wire b' = wire b /\ incoming b' = incoming b /\ ready us b'
}.

(** ** Bytes as bits *)

Definition bits_of (x : Z) : list bool := (fun i => Z.testbit x (7 - i)) <$> seqZ 0 8.
Definition byte_of (bs : list bool) : Z := fold_left (fun a b => 2 * a + Z.b2z b) bs 0.

Lemma u8_cases (P : Z -> bool) : forallb P (seqZ 0 256) = true -> forall x, is_u8 x -> P x = true.
Proof.
  intros H x Hx. rewrite forallb_forall in H. apply H, list_elem_of_In, elem_of_seqZ. unfold is_u8 in Hx. lia.
Qed.

Lemma byte_bits x : is_u8 x -> byte_of (bits_of x) = x.
Proof.
  intros Hx. apply Z.eqb_eq. revert x Hx. apply u8_cases. vm_compute. reflexivity.
Qed.

(** A byte on the wire, with the released acknowledge bit. *)
Definition frame (x : Z) : list i2c_event := (BIT <$> bits_of x) ++ [BIT true].

(** A receiver: the bytes between a start condition and the end or a stop. *)
Fixpoint receive_bytes (fuel : nat) (es : list i2c_event) : option (list Z) :=
  match fuel, es with
  | S fuel, BIT b7 :: BIT b6 :: BIT b5 :: BIT b4 :: BIT b3 :: BIT b2 :: BIT b1 :: BIT b0 :: BIT _ :: es =>
      cons (byte_of [b7; b6; b5; b4; b3; b2; b1; b0]) <$> receive_bytes fuel es
  | _, [] | _, [STOP] => Some []
  | _, _ => None
  end.

Definition receive (es : list i2c_event) : option (list Z) :=
  match es with START :: es => receive_bytes (length es) es | _ => None end.

Lemma receive_bytes_frames fuel xs stop : Forall is_u8 xs -> stop = [] \/ stop = [STOP] -> (length xs <= fuel)%nat ->
  receive_bytes fuel (concat (frame <$> xs) ++ stop) = Some xs.
Proof.
  intros Hx Hs. revert fuel. induction Hx as [|x xs Hx _ IH]; intros fuel Hf.
  - destruct Hs as [-> | ->]; by destruct fuel.
  - destruct fuel as [|fuel]; cbn [length] in Hf; [lia|]. rewrite fmap_cons. cbn [concat]. rewrite <- app_assoc.
    specialize (IH fuel ltac:(lia)). set (rest := concat _ ++ stop) in *.
    assert (frame x ++ rest = (BIT <$> bits_of x) ++ BIT true :: rest) as -> by done.
    change (bits_of x) with [Z.testbit x 7; Z.testbit x 6; Z.testbit x 5; Z.testbit x 4; Z.testbit x 3; Z.testbit x 2;
      Z.testbit x 1; Z.testbit x 0]. cbn [fmap list_fmap app receive_bytes]. rewrite IH. cbn [fmap option_fmap option_map].
    do 2 f_equal. exact (byte_bits x Hx).
Qed.

Lemma length_frames xs : length (concat (frame <$> xs)) = (9 * length xs)%nat.
Proof.
  induction xs as [|x xs IH]; [done|]. rewrite fmap_cons. cbn [concat length]. rewrite length_app, IH.
  change (length (frame x)) with 9%nat. lia.
Qed.

Lemma receive_frames xs stop : Forall is_u8 xs -> stop = [] \/ stop = [STOP] ->
  receive (START :: concat (frame <$> xs) ++ stop) = Some xs.
Proof.
  intros Hx Hs. unfold receive. apply receive_bytes_frames; [done..|]. rewrite length_app, length_frames. lia.
Qed.

Lemma land_bit st n : 0 <= n -> Z.land (Z.shiftr st n) 1 = Z.b2z (Z.testbit st n).
Proof.
  intros Hn. change 1 with (Z.ones 1). rewrite Z.land_ones by lia. rewrite Z.shiftr_div_pow2 by lia.
  by rewrite Z.testbit_spec' by lia.
Qed.

(** The next bit of a byte that is received. *)
Lemma next_bit x i : 0 <= i < 8 -> is_u8 x ->
  Z.shiftr x (8 - (i + 1)) = Z.lor (w8 (Z.shiftl (Z.shiftr x (8 - i)) 1)) (Z.b2z (Z.testbit x (7 - i))).
Proof.
  intros Hi Hx. assert (forallb (fun i => Z.shiftr x (8 - (i + 1)) =?
    Z.lor (w8 (Z.shiftl (Z.shiftr x (8 - i)) 1)) (Z.b2z (Z.testbit x (7 - i)))) (seqZ 0 8) = true) as H.
  { revert x Hx. apply u8_cases. vm_compute. reflexivity. }
  rewrite forallb_forall in H. apply Z.eqb_eq, H, list_elem_of_In, elem_of_seqZ. lia.
Qed.

(** ** The operations *)

Section Wire.
Context {B : Type} {BO : SbconOps B} {LL : LineLaws B}.
Implicit Types d : i2c_sbcon_dev_t B.

(** [d'] is [d] with other lines. *)
Definition on_wire d d' (w : wire_state) (inc : list bool) : Prop :=
  wire (bus d') = w /\ incoming (bus d') = inc /\ ready (freq_us d') (bus d') /\
  freq_us d' = freq_us d /\ sys_clk d' = sys_clk d /\ i2c_state d' = i2c_state d.

(** The device is ready, with SCL low. *)
Definition low d : Prop := scl (wire (bus d)) = false /\ ready (freq_us d) (bus d).

Definition after (w : wire_state) (es : list i2c_event) (level : bool) : wire_state :=
  {| scl := false; sda := level; condition := false; events := events w ++ es |}.

Lemma wp_high {A} p (k : unit -> ST _ A) d Q : ready (freq_us d) (bus d) ->
  (forall d', on_wire d d' (raise_lines p (wire (bus d))) (incoming (bus d)) -> wp (k tt) d' Q) ->
  wp (I2C_HIGH p ≫= k) d Q.
Proof.
  intros Hr H. apply wp_bind, wp_modify, H. destruct (ll_set p (bus d)) as (H1 & H2 & H3). split_and!; auto.
Qed.

Lemma wp_low {A} p (k : unit -> ST _ A) d Q : ready (freq_us d) (bus d) ->
  (forall d', on_wire d d' (lower_lines p (wire (bus d))) (incoming (bus d)) -> wp (k tt) d' Q) ->
  wp (I2C_LOW p ≫= k) d Q.
Proof.
  intros Hr H. apply wp_bind, wp_modify, H. destruct (ll_clear p (bus d)) as (H1 & H2 & H3). split_and!; auto.
Qed.

Lemma wp_sleep_end d Q : ready (freq_us d) (bus d) ->
  (forall d', on_wire d d' (wire (bus d)) (incoming (bus d)) -> Q (Ok tt) d') -> wp sleep d Q.
Proof.
  intros Hr H. unfold wp, sleep. destruct (ll_sleep (freq_us d) (bus d) Hr) as (b & -> & H1 & H2 & H3).
  apply H. by split_and!.
Qed.

Lemma wp_sleep {A} (k : unit -> ST _ A) d Q : ready (freq_us d) (bus d) ->
  (forall d', on_wire d d' (wire (bus d)) (incoming (bus d)) -> wp (k tt) d' Q) -> wp (sleep ≫= k) d Q.
Proof. intros Hr H. apply wp_bind, wp_sleep_end; [done|]. intros d' Hd. by apply H. Qed.

Lemma on_wire_trans d1 d2 d3 w w' i i' : on_wire d1 d2 w i -> on_wire d2 d3 w' i' -> on_wire d1 d3 w' i'.
Proof. intros (_ & _ & _ & H1 & H2 & H3) (H4 & H5 & H0 & H6 & H7 & H8). split_and!; done || congruence. Qed.

(** Walk through a straight sequence. *)
Ltac wires :=
  repeat (first [apply wp_high | apply wp_low | apply wp_sleep | apply wp_sleep_end]; [assumption|];
    let d := fresh "d" in let H := fresh "H" in intros d H;
    let Hw := fresh "Hw" in let Hi := fresh "Hi" in destruct H as (Hw & Hi & ? & ? & ? & ?)).

Lemma wp_tx_bit x d : low d ->
  wp (i2c_tx_bit x) d (fun r d' => r = Ok tt /\
    on_wire d d' (after (wire (bus d)) [BIT (negb (x =? 0))] (negb (x =? 0))) (incoming (bus d))).
Proof.
  intros [Hs Hr]. unfold i2c_tx_bit. destruct (x =? 0); cbn [negb]; wires; (split; [done|]); split_and!; try congruence;
    rewrite Hw4, Hw3, Hw2, Hw1, Hw0, Hw; unfold after, raise_lines, lower_lines, observe; cbn; rewrite ?Hs; cbn;
    rewrite ?orb_true_r, ?andb_false_r, ?orb_false_r, ?andb_true_r; cbn; by rewrite ?Hs.
Qed.

(** The level at the read is that of the slave; the driver's own is high. *)
Lemma wp_rx_bit d x inc : low d -> incoming (bus d) = x :: inc ->
  wp i2c_rx_bit d (fun r d' => r = Ok (Z.b2z x) /\ on_wire d d' (after (wire (bus d)) [BIT true] true) inc).
Proof.
  intros [Hs Hr] Hin. unfold i2c_rx_bit. wires. apply wp_bind. unfold wp at 1, I2C_GET.
  pose proof (ll_status (bus d3)) as Hst. destruct (status_reg (bus d3)) as [st b]. cbn [fst snd].
  destruct Hst as (Hw3 & Hpos & Hhd & Hrd). set (d4 := set_bus b d3).
  assert (incoming (bus d3) = x :: inc) as Hin3 by congruence.
  rewrite Hin3 in Hhd. injection (Hhd ltac:(done)) as Hx Hinc.
  assert (Z.land (Z.shiftr st (SDA - 1)) 1 = Z.b2z x) as -> by (rewrite Hx; by apply land_bit).
  assert (ready (freq_us d4) (bus d4)) as Hr4 by (by apply Hrd).
  wires. apply wp_ret. split; [done|]. cbn [d4 bus set_bus freq_us sys_clk i2c_state] in *. split_and!; try congruence.
  rewrite Hw5, Hw4, Hw3, Hw2, Hw1, Hw0, Hw. unfold after, raise_lines, lower_lines, observe. cbn. rewrite ?Hs. cbn.
  rewrite ?orb_true_r, ?andb_false_r, ?orb_false_r, ?andb_true_r. cbn. by rewrite ?Hs.
Qed.

(** Events sent, with SCL low at the end. *)
Definition sent d d' (es : list i2c_event) (inc : list bool) : Prop :=
  exists level, on_wire d d' (after (wire (bus d)) es level) inc.

Lemma sent_low d d' es inc : sent d d' es inc -> low d'.
Proof. intros (level & Hw & _ & Hr & _). split; [by rewrite Hw|done]. Qed.

Lemma sent_incoming d d' es inc : sent d d' es inc -> incoming (bus d') = inc.
Proof. by intros (level & _ & -> & _). Qed.

Lemma sent_trans d1 d2 d3 es es' i i' : sent d1 d2 es i -> sent d2 d3 es' i' -> sent d1 d3 (es ++ es') i'.
Proof.
  intros (l1 & H1) (l2 & H2). exists l2. pose proof (on_wire_trans _ _ _ _ _ _ _ H1 H2) as H.
  destruct H1 as [Hw _]. rewrite Hw in H. unfold after in *. cbn in H. by rewrite <- app_assoc in H.
Qed.

(** A command that sends events, and what follows it. *)
Lemma wp_send {A C} (m : ST _ A) (k : A -> ST _ C) d a es inc Q :
  wp m d (fun r d' => r = Ok a /\ sent d d' es inc) ->
  (forall d', sent d d' es inc -> wp (k a) d' Q) -> wp (m ≫= k) d Q.
Proof.
  intros Hm Hk. apply wp_bind. eapply wp_mono; [exact Hm|]. intros r d' [-> H]. by apply Hk.
Qed.

Lemma wp_send_bit x d : low d ->
  wp (i2c_tx_bit x) d (fun r d' => r = Ok tt /\ sent d d' [BIT (negb (x =? 0))] (incoming (bus d))).
Proof. intros Hs. eapply wp_mono; [by apply wp_tx_bit|]. intros r d' [-> H]. split; [done|]. by eexists. Qed.

Lemma wp_receive_bit d x inc : low d -> incoming (bus d) = x :: inc ->
  wp i2c_rx_bit d (fun r d' => r = Ok (Z.b2z x) /\ sent d d' [BIT true] inc).
Proof. intros Hs Hi. eapply wp_mono; [by apply wp_rx_bit|]. intros r d' [-> H]. split; [done|]. by eexists. Qed.

(** The bit of a byte that round [i] sends. *)
Lemma top_bit x i : is_u8 x -> 0 <= i < 8 -> negb (Z.land (w8 (Z.shiftl x i)) 128 =? 0) = Z.testbit x (7 - i).
Proof.
  intros Hx Hi. assert (forallb (fun i => eqb (negb (Z.land (w8 (Z.shiftl x i)) 128 =? 0)) (Z.testbit x (7 - i))) (seqZ 0 8) = true) as H.
  { revert x Hx. apply u8_cases. vm_compute. reflexivity. }
  rewrite forallb_forall in H. apply eqb_prop, H, list_elem_of_In, elem_of_seqZ. lia.
Qed.

Lemma shift_again x i : 0 <= i -> w8 (Z.shiftl (w8 (Z.shiftl x i)) 1) = w8 (Z.shiftl x (i + 1)).
Proof.
  intros Hi. unfold w8. rewrite !Z.shiftl_mul_pow2 by lia. change (2 ^ 1) with 2.
  rewrite Zmult_mod_idemp_l, Z.pow_add_r by lia. f_equal. lia.
Qed.

Lemma sent_ext d d1 d2 es inc : sent d d1 es inc -> d1 = d2 -> sent d d2 es inc.
Proof. by intros H <-. Qed.

Lemma wp_send_byte x d : is_u8 x -> low d ->
  wp (i2c_sbcon_tx_byte x) d (fun r d' => r = Ok tt /\ sent d d' (BIT <$> bits_of x) (incoming (bus d))).
Proof.
  intros Hx Hs. unfold i2c_sbcon_tx_byte. apply wp_bind.
  apply (wp_for_acc (fun i data d' => data = w8 (Z.shiftl x i) /\
    (i = 0 /\ d' = d \/ 0 < i /\ sent d d' (BIT <$> take (Z.to_nat i) (bits_of x)) (incoming (bus d))))).
  - split; [|by left]. unfold w8. rewrite Z.shiftl_0_r, Z.mod_small; [done|exact Hx].
  - intros i data d1 Hi [-> Hd]. assert (low d1 /\ incoming (bus d1) = incoming (bus d)) as [Hs1 Hin1].
    { destruct Hd as [[_ ->]|[_ Hd]]; [done|]. split; [by eapply sent_low|by eapply sent_incoming]. }
    eapply wp_send; [by apply wp_send_bit|]. intros d2 H2. apply wp_ret.
    split; [symmetry; by rewrite shift_again by lia|]. right. split; [lia|]. rewrite top_bit in H2 by lia || done.
    assert (take (Z.to_nat (i + 1)) (bits_of x) = take (Z.to_nat i) (bits_of x) ++ [Z.testbit x (7 - i)]) as ->.
    { replace (Z.to_nat (i + 1)) with (S (Z.to_nat i)) by lia. apply take_S_r. unfold bits_of.
      rewrite list_lookup_fmap, lookup_seqZ_lt by lia. cbn. do 2 f_equal. lia. }
    rewrite fmap_app. rewrite Hin1 in H2. destruct Hd as [[-> ->]|[_ Hd]]; [exact H2|by eapply sent_trans].
  - intros data d1 [_ [[? _]|[_ H]]]; [lia|]. apply wp_ret. split; [done|]. exact H.
Qed.

Lemma wp_receive_byte x d inc : is_u8 x -> low d -> incoming (bus d) = bits_of x ++ inc ->
  wp i2c_sbcon_rx_byte d (fun r d' => r = Ok x /\ sent d d' (replicate 8 (BIT true)) inc).
Proof.
  intros Hx Hs Hin. unfold i2c_sbcon_rx_byte.
  apply (wp_for_acc (fun i data d' => data = Z.shiftr x (8 - i) /\
    (i = 0 /\ d' = d \/ 0 < i /\ sent d d' (replicate (Z.to_nat i) (BIT true)) (drop (Z.to_nat i) (bits_of x) ++ inc)))).
  - split; [|by left]. rewrite Z.shiftr_div_pow2 by lia. symmetry. apply Z.div_small, Hx.
  - intros i data d1 Hi [-> Hd].
    assert (drop (Z.to_nat i) (bits_of x) = Z.testbit x (7 - i) :: drop (Z.to_nat (i + 1)) (bits_of x)) as Hdrop.
    { replace (Z.to_nat (i + 1)) with (S (Z.to_nat i)) by lia. apply drop_S. unfold bits_of.
      rewrite list_lookup_fmap, lookup_seqZ_lt by lia. cbn. do 2 f_equal. lia. }
    assert (low d1 /\ incoming (bus d1) = drop (Z.to_nat i) (bits_of x) ++ inc) as [Hs1 Hin1].
    { destruct Hd as [[-> ->]|[_ Hd]]; [done|]. split; [by eapply sent_low|by eapply sent_incoming]. }
    rewrite Hdrop, <- app_comm_cons in Hin1. eapply wp_send; [by apply (wp_receive_bit d1 _ _ Hs1 Hin1)|]. intros d2 H2. apply wp_ret.
    split; [symmetry; by apply next_bit|]. right. split; [lia|].
    replace (Z.to_nat (i + 1)) with (Z.to_nat i + 1)%nat at 1 by lia. rewrite replicate_add.
    destruct Hd as [[-> ->]|[_ Hd]]; [exact H2|by eapply sent_trans].
  - intros data d1 [-> [[? _]|[_ H]]]; [lia|]. by split.
Qed.

(** The device is ready, with idle lines or with SCL low. *)
Definition free_lines d : Prop := ready (freq_us d) (bus d) /\
  (scl (wire (bus d)) = false \/ scl (wire (bus d)) = true /\ sda (wire (bus d)) = true).

Lemma wp_start d : free_lines d ->
  wp i2c_sbcon_tx_start d (fun r d' => r = Ok tt /\ sent d d' [START] (incoming (bus d))).
Proof.
  intros [Hr Hf]. unfold i2c_sbcon_tx_start. wires. split; [done|]. exists false. split_and!; try congruence.
  rewrite Hw4, Hw3, Hw2, Hw1, Hw0, Hw. unfold after, raise_lines, lower_lines, observe. cbn.
  destruct Hf as [Hs|[Hs Hd]]; rewrite ?Hs, ?Hd; cbn; rewrite ?orb_true_r, ?andb_false_r, ?orb_false_r, ?andb_true_r; cbn;
    rewrite ?Hs, ?Hd; done.
Qed.

Lemma wp_stop d : low d ->
  wp i2c_sbcon_tx_stop d (fun r d' => r = Ok tt /\ on_wire d d'
    {| scl := true; sda := true; condition := true; events := events (wire (bus d)) ++ [STOP] |} (incoming (bus d))).
Proof.
  intros [Hs Hr]. unfold i2c_sbcon_tx_stop. wires. split; [done|]. split_and!; try congruence.
  rewrite Hw4, Hw3, Hw2, Hw1, Hw0, Hw. unfold raise_lines, lower_lines, observe. cbn.
  rewrite ?Hs; cbn; rewrite ?orb_true_r, ?andb_false_r, ?orb_false_r, ?andb_true_r; cbn; rewrite ?Hs; done.
Qed.

(** ** Transfers *)

(** A byte and the acknowledge bit of the slave. *)
Lemma wp_frame {A} x (k : ST _ A) d ack inc Q : is_u8 x -> low d -> incoming (bus d) = ack :: inc ->
  (forall d', sent d d' (frame x) inc -> wp k d' Q) ->
  wp (i2c_sbcon_tx_byte x;; i2c_sbcon_rx_ack;; k) d Q.
Proof.
  intros Hx Hs Hin Hk. eapply wp_send; [by apply wp_send_byte|]. intros d1 H1.
  eapply wp_send; [apply (wp_receive_bit d1 ack inc); [by eapply sent_low|]|].
  - rewrite (sent_incoming _ _ _ _ H1). exact Hin.
  - intros d2 H2. apply Hk. by eapply sent_trans.
Qed.

Definition addr_bytes (first addr : Z) : list Z :=
  first :: if negb (Z.land addr I2C_10BIT =? 0) then [w8 (Z.shiftr addr 8)] else [].

Lemma wp_tx_addr first addr d acks inc : is_u8 first -> low d ->
  incoming (bus d) = acks ++ inc -> length acks = length (addr_bytes first addr) ->
  wp (tx_addr first addr) d (fun r d' => r = Ok tt /\ sent d d' (concat (frame <$> addr_bytes first addr)) inc).
Proof.
  intros Hx Hs Hin Hl. unfold tx_addr, addr_bytes in *. destruct (negb _); cbn [length] in Hl.
  - destruct acks as [|a1 [|a2 [|]]]; try done. cbn [app] in Hin.
    apply (wp_frame _ _ _ a1 (a2 :: inc) _ Hx Hs Hin). intros d1 H1.
    apply (wp_frame _ _ _ a2 inc); [apply w8_range|by eapply sent_low|by apply (sent_incoming _ _ _ _ H1)|].
    intros d2 H2. apply wp_ret. split; [done|]. cbn [fmap list_fmap concat]. rewrite app_nil_r. by eapply sent_trans.
  - destruct acks as [|a1 [|]]; try done. cbn [app] in Hin.
    apply (wp_frame _ _ _ a1 inc _ Hx Hs Hin). intros d1 H1. apply wp_ret. split; [done|].
    cbn [fmap list_fmap concat]. by rewrite app_nil_r.
Qed.

(** The bytes of the message, each acknowledged. *)
Lemma wp_tx_data data d acks inc : Forall is_u8 data -> low d ->
  incoming (bus d) = acks ++ inc -> length acks = length data ->
  wp (for_acc (length data) 0 tt (fun i _ =>
        x ← at_index data i; i2c_sbcon_tx_byte x;; i2c_sbcon_rx_ack;; mret tt)) d
    (fun r d' => r = Ok tt /\ (d' = d /\ data = [] \/ sent d d' (concat (frame <$> data)) inc)).
Proof.
  intros Hx Hs Hin Hl.
  apply (wp_for_acc (fun i _ d' => i = 0 /\ d' = d \/ 0 < i /\
    sent d d' (concat (frame <$> take (Z.to_nat i) data)) (drop (Z.to_nat i) acks ++ inc))).
  - by left.
  - intros i u d1 Hi Hd. destruct (lookup_lt_is_Some_2 data (Z.to_nat i) ltac:(lia)) as [x Hxi].
    destruct (lookup_lt_is_Some_2 acks (Z.to_nat i) ltac:(lia)) as [a Ha].
    apply wp_bind. unfold wp at 1, at_index. rewrite Hxi. cbn [fst snd mret ST_ret].
    assert (low d1 /\ incoming (bus d1) = drop (Z.to_nat i) acks ++ inc) as [Hs1 Hin1].
    { destruct Hd as [[-> ->]|[_ Hd]]; [done|]. split; [by eapply sent_low|by eapply sent_incoming]. }
    rewrite (drop_S _ _ _ Ha), <- app_comm_cons in Hin1.
    apply (wp_frame x _ d1 a _ _ (Forall_lookup_1 _ _ _ _ Hx Hxi) Hs1 Hin1). intros d2 H2. apply wp_ret.
    right. split; [lia|]. replace (Z.to_nat (i + 1)) with (S (Z.to_nat i)) by lia.
    rewrite (take_S_r _ _ _ Hxi), fmap_app, concat_app. cbn [fmap list_fmap concat]. rewrite app_nil_r.
    destruct Hd as [[-> ->]|[_ Hd]]; [exact H2|by eapply sent_trans].
  - intros [] d1 [[H ->]|[_ H]].
    + split; [done|]. left. split; [done|]. by destruct data.
    + split; [done|]. right. rewrite Z.add_0_l, Nat2Z.id, take_ge, drop_ge in H by lia. exact H.
Qed.

Definition stop_unless (xfer_pending : Z) : list i2c_event := if xfer_pending =? 0 then [STOP] else [].

(** What a transfer has put on the wire, and where it leaves the lines. *)
Definition transferred d d' (es : list i2c_event) (inc : list bool) : Prop :=
  events (wire (bus d')) = events (wire (bus d)) ++ es /\ free_lines d' /\ incoming (bus d') = inc /\
  freq_us d' = freq_us d /\ sys_clk d' = sys_clk d /\ i2c_state d' = i2c_state d.

Lemma wp_end {A} d0 d es inc xfer_pending (a : A) : sent d0 d es inc ->
  wp ((if xfer_pending =? 0 then i2c_sbcon_tx_stop else mret tt);; mret a) d
    (fun r d' => r = Ok a /\ transferred d0 d' (es ++ stop_unless xfer_pending) inc).
Proof.
  intros Hd. pose proof (sent_low _ _ _ _ Hd) as Hs. destruct Hd as (lv & Hw & Hi & Hrd & H1 & H2 & H3).
  unfold stop_unless. apply wp_bind. destruct (xfer_pending =? 0).
  - eapply wp_mono; [by apply wp_stop|]. intros r d' [-> (Hw' & Hi' & Hrd' & H4 & H5 & H6)]. apply wp_ret. split; [done|].
    split_and!; try congruence.
    + rewrite Hw', Hw. cbn. by rewrite app_assoc.
    + split; [done|]. rewrite Hw'. by right.
  - apply wp_ret, wp_ret. split; [done|]. split_and!; try congruence.
    + rewrite Hw. cbn. by rewrite app_nil_r.
    + split; [done|]. rewrite Hw. by left.
Qed.

Lemma wp_master_transmit addr data len pending d acks inc :
  Forall is_u8 data -> len = Z.of_nat (length data) -> free_lines d ->
  incoming (bus d) = acks ++ inc -> length acks = (length (addr_bytes (w8 addr) addr) + length data)%nat ->
  wp (i2c_sbcon_master_transmit addr data len pending) d (fun r d' => r = Ok len /\
    transferred d d' (START :: concat (frame <$> addr_bytes (w8 addr) addr ++ data) ++ stop_unless pending) inc).
Proof.
  intros Hx -> Hf Hin Hl. unfold i2c_sbcon_master_transmit. set (pre := addr_bytes (w8 addr) addr) in *.
  eapply wp_send; [by apply wp_start|]. intros d1 H1.
  assert (incoming (bus d1) = take (length pre) acks ++ (drop (length pre) acks ++ inc)) as Hin1.
  { rewrite app_assoc, take_drop. rewrite <- Hin. by eapply sent_incoming. }
  eapply wp_send; [apply (wp_tx_addr (w8 addr) addr _ _ _ ltac:(apply w8_range) (sent_low _ _ _ _ H1) Hin1); fold pre; rewrite length_take; lia|].
  intros d2 H2. pose proof (sent_trans _ _ _ _ _ _ _ H1 H2) as H12. rewrite Nat2Z.id. apply wp_bind. eapply wp_mono.
  { apply (wp_tx_data data d2 _ _ Hx (sent_low _ _ _ _ H2) (sent_incoming _ _ _ _ H2)). rewrite length_drop. lia. }
  intros r d3 [-> H3]. fold pre in H12. cbn [app] in H12.
  assert (sent d d3 (START :: concat (frame <$> pre ++ data)) inc) as H.
  { rewrite fmap_app, concat_app. destruct H3 as [[-> ->]|H3]; [|by apply (sent_trans _ _ _ _ _ _ _ H12 H3)].
    rewrite app_nil_r. rewrite drop_ge in H12 by (rewrite Hl; cbn [length]; lia). exact H12. }
  apply (wp_end d d3 _ _ pending _ H).
Qed.

(** The driver's side of a reception of [n] more bytes: released lines, and
    an acknowledge bit before each. *)
Fixpoint acknowledged (n : nat) : list i2c_event :=
  match n with O => [] | S n => BIT false :: replicate 8 (BIT true) ++ acknowledged n end.

Lemma acknowledged_last n : acknowledged (S n) = acknowledged n ++ BIT false :: replicate 8 (BIT true).
Proof using Type.
  induction n as [|n IH]; [done|]. change (acknowledged (S (S n))) with
    (BIT false :: replicate 8 (BIT true) ++ acknowledged (S n)). rewrite IH at 1.
  change (acknowledged (S n)) with (BIT false :: replicate 8 (BIT true) ++ acknowledged n).
  by rewrite <- app_comm_cons, app_assoc.
Qed.

Lemma wp_rx_data room x xs d inc : Forall is_u8 (x :: xs) -> low d ->
  incoming (bus d) = concat (bits_of <$> xs) ++ inc -> Z.of_nat (length (x :: xs)) <= room ->
  wp (for_acc (length xs) 1 [x] (fun i data =>
        i2c_sbcon_tx_ack 0;; x ← i2c_sbcon_rx_byte;
        if room <=? i then raise UNDEFINED else mret (data ++ [x]))) d
    (fun r d' => r = Ok (x :: xs) /\ (d' = d /\ xs = [] \/ sent d d' (acknowledged (length xs)) inc)).
Proof.
  intros Hx Hs Hin Hroom. apply Forall_inv_tail in Hx. cbn [length] in Hroom.
  apply (wp_for_acc (fun i data d' => data = x :: take (Z.to_nat (i - 1)) xs /\
    (i = 1 /\ d' = d \/ 1 < i /\
     sent d d' (acknowledged (Z.to_nat (i - 1))) (concat (bits_of <$> drop (Z.to_nat (i - 1)) xs) ++ inc)))).
  - split; [done|]. by left.
  - intros i data d1 Hi [-> Hd]. destruct (lookup_lt_is_Some_2 xs (Z.to_nat (i - 1)) ltac:(lia)) as [y Hy].
    assert (low d1 /\ incoming (bus d1) = concat (bits_of <$> drop (Z.to_nat (i - 1)) xs) ++ inc) as [Hs1 Hin1].
    { destruct Hd as [[-> ->]|[_ Hd]]; [done|]. split; [by eapply sent_low|by eapply sent_incoming]. }
    rewrite (drop_S _ _ _ Hy), fmap_cons in Hin1. cbn [concat] in Hin1. rewrite <- app_assoc in Hin1.
    eapply wp_send; [by apply wp_send_bit|]. intros d2 H2.
    eapply wp_send; [apply (wp_receive_byte y d2 _ (Forall_lookup_1 _ _ _ _ Hx Hy) (sent_low _ _ _ _ H2))|].
    { rewrite (sent_incoming _ _ _ _ H2). exact Hin1. }
    intros d3 H3. destruct (Z.leb_spec room i); [lia|]. apply wp_ret.
    replace (Z.to_nat (i + 1 - 1)) with (S (Z.to_nat (i - 1))) by lia.
    split; [by rewrite (take_S_r _ _ _ Hy)|]. right. split; [lia|]. rewrite acknowledged_last.
    pose proof (sent_trans _ _ _ _ _ _ _ H2 H3) as H23.
    destruct Hd as [[-> ->]|[_ Hd]]; [exact H23|by eapply sent_trans].
  - intros data d1 [-> Hd]. replace (Z.to_nat (1 + Z.of_nat (length xs) - 1)) with (length xs) in * by lia.
    rewrite take_ge by lia. split; [done|]. rewrite drop_ge in Hd by lia.
    destruct Hd as [[H ->]|[_ H]]; [|by right]. left. split; [done|]. destruct xs; [done|cbn in H; lia].
Qed.

Lemma wp_master_receive addr room len pending d acks xs inc :
  Forall is_u8 xs -> len = Z.of_nat (length xs) -> 0 < len <= room -> free_lines d ->
  incoming (bus d) = acks ++ concat (bits_of <$> xs) ++ inc ->
  length acks = length (addr_bytes (w8 (Z.lor addr 1)) addr) ->
  wp (i2c_sbcon_master_receive addr room len pending) d (fun r d' => r = Ok (xs, len) /\
    transferred d d' (START :: concat (frame <$> addr_bytes (w8 (Z.lor addr 1)) addr) ++
      replicate 8 (BIT true) ++ acknowledged (length xs - 1) ++ [BIT true] ++ stop_unless pending) inc).
Proof.
  intros Hx -> Hlen Hf Hin Hl. destruct xs as [|x xs]; [cbn in Hlen; lia|]. unfold i2c_sbcon_master_receive.
  rewrite fmap_cons in Hin. cbn [concat] in Hin. rewrite <- app_assoc in Hin.
  eapply wp_send; [by apply wp_start|]. intros d1 H1.
  eapply wp_send.
  { apply (wp_tx_addr (w8 (Z.lor addr 1)) addr d1 acks _ ltac:(apply w8_range) (sent_low _ _ _ _ H1)); [|exact Hl].
    rewrite (sent_incoming _ _ _ _ H1). exact Hin. }
  intros d2 H2. pose proof (sent_trans _ _ _ _ _ _ _ H1 H2) as H12.
  eapply wp_send; [apply (wp_receive_byte x d2 _ (Forall_inv Hx) (sent_low _ _ _ _ H2) (sent_incoming _ _ _ _ H2))|].
  intros d3 H3. pose proof (sent_trans _ _ _ _ _ _ _ H12 H3) as H13.
  destruct (Z.ltb_spec room 1); [lia|]. apply wp_bind, wp_ret.
  replace (Z.to_nat (Z.of_nat (length (x :: xs)) - 1)) with (length xs) by (cbn [length]; lia).
  apply wp_bind. eapply wp_mono; [apply (wp_rx_data room x xs d3 inc Hx (sent_low _ _ _ _ H3) (sent_incoming _ _ _ _ H3)); lia|].
  intros r d4 [-> H4]. change (length (x :: xs) - 1)%nat with (length xs - 0)%nat. rewrite Nat.sub_0_r.
  assert (sent d d4 ([START] ++ concat (frame <$> addr_bytes (w8 (Z.lor addr 1)) addr) ++ replicate 8 (BIT true) ++
    acknowledged (length xs)) inc) as H14.
  { rewrite <- !app_assoc in H13. destruct H4 as [[-> ->]|H4]; [by rewrite app_nil_r|].
    pose proof (sent_trans _ _ _ _ _ _ _ H13 H4) as H5. by rewrite <- !app_assoc in H5. }
  eapply wp_send; [apply wp_send_bit; by eapply sent_low|]. intros d5 H5.
  rewrite (sent_incoming _ _ _ _ H14) in H5. pose proof (sent_trans _ _ _ _ _ _ _ H14 H5) as H15.
  rewrite <- !app_assoc in H15. eapply wp_mono; [apply (wp_end d d5 _ _ pending _ H15)|].
  intros r d' [-> H6]. split; [done|]. rewrite <- !app_assoc in H6. exact H6.
Qed.
End Wire.
