(* ===== verification/AudioCodec.v ===== *)
(** * The audio codec (vad_an552_sp/Libraries/audio_codec_mps3.c)

    The codec's registers are written and read over I2C; the driver sleeps
    with [wait_us], as vad_an552_device_definition.c has it. *)
From Stdlib Require Import ZArith Lia.
From stdpp Require Import base list numbers options.
From S2P Require Import Prelude.
From S2P Require Import Interrupts.
From S2P Require Import SysTimer.
From S2P Require Import I2sDriver.
From S2P Require Import I2cSbcon.

#[local] Set Default Proof Using "Type*".

(** The rounds that loops are given: those that poll the timer, and the one
    that empties the audio buffer. *)
Class VadFuel := { polls : nat; drain : nat }.

(** I2C0_SBCON_DEV_CFG_S *)
Definition I2C0_DEFAULT_FREQ_HZ : Z := 100000.
Definition WAIT_US_FREQ_HZ : Z := SYSTIMER3_ARMV8M_DEFAULT_FREQ_HZ.

Definition CHIP_ADDR_WRITE : Z := 150.
Definition CHIP_ADDR_READ : Z := 151.
Definition AUDIO_CODEC_MPS3_PWR_CTRL1 : Z := 2.
Definition AUDIO_CODEC_MPS3_PWR_CTRL2 : Z := 3.
Definition AUDIO_CODEC_MPS3_PWR_CTRL3 : Z := 4.
Definition AUDIO_CODEC_MPS3_CLK_CTRL : Z := 5.
Definition AUDIO_CODEC_MPS3_INPUT_A : Z := 8.
Definition AUDIO_CODEC_MPS3_INPUT_B : Z := 9.
Definition AUDIO_CODEC_MPS3_AMP_A : Z := 16.
Definition AUDIO_CODEC_MPS3_AMP_B : Z := 17.
Definition AUDIO_CODEC_MPS3_MISC_CTRL : Z := 14.

(** The drivers' data and the device. *)
Abbreviation hardware_state W := (i2c_sbcon_dev_t (timer_state W)).

#[export] Instance timer_device {W} : Lens (timer_state W) W :=
  {| view := systimer; update := set_systimer |}.
#[export] Instance i2c_bus {B} : Lens (i2c_sbcon_dev_t B) B :=
  {| view := bus; update := set_bus |}.

Section Codec.
Context {W : Type} {TO : SystimerOps W} {IO : I2sOps W} {SR : SbconRegs W} {VF : VadFuel}.
Abbreviation HW := (prog (hardware_state W)).

(** The lines are those of the device, and [sleep_us] is [wait_us]. *)
#[export] Instance i2c0_ops : SbconOps (timer_state W) := {
  sbcon_regs := {|
    set_reg := fun p t => set_systimer (set_reg p (systimer t)) t;
    clear_reg := fun p t => set_systimer (clear_reg p (systimer t)) t;
    status_reg := fun t => let '(st, d) := status_reg (systimer t) in (st, set_systimer d t)
  |};
  sleep_us := fun us => run (wait_us polls us)
}.

Definition on_timer {A} (p : prog (timer_state W) A) : HW A := within p.
Definition on_i2s {A} (p : prog W A) : HW A := within (within (S := timer_state W) p).
Definition on_i2c {A} (m : ST (hardware_state W) A) : HW A := act m.

Definition audio_codec_mps3_write (map_byte data : Z) : HW unit :=
  on_i2c (i2c_sbcon_master_transmit CHIP_ADDR_WRITE [map_byte; data] 2 0);; mret tt.

Definition audio_codec_mps3_read (map_byte : Z) : HW Z :=
  on_i2c (i2c_sbcon_master_transmit CHIP_ADDR_WRITE [map_byte] 1 0);;
  '(data, _) ← on_i2c (i2c_sbcon_master_receive CHIP_ADDR_READ 1 1 0);
  mret (nth_byte data 0).

Definition audio_codec_mps3_init : HW unit :=
  on_i2c (i2c_sbcon_init I2C0_DEFAULT_FREQ_HZ WAIT_US_FREQ_HZ);;
  on_i2s audio_i2s_mps3_set_codec_reset;;
  on_timer (wait_ms polls 1);;
  on_i2s audio_i2s_mps3_clear_codec_reset;;
  on_timer (wait_ms polls 1);;
  audio_codec_mps3_write 0 153;;
  audio_codec_mps3_write 62 186;;
  audio_codec_mps3_write 71 128;;
  reg_32 ← audio_codec_mps3_read 50;
  audio_codec_mps3_write 50 (Z.lor reg_32 128);;
  audio_codec_mps3_write 50 (Z.land reg_32 127);;
  audio_codec_mps3_write 0 0;;
  on_timer (wait_ms polls 1);;
  audio_codec_mps3_write AUDIO_CODEC_MPS3_CLK_CTRL 32;;
  audio_codec_mps3_write AUDIO_CODEC_MPS3_PWR_CTRL1 0;;
  audio_codec_mps3_write AUDIO_CODEC_MPS3_PWR_CTRL2 0;;
  audio_codec_mps3_write AUDIO_CODEC_MPS3_PWR_CTRL3 170;;
  audio_codec_mps3_write AUDIO_CODEC_MPS3_INPUT_A 144;;
  audio_codec_mps3_write AUDIO_CODEC_MPS3_INPUT_B 144;;
  audio_codec_mps3_write AUDIO_CODEC_MPS3_AMP_A 95;;
  audio_codec_mps3_write AUDIO_CODEC_MPS3_AMP_B 95;;
  audio_codec_mps3_write AUDIO_CODEC_MPS3_MISC_CTRL 4;;
  on_timer (wait_ms polls 1).
End Codec.
