(* ===== verification/CodecSpec.v ===== *)
(** * What the initialisation of the audio codec writes

    The codec's code runs on the I2C driver, which sleeps on the system timer:
    on a device with both ([BusLaws]) the timer keeps the driver's contract,
    and the initialisation puts a fixed list of register writes on the wire. *)
From Stdlib Require Import ZArith Lia.
From stdpp Require Import base list numbers options.
From S2P Require Import Prelude.
From S2P Require Import Interrupts.
From S2P Require Import SysTimer.
From S2P Require Import I2sDriver.
From S2P Require Import I2cSbcon.
From S2P Require Import I2cSpec.
From S2P Require Import AudioCodec.

#[local] Set Default Proof Using "Type*".

(** The two lines of the device, next to its timer and its audio interface;
    no access but setting the timer puts off its interrupt. *)
Class BusLaws (W : Type) {TO : SystimerOps W} {IO : I2sOps W} {SR : SbconRegs W} {TL : SystimerLaws (T := W)} := {
  lines : W -> wire_state;
  levels : W -> list bool;
  bl_set : forall p w, let w' := set_reg p w in
    lines w' = raise_lines p (lines w) /\ levels w' = levels w /\ ticks w' <= ticks w;
  bl_clear : forall p w, let w' := clear_reg p w in
    lines w' = lower_lines p (lines w) /\ levels w' = levels w /\ ticks w' <= ticks w;
  bl_status : forall w, let '(st, w') := status_reg w in
    lines w' = lines w /\ 0 <= st /\ (levels w <> [] -> levels w = Z.testbit st 1 :: levels w') /\
    ticks w' <= ticks w;
  bl_init : forall w, let w' := systimer_armv8_m_init w in lines w' = lines w /\ levels w' = levels w;
  bl_timer : forall v w, let w' := systimer_armv8_m_set_timer_value v w in lines w' = lines w /\ levels w' = levels w;
  bl_poll : forall w, let w' := (systimer_armv8_m_is_interrupt_asserted w).2 in
    lines w' = lines w /\ levels w' = levels w;
  bl_read : forall w, let w' := (i2s_read CONTROL w).2 in
    lines w' = lines w /\ levels w' = levels w /\ ticks w' <= ticks w;
  bl_write : forall x w, let w' := i2s_write CONTROL x w in
    lines w' = lines w /\ levels w' = levels w /\ ticks w' <= ticks w
}.

Section Codec.
Context {W : Type} {TO : SystimerOps W} {IO : I2sOps W} {SR : SbconRegs W} {VF : VadFuel}.
Context {TL : SystimerLaws (T := W)} {BL : BusLaws W}.
Implicit Types t : timer_state W.

Definition can_sleep (us : Z) t : Prop :=
  bounded polls t /\ startable MAX_DELAY_US US_TO_TICK polls OF_WAIT_US us t.

(** A wait leaves the lines alone. *)
Lemma waits limit to_tick i delay t : bounded polls t -> startable limit to_tick polls i delay t ->
  exists t', run (timeout_start limit to_tick (Some i) delay;; wait_loop polls i) t = (Ok tt, t') /\
    bounded polls t' /\ is_initialized (timeout_of i t') = true /\ (forall j, j <> i -> timeout_of j t' = timeout_of j t) /\
    lines (systimer t') = lines (systimer t) /\ levels (systimer t') = levels (systimer t).
Proof.
  intros Hb Hst. apply (wait_bounded (fun w => lines w = lines (systimer t) /\ levels w = levels (systimer t))); try done.
  - intros w. destruct (bl_init w) as [-> ->]. done.
  - intros v w. destruct (bl_timer v w) as [-> ->]. done.
  - intros w. destruct (bl_poll w) as [-> ->]. done.
Qed.

#[export] Program Instance i2c0_lines : LineLaws (timer_state W) := {
  wire := fun t => lines (systimer t);
  incoming := fun t => levels (systimer t);
  ready := can_sleep
}.
Next Obligation.
  intros p t. destruct (bl_set p (systimer t)) as (H1 & H2 & H3). split_and!; [done..|].
  intros us [(K1 & K2 & K3) K4]. split; [|done]. split; [cbn; lia|done].
Qed.
Next Obligation.
  intros p t. destruct (bl_clear p (systimer t)) as (H1 & H2 & H3). split_and!; [done..|].
  intros us [(K1 & K2 & K3) K4]. split; [|done]. split; [cbn; lia|done].
Qed.
Next Obligation.
  intros t. cbn. pose proof (bl_status (systimer t)) as H. destruct (status_reg (systimer t)) as [st w].
  destruct H as (H1 & H2 & H3 & H4). split_and!; [done..|].
  intros us [(K1 & K2 & K3) K4]. split; [|done]. split; [cbn; lia|done].
Qed.
Next Obligation.
  intros us t [Hb Hs]. destruct (waits _ _ _ _ _ Hb Hs) as (t' & E & Hb' & Hi & _ & Hl).
  exists t'. split; [exact E|]. split_and!; [apply Hl..|]. split; [done|by left].
Qed.

#[local] Instance bus_lens : LensLaws (hardware_state W) (timer_state W).
Proof using Type. split; [done|done|by intros []]. Qed.
#[local] Instance device_lens : LensLaws (timer_state W) W.
Proof using Type. split; [done|done|by intros []]. Qed.

Implicit Types h : hardware_state W.

(** The polls suffice for the longest delay of the program. *)
Context (Hpolls : MS_TO_TICK 1 < Z.of_nat polls).

(** The codec's driver between two operations. *)
Definition codec_ok h : Prop := free_lines h /\ freq_us h = 320.

(** What an operation has put on the wire, and left to be read. *)
Definition codec_did h (es : list i2c_event) (inc : list bool) h' : Prop :=
  codec_ok h' /\ events (wire (bus h')) = events (wire (bus h)) ++ es /\ incoming (bus h') = inc.

Definition codec_does {A} (p : prog (hardware_state W) A) h (a : A) es inc : Prop :=
  wp (run p) h (fun r h' => r = Ok a /\ codec_did h es inc h').

Lemma codec_bind {A C} (p : prog (hardware_state W) A) (k : A -> prog _ C) h a c es es' inc inc' :
  codec_does p h a es inc ->
  (forall h', codec_ok h' -> incoming (bus h') = inc -> codec_does (k a) h' c es' inc') ->
  codec_does (p ≫= k) h c (es ++ es') inc'.
Proof using Type.
  intros Hp Hk. unfold codec_does in *. apply wp_run_bind. eapply wp_mono; [exact Hp|]. intros r h1 [-> (H1 & H2 & H3)].
  eapply wp_mono; [by apply Hk|]. intros r h2 [-> (H4 & H5 & H6)]. split; [done|]. split; [done|]. split; [|done].
  by rewrite H5, H2, app_assoc.
Qed.

Lemma codec_quiet {A C} (p : prog (hardware_state W) A) (k : A -> prog _ C) h a c es inc :
  codec_does p h a [] (incoming (bus h)) ->
  (forall h', codec_ok h' -> incoming (bus h') = incoming (bus h) -> codec_does (k a) h' c es inc) ->
  codec_does (p ≫= k) h c es inc.
Proof using Type. intros Hp Hk. by apply (codec_bind p k h a c [] es _ inc Hp). Qed.

Definition write_events (ab : Z * Z) : list i2c_event :=
  START :: concat (frame <$> [CHIP_ADDR_WRITE; ab.1; ab.2]) ++ [STOP].

Definition read_events (a : Z) : list i2c_event :=
  (START :: concat (frame <$> [CHIP_ADDR_WRITE; a]) ++ [STOP]) ++
  (START :: concat (frame <$> [CHIP_ADDR_READ]) ++ replicate 8 (BIT true) ++ [BIT true] ++ [STOP]).

(** A register is written; the levels of the acknowledge bits are not used. *)
Lemma codec_write a b h a1 a2 a3 inc : is_u8 a -> is_u8 b -> codec_ok h -> incoming (bus h) = a1 :: a2 :: a3 :: inc ->
  codec_does (audio_codec_mps3_write a b) h tt (write_events (a, b)) inc.
Proof using Type.
  intros Ha Hb [Hf Hq] Hin. unfold codec_does, audio_codec_mps3_write, on_i2c. apply wp_run_act.
  eapply wp_mono; [apply (wp_master_transmit CHIP_ADDR_WRITE [a; b] 2 0 h [a1; a2; a3] inc); try done|].
  - constructor; [done|]. constructor; [done|constructor].
  - intros r h' [-> (H1 & H2 & H3 & H4 & _)]. apply wp_ret. split; [done|]. split; [split; congruence|]. by split.
Qed.

Lemma codec_wait h : codec_ok h -> codec_does (on_timer (wait_ms polls 1)) h tt [] (incoming (bus h)).
Proof.
  intros [[[Hb Hs] Hl] Hq].
  assert (startable MAX_DELAY_MS MS_TO_TICK polls OF_WAIT_MS 1 (bus h)) as Hst by (by right).
  destruct (waits _ _ _ _ _ Hb Hst) as (t' & E & Hb' & _ & Hj & H1 & H2).
  unfold codec_does, wp, on_timer. rewrite run_within. cbn [view i2c_bus]. unfold wait_ms, timeout_init. rewrite E.
  split; [done|]. split; [|split; [cbn; by rewrite H1, app_nil_r|exact H2]]. split; [|done]. split; [|cbn; by rewrite H1].
  split; [done|]. pose proof (Hj OF_WAIT_US) as Hu. unfold startable in *. cbn in *. by rewrite Hu.
Qed.

(** The register's byte [x] is what the codec sends after its address. *)
Lemma codec_read a x h acks inc : codec_ok h -> is_u8 a -> is_u8 x -> length acks = 3%nat ->
  incoming (bus h) = acks ++ bits_of x ++ inc ->
  codec_does (audio_codec_mps3_read a) h x (read_events a) inc.
Proof using Type.
  intros [Hf Hq] Ha Hx Hl Hin. destruct acks as [|a1 [|a2 [|a3 [|]]]]; try done.
  unfold codec_does, audio_codec_mps3_read, on_i2c. apply wp_run_act.
  eapply wp_mono; [apply (wp_master_transmit CHIP_ADDR_WRITE [a] 1 0 h [a1; a2] (a3 :: bits_of x ++ inc)); try done|].
  { constructor; [done|constructor]. }
  intros r h1 [-> (H1 & H2 & H3 & H4 & _)]. apply wp_run_act.
  eapply wp_mono; [apply (wp_master_receive CHIP_ADDR_READ 1 1 0 h1 [a3] [x] inc); try done|].
  { constructor; [done|constructor]. }
  intros r h2 [-> (K1 & K2 & K3 & K4 & _)]. apply wp_ret. split; [done|]. split; [split; congruence|].
  split; [|done]. rewrite K1, H1, <- app_assoc. reflexivity.
Qed.

(** The control register of the audio interface is not on the wire. *)
Lemma codec_control f h : codec_ok h ->
  codec_does (on_i2s (c ← read_reg CONTROL; write_reg CONTROL (f c))) h tt [] (incoming (bus h)).
Proof using Type.
  intros H. unfold codec_does, wp, on_i2s. rewrite !run_within. cbn [view i2c_bus timer_device].
  unfold read_reg. rewrite run_next with (a := (i2s_read CONTROL (systimer (bus h))).1) (s' := (i2s_read CONTROL (systimer (bus h))).2).
  2:{ rewrite run_act. unfold on_call. by destruct (i2s_read CONTROL _). }
  unfold write_reg. rewrite run_act. destruct (bl_read (systimer (bus h))) as (H1 & H2 & H3).
  destruct (i2s_read CONTROL (systimer (bus h))) as [c w]. cbn [fst snd] in *.
  destruct (bl_write (f c) w) as (H4 & H5 & H6). split; [done|]. destruct H as [[[(K1 & K2 & K3) K4] K5] K6].
  split; [|split; [cbn; by rewrite H4, H1, app_nil_r|cbn; by rewrite H5, H2]]. split; [|done].
  split; [|cbn; by rewrite H4, H1]. split; [|done]. split; [cbn; lia|done].
Qed.

(** ** The initialisation *)

Lemma codec_start h : bounded polls (bus h) ->
  scl (wire (bus h)) = false \/ scl (wire (bus h)) = true /\ sda (wire (bus h)) = true ->
  wp (run (on_i2c (i2c_sbcon_init I2C0_DEFAULT_FREQ_HZ WAIT_US_FREQ_HZ))) h (fun r h' =>
    r = Ok tt /\ codec_did h [] (incoming (bus h)) h').
Proof.
  intros Hb Hl. unfold wp, on_i2c. rewrite run_act. split; [done|]. split; [|split; [cbn; by rewrite app_nil_r|done]].
  split; [|done]. split; [|done]. split; [done|]. right. split; [done|].
  eapply Z.lt_trans; [|exact Hpolls]. vm_compute. reflexivity.
Qed.

(** The registers written before register 50 is read, and after. *)
Definition init_unlock : list (Z * Z) := [(0, 153); (62, 186); (71, 128)].
Definition init_setup (x : Z) : list (Z * Z) :=
  [(50, Z.lor x 128); (50, Z.land x 127); (0, 0); (AUDIO_CODEC_MPS3_CLK_CTRL, 32); (AUDIO_CODEC_MPS3_PWR_CTRL1, 0);
   (AUDIO_CODEC_MPS3_PWR_CTRL2, 0); (AUDIO_CODEC_MPS3_PWR_CTRL3, 170); (AUDIO_CODEC_MPS3_INPUT_A, 144);
   (AUDIO_CODEC_MPS3_INPUT_B, 144); (AUDIO_CODEC_MPS3_AMP_A, 95); (AUDIO_CODEC_MPS3_AMP_B, 95);
   (AUDIO_CODEC_MPS3_MISC_CTRL, 4)].

(** The next operation: one that is not seen on the wire, or a write. *)
Ltac codec_next H Hin :=
  first
    [ eapply codec_quiet; [first [exact (codec_control _ _ H) | exact (codec_wait _ H)]|];
      let h := fresh "h" in let H1 := fresh "H" in let H2 := fresh "H" in intros h H1 H2;
      rewrite Hin in H2; clear H Hin; rename H1 into H, H2 into Hin
    | eapply codec_bind; [eapply codec_write; [done || assumption|done || assumption|exact H|exact Hin]|];
      let h := fresh "h" in let H1 := fresh "H" in let H2 := fresh "H" in intros h H1 H2;
      clear H Hin; rename H1 into H, H2 into Hin ].

Lemma codec_ext {A} (p : prog (hardware_state W) A) h a es es' inc inc' :
  codec_does p h a es inc -> es = es' -> inc = inc' -> codec_does p h a es' inc'.
Proof using Type. by intros H <- <-. Qed.

Lemma setup_u8 x : is_u8 x -> is_u8 (Z.lor x 128) /\ is_u8 (Z.land x 127).
Proof using Type.
  intros Hx. assert (((0 <=? Z.lor x 128) && (Z.lor x 128 <? 256)) && ((0 <=? Z.land x 127) && (Z.land x 127 <? 256)) = true) as H.
  { revert x Hx. apply u8_cases. vm_compute. reflexivity. }
  clear Hpolls. unfold is_u8. lia.
Qed.

Lemma codec_init x h acks rest : bounded polls (bus h) ->
  scl (wire (bus h)) = false \/ scl (wire (bus h)) = true /\ sda (wire (bus h)) = true ->
  is_u8 x -> incoming (bus h) = acks ++ bits_of x ++ rest -> length acks = 12%nat -> (36 <= length rest)%nat ->
  codec_does audio_codec_mps3_init h tt
    (concat (write_events <$> init_unlock) ++ read_events 50 ++ concat (write_events <$> init_setup x)) (drop 36 rest).
Proof.
  intros Hb Hl Hx Hin0 Ha Hr. destruct (setup_u8 x Hx) as [Hx1 Hx2].
  do 12 (destruct acks as [|? acks]; [done|]). destruct acks; [|done].
  do 36 (destruct rest as [|? rest]; [cbn in Hr; lia|]). clear Ha Hr.
  unfold audio_codec_mps3_init. eapply codec_ext.
  - eapply codec_quiet; [by apply codec_start|]. intros h1 H Hin. rewrite Hin0 in Hin. clear Hin0.
    do 7 codec_next H Hin.
    eapply codec_bind; [eapply (codec_read 50 x _ [_; _; _]); [exact H|done|done|done|exact Hin]|].
    clear Hin H. intros hr H Hin.
    do 13 codec_next H Hin.
    eapply codec_ext; [exact (codec_wait _ H)|reflexivity|exact Hin].
  - reflexivity.
  - done.
Qed.
End Codec.
