(* ===== verification/VadService.v ===== *)
(** * The voice activity partition (vad_an552_sp/vad_an552_sp_main.c) and its
      client library (vad_an552_ipc_api.c)

    The handlers of the four requests and the interrupt handler of the audio
    interface, which work on the same variables and on the same device.  The
    voice detection and the DSP functions are libraries outside the program:
    [VadLib] and [DspOps]. *)
From Stdlib Require Import ZArith Lia.
From stdpp Require Import base list numbers options.
From S2P Require Import Prelude.
From S2P Require Import FlashFsDefs.
From S2P Require Import Interrupts.
From S2P Require Import SysTimer.
From S2P Require Import I2sDriver.
From S2P Require Import I2cSbcon.
From S2P Require Import AudioCodec.
From S2P Require Import PsaApi.

#[local] Set Default Proof Using "Type*".

(** vad_an552.h, vad_an552_defs.h *)
Definition VAD_STOPPED : Z := 0.
Definition VAD_NO_VOICE_DETECTED : Z := 1.
Definition VAD_RECORDING : Z := 2.
Definition VAD_VOICE_RECORDED : Z := 3.
Definition VAD_AN552_START : Z := 1001.
Definition VAD_AN552_QUERY : Z := 1002.
Definition VAD_AN552_GET_FREQ : Z := 1003.
Definition VAD_AN552_STOP : Z := 1004.

Definition INIT_VAD : Z := 1.
Definition PROC_VAD : Z := 2.
Definition FS : Z := 48000.
Definition RECORDING_SIZE : Z := 4096.

(** [vad_estimation command vad samples rate] returns what it leaves in
    [*command] and in [*vad]. *)
Class VadLib (V : Type) := {
  vad_estimation : Z -> Z -> list Z -> Z -> V -> Z * Z * V
}.

(** CMSIS DSP: the real FFT, which uses its source as work space, magnitudes,
    and the maximum of the first values with its index. *)
Class DspOps := {
  arm_rfft_instance_q15 : Type;
  arm_rfft_init_q15 : Z -> Z -> Z -> arm_rfft_instance_q15;
  arm_rfft_q15 : arm_rfft_instance_q15 -> list Z -> list Z * list Z;
  arm_cmplx_mag_q15 : list Z -> Z -> list Z;
  arm_max_q15 : list Z -> Z -> Z * Z
}.

(** TFM_AN552_VAD_SIGNAL of the generated psa_manifest/vad_an552_sp.h *)
Class VadManifest := { TFM_AN552_VAD_SIGNAL : Z }.

(** The variables of the partition, the drivers and the device, the voice
    detection's own state, whether the framework delivers the interrupt, and
    the framework. *)
Record vad_state (W V P : Type) : Type := {
  vad_status : Z;
  sample_buffer : list Z;
  sample_buffer_end_idx : Z;
  fft_result : list Z;
  fft_magnitude : list Z;
  flih_command : Z;
  hardware : hardware_state W;
  vad_lib : V;
  irq_enabled : bool;
  vad_psa : P
}.
Arguments vad_status {W V P} _.
Arguments sample_buffer {W V P} _.
Arguments sample_buffer_end_idx {W V P} _.
Arguments fft_result {W V P} _.
Arguments fft_magnitude {W V P} _.
Arguments flih_command {W V P} _.
Arguments hardware {W V P} _.
Arguments vad_lib {W V P} _.
Arguments irq_enabled {W V P} _.
Arguments vad_psa {W V P} _.

(** The conversion of a word to [short]: the sample of the right channel. *)
Definition s16 (x : Z) : Z := if w16 x <? 32768 then w16 x else w16 x - 65536.

Section Vad.
Context {W V P : Type} {TO : SystimerOps W} {IO : I2sOps W} {SR : SbconRegs W} {VF : VadFuel}.
Context {VL : VadLib V} {DO : DspOps} {PO : PsaOps P} {VM : VadManifest}.
Implicit Types s : vad_state W V P.
Abbreviation VAD := (prog (vad_state W V P)).

Definition set_status (x : Z) s : vad_state W V P :=
  {| vad_status := x; sample_buffer := sample_buffer s; sample_buffer_end_idx := sample_buffer_end_idx s;
     fft_result := fft_result s; fft_magnitude := fft_magnitude s; flih_command := flih_command s;
     hardware := hardware s; vad_lib := vad_lib s; irq_enabled := irq_enabled s; vad_psa := vad_psa s |}.
Definition set_samples (x : list Z) (i : Z) s : vad_state W V P :=
  {| vad_status := vad_status s; sample_buffer := x; sample_buffer_end_idx := i;
     fft_result := fft_result s; fft_magnitude := fft_magnitude s; flih_command := flih_command s;
     hardware := hardware s; vad_lib := vad_lib s; irq_enabled := irq_enabled s; vad_psa := vad_psa s |}.
Definition set_fft (samples result magnitude : list Z) s : vad_state W V P :=
  {| vad_status := vad_status s; sample_buffer := samples; sample_buffer_end_idx := sample_buffer_end_idx s;
     fft_result := result; fft_magnitude := magnitude; flih_command := flih_command s;
     hardware := hardware s; vad_lib := vad_lib s; irq_enabled := irq_enabled s; vad_psa := vad_psa s |}.
Definition set_lib (c : Z) (x : V) s : vad_state W V P :=
  {| vad_status := vad_status s; sample_buffer := sample_buffer s; sample_buffer_end_idx := sample_buffer_end_idx s;
     fft_result := fft_result s; fft_magnitude := fft_magnitude s; flih_command := c;
     hardware := hardware s; vad_lib := x; irq_enabled := irq_enabled s; vad_psa := vad_psa s |}.
Definition set_hardware (x : hardware_state W) s : vad_state W V P :=
  {| vad_status := vad_status s; sample_buffer := sample_buffer s; sample_buffer_end_idx := sample_buffer_end_idx s;
     fft_result := fft_result s; fft_magnitude := fft_magnitude s; flih_command := flih_command s;
     hardware := x; vad_lib := vad_lib s; irq_enabled := irq_enabled s; vad_psa := vad_psa s |}.
Definition set_irq (x : bool) s : vad_state W V P :=
  {| vad_status := vad_status s; sample_buffer := sample_buffer s; sample_buffer_end_idx := sample_buffer_end_idx s;
     fft_result := fft_result s; fft_magnitude := fft_magnitude s; flih_command := flih_command s;
     hardware := hardware s; vad_lib := vad_lib s; irq_enabled := x; vad_psa := vad_psa s |}.
Definition set_vad_psa (x : P) s : vad_state W V P :=
  {| vad_status := vad_status s; sample_buffer := sample_buffer s; sample_buffer_end_idx := sample_buffer_end_idx s;
     fft_result := fft_result s; fft_magnitude := fft_magnitude s; flih_command := flih_command s;
     hardware := hardware s; vad_lib := vad_lib s; irq_enabled := irq_enabled s; vad_psa := x |}.

#[export] Instance vad_hardware : Lens (vad_state W V P) (hardware_state W) :=
  {| view := hardware; update := set_hardware |}.

Definition on_hw {A} (p : prog (hardware_state W) A) : VAD A := within p.
Definition i2s {A} (p : prog W A) : VAD A := on_hw (on_i2s p).
Definition wait (ms : Z) : VAD unit := on_hw (on_timer (wait_ms polls ms)).

(** A call of the framework. *)
Definition vad_psa_call {A} (f : P -> A * P) : VAD A := act (fun s =>
  let '(a, p) := f (vad_psa s) in (Ok a, set_vad_psa p s)).

Definition start_listening : VAD unit :=
  i2s audio_i2s_mps3_set_fifo_reset;;
  wait 1;;
  i2s audio_i2s_mps3_clear_fifo_reset;;
  i2s audio_i2s_mps3_enable_rxbuf;;
  i2s audio_i2s_mps3_enable_rxinterrupt.

Definition stop_listening : VAD unit :=
  i2s audio_i2s_mps3_disable_rxbuf;;
  i2s audio_i2s_mps3_disable_rxinterrupt;;
  wait 1.

(** [sample_buffer[sample_buffer_end_idx++] = x;] *)
Definition store_sample (x : Z) : ST (vad_state W V P) unit := fun s =>
  if sample_buffer_end_idx s <? Z.of_nat (length (sample_buffer s))
  then (Ok tt, set_samples (<[Z.to_nat (sample_buffer_end_idx s) := x]> (sample_buffer s))
                 (add32 (sample_buffer_end_idx s) 1) s)
  else (Err UNDEFINED, s).

(** The call of the interrupt handler, which passes on its static [command]. *)
Definition estimate (voice_activity sample : Z) : ST (vad_state W V P) Z := fun s =>
  let '(c, v, l) := vad_estimation (flih_command s) voice_activity [sample] FS (vad_lib s) in
  (Ok v, set_lib c l s).

(** The loop's body, for a sample; the new value of [voice_activity]. *)
Definition flih_sample (voice_activity current_sample : Z) : VAD Z :=
  status ← act (gets vad_status);
  if status =? VAD_NO_VOICE_DETECTED then
    voice_activity ← act (estimate voice_activity current_sample);
    if voice_activity =? 1 then
      act (modify (set_status VAD_RECORDING));;
      act (modify (fun s => set_samples (sample_buffer s) 0 s));;
      mret voice_activity
    else mret voice_activity
  else if status =? VAD_RECORDING then
    act (store_sample current_sample);;
    i ← act (gets sample_buffer_end_idx);
    if i =? RECORDING_SIZE then
      stop_listening;;
      act (modify (set_status VAD_VOICE_RECORDED));;
      mret voice_activity
    else mret voice_activity
  else stop_listening;; mret voice_activity.

Fixpoint flih_loop (fuel : nat) (voice_activity : Z) : VAD unit :=
  match fuel with
  | O => act (raise HANG)
  | S fuel =>
      empty ← i2s audio_i2s_mps3_is_rx_buffer_empty;
      if (empty : bool) then mret tt
      else
        w ← i2s audio_i2s_mps3_get_rxbuf;
        voice_activity ← flih_sample voice_activity (s16 w);
        flih_loop fuel voice_activity
  end.

(** The handler asks for no signal, PSA_FLIH_NO_SIGNAL. *)
Definition i2s_flih : ST (vad_state W V P) unit := run (flih_loop drain 0).

Definition start_vad : VAD Z :=
  act (fun s => let '(_, _, l) := vad_estimation INIT_VAD 0 [] FS (vad_lib s) in
                (Ok tt, set_lib (flih_command s) l s));;
  act (modify (set_status VAD_NO_VOICE_DETECTED));;
  start_listening;;
  act (modify (set_irq true));;
  mret PSA_SUCCESS.

Definition query_vad (m : psa_msg_t) : VAD Z :=
  act (fun s => (Ok tt, set_vad_psa (psa_write (handle m) 0 (enc32 (vad_status s)) (vad_psa s)) s));;
  mret PSA_SUCCESS.

Definition get_freq (m : psa_msg_t) : VAD Z :=
  status ← act (gets vad_status);
  if status =? VAD_VOICE_RECORDED then
    let fft_instance := arm_rfft_init_q15 RECORDING_SIZE 0 1 in
    act (modify (fun s => let '(samples, result) := arm_rfft_q15 fft_instance (sample_buffer s) in
                          set_fft samples result (fft_magnitude s) s));;
    act (modify (fun s => set_fft (sample_buffer s) (fft_result s)
                            (arm_cmplx_mag_q15 (fft_result s) RECORDING_SIZE) s));;
    '(max_value, max_index) ← act (gets (fun s => arm_max_q15 (fft_magnitude s) (RECORDING_SIZE / 2)));
    let freq := if negb (max_value =? 0) then w32 (FS / RECORDING_SIZE * max_index) else 0 in
    vad_psa_call (fun p => (tt, psa_write (handle m) 0 (enc32 freq) p));;
    act (modify (set_status VAD_STOPPED));;
    mret PSA_SUCCESS
  else mret PSA_ERROR_BAD_STATE.

Definition stop_vad : VAD Z :=
  act (modify (set_irq false));;
  stop_listening;;
  act (modify (set_status VAD_STOPPED));;
  mret PSA_SUCCESS.

(** [status = handler; psa_reply(msg.handle, status);] *)
Definition vad_handler (m : psa_msg_t) : VAD Z :=
  match type m with
  | PSA_IPC_OTHER n =>
      if n =? VAD_AN552_START then start_vad
      else if n =? VAD_AN552_QUERY then query_vad m
      else if n =? VAD_AN552_GET_FREQ then get_freq m
      else if n =? VAD_AN552_STOP then stop_vad
      else mret PSA_ERROR_PROGRAMMER_ERROR
  | _ => mret PSA_ERROR_PROGRAMMER_ERROR
  end.

Definition vad_signal_handle (signal : Z) : VAD unit :=
  '(status, m) ← vad_psa_call (psa_get signal);
  if negb (status =? PSA_SUCCESS) then mret tt
  else
    status ← vad_handler m;
    vad_psa_call (fun p => (tt, psa_reply (handle m) status p)).

(** The start, before the loop. *)
Definition vad_main : VAD unit :=
  on_hw audio_codec_mps3_init;;
  i2s (audio_i2s_mps3_set_rx_buff_water_lvl 1).

(** One round of the loop. *)
Definition vad_round : VAD unit :=
  signals ← vad_psa_call psa_wait;
  if negb (Z.land signals TFM_AN552_VAD_SIGNAL =? 0) then vad_signal_handle TFM_AN552_VAD_SIGNAL
  else act (raise PANIC).
End Vad.

(** ** The client library (vad_an552_ipc_api.c)

    The service has no connections: each call names the handle and the type of
    the request.  The caller's variable holds what was written to it. *)

(** The handle of the generated psa_manifest/sid.h *)
Class VadHandle := { TFM_AN552_VAD_HANDLE : Z }.

Section Client.
Context {C : Type} {PC : PsaCalls C} {VH : VadHandle}.
Abbreviation CL := (ST C).

Definition vad_an552_start_vad : CL Z :=
  '(status, _) ← on_call (psa_call TFM_AN552_VAD_HANDLE VAD_AN552_START [] []);
  mret status.

Definition vad_an552_query_vad : CL (Z * list Z) :=
  '(status, out_vec) ← on_call (psa_call TFM_AN552_VAD_HANDLE VAD_AN552_QUERY [] [4]);
  mret (status, default [] (out_vec !! 0%nat)).

Definition vad_an552_get_freq : CL (Z * list Z) :=
  '(status, out_vec) ← on_call (psa_call TFM_AN552_VAD_HANDLE VAD_AN552_GET_FREQ [] [4]);
  mret (status, default [] (out_vec !! 0%nat)).

Definition vad_an552_stop_vad : CL Z :=
  '(status, _) ← on_call (psa_call TFM_AN552_VAD_HANDLE VAD_AN552_STOP [] []);
  mret status.
End Client.
