(* ===== verification/VadSpec.v ===== *)
(** * The voice activity partition: specification

    What the partition does, by phases ([phase_of]): the automaton [answer]
    for the requests, and what the interrupts may do in between ([heard]).
    The proofs hold for every device and every voice detection. *)
From Stdlib Require Import ZArith Lia.
From stdpp Require Import base list numbers relations options.
From S2P Require Import Prelude.
From S2P Require Import FlashFsDefs.
From S2P Require Import Interrupts.
From S2P Require Import SysTimer.
From S2P Require Import I2sDriver.
From S2P Require Import I2cSbcon.
From S2P Require Import AudioCodec.
From S2P Require Import PsaApi.
From S2P Require Import VadService.

#[local] Set Default Proof Using "Type*".

(** ** Phases *)

Inductive vad_phase : Type :=
| Stopped
| Listening
| Recording (xs : list Z)
| Recorded (xs : list Z).

Definition phase_code (a : vad_phase) : Z :=
  match a with
  | Stopped => VAD_STOPPED
  | Listening => VAD_NO_VOICE_DETECTED
  | Recording _ => VAD_RECORDING
  | Recorded _ => VAD_VOICE_RECORDED
  end.

(** What a sample may do. *)
Inductive heard : vad_phase -> vad_phase -> Prop :=
| heard_voice : heard Listening (Recording [])
| heard_sample xs x : Z.of_nat (length xs) + 1 < RECORDING_SIZE -> heard (Recording xs) (Recording (xs ++ [x]))
| heard_last xs x : Z.of_nat (length xs) + 1 = RECORDING_SIZE -> heard (Recording xs) (Recorded (xs ++ [x])).

Definition hears : relation vad_phase := rtc heard.

(** The frequency of a recording. *)
Definition freq_of {DO : DspOps} (xs : list Z) : Z :=
  let result := (arm_rfft_q15 (arm_rfft_init_q15 RECORDING_SIZE 0 1) xs).2 in
  let '(max_value, max_index) := arm_max_q15 (arm_cmplx_mag_q15 result RECORDING_SIZE) (RECORDING_SIZE / 2) in
  if negb (max_value =? 0) then w32 (FS / RECORDING_SIZE * max_index) else 0.

(** The answer to a request: the status, the data, and the phase after it. *)
Definition answer {DO : DspOps} (t : msg_type) (a : vad_phase) : Z * list Z * vad_phase :=
  match t with
  | PSA_IPC_OTHER n =>
      if n =? VAD_AN552_START then (PSA_SUCCESS, [], Listening)
      else if n =? VAD_AN552_QUERY then (PSA_SUCCESS, enc32 (phase_code a), a)
      else if n =? VAD_AN552_GET_FREQ then
        match a with
        | Recorded xs => (PSA_SUCCESS, enc32 (freq_of xs), Stopped)
        | _ => (PSA_ERROR_BAD_STATE, [], a)
        end
      else if n =? VAD_AN552_STOP then (PSA_SUCCESS, [], Stopped)
      else (PSA_ERROR_PROGRAMMER_ERROR, [], a)
  | _ => (PSA_ERROR_PROGRAMMER_ERROR, [], a)
  end.

(** Runs: what the interrupts do, and the requests with what they return. *)
Definition vad_event : Type := msg_type * Z * list Z.

Inductive aruns {DO : DspOps} : vad_phase -> list vad_event -> vad_phase -> Prop :=
| aruns_nil a : aruns a [] a
| aruns_heard a a1 es a' : heard a a1 -> aruns a1 es a' -> aruns a es a'
| aruns_request a t st bs a1 es a' : answer t a = (st, bs, a1) -> aruns a1 es a' -> aruns a ((t, st, bs) :: es) a'.

Section Spec.
Context {W V P : Type} {TO : SystimerOps W} {IO : I2sOps W} {SR : SbconRegs W} {VF : VadFuel}.
Context {VL : VadLib V} {DO : DspOps} {PO : PsaOps P} {VM : VadManifest}.
Context (rfft_length : forall f xs, length (arm_rfft_q15 f xs).1 = length xs).
Implicit Types s : vad_state W V P.

(** ** The invariant *)

Record vad_ok s : Prop := {
  vk_status : 0 <= vad_status s <= 3;
  vk_length : Z.of_nat (length (sample_buffer s)) = RECORDING_SIZE;
  vk_idx : 0 <= sample_buffer_end_idx s <= RECORDING_SIZE;
  vk_room : vad_status s = VAD_RECORDING -> sample_buffer_end_idx s < RECORDING_SIZE
}.

Definition phase_of s : vad_phase :=
  if vad_status s =? VAD_STOPPED then Stopped
  else if vad_status s =? VAD_NO_VOICE_DETECTED then Listening
  else if vad_status s =? VAD_RECORDING then Recording (take (Z.to_nat (sample_buffer_end_idx s)) (sample_buffer s))
  else Recorded (sample_buffer s).

Lemma phase_status s : vad_ok s -> vad_status s = phase_code (phase_of s).
Proof using Type.
  intros [H _ _ _]. unfold phase_of. repeat (case_match; [by apply Z.eqb_eq|]). cbn.
  unfold VAD_STOPPED, VAD_NO_VOICE_DETECTED, VAD_RECORDING, VAD_VOICE_RECORDED in *.
  repeat match goal with H : (_ =? _) = false |- _ => apply Z.eqb_neq in H end. lia.
Qed.

(** ** What does not touch the variables *)

(** Only the device, the drivers and the voice detection change. *)
Record quiet_step s s' : Prop := {
  qs_status : vad_status s' = vad_status s;
  qs_buffer : sample_buffer s' = sample_buffer s;
  qs_idx : sample_buffer_end_idx s' = sample_buffer_end_idx s;
  qs_result : fft_result s' = fft_result s;
  qs_magnitude : fft_magnitude s' = fft_magnitude s;
  qs_psa : vad_psa s' = vad_psa s
}.

#[export] Instance quiet_step_pre : PreOrder quiet_step.
Proof using Type. split; [done|]. intros s1 s2 s3 [] []. split; congruence. Qed.

Lemma quiet_ok s s' : quiet_step s s' -> vad_ok s -> vad_ok s'.
Proof using Type. intros [H1 H2 H3 _ _ _] [K1 K2 K3 K4]. split; rewrite ?H1, ?H2, ?H3; done. Qed.

Lemma quiet_phase s s' : quiet_step s s' -> phase_of s' = phase_of s.
Proof using Type. intros [H1 H2 H3 _ _ _]. unfold phase_of. by rewrite H1, H2, H3. Qed.

(** A command that is quiet and ends, if not well, with a loop that hangs. *)
Definition quiet_prog {A} (p : prog (vad_state W V P) A) : Prop := pkeeps quiet_step p /\ errs (eq HANG) p.

Lemma quiet_bind {A B} (p : prog (vad_state W V P) A) (k : A -> prog _ B) :
  quiet_prog p -> (forall a, quiet_prog (k a)) -> quiet_prog (p ≫= k).
Proof using Type.
  intros [H1 H2] Hk. split; [apply pkeeps_bind; [done|]|apply errs_bind; [done|]]; intros a; apply Hk.
Qed.

Lemma quiet_ret {A} (a : A) : quiet_prog (mret a).
Proof using Type. by split. Qed.

(** Device code fails in loops only. *)
Lemma errs_wait_loop (n : nat) i : errs (eq HANG) (wait_loop (T := W) n i).
Proof using Type.
  induction n as [|n IH]; cbn [wait_loop]; [apply errs_act; intros s e s' [= <- _]; done|].
  apply errs_bind; [|intros []; [apply errs_ret|exact IH]].
  unfold timeout_delay_is_elapsed. apply errs_bind; [apply errs_act; by intros ??? [=]|]. intros t.
  destruct (negb _); [apply errs_ret|]. apply errs_bind.
  - apply errs_act. intros s e s' H. by destruct (systimer_armv8_m_is_interrupt_asserted _).
  - intros []; [|apply errs_ret]. apply errs_bind; [apply errs_act; by intros ??? [=]|intros; apply errs_ret].
Qed.

Lemma errs_wait_ms n ms : errs (eq HANG) (wait_ms (T := W) n ms).
Proof using Type.
  unfold wait_ms. apply errs_bind; [|intros; apply errs_wait_loop]. unfold timeout_init, timeout_start.
  destruct (ms >? MAX_DELAY_MS); [apply errs_ret|]. apply errs_bind; [apply errs_act; by intros ??? [=]|]. intros t.
  destruct (is_initialized t); [apply errs_ret|].
  repeat (apply errs_bind; [apply errs_act; by intros ??? [=]|intros ?]). apply errs_ret.
Qed.

Lemma errs_read_reg r : errs (eq HANG) (read_reg (W := W) r).
Proof using Type. apply errs_act. intros s e s' H. unfold on_call in H. by destruct (i2s_read r s). Qed.
Lemma errs_write_reg r x : errs (eq HANG) (write_reg (W := W) r x).
Proof using Type. apply errs_act. by intros ??? [=]. Qed.

Lemma errs_set_control off : errs (eq HANG) (set_control_bit (W := W) off).
Proof using Type. apply errs_bind; [apply errs_read_reg|]. intros c. apply errs_write_reg. Qed.
Lemma errs_clear_control off : errs (eq HANG) (clear_control_bit (W := W) off).
Proof using Type. apply errs_bind; [apply errs_read_reg|]. intros c. apply errs_write_reg. Qed.
Lemma errs_status_bit off : errs (eq HANG) (status_bit (W := W) off).
Proof using Type. apply errs_bind; [apply errs_read_reg|]. intros c. apply errs_ret. Qed.

Lemma quiet_on_hw {A} (p : prog (hardware_state W) A) : errs (eq HANG) p -> quiet_prog (on_hw (V := V) (P := P) p).
Proof using Type. intros H. split; [by apply pkeeps_within|by apply errs_within]. Qed.

Lemma quiet_i2s {A} (p : prog W A) : errs (eq HANG) p -> quiet_prog (i2s (V := V) (P := P) p).
Proof using Type. intros H. apply quiet_on_hw, errs_within, errs_within, H. Qed.

Lemma quiet_wait ms : quiet_prog (wait (V := V) (P := P) (W := W) ms).
Proof using Type. apply quiet_on_hw, errs_within, errs_wait_ms. Qed.

Lemma quiet_start_listening : quiet_prog (start_listening (W := W) (V := V) (P := P)).
Proof using Type.
  apply quiet_bind; [apply quiet_i2s, errs_set_control|intros _].
  apply quiet_bind; [apply quiet_wait|intros _].
  apply quiet_bind; [apply quiet_i2s, errs_clear_control|intros _].
  apply quiet_bind; [apply quiet_i2s, errs_set_control|intros _]. apply quiet_i2s, errs_set_control.
Qed.

Lemma quiet_stop_listening : quiet_prog (stop_listening (W := W) (V := V) (P := P)).
Proof using Type.
  apply quiet_bind; [apply quiet_i2s, errs_clear_control|intros _].
  apply quiet_bind; [apply quiet_i2s, errs_clear_control|intros _]. apply quiet_wait.
Qed.

(** ** The interrupt handler *)

(** What interrupts may do to the variables. *)
Record listened s s' : Prop := {
  li_ok : vad_ok s';
  li_heard : hears (phase_of s) (phase_of s');
  li_result : fft_result s' = fft_result s;
  li_magnitude : fft_magnitude s' = fft_magnitude s;
  li_psa : vad_psa s' = vad_psa s
}.

Definition listens s s' : Prop := vad_ok s -> listened s s'.

#[export] Instance listens_pre : PreOrder listens.
Proof using Type.
  split; [by intros s Hs; split|]. intros s1 s2 s3 H1 H2 Hs. destruct (H1 Hs) as [K L]. destruct (H2 K).
  split; [done|by etrans|congruence..].
Qed.

Lemma quiet_listens s s' : quiet_step s s' -> listens s s'.
Proof using Type.
  intros Hq Hs. pose proof (quiet_ok _ _ Hq Hs) as Hok. pose proof (quiet_phase _ _ Hq) as Hp. destruct Hq.
  split; try done. by rewrite Hp.
Qed.

Lemma wp_quiet {A} (p : prog (vad_state W V P) A) s : quiet_prog p ->
  wp (run p) s (fun r s' => match r with Ok _ => quiet_step s s' | Err e => e = HANG end).
Proof using Type.
  intros [Hk He]. unfold wp. pose proof (run_keeps _ p Hk s) as H. destruct (run p s) as [[a|e] s'] eqn:E; [exact H|].
  symmetry. exact (run_errs _ _ _ _ _ He E).
Qed.

Lemma phase_recording s : vad_status s = VAD_RECORDING ->
  phase_of s = Recording (take (Z.to_nat (sample_buffer_end_idx s)) (sample_buffer s)).
Proof using Type. intros H. unfold phase_of. by rewrite H. Qed.

Definition heard_or_hung {A} s (r : outcome A) s' : Prop :=
  match r with Ok _ => listens s s' | Err e => e = HANG end.

Lemma wp_estimate a x s : wp (estimate a x) s (fun r s' => (exists v, r = Ok v) /\ quiet_step s s').
Proof using Type.
  unfold wp, estimate. destruct (vad_estimation _ _ _ _ _) as [[c v] l]. split; [by eexists|by split].
Qed.

(** A sample while recording. *)
Lemma store_stores x s : vad_ok s -> vad_status s = VAD_RECORDING ->
  let xs := take (Z.to_nat (sample_buffer_end_idx s)) (sample_buffer s) in
  exists s1, store_sample x s = (Ok tt, s1) /\ s1 = set_samples (sample_buffer s1) (sample_buffer_end_idx s + 1) s /\
    length (sample_buffer s1) = length (sample_buffer s) /\
    Z.of_nat (length xs) = sample_buffer_end_idx s /\
    take (Z.to_nat (sample_buffer_end_idx s + 1)) (sample_buffer s1) = xs ++ [x].
Proof using Type.
  intros [K1 K2 K3 K4] Hst. specialize (K4 Hst). cbv zeta. set (i := sample_buffer_end_idx s) in *.
  exists (set_samples (<[Z.to_nat i := x]> (sample_buffer s)) (i + 1) s). split_and!; cbn; [|done|by rewrite length_insert| |].
  - unfold store_sample. fold i. rewrite K2. destruct (Z.ltb_spec i RECORDING_SIZE); [|lia].
    rewrite add32_small; [done|]. unfold RECORDING_SIZE in *. lia.
  - rewrite length_take. lia.
  - replace (Z.to_nat (i + 1)) with (S (Z.to_nat i)) by lia.
    rewrite (take_S_r _ _ x) by (apply list_lookup_insert_eq; unfold RECORDING_SIZE in *; lia).
    by rewrite take_insert_ge by lia.
Qed.

(** The phase after the last sample, and after the others. *)
Lemma last_phase s2 xs : sample_buffer s2 = xs -> Z.of_nat (length xs) = RECORDING_SIZE ->
  sample_buffer_end_idx s2 = RECORDING_SIZE ->
  vad_ok (set_status VAD_VOICE_RECORDED s2) /\ phase_of (set_status VAD_VOICE_RECORDED s2) = Recorded xs.
Proof using Type.
  intros <- Hl Hi. split; [|done]. split; cbn; try done; unfold VAD_VOICE_RECORDED, VAD_RECORDING, RECORDING_SIZE in *; lia.
Qed.

Lemma next_phase s s1 xs : vad_ok s -> vad_status s1 = VAD_RECORDING ->
  length (sample_buffer s1) = length (sample_buffer s) -> 0 <= sample_buffer_end_idx s1 < RECORDING_SIZE ->
  take (Z.to_nat (sample_buffer_end_idx s1)) (sample_buffer s1) = xs ->
  vad_ok s1 /\ phase_of s1 = Recording xs.
Proof using Type.
  intros [K1 K2 K3 K4] Hst Hl Hi <-. split; [|by apply phase_recording]. split; [by rewrite Hst|congruence|lia|lia].
Qed.

Lemma wp_record (a x : Z) s : vad_ok s -> vad_status s = VAD_RECORDING ->
  wp (run (act (store_sample x);; i ← act (gets sample_buffer_end_idx);
           if i =? RECORDING_SIZE then stop_listening;; act (modify (set_status VAD_VOICE_RECORDED));; mret a
           else mret a : prog (vad_state W V P) Z)) s (heard_or_hung s).
Proof using Type.
  intros Hok Hst. destruct (store_stores x s Hok Hst) as (s1 & E & Es & Hl & Hn & Ht).
  set (xs := take _ (sample_buffer s)) in *. pose proof (phase_recording s Hst : _ = Recording xs) as Hp.
  assert (sample_buffer_end_idx s1 = sample_buffer_end_idx s + 1) as Hi by by rewrite Es.
  pose proof (vk_room _ Hok Hst) as Hroom.
  apply wp_run_act. unfold wp at 1. rewrite E. cbn [fst snd]. apply wp_run_act, wp_gets. rewrite Hi.
  destruct (Z.eqb_spec (sample_buffer_end_idx s + 1) RECORDING_SIZE) as [Hlast|Hmore].
  - apply wp_run_bind. eapply wp_mono; [apply (wp_quiet _ s1), quiet_stop_listening|].
    intros [[]|e] s2 H2; [|exact H2]. apply wp_run_act, wp_modify, wp_ret. intros _. destruct H2 as [Q1 Q2 Q3 Q4 Q5 Q6].
    assert (sample_buffer s2 = xs ++ [x]) as Hb.
    { rewrite Q2, <- Ht. symmetry. apply take_ge. rewrite Hl. pose proof (vk_length _ Hok). lia. }
    destruct (last_phase s2 (xs ++ [x]) Hb) as [O2 P2]; [rewrite length_app; cbn; lia|congruence|].
    split; [done| |cbn; rewrite ?Q4, ?Q5, ?Q6; by rewrite Es..]. rewrite Hp, P2. apply rtc_once, heard_last. lia.
  - apply wp_ret. intros _. destruct (next_phase s s1 (xs ++ [x]) Hok) as [O1 P1];
      [by rewrite Es|done|pose proof (vk_idx _ Hok); lia|by rewrite Hi|].
    split; [done| |by rewrite Es..]. rewrite Hp, P1. apply rtc_once, heard_sample. lia.
Qed.

Lemma wp_flih_sample a x s : vad_ok s -> wp (run (flih_sample a x)) s (heard_or_hung s).
Proof using Type.
  intros Hok. unfold flih_sample. apply wp_run_act, wp_gets.
  destruct (Z.eqb_spec (vad_status s) VAD_NO_VOICE_DETECTED) as [Hst|_].
  - apply wp_run_act. eapply wp_mono; [apply wp_estimate|]. intros r s1 [(v & ->) Hq].
    destruct (v =? 1); [|apply wp_ret; by apply quiet_listens].
    apply wp_run_act, wp_modify, wp_run_act, wp_modify, wp_ret. intros _. destruct Hq as [Q1 Q2 Q3 Q4 Q5 Q6].
    destruct Hok as [K1 K2 K3 K4]. split; cbn; try done.
    + split; cbn; rewrite ?Q2; unfold VAD_RECORDING, RECORDING_SIZE in *; lia.
    + unfold phase_of at 1. rewrite Hst. cbn. apply rtc_once, heard_voice.
  - destruct (Z.eqb_spec (vad_status s) VAD_RECORDING) as [Hst|_]; [by apply wp_record|].
    apply wp_run_bind. eapply wp_mono; [apply wp_quiet, quiet_stop_listening|].
    intros [[]|e] s1 H1; [|exact H1]. apply wp_ret. by apply quiet_listens.
Qed.

Lemma wp_flih_loop n a s : vad_ok s -> wp (run (flih_loop n a)) s (heard_or_hung s).
Proof using Type.
  revert a s. induction n as [|n IH]; intros a s Hok; cbn [flih_loop]; [unfold wp; by rewrite run_act|].
  apply wp_run_bind. eapply wp_mono; [apply wp_quiet, quiet_i2s, errs_status_bit|].
  intros [empty|e] s1 H1; [|exact H1]. destruct empty; [apply wp_ret; by apply quiet_listens|].
  apply wp_run_bind. eapply wp_mono; [apply wp_quiet, quiet_i2s, errs_read_reg|].
  intros [w|e] s2 H2; [|exact H2]. assert (quiet_step s s2) as H by by etrans.
  assert (vad_ok s2) as Hok2 by by eapply quiet_ok.
  apply wp_run_bind. eapply wp_mono; [by apply wp_flih_sample|]. intros [v|e] s3 H3; [|exact H3].
  eapply wp_mono; [apply IH, (H3 Hok2)|]. intros [[]|e] s4 H4; [|exact H4].
  change (listens s s4). etrans; [by apply quiet_listens|]. by etrans.
Qed.

(** The handler keeps the invariant, and it can only hang. *)
Lemma flih_listens s s' : vad_ok s -> irq irq_enabled i2s_flih s s' -> listens s s'.
Proof using Type.
  intros Hok [_ H]. pose proof (wp_flih_loop drain 0 s Hok) as Hw. unfold wp in Hw. unfold i2s_flih in H.
  by rewrite H in Hw.
Qed.

Lemma flih_hangs s e s' : vad_ok s -> irq_enabled s = true -> i2s_flih s = (Err e, s') -> HANG = e.
Proof using Type.
  intros Hok _ H. pose proof (wp_flih_loop drain 0 s Hok) as Hw. unfold wp in Hw. unfold i2s_flih in H.
  by rewrite H in Hw.
Qed.

Lemma listens_ok s s' : listens s s' -> vad_ok s -> vad_ok s'.
Proof using Type. intros H Hs. apply (H Hs). Qed.

(** ** The requests, interrupted at any step *)

(** [tri p s Q]: [p], interrupted anywhere, hangs or ends with [Q]. *)
Definition tri {A} (p : prog (vad_state W V P) A) s (Q : A -> vad_state W V P -> Prop) : Prop :=
  wpi irq_enabled i2s_flih (eq HANG) p s Q.

Lemma tri_ret {A} (a : A) s (Q : A -> _ -> Prop) : vad_ok s -> (forall s', listens s s' -> Q a s') -> tri (mret a) s Q.
Proof using Type. apply (wpi_ret _ _ _ _ _ listens_ok flih_listens flih_hangs). Qed.

Lemma tri_bind {A B} (p : prog (vad_state W V P) A) (k : A -> prog _ B) s Q :
  tri p s (fun a s' => tri (k a) s' Q) -> tri (p ≫= k) s Q.
Proof using Type. apply wpi_bind. Qed.

Lemma tri_act {A B} (m : ST (vad_state W V P) A) (k : A -> prog _ B) s Q : vad_ok s ->
  (forall s1, listens s s1 -> vad_ok s1 -> wp m s1 (fun r s2 =>
    match r with Ok a => vad_ok s2 /\ forall s', listens s2 s' -> tri (k a) s' Q | Err e => HANG = e end)) ->
  tri (act m ≫= k) s Q.
Proof using Type.
  intros Hs H. apply tri_bind. exact (wpi_act _ _ _ _ _ listens_ok flih_listens flih_hangs _ _ _ Hs H).
Qed.

Lemma tri_quiet {A B} (p : prog (vad_state W V P) A) (k : A -> prog _ B) s Q : vad_ok s -> quiet_prog p ->
  (forall a s', listens s s' -> tri (k a) s' Q) -> tri (p ≫= k) s Q.
Proof using Type.
  intros Hs [Hk He] H. apply tri_bind.
  eapply (wpi_within _ _ listens vad_ok _ listens_ok flih_listens flih_hangs); [done| |exact He|exact H].
  exact (pkeeps_mono _ _ _ quiet_listens Hk).
Qed.

(** What was written for the message [h]. *)
Definition written (h : Z) (bs : list Z) (p : P) : P :=
  match bs with [] => p | _ => psa_write h 0 bs p end.

(** The answer to a request of type [t], with the interrupts around it. *)
Definition did (t : msg_type) (h : Z) s (st : Z) s' : Prop :=
  vad_ok s' /\ exists bs a1 a2,
    hears (phase_of s) a1 /\ answer t a1 = (st, bs, a2) /\ hears a2 (phase_of s') /\
    vad_psa s' = written h bs (vad_psa s).

(** The answer is given in one step, from [s1] to [s2]. *)
Lemma did_intro t h s s1 s2 s' st bs : vad_ok s -> listens s s1 -> vad_ok s2 -> listens s2 s' ->
  answer t (phase_of s1) = (st, bs, phase_of s2) -> vad_psa s2 = written h bs (vad_psa s1) -> did t h s st s'.
Proof using Type.
  intros Hs L1 H2 L2 Ha Hp. destruct (L1 Hs) as [_ K1 _ _ P1], (L2 H2) as [K Ks _ _ P2]. split; [done|].
  exists bs, (phase_of s1), (phase_of s2). split; [done|]. split; [done|]. split; [done|]. by rewrite P2, Hp, P1.
Qed.

Lemma quiet_act {A} (m : ST (vad_state W V P) A) : (forall s, wp m s (fun r s' => (exists a, r = Ok a) /\ quiet_step s s')) ->
  quiet_prog (act m).
Proof using Type.
  intros H. split.
  - apply pkeeps_act. intros s. apply (H s).
  - apply errs_act. intros s e s' Hm. destruct (H s) as [(a & Ha) _]. by rewrite Hm in Ha.
Qed.

Lemma quiet_gets {A} (f : vad_state W V P -> A) : quiet_prog (act (gets f)).
Proof using Type. apply quiet_act. intros s. split; [by eexists|done]. Qed.

Lemma quiet_irq b : quiet_prog (act (modify (set_irq (W := W) (V := V) (P := P) b))).
Proof using Type. apply quiet_act. intros s. split; [by eexists|by split]. Qed.

Lemma ok_status x s : vad_ok s -> 0 <= x <= 3 -> x <> VAD_RECORDING -> vad_ok (set_status x s).
Proof using Type. intros [] Hx Hn. by split. Qed.

(** The step that sets the status, then quiet steps. *)
Lemma tri_start h s : vad_ok s -> tri start_vad s (did (PSA_IPC_OTHER VAD_AN552_START) h s).
Proof using Type.
  intros Hok. apply tri_quiet; [done| |intros _ s1 L1].
  { apply quiet_act. intros s0. unfold wp. destruct (vad_estimation _ _ _ _ _) as [[c v] l].
    split; [by eexists|by split]. }
  apply tri_act; [by eapply listens_ok|]. intros s2 L2 O2. apply wp_modify.
  assert (vad_ok (set_status VAD_NO_VOICE_DETECTED s2)) as O3 by by apply ok_status. split; [done|]. intros s4 L4.
  apply tri_quiet; [by eapply listens_ok|apply quiet_start_listening|]. intros _ s5 L5.
  apply tri_quiet; [by eapply listens_ok; [|eapply listens_ok]|apply quiet_irq|]. intros _ s6 L6.
  apply tri_ret; [by repeat (eapply listens_ok; [eassumption|])|]. intros s7 L7.
  eapply (did_intro _ _ _ s2 (set_status VAD_NO_VOICE_DETECTED s2)); [done|by etrans|done| |done|done].
  by repeat (etrans; [eassumption|]).
Qed.

Lemma tri_stop h s : vad_ok s -> tri stop_vad s (did (PSA_IPC_OTHER VAD_AN552_STOP) h s).
Proof using Type.
  intros Hok. apply tri_quiet; [done|apply quiet_irq|]. intros _ s1 L1.
  apply tri_quiet; [by eapply listens_ok|apply quiet_stop_listening|]. intros _ s2 L2.
  apply tri_act; [by repeat (eapply listens_ok; [eassumption|])|]. intros s3 L3 O3. apply wp_modify.
  assert (vad_ok (set_status VAD_STOPPED s3)) as O4 by by apply ok_status. split; [done|]. intros s4 L4.
  apply tri_ret; [by eapply listens_ok|]. intros s5 L5.
  eapply (did_intro _ _ _ s3 (set_status VAD_STOPPED s3)); [done| |done|by etrans|done|done].
  by repeat (etrans; [eassumption|]).
Qed.

Lemma tri_query m s : vad_ok s -> tri (query_vad m) s (did (PSA_IPC_OTHER VAD_AN552_QUERY) (handle m) s).
Proof using Type.
  intros Hok. apply tri_act; [done|]. intros s1 L1 O1. unfold wp. cbn [fst snd].
  set (s2 := set_vad_psa _ s1). assert (vad_ok s2) as O2 by by destruct O1. split; [done|]. intros s3 L3.
  apply tri_ret; [by eapply listens_ok|]. intros s4 L4.
  eapply (did_intro _ _ _ s1 s2 _ _ (enc32 (phase_code (phase_of s1)))); [done|done|done|by etrans|done|].
  by rewrite <- phase_status.
Qed.

(** Once a recording is complete, interrupts change nothing of it: the
    variables stay as they are. *)
Record snapshot (xs rs ms : list Z) (p : P) s : Prop := {
  sn_ok : vad_ok s;
  sn_status : vad_status s = VAD_VOICE_RECORDED;
  sn_buffer : sample_buffer s = xs;
  sn_result : fft_result s = rs;
  sn_magnitude : fft_magnitude s = ms;
  sn_psa : vad_psa s = p
}.

Lemma hears_recorded xs a : hears (Recorded xs) a -> a = Recorded xs.
Proof using Type. intros H. inversion H as [|? ? ? H1 _]; [done|inversion H1]. Qed.

Lemma snapshot_phase xs rs ms p s : snapshot xs rs ms p s -> phase_of s = Recorded xs.
Proof using Type. intros [_ H1 H2 _ _ _]. unfold phase_of. by rewrite H1, H2. Qed.

Lemma snapshot_listens xs rs ms p s s' : snapshot xs rs ms p s -> listens s s' -> snapshot xs rs ms p s'.
Proof using Type.
  intros Hsn L. pose proof (snapshot_phase _ _ _ _ _ Hsn) as Hp. destruct Hsn as [Hok K1 K2 K3 K4 K5].
  destruct (L Hok) as [O H R M Q]. rewrite Hp in H. apply hears_recorded in H.
  pose proof (phase_status s' O) as Hs. rewrite H in Hs. split; [done|done| |congruence..].
  unfold phase_of in H. rewrite Hs in H. by injection H.
Qed.

Lemma tri_snapshot {A B} (m : ST (vad_state W V P) A) (k : A -> prog _ B) xs rs ms p s Q : snapshot xs rs ms p s ->
  (forall s1, snapshot xs rs ms p s1 -> wp m s1 (fun r s2 => exists a xs' rs' ms' p',
     r = Ok a /\ snapshot xs' rs' ms' p' s2 /\ forall s', snapshot xs' rs' ms' p' s' -> tri (k a) s' Q)) ->
  tri (act m ≫= k) s Q.
Proof using Type.
  intros Hsn H. apply tri_act; [apply Hsn|]. intros s1 L1 _. unfold wp in *.
  destruct (H s1 (snapshot_listens _ _ _ _ _ _ Hsn L1)) as (a & xs' & rs' & ms' & p' & -> & Hs2 & Hk).
  split; [apply Hs2|]. intros s' L. by eapply Hk, snapshot_listens.
Qed.

(** After the recording is used. *)
Lemma tri_finish xs rs ms p s : snapshot xs rs ms p s ->
  tri (act (modify (set_status VAD_STOPPED));; mret PSA_SUCCESS) s (fun st s' =>
    st = PSA_SUCCESS /\ vad_ok s' /\ hears Stopped (phase_of s') /\ vad_psa s' = p).
Proof using Type.
  intros Hs. apply tri_act; [apply Hs|]. intros s1 L1 O1. apply wp_modify.
  pose proof (snapshot_listens _ _ _ _ _ _ Hs L1) as H1.
  assert (vad_ok (set_status VAD_STOPPED s1)) as O2 by by apply ok_status.
  split; [done|]. intros s2 L2. apply tri_ret; [by eapply listens_ok|]. intros s3 L3.
  assert (listens (set_status VAD_STOPPED s1) s3) as L by by etrans. destruct (L O2) as [O3 H3 _ _ P3].
  split_and!; try done. rewrite P3. apply (sn_psa _ _ _ _ _ H1).
Qed.

Lemma tri_get_freq m s : vad_ok s -> tri (get_freq m) s (did (PSA_IPC_OTHER VAD_AN552_GET_FREQ) (handle m) s).
Proof.
  intros Hok. apply tri_act; [done|]. intros s0 L0 O0. apply wp_gets. split; [done|]. intros s1 L1.
  destruct (Z.eqb_spec (vad_status s0) VAD_VOICE_RECORDED) as [Hst|Hst].
  2:{ apply tri_ret; [by eapply listens_ok|]. intros s2 L2.
      eapply (did_intro _ _ _ s0 s0 _ _ []); [done|done|done|by etrans| |done].
      pose proof (phase_status s0 O0) as Hp. cbn. by destruct (phase_of s0). }
  assert (snapshot (sample_buffer s0) (fft_result s0) (fft_magnitude s0) (vad_psa s) s0) as H0
    by (split; try done; apply (L0 Hok)).
  pose proof (snapshot_listens _ _ _ _ _ _ H0 L1) as H1. pose proof (snapshot_phase _ _ _ _ _ H0) as Hp0.
  pose proof (rfft_length (arm_rfft_init_q15 RECORDING_SIZE 0 1) (sample_buffer s0)) as Hlen.
  destruct (arm_rfft_q15 (arm_rfft_init_q15 RECORDING_SIZE 0 1) (sample_buffer s0)) as [xs rs] eqn:Efft. cbn in Hlen.
  eapply tri_snapshot; [exact H1|]. intros s2 [O T B R M K]. apply wp_modify. rewrite B, Efft.
  exists tt, xs, rs, (fft_magnitude s2), (vad_psa s). split; [done|]. split.
  { split; try done. destruct O. split; cbn; try done. by rewrite Hlen, <- B. }
  intros s3 H3. eapply tri_snapshot; [exact H3|]. intros s4 [O4 T4 B4 R4 M4 K4]. apply wp_modify.
  set (ms := arm_cmplx_mag_q15 rs RECORDING_SIZE).
  exists tt, xs, rs, ms, (vad_psa s). split; [done|]. split; [split; cbn; rewrite ?R4; try done; by destruct O4|].
  intros s5 H5. eapply tri_snapshot; [exact H5|]. intros s6 H6. apply wp_gets. rewrite (sn_magnitude _ _ _ _ _ H6).
  destruct (arm_max_q15 ms (RECORDING_SIZE / 2)) as [max_value max_index] eqn:Emax.
  eexists _, _, _, _, _. split; [done|]. split; [exact H6|]. intros s7 H7.
  assert (freq_of (sample_buffer s0) = if negb (max_value =? 0) then w32 (FS / RECORDING_SIZE * max_index) else 0) as <-.
  { unfold freq_of. rewrite Efft. cbn [snd]. fold ms. by rewrite Emax. }
  set (bs := enc32 (freq_of (sample_buffer s0))). eapply tri_snapshot; [exact H7|]. intros s8 [O8 T8 B8 R8 M8 K8].
  unfold wp. cbn [fst snd]. exists tt, xs, rs, ms, (psa_write (handle m) 0 bs (vad_psa s)). split; [done|].
  split; [split; cbn; rewrite ?K8; try done; by destruct O8|].
  intros s9 H9. eapply wpi_mono; [by eapply tri_finish|]. cbn beta. intros st s' (-> & O' & Hh & Hpsa).
  split; [done|]. exists bs, (Recorded (sample_buffer s0)), Stopped. split_and!; try done. rewrite <- Hp0. apply (L0 Hok).
Qed.

(** Every request. *)
Lemma tri_handler m s : vad_ok s -> tri (vad_handler m) s (did (type m) (handle m) s).
Proof.
  intros Hok. unfold vad_handler.
  assert (forall t, answer t (phase_of s) = (PSA_ERROR_PROGRAMMER_ERROR, [], phase_of s) ->
    tri (mret PSA_ERROR_PROGRAMMER_ERROR) s (did t (handle m) s)) as Hbad.
  { intros t Ht. apply tri_ret; [done|]. intros s' L. by eapply (did_intro _ _ _ s s). }
  destruct (type m) as [| | |n]; [by apply Hbad..|].
  destruct (Z.eqb_spec n VAD_AN552_START) as [->|H1]; [by apply tri_start|].
  destruct (Z.eqb_spec n VAD_AN552_QUERY) as [->|H2]; [by apply tri_query|].
  destruct (Z.eqb_spec n VAD_AN552_GET_FREQ) as [->|H3]; [by apply tri_get_freq|].
  destruct (Z.eqb_spec n VAD_AN552_STOP) as [->|H4]; [by apply tri_stop|].
  apply Hbad. cbn. apply Z.eqb_neq in H1, H2, H3, H4. by rewrite H1, H2, H3, H4.
Qed.

(** ** Rounds *)

(** What the partition does with the framework in rounds: each request is
    got, its data written and its status replied, once. *)
Inductive traffic : P -> list vad_event -> P -> Prop :=
| traffic_nil p : traffic p [] p
| traffic_idle p st m p1 es p' :
    psa_get TFM_AN552_VAD_SIGNAL (psa_wait p).2 = (st, m, p1) -> st <> PSA_SUCCESS ->
    traffic p1 es p' -> traffic p es p'
| traffic_request p m p1 st bs es p' :
    psa_get TFM_AN552_VAD_SIGNAL (psa_wait p).2 = (PSA_SUCCESS, m, p1) ->
    traffic (psa_reply (handle m) st (written (handle m) bs p1)) es p' ->
    traffic p ((type m, st, bs) :: es) p'.

(** What a round, or some rounds, have done. *)
Definition served s s' : Prop :=
  vad_ok s' /\ exists es, aruns (phase_of s) es (phase_of s') /\ traffic (vad_psa s) es (vad_psa s').

Lemma tri_psa_call {A} (f : P -> A * P) s : vad_ok s ->
  tri (vad_psa_call f) s (fun a s' =>
    vad_ok s' /\ hears (phase_of s) (phase_of s') /\ f (vad_psa s) = (a, vad_psa s')).
Proof using Type.
  intros Hok. apply (wpi_act _ _ _ _ _ listens_ok flih_listens flih_hangs); [done|]. intros s1 L1 O1. unfold wp.
  destruct (L1 Hok) as [_ H1 R1 M1 P1]. rewrite P1. destruct (f (vad_psa s)) as [a p] eqn:E. cbn [fst snd].
  assert (vad_ok (set_vad_psa p s1)) as O2 by by destruct O1. split; [done|]. intros s2 L2.
  destruct (L2 O2) as [O3 H3 R3 M3 P3]. split; [done|]. split; [by etrans|]. by rewrite P3.
Qed.

Lemma aruns_hears a a1 es a' : hears a a1 -> aruns a1 es a' -> aruns a es a'.
Proof using Type. induction 1 as [|a a1 a2 H1 _ IH]; [done|]. intros H. by eapply aruns_heard, IH. Qed.

Lemma aruns_app a es a1 fs a' : aruns a es a1 -> aruns a1 fs a' -> aruns a (es ++ fs) a'.
Proof using Type.
  induction 1 as [|a a1 es a2 H1 _ IH|a t st bs a1 es a2 H1 _ IH]; intros H; [done|..].
  - eapply aruns_heard; [done|by apply IH].
  - eapply aruns_request; [done|by apply IH].
Qed.

Lemma traffic_app p es p1 fs p' : traffic p es p1 -> traffic p1 fs p' -> traffic p (es ++ fs) p'.
Proof using Type.
  induction 1 as [|p st m p1 es p2 H1 H2 _ IH|p m p1 st bs es p2 H1 _ IH]; intros H; [done|..].
  - eapply traffic_idle; [done|done|by apply IH].
  - eapply traffic_request; [done|by apply IH].
Qed.

Lemma tri_signal sig s : vad_ok s -> sig = TFM_AN552_VAD_SIGNAL ->
  tri (vad_signal_handle sig) s (fun _ s' => vad_ok s' /\ exists es, aruns (phase_of s) es (phase_of s') /\
    forall p, (psa_wait p).2 = vad_psa s -> traffic p es (vad_psa s')).
Proof.
  intros Hok ->. apply tri_bind. eapply wpi_mono; [by apply tri_psa_call|].
  intros [st m] s1 (O1 & H1 & P1). cbn beta iota. destruct (Z.eqb_spec st PSA_SUCCESS) as [->|Hst]; cbn [negb].
  - apply tri_bind. eapply wpi_mono; [by apply tri_handler|]. intros st s2 (O2 & bs & a1 & a2 & H2 & Ha & H3 & P2).
    eapply wpi_mono; [by apply tri_psa_call|]. intros [] s3 (O3 & H4 & P3). split; [done|].
    exists [(type m, st, bs)]. split.
    + eapply aruns_hears; [by etrans|]. eapply aruns_request; [exact Ha|].
      eapply aruns_hears; [by etrans|]. constructor.
    + intros p Hp. eapply traffic_request; [by rewrite Hp|]. rewrite <- P2. injection P3 as <-. constructor.
  - apply tri_ret; [done|]. intros s2 L2. destruct (L2 O1) as [O2 H2 _ _ P2]. split; [done|]. exists []. split.
    + eapply aruns_hears; [by etrans|]. constructor.
    + intros p Hp. eapply traffic_idle; [by rewrite Hp|done|]. rewrite P2. constructor.
Qed.

(** A round serves at most one request, and its errors are the loops that
    hang and the panic when the signal is not the one it waits for. *)
Lemma vad_round_served s r s' : vad_ok s -> exec irq_enabled i2s_flih vad_round s r s' ->
  match r with
  | Ok _ => served s s'
  | Err e => e = HANG \/ (e = PANIC /\ Z.land (psa_wait (vad_psa s)).1 TFM_AN552_VAD_SIGNAL = 0)
  end.
Proof.
  intros Hok [(sig & s1 & Hw & Hx)|(e & -> & Hw)]%exec_bind.
  2:{ left. symmetry. exact (tri_psa_call _ _ Hok _ _ Hw). }
  destruct (tri_psa_call _ _ Hok _ _ Hw) as (O1 & H1 & P1). rewrite P1. cbn [fst].
  destruct (Z.eqb_spec (Z.land sig TFM_AN552_VAD_SIGNAL) 0) as [Hsig|Hsig]; cbn [negb] in Hx.
  - apply exec_act in Hx. destruct Hx as [(e & -> & Hd)|(s2 & r2 & s3 & _ & [= <- <-] & -> & _)]; [left|by right].
    symmetry. by eapply (irq_dies_guarded _ _ _ _ _ listens_ok flih_listens flih_hangs).
  - pose proof (tri_signal _ _ O1 eq_refl _ _ Hx) as H2. destruct r as [[]|e]; [|by left].
    destruct H2 as (O2 & es & Hr & Ht). split; [done|]. exists es. split; [by eapply aruns_hears|].
    apply Ht. by rewrite P1.
Qed.

(** Rounds. *)
Definition vad_rounds : relation (vad_state W V P) := rtc (fun s s' => exec irq_enabled i2s_flih vad_round s (Ok tt) s').

Lemma rounds_served s s' : vad_ok s -> vad_rounds s s' -> served s s'.
Proof.
  intros Hok H. revert Hok. induction H as [s|s s1 s' H1 _ IH]; intros Hok.
  - split; [done|]. exists []. split; constructor.
  - destruct (vad_round_served _ _ _ Hok H1) as (O1 & es & Hr & Ht). destruct (IH O1) as (O2 & fs & Hr2 & Ht2).
    split; [done|]. exists (es ++ fs). split; [by eapply aruns_app|by eapply traffic_app].
Qed.
End Spec.
