(* ===== verification/VadFifo.v ===== *)
(** * What the interrupt handler records

    On an audio interface that keeps the words it receives until they are read
    or its FIFO is reset ([FifoLaws]), and that may receive words at any time,
    the handler takes the words in order until it finds none; [hear] says what
    a sample does. *)
From Stdlib Require Import ZArith Lia.
From stdpp Require Import base list numbers relations options.
From S2P Require Import Prelude.
From S2P Require Import FlashFsDefs.
From S2P Require Import Interrupts.
From S2P Require Import SysTimer.
From S2P Require Import I2sDriver.
From S2P Require Import I2cSbcon.
From S2P Require Import AudioCodec.
From S2P Require Import PsaApi.
From S2P Require Import VadService.
From S2P Require Import VadSpec.

#[local] Set Default Proof Using "Type*".

(** Between [w] and [w'] the words [xs] were read, and any number of words
    arrived; [fifo] holds what was received and not read, [arrived] everything
    that was ever received. *)
Definition passes {W : Type} (fifo arrived : W -> list Z) (xs : list Z) (w w' : W) : Prop :=
  exists ys, arrived w' = arrived w ++ ys /\ fifo w ++ ys = xs ++ fifo w'.

(** The FIFO reset bit of a value of the control register. *)
Definition resets (x : Z) : bool := Z.testbit x AUDIO_I2S_MPS3_CONTROL_FIFO_RESET_OFF.

(** The audio interface, next to the timer.  The status tells whether the FIFO
    is empty when it is read; reading the buffer takes the first word; a write
    of the control register with the FIFO reset bit set empties the FIFO, which
    stays empty while the bit is set (what comes in then is not received, like
    what comes in while the FIFO is full); during every other operation words
    may arrive.  Nothing but setting the timer puts off its interrupt. *)
Class FifoLaws (W : Type) {TO : SystimerOps W} {IO : I2sOps W} {TL : SystimerLaws (T := W)} := {
  fifo : W -> list Z;
  arrived : W -> list Z;
  rx_control : W -> Z;
  fl_reset : forall w, resets (rx_control w) = true -> fifo w = [];
  fl_status : forall w, let '(x, w') := i2s_read STATUS w in
    (Z.land (Z.shiftr x AUDIO_I2S_MPS3_STATUS_RXBUF_EMPTY_OFF) 1 = 0 <-> fifo w <> []) /\
    passes fifo arrived [] w w' /\ ticks w' <= ticks w;
  fl_rxbuf : forall w x xs, fifo w = x :: xs -> let '(y, w') := i2s_read RXBUF w in
    y = x /\ passes fifo arrived [x] w w' /\ ticks w' <= ticks w;
  fl_control : forall w, let '(x, w') := i2s_read CONTROL w in
    x = rx_control w /\ rx_control w' = rx_control w /\ passes fifo arrived [] w w' /\ ticks w' <= ticks w;
  fl_write : forall x w, let w' := i2s_write CONTROL x w in
    (if resets x then fifo w' = [] /\ arrived w' = arrived w else passes fifo arrived [] w w') /\
    ticks w' <= ticks w;
  fl_init : forall w, passes fifo arrived [] w (systimer_armv8_m_init w);
  fl_set : forall v w, passes fifo arrived [] w (systimer_armv8_m_set_timer_value v w);
  fl_poll : forall w, passes fifo arrived [] w (systimer_armv8_m_is_interrupt_asserted w).2
}.

Section Passes.
Context {W : Type} (f a : W -> list Z).

Lemma passes_same w w' : f w' = f w -> a w' = a w -> passes f a [] w w'.
Proof. intros Hf Ha. exists []. by rewrite Hf, Ha, !app_nil_r. Qed.

Lemma passes_trans xs ys w1 w2 w3 : passes f a xs w1 w2 -> passes f a ys w2 w3 -> passes f a (xs ++ ys) w1 w3.
Proof.
  intros (us & A1 & F1) (vs & A2 & F2). exists (us ++ vs). split; [by rewrite A2, A1, app_assoc|].
  by rewrite app_assoc, F1, <- !app_assoc, F2.
Qed.

#[export] Instance passes_pre : PreOrder (passes f a []).
Proof. split; [intros w; by apply passes_same|intros w1 w2 w3; apply (passes_trans [] [])]. Qed.
End Passes.

(** What the voice detection holds, and the phase. *)
Definition hearing (V : Type) : Type := Z * Z * V * vad_phase.    (* command, voice_activity *)

Definition hear {V} {VL : VadLib V} (h : hearing V) (x : Z) : hearing V :=
  let '(c, v, l, a) := h in
  match a with
  | Listening =>
      let '(c, v, l) := vad_estimation c v [x] FS l in
      (c, v, l, if v =? 1 then Recording [] else Listening)
  | Recording xs =>
      (c, v, l, if Z.of_nat (length xs) + 1 =? RECORDING_SIZE then Recorded (xs ++ [x]) else Recording (xs ++ [x]))
  | _ => h
  end.

Section Fifo.
Context {W V P : Type} {TO : SystimerOps W} {IO : I2sOps W} {SR : SbconRegs W} {VF : VadFuel}.
Context {VL : VadLib V} {DO : DspOps} {PO : PsaOps P} {VM : VadManifest}.
Context {TL : SystimerLaws (T := W)} {FL : FifoLaws W}.
Implicit Types s : vad_state W V P.

Definition timer s : timer_state W := bus (hardware s).
Definition received s : list Z := fifo (systimer (timer s)).

(** The words [xs] were read, while words may have arrived. *)
Definition flow (xs : list Z) s s' : Prop :=
  passes fifo arrived xs (systimer (timer s)) (systimer (timer s')).

#[export] Instance flow_pre : PreOrder (flow []).
Proof using Type. split; [intros s; by apply passes_same|intros s1 s2 s3; apply (passes_trans _ _ [] [])]. Qed.

Lemma flow_timer s s' : timer s' = timer s -> flow [] s s'.
Proof using Type. intros H. apply passes_same; by rewrite H. Qed.

(** The polls suffice for the delays of the program. *)
Record timed s : Prop := {
  td_now : ticks (systimer (timer s)) < Z.of_nat polls;
  td_next : delay_in_tick (timer s) < Z.of_nat polls;
  td_ms : MS_TO_TICK 1 < Z.of_nat polls
}.

(** A part that leaves the samples, and the rest of the partition. *)
Record aside s s' : Prop := {
  as_flow : flow [] s s';
  as_timed : timed s -> timed s';
  as_quiet : quiet_step s s';
  as_command : flih_command s' = flih_command s;
  as_lib : vad_lib s' = vad_lib s
}.

#[export] Instance aside_pre : PreOrder aside.
Proof using Type.
  split; [by intros s; split|]. intros s1 s2 s3 [H1 H2 H3 H4 H5] [K1 K2 K3 K4 K5].
  split; [by etrans|auto|by etrans|congruence..].
Qed.

(** Steps of the audio driver. *)
Definition gentle {A} (p : prog W A) : Prop :=
  forall w, exists a w', run p w = (Ok a, w') /\ passes fifo arrived [] w w' /\ ticks w' <= ticks w.

(** Clearing another bit leaves the reset bit as it was. *)
Lemma resets_clear c off : 0 <= off < 16 -> resets (clear_bits c (Z.shiftl 1 off)) = resets c.
Proof using Type.
  intros Ho. unfold resets, clear_bits, AUDIO_I2S_MPS3_CONTROL_FIFO_RESET_OFF. rewrite Z.land_spec.
  unfold w32. change 4294967296 with (2 ^ 32).
  rewrite Z.mod_pow2_bits_low, Z.lnot_spec, Z.shiftl_1_l, Z.pow2_bits_false by lia.
  by rewrite andb_true_r.
Qed.

Lemma gentle_clear off : 0 <= off < 16 -> gentle (clear_control_bit off).
Proof using Type.
  intros Ho w. unfold clear_control_bit. rewrite run_bind. unfold mbind, ST_bind, read_reg, write_reg. rewrite run_act.
  unfold on_call. pose proof (fl_control w) as H. destruct (i2s_read CONTROL w) as [c w1]. destruct H as (-> & Hc & Hp & Ht).
  rewrite run_act. set (x := clear_bits _ _). pose proof (fl_write x w1) as [Hw Ht'].
  exists tt, (i2s_write CONTROL x w1). split; [done|]. split; [|lia]. etrans; [exact Hp|].
  subst x. rewrite resets_clear in Hw by done. destruct (resets (rx_control w)) eqn:Hr; [|exact Hw].
  apply passes_same; [|apply Hw]. rewrite (proj1 Hw), fl_reset by congruence. done.
Qed.

#[local] Instance hardware_lens : LensLaws (vad_state W V P) (hardware_state W).
Proof using Type. split; [done|done|by intros []]. Qed.
#[local] Instance bus_lens : LensLaws (hardware_state W) (timer_state W).
Proof using Type. split; [done|done|by intros []]. Qed.
#[local] Instance device_lens : LensLaws (timer_state W) W.
Proof using Type. split; [done|done|by intros []]. Qed.

(** The device replaced, and the timer's data. *)
Definition on_device (t : timer_state W) s : vad_state W V P := set_hardware (set_bus t (hardware s)) s.

Lemma run_i2s {A} (p : prog W A) s : run (i2s p) s =
  ((run p (systimer (timer s))).1, on_device (set_systimer (run p (systimer (timer s))).2 (timer s)) s).
Proof using Type. unfold i2s, on_hw, on_i2s. by rewrite !run_within. Qed.

Lemma run_wait ms s : run (wait ms) s =
  ((run (wait_ms polls ms) (timer s)).1, on_device (run (wait_ms polls ms) (timer s)).2 s).
Proof using Type. unfold wait, on_hw, on_timer. by rewrite !run_within. Qed.

Lemma aside_i2s {A} (p : prog W A) s : gentle p -> exists a s', run (i2s p) s = (Ok a, s') /\ aside s s'.
Proof using Type.
  intros Hp. rewrite run_i2s. destruct (Hp (systimer (timer s))) as (a & w & E & F & T). rewrite E. cbn [fst snd].
  eexists a, _. split; [done|]. split; [exact F| |by split|done|done]. intros [H1 H2 H3]. split; [|done|done].
  cbn. eapply Z.le_lt_trans; [exact T|exact H1].
Qed.

Lemma aside_wait s : timed s -> exists s', run (wait 1) s = (Ok tt, s') /\ aside s s'.
Proof using Type.
  intros [H1 H2 H3].
  assert (0 < Z.of_nat polls) as Hp by (eapply Z.le_lt_trans; [|exact H3]; unfold MS_TO_TICK; apply w32_range).
  destruct (wait_ends (passes fifo arrived [] (systimer (timer s)))) with (limit := MAX_DELAY_MS) (to_tick := MS_TO_TICK)
    (polls := polls) (i := OF_WAIT_MS) (delay := 1) (s := timer s) as (t & E & _ & Hd & _ & Ht & Hf); try done.
  { intros w Hw. etrans; [exact Hw|apply fl_init]. }
  { intros v w Hw. etrans; [exact Hw|apply fl_set]. }
  { intros w Hw. etrans; [exact Hw|apply fl_poll]. }
  { by right. }
  rewrite run_wait. unfold wait_ms, timeout_init. rewrite E. eexists. split; [done|]. split; [exact Hf| |by split|done|done].
  assert (delay_in_tick t < Z.of_nat polls) as Hdt by (rewrite Hd; by case_match).
  intros _. split; [|exact Hdt|done]. cbn. by rewrite Ht.
Qed.

Lemma aside_stop s : timed s -> exists s', run stop_listening s = (Ok tt, s') /\ aside s s'.
Proof using Type.
  intros Ht.
  destruct (aside_i2s audio_i2s_mps3_disable_rxbuf s (gentle_clear AUDIO_I2S_MPS3_CONTROL_RX_EN_OFF ltac:(done))) as ([] & s1 & E1 & A1).
  destruct (aside_i2s audio_i2s_mps3_disable_rxinterrupt s1 (gentle_clear AUDIO_I2S_MPS3_CONTROL_RX_INTREN_OFF ltac:(done))) as ([] & s2 & E2 & A2).
  destruct (aside_wait s2) as (s3 & E3 & A3); [by apply A2, A1|]. exists s3.
  unfold stop_listening. rewrite (run_next _ _ _ _ _ E1), (run_next _ _ _ _ _ E2). split; [done|].
  etrans; [exact A1|]. by etrans.
Qed.

(** ** The loop *)

Definition hearing_of (v : Z) s : hearing V := (flih_command s, v, vad_lib s, phase_of s).

(** The status tells whether a word is there; more may arrive behind it. *)
Lemma poll_buffer s : exists s', run (i2s audio_i2s_mps3_is_rx_buffer_empty) s =
  (Ok (bool_decide (received s = [])), s') /\ aside s s'.
Proof using Type.
  rewrite run_i2s. unfold audio_i2s_mps3_is_rx_buffer_empty, status_bit. rewrite run_bind. unfold mbind, ST_bind, read_reg.
  rewrite run_act. unfold on_call. pose proof (fl_status (systimer (timer s))) as H.
  destruct (i2s_read STATUS (systimer (timer s))) as [x w]. destruct H as (Hb & Hf & Ht). cbn [run fst snd mret prog_ret].
  eexists. split.
  - assert (negb (Z.land (x ≫ AUDIO_I2S_MPS3_STATUS_RXBUF_EMPTY_OFF) 1 =? 0) = bool_decide (received s = [])) as ->;
      [|reflexivity].
    unfold received. case_bool_decide as Hn; destruct (Z.eqb_spec (Z.land (x ≫ AUDIO_I2S_MPS3_STATUS_RXBUF_EMPTY_OFF) 1) 0); tauto.
  - split; [exact Hf| |by split|done|done]. intros [H1 H2 H3]. split; [|done|done]. eapply Z.le_lt_trans; [exact Ht|exact H1].
Qed.

Lemma take_word s x xs : received s = x :: xs -> exists s', run (i2s audio_i2s_mps3_get_rxbuf) s = (Ok x, s') /\
  flow [x] s s' /\ (timed s -> timed s') /\ quiet_step s s' /\ flih_command s' = flih_command s /\ vad_lib s' = vad_lib s.
Proof using Type.
  intros Hx. rewrite run_i2s. unfold audio_i2s_mps3_get_rxbuf, read_reg. rewrite run_act. unfold on_call.
  pose proof (fl_rxbuf (systimer (timer s)) x xs Hx) as H. destruct (i2s_read RXBUF _) as [y w].
  destruct H as (-> & Hf & Ht). cbn [fst snd]. eexists. split; [done|]. split; [exact Hf|]. split; [|by split].
  intros [H1 H2 H3]. split; [|done|done]. eapply Z.le_lt_trans; [exact Ht|exact H1].
Qed.

(** The loop's body on a sample. *)
Record hears_sample (v x v' : Z) s s' : Prop := {
  hs_hearing : hearing_of v' s' = hear (hearing_of v s) x;
  hs_flow : flow [] s s';
  hs_timed : timed s';
  hs_ok : vad_ok s'
}.

Lemma aside_hearing v s s' : aside s s' -> hearing_of v s' = hearing_of v s.
Proof using Type. intros [_ _ Hq Hc Hl]. unfold hearing_of. by rewrite Hc, Hl, (quiet_phase _ _ Hq). Qed.

Lemma sample_recording v x s : vad_ok s -> timed s -> vad_status s = VAD_RECORDING ->
  exists v' s', run (flih_sample v x) s = (Ok v', s') /\ hears_sample v x v' s s'.
Proof using Type.
  intros Hok Ht Hst. destruct (store_stores x s Hok Hst) as (s1 & E & Es & Hl & Hn & Htk).
  set (xs := take _ (sample_buffer s)) in *. pose proof (phase_recording s Hst : _ = Recording xs) as Hp.
  assert (sample_buffer_end_idx s1 = sample_buffer_end_idx s + 1) as Hi by by rewrite Es.
  pose proof (vk_room _ Hok Hst) as Hroom.
  unfold flih_sample. rewrite (run_step (gets vad_status) _ s (vad_status s) s eq_refl). rewrite Hst. cbn [Z.eqb Pos.eqb VAD_RECORDING VAD_NO_VOICE_DETECTED].
  rewrite (run_step _ _ _ _ _ E).
  rewrite (run_step (gets sample_buffer_end_idx) _ s1 _ s1 eq_refl). rewrite Hi.
  destruct (Z.eqb_spec (sample_buffer_end_idx s + 1) RECORDING_SIZE) as [Hlast|Hmore].
  - destruct (aside_stop s1) as (s2 & E2 & A2); [rewrite Es; by destruct Ht|]. rewrite (run_next _ _ _ _ _ E2).
    rewrite (run_step (modify _) _ s2 tt _ eq_refl).
    eexists v, _. split; [done|]. destruct A2 as [R2 T2 [Q1 Q2 Q3 Q4 Q5 Q6] C2 L2].
    assert (sample_buffer s2 = xs ++ [x]) as Hb.
    { rewrite Q2, <- Htk. symmetry. apply take_ge. rewrite Hl. pose proof (vk_length _ Hok). lia. }
    destruct (last_phase s2 (xs ++ [x]) Hb) as [O2 P2]; [rewrite length_app; cbn; lia|congruence|].
    assert (timed s2) as [] by (apply T2; rewrite Es; by destruct Ht).
    split; [|change (flow [] s s2); transitivity s1; [apply flow_timer; by rewrite Es|exact R2]|by split|done].
    unfold hearing_of, hear. rewrite P2, Hp. cbn. rewrite C2, L2, Es. cbn. rewrite Hn. by rewrite Hlast.
  - exists v, s1. split; [done|]. destruct (next_phase s s1 (xs ++ [x]) Hok) as [O1 P1];
      [by rewrite Es|done|pose proof (vk_idx _ Hok); lia|by rewrite Hi|].
    split; [|apply flow_timer; by rewrite Es|by rewrite Es; destruct Ht|done]. unfold hearing_of, hear. rewrite P1, Hp, Hn, Es. cbn.
    by destruct (Z.eqb_spec (sample_buffer_end_idx s + 1) RECORDING_SIZE).
Qed.

Lemma sample_listening v x s : vad_ok s -> timed s -> vad_status s = VAD_NO_VOICE_DETECTED ->
  exists v' s', run (flih_sample v x) s = (Ok v', s') /\ hears_sample v x v' s s'.
Proof using Type.
  intros Hok Ht Hst. assert (phase_of s = Listening) as Hp by (unfold phase_of; by rewrite Hst).
  unfold flih_sample. rewrite (run_step (gets vad_status) _ s (vad_status s) s eq_refl). rewrite Hst. cbn [Z.eqb Pos.eqb VAD_RECORDING VAD_NO_VOICE_DETECTED].
  destruct (vad_estimation (flih_command s) v [x] FS (vad_lib s)) as [[c v'] l] eqn:Ev.
  rewrite (run_step (estimate v x) _ s v' (set_lib c l s)) by (unfold estimate; by rewrite Ev).
  exists v'. destruct (Z.eqb_spec v' 1) as [->|Hv].
  - eexists. split; [cbn; unfold mbind, ST_bind; cbn; reflexivity|].
    split; [|by apply flow_timer|by destruct Ht|].
    + unfold hearing_of, hear. rewrite Hp. cbn. by rewrite Ev.
    + destruct Hok as [K1 K2 K3 K4]. split; cbn; try done; unfold VAD_RECORDING, RECORDING_SIZE in *; lia.
  - eexists. split; [reflexivity|]. split; [|by apply flow_timer|by destruct Ht|by destruct Hok].
    unfold hearing_of, hear. rewrite Hp, Ev. change (phase_of (set_lib c l s)) with (phase_of s). rewrite Hp. cbn.
    by apply Z.eqb_neq in Hv as ->.
Qed.

Lemma sample_heard v x s : vad_ok s -> timed s ->
  exists v' s', run (flih_sample v x) s = (Ok v', s') /\ hears_sample v x v' s s'.
Proof using Type.
  intros Hok Ht. destruct (decide (vad_status s = VAD_RECORDING)); [by apply sample_recording|].
  destruct (decide (vad_status s = VAD_NO_VOICE_DETECTED)); [by apply sample_listening|].
  unfold flih_sample. rewrite (run_step (gets vad_status) _ s (vad_status s) s eq_refl).
  destruct (Z.eqb_spec (vad_status s) VAD_NO_VOICE_DETECTED); [done|].
  destruct (Z.eqb_spec (vad_status s) VAD_RECORDING); [done|].
  destruct (aside_stop s Ht) as (s1 & E1 & A1). rewrite (run_next _ _ _ _ _ E1). exists v, s1. split; [done|].
  split; [|apply A1|by apply A1|by eapply quiet_ok; [apply A1|]].
  rewrite (aside_hearing _ _ _ A1). pose proof (phase_status s Hok) as Hs. unfold hearing_of, hear.
  destruct (phase_of s); done || congruence.
Qed.

(** Words were taken in order up to a check that found none left. *)
Definition drained (xs : list Z) s s' : Prop := exists s1, flow xs s s1 /\ received s1 = [] /\ flow [] s1 s'.

(** The handler takes words until it finds none; after [n] of them it gives up. *)
Lemma flih_loop_hears n v s : vad_ok s -> timed s ->
  exists r v' s' xs, run (flih_loop n v) s = (r, s') /\ flow xs s s' /\
    hearing_of v' s' = foldl hear (hearing_of v s) (s16 <$> xs) /\ vad_ok s' /\
    (r = Ok tt /\ drained xs s s' \/ r = Err HANG /\ length xs = n).
Proof using Type.
  revert v s. induction n as [|n IH]; intros v s Hok Ht; cbn [flih_loop].
  { exists (Err HANG), v, s, []. by split_and!; [| | | |right]. }
  destruct (poll_buffer s) as (s1 & E1 & A1). rewrite (run_next _ _ _ _ _ E1).
  assert (vad_ok s1) as O1 by by (eapply quiet_ok; [apply A1|]). pose proof (as_timed _ _ A1 Ht) as T1.
  pose proof (as_flow _ _ A1) as F1. rewrite <- (aside_hearing v _ _ A1). clear E1. case_bool_decide as Hempty.
  - exists (Ok tt), v, s1, []. split_and!; [done|done|done|done|]. left. split; [done|]. by exists s.
  - destruct (received s) as [|w ws] eqn:Hw; [congruence|].
    destruct (received s1) as [|w1 ws1] eqn:Hw1.
    { destruct F1 as (ys & _ & HF). unfold received in *. rewrite Hw, Hw1 in HF. discriminate HF. }
    destruct (take_word _ _ _ Hw1) as (s2 & E2 & F2 & T2 & Q2 & C2 & L2). rewrite (run_next _ _ _ _ _ E2).
    destruct (sample_heard v (s16 w1) s2 (quiet_ok _ _ Q2 O1) (T2 T1)) as (v3 & s3 & E3 & [H3 F3 T3 O3]).
    rewrite (run_next _ _ _ _ _ E3).
    destruct (IH v3 s3 O3 T3) as (r & v4 & s4 & xs & E4 & F4 & H4 & O4 & Hr).
    assert (flow [w1] s s3) as Hto.
    { apply (passes_trans _ _ [] [w1] _ _ _ F1). by apply (passes_trans _ _ [w1] [] _ _ _ F2). }
    exists r, v4, s4, (w1 :: xs). split_and!; [done|by apply (passes_trans _ _ [w1] xs _ _ _ Hto)| |done|].
    + rewrite H4, H3. cbn. f_equal. unfold hearing_of. by rewrite C2, L2, (quiet_phase _ _ Q2).
    + destruct Hr as [[-> (s5 & G1 & G2 & G3)]|[-> <-]]; [left|by right]. split; [done|]. exists s5.
      split; [by apply (passes_trans _ _ [w1] xs _ _ _ Hto)|done].
Qed.
End Fifo.
