(* ===== verification/VadTheorems.v ===== *)
(** * The voice activity partition: properties

    A concrete machine and framework on which the theorems are instantiated;
    then the properties. *)
From Stdlib Require Import ZArith Lia.
From stdpp Require Import base list numbers relations options.
From S2P Require Import Prelude.
From S2P Require Import FlashFsDefs.
From S2P Require Import Interrupts.
From S2P Require Import SysTimer.
From S2P Require Import I2sDriver.
From S2P Require Import I2cSbcon.
From S2P Require Import I2cSpec.
From S2P Require Import AudioCodec.
From S2P Require Import CodecSpec.
From S2P Require Import PsaApi.
From S2P Require Import PsaSample.
From S2P Require Import VadService.
From S2P Require Import VadSpec.
From S2P Require Import VadFifo.

(** [dv_line]: the words that the codec will deliver; [dv_arrived]: those
    that the interface has received. *)
Record device : Type := {
  dv_control : Z;
  dv_fifo : list Z;
  dv_line : list Z;
  dv_arrived : list Z;
  dv_ticks : Z;
  dv_wire : wire_state;
  dv_levels : list bool
}.

Definition with_control (x : Z) (d : device) : device :=
  {| dv_control := x; dv_fifo := dv_fifo d; dv_line := dv_line d; dv_arrived := dv_arrived d;
     dv_ticks := dv_ticks d; dv_wire := dv_wire d; dv_levels := dv_levels d |}.
Definition with_fifo (x : list Z) (d : device) : device :=
  {| dv_control := dv_control d; dv_fifo := x; dv_line := dv_line d; dv_arrived := dv_arrived d;
     dv_ticks := dv_ticks d; dv_wire := dv_wire d; dv_levels := dv_levels d |}.
Definition with_ticks (x : Z) (d : device) : device :=
  {| dv_control := dv_control d; dv_fifo := dv_fifo d; dv_line := dv_line d; dv_arrived := dv_arrived d;
     dv_ticks := x; dv_wire := dv_wire d; dv_levels := dv_levels d |}.
Definition with_wire (x : wire_state) (l : list bool) (d : device) : device :=
  {| dv_control := dv_control d; dv_fifo := dv_fifo d; dv_line := dv_line d; dv_arrived := dv_arrived d;
     dv_ticks := dv_ticks d; dv_wire := x; dv_levels := l |}.

#[export] Instance device_timer : SystimerOps device := {
  systimer_armv8_m_init := fun d => d;
  systimer_armv8_m_set_timer_value := with_ticks;
  systimer_armv8_m_is_interrupt_asserted := fun d =>
    if dv_ticks d <=? 0 then (true, d) else (false, with_ticks (dv_ticks d - 1000) d)
}.

(** While the receiver is enabled a word arrives with each access to the
    interface. *)
Definition deliver (d : device) : device :=
  match dv_line d with
  | x :: l =>
      if Z.testbit (dv_control d) AUDIO_I2S_MPS3_CONTROL_RX_EN_OFF && negb (resets (dv_control d)) then
        {| dv_control := dv_control d; dv_fifo := dv_fifo d ++ [x]; dv_line := l; dv_arrived := dv_arrived d ++ [x];
           dv_ticks := dv_ticks d; dv_wire := dv_wire d; dv_levels := dv_levels d |}
      else d
  | [] => d
  end.

(** In reset the FIFO reads as empty. *)
Definition dv_words (d : device) : list Z := if resets (dv_control d) then [] else dv_fifo d.

#[export] Instance device_i2s : I2sOps device := {
  i2s_read := fun r d =>
    match r with
    | CONTROL => (dv_control d, d)
    | STATUS => (match dv_words d with [] => 16 | _ => 0 end, deliver d)
    | RXBUF => match dv_words d with [] => (0, d) | x :: xs => (x, deliver (with_fifo xs d)) end
    | _ => (0, d)
    end;
  i2s_write := fun r x d =>
    match r with
    | CONTROL => if resets x then with_fifo [] (with_control x d) else deliver (with_fifo (dv_words d) (with_control x d))
    | _ => d
    end
}.

(** The slave drives SDA to the levels to come. *)
#[export] Instance device_lines : SbconRegs device := {
  set_reg := fun p d => with_wire (raise_lines p (dv_wire d)) (dv_levels d) d;
  clear_reg := fun p d => with_wire (lower_lines p (dv_wire d)) (dv_levels d) d;
  status_reg := fun d =>
    match dv_levels d with
    | [] => (0, d)
    | b :: bs => (if b then SDA else 0, with_wire (dv_wire d) bs d)
    end
}.

(** Enough for a millisecond of 32000 ticks. *)
#[export] Instance sample_fuel : VadFuel := { polls := Z.to_nat 32001; drain := 16 }.

Lemma sample_polls : MS_TO_TICK 1 < Z.of_nat polls.
Proof. cbn [polls sample_fuel]. rewrite Z2Nat.id by lia. vm_compute. reflexivity. Qed.

#[export] Program Instance device_timer_laws : SystimerLaws (T := device) := { ticks := dv_ticks }.
Next Obligation. done. Qed.
Next Obligation.
  intros d. cbn. destruct (Z.leb_spec (dv_ticks d) 0); split; [done|done| |cbn; lia]. split; [done|lia].
Qed.

Lemma deliver_passes d : passes dv_words dv_arrived [] d (deliver d).
Proof.
  unfold deliver. destruct (dv_line d) as [|x l]; [reflexivity|].
  destruct (Z.testbit _ _); [|reflexivity]. destruct (resets (dv_control d)) eqn:Hr; [reflexivity|].
  exists [x]. split; [done|]. unfold dv_words. cbn -[resets]. by rewrite Hr.
Qed.

Lemma deliver_rest d : dv_control (deliver d) = dv_control d /\ dv_ticks (deliver d) = dv_ticks d /\
  dv_wire (deliver d) = dv_wire d /\ dv_levels (deliver d) = dv_levels d.
Proof. unfold deliver. destruct (dv_line d); [done|]. by case_match. Qed.

#[export] Program Instance device_fifo_laws : FifoLaws device :=
  { fifo := dv_words; arrived := dv_arrived; rx_control := dv_control }.
Next Obligation. intros d H. unfold dv_words. by rewrite H. Qed.
Next Obligation.
  intros d. cbn -[resets]. split; [by destruct (dv_words d)|]. split; [apply deliver_passes|].
  by rewrite (proj1 (proj2 (deliver_rest d))).
Qed.
Next Obligation.
  intros d x xs H. cbn -[resets]. rewrite H. split; [done|].
  rewrite (proj1 (proj2 (deliver_rest (with_fifo xs d)))). split; [|done].
  apply (passes_trans _ _ [x] [] _ (with_fifo xs d)); [|apply deliver_passes].
  exists []. unfold dv_words in *. cbn -[resets]. destruct (resets _); [done|]. by rewrite H, !app_nil_r.
Qed.
Next Obligation. intros d. by split_and!. Qed.
Next Obligation.
  intros x d. cbn -[resets]. destruct (resets x) eqn:Hr; cbn -[resets].
  - unfold dv_words. cbn -[resets]. by rewrite Hr.
  - rewrite (proj1 (proj2 (deliver_rest _))). split; [|done]. etrans; [|apply deliver_passes].
    apply passes_same; [|done]. unfold dv_words. cbn -[resets]. by rewrite Hr.
Qed.
Next Obligation. intros d. reflexivity. Qed.
Next Obligation. intros v d. by apply passes_same. Qed.
Next Obligation. intros d. cbn -[resets]. destruct (dv_ticks d <=? 0); [done|by apply passes_same]. Qed.

#[export] Program Instance device_bus_laws : BusLaws device := { lines := dv_wire; levels := dv_levels }.
Next Obligation. intros p d. by split_and!. Qed.
Next Obligation. intros p d. by split_and!. Qed.
Next Obligation. intros d. cbn. destruct (dv_levels d) as [|b bs] eqn:E; cbn; split_and!; try done; by destruct b. Qed.
Next Obligation. by split. Qed.
Next Obligation. by split. Qed.
Next Obligation. intros d. cbn. by destruct (dv_ticks d <=? 0). Qed.
Next Obligation. intros d. by split_and!. Qed.
Next Obligation.
  intros x d. cbn -[resets]. destruct (resets x); [by split_and!|].
  destruct (deliver_rest (with_fifo (dv_words d) (with_control x d))) as (_ & -> & -> & ->). by split_and!.
Qed.

(** Stand-ins for the libraries: a voice is a sample above 1000, and the
    transform returns its source. *)
#[export] Instance sample_vad : VadLib unit := {
  vad_estimation := fun command vad samples rate l =>
    (command, match samples with x :: _ => if 1000 <? x then 1 else 0 | [] => vad end, l)
}.

#[export] Instance sample_dsp : DspOps := {
  arm_rfft_instance_q15 := unit;
  arm_rfft_init_q15 := fun _ _ _ => tt;
  arm_rfft_q15 := fun _ xs => (xs, xs);
  arm_cmplx_mag_q15 := fun xs n => take (Z.to_nat n) xs;
  arm_max_q15 := fun xs n =>
    fold_left (fun '(m, i) '(x, j) => if m <? x then (x, j) else (m, i))
      (zip (take (Z.to_nat n) xs) (seqZ 0 n)) (0, 0)
}.

#[export] Instance sample_manifest : VadManifest := { TFM_AN552_VAD_SIGNAL := 16 }.

Definition idle_wire : wire_state := {| scl := true; sda := true; condition := false; events := [] |}.

Definition sample_hardware (line : list Z) (levels : list bool) : hardware_state device :=
  {| freq_us := 0; sys_clk := 0; i2c_state := 0;
     bus := {| delay_in_tick := 0; timeout_us := {| dev_ptr := false; is_initialized := false |};
               timeout_ms := {| dev_ptr := false; is_initialized := false |};
               systimer := {| dv_control := 0; dv_fifo := []; dv_line := line; dv_arrived := [];
                              dv_ticks := 0; dv_wire := idle_wire;
                              dv_levels := levels |} |} |}.

(** The partition at its start, with requests to come. *)
Definition vad_boot (line : list Z) (levels : list bool) (p : pstate) : vad_state device unit pstate :=
  {| vad_status := VAD_STOPPED; sample_buffer := replicate (Z.to_nat RECORDING_SIZE) 0; sample_buffer_end_idx := 0;
     fft_result := replicate (Z.to_nat (2 * RECORDING_SIZE)) 0; fft_magnitude := replicate (Z.to_nat RECORDING_SIZE) 0; flih_command := PROC_VAD;
     hardware := sample_hardware line levels; vad_lib := tt; irq_enabled := false; vad_psa := p |}.

Lemma vad_boot_ok line levels p : vad_ok (vad_boot line levels p).
Proof. split; vm_compute; intuition congruence. Qed.

Definition vad_request (n : Z) (h : Z) : Z * psa_msg_t * list (list Z) :=
  (16, {| type := PSA_IPC_OTHER n; handle := h; client_id := 1; in_size := []; out_size := [4] |}, []).

Definition sample_requests (ns : list Z) : pstate :=
  {| ps_in := ∅; ps_out := ∅; ps_replies := [];
     ps_queue := imap (fun i n => vad_request n (Z.of_nat i)) ns |}.

(** ** Properties *)

#[local] Set Default Proof Using "Type*".

Section Properties.
Context {W V P : Type} {TO : SystimerOps W} {IO : I2sOps W} {SR : SbconRegs W} {VF : VadFuel}.
Context {VL : VadLib V} {DO : DspOps} {PO : PsaOps P} {VM : VadManifest}.
Implicit Types s : vad_state W V P.

(** C10: The partition refines its automaton, whatever the interrupts do: with
    the interrupt handler run before, between and after the steps of the main
    loop any number of times, its rounds answer each request that they get
    once, with the status and the data that [answer] gives for the phase at
    that moment, and between the requests the phase moves only as [heard]
    lets it (the voice starts a recording, samples are added at its end, the
    last one completes it).  The automaton is the code's: a query answers
    VAD_STOPPED before the first start, after a stop and after the frequency
    was read, and VAD_NO_VOICE_DETECTED while the partition listens, where
    the comment of the client's header promises VAD_VOICE_RECORDED and the
    undefined VAD_VOICE_DETECTED ([query_of_stopped], [query_of_listening]). *)
Theorem vad_refines s s' :
  (forall f xs, length (arm_rfft_q15 f xs).1 = length xs) ->
  vad_ok s -> vad_rounds s s' ->
  exists es, aruns (phase_of s) es (phase_of s') /\ traffic (vad_psa s) es (vad_psa s').
Proof. intros Hl Hok H. by destruct (rounds_served Hl s s' Hok H). Qed.

(** What a query answers: the number of the phase. *)
Lemma query_writes s m : vad_ok s -> type m = PSA_IPC_OTHER VAD_AN552_QUERY ->
  exists s', run (vad_handler m) s = (Ok PSA_SUCCESS, s') /\
    vad_psa s' = psa_write (handle m) 0 (enc32 (phase_code (phase_of s))) (vad_psa s).
Proof.
  intros Hok Hm. unfold vad_handler. rewrite Hm. cbn [Z.eqb Pos.eqb VAD_AN552_QUERY VAD_AN552_START].
  eexists. split; [reflexivity|]. by rewrite (phase_status s Hok).
Qed.

(** A query of a stopped partition does not answer VAD_VOICE_RECORDED, the
    documented value for every phase but two. *)
Theorem query_of_stopped s m :
  vad_ok s -> phase_of s = Stopped -> type m = PSA_IPC_OTHER VAD_AN552_QUERY ->
  exists s', run (vad_handler m) s = (Ok PSA_SUCCESS, s') /\
    vad_psa s' = psa_write (handle m) 0 (enc32 VAD_STOPPED) (vad_psa s) /\
    enc32 VAD_STOPPED <> enc32 VAD_VOICE_RECORDED.
Proof.
  intros Hok Hp Hm. destruct (query_writes s m Hok Hm) as (s' & E & Hw). rewrite Hp in Hw.
  exists s'. split; [exact E|]. split; [exact Hw|]. vm_compute. discriminate.
Qed.

(** While it listens, a query answers VAD_NO_VOICE_DETECTED; the documented
    VAD_VOICE_DETECTED is not defined. *)
Theorem query_of_listening s m :
  vad_ok s -> phase_of s = Listening -> type m = PSA_IPC_OTHER VAD_AN552_QUERY ->
  exists s', run (vad_handler m) s = (Ok PSA_SUCCESS, s') /\
    vad_psa s' = psa_write (handle m) 0 (enc32 VAD_NO_VOICE_DETECTED) (vad_psa s).
Proof.
  intros Hok Hp Hm. destruct (query_writes s m Hok Hm) as (s' & E & Hw). rewrite Hp in Hw. by exists s'.
Qed.

(** C11: The variables stay well-formed under interrupts: a round from a state
    with a status of the four, a full-size buffer and an index within it (below
    its end while recording) ends in such a state; it never writes out of the
    buffer.  The only errors are a loop that hangs, and the panic that the
    code has for a signal other than its own. *)
Theorem vad_well_formed s r s' :
  (forall f xs, length (arm_rfft_q15 f xs).1 = length xs) ->
  vad_ok s -> exec irq_enabled i2s_flih vad_round s r s' ->
  match r with
  | Ok _ => vad_ok s'
  | Err e => e = HANG \/ e = PANIC /\ Z.land (psa_wait (vad_psa s)).1 TFM_AN552_VAD_SIGNAL = 0
  end.
Proof.
  intros Hl Hok H. pose proof (vad_round_served Hl s r s' Hok H) as Hr. destruct r as [[]|e]; [apply Hr|exact Hr].
Qed.

(** C22: The interrupt handler takes the words of the audio interface in
    order, those that arrive while it runs included, until a check finds the
    interface empty: what is left then arrived after that check.  Each sample
    is the low half of its word, and goes to the voice detection while the
    partition listens and to the end of the recording while it records, up to
    its last place.  The handler returns unless words arrive so fast that
    [drain] of them, whatever that number, are taken without a check that finds
    none.  The polls of the timer are enough for its millisecond ([timed]). *)
Theorem flih_records {TL : SystimerLaws (T := W)} {FL : FifoLaws W} s :
  vad_ok s -> timed s ->
  exists r v s' xs, i2s_flih s = (r, s') /\ flow xs s s' /\
    hearing_of v s' = foldl hear (hearing_of 0 s) (s16 <$> xs) /\ vad_ok s' /\
    (r = Ok tt /\ drained xs s s' \/ r = Err HANG /\ length xs = drain).
Proof. exact (flih_loop_hears drain 0 s). Qed.
End Properties.

(** C23: What the I2C driver transmits is received: an observer of the two
    lines who tells start and stop conditions from bits and groups the bits
    after a start into bytes gets the address and then the data, whatever the
    slave acknowledges, and the call returns the number of bytes. *)
Theorem transmit_received {B} {BO : SbconOps B} {LL : LineLaws B} addr data pending (d : i2c_sbcon_dev_t B) acks inc :
  Forall is_u8 data -> free_lines d -> incoming (bus d) = acks ++ inc ->
  length acks = (length (addr_bytes (w8 addr) addr) + length data)%nat ->
  wp (i2c_sbcon_master_transmit addr data (Z.of_nat (length data)) pending) d (fun r d' =>
    r = Ok (Z.of_nat (length data)) /\
    exists es, events (wire (bus d')) = events (wire (bus d)) ++ es /\
      receive es = Some (addr_bytes (w8 addr) addr ++ data)).
Proof.
  intros Hx Hf Hin Hl. eapply wp_mono; [by apply (wp_master_transmit addr data _ pending d acks inc)|].
  intros r d' [-> (H1 & _)]. split; [done|]. eexists. split; [exact H1|]. apply receive_frames.
  - apply Forall_app. split; [|done]. unfold addr_bytes. case_match; repeat constructor; apply w8_range.
  - unfold stop_unless. case_match; auto.
Qed.

(** C24: The initialisation of the audio codec ends, and what it has put on the
    wire is the list of its register writes, in order, with the one read of
    register 50 between them: the two writes that follow it have the byte read
    with bit 7 set and cleared. *)
Theorem codec_init_writes {W} {TO : SystimerOps W} {IO : I2sOps W} {SR : SbconRegs W} {VF : VadFuel}
    {TL : SystimerLaws (T := W)} {BL : BusLaws W} x (h : hardware_state W) acks rest :
  MS_TO_TICK 1 < Z.of_nat polls -> bounded polls (bus h) ->
  scl (wire (bus h)) = true -> sda (wire (bus h)) = true ->
  is_u8 x -> incoming (bus h) = acks ++ bits_of x ++ rest -> length acks = 12%nat -> (36 <= length rest)%nat ->
  exists h', run audio_codec_mps3_init h = (Ok tt, h') /\
    events (wire (bus h')) = events (wire (bus h)) ++
      concat (write_events <$> init_unlock) ++ read_events 50 ++ concat (write_events <$> init_setup x).
Proof.
  intros Hp Hb Hc Ha Hx Hin Hl Hr.
  destruct (codec_init Hp x h acks rest Hb (or_intror (conj Hc Ha)) Hx Hin Hl Hr) as [E (_ & H & _)].
  eexists. split; [|exact H]. rewrite <- E. apply surjective_pairing.
Qed.

(** C25: The microsecond delays are not those asked for: a first [wait_us]
    ends, and leaves the timer set to 32 ticks per microsecond exactly for
    delays up to 134, because the 32-bit product of the conversion wraps around
    above; and a later [wait_us] ends with the delay the timer had, whatever
    its argument. *)
Theorem wait_us_delay {T} {TO : SystimerOps T} {TL : SystimerLaws (T := T)} n us (s : timer_state T) :
  0 <= us <= MAX_DELAY_US -> ticks (systimer s) < Z.of_nat n -> delay_in_tick s < Z.of_nat n -> 4294 < Z.of_nat n ->
  exists s', run (wait_us n us) s = (Ok tt, s') /\ ticks (systimer s') = delay_in_tick s' /\
    (is_initialized (timeout_us s) = true -> delay_in_tick s' = delay_in_tick s) /\
    (is_initialized (timeout_us s) = false -> (delay_in_tick s' = 32 * us <-> us <= 134)).
Proof.
  intros Hus Ht Hd Hn.
  assert (US_TO_TICK us < Z.of_nat n) as Hu.
  { unfold US_TO_TICK. pose proof (w32_range (us * SYSTIMER3_ARMV8M_DEFAULT_FREQ_HZ)) as H.
    Z.to_euclidean_division_equations. unfold is_u32 in H. lia. }
  destruct (wait_ends (fun _ => True) ltac:(done) ltac:(done) ltac:(done) MAX_DELAY_US US_TO_TICK n OF_WAIT_US us s)
    as (s' & E & _ & Hdl & _ & Hts & _); [right; split; [lia|done]|done|done|lia|done|].
  exists s'. split; [exact E|]. split; [exact Hts|]. cbn [timeout_of] in Hdl. split; intros Hi; rewrite Hi in Hdl; [done|].
  rewrite Hdl. by apply US_TO_TICK_exact.
Qed.

(** A start and a query, with an interrupt between them that finds a voice and
    a sample: the query returns that the partition records. *)
Lemma vad_refines_witness :
  let s0 := vad_boot [2000; 5] [] (sample_requests [VAD_AN552_START; VAD_AN552_QUERY]) in
  let s1 := (run vad_round s0).2 in
  let s2 := (i2s_flih s1).2 in
  let s3 := (run vad_round s2).2 in
  vad_rounds s0 s3 /\ phase_of s3 = Recording [5] /\
  exists es, aruns (phase_of s0) es (phase_of s3) /\ traffic (vad_psa s0) es (vad_psa s3).
Proof.
  intros s0 s1 s2 s3.
  assert (vad_rounds s0 s3) as H.
  { eapply rtc_l; [|apply rtc_once].
    - replace (Ok tt) with (run vad_round s0).1 by (vm_compute; reflexivity). apply exec_run.
    - apply (exec_irqs _ _ _ _ s2); [apply rtc_once; split; vm_compute; reflexivity|].
      replace (Ok tt) with (run vad_round s2).1 by (vm_compute; reflexivity). apply exec_run. }
  split; [exact H|]. split; [vm_compute; reflexivity|].
  apply (vad_refines s0 s3); [done|apply vad_boot_ok|exact H].
Defined.

Lemma vad_well_formed_witness :
  let s := vad_boot [] [] (sample_requests [VAD_AN552_STOP]) in vad_ok (run vad_round s).2.
Proof.
  intros s. apply (vad_well_formed s (Ok tt)); [done|apply vad_boot_ok|].
  replace (Ok tt) with (run vad_round s).1 by (vm_compute; reflexivity). apply exec_run.
Defined.

(** A device with two words in the FIFO while two more are to come. *)
Definition busy_device (fifo line : list Z) : device :=
  {| dv_control := 4; dv_fifo := fifo; dv_line := line; dv_arrived := fifo; dv_ticks := 0; dv_wire := idle_wire;
     dv_levels := [] |}.

(** While the partition listens: the words that arrive meanwhile are heard too. *)
Lemma flih_records_witness :
  let s0 := set_status VAD_NO_VOICE_DETECTED (vad_boot [] [] quiet) in
  let s := on_device (set_systimer (busy_device [7; 2000] [5; 65535]) (timer s0)) s0 in
  exists r v s' xs, i2s_flih s = (r, s') /\ flow xs s s' /\
    hearing_of v s' = foldl hear (hearing_of 0 s) (s16 <$> xs) /\
    r = Ok tt /\ drained xs s s' /\ phase_of s' = Recording [5; -1] /\ received s' = [].
Proof.
  intros s0 s. assert (timed s) as Ht by (split; [vm_compute; reflexivity|vm_compute; reflexivity|exact sample_polls]).
  assert (vad_ok s0) as K by (apply ok_status; [apply vad_boot_ok|done|done]).
  destruct (flih_records s) as (r & v & s' & xs & E & Hf & H & _ & Hr); [by destruct K|exact Ht|].
  exists r, v, s', xs. assert ((i2s_flih s).1 = Ok tt) as Hok by (vm_compute; reflexivity).
  assert (phase_of (i2s_flih s).2 = Recording [5; -1] /\ received (i2s_flih s).2 = []) as Hp
    by (split; vm_compute; reflexivity).
  rewrite E in Hok, Hp. cbn [fst snd] in Hok, Hp. split; [exact E|]. split; [exact Hf|]. split; [exact H|].
  destruct Hr as [[H1 H2]|[H1 _]]; [|congruence]. split; [exact H1|]. split; [exact H2|exact Hp].
Defined.

Lemma transmit_received_witness :
  let h := sample_hardware [] (replicate 3 false) in
  wp (i2c_sbcon_master_transmit CHIP_ADDR_WRITE [8; 144] 2 0) h (fun r h' =>
    r = Ok 2 /\ exists es, events (wire (bus h')) = events (wire (bus h)) ++ es /\ receive es = Some [150; 8; 144]).
Proof.
  intros h. change 2 with (Z.of_nat (length [8; 144])).
  change [150; 8; 144] with (addr_bytes (w8 CHIP_ADDR_WRITE) CHIP_ADDR_WRITE ++ [8; 144]).
  apply (transmit_received CHIP_ADDR_WRITE [8; 144] 0 h (replicate 3 false) []); try done.
  - repeat constructor; vm_compute; congruence.
  - split; [|by right]. split; [split; [vm_compute; reflexivity|split; vm_compute; reflexivity]|].
    right. split; [vm_compute; congruence|vm_compute; reflexivity].
Defined.

Lemma codec_init_writes_witness :
  let h := sample_hardware [] (replicate 12 false ++ bits_of 5 ++ replicate 36 false) in
  exists h', run audio_codec_mps3_init h = (Ok tt, h') /\
    events (wire (bus h')) = events (wire (bus h)) ++
      concat (write_events <$> init_unlock) ++ read_events 50 ++ concat (write_events <$> init_setup 5).
Proof.
  intros h. apply (codec_init_writes 5 h (replicate 12 false) (replicate 36 false)); done.
Defined.

Lemma wait_us_delay_witness :
  let t := bus (sample_hardware [] []) in
  exists t', run (wait_us 5000 320) t = (Ok tt, t') /\ delay_in_tick t' <> 32 * 320.
Proof.
  intros t. destruct (wait_us_delay 5000 320 t) as (t' & E & _ & _ & H);
    [vm_compute; split; congruence|vm_compute; reflexivity|vm_compute; reflexivity|vm_compute; reflexivity|].
  exists t'. split; [exact E|]. intros Hd. apply (H eq_refl) in Hd. lia.
Defined.
