(* ===== verification/VadApp.v ===== *)
(** * The application of the voice example (examples/vad_an552/ns_side)

    The task of main_ns.c listens with the voice partition and has each
    frequency published by publish_aws.c, over a connection of its own to the
    broker.  FreeRTOS, the MQTT and OTA libraries and the sockets are not part
    of the program: [TaskOps], [MqttOps]. *)
From Stdlib Require Import ZArith Lia.
From stdpp Require Import base list numbers strings pretty options.
From S2P Require Import Prelude.
From S2P Require Import FlashFsDefs.
From S2P Require Import Interrupts.
From S2P Require Import PsaApi.
From S2P Require Import VadService.

#[local] Set Default Proof Using "Type*".

(** ** The libraries *)

(** Return values of FreeRTOS *)
Definition pdFAIL : Z := 0.
Definition pdPASS : Z := 1.

(** What is passed to the libraries, without fields that stay 0. *)
Record server_info : Type := { hostName : string; hostNameLength : Z; port : Z }.
Record sockets_config : Type := {
  enableTls : bool; disableSni : bool; maxFragmentLength : Z; rootCa : string; rootCaSize : Z; sendTimeoutMs : Z;
  recvTimeoutMs : Z
}.
Record connect_info : Type := {
  cleanSession : bool; clientIdentifier : string; clientIdentifierLength : Z; keepAliveSeconds : Z
}.
Record publish_info : Type := {
  qos : Z; retain : bool; topicName : string; topicNameLength : Z; payload : string; payloadLength : Z
}.

(** Type and identifier of a packet that the library reports to the callback. *)
Record packet : Type := { packet_type : Z; packet_identifier : Z }.

(** Back-off, PKCS #11, secure sockets and coreMQTT.  A call of
    MQTT_ProcessLoop comes with the packets that it reports. *)
Class MqttOps (W : Type) := {
  BackoffAlgorithmSuccess : Z;
  BackoffAlgorithmRetriesExhausted : Z;
  TRANSPORT_SOCKET_STATUS_SUCCESS : Z;
  MQTTSuccess : Z;
  MQTTQoS1 : Z;
  MQTT_PACKET_TYPE_PUBACK : Z;
  MQTT_PACKET_TYPE_SUBACK : Z;
  backoff : Type;
  BackoffAlgorithm_InitializeParams : Z -> Z -> Z -> backoff;
  BackoffAlgorithm_GetNextBackoff : backoff -> Z -> Z * Z * backoff;
  xPkcs11GenerateRandomNumber : W -> Z * Z * W;
  SecureSocketsTransport_Connect : server_info -> sockets_config -> W -> Z * W;
  SecureSocketsTransport_Disconnect : W -> Z * W;
  MQTT_Init : W -> Z * W;
  MQTT_Connect : connect_info -> Z -> W -> Z * W;
  MQTT_GetPacketId : W -> Z * W;
  MQTT_Publish : publish_info -> Z -> W -> Z * W;
  MQTT_ProcessLoop : Z -> W -> Z * list packet * W;
  MQTT_Disconnect : W -> Z * W
}.

(** FreeRTOS and the OTA agent; [xTaskGetHandle]: whether the thread of the
    agent is there. *)
Class TaskOps (W : Type) := {
  OtaAgentStateInit : Z;
  OtaAgentStateReady : Z;
  OtaAgentStateStopped : Z;
  OtaAgentStateRequestingJob : Z;
  OtaAgentStateWaitingForJob : Z;
  vTaskDelay : Z -> W -> W;
  xTaskGetTickCount : W -> Z * W;
  DEMO_RUNNER_RunDemos : W -> W;
  OTA_GetState : W -> Z * W;
  OTA_Shutdown : Z -> Z -> W -> W;
  xTaskGetHandle_iot_thread : W -> bool * W
}.

(** aws_clientcredential.h, to be filled in, and the certificate of the
    authority (iot_default_root_certificates.h) *)
Class Credentials := {
  clientcredentialMQTT_BROKER_ENDPOINT : string;
  clientcredentialIOT_THING_NAME : string;
  tlsATS1_ROOT_CERTIFICATE_PEM : string
}.

(** FreeRTOSConfig.h, aws_clientcredential.h, publish_aws.c *)
Definition configTICK_RATE_HZ : Z := 1000.
Definition clientcredentialMQTT_BROKER_PORT : Z := 8883.
Definition RETRY_MAX_ATTEMPTS : Z := 5.
Definition RETRY_MAX_BACKOFF_DELAY_MS : Z := 5000.
Definition RETRY_BACKOFF_BASE_MS : Z := 500.
Definition mqttexampleCONNACK_RECV_TIMEOUT_MS : Z := 1000.
Definition mqttexamplePROCESS_LOOP_TIMEOUT_MS : Z := 700.
Definition MQTT_PROCESS_LOOP_PACKET_WAIT_COUNT_MAX : Z := 30.
Definition mqttexampleKEEP_ALIVE_TIMEOUT_SECONDS : Z := 60.
Definition mqttexampleTRANSPORT_SEND_RECV_TIMEOUT_MS : Z := 500.
Definition MILLISECONDS_PER_SECOND : Z := 1000.
Definition MILLISECONDS_PER_TICK : Z := MILLISECONDS_PER_SECOND / configTICK_RATE_HZ.
Definition mqttexampleTOPIC {CR : Credentials} : string := clientcredentialIOT_THING_NAME +:+ "/vad_an552".

Definition pdMS_TO_TICKS (ms : Z) : Z := mul32 ms configTICK_RATE_HZ / 1000.

(** ** publish_aws.c *)

(** The static variables, and the world. *)
Record app_state (W : Type) : Type := {
  usPublishPacketIdentifier : Z;
  usPacketTypeReceived : Z;
  ulGlobalEntryTimeMs : Z;
  world : W
}.
Arguments usPublishPacketIdentifier {W} _.
Arguments usPacketTypeReceived {W} _.
Arguments ulGlobalEntryTimeMs {W} _.
Arguments world {W} _.

Definition strlen (s : string) : Z := Z.of_nat (String.length s).

Section Publish.
Context {W : Type} {MO : MqttOps W} {TO : TaskOps W} {CR : Credentials}.
Abbreviation APP := (ST (app_state W)).

Definition set_world (w : W) (s : app_state W) : app_state W :=
  {| usPublishPacketIdentifier := usPublishPacketIdentifier s; usPacketTypeReceived := usPacketTypeReceived s;
     ulGlobalEntryTimeMs := ulGlobalEntryTimeMs s; world := w |}.
Definition set_packet_id (i : Z) (s : app_state W) : app_state W :=
  {| usPublishPacketIdentifier := i; usPacketTypeReceived := usPacketTypeReceived s;
     ulGlobalEntryTimeMs := ulGlobalEntryTimeMs s; world := world s |}.
Definition set_packet_type (t : Z) (s : app_state W) : app_state W :=
  {| usPublishPacketIdentifier := usPublishPacketIdentifier s; usPacketTypeReceived := t;
     ulGlobalEntryTimeMs := ulGlobalEntryTimeMs s; world := world s |}.

Definition asks {A} (f : W -> A * W) : APP A := fun s =>
  let '(a, w) := f (world s) in (Ok a, set_world w s).
Definition does (f : W -> W) : APP unit := modify (fun s => set_world (f (world s)) s).

(** FreeRTOSConfig.h has no configASSERT, and that of FreeRTOS.h is empty. *)
Definition configASSERT (b : bool) : APP unit := mret tt.

Definition prvGetTimeMs : APP Z :=
  xTickCount ← asks xTaskGetTickCount;
  s ← get;
  mret (sub32 (mul32 xTickCount MILLISECONDS_PER_TICK) (ulGlobalEntryTimeMs s)).

Definition prvEventCallback (p : packet) : APP unit :=
  if packet_type p =? MQTT_PACKET_TYPE_PUBACK then
    s ← get;
    configASSERT (usPublishPacketIdentifier s =? packet_identifier p);;
    modify (set_packet_type MQTT_PACKET_TYPE_SUBACK)
  else mret tt.

Fixpoint report (ps : list packet) : APP unit :=
  match ps with [] => mret tt | p :: ps => prvEventCallback p;; report ps end.

(** The loop, with the rounds that ucCount leaves. *)
Fixpoint wait_rounds (n : nat) (usPacketType xMQTTStatus : Z) : APP Z :=
  s ← get;
  if negb (usPacketTypeReceived s =? usPacketType) then
    match n with
    | O => mret xMQTTStatus
    | S n =>
        if xMQTTStatus =? MQTTSuccess then
          '(status, packets) ← asks (MQTT_ProcessLoop mqttexamplePROCESS_LOOP_TIMEOUT_MS);
          report packets;;
          wait_rounds n usPacketType status
        else mret xMQTTStatus
    end
  else mret xMQTTStatus.

Definition prvWaitForPacket (usPacketType : Z) : APP Z :=
  modify (set_packet_type 0);;
  wait_rounds (Z.to_nat MQTT_PROCESS_LOOP_PACKET_WAIT_COUNT_MAX) usPacketType MQTTSuccess.

Definition publication (msg : string) : publish_info :=
  {| qos := MQTTQoS1; retain := false; topicName := mqttexampleTOPIC; topicNameLength := w16 (strlen mqttexampleTOPIC);
     payload := msg; payloadLength := strlen msg |}.

Definition prvMQTTPublishToTopic (msg : string) : APP Z :=
  i ← asks MQTT_GetPacketId;
  modify (set_packet_id i);;
  xResult ← asks (MQTT_Publish (publication msg) i);
  prvWaitForPacket MQTT_PACKET_TYPE_SUBACK;;
  mret (if negb (xResult =? MQTTSuccess) then pdFAIL else pdPASS).

Definition connection : connect_info :=
  {| cleanSession := true; clientIdentifier := clientcredentialIOT_THING_NAME;
     clientIdentifierLength := w16 (strlen clientcredentialIOT_THING_NAME);
     keepAliveSeconds := mqttexampleKEEP_ALIVE_TIMEOUT_SECONDS |}.

Definition prvCreateMQTTConnectionWithBroker : APP Z :=
  xResult ← asks MQTT_Init;
  configASSERT (xResult =? MQTTSuccess);;
  xResult ← asks (MQTT_Connect connection mqttexampleCONNACK_RECV_TIMEOUT_MS);
  mret (if negb (xResult =? MQTTSuccess) then pdFAIL else pdPASS).

Definition prvBackoffForRetry (pxRetryParams : backoff) : APP (Z * backoff) :=
  '(status, ulRandomNum) ← asks xPkcs11GenerateRandomNumber;
  if status =? pdPASS then
    let '(xBackoffAlgStatus, usNextRetryBackOff, pxRetryParams) :=
      BackoffAlgorithm_GetNextBackoff pxRetryParams ulRandomNum in
    if xBackoffAlgStatus =? BackoffAlgorithmRetriesExhausted then mret (pdFAIL, pxRetryParams)
    else if xBackoffAlgStatus =? BackoffAlgorithmSuccess then
      does (vTaskDelay (pdMS_TO_TICKS usNextRetryBackOff));;
      mret (pdPASS, pxRetryParams)
    else mret (pdFAIL, pxRetryParams)
  else mret (pdFAIL, pxRetryParams).

Definition xServerInfo : server_info :=
  {| hostName := clientcredentialMQTT_BROKER_ENDPOINT; hostNameLength := strlen clientcredentialMQTT_BROKER_ENDPOINT;
     port := clientcredentialMQTT_BROKER_PORT |}.
(** The size of the certificate counts its zero byte. *)
Definition xSocketsConfig : sockets_config :=
  {| enableTls := true; disableSni := false; maxFragmentLength := 0; rootCa := tlsATS1_ROOT_CERTIFICATE_PEM;
     rootCaSize := strlen tlsATS1_ROOT_CERTIFICATE_PEM + 1; sendTimeoutMs := mqttexampleTRANSPORT_SEND_RECV_TIMEOUT_MS;
     recvTimeoutMs := mqttexampleTRANSPORT_SEND_RECV_TIMEOUT_MS |}.

(** The attempts, at most [fuel] of them. *)
Fixpoint connect_loop (fuel : nat) (xReconnectParams : backoff) : APP Z :=
  match fuel with
  | O => raise UNDEFINED
  | S fuel =>
      xNetworkStatus ← asks (SecureSocketsTransport_Connect xServerInfo xSocketsConfig);
      if negb (xNetworkStatus =? TRANSPORT_SOCKET_STATUS_SUCCESS) then
        '(xBackoffStatus, xReconnectParams) ← prvBackoffForRetry xReconnectParams;
        if xBackoffStatus =? pdPASS then connect_loop fuel xReconnectParams else mret pdFAIL
      else mret pdPASS
  end.

Definition prvConnectToServerWithBackoffRetries (fuel : nat) : APP Z :=
  connect_loop fuel (BackoffAlgorithm_InitializeParams RETRY_BACKOFF_BASE_MS RETRY_MAX_BACKOFF_DELAY_MS RETRY_MAX_ATTEMPTS).

Definition publishToAWSTopic (fuel : nat) (msg : string) : APP unit :=
  xStatus ← prvConnectToServerWithBackoffRetries fuel;
  if xStatus =? pdPASS then
    xStatus ← prvCreateMQTTConnectionWithBroker;
    (if xStatus =? pdPASS then
       prvMQTTPublishToTopic msg;;
       asks MQTT_Disconnect;;
       mret tt
     else mret tt);;
    asks SecureSocketsTransport_Disconnect;;
    mret tt
  else mret tt.
End Publish.

(** ** main_ns.c *)

Section Main.
Context {W : Type} {MO : MqttOps W} {TO : TaskOps W} {CR : Credentials} {PC : PsaCalls W} {VH : VadHandle}.
Context (tries : nat).
Abbreviation APP := (ST (app_state W)).

(** A call of the partition's client library. *)
Definition on_vad {A} (m : ST W A) : APP A := fun s =>
  let '(r, w) := m (world s) in (r, set_world w s).

(** A local variable of 32 bits after [bs] were written to it; its value, if
    all of it has been written. *)
Definition assign (bs old : list Z) : list Z := bs ++ drop (length bs) old.
Definition value_of (x : list Z) : APP Z := if (length x =? 4)%nat then mret (dec32 x 0) else raise UNDEFINED.

(** [%d] of an unsigned number *)
Definition as_int (x : Z) : Z := if x <? 2147483648 then x else x - 4294967296.
Definition message (vad_freq : Z) : string :=
  "Voice detected with most energy at " +:+ pretty (as_int vad_freq) +:+ " Hz".

Definition LISTENING_TICKS : Z := pdMS_TO_TICKS 60000.

(** The variables [vad_status] and [vad_freq] of the task, which keep what an
    earlier round wrote to them. *)
Definition task_vars : Type := list Z * list Z.

(** [if ((curr_tick - base_tick) > pdMS_TO_TICKS(60000)) { vad_an552_stop_vad(); break; }] *)
Definition stop_or (base_tick : Z) (vars : task_vars) (k : APP task_vars) : APP task_vars :=
  curr_tick ← asks xTaskGetTickCount;
  if sub32 curr_tick base_tick >? LISTENING_TICKS then
    on_vad vad_an552_stop_vad;;
    mret vars
  else k.

(** The inner loop. *)
Fixpoint listen_loop (fuel : nat) (base_tick : Z) (vars : task_vars) : APP task_vars :=
  match fuel with
  | O => raise UNDEFINED
  | S fuel =>
      let '(vad_status, vad_freq) := vars in
      '(_, out) ← on_vad vad_an552_query_vad;
      let vad_status := assign out vad_status in
      st ← value_of vad_status;
      if st =? VAD_VOICE_RECORDED then
        '(_, out) ← on_vad vad_an552_get_freq;
        let vad_freq := assign out vad_freq in
        f ← value_of vad_freq;
        publishToAWSTopic tries (message f);;
        stop_or base_tick (vad_status, vad_freq) (
          on_vad vad_an552_start_vad;;
          stop_or base_tick (vad_status, vad_freq) (listen_loop fuel base_tick (vad_status, vad_freq)))
      else stop_or base_tick (vad_status, vad_freq) (listen_loop fuel base_tick (vad_status, vad_freq))
  end.

(** From the reading of [base_tick] to the end of the inner loop. *)
Definition listen (fuel : nat) (vars : task_vars) : APP task_vars :=
  base_tick ← asks xTaskGetTickCount;
  on_vad vad_an552_start_vad;;
  listen_loop fuel base_tick vars.

(** The loops that wait for the OTA agent. *)
Fixpoint ota_started (fuel : nat) : APP unit :=
  match fuel with
  | O => raise HANG
  | S fuel =>
      does (vTaskDelay (pdMS_TO_TICKS 10));;
      ota_state ← asks OTA_GetState;
      if (ota_state =? OtaAgentStateInit) || (ota_state =? OtaAgentStateReady) || (ota_state =? OtaAgentStateStopped)
         || (ota_state =? OtaAgentStateRequestingJob)
      then ota_started fuel else mret tt
  end.

Fixpoint ota_ended (fuel : nat) : APP unit :=
  handle ← asks xTaskGetHandle_iot_thread;
  if (handle : bool) then
    match fuel with
    | O => raise HANG
    | S fuel => does (vTaskDelay (pdMS_TO_TICKS 100));; ota_ended fuel
    end
  else mret tt.

(** A round of the outer loop; after an OTA job has been found it does nothing
    more. *)
Definition main_round (waits fuel : nat) (vars : task_vars) : APP task_vars :=
  does DEMO_RUNNER_RunDemos;;
  ota_started waits;;
  does (vTaskDelay (pdMS_TO_TICKS 5000));;
  ota_state ← asks OTA_GetState;
  if OtaAgentStateWaitingForJob =? ota_state then
    does (OTA_Shutdown 0 1);;
    ota_ended waits;;
    listen fuel vars
  else raise HANG.

Fixpoint task_rounds (rounds waits fuel : nat) (vars : task_vars) : APP task_vars :=
  match rounds with
  | O => mret vars
  | S rounds =>
      vars ← main_round waits fuel vars;
      task_rounds rounds waits fuel vars
  end.

(** Nothing has been written to the variables when the task starts. *)
Definition mainTask (rounds waits fuel : nat) : APP task_vars := task_rounds rounds waits fuel ([], []).
End Main.

(** ** The start (main_ns.c, ota_provision.c) *)

Record key_attributes : Type := {
  key_usage : Z; key_algorithm : Z; key_type : Z; key_bits : Z; key_lifetime : Z; key_id : Z
}.

(** Internal storage, crypto, provisioning, the heap and the network.
    [psa_its_get] returns what it read, [convert_pem_to_der] the converted
    bytes, [psa_import_key] the handle. *)
Class StartOps (W : Type) := {
  PSA_STORAGE_FLAG_NONE : Z;
  PSA_KEY_USAGE_VERIFY_HASH : Z;
  PSA_ALG_RSA_PSS_ANY_SALT_SHA_256 : Z;
  PSA_KEY_TYPE_RSA_PUBLIC_KEY : Z;
  PSA_KEY_LIFETIME_PERSISTENT : Z;
  psa_its_get : Z -> Z -> Z -> W -> Z * list Z * W;
  psa_its_set : Z -> list Z -> Z -> W -> Z * W;
  vDevModeKeyProvisioning : W -> W;
  convert_pem_to_der : list string -> Z -> Z -> Z * list Z;
  psa_import_key : key_attributes -> list Z -> Z -> W -> Z * Z * W;
  psa_generate_random : Z -> W -> Z * list Z * W;
  pvPortMalloc : Z -> W -> option Z * W;
  memset : Z -> Z -> Z -> W -> W;
  tfm_ns_interface_init : W -> W;
  GetImageVersionPSA : W -> W;
  mbedtls_platform_set_calloc_free : W -> W;
  vApplicationIPInit : W -> W;
  xTaskCreate_mainTask : W -> W;
  vTaskStartScheduler : W -> W
}.

Definition FIRST_BOOT_ITS_UID : Z := 1.
Definition BOOT_PATTERN : Z := 0x55.

(** The lines of the key; each ends in a new line. *)
Definition cOTARSAPublicKey : list string :=
  ["-----BEGIN PUBLIC KEY-----";
   "MIIBIjANBgkqhkiG9w0BAQEFAAOCAQ8AMIIBCgKCAQEA0QYIGhhELBjo+/33DaNP";
   "H7vuXvmq0ksY01rpbRiAGfnwnDQby/O8dNtC54x/EFN+Q14NVyxE0WcIDw27XO7s";
   "s5nf4E2EC6p3QWDtFShJpwG0PBDmaYwvX6xBTZ5cFN/y+M89Hm/nW7q0qciIfkc8";
   "lMN3Z1RLqo04NcpiYX634RXbd3PUvntyIYlpJPv4ZW5kPsgO14XVXErkUw0v/7f9";
   "8xM5gz+jrtIPp2qd+f64zvoqvq+44PqCN1T0PuEr0NMIWBj2XkzIiIExrV+wghfy";
   "imknI/Orhz6TGh3+6PgaJGZZ+Byr3M5oG2ZkNez6DRGdr1w6p9FnxkfvsUssYuHR";
   "yQIDAQAB";
   "-----END PUBLIC KEY-----"].

(** The size of the array, with its zero byte. *)
Definition size_of_lines (l : list string) : Z := foldr (fun s n => strlen s + 1 + n) 1 l.

(** The handle of the key, and the world. *)
Record start_state (W : Type) : Type := { xOTACodeVerifyKeyHandle : Z; machine : W }.
Arguments xOTACodeVerifyKeyHandle {W} _.
Arguments machine {W} _.

Section Start.
Context {W : Type} {SO : StartOps W}.
Abbreviation START := (ST (start_state W)).

Definition set_machine (w : W) (s : start_state W) : start_state W :=
  {| xOTACodeVerifyKeyHandle := xOTACodeVerifyKeyHandle s; machine := w |}.
Definition set_key_handle (h : Z) (s : start_state W) : start_state W :=
  {| xOTACodeVerifyKeyHandle := h; machine := machine s |}.
Definition machine_call {A} (f : W -> A * W) : START A := fun s =>
  let '(a, w) := f (machine s) in (Ok a, set_machine w s).
Definition machine_does (f : W -> W) : START unit := modify (fun s => set_machine (f (machine s)) s).

Definition is_first_boot : START bool :=
  '(status, data) ← machine_call (psa_its_get FIRST_BOOT_ITS_UID 0 1);
  let boot_pattern_in_its := default 0 (data !! 0%nat) in
  if negb (status =? PSA_SUCCESS) then mret true
  else if boot_pattern_in_its =? BOOT_PATTERN then mret false
  else mret true.

Definition write_boot_pattern : START unit :=
  machine_call (psa_its_set FIRST_BOOT_ITS_UID [BOOT_PATTERN] PSA_STORAGE_FLAG_NONE);;
  mret tt.

Definition ota_privision_code_signing_key : START Z :=
  let '(result, public_key_der) := convert_pem_to_der cOTARSAPublicKey (size_of_lines cOTARSAPublicKey) 310 in
  if negb (result =? 0) then mret result
  else
    s ← get;
    '(status, h) ← machine_call (psa_import_key {|
      key_usage := PSA_KEY_USAGE_VERIFY_HASH; key_algorithm := PSA_ALG_RSA_PSS_ANY_SALT_SHA_256;
      key_type := PSA_KEY_TYPE_RSA_PUBLIC_KEY; key_bits := 2048; key_lifetime := PSA_KEY_LIFETIME_PERSISTENT;
      key_id := xOTACodeVerifyKeyHandle s |} public_key_der (xOTACodeVerifyKeyHandle s));
    modify (set_key_handle h);;
    mret status.

(** main, after the set-up of the log and up to the scheduler; the network's
    event starts the task. *)
Definition main : START unit :=
  machine_does tfm_ns_interface_init;;
  machine_does GetImageVersionPSA;;
  machine_does mbedtls_platform_set_calloc_free;;
  first ← is_first_boot;
  (if (first : bool) then
     machine_does vDevModeKeyProvisioning;;
     ota_privision_code_signing_key;;
     write_boot_pattern
   else mret tt);;
  machine_does vApplicationIPInit;;
  machine_does vTaskStartScheduler.

Definition vApplicationIPNetworkEventHook (eNetworkUp : bool) : START unit :=
  if eNetworkUp then machine_does xTaskCreate_mainTask else mret tt.

(** The product of the sizes has 32 bits. *)
Definition prvCalloc (xNmemb xSize : Z) : START (option Z) :=
  pvNew ← machine_call (pvPortMalloc (mul32 xNmemb xSize));
  match pvNew with
  | Some a => machine_does (memset a 0 (mul32 xNmemb xSize));; mret pvNew
  | None => mret pvNew
  end.

(** The result and, if it is 0, the bytes; whether the pointers are null. *)
Definition mbedtls_hardware_poll (output_null olen_null : bool) (n : Z) : START (Z * list Z) :=
  if output_null || olen_null then mret (-1, [])
  else
    '(status, bytes) ← machine_call (psa_generate_random n);
    if negb (status =? PSA_SUCCESS) then mret (-1, []) else mret (0, bytes).
End Start.
