(* ===== verification/VadAppTheorems.v ===== *)
(** * The application of the voice example: what it does

    [AppLaws] records the calls of the application and says how the partition
    answers, as VadTheorems.v has it.  Then: the calls of a publication, the
    listening task under the partition's phases and the clock, the properties,
    and a concrete room, network and broker. *)
From Stdlib Require Import ZArith Lia.
From stdpp Require Import base list numbers strings pretty relations options.
From S2P Require Import Prelude.
From S2P Require Import FlashFsDefs.
From S2P Require Import Interrupts.
From S2P Require Import PsaApi.
From S2P Require Import VadService.
From S2P Require Import VadSpec.
From S2P Require Import VadApp.

#[local] Set Default Proof Using "Type*".

(** ** What is relied on *)

(** A call, with what its result or its arguments say. *)
Inductive app_event : Type :=
| EvRandom (ok : bool)
| EvDelay (ticks : Z)
| EvConnect (i : server_info) (c : sockets_config) (ok : bool)
| EvDisconnect
| EvMqttInit
| EvMqttConnect (i : connect_info) (ok : bool)
| EvPacketId
| EvPublish (i : publish_info) (id : Z)
| EvProcess (ps : list packet) (ok : bool)
| EvMqttDisconnect
| EvTick
| EvOta
| EvVad (n : Z) (a : vad_phase).

(** What the phase of the voice partition may do during a call. *)
Definition moves {DO : DspOps} (e : app_event) (a a' : vad_phase) : Prop :=
  match e with
  | EvVad n a1 => exists a2, hears a a1 /\ (answer (PSA_IPC_OTHER n) a1).2 = a2 /\ hears a2 a'
  | _ => hears a a'
  end.

(** The calls so far; a clock finer than the ticks, of which no call takes
    more than [slowest]; the phase of the voice partition, whose requests are
    answered as [VadTheorems.vad_refines] says, the phase being the one given
    with [EvVad].  A back-off has a longest wait and a number of attempts
    left. *)
Class AppLaws (W : Type) {MO : MqttOps W} {TO : TaskOps W} {PC : PsaCalls W} {VH : VadHandle} {DO : DspOps} := {
  events : W -> list app_event;
  clock : W -> Z;
  cycles_per_tick : Z;
  slowest : Z;
  phase : W -> vad_phase;
  budget : backoff -> Z * Z;
  took (e : app_event) (w w' : W) : Prop :=
    events w' = events w ++ [e] /\ clock w <= clock w' <= clock w + slowest /\ moves e (phase w) (phase w');
  al_rate : 0 < cycles_per_tick;
  al_backoff : BackoffAlgorithmSuccess <> BackoffAlgorithmRetriesExhausted;
  al_suback : MQTT_PACKET_TYPE_SUBACK <> 0;
  al_initialize : forall b m n, budget (BackoffAlgorithm_InitializeParams b m n) = (m, n);
  al_next : forall c r, let '(st, ms, c') := BackoffAlgorithm_GetNextBackoff c r in
    if (budget c).2 =? 0 then st = BackoffAlgorithmRetriesExhausted
    else st = BackoffAlgorithmSuccess /\ (0 <= (budget c).1 -> 0 <= ms <= (budget c).1) /\ budget c' = ((budget c).1, (budget c).2 - 1);
  al_random : forall w, let r := xPkcs11GenerateRandomNumber w in took (EvRandom (r.1.1 =? pdPASS)) w r.2;
  al_delay : forall n w, took (EvDelay n) w (vTaskDelay n w);
  al_connect : forall i c w, let r := SecureSocketsTransport_Connect i c w in
    took (EvConnect i c (r.1 =? TRANSPORT_SOCKET_STATUS_SUCCESS)) w r.2;
  al_disconnect : forall w, took EvDisconnect w (SecureSocketsTransport_Disconnect w).2;
  al_mqtt_init : forall w, took EvMqttInit w (MQTT_Init w).2;
  al_mqtt_connect : forall i t w, let r := MQTT_Connect i t w in took (EvMqttConnect i (r.1 =? MQTTSuccess)) w r.2;
  al_packet_id : forall w, took EvPacketId w (MQTT_GetPacketId w).2;
  al_publish : forall i id w, took (EvPublish i id) w (MQTT_Publish i id w).2;
  al_process : forall t w, let r := MQTT_ProcessLoop t w in took (EvProcess r.1.2 (r.1.1 =? MQTTSuccess)) w r.2;
  al_mqtt_disconnect : forall w, took EvMqttDisconnect w (MQTT_Disconnect w).2;
  al_tick : forall w, let r := xTaskGetTickCount w in
    took EvTick w r.2 /\ clock w < clock r.2 /\ r.1 = w32 (clock w / cycles_per_tick);
  al_demos : forall w, took EvOta w (DEMO_RUNNER_RunDemos w);
  al_ota_state : forall w, took EvOta w (OTA_GetState w).2;
  al_ota_shutdown : forall a b w, took EvOta w (OTA_Shutdown a b w);
  al_handle : forall w, took EvOta w (xTaskGetHandle_iot_thread w).2;
  al_vad : forall n sizes w, let r := psa_call TFM_AN552_VAD_HANDLE n [] sizes w in
    exists a, took (EvVad n a) w r.2 /\ r.1.1 = (answer (PSA_IPC_OTHER n) a).1.1 /\
      (sizes = [4] -> r.1.2 = [(answer (PSA_IPC_OTHER n) a).1.2])
}.

Section Traces.
Context {W : Type} {MO : MqttOps W} {TO : TaskOps W} {CR : Credentials} {PC : PsaCalls W} {VH : VadHandle} {DO : DspOps}.
Context {AL : AppLaws W}.
Implicit Types (s : app_state W) (es : list app_event).

(** The phases on the way. *)
Fixpoint path (a : vad_phase) es (a' : vad_phase) : Prop :=
  match es with
  | [] => a = a'
  | e :: es => exists a1, moves e a a1 /\ path a1 es a'
  end.

Lemma path_app a es a1 es' a' : path a es a1 -> path a1 es' a' -> path a (es ++ es') a'.
Proof. revert a. induction es as [|e es IH]; intros a; [by intros ->|]. intros (b & H & H1) H2. exists b. auto. Qed.

(** A run with these calls. *)
Definition ran es (w w' : W) : Prop :=
  events w' = events w ++ es /\ clock w <= clock w' <= clock w + slowest * Z.of_nat (length es) /\
  path (phase w) es (phase w').

Lemma ran_nil w : ran [] w w.
Proof. unfold ran. rewrite app_nil_r. split_and!; cbn; try done; lia. Qed.
Lemma ran_one e w w' : took e w w' -> ran [e] w w'.
Proof. intros (H1 & H2 & H3). split; [done|]. cbn. split; [lia|by exists (phase w')]. Qed.
Lemma ran_app es es' w w1 w' : ran es w w1 -> ran es' w1 w' -> ran (es ++ es') w w'.
Proof.
  intros (H1 & H2 & H3) (H4 & H5 & H6). split; [by rewrite H4, H1, app_assoc|]. split; [rewrite length_app; lia|].
  by eapply path_app.
Qed.

(** A computation from [s] whose calls, result and final state satisfy [P]. *)
Definition traces {A} (m : ST (app_state W) A) s (P : outcome A -> list app_event -> app_state W -> Prop) : Prop :=
  wp m s (fun r s' => exists es, ran es (world s) (world s') /\ P r es s').

Lemma traces_ret {A} (a : A) s (P : outcome A -> list app_event -> app_state W -> Prop) : P (Ok a) [] s -> traces (mret a) s P.
Proof. intros H. apply wp_ret. exists []. split; [apply ran_nil|done]. Qed.

Lemma traces_mono {A} (m : ST (app_state W) A) s (P Q : outcome A -> list app_event -> app_state W -> Prop) :
  traces m s P -> (forall r es s', P r es s' -> Q r es s') -> traces m s Q.
Proof. intros (es & H1 & H2) HPQ. exists es. auto. Qed.

Lemma traces_bind {A B} (m : ST (app_state W) A) (k : A -> ST (app_state W) B) s P :
  traces m s (fun r es s1 => match r with
    | Ok a => traces (k a) s1 (fun r' es' => P r' (es ++ es'))
    | Err e => P (Err e) es s1 end) -> traces (m ≫= k) s P.
Proof.
  unfold traces, wp, mbind, ST_bind. destruct (m s) as [[a|e] s1]; [|done]. cbn [fst snd].
  intros (es & H1 & es' & H2 & H). exists (es ++ es'). split; [by eapply ran_app|done].
Qed.

Lemma traces_asks {A B} (f : W -> A * W) (k : A -> ST (app_state W) B) s e P : took e (world s) (f (world s)).2 ->
  traces (k (f (world s)).1) (set_world (f (world s)).2 s) (fun r es => P r (e :: es)) -> traces (asks f ≫= k) s P.
Proof.
  unfold traces, wp, mbind, ST_bind, asks. destruct (f (world s)) as [a w]. cbn. intros He (es & H1 & H2). exists (e :: es). split; [|done].
  apply (ran_app [e] es _ w); [by apply ran_one|exact H1].
Qed.

Lemma traces_does {B} (f : W -> W) (k : unit -> ST (app_state W) B) s e P : took e (world s) (f (world s)) ->
  traces (k tt) (set_world (f (world s)) s) (fun r es => P r (e :: es)) -> traces (does f ≫= k) s P.
Proof. intros He H. exact (traces_asks (fun w => (tt, f w)) k s e P He H). Qed.

Lemma traces_modify {B} (f : app_state W -> app_state W) (k : unit -> ST (app_state W) B) s P : world (f s) = world s ->
  traces (k tt) (f s) P -> traces (modify f ≫= k) s P.
Proof. intros Hf H. unfold traces in *. rewrite Hf in H. by apply wp_bind, wp_modify. Qed.

Lemma traces_get {B} (k : app_state W -> ST (app_state W) B) s P : traces (k s) s P -> traces (get ≫= k) s P.
Proof. intros H. by apply wp_bind. Qed.
(** ** Publishing *)

(** An attempt that failed, before another one. *)
Definition connect_attempt (ok : bool) : app_event := EvConnect xServerInfo xSocketsConfig ok.
Definition retried (ds : list Z) : list app_event := concat ((fun d => [connect_attempt false; EvRandom true; EvDelay d]) <$> ds).

Definition acknowledges (ps : list packet) : bool := existsb (fun p => packet_type p =? MQTT_PACKET_TYPE_PUBACK) ps.

(** Waiting for the acknowledgement, at most [n] rounds. *)
Inductive waits : nat -> list app_event -> Prop :=
| waits_over : waits 0 []
| waits_end n ps ok : acknowledges ps = true \/ ok = false -> waits (S n) [EvProcess ps ok]
| waits_on n ps es : acknowledges ps = false -> waits n es -> waits (S n) (EvProcess ps true :: es).

(** A session with the broker. *)
Inductive mqtt_session (msg : string) : list app_event -> Prop :=
| session_refused : mqtt_session msg [EvMqttInit; EvMqttConnect connection false]
| session_published id ws : waits 30 ws ->
    mqtt_session msg ([EvMqttInit; EvMqttConnect connection true; EvPacketId; EvPublish (publication msg) id] ++
                      ws ++ [EvMqttDisconnect]).

(** Publishing a message: up to five failed attempts with delays up to five
    seconds; then one more fails and there is no random number or no attempt
    left, or one succeeds and there is a session and the end of the
    connection. *)
Inductive publishes (msg : string) : list app_event -> Prop :=
| publishes_not ds ok : (length ds <= 5)%nat -> Forall (fun d => 0 <= d <= 5000) ds -> (ok = true -> length ds = 5%nat) ->
    publishes msg (retried ds ++ [connect_attempt false; EvRandom ok])
| publishes_session ds ses : (length ds <= 5)%nat -> Forall (fun d => 0 <= d <= 5000) ds -> mqtt_session msg ses ->
    publishes msg (retried ds ++ [connect_attempt true] ++ ses ++ [EvDisconnect]).

Lemma ticks_of_ms ms : 0 <= ms <= 5000 -> pdMS_TO_TICKS ms = ms.
Proof.
  intros H. unfold pdMS_TO_TICKS, configTICK_RATE_HZ, mul32. rewrite w32_small by lia. by apply Z.div_mul.
Qed.

Lemma traces_report ps : forall s, traces (report ps) s (fun r es s' => r = Ok tt /\ es = [] /\
  usPacketTypeReceived s' = if acknowledges ps then MQTT_PACKET_TYPE_SUBACK else usPacketTypeReceived s).
Proof.
  induction ps as [|p ps IH]; intros s; cbn [report]; [by apply traces_ret|]. apply traces_bind. unfold prvEventCallback.
  change (acknowledges (p :: ps)) with ((packet_type p =? MQTT_PACKET_TYPE_PUBACK) || acknowledges ps).
  destruct (packet_type p =? MQTT_PACKET_TYPE_PUBACK); cbn [orb].
  - apply traces_get. unfold configASSERT. apply traces_bind, traces_ret. exists []. split; [apply ran_nil|].
    eapply traces_mono; [apply IH|]. intros r es s' (-> & -> & ->). split_and!; [done..|]. by destruct (acknowledges ps).
  - apply traces_ret. eapply traces_mono; [apply IH|]. by intros r es s' (-> & -> & ->).
Qed.

Lemma traces_wait n : forall st s, usPacketTypeReceived s <> MQTT_PACKET_TYPE_SUBACK ->
  traces (wait_rounds n MQTT_PACKET_TYPE_SUBACK st) s (fun r es _ => (exists st', r = Ok st') /\
    if st =? MQTTSuccess then waits n es else es = []).
Proof.
  induction n as [|n IH]; intros st s Hs; cbn [wait_rounds]; apply traces_get.
  - rewrite (proj2 (Z.eqb_neq _ _) Hs). apply traces_ret. split; [by eexists|]. destruct (st =? MQTTSuccess); [constructor|done].
  - rewrite (proj2 (Z.eqb_neq _ _) Hs). cbn [negb]. destruct (st =? MQTTSuccess); [|apply traces_ret; split; [by eexists|done]].
    eapply traces_asks; [apply al_process|]. destruct (MQTT_ProcessLoop _ _) as [[status ps] w]. cbn [fst snd].
    apply traces_bind. eapply traces_mono; [apply traces_report|]. intros r es s1 (-> & -> & Ht). cbn [app].
    destruct (acknowledges ps) eqn:Ea.
    + assert (forall st, wait_rounds n MQTT_PACKET_TYPE_SUBACK st s1 = (Ok st, s1)) as E.
      { intros st'. destruct n; cbn [wait_rounds]; unfold get, mbind, ST_bind; by rewrite Ht, Z.eqb_refl. }
      unfold traces, wp. rewrite E. exists []. split; [apply ran_nil|]. split; [by eexists|]. apply waits_end. by left.
    + eapply traces_mono; [apply IH; by rewrite Ht|]. intros r es s' [Hr Hw]. split; [exact Hr|].
      destruct (status =? MQTTSuccess); [by apply waits_on|]. subst es. apply waits_end. by right.
Qed.

Lemma traces_backoff c s : 0 <= (budget c).1 <= 5000 ->
  traces (prvBackoffForRetry c) s (fun r es _ => exists c',
    (r = Ok (pdFAIL, c') /\ exists ok, es = [EvRandom ok] /\ (ok = true -> (budget c).2 = 0)) \/
    (r = Ok (pdPASS, c') /\ (budget c).2 <> 0 /\ budget c' = ((budget c).1, (budget c).2 - 1) /\
     exists d, es = [EvRandom true; EvDelay d] /\ 0 <= d <= (budget c).1)).
Proof.
  intros Hm. unfold prvBackoffForRetry. eapply traces_asks; [apply al_random|].
  destruct (xPkcs11GenerateRandomNumber (world s)) as [[st r] w]. cbn [fst snd].
  destruct (st =? pdPASS); [|apply traces_ret; exists c; left; split; [done|]; exists false; done].
  pose proof (al_next c r) as H. destruct (BackoffAlgorithm_GetNextBackoff c r) as [[bs ms] c'].
  destruct (Z.eqb_spec (budget c).2 0) as [E|E].
  - rewrite H, Z.eqb_refl. apply traces_ret. exists c'. left. split; [done|]. by exists true.
  - destruct H as (-> & Hms & Hb). specialize (Hms (proj1 Hm)). rewrite (proj2 (Z.eqb_neq _ _) al_backoff), Z.eqb_refl.
    eapply traces_does; [apply al_delay|]. apply traces_ret. exists c'. right. split_and!; [done..|].
    exists ms. rewrite ticks_of_ms by lia. split; [done|exact Hms].
Qed.

Lemma traces_connect n m : 0 <= m <= 5000 -> forall fuel c s, (n < fuel)%nat -> budget c = (m, Z.of_nat n) ->
  traces (connect_loop fuel c) s (fun r es _ => exists ds, (length ds <= n)%nat /\ Forall (fun d => 0 <= d <= m) ds /\
    ((r = Ok pdPASS /\ es = retried ds ++ [connect_attempt true]) \/
     (r = Ok pdFAIL /\ exists ok, es = retried ds ++ [connect_attempt false; EvRandom ok] /\ (ok = true -> length ds = n)))).
Proof.
  intros Hm. induction n as [|n IH]; intros fuel c s Hf Hb; (destruct fuel as [|fuel]; [lia|]); cbn [connect_loop];
    (eapply traces_asks; [apply al_connect|]); (destruct (SecureSocketsTransport_Connect _ _ _) as [st w]); cbn [fst snd];
    (destruct (st =? TRANSPORT_SOCKET_STATUS_SUCCESS); cbn [negb];
     [apply traces_ret; exists []; split; [cbn; lia|]; split; [done|by left]|]);
    apply traces_bind; (eapply traces_mono; [apply traces_backoff; by rewrite Hb|]); rewrite Hb;
    intros r es s1 (c' & [(-> & ok & -> & Hok)|(-> & Hn & Hb' & d & -> & Hd)]); cbn [fst snd] in *.
  - apply traces_ret. exists []. split; [done|]. split; [done|]. right. split; [done|]. by exists ok.
  - done.
  - apply traces_ret. exists []. split; [cbn; lia|]. split; [done|]. right. split; [done|]. exists ok. split; [done|].
    intros E. apply Hok in E. lia.
  - rewrite Z.eqb_refl. eapply traces_mono; [apply (IH fuel c'); [lia|rewrite Hb'; f_equal; lia]|].
    intros r es s' (ds & Hl & Hds & H). exists (d :: ds). split; [cbn; lia|]. split; [by constructor|].
    destruct H as [[-> ->]|(-> & ok & -> & Hok)]; [by left|]. right. split; [done|]. exists ok. split; [done|].
    intros E. cbn. by rewrite (Hok E).
Qed.

Lemma traces_publish_to_topic msg s : traces (prvMQTTPublishToTopic msg) s (fun r es _ => exists st id ws, r = Ok st /\
  es = [EvPacketId; EvPublish (publication msg) id] ++ ws /\ waits 30 ws).
Proof.
  unfold prvMQTTPublishToTopic. eapply traces_asks; [apply al_packet_id|]. destruct (MQTT_GetPacketId _) as [id w]. cbn [fst snd].
  apply traces_modify; [done|]. eapply traces_asks; [apply al_publish|]. destruct (MQTT_Publish _ _ _) as [st w']. cbn [fst snd].
  apply traces_bind. apply traces_modify; [done|].
  eapply traces_mono; [apply traces_wait; exact (not_eq_sym al_suback)|]. intros r es s' [[st' ->] Hw]. rewrite Z.eqb_refl in Hw.
  apply traces_ret. eexists _, id, es. split; [done|]. by rewrite app_nil_r.
Qed.

Lemma traces_publish fuel msg s : (6 <= fuel)%nat ->
  traces (publishToAWSTopic fuel msg) s (fun r es _ => r = Ok tt /\ publishes msg es).
Proof.
  intros Hf. unfold publishToAWSTopic, prvConnectToServerWithBackoffRetries. apply traces_bind.
  eapply traces_mono; [apply (traces_connect 5 5000); [done|lia|apply al_initialize]|].
  intros r es s1 (ds & Hl & Hds & [[-> ->]|(-> & ok & -> & Hok)]); cbn [Z.eqb pdPASS pdFAIL].
  - apply traces_bind. unfold prvCreateMQTTConnectionWithBroker. eapply traces_asks; [apply al_mqtt_init|].
    apply traces_bind, traces_ret. eapply traces_asks; [apply al_mqtt_connect|].
    destruct (MQTT_Connect _ _ _) as [st w]. cbn [fst snd]. apply traces_ret.
    destruct (st =? MQTTSuccess); cbn [negb Z.eqb pdPASS pdFAIL]; apply traces_bind.
    + apply traces_bind. eapply traces_mono; [apply traces_publish_to_topic|]. intros r es s2 (st' & id & ws & -> & -> & Hw).
      eapply traces_asks; [apply al_mqtt_disconnect|]. apply traces_ret. eapply traces_asks; [apply al_disconnect|].
      apply traces_ret. split; [done|].
      replace (_ ++ _) with (retried ds ++ [connect_attempt true] ++ ([EvMqttInit; EvMqttConnect connection true; EvPacketId;
        EvPublish (publication msg) id] ++ ws ++ [EvMqttDisconnect]) ++ [EvDisconnect]) by (cbn; by rewrite <- !app_assoc).
      apply publishes_session; [done..|]. by apply session_published.
    + apply traces_ret. eapply traces_asks; [apply al_disconnect|]. apply traces_ret. split; [done|].
      rewrite <- app_assoc. apply (publishes_session msg ds [EvMqttInit; EvMqttConnect connection false]); [done..|constructor].
  - apply traces_ret. split; [done|]. rewrite app_nil_r. by apply publishes_not.
Qed.
(** ** Listening *)

(** The recordings that a query found, those whose frequency was got, and the
    messages. *)
Definition seen es : list (list Z) := omap (fun e => match e with
  | EvVad n (Recorded xs) => if n =? VAD_AN552_QUERY then Some xs else None | _ => None end) es.
Definition fetched es : list (list Z) := omap (fun e => match e with
  | EvVad n (Recorded xs) => if n =? VAD_AN552_GET_FREQ then Some xs else None | _ => None end) es.
Definition messages es : list string := omap (fun e => match e with EvPublish i _ => Some (payload i) | _ => None end) es.

(** Each recording found is complete, is fetched and makes at most one
    message, with its frequency, in this order. *)
Definition reports es : Prop :=
  fetched es = seen es /\ Forall (fun xs => Z.of_nat (length xs) = RECORDING_SIZE) (seen es) /\
  exists mss, Forall2 (fun xs ms => ms = [] \/ ms = [message (freq_of xs)]) (seen es) mss /\ messages es = concat mss.

Lemma reports_nil : reports [].
Proof. split; [done|]. split; [constructor|]. exists []. by split; [constructor|]. Qed.

Lemma reports_app es es' : reports es -> reports es' -> reports (es ++ es').
Proof.
  intros (H1 & H2 & mss & H3 & H4) (H5 & H6 & mss' & H7 & H8). unfold reports, fetched, seen, messages in *.
  rewrite !omap_app. split; [by rewrite H1, H5|]. split; [by apply Forall_app|].
  exists (mss ++ mss'). split; [by apply Forall2_app|]. by rewrite concat_app, H4, H8.
Qed.

(** Calls that have nothing to do with it. *)
Definition aside (e : app_event) : bool :=
  match e with EvVad n _ => negb ((n =? VAD_AN552_QUERY) || (n =? VAD_AN552_GET_FREQ)) | EvPublish _ _ => false | _ => true end.

Lemma omap_nil {A B} (f : A -> option B) l : Forall (fun x => f x = None) l -> omap f l = [].
Proof. induction 1 as [|x l Hx Hl IH]; [done|]. cbn. by rewrite Hx. Qed.

Lemma aside_nothing es : Forall (fun e => aside e = true) es -> seen es = [] /\ fetched es = [] /\ messages es = [].
Proof.
  intros H. split_and!; apply omap_nil; eapply Forall_impl; try exact H; intros [] He; try done;
    cbn in He; apply negb_true_iff, orb_false_iff in He as [He1 He2]; rewrite ?He1, ?He2; by destruct a.
Qed.

Lemma reports_aside es : Forall (fun e => aside e = true) es -> reports es.
Proof.
  intros (E1 & E2 & E3)%aside_nothing. split; [by rewrite E1, E2|]. rewrite E1. split; [constructor|].
  exists []. by split; [constructor|].
Qed.

Lemma waits_aside n es : waits n es -> Forall (fun e => aside e = true) es /\ (length es <= n)%nat.
Proof. induction 1 as [|n ps ok|n ps es _ _ [IH1 IH2]]; cbn; split; try (repeat constructor; done); lia. Qed.

Lemma retried_aside ds : Forall (fun e => aside e = true) (retried ds) /\ length (retried ds) = (3 * length ds)%nat.
Proof.
  unfold retried. induction ds as [|d ds [IH1 IH2]]; [done|]. rewrite fmap_cons. cbn [concat app length].
  split; [by repeat constructor|]. rewrite IH2. lia.
Qed.

(** One publication: no query, at most one message, and not many calls. *)
Lemma publishes_one msg es : publishes msg es ->
  (length es <= 52)%nat /\ exists es1 es2, Forall (fun e => aside e = true) es1 /\ Forall (fun e => aside e = true) es2 /\
    (es = es1 \/ exists id, es = es1 ++ EvPublish (publication msg) id :: es2).
Proof.
  intros [ds ok Hl _ _|ds ses Hl _ Hs]; destruct (retried_aside ds) as [H1 H2].
  - split; [rewrite length_app, H2; cbn; lia|]. exists (retried ds ++ [connect_attempt false; EvRandom ok]), []. split_and!; [|done|by left].
    apply Forall_app. split; [exact H1|by repeat constructor].
  - destruct Hs as [|id ws Hw].
    + split; [rewrite !length_app, H2; cbn; lia|]. eexists _, []. split_and!; [|done|left; reflexivity].
      apply Forall_app. split; [exact H1|by repeat constructor].
    + apply waits_aside in Hw as [Hw1 Hw2]. split; [repeat (rewrite length_app || cbn [length app]); lia|].
      exists (retried ds ++ [connect_attempt true; EvMqttInit; EvMqttConnect connection true; EvPacketId]),
        (ws ++ [EvMqttDisconnect; EvDisconnect]). split_and!.
      * apply Forall_app. split; [exact H1|by repeat constructor].
      * apply Forall_app. split; [exact Hw1|by repeat constructor].
      * right. exists id. cbn. by rewrite <- !app_assoc.
Qed.

(** A recording found, fetched and published. *)
Lemma reports_recording xs es : Z.of_nat (length xs) = RECORDING_SIZE -> publishes (message (freq_of xs)) es ->
  reports (EvVad VAD_AN552_QUERY (Recorded xs) :: EvVad VAD_AN552_GET_FREQ (Recorded xs) :: es).
Proof.
  intros Hl (_ & es1 & es2 & H1 & H2 & He)%publishes_one.
  destruct (aside_nothing _ H1) as (A1 & B1 & C1), (aside_nothing _ H2) as (A2 & B2 & C2).
  assert (seen es = [] /\ fetched es = [] /\ (messages es = [] \/ messages es = [message (freq_of xs)])) as (E1 & E2 & E3).
  { destruct He as [->|[id ->]]; [auto|]. unfold seen, fetched, messages in *. rewrite !omap_app. cbn.
    rewrite A1, A2, B1, B2, C1, C2. auto. }
  unfold reports. change (fetched _) with (xs :: fetched es). change (seen _) with (xs :: seen es).
  change (messages (_ :: _ :: es)) with (messages es). rewrite E1, E2. split; [done|]. split; [by repeat constructor|].
  exists [messages es]. split; [constructor; [exact E3|constructor]|]. cbn. by rewrite app_nil_r.
Qed.
(** Phases of a partition that started to listen. *)
Definition fits (a : vad_phase) : Prop :=
  match a with
  | Recording xs => Z.of_nat (length xs) < RECORDING_SIZE
  | Recorded xs => Z.of_nat (length xs) = RECORDING_SIZE
  | _ => True
  end.

Lemma fits_hears a a' : fits a -> hears a a' -> fits a'.
Proof.
  intros H. induction 1 as [|a a1 a' Hh _ IH]; [done|]. apply IH.
  destruct Hh as [|xs x Hx|xs x Hx]; [done|cbn; rewrite length_app; cbn; lia..].
Qed.

Lemma stopped_hears a : hears Stopped a -> a = Stopped.
Proof. intros H. inversion H as [|? ? ? Hh _]; [done|inversion Hh]. Qed.

(** A request to the partition. *)
Lemma traces_vad {A B} n sizes (g : Z -> list (list Z) -> A) (m : ST W A) (k : A -> ST (app_state W) B) s P :
  (forall w, let r := psa_call TFM_AN552_VAD_HANDLE n [] sizes w in m w = (Ok (g r.1.1 r.1.2), r.2)) ->
  (forall a w' outs, took (EvVad n a) (world s) w' -> (sizes = [4] -> outs = [(answer (PSA_IPC_OTHER n) a).1.2]) ->
     traces (k (g (answer (PSA_IPC_OTHER n) a).1.1 outs)) (set_world w' s) (fun r es => P r (EvVad n a :: es))) ->
  traces (on_vad m ≫= k) s P.
Proof.
  intros Hm Hk. destruct (al_vad n sizes (world s)) as (a & Ht & Hst & Ho).
  specialize (Hk a _ (psa_call TFM_AN552_VAD_HANDLE n [] sizes (world s)).1.2 Ht Ho).
  unfold traces, wp, mbind, ST_bind, on_vad. rewrite (Hm (world s)), Hst. cbn [fst snd].
  destruct Hk as (es & H1 & H2). exists (EvVad n a :: es). split; [|exact H2].
  apply (ran_app [EvVad n a] es _ _ _ (ran_one _ _ _ Ht)), H1.
Qed.

Lemma traces_start {B} (k : Z -> ST (app_state W) B) s P :
  (forall a w', took (EvVad VAD_AN552_START a) (world s) w' -> hears Listening (phase w') ->
     traces (k PSA_SUCCESS) (set_world w' s) (fun r es => P r (EvVad VAD_AN552_START a :: es))) ->
  traces (on_vad vad_an552_start_vad ≫= k) s P.
Proof.
  intros H. apply (traces_vad VAD_AN552_START [] (fun st _ => st)).
  - intros w. unfold vad_an552_start_vad, mbind, ST_bind, on_call. by destruct (psa_call _ _ _ _ _) as [[]].
  - intros a w' _ Ht _. apply H; [exact Ht|]. destruct Ht as (_ & _ & a2 & _ & <- & Ha). exact Ha.
Qed.

Lemma traces_stop {B} (k : Z -> ST (app_state W) B) s P :
  (forall a w', took (EvVad VAD_AN552_STOP a) (world s) w' -> phase w' = Stopped ->
     traces (k PSA_SUCCESS) (set_world w' s) (fun r es => P r (EvVad VAD_AN552_STOP a :: es))) ->
  traces (on_vad vad_an552_stop_vad ≫= k) s P.
Proof.
  intros H. apply (traces_vad VAD_AN552_STOP [] (fun st _ => st)).
  - intros w. unfold vad_an552_stop_vad, mbind, ST_bind, on_call. by destruct (psa_call _ _ _ _ _) as [[]].
  - intros a w' _ Ht _. apply H; [exact Ht|]. destruct Ht as (_ & _ & a2 & _ & <- & Ha). by apply stopped_hears.
Qed.

(** A query leaves the phase it tells. *)
Lemma traces_query {B} (k : Z * list Z -> ST (app_state W) B) s P :
  (forall a w', took (EvVad VAD_AN552_QUERY a) (world s) w' -> hears (phase (world s)) a -> hears a (phase w') ->
     traces (k (PSA_SUCCESS, enc32 (phase_code a))) (set_world w' s) (fun r es => P r (EvVad VAD_AN552_QUERY a :: es))) ->
  traces (on_vad vad_an552_query_vad ≫= k) s P.
Proof.
  intros H. apply (traces_vad VAD_AN552_QUERY [4] (fun st o => (st, default [] (o !! 0%nat)))).
  - intros w. unfold vad_an552_query_vad, mbind, ST_bind, on_call. by destruct (psa_call _ _ _ _ _) as [[]].
  - intros a w' outs Ht Ho. rewrite (Ho eq_refl). destruct (Ht) as (_ & _ & a2 & Ha & <- & Ha'). by apply H.
Qed.

(** The frequency of a recording that is there; the partition is stopped. *)
Lemma traces_freq {B} xs (k : Z * list Z -> ST (app_state W) B) s P : phase (world s) = Recorded xs ->
  (forall w', took (EvVad VAD_AN552_GET_FREQ (Recorded xs)) (world s) w' -> phase w' = Stopped ->
     traces (k (PSA_SUCCESS, enc32 (freq_of xs))) (set_world w' s)
       (fun r es => P r (EvVad VAD_AN552_GET_FREQ (Recorded xs) :: es))) ->
  traces (on_vad vad_an552_get_freq ≫= k) s P.
Proof.
  intros Hp H. apply (traces_vad VAD_AN552_GET_FREQ [4] (fun st o => (st, default [] (o !! 0%nat)))).
  - intros w. unfold vad_an552_get_freq, mbind, ST_bind, on_call. by destruct (psa_call _ _ _ _ _) as [[]].
  - intros a w' outs Ht Ho. rewrite (Ho eq_refl). destruct (Ht) as (_ & _ & a2 & Ha & <- & Ha').
    rewrite Hp in Ha. apply hears_recorded in Ha as ->. apply H; [exact Ht|]. by apply stopped_hears.
Qed.

Lemma traces_ran {A} (m : ST (app_state W) A) s P : traces m s P -> traces m s (fun r es s' => ran es (world s) (world s') /\ P r es s').
Proof. intros (es & H1 & H2). by exists es. Qed.

(** *** The time of a session

    [c0] is the clock when it began. *)
Definition end_of_session (c0 : Z) : Z := c0 + 60001 * cycles_per_tick.

Lemma ticks_between c0 c : 0 <= slowest -> 60 * slowest <= 2147483648 * cycles_per_tick ->
  c0 <= c <= end_of_session c0 + 60 * slowest ->
  let d := sub32 (w32 (c / cycles_per_tick)) (w32 (c0 / cycles_per_tick)) in
  (end_of_session c0 <= c -> 60000 < d) /\ (d <= 60000 -> c < end_of_session c0).
Proof.
  intros Hs Hslow Hc d. pose proof al_rate as Hr. unfold end_of_session in *.
  assert (d = c / cycles_per_tick - c0 / cycles_per_tick) as ->.
  { unfold d, sub32, w32. rewrite <- Zminus_mod. apply Z.mod_small.
    pose proof (Z.div_le_mono c0 c cycles_per_tick Hr ltac:(lia)).
    assert (c / cycles_per_tick <= (c0 + 2147543649 * cycles_per_tick) / cycles_per_tick) as H2 by (apply Z.div_le_mono; lia).
    rewrite Z.div_add in H2 by lia. lia. }
  enough (end_of_session c0 <= c -> 60000 < c / cycles_per_tick - c0 / cycles_per_tick) as H.
  { split; [exact H|]. intros Hd. destruct (Z.lt_ge_cases c (c0 + 60001 * cycles_per_tick)) as [Hlt|Hge]; [exact Hlt|].
    apply H in Hge. lia. }
  intros H. unfold end_of_session in H. apply (Z.div_le_mono _ _ cycles_per_tick Hr) in H. rewrite Z.div_add in H by lia. lia.
Qed.

Lemma length_assign x old : (length old <= 4)%nat -> (length (assign (enc32 x) old) <= 4)%nat.
Proof. intros H. unfold assign. rewrite length_app, length_drop, enc32_length. lia. Qed.

Lemma value_of_enc32 {B} x old (k : Z -> ST (app_state W) B) s P : is_u32 x -> (length old <= 4)%nat ->
  traces (k x) s P -> traces (value_of (assign (enc32 x) old) ≫= k) s P.
Proof.
  intros Hx Hl H. unfold assign. rewrite drop_ge, app_nil_r by (rewrite enc32_length; lia).
  unfold value_of. rewrite enc32_length. cbn [Nat.eqb]. rewrite <- (app_nil_r (enc32 x)), dec_enc32 by exact Hx. exact H.
Qed.

Lemma freq_u32 xs : is_u32 (freq_of xs).
Proof.
  unfold freq_of. destruct (arm_max_q15 _ _) as [m i]. destruct (negb (m =? 0)); [apply Z.mod_pos_bound|]; done.
Qed.

(** The variables of the task have four bytes. *)
Definition fit (v : task_vars) : Prop := (length v.1 <= 4)%nat /\ (length v.2 <= 4)%nat.
Definition returned (r : outcome task_vars) : Prop := exists v, r = Ok v /\ fit v.

Lemma returned_vars st fr : (length st <= 4)%nat -> (length fr <= 4)%nat -> returned (Ok (st, fr)).
Proof. intros H1 H2. by exists (st, fr). Qed.

Section Session.
Context (c0 : Z) (Hslow : 60 * slowest <= 2147483648 * cycles_per_tick).

Lemma traces_stop_or s v (k : ST (app_state W) task_vars) (P : outcome task_vars -> list app_event -> app_state W -> Prop) :
  c0 <= clock (world s) <= end_of_session c0 + 60 * slowest ->
  (forall w', took EvTick (world s) w' -> clock (world s) < clock w' -> clock (world s) < end_of_session c0 ->
     traces k (set_world w' s) (fun r es => P r (EvTick :: es))) ->
  (forall es s', phase (world s') = Stopped -> reports es -> P (Ok v) es s') ->
  traces (stop_or (w32 (c0 / cycles_per_tick)) v k) s P.
Proof.
  intros Hc Hk HP. destruct (al_tick (world s)) as (Ht & Hlt & Htick). unfold stop_or. eapply traces_asks; [exact Ht|].
  destruct (xTaskGetTickCount (world s)) as [t w']. cbn [fst snd] in *. subst t.
  change LISTENING_TICKS with 60000. destruct (Z.gtb_spec (sub32 (w32 (clock (world s) / cycles_per_tick)) (w32 (c0 / cycles_per_tick))) 60000) as [Hgt|Hle].
  - apply traces_stop. intros a w1 _ Hp. apply traces_ret, HP; [exact Hp|]. apply reports_aside. by repeat constructor.
  - apply Hk; [exact Ht|exact Hlt|]. apply ticks_between; [|exact Hslow|exact Hc|exact Hle].
    destruct Ht as (_ & Ht & _). lia.
Qed.

Lemma traces_listen tries : (6 <= tries)%nat -> forall fuel s v, fit v -> fits (phase (world s)) ->
  c0 <= clock (world s) <= end_of_session c0 + 2 * slowest -> 0 < Z.of_nat fuel ->
  end_of_session c0 - clock (world s) < Z.of_nat fuel ->
  traces (listen_loop tries fuel (w32 (c0 / cycles_per_tick)) v) s (fun r es s' =>
    returned r /\ phase (world s') = Stopped /\ reports es).
Proof.
  intros Htries. induction fuel as [|fuel IH]; intros s [st fr] [Hst Hfr] Hfit Hc H0 Hf; [lia|]. cbn [fst snd listen_loop] in *.
  assert (0 <= slowest) as Hs0. { destruct (al_tick (world s)) as ((_ & H & _) & _). lia. }
  apply traces_query. intros a w1 (E1 & C1 & _) Ha Ha1. cbn [fst snd]. cbv zeta.
  assert (fits a) as Hfa by (by eapply fits_hears).
  apply value_of_enc32; [by destruct a|exact Hst|].
  destruct (phase_code a =? VAD_VOICE_RECORDED) eqn:Ecode.
  - destruct a as [| | |xs]; try discriminate. clear Ecode. apply hears_recorded in Ha1.
    apply (traces_freq xs); [exact Ha1|]. intros w2 (E2 & C2 & _) P2. cbv zeta.
    apply value_of_enc32; [apply freq_u32|exact Hfr|].
    apply traces_bind. eapply traces_mono; [apply traces_ran, (traces_publish tries _ _ Htries)|].
    intros r es s3 [(E3 & C3 & P3) [-> Hpub]]. pose proof (publishes_one _ _ Hpub) as [Hlen _].
    cbn [world set_world] in *. pose proof (reports_recording xs es Hfa Hpub) as Hrep.
    pose proof (length_assign (phase_code (Recorded xs)) st Hst) as Hst'. pose proof (length_assign (freq_of xs) fr Hfr) as Hfr'.
    apply traces_stop_or; [nia| |intros es' s' Hp Hr'; split_and!; [by apply returned_vars|done|]; by apply (reports_app (_ :: _ :: es))].
    intros w4 (E4 & C4 & _) Hlt4 Hend4. apply traces_start. intros a5 w5 (E5 & C5 & _) H5.
    cbn [world set_world] in *.
    assert (forall es', reports es' -> reports (EvVad VAD_AN552_QUERY (Recorded xs) ::
      EvVad VAD_AN552_GET_FREQ (Recorded xs) :: es ++ EvTick :: EvVad VAD_AN552_START a5 :: es')) as Hall.
    { intros es' Hes'. apply (reports_app (_ :: _ :: es)); [exact Hrep|].
      apply (reports_app [_; _]); [|exact Hes']. apply reports_aside. by repeat constructor. }
    apply traces_stop_or; [cbn [world set_world]; nia| |intros es' s' Hp Hr'; split_and!; [by apply returned_vars|done|by apply Hall]].
    intros w6 (E6 & C6 & M6) Hlt6 Hend6. cbn [world set_world] in *.
    eapply traces_mono; [apply IH; cbn [world set_world]; [done| |nia..]|].
    + eapply fits_hears; [|exact M6]. eapply fits_hears; [|exact H5]. done.
    + intros r es' s' (Hr & Hp & Hr'). split_and!; [done..|]. apply Hall, (reports_app [EvTick]); [|exact Hr'].
      apply reports_aside. by repeat constructor.
  - assert (reports [EvVad VAD_AN552_QUERY a]) as Hq.
    { split; [by destruct a|]. split; [destruct a; done|]. exists []. by destruct a. }
    pose proof (length_assign (phase_code a) st Hst) as Hst'.
    apply traces_stop_or; [cbn; nia| |intros es' s' Hp Hr'; split_and!; [by apply returned_vars|done|by apply (reports_app [_])]].
    intros w2 (E2 & C2 & M2) Hlt2 Hend2. cbn [world set_world] in *.
    eapply traces_mono; [apply IH; cbn [world set_world]; [done| |nia..]|].
    + eapply fits_hears; [|exact M2]. by eapply fits_hears.
    + intros r es' s' (Hr & Hp & Hr'). split_and!; [done..|]. apply (reports_app [_; EvTick]); [|exact Hr'].
      apply (reports_app [_] [EvTick]); [exact Hq|]. apply reports_aside. by repeat constructor.
Qed.
End Session.

(** Enough fuel for the loop: a round for each cycle of a minute. *)
Definition enough (fuel : nat) : Prop := 60001 * cycles_per_tick < Z.of_nat fuel.

Lemma traces_session tries fuel v s : (6 <= tries)%nat -> 60 * slowest <= 2147483648 * cycles_per_tick -> enough fuel -> fit v ->
  traces (listen tries fuel v) s (fun r es s' => returned r /\ phase (world s') = Stopped /\ reports es).
Proof.
  intros Ht Hslow Hf Hv. unfold listen. destruct (al_tick (world s)) as (H1 & Hlt & Htick). eapply traces_asks; [exact H1|].
  destruct (xTaskGetTickCount (world s)) as [t w1]. cbn [fst snd] in *. subst t. destruct H1 as (_ & C1 & _).
  apply traces_start. intros a w2 (_ & C2 & _) H2. cbn [world set_world] in *. pose proof al_rate.
  unfold enough in Hf. eapply traces_mono; [apply (traces_listen (clock (world s)) Hslow tries Ht); cbn [world set_world];
    [exact Hv|exact (fits_hears Listening _ I H2)|unfold end_of_session; lia..]|].
  intros r es s' (Hv' & Hp & Hr). split_and!; [done..|]. apply (reports_app [_; _]); [|exact Hr].
  apply reports_aside. by repeat constructor.
Qed.

(** Calls around the sessions: nothing is reported, and a partition that is
    stopped stays so. *)
Definition keeps_quiet {A} (s : app_state W) (r : outcome A) es (s' : app_state W) : Prop :=
  (r = Err HANG \/ exists a, r = Ok a) /\ Forall (fun e => aside e = true) es /\ 
  (phase (world s) = Stopped -> phase (world s') = Stopped).

Lemma quiet_step {A B} (f : W -> A * W) (k : A -> ST (app_state W) B) e s :
  took e (world s) (f (world s)).2 -> (match e with EvOta | EvDelay _ => True | _ => False end) ->
  traces (k (f (world s)).1) (set_world (f (world s)).2 s) (keeps_quiet (set_world (f (world s)).2 s)) ->
  traces (asks f ≫= k) s (keeps_quiet s).
Proof.
  intros Ht He H. eapply traces_asks; [exact Ht|]. eapply traces_mono; [exact H|]. intros r es s' (H1 & H2 & H3).
  split; [exact H1|]. destruct Ht as (_ & _ & Hm). split; [constructor; [by destruct e|exact H2]|]. intros Hp. apply H3.
  cbn [world set_world]. destruct e; try done; cbn in Hm; rewrite Hp in Hm; by apply stopped_hears.
Qed.

Lemma quiet_task_ret {A} (a : A) s : traces (mret a) s (keeps_quiet s).
Proof. apply traces_ret. split; [right; by eexists|done]. Qed.
Lemma quiet_hang {A} s : traces (raise HANG : ST (app_state W) A) s (keeps_quiet s).
Proof. exists []. split; [apply ran_nil|]. split; [by left|done]. Qed.

Lemma quiet_started waits s : traces (ota_started waits) s (keeps_quiet s).
Proof.
  revert s. induction waits as [|n IH]; intros s; cbn [ota_started]; [apply quiet_hang|].
  apply (quiet_step (fun w => (tt, vTaskDelay _ w)) _ _ s (al_delay _ _)); [done|].
  eapply quiet_step; [apply al_ota_state|done|]. destruct (_ || _); [apply IH|apply quiet_task_ret].
Qed.

Lemma quiet_ended waits s : traces (ota_ended waits) s (keeps_quiet s).
Proof.
  revert s. induction waits as [|n IH]; intros s; cbn [ota_ended]; (eapply quiet_step; [apply al_handle|done|]);
    (destruct (xTaskGetHandle_iot_thread _) as [[] w]; cbn [fst snd]; [|apply quiet_task_ret]); [apply quiet_hang|].
  apply (quiet_step (fun w => (tt, vTaskDelay _ w)) _ _ _ (al_delay _ _)); [done|]. apply IH.
Qed.

(** The task: it goes on or hangs, reports, and leaves a stopped partition
    stopped. *)
Definition task_post (s : app_state W) (r : outcome task_vars) es (s' : app_state W) : Prop :=
  (r = Err HANG \/ returned r) /\ reports es /\ (phase (world s) = Stopped -> phase (world s') = Stopped).

Lemma after_quiet {A} (m : ST (app_state W) A) (k : A -> ST (app_state W) task_vars) s :
  traces m s (keeps_quiet s) -> (forall a s1, traces (k a) s1 (task_post s1)) -> traces (m ≫= k) s (task_post s).
Proof.
  intros Hm Hk. apply traces_bind. eapply traces_mono; [exact Hm|]. intros r es s1 ([->|[a ->]] & Hes & Hp).
  - split; [by left|]. split; [by apply reports_aside|exact Hp].
  - eapply traces_mono; [apply Hk|]. intros r es' s' (Hr & Hes' & Hp'). split; [exact Hr|].
    split; [apply reports_app; [by apply reports_aside|exact Hes']|auto].
Qed.

Lemma quiet_asks {A} (f : W -> A * W) e s : took e (world s) (f (world s)).2 ->
  (match e with EvOta | EvDelay _ => True | _ => False end) -> traces (asks f) s (keeps_quiet s).
Proof.
  intros Ht He. pose proof (quiet_step f mret e s Ht He (quiet_task_ret _ _)) as H. unfold traces, wp, mbind, ST_bind in *.
  by destruct (asks f s) as [[]].
Qed.

Lemma quiet_does (f : W -> W) e s : took e (world s) (f (world s)) ->
  (match e with EvOta | EvDelay _ => True | _ => False end) -> traces (does f) s (keeps_quiet s).
Proof. intros Ht He. exact (quiet_asks (fun w => (tt, f w)) e s Ht He). Qed.

Lemma traces_main_round tries waits fuel v s : (6 <= tries)%nat -> 60 * slowest <= 2147483648 * cycles_per_tick -> enough fuel -> fit v ->
  traces (main_round tries waits fuel v) s (task_post s).
Proof.
  intros Ht Hslow Hf Hv. unfold main_round.
  apply after_quiet; [by eapply quiet_does; [apply al_demos|]|]. intros _ s1.
  apply after_quiet; [apply quiet_started|]. intros _ s2.
  apply after_quiet; [by eapply quiet_does; [apply al_delay|]|]. intros _ s3.
  apply after_quiet; [by eapply quiet_asks; [apply al_ota_state|]|]. intros st s4.
  destruct (OtaAgentStateWaitingForJob =? st).
  - apply after_quiet; [by eapply quiet_does; [apply al_ota_shutdown|]|]. intros _ s5.
    apply after_quiet; [apply quiet_ended|]. intros _ s6.
    eapply traces_mono; [by apply traces_session|]. intros r es s' (Hr' & Hp & Hr). split; [by right|done].
  - exists []. split; [apply ran_nil|]. split; [by left|]. split; [apply reports_nil|done].
Qed.
End Traces.

(** ** Properties *)

Section Properties.
Context {W : Type} {MO : MqttOps W} {TO : TaskOps W} {CR : Credentials} {PC : PsaCalls W} {VH : VadHandle} {DO : DspOps}.
Context {AL : AppLaws W}.

(** C35: Whatever the network and the broker do, publishing a message comes to
    an end, and its calls are those of [publishes]: at most six attempts to
    connect, over TLS, with a delay of at most five seconds before each one
    but the first; after the last failure it gives up only when no random
    number came or no attempt is left; the message is published at most once,
    only in an accepted session, with at most thirty rounds of waiting that
    stop at the first acknowledgement or error; and what was opened is
    closed. *)
Theorem publish_protocol tries msg (s : app_state W) : (6 <= tries)%nat ->
  exists s' es, publishToAWSTopic tries msg s = (Ok tt, s') /\ events (world s') = events (world s) ++ es /\ publishes msg es.
Proof.
  intros Ht. destruct (traces_publish tries msg s Ht) as (es & (E & _) & Hr & Hp).
  exists (publishToAWSTopic tries msg s).2, es. rewrite <- Hr. by rewrite <- surjective_pairing.
Qed.

(** C34: The task reports the voices that the partition records.  Each listening,
    whatever the variables of the task hold, comes to an end after its minute,
    with the partition stopped; and through
    any number of rounds of the task, whatever the agent for updates does, the
    task goes on or waits for the agent, each recording that a query found is
    a complete one and is fetched from the partition, the messages to the
    broker give the frequencies of these recordings in their order, at most
    one for each and nothing else, and a partition that was stopped before is
    stopped after. *)
Theorem voices_reported tries waits rounds fuel (s : app_state W) :
  (6 <= tries)%nat -> 60 * slowest <= 2147483648 * cycles_per_tick -> enough fuel ->
  (forall v, fit v -> exists v' s' es, listen tries fuel v s = (Ok v', s') /\ fit v' /\
     events (world s') = events (world s) ++ es /\ phase (world s') = Stopped /\ reports es) /\
  (exists r s' es, mainTask tries rounds waits fuel s = (r, s') /\ events (world s') = events (world s) ++ es /\
     task_post s r es s').
Proof.
  intros Ht Hslow Hf. split.
  - intros v Hv. destruct (traces_session tries fuel v s Ht Hslow Hf Hv) as (es & (E & _) & (v' & Hr & Hv') & Hp).
    exists v', (listen tries fuel v s).2, es. rewrite <- Hr. by rewrite <- surjective_pairing.
  - enough (traces (mainTask tries rounds waits fuel) s (task_post s)) as (es & (E & _) & Hp).
    { eexists _, _, es. split; [apply surjective_pairing|done]. }
    unfold mainTask. assert (fit ([], [])) as Hv by (split; cbn; lia). revert Hv s. generalize (@nil Z, @nil Z).
    induction rounds as [|n IH]; intros v Hv s; cbn [task_rounds].
    + apply traces_ret. split; [right; by exists v|]. split; [apply reports_nil|done].
    + apply traces_bind. eapply traces_mono; [by apply traces_main_round|]. intros r es s1 ([->|(v1 & -> & Hv1)] & Hes & Hp).
      * split; [by left|done].
      * eapply traces_mono; [by apply IH|]. intros r es' s' (Hr & Hes' & Hp'). split; [exact Hr|].
        split; [by apply reports_app|auto].
Qed.
End Properties.

(** ** A room, a network and a broker

    Whenever the partition listens, a recording is complete at the next query;
    the first [r_failing] attempts to connect fail; a call takes 20 seconds. *)
Record room : Type := { r_events : list app_event; r_clock : Z; r_phase : vad_phase; r_failing : nat }.

Definition happens (e : app_event) (a : vad_phase) (r : room) : room :=
  {| r_events := r_events r ++ [e]; r_clock := r_clock r + 20000; r_phase := a; r_failing := r_failing r |}.
Definition attempted (r : room) : room :=
  {| r_events := r_events r; r_clock := r_clock r; r_phase := r_phase r; r_failing := pred (r_failing r) |}.
Definition happen (e : app_event) (r : room) : room := happens e (r_phase r) r.

#[export] Instance room_dsp : DspOps := {
  arm_rfft_instance_q15 := unit;
  arm_rfft_init_q15 _ _ _ := tt;
  arm_rfft_q15 _ xs := (xs, xs);
  arm_cmplx_mag_q15 xs _ := xs;
  arm_max_q15 _ _ := (1, 40)
}.

#[export] Instance room_mqtt : MqttOps room := {
  BackoffAlgorithmSuccess := 0;
  BackoffAlgorithmRetriesExhausted := 1;
  TRANSPORT_SOCKET_STATUS_SUCCESS := 0;
  MQTTSuccess := 0;
  MQTTQoS1 := 1;
  MQTT_PACKET_TYPE_PUBACK := 64;
  MQTT_PACKET_TYPE_SUBACK := 144;
  backoff := Z * Z;
  BackoffAlgorithm_InitializeParams _ m n := (m, n);
  BackoffAlgorithm_GetNextBackoff c r :=
    if c.2 =? 0 then (1, 0, c) else (0, Z.max 0 (Z.min (r mod 1000) c.1), (c.1, c.2 - 1));
  xPkcs11GenerateRandomNumber r := (1, 4711, happen (EvRandom true) r);
  SecureSocketsTransport_Connect i c r :=
    let st := if decide (r_failing r = 0)%nat then 0 else 1 in (st, attempted (happen (EvConnect i c (st =? 0)) r));
  SecureSocketsTransport_Disconnect r := (0, happen EvDisconnect r);
  MQTT_Init r := (0, happen EvMqttInit r);
  MQTT_Connect i _ r := (0, happen (EvMqttConnect i true) r);
  MQTT_GetPacketId r := (1, happen EvPacketId r);
  MQTT_Publish i id r := (0, happen (EvPublish i id) r);
  MQTT_ProcessLoop _ r :=
    let ps := [{| packet_type := 64; packet_identifier := 1 |}] in (0, ps, happen (EvProcess ps true) r);
  MQTT_Disconnect r := (0, happen EvMqttDisconnect r)
}.

#[export] Instance room_tasks : TaskOps room := {
  OtaAgentStateInit := 1;
  OtaAgentStateReady := 2;
  OtaAgentStateStopped := 10;
  OtaAgentStateRequestingJob := 3;
  OtaAgentStateWaitingForJob := 4;
  vTaskDelay n r := happen (EvDelay n) r;
  xTaskGetTickCount r := (w32 (r_clock r / 1), happen EvTick r);
  DEMO_RUNNER_RunDemos r := happen EvOta r;
  OTA_GetState r := (4, happen EvOta r);
  OTA_Shutdown _ _ r := happen EvOta r;
  xTaskGetHandle_iot_thread r := (false, happen EvOta r)
}.

#[export] Instance room_credentials : Credentials := {
  clientcredentialMQTT_BROKER_ENDPOINT := "broker.example";
  clientcredentialIOT_THING_NAME := "thing";
  tlsATS1_ROOT_CERTIFICATE_PEM := "certificate"
}.

#[export] Instance room_handle : VadHandle := { TFM_AN552_VAD_HANDLE := 1 }.

Definition a_voice : list Z := replicate (Z.to_nat RECORDING_SIZE) 7.

(** The phase when a request arrives. *)
Definition on_arrival (n : Z) (a : vad_phase) : vad_phase :=
  match a with
  | Listening => if n =? VAD_AN552_QUERY then Recorded a_voice else a
  | _ => a
  end.

#[export] Instance room_calls : PsaCalls room := {
  psa_call _ n _ sizes r :=
    let a := on_arrival n (r_phase r) in
    let '(st, bs, a') := answer (PSA_IPC_OTHER n) a in
    (st, match sizes with [_] => [bs] | _ => [] end, happens (EvVad n a) a' r)
}.

Lemma recording_grows (n : nat) : Z.of_nat n < RECORDING_SIZE -> hears Listening (Recording (replicate n 7)).
Proof.
  induction n as [|n IH]; intros Hn.
  - by apply rtc_once, heard_voice.
  - eapply rtc_r; [apply IH; lia|]. rewrite replicate_S_end. apply heard_sample. rewrite length_replicate. lia.
Qed.

Lemma voice_recorded : hears Listening (Recorded a_voice).
Proof.
  unfold a_voice. assert (Z.of_nat (Z.to_nat RECORDING_SIZE) = RECORDING_SIZE) as Hn by (apply Z2Nat.id; done).
  destruct (Z.to_nat RECORDING_SIZE) as [|n]; [done|]. eapply rtc_r; [apply (recording_grows n); lia|].
  rewrite replicate_S_end. apply heard_last. rewrite length_replicate. lia.
Qed.

Lemma hears_arrival n a : hears a (on_arrival n a).
Proof.
  destruct a; cbn [on_arrival]; try reflexivity. destruct (n =? VAD_AN552_QUERY); [exact voice_recorded|reflexivity].
Qed.

#[export] Instance room_laws : AppLaws room.
Proof.
  refine {| events := r_events; clock := r_clock; cycles_per_tick := 1; slowest := 20000; phase := r_phase; budget := fun c => c |};
    try done; try (intros; cbn; unfold happen; split_and!; cbn; done || reflexivity || lia).
  - intros [m k] r. cbn. destruct (Z.eqb_spec k 0); [done|]. split_and!; try done; lia.
  - intros n sizes w. exists (on_arrival n (r_phase w)). cbn [psa_call room_calls].
    destruct (answer (PSA_IPC_OTHER n) (on_arrival n (r_phase w))) as [[st bs] a'] eqn:E. cbn [fst snd]. split_and!; cbn [happens r_events r_clock r_phase].
    + done.
    + lia.
    + lia.
    + exists a'. split; [apply hears_arrival|]. by rewrite E.
    + done.
    + by intros ->.
Defined.

Definition new_room (failing : nat) : app_state room :=
  {| usPublishPacketIdentifier := 0; usPacketTypeReceived := 0; ulGlobalEntryTimeMs := 0;
     world := {| r_events := []; r_clock := 0; r_phase := Stopped; r_failing := failing |} |}.

(** One voice is reported before the minute is over. *)
Example one_report : let '(r, s) := listen 6 10 ([], []) (new_room 0) in
  r = Ok (enc32 VAD_VOICE_RECORDED, enc32 440) /\ messages (r_events (world s)) = ["Voice detected with most energy at 440 Hz"] /\ r_phase (world s) = Stopped.
Proof. vm_compute. done. Qed.

Lemma publish_protocol_witness : exists s' es,
  publishToAWSTopic 6 "hello" (new_room 5) = (Ok tt, s') /\ events (world s') = [] ++ es /\ publishes "hello" es.
Proof. exact (publish_protocol 6 "hello" (new_room 5) (le_n 6)). Defined.

Definition minute_fuel : nat := Z.to_nat 70000.
Lemma minute_enough : enough minute_fuel.
Proof. unfold enough, minute_fuel. rewrite Z2Nat.id by lia. reflexivity. Qed.
Lemma room_fast : 60 * slowest <= 2147483648 * cycles_per_tick.
Proof. cbn. lia. Qed.

Lemma voices_reported_witness :
  (forall v, fit v -> exists v' s' es, listen 6 minute_fuel v (new_room 0) = (Ok v', s') /\ fit v' /\
     events (world s') = events (world (new_room 0)) ++ es /\ phase (world s') = Stopped /\ reports es) /\
  (exists r s' es, mainTask 6 1 5 minute_fuel (new_room 0) = (r, s') /\ events (world s') = events (world (new_room 0)) ++ es /\
     task_post (new_room 0) r es s').
Proof. exact (voices_reported 6 5 1 minute_fuel (new_room 0) (le_n 6) room_fast minute_enough). Defined.

(** ** The start: keys are provisioned once *)

(** The byte kept for the first boot, and how often keys were provisioned. *)
Class StartLaws (W : Type) {SO : StartOps W} := {
  kept : W -> option Z;
  provisioned : W -> nat;
  same (w w' : W) : Prop := kept w' = kept w /\ provisioned w' = provisioned w;
  sl_get : forall w, let r := psa_its_get FIRST_BOOT_ITS_UID 0 1 w in same w r.2 /\
    match kept w with Some b => r.1 = (PSA_SUCCESS, [b]) | None => r.1.1 <> PSA_SUCCESS end;
  sl_set : forall b f w, let r := psa_its_set FIRST_BOOT_ITS_UID [b] f w in provisioned r.2 = provisioned w /\
    kept r.2 = if r.1 =? PSA_SUCCESS then Some b else kept w;
  sl_provision : forall w, kept (vDevModeKeyProvisioning w) = kept w /\ provisioned (vDevModeKeyProvisioning w) = S (provisioned w);
  sl_import : forall a k h w, same w (psa_import_key a k h w).2;
  sl_interface : forall w, same w (tfm_ns_interface_init w);
  sl_version : forall w, same w (GetImageVersionPSA w);
  sl_calloc : forall w, same w (mbedtls_platform_set_calloc_free w);
  sl_network : forall w, same w (vApplicationIPInit w);
  sl_scheduler : forall w, same w (vTaskStartScheduler w)
}.

Section Start.
Context {W : Type} {SO : StartOps W} {SL : StartLaws W}.
Implicit Types s : start_state W.

Lemma wp_machine_call {A B} (f : W -> A * W) (k : A -> ST (start_state W) B) s Q :
  wp (k (f (machine s)).1) (set_machine (f (machine s)).2 s) Q -> wp (machine_call f ≫= k) s Q.
Proof. intros H. apply wp_bind. unfold wp, machine_call. by destruct (f (machine s)). Qed.

Lemma wp_is_first_boot s : wp is_first_boot s (fun r s' => same (machine s) (machine s') /\
  r = Ok (negb (bool_decide (kept (machine s) = Some BOOT_PATTERN)))).
Proof.
  unfold is_first_boot. apply wp_machine_call. destruct (sl_get (machine s)) as [Hs H].
  destruct (psa_its_get _ _ _ _) as [[st data] w]. cbn [fst snd] in *. destruct (kept (machine s)) as [b|].
  - injection H as -> ->. cbn [negb]. rewrite Z.eqb_refl. cbn [negb default lookup]. cbn.
    destruct (Z.eqb_spec b BOOT_PATTERN) as [->|Hb]; apply wp_ret; (split; [exact Hs|]).
    + by rewrite bool_decide_eq_true_2.
    + rewrite bool_decide_eq_false_2; [done|congruence].
  - rewrite (proj2 (Z.eqb_neq _ _) H). apply wp_ret. by split.
Qed.

Lemma wp_provision_key s : wp ota_privision_code_signing_key s (fun r s' => same (machine s) (machine s') /\ exists st, r = Ok st).
Proof.
  unfold ota_privision_code_signing_key. destruct (convert_pem_to_der _ _ _) as [st der]. destruct (negb (st =? 0)).
  - apply wp_ret. split; [by split|by eexists].
  - apply wp_bind. apply wp_machine_call. pose proof (sl_import {|
      key_usage := PSA_KEY_USAGE_VERIFY_HASH; key_algorithm := PSA_ALG_RSA_PSS_ANY_SALT_SHA_256;
      key_type := PSA_KEY_TYPE_RSA_PUBLIC_KEY; key_bits := 2048; key_lifetime := PSA_KEY_LIFETIME_PERSISTENT;
      key_id := xOTACodeVerifyKeyHandle s |} der (xOTACodeVerifyKeyHandle s) (machine s)) as H.
    destruct (psa_import_key _ _ _ _) as [[st' h] w]. apply wp_bind, wp_modify, wp_ret. split; [exact H|by eexists].
Qed.

(** A boot provisions the keys unless the byte is there, and then tries to
    keep the byte. *)
Lemma boot_provisions s : exists s', main s = (Ok tt, s') /\
  if bool_decide (kept (machine s) = Some BOOT_PATTERN) then same (machine s) (machine s')
  else provisioned (machine s') = S (provisioned (machine s)) /\
       (kept (machine s') = Some BOOT_PATTERN \/ kept (machine s') = kept (machine s)).
Proof.
  enough (wp main s (fun r s' => r = Ok tt /\
    if bool_decide (kept (machine s) = Some BOOT_PATTERN) then same (machine s) (machine s')
    else provisioned (machine s') = S (provisioned (machine s)) /\
         (kept (machine s') = Some BOOT_PATTERN \/ kept (machine s') = kept (machine s)))) as [H1 H2].
  { exists (main s).2. rewrite <- H1. by rewrite <- surjective_pairing. }
  assert (same (machine s) (mbedtls_platform_set_calloc_free (GetImageVersionPSA (tfm_ns_interface_init (machine s))))) as [C1 C2].
  { destruct (sl_interface (machine s)), (sl_version (tfm_ns_interface_init (machine s))),
      (sl_calloc (GetImageVersionPSA (tfm_ns_interface_init (machine s)))). split; congruence. }
  do 3 apply wp_bind, wp_modify.
  apply wp_bind. eapply wp_mono; [apply wp_is_first_boot|]. intros r s1 [[E1 E2] ->]. cbn [machine set_machine] in *.
  rewrite C1 in *. rewrite C2 in *. apply wp_bind.
  assert (forall s2 Q, Q (Ok tt) (set_machine (vTaskStartScheduler (vApplicationIPInit (machine s2))) s2) ->
    wp (machine_does vApplicationIPInit;; machine_does vTaskStartScheduler) s2 Q) as Hend.
  { intros s2 Q HQ. apply wp_bind, wp_modify, wp_modify, HQ. }
  assert (forall w, same w (vTaskStartScheduler (vApplicationIPInit w))) as Hsame.
  { intros w. destruct (sl_network w) as [N1 N2], (sl_scheduler (vApplicationIPInit w)) as [S1 S2]. split; congruence. }
  destruct (bool_decide _); cbn [negb].
  - apply wp_ret, Hend. split; [done|]. cbn. destruct (Hsame (machine s1)) as [H1 H2]. split; congruence.
  - apply wp_bind, wp_modify, wp_bind. eapply wp_mono; [apply wp_provision_key|]. intros r s2 [[F1 F2] [st ->]].
    destruct (sl_provision (machine s1)) as [G1 G2]. cbn [machine set_machine] in *.
    unfold write_boot_pattern. apply wp_machine_call, wp_ret, Hend. split; [done|]. cbn.
    destruct (sl_set BOOT_PATTERN PSA_STORAGE_FLAG_NONE (machine s2)) as [K1 K2].
    destruct (Hsame (psa_its_set FIRST_BOOT_ITS_UID [BOOT_PATTERN] PSA_STORAGE_FLAG_NONE (machine s2)).2) as [H1 H2].
    split; [congruence|]. destruct (_ =? PSA_SUCCESS); [left|right]; congruence.
Qed.

(** Any number of boots after the byte was kept provisions nothing. *)
Fixpoint boots (n : nat) : ST (start_state W) unit :=
  match n with O => mret tt | S n => main;; boots n end.

Lemma provisioned_once n s : kept (machine s) = Some BOOT_PATTERN ->
  exists s', boots n s = (Ok tt, s') /\ provisioned (machine s') = provisioned (machine s).
Proof.
  revert s. induction n as [|n IH]; intros s Hk; [by exists s|]. cbn [boots].
  destruct (boot_provisions s) as (s1 & E & H). rewrite bool_decide_eq_true_2 in H by exact Hk. destruct H as [H1 H2].
  destruct (IH s1) as (s' & E' & H'); [congruence|]. exists s'. rewrite (bind_ok _ _ _ _ _ E). split; [exact E'|congruence].
Qed.

(** The product of the sizes wraps around: a block of no bytes for 2^32. *)
Example calloc_wraps s : prvCalloc 65536 65536 s = prvCalloc 0 0 s.
Proof. reflexivity. Qed.
End Start.

(** A board whose internal storage works. *)
Record board : Type := { b_byte : option Z; b_count : nat }.

#[export] Instance board_ops : StartOps board := {
  PSA_STORAGE_FLAG_NONE := 0;
  PSA_KEY_USAGE_VERIFY_HASH := 8192;
  PSA_ALG_RSA_PSS_ANY_SALT_SHA_256 := 0x06001309;
  PSA_KEY_TYPE_RSA_PUBLIC_KEY := 0x4001;
  PSA_KEY_LIFETIME_PERSISTENT := 1;
  psa_its_get _ _ _ b := match b_byte b with Some x => (PSA_SUCCESS, [x], b) | None => (-140, [], b) end;
  psa_its_set _ data _ b := (PSA_SUCCESS, {| b_byte := data !! 0%nat; b_count := b_count b |});
  vDevModeKeyProvisioning b := {| b_byte := b_byte b; b_count := S (b_count b) |};
  convert_pem_to_der _ _ _ := (0, [48]);
  psa_import_key _ _ h b := (PSA_SUCCESS, h, b);
  psa_generate_random n b := (PSA_SUCCESS, replicate (Z.to_nat n) 4, b);
  pvPortMalloc n b := (Some 4096, b);
  memset _ _ _ b := b;
  tfm_ns_interface_init b := b;
  GetImageVersionPSA b := b;
  mbedtls_platform_set_calloc_free b := b;
  vApplicationIPInit b := b;
  xTaskCreate_mainTask b := b;
  vTaskStartScheduler b := b
}.

#[export] Instance board_laws : StartLaws board.
Proof.
  refine {| kept := b_byte; provisioned := b_count |}; try done.
  intros [[x|] n]; cbn; done.
Defined.

(** Three boots of a new board. *)
Example new_board_boots : (boots 3 {| xOTACodeVerifyKeyHandle := 0xAA; machine := {| b_byte := None; b_count := 0 |} |}).2 =
  {| xOTACodeVerifyKeyHandle := 0xAA; machine := {| b_byte := Some BOOT_PATTERN; b_count := 1 |} |}.
Proof. reflexivity. Qed.
