(* ===== verification/Smsc9220.v ===== *)
(** * The Ethernet driver (vad_an552/ns_side/smsc9220_eth_drv.c)

    The registers are those of any device of the class [EthOps], with the
    delay function that the driver is given.  A function returns its value or
    raises its error; the two loops on the FIFOs move a frame between bytes
    and words. *)
From Stdlib Require Import ZArith Lia.
From stdpp Require Import base list numbers options.
From S2P Require Import Prelude.
From S2P Require Import FlashFsDefs.
From S2P Require Import I2sDriver.

#[local] Set Default Proof Using "Type*".

Definition SMSC9220_ERROR_NONE : Z := 0.
Definition SMSC9220_ERROR_TIMEOUT : Z := 1.
Definition SMSC9220_ERROR_BUSY : Z := 2.
Definition SMSC9220_ERROR_PARAM : Z := 3.
Definition SMSC9220_ERROR_INTERNAL : Z := 4.

(** Times in milliseconds. *)
Definition RESET_TIME_OUT_MS : nat := 10.
Definition REG_WRITE_TIME_OUT_MS : nat := 50.
Definition PHY_RESET_TIME_OUT_MS : Z := 100.
Definition INIT_FINISH_DELAY : Z := 2000.

(** smsc9220_eth_reg_map_t *)
Inductive eth_reg : Type :=
| rx_data_port | tx_data_port | rx_status_port | rx_status_peek | tx_status_port | tx_status_peek
| id_revision | irq_cfg | irq_status | irq_enable | byte_test | fifo_level_irq | rx_cfg | tx_cfg | hw_cfg
| rx_datapath_ctrl | rx_fifo_inf | tx_fifo_inf | pmt_ctrl | gpio_cfg | gptimer_cfg | gptimer_count | word_swap
| free_run_counter | rx_dropped_frames | mac_csr_cmd | mac_csr_data | afc_cfg | eeprom_cmd | eeprom_data.

Definition MAC_CSR_CMD_RW_INDEX : Z := 30.
Definition MAC_CSR_CMD_BUSY_INDEX : Z := 31.
Definition MAC_CSR_CMD_ADDRESS_MASK : Z := 15.
Definition MAC_REG_CR_RXEN_INDEX : Z := 2.
Definition MAC_REG_CR_TXEN_INDEX : Z := 3.
Definition MAC_REG_MII_ACC_BUSY_INDEX : Z := 0.
Definition MAC_REG_MII_ACC_WRITE_INDEX : Z := 1.
Definition MAC_REG_MII_ACC_PHYADDR_INDEX : Z := 11.
Definition MAC_REG_MII_ACC_MII_REG_MASK : Z := 31.
Definition MAC_REG_MII_ACC_MII_REG_OFFSET : Z := 6.
Definition SMSC9220_MAC_REG_OFFSET_CR : Z := 1.
Definition SMSC9220_MAC_REG_OFFSET_ADDRH : Z := 2.
Definition SMSC9220_MAC_REG_OFFSET_ADDRL : Z := 3.
Definition SMSC9220_MAC_REG_OFFSET_MII_ACC : Z := 6.
Definition SMSC9220_MAC_REG_OFFSET_MII_DATA : Z := 7.
Definition SMSC9220_PHY_REG_OFFSET_BCTRL : Z := 0.
Definition SMSC9220_PHY_REG_OFFSET_ID1 : Z := 2.
Definition SMSC9220_PHY_REG_OFFSET_ID2 : Z := 3.
Definition SMSC9220_PHY_REG_OFFSET_ANEG_ADV : Z := 4.
Definition SMSC9220_FIFO_LEVEL_IRQ_MASK : Z := 255.
Definition SMSC9220_FIFO_LEVEL_IRQ_LEVEL_MAX : Z := SMSC9220_FIFO_LEVEL_IRQ_MASK.
Definition SMSC9220_FIFO_LEVEL_IRQ_LEVEL_MIN : Z := 0.
Definition SMSC9220_FIFO_LEVEL_IRQ_RX_STATUS_POS : Z := 0.
Definition SMSC9220_INTERRUPT_RX_STATUS_FIFO_LEVEL : Z := 3.

Class EthOps (W : Type) := {
  eth_read : eth_reg -> W -> Z * W;
  eth_write : eth_reg -> Z -> W -> W;
  eth_sleep : Z -> W -> W
}.

(** [dev->data] and the registers; [wait_ms]: whether the pointer is set. *)
Record smsc9220_eth_dev_t (W : Type) : Type := {
  state : Z;
  wait_ms : bool;
  ongoing_packet_length : Z;
  ongoing_packet_length_sent : Z;
  registers : W
}.
Arguments state {W} _.
Arguments wait_ms {W} _.
Arguments ongoing_packet_length {W} _.
Arguments ongoing_packet_length_sent {W} _.
Arguments registers {W} _.

(** ** Bits and fields of a word *)

Definition SET_BIT (w i : Z) : Z := Z.lor w (Z.shiftl 1 i).
Definition CLR_BIT (w i : Z) : Z := clear_bits w (Z.shiftl 1 i).
Definition GET_BIT (w i : Z) : bool := negb (Z.land w (Z.shiftl 1 i) =? 0).
Definition SET_BIT_FIELD (w mask off value : Z) : Z := Z.lor w (w32 (Z.shiftl (Z.land value mask) off)).
Definition CLR_BIT_FIELD (w mask off value : Z) : Z := clear_bits w (w32 (Z.shiftl (Z.land value mask) off)).
Definition GET_BIT_FIELD (w mask off : Z) : Z := Z.land (Z.shiftr w off) mask.

Section Driver.
Context {W : Type} {EO : EthOps W}.
Implicit Types d : smsc9220_eth_dev_t W.
Abbreviation ETH := (ST (smsc9220_eth_dev_t W)).

Definition set_registers (x : W) d : smsc9220_eth_dev_t W :=
  {| state := state d; wait_ms := wait_ms d; ongoing_packet_length := ongoing_packet_length d;
     ongoing_packet_length_sent := ongoing_packet_length_sent d; registers := x |}.
Definition set_ongoing (length sent : Z) d : smsc9220_eth_dev_t W :=
  {| state := state d; wait_ms := wait_ms d; ongoing_packet_length := length;
     ongoing_packet_length_sent := sent; registers := registers d |}.

Definition load_reg (r : eth_reg) : ETH Z := fun d =>
  let '(x, w) := eth_read r (registers d) in (Ok x, set_registers w d).
Definition store_reg (r : eth_reg) (x : Z) : ETH unit := modify (fun d => set_registers (eth_write r x (registers d)) d).

(** [SET_BIT(register_map->r, i)] and the like: a read and a write. *)
Definition update_reg (r : eth_reg) (f : Z -> Z) : ETH unit := x ← load_reg r; store_reg r (f x).
Definition reg_bit (r : eth_reg) (i : Z) : ETH bool := x ← load_reg r; mret (GET_BIT x i).

(** [if (dev->data->wait_ms) dev->data->wait_ms(n);] *)
Definition wait_if_set (n : Z) : ETH unit :=
  modify (fun d => if wait_ms d then set_registers (eth_sleep n (registers d)) d else d).

(** [do { body; time_out--; } while (time_out && busy); if (!time_out) return TIMEOUT;] *)
Fixpoint do_while_timeout {A} (time_out : nat) (body : ETH A) (busy : A -> ETH bool) : ETH unit :=
  match time_out with
  | O => raise SMSC9220_ERROR_TIMEOUT
  | S time_out =>
      a ← body;
      match time_out with
      | O => raise SMSC9220_ERROR_TIMEOUT
      | S _ =>
          b ← busy a;
          if (b : bool) then do_while_timeout time_out body busy else mret tt
      end
  end.

(** ** The FIFOs *)

(** [data[off]], ..., [data[off + n - 1]] *)
Definition payload_at (data : list Z) (off n : Z) : ETH (list Z) :=
  if off + n <=? Z.of_nat (length data) then mret (take (Z.to_nat n) (drop (Z.to_nat off) data))
  else raise UNDEFINED.

Definition fill_tx_fifo (data : list Z) (size_bytes : Z) : ETH unit :=
  let remainder_bytes := size_bytes mod 4 in
  let filler_bytes := 4 - remainder_bytes in
  b ← payload_at data 0 remainder_bytes;
  store_reg tx_data_port (dec32 (replicate (Z.to_nat filler_bytes) 0 ++ b) 0);;
  for_acc (Z.to_nat ((size_bytes - remainder_bytes) / 4)) 0 tt (fun i _ =>
    b ← payload_at data (remainder_bytes + 4 * i) 4;
    store_reg tx_data_port (dec32 b 0)).

(** The caller's array afterwards. *)
Definition empty_rx_fifo (data : list Z) (size_bytes : Z) : ETH (list Z) :=
  let remainder_bytes := size_bytes mod 4 in
  let words := (size_bytes - remainder_bytes) / 4 in
  data ← for_acc (Z.to_nat words) 0 data (fun i data =>
    w ← load_reg rx_data_port;
    memcpy data (4 * i) (enc32 w) 4);
  data ← (if 0 <? remainder_bytes
          then w ← load_reg rx_data_port; memcpy data (4 * words) (enc32 w) remainder_bytes
          else mret data);
  load_reg rx_status_port;;
  mret data.

(** ** Registers of the MAC and of the PHY *)

Definition smsc9220_mac_regread (regoffset : Z) : ETH Z :=
  busy ← reg_bit mac_csr_cmd MAC_CSR_CMD_BUSY_INDEX;
  if (busy : bool) then raise SMSC9220_ERROR_BUSY
  else
    store_reg mac_csr_cmd (SET_BIT (SET_BIT (GET_BIT_FIELD regoffset MAC_CSR_CMD_ADDRESS_MASK 0)
      MAC_CSR_CMD_RW_INDEX) MAC_CSR_CMD_BUSY_INDEX);;
    do_while_timeout REG_WRITE_TIME_OUT_MS (load_reg byte_test;; wait_if_set 1)
      (fun _ => reg_bit mac_csr_cmd MAC_CSR_CMD_BUSY_INDEX);;
    load_reg mac_csr_data.

(** The loop's condition takes the register and the truth value of its bit. *)
Definition smsc9220_mac_regwrite (regoffset data : Z) : ETH unit :=
  busy ← reg_bit mac_csr_cmd MAC_CSR_CMD_BUSY_INDEX;
  if (busy : bool) then raise SMSC9220_ERROR_BUSY
  else
    store_reg mac_csr_data data;;
    store_reg mac_csr_cmd (SET_BIT (CLR_BIT (GET_BIT_FIELD regoffset MAC_CSR_CMD_ADDRESS_MASK 0)
      MAC_CSR_CMD_RW_INDEX) MAC_CSR_CMD_BUSY_INDEX);;
    do_while_timeout REG_WRITE_TIME_OUT_MS (load_reg byte_test;; wait_if_set 1)
      (fun _ => x ← load_reg mac_csr_cmd;
                b ← reg_bit mac_csr_cmd MAC_CSR_CMD_BUSY_INDEX;
                mret (negb (Z.land x (Z.b2z b) =? 0))).

(** [if (f(...)) return SMSC9220_ERROR_INTERNAL;] *)
Definition or_internal {A} (m : ETH A) : ETH A := or_return m SMSC9220_ERROR_INTERNAL.

Definition phy_cmd (regoffset : Z) : Z :=
  SET_BIT_FIELD (SET_BIT 0 MAC_REG_MII_ACC_PHYADDR_INDEX) MAC_REG_MII_ACC_MII_REG_MASK
    MAC_REG_MII_ACC_MII_REG_OFFSET regoffset.

(** Both functions wait for the MII to be done. *)
Definition phy_wait : ETH unit :=
  do_while_timeout REG_WRITE_TIME_OUT_MS
    (wait_if_set 1;; or_internal (smsc9220_mac_regread SMSC9220_MAC_REG_OFFSET_MII_ACC))
    (fun val => mret (GET_BIT val MAC_REG_MII_ACC_BUSY_INDEX)).

Definition smsc9220_phy_regread (regoffset : Z) : ETH Z :=
  val ← or_internal (smsc9220_mac_regread SMSC9220_MAC_REG_OFFSET_MII_ACC);
  if GET_BIT val MAC_REG_MII_ACC_BUSY_INDEX then raise SMSC9220_ERROR_BUSY
  else
    or_internal (smsc9220_mac_regwrite SMSC9220_MAC_REG_OFFSET_MII_ACC
      (SET_BIT (CLR_BIT (phy_cmd regoffset) MAC_REG_MII_ACC_WRITE_INDEX) MAC_REG_MII_ACC_BUSY_INDEX));;
    phy_wait;;
    or_internal (smsc9220_mac_regread SMSC9220_MAC_REG_OFFSET_MII_DATA).

Definition smsc9220_phy_regwrite (regoffset data : Z) : ETH unit :=
  val ← or_internal (smsc9220_mac_regread SMSC9220_MAC_REG_OFFSET_MII_ACC);
  if GET_BIT val MAC_REG_MII_ACC_BUSY_INDEX then raise SMSC9220_ERROR_BUSY
  else
    or_internal (smsc9220_mac_regwrite SMSC9220_MAC_REG_OFFSET_MII_DATA (Z.land data 65535));;
    or_internal (smsc9220_mac_regwrite SMSC9220_MAC_REG_OFFSET_MII_ACC
      (SET_BIT (SET_BIT (phy_cmd regoffset) MAC_REG_MII_ACC_WRITE_INDEX) MAC_REG_MII_ACC_BUSY_INDEX));;
    phy_wait.

(** A result that is not looked at; the variable keeps its initial 0 when the
    read fails. *)
Definition or_zero (m : ETH Z) : ETH Z := r ← attempt m; mret (match r with Ok x => x | Err _ => 0 end).
Definition ignore {A} (m : ETH A) : ETH unit := attempt m;; mret tt.

(** ** Operations *)

Definition smsc9220_read_id : ETH Z := load_reg id_revision.

Definition smsc9220_soft_reset : ETH unit :=
  update_reg hw_cfg (fun x => SET_BIT x 0);;
  do_while_timeout RESET_TIME_OUT_MS (wait_if_set 1) (fun _ => reg_bit hw_cfg 1).

Definition smsc9220_set_txfifo (val : Z) : ETH unit :=
  if (2 <=? val) && (val <=? 14) then store_reg hw_cfg (w32 (Z.shiftl val 16)) else mret tt.

Definition smsc9220_set_fifo_level_irq (irq_level_pos level : Z) : ETH unit :=
  if level >? SMSC9220_FIFO_LEVEL_IRQ_LEVEL_MAX then raise SMSC9220_ERROR_PARAM
  else
    update_reg fifo_level_irq (fun x =>
      CLR_BIT_FIELD x SMSC9220_FIFO_LEVEL_IRQ_MASK irq_level_pos SMSC9220_FIFO_LEVEL_IRQ_MASK);;
    update_reg fifo_level_irq (fun x => SET_BIT_FIELD x SMSC9220_FIFO_LEVEL_IRQ_MASK irq_level_pos level).

Definition smsc9220_wait_eeprom : ETH unit :=
  do_while_timeout REG_WRITE_TIME_OUT_MS (wait_if_set 1) (fun _ => reg_bit eeprom_cmd 31).

Definition smsc9220_disable_all_interrupts : ETH unit := store_reg irq_enable 0.
Definition smsc9220_clear_all_interrupts : ETH unit := store_reg irq_status 4294967295.
Definition smsc9220_enable_interrupt (source : Z) : ETH unit := update_reg irq_enable (fun x => SET_BIT x source).
Definition smsc9220_disable_interrupt (source : Z) : ETH unit := update_reg irq_enable (fun x => CLR_BIT x source).
Definition smsc9220_clear_interrupt (source : Z) : ETH unit := update_reg irq_status (fun x => SET_BIT x source).
Definition smsc9220_get_interrupt (source : Z) : ETH bool := reg_bit irq_status source.

Definition smsc9220_init_irqs : ETH unit :=
  smsc9220_disable_all_interrupts;;
  smsc9220_clear_all_interrupts;;
  update_reg irq_cfg (fun x => SET_BIT_FIELD x 255 24 34);;
  update_reg irq_cfg (fun x => SET_BIT x 8).

Definition smsc9220_check_phy : ETH unit :=
  phyid1 ← or_internal (smsc9220_phy_regread SMSC9220_PHY_REG_OFFSET_ID1);
  phyid2 ← or_internal (smsc9220_phy_regread SMSC9220_PHY_REG_OFFSET_ID2);
  if ((phyid1 =? 65535) && (phyid2 =? 65535)) || ((phyid1 =? 0) && (phyid2 =? 0))
  then raise SMSC9220_ERROR_INTERNAL else mret tt.

Definition smsc9220_reset_phy : ETH unit :=
  x ← or_internal (smsc9220_phy_regread SMSC9220_PHY_REG_OFFSET_BCTRL);
  or_internal (smsc9220_phy_regwrite SMSC9220_PHY_REG_OFFSET_BCTRL (SET_BIT x 15)).

Definition smsc9220_advertise_cap : ETH unit :=
  aneg_adv ← or_zero (smsc9220_phy_regread SMSC9220_PHY_REG_OFFSET_ANEG_ADV);
  ignore (smsc9220_phy_regwrite SMSC9220_PHY_REG_OFFSET_ANEG_ADV
    (SET_BIT (SET_BIT (SET_BIT (SET_BIT (SET_BIT (SET_BIT aneg_adv 5) 6) 7) 8) 10) 11)).

Definition smsc9220_enable_xmit : ETH unit := update_reg tx_cfg (fun x => SET_BIT x 1).
Definition smsc9220_disable_xmit : ETH unit := update_reg tx_cfg (fun x => CLR_BIT x 1).

(** A change of the control register of the MAC. *)
Definition mac_control (f : Z -> Z) : ETH unit :=
  mac_cr ← or_zero (smsc9220_mac_regread SMSC9220_MAC_REG_OFFSET_CR);
  ignore (smsc9220_mac_regwrite SMSC9220_MAC_REG_OFFSET_CR (f mac_cr)).

Definition smsc9220_enable_mac_xmit : ETH unit := mac_control (fun x => SET_BIT x MAC_REG_CR_TXEN_INDEX).
Definition smsc9220_disable_mac_xmit : ETH unit := mac_control (fun x => CLR_BIT x MAC_REG_CR_TXEN_INDEX).
Definition smsc9220_enable_mac_recv : ETH unit := mac_control (fun x => SET_BIT x MAC_REG_CR_RXEN_INDEX).
Definition smsc9220_disable_mac_recv : ETH unit := mac_control (fun x => CLR_BIT x MAC_REG_CR_RXEN_INDEX).

Definition smsc9220_check_id : ETH Z :=
  id ← smsc9220_read_id;
  mret (if GET_BIT_FIELD id 65535 16 =? 37408 then 0 else 1).

Definition smsc9220_establish_link : ETH unit :=
  bcr ← or_zero (smsc9220_phy_regread SMSC9220_PHY_REG_OFFSET_BCTRL);
  ignore (smsc9220_phy_regwrite SMSC9220_PHY_REG_OFFSET_BCTRL (SET_BIT (SET_BIT bcr 12) 9));;
  update_reg hw_cfg (fun x => SET_BIT x 20).

(** [mac]: whether the pointer is not null; the six bytes. *)
Definition smsc9220_read_mac_address (mac : bool) : ETH (list Z) :=
  if negb mac then raise SMSC9220_ERROR_PARAM
  else
    mac_high ← or_internal (smsc9220_mac_regread SMSC9220_MAC_REG_OFFSET_ADDRH);
    mac_low ← or_internal (smsc9220_mac_regread SMSC9220_MAC_REG_OFFSET_ADDRL);
    mret [Z.land mac_low 255; Z.land (Z.shiftr mac_low 8) 255; Z.land (Z.shiftr mac_low 16) 255;
          Z.land (Z.shiftr mac_low 24) 255; Z.land mac_high 255; Z.land (Z.shiftr mac_high 8) 255].

Definition smsc9220_get_tx_data_fifo_size : ETH Z :=
  x ← load_reg hw_cfg;
  mret (w32 (GET_BIT_FIELD x 15 16 * 1024 - 512)).

(** [error = f(...); if (error != NONE) return error;] for a status. *)
Definition or_return_status (m : ETH Z) : ETH unit := x ← m; check x.

Definition smsc9220_init (wait_ms_function : bool) : ETH unit :=
  if negb wait_ms_function then raise SMSC9220_ERROR_PARAM
  else
    modify (fun d => {| state := state d; wait_ms := true; ongoing_packet_length := ongoing_packet_length d;
                        ongoing_packet_length_sent := ongoing_packet_length_sent d; registers := registers d |});;
    or_return_status smsc9220_check_id;;
    smsc9220_soft_reset;;
    smsc9220_set_txfifo 5;;
    update_reg afc_cfg (fun x => SET_BIT_FIELD x 15 4 4);;
    update_reg afc_cfg (fun x => SET_BIT_FIELD x 255 8 55);;
    update_reg afc_cfg (fun x => SET_BIT_FIELD x 255 16 110);;
    smsc9220_wait_eeprom;;
    store_reg gpio_cfg 0;;
    update_reg gpio_cfg (fun x => SET_BIT x 16);;
    update_reg gpio_cfg (fun x => SET_BIT x 17);;
    update_reg gpio_cfg (fun x => SET_BIT x 18);;
    update_reg gpio_cfg (fun x => SET_BIT x 28);;
    update_reg gpio_cfg (fun x => SET_BIT x 29);;
    update_reg gpio_cfg (fun x => SET_BIT x 30);;
    smsc9220_init_irqs;;
    smsc9220_check_phy;;
    smsc9220_reset_phy;;
    wait_if_set PHY_RESET_TIME_OUT_MS;;
    phyreset ← smsc9220_phy_regread SMSC9220_PHY_REG_OFFSET_BCTRL;
    if GET_BIT phyreset 15 then raise SMSC9220_ERROR_INTERNAL
    else
      smsc9220_advertise_cap;;
      smsc9220_establish_link;;
      smsc9220_enable_mac_xmit;;
      smsc9220_enable_xmit;;
      smsc9220_enable_mac_recv;;
      wait_if_set INIT_FINISH_DELAY;;
      modify (fun d => {| state := 1; wait_ms := wait_ms d; ongoing_packet_length := ongoing_packet_length d;
                          ongoing_packet_length_sent := ongoing_packet_length_sent d; registers := registers d |}).

(** ** Frames *)

(** The two command words of a segment. *)
Definition tx_command_a (first last : bool) (size : Z) : Z :=
  let x := if last then SET_BIT 0 12 else 0 in
  let x := if first then SET_BIT x 13 else x in
  SET_BIT_FIELD (SET_BIT_FIELD x 2047 0 size) 31 16 (4 - size mod 4).
Definition tx_command_b (size : Z) : Z := SET_BIT_FIELD (SET_BIT_FIELD 0 2047 0 size) 65535 16 size.

(** [data] is [None] for a null pointer. *)
Definition smsc9220_send_by_chunks (total_payload_length : Z) (is_new_packet : bool) (data : option (list Z))
    (current_size : Z) : ETH unit :=
  match data with
  | None => raise SMSC9220_ERROR_PARAM
  | Some data =>
      d ← get;
      (if is_new_packet then modify (set_ongoing total_payload_length 0)
       else if negb (ongoing_packet_length d =? total_payload_length) ||
               (total_payload_length <=? ongoing_packet_length_sent d)
       then raise SMSC9220_ERROR_PARAM else mret tt);;
      x ← load_reg tx_fifo_inf;
      if current_size >? GET_BIT_FIELD x 65535 0 then raise SMSC9220_ERROR_INTERNAL
      else
        d ← get;
        let last := add32 (ongoing_packet_length_sent d) current_size =? total_payload_length in
        store_reg tx_data_port (tx_command_a is_new_packet last current_size);;
        store_reg tx_data_port (tx_command_b current_size);;
        fill_tx_fifo data current_size;;
        (if last then load_reg tx_status_port;; mret tt else mret tt);;
        modify (fun d => set_ongoing (ongoing_packet_length d)
                           (add32 (ongoing_packet_length_sent d) current_size) d)
  end.

Definition smsc9220_get_received_packet_count : ETH Z :=
  x ← load_reg rx_fifo_inf; mret (GET_BIT_FIELD x 255 16).

Definition smsc9220_peek_next_packet_size : ETH Z :=
  n ← smsc9220_get_received_packet_count;
  if negb (n =? 0) then x ← load_reg rx_status_peek; mret (GET_BIT_FIELD x 16383 16) else mret 0.

(** The caller's array afterwards. *)
Definition smsc9220_get_received_packet (data : option (list Z)) (dlen : Z) : ETH (list Z) :=
  match data with
  | None => raise SMSC9220_ERROR_PARAM
  | Some data =>
      packet_length_byte ← smsc9220_peek_next_packet_size;
      if negb (dlen =? packet_length_byte) then raise SMSC9220_ERROR_PARAM
      else empty_rx_fifo data packet_length_byte
  end.
End Driver.
