(* ===== verification/EthInterface.v ===== *)
(** * The network interface (vad_an552/ns_side/NetworkInterface.c)

    The glue between the Ethernet driver and the TCP/IP stack: its start, the
    output of a buffer, the interrupt handler, and a round of the task that
    receives.  The stack and the operating system are the class [NetOps]. *)
From Stdlib Require Import ZArith Lia.
From stdpp Require Import base list numbers options.
From S2P Require Import Prelude.
From S2P Require Import FlashFsDefs.
From S2P Require Import I2sDriver.
From S2P Require Import Smsc9220.

#[local] Set Default Proof Using "Type*".

(** A network buffer is known by its descriptor; [net_bytes] is the array
    that it points to.  [ulTaskNotifyTake] returns when the task was notified. *)
Class NetOps (N : Type) := {
  pxGetNetworkBufferWithDescriptor : Z -> N -> option Z * N;
  net_bytes : Z -> N -> list Z;
  net_set_bytes : Z -> list Z -> N -> N;
  net_set_length : Z -> Z -> N -> N;
  net_length : Z -> N -> Z;
  vReleaseNetworkBufferAndDescriptor : Z -> N -> N;
  eConsiderFrameForProcessing : list Z -> bool;       (* eProcessBuffer *)
  xSendEventStructToIPTask : Z -> N -> bool * N;      (* eNetworkRxEvent with the descriptor *)
  FreeRTOS_UpdateMACAddress : list Z -> N -> N;
  xTaskCreate : N -> N;
  xSemaphoreCreateMutex : N -> N;
  xSemaphoreTake : N -> N;
  xSemaphoreGive : N -> N;
  NVIC_ClearPendingIRQ : N -> N;
  vTaskNotifyGiveFromISR : N -> N;
  ulTaskNotifyTake : N -> N
}.

Record interface (W N : Type) : Type := { eth : smsc9220_eth_dev_t W; net : N }.
Arguments eth {W N} _.
Arguments net {W N} _.

Section Interface.
Context {W N : Type} {EO : EthOps W} {NO : NetOps N}.
Implicit Types s : interface W N.
Abbreviation IF := (ST (interface W N)).

Definition set_eth (x : smsc9220_eth_dev_t W) s : interface W N := {| eth := x; net := net s |}.
Definition set_net (x : N) s : interface W N := {| eth := eth s; net := x |}.

(** Calls of the driver and of the stack. *)
Definition on_eth {A} (m : ST (smsc9220_eth_dev_t W) A) : IF A := fun s =>
  let '(r, d) := m (eth s) in (r, set_eth d s).
Definition on_net {A} (f : N -> A * N) : IF A := fun s =>
  let '(a, n) := f (net s) in (Ok a, set_net n s).
Definition net_do (f : N -> N) : IF unit := modify (fun s => set_net (f (net s)) s).

(** A call whose error is only logged; one outside of the arrays is not. *)
Definition tried {A} (m : IF A) : IF (option A) :=
  r ← attempt m;
  match r with
  | Ok a => mret (Some a)
  | Err e => if e =? UNDEFINED then raise UNDEFINED else mret None
  end.

(** pdFALSE is an error, pdTRUE a success. *)
Definition pdFALSE : Z := 5.

(** The array of the MAC address is zero until it is read. *)
Definition xNetworkInterfaceInitialise : IF unit :=
  or_return (on_eth (smsc9220_init true)) pdFALSE;;
  attempt (on_eth (smsc9220_set_fifo_level_irq SMSC9220_FIFO_LEVEL_IRQ_RX_STATUS_POS SMSC9220_FIFO_LEVEL_IRQ_LEVEL_MIN));;
  r ← attempt (on_eth (smsc9220_read_mac_address true));
  net_do (FreeRTOS_UpdateMACAddress (match r with Ok mac => mac | Err _ => replicate 6 0 end));;
  net_do xSemaphoreCreateMutex;;
  net_do xTaskCreate.

(** The frame is the array of the descriptor; the result of the driver is only
    logged. *)
Definition xNetworkInterfaceOutput (pxDescriptor : Z) (xReleaseAfterSend : bool) : IF unit :=
  net_do xSemaphoreTake;;
  s ← get;
  tried (on_eth (smsc9220_send_by_chunks (net_length pxDescriptor (net s)) true
    (Some (net_bytes pxDescriptor (net s))) (net_length pxDescriptor (net s))));;
  net_do xSemaphoreGive;;
  if xReleaseAfterSend then net_do (vReleaseNetworkBufferAndDescriptor pxDescriptor) else mret tt.

Definition ETHERNET_Handler : IF unit :=
  b ← on_eth (smsc9220_get_interrupt SMSC9220_INTERRUPT_RX_STATUS_FIFO_LEVEL);
  if (b : bool) then
    on_eth (smsc9220_disable_interrupt SMSC9220_INTERRUPT_RX_STATUS_FIFO_LEVEL);;
    on_eth (smsc9220_clear_interrupt SMSC9220_INTERRUPT_RX_STATUS_FIFO_LEVEL);;
    net_do NVIC_ClearPendingIRQ;;
    net_do vTaskNotifyGiveFromISR
  else mret tt.

(** What is done with a frame that was received. *)
Definition pass_on (pxBufferDescriptor message_length : Z) : IF unit :=
  net_do (net_set_length pxBufferDescriptor message_length);;
  s ← get;
  if negb (eConsiderFrameForProcessing (net_bytes pxBufferDescriptor (net s)))
  then net_do (vReleaseNetworkBufferAndDescriptor pxBufferDescriptor)
  else
    ok ← on_net (xSendEventStructToIPTask pxBufferDescriptor);
    if (ok : bool) then mret tt
    else net_do (vReleaseNetworkBufferAndDescriptor pxBufferDescriptor).

(** A round of the loop of the task. *)
Definition smsc9220_Receive_task : IF unit :=
  on_eth (smsc9220_enable_interrupt SMSC9220_INTERRUPT_RX_STATUS_FIFO_LEVEL);;
  net_do ulTaskNotifyTake;;
  message_length ← on_eth smsc9220_peek_next_packet_size;
  if message_length =? 0 then mret tt
  else
    b ← on_net (pxGetNetworkBufferWithDescriptor message_length);
    match b with
    | None => mret tt
    | Some b =>
        s ← get;
        r ← tried (on_eth (smsc9220_get_received_packet (Some (net_bytes b (net s))) message_length));
        match r with
        | None => mret tt
        | Some data => net_do (net_set_bytes b data);; pass_on b message_length
        end
    end.
End Interface.
