(* ===== verification/SmscSpec.v ===== *)
(** * Frames through the FIFOs of the Ethernet controller

    The controller reads segments from the words that the driver writes
    ([decode]) and puts frames together from them ([assemble]); received
    frames are words and a status word each.  The device is any one with such
    FIFOs ([EthLaws]).  The receiving task gives each frame to the stack as it
    came, in order, or drops it, and keeps no buffer: [NetLaws] accounts for the
    buffers. *)
From Stdlib Require Import ZArith Lia.
From stdpp Require Import base list numbers relations options.
From S2P Require Import Prelude.
From S2P Require Import FlashFsDefs.
From S2P Require Import I2sDriver.
From S2P Require Import Smsc9220.
From S2P Require Import EthInterface.

#[local] Set Default Proof Using "Type*".

(** [tx_words w]: what was written to the transmit FIFO; [rx_words w],
    [rx_packets w]: what the receive FIFOs hold. *)
Class EthLaws (W : Type) {EO : EthOps W} := {
  tx_words : W -> list Z;
  rx_words : W -> list Z;
  rx_packets : W -> list Z;
  el_tx : forall x w, let w' := eth_write tx_data_port x w in
    tx_words w' = tx_words w ++ [x] /\ rx_words w' = rx_words w /\ rx_packets w' = rx_packets w;
  el_free : forall w, let w' := (eth_read tx_fifo_inf w).2 in
    tx_words w' = tx_words w /\ rx_words w' = rx_words w /\ rx_packets w' = rx_packets w;
  el_tx_status : forall w, let w' := (eth_read tx_status_port w).2 in
    tx_words w' = tx_words w /\ rx_words w' = rx_words w /\ rx_packets w' = rx_packets w;
  el_count : forall w, let '(x, w') := eth_read rx_fifo_inf w in
    (GET_BIT_FIELD x 255 16 = 0 <-> rx_packets w = []) /\
    tx_words w' = tx_words w /\ rx_words w' = rx_words w /\ rx_packets w' = rx_packets w;
  el_peek : forall w p ps, rx_packets w = p :: ps -> let '(x, w') := eth_read rx_status_peek w in
    x = p /\ tx_words w' = tx_words w /\ rx_words w' = rx_words w /\ rx_packets w' = rx_packets w;
  el_data : forall w x xs, rx_words w = x :: xs -> let '(y, w') := eth_read rx_data_port w in
    y = x /\ tx_words w' = tx_words w /\ rx_words w' = xs /\ rx_packets w' = rx_packets w;
  el_status : forall w p ps, rx_packets w = p :: ps -> let w' := (eth_read rx_status_port w).2 in
    tx_words w' = tx_words w /\ rx_words w' = rx_words w /\ rx_packets w' = ps;
  el_irq : forall w, let w' := (eth_read irq_enable w).2 in
    tx_words w' = tx_words w /\ rx_words w' = rx_words w /\ rx_packets w' = rx_packets w;
  el_set_irq : forall x w, let w' := eth_write irq_enable x w in
    tx_words w' = tx_words w /\ rx_words w' = rx_words w /\ rx_packets w' = rx_packets w
}.

(** ** Words and bytes *)

Fixpoint words_of (l : list Z) : list Z :=
  match l with
  | a :: b :: c :: d :: l => dec32 [a; b; c; d] 0 :: words_of l
  | _ => []
  end.

Definition bytes_of (ws : list Z) : list Z := concat (enc32 <$> ws).

Lemma four (l : list Z) n : length l = (4 * S n)%nat -> exists a b c d l', l = a :: b :: c :: d :: l' /\ length l' = (4 * n)%nat.
Proof.
  intros H. destruct l as [|a [|b [|c [|d l']]]]; cbn [length] in H; try lia.
  exists a, b, c, d, l'. split; [done|]. lia.
Qed.

Lemma enc32_dec32 a b c d : is_u8 a -> is_u8 b -> is_u8 c -> is_u8 d -> enc32 (dec32 [a; b; c; d] 0) = [a; b; c; d].
Proof.
  unfold is_u8. intros Ha Hb Hc Hd.
  change (dec32 [a; b; c; d] 0) with (a + 256 * b + 65536 * c + 16777216 * d).
  unfold enc32, w8. repeat f_equal; Z.to_euclidean_division_equations; lia.
Qed.

Lemma bytes_of_words n l : length l = (4 * n)%nat -> Forall is_u8 l -> bytes_of (words_of l) = l.
Proof.
  revert l. induction n as [|n IH]; intros l Hl Hu; [by destruct l|].
  destruct (four l n Hl) as (a & b & c & d & l' & -> & Hl').
  apply Forall_cons_1 in Hu as [Ha Hu]. apply Forall_cons_1 in Hu as [Hb Hu]. apply Forall_cons_1 in Hu as [Hc Hu].
  apply Forall_cons_1 in Hu as [Hd Hu]. cbn [words_of]. unfold bytes_of. cbn [fmap list_fmap concat].
  rewrite enc32_dec32 by done. cbn [app]. do 4 f_equal. by apply IH.
Qed.

Lemma words_of_app n l1 l2 : length l1 = (4 * n)%nat -> words_of (l1 ++ l2) = words_of l1 ++ words_of l2.
Proof.
  revert l1. induction n as [|n IH]; intros l1 Hl; [by destruct l1|].
  destruct (four l1 n Hl) as (a & b & c & d & l' & -> & Hl'). cbn [words_of app]. f_equal. by apply IH.
Qed.

Lemma length_words n l : length l = (4 * n)%nat -> length (words_of l) = n.
Proof.
  revert l. induction n as [|n IH]; intros l Hl; [by destruct l|].
  destruct (four l n Hl) as (a & b & c & d & l' & -> & Hl'). cbn [words_of length]. f_equal. by apply IH.
Qed.

(** ** Segments (the controller's side) *)

Record segment : Type := { sg_first : bool; sg_last : bool; sg_bytes : list Z }.

Fixpoint decode (fuel : nat) (ws : list Z) : option (list segment) :=
  match fuel, ws with
  | _, [] => Some []
  | S fuel, a :: b :: ws =>
      let size := Z.land a 2047 in
      let offset := Z.land (Z.shiftr a 16) 31 in
      let n := Z.to_nat ((offset + size + 3) / 4) in
      if (length ws <? n)%nat then None
      else
        cons {| sg_first := Z.testbit a 13; sg_last := Z.testbit a 12;
                sg_bytes := take (Z.to_nat size) (drop (Z.to_nat offset) (bytes_of (take n ws))) |} <$>
          decode fuel (drop n ws)
  | _, _ => None
  end.

(** The frames of a list of segments; [cur] is the frame that has begun. *)
Fixpoint assemble (cur : option (list Z)) (sgs : list segment) : option (list (list Z)) :=
  match sgs with
  | [] => match cur with None => Some [] | Some _ => None end
  | sg :: sgs =>
      match cur, sg_first sg with
      | None, true | Some _, false =>
          let bs := default [] cur ++ sg_bytes sg in
          if sg_last sg then cons bs <$> assemble None sgs else assemble (Some bs) sgs
      | _, _ => None
      end
  end.

Definition transmitted (ws : list Z) : option (list (list Z)) :=
  match decode (length ws) ws with Some sgs => assemble None sgs | None => None end.

(** ** Transmission *)

Section Transmit.
Context {W : Type} {EO : EthOps W} {EL : EthLaws W}.
Implicit Types d : smsc9220_eth_dev_t W.

(** [d'] is [d] after the words [ws] were written. *)
Record fed d (ws : list Z) d' : Prop := {
  fd_tx : tx_words (registers d') = tx_words (registers d) ++ ws;
  fd_rx : rx_words (registers d') = rx_words (registers d);
  fd_packets : rx_packets (registers d') = rx_packets (registers d);
  fd_state : state d' = state d;
  fd_length : ongoing_packet_length d' = ongoing_packet_length d;
  fd_sent : ongoing_packet_length_sent d' = ongoing_packet_length_sent d
}.

Lemma fed_refl d : fed d [] d.
Proof using Type. split; try done. by rewrite app_nil_r. Qed.

Lemma fed_trans d1 d2 d3 ws ws' : fed d1 ws d2 -> fed d2 ws' d3 -> fed d1 (ws ++ ws') d3.
Proof using Type. intros [] []. split; try congruence. rewrite app_assoc. congruence. Qed.

Lemma wp_tx x d : wp (store_reg tx_data_port x) d (fun r d' => r = Ok tt /\ fed d [x] d').
Proof using Type.
  apply wp_modify. split; [done|]. destruct (el_tx x (registers d)) as (H1 & H2 & H3). by split.
Qed.

Lemma wp_bytes_at {A} data off n (k : list Z -> ST _ A) d Q : 0 <= off -> 0 <= n -> off + n <= Z.of_nat (length data) ->
  wp (k (take (Z.to_nat n) (drop (Z.to_nat off) data))) d Q -> wp (payload_at data off n ≫= k) d Q.
Proof using Type.
  intros H1 H2 H3 Hk. apply wp_bind. unfold wp at 1, payload_at. by destruct (Z.leb_spec (off + n) (Z.of_nat (length data))); [|lia].
Qed.

Lemma words_of_one l : length l = 4%nat -> words_of l = [dec32 l 0].
Proof using Type. intros H. destruct l as [|a [|b [|c [|e [|]]]]]; done. Qed.

(** What goes into the data FIFO for a segment: the bytes behind a filler. *)
Definition padded (data : list Z) : list Z :=
  replicate (Z.to_nat (4 - Z.of_nat (length data) mod 4)) 0 ++ data.

Lemma length_padded data : length (padded data) = (4 * Z.to_nat (Z.of_nat (length data) / 4 + 1))%nat.
Proof using Type.
  unfold padded. rewrite length_app, length_replicate. Z.to_euclidean_division_equations. lia.
Qed.

Lemma wp_fill data size d : 0 <= size <= Z.of_nat (length data) ->
  wp (fill_tx_fifo data size) d (fun r d' => r = Ok tt /\ fed d (words_of (padded (take (Z.to_nat size) data))) d').
Proof using Type.
  intros Hs. unfold fill_tx_fifo. set (rem := size mod 4). set (n := (size - rem) / 4).
  assert (size = rem + 4 * n /\ 0 <= rem < 4 /\ 0 <= n) as (Hsz & Hrem & Hn)
    by (unfold n, rem; Z.to_euclidean_division_equations; lia).
  set (hd := replicate (Z.to_nat (4 - rem)) 0 ++ take (Z.to_nat rem) data).
  assert (length hd = 4%nat) as Hhd by (unfold hd; rewrite length_app, length_replicate, length_take; lia).
  apply wp_bytes_at; [lia|lia|lia|]. rewrite drop_0. fold hd. apply wp_bind.
  eapply wp_mono; [apply wp_tx|]. intros r d1 [-> H1].
  apply (wp_for_acc (fun i _ d' => fed d (words_of (hd ++ take (Z.to_nat (4 * i)) (drop (Z.to_nat rem) data))) d')).
  - change (Z.to_nat (4 * 0)) with 0%nat. rewrite take_0, app_nil_r, words_of_one by done. exact H1.
  - intros i [] d2 Hi H2. apply wp_bytes_at; [lia|lia|lia|]. eapply wp_mono; [apply wp_tx|]. intros r d3 [-> H3].
    set (b := take (Z.to_nat 4) (drop (Z.to_nat (rem + 4 * i)) data)) in *.
    assert (length b = 4%nat) as Hb by (unfold b; rewrite length_take, length_drop; lia).
    assert (take (Z.to_nat (4 * (i + 1))) (drop (Z.to_nat rem) data) =
      take (Z.to_nat (4 * i)) (drop (Z.to_nat rem) data) ++ b) as ->.
    { replace (Z.to_nat (4 * (i + 1))) with (Z.to_nat (4 * i) + 4)%nat by lia. rewrite <- take_take_drop. f_equal.
      unfold b. rewrite drop_drop. do 2 f_equal. lia. }
    rewrite app_assoc, (words_of_app (Z.to_nat (1 + i))), (words_of_one b Hb).
    + by eapply fed_trans.
    + rewrite length_app, Hhd, length_take, length_drop. lia.
  - intros [] d2 H2. split; [done|]. replace (padded (take (Z.to_nat size) data)) with
      (hd ++ take (Z.to_nat (4 * (0 + Z.of_nat (Z.to_nat n)))) (drop (Z.to_nat rem) data)); [done|].
    unfold padded, hd. rewrite length_take. replace (Z.of_nat (Z.to_nat size `min` length data)) with size by lia.
    fold rem. rewrite <- app_assoc. f_equal. replace (Z.to_nat size) with (Z.to_nat rem + Z.to_nat (4 * n))%nat by lia.
    rewrite <- take_take_drop. do 2 f_equal. lia.
Qed.

Definition segment_words (sg : segment) : list Z :=
  let size := Z.of_nat (length (sg_bytes sg)) in
  tx_command_a (sg_first sg) (sg_last sg) size :: tx_command_b size :: words_of (padded (sg_bytes sg)).

(** Room for a chunk, as the device reports it. *)
Definition room_for (n : Z) (w : W) : Prop := n <= GET_BIT_FIELD (eth_read tx_fifo_inf w).1 65535 0.

Definition sent_before (new : bool) d : Z := if new then 0 else ongoing_packet_length_sent d.

Record chunk_sent (total : Z) (new : bool) (data : list Z) d d' : Prop := {
  ck_words : tx_words (registers d') = tx_words (registers d) ++
    segment_words {| sg_first := new; sg_last := sent_before new d + Z.of_nat (length data) =? total; sg_bytes := data |};
  ck_length : ongoing_packet_length d' = total;
  ck_sent : ongoing_packet_length_sent d' = sent_before new d + Z.of_nat (length data)
}.

Lemma wp_send_chunk total new data d : is_u32 total -> 0 <= sent_before new d ->
  sent_before new d + Z.of_nat (length data) <= total ->
  (new = false -> ongoing_packet_length d = total /\ ongoing_packet_length_sent d < total) ->
  wp (smsc9220_send_by_chunks total new (Some data) (Z.of_nat (length data))) d (fun r d' =>
    (r = Ok tt /\ chunk_sent total new data d d') \/
    (r = Err SMSC9220_ERROR_INTERNAL /\ tx_words (registers d') = tx_words (registers d) /\
     ~ room_for (Z.of_nat (length data)) (registers d))).
Proof.
  intros Ht Hb Hle Hold. unfold smsc9220_send_by_chunks. set (size := Z.of_nat (length data)) in *.
  apply wp_bind. unfold wp at 1, get. cbn [fst snd].
  set (d1 := if new then set_ongoing total 0 d else d).
  assert (ongoing_packet_length d1 = total /\ ongoing_packet_length_sent d1 = sent_before new d /\
    registers d1 = registers d) as (L1 & S1 & R1) by (unfold d1; destruct new; [done|]; by destruct (Hold eq_refl)).
  apply wp_bind. eapply (wp_mono _ _ (fun r d' => r = Ok tt /\ d' = d1)).
  { destruct new; [by apply wp_modify|]. destruct (Hold eq_refl) as [Hl Hlt]. rewrite Hl, Z.eqb_refl.
    destruct (Z.leb_spec total (ongoing_packet_length_sent d)); [lia|]. by apply wp_ret. }
  intros r d' [-> ->]. apply wp_bind. unfold wp at 1, load_reg. unfold room_for. rewrite <- R1.
  pose proof (el_free (registers d1)) as (F1 & F2 & F3). destruct (eth_read tx_fifo_inf (registers d1)) as [x w].
  cbn [fst snd] in *. destruct (Z.gtb_spec size (GET_BIT_FIELD x 65535 0)) as [Hbad|_].
  { apply wp_raise. right. split_and!; [done|exact F1|lia]. }
  apply wp_bind. unfold wp at 1, get. cbn [fst snd].
  change (ongoing_packet_length_sent (set_registers w d1)) with (ongoing_packet_length_sent d1). rewrite S1.
  assert (add32 (sent_before new d) size = sent_before new d + size) as Hadd.
  { apply add32_small; unfold is_u32 in *; unfold size in *; lia. }
  rewrite Hadd. set (last := sent_before new d + size =? total).
  apply wp_bind. eapply wp_mono; [apply wp_tx|]. intros r d2 [-> H2].
  apply wp_bind. eapply wp_mono; [apply wp_tx|]. intros r d3 [-> H3].
  apply wp_bind. eapply wp_mono; [apply (wp_fill data size); unfold size; lia|]. intros r d4 [-> H4].
  pose proof (fed_trans _ _ _ _ _ H2 (fed_trans _ _ _ _ _ H3 H4)) as H. clear H2 H3 H4.
  replace (take (Z.to_nat size) data) with data in H by (symmetry; apply take_ge; unfold size; lia).
  assert (forall d5, fed d4 [] d5 -> chunk_sent total new data d
    (set_ongoing (ongoing_packet_length d5) (add32 (ongoing_packet_length_sent d5) size) d5)) as Hend.
  { intros d5 H5. pose proof (fed_trans _ _ _ _ _ H H5) as [T _ _ _ Lg Sn]. rewrite app_nil_r in T.
    cbn [ongoing_packet_length ongoing_packet_length_sent set_registers registers] in *.
    split; cbn [set_ongoing ongoing_packet_length ongoing_packet_length_sent registers].
    - rewrite T, F1, R1. done.
    - congruence.
    - by rewrite Sn, S1. }
  apply wp_bind. destruct last.
  - apply wp_bind. unfold wp at 1, load_reg. pose proof (el_tx_status (registers d4)) as (T1 & T2 & T3).
    destruct (eth_read tx_status_port (registers d4)) as [y w']. cbn [fst snd] in *. apply wp_ret, wp_modify.
    left. split; [done|]. apply (Hend (set_registers w' d4)). split; try done. by rewrite app_nil_r.
  - apply wp_ret, wp_modify. left. split; [done|]. apply Hend, fed_refl.
Qed.

(** *** What the controller makes of it *)

Lemma command_fields first last size : 0 <= size < 2048 ->
  let a := tx_command_a first last size in
  Z.land a 2047 = size /\ Z.land (Z.shiftr a 16) 31 = 4 - size mod 4 /\ Z.testbit a 13 = first /\ Z.testbit a 12 = last.
Proof using Type.
  intros Hs. assert (forallb (fun size =>
    let a := tx_command_a first last size in
    (Z.land a 2047 =? size) && (Z.land (Z.shiftr a 16) 31 =? 4 - size mod 4) &&
    eqb (Z.testbit a 13) first && eqb (Z.testbit a 12) last) (seqZ 0 2048) = true) as H.
  { destruct first, last; vm_compute; reflexivity. }
  rewrite forallb_forall in H. specialize (H size). rewrite !andb_true_iff, !Z.eqb_eq, !eqb_true_iff in H.
  destruct H as (((H1 & H2) & H3) & H4); [|done]. apply list_elem_of_In, elem_of_seqZ. lia.
Qed.

Definition segment_ok (sg : segment) : Prop :=
  Z.of_nat (length (sg_bytes sg)) < 2048 /\ Forall is_u8 (sg_bytes sg).

Lemma decode_segment sg fuel ws : segment_ok sg ->
  decode (S fuel) (segment_words sg ++ ws) = cons sg <$> decode fuel ws.
Proof using Type.
  intros [Hl Hu]. destruct sg as [first last data]. cbn [sg_bytes sg_first sg_last] in *. unfold segment_words.
  cbn [sg_bytes sg_first sg_last]. set (size := Z.of_nat (length data)) in *.
  pose proof (length_padded data) as Hp. fold size in Hp. set (k := Z.to_nat (size / 4 + 1)) in *.
  destruct (command_fields first last size ltac:(lia)) as (C1 & C2 & C3 & C4).
  cbn [app decode]. rewrite C1, C2, C3, C4.
  assert (Z.to_nat ((4 - size mod 4 + size + 3) / 4) = k) as ->.
  { unfold k. f_equal. Z.to_euclidean_division_equations. lia. }
  rewrite length_app, (length_words k) by done. destruct (Nat.ltb_spec (k + length ws) k); [lia|].
  rewrite take_app_length', drop_app_length' by (symmetry; by apply length_words). do 3 f_equal.
  rewrite (bytes_of_words k) by (first [exact Hp|apply Forall_app; split; [apply Forall_replicate; done|done]]).
  unfold padded. fold size. rewrite drop_app_length' by (rewrite length_replicate; done).
  apply take_ge. unfold size. lia.
Qed.

Lemma decode_segments sgs fuel : Forall segment_ok sgs -> (length sgs <= fuel)%nat ->
  decode fuel (concat (segment_words <$> sgs)) = Some sgs.
Proof using Type.
  intros H. revert fuel. induction H as [|sg sgs Hsg _ IH]; intros fuel Hf; [by destruct fuel|].
  destruct fuel as [|fuel]; cbn [length] in Hf; [lia|]. rewrite fmap_cons. cbn [concat].
  rewrite decode_segment by done. by rewrite IH by lia.
Qed.

(** The segments of a frame that is sent in pieces. *)
Fixpoint segments_of (first : bool) (chunks : list (list Z)) : list segment :=
  match chunks with
  | [] => []
  | c :: cs => {| sg_first := first; sg_last := match cs with [] => true | _ => false end; sg_bytes := c |} ::
               segments_of false cs
  end.

Lemma assemble_segments cur chunks : chunks <> [] ->
  assemble cur (segments_of (match cur with None => true | _ => false end) chunks) =
  Some [default [] cur ++ concat chunks].
Proof using Type.
  revert cur. induction chunks as [|c cs IH]; intros cur Hne; [done|]. cbn [segments_of assemble sg_first sg_last sg_bytes].
  destruct cur as [cur|]; cbn [default]; destruct cs as [|c' cs]; cbn [concat];
    rewrite ?app_nil_r; try done; rewrite (IH (Some _)) by done; cbn [concat]; change (default [] (Some ?x)) with x;
    by rewrite <- ?app_assoc.
Qed.

(** Sending a frame in pieces. *)
Fixpoint send_chunks (total : Z) (new : bool) (chunks : list (list Z)) : ST (smsc9220_eth_dev_t W) unit :=
  match chunks with
  | [] => mret tt
  | c :: cs => smsc9220_send_by_chunks total new (Some c) (Z.of_nat (length c));; send_chunks total false cs
  end.

(** Either all chunks are sent, or there is no room for the one after [done]. *)
Definition chunks_outcome (total : Z) (new : bool) (chunks : list (list Z)) d (r : outcome unit) d' : Prop :=
  (r = Ok tt /\ tx_words (registers d') = tx_words (registers d) ++ concat (segment_words <$> segments_of new chunks)) \/
  (r = Err SMSC9220_ERROR_INTERNAL /\ exists done c rest d1,
     chunks = done ++ c :: rest /\ send_chunks total new done d = (Ok tt, d1) /\
     ~ room_for (Z.of_nat (length c)) (registers d1) /\
     tx_words (registers d') =
       tx_words (registers d) ++ concat (segment_words <$> take (length done) (segments_of new chunks))).

Lemma wp_chunks total new chunks d : is_u32 total -> 0 <= sent_before new d ->
  sent_before new d + Z.of_nat (length (concat chunks)) = total ->
  Forall (fun c => c <> []) chunks -> (new = false -> ongoing_packet_length d = total) ->
  wp (send_chunks total new chunks) d (chunks_outcome total new chunks d).
Proof.
  intros Ht. revert new d. induction chunks as [|c cs IH]; intros new d Hb Hs Hc Hold.
  { apply wp_ret. left. split; [done|]. cbn. by rewrite app_nil_r. }
  apply Forall_cons_1 in Hc as [Hne Hc]. cbn [concat] in Hs. rewrite length_app in Hs.
  assert (0 < Z.of_nat (length c)) as Hpos by (destruct c; [done|cbn; lia]).
  assert (segments_of new (c :: cs) = {| sg_first := new;
    sg_last := sent_before new d + Z.of_nat (length c) =? total; sg_bytes := c |} :: segments_of false cs) as Hseg.
  { cbn [segments_of]. do 2 f_equal.
    destruct (Z.eqb_spec (sent_before new d + Z.of_nat (length c)) total) as [He|He]; destruct cs as [|c' cs]; try done.
    - apply Forall_cons_1 in Hc as [Hne' _]. cbn [concat] in Hs. rewrite length_app in Hs.
      destruct c'; [done|cbn [length] in Hs; lia].
    - cbn in Hs. lia. }
  pose proof (wp_send_chunk total new c d Ht Hb) as Hchunk. unfold wp at 1, chunks_outcome. rewrite Hseg.
  cbn [send_chunks]. unfold mbind, ST_bind. unfold wp in Hchunk.
  destruct (smsc9220_send_by_chunks total new (Some c) (Z.of_nat (length c)) d) as [r d1] eqn:E. cbn [fst snd] in *.
  destruct Hchunk as [[-> [T L S]]|(-> & T & Hroom)]; [lia|intros ->; split; [by apply Hold|cbn [sent_before] in *; lia]| |].
  - pose proof (IH false d1) as H. unfold wp in H. destruct (send_chunks total false cs d1) as [r d2]. cbn [fst snd] in *.
    destruct H as [[-> T2]|(-> & dn & c' & rest & d3 & -> & Es & Hroom & T2)];
      [cbn [sent_before]; lia|cbn [sent_before]; lia|done|done|left|right]; (split; [done|]).
    + by rewrite T2, T, fmap_cons, <- app_assoc.
    + exists (c :: dn), c', rest, d3. split_and!; try done.
      * cbn [send_chunks]. unfold mbind, ST_bind. by rewrite E.
      * cbn [length firstn]. by rewrite T2, T, fmap_cons, <- app_assoc.
  - right. split; [done|]. exists [], c, cs, d. split_and!; try done. cbn. by rewrite app_nil_r.
Qed.
End Transmit.

(** ** Reception *)

Section Receive.
Context {W : Type} {EO : EthOps W} {EL : EthLaws W}.
Implicit Types d : smsc9220_eth_dev_t W.

(** [d'] is [d] with other contents of the receive FIFOs. *)
Record drained d d' (ws ps : list Z) : Prop := {
  dr_words : rx_words (registers d') = ws;
  dr_packets : rx_packets (registers d') = ps;
  dr_tx : tx_words (registers d') = tx_words (registers d);
  dr_length : ongoing_packet_length d' = ongoing_packet_length d;
  dr_sent : ongoing_packet_length_sent d' = ongoing_packet_length_sent d
}.

Lemma drained_trans d1 d2 d3 ws ps ws' ps' : drained d1 d2 ws ps -> drained d2 d3 ws' ps' -> drained d1 d3 ws' ps'.
Proof using Type. intros [] []. split; congruence. Qed.

Lemma wp_rx_word d x xs : rx_words (registers d) = x :: xs ->
  wp (load_reg rx_data_port) d (fun r d' => r = Ok x /\ drained d d' xs (rx_packets (registers d))).
Proof using Type.
  intros H. unfold wp, load_reg. pose proof (el_data _ _ _ H) as Hd.
  destruct (eth_read rx_data_port (registers d)) as [y w]. destruct Hd as (-> & H1 & H2 & H3). by split.
Qed.

Lemma wp_rx_status d p ps : rx_packets (registers d) = p :: ps ->
  wp (load_reg rx_status_port) d (fun r d' => (exists x, r = Ok x) /\ drained d d' (rx_words (registers d)) ps).
Proof using Type.
  intros H. unfold wp, load_reg. pose proof (el_status _ _ _ H) as Hd.
  destruct (eth_read rx_status_port (registers d)) as [y w]. destruct Hd as (H1 & H2 & H3). split; [by eexists|by split].
Qed.

(** The size of the next frame: the field of its status word, or zero. *)
Definition next_size (ps : list Z) : Z := match ps with [] => 0 | p :: _ => GET_BIT_FIELD p 16383 16 end.

Lemma wp_peek d : wp smsc9220_peek_next_packet_size d (fun r d' =>
  r = Ok (next_size (rx_packets (registers d))) /\ drained d d' (rx_words (registers d)) (rx_packets (registers d))).
Proof using Type.
  unfold smsc9220_peek_next_packet_size, smsc9220_get_received_packet_count. apply wp_bind, wp_bind.
  unfold wp at 1, load_reg. pose proof (el_count (registers d)) as Hc.
  destruct (eth_read rx_fifo_inf (registers d)) as [x w]. destruct Hc as (Hz & H1 & H2 & H3). cbn [fst snd].
  apply wp_ret. destruct (Z.eqb_spec (GET_BIT_FIELD x 255 16) 0) as [H0|H0]; cbn [negb].
  - apply wp_ret. apply Hz in H0. rewrite H0. split; [done|]. split; cbn; congruence.
  - destruct (rx_packets (registers d)) as [|p ps] eqn:Hp; [by destruct H0; apply Hz|].
    apply wp_bind. unfold wp at 1, load_reg. cbn [registers set_registers]. assert (rx_packets w = p :: ps) as Hpw by congruence.
    pose proof (el_peek w p ps Hpw) as Hk.
    destruct (eth_read rx_status_peek w) as [y w']. destruct Hk as (-> & H4 & H5 & H6). cbn [fst snd].
    apply wp_ret. split; [done|]. split; cbn; congruence.
Qed.

Lemma wp_copy_word data off w n d : 0 <= off -> 0 <= n <= 4 -> off + n <= Z.of_nat (length data) ->
  wp (memcpy data off (enc32 w) n) d (fun r d' => d' = d /\
    r = Ok (take (Z.to_nat off) data ++ take (Z.to_nat n) (enc32 w) ++ drop (Z.to_nat (off + n)) data)).
Proof using Type.
  intros H1 H2 H3. unfold wp, memcpy. change (Z.of_nat (length (enc32 w))) with 4.
  destruct (Z.leb_spec 0 off), (Z.leb_spec 0 n), (Z.leb_spec (off + n) (Z.of_nat (length data))), (Z.leb_spec n 4);
    try lia. done.
Qed.

(** The frame is in the data FIFO, filled up to whole words. *)
Definition queued (frame pad rest : list Z) d : Prop :=
  Forall is_u8 (frame ++ pad) /\ (length pad < 4)%nat /\ Z.of_nat (length (frame ++ pad)) mod 4 = 0 /\
  rx_words (registers d) = words_of (frame ++ pad) ++ rest.

(** The first word of what is left. *)
Lemma next_word l k : length l = (4 * S k)%nat -> Forall is_u8 l ->
  exists x, words_of l = x :: words_of (drop 4 l) /\ enc32 x = take 4 l.
Proof using Type.
  intros Hl Hu. destruct (four l k Hl) as (a & b & c & e & l' & -> & _). exists (dec32 [a; b; c; e] 0).
  repeat (apply Forall_cons_1 in Hu as [? Hu]). split; [done|]. by apply enc32_dec32.
Qed.

(** [n] bytes of the array replaced. *)
Definition copied (l data : list Z) (n : Z) : list Z := take (Z.to_nat n) l ++ drop (Z.to_nat n) data.

Lemma copied_more l data off n : 0 <= off -> 0 <= n -> off + n <= Z.of_nat (length l) -> Z.of_nat (length l) <= Z.of_nat (length data) + 3 ->
  off <= Z.of_nat (length data) ->
  take (Z.to_nat off) (copied l data off) ++ take (Z.to_nat n) (drop (Z.to_nat off) l) ++
    drop (Z.to_nat (off + n)) (copied l data off) = copied l data (off + n).
Proof using Type.
  intros H1 H2 H3 H4 H5. unfold copied. rewrite take_app_length' by (rewrite length_take; lia).
  rewrite app_assoc, take_take_drop. replace (Z.to_nat off + Z.to_nat n)%nat with (Z.to_nat (off + n)) by lia. f_equal.
  rewrite drop_app_ge by (rewrite length_take; lia). rewrite drop_drop. f_equal. rewrite length_take. lia.
Qed.

(** One word of the FIFO into the array, or the first [n] bytes of it. *)
Lemma wp_copy_next l k data off n rest d0 d : length (drop (Z.to_nat off) l) = (4 * S k)%nat -> Forall is_u8 l ->
  drained d0 d (words_of (drop (Z.to_nat off) l) ++ rest) (rx_packets (registers d0)) ->
  0 <= off -> 0 <= n <= 4 -> off + n <= Z.of_nat (length data) -> Z.of_nat (length l) <= Z.of_nat (length data) + 3 ->
  wp (w ← load_reg rx_data_port; memcpy (copied l data off) off (enc32 w) n) d (fun r d' =>
    r = Ok (copied l data (off + n)) /\
    drained d0 d' (words_of (drop (Z.to_nat (off + 4)) l) ++ rest) (rx_packets (registers d0))).
Proof using Type.
  intros Hl Hu Hd H1 H2 H3 H4.
  destruct (next_word (drop (Z.to_nat off) l) k Hl (Forall_drop _ _ _ Hu)) as (x & Hx & Hb).
  pose proof (dr_words _ _ _ _ Hd) as R. pose proof (dr_packets _ _ _ _ Hd) as P. rewrite Hx in R. apply wp_bind.
  eapply wp_mono; [apply (wp_rx_word d _ _ R)|]. intros r d1 [-> D1].
  assert (length (drop (Z.to_nat off) l) = (length l - Z.to_nat off)%nat) as Hlen by apply length_drop.
  assert (length (copied l data off) = length data) as Hc.
  { unfold copied. rewrite length_app, length_take, length_drop. lia. }
  eapply wp_mono; [apply (wp_copy_word (copied l data off) off x n d1); try done; rewrite Hc; done|].
  intros r d2 [-> ->]. split.
  - f_equal. rewrite Hb. rewrite take_take. replace (Z.to_nat n `min` 4)%nat with (Z.to_nat n) by lia.
    apply copied_more; lia.
  - replace (drop (Z.to_nat (off + 4)) l) with (drop 4 (drop (Z.to_nat off) l))
      by (rewrite drop_drop; f_equal; lia). rewrite <- P. eapply drained_trans; [exact Hd|exact D1].
Qed.

Lemma wp_empty data frame pad rest p ps d : queued frame pad rest d -> rx_packets (registers d) = p :: ps ->
  Z.of_nat (length frame) <= Z.of_nat (length data) ->
  wp (empty_rx_fifo data (Z.of_nat (length frame))) d (fun r d' =>
    r = Ok (frame ++ drop (length frame) data) /\ drained d d' rest ps).
Proof using Type.
  intros (Hu & Hpad & Hmod & Hw) Hp Hlen. unfold empty_rx_fifo. set (l := frame ++ pad) in *.
  set (size := Z.of_nat (length frame)) in *. set (rem := size mod 4). set (n := (size - rem) / 4).
  assert (size = rem + 4 * n /\ 0 <= rem < 4 /\ 0 <= n) as (Hsz & Hrem & Hn)
    by (unfold n, rem; Z.to_euclidean_division_equations; lia).
  assert (Z.of_nat (length l) = size + Z.of_nat (length pad)) as Hl by (unfold l; rewrite length_app; lia).
  assert (Z.of_nat (length l) = 4 * (n + (if 0 <? rem then 1 else 0))) as Hwords.
  { destruct (Z.ltb_spec 0 rem); Z.to_euclidean_division_equations; lia. }
  assert (copied l data size = frame ++ drop (length frame) data) as Hend.
  { unfold copied, size, l. rewrite Nat2Z.id. by rewrite take_app_length. }
  apply wp_bind. apply (wp_for_acc (fun i data' d' => data' = copied l data (4 * i) /\
    drained d d' (words_of (drop (Z.to_nat (4 * i)) l) ++ rest) (rx_packets (registers d)))).
  - split; [by unfold copied|]. change (Z.to_nat (4 * 0)) with 0%nat. rewrite drop_0. by split.
  - intros i data' d1 Hi [-> D1]. eapply wp_mono; [apply (wp_copy_next l (Z.to_nat (n + (if 0 <? rem then 1 else 0) - i - 1)) data (4 * i) 4 rest d); try done; try lia|].
    + rewrite length_drop. destruct (0 <? rem); lia.
    + intros r d2 [-> D2]. replace (4 * (i + 1)) with (4 * i + 4) by lia. done.
  - intros data' d1 [-> D1]. replace (0 + Z.of_nat (Z.to_nat n)) with n in * by lia. apply wp_bind.
    eapply (wp_mono _ _ (fun r d' => r = Ok (copied l data size) /\ drained d d' rest (rx_packets (registers d)))).
    { destruct (Z.ltb_spec 0 rem) as [Hr|Hr].
      - eapply wp_mono; [apply (wp_copy_next l 0 data (4 * n) rem rest d d1); try done; try lia; rewrite length_drop; lia|].
        intros r d2 [-> D2]. rewrite drop_ge in D2 by lia. split; [|done]. do 2 f_equal. lia.
      - apply wp_ret. rewrite drop_ge in D1 by lia. split; [|done]. do 2 f_equal. lia. }
    intros r d2 [-> D2]. rewrite Hend. apply wp_bind.
    eapply wp_mono; [apply (wp_rx_status d2 p ps); by rewrite (dr_packets _ _ _ _ D2)|].
    intros r d3 [[x ->] D3]. apply wp_ret. split; [done|]. rewrite (dr_words _ _ _ _ D2) in D3. by eapply drained_trans.
Qed.

Lemma wp_received data frame pad rest p ps d : queued frame pad rest d -> rx_packets (registers d) = p :: ps ->
  GET_BIT_FIELD p 16383 16 = Z.of_nat (length frame) -> Z.of_nat (length frame) <= Z.of_nat (length data) ->
  wp (smsc9220_get_received_packet (Some data) (Z.of_nat (length frame))) d (fun r d' =>
    r = Ok (frame ++ drop (length frame) data) /\ drained d d' rest ps).
Proof using Type.
  intros Hq Hp Hsize Hlen. unfold smsc9220_get_received_packet. apply wp_bind.
  eapply wp_mono; [apply wp_peek|]. intros r d1 [-> D1]. rewrite Hp. cbn [next_size]. rewrite Hsize, Z.eqb_refl.
  cbn [negb]. rewrite Hp in D1. destruct Hq as (H1 & H2 & H3 & H4).
  eapply wp_mono; [apply (wp_empty data frame pad rest p ps d1); [|by rewrite (dr_packets _ _ _ _ D1)|done]|].
  - split; [done|]. split; [done|]. split; [done|]. by rewrite (dr_words _ _ _ _ D1).
  - intros r d2 [-> D2]. split; [done|]. by eapply drained_trans.
Qed.

Lemma wp_wrong_size data dlen d : dlen <> next_size (rx_packets (registers d)) ->
  wp (smsc9220_get_received_packet (Some data) dlen) d (fun r d' =>
    r = Err SMSC9220_ERROR_PARAM /\ drained d d' (rx_words (registers d)) (rx_packets (registers d))).
Proof using Type.
  intros Hd. unfold smsc9220_get_received_packet. apply wp_bind. eapply wp_mono; [apply wp_peek|]. intros r d1 [-> D1].
  destruct (Z.eqb_spec dlen (next_size (rx_packets (registers d)))); [done|]. by apply wp_raise.
Qed.
End Receive.

(** ** The receiving task

    What the task of the network interface passes on. *)

(** [held n]: the buffers that the task has; [given n]: the frames that the
    stack has taken. *)
Class NetLaws (N : Type) {NO : NetOps N} := {
  held : N -> list Z;
  given : N -> list (list Z);
  nl_get : forall k n, let '(r, n') := pxGetNetworkBufferWithDescriptor k n in given n' = given n /\
    match r with
    | Some b => held n' = b :: held n /\ k <= Z.of_nat (length (net_bytes b n'))
    | None => held n' = held n
    end;
  nl_set_bytes : forall b bs n, let n' := net_set_bytes b bs n in
    net_bytes b n' = bs /\ held n' = held n /\ given n' = given n;
  nl_set_length : forall b k n, let n' := net_set_length b k n in
    net_length b n' = k /\ net_bytes b n' = net_bytes b n /\ held n' = held n /\ given n' = given n;
  nl_release : forall b l n, held n = b :: l -> let n' := vReleaseNetworkBufferAndDescriptor b n in
    held n' = l /\ given n' = given n;
  nl_send : forall b l n, held n = b :: l -> let '(ok, n') := xSendEventStructToIPTask b n in
    if ok : bool then held n' = l /\ given n' = given n ++ [take (Z.to_nat (net_length b n)) (net_bytes b n)]
    else held n' = held n /\ given n' = given n;
  nl_notify : forall n, held (ulTaskNotifyTake n) = held n /\ given (ulTaskNotifyTake n) = given n
}.

Section Receive.
Context {W N : Type} {EO : EthOps W} {EL : EthLaws W} {NO : NetOps N} {NL : NetLaws N}.
Implicit Types s : interface W N.

(** The frames that wait in the controller. *)
Inductive waiting : list (list Z) -> list Z -> list Z -> Prop :=
| waiting_nil : waiting [] [] []
| waiting_cons f pad p fs ws ps :
    f <> [] -> Forall is_u8 (f ++ pad) -> (length pad < 4)%nat -> Z.of_nat (length (f ++ pad)) mod 4 = 0 ->
    GET_BIT_FIELD p 16383 16 = Z.of_nat (length f) -> waiting fs ws ps ->
    waiting (f :: fs) (words_of (f ++ pad) ++ ws) (p :: ps).

Definition frames_in (fs : list (list Z)) s : Prop :=
  waiting fs (rx_words (registers (eth s))) (rx_packets (registers (eth s))).

Lemma wp_on_eth {A B} (m : ST (smsc9220_eth_dev_t W) A) (k : A -> ST (interface W N) B) s Q :
  wp m (eth s) (fun r d => match r with Ok a => wp (k a) (set_eth d s) Q | Err e => Q (Err e) (set_eth d s) end) ->
  wp (on_eth m ≫= k) s Q.
Proof using Type. intros H. apply wp_bind. unfold wp at 1, on_eth. unfold wp at 1 in H. destruct (m (eth s)) as [[a|e] d]; exact H. Qed.

Lemma wp_on_net {A B} (f : N -> A * N) (k : A -> ST (interface W N) B) s Q :
  wp (k (f (net s)).1) (set_net (f (net s)).2 s) Q -> wp (on_net f ≫= k) s Q.
Proof using Type. intros H. apply wp_bind. unfold wp at 1, on_net. destruct (f (net s)) as [a n]. exact H. Qed.

Lemma wp_net_do {B} f (k : unit -> ST (interface W N) B) s Q : wp (k tt) (set_net (f (net s)) s) Q -> wp (net_do f ≫= k) s Q.
Proof using Type. intros H. by apply wp_bind, wp_modify. Qed.

(** The end of a round with a frame in the buffer [b]. *)
Lemma wp_pass_on b frame tail l s : held (net s) = b :: l -> net_bytes b (net s) = frame ++ tail ->
  wp (pass_on b (Z.of_nat (length frame))) s (fun r s' => r = Ok tt /\ eth s' = eth s /\ held (net s') = l /\
    (given (net s') = given (net s) \/ given (net s') = given (net s) ++ [frame])).
Proof using Type.
  intros Hh Hb. unfold pass_on. apply wp_net_do. set (k := Z.of_nat (length frame)).
  destruct (nl_set_length b k (net s)) as (L1 & L2 & L3 & L4). set (s1 := set_net (net_set_length b k (net s)) s).
  change (net_set_length b k (net s)) with (net s1) in L1, L2, L3, L4. rewrite Hh in L3.
  apply wp_bind. unfold wp at 1, get. cbn [fst snd].
  destruct (negb _).
  - apply wp_modify. destruct (nl_release b l (net s1) L3) as [R1 R2]. split_and!; try done. left. exact (eq_trans R2 L4).
  - apply wp_on_net. pose proof (nl_send b l (net s1) L3) as Hs.
    destruct (xSendEventStructToIPTask b (net s1)) as [ok n]. cbn [fst snd]. destruct ok.
    + apply wp_ret. destruct Hs as [S1 S2]. split_and!; try done. right. etrans; [exact S2|]. rewrite L1, L2, L4, Hb. do 2 f_equal.
      unfold k. by rewrite Nat2Z.id, take_app_length.
    + apply wp_modify. destruct Hs as [S1 S2]. rewrite L3 in S1. destruct (nl_release b l n S1) as [R1 R2].
      split_and!; try done. left. exact (eq_trans R2 (eq_trans S2 L4)).
Qed.

(** The frames [fs] are taken from the controller; some of them, in order and
    as they came, are given to the stack; no buffer is kept. *)
Definition took (fs : list (list Z)) s s' : Prop :=
  exists fs1 fs2 gs, fs = fs1 ++ fs2 /\ frames_in fs2 s' /\ gs `sublist_of` fs1 /\
    given (net s') = given (net s) ++ gs /\ held (net s') = held (net s).

Lemma took_none fs s s' : frames_in fs s' -> given (net s') = given (net s) -> held (net s') = held (net s) -> took fs s s'.
Proof using Type. intros H1 H2 H3. exists [], fs, []. split_and!; try done. by rewrite app_nil_r. Qed.

Lemma drained_waiting fs d d' : waiting fs (rx_words (registers d)) (rx_packets (registers d)) ->
  drained d d' (rx_words (registers d)) (rx_packets (registers d)) ->
  waiting fs (rx_words (registers d')) (rx_packets (registers d')).
Proof using Type. intros H []. congruence. Qed.

Lemma wp_enable source d : wp (smsc9220_enable_interrupt source) d (fun r d' => r = Ok tt /\
  drained d d' (rx_words (registers d)) (rx_packets (registers d))).
Proof using Type.
  unfold smsc9220_enable_interrupt, update_reg. apply wp_bind. unfold wp at 1, load_reg.
  destruct (el_irq (registers d)) as (H1 & H2 & H3). destruct (eth_read irq_enable (registers d)) as [x w].
  cbn [fst snd] in *. apply wp_modify. destruct (el_set_irq (SET_BIT x source) w) as (H4 & H5 & H6).
  split; [done|]. split; cbn; congruence.
Qed.

Lemma waiting_size fs ws ps : waiting fs ws ps ->
  next_size ps = match fs with [] => 0 | f :: _ => Z.of_nat (length f) end.
Proof using Type. by destruct 1. Qed.

(** The frame at the front, once a buffer is there. *)
Lemma wp_take_frame b f fs l s : frames_in (f :: fs) s -> held (net s) = b :: l ->
  Z.of_nat (length f) <= Z.of_nat (length (net_bytes b (net s))) ->
  wp (r ← tried (on_eth (smsc9220_get_received_packet (Some (net_bytes b (net s))) (Z.of_nat (length f))));
      match r with
      | None => mret tt
      | Some data => net_do (net_set_bytes b data);; pass_on b (Z.of_nat (length f))
      end) s (fun r s' => r = Ok tt /\ frames_in fs s' /\ held (net s') = l /\
    (given (net s') = given (net s) \/ given (net s') = given (net s) ++ [f])).
Proof using Type.
  intros Hf Hh Hlen. unfold frames_in in Hf. inversion Hf as [|f' pad p fs' ws ps Hne Hu Hpad Hmod Hp Hw Ef Ew Ep]; subst.
  apply wp_bind. unfold tried. apply wp_bind, wp_attempt. unfold wp at 1, on_eth.
  pose proof (wp_received (net_bytes b (net s)) f pad ws p ps (eth s)) as H. unfold wp in H.
  destruct (smsc9220_get_received_packet _ _ (eth s)) as [r d] eqn:E. cbn [fst snd] in *.
  destruct H as [-> D]; [by split_and!|by rewrite <- Ep|done|done|]. cbn [fst snd]. apply wp_ret, wp_net_do.
  set (bs := f ++ drop (length f) (net_bytes b (net s))).
  destruct (nl_set_bytes b bs (net s)) as (B1 & B2 & B3). rewrite Hh in B2.
  set (s1 := set_net (net_set_bytes b bs (net s)) (set_eth d s)).
  eapply wp_mono; [apply (wp_pass_on b f (drop (length f) (net_bytes b (net s))) l s1 B2 B1)|].
  intros r s' (-> & He & Hl & Hg). split; [done|]. split; [|split; [done|]].
  - unfold frames_in. rewrite He. cbn. by rewrite (dr_words _ _ _ _ D), (dr_packets _ _ _ _ D).
  - change (given (net s1)) with (given (net_set_bytes b bs (net s))) in Hg. by rewrite B3 in Hg.
Qed.

Lemma wp_round fs s : frames_in fs s -> wp smsc9220_Receive_task s (fun r s' => r = Ok tt /\ took fs s s').
Proof using Type.
  intros Hf. unfold smsc9220_Receive_task. apply wp_on_eth. eapply wp_mono; [apply wp_enable|]. intros r d1 [-> D1].
  apply wp_net_do. destruct (nl_notify (net s)) as [N1 N2]. apply wp_on_eth.
  pose proof (drained_waiting _ _ _ Hf D1) as W1. eapply wp_mono; [apply wp_peek|]. intros r d2 [-> D2].
  cbn [eth set_eth set_net] in *. pose proof (drained_waiting _ _ _ W1 D2) as W2. rewrite (waiting_size _ _ _ W1).
  destruct fs as [|f fs]; [by apply wp_ret; split; [|apply took_none]|].
  assert (f <> []) as Hne by (by inversion Hf). destruct (Z.eqb_spec (Z.of_nat (length f)) 0); [by destruct f|].
  apply wp_on_net. cbn [net set_eth set_net].
  pose proof (nl_get (Z.of_nat (length f)) (ulTaskNotifyTake (net s))) as Hg.
  destruct (pxGetNetworkBufferWithDescriptor _ _) as [r n2]. cbn [fst snd]. destruct Hg as [G1 G2]. destruct r as [b|].
  - destruct G2 as [G2 G3]. apply wp_bind. unfold wp at 1, get. cbn [fst snd].
    eapply wp_mono; [eapply (wp_take_frame b f fs (held (ulTaskNotifyTake (net s)))); [exact W2|exact G2|exact G3]|].
    intros r s' (-> & Hf' & Hh & Hgv). split; [done|]. cbn [net set_eth set_net] in Hgv. rewrite G1, N2 in Hgv.
    destruct Hgv as [Hgv|Hgv].
    + exists [f], fs, []. split_and!; try done; [by apply sublist_nil_l|by rewrite app_nil_r|congruence].
    + exists [f], fs, [f]. split_and!; try done. congruence.
  - apply wp_ret. split; [done|]. apply took_none; [exact W2|cbn; congruence|cbn; congruence].
Qed.

(** Rounds of the task. *)
Definition receive_rounds : relation (interface W N) := rtc (fun s s' => smsc9220_Receive_task s = (Ok tt, s')).

Lemma rounds_took fs s s' : frames_in fs s -> receive_rounds s s' -> took fs s s'.
Proof using Type.
  intros Hf H. revert fs Hf. induction H as [s|s s1 s' H1 _ IH]; intros fs Hf; [by apply took_none|].
  destruct (wp_elim _ _ _ _ _ H1 (wp_round fs s Hf)) as (_ & fs1 & fs2 & gs & -> & Hf2 & Hg & G1 & H2).
  destruct (IH fs2 Hf2) as (fs3 & fs4 & gs' & -> & Hf4 & Hg' & G3 & H4).
  exists (fs1 ++ fs3), fs4, (gs ++ gs'). rewrite <- app_assoc. split_and!; try done; [by apply sublist_app| |congruence].
  rewrite G3, G1. by rewrite app_assoc.
Qed.
End Receive.
