(* ===== verification/EthTheorems.v ===== *)
(** * The Ethernet driver: properties

    An executable controller and stack that satisfy the laws, for the instances
    of the theorems, in which a register of the MAC takes [e_latency]
    milliseconds; then the properties. *)
From Stdlib Require Import ZArith Lia.
From stdpp Require Import base list numbers gmap relations options.
From S2P Require Import Prelude.
From S2P Require Import FlashFsDefs.
From S2P Require Import I2sDriver.
From S2P Require Import Smsc9220.
From S2P Require Import SmscSpec.
From S2P Require Import EthInterface.

Record ether : Type := {
  e_tx : list Z;
  e_free : Z;
  e_rx : list Z;
  e_packets : list Z;
  e_cmd : Z;
  e_busy : Z;
  e_latency : Z;
  e_irq_status : Z;
  e_irq_enable : Z
}.

Definition e_set_tx (x : list Z) (e : ether) : ether :=
  {| e_tx := x; e_free := e_free e; e_rx := e_rx e; e_packets := e_packets e; e_cmd := e_cmd e; e_busy := e_busy e;
     e_latency := e_latency e; e_irq_status := e_irq_status e; e_irq_enable := e_irq_enable e |}.
Definition e_set_rx (x ps : list Z) (e : ether) : ether :=
  {| e_tx := e_tx e; e_free := e_free e; e_rx := x; e_packets := ps; e_cmd := e_cmd e; e_busy := e_busy e;
     e_latency := e_latency e; e_irq_status := e_irq_status e; e_irq_enable := e_irq_enable e |}.
Definition e_set_cmd (c b : Z) (e : ether) : ether :=
  {| e_tx := e_tx e; e_free := e_free e; e_rx := e_rx e; e_packets := e_packets e; e_cmd := c; e_busy := b;
     e_latency := e_latency e; e_irq_status := e_irq_status e; e_irq_enable := e_irq_enable e |}.
Definition e_set_irq (s n : Z) (e : ether) : ether :=
  {| e_tx := e_tx e; e_free := e_free e; e_rx := e_rx e; e_packets := e_packets e; e_cmd := e_cmd e; e_busy := e_busy e;
     e_latency := e_latency e; e_irq_status := s; e_irq_enable := n |}.

(** The status bits are cleared by writing ones. *)
#[export] Instance ether_ops : EthOps ether := {
  eth_read := fun r e =>
    match r with
    | rx_data_port => match e_rx e with [] => (0, e) | x :: xs => (x, e_set_rx xs (e_packets e) e) end
    | rx_status_port => match e_packets e with [] => (0, e) | p :: ps => (p, e_set_rx (e_rx e) ps e) end
    | rx_status_peek => (match e_packets e with [] => 0 | p :: _ => p end, e)
    | rx_fifo_inf => (match e_packets e with [] => 0 | _ => 65536 end, e)
    | tx_fifo_inf => (e_free e, e)
    | mac_csr_cmd => (if e_busy e >? 0 then SET_BIT (e_cmd e) 31 else CLR_BIT (e_cmd e) 31, e)
    | irq_status => (e_irq_status e, e)
    | irq_enable => (e_irq_enable e, e)
    | _ => (0, e)
    end;
  eth_write := fun r x e =>
    match r with
    | tx_data_port => e_set_tx (e_tx e ++ [x]) e
    | mac_csr_cmd => e_set_cmd x (e_latency e) e
    | irq_status => e_set_irq (clear_bits (e_irq_status e) x) (e_irq_enable e) e
    | irq_enable => e_set_irq (e_irq_status e) x e
    | _ => e
    end;
  eth_sleep := fun n e => e_set_cmd (e_cmd e) (e_busy e - n) e
}.

#[export] Program Instance ether_laws : EthLaws ether := { tx_words := e_tx; rx_words := e_rx; rx_packets := e_packets }.
Next Obligation. intros. by split_and!. Qed.
Next Obligation. intros. by split_and!. Qed.
Next Obligation. intros. by split_and!. Qed.
Next Obligation. intros e. cbn. split; [|by split_and!]. by destruct (e_packets e). Qed.
Next Obligation. intros e p ps H. cbn. rewrite H. by split_and!. Qed.
Next Obligation. intros e x xs H. cbn. rewrite H. by split_and!. Qed.
Next Obligation. intros e p ps H. cbn. rewrite H. by split_and!. Qed.
Next Obligation. intros. by split_and!. Qed.
Next Obligation. intros. by split_and!. Qed.

Definition sample_ether (free : Z) (rx packets : list Z) (latency : Z) : smsc9220_eth_dev_t ether :=
  {| state := 1; wait_ms := true; ongoing_packet_length := 0; ongoing_packet_length_sent := 0;
     registers := {| e_tx := []; e_free := free; e_rx := rx; e_packets := packets; e_cmd := 0; e_busy := 0;
                     e_latency := latency; e_irq_status := 24; e_irq_enable := 0 |} |}.

(** The stack: buffers by number, and the frames it has taken. *)
Record stack : Type := {
  st_next : Z;
  st_bufs : gmap Z (list Z);
  st_lengths : gmap Z Z;
  st_held : list Z;
  st_given : list (list Z)
}.

Definition st_bytes (b : Z) (n : stack) : list Z := default [] (st_bufs n !! b).
Definition st_length (b : Z) (n : stack) : Z := default 0 (st_lengths n !! b).

#[export] Instance stack_ops : NetOps stack := {
  pxGetNetworkBufferWithDescriptor := fun k n =>
    (Some (st_next n),
     {| st_next := st_next n + 1; st_bufs := <[st_next n := replicate (Z.to_nat k) 0]> (st_bufs n);
        st_lengths := st_lengths n; st_held := st_next n :: st_held n; st_given := st_given n |});
  net_bytes := st_bytes;
  net_set_bytes := fun b bs n =>
    {| st_next := st_next n; st_bufs := <[b := bs]> (st_bufs n); st_lengths := st_lengths n; st_held := st_held n;
       st_given := st_given n |};
  net_set_length := fun b k n =>
    {| st_next := st_next n; st_bufs := st_bufs n; st_lengths := <[b := k]> (st_lengths n); st_held := st_held n;
       st_given := st_given n |};
  net_length := st_length;
  vReleaseNetworkBufferAndDescriptor := fun b n =>
    {| st_next := st_next n; st_bufs := st_bufs n; st_lengths := st_lengths n;
       st_held := match st_held n with b' :: l => if b =? b' then l else st_held n | [] => [] end;
       st_given := st_given n |};
  eConsiderFrameForProcessing := fun bs => negb (nth_byte bs 0 =? 255);
  xSendEventStructToIPTask := fun b n =>
    (true, {| st_next := st_next n; st_bufs := st_bufs n; st_lengths := st_lengths n;
              st_held := match st_held n with b' :: l => if b =? b' then l else st_held n | [] => [] end;
              st_given := st_given n ++ [take (Z.to_nat (st_length b n)) (st_bytes b n)] |});
  FreeRTOS_UpdateMACAddress := fun _ n => n;
  xTaskCreate := fun n => n;
  xSemaphoreCreateMutex := fun n => n;
  xSemaphoreTake := fun n => n;
  xSemaphoreGive := fun n => n;
  NVIC_ClearPendingIRQ := fun n => n;
  vTaskNotifyGiveFromISR := fun n => n;
  ulTaskNotifyTake := fun n => n
}.

#[export] Program Instance stack_laws : NetLaws stack := { held := st_held; given := st_given }.
Next Obligation.
  intros k n. cbn. split; [done|]. split; [done|]. unfold st_bytes. cbn. rewrite lookup_insert_eq. cbn.
  rewrite length_replicate. lia.
Qed.
Next Obligation. intros b bs n. cbn. unfold st_bytes. cbn. by rewrite lookup_insert_eq. Qed.
Next Obligation. intros b k n. cbn. unfold st_length. cbn. by rewrite lookup_insert_eq. Qed.
Next Obligation. intros b l n H. cbn. rewrite H. by rewrite Z.eqb_refl. Qed.
Next Obligation. intros b l n H. cbn. rewrite H. by rewrite Z.eqb_refl. Qed.
Next Obligation. done. Qed.

Definition empty_stack : stack := {| st_next := 1; st_bufs := ∅; st_lengths := ∅; st_held := []; st_given := [] |}.

(** A status word for a frame. *)
Definition rx_status_word (f : list Z) : Z := Z.shiftl (Z.of_nat (length f)) 16.

(** Two frames wait. *)
Definition frame1 : list Z := [1; 2; 3; 4; 5].
Definition frame2 : list Z := [255; 7; 8; 9].
Definition two_frames : interface ether stack :=
  {| eth := sample_ether 5120 (words_of (frame1 ++ [0; 0; 0]) ++ words_of (frame2 ++ []) ++ [])
              [rx_status_word frame1; rx_status_word frame2] 1;
     net := empty_stack |}.

(** ** Properties of the driver *)

Lemma segments_ok new chunks : Forall (fun c => Z.of_nat (length c) < 2048 /\ Forall is_u8 c) chunks ->
  Forall segment_ok (segments_of new chunks).
Proof.
  revert new. induction chunks as [|c cs IH]; intros new H; cbn [segments_of]; [done|].
  apply Forall_cons_1 in H as [H1 H]. constructor; [done|by apply IH].
Qed.

Lemma segments_fuel sgs : (length sgs <= length (concat (segment_words <$> sgs)))%nat.
Proof.
  induction sgs as [|sg l IH]; [done|].
  rewrite fmap_cons. cbn [concat length]. rewrite length_app. unfold segment_words at 1. cbn [length]. lia.
Qed.

Lemma unfinished_segments new sent c rest :
  Forall (fun sg => sg_last sg = false) (take (length sent) (segments_of new (sent ++ c :: rest))).
Proof.
  revert new. induction sent as [|c' cs IH]; intros new; [done|]. cbn [app segments_of length firstn].
  constructor; [by destruct cs|apply IH].
Qed.

(** C27: A frame that is sent in pieces of fewer than 2048 bytes is what the
    controller reads from its FIFO: the words decode to the segments in order,
    with their starts and ends marked, and these make up that one frame; or
    there is no room for some piece, the caller gets an error, and the
    controller reads exactly the segments before that one, of which none ends
    the frame. *)
Theorem frame_transmitted {W} {EO : EthOps W} {EL : EthLaws W} chunks (d : smsc9220_eth_dev_t W) :
  chunks <> [] -> Forall (fun c => c <> []) chunks ->
  Forall (fun c => Z.of_nat (length c) < 2048 /\ Forall is_u8 c) chunks ->
  is_u32 (Z.of_nat (length (concat chunks))) ->
  let total := Z.of_nat (length (concat chunks)) in
  exists d' ws, tx_words (registers d') = tx_words (registers d) ++ ws /\
    ((send_chunks total true chunks d = (Ok tt, d') /\ transmitted ws = Some [concat chunks]) \/
     (send_chunks total true chunks d = (Err SMSC9220_ERROR_INTERNAL, d') /\
      exists sent c rest d1, chunks = sent ++ c :: rest /\
        send_chunks total true sent d = (Ok tt, d1) /\ ~ room_for (Z.of_nat (length c)) (registers d1) /\
        decode (length ws) ws = Some (take (length sent) (segments_of true chunks)) /\
        Forall (fun sg => sg_last sg = false) (take (length sent) (segments_of true chunks)))).
Proof.
  intros Hne Hc Hok Ht total. pose proof (wp_chunks total true chunks d Ht) as H. unfold wp in H.
  destruct (send_chunks total true chunks d) as [r d'] eqn:E. cbn [fst snd sent_before] in H.
  pose proof (segments_ok true chunks Hok) as Hs.
  destruct H as [[-> H]|(-> & sent & c & rest & d1 & Heq & Es & Hroom & H)]; [lia|lia|done|done|..].
  - eexists d', _. split; [exact H|]. left. split; [done|]. unfold transmitted.
    rewrite decode_segments by (done || apply segments_fuel). by apply (assemble_segments None).
  - eexists d', _. split; [exact H|]. right. split; [done|]. exists sent, c, rest, d1. split_and!; try done.
    + apply decode_segments; [by apply Forall_take|apply segments_fuel].
    + rewrite Heq. apply unfinished_segments.
Qed.

(** C28: The receiving task hands the frames that wait in the controller to the
    stack in order and byte for byte, except those that are filtered out, are
    refused by the stack or find no buffer; it never reads out of an array,
    never mixes frames, and afterwards holds no buffer that it did not hold
    before.  Its next round ends. *)
Theorem frames_received {W N} {EO : EthOps W} {EL : EthLaws W} {NO : NetOps N} {NL : NetLaws N}
    fs (s s' : interface W N) :
  frames_in fs s -> receive_rounds s s' ->
  exists fs1 fs2 gs, fs = fs1 ++ fs2 /\ frames_in fs2 s' /\ gs `sublist_of` fs1 /\
    given (net s') = given (net s) ++ gs /\ held (net s') = held (net s) /\
    exists s2, smsc9220_Receive_task s' = (Ok tt, s2).
Proof.
  intros Hf Hr. destruct (rounds_took fs s s' Hf Hr) as (fs1 & fs2 & gs & H1 & H2 & H3 & H4 & H5).
  exists fs1, fs2, gs. split_and!; try done. pose proof (wp_round fs2 s' H2) as H. unfold wp in H.
  destruct (smsc9220_Receive_task s') as [r s2]. cbn [fst snd] in H. destruct H as [-> _]. by exists s2.
Qed.

(** ** Instances *)

Lemma frame_transmitted_witness :
  let '(r, d') := send_chunks 7 true [[1; 2; 3; 4; 5]; [6; 7]] (sample_ether 5120 [] [] 1) in
  r = Ok tt /\ transmitted (tx_words (registers d')) = Some [[1; 2; 3; 4; 5; 6; 7]].
Proof.
  destruct (frame_transmitted [[1; 2; 3; 4; 5]; [6; 7]] (sample_ether 5120 [] [] 1)) as (d' & ws & Hw & H);
    [discriminate|repeat (constructor; [discriminate|]); constructor| |vm_compute; by split|].
  { repeat (constructor; [split; [vm_compute; reflexivity|repeat (constructor; [unfold is_u8; lia|]); constructor]|]).
    constructor. }
  destruct H as [[E T]|[E _]]; [|exfalso; revert E; vm_compute; discriminate].
  change (Z.of_nat (length (concat [[1; 2; 3; 4; 5]; [6; 7]]))) with 7 in E. rewrite E. split; [done|].
  by rewrite Hw.
Defined.

(** No room for the second piece. *)
Example no_room :
  let '(r, d') := send_chunks 7 true [[1; 2]; [3; 4; 5; 6; 7]] (sample_ether 3 [] [] 1) in
  r = Err SMSC9220_ERROR_INTERNAL /\ transmitted (tx_words (registers d')) = None /\
  decode 3 (tx_words (registers d')) = Some [{| sg_first := true; sg_last := false; sg_bytes := [1; 2] |}].
Proof. vm_compute. by split_and!. Qed.

Lemma two_frames_wait : frames_in [frame1; frame2] two_frames.
Proof.
  apply waiting_cons; [done|repeat constructor; unfold is_u8; lia|cbn; lia|done|done|].
  apply waiting_cons; [done|repeat constructor; unfold is_u8; lia|cbn; lia|done|done|constructor].
Qed.

(** The second frame is filtered out. *)
Lemma frames_received_witness :
  let s2 := (smsc9220_Receive_task (smsc9220_Receive_task two_frames).2).2 in
  given (net s2) = [frame1] /\ held (net s2) = [] /\ exists s3, smsc9220_Receive_task s2 = (Ok tt, s3).
Proof.
  intros s2. assert (receive_rounds two_frames s2) as Hr.
  { apply (rtc_l _ _ (smsc9220_Receive_task two_frames).2); [vm_compute; reflexivity|].
    apply rtc_once. vm_compute. reflexivity. }
  destruct (frames_received [frame1; frame2] two_frames s2 two_frames_wait Hr) as (_ & _ & _ & _ & _ & _ & _ & Hh & He).
  split; [vm_compute; reflexivity|]. split; [exact Hh|exact He].
Defined.

(** ** Defects *)

(** The wait of a register write looks at the low bit of the register's
    number: after a write to an even register it does not wait, and the access
    that follows finds the MAC busy. *)
Example even_write_does_not_wait :
  let d := sample_ether 5120 [] [] 3 in
  let '(r, d1) := smsc9220_mac_regwrite SMSC9220_MAC_REG_OFFSET_MII_ACC 1 d in
  r = Ok tt /\ e_busy (registers d1) = 2 /\
  (smsc9220_mac_regread SMSC9220_MAC_REG_OFFSET_MII_ACC d1).1 = Err SMSC9220_ERROR_BUSY /\
  e_busy (registers (smsc9220_mac_regwrite SMSC9220_MAC_REG_OFFSET_CR 1 d).2) = 0.
Proof. vm_compute. by split_and!. Qed.

(** A register that is ready at the last poll is reported as timed out. *)
Example ready_at_last_poll :
  let '(r, d1) := smsc9220_mac_regread SMSC9220_MAC_REG_OFFSET_CR (sample_ether 5120 [] [] 50) in
  r = Err SMSC9220_ERROR_TIMEOUT /\ e_busy (registers d1) = 0.
Proof. vm_compute. by split. Qed.

(** Clearing one interrupt clears all that are pending. *)
Example clears_all_interrupts :
  e_irq_status (registers (smsc9220_clear_interrupt 3 (sample_ether 5120 [] [] 1)).2) = 0.
Proof. vm_compute. reflexivity. Qed.

(** A chunk as long as the free space takes three words more than that. *)
Example chunk_overruns_fifo :
  let '(r, d1) := smsc9220_send_by_chunks 8 true (Some [1; 2; 3; 4; 5; 6; 7; 8]) 8 (sample_ether 8 [] [] 1) in
  r = Ok tt /\ length (tx_words (registers d1)) = 5%nat.
Proof. vm_compute. by split. Qed.
