(* ===== verification/Clcd.v ===== *)
(** * The colour display (corstone310_fvp_dma/dma350_ns/clcd_lib)

    The driver clcd_mps3_drv.c on the registers of any device of the class
    [ClcdOps], and the library clcd_mps3_lib.c on it, which sets registers of
    the display's controller and writes images into its memory.  The library
    waits with the system timer; the example has the file of the voice
    activity partition, on a timer with the same frequency. *)
From Stdlib Require Import ZArith Lia.
From stdpp Require Import base list numbers options.
From S2P Require Import Prelude.
From S2P Require Import FlashFsDefs.
From S2P Require Import Interrupts.
From S2P Require Import SysTimer.
From S2P Require Import I2sDriver.

#[local] Set Default Proof Using "Type*".

(** clcd_mps3_reg_map_t *)
Inductive clcd_reg : Type := char_com | char_dat | char_rd | char_raw | char_mask | char_stat | char_misc.

Class ClcdOps (W : Type) := {
  clcd_read : clcd_reg -> W -> Z * W;
  clcd_write : clcd_reg -> Z -> W -> W
}.

Definition CLCD_MPS3_ACCESS_COMPLETE_OFF : Z := 0.
Definition CLCD_MPS3_CS_OFF : Z := 0.
Definition CLCD_MPS3_WR_OFF : Z := 1.
Definition CLCD_MPS3_RESET_OFF : Z := 3.
Definition CLCD_MPS3_RS_OFF : Z := 4.
Definition CLCD_MPS3_RD_OFF : Z := 5.
Definition CLCD_MPS3_BL_OFF : Z := 6.

Definition MAX_WIDTH : Z := 320.
Definition MAX_HEIGHT : Z := 240.
Definition CLR_BLACK : Z := 0.
Definition CLCD_MPS3_LIB_ERR_NONE : Z := 0.

Section Display.
Context {W : Type} {CO : ClcdOps W} {TO : SystimerOps W} (polls : nat).
Abbreviation LCD := (ST (timer_state W)).

(** ** The driver *)

Definition clcd_load (r : clcd_reg) : LCD Z := fun s =>
  let '(x, w) := clcd_read r (systimer s) in (Ok x, set_systimer w s).
Definition clcd_store (r : clcd_reg) (x : Z) : LCD unit :=
  modify (fun s => set_systimer (clcd_write r x (systimer s)) s).

(** [p_clcd->r |= (0x1UL << off);] and [p_clcd->r &= ~(0x1UL << off);] *)
Definition clcd_set_bit (r : clcd_reg) (off : Z) : LCD unit := x ← clcd_load r; clcd_store r (Z.lor x (Z.shiftl 1 off)).
Definition clcd_clear_bit (r : clcd_reg) (off : Z) : LCD unit :=
  x ← clcd_load r; clcd_store r (clear_bits x (Z.shiftl 1 off)).

Definition clcd_mps3_write_command (value : Z) : LCD unit := clcd_store char_com value.
Definition clcd_mps3_read_busy : LCD Z := clcd_load char_com.
Definition clcd_mps3_write_data (value : Z) : LCD unit := clcd_store char_dat value.
Definition clcd_mps3_read_data : LCD Z := clcd_load char_dat.
Definition clcd_mps3_read_rd : LCD Z := x ← clcd_load char_rd; mret (w8 x).
Definition clcd_mps3_clear_access_complete : LCD unit := clcd_clear_bit char_raw CLCD_MPS3_ACCESS_COMPLETE_OFF.
Definition clcd_mps3_is_access_complete_set : LCD bool :=
  x ← clcd_load char_raw; mret (negb (Z.land (Z.shiftr x CLCD_MPS3_ACCESS_COMPLETE_OFF) 1 =? 0)).
Definition clcd_mps3_enable_write_interrupt : LCD unit := clcd_set_bit char_raw 0.
Definition clcd_mps3_disable_write_interrupt : LCD unit := clcd_clear_bit char_raw 0.
Definition clcd_mps3_read_status : LCD Z := clcd_load char_stat.
Definition clcd_mps3_read_misc : LCD Z := clcd_load char_misc.
Definition clcd_mps3_write_misc (value : Z) : LCD unit := clcd_store char_misc value.
Definition clcd_mps3_set_bl : LCD unit := clcd_set_bit char_misc CLCD_MPS3_BL_OFF.
Definition clcd_mps3_clear_bl : LCD unit := clcd_clear_bit char_misc CLCD_MPS3_BL_OFF.
Definition clcd_mps3_set_rd : LCD unit := clcd_set_bit char_misc CLCD_MPS3_RD_OFF.
Definition clcd_mps3_clear_rd : LCD unit := clcd_clear_bit char_misc CLCD_MPS3_RD_OFF.
Definition clcd_mps3_set_rs : LCD unit := clcd_set_bit char_misc CLCD_MPS3_RS_OFF.
Definition clcd_mps3_clear_rs : LCD unit := clcd_clear_bit char_misc CLCD_MPS3_RS_OFF.
Definition clcd_mps3_set_reset : LCD unit := clcd_set_bit char_misc CLCD_MPS3_RESET_OFF.
Definition clcd_mps3_clear_reset : LCD unit := clcd_clear_bit char_misc CLCD_MPS3_RESET_OFF.
Definition clcd_mps3_set_wr : LCD unit := clcd_set_bit char_misc CLCD_MPS3_WR_OFF.
Definition clcd_mps3_clear_wr : LCD unit := clcd_clear_bit char_misc CLCD_MPS3_WR_OFF.
Definition clcd_mps3_set_cs : LCD unit := clcd_set_bit char_misc CLCD_MPS3_CS_OFF.
Definition clcd_mps3_clear_cs : LCD unit := clcd_clear_bit char_misc CLCD_MPS3_CS_OFF.

(** ** The library *)

Definition lcd_wait_us (usec : Z) : LCD unit := run (wait_us polls usec).
Definition lcd_wait_ms (ms : Z) : LCD unit := run (wait_ms polls ms).

Definition clcd_mps3_lib_write_command (value : Z) : LCD Z :=
  clcd_mps3_clear_cs;;
  lcd_wait_us 1;;
  clcd_mps3_write_command value;;
  clcd_mps3_set_cs;;
  mret CLCD_MPS3_LIB_ERR_NONE.

(** A pixel, or the value of a register: two bytes. *)
Definition write_u16 (value : Z) : LCD unit :=
  clcd_mps3_write_data (Z.shiftr value 8);;
  clcd_mps3_write_data (Z.land value 255).

(** [data[i]] *)
Definition pixel_at (data : list Z) (i : Z) : LCD Z :=
  match data !! Z.to_nat i with Some x => mret x | None => raise UNDEFINED end.

(** The counter is an [int]. *)
Definition clcd_mps3_lib_write_data (data : list Z) (size : Z) : LCD Z :=
  clcd_mps3_clear_cs;;
  for_acc (Z.to_nat size) 0 tt (fun i _ =>
    x ← pixel_at data i;
    write_u16 x;;
    if i =? 2147483647 then raise UNDEFINED else mret tt);;
  clcd_mps3_set_cs;;
  mret CLCD_MPS3_LIB_ERR_NONE.

Definition clcd_mps3_lib_write_to_register (reg value : Z) : LCD Z :=
  clcd_mps3_clear_cs;;
  lcd_wait_us 1;;
  clcd_mps3_write_command reg;;
  write_u16 value;;
  clcd_mps3_set_cs;;
  mret CLCD_MPS3_LIB_ERR_NONE.

(** The values are [uint16_t]. *)
Definition clcd_mps3_lib_set_window (pos_horizontal pos_vertical width height : Z) : LCD Z :=
  let pos_horizontal_end := sub32 (add32 pos_horizontal width) 1 in
  let pos_vertical_end := sub32 (add32 pos_vertical height) 1 in
  clcd_mps3_lib_write_to_register 0x02 (w16 (Z.shiftr pos_horizontal 8));;
  clcd_mps3_lib_write_to_register 0x03 (Z.land pos_horizontal 255);;
  clcd_mps3_lib_write_to_register 0x04 (w16 (Z.shiftr pos_horizontal_end 8));;
  clcd_mps3_lib_write_to_register 0x05 (Z.land pos_horizontal_end 255);;
  clcd_mps3_lib_write_to_register 0x06 (w16 (Z.shiftr pos_vertical 8));;
  clcd_mps3_lib_write_to_register 0x07 (Z.land pos_vertical 255);;
  clcd_mps3_lib_write_to_register 0x08 (w16 (Z.shiftr pos_vertical_end 8));;
  clcd_mps3_lib_write_to_register 0x09 (Z.land pos_vertical_end 255);;
  mret CLCD_MPS3_LIB_ERR_NONE.

Definition clcd_mps3_lib_clear_window (pos_horizontal pos_vertical width height : Z) : LCD Z :=
  clcd_mps3_lib_set_window pos_horizontal pos_vertical width height;;
  clcd_mps3_lib_write_command 0x22;;
  clcd_mps3_clear_cs;;
  for_acc (Z.to_nat (w32 (width * height))) 0 tt (fun _ _ => write_u16 CLR_BLACK);;
  clcd_mps3_set_cs;;
  mret CLCD_MPS3_LIB_ERR_NONE.

Definition clcd_mps3_display_image (pos_horizontal pos_vertical width height : Z) (bitmap : list Z) : LCD Z :=
  clcd_mps3_lib_set_window pos_horizontal pos_vertical width height;;
  clcd_mps3_lib_write_command 0x22;;
  clcd_mps3_lib_write_data bitmap (w32 (height * width));;
  mret CLCD_MPS3_LIB_ERR_NONE.

(** Settings with a wait after them. *)
Definition driving_ability : list (Z * Z) :=
  [(0xEA, 0x00); (0xEB, 0x20); (0xEC, 0x0C); (0xED, 0xC7); (0xE8, 0x38); (0xE9, 0x10); (0xF1, 0x01); (0xF2, 0x10)].
Definition gamma_curve : list (Z * Z) :=
  [(0x40, 0x01); (0x41, 0x00); (0x42, 0x00); (0x43, 0x10); (0x44, 0x0E); (0x45, 0x24); (0x46, 0x04); (0x47, 0x50);
   (0x48, 0x02); (0x49, 0x13); (0x4A, 0x19); (0x4B, 0x19); (0x4C, 0x16);
   (0x50, 0x1B); (0x51, 0x31); (0x52, 0x2F); (0x53, 0x3F); (0x54, 0x3F); (0x55, 0x3E); (0x56, 0x2F); (0x57, 0x7B);
   (0x58, 0x09); (0x59, 0x06); (0x5A, 0x06); (0x5B, 0x0C); (0x5C, 0x1D); (0x5D, 0xCC)].
Definition power_voltage : list (Z * Z) := [(0x1B, 0x1B); (0x1A, 0x01); (0x24, 0x2F); (0x25, 0x57); (0x23, 0x88)].
Definition power_on : list (Z * Z) := [(0x18, 0x36); (0x19, 0x01); (0x01, 0x00); (0x1F, 0x88)].
Definition color_and_interface : list (Z * Z) :=
  [(0x17, 0x55); (0x00, 0x00); (0x16, 0xA8); (0x2F, 0x11); (0x31, 0x00); (0x32, 0x00); (0x28, 0x38)].
Definition display_on_and_scrolling : list (Z * Z) :=
  [(0x28, 0x3C); (0x0E, 0x00); (0x0F, 0x00); (0x10, Z.shiftr 320 8); (0x11, Z.land 320 255); (0x12, 0x00); (0x13, 0x00)].

Fixpoint write_registers (l : list (Z * Z)) : LCD unit :=
  match l with
  | [] => mret tt
  | (reg, value) :: l => clcd_mps3_lib_write_to_register reg value;; write_registers l
  end.

Definition clcd_mps3_init : LCD Z :=
  clcd_mps3_set_cs;;
  clcd_mps3_set_reset;;
  clcd_mps3_clear_cs;;
  lcd_wait_ms 1;;
  clcd_mps3_clear_reset;;
  lcd_wait_ms 1;;
  clcd_mps3_set_reset;;
  lcd_wait_ms 1;;
  write_registers (driving_ability ++ gamma_curve ++ power_voltage ++ power_on);;
  lcd_wait_us 20;;
  write_registers [(0x1F, 0x82)];;
  lcd_wait_us 5;;
  write_registers [(0x1F, 0x92)];;
  lcd_wait_us 5;;
  write_registers [(0x1F, 0xD2)];;
  lcd_wait_us 5;;
  write_registers color_and_interface;;
  lcd_wait_us 5;;
  write_registers display_on_and_scrolling;;
  clcd_mps3_set_bl;;
  clcd_mps3_lib_clear_window 0 0 MAX_WIDTH MAX_HEIGHT;;
  mret CLCD_MPS3_LIB_ERR_NONE.
End Display.
