(* ===== verification/ClcdSpec.v ===== *)
(** * What the display shows

    The controller of the display takes commands and data from its bus while
    it is selected: a command chooses a register, two bytes of data are a value
    for it, and the values for register 22h are pixels, which fill the window
    row by row ([lcd_step]).  The device is any one that has the bus
    ([ClcdLaws]). *)
From Stdlib Require Import ZArith Lia.
From stdpp Require Import base list numbers gmap options.
From S2P Require Import Prelude.
From S2P Require Import FlashFsDefs.
From S2P Require Import Interrupts.
From S2P Require Import SysTimer.
From S2P Require Import I2sDriver.
From S2P Require Import Clcd.

#[local] Set Default Proof Using "Type*".

(** ** The controller *)

Inductive lcd_event : Type := Reset_line | Command (x : Z) | Data (x : Z).

(** [screen]: the pixels that were written, by column and row. *)
Record lcd : Type := {
  lcd_index : Z;
  lcd_high : option Z;
  lcd_regs : gmap Z Z;
  cursor : Z * Z;
  screen : gmap (Z * Z) Z
}.

Definition lcd_value (l : lcd) (r : Z) : Z := default 0 (lcd_regs l !! r).

(** The first and the last column and row of the window. *)
Definition win_x0 (l : lcd) : Z := 256 * lcd_value l 0x02 + lcd_value l 0x03.
Definition win_x1 (l : lcd) : Z := 256 * lcd_value l 0x04 + lcd_value l 0x05.
Definition win_y0 (l : lcd) : Z := 256 * lcd_value l 0x06 + lcd_value l 0x07.
Definition win_y1 (l : lcd) : Z := 256 * lcd_value l 0x08 + lcd_value l 0x09.

Definition advance (l : lcd) : Z * Z :=
  let '(x, y) := cursor l in
  if x =? win_x1 l then (win_x0 l, if y =? win_y1 l then win_y0 l else y + 1) else (x + 1, y).

Definition lcd_step (l : lcd) (e : lcd_event) : lcd :=
  match e with
  | Reset_line => {| lcd_index := 0; lcd_high := None; lcd_regs := ∅; cursor := (0, 0); screen := screen l |}
  | Command r =>
      {| lcd_index := r; lcd_high := None; lcd_regs := lcd_regs l;
         cursor := if r =? 0x22 then (win_x0 l, win_y0 l) else cursor l; screen := screen l |}
  | Data b =>
      match lcd_high l with
      | None => {| lcd_index := lcd_index l; lcd_high := Some b; lcd_regs := lcd_regs l; cursor := cursor l;
                   screen := screen l |}
      | Some h =>
          if lcd_index l =? 0x22 then
            {| lcd_index := lcd_index l; lcd_high := None; lcd_regs := lcd_regs l; cursor := advance l;
               screen := <[cursor l := 256 * h + b]> (screen l) |}
          else
            {| lcd_index := lcd_index l; lcd_high := None; lcd_regs := <[lcd_index l := 256 * h + b]> (lcd_regs l);
               cursor := cursor l; screen := screen l |}
      end
  end.

Definition lcd_run (l : lcd) (es : list lcd_event) : lcd := foldl lcd_step l es.

Lemma lcd_run_app l es es' : lcd_run l (es ++ es') = lcd_run (lcd_run l es) es'.
Proof. apply foldl_app. Qed.

(** ** What is sent *)

Definition u16_events (v : Z) : list lcd_event := [Data (Z.shiftr v 8); Data (Z.land v 255)].
Definition register_events (w : Z * Z) : list lcd_event := Command w.1 :: u16_events w.2.
Definition registers_events (l : list (Z * Z)) : list lcd_event := concat (register_events <$> l).
Definition pixels_events (px : list Z) : list lcd_event := concat (u16_events <$> px).

Definition window_registers (x y w h : Z) : list (Z * Z) :=
  [(0x02, Z.shiftr x 8); (0x03, Z.land x 255); (0x04, Z.shiftr (x + w - 1) 8); (0x05, Z.land (x + w - 1) 255);
   (0x06, Z.shiftr y 8); (0x07, Z.land y 255); (0x08, Z.shiftr (y + h - 1) 8); (0x09, Z.land (y + h - 1) 255)].

Lemma u16_bytes v : 256 * Z.shiftr v 8 + Z.land v 255 = v.
Proof.
  rewrite Z.shiftr_div_pow2 by lia. change 255 with (Z.ones 8). rewrite Z.land_ones by lia.
  pose proof (Z.div_mod v (2 ^ 8)). lia.
Qed.

(** The registers after a list of writes to others than 22h. *)
Definition set_registers_of (l : list (Z * Z)) (m : gmap Z Z) : gmap Z Z := foldl (fun m '(r, v) => <[r := v]> m) m l.

Lemma set_registers_app l l' m : set_registers_of (l ++ l') m = set_registers_of l' (set_registers_of l m).
Proof. apply foldl_app. Qed.

Lemma run_registers l ws : Forall (fun w => w.1 <> 0x22) ws ->
  let l' := lcd_run l (registers_events ws) in
  lcd_regs l' = set_registers_of ws (lcd_regs l) /\ screen l' = screen l.
Proof.
  revert l. induction ws as [|[r v] ws IH]; intros l H; [done|].
  apply Forall_cons_1 in H as [Hr H]. cbn [fst] in Hr. unfold registers_events. rewrite fmap_cons. cbn [concat].
  rewrite lcd_run_app. fold (registers_events ws).
  assert (let l1 := lcd_run l (register_events (r, v)) in
    lcd_regs l1 = <[r := v]> (lcd_regs l) /\ screen l1 = screen l) as [R1 S1].
  { cbn. destruct (Z.eqb_spec r 34); [done|]. cbn. by rewrite u16_bytes. }
  destruct (IH (lcd_run l (register_events (r, v))) H) as [R2 S2]. by rewrite R2, S2, R1, S1.
Qed.

(** ** Pixels *)

(** The cell of the [k]-th pixel of a window. *)
Definition cell (x0 y0 w h k : Z) : Z * Z := (x0 + k mod w, y0 + (k / w) mod h).

Definition in_window (x0 y0 w h : Z) (p : Z * Z) : Prop := x0 <= p.1 < x0 + w /\ y0 <= p.2 < y0 + h.
Definition index_in (x0 y0 w : Z) (p : Z * Z) : Z := (p.2 - y0) * w + (p.1 - x0).

Record window_is (x0 y0 w h : Z) (l : lcd) : Prop := {
  wi_x0 : win_x0 l = x0;
  wi_x1 : win_x1 l = x0 + w - 1;
  wi_y0 : win_y0 l = y0;
  wi_y1 : win_y1 l = y0 + h - 1
}.

Lemma index_bound x0 y0 w h : 0 < w -> forall p, in_window x0 y0 w h p -> 0 <= index_in x0 y0 w p < w * h.
Proof. intros Hw p [Hx Hy]. unfold index_in. nia. Qed.

Section Window.
Context (x0 y0 w h : Z) (Hw : 0 < w) (Hh : 0 < h).

Lemma cell_inj k p : 0 <= k < w * h -> in_window x0 y0 w h p -> index_in x0 y0 w p = k <-> p = cell x0 y0 w h k.
Proof using Hw Hh.
  intros Hk [Hx Hy]. destruct p as [x y]. unfold index_in, cell. cbn [fst snd] in *.
  pose proof (Z.div_mod k w). pose proof (Z.mod_pos_bound k w Hw).
  assert (0 <= k / w < h) as Hq by (split; [apply Z.div_pos; lia|apply Z.div_lt_upper_bound; lia]).
  rewrite (Z.mod_small (k / w) h) by lia. split.
  - intros <-. assert (((y - y0) * w + (x - x0)) / w = y - y0) as E.
    { rewrite Z.div_add_l by lia. rewrite (Z.div_small (x - x0)) by lia. lia. }
    rewrite E in *. f_equal; lia.
  - intros [= -> ->]. lia.
Qed.

Lemma cell_in k : in_window x0 y0 w h (cell x0 y0 w h k).
Proof using Hw Hh.
  unfold in_window, cell. cbn [fst snd]. pose proof (Z.mod_pos_bound k w Hw). pose proof (Z.mod_pos_bound (k / w) h Hh). lia.
Qed.

(** The cursor goes from cell to cell. *)
Lemma advance_cell l k : window_is x0 y0 w h l -> 0 <= k < w * h -> cursor l = cell x0 y0 w h k ->
  advance l = cell x0 y0 w h (k + 1).
Proof using Hw Hh.
  intros [E1 E2 E3 E4] Hk Hc. unfold advance. rewrite Hc, E1, E2, E3, E4. unfold cell.
  pose proof (Z.div_mod k w). pose proof (Z.mod_pos_bound k w Hw).
  assert (0 <= k / w < h) as Hq by (split; [apply Z.div_pos; lia|apply Z.div_lt_upper_bound; lia]).
  rewrite (Z.mod_small (k / w) h) by lia.
  destruct (Z.eqb_spec (x0 + k mod w) (x0 + w - 1)) as [Hx|Hx].
  - assert ((k + 1) / w = k / w + 1 /\ (k + 1) mod w = 0) as [D M].
    { replace (k + 1) with ((k / w + 1) * w) by lia. by rewrite Z.div_mul, Z_mod_mult by lia. }
    rewrite D, M. destruct (Z.eqb_spec (y0 + k / w) (y0 + h - 1)) as [Hy|Hy].
    + replace (k / w + 1) with h by lia. rewrite Z_mod_same_full. f_equal; lia.
    + rewrite (Z.mod_small (k / w + 1) h) by lia. f_equal; lia.
  - assert ((k + 1) / w = k / w /\ (k + 1) mod w = k mod w + 1) as [D M].
    { assert (k + 1 = w * (k / w) + (k mod w + 1)) as E by lia. split.
      - symmetry. apply (Z.div_unique _ _ _ (k mod w + 1)); lia.
      - symmetry. apply (Z.mod_unique _ _ (k / w)); lia. }
    rewrite D, M, (Z.mod_small (k / w) h) by lia. f_equal; lia.
Qed.

(** Pixels [px] from the [k]-th on. *)
Definition painted (k : Z) (px : list Z) (m m' : gmap (Z * Z) Z) : Prop :=
  forall p, m' !! p =
    if bool_decide (in_window x0 y0 w h p /\ k <= index_in x0 y0 w p < k + Z.of_nat (length px))
    then px !! Z.to_nat (index_in x0 y0 w p - k) else m !! p.

Lemma painted_nil k m : painted k [] m m.
Proof using Type. intros p. destruct (bool_decide_reflect (in_window x0 y0 w h p /\ k <= index_in x0 y0 w p < k + Z.of_nat (length (@nil Z)))); [cbn in *; lia|done]. Qed.

Lemma painted_cons k v px m m' : 0 <= k < w * h ->
  painted (k + 1) px (<[cell x0 y0 w h k := v]> m) m' -> painted k (v :: px) m m'.
Proof using Hw Hh.
  intros Hk H p. rewrite (H p). cbn [length]. clear H. destruct (decide (in_window x0 y0 w h p)) as [Hin|Hout].
  - pose proof (cell_inj k p Hk Hin) as Hc.
    destruct (bool_decide_reflect (in_window x0 y0 w h p /\ k + 1 <= index_in x0 y0 w p < k + 1 + Z.of_nat (length px))) as [[_ Ha]|Ha];
    destruct (bool_decide_reflect (in_window x0 y0 w h p /\ k <= index_in x0 y0 w p < k + Z.of_nat (S (length px)))) as [[_ Hb]|Hb].
    + replace (Z.to_nat (index_in x0 y0 w p - k)) with (S (Z.to_nat (index_in x0 y0 w p - (k + 1)))) by lia. done.
    + destruct Hb. split; [done|lia].
    + assert (index_in x0 y0 w p = k) as Hp.
      { destruct (decide (index_in x0 y0 w p = k)); [done|]. destruct Ha. split; [done|lia]. }
      pose proof (proj1 Hc Hp) as ->. rewrite lookup_insert_eq. rewrite Hp, Z.sub_diag. done.
    + rewrite lookup_insert_ne; [done|]. intros Hp. destruct Hb. split; [done|]. pose proof (proj2 Hc (eq_sym Hp)). lia.
  - destruct (bool_decide_reflect (in_window x0 y0 w h p /\ k + 1 <= index_in x0 y0 w p < k + 1 + Z.of_nat (length px))); [tauto|].
    destruct (bool_decide_reflect (in_window x0 y0 w h p /\ k <= index_in x0 y0 w p < k + Z.of_nat (S (length px)))); [tauto|].
    apply lookup_insert_ne. intros <-. apply Hout, cell_in.
Qed.

Lemma run_pixels l k px : window_is x0 y0 w h l -> lcd_index l = 0x22 -> lcd_high l = None ->
  cursor l = cell x0 y0 w h k -> 0 <= k -> k + Z.of_nat (length px) <= w * h ->
  let l' := lcd_run l (pixels_events px) in lcd_regs l' = lcd_regs l /\ painted k px (screen l) (screen l').
Proof using Hw Hh.
  revert l k. induction px as [|v px IH]; intros l k Hwin Hi Hn Hc Hk Hlen; [split; [done|apply painted_nil]|].
  cbn [length] in Hlen. unfold pixels_events. rewrite fmap_cons. cbn [concat]. rewrite lcd_run_app. fold (pixels_events px).
  set (l1 := lcd_run l (u16_events v)).
  assert (l1 = {| lcd_index := 0x22; lcd_high := None; lcd_regs := lcd_regs l; cursor := advance l;
    screen := <[cell x0 y0 w h k := v]> (screen l) |}) as E1.
  { unfold l1. destruct l as [i hi rg c sc]. cbn in Hi, Hn, Hc. subst i hi c. cbn. rewrite u16_bytes. reflexivity. }
  clearbody l1. subst l1. set (l1 := {| lcd_index := 0x22; lcd_high := None; lcd_regs := lcd_regs l; cursor := advance l;
    screen := <[cell x0 y0 w h k := v]> (screen l) |}) in *.
  destruct (IH l1 (k + 1)) as [R P]; try done; [by destruct Hwin; split| |lia..|].
  - cbn. apply advance_cell; [done|lia|done].
  - split; [exact R|]. apply painted_cons; [lia|exact P].
Qed.
End Window.

(** The registers of a window, and the pixels that follow. *)
Lemma window_registers_set x y w h l m : lcd_regs l = set_registers_of (window_registers x y w h) m -> window_is x y w h l.
Proof.
  intros H. unfold window_registers, set_registers_of in H. cbn [foldl] in H.
  split; unfold win_x0, win_x1, win_y0, win_y1, lcd_value; rewrite H;
    rewrite !lookup_insert; cbn [decide decide_rel Z.eq_dec sumbool_rec sumbool_rect default]; apply u16_bytes.
Qed.

Definition image_events (x y w h : Z) (px : list Z) : list lcd_event :=
  registers_events (window_registers x y w h) ++ [Command 0x22] ++ pixels_events px.

Lemma run_image l x y w h px : 0 < w -> 0 < h -> Z.of_nat (length px) <= w * h ->
  let l' := lcd_run l (image_events x y w h px) in
  lcd_regs l' = set_registers_of (window_registers x y w h) (lcd_regs l) /\
  painted x y w h 0 px (screen l) (screen l').
Proof.
  intros Hw Hh Hlen. unfold image_events. rewrite !lcd_run_app.
  destruct (run_registers l (window_registers x y w h)) as [R S]; [by repeat (constructor; [done|])|].
  set (l1 := lcd_run l (registers_events (window_registers x y w h))) in *.
  set (l2 := lcd_run l1 [Command 0x22]). rewrite <- R, <- S.
  assert (window_is x y w h l2) as Hwin by (apply (window_registers_set _ _ _ _ _ (lcd_regs l)); exact R).
  destruct (run_pixels x y w h Hw Hh l2 0 px) as [R2 P]; [done|done|done| |done|done|by split].
  destruct Hwin as [E1 _ E3 _]. cbn. unfold cell. rewrite Z.mod_0_l, Z.div_0_l, Z.mod_0_l by lia. rewrite !Z.add_0_r.
  f_equal; [exact E1|exact E3].
Qed.

(** ** What the driver sends

    Each operation of the library appends known events to the bus of the
    controller and leaves the other pins of the display alone. *)

(** What the controller gets through the registers: a command or data when the
    chip-select pin (bit 0 of the miscellaneous register) is low, a reset
    whenever the reset pin (bit 3) is low. *)
Class ClcdLaws (W : Type) {CO : ClcdOps W} {TO : SystimerOps W} {TL : SystimerLaws (T := W)} := {
  lcd_bus : W -> list lcd_event;
  misc : W -> Z;
  cl_misc : forall w, let '(x, w') := clcd_read char_misc w in
    x = misc w /\ misc w' = misc w /\ lcd_bus w' = lcd_bus w /\ ticks w' <= ticks w;
  cl_set_misc : forall x w, let w' := clcd_write char_misc x w in
    misc w' = x /\ lcd_bus w' = lcd_bus w ++ (if Z.testbit x 3 then [] else [Reset_line]) /\ ticks w' <= ticks w;
  cl_command : forall x w, let w' := clcd_write char_com x w in
    misc w' = misc w /\ lcd_bus w' = lcd_bus w ++ (if Z.testbit (misc w) 0 then [] else [Command (w8 x)]) /\ ticks w' <= ticks w;
  cl_data : forall x w, let w' := clcd_write char_dat x w in
    misc w' = misc w /\ lcd_bus w' = lcd_bus w ++ (if Z.testbit (misc w) 0 then [] else [Data (w8 x)]) /\ ticks w' <= ticks w;
  cl_init : forall w, let w' := systimer_armv8_m_init w in misc w' = misc w /\ lcd_bus w' = lcd_bus w;
  cl_timer : forall v w, let w' := systimer_armv8_m_set_timer_value v w in misc w' = misc w /\ lcd_bus w' = lcd_bus w;
  cl_poll : forall w, let w' := (systimer_armv8_m_is_interrupt_asserted w).2 in misc w' = misc w /\ lcd_bus w' = lcd_bus w
}.

Lemma testbit_mask off i : 0 <= off < 32 -> 0 <= i < 32 -> Z.testbit (Z.shiftl 1 off) i = (i =? off).
Proof. intros Ho Hi. rewrite Z.shiftl_1_l, Z.pow2_bits_eqb by lia. apply Z.eqb_sym. Qed.

Lemma testbit_clear x off i : 0 <= off < 32 -> 0 <= i < 32 ->
  Z.testbit (clear_bits x (Z.shiftl 1 off)) i = Z.testbit x i && negb (i =? off).
Proof.
  intros Ho Hi. unfold clear_bits, w32. change 4294967296 with (2 ^ 32).
  by rewrite Z.land_spec, Z.mod_pow2_bits_low, Z.lnot_spec, testbit_mask by lia.
Qed.

Lemma testbit_set x off i : 0 <= off < 32 -> 0 <= i < 32 ->
  Z.testbit (Z.lor x (Z.shiftl 1 off)) i = Z.testbit x i || (i =? off).
Proof. intros Ho Hi. by rewrite Z.lor_spec, testbit_mask by lia. Qed.

Lemma u16_parts v : 0 <= v < 65536 -> is_u16 (Z.shiftr v 8) /\ is_u16 (Z.land v 255).
Proof.
  intros H. unfold is_u16. rewrite Z.shiftr_div_pow2 by lia. change 255 with (Z.ones 8). rewrite Z.land_ones by lia.
  split; Z.to_euclidean_division_equations; lia.
Qed.

Section Send.
Context {W : Type} {CO : ClcdOps W} {TO : SystimerOps W} {TL : SystimerLaws (T := W)} {CL : ClcdLaws W}.
Context (polls : nat) (Hpolls : MS_TO_TICK 1 < Z.of_nat polls).
Implicit Types s : timer_state W.

Definition pin s (i : Z) : bool := Z.testbit (misc (systimer s)) i.
Definition bus s : list lcd_event := lcd_bus (systimer s).

(** [s'] is [s] after the events [es]; [sel]: whether the controller is
    selected then. *)
Record sent s (es : list lcd_event) (sel : bool) s' : Prop := {
  se_bus : bus s' = bus s ++ es;
  se_select : pin s' 0 = negb sel;
  se_reset : pin s' 3 = pin s 3;
  se_light : pin s 6 = true -> pin s' 6 = true;
  se_ready : bounded polls s -> bounded polls s'
}.

Definition sends {A} (m : ST (timer_state W) A) s (a : A) (es : list lcd_event) (sel : bool) : Prop :=
  wp m s (fun r s' => r = Ok a /\ sent s es sel s').

Lemma lcd_sent_trans s1 s2 s3 es es' b b' : sent s1 es b s2 -> sent s2 es' b' s3 -> sent s1 (es ++ es') b' s3.
Proof using Type.
  intros [B1 S1 P1 L1 R1] [B2 S2 P2 L2 R2]. split; [|done|congruence|tauto|tauto].
  by rewrite B2, B1, app_assoc.
Qed.

(** In this state the library's operations work. *)
Definition working s : Prop := bounded polls s /\ pin s 3 = true.

Lemma sent_working s es b s' : sent s es b s' -> working s -> working s'.
Proof using Type. intros [_ _ P _ R] [H1 H2]. split; [by apply R|congruence]. Qed.

Lemma sends_bind {A C} (m : ST (timer_state W) A) (k : A -> ST _ C) s a c es es' b b' : working s ->
  sends m s a es b -> (forall s', working s' -> pin s' 0 = negb b -> sends (k a) s' c es' b') ->
  sends (m ≫= k) s c (es ++ es') b'.
Proof using Type.
  intros Hs Hm Hk. unfold sends in *. apply wp_bind. eapply wp_mono; [exact Hm|]. intros r s1 [-> S1].
  eapply wp_mono; [apply Hk; [by eapply sent_working|apply S1]|]. intros r s2 [-> S2]. split; [done|]. by eapply lcd_sent_trans.
Qed.

Lemma sends_ret {A} (a : A) s b : pin s 0 = negb b -> sends (mret a) s a [] b.
Proof using Type. intros H. apply wp_ret. split; [done|]. split; [by rewrite app_nil_r|done..]. Qed.

Lemma bounded_le s w : ticks w <= ticks (systimer s) -> bounded polls s -> bounded polls (set_systimer w s).
Proof using Type. intros H (H1 & H2 & H3). split; [cbn; lia|done]. Qed.

(** A change of the pins. *)
Lemma wp_pins (f : Z -> Z) s : wp (x ← clcd_load char_misc; clcd_store char_misc (f x)) s (fun r s' =>
  r = Ok tt /\ misc (systimer s') = f (misc (systimer s)) /\
  bus s' = bus s ++ (if Z.testbit (f (misc (systimer s))) 3 then [] else [Reset_line]) /\
  (bounded polls s -> bounded polls s')).
Proof using Type.
  apply wp_bind. unfold wp at 1, clcd_load. pose proof (cl_misc (systimer s)) as H.
  destruct (clcd_read char_misc (systimer s)) as [x w]. destruct H as (-> & H1 & H2 & H3). cbn [fst snd].
  apply wp_modify. set (x := f (misc (systimer s))). cbn [systimer set_systimer].
  destruct (cl_set_misc x w) as (H4 & H5 & H6). split; [done|]. split; [exact H4|]. split.
  - unfold bus. cbn [systimer set_systimer]. by rewrite H5, H2.
  - intros Hb. apply (bounded_le (set_systimer w s)); [exact H6|]. by apply bounded_le.
Qed.

Lemma sends_pins f s (sel : bool) : working s -> Z.testbit (f (misc (systimer s))) 0 = negb sel ->
  (forall i, 0 < i < 32 -> Z.testbit (f (misc (systimer s))) i = pin s i) ->
  sends (x ← clcd_load char_misc; clcd_store char_misc (f x)) s tt [] sel.
Proof using Type.
  intros [_ Hr] H0 Hi. unfold sends. eapply wp_mono; [apply wp_pins|]. intros r s' (-> & M & B & R). split; [done|]. split; try done.
  - by rewrite B, Hi, Hr by lia.
  - unfold pin. by rewrite M.
  - unfold pin at 1. by rewrite M, Hi by lia.
  - intros Hl. unfold pin. by rewrite M, Hi by lia.
Qed.

Lemma sends_set_cs s : working s -> sends clcd_mps3_set_cs s tt [] false.
Proof using Type.
  intros H. apply (sends_pins (fun x => Z.lor x (Z.shiftl 1 0))); [done|by rewrite testbit_set, orb_true_r by lia|].
  intros i Hi. rewrite testbit_set by lia.
  destruct (Z.eqb_spec i 0); [lia|]. apply orb_false_r.
Qed.

Lemma sends_clear_cs s : working s -> sends clcd_mps3_clear_cs s tt [] true.
Proof using Type.
  intros H. apply (sends_pins (fun x => clear_bits x (Z.shiftl 1 0))); [done|by rewrite testbit_clear, andb_false_r by lia|].
  intros i Hi. rewrite testbit_clear by lia.
  destruct (Z.eqb_spec i 0); [lia|]. apply andb_true_r.
Qed.

Lemma sends_command v s : 0 <= v < 256 -> pin s 0 = false -> sends (clcd_mps3_write_command v) s tt [Command v] true.
Proof using Type.
  intros Hv Hp. apply wp_modify. destruct (cl_command v (systimer s)) as (H1 & H2 & H3). split; [done|].
  unfold pin in Hp. rewrite Hp, w8_small in H2 by done. split; unfold bus, pin; cbn [systimer set_systimer].
  - exact H2.
  - by rewrite H1.
  - by rewrite H1.
  - by rewrite H1.
  - by apply bounded_le.
Qed.

Lemma sends_data v s : 0 <= v < 256 -> pin s 0 = false -> sends (clcd_mps3_write_data v) s tt [Data v] true.
Proof using Type.
  intros Hv Hp. apply wp_modify. destruct (cl_data v (systimer s)) as (H1 & H2 & H3). split; [done|].
  unfold pin in Hp. rewrite Hp, w8_small in H2 by done. split; unfold bus, pin; cbn [systimer set_systimer].
  - exact H2.
  - by rewrite H1.
  - by rewrite H1.
  - by rewrite H1.
  - by apply bounded_le.
Qed.

Lemma sends_u16 v s : working s -> is_u16 v -> pin s 0 = false -> sends (write_u16 v) s tt (u16_events v) true.
Proof using Type.
  intros Hs Hv Hp. unfold is_u16 in Hv. assert (0 <= Z.shiftr v 8 < 256 /\ 0 <= Z.land v 255 < 256) as [H1 H2].
  { rewrite Z.shiftr_div_pow2 by lia. change 255 with (Z.ones 8). rewrite Z.land_ones by lia.
    split; [Z.to_euclidean_division_equations; lia|apply Z.mod_pos_bound; lia]. }
  apply (sends_bind _ _ _ tt tt [Data _] [Data _] true true Hs); [by apply sends_data|].
  intros s' _ Hp'. by apply sends_data.
Qed.

(** Waits leave the display alone. *)
Lemma sends_wait {limit to_tick} i delay s : bounded polls s ->
  startable limit to_tick polls i delay s ->
  sends (run (timeout_start limit to_tick (Some i) delay;; wait_loop polls i)) s tt [] (negb (pin s 0)).
Proof using Type.
  intros Hb Hst.
  destruct (wait_bounded (fun w => misc w = misc (systimer s) /\ lcd_bus w = lcd_bus (systimer s)))
    with (limit := limit) (to_tick := to_tick) (polls := polls) (i := i) (delay := delay) (s := s)
    as (s' & E & Hb' & _ & _ & HM & HB); try done.
  { intros w. destruct (cl_init w) as [-> ->]. done. }
  { intros v w. destruct (cl_timer v w) as [-> ->]. done. }
  { intros w. destruct (cl_poll w) as [-> ->]. done. }
  unfold sends, wp. rewrite E. cbn [fst snd]. split; [done|]. split; [..|done].
  - unfold bus. by rewrite HB, app_nil_r.
  - unfold pin. rewrite HM. by destruct (Z.testbit _ _).
  - unfold pin. by rewrite HM.
  - unfold pin. by rewrite HM.
Qed.

Lemma sends_wait_us us s b : bounded polls s -> 0 <= us <= 20 -> pin s 0 = negb b -> sends (lcd_wait_us polls us) s tt [] b.
Proof using Hpolls.
  intros Hs Hu Hp. replace b with (negb (pin s 0)) by (rewrite Hp; apply negb_involutive). apply sends_wait; [done|].
  assert (MAX_DELAY_US = 134217727) as HM by done. right. split; [lia|].
  rewrite (proj2 (US_TO_TICK_exact us ltac:(lia))) by lia.
  change (MS_TO_TICK 1) with 32000 in Hpolls. lia.
Qed.

Lemma sends_wait_ms s b : bounded polls s -> pin s 0 = negb b -> sends (lcd_wait_ms polls 1) s tt [] b.
Proof using Hpolls.
  intros Hs Hp. replace b with (negb (pin s 0)) by (rewrite Hp; apply negb_involutive). apply sends_wait; [done|].
  right. split; [done|exact Hpolls].
Qed.

(** ** The library *)

Lemma sends_write_command v s : working s -> 0 <= v < 256 ->
  sends (clcd_mps3_lib_write_command polls v) s CLCD_MPS3_LIB_ERR_NONE [Command v] false.
Proof using Hpolls.
  intros Hs Hv. change [Command v] with ([] ++ [] ++ [Command v] ++ [] ++ @nil lcd_event).
  eapply sends_bind; [done|by apply sends_clear_cs|]. intros s1 H1 P1.
  eapply sends_bind; [done|by apply sends_wait_us; [apply H1|..]|]. intros s2 H2 P2.
  eapply sends_bind; [done|by apply sends_command|]. intros s3 H3 P3.
  eapply sends_bind; [done|by apply sends_set_cs|]. intros s4 H4 P4. by apply sends_ret.
Qed.

Lemma sends_register r v s : working s -> 0 <= r < 256 -> is_u16 v ->
  sends (clcd_mps3_lib_write_to_register polls r v) s CLCD_MPS3_LIB_ERR_NONE (register_events (r, v)) false.
Proof using Hpolls.
  intros Hs Hr Hv. change (register_events (r, v)) with ([] ++ [] ++ [Command r] ++ u16_events v ++ [] ++ @nil lcd_event).
  eapply sends_bind; [done|by apply sends_clear_cs|]. intros s1 H1 P1.
  eapply sends_bind; [done|by apply sends_wait_us; [apply H1|..]|]. intros s2 H2 P2.
  eapply sends_bind; [done|by apply sends_command|]. intros s3 H3 P3.
  eapply sends_bind; [done|by apply sends_u16|]. intros s4 H4 P4.
  eapply sends_bind; [done|by apply sends_set_cs|]. intros s5 H5 P5. by apply sends_ret.
Qed.

(** A loop over pixels. *)
Lemma sends_pixels (px : list Z) (body : Z -> unit -> ST (timer_state W) unit) s : working s -> pin s 0 = false ->
  Forall is_u16 px ->
  (forall i x s', px !! i = Some x -> is_u16 x -> working s' -> pin s' 0 = false ->
     sends (body (Z.of_nat i) tt) s' tt (u16_events x) true) ->
  sends (for_acc (length px) 0 tt body) s tt (pixels_events px) true.
Proof using Type.
  intros Hs Hp Hu Hbody. unfold sends.
  apply (wp_for_acc (fun i _ s' => sent s (pixels_events (take (Z.to_nat i) px)) true s')).
  - split; [by rewrite app_nil_r|done..].
  - intros i [] s' Hi Hs'. assert (exists x, px !! Z.to_nat i = Some x) as [x Hx] by (apply lookup_lt_is_Some; lia).
    pose proof (sent_working _ _ _ _ Hs' Hs) as Hw. pose proof (se_select _ _ _ _ Hs') as Hp'.
    pose proof (Hbody (Z.to_nat i) x s' Hx (Forall_lookup_1 _ _ _ _ Hu Hx) Hw Hp') as Hb.
    rewrite Z2Nat.id in Hb by lia. unfold sends in Hb. eapply wp_mono; [exact Hb|]. intros r s2 [-> H2].
    replace (Z.to_nat (i + 1)) with (S (Z.to_nat i)) by lia. rewrite (take_S_r _ _ _ Hx).
    unfold pixels_events in *. rewrite fmap_app, concat_app. cbn [fmap list_fmap concat]. rewrite app_nil_r.
    by eapply lcd_sent_trans.
  - intros [] s' H. split; [done|]. by rewrite take_ge in H by lia.
Qed.

(** The end of an operation whose value is always the same. *)
Lemma sends_then {A C} (m : ST (timer_state W) A) (k : A -> ST (timer_state W) C) s a c es b es' : working s ->
  sends m s a es' b -> (forall s', working s' -> pin s' 0 = negb b -> sends (k a) s' c [] b) -> es' = es ->
  sends (m ≫= k) s c es b.
Proof using Type. intros Hs Hm Hk <-. rewrite <- (app_nil_r es'). by eapply sends_bind. Qed.

(** The limit is that of the counter. *)
Lemma sends_write_data px size s : working s -> 0 <= size <= Z.of_nat (length px) -> size <= 2147483647 -> Forall is_u16 px ->
  sends (clcd_mps3_lib_write_data px size) s CLCD_MPS3_LIB_ERR_NONE (pixels_events (take (Z.to_nat size) px)) false.
Proof using Type.
  intros Hs Hsz Hmax Hu. set (l := take (Z.to_nat size) px). change (pixels_events l) with ([] ++ pixels_events l).
  eapply sends_bind; [done|by apply sends_clear_cs|]. intros s1 H1 P1. rewrite <- (app_nil_r (pixels_events l)).
  assert (length l = Z.to_nat size) as Hl by (unfold l; rewrite length_take; lia).
  eapply sends_bind; [done| |].
  - rewrite <- Hl. apply sends_pixels; [done|done|by apply Forall_take|]. intros i x s2 Hx Hv H2 P2.
    assert (px !! i = Some x /\ (i < Z.to_nat size)%nat) as [Hx' Hi].
    { unfold l in Hx. apply lookup_take_Some in Hx. tauto. }
    change (u16_events x) with ([] ++ u16_events x). eapply sends_bind; [done| |].
    { unfold pixel_at. rewrite Nat2Z.id, Hx'. by apply (sends_ret x s2 true). }
    intros s3 H3 P3. eapply sends_then; [done|by apply sends_u16| |done]. intros s4 H4 P4.
    destruct (Z.eqb_spec (Z.of_nat i) 2147483647); [lia|]. by apply sends_ret.
  - intros s2 H2 P2. eapply sends_then; [done|by apply sends_set_cs| |done]. intros s3 H3 P3. by apply sends_ret.
Qed.

Lemma sends_registers ws b s : working s -> pin s 0 = negb b -> Forall (fun w => 0 <= w.1 < 256 /\ is_u16 w.2) ws ->
  sends (write_registers polls ws) s tt (registers_events ws) (match ws with [] => b | _ => false end).
Proof using Hpolls.
  intros Hs Hp H. revert b s Hs Hp. induction ws as [|[r v] ws IH]; intros b s Hs Hp; [by apply sends_ret|].
  apply Forall_cons_1 in H as [[H1 H2] H]. unfold registers_events. rewrite fmap_cons. cbn [concat].
  eapply sends_bind; [done|by apply sends_register|]. intros s1 W1 P1.
  replace false with (match ws with [] => false | _ => false end) by (by destruct ws). by apply IH.
Qed.

(** A position and a size that the registers can hold. *)
Definition fits_u16 (x w : Z) : Prop := 0 <= x /\ 0 < w /\ x + w <= 65536.

Lemma sends_set_window x y w h s : working s -> fits_u16 x w -> fits_u16 y h ->
  sends (clcd_mps3_lib_set_window polls x y w h) s CLCD_MPS3_LIB_ERR_NONE (registers_events (window_registers x y w h)) false.
Proof using Hpolls.
  intros Hs (Hx & Hw & Hxw) (Hy & Hh & Hyh). unfold clcd_mps3_lib_set_window.
  assert (sub32 (add32 x w) 1 = x + w - 1 /\ sub32 (add32 y h) 1 = y + h - 1) as [-> ->].
  { rewrite !add32_small by lia. rewrite !sub32_small by lia. done. }
  destruct (u16_parts x ltac:(lia)), (u16_parts (x + w - 1) ltac:(lia)), (u16_parts y ltac:(lia)), (u16_parts (y + h - 1) ltac:(lia)).
  rewrite !w16_small by done. unfold window_registers, registers_events. cbn [fmap list_fmap concat].
  do 8 (eapply sends_bind; [done|apply sends_register; done|]; intros ? ? ?). by apply sends_ret.
Qed.

Lemma sends_image x y w h px s : working s -> fits_u16 x w -> fits_u16 y h -> w * h <= 2147483647 ->
  w * h <= Z.of_nat (length px) -> Forall is_u16 px ->
  sends (clcd_mps3_display_image polls x y w h px) s CLCD_MPS3_LIB_ERR_NONE
    (image_events x y w h (take (Z.to_nat (w * h)) px)) false.
Proof using Hpolls.
  intros Hs Hx Hy Hmax Hlen Hu. unfold clcd_mps3_display_image, image_events. rewrite (Z.mul_comm h w).
  assert (0 < w * h) by (destruct Hx as (_ & ? & _), Hy as (_ & ? & _); nia). rewrite w32_small by lia.
  eapply sends_bind; [done|by apply sends_set_window|]. intros s1 H1 P1.
  eapply sends_bind; [done|by apply sends_write_command|]. intros s2 H2 P2.
  eapply sends_then; [done|apply sends_write_data; done || lia| |done]. intros s3 H3 P3. by apply sends_ret.
Qed.

Lemma sends_clear_window x y w h s : working s -> fits_u16 x w -> fits_u16 y h -> w * h < 4294967296 ->
  sends (clcd_mps3_lib_clear_window polls x y w h) s CLCD_MPS3_LIB_ERR_NONE
    (image_events x y w h (replicate (Z.to_nat (w * h)) CLR_BLACK)) false.
Proof using Hpolls.
  intros Hs Hx Hy Hmax. unfold clcd_mps3_lib_clear_window, image_events.
  assert (0 < w * h) by (destruct Hx as (_ & ? & _), Hy as (_ & ? & _); nia). rewrite w32_small by lia.
  eapply sends_bind; [done|by apply sends_set_window|]. intros s1 H1 P1.
  eapply sends_bind; [done|by apply sends_write_command|]. intros s2 H2 P2.
  set (px := replicate (Z.to_nat (w * h)) CLR_BLACK). change (pixels_events px) with ([] ++ pixels_events px).
  eapply sends_bind; [done|by apply sends_clear_cs|]. intros s3 H3 P3. rewrite <- (app_nil_r (pixels_events px)).
  eapply sends_bind; [done| |].
  - replace (Z.to_nat (w * h)) with (length px) by apply length_replicate. apply sends_pixels; [done|done| |].
    + apply Forall_replicate. done.
    + intros i v s4 Hv _ H4 P4. apply lookup_replicate in Hv as [-> _]. by apply sends_u16.
  - intros s4 H4 P4. eapply sends_then; [done|by apply sends_set_cs| |done]. intros s5 H5 P5. by apply sends_ret.
Qed.

(** ** The initialisation *)

Lemma wp_reset {B} (k : ST (timer_state W) B) s Q : bounded polls s ->
  (forall s' pre, working s' -> pin s' 0 = false -> bus s' = bus s ++ pre ++ [Reset_line] -> wp k s' Q) ->
  wp (clcd_mps3_set_cs;; clcd_mps3_set_reset;; clcd_mps3_clear_cs;; lcd_wait_ms polls 1;; clcd_mps3_clear_reset;;
      lcd_wait_ms polls 1;; clcd_mps3_set_reset;; lcd_wait_ms polls 1;; k) s Q.
Proof using Hpolls.
  intros Hb Hk.
  apply wp_bind. eapply wp_mono; [apply (wp_pins (fun x => Z.lor x (Z.shiftl 1 0)))|]. intros r s1 (-> & M1 & B1 & R1).
  apply wp_bind. eapply wp_mono; [apply (wp_pins (fun x => Z.lor x (Z.shiftl 1 3)))|]. intros r s2 (-> & M2 & B2 & R2).
  apply wp_bind. eapply wp_mono; [apply (wp_pins (fun x => clear_bits x (Z.shiftl 1 0)))|]. intros r s3 (-> & M3 & B3 & R3).
  assert (forall i, pin s3 i = Z.testbit (clear_bits (Z.lor (misc (systimer s1)) (Z.shiftl 1 3)) (Z.shiftl 1 0)) i) as P3.
  { intros i. unfold pin. by rewrite M3, M2. }
  apply wp_bind. eapply wp_mono; [apply (sends_wait_ms s3 true); [tauto|]|].
  { by rewrite P3, testbit_clear, andb_false_r by lia. }
  intros r s4 [-> S4].
  apply wp_bind. eapply wp_mono; [apply (wp_pins (fun x => clear_bits x (Z.shiftl 1 3)))|]. intros r s5 (-> & M5 & B5 & R5).
  assert (pin s5 0 = false) as P5.
  { unfold pin. rewrite M5, testbit_clear by lia. pose proof (se_select _ _ _ _ S4) as H. unfold pin in H. by rewrite H. }
  apply wp_bind. pose proof (se_ready _ _ _ _ S4) as R4.
  eapply wp_mono; [apply (sends_wait_ms s5 true); [tauto|done]|]. intros r s6 [-> S6].
  apply wp_bind. eapply wp_mono; [apply (wp_pins (fun x => Z.lor x (Z.shiftl 1 3)))|]. intros r s7 (-> & M7 & B7 & R7).
  pose proof (se_select _ _ _ _ S6) as P6. pose proof (se_ready _ _ _ _ S6) as R6.
  assert (pin s7 0 = false /\ pin s7 3 = true) as [P7 Q7].
  { unfold pin in *. by rewrite M7, !testbit_set, P6, orb_true_r by lia. }
  apply wp_bind. eapply wp_mono; [apply (sends_wait_ms s7 true); [tauto|done]|]. intros r s8 [-> S8].
  pose proof (se_ready _ _ _ _ S8) as R8.
  eapply (Hk s8); [split; [tauto|by rewrite (se_reset _ _ _ _ S8)]|apply S8|].
  rewrite testbit_set, Z.eqb_refl, orb_true_r in B2, B7 by lia.
  rewrite testbit_clear, M2, testbit_set, Z.eqb_refl, orb_true_r in B3 by lia.
  rewrite testbit_clear, Z.eqb_refl, andb_false_r in B5 by lia.
  rewrite (se_bus _ _ _ _ S8), B7, (se_bus _ _ _ _ S6), B5, (se_bus _ _ _ _ S4), B3, B2, B1, !app_nil_r.
  by rewrite <- app_assoc.
Qed.

Lemma sends_light s : working s -> pin s 0 = true ->
  wp clcd_mps3_set_bl s (fun r s' => r = Ok tt /\ sent s [] false s' /\ pin s' 6 = true).
Proof using Type.
  intros [_ H3] H0. eapply wp_mono; [apply (wp_pins (fun x => Z.lor x (Z.shiftl 1 6)))|]. intros r s' (-> & M & B & R).
  unfold pin in *. split; [done|]. split; [split|]; try done; unfold pin; rewrite ?M, ?testbit_set by lia;
    rewrite ?H0, ?H3, ?orb_true_r; try done. by rewrite B, testbit_set, H3 by lia.
Qed.

(** All settings of the initialisation, in their order. *)
Definition init_registers : list (Z * Z) :=
  driving_ability ++ gamma_curve ++ power_voltage ++ power_on ++ [(0x1F, 0x82); (0x1F, 0x92); (0x1F, 0xD2)] ++
  color_and_interface ++ display_on_and_scrolling.

Lemma registers_events_app ws ws' : registers_events (ws ++ ws') = registers_events ws ++ registers_events ws'.
Proof using Type. unfold registers_events. by rewrite fmap_app, concat_app. Qed.

Lemma wp_step {A C} (m : ST (timer_state W) A) (k : A -> ST (timer_state W) C) s0 s a es0 es b0 b Q :
  working s -> sent s0 es0 b0 s -> sends m s a es b ->
  (forall s', working s' -> pin s' 0 = negb b -> sent s0 (es0 ++ es) b s' -> wp (k a) s' Q) -> wp (m ≫= k) s Q.
Proof using Type.
  intros Hs H0 Hm Hk. unfold sends in Hm. apply wp_bind. eapply wp_mono; [exact Hm|]. intros r s1 [-> S1].
  apply Hk; [by eapply sent_working|apply S1|by eapply lcd_sent_trans].
Qed.

Lemma wp_settings {C} (k : unit -> ST (timer_state W) C) ws s0 s es0 b0 Q :
  forallb (fun w => (0 <=? w.1) && (w.1 <? 256) && (0 <=? w.2) && (w.2 <? 65536)) ws = true -> ws <> [] ->
  working s -> sent s0 es0 b0 s ->
  (forall s', working s' -> pin s' 0 = true -> sent s0 (es0 ++ registers_events ws) false s' -> wp (k tt) s' Q) ->
  wp (write_registers polls ws ≫= k) s Q.
Proof using Hpolls.
  intros Hws Hne Hs H0 Hk. eapply (wp_step _ _ s0 s tt es0 _ b0 false); [done|done| |exact Hk].
  replace false with (match ws with [] => b0 | _ => false end) by (by destruct ws).
  apply sends_registers; [done|apply H0|]. apply Forall_forall. intros w Hw. apply list_elem_of_In in Hw.
  rewrite forallb_forall in Hws. specialize (Hws w Hw). unfold is_u16. lia.
Qed.

Lemma wp_pause {C} (k : unit -> ST (timer_state W) C) us s0 s es0 Q : 0 <= us <= 20 ->
  working s -> pin s 0 = true -> sent s0 es0 false s ->
  (forall s', working s' -> pin s' 0 = true -> sent s0 es0 false s' -> wp (k tt) s' Q) ->
  wp (lcd_wait_us polls us ≫= k) s Q.
Proof using Hpolls.
  intros Hu Hs Hp H0 Hk. eapply (wp_step _ _ s0 s tt es0 [] false false); [done|done| |].
  - by apply sends_wait_us; [apply Hs|..].
  - rewrite app_nil_r. exact Hk.
Qed.

Ltac setting := eapply wp_settings; [done|done|eassumption|eassumption|intros ? ? ? ?].
Ltac pause := eapply wp_pause; [lia|eassumption|eassumption|eassumption|intros ? ? ? ?].

Lemma wp_display_init s : bounded polls s -> wp (clcd_mps3_init polls) s (fun r s' =>
  r = Ok CLCD_MPS3_LIB_ERR_NONE /\ working s' /\ pin s' 0 = true /\ pin s' 6 = true /\
  exists pre, bus s' = bus s ++ pre ++ [Reset_line] ++ registers_events init_registers ++
    image_events 0 0 MAX_WIDTH MAX_HEIGHT (replicate (Z.to_nat (MAX_WIDTH * MAX_HEIGHT)) CLR_BLACK)).
Proof using Hpolls.
  intros Hb. unfold clcd_mps3_init. apply wp_reset; [done|]. intros s0 pre W0 P0 B0.
  assert (sent s0 [] true s0) as S0 by (split; [by rewrite app_nil_r|done..]).
  setting. pause. setting. pause. setting. pause. setting. pause. setting. pause.
  eapply wp_settings; [done|done|eassumption|eassumption|]. intros s1 W1 P1 S1.
  apply wp_bind. eapply wp_mono; [by apply sends_light|]. intros r s2 (-> & L & P2).
  apply wp_bind. eapply wp_mono; [apply sends_clear_window; [by eapply sent_working|done..]|]. intros r s3 [-> S3].
  revert S3. generalize (image_events 0 0 MAX_WIDTH MAX_HEIGHT (replicate (Z.to_nat (MAX_WIDTH * MAX_HEIGHT)) CLR_BLACK)).
  intros img S3.
  pose proof (lcd_sent_trans _ _ _ _ _ _ _ L S3) as S2. apply wp_ret. split; [done|]. split; [by eapply sent_working|].
  split; [apply S3|]. split; [by apply S3|]. exists pre. rewrite (se_bus _ _ _ _ S2), (se_bus _ _ _ _ S1), B0.
  unfold init_registers. rewrite <- !app_assoc. 
  change [(31, 130); (31, 146); (31, 210)] with ([(31, 130)] ++ [(31, 146)] ++ [(31, 210)]).
  rewrite !registers_events_app, <- !app_assoc. cbn [app]. done.
Qed.
End Send.
