(* ===== verification/ClcdTheorems.v ===== *)
(** * The colour display: properties *)
From Stdlib Require Import ZArith Lia.
From stdpp Require Import base list numbers gmap options.
From S2P Require Import Prelude.
From S2P Require Import FlashFsDefs.
From S2P Require Import Interrupts.
From S2P Require Import SysTimer.
From S2P Require Import I2sDriver.
From S2P Require Import Clcd.
From S2P Require Import ClcdSpec.

#[local] Set Default Proof Using "Type*".

Section Properties.
Context {W : Type} {CO : ClcdOps W} {TO : SystimerOps W} {TL : SystimerLaws (T := W)} {CL : ClcdLaws W}.

(** C29: Displaying an image writes every pixel of the bitmap to its place in
    the window, row by row, and no other pixel of the display; of the
    controller's registers only those of the window change, and the controller
    is deselected afterwards. *)
Theorem image_shown polls (s : timer_state W) x y w h bitmap :
  MS_TO_TICK 1 < Z.of_nat polls -> working polls s -> fits_u16 x w -> fits_u16 y h -> w * h <= 2147483647 ->
  w * h <= Z.of_nat (length bitmap) -> Forall is_u16 bitmap ->
  exists s' es, clcd_mps3_display_image polls x y w h bitmap s = (Ok CLCD_MPS3_LIB_ERR_NONE, s') /\
    bus s' = bus s ++ es /\ pin s' 0 = true /\ working polls s' /\
    forall l, let l' := lcd_run l es in
      (forall p, in_window x y w h p -> screen l' !! p = bitmap !! Z.to_nat (index_in x y w p)) /\
      (forall p, ~ in_window x y w h p -> screen l' !! p = screen l !! p) /\
      (forall r, r < 2 \/ 9 < r -> lcd_regs l' !! r = lcd_regs l !! r).
Proof.
  intros Hp Hs Hx Hy Hmax Hlen Hu. pose proof (sends_image polls Hp x y w h bitmap s Hs Hx Hy Hmax Hlen Hu) as H.
  unfold sends, wp in H. destruct (clcd_mps3_display_image _ _ _ _ _ _ _) as [r s']. cbn [fst snd] in H. destruct H as [-> H].
  eexists s', _. split; [done|]. split; [exact (se_bus _ _ _ _ _ H)|]. split; [exact (se_select _ _ _ _ _ H)|].
  split; [by eapply sent_working|]. intros l l'. destruct Hx as (Hx & Hw & _), Hy as (Hy & Hh & _).
  destruct (run_image l x y w h (take (Z.to_nat (w * h)) bitmap) Hw Hh) as [R P]; [rewrite length_take; lia|].
  fold l' in R, P. split_and!.
  - intros p Hin. rewrite (P p). pose proof (index_bound x y w h Hw p Hin) as Hi. rewrite bool_decide_eq_true_2.
    + rewrite Z.sub_0_r. apply lookup_take_lt. lia.
    + split; [done|]. rewrite length_take. lia.
  - intros p Hout. rewrite (P p), bool_decide_eq_false_2; tauto.
  - intros r Hr. rewrite R. unfold window_registers, set_registers_of. cbn [foldl]. by rewrite !lookup_insert_ne by lia.
Qed.

(** C30: Whatever the state of the controller, the initialisation resets it and
    ends with all settings of the program's table in its registers, the whole
    display black, the backlight on and the controller deselected. *)
Theorem display_initialised polls (s : timer_state W) :
  MS_TO_TICK 1 < Z.of_nat polls -> bounded polls s ->
  exists s' es, clcd_mps3_init polls s = (Ok CLCD_MPS3_LIB_ERR_NONE, s') /\
    bus s' = bus s ++ es /\ working polls s' /\ pin s' 0 = true /\ pin s' 6 = true /\
    forall l, let l' := lcd_run l es in
      (forall p, 0 <= p.1 < 320 -> 0 <= p.2 < 240 -> screen l' !! p = Some 0) /\
      lcd_regs l' = set_registers_of (init_registers ++ window_registers 0 0 320 240) ∅.
Proof.
  intros Hp Hb. pose proof (wp_display_init polls Hp s Hb) as H. unfold wp in H.
  destruct (clcd_mps3_init polls s) as [r s']. cbn [fst snd] in H. destruct H as (-> & Hw & H0 & H6 & pre & Hbus).
  eexists s', _. split; [done|]. split; [exact Hbus|]. split_and!; try done. intros l l'. unfold l'. clear l' Hbus.
  rewrite lcd_run_app. generalize (lcd_run l pre). clear l. intros l. rewrite lcd_run_app. cbn [lcd_run foldl lcd_step].
  rewrite lcd_run_app. set (l1 := {| lcd_index := 0; lcd_high := None; lcd_regs := ∅; cursor := (0, 0); screen := screen l |}).
  destruct (run_registers l1 init_registers) as [R1 S1].
  { assert (forallb (fun w => negb (w.1 =? 0x22)) init_registers = true) as E by (vm_compute; reflexivity).
    rewrite forallb_forall in E. apply Forall_forall. intros w Hin. apply list_elem_of_In, E in Hin. lia. }
  set (l2 := lcd_run l1 (registers_events init_registers)) in *.
  destruct (run_image l2 0 0 MAX_WIDTH MAX_HEIGHT (replicate (Z.to_nat (MAX_WIDTH * MAX_HEIGHT)) CLR_BLACK)) as [R2 P];
    [done|done|rewrite length_replicate; unfold MAX_WIDTH, MAX_HEIGHT; lia|]. split.
  - intros p Hx Hy. rewrite (P p). assert (in_window 0 0 MAX_WIDTH MAX_HEIGHT p) as Hin by (unfold in_window, MAX_WIDTH, MAX_HEIGHT; lia).
    pose proof (index_bound 0 0 MAX_WIDTH MAX_HEIGHT ltac:(done) p Hin) as Hi. rewrite length_replicate, bool_decide_eq_true_2.
    + apply lookup_replicate_2. unfold MAX_WIDTH, MAX_HEIGHT in *. lia.
    + split; [done|]. unfold MAX_WIDTH, MAX_HEIGHT in *. lia.
  - rewrite set_registers_app, R2, R1. reflexivity.
Qed.
End Properties.

(** ** Instances *)

(** A display and a timer that is asked a few times before it fires. *)
Record panel : Type := { p_bus : list lcd_event; p_misc : Z; p_raw : Z; p_mask : Z; p_ticks : Z }.

#[export] Instance panel_timer : SystimerOps panel := {
  systimer_armv8_m_init := fun w => w;
  systimer_armv8_m_set_timer_value := fun v w =>
    {| p_bus := p_bus w; p_misc := p_misc w; p_raw := p_raw w; p_mask := p_mask w; p_ticks := v |};
  systimer_armv8_m_is_interrupt_asserted := fun w =>
    (p_ticks w <=? 0, {| p_bus := p_bus w; p_misc := p_misc w; p_raw := p_raw w; p_mask := p_mask w; p_ticks := p_ticks w - 8000 |})
}.

#[export] Program Instance panel_timer_laws : SystimerLaws (T := panel) := { ticks := p_ticks }.
Next Obligation. done. Qed.
Next Obligation. intros w. cbn. rewrite Z.leb_le, Z.leb_gt. split; [done|lia]. Qed.

Definition p_event (e : lcd_event) (w : panel) : panel :=
  {| p_bus := p_bus w ++ (if Z.testbit (p_misc w) 0 then [] else [e]); p_misc := p_misc w; p_raw := p_raw w;
     p_mask := p_mask w; p_ticks := p_ticks w |}.

#[export] Instance panel_ops : ClcdOps panel := {
  clcd_read := fun r w =>
    (match r with char_misc => p_misc w | char_raw => p_raw w | char_mask => p_mask w | _ => 0 end, w);
  clcd_write := fun r x w =>
    match r with
    | char_com => p_event (Command (w8 x)) w
    | char_dat => p_event (Data (w8 x)) w
    | char_misc => {| p_bus := p_bus w ++ (if Z.testbit x 3 then [] else [Reset_line]); p_misc := x; p_raw := p_raw w;
                      p_mask := p_mask w; p_ticks := p_ticks w |}
    | char_raw => {| p_bus := p_bus w; p_misc := p_misc w; p_raw := x; p_mask := p_mask w; p_ticks := p_ticks w |}
    | char_mask => {| p_bus := p_bus w; p_misc := p_misc w; p_raw := p_raw w; p_mask := x; p_ticks := p_ticks w |}
    | _ => w
    end
}.

#[export] Program Instance panel_laws : ClcdLaws panel := { lcd_bus := p_bus; misc := p_misc }.
Solve All Obligations with (intros; by split_and!).

Definition panel_state : timer_state panel :=
  {| delay_in_tick := 0; timeout_us := {| dev_ptr := false; is_initialized := false |};
     timeout_ms := {| dev_ptr := false; is_initialized := false |};
     systimer := {| p_bus := []; p_misc := 9; p_raw := 0; p_mask := 0; p_ticks := 0 |} |}.

Definition blank : lcd := {| lcd_index := 0; lcd_high := None; lcd_regs := ∅; cursor := (0, 0); screen := ∅ |}.

Lemma panel_working : working (Pos.to_nat 32001) panel_state.
Proof. split; [|done]. unfold bounded. cbn [panel_state systimer ticks delay_in_tick p_ticks panel_timer_laws]. lia. Qed.

(** Two by two pixels at (10, 20). *)
Lemma image_shown_witness :
  exists s' es, clcd_mps3_display_image (Pos.to_nat 32001) 10 20 2 2 [1; 2; 3; 65535] panel_state = (Ok CLCD_MPS3_LIB_ERR_NONE, s') /\
    bus s' = es /\ screen (lcd_run blank es) !! (11, 21) = Some 65535 /\ screen (lcd_run blank es) !! (12, 21) = None.
Proof.
  destruct (image_shown (Pos.to_nat 32001) panel_state 10 20 2 2 [1; 2; 3; 65535]) as (s' & es & E & B & _ & _ & H).
  - change (MS_TO_TICK 1) with 32000. lia.
  - exact panel_working.
  - unfold fits_u16. lia.
  - unfold fits_u16. lia.
  - lia.
  - cbn. lia.
  - repeat (constructor; [unfold is_u16; lia|]). constructor.
  - exists s', es. split; [exact E|]. split; [exact B|]. destruct (H blank) as (H1 & H2 & _). split.
    + apply (H1 (11, 21)). unfold in_window. cbn. lia.
    + apply (H2 (12, 21)). unfold in_window. cbn. lia.
Defined.

Lemma display_initialised_witness :
  exists s', clcd_mps3_init (Pos.to_nat 32001) panel_state = (Ok CLCD_MPS3_LIB_ERR_NONE, s') /\
    lcd_value (lcd_run blank (bus s')) 0x28 = 0x3C /\ screen (lcd_run blank (bus s')) !! (319, 239) = Some 0.
Proof.
  destruct (display_initialised (Pos.to_nat 32001) panel_state) as (s' & es & E & B & _ & _ & _ & H).
  - change (MS_TO_TICK 1) with 32000. lia.
  - apply panel_working.
  - exists s'. split; [exact E|]. change (bus s' = es) in B. rewrite B. destruct (H blank) as [H1 H2]. split.
    + unfold lcd_value. rewrite H2. vm_compute. reflexivity.
    + apply (H1 (319, 239)); cbn; lia.
Defined.

(** ** Defects *)

(** Enabling the interrupt writes the register that the access-complete flag is
    in, and leaves the mask as it is. *)
Example interrupt_stays_masked :
  let s' := (clcd_mps3_enable_write_interrupt panel_state).2 in p_mask (systimer s') = 0 /\ p_raw (systimer s') = 1.
Proof. vm_compute. by split. Qed.
