(* ===== verification/DmaTasks.v ===== *)
(** * The two tasks of the DMA example (examples/corstone310_fvp_dma/dma350_ns)

    One task draws into a picture, the other one shows the picture on the
    display (draw_task.c, clcd_task.c); both work with the DMA controller
    (clcd_dma_wrapper.c, dma350_lib_unprivileged.c).  The drivers of the
    controller and FreeRTOS are not part of the program: [DmaOps] and
    [RtosOps] list what the tasks call of them.  A task is a tree of steps. *)
From Stdlib Require Import ZArith Lia.
From stdpp Require Import base list numbers options.
From S2P Require Import Prelude.
From S2P Require Import FlashFsDefs.
From S2P Require Import Interrupts.
From S2P Require Import SysTimer.
From S2P Require Import I2sDriver.
From S2P Require Import Clcd.

#[local] Set Default Proof Using "Type*".

(** ** The driver of the controller (dma350_ch_drv.h) *)

Inductive dma350_ch_intr_t : Type := DMA350_CH_INTREN_DONE | DMA350_CH_INTREN_DESTRIGINWAIT.
Inductive dma350_ch_cmd_t : Type := DMA350_CH_CMD_ENABLECMD | DMA350_CH_CMD_DESSWTRIGINREQ_BLOCK.

(** The functions that set up a channel, dma350_ch_..., and those that set up a
    command, dma350_cmdlink_..., with their arguments; pairs are for the
    source and the destination. *)
Inductive dma_setting : Type :=
| set_regclear
| set_src_trans_nonsecure
| set_des_trans_nonsecure
| set_src_trans_privileged
| set_des_trans_privileged
| set_srcaddr32 (a : Z)
| set_desaddr32 (a : Z)
| set_transize_8bits
| set_xsize32 (src des : Z)
| set_ysize16 (src des : Z)
| set_xaddrinc (src des : Z)
| set_yaddrstride (src des : Z)
| set_xtype_continue
| set_ytype_disable
| set_ytype_continue
| enable_srctrigin
| disable_srctrigin
| set_srctriginsel (n : Z)
| set_srctriginmode_periph_flow_ctrl
| set_srctrigintype_hw
| set_srctriginblksize (n : Z)
| enable_destrigin
| disable_destrigin
| set_destriginsel (n : Z)
| set_destriginmode_periph_flow_ctrl
| set_destrigintype_hw
| set_desmaxburstlen (n : Z)
| set_destriginblksize (n : Z)
| enable_intr (i : dma350_ch_intr_t)
| disable_intr (i : dma350_ch_intr_t)
| set_donetype_none
| set_donetype_end_of_cmd
| enable_linkaddr
| disable_linkaddr
| set_linkaddr32 (a : Z).

(** A configuration is the settings made since dma350_cmdlink_init.
    dma350_cmdlink_generate writes the command to an address, if it ends before
    the limit, and returns the address behind it. *)
Class DmaOps (W : Type) := {
  dma350_cmdlink_generate : list dma_setting -> Z -> Z -> W -> option Z * W;
  dma350_ch_init : W -> W;
  dma350_ch_set : dma_setting -> W -> W;
  dma350_ch_cmd : dma350_ch_cmd_t -> W -> W;
  dma350_ch_is_intr_set : dma350_ch_intr_t -> W -> bool;
  dma350_ch_clear_stat_done : W -> W
}.

(** ** The DMA library (dma350_lib.h, dma350_privileged_config.h) *)

Record dma350_draw_config : Type := {
  draw_src : Z;
  draw_des : Z;
  src_width : Z;
  src_height : Z;
  src_line_width : Z;
  des_width : Z;
  des_height : Z;
  des_line_width : Z;
  pixelsize : Z;
  transform : Z;
  draw_exec_type : Z
}.

Record dma350_copy_config : Type := { copy_src : Z; copy_dst : Z; copy_size : Z; copy_exec_type : Z }.

Inductive dma_call : Type :=
| DMA_CALL_MEMCPY (config : dma350_copy_config)
| DMA_CALL_MEMMOVE (config : dma350_copy_config)
| DMA_CALL_DRAW_FROM_CANVAS (config : dma350_draw_config)
| DMA_CLEAR_DONE_IRQ
| DMA_GET_STATUS.

(** The call of the privileged side: its result and, for the last call, what it
    wrote to the status. *)
Class DmaLibrary (W : Type) := {
  DMA350_CH_TRANSIZE_16BITS : Z;
  DMA350_LIB_EXEC_BLOCKING : Z;
  DMA350_LIB_TRANSFORM_NONE : Z;
  DMA350_LIB_TRANSFORM_MIRROR_TRBL : Z;
  request_dma350_priv_config : dma_call -> Z -> W -> (Z * option Z) * W
}.

(** ** FreeRTOS, and the interrupts of the channel

    A call that has to wait has no value yet. *)

Inductive task_t : Type := CLCD_TASK | DRAW_TASK.

Class RtosOps (W : Type) := {
  xQueueSendToBack : Z -> W -> option W;
  xQueueReceive : W -> option (Z * W);
  xTaskNotifyGive : task_t -> W -> W;
  ulTaskNotifyTake : task_t -> W -> option W;
  NVIC_SetVector_EnableIRQ : W -> W;
  NVIC_DisableIRQ : W -> W;
  irq_pending : W -> bool
}.

(** A step that cannot be made now; no C status. *)
Definition BLOCKED : Z := 4294967299.

(** The addresses of the display's data register, of the picture, of the
    pattern and of the buffer for commands. *)
Class ExampleLayout := {
  char_dat_address : Z;
  shared_clcd_buffer : Z;
  pattern : Z;
  cmd_buffer : Z
}.

(** example_tasks.h, pattern.h, clcd_dma_wrapper.c *)
Definition BUFFER_WIDTH : Z := 320.
Definition BUFFER_HEIGHT : Z := 240.
Definition EX_TASK_ACTION_DRAW : Z := 0.
Definition EX_TASK_ACTION_NO_MORE_DRAWING : Z := 1.
Definition PAT_W : Z := 64.
Definition PAT_H : Z := 64.
Definition LCD_WIDTH : Z := 320.
Definition LCD_HEIGHT : Z := 240.
Definition QUARTER_SIZE : Z := LCD_WIDTH * LCD_HEIGHT / 4.
Definition CMD_BUFFER_LEN : Z := 40.

(** ** The commands that send a picture (clcd_dma_wrapper.c) *)

Section Commands.
Context {W : Type} {DO : DmaOps W}.

(** Two bytes to a row, the second one first. *)
Definition cmdlink1_cfg (bitmap8_ptr char_dat : Z) : list dma_setting :=
  [set_regclear;
   set_src_trans_nonsecure; set_des_trans_nonsecure; set_src_trans_privileged; set_des_trans_privileged;
   set_desaddr32 char_dat;
   set_ytype_continue;
   set_transize_8bits;
   set_xsize32 2 (2 * QUARTER_SIZE); set_ysize16 QUARTER_SIZE 1;
   set_srcaddr32 (bitmap8_ptr + 1);
   set_xaddrinc (-1) 0;
   set_yaddrstride 2 0;
   enable_destrigin; set_destriginmode_periph_flow_ctrl; enable_intr DMA350_CH_INTREN_DESTRIGINWAIT;
   set_desmaxburstlen 8; set_destriginblksize 8;
   enable_linkaddr;
   set_donetype_none; disable_intr DMA350_CH_INTREN_DONE].

Definition cmdlink2_cfg (bitmap8_ptr : Z) : list dma_setting :=
  [set_xsize32 2 (2 * QUARTER_SIZE); set_ysize16 QUARTER_SIZE 1;
   set_srcaddr32 (bitmap8_ptr + (QUARTER_SIZE * 2 + 1)); enable_linkaddr].

Definition cmdlink3_cfg (bitmap8_ptr : Z) : list dma_setting :=
  [set_xsize32 2 (2 * QUARTER_SIZE); set_ysize16 QUARTER_SIZE 1;
   set_srcaddr32 (bitmap8_ptr + (QUARTER_SIZE * 2 * 2 + 1)); enable_linkaddr].

Definition cmdlink4_cfg (bitmap8_ptr : Z) : list dma_setting :=
  [set_xsize32 2 (2 * QUARTER_SIZE); set_ysize16 QUARTER_SIZE 1;
   set_srcaddr32 (bitmap8_ptr + (QUARTER_SIZE * 2 * 3 + 1)); enable_linkaddr].

Definition cmdlink_cleanup_cfg : list dma_setting :=
  [set_regclear; set_donetype_end_of_cmd; enable_intr DMA350_CH_INTREN_DONE; disable_linkaddr].

(** [x = dma350_cmdlink_generate(...); if (x == NULL) return;] *)
Definition generate_or_return (cfg : list dma_setting) (cmd limit : Z) (k : Z -> W -> option Z * W) (w : W) : option Z * W :=
  match dma350_cmdlink_generate cfg cmd limit w with
  | (None, w) => (None, w)
  | (Some next, w) => k next w
  end.

(** The address of the first command; [None]: the caller's variable is not
    written. *)
Definition generate_dma_cmdlinks_for_display (picture_bitmap char_dat cmds cmd_buffer_limit : Z) (w : W) : option Z * W :=
  let cmd_cleanup := cmds in
  generate_or_return cmdlink_cleanup_cfg cmd_cleanup cmd_buffer_limit (fun cmd4 =>
  generate_or_return (cmdlink4_cfg picture_bitmap ++ [set_linkaddr32 cmd_cleanup]) cmd4 cmd_buffer_limit (fun cmd3 =>
  generate_or_return (cmdlink3_cfg picture_bitmap ++ [set_linkaddr32 cmd4]) cmd3 cmd_buffer_limit (fun cmd2 =>
  generate_or_return (cmdlink2_cfg picture_bitmap ++ [set_linkaddr32 cmd3]) cmd2 cmd_buffer_limit (fun cmd1 =>
  generate_or_return (cmdlink1_cfg picture_bitmap char_dat ++ [set_linkaddr32 cmd2]) cmd1 cmd_buffer_limit (fun _ w =>
  (Some cmd1, w)))))) w.
End Commands.

Section Tasks.
Context {W : Type} {CO : ClcdOps W} {TO : SystimerOps W} {DO : DmaOps W} {DL : DmaLibrary W} {RO : RtosOps W}.
Context {EL : ExampleLayout}.
Context (polls irqs : nat).
Abbreviation LCD := (ST (timer_state W)).
Abbreviation TASK := (prog (timer_state W)).

(** Calls of the drivers and of the operating system. *)
Definition on_w {A} (f : W -> A * W) : LCD A := fun s =>
  let '(a, w) := f (systimer s) in (Ok a, set_systimer w s).
Definition does (f : W -> W) : LCD unit := modify (fun s => set_systimer (f (systimer s)) s).
Definition asks {A} (f : W -> A) : LCD A := gets (fun s => f (systimer s)).
Definition waits_for {A} (f : W -> option (A * W)) : LCD A := fun s =>
  match f (systimer s) with Some (a, w) => (Ok a, set_systimer w s) | None => (Err BLOCKED, s) end.
Definition waits_to (f : W -> option W) : LCD unit := waits_for (fun w => pair tt <$> f w).

(** ** Showing the picture (clcd_dma_wrapper.c) *)

Definition dma_ch_irq_handler : LCD unit :=
  done ← asks (dma350_ch_is_intr_set DMA350_CH_INTREN_DONE);
  if (done : bool) then
    does dma350_ch_clear_stat_done;;
    does (xTaskNotifyGive CLCD_TASK)
  else
    waits ← asks (dma350_ch_is_intr_set DMA350_CH_INTREN_DESTRIGINWAIT);
    if (waits : bool) then does (dma350_ch_cmd DMA350_CH_CMD_DESSWTRIGINREQ_BLOCK)
    else raise HANG.

(** [ulTaskNotifyTake(pdTRUE, portMAX_DELAY)] while the interrupts of the
    channel come, at most [n] of them. *)
Fixpoint take_while_irqs (n : nat) : TASK unit :=
  pending ← act (asks irq_pending);
  if (pending : bool) then
    match n with
    | O => act (raise HANG)
    | S n => act dma_ch_irq_handler;; take_while_irqs n
    end
  else act (waits_to (ulTaskNotifyTake CLCD_TASK)).

Definition display_image_with_dma (first_command : Z) : TASK unit :=
  act (does dma350_ch_init);;
  act (does NVIC_SetVector_EnableIRQ);;
  act (does (dma350_ch_set (set_xsize32 0 0)));;
  act (does (dma350_ch_set (set_ysize16 0 0)));;
  act (does (dma350_ch_set set_xtype_continue));;
  act (does (dma350_ch_set set_ytype_disable));;
  act (does (dma350_ch_set enable_linkaddr));;
  act (does (dma350_ch_set (set_linkaddr32 first_command)));;
  act (does (dma350_ch_set (disable_intr DMA350_CH_INTREN_DONE)));;
  act (clcd_mps3_lib_set_window polls 0 0 LCD_WIDTH LCD_HEIGHT);;
  act clcd_mps3_clear_cs;;
  act (clcd_mps3_write_command 0x22);;
  act clcd_mps3_set_cs;;
  act clcd_mps3_clear_cs;;
  act (does (dma350_ch_cmd DMA350_CH_CMD_ENABLECMD));;
  take_while_irqs irqs;;
  act (does NVIC_DisableIRQ);;
  act clcd_mps3_set_cs.

(** ** The library for tasks without privileges (dma350_lib_unprivileged.c) *)

Definition request (call : dma_call) (channel : Z) : LCD Z :=
  '(ret_val, _) ← on_w (request_dma350_priv_config call channel);
  mret ret_val.

Definition dma350_memcpy_unpriv (channel src des size exec_type : Z) : LCD Z :=
  request (DMA_CALL_MEMCPY {| copy_exec_type := exec_type; copy_dst := des; copy_src := src; copy_size := size |}) channel.

Definition dma350_memmove_unpriv (channel src des size exec_type : Z) : LCD Z :=
  request (DMA_CALL_MEMMOVE {| copy_exec_type := exec_type; copy_dst := des; copy_src := src; copy_size := size |}) channel.

Definition dma350_draw_from_canvas_unpriv (channel src des src_width src_height src_line_width des_width des_height
    des_line_width pixelsize transform exec_type : Z) : LCD Z :=
  request (DMA_CALL_DRAW_FROM_CANVAS {|
    draw_exec_type := exec_type; draw_src := src; draw_des := des; src_width := src_width; src_height := src_height;
    src_line_width := src_line_width; des_width := des_width; des_height := des_height;
    des_line_width := des_line_width; pixelsize := pixelsize; transform := transform |}) channel.

(** [src_line_width] and [des_line_width] have 16 bits, a width has 32. *)
Definition dma350_draw_from_bitmap_unpriv (channel src des src_width src_height des_width des_height des_line_width
    pixelsize transform exec_type : Z) : LCD Z :=
  dma350_draw_from_canvas_unpriv channel src des src_width src_height (w16 src_width) des_width des_height
    des_line_width pixelsize transform exec_type.

Definition dma350_2d_copy_unpriv (channel src des width height pixelsize transform exec_type : Z) : LCD Z :=
  dma350_draw_from_canvas_unpriv channel src des width height (w16 width) width height (w16 width)
    pixelsize transform exec_type.

Definition dma350_clear_done_irq_unpriv (channel : Z) : LCD Z := request DMA_CLEAR_DONE_IRQ channel.

(** The result and the status. *)
Definition dma350_ch_get_status_unpriv (channel : Z) : LCD (Z * option Z) :=
  on_w (request_dma350_priv_config DMA_GET_STATUS channel).

(** ** draw_task.c *)

Definition PAVED_W : Z := 64.
Definition PAVED_H : Z := 64.
Definition START_MARGIN : Z := 14.
Definition INNER_MARGIN_W : Z := 12.
Definition INNER_MARGIN_H : Z := 10.

(** [&shared_clcd_buffer[to_y][to_x]] *)
Definition pixel_address (to_x to_y : Z) : Z := shared_clcd_buffer + 2 * (to_y * BUFFER_WIDTH + to_x).

Definition next_transform (t : Z) : Z :=
  if t + 1 >? DMA350_LIB_TRANSFORM_MIRROR_TRBL then DMA350_LIB_TRANSFORM_NONE else t + 1.

(** The inner loop, with the transform that comes next as its result. *)
Fixpoint draw_column (fuel : nat) (to_x to_y t : Z) : TASK Z :=
  match fuel with
  | O => act (raise UNDEFINED)
  | S fuel =>
      if add32 to_y PAVED_H <=? BUFFER_HEIGHT then
        act (dma350_draw_from_bitmap_unpriv 1 pattern (pixel_address to_x to_y) PAT_W PAT_H PAVED_W PAVED_H
               BUFFER_WIDTH DMA350_CH_TRANSIZE_16BITS t DMA350_LIB_EXEC_BLOCKING);;
        draw_column fuel to_x (add32 to_y (PAVED_H + INNER_MARGIN_H)) (next_transform t)
      else mret t
  end.

(** The outer loop, with the rounds of the inner one as its fuel. *)
Fixpoint draw_columns (fuel rounds : nat) (to_x t : Z) : TASK unit :=
  match fuel with
  | O => act (raise UNDEFINED)
  | S fuel =>
      if add32 to_x PAVED_W <=? BUFFER_WIDTH then
        t' ← draw_column rounds to_x START_MARGIN t;
        act (waits_to (xQueueSendToBack EX_TASK_ACTION_DRAW));;
        act (waits_to (ulTaskNotifyTake DRAW_TASK));;
        draw_columns fuel rounds (add32 to_x (PAVED_W + INNER_MARGIN_W)) t'
      else mret tt
  end.

Definition drawTask (fuel : nat) : TASK unit :=
  draw_columns fuel fuel START_MARGIN DMA350_LIB_TRANSFORM_NONE;;
  act (waits_to (xQueueSendToBack EX_TASK_ACTION_NO_MORE_DRAWING)).

(** ** clcd_task.c *)

(** [while(1)], with at most [rounds] rounds. *)
Fixpoint clcd_loop (rounds : nat) (first_command : option Z) : TASK unit :=
  match rounds with
  | O => act (raise HANG)
  | S rounds =>
      req_action ← act (waits_for xQueueReceive);
      if req_action =? EX_TASK_ACTION_DRAW then
        match first_command with
        | None => act (raise UNDEFINED)
        | Some first => display_image_with_dma first
        end;;
        act (does (xTaskNotifyGive DRAW_TASK));;
        clcd_loop rounds first_command
      else if req_action =? EX_TASK_ACTION_NO_MORE_DRAWING then mret tt
      else clcd_loop rounds first_command
  end.

Definition clcdTask (rounds : nat) : TASK unit :=
  act (clcd_mps3_init polls);;
  first_command ← act (on_w (generate_dma_cmdlinks_for_display shared_clcd_buffer char_dat_address cmd_buffer
                               (cmd_buffer + 4 * CMD_BUFFER_LEN)));
  clcd_loop rounds first_command.
End Tasks.

(** ** Both tasks

    In turn, a task makes its next step, if it can. *)

Definition step_of {S A} (p : prog S A) (s : S) : option (prog S A * S) :=
  match p with
  | Ret _ => None
  | Act m k => match m s with (Ok x, s') => Some (k x, s') | (Err _, _) => None end
  end.

Inductive turn {S A B} : prog S A * prog S B * S -> prog S A * prog S B * S -> Prop :=
| turn_left p p' q s s' : step_of p s = Some (p', s') -> turn (p, q, s) (p', q, s')
| turn_right p q q' s s' : step_of q s = Some (q', s') -> turn (p, q, s) (p, q', s').
