(* ===== verification/DmaSpec.v ===== *)
(** * What the DMA controller does with a chain of commands

    The registers of a channel ([regs]), what a command does to them ([load])
    and which bytes it moves ([command_bytes]); [chain] follows the links.
    [DmaLaws] is what is relied on of the driver, the controller, the library
    and FreeRTOS.  Then: the commands of the example move the bytes of the
    picture in the order in which the display takes them, and the task that
    waits sends them. *)
From Stdlib Require Import ZArith Lia.
From stdpp Require Import base list numbers gmap options.
From S2P Require Import Prelude.
From S2P Require Import FlashFsDefs.
From S2P Require Import Interrupts.
From S2P Require Import SysTimer.
From S2P Require Import I2sDriver.
From S2P Require Import Clcd.
From S2P Require Import ClcdSpec.
From S2P Require Import DmaTasks.

#[local] Set Default Proof Using "Type*".

(** ** Registers *)

Inductive dma_reg : Type :=
| SRCADDR | DESADDR | SRCXSIZE | DESXSIZE | SRCYSIZE | DESYSIZE | SRCXADDRINC | DESXADDRINC
| SRCYADDRSTRIDE | DESYADDRSTRIDE | TRANSIZE | XTYPE | YTYPE
| USESRCTRIGIN | SRCTRIGINSEL | SRCTRIGINMODE | SRCTRIGINTYPE | SRCTRIGINBLKSIZE
| USEDESTRIGIN | DESTRIGINSEL | DESTRIGINMODE | DESTRIGINTYPE | DESTRIGINBLKSIZE
| DESMAXBURSTLEN | INTREN_DONE | INTREN_DESTRIGINWAIT | DONETYPE | LINKADDREN | LINKADDR
| SRCNONSECATTR | DESNONSECATTR | SRCPRIVATTR | DESPRIVATTR.

#[export] Instance dma_reg_eq_dec : EqDecision dma_reg.
Proof. solve_decision. Defined.

(** [None]: not known. *)
Definition regs : Type := dma_reg -> option Z.
Definition upd (k : dma_reg) (v : option Z) (r : regs) : regs := fun k' => if decide (k' = k) then v else r k'.
Definition set_pair (k k' : dma_reg) (v v' : Z) (r : regs) : regs := upd k (Some v) (upd k' (Some v') r).

(** Values of fields *)
Definition YTYPE_DISABLE : Z := 0.
Definition TYPE_CONTINUE : Z := 1.
Definition DONETYPE_NONE : Z := 0.
Definition DONETYPE_END_OF_CMD : Z := 1.
Definition FLOW_CTRL : Z := 3.
Definition TRIGINTYPE_HW : Z := 2.

Definition intr_reg (i : dma350_ch_intr_t) : dma_reg :=
  match i with DMA350_CH_INTREN_DONE => INTREN_DONE | DMA350_CH_INTREN_DESTRIGINWAIT => INTREN_DESTRIGINWAIT end.

Definition apply_setting (c : dma_setting) (r : regs) : regs :=
  match c with
  | set_regclear => r
  | set_src_trans_nonsecure => upd SRCNONSECATTR (Some 1) r
  | set_des_trans_nonsecure => upd DESNONSECATTR (Some 1) r
  | set_src_trans_privileged => upd SRCPRIVATTR (Some 1) r
  | set_des_trans_privileged => upd DESPRIVATTR (Some 1) r
  | set_srcaddr32 a => upd SRCADDR (Some a) r
  | set_desaddr32 a => upd DESADDR (Some a) r
  | set_transize_8bits => upd TRANSIZE (Some 0) r
  | set_xsize32 x y => set_pair SRCXSIZE DESXSIZE x y r
  | set_ysize16 x y => set_pair SRCYSIZE DESYSIZE x y r
  | set_xaddrinc x y => set_pair SRCXADDRINC DESXADDRINC x y r
  | set_yaddrstride x y => set_pair SRCYADDRSTRIDE DESYADDRSTRIDE x y r
  | set_xtype_continue => upd XTYPE (Some TYPE_CONTINUE) r
  | set_ytype_disable => upd YTYPE (Some YTYPE_DISABLE) r
  | set_ytype_continue => upd YTYPE (Some TYPE_CONTINUE) r
  | enable_srctrigin => upd USESRCTRIGIN (Some 1) r
  | disable_srctrigin => upd USESRCTRIGIN (Some 0) r
  | set_srctriginsel n => upd SRCTRIGINSEL (Some n) r
  | set_srctriginmode_periph_flow_ctrl => upd SRCTRIGINMODE (Some FLOW_CTRL) r
  | set_srctrigintype_hw => upd SRCTRIGINTYPE (Some TRIGINTYPE_HW) r
  | set_srctriginblksize n => upd SRCTRIGINBLKSIZE (Some n) r
  | enable_destrigin => upd USEDESTRIGIN (Some 1) r
  | disable_destrigin => upd USEDESTRIGIN (Some 0) r
  | set_destriginsel n => upd DESTRIGINSEL (Some n) r
  | set_destrigintype_hw => upd DESTRIGINTYPE (Some TRIGINTYPE_HW) r
  | set_destriginmode_periph_flow_ctrl => upd DESTRIGINMODE (Some FLOW_CTRL) r
  | set_desmaxburstlen n => upd DESMAXBURSTLEN (Some n) r
  | set_destriginblksize n => upd DESTRIGINBLKSIZE (Some n) r
  | enable_intr i => upd (intr_reg i) (Some 1) r
  | disable_intr i => upd (intr_reg i) (Some 0) r
  | set_donetype_none => upd DONETYPE (Some DONETYPE_NONE) r
  | set_donetype_end_of_cmd => upd DONETYPE (Some DONETYPE_END_OF_CMD) r
  | enable_linkaddr => upd LINKADDREN (Some 1) r
  | disable_linkaddr => upd LINKADDREN (Some 0) r
  | set_linkaddr32 a => upd LINKADDR (Some a) r
  end.

(** The registers after loading a command; [reset] are those after a reset. *)
Definition clears (cmd : list dma_setting) : bool := match cmd with set_regclear :: _ => true | _ => false end.
Definition load (reset : regs) (cmd : list dma_setting) (r : regs) : regs :=
  foldl (fun r c => apply_setting c r) (if clears cmd then reset else r) cmd.

(** ** Transfers *)

Definition known (r : regs) (k : dma_reg) (v : Z) : bool := bool_decide (r k = Some v).

(** The address of the [k]-th byte of rows of [size] bytes. *)
Definition row_address (base size inc stride k : Z) : Z := base + (k / size) * stride + (k mod size) * inc.

(** The bytes that a command moves, each with its destination: bytewise, in rows,
    and paced by the trigger of the destination.  [None]: not described. *)
Definition command_bytes (r : regs) : option (list (Z * Z)) :=
  sx ← r SRCXSIZE; dx ← r DESXSIZE; sy ← r SRCYSIZE; dy ← r DESYSIZE;
  if negb (known r XTYPE TYPE_CONTINUE) then None
  else if (sx =? 0) && (dx =? 0) then Some []
  else if known r YTYPE TYPE_CONTINUE && known r TRANSIZE 0 && known r USEDESTRIGIN 1 && known r DESTRIGINMODE FLOW_CTRL
          && known r INTREN_DESTRIGINWAIT 1 && (dy =? 1) && (sx * sy =? dx) && (0 <? sx) && (0 <? sy) then
    src ← r SRCADDR; des ← r DESADDR; sinc ← r SRCXADDRINC; dinc ← r DESXADDRINC;
    sstr ← r SRCYADDRSTRIDE; dstr ← r DESYADDRSTRIDE;
    Some ((fun k => (row_address src sx sinc sstr k, row_address des dx dinc dstr k)) <$> seqZ 0 (sx * sy))
  else None.

(** After a command its source address and sizes are used up; the destination
    stays when it has no increment. *)
Definition after (r : regs) : regs :=
  let r := upd SRCADDR None (upd SRCXSIZE None (upd DESXSIZE None (upd SRCYSIZE None (upd DESYSIZE None r)))) in
  if known r DESXADDRINC 0 then r else upd DESADDR None r.

(** The bytes moved by what is in the registers and the commands linked to it,
    at most [n] of them.  Only the last one raises the interrupt. *)
Fixpoint chain (n : nat) (reset : regs) (mem : Z -> option (list dma_setting)) (r : regs) : option (list (Z * Z)) :=
  l ← command_bytes r;
  if known r LINKADDREN 0 then
    if known r DONETYPE DONETYPE_END_OF_CMD && known r INTREN_DONE 1 then Some l else None
  else if known r LINKADDREN 1 && known r INTREN_DONE 0 then
    match n with
    | O => None
    | S n =>
        a ← r LINKADDR;
        cmd ← mem a;
        l' ← chain n reset mem (load reset cmd (after r));
        Some (l ++ l')
    end
  else None.

(** ** The commands of the example *)

(** The bytes of a picture, the second one of a pixel first. *)
Definition pixel_bytes (p i : Z) : list Z := [p + 2 * i + 1; p + 2 * i].
Definition picture_bytes (p i n : Z) : list Z := concat (pixel_bytes p <$> seqZ i n).

Lemma picture_bytes_app p i n m : 0 <= n -> 0 <= m ->
  picture_bytes p i (n + m) = picture_bytes p i n ++ picture_bytes p (i + n) m.
Proof. intros Hn Hm. unfold picture_bytes. by rewrite seqZ_app, fmap_app, concat_app by lia. Qed.

Lemma length_picture_bytes p i n : length (picture_bytes p i n) = Z.to_nat (2 * n).
Proof.
  unfold picture_bytes. assert (forall l, length (concat (pixel_bytes p <$> l)) = (2 * length l)%nat) as ->.
  { induction l as [|x l IH]; [done|]. rewrite fmap_cons. cbn [concat]. rewrite length_app, IH. cbn. lia. }
  rewrite length_seqZ. lia.
Qed.

(** Rows of two bytes, backwards. *)
Lemma row_bytes_from (f : Z -> Z) n k : 0 <= n -> 
  f <$> seqZ (2 * k) (2 * n) = concat ((fun i => [f (2 * i); f (2 * i + 1)]) <$> seqZ k n).
Proof.
  intros Hn. revert k. pattern n. apply natlike_ind; [| |done].
  - intros k. done.
  - intros m Hm IH k. replace (2 * Z.succ m) with (Z.succ (Z.succ (2 * m))) by lia.
    rewrite (seqZ_cons (2 * k)), (seqZ_cons k), !Z.pred_succ by lia.
    rewrite !fmap_cons. cbn [concat app]. rewrite <- IH.
    replace (2 * Z.succ k) with (Z.succ (Z.succ (2 * k))) by lia. by rewrite seqZ_cons, Z.pred_succ by lia.
Qed.

Lemma rows_bytes p q n : 0 <= n ->
  (fun k => row_address (p + (2 * q + 1)) 2 (-1) 2 k) <$> seqZ 0 (2 * n) = picture_bytes p q n.
Proof.
  intros Hn. change (seqZ 0 (2 * n)) with (seqZ (2 * 0) (2 * n)). rewrite row_bytes_from by done. unfold picture_bytes.
  assert (seqZ q n = Z.add q <$> seqZ 0 n) as -> by (rewrite fmap_add_seqZ; f_equal; lia).
  rewrite <- list_fmap_compose. f_equal. apply list_fmap_ext. intros _ i _. unfold row_address, pixel_bytes. cbn.
  assert (2 * i / 2 = i /\ (2 * i) mod 2 = 0 /\ (2 * i + 1) / 2 = i /\ (2 * i + 1) mod 2 = 1) as (-> & -> & -> & ->).
  { Z.to_euclidean_division_equations. lia. }
  f_equal; [lia|]. f_equal. lia.
Qed.

(** Registers that send [n] pixels from the [q]-th on. *)
Record sending (p q n char_dat : Z) (r : regs) : Prop := {
  sg_xsize : r SRCXSIZE = Some 2 /\ r DESXSIZE = Some (2 * n);
  sg_ysize : r SRCYSIZE = Some n /\ r DESYSIZE = Some 1;
  sg_types : r XTYPE = Some TYPE_CONTINUE /\ r YTYPE = Some TYPE_CONTINUE /\ r TRANSIZE = Some 0;
  sg_trigger : r USEDESTRIGIN = Some 1 /\ r DESTRIGINMODE = Some FLOW_CTRL /\ r INTREN_DESTRIGINWAIT = Some 1;
  sg_src : r SRCADDR = Some (p + (2 * q + 1));
  sg_des : r DESADDR = Some char_dat;
  sg_inc : r SRCXADDRINC = Some (-1) /\ r DESXADDRINC = Some 0;
  sg_stride : r SRCYADDRSTRIDE = Some 2 /\ r DESYADDRSTRIDE = Some 0;
  sg_done : r INTREN_DONE = Some 0
}.

Lemma known_eq r k v : r k = Some v -> known r k v = true.
Proof. intros H. unfold known. by apply bool_decide_eq_true_2. Qed.

Lemma known_ne r k v v' : r k = Some v' -> v' <> v -> known r k v = false.
Proof. intros H Hn. unfold known. apply bool_decide_eq_false_2. congruence. Qed.

Lemma sending_bytes p q n char_dat r : 0 < n -> sending p q n char_dat r ->
  command_bytes r = Some ((fun a => (a, char_dat)) <$> picture_bytes p q n).
Proof.
  intros Hn [[X1 X2] [Y1 Y2] (T1 & T2 & T3) (G1 & G2 & G3) S D [I1 I2] [R1 R2] _].
  unfold command_bytes. rewrite X1, X2, Y1, Y2. cbn [mbind option_bind].
  rewrite (known_eq _ _ _ T1), (known_eq _ _ _ T2), (known_eq _ _ _ T3), (known_eq _ _ _ G1), (known_eq _ _ _ G2),
    (known_eq _ _ _ G3), (Z.eqb_refl (2 * n)). change (2 =? 0) with false. change (0 <? 2) with true. change (1 =? 1) with true.
  rewrite (proj2 (Z.ltb_lt 0 n) Hn). cbn [negb andb]. rewrite S, D, I1, I2, R1, R2. cbn [mbind option_bind].
  f_equal. rewrite <- rows_bytes by lia. rewrite <- list_fmap_compose. apply list_fmap_ext. intros _ k _. cbn. f_equal.
  unfold row_address. lia.
Qed.

(** The next command of the same kind takes over what the first one set. *)
Lemma sending_next reset p q q' n char_dat a r : sending p q n char_dat r ->
  let cmd := [set_xsize32 2 (2 * n); set_ysize16 n 1; set_srcaddr32 (p + (2 * q' + 1)); enable_linkaddr] ++ [set_linkaddr32 a] in
  let r' := load reset cmd (after r) in
  sending p q' n char_dat r' /\ r' LINKADDREN = Some 1 /\ r' LINKADDR = Some a.
Proof.
  intros [[X1 X2] [Y1 Y2] (T1 & T2 & T3) (G1 & G2 & G3) S D [I1 I2] [R1 R2] N]. cbn zeta. unfold after.
  rewrite known_eq by (cbn; exact I2). by repeat split.
Qed.

(** A command that moves nothing itself. *)
Lemma chain_link n reset mem r a cmd l l' : command_bytes r = Some l -> r LINKADDREN = Some 1 -> r INTREN_DONE = Some 0 ->
  r LINKADDR = Some a -> mem a = Some cmd -> chain n reset mem (load reset cmd (after r)) = Some l' ->
  chain (S n) reset mem r = Some (l ++ l').
Proof.
  intros Hb He Hd Ha Hm Hc. cbn [chain]. rewrite Hb. cbn [mbind option_bind].
  rewrite (known_ne _ _ 0 1), (known_eq _ _ 1), (known_eq _ _ 0), Ha by done. cbn [andb mbind option_bind].
  by rewrite Hm; cbn [mbind option_bind]; rewrite Hc.
Qed.

(** What a reset leaves. *)
Definition resets (reset : regs) : Prop :=
  reset XTYPE = Some TYPE_CONTINUE /\ reset SRCXSIZE = Some 0 /\ reset DESXSIZE = Some 0 /\
  reset SRCYSIZE = Some 0 /\ reset DESYSIZE = Some 0.

Lemma chain_cleanup reset mem r n : resets reset -> chain n reset mem (load reset cmdlink_cleanup_cfg (after r)) = Some [].
Proof.
  intros (X & S1 & S2 & S3 & S4). set (r' := load _ _ _).
  assert (command_bytes r' = Some []) as Hb.
  { unfold command_bytes. unfold r', load, cmdlink_cleanup_cfg, clears, apply_setting, intr_reg, upd. cbn.
    rewrite S1, S2, S3, S4. cbn. rewrite known_eq by exact X. done. }
  assert (r' LINKADDREN = Some 0 /\ r' DONETYPE = Some DONETYPE_END_OF_CMD /\ r' INTREN_DONE = Some 1) as (L & D & I) by done.
  destruct n; cbn [chain]; rewrite Hb; cbn [mbind option_bind];
    by rewrite (known_eq _ _ _ L), (known_eq _ _ _ D), (known_eq _ _ _ I).
Qed.

(** The five commands, each linked to the next; [P]: where commands are. *)
Record five_commands (p char_dat first : Z) (P : Z -> list dma_setting -> Prop) : Prop := {
  fc_links : exists a2 a3 a4 a5,
    P first (cmdlink1_cfg p char_dat ++ [set_linkaddr32 a2]) /\
    P a2 (cmdlink2_cfg p ++ [set_linkaddr32 a3]) /\
    P a3 (cmdlink3_cfg p ++ [set_linkaddr32 a4]) /\
    P a4 (cmdlink4_cfg p ++ [set_linkaddr32 a5]) /\
    P a5 cmdlink_cleanup_cfg
}.

Lemma five_commands_mono p char_dat first (P P' : Z -> list dma_setting -> Prop) : (forall a cmd, P a cmd -> P' a cmd) ->
  five_commands p char_dat first P -> five_commands p char_dat first P'.
Proof. intros H [(a2 & a3 & a4 & a5 & H1 & H2 & H3 & H4 & H5)]. split. exists a2, a3, a4, a5. eauto 10. Qed.

(** The channel before it is started: nothing to move, and a link. *)
Definition linked_to (first : Z) (r : regs) : Prop :=
  r XTYPE = Some TYPE_CONTINUE /\ (r SRCXSIZE = Some 0 /\ r DESXSIZE = Some 0) /\
  (r SRCYSIZE = Some 0 /\ r DESYSIZE = Some 0) /\ r LINKADDREN = Some 1 /\ r LINKADDR = Some first /\ r INTREN_DONE = Some 0.

Lemma linked_bytes first r : linked_to first r -> command_bytes r = Some [].
Proof.
  intros (X & [S1 S2] & [S3 S4] & _). unfold command_bytes. rewrite S1, S2, S3, S4. cbn. by rewrite known_eq.
Qed.

(** The commands send the whole picture. *)
Lemma chain_picture reset p char_dat first mem r : resets reset ->
  five_commands p char_dat first (fun a cmd => mem a = Some cmd) -> linked_to first r ->
  chain 5 reset mem r = Some ((fun a => (a, char_dat)) <$> picture_bytes p 0 (LCD_WIDTH * LCD_HEIGHT)).
Proof.
  intros HR [(a2 & a3 & a4 & a5 & M1 & M2 & M3 & M4 & M5)] HL. pose proof (linked_bytes _ _ HL) as Hb.
  destruct HL as (_ & _ & _ & L1 & L2 & L3).
  assert (LCD_WIDTH * LCD_HEIGHT = QUARTER_SIZE + (QUARTER_SIZE + (QUARTER_SIZE + QUARTER_SIZE))) as -> by done.
  unfold cmdlink1_cfg, cmdlink2_cfg, cmdlink3_cfg, cmdlink4_cfg in *.
  assert (forall q, QUARTER_SIZE * 2 * q + 1 = 2 * (QUARTER_SIZE * q) + 1) as HQ by lia.
  rewrite HQ in *. replace (QUARTER_SIZE * 2 + 1) with (2 * QUARTER_SIZE + 1) in M2 by lia.
  assert (0 < QUARTER_SIZE) as HQ0 by done. revert HQ0 M1 M2 M3 M4. clear HQ. generalize QUARTER_SIZE as n. intros n Hn M1 M2 M3 M4.
  rewrite !picture_bytes_app, !fmap_app by lia. rewrite Z.add_0_l.
  eapply (chain_link 4 _ _ _ _ _ []); [exact Hb|exact L1|exact L3|exact L2|exact M1|].
  match type of M1 with mem first = Some ?cmd => set (r1 := load reset cmd (after r)) end.
  assert (sending p 0 n char_dat r1 /\ r1 LINKADDREN = Some 1 /\ r1 LINKADDR = Some a2) as (G1 & E1 & A1).
  { destruct HR as (X & _). unfold r1, load, clears. cbn [app foldl]. repeat split; exact X. }
  eapply chain_link; [by apply sending_bytes|exact E1|apply G1|exact A1|exact M2|].
  destruct (sending_next reset _ _ n _ _ a3 _ G1) as (G2 & E2 & A2).
  eapply chain_link; [by apply sending_bytes|exact E2|apply G2|exact A2|exact M3|].
  destruct (sending_next reset _ _ (n * 2) _ _ a4 _ G2) as (G3 & E3 & A3).
  eapply chain_link; [replace (n + n) with (n * 2) by lia; by apply sending_bytes|exact E3|apply G3|exact A3|exact M4|].
  destruct (sending_next reset _ _ (n * 3) _ _ a5 _ G3) as (G4 & E4 & A4).
  rewrite <- (app_nil_r (_ <$> picture_bytes p (n + n + n) n)).
  eapply chain_link; [replace (n + n + n) with (n * 3) by lia; by apply sending_bytes|exact E4|apply G4|exact A4|exact M5|].
  by apply chain_cleanup.
Qed.

(** ** What is relied on *)

(** A channel: its registers and, while it works, the addresses of the bytes
    that it still has to send. *)
Record dma_view : Type := { ch_regs : regs; ch_todo : option (list Z) }.

(** The queue, the notifications of the tasks, and whether the interrupt is
    enabled. *)
Record rtos_view : Type := { queue : list Z; clcd_note : bool; draw_note : bool; irq_on : bool }.

Definition with_queue (q : list Z) (t : rtos_view) : rtos_view :=
  {| queue := q; clcd_note := clcd_note t; draw_note := draw_note t; irq_on := irq_on t |}.
Definition with_irq (b : bool) (t : rtos_view) : rtos_view :=
  {| queue := queue t; clcd_note := clcd_note t; draw_note := draw_note t; irq_on := b |}.
Definition note_of (k : task_t) (t : rtos_view) : bool := match k with CLCD_TASK => clcd_note t | DRAW_TASK => draw_note t end.
Definition with_note (k : task_t) (b : bool) (t : rtos_view) : rtos_view :=
  match k with
  | CLCD_TASK => {| queue := queue t; clcd_note := b; draw_note := draw_note t; irq_on := irq_on t |}
  | DRAW_TASK => {| queue := queue t; clcd_note := clcd_note t; draw_note := b; irq_on := irq_on t |}
  end.

(** What can be seen of the world; a command in memory comes with the address
    behind it. *)
Class ExampleView (W : Type) := {
  dma : W -> dma_view;
  rtos : W -> rtos_view;
  byte_at : W -> Z -> Z;
  command_in : W -> Z -> option (list dma_setting * Z)
}.

Section Same.
Context {W : Type} {CO : ClcdOps W} {TO : SystimerOps W} {TL : SystimerLaws (T := W)} {CL : ClcdLaws W} {EV : ExampleView W}.

Record same_memory (w w' : W) : Prop := {
  sm_bytes : byte_at w' = byte_at w;
  sm_commands : command_in w' = command_in w
}.

Record same_display (w w' : W) : Prop := {
  sd_misc : misc w' = misc w;
  sd_bus : lcd_bus w' = lcd_bus w;
  sd_ticks : ticks w' <= ticks w
}.

(** Everything but the display. *)
Record untouched (w w' : W) : Prop := {
  un_dma : dma w' = dma w;
  un_rtos : rtos w' = rtos w;
  un_memory : same_memory w w'
}.

(** Everything but the channel, and everything but the operating system. *)
Record beside_dma (w w' : W) : Prop := {
  bd_display : same_display w w';
  bd_rtos : rtos w' = rtos w;
  bd_memory : same_memory w w'
}.
Record beside_rtos (w w' : W) : Prop := {
  br_display : same_display w w';
  br_dma : dma w' = dma w;
  br_memory : same_memory w w'
}.
End Same.

(** The address behind what is drawn, in a bitmap of 16-bit pixels. *)
Definition draw_end (c : dma350_draw_config) : Z :=
  draw_des c + 2 * ((des_height c - 1) * des_line_width c + des_width c).

Definition draw_source_end (c : dma350_draw_config) : Z :=
  draw_src c + 2 * ((src_height c - 1) * src_line_width c + src_width c).

(** The display and the timer are devices of their own; the driver sets
    registers and starts chains; the channel sends at least a byte when it is
    triggered, and asks for the next trigger or is done; a command is written
    to its place; drawing changes memory as [drawn] says, which looks at the
    source and the byte itself, and it changes the channel's registers. *)
Class DmaLaws (W : Type) {CO : ClcdOps W} {TO : SystimerOps W} {TL : SystimerLaws (T := W)} {CL : ClcdLaws W}
    {DO : DmaOps W} {DL : DmaLibrary W} {RO : RtosOps W} {EL : ExampleLayout} {EV : ExampleView W} := {
  reset_regs : regs;
  drawn : dma350_draw_config -> (Z -> Z) -> Z -> Z;
  dl_reset : resets reset_regs;
  dl_byte : forall w a, is_u8 (byte_at w a);
  dl_read : forall r w, untouched w (clcd_read r w).2;
  dl_write : forall r x w, untouched w (clcd_write r x w);
  dl_timer_init : forall w, untouched w (systimer_armv8_m_init w);
  dl_timer_set : forall v w, untouched w (systimer_armv8_m_set_timer_value v w);
  dl_timer_poll : forall w, untouched w (systimer_armv8_m_is_interrupt_asserted w).2;
  dl_init : forall w, let w' := dma350_ch_init w in
    dma w' = {| ch_regs := reset_regs; ch_todo := None |} /\ beside_dma w w';
  dl_set : forall c w, ch_todo (dma w) = None -> let w' := dma350_ch_set c w in
    dma w' = {| ch_regs := apply_setting c (ch_regs (dma w)); ch_todo := None |} /\ beside_dma w w';
  dl_enable : forall w l, ch_todo (dma w) = None ->
    chain 5 reset_regs (fun a => fst <$> command_in w a) (ch_regs (dma w)) = Some ((fun a => (a, char_dat_address)) <$> l) ->
    let w' := dma350_ch_cmd DMA350_CH_CMD_ENABLECMD w in ch_todo (dma w') = Some l /\ beside_dma w w';
  dl_block : forall w l, ch_todo (dma w) = Some l -> l <> [] ->
    let w' := dma350_ch_cmd DMA350_CH_CMD_DESSWTRIGINREQ_BLOCK w in
    exists k, (0 < k)%nat /\ ch_todo (dma w') = Some (drop k l) /\ rtos w' = rtos w /\ same_memory w w' /\
      misc w' = misc w /\ ticks w' <= ticks w /\
      lcd_bus w' = lcd_bus w ++ (if Z.testbit (misc w) 0 then [] else (fun a => Data (byte_at w a)) <$> take k l);
  dl_clear : forall w, ch_todo (dma w) = Some [] -> let w' := dma350_ch_clear_stat_done w in
    ch_todo (dma w') = None /\ beside_dma w w';
  dl_intr : forall i w, dma350_ch_is_intr_set i w =
    match ch_todo (dma w), i with
    | Some [], DMA350_CH_INTREN_DONE => true
    | Some (_ :: _), DMA350_CH_INTREN_DESTRIGINWAIT => true
    | _, _ => false
    end;
  dl_pending : forall w, irq_pending w = irq_on (rtos w) && match ch_todo (dma w) with Some _ => true | None => false end;
  dl_irq_on : forall w, let w' := NVIC_SetVector_EnableIRQ w in rtos w' = with_irq true (rtos w) /\ beside_rtos w w';
  dl_irq_off : forall w, let w' := NVIC_DisableIRQ w in rtos w' = with_irq false (rtos w) /\ beside_rtos w w';
  dl_give : forall k w, let w' := xTaskNotifyGive k w in rtos w' = with_note k true (rtos w) /\ beside_rtos w w';
  dl_take : forall k w,
    match ulTaskNotifyTake k w with
    | Some w' => note_of k (rtos w) = true /\ rtos w' = with_note k false (rtos w) /\ beside_rtos w w'
    | None => note_of k (rtos w) = false
    end;
  dl_send : forall x w,
    match xQueueSendToBack x w with
    | Some w' => rtos w' = with_queue (queue (rtos w) ++ [x]) (rtos w) /\ beside_rtos w w'
    | None => (2 <= length (queue (rtos w)))%nat
    end;
  dl_receive : forall w,
    match xQueueReceive w with
    | Some (x, w') => exists q, queue (rtos w) = x :: q /\ rtos w' = with_queue q (rtos w) /\ beside_rtos w w'
    | None => queue (rtos w) = []
    end;
  dl_generate : forall cfg a limit w,
    match dma350_cmdlink_generate cfg a limit w with
    | (Some e, w') => a < e <= limit /\ command_in w' a = Some (cfg, e) /\
        (forall a' c' e', command_in w a' = Some (c', e') -> e' <= a \/ e <= a' -> command_in w' a' = Some (c', e')) /\
        (forall b, b < a \/ limit <= b -> byte_at w' b = byte_at w b) /\
        dma w' = dma w /\ rtos w' = rtos w /\ same_display w w'
    | (None, w') => untouched w w' /\ same_display w w'
    end;
  dl_drawn : forall c mem mem' a, (forall b, draw_src c <= b < draw_source_end c -> mem b = mem' b) -> mem a = mem' a ->
    drawn c mem a = drawn c mem' a;
  dl_draw : forall c channel w, ch_todo (dma w) = None ->
    let w' := (request_dma350_priv_config (DMA_CALL_DRAW_FROM_CANVAS c) channel w).2 in
    (forall a, byte_at w' a = drawn c (byte_at w) a) /\
    (forall a c' e', command_in w a = Some (c', e') -> e' <= draw_des c \/ draw_end c <= a -> command_in w' a = Some (c', e')) /\
    ch_todo (dma w') = None /\ rtos w' = rtos w /\ same_display w w'
}.

(** ** Code that is not held up

    [steps_to J p s Q]: every step of [p] from [s] on can be made, [J] holds all
    the time, and [p] ends with [Q]. *)

Fixpoint steps_to {S A} (J : S -> Prop) (p : prog S A) (s : S) (Q : A -> S -> Prop) : Prop :=
  J s /\
  match p with
  | Ret a => Q a s
  | Act m k => match m s with (Ok x, s') => steps_to J (k x) s' Q | (Err _, _) => False end
  end.

Section StepsTo.
Context {S : Type} (J : S -> Prop).

Lemma steps_here {A} (p : prog S A) s Q : steps_to J p s Q -> J s.
Proof. destruct p; by intros [H _]. Qed.

Lemma steps_mono {A} (p : prog S A) s (Q Q' : A -> S -> Prop) : steps_to J p s Q -> (forall a s', J s' -> Q a s' -> Q' a s') ->
  steps_to J p s Q'.
Proof.
  intros H HQ. revert s H. induction p as [a|X m k IH]; intros s [HJ H]; (split; [exact HJ|]); [by apply HQ|].
  destruct (m s) as [[x|e] s']; [by apply IH|done].
Qed.

Lemma task_steps_bind {A B} (p : prog S A) (k : A -> prog S B) s Q : steps_to J p s (fun a s' => steps_to J (k a) s' Q) ->
  steps_to J (p ≫= k) s Q.
Proof.
  revert s. induction p as [a|X m k' IH]; intros s [HJ H]; [exact H|]. split; [exact HJ|].
  destruct (m s) as [[x|e] s']; [by apply IH|done].
Qed.

Lemma steps_act {A B} (m : ST S A) (k : A -> prog S B) s Q : J s ->
  wp m s (fun r s' => exists a, r = Ok a /\ steps_to J (k a) s' Q) -> steps_to J (act m ≫= k) s Q.
Proof.
  intros HJ H. split; [exact HJ|]. unfold wp in H. destruct (m s) as [r s']. cbn [fst snd] in H.
  destruct H as (a & -> & H). exact H.
Qed.

Lemma steps_run {A} (p : prog S A) s Q : steps_to J p s Q -> exists a s', run p s = (Ok a, s') /\ Q a s'.
Proof.
  revert s. induction p as [a|X m k IH]; intros s [_ H]; [by exists a, s|]. cbn [run]. unfold mbind, ST_bind.
  destruct (m s) as [[x|e] s']; [by apply IH|done].
Qed.
End StepsTo.

(** ** Showing a picture *)

(** The [n] pixels from address [p] on. *)
Definition picture (mem : Z -> Z) (p n : Z) : list Z := (fun i => mem (p + 2 * i) + 256 * mem (p + 2 * i + 1)) <$> seqZ 0 n.

Lemma length_picture mem p n : length (picture mem p n) = Z.to_nat n.
Proof. unfold picture. by rewrite length_fmap, length_seqZ. Qed.

Lemma picture_u16 mem p n : (forall a, is_u8 (mem a)) -> Forall is_u16 (picture mem p n).
Proof.
  intros H. apply Forall_fmap, Forall_forall. intros i _. unfold compose, is_u16.
  pose proof (H (p + 2 * i)) as H1. pose proof (H (p + 2 * i + 1)) as H2. unfold is_u8 in *. lia.
Qed.

(** The bytes that the controller takes for its pixels. *)
Lemma picture_events mem p n : (forall a, is_u8 (mem a)) ->
  (fun a => Data (mem a)) <$> picture_bytes p 0 n = pixels_events (picture mem p n).
Proof.
  intros H. unfold picture_bytes, pixels_events, picture. induction (seqZ 0 n) as [|i l IH]; [done|].
  rewrite !fmap_cons. cbn [concat]. rewrite fmap_app, IH. f_equal. unfold u16_events, pixel_bytes. cbn.
  pose proof (H (p + 2 * i)) as H1. pose proof (H (p + 2 * i + 1)) as H2. unfold is_u8 in *.
  rewrite Z.shiftr_div_pow2 by lia. change 255 with (Z.ones 8). rewrite Z.land_ones by lia. change (2 ^ 8) with 256.
  f_equal; [f_equal; Z.to_euclidean_division_equations; lia|]. f_equal. f_equal. Z.to_euclidean_division_equations. lia.
Qed.

Section Show.
Context {W : Type} {CO : ClcdOps W} {TO : SystimerOps W} {TL : SystimerLaws (T := W)} {CL : ClcdLaws W}.
Context {DO : DmaOps W} {DL : DmaLibrary W} {RO : RtosOps W} {EL : ExampleLayout} {EV : ExampleView W} {DW : DmaLaws W}.
Context (polls : nat) (Hpolls : MS_TO_TICK 1 < Z.of_nat polls).
Implicit Types (s : timer_state W) (w : W).

#[export] Instance untouched_preorder : PreOrder untouched.
Proof. split; [done|]. intros w1 w2 w3 [A1 B1 [C1 D1]] [A2 B2 [C2 D2]]. split; [congruence..|split; congruence]. Qed.

Definition aside s s' : Prop := untouched (systimer s) (systimer s').

#[export] Instance aside_preorder : PreOrder aside.
Proof. split; [intros s; red; reflexivity|]. intros s1 s2 s3 H1 H2. red. etrans; [exact H1|exact H2]. Qed.

(** The display's library leaves everything else alone. *)
Lemma aside_load r : keeps aside (clcd_load r).
Proof. intros s. unfold clcd_load, aside. pose proof (dl_read r (systimer s)) as H. by destruct (clcd_read r (systimer s)). Qed.

Lemma aside_store r x : keeps aside (clcd_store r x).
Proof. apply keeps_modify; [apply _|]. intros s. apply dl_write. Qed.

Lemma aside_bit r f : keeps aside (x ← clcd_load r; clcd_store r (f x)).
Proof. apply keeps_bind; [apply _|apply aside_load|]. intros x. apply aside_store. Qed.

Lemma aside_does (f : W -> W) : (forall w, untouched w (f w)) -> pkeeps aside (act (modify (fun s => set_systimer (f (systimer s)) s))).
Proof. intros H. apply pkeeps_act, keeps_modify; [apply _|]. intros s. apply H. Qed.

Lemma aside_quiet (f : timer_state W -> timer_state W) : (forall s, systimer (f s) = systimer s) -> pkeeps aside (act (modify f)).
Proof. intros H. apply pkeeps_act, keeps_modify; [apply _|]. intros s. red. rewrite H. reflexivity. Qed.

Lemma aside_elapsed i : pkeeps aside (timeout_delay_is_elapsed i).
Proof.
  destruct i as [i|]; [|apply pkeeps_ret]. apply pkeeps_bind; [apply pkeeps_act, keeps_gets, _|]. intros t.
  destruct (negb _); [apply pkeeps_ret|]. apply pkeeps_bind.
  - apply pkeeps_act. intros s. unfold aside. pose proof (dl_timer_poll (systimer s)) as H.
    by destruct (systimer_armv8_m_is_interrupt_asserted (systimer s)).
  - intros [|]; [|apply pkeeps_ret]. apply pkeeps_bind; [|intros _; apply pkeeps_ret].
    apply pkeeps_act, keeps_modify; [apply _|]. intros s. apply dl_timer_set.
Qed.

Lemma aside_wait_loop n i : pkeeps aside (wait_loop n i).
Proof.
  induction n as [|n IH]; cbn [wait_loop]; [apply pkeeps_act, keeps_raise, _|].
  apply pkeeps_bind; [apply aside_elapsed|]. intros [|]; [apply pkeeps_ret|exact IH].
Qed.

Lemma aside_start limit to_tick i delay : pkeeps aside (timeout_start limit to_tick i delay).
Proof.
  destruct i as [i|]; [|apply pkeeps_ret]. cbn [timeout_start]. destruct (_ >? _); [apply pkeeps_ret|].
  apply pkeeps_bind; [apply pkeeps_act, keeps_gets, _|]. intros t. destruct (is_initialized t); [apply pkeeps_ret|].
  apply pkeeps_bind; [apply aside_does, dl_timer_init|intros _].
  apply pkeeps_bind; [by apply aside_quiet|intros _]. apply pkeeps_bind.
  { apply pkeeps_act, keeps_modify; [apply _|]. intros s. apply dl_timer_set. }
  intros _. apply pkeeps_bind; [by apply aside_quiet; destruct i|intros _; apply pkeeps_ret].
Qed.

Lemma aside_wait_us us : keeps aside (lcd_wait_us polls us).
Proof. apply run_keeps; [apply _|]. apply pkeeps_bind; [apply aside_start|intros _; apply aside_wait_loop]. Qed.

Lemma aside_wait_ms ms : keeps aside (lcd_wait_ms polls ms).
Proof. apply run_keeps; [apply _|]. apply pkeeps_bind; [apply aside_start|intros _; apply aside_wait_loop]. Qed.

#[local] Hint Resolve aside_store aside_bit aside_wait_us aside_wait_ms : keeps.

Lemma aside_u16 v : keeps aside (write_u16 v).
Proof. unfold write_u16, clcd_mps3_write_data. keeps_walk. Qed.

#[local] Hint Resolve aside_u16 : keeps.

Lemma aside_register r v : keeps aside (clcd_mps3_lib_write_to_register polls r v).
Proof.
  unfold clcd_mps3_lib_write_to_register, clcd_mps3_clear_cs, clcd_mps3_set_cs, clcd_mps3_write_command.
  keeps_walk.
Qed.

#[local] Hint Resolve aside_register : keeps.

Lemma aside_set_window (x y w h : Z) : keeps aside (clcd_mps3_lib_set_window polls x y w h).
Proof. unfold clcd_mps3_lib_set_window. keeps_walk. Qed.

#[local] Hint Resolve aside_set_window : keeps.

Lemma aside_registers l : keeps aside (write_registers polls l).
Proof.
  induction l as [|[r v] l IH]; cbn [write_registers]; keeps_walk.
Qed.

#[local] Hint Resolve aside_registers : keeps.

Lemma aside_clear_window (x y w h : Z) : keeps aside (clcd_mps3_lib_clear_window polls x y w h).
Proof.
  unfold clcd_mps3_lib_clear_window, clcd_mps3_lib_write_command, clcd_mps3_clear_cs, clcd_mps3_set_cs, clcd_mps3_write_command.
  keeps_walk.
Qed.

#[local] Hint Resolve aside_clear_window : keeps.

Lemma aside_init : keeps aside (clcd_mps3_init polls).
Proof.
  unfold clcd_mps3_init, clcd_mps3_set_cs, clcd_mps3_clear_cs, clcd_mps3_set_reset, clcd_mps3_clear_reset, clcd_mps3_set_bl.
  keeps_walk.
Qed.
(** [s] is [s0] after the events [es], with this channel, operating system and
    memory. *)
Record shows s0 (es : list lcd_event) (sel : bool) (d : dma_view) (t : rtos_view) s : Prop := {
  sh_sent : sent polls s0 es sel s;
  sh_dma : dma (systimer s) = d;
  sh_rtos : rtos (systimer s) = t;
  sh_memory : same_memory (systimer s0) (systimer s);
  sh_turn : queue t = queue (rtos (systimer s0)) /\ draw_note t = draw_note (rtos (systimer s0))
}.

(** The other task is not woken up meanwhile. *)
Definition undisturbed s0 s : Prop :=
  queue (rtos (systimer s)) = queue (rtos (systimer s0)) /\ draw_note (rtos (systimer s)) = draw_note (rtos (systimer s0)).
Abbreviation steps s0 := (steps_to (undisturbed s0)).

Lemma shows_undisturbed s0 es sel d t s : shows s0 es sel d t s -> undisturbed s0 s.
Proof. intros [_ _ H _ Ht]. unfold undisturbed. by rewrite H. Qed.

Lemma same_memory_trans w1 w2 w3 : same_memory w1 w2 -> same_memory w2 w3 -> same_memory w1 w3.
Proof. intros [A1 B1] [A2 B2]. split; congruence. Qed.

Lemma display_sent f s sel : same_display (systimer s) (f (systimer s)) -> pin s 0 = negb sel ->
  sent polls s [] sel (set_systimer (f (systimer s)) s).
Proof.
  intros [M B T] Hp. split; unfold bus, pin in *; cbn [systimer set_systimer].
  - by rewrite B, app_nil_r.
  - by rewrite M.
  - by rewrite M.
  - by rewrite M.
  - by apply bounded_le.
Qed.

Lemma shows_after s0 es sel d t s f d' t' : shows s0 es sel d t s ->
  same_display (systimer s) (f (systimer s)) -> same_memory (systimer s) (f (systimer s)) ->
  dma (f (systimer s)) = d' -> rtos (f (systimer s)) = t' -> queue t' = queue t /\ draw_note t' = draw_note t ->
  shows s0 es sel d' t' (set_systimer (f (systimer s)) s).
Proof.
  intros [S D T M [Q N]] HD HM Hd Ht [Hq Hn]. split; [|done|done|by eapply same_memory_trans|split; congruence].
  rewrite <- (app_nil_r es). eapply lcd_sent_trans; [exact S|]. apply display_sent; [done|apply S].
Qed.

(** A step of the channel, a step of the operating system, a step of the
    display. *)
Lemma shows_dma {B} (P : dma_view -> Prop) (f : W -> W) (k : unit -> prog (timer_state W) B) s0 es sel d t s Q :
  shows s0 es sel d t s ->
  (forall w, dma w = d -> same_memory (systimer s0) w -> P (dma (f w)) /\ beside_dma w (f w)) ->
  (forall d' s', P d' -> shows s0 es sel d' t s' -> steps s0 (k tt) s' Q) -> steps s0 (act (does f) ≫= k) s Q.
Proof.
  intros H Hf Hk. apply steps_act; [by eapply shows_undisturbed|]. apply wp_modify. exists tt. split; [done|].
  destruct (Hf _ (sh_dma _ _ _ _ _ _ H) (sh_memory _ _ _ _ _ _ H)) as [Hd [H1 H2 H3]].
  eapply Hk; [exact Hd|]. eapply shows_after; [exact H|done..| |done]. by rewrite H2, (sh_rtos _ _ _ _ _ _ H).
Qed.

Lemma shows_rtos {B} (f : W -> W) (k : unit -> prog (timer_state W) B) s0 es sel d t t' s Q : shows s0 es sel d t s ->
  (forall w, rtos w = t -> rtos (f w) = t' /\ beside_rtos w (f w)) -> queue t' = queue t /\ draw_note t' = draw_note t ->
  (forall s', shows s0 es sel d t' s' -> steps s0 (k tt) s' Q) -> steps s0 (act (does f) ≫= k) s Q.
Proof.
  intros H Hf Ht Hk. apply steps_act; [by eapply shows_undisturbed|]. apply wp_modify. exists tt. split; [done|].
  apply Hk. destruct (Hf _ (sh_rtos _ _ _ _ _ _ H)) as [Hd [H1 H2 H3]].
  eapply shows_after; [exact H|done..| |done|done]. by rewrite H2, (sh_dma _ _ _ _ _ _ H).
Qed.

Lemma shows_lcd {A B} (m : ST (timer_state W) A) (k : A -> prog (timer_state W) B) s0 es es' sel sel' d t s a Q :
  working polls s0 -> shows s0 es sel d t s -> keeps aside m ->
  (working polls s -> pin s 0 = negb sel -> sends polls m s a es' sel') ->
  (forall s', shows s0 (es ++ es') sel' d t s' -> steps s0 (k a) s' Q) -> steps s0 (act m ≫= k) s Q.
Proof.
  intros H0 H Hm Hs Hk. apply steps_act; [by eapply shows_undisturbed|]. destruct H as [S D T M N].
  pose proof (sent_working _ _ _ _ _ S H0) as Hw.
  specialize (Hs Hw (se_select _ _ _ _ _ S)). specialize (Hm s). unfold sends, wp in Hs |- *.
  destruct (m s) as [r s']. cbn [fst snd] in *. destruct Hs as [-> Hs]. exists a. split; [done|]. apply Hk.
  destruct Hm as [A1 A2 A3].
  split; [by eapply lcd_sent_trans|congruence|congruence|by eapply same_memory_trans|done].
Qed.

(** *** The interrupts *)

Definition data_events w (l : list Z) : list lcd_event := (fun a => Data (byte_at w a)) <$> l.

Lemma data_events_memory w w' l : same_memory w w' -> data_events w' l = data_events w l.
Proof. intros [H _]. unfold data_events. by rewrite H. Qed.

(** An interrupt while bytes are left, and the last one. *)
Lemma shows_block s0 es d t s l : shows s0 es true d t s -> ch_todo d = Some l -> l <> [] ->
  wp dma_ch_irq_handler s (fun r s' => r = Ok tt /\ exists k d', (0 < k)%nat /\ ch_todo d' = Some (drop k l) /\
    shows s0 (es ++ data_events (systimer s0) (take k l)) true d' t s').
Proof.
  intros [S D T M N] Hd Hl. unfold dma_ch_irq_handler. apply wp_bind, wp_gets. rewrite dl_intr, D, Hd.
  destruct l as [|a l]; [done|]. apply wp_bind, wp_gets. rewrite dl_intr, D, Hd. apply wp_modify. split; [done|].
  destruct (dl_block (systimer s) (a :: l)) as (k & Hk & Hd' & HT & HM & HP & HC & HB); [by rewrite D|done|].
  set (w := dma350_ch_cmd DMA350_CH_CMD_DESSWTRIGINREQ_BLOCK (systimer s)) in *.
  exists k, (dma w). split; [done|]. split; [done|]. split; [|done|by rewrite <- T|by eapply same_memory_trans|done].
  eapply lcd_sent_trans; [exact S|]. pose proof (se_select _ _ _ _ _ S) as Hsel. unfold pin in Hsel. rewrite Hsel in HB.
  split; unfold bus, pin; cbn [systimer set_systimer].
  - rewrite HB. cbn [negb]. f_equal. by apply data_events_memory.
  - by rewrite HP.
  - by rewrite HP.
  - by rewrite HP.
  - by apply bounded_le.
Qed.

Lemma shows_done s0 es sel d t s : shows s0 es sel d t s -> ch_todo d = Some [] ->
  wp dma_ch_irq_handler s (fun r s' => r = Ok tt /\ exists d', ch_todo d' = None /\
    shows s0 es sel d' (with_note CLCD_TASK true t) s').
Proof.
  intros H Hd. unfold dma_ch_irq_handler. apply wp_bind, wp_gets. rewrite dl_intr, (sh_dma _ _ _ _ _ _ H), Hd.
  apply wp_bind, wp_modify. destruct (dl_clear (systimer s)) as [Hd' [B1 B2 B3]]; [by rewrite (sh_dma _ _ _ _ _ _ H)|].
  eapply shows_after in H; [|exact B1|exact B3|reflexivity|by rewrite B2, (sh_rtos _ _ _ _ _ _ H)|done].
  revert H. set (s1 := set_systimer _ s). intros H. apply wp_modify. split; [done|].
  destruct (dl_give CLCD_TASK (systimer s1)) as [Hr [R1 R2 R3]].
  eexists. split; [exact Hd'|]. eapply shows_after; [exact H|done|done| |by rewrite Hr, (sh_rtos _ _ _ _ _ _ H)|done].
  by rewrite R2, (sh_dma _ _ _ _ _ _ H).
Qed.

(** No interrupt comes when the channel is idle. *)
Lemma shows_taken n s0 es d t s : shows s0 es true d (with_note CLCD_TASK true t) s -> ch_todo d = None ->
  steps s0 (take_while_irqs n) s (fun _ s' => shows s0 es true d (with_note CLCD_TASK false t) s').
Proof.
  intros H Hd. assert (forall k : bool -> prog (timer_state W) unit, steps s0 (act (asks irq_pending) ≫= k) s
    (fun _ s' => shows s0 es true d (with_note CLCD_TASK false t) s') <-> steps s0 (k false) s
    (fun _ s' => shows s0 es true d (with_note CLCD_TASK false t) s')) as E.
  { intros k. unfold asks, gets. cbn. rewrite dl_pending, (sh_dma _ _ _ _ _ _ H), Hd, andb_false_r.
    split; [by intros [_ ?]|]. intros Hk. split; [by eapply shows_undisturbed|done]. }
  assert (steps s0 (act (waits_to (ulTaskNotifyTake CLCD_TASK)) ≫= mret) s
    (fun _ s' => shows s0 es true d (with_note CLCD_TASK false t) s')) as HT.
  { apply steps_act; [by eapply shows_undisturbed|]. unfold wp, waits_to, waits_for.
    pose proof (dl_take CLCD_TASK (systimer s)) as HT. rewrite (sh_rtos _ _ _ _ _ _ H) in HT.
    destruct (ulTaskNotifyTake CLCD_TASK (systimer s)) as [w2|]; [|done]. destruct HT as (_ & Hr & [B1 B2 B3]).
    exists tt. split; [done|].
    assert (shows s0 es true d (with_note CLCD_TASK false t) (set_systimer w2 s)) as H2.
    { apply (shows_after _ _ _ _ _ _ (fun _ => w2) _ _ H B1 B3); [|by rewrite Hr|done].
      by rewrite B2, (sh_dma _ _ _ _ _ _ H). }
    split; [by eapply shows_undisturbed|exact H2]. }
  destruct n as [|n]; cbn [take_while_irqs]; apply E; exact HT.
Qed.

Lemma shows_waiting n s0 es d t s l : shows s0 es true d t s -> ch_todo d = Some l -> irq_on t = true -> (length l < n)%nat ->
  steps s0 (take_while_irqs n) s (fun _ s' => exists d', ch_todo d' = None /\
    shows s0 (es ++ data_events (systimer s0) l) true d' (with_note CLCD_TASK false t) s').
Proof.
  intros H Hd Ht. revert es d s l H Hd. induction n as [|n IH]; intros es d s l H Hd Hn; [lia|].
  cbn [take_while_irqs]. apply steps_act; [by eapply shows_undisturbed|]. apply wp_gets. eexists. split; [done|].
  rewrite dl_pending, (sh_rtos _ _ _ _ _ _ H), Ht, (sh_dma _ _ _ _ _ _ H), Hd. cbn [andb].
  apply steps_act; [by eapply shows_undisturbed|]. destruct l as [|a l].
  - eapply wp_mono; [by eapply shows_done|]. intros r s1 (-> & d1 & Hd1 & H1). exists tt. split; [done|].
    eapply steps_mono; [by eapply shows_taken|]. intros ? s2 _ H2. exists d1. by rewrite app_nil_r.
  - eapply wp_mono; [by eapply shows_block|]. intros r s1 (-> & k & d1 & Hk & Hd1 & H1). exists tt. split; [done|].
    eapply steps_mono; [eapply IH; [exact H1|exact Hd1|]|].
    + rewrite length_drop. cbn [length] in *. lia.
    + intros ? s2 _ (d2 & Hd2 & H2). exists d2. split; [done|].
      rewrite <- app_assoc in H2. unfold data_events in H2. rewrite <- fmap_app, take_drop in H2. exact H2.
Qed.

(** *** The whole display *)

Lemma shows_start s : working polls s -> shows s [] (negb (pin s 0)) (dma (systimer s)) (rtos (systimer s)) s.
Proof.
  intros H. split; [|done|done|done|done]. split; [by rewrite app_nil_r| |done|done|done]. by rewrite negb_involutive.
Qed.

(** The settings before the chain is started. *)
Definition start_settings (first : Z) : list dma_setting :=
  [set_xsize32 0 0; set_ysize16 0 0; set_xtype_continue; set_ytype_disable; enable_linkaddr; set_linkaddr32 first;
   disable_intr DMA350_CH_INTREN_DONE].

Lemma start_linked first r : linked_to first (foldl (fun r c => apply_setting c r) r (start_settings first)).
Proof. by repeat split. Qed.

Lemma shows_set {B} c (k : unit -> prog (timer_state W) B) s0 es sel r t s Q :
  shows s0 es sel {| ch_regs := r; ch_todo := None |} t s ->
  (forall s', shows s0 es sel {| ch_regs := apply_setting c r; ch_todo := None |} t s' -> steps s0 (k tt) s' Q) ->
  steps s0 (act (does (dma350_ch_set c)) ≫= k) s Q.
Proof.
  intros H Hk. eapply (shows_dma (eq _)); [exact H| |by intros d' s' <-; apply Hk]. intros w Hw _.
  destruct (dl_set c w) as [H1 H2]; [by rewrite Hw|]. split; [|done]. by rewrite H1, Hw.
Qed.

Lemma shows_display irqs first s : working polls s ->
  five_commands shared_clcd_buffer char_dat_address first (fun a cmd => fst <$> command_in (systimer s) a = Some cmd) ->
  2 * (LCD_WIDTH * LCD_HEIGHT) < Z.of_nat irqs ->
  steps s (display_image_with_dma polls irqs first) s (fun _ s' => exists d', ch_todo d' = None /\
    shows s (image_events 0 0 LCD_WIDTH LCD_HEIGHT (picture (byte_at (systimer s)) shared_clcd_buffer (LCD_WIDTH * LCD_HEIGHT)))
      false d' (with_irq false (with_note CLCD_TASK false (rtos (systimer s)))) s').
Proof.
  intros Hw HC Hirqs. unfold display_image_with_dma. pose proof (shows_start s Hw) as H.
  eapply (shows_dma (eq {| ch_regs := reset_regs; ch_todo := None |}));
    [exact H|intros w _ _; destruct (dl_init w) as [<- ?]; done|]. clear H. intros d s1 <- H.
  eapply shows_rtos; [exact H|intros w Hr; destruct (dl_irq_on w) as [H1 H2]; split; [by rewrite H1, Hr|done]|done|].
  clear H. intros s2 H.
  do 7 (eapply shows_set; [exact H|]; clear H; intros ? H).
  eapply shows_lcd; [done|exact H|apply aside_set_window|intros; by apply sends_set_window|]. clear H. intros s10 H.
  eapply shows_lcd; [done|exact H|apply aside_bit|intros; by apply sends_clear_cs|]. clear H. intros s11 H.
  eapply shows_lcd; [done|exact H|apply aside_store|intros; by apply sends_command|]. clear H. intros s12 H.
  eapply shows_lcd; [done|exact H|apply aside_bit|intros; by apply sends_set_cs|]. clear H. intros s13 H.
  eapply shows_lcd; [done|exact H|apply aside_bit|intros; by apply sends_clear_cs|]. clear H. intros s14 H.
  rewrite !app_nil_r in H. cbn [app] in H. set (mem := byte_at (systimer s)) in *.
  set (l := picture_bytes shared_clcd_buffer 0 (LCD_WIDTH * LCD_HEIGHT)).
  eapply (shows_dma (fun d => ch_todo d = Some l)); [exact H| |].
  { intros w Hd [_ HM]. apply dl_enable; [by rewrite Hd|]. rewrite Hd, HM. cbn [ch_regs].
    unfold l. apply (chain_picture _ _ _ first); [apply dl_reset|exact HC|apply start_linked]. }
  clear H. intros d1 s15 Hd1 H. apply task_steps_bind. eapply steps_mono; [eapply shows_waiting; [exact H|exact Hd1|done|]|].
  { unfold l. rewrite length_picture_bytes. assert (0 <= LCD_WIDTH * LCD_HEIGHT) by done. lia. }
  clear H. intros ? s16 _ (d2 & Hd2 & H). unfold data_events in H. fold mem in H. unfold l in H.
  rewrite picture_events in H by (intros b; apply dl_byte).
  eapply shows_rtos; [exact H|intros w Hr; destruct (dl_irq_off w) as [H1 H2]; split; [by rewrite H1, Hr|done]|done|].
  clear H. intros s17 H. change (act clcd_mps3_set_cs) with (act (S := timer_state W) clcd_mps3_set_cs ≫= mret).
  eapply shows_lcd; [done|exact H|apply aside_bit|intros; by apply sends_set_cs|]. clear H. intros s18 H.
  split; [by eapply shows_undisturbed|]. exists d2. split; [done|]. rewrite app_nil_r in H. unfold image_events. rewrite app_assoc.
  rewrite <- !app_assoc in H |- *. exact H.
Qed.
End Show.

(** ** Generating the commands *)

Section Generate.
Context {W : Type} {CO : ClcdOps W} {TO : SystimerOps W} {TL : SystimerLaws (T := W)} {CL : ClcdLaws W}.
Context {DO : DmaOps W} {DL : DmaLibrary W} {RO : RtosOps W} {EL : ExampleLayout} {EV : ExampleView W} {DW : DmaLaws W}.
Implicit Types w : W.

Definition command_between (lo hi : Z) w (a : Z) (cmd : list dma_setting) : Prop :=
  exists e, lo <= a /\ e <= hi /\ command_in w a = Some (cmd, e).

Record generated (lo hi : Z) w w' : Prop := {
  ge_bytes : forall b, b < lo \/ hi <= b -> byte_at w' b = byte_at w b;
  ge_dma : dma w' = dma w;
  ge_rtos : rtos w' = rtos w;
  ge_display : same_display w w'
}.

Lemma generated_trans lo hi w1 w2 w3 : generated lo hi w1 w2 -> generated lo hi w2 w3 -> generated lo hi w1 w3.
Proof.
  intros [B1 D1 R1 [M1 L1 T1]] [B2 D2 R2 [M2 L2 T2]]. split; [|congruence..|split; [congruence..|lia]].
  intros b Hb. by rewrite B2, B1.
Qed.

(** One command, at the address [a] behind those that are there. *)
Lemma generate_next cfg lo a limit k w first w' : lo <= a -> generate_or_return cfg a limit k w = (Some first, w') ->
  exists e w1, k e w1 = (Some first, w') /\ a < e <= limit /\ generated lo limit w w1 /\ command_between lo e w1 a cfg /\
    forall a' cmd, command_between lo a w a' cmd -> command_between lo e w1 a' cmd.
Proof.
  intros Hlo. unfold generate_or_return. pose proof (dl_generate cfg a limit w) as H.
  destruct (dma350_cmdlink_generate cfg a limit w) as [[e|] w1]; [|done].
  destruct H as (He & Hc & Ho & Hb & Hd & Hr & Hl). intros Hk. exists e, w1. split; [exact Hk|]. split; [done|]. split.
  { split; [|done..]. intros b Hbb. apply Hb. lia. }
  split; [by exists e|]. intros a' cmd (e' & H1 & H2 & H3). exists e'. split; [done|]. split; [lia|].
  apply Ho; [exact H3|by left].
Qed.

Lemma generated_commands p char_dat cmds limit w first w' :
  generate_dma_cmdlinks_for_display p char_dat cmds limit w = (Some first, w') ->
  five_commands p char_dat first (command_between cmds limit w') /\ generated cmds limit w w'.
Proof.
  unfold generate_dma_cmdlinks_for_display. intros H.
  apply (generate_next _ cmds) in H as (a4 & w1 & H & L1 & G1 & C1 & _); [|lia].
  apply (generate_next _ cmds) in H as (a3 & w2 & H & L2 & G2 & C2 & O2); [|lia].
  apply (generate_next _ cmds) in H as (a2 & w3 & H & L3 & G3 & C3 & O3); [|lia].
  apply (generate_next _ cmds) in H as (a1 & w4 & H & L4 & G4 & C4 & O4); [|lia].
  apply (generate_next _ cmds) in H as (e & w5 & H & L5 & G5 & C5 & O5); [|lia]. injection H as <- <-. split.
  - apply (five_commands_mono _ _ _ (command_between cmds e w5)).
    + intros a cmd (e' & H1 & H2 & H3). exists e'. split; [done|]. split; [lia|done].
    + split. exists a2, a3, a4, cmds. repeat split; auto.
  - eapply generated_trans; [exact G1|]. eapply generated_trans; [exact G2|]. eapply generated_trans; [exact G3|].
    by eapply generated_trans.
Qed.
End Generate.
