(* ===== verification/DmaTheorems.v ===== *)
(** * The two tasks of the DMA example: properties

    The pictures are shown as the display's own library would show them, and
    whatever the order in which the tasks make their steps, the display shows
    the picture once after each column. *)
From Stdlib Require Import ZArith Lia.
From stdpp Require Import base list numbers gmap relations options.
From S2P Require Import Prelude.
From S2P Require Import FlashFsDefs.
From S2P Require Import Interrupts.
From S2P Require Import SysTimer.
From S2P Require Import I2sDriver.
From S2P Require Import Clcd.
From S2P Require Import ClcdSpec.
From S2P Require Import ClcdTheorems.
From S2P Require Import DmaTasks.
From S2P Require Import DmaSpec.

#[local] Set Default Proof Using "Type*".

(** ** Schedules *)

Lemma turn_inv {S A B} (p : prog S A) (q : prog S B) (s : S) y : turn (p, q, s) y ->
  (exists p' s', step_of p s = Some (p', s') /\ y = (p', q, s')) \/ (exists q' s', step_of q s = Some (q', s') /\ y = (p, q', s')).
Proof. inversion 1; subst; eauto. Qed.

Lemma step_of_act {S A X} (m : ST S X) (k : X -> prog S A) s p' s' : step_of (Act m k) s = Some (p', s') ->
  exists x, m s = (Ok x, s') /\ p' = k x.
Proof. cbn. destruct (m s) as [[x|e] s1]; [|done]. intros [= <- <-]. by exists x. Qed.

(** Every schedule ends, because the tasks are finite trees. *)
Lemma turn_ends {S A B} (p : prog S A) : forall (q : prog S B) (s : S), sn turn (p, q, s).
Proof.
  assert (forall p : prog S A, (forall p' s s', step_of p s = Some (p', s') -> forall q : prog S B, sn turn (p', q, s')) ->
    forall (q : prog S B) s, sn turn (p, q, s)) as step.
  { clear p. intros p Hp q. induction q as [b|Y m k IH]; intros s; apply Acc_intro; intros y H; apply turn_inv in H as
      [(p' & s' & H & ->)|(q' & s' & H & ->)]; [by eapply Hp|done|by eapply Hp|].
    apply step_of_act in H as (x & _ & ->). apply IH. }
  induction p as [a|X m k IH]; apply step; [done|]. intros p' s s' H q. apply step_of_act in H as (x & _ & ->). apply IH.
Qed.

Lemma step_bind {S A B} (p p' : prog S A) (k : A -> prog S B) s s' : step_of p s = Some (p', s') ->
  step_of (p ≫= k) s = Some (p' ≫= k, s').
Proof. destruct p as [a|X m k']; [done|]. cbn. destruct (m s) as [[x|e] s1]; [|done]. by intros [= <- <-]. Qed.

Lemma steps_next {S A} (J : S -> Prop) (p : prog S A) s Q : steps_to J p s Q ->
  (exists a, p = Ret a /\ Q a s) \/ exists p' s', step_of p s = Some (p', s') /\ steps_to J p' s' Q.
Proof.
  destruct p as [a|X m k]; intros [_ H]; [left; by exists a|right]. cbn [step_of].
  destruct (m s) as [[x|e] s']; [by eexists _, _|done].
Qed.

(** ** The drawings *)

Section Drawings.
Context {W : Type} {DL : DmaLibrary W} {EL : ExampleLayout}.
Abbreviation TASK := (prog (timer_state W)).

(** The [j]-th drawing of the [k]-th column. *)
Definition example_draw (k j : nat) : dma350_draw_config := {|
  draw_src := pattern;
  draw_des := pixel_address (START_MARGIN + Z.of_nat k * (PAVED_W + INNER_MARGIN_W)) (START_MARGIN + Z.of_nat j * (PAVED_H + INNER_MARGIN_H));
  src_width := PAT_W; src_height := PAT_H; src_line_width := PAT_W;
  des_width := PAVED_W; des_height := PAVED_H; des_line_width := BUFFER_WIDTH;
  pixelsize := DMA350_CH_TRANSIZE_16BITS;
  transform := Nat.iter (3 * k + j) next_transform DMA350_LIB_TRANSFORM_NONE;
  draw_exec_type := DMA350_LIB_EXEC_BLOCKING
|}.

Definition example_columns : list (list dma350_draw_config) :=
  (fun k => example_draw k <$> [0; 1; 2]%nat) <$> [0; 1; 2; 3]%nat.

(** Inside the picture, from the pattern. *)
Definition in_place (c : dma350_draw_config) : Prop :=
  (shared_clcd_buffer <= draw_des c /\ draw_end c <= shared_clcd_buffer + 2 * (BUFFER_WIDTH * BUFFER_HEIGHT)) /\
  (pattern <= draw_src c /\ draw_source_end c <= pattern + 2 * (PAT_W * PAT_H)).

Lemma draw_in_place k j : (k <= 3)%nat -> (j <= 2)%nat -> in_place (example_draw k j).
Proof.
  intros Hk Hj. unfold in_place, draw_end, draw_source_end, example_draw, pixel_address, START_MARGIN, PAVED_W, PAVED_H,
    INNER_MARGIN_W, INNER_MARGIN_H, PAT_W, PAT_H, BUFFER_WIDTH, BUFFER_HEIGHT. cbn. lia.
Qed.

Lemma columns_in_place : Forall (Forall in_place) example_columns.
Proof. unfold example_columns. repeat constructor; apply draw_in_place; lia. Qed.

(** The task makes these drawings and goes on as [d'], and it makes the
    drawings of the columns and asks after each for the picture. *)
Fixpoint performs (cfgs : list dma350_draw_config) (d d' : TASK unit) : Prop :=
  match cfgs with
  | [] => d = d'
  | c :: cfgs => exists k, d = Act (request (DMA_CALL_DRAW_FROM_CANVAS c) 1) k /\ forall x, performs cfgs (k x) d'
  end.
End Drawings.

Section Follows.
Context {W : Type} {DL : DmaLibrary W} {RO : RtosOps W} {EL : ExampleLayout}.
Abbreviation TASK := (prog (timer_state W)).

Definition asks_then (d : TASK unit) : TASK unit :=
  Act (waits_to (xQueueSendToBack EX_TASK_ACTION_DRAW)) (fun _ => Act (waits_to (ulTaskNotifyTake DRAW_TASK)) (fun _ => d)).

Fixpoint follows (cols : list (list dma350_draw_config)) (d : TASK unit) : Prop :=
  match cols with
  | [] => d = act (waits_to (xQueueSendToBack EX_TASK_ACTION_NO_MORE_DRAWING))
  | col :: cols => exists d', performs col d (asks_then d') /\ follows cols d'
  end.

Definition column_at (to_x t : Z) : list dma350_draw_config := (fun j : nat => {|
  draw_src := pattern; draw_des := pixel_address to_x (START_MARGIN + Z.of_nat j * (PAVED_H + INNER_MARGIN_H));
  src_width := PAT_W; src_height := PAT_H; src_line_width := PAT_W;
  des_width := PAVED_W; des_height := PAVED_H; des_line_width := BUFFER_WIDTH;
  pixelsize := DMA350_CH_TRANSIZE_16BITS; transform := Nat.iter j next_transform t;
  draw_exec_type := DMA350_LIB_EXEC_BLOCKING |}) <$> [0; 1; 2]%nat.

Lemma column_performs n (to_x t : Z) (k : Z -> TASK unit) (k' : unit -> TASK unit) :
  performs (column_at to_x t) ((draw_column (4 + n) to_x START_MARGIN t ≫= k) ≫= k') (k (Nat.iter 3 next_transform t) ≫= k').
Proof.
  cbn [performs column_at fmap list_fmap]. do 3 (eexists; split; [reflexivity|intros ?]). reflexivity.
Qed.

Lemma columns_follow fuel n to_x t k cols : add32 to_x PAVED_W <= BUFFER_WIDTH ->
  follows cols (draw_columns fuel (4 + n) (add32 to_x (PAVED_W + INNER_MARGIN_W)) (Nat.iter 3 next_transform t) ≫= k) ->
  follows (column_at to_x t :: cols) (draw_columns (S fuel) (4 + n) to_x t ≫= k).
Proof.
  intros Hx H. eexists. split; [|exact H]. cbn [draw_columns]. rewrite (proj2 (Z.leb_le _ _) Hx).
  apply (column_performs n to_x t).
Qed.

Lemma draw_task_follows n : follows example_columns (drawTask (5 + n)).
Proof. unfold drawTask. do 4 (apply (columns_follow _ (1 + n)); [done|]). reflexivity. Qed.
End Follows.

(** ** The protocol *)

(** The pictures after each of the columns. *)
Fixpoint pictures {W} {CO : ClcdOps W} {TO : SystimerOps W} {TL : SystimerLaws (T := W)} {CL : ClcdLaws W} {DO : DmaOps W}
    {DL : DmaLibrary W} {RO : RtosOps W} {EL : ExampleLayout} {EV : ExampleView W} {DW : DmaLaws W}
    (mem : Z -> Z) (cols : list (list dma350_draw_config)) : list (list Z) :=
  match cols with
  | [] => []
  | col :: cols =>
      let mem' := foldl (fun m c => drawn c m) mem col in
      picture mem' shared_clcd_buffer (LCD_WIDTH * LCD_HEIGHT) :: pictures mem' cols
  end.

Definition shown_events (px : list Z) : list lcd_event := image_events 0 0 LCD_WIDTH LCD_HEIGHT px.

(** What the initialisation sends. *)
Definition init_events (es : list lcd_event) : Prop :=
  exists pre, es = pre ++ [Reset_line] ++ registers_events init_registers ++
    image_events 0 0 MAX_WIDTH MAX_HEIGHT (replicate (Z.to_nat (MAX_WIDTH * MAX_HEIGHT)) CLR_BLACK).

Abbreviation cmd_limit := (cmd_buffer + 4 * CMD_BUFFER_LEN).

Section Layout.
Context {W : Type} {CO : ClcdOps W} {TO : SystimerOps W} {TL : SystimerLaws (T := W)} {CL : ClcdLaws W}.
Context {DO : DmaOps W} {DL : DmaLibrary W} {RO : RtosOps W} {EL : ExampleLayout} {EV : ExampleView W} {DW : DmaLaws W}.
Implicit Types s : timer_state W.

(** The buffer for the commands is large enough and apart from the picture and
    the pattern. *)
Definition commands_fit : Prop := forall w, exists first w',
  generate_dma_cmdlinks_for_display shared_clcd_buffer char_dat_address cmd_buffer cmd_limit w = (Some first, w').

Definition outside (a : Z) : Prop := a < cmd_buffer \/ cmd_limit <= a.

Record buffers_apart : Prop := {
  ba_picture : cmd_limit <= shared_clcd_buffer \/ shared_clcd_buffer + 2 * (BUFFER_WIDTH * BUFFER_HEIGHT) <= cmd_buffer;
  ba_pattern : cmd_limit <= pattern \/ pattern + 2 * (PAT_W * PAT_H) <= cmd_buffer
}.

(** Memory but for the commands is [mem]; the channel does nothing; the queue
    and the notification of the drawing task. *)
Record calm_state (q : list Z) (note : bool) (mem : Z -> Z) s : Prop := {
  cs_memory : forall a, outside a -> byte_at (systimer s) a = mem a;
  cs_idle : ch_todo (dma (systimer s)) = None;
  cs_queue : queue (rtos (systimer s)) = q;
  cs_note : draw_note (rtos (systimer s)) = note
}.

Lemma buffer_outside a : shared_clcd_buffer <= a < shared_clcd_buffer + 2 * (BUFFER_WIDTH * BUFFER_HEIGHT) -> buffers_apart -> outside a.
Proof. intros Ha [H _]. unfold outside. lia. Qed.

Lemma picture_same mem mem' p n : (forall a, p <= a < p + 2 * n -> mem a = mem' a) -> picture mem p n = picture mem' p n.
Proof.
  intros H. unfold picture. apply list_fmap_ext. intros i x Hi. apply lookup_seqZ in Hi as [-> Hi]. rewrite !H by lia. done.
Qed.

Lemma calm_picture q note mem s : buffers_apart -> calm_state q note mem s ->
  picture (byte_at (systimer s)) shared_clcd_buffer (LCD_WIDTH * LCD_HEIGHT) = picture mem shared_clcd_buffer (LCD_WIDTH * LCD_HEIGHT).
Proof.
  intros Hap H. apply picture_same. intros a Ha. apply (cs_memory _ _ _ _ H), buffer_outside; [exact Ha|exact Hap].
Qed.
End Layout.

Section Protocol.
Context {W : Type} {CO : ClcdOps W} {TO : SystimerOps W} {TL : SystimerLaws (T := W)} {CL : ClcdLaws W}.
Context {DO : DmaOps W} {DL : DmaLibrary W} {RO : RtosOps W} {EL : ExampleLayout} {EV : ExampleView W} {DW : DmaLaws W}.
Context (polls irqs : nat) (Hpolls : MS_TO_TICK 1 < Z.of_nat polls) (Hirqs : 2 * (LCD_WIDTH * LCD_HEIGHT) < Z.of_nat irqs).
Context (Hfit : commands_fit) (Hapart : buffers_apart).
Implicit Types s : timer_state W.
Abbreviation TASK := (prog (timer_state W)).

Section Run.
Context (s0 : timer_state W).
#[local] Set Default Proof Using "All".

(** The display has been initialised and has got these events since. *)
Definition logged (evs : list lcd_event) s : Prop := exists init, init_events init /\ bus s = bus s0 ++ init ++ evs.

Definition loaded (first : Z) s : Prop :=
  five_commands shared_clcd_buffer char_dat_address first (command_between cmd_buffer cmd_limit (systimer s)).

(** The display's task can show pictures. *)
Record looping (evs : list lcd_event) (first : Z) s : Prop := {
  lo_working : working polls s;
  lo_logged : logged evs s;
  lo_loaded : loaded first s
}.

Lemma same_looping evs first s w : looping evs first s -> same_display (systimer s) w ->
  (forall a cmd, command_between cmd_buffer cmd_limit (systimer s) a cmd -> command_between cmd_buffer cmd_limit w a cmd) ->
  looping evs first (set_systimer w s).
Proof.
  intros [[H1 H2] (init & Hi & HB) Hld] [M B T] HC. split.
  - split; [by apply bounded_le|]. unfold pin in *. cbn. by rewrite M.
  - exists init. split; [exact Hi|]. rewrite <- HB. exact B.
  - red. eapply five_commands_mono; [exact HC|exact Hld].
Qed.

Lemma beside_rtos_looping evs first s w : looping evs first s -> beside_rtos (systimer s) w -> looping evs first (set_systimer w s).
Proof.
  intros H [HD _ [_ HM]]. eapply same_looping; [exact H|exact HD|]. intros a cmd (e & He). exists e. by rewrite HM.
Qed.

(** The display's task before it gets the next request; it can take [n]. *)
Inductive ready (n : nat) (evs : list lcd_event) : TASK unit -> timer_state W -> Prop :=
| ready_init r s : (n <= r)%nat -> evs = [] -> bounded polls s -> bus s = bus s0 -> ready n evs (clcdTask polls irqs r) s
| ready_generate r s : (n <= r)%nat -> evs = [] -> working polls s -> logged [] s ->
    ready n evs (act (on_w (generate_dma_cmdlinks_for_display shared_clcd_buffer char_dat_address cmd_buffer cmd_limit))
                 ≫= clcd_loop polls irqs r) s
| ready_loop r first s : (n <= r)%nat -> looping evs first s -> ready n evs (clcd_loop polls irqs r (Some first)) s.

(** It makes the steps before its loop. *)
Lemma ready_step n evs c s q note mem : (0 < n)%nat -> ready n evs c s -> calm_state q note mem s ->
  (exists r first, c = clcd_loop polls irqs r (Some first) /\ (n <= r)%nat /\ looping evs first s) \/
  exists c' s', step_of c s = Some (c', s') /\ ready n evs c' s' /\ calm_state q note mem s'.
Proof.
  intros Hn Hr Hc. destruct Hr as [r s Hle -> Hb Hbus|r s Hle -> Hw Hl|r first s Hle Hl].
  - right. pose proof (wp_display_init polls Hpolls s Hb) as H. pose proof (aside_init polls Hpolls s) as [A1 A2 [A3 A4]].
    unfold clcdTask. unfold act. cbn. unfold wp in H.
    destruct (clcd_mps3_init polls s) as [x s']. cbn [fst snd] in *. destruct H as (-> & Hw & _ & _ & pre & HB).
    eexists _, s'. split; [reflexivity|]. split.
    + apply (ready_generate _ _ r s'); [exact Hle|reflexivity|exact Hw|].
      eexists. split; [exists pre; reflexivity|]. rewrite app_nil_r, HB, Hbus. reflexivity.
    + destruct Hc as [C1 C2 C3 C4]. split; [intros a Ha; rewrite A3; by apply C1|by rewrite A1|by rewrite A2|by rewrite A2].
  - right. destruct (Hfit (systimer s)) as (first & w' & Hg). pose proof (generated_commands _ _ _ _ _ _ _ Hg) as [HC [G1 G2 G3 G4]].
    eexists _, (set_systimer w' s). split; [unfold act, on_w; cbn; by rewrite Hg|]. split.
    + destruct G4 as [M B T]. apply ready_loop; [done|]. split; [| |exact HC].
      * destruct Hw as [Hb Hp]. split; [by apply bounded_le|]. unfold pin in *. cbn. by rewrite M.
      * destruct Hl as (init & Hi & HB). exists init. split; [done|]. rewrite <- HB. exact B.
    + destruct Hc as [C1 C2 C3 C4]. split; cbn [systimer set_systimer];
        [intros a Ha; rewrite G1 by exact Ha; by apply C1|by rewrite G2|by rewrite G3|by rewrite G3].
  - left. by eexists _, _.
Qed.
(** What leaves the display and the commands alone does not matter to it. *)
Lemma ready_same n evs c s w : ready n evs c s -> same_display (systimer s) w ->
  (forall a cmd, command_between cmd_buffer cmd_limit (systimer s) a cmd -> command_between cmd_buffer cmd_limit w a cmd) ->
  ready n evs c (set_systimer w s).
Proof.
  intros Hr [M B T] HC.
  assert (bounded polls s -> bounded polls (set_systimer w s)) as Hb by (by apply bounded_le).
  assert (working polls s -> working polls (set_systimer w s)) as Hw.
  { intros [H1 H2]. split; [by apply Hb|]. unfold pin in *. cbn. by rewrite M. }
  assert (forall e, logged e s -> logged e (set_systimer w s)) as Hl.
  { intros e (init & Hi & HB). exists init. split; [exact Hi|]. rewrite <- HB. exact B. }
  destruct Hr as [r s Hle -> H1 H2|r s Hle -> H1 H2|r first s Hle H1].
  - apply ready_init; [done|done|by apply Hb|]. rewrite <- H2. exact B.
  - apply ready_generate; auto.
  - apply ready_loop; [done|]. by apply same_looping.
Qed.

Lemma beside_rtos_ready n evs c s w : ready n evs c s -> beside_rtos (systimer s) w -> ready n evs c (set_systimer w s).
Proof.
  intros Hr [HD _ [_ HM]]. eapply ready_same; [exact Hr|exact HD|]. intros a cmd (e & H). exists e. by rewrite HM.
Qed.

Lemma beside_rtos_calm q q' note note' mem s w : calm_state q note mem s -> beside_rtos (systimer s) w ->
  queue (rtos w) = q' -> draw_note (rtos w) = note' -> calm_state q' note' mem (set_systimer w s).
Proof.
  intros [C1 C2 _ _] [_ HD [HM _]] Hq Hn. split; cbn [systimer set_systimer]; [intros a Ha; rewrite HM; by apply C1|by rewrite HD|done..].
Qed.

(** *** Single steps *)

Lemma draw_step c k mem s q note : in_place c -> calm_state q note mem s ->
  exists x w, step_of (Act (request (DMA_CALL_DRAW_FROM_CANVAS c) 1) k : TASK unit) s = Some (k x, set_systimer w s) /\
    calm_state q note (drawn c mem) (set_systimer w s) /\
    forall n evs t, ready n evs t s -> ready n evs t (set_systimer w s).
Proof.
  intros [HI1 HI2] [C1 C2 C3 C4]. destruct (dl_draw c 1 (systimer s) C2) as (D1 & D2 & D3 & D4 & D5).
  destruct (request_dma350_priv_config (DMA_CALL_DRAW_FROM_CANVAS c) 1 (systimer s)) as [[x st] w] eqn:E. cbn [snd] in *.
  exists x, w. split; [cbn; unfold request, on_w, mbind, ST_bind; by rewrite E|]. split.
  - split; cbn [systimer set_systimer]; [|done|by rewrite D4|by rewrite D4]. intros a Ha. rewrite D1.
    apply dl_drawn; [|by apply C1]. intros b Hb. apply C1. unfold outside. destruct Hapart as [_ Hp]. lia.
  - intros n evs t Hr. eapply ready_same; [exact Hr|exact D5|]. intros a cmd (e & H1 & H2 & H3). exists e. split; [done|].
    split; [done|]. apply D2; [exact H3|]. destruct Hapart as [Hp _]. lia.
Qed.

Lemma send_step x (k : unit -> TASK unit) mem s note : calm_state [] note mem s ->
  exists w, step_of (Act (waits_to (xQueueSendToBack x)) k) s = Some (k tt, set_systimer w s) /\
    calm_state [x] note mem (set_systimer w s) /\ beside_rtos (systimer s) w.
Proof.
  intros C. pose proof (dl_send x (systimer s)) as H. rewrite (cs_queue _ _ _ _ C) in H.
  destruct (xQueueSendToBack x (systimer s)) as [w|] eqn:E; [|cbn in H; lia]. destruct H as [Hr HB]. exists w.
  split; [cbn; unfold waits_to, waits_for; by rewrite E|]. split; [|done].
  eapply beside_rtos_calm; [exact C|exact HB|by rewrite Hr|]. rewrite Hr. apply C.
Qed.

Lemma take_step (k : unit -> TASK unit) s :
  match draw_note (rtos (systimer s)) with
  | true => exists w, step_of (Act (waits_to (ulTaskNotifyTake DRAW_TASK)) k) s = Some (k tt, set_systimer w s) /\
      rtos w = with_note DRAW_TASK false (rtos (systimer s)) /\ beside_rtos (systimer s) w
  | false => step_of (Act (waits_to (ulTaskNotifyTake DRAW_TASK)) k) s = None
  end.
Proof.
  pose proof (dl_take DRAW_TASK (systimer s)) as H. cbn [step_of]. unfold waits_to, waits_for.
  destruct (ulTaskNotifyTake DRAW_TASK (systimer s)) as [w|]; cbn [note_of] in H.
  - destruct H as (-> & H). exists w. split; [done|exact H].
  - by rewrite H.
Qed.

Lemma receive_step r first s :
  match queue (rtos (systimer s)) with
  | [] => step_of (clcd_loop polls irqs (S r) first) s = None
  | x :: q => exists w, step_of (clcd_loop polls irqs (S r) first) s =
      Some (if x =? EX_TASK_ACTION_DRAW then
              match first with None => act (raise UNDEFINED) | Some f => display_image_with_dma polls irqs f end;;
              act (does (xTaskNotifyGive DRAW_TASK));;
              clcd_loop polls irqs r first
            else if x =? EX_TASK_ACTION_NO_MORE_DRAWING then mret tt
            else clcd_loop polls irqs r first, set_systimer w s) /\
      rtos w = with_queue q (rtos (systimer s)) /\ beside_rtos (systimer s) w
  end.
Proof.
  pose proof (dl_receive (systimer s)) as H. cbn [step_of clcd_loop]. cbn. unfold waits_for.
  destruct (xQueueReceive (systimer s)) as [[x w]|].
  - destruct H as (q & -> & H). exists w. split; [done|exact H].
  - by rewrite H.
Qed.
(** *** The phases of the protocol *)

Definition shown (pxs : list (list Z)) : list lcd_event := concat (shown_events <$> pxs).
Definition current (mem : Z -> Z) : list Z := picture mem shared_clcd_buffer (LCD_WIDTH * LCD_HEIGHT).
Definition takes_then (d : TASK unit) : TASK unit := Act (waits_to (ulTaskNotifyTake DRAW_TASK)) (fun _ => d).
Definition gives_then (p : TASK unit) (r : nat) (first : Z) : TASK unit :=
  p ≫= fun _ => act (does (xTaskNotifyGive DRAW_TASK)) ≫= fun _ => clcd_loop polls irqs r (Some first).

Lemma shown_snoc pxs px : shown (pxs ++ [px]) = shown pxs ++ shown_events px.
Proof. unfold shown. rewrite fmap_app, concat_app. cbn. by rewrite app_nil_r. Qed.

(** [final]: the pictures that are to be shown, [pxs]: those that were. *)
Inductive protocol (final : list (list Z)) : TASK unit * TASK unit * timer_state W -> Prop :=
| p_drawing cfgs cols d d' c s pxs mem :
    performs cfgs d (asks_then d') -> follows cols d' -> Forall in_place cfgs -> Forall (Forall in_place) cols ->
    ready (2 + length cols) (shown pxs) c s -> calm_state [] false mem s -> final = pxs ++ pictures mem (cfgs :: cols) ->
    protocol final (d, c, s)
| p_asked cols d c s pxs mem :
    follows cols d -> Forall (Forall in_place) cols -> ready (2 + length cols) (shown pxs) c s ->
    calm_state [EX_TASK_ACTION_DRAW] false mem s -> final = pxs ++ current mem :: pictures mem cols ->
    protocol final (takes_then d, c, s)
| p_showing cols d p r first s1 s pxs mem :
    follows cols d -> Forall (Forall in_place) cols -> (S (length cols) <= r)%nat -> calm_state [] false mem s1 ->
    steps_to (undisturbed s1) p s (fun _ s' => looping (shown (pxs ++ [current mem])) first s' /\ calm_state [] false mem s') ->
    final = pxs ++ current mem :: pictures mem cols ->
    protocol final (takes_then d, gives_then p r first, s)
| p_shown cols d r first s pxs mem :
    follows cols d -> Forall (Forall in_place) cols -> (S (length cols) <= r)%nat -> looping (shown pxs) first s ->
    calm_state [] true mem s -> final = pxs ++ pictures mem cols ->
    protocol final (takes_then d, clcd_loop polls irqs r (Some first), s)
| p_last c s mem : ready 1 (shown final) c s -> calm_state [] false mem s ->
    protocol final (act (waits_to (xQueueSendToBack EX_TASK_ACTION_NO_MORE_DRAWING)), c, s)
| p_told c s mem : ready 1 (shown final) c s -> calm_state [EX_TASK_ACTION_NO_MORE_DRAWING] false mem s ->
    protocol final (mret tt, c, s)
| p_end s : logged (shown final) s -> protocol final (mret tt, mret tt, s).

(** The drawing task goes on with the rest of its columns. *)
Lemma goes_on final cols d c s pxs mem : follows cols d -> Forall (Forall in_place) cols ->
  ready (1 + length cols) (shown pxs) c s -> calm_state [] false mem s -> final = pxs ++ pictures mem cols ->
  protocol final (d, c, s).
Proof.
  intros Hf Hin Hr Hc HF. destruct cols as [|col cols].
  - cbn [follows] in Hf. subst d final. rewrite app_nil_r. by eapply p_last.
  - destruct Hf as (d' & Hp & Hf). apply Forall_cons_1 in Hin as [H1 H2]. by eapply p_drawing.
Qed.

(** A display of the current picture. *)
Lemma display_steps first s pxs mem : looping (shown pxs) first s -> calm_state [] false mem s ->
  steps_to (undisturbed s) (display_image_with_dma polls irqs first) s (fun _ s' =>
    looping (shown (pxs ++ [current mem])) first s' /\ calm_state [] false mem s').
Proof.
  intros [Hw (init & Hi & HB) Hl] Hc. eapply steps_mono; [apply (shows_display polls Hpolls); [done| |exact Hirqs]|].
  - eapply five_commands_mono; [|exact Hl]. intros a cmd (e & _ & _ & ->). done.
  - intros ? s' _ (d & Hd & [HS HD HR [HM1 HM2] _]). split; [split|].
    + by eapply sent_working.
    + exists init. split; [exact Hi|]. rewrite (se_bus _ _ _ _ _ HS), HB, shown_snoc.
      rewrite (calm_picture _ _ _ _ Hapart Hc), <- !app_assoc. reflexivity.
    + red. eapply five_commands_mono; [|exact Hl]. intros b cmd (e & He). exists e. by rewrite HM2.
    + destruct Hc as [C1 C2 C3 C4]. split; [intros b Hb; rewrite HM1; by apply C1|by rewrite HD|by rewrite HR|by rewrite HR].
Qed.

(** The steps of the drawing task. *)
Lemma protocol_left final d c s d' s' : protocol final (d, c, s) -> step_of d s = Some (d', s') -> protocol final (d', c, s').
Proof.
  intros H. inversion H as [cfgs cols d0 d1 c0 s1 pxs mem Hp Hf Hi Hin Hr Hc HF|cols d0 c0 s1 pxs mem Hf Hin Hr Hc HF
    |cols d0 p r first s1 s2 pxs mem Hf Hin Hle Hc HS HF|cols d0 r first s1 pxs mem Hf Hin Hle Hl Hc HF
    |c0 s1 mem Hr Hc|c0 s1 mem Hr Hc|s1 Hl]; subst; clear H; intros E.
  - destruct cfgs as [|cfg cfgs].
    + cbn [performs] in Hp. subst d. destruct (send_step EX_TASK_ACTION_DRAW (fun _ => takes_then d1) _ _ _ Hc)
        as (w & E1 & C1 & HB). change (step_of (asks_then d1) s = Some (takes_then d1, set_systimer w s)) in E1.
      rewrite E1 in E. injection E as <- <-.
      eapply p_asked; [exact Hf|exact Hin|by apply beside_rtos_ready|exact C1|reflexivity].
    + destruct Hp as (k & -> & Hk). apply Forall_cons_1 in Hi as [H1 H2].
      destruct (draw_step cfg k _ _ _ _ H1 Hc) as (x & w & E1 & C1 & HR). rewrite E1 in E. injection E as <- <-.
      eapply p_drawing; [apply Hk|exact Hf|exact H2|exact Hin|by apply HR|exact C1|reflexivity].
  - pose proof (take_step (fun _ => d0) s) as HT. rewrite (cs_note _ _ _ _ Hc) in HT. unfold takes_then in E. congruence.
  - pose proof (take_step (fun _ => d0) s) as HT. apply steps_here in HS as [_ HN].
    rewrite HN, (cs_note _ _ _ _ Hc) in HT. unfold takes_then in E. congruence.
  - pose proof (take_step (fun _ => d0) s) as HT. rewrite (cs_note _ _ _ _ Hc) in HT. destruct HT as (w & E1 & Hr & HB).
    unfold takes_then in E. rewrite E1 in E. injection E as <- <-.
    eapply goes_on; [exact Hf|exact Hin| |eapply beside_rtos_calm; [exact Hc|exact HB|rewrite Hr; apply Hc|by rewrite Hr]|reflexivity].
    apply beside_rtos_ready; [|exact HB]. by apply ready_loop.
  - destruct (send_step EX_TASK_ACTION_NO_MORE_DRAWING mret _ _ _ Hc) as (w & E1 & C1 & HB).
    change (step_of (act (waits_to (xQueueSendToBack EX_TASK_ACTION_NO_MORE_DRAWING))) s = Some (mret tt, set_systimer w s)) in E1.
    rewrite E1 in E. injection E as <- <-. eapply p_told; [by apply beside_rtos_ready|exact C1].
  - done.
  - done.
Qed.
(** The display's task before its loop, or taking a request. *)
Lemma waiting_step n evs c s q note mem c' s' : (0 < n)%nat -> ready n evs c s -> calm_state q note mem s ->
  step_of c s = Some (c', s') ->
  (ready n evs c' s' /\ calm_state q note mem s') \/
  exists x q' r first, q = x :: q' /\ (n <= S r)%nat /\ calm_state q' note mem s' /\ looping evs first s' /\
    c' = if x =? EX_TASK_ACTION_DRAW then gives_then (display_image_with_dma polls irqs first) r first
         else if x =? EX_TASK_ACTION_NO_MORE_DRAWING then mret tt else clcd_loop polls irqs r (Some first).
Proof.
  intros Hn Hr Hc E. destruct (ready_step _ _ _ _ _ _ _ Hn Hr Hc) as [(r & first & -> & Hle & Hl)|(c1 & s1 & E1 & H)].
  - destruct r as [|r]; [lia|]. pose proof (receive_step r (Some first) s) as HR. rewrite (cs_queue _ _ _ _ Hc) in HR.
    destruct q as [|x q']; [congruence|]. destruct HR as (w & E1 & Hq & HB). rewrite E1 in E. injection E as <- <-. right.
    exists x, q', r, first. split; [done|]. split; [done|].
    split; [eapply beside_rtos_calm; [exact Hc|exact HB|by rewrite Hq|rewrite Hq; apply Hc]|].
    split; [by apply beside_rtos_looping|done].
  - left. rewrite E1 in E. by injection E as <- <-.
Qed.

(** The steps of the display's task. *)
Lemma protocol_right final d c s c' s' : protocol final (d, c, s) -> step_of c s = Some (c', s') -> protocol final (d, c', s').
Proof.
  intros H. inversion H as [cfgs cols d0 d1 c0 s1 pxs mem Hp Hf Hi Hin Hr Hc HF|cols d0 c0 s1 pxs mem Hf Hin Hr Hc HF
    |cols d0 p r first s1 s2 pxs mem Hf Hin Hle Hc HS HF|cols d0 r first s1 pxs mem Hf Hin Hle Hl Hc HF
    |c0 s1 mem Hr Hc|c0 s1 mem Hr Hc|s1 Hl]; subst; clear H; intros E.
  - apply (waiting_step _ _ _ _ _ _ _ _ _ (Nat.lt_0_succ _) Hr Hc) in E as [[H1 H2]|(x & q' & r & first & HQ & _)]; [|done].
    by eapply p_drawing.
  - apply (waiting_step _ _ _ _ _ _ _ _ _ (Nat.lt_0_succ _) Hr Hc) in E as [[H1 H2]|(x & q' & r & first & HQ & Hle & HC & Hl & ->)].
    + by eapply p_asked.
    + injection HQ as <- <-. eapply (p_showing _ cols d0 _ r first s'); [exact Hf|exact Hin|lia|exact HC| |reflexivity].
      by apply display_steps.
  - destruct (steps_next _ _ _ _ HS) as [(a & -> & Hl & HC)|(p' & s2' & E1 & HS')].
    + change (step_of (Act (does (xTaskNotifyGive DRAW_TASK)) (fun _ => clcd_loop polls irqs r (Some first))) s = Some (c', s')) in E.
      cbn in E. injection E as <- <-. destruct (dl_give DRAW_TASK (systimer s)) as [Hr HB].
      eapply p_shown; [exact Hf|exact Hin|exact Hle|by apply beside_rtos_looping
        |eapply beside_rtos_calm; [exact HC|exact HB|rewrite Hr; apply HC|by rewrite Hr]|by rewrite <- app_assoc].
    + unfold gives_then in E. rewrite (step_bind _ _ _ _ _ E1) in E. injection E as <- <-.
      by eapply p_showing.
  - destruct r as [|r]; [lia|]. pose proof (receive_step r (Some first) s) as HR. rewrite (cs_queue _ _ _ _ Hc) in HR. congruence.
  - apply (waiting_step _ _ _ _ _ _ _ _ _ (Nat.lt_0_succ _) Hr Hc) in E as [[H1 H2]|(x & q' & r & first & HQ & _)]; [|done].
    by eapply p_last.
  - apply (waiting_step _ _ _ _ _ _ _ _ _ (Nat.lt_0_succ _) Hr Hc) in E as [[H1 H2]|(x & q' & r & first & HQ & Hle & HC & Hl & ->)].
    + by eapply p_told.
    + injection HQ as <- <-. apply p_end. apply Hl.
  - done.
Qed.

(** Someone can make a step until both have ended. *)
Lemma protocol_progress final d c s : protocol final (d, c, s) ->
  (d = mret tt /\ c = mret tt /\ logged (shown final) s) \/ exists y, turn (d, c, s) y.
Proof.
  assert (forall p' s', step_of d s = Some (p', s') -> exists y, turn (d, c, s) y) as L by (intros; eexists; by apply turn_left).
  assert (forall p' s', step_of c s = Some (p', s') -> exists y, turn (d, c, s) y) as R by (intros; eexists; by apply turn_right).
  intros H. inversion H as [cfgs cols d0 d1 c0 s1 pxs mem Hp Hf Hi Hin Hr Hc HF|cols d0 c0 s1 pxs mem Hf Hin Hr Hc HF
    |cols d0 p r first s1 s2 pxs mem Hf Hin Hle Hc HS HF|cols d0 r first s1 pxs mem Hf Hin Hle Hl Hc HF
    |c0 s1 mem Hr Hc|c0 s1 mem Hr Hc|s1 Hl]; subst; clear H.
  - right. destruct cfgs as [|cfg cfgs].
    + cbn [performs] in Hp. subst d. destruct (send_step EX_TASK_ACTION_DRAW (fun _ => takes_then d1) _ _ _ Hc) as (w & E & _).
      eapply L. exact E.
    + destruct Hp as (k & -> & Hk). apply Forall_cons_1 in Hi as [H1 H2].
      destruct (draw_step cfg k _ _ _ _ H1 Hc) as (x & w & E & _). eapply L. exact E.
  - right. destruct (ready_step _ _ _ _ _ _ _ (Nat.lt_0_succ _) Hr Hc) as [(r & first & -> & Hle & _)|(c1 & s1 & E & _)]; [|by eapply R].
    destruct r as [|r]; [lia|]. pose proof (receive_step r (Some first) s) as HR. rewrite (cs_queue _ _ _ _ Hc) in HR.
    destruct HR as (w & E & _). by eapply R.
  - right. destruct (steps_next _ _ _ _ HS) as [(a & -> & _)|(p' & s2' & E & _)].
    + by eapply (R _ _ (eq_refl _)).
    + eapply R. by eapply step_bind.
  - right. pose proof (take_step (fun _ => d0) s) as HT. rewrite (cs_note _ _ _ _ Hc) in HT. destruct HT as (w & E & _).
    by eapply L.
  - right. destruct (send_step EX_TASK_ACTION_NO_MORE_DRAWING mret _ _ _ Hc) as (w & E & _). eapply L. exact E.
  - right. destruct (ready_step _ _ _ _ _ _ _ (Nat.lt_0_succ _) Hr Hc) as [(r & first & -> & Hle & _)|(c1 & s1 & E & _)]; [|by eapply R].
    destruct r as [|r]; [lia|]. pose proof (receive_step r (Some first) s) as HR. rewrite (cs_queue _ _ _ _ Hc) in HR.
    destruct HR as (w & E & _). by eapply R.
  - by left.
Qed.
Lemma protocol_run final x y : rtc turn x y -> protocol final x -> protocol final y.
Proof.
  induction 1 as [x|x y z H _ IH]; [done|]. intros Hx. apply IH. destruct x as [[d c] s].
  apply turn_inv in H as [(d' & s' & H & ->)|(c' & s' & H & ->)]; [by eapply protocol_left|by eapply protocol_right].
Qed.
End Run.
End Protocol.

(** A bitmap that is as large as the window. *)
Lemma sends_whole_image {W : Type} {CO : ClcdOps W} {TO : SystimerOps W} {TL : SystimerLaws (T := W)} {CL : ClcdLaws W}
    polls (Hp : MS_TO_TICK 1 < Z.of_nat polls) x y w h px (s : timer_state W) : working polls s -> fits_u16 x w -> fits_u16 y h ->
  w * h <= 2147483647 -> length px = Z.to_nat (w * h) -> Forall is_u16 px ->
  sends polls (clcd_mps3_display_image polls x y w h px) s CLCD_MPS3_LIB_ERR_NONE (image_events x y w h px) false.
Proof.
  intros Hw Hx Hy Hmax Hlen Hu. assert (0 < w * h) as Hwh by (destruct Hx as (_ & ? & _), Hy as (_ & ? & _); nia).
  pose proof (sends_image polls Hp x y w h px s Hw Hx Hy Hmax ltac:(lia) Hu) as H. by rewrite take_ge in H by lia.
Qed.

(** ** Properties *)

Section Properties.
Context {W : Type} {CO : ClcdOps W} {TO : SystimerOps W} {TL : SystimerLaws (T := W)} {CL : ClcdLaws W}.
Context {DO : DmaOps W} {DL : DmaLibrary W} {RO : RtosOps W} {EL : ExampleLayout} {EV : ExampleView W} {DW : DmaLaws W}.

(** C31: Whatever the order in which the two tasks make their steps, they come
    to an end; when neither can go on, both have ended, and the display has got
    its initialisation and then, once after each column of drawings, the
    picture as it was with that column and the ones before it.  So no drawing
    is shown half done, no request is lost and there is no deadlock. *)
Theorem tasks_show_columns polls irqs n rounds (s0 : timer_state W) :
  MS_TO_TICK 1 < Z.of_nat polls -> 2 * (LCD_WIDTH * LCD_HEIGHT) < Z.of_nat irqs -> (5 <= rounds)%nat ->
  commands_fit -> buffers_apart -> bounded polls s0 -> ch_todo (dma (systimer s0)) = None ->
  queue (rtos (systimer s0)) = [] -> draw_note (rtos (systimer s0)) = false ->
  let start := (drawTask (5 + n), clcdTask polls irqs rounds, s0) in
  sn turn start /\
  forall d c s, rtc turn start (d, c, s) -> nf turn (d, c, s) ->
    d = mret tt /\ c = mret tt /\ exists init, init_events init /\
      bus s = bus s0 ++ init ++ concat (shown_events <$> pictures (byte_at (systimer s0)) example_columns).
Proof.
  intros Hp Hi Hr Hfit Hapart Hb Hd Hq Hn start. split; [apply turn_ends|]. intros d c s Hrun Hnf.
  assert (protocol polls irqs s0 (pictures (byte_at (systimer s0)) example_columns) start) as H0.
  { eapply (goes_on polls irqs Hp Hi Hfit Hapart s0 _ example_columns _ _ _ [] (byte_at (systimer s0)));
      [apply draw_task_follows|apply columns_in_place|by apply ready_init|by split|done]. }
  eapply protocol_run in H0; [|done..|exact Hrun].
  apply protocol_progress in H0 as [H|[y Hy]]; [exact H|destruct Hnf; by exists y|done..].
Qed.

(** C32: The DMA controller shows a picture exactly as the display's library
    shows the bitmap in memory: it sends the same commands and data, in spite of
    the order of the bytes, the split into four commands and the interrupts
    between the blocks; the call returns, with the controller deselected. *)
Theorem dma_display_equivalent polls irqs cmds limit first w0 w1 (s : timer_state W) :
  MS_TO_TICK 1 < Z.of_nat polls -> 2 * (LCD_WIDTH * LCD_HEIGHT) < Z.of_nat irqs -> working polls s ->
  generate_dma_cmdlinks_for_display shared_clcd_buffer char_dat_address cmds limit w0 = (Some first, w1) ->
  (forall a cmd, command_between cmds limit w1 a cmd -> command_between cmds limit (systimer s) a cmd) ->
  let bitmap := picture (byte_at (systimer s)) shared_clcd_buffer (LCD_WIDTH * LCD_HEIGHT) in
  exists s1 s2 es, run (display_image_with_dma polls irqs first) s = (Ok tt, s1) /\
    clcd_mps3_display_image polls 0 0 LCD_WIDTH LCD_HEIGHT bitmap s = (Ok CLCD_MPS3_LIB_ERR_NONE, s2) /\
    bus s1 = bus s ++ es /\ bus s2 = bus s ++ es /\ pin s1 0 = true /\ working polls s1.
Proof.
  intros Hp Hi Hw Hg HC bitmap. apply generated_commands in Hg as [Hf _].
  assert (five_commands shared_clcd_buffer char_dat_address first (fun a cmd => fst <$> command_in (systimer s) a = Some cmd)) as Hf'.
  { eapply five_commands_mono; [|exact Hf]. intros a cmd H. destruct (HC a cmd H) as (e & _ & _ & H3). by rewrite H3. }
  destruct (steps_run _ _ _ _ (shows_display polls Hp irqs first s Hw Hf' Hi)) as ([] & s1 & E1 & d & _ & [HS _ _ _ _]).
  fold bitmap in HS. assert (0 < LCD_WIDTH * LCD_HEIGHT <= 2147483647) as [Hn Hmax] by done.
  assert (length bitmap = Z.to_nat (LCD_WIDTH * LCD_HEIGHT)) as Hlen by apply length_picture.
  assert (Forall is_u16 bitmap) as Hu by (apply picture_u16; intros a; apply dl_byte). clearbody bitmap.
  assert (sends polls (clcd_mps3_display_image polls 0 0 LCD_WIDTH LCD_HEIGHT bitmap) s CLCD_MPS3_LIB_ERR_NONE
    (image_events 0 0 LCD_WIDTH LCD_HEIGHT bitmap) false) as H.
  { apply (sends_whole_image polls Hp 0 0 LCD_WIDTH LCD_HEIGHT bitmap s Hw); [done|done|exact Hmax|exact Hlen|exact Hu]. }
  unfold sends, wp in H. destruct (clcd_mps3_display_image polls 0 0 LCD_WIDTH LCD_HEIGHT bitmap s) as [r s2].
  cbn [fst snd] in H. destruct H as [-> H2]. exists s1, s2, (image_events 0 0 LCD_WIDTH LCD_HEIGHT bitmap).
  split; [exact E1|]. split; [reflexivity|]. split; [exact (se_bus _ _ _ _ _ HS)|].
  split; [exact (se_bus _ _ _ _ _ H2)|]. split; [exact (se_select _ _ _ _ _ HS)|by eapply sent_working].
Qed.
End Properties.

(** ** Instances *)

(** A controller, a display and an operating system as the laws describe them. *)
Record bench : Type := {
  b_panel : panel;
  b_dma : dma_view;
  b_rtos : rtos_view;
  b_bytes : Z -> Z;
  b_commands : Z -> option (list dma_setting * Z)
}.

Definition with_panel (x : panel) (b : bench) : bench :=
  {| b_panel := x; b_dma := b_dma b; b_rtos := b_rtos b; b_bytes := b_bytes b; b_commands := b_commands b |}.
Definition with_dma (x : dma_view) (b : bench) : bench :=
  {| b_panel := b_panel b; b_dma := x; b_rtos := b_rtos b; b_bytes := b_bytes b; b_commands := b_commands b |}.
Definition with_rtos (x : rtos_view) (b : bench) : bench :=
  {| b_panel := b_panel b; b_dma := b_dma b; b_rtos := x; b_bytes := b_bytes b; b_commands := b_commands b |}.

#[export] Instance bench_view : ExampleView bench := {
  dma := b_dma;
  rtos := b_rtos;
  byte_at := fun b a => w8 (b_bytes b a);
  command_in := fun b a => c ← b_commands b a; if a <? c.2 then Some c else None
}.

#[export] Instance bench_layout : ExampleLayout :=
  { char_dat_address := 589824; shared_clcd_buffer := 65536; pattern := 262144; cmd_buffer := 4096 }.

#[export] Instance bench_timer : SystimerOps bench := {
  systimer_armv8_m_init := fun b => with_panel (systimer_armv8_m_init (b_panel b)) b;
  systimer_armv8_m_set_timer_value := fun v b => with_panel (systimer_armv8_m_set_timer_value v (b_panel b)) b;
  systimer_armv8_m_is_interrupt_asserted := fun b =>
    let '(x, p) := systimer_armv8_m_is_interrupt_asserted (b_panel b) in (x, with_panel p b)
}.

#[export] Program Instance bench_timer_laws : SystimerLaws (T := bench) := { ticks := fun b => p_ticks (b_panel b) }.
Next Obligation. done. Qed.
Next Obligation. intros b. cbn. rewrite Z.leb_le, Z.leb_gt. split; [done|lia]. Qed.

#[export] Instance bench_ops : ClcdOps bench := {
  clcd_read := fun r b => let '(x, p) := clcd_read r (b_panel b) in (x, with_panel p b);
  clcd_write := fun r x b => with_panel (clcd_write r x (b_panel b)) b
}.

#[export] Program Instance bench_laws : ClcdLaws bench :=
  { lcd_bus := fun b => p_bus (b_panel b); misc := fun b => p_misc (b_panel b) }.
Solve All Obligations with (intros; by split_and!).

Definition bench_reset : regs := fun k =>
  match k with XTYPE | DONETYPE => Some 1 | _ => Some 0 end.

(** A block of the channel. *)
Definition send_block (l : list Z) (b : bench) : bench :=
  with_dma {| ch_regs := ch_regs (b_dma b); ch_todo := Some (drop 8 l) |}
    (with_panel {| p_bus := p_bus (b_panel b) ++
                     (if Z.testbit (p_misc (b_panel b)) 0 then [] else (fun a => Data (byte_at b a)) <$> take 8 l);
                   p_misc := p_misc (b_panel b); p_raw := p_raw (b_panel b); p_mask := p_mask (b_panel b);
                   p_ticks := p_ticks (b_panel b) |} b).

#[export] Instance bench_dma : DmaOps bench := {
  dma350_cmdlink_generate := fun cfg a limit b =>
    let e := a + 32 in
    if e <=? limit then
      (Some e, {| b_panel := b_panel b; b_dma := b_dma b; b_rtos := b_rtos b; b_bytes := b_bytes b;
                  b_commands := fun a' => if a' =? a then Some (cfg, e) else b_commands b a' |})
    else (None, b);
  dma350_ch_init := with_dma {| ch_regs := bench_reset; ch_todo := None |};
  dma350_ch_set := fun c b => with_dma {| ch_regs := apply_setting c (ch_regs (b_dma b)); ch_todo := ch_todo (b_dma b) |} b;
  dma350_ch_cmd := fun c b =>
    match c with
    | DMA350_CH_CMD_ENABLECMD =>
        match chain 5 bench_reset (fun a => fst <$> command_in b a) (ch_regs (b_dma b)) with
        | Some l => with_dma {| ch_regs := ch_regs (b_dma b); ch_todo := Some (l.*1) |} b
        | None => b
        end
    | DMA350_CH_CMD_DESSWTRIGINREQ_BLOCK => match ch_todo (b_dma b) with Some l => send_block l b | None => b end
    end;
  dma350_ch_is_intr_set := fun i b =>
    match ch_todo (b_dma b), i with
    | Some [], DMA350_CH_INTREN_DONE => true
    | Some (_ :: _), DMA350_CH_INTREN_DESTRIGINWAIT => true
    | _, _ => false
    end;
  dma350_ch_clear_stat_done := fun b => with_dma {| ch_regs := ch_regs (b_dma b); ch_todo := None |} b
}.

(** Where the bytes of a drawing come from; the transform is ignored. *)
Definition bench_drawn (c : dma350_draw_config) (mem : Z -> Z) (a : Z) : Z :=
  let x := (a - draw_des c) mod (2 * des_line_width c) in
  let y := (a - draw_des c) / (2 * des_line_width c) in
  let b := draw_src c + (y mod src_height c) * (2 * src_line_width c) + x mod (2 * src_width c) in
  if (0 <=? y) && (y <? des_height c) && (x <? 2 * des_width c) && (draw_src c <=? b) && (b <? draw_source_end c)
  then w8 (mem b) else w8 (mem a).

#[export] Instance bench_library : DmaLibrary bench := {
  DMA350_CH_TRANSIZE_16BITS := 1;
  DMA350_LIB_EXEC_BLOCKING := 1;
  DMA350_LIB_TRANSFORM_NONE := 0;
  DMA350_LIB_TRANSFORM_MIRROR_TRBL := 7;
  request_dma350_priv_config := fun call _ b =>
    match call with
    | DMA_CALL_DRAW_FROM_CANVAS c =>
        ((0, None), {| b_panel := b_panel b; b_dma := b_dma b; b_rtos := b_rtos b;
                       b_bytes := bench_drawn c (byte_at b); b_commands := b_commands b |})
    | _ => ((0, None), b)
    end
}.

#[export] Instance bench_rtos : RtosOps bench := {
  xQueueSendToBack := fun x b =>
    if (length (queue (b_rtos b)) <? 2)%nat then Some (with_rtos (with_queue (queue (b_rtos b) ++ [x]) (b_rtos b)) b) else None;
  xQueueReceive := fun b =>
    match queue (b_rtos b) with [] => None | x :: q => Some (x, with_rtos (with_queue q (b_rtos b)) b) end;
  xTaskNotifyGive := fun k b => with_rtos (with_note k true (b_rtos b)) b;
  ulTaskNotifyTake := fun k b =>
    if note_of k (b_rtos b) then Some (with_rtos (with_note k false (b_rtos b)) b) else None;
  NVIC_SetVector_EnableIRQ := fun b => with_rtos (with_irq true (b_rtos b)) b;
  NVIC_DisableIRQ := fun b => with_rtos (with_irq false (b_rtos b)) b;
  irq_pending := fun b => irq_on (b_rtos b) && match ch_todo (b_dma b) with Some _ => true | None => false end
}.

Lemma w8_w8 x : w8 (w8 x) = w8 x.
Proof. apply w8_small, w8_range. Qed.

Lemma bench_generates cfg a limit w :
  match dma350_cmdlink_generate cfg a limit w with
  | (Some e, w') => a < e <= limit /\ command_in w' a = Some (cfg, e) /\
      (forall a' c' e', command_in w a' = Some (c', e') -> e' <= a \/ e <= a' -> command_in w' a' = Some (c', e')) /\
      (forall b, b < a \/ limit <= b -> byte_at w' b = byte_at w b) /\
      dma w' = dma w /\ rtos w' = rtos w /\ same_display w w'
  | (None, w') => untouched w w' /\ same_display w w'
  end.
Proof.
  cbn [dma350_cmdlink_generate bench_dma]. destruct (Z.leb_spec (a + 32) limit); [|by repeat split].
  split; [lia|]. split; [cbn; rewrite Z.eqb_refl; cbn; by rewrite (proj2 (Z.ltb_lt a (a + 32)) ltac:(lia))|].
  split; [|by repeat split]. cbn. intros a' c' e' H1 H2. destruct (Z.eqb_spec a' a) as [->|]; [|exact H1].
  destruct (b_commands w a) as [[c x]|]; cbn in H1; [|done]. destruct (Z.ltb_spec a x); [|done]. injection H1 as -> ->. lia.
Qed.

Lemma bench_starts w l : ch_todo (dma w) = None ->
  chain 5 bench_reset (fun a => fst <$> command_in w a) (ch_regs (dma w)) = Some ((fun a => (a, char_dat_address)) <$> l) ->
  let w' := dma350_ch_cmd DMA350_CH_CMD_ENABLECMD w in ch_todo (dma w') = Some l /\ beside_dma w w'.
Proof.
  intros _ H w'. unfold w'. cbn [dma350_ch_cmd bench_dma]. change (b_dma w) with (dma w). rewrite H. split; [|by repeat split].
  cbn. f_equal. rewrite <- list_fmap_compose. apply list_fmap_id.
Qed.

Lemma bench_draws c channel w : ch_todo (dma w) = None ->
  let w' := (request_dma350_priv_config (DMA_CALL_DRAW_FROM_CANVAS c) channel w).2 in
  (forall a, byte_at w' a = bench_drawn c (byte_at w) a) /\
  (forall a c' e', command_in w a = Some (c', e') -> e' <= draw_des c \/ draw_end c <= a -> command_in w' a = Some (c', e')) /\
  ch_todo (dma w') = None /\ rtos w' = rtos w /\ same_display w w'.
Proof.
  intros H w'. split; [|split; [by intros|by repeat split]]. intros a. cbn. unfold bench_drawn. destruct (_ && _); apply w8_w8.
Qed.

Lemma bench_draws_from c mem mem' a : (forall b, draw_src c <= b < draw_source_end c -> mem b = mem' b) -> mem a = mem' a ->
  bench_drawn c mem a = bench_drawn c mem' a.
Proof.
  intros H Ha. unfold bench_drawn. rewrite Ha. set (b := draw_src c + _ + _).
  destruct (draw_src c <=? b) eqn:E1; [|by rewrite !andb_false_r]. destruct (b <? draw_source_end c) eqn:E2; [|by rewrite !andb_false_r].
  rewrite (H b) by lia. done.
Qed.

#[export] Instance bench_dma_laws : DmaLaws bench.
Proof.
  refine {| reset_regs := bench_reset; drawn := bench_drawn; dl_generate := bench_generates; dl_enable := bench_starts;
    dl_draw := bench_draws; dl_drawn := bench_draws_from |}; try (intros; by repeat split).
  - intros w a. apply w8_range.
  - intros c w H. cbn in *. by rewrite H.
  - intros w l H Hl. exists 8%nat. cbn in H |- *. rewrite H. by split_and!; [lia|..].
  - intros k w. cbn. by destruct (note_of k (b_rtos w)).
  - intros x w. cbn [xQueueSendToBack bench_rtos]. destruct (Nat.ltb_spec (length (queue (b_rtos w))) 2); [by repeat split|done].
  - intros w. cbn. destruct (queue (b_rtos w)) as [|x q]; [done|]. by exists q.
Defined.

Definition bench_state : timer_state bench := {|
  delay_in_tick := 0; timeout_us := {| dev_ptr := false; is_initialized := false |};
  timeout_ms := {| dev_ptr := false; is_initialized := false |};
  systimer := {|
    b_panel := systimer panel_state;
    b_dma := {| ch_regs := bench_reset; ch_todo := None |};
    b_rtos := {| queue := []; clcd_note := false; draw_note := false; irq_on := false |};
    b_bytes := fun a => a;
    b_commands := fun _ => None
  |}
|}.

Lemma bench_bounded : bounded (Pos.to_nat 32001) bench_state.
Proof. unfold bounded. cbn [bench_state systimer ticks delay_in_tick p_ticks b_panel bench_timer_laws panel_state]. lia. Qed.

Lemma bench_fits : commands_fit (W := bench).
Proof. intros w. by eexists _, _. Qed.

Lemma bench_apart : buffers_apart.
Proof. split; cbn; unfold CMD_BUFFER_LEN, BUFFER_WIDTH, BUFFER_HEIGHT, PAT_W, PAT_H; lia. Qed.

(** Both tasks from power-up. *)
Lemma tasks_show_columns_witness :
  let start := (drawTask (W := bench) (5 + 1), clcdTask (Pos.to_nat 32001) (Pos.to_nat 153601) 5, bench_state) in
  sn turn start /\ forall d c s, rtc turn start (d, c, s) -> nf turn (d, c, s) ->
    d = mret tt /\ c = mret tt /\ exists init, init_events init /\
      bus s = bus bench_state ++ init ++ concat (shown_events <$> pictures (byte_at (systimer bench_state)) example_columns).
Proof.
  apply (tasks_show_columns (Pos.to_nat 32001) (Pos.to_nat 153601) 1 5 bench_state).
  - change (MS_TO_TICK 1) with 32000. lia.
  - change (2 * (LCD_WIDTH * LCD_HEIGHT)) with 153600. lia.
  - lia.
  - apply bench_fits.
  - apply bench_apart.
  - apply bench_bounded.
  - reflexivity.
  - reflexivity.
  - reflexivity.
Defined.

Lemma bench_working : working (Pos.to_nat 32001) bench_state.
Proof. split; [apply bench_bounded|done]. Qed.

(** The commands at the start of their buffer; the first one is the last that
    was generated. *)
Definition bench_commands : bench :=
  (generate_dma_cmdlinks_for_display shared_clcd_buffer char_dat_address cmd_buffer (cmd_buffer + 160) (systimer bench_state)).2.

Lemma dma_display_equivalent_witness :
  let s := set_systimer bench_commands bench_state in
  let bitmap := picture (byte_at (systimer s)) shared_clcd_buffer (LCD_WIDTH * LCD_HEIGHT) in
  exists s1 s2 es, run (display_image_with_dma (Pos.to_nat 32001) (Pos.to_nat 153601) (cmd_buffer + 128)) s = (Ok tt, s1) /\
    clcd_mps3_display_image (Pos.to_nat 32001) 0 0 LCD_WIDTH LCD_HEIGHT bitmap s = (Ok CLCD_MPS3_LIB_ERR_NONE, s2) /\
    bus s1 = bus s ++ es /\ bus s2 = bus s ++ es /\ pin s1 0 = true /\ working (Pos.to_nat 32001) s1.
Proof.
  apply (dma_display_equivalent (Pos.to_nat 32001) (Pos.to_nat 153601) cmd_buffer (cmd_buffer + 160) (cmd_buffer + 128)
    (systimer bench_state) bench_commands).
  - change (MS_TO_TICK 1) with 32000. lia.
  - change (2 * (LCD_WIDTH * LCD_HEIGHT)) with 153600. lia.
  - split; [exact bench_bounded|reflexivity].
  - reflexivity.
  - intros a cmd H. exact H.
Defined.
