(* ===== verification/UartEcho.v ===== *)
(** * Serial lines and the DMA controller
      (examples/corstone310_fvp_dma/triggering_example/main_ns.c)

    Ten characters are copied from one serial line to memory, reversed, and
    copied to another line, by a channel that the lines trigger.  The drivers
    of the channel and of the lines are not part of the program: [EchoOps],
    with the settings of DmaTasks.v; [EchoLaws] says what a channel with given
    registers does until its interrupt comes. *)
From Stdlib Require Import ZArith Lia.
From stdpp Require Import base list numbers options.
From S2P Require Import Prelude.
From S2P Require Import FlashFsDefs.
From S2P Require Import Interrupts.
From S2P Require Import DmaTasks.
From S2P Require Import DmaSpec.

#[local] Set Default Proof Using "Type*".

(** ** The program *)

(** The drivers' functions that return an error come with their result.
    [WFI] sleeps until an interrupt comes. *)
Class EchoOps (W : Type) := {
  UART_CMSDK_ERR_NONE : Z;
  DMA350_CH_ERR_NONE : Z;
  uart1_init : W -> Z * W;
  uart1_set_baudrate : W -> Z * W;
  uart0_irq_rx_enable : W -> Z * W;
  uart1_irq_tx_enable : W -> Z * W;
  ch_init : W -> Z * W;
  ch_set : dma_setting -> W -> W;
  ch_enable : W -> W;                 (* DMA350_CH_CMD_ENABLECMD *)
  ch_trigger : W -> W;                (* DMA350_CH_CMD_DESSWTRIGINREQ *)
  ch_is_done : W -> bool;
  ch_clear_done : W -> W;
  ch_irq_enable : W -> W;             (* NVIC_SetVector, NVIC_EnableIRQ *)
  WFI : W -> W;
  load_byte : Z -> W -> Z;
  store_byte : Z -> Z -> W -> W
}.

(** The data registers of the lines, and the arrays. *)
Class EchoLayout := { uart0_data : Z; uart1_data : Z; in_array : Z; out_array : Z }.

Definition BUFFERING_LEN : Z := 10.

Section Program.
Context {W : Type} {EO : EchoOps W} {EL : EchoLayout}.
Abbreviation M := (ST W).

Definition does (f : W -> W) : M unit := modify f.

Definition dma_ch_irq_handler : M unit :=
  done ← gets ch_is_done;
  if (done : bool) then does ch_clear_done else mret tt.

Definition init_dma_trans_security_privilege : M unit :=
  does (ch_set set_src_trans_nonsecure);;
  does (ch_set set_des_trans_nonsecure);;
  does (ch_set set_src_trans_privileged);;
  does (ch_set set_des_trans_privileged).

Definition init_dma_trans_sizes : M unit :=
  does (ch_set (set_xsize32 BUFFERING_LEN BUFFERING_LEN));;
  does (ch_set set_transize_8bits);;
  does (ch_set set_xtype_continue);;
  does (ch_set set_ytype_disable).

Definition init_dma_interrupt : M unit :=
  does (ch_set set_donetype_end_of_cmd);;
  does (ch_set (enable_intr DMA350_CH_INTREN_DONE));;
  does ch_irq_enable.

Definition init_dma_for_uart_rx : M unit :=
  init_dma_trans_security_privilege;;
  does (ch_set (set_srcaddr32 uart0_data));;
  does (ch_set (set_desaddr32 in_array));;
  init_dma_trans_sizes;;
  does (ch_set (set_xaddrinc 0 1));;
  does (ch_set enable_srctrigin);;
  does (ch_set (set_srctriginsel 0));;
  does (ch_set set_srctriginmode_periph_flow_ctrl);;
  does (ch_set set_srctrigintype_hw);;
  does (ch_set (set_srctriginblksize 0));;
  init_dma_interrupt;;
  does ch_enable.

Definition init_dma_for_uart_tx : M unit :=
  init_dma_trans_security_privilege;;
  does (ch_set (set_srcaddr32 out_array));;
  does (ch_set (set_desaddr32 uart1_data));;
  init_dma_trans_sizes;;
  does (ch_set (set_xaddrinc 1 0));;
  does (ch_set enable_destrigin);;
  does (ch_set (set_destriginsel 3));;
  does (ch_set set_destriginmode_periph_flow_ctrl);;
  does (ch_set set_destrigintype_hw);;
  does (ch_set (set_destriginblksize 0));;
  init_dma_interrupt;;
  does ch_enable;;
  does ch_trigger.

Definition process_data : M unit :=
  for_acc (Z.to_nat BUFFERING_LEN) 0 tt (fun i _ =>
    x ← gets (load_byte (in_array + i));
    does (store_byte (out_array + sub32 (sub32 BUFFERING_LEN 1) i) x)).

Definition init_uart : M Z :=
  err ← on_call uart1_init;
  if negb (err =? UART_CMSDK_ERR_NONE) then mret err
  else
    err ← on_call uart1_set_baudrate;
    if negb (err =? UART_CMSDK_ERR_NONE) then mret err
    else
      on_call uart0_irq_rx_enable;;
      if negb (err =? UART_CMSDK_ERR_NONE) then mret err
      else
        on_call uart1_irq_tx_enable;;
        if negb (err =? UART_CMSDK_ERR_NONE) then mret err else mret err.

(** [__WFI();], and the handler of the interrupt that ends it. *)
Definition sleep : M unit := does WFI;; dma_ch_irq_handler.

(** The body of the loop, and [n] rounds of it; the loop has no end. *)
Definition echo_round : M unit :=
  init_dma_for_uart_rx;;
  sleep;;
  does (ch_set disable_srctrigin);;
  process_data;;
  init_dma_for_uart_tx;;
  sleep;;
  does (ch_set disable_destrigin).

Fixpoint echo_loop (n : nat) : M unit :=
  match n with
  | O => mret tt
  | S n => echo_round;; echo_loop n
  end.

Definition main (n : nat) : M Z :=
  err ← init_uart;
  if negb (err =? UART_CMSDK_ERR_NONE) then mret 1
  else
    ch_err ← on_call ch_init;
    if negb (ch_err =? DMA350_CH_ERR_NONE) then mret 1
    else echo_loop n;; mret 0.
End Program.

(** ** What the channel does *)

(** A copy in one dimension, byte by byte, that ends with an interrupt. *)
Definition copy_1d (r : regs) : option (list (Z * Z)) :=
  n ← r SRCXSIZE; m ← r DESXSIZE; src ← r SRCADDR; des ← r DESADDR; sinc ← r SRCXADDRINC; dinc ← r DESXADDRINC;
  if (n =? m) && known r XTYPE TYPE_CONTINUE && known r YTYPE YTYPE_DISABLE && known r TRANSIZE 0 && known r LINKADDREN 0
     && known r DONETYPE DONETYPE_END_OF_CMD && known r INTREN_DONE 1
  then Some ((fun k => (src + k * sinc, des + k * dinc)) <$> seqZ 0 n) else None.

(** The registers, memory, the characters to come on the first line and those
    sent on the second; the command: whether it is started, and triggered by the
    program; its interrupt: whether it is raised and enabled; the triggers of
    the lines. *)
Record echo_view : Type := {
  ev_regs : regs;
  ev_mem : Z -> Z;
  ev_in : list Z;
  ev_out : list Z;
  ev_started : bool;
  ev_triggered : bool;
  ev_done : bool;
  ev_irq : bool;
  ev_rx : bool;
  ev_tx : bool
}.

Section Channel.
Context {EL : EchoLayout}.

(** Triggers are used exactly where a line is. *)
Definition paced (v : echo_view) : bool :=
  let r := ev_regs v in
  (if known r SRCADDR uart0_data
   then known r USESRCTRIGIN 1 && known r SRCTRIGINSEL 0 && known r SRCTRIGINMODE FLOW_CTRL && known r SRCTRIGINTYPE TRIGINTYPE_HW
        && ev_rx v
   else known r USESRCTRIGIN 0) &&
  (if known r DESADDR uart1_data
   then known r USEDESTRIGIN 1 && known r DESTRIGINSEL 3 && known r DESTRIGINMODE FLOW_CTRL && known r DESTRIGINTYPE TRIGINTYPE_HW
        && ev_tx v && ev_triggered v
   else known r USEDESTRIGIN 0).

(** A byte from an address to another; the lines are at their addresses. *)
Definition copy_byte (p : Z * Z) (m : Z -> Z) (i o : list Z) : option ((Z -> Z) * list Z * list Z) :=
  '(x, i) ← (if p.1 =? uart0_data then match i with [] => None | x :: i => Some (x, i) end else Some (m p.1, i));
  if p.2 =? uart1_data then Some (m, i, o ++ [x]) else Some ((fun a => if a =? p.2 then x else m a), i, o).

Fixpoint copy_bytes (l : list (Z * Z)) (m : Z -> Z) (i o : list Z) : option ((Z -> Z) * list Z * list Z) :=
  match l with
  | [] => Some (m, i, o)
  | p :: l => '(m, i, o) ← copy_byte p m i o; copy_bytes l m i o
  end.
End Channel.

Definition ev_with_regs (r : regs) (v : echo_view) : echo_view :=
  {| ev_regs := r; ev_mem := ev_mem v; ev_in := ev_in v; ev_out := ev_out v; ev_started := ev_started v;
     ev_triggered := ev_triggered v; ev_done := ev_done v; ev_irq := ev_irq v; ev_rx := ev_rx v; ev_tx := ev_tx v |}.
Definition ev_with_mem (m : Z -> Z) (v : echo_view) : echo_view :=
  {| ev_regs := ev_regs v; ev_mem := m; ev_in := ev_in v; ev_out := ev_out v; ev_started := ev_started v;
     ev_triggered := ev_triggered v; ev_done := ev_done v; ev_irq := ev_irq v; ev_rx := ev_rx v; ev_tx := ev_tx v |}.
Definition ev_command (started triggered done : bool) (v : echo_view) : echo_view :=
  {| ev_regs := ev_regs v; ev_mem := ev_mem v; ev_in := ev_in v; ev_out := ev_out v; ev_started := started;
     ev_triggered := triggered; ev_done := done; ev_irq := ev_irq v; ev_rx := ev_rx v; ev_tx := ev_tx v |}.
Definition ev_lines (rx tx : bool) (v : echo_view) : echo_view :=
  {| ev_regs := ev_regs v; ev_mem := ev_mem v; ev_in := ev_in v; ev_out := ev_out v; ev_started := ev_started v;
     ev_triggered := ev_triggered v; ev_done := ev_done v; ev_irq := ev_irq v; ev_rx := rx; ev_tx := tx |}.
Definition ev_with_irq (v : echo_view) : echo_view :=
  {| ev_regs := ev_regs v; ev_mem := ev_mem v; ev_in := ev_in v; ev_out := ev_out v; ev_started := ev_started v;
     ev_triggered := ev_triggered v; ev_done := ev_done v; ev_irq := true; ev_rx := ev_rx v; ev_tx := ev_tx v |}.

(** The command is done, with these bytes moved. *)
Definition ev_finished (m : Z -> Z) (i o : list Z) (v : echo_view) : echo_view :=
  {| ev_regs := after (ev_regs v); ev_mem := m; ev_in := i; ev_out := o; ev_started := false; ev_triggered := false;
     ev_done := true; ev_irq := ev_irq v; ev_rx := ev_rx v; ev_tx := ev_tx v |}.

(** No triggers and no links. *)
Definition plain (r : regs) : Prop := r LINKADDREN = Some 0 /\ r USESRCTRIGIN = Some 0 /\ r USEDESTRIGIN = Some 0.

(** What is relied on of the drivers and the channel: a function that sets a
    register does so while no command runs; enabling the interrupt of a line
    makes it send its trigger, if it succeeds; a command that copies in one
    dimension, paced by the triggers of the lines, is done when the program
    wakes up, with the characters that came by then and none lost. *)
Class EchoLaws (W : Type) {EO : EchoOps W} {EL : EchoLayout} := {
  echo : W -> echo_view;
  el_uart1_init : forall w, echo (uart1_init w).2 = echo w;
  el_uart1_baud : forall w, echo (uart1_set_baudrate w).2 = echo w;
  el_rx_enable : forall w, echo (uart0_irq_rx_enable w).2 =
    ev_lines ((uart0_irq_rx_enable w).1 =? UART_CMSDK_ERR_NONE) (ev_tx (echo w)) (echo w);
  el_tx_enable : forall w, echo (uart1_irq_tx_enable w).2 =
    ev_lines (ev_rx (echo w)) ((uart1_irq_tx_enable w).1 =? UART_CMSDK_ERR_NONE) (echo w);
  el_init : forall w, (ch_init w).1 = DMA350_CH_ERR_NONE -> exists r, plain r /\
    echo (ch_init w).2 = ev_command false false false (ev_with_regs r (echo w));
  el_set : forall c w, ev_started (echo w) = false -> echo (ch_set c w) = ev_with_regs (apply_setting c (ev_regs (echo w))) (echo w);
  el_enable : forall w, ev_started (echo w) = false -> echo (ch_enable w) = ev_command true false (ev_done (echo w)) (echo w);
  el_trigger : forall w, ev_started (echo w) = true -> echo (ch_trigger w) = ev_command true true (ev_done (echo w)) (echo w);
  el_is_done : forall w, ch_is_done w = ev_done (echo w);
  el_clear : forall w, echo (ch_clear_done w) = ev_command (ev_started (echo w)) (ev_triggered (echo w)) false (echo w);
  el_irq : forall w, echo (ch_irq_enable w) = ev_with_irq (echo w);
  el_load : forall a w, load_byte a w = ev_mem (echo w) a;
  el_store : forall a x w, echo (store_byte a x w) = ev_with_mem (fun b => if b =? a then x else ev_mem (echo w) b) (echo w);
  el_sleep : forall w l m i o, ev_started (echo w) = true -> ev_done (echo w) = false -> ev_irq (echo w) = true ->
    copy_1d (ev_regs (echo w)) = Some l -> paced (echo w) = true ->
    copy_bytes l (ev_mem (echo w)) (ev_in (echo w)) (ev_out (echo w)) = Some (m, i, o) ->
    echo (WFI w) = ev_finished m i o (echo w)
}.

(** ** Copies *)

(** Memory after writing bytes from an address on. *)
Fixpoint put (b : Z) (xs : list Z) (m : Z -> Z) : Z -> Z :=
  match xs with [] => m | x :: xs => put (b + 1) xs (fun a => if a =? b then x else m a) end.

Lemma put_before b xs m a : a < b -> put b xs m a = m a.
Proof.
  revert b m. induction xs as [|x xs IH]; intros b m Ha; [done|]. cbn [put]. rewrite IH by lia.
  destruct (Z.eqb_spec a b); [lia|done].
Qed.

Lemma put_lookup b xs m (k : nat) x : xs !! k = Some x -> put b xs m (b + Z.of_nat k) = x.
Proof.
  revert b m k. induction xs as [|y xs IH]; intros b m k Hk; [done|]. cbn [put]. destruct k as [|k].
  - injection Hk as ->. rewrite put_before by lia. by rewrite Z.add_0_r, Z.eqb_refl.
  - rewrite <- (IH (b + 1) (fun a => if a =? b then y else m a) k Hk). f_equal. lia.
Qed.

Section Copies.
Context {EL : EchoLayout}.

(** Where the arrays and the registers of the lines are. *)
Record echo_apart : Prop := {
  ea_arrays : in_array + BUFFERING_LEN <= out_array \/ out_array + BUFFERING_LEN <= in_array;
  ea_in : forall k, 0 <= k < BUFFERING_LEN -> in_array + k <> uart1_data /\ in_array + k <> uart0_data;
  ea_out : forall k, 0 <= k < BUFFERING_LEN -> out_array + k <> uart0_data /\ out_array + k <> uart1_data
}.

Lemma copy_bytes_cons p l m i o m' i' o' : copy_byte p m i o = Some (m', i', o') ->
  copy_bytes (p :: l) m i o = copy_bytes l m' i' o'.
Proof. intros H. cbn [copy_bytes]. by rewrite H. Qed.

(** The next character goes to memory; a byte of memory goes to the line. *)
Lemma copy_byte_in a m x i o : a <> uart1_data ->
  copy_byte (uart0_data, a) m (x :: i) o = Some (fun b => if b =? a then x else m b, i, o).
Proof. intros Ha. unfold copy_byte. cbn. rewrite Z.eqb_refl. cbn. by rewrite (proj2 (Z.eqb_neq _ _) Ha). Qed.
Lemma copy_byte_out a m i o : a <> uart0_data -> copy_byte (a, uart1_data) m i o = Some (m, i, o ++ [m a]).
Proof. intros Ha. unfold copy_byte. cbn. rewrite (proj2 (Z.eqb_neq _ _) Ha). cbn. by rewrite Z.eqb_refl. Qed.

Lemma copy_in xs : forall b k m rest o, (forall j, k <= j < k + Z.of_nat (length xs) -> b + j <> uart1_data) ->
  copy_bytes ((fun k => (uart0_data + k * 0, b + k * 1)) <$> seqZ k (Z.of_nat (length xs))) m (xs ++ rest) o =
  Some (put (b + k) xs m, rest, o).
Proof.
  induction xs as [|x xs IH]; intros b k m rest o Hb; [done|]. rewrite seqZ_cons by (cbn; lia). rewrite fmap_cons.
  rewrite Z.mul_0_r, Z.add_0_r, Z.mul_1_r. cbn [app].
  rewrite (copy_bytes_cons _ _ _ _ _ _ _ _ (copy_byte_in (b + k) m x (xs ++ rest) o (Hb k ltac:(cbn; lia)))).
  replace (Z.pred (Z.of_nat (length (x :: xs)))) with (Z.of_nat (length xs)) by (cbn; lia).
  rewrite IH by (intros j Hj; apply Hb; cbn; lia). cbn [put]. by replace (b + Z.succ k) with (b + k + 1) by lia.
Qed.

Lemma copy_out n : forall b k m i o, (forall j, k <= j < k + Z.of_nat n -> b + j <> uart0_data) ->
  copy_bytes ((fun k => (b + k * 1, uart1_data + k * 0)) <$> seqZ k (Z.of_nat n)) m i o =
  Some (m, i, o ++ ((fun j => m (b + j)) <$> seqZ k (Z.of_nat n))).
Proof.
  induction n as [|n IH]; intros b k m i o Hb; [cbn; by rewrite app_nil_r|].
  rewrite seqZ_cons by lia. rewrite !fmap_cons. rewrite Z.mul_0_r, Z.add_0_r, Z.mul_1_r.
  rewrite (copy_bytes_cons _ _ _ _ _ _ _ _ (copy_byte_out (b + k) m i o (Hb k ltac:(lia)))).
  replace (Z.pred (Z.of_nat (S n))) with (Z.of_nat n) by lia.
  rewrite IH by (intros j Hj; apply Hb; lia). by rewrite <- app_assoc.
Qed.
End Copies.

(** ** A round *)

Lemma known_true (r : regs) k v : r k = Some v -> known r k v = true.
Proof. intros H. by apply bool_decide_eq_true_2. Qed.
Lemma known_false (r : regs) k u v : r k = Some u -> u <> v -> known r k v = false.
Proof. intros H Hv. apply bool_decide_eq_false_2. rewrite H. congruence. Qed.

(** The settings that every copy of this program has. *)
Definition is_copy (r : regs) (src des sinc dinc : Z) : Prop :=
  r SRCXSIZE = Some BUFFERING_LEN /\ r DESXSIZE = Some BUFFERING_LEN /\ r SRCADDR = Some src /\ r DESADDR = Some des /\
  r SRCXADDRINC = Some sinc /\ r DESXADDRINC = Some dinc /\ r XTYPE = Some TYPE_CONTINUE /\ r YTYPE = Some YTYPE_DISABLE /\
  r TRANSIZE = Some 0 /\ r LINKADDREN = Some 0 /\ r DONETYPE = Some DONETYPE_END_OF_CMD /\ r INTREN_DONE = Some 1.

Lemma copy_1d_of r src des sinc dinc : is_copy r src des sinc dinc ->
  copy_1d r = Some ((fun k => (src + k * sinc, des + k * dinc)) <$> seqZ 0 BUFFERING_LEN).
Proof.
  intros (H1 & H2 & H3 & H4 & H5 & H6 & H7 & H8 & H9 & H10 & H11 & H12). unfold copy_1d.
  rewrite H1, H2, H3, H4, H5, H6, !known_true by assumption. reflexivity.
Qed.

(** A list of settings. *)
Definition applied (l : list dma_setting) (r : regs) : regs := foldl (fun r c => apply_setting c r) r l.

(** The settings of both directions. *)
Section Settings.
Context {EL : EchoLayout}.

Definition common_settings (src des : Z) : list dma_setting :=
  [set_src_trans_nonsecure; set_des_trans_nonsecure; set_src_trans_privileged; set_des_trans_privileged;
   set_srcaddr32 src; set_desaddr32 des;
   set_xsize32 BUFFERING_LEN BUFFERING_LEN; set_transize_8bits; set_xtype_continue; set_ytype_disable].
Definition rx_settings : list dma_setting :=
  common_settings uart0_data in_array ++
  [set_xaddrinc 0 1; enable_srctrigin; set_srctriginsel 0; set_srctriginmode_periph_flow_ctrl; set_srctrigintype_hw;
   set_srctriginblksize 0; set_donetype_end_of_cmd; enable_intr DMA350_CH_INTREN_DONE].
Definition tx_settings : list dma_setting :=
  common_settings out_array uart1_data ++
  [set_xaddrinc 1 0; enable_destrigin; set_destriginsel 3; set_destriginmode_periph_flow_ctrl; set_destrigintype_hw;
   set_destriginblksize 0; set_donetype_end_of_cmd; enable_intr DMA350_CH_INTREN_DONE].

Lemma rx_copy r : plain r -> is_copy (applied rx_settings r) uart0_data in_array 0 1.
Proof. intros (H & _ & _). repeat split. exact H. Qed.
Lemma tx_copy r : plain r -> is_copy (applied tx_settings r) out_array uart1_data 1 0.
Proof. intros (H & _ & _). repeat split. exact H. Qed.

Lemma rx_paced v r : plain r -> in_array <> uart1_data -> ev_regs v = applied rx_settings r -> ev_rx v = true -> paced v = true.
Proof.
  intros (_ & _ & Hd) Ha E Hr. unfold paced. rewrite E, Hr.
  rewrite (known_false _ DESADDR in_array uart1_data) by (reflexivity || exact Ha).
  rewrite !known_true by (reflexivity || exact Hd). reflexivity.
Qed.
Lemma tx_paced v r : plain r -> out_array <> uart0_data -> ev_regs v = applied tx_settings r -> ev_tx v = true ->
  ev_triggered v = true -> paced v = true.
Proof.
  intros (_ & Hs & _) Ha E Ht Htr. unfold paced. rewrite E, Ht, Htr.
  rewrite (known_false _ SRCADDR out_array uart0_data) by (reflexivity || exact Ha).
  rewrite !known_true by (reflexivity || exact Hs). reflexivity.
Qed.

(** After a copy and without its trigger the channel is as before. *)
Lemma rx_plain r : plain r -> plain (apply_setting disable_srctrigin (after (applied rx_settings r))).
Proof.
  intros (H & _ & Hd). unfold after. destruct (known _ DESXADDRINC 0); repeat split; [exact H|exact Hd|exact H|exact Hd].
Qed.
Lemma tx_plain r : plain r -> plain (apply_setting disable_destrigin (after (applied tx_settings r))).
Proof.
  intros (H & Hs & _). unfold after. destruct (known _ DESXADDRINC 0); repeat split; [exact H|exact Hs|exact H|exact Hs].
Qed.
End Settings.

Section Round.
Context {W : Type} {EO : EchoOps W} {EL : EchoLayout} {LW : EchoLaws W}.
Implicit Types (w : W) (v : echo_view).

Lemma wp_does {A} (f : W -> W) (k : unit -> ST W A) w Q : wp (k tt) (f w) Q -> wp (does f ≫= k) w Q.
Proof. intros H. apply wp_bind, wp_modify, H. Qed.

Fixpoint sets (l : list dma_setting) : ST W unit :=
  match l with [] => mret tt | c :: l => does (ch_set c);; sets l end.

Lemma wp_sets l w Q : ev_started (echo w) = false ->
  (forall w', echo w' = ev_with_regs (applied l (ev_regs (echo w))) (echo w) -> Q (Ok tt) w') -> wp (sets l) w Q.
Proof.
  revert w. induction l as [|c l IH]; intros w Hs HQ; cbn [sets].
  - apply wp_ret, HQ. by destruct (echo w).
  - apply wp_does. pose proof (el_set c w Hs) as E. apply IH; [by rewrite E|]. intros w' E'. apply HQ. by rewrite E', E.
Qed.

Lemma rx_eq w : init_dma_for_uart_rx w = (sets rx_settings;; does ch_irq_enable;; does ch_enable) w.
Proof. reflexivity. Qed.
Lemma tx_eq w : init_dma_for_uart_tx w = (sets tx_settings;; does ch_irq_enable;; does ch_enable;; does ch_trigger) w.
Proof. reflexivity. Qed.

(** A command for these registers is started. *)
Definition started (r : regs) (triggered : bool) v : echo_view :=
  ev_command true triggered (ev_done v) (ev_with_irq (ev_with_regs r v)).

Lemma wp_echo_rx w Q : ev_started (echo w) = false ->
  (forall w', echo w' = started (applied rx_settings (ev_regs (echo w))) false (echo w) -> Q (Ok tt) w') ->
  wp init_dma_for_uart_rx w Q.
Proof.
  intros Hs HQ. unfold wp. rewrite rx_eq. apply wp_bind, wp_sets; [exact Hs|]. intros w1 E1. apply wp_does, wp_modify.
  apply HQ. rewrite el_enable, el_irq, E1; [done|]. by rewrite el_irq, E1.
Qed.

Lemma wp_echo_tx w Q : ev_started (echo w) = false ->
  (forall w', echo w' = started (applied tx_settings (ev_regs (echo w))) true (echo w) -> Q (Ok tt) w') ->
  wp init_dma_for_uart_tx w Q.
Proof.
  intros Hs HQ. unfold wp. rewrite tx_eq. apply wp_bind, wp_sets; [exact Hs|]. intros w1 E1.
  apply wp_does, wp_does, wp_modify.
  assert (echo (ch_enable (ch_irq_enable w1)) = started (applied tx_settings (ev_regs (echo w))) false (echo w)) as E2.
  { rewrite el_enable, el_irq, E1; [done|]. by rewrite el_irq, E1. }
  apply HQ. by rewrite el_trigger, E2 by (by rewrite E2).
Qed.

Lemma wp_echo_sleep w l m i o Q : ev_started (echo w) = true -> ev_done (echo w) = false -> ev_irq (echo w) = true ->
  copy_1d (ev_regs (echo w)) = Some l -> paced (echo w) = true ->
  copy_bytes l (ev_mem (echo w)) (ev_in (echo w)) (ev_out (echo w)) = Some (m, i, o) ->
  (forall w', echo w' = ev_command false false false (ev_finished m i o (echo w)) -> Q (Ok tt) w') -> wp sleep w Q.
Proof.
  intros H1 H2 H3 H4 H5 H6 HQ. unfold sleep. apply wp_does. pose proof (el_sleep w l m i o H1 H2 H3 H4 H5 H6) as E.
  unfold dma_ch_irq_handler. apply wp_bind, wp_gets. rewrite el_is_done, E. cbn. apply wp_modify, HQ. by rewrite el_clear, E.
Qed.

Lemma wp_process w Q : echo_apart ->
  (forall w' m, echo w' = ev_with_mem m (echo w) ->
     (forall k, 0 <= k < BUFFERING_LEN -> m (out_array + k) = ev_mem (echo w) (in_array + (BUFFERING_LEN - 1 - k))) -> Q (Ok tt) w') ->
  wp process_data w Q.
Proof.
  intros Hap HQ. unfold process_data. apply (wp_for_acc (fun j _ w1 => exists m, echo w1 = ev_with_mem m (echo w) /\
    (forall k, 0 <= k < j -> m (out_array + (BUFFERING_LEN - 1 - k)) = ev_mem (echo w) (in_array + k)) /\
    (forall k, 0 <= k < BUFFERING_LEN -> m (in_array + k) = ev_mem (echo w) (in_array + k)))).
  - exists (ev_mem (echo w)). split; [by destruct (echo w)|]. split; [lia|done].
  - intros j [] w1 Hj (m & E & Hout & Hin). unfold BUFFERING_LEN in Hj. apply wp_bind, wp_gets, wp_modify.
    rewrite el_load, E. cbn [ev_mem ev_with_mem]. rewrite Hin by (unfold BUFFERING_LEN; lia).
    change (sub32 BUFFERING_LEN 1) with (BUFFERING_LEN - 1). rewrite sub32_small by (unfold BUFFERING_LEN; lia).
    eexists. split; [by rewrite el_store, E|]. destruct Hap as [Ha _ _]. unfold BUFFERING_LEN in *. split.
    + intros k Hk. cbn. destruct (Z.eqb_spec (out_array + (10 - 1 - k)) (out_array + (10 - 1 - j))).
      * f_equal. lia.
      * apply Hout. lia.
    + intros k Hk. cbn. destruct (Z.eqb_spec (in_array + k) (out_array + (10 - 1 - j))); [lia|auto].
  - intros [] w' (m & E & Hout & _). apply (HQ w' m E). intros k Hk.
    rewrite <- Hout by (unfold BUFFERING_LEN in *; lia). f_equal. lia.
Qed.

(** Between two rounds. *)
Definition idle v : Prop :=
  ev_started v = false /\ ev_done v = false /\ plain (ev_regs v) /\ ev_rx v = true /\ ev_tx v = true.

Lemma reversed_bytes (m m' : Z -> Z) a b xs : length xs = Z.to_nat BUFFERING_LEN ->
  (forall k, 0 <= k < BUFFERING_LEN -> m' (b + k) = put a xs m (a + (BUFFERING_LEN - 1 - k))) ->
  (fun j => m' (b + j)) <$> seqZ 0 BUFFERING_LEN = reverse xs.
Proof.
  intros Hl Hm. apply (list_eq_same_length _ _ (length xs)); [apply length_reverse|by rewrite length_fmap, length_seqZ, Hl|].
  intros i x y Hi (k & -> & Hk)%list_lookup_fmap_Some (Hy & _)%reverse_lookup_Some. apply lookup_seqZ in Hk as [-> Hk].
  rewrite Hm by lia. rewrite <- (put_lookup a xs m _ _ Hy). f_equal. rewrite Hl. unfold BUFFERING_LEN in *. lia.
Qed.

(** Ten characters come and are sent in the other order. *)
Lemma wp_echo_round w xs rest Q : echo_apart -> idle (echo w) -> length xs = Z.to_nat BUFFERING_LEN -> ev_in (echo w) = xs ++ rest ->
  (forall w', idle (echo w') -> ev_in (echo w') = rest -> ev_out (echo w') = ev_out (echo w) ++ reverse xs -> Q (Ok tt) w') ->
  wp echo_round w Q.
Proof.
  intros Hap (Hs & Hd & Hp & Hr & Ht) Hl Hin HQ. unfold echo_round.
  apply wp_bind, wp_echo_rx; [exact Hs|]. intros w1 E1. apply wp_bind.
  eapply wp_echo_sleep; rewrite ?E1; [done|exact Hd|done|apply copy_1d_of, rx_copy, Hp| | |].
  { apply (rx_paced _ (ev_regs (echo w))); [exact Hp| |done|exact Hr].
    destruct (ea_in Hap 0) as [H _]; [done|]. by rewrite Z.add_0_r in H. }
  { cbn. rewrite Hin. rewrite <- (copy_in xs in_array 0 (ev_mem (echo w)) rest); [by rewrite Hl|].
    rewrite Hl. intros j Hj. apply (ea_in Hap), Hj. }
  intros w2 E2. apply wp_does. pose proof (el_set disable_srctrigin w2 ltac:(by rewrite E2)) as E3. rewrite E2 in E3.
  apply wp_bind, wp_process; [exact Hap|]. intros w4 m E4 Hm. rewrite E3 in E4, Hm. cbn in Hm.
  apply wp_bind, wp_echo_tx; [by rewrite E4|]. intros w5 E5. rewrite E4 in E5. apply wp_bind.
  eapply wp_echo_sleep; rewrite ?E5; [done..| | | |].
  { apply copy_1d_of, tx_copy, rx_plain, Hp. }
  { eapply tx_paced; [apply rx_plain, Hp| |done|exact Ht|done].
    destruct (ea_out Hap 0) as [H _]; [done|]. by rewrite Z.add_0_r in H. }
  { apply (copy_out (Z.to_nat BUFFERING_LEN)). intros j Hj. apply (ea_out Hap), Hj. }
  intros w6 E6. apply wp_modify. pose proof (el_set disable_destrigin w6 ltac:(by rewrite E6)) as E7. rewrite E6 in E7.
  apply HQ; rewrite E7; [|done|].
  - do 2 (split; [done|]). split; [apply tx_plain, rx_plain, Hp|done].
  - cbn. f_equal. rewrite Z.add_0_r in Hm. apply (reversed_bytes (ev_mem (echo w)) m in_array); assumption.
Qed.

Lemma wp_echo_loop chunks : forall w rest Q, echo_apart -> idle (echo w) ->
  Forall (fun xs => length xs = Z.to_nat BUFFERING_LEN) chunks -> ev_in (echo w) = concat chunks ++ rest ->
  (forall w', ev_in (echo w') = rest -> ev_out (echo w') = ev_out (echo w) ++ concat (reverse <$> chunks) -> Q (Ok tt) w') ->
  wp (echo_loop (length chunks)) w Q.
Proof.
  induction chunks as [|xs chunks IH]; intros w rest Q Hap Hi Hc Hin HQ; cbn [length echo_loop].
  - apply wp_ret, HQ; [done|]. by rewrite app_nil_r.
  - inversion Hc as [|? ? Hl Hc']; subst. cbn [concat] in Hin. rewrite <- app_assoc in Hin.
    apply wp_bind. apply (wp_echo_round w xs (concat chunks ++ rest)); [assumption..|]. intros w1 Hi1 Hin1 Ho1.
    apply (IH w1 rest); [assumption..|]. intros w' Hin' Ho'. apply HQ; [done|].
    rewrite Ho', Ho1, fmap_cons. cbn [concat]. by rewrite app_assoc.
Qed.

(** The initialisation, when all of it succeeds. *)
Definition inits_ok w : Prop :=
  (uart1_init w).1 = UART_CMSDK_ERR_NONE /\
  let w := (uart1_init w).2 in (uart1_set_baudrate w).1 = UART_CMSDK_ERR_NONE /\
  let w := (uart1_set_baudrate w).2 in (uart0_irq_rx_enable w).1 = UART_CMSDK_ERR_NONE /\
  let w := (uart0_irq_rx_enable w).2 in (uart1_irq_tx_enable w).1 = UART_CMSDK_ERR_NONE /\
  let w := (uart1_irq_tx_enable w).2 in (ch_init w).1 = DMA350_CH_ERR_NONE.

Lemma wp_on_call {A B} (f : W -> A * W) (k : A -> ST W B) w Q : wp (k (f w).1) (f w).2 Q -> wp (on_call f ≫= k) w Q.
Proof. intros H. apply wp_bind. unfold wp, on_call. by destruct (f w). Qed.

Lemma wp_bind_ok {A B} (m : ST W A) (k : A -> ST W B) w a w' Q : m w = (Ok a, w') -> wp (k a) w' Q -> wp (m ≫= k) w Q.
Proof. intros H. unfold wp. by rewrite (bind_ok _ _ _ _ _ H). Qed.

(** init_uart does not look at the last two results. *)
Lemma interrupts_unchecked w : (uart1_init w).1 = UART_CMSDK_ERR_NONE ->
  let w1 := (uart1_init w).2 in (uart1_set_baudrate w1).1 = UART_CMSDK_ERR_NONE ->
  let w2 := (uart1_set_baudrate w1).2 in
  init_uart w = (Ok UART_CMSDK_ERR_NONE, (uart1_irq_tx_enable (uart0_irq_rx_enable w2).2).2).
Proof.
  intros H1 w1 H2 w2.
  enough (wp init_uart w (fun r w' => (r, w') = (Ok UART_CMSDK_ERR_NONE, (uart1_irq_tx_enable (uart0_irq_rx_enable w2).2).2)))
    as Hwp by (by rewrite <- Hwp; apply surjective_pairing).
  unfold init_uart. apply wp_on_call. rewrite H1, Z.eqb_refl. apply wp_on_call. fold w1. rewrite H2, Z.eqb_refl.
  apply wp_on_call, wp_on_call. by apply wp_ret.
Qed.
End Round.

(** C33: main echoes.  When the serial lines and the channel are set up, for
    every number of rounds and every input of ten characters per round, main
    sends on the second line exactly these characters, each ten of them in
    reverse order, and leaves the rest of the input. *)
Theorem echo_reversed `{EchoLaws W} (w : W) (chunks : list (list Z)) (rest : list Z)
  (Hap : echo_apart)
  (Hok : inits_ok w)
  (Hlen : Forall (fun xs => length xs = Z.to_nat BUFFERING_LEN) chunks)
  (Hin : ev_in (echo w) = concat chunks ++ rest) :
  exists w', main (length chunks) w = (Ok 0, w') /\ ev_in (echo w') = rest /\
    ev_out (echo w') = ev_out (echo w) ++ concat (reverse <$> chunks).
Proof.
  destruct Hok as (H1 & H2 & H3 & H4 & H5).
  enough (wp (main (length chunks)) w (fun r w' => r = Ok 0 /\ ev_in (echo w') = rest /\
    ev_out (echo w') = ev_out (echo w) ++ concat (reverse <$> chunks))) as Hwp.
  { destruct (main (length chunks) w) as [r w'] eqn:E. destruct (wp_elim _ _ _ _ _ E Hwp) as (-> & Hi & Ho). by exists w'. }
  apply (wp_bind_ok _ _ _ _ _ _ (interrupts_unchecked w H1 H2)). rewrite Z.eqb_refl.
  apply wp_on_call. rewrite H5, Z.eqb_refl. apply wp_bind.
  edestruct el_init as (r & Hp & E); [exact H5|].
  apply (wp_echo_loop chunks _ rest); [exact Hap| |exact Hlen| |].
  - rewrite E, el_tx_enable, el_rx_enable, H4, H3, !Z.eqb_refl. split_and!; done.
  - by rewrite E, el_tx_enable, el_rx_enable, el_uart1_baud, el_uart1_init.
  - intros w' Hi Ho. apply wp_ret. split_and!; [done|exact Hi|].
    by rewrite Ho, E, el_tx_enable, el_rx_enable, el_uart1_baud, el_uart1_init.
Qed.

(** ** A terminal

    The channel and the lines as a program; what is not described does nothing. *)
Definition run_copy {EL : EchoLayout} (v : echo_view) : option echo_view :=
  l ← copy_1d (ev_regs v);
  if ev_started v && negb (ev_done v) && ev_irq v && paced v then
    '(m, i, o) ← copy_bytes l (ev_mem v) (ev_in v) (ev_out v);
    Some (ev_finished m i o v)
  else None.

#[export] Instance terminal_layout : EchoLayout :=
  {| uart0_data := 0x59303000; uart1_data := 0x59304000; in_array := 0x31000000; out_array := 0x3100000A |}.

#[export] Instance terminal : EchoOps echo_view := {|
  UART_CMSDK_ERR_NONE := 0;
  DMA350_CH_ERR_NONE := 0;
  uart1_init v := (0, v);
  uart1_set_baudrate v := (0, v);
  uart0_irq_rx_enable v := (0, ev_lines true (ev_tx v) v);
  uart1_irq_tx_enable v := (0, ev_lines (ev_rx v) true v);
  ch_init v := (0, ev_command false false false (ev_with_regs (fun _ => Some 0) v));
  ch_set c v := ev_with_regs (apply_setting c (ev_regs v)) v;
  ch_enable v := ev_command true false (ev_done v) v;
  ch_trigger v := ev_command true true (ev_done v) v;
  ch_is_done v := ev_done v;
  ch_clear_done v := ev_command (ev_started v) (ev_triggered v) false v;
  ch_irq_enable v := ev_with_irq v;
  WFI v := default v (run_copy v);
  load_byte a v := ev_mem v a;
  store_byte a x v := ev_with_mem (fun b => if b =? a then x else ev_mem v b) v
|}.

#[export] Instance terminal_laws : EchoLaws echo_view.
Proof.
  refine {| echo := fun v => v |}; try reflexivity.
  - intros v _. exists (fun _ => Some 0). done.
  - intros v l m i o H1 H2 H3 H4 H5 H6. cbn. unfold run_copy. rewrite H4. cbn. rewrite H1, H2, H3, H5. cbn. by rewrite H6.
Defined.

Lemma terminal_apart : echo_apart.
Proof. split; cbn; unfold BUFFERING_LEN; lia. Qed.

(** A terminal on which twelve characters are typed. *)
Definition typed : echo_view :=
  {| ev_regs := fun _ => None; ev_mem := fun _ => 0; ev_in := [104; 101; 108; 108; 111; 32; 68; 77; 65; 33; 13; 10]; ev_out := [];
     ev_started := false; ev_triggered := false; ev_done := false; ev_irq := false; ev_rx := false; ev_tx := false |}.

Lemma echo_reversed_witness : exists w', main 1 typed = (Ok 0, w') /\ ev_in w' = [13; 10] /\
  ev_out w' = [33; 65; 77; 68; 32; 111; 108; 108; 101; 104].
Proof.
  exact (echo_reversed typed [[104; 101; 108; 108; 111; 32; 68; 77; 65; 33]] [13; 10] terminal_apart
           (conj eq_refl (conj eq_refl (conj eq_refl (conj eq_refl eq_refl))))
           (List.Forall_cons _ [104; 101; 108; 108; 111; 32; 68; 77; 65; 33] [] eq_refl (List.Forall_nil _)) eq_refl).
Defined.
